(* ===== verification/_CoqProject ===== *)
-Q . S2P
Prelude.v
Ring.v
State.v
Io.v
Spinlock.v
Segments.v
Thread.v
CString.v
Cprintf.v
Kalloc.v
Apic.v
Mp.v
Layout.v
Vm.v
Paging.v
Freevm.v
Kvm.v
Copyuvm.v
Sched.v
Sleeplock.v
Disk.v
Ide.v
Boot.v
Bio.v
Log.v
Tx.v
Fs.v
Freemap.v
Inode.v
Contents.v
Dir.v
Namei.v
Pipe.v
File.v
Proc.v
Fork.v
Grow.v
Syscall.v
Sysfile.v
Kbd.v
Console.v
Trap.v
Main.v
Ulib.v
Grep.v
Sh.v
Shrun.v
Umalloc.v
Mkfs.v
Utils.v
Usertests.v
