(* ===== verification/Prelude.v ===== *)
(** * A verification development for xv6 with lottery scheduling

    The program is xv6 for x86, a small Unix kernel in C, with the lottery
    scheduler, the ticket system calls and the test programs of a course lab.
    This library translates the C files of src/ into Rocq definitions and proves
    what makes each part correct.

    ** The program and its parts

    The boot loader (bootmain.c) reads the kernel from the disk and jumps to it.
    main.c sets up memory (kalloc.c, vm.c), the interrupt controllers (mp.c,
    lapic.c, ioapic.c, picirq.c), the devices (console.c, uart.c, kbd.c, ide.c)
    and the tables, starts the other processors, and enters the scheduler
    (proc.c).  User code enters the kernel through trap.c, which calls the
    drivers' interrupt handlers or syscall.c; that fetches arguments from user
    memory and calls sysproc.c and sysfile.c.  These work on the process table
    (proc.c), on open files and pipes (file.c, pipe.c) and on the file system
    (fs.c), which changes blocks in the buffer cache (bio.c) through the
    write-ahead log (log.c) over a disk driver (ide.c, or memide.c).  Everything
    is protected by spin locks (spinlock.c) and sleep locks (sleeplock.c).  The
    user side is the library (ulib.c, printf.c, umalloc.c), the shell (sh.c),
    the small programs, and mkfs.c, which builds the file system image.

    ** How the code is modelled

    - Values: C integers are [Z] with the conversion of their type written out
      ([u32], [s32], [u8], ... below); pointers into static arrays are indices;
      pointers into pages are addresses in the flat memory [k_mem].
    - State: the record [kernel] of State.v holds the global variables of the
      kernel's files under the C field names; State.v also has the structures.
      The nesting count of pushcli and the reference counts are kept as [Z]
      without wrap-around; the name and the call stack a spin lock keeps for
      debugging are left out.
    - Kernel code: a value of [thread kernel A] (below), a function from a state
      to an [outcome]: a result, a panic, a context switch with the rest of the
      code as a continuation ([Switch]), an endless loop ([Spin]) or a loop that
      ran out of the fuel it was given ([NoFuel]).  [let!], [;;;] and [if! then!]
      are C's sequencing.  Other processes and processors run at the
      switches: [wp guar rely] (Thread.v) is the correctness of a thread with a
      guarantee on what it leaves behind and a rely on what it finds.
    - Devices: every port or memory-mapped access is an entry of the history
      [k_io], answered by the class [Hardware] as a function of the history.
    - User programs: interaction trees of their system calls (Utils.v,
      Usertests.v, Shrun.v), or functions on their buffers (Ulib.v, Grep.v, Sh.v,
      Umalloc.v, Mkfs.v).

    ** The files

    Shared: Prelude.v (integers, lists, the thread monad, tactics), Ring.v
    (ring buffers of pipe.c and console.c), State.v, Io.v (port instructions of
    x86.h), Thread.v (rely-guarantee reasoning about one thread), Layout.v
    (structures on disk blocks, fs.h).

    - Spinlock.v: spinlock.c, mycpu and myproc.  Module [Smp] runs acquire and
      release on several processors, an instruction at a time: mutual exclusion
      and progress hold in every interleaving, and the steps are what the code
      does.
    - Sleeplock.v: sleeplock.c.
    - CString.v: string.c.  Cprintf.v: the output half of console.c and uart.c.
      Console.v: the input half; the interrupt handler refines an abstract line
      discipline.  Kbd.v: kbd.c with the tables of kbd.h.
    - Kalloc.v: kalloc.c, which refines a stack of distinct pages.
    - Segments.v: the descriptors of mmu.h, seginit, tvinit, idtinit: user code
      gets flat user segments and one gate.
    - Vm.v: vm.c.  Paging.v: page tables as maps from virtual pages to entries;
      walkpgdir, mappages, allocuvm.  Freevm.v: deallocuvm and freevm give back
      exactly the pages of an address space.  Kvm.v: setupkvm, kvmalloc.
      Copyuvm.v: copyuvm, which copies a space or leaves no trace.
    - Apic.v: ioapic.c, lapic.c, picirq.c.  Mp.v: mp.c, against a description of
      what the firmware leaves in memory.  Boot.v: bootmain.c.  Main.v: main.c;
      startothers hands each processor a stack of its own.
    - Sched.v: the scheduling half of proc.c: the dispatch, the fairness of the
      draw, the overflow of the ticket sum, and sleep and wakeup; sleep takes its
      lock operations from a class ([LockOps]), so that it is also proved with
      other processors at work around each of them.  Proc.v:
      allocproc, fork, exit, wait and the rest of proc.c.  Fork.v: what fork and
      wait do in every case, with an account of every page and reference.
      Grow.v: growproc for every argument, with what allocuvm gives back when
      memory runs out.
    - Disk.v: the driver interface of buf.h ([BlockDriver]) and memide.c.  Ide.v:
      ide.c; the interrupt handler serves the queue in order.
    - Bio.v: bio.c; the cache is coherent, and Module [Links] shows that the
      pointer code of its list implements the recency list.
    - Log.v: log.c; a commit is atomic under a crash after any number of writes,
      and recovery can be interrupted and restarted.  Tx.v: reading and writing
      blocks in a transaction, the interface the file system is proved against.
    - Fs.v: fs.c.  Freemap.v, Inode.v, Contents.v, Dir.v and Namei.v: what its
      parts do: balloc and bfree, bmap, readi and writei, directories as maps
      from names to inodes, and path names as walks in the tree of inodes.
    - Pipe.v: pipe.c, a queue of bytes.  File.v: file.c.
    - Syscall.v: argument fetching of syscall.c, and sysproc.c.  Sysfile.v:
      sysfile.c and exec.c.  Trap.v: syscall and trap.
    - Ulib.v: ulib.c and printf.c.  Umalloc.v: umalloc.c; blocks handed out are
      disjoint.  Grep.v: the matcher of grep.c decides the language of the
      pattern.  Sh.v: the parser of sh.c, which terminates on every line, keeps
      each of its words exactly once and inverts a printer.  Shrun.v: runcmd
      sets up the descriptors a command means.  Utils.v: the small programs and
      the tests of the lab.  Usertests.v: the tests of usertests.c, what pipe1
      accepts, and what some of the tests do not see.
    - Mkfs.v: mkfs.c; its image is a well-formed file system of the kernel, in
      which the kernel finds each file under its name.

    ** Interfaces

    [BlockDriver] with [CacheLaws] (Disk.v, Bio.v) separates the cache from the
    driver; [Devices] (Fs.v) is the device switch of file.c, implemented by
    Console.v; [Hardware] (Io.v) gives the answers of devices; [Image] and
    [Linked] give what is linked into the kernel: the code of initcode.S and
    the addresses of labels.  Theorems state what they need of them as
    hypotheses, each shown satisfiable by a witness.

    ** Bounds and fuel

    Loops whose bound the code fixes take that bound (mappages, allocuvm,
    copyuvm: the number of pages; readi, writei: the bytes left; namex: the
    length of the path; dirlookup: the size of the directory; printint: 32
    digits; the parser: the length of the line), and the theorems show that the
    fuel suffices.  Waits that another process ends ([Patience] for sleep locks
    and pipes, [Polls] for device polls) have no bound in the code; the
    theorems hold for every value, and say when the wait ends.  The scheduler's
    endless loop is modelled by its body, which is what the theorems are about.

    ** Not modelled

    The assembly files: swtch.S is the [Switch] outcome, trapasm.S and usys.S are
    the entry to [trap], and the code of initcode.S, entryother.S and the
    vectors are parameters.  The tests of usertests.c are modelled as trees of
    calls; that the kernel passes them is not proved, since it would take one
    model of all calls with several processes running.  Declarations (defs.h,
    types.h, user.h) have no behaviour.  The shell does not check what malloc
    returns, and the model takes the memory for granted.  Address translation
    ([xlate], Vm.v) looks at the presence of a page, not at its user bit;
    theorems about permissions speak of the page table entries.  Timing, caches
    of the processor and the translation buffer are not modelled. *)

From Stdlib Require Export ZArith Lia.
From stdpp Require Export base numbers gmap list strings option.

(** ** Machine integers

    Values of the C types are kept as [Z]; every operation that can leave the
    range of its type is followed by the conversion the compiled code makes. *)

Declare Scope xv6_scope.
Delimit Scope xv6_scope with xv6.
#[global] Open Scope Z_scope.

(** [uint] (32 bits), [uchar], [ushort]. *)
Definition u32 (x : Z) : Z := x mod 2 ^ 32.
Definition u16 (x : Z) : Z := x mod 2 ^ 16.
Definition u8 (x : Z) : Z := x mod 2 ^ 8.
(** [int], [short], [char]: the representative of the residue class in the signed range. *)
Definition s32 (x : Z) : Z := (x + 2 ^ 31) mod 2 ^ 32 - 2 ^ 31.
Definition s16 (x : Z) : Z := (x + 2 ^ 15) mod 2 ^ 16 - 2 ^ 15.
Definition s8 (x : Z) : Z := (x + 2 ^ 7) mod 2 ^ 8 - 2 ^ 7.

(** C truth values. *)
Definition b2z (b : bool) : Z := if b then 1 else 0.
Definition truth (x : Z) : bool := negb (x =? 0).

Lemma truth_true (x : Z) : x <> 0 -> truth x = true.
Proof. intros. unfold truth. by replace (x =? 0) with false by lia. Qed.

Lemma truth_false (x : Z) : x = 0 -> truth x = false.
Proof. by intros ->. Qed.

Lemma u32_small (x : Z) : 0 <= x < 2 ^ 32 -> u32 x = x.
Proof. intros. unfold u32. by apply Z.mod_small. Qed.

Lemma u32_range (x : Z) : 0 <= u32 x < 2 ^ 32.
Proof. apply Z.mod_pos_bound. lia. Qed.

Lemma u8_range (x : Z) : 0 <= u8 x < 256.
Proof. apply (Z.mod_pos_bound x 256). lia. Qed.

Lemma u8_small (x : Z) : 0 <= x < 256 -> u8 x = x.
Proof. intros. by apply (Z.mod_small x 256). Qed.

(** The low bits are free for flags. *)
Lemma lor_low (k a f : Z) : 0 <= k -> a mod 2 ^ k = 0 -> 0 <= f < 2 ^ k -> Z.lor a f = a + f.
Proof.
  intros H0 Ha Hf.
  assert (Hand : Z.land a f = 0).
  { apply Z.bits_inj'. intros n Hn. rewrite Z.land_spec, Z.bits_0. destruct (Z.ltb_spec n k).
    - rewrite <- (Z.mod_pow2_bits_low a k n), Ha, Z.bits_0 by lia. done.
    - rewrite <- (Z.mod_small f (2 ^ k)), Z.mod_pow2_bits_high by lia. by rewrite andb_false_r. }
  rewrite <- Z.lxor_lor by done. symmetry. by apply Z.add_nocarry_lxor.
Qed.

Lemma s32_range (x : Z) : - 2 ^ 31 <= s32 x < 2 ^ 31.
Proof. unfold s32. pose proof (Z.mod_pos_bound (x + 2 ^ 31) (2 ^ 32)). lia. Qed.

Lemma s32_small (x : Z) : - 2 ^ 31 <= x < 2 ^ 31 -> s32 x = x.
Proof. intros. unfold s32. rewrite Z.mod_small; lia. Qed.

(** Both conversions stay in the residue class modulo [2^32]. *)
Lemma s32_mod (x : Z) : s32 x mod 2 ^ 32 = x mod 2 ^ 32.
Proof.
  unfold s32. rewrite Zminus_mod_idemp_l. f_equal. lia.
Qed.

Lemma s32_idemp_add (x y : Z) : s32 (s32 x + y) = s32 (x + y).
Proof.
  unfold s32.
  replace ((x + 2 ^ 31) mod 2 ^ 32 - 2 ^ 31 + y + 2 ^ 31)
    with ((x + 2 ^ 31) mod 2 ^ 32 + y) by lia.
  rewrite Zplus_mod_idemp_l. do 2 f_equal. lia.
Qed.

Lemma u32_idemp_add_l (x y : Z) : u32 (u32 x + y) = u32 (x + y).
Proof. unfold u32. by rewrite Zplus_mod_idemp_l. Qed.

Lemma u32_idemp_add_r (x y : Z) : u32 (x + u32 y) = u32 (x + y).
Proof. unfold u32. by rewrite Zplus_mod_idemp_r. Qed.

Lemma u32_idemp (x : Z) : u32 (u32 x) = u32 x.
Proof. unfold u32. by rewrite Zmod_mod. Qed.

(** A mask of low ones keeps the residue. *)
Lemma land_ones_mod (x n : Z) : 0 <= n -> Z.land x (2 ^ n - 1) = x mod 2 ^ n.
Proof. intros. rewrite <- Z.land_ones by done. f_equal. rewrite Z.ones_equiv. lia. Qed.

(** Clearing the low [n] bits rounds down to a multiple of [2^n]. *)
Lemma land_clear_low (x n : Z) :
  0 <= n -> Z.land x (Z.lnot (2 ^ n - 1)) = x - x mod 2 ^ n.
Proof.
  intros Hn. replace (2 ^ n - 1) with (Z.ones n) by (rewrite Z.ones_equiv; lia).
  rewrite <- Z.ldiff_land, Z.ldiff_ones_r, Z.shiftl_mul_pow2, Z.shiftr_div_pow2 by lia.
  pose proof (Z.div_mod x (2 ^ n)). lia.
Qed.

(** ** Record update

    [r <| f := v |>] and [r <| f ::= g |>] update one field.  A record declares
    its [Eta] expansion once and one [Setter] per field, derived from it. *)
Class Eta (R : Type) := eta : R -> R.
Class Setter {R T : Type} (proj : R -> T) := setf : (T -> T) -> R -> R.
Arguments setf {R T} proj {_} f r.
Notation "r <| p := v |>" := (setf p (fun _ => v) r)
  (at level 1, left associativity, p at level 0, format "r <| p := v |>") : xv6_scope.
Notation "r <| p ::= f |>" := (setf p f r)
  (at level 1, left associativity, p at level 0, format "r <| p ::= f |>") : xv6_scope.
#[global] Open Scope xv6_scope.

Ltac derive_setter :=
  lazymatch goal with
  | |- @Setter ?R ?T ?proj =>
    let r := fresh "r" in
    let f := fresh "f" in
    intros f r;
    let e := constr:(_ : Eta R) in
    let b := eval hnf in (e r) in
    lazymatch b with
    | context C [proj r] => let t := context C [f (proj r)] in exact t
    end
  end.

(** ** Kernel threads

    A kernel function is a computation over the shared state [S].  It returns
    ([Ret]), panics, gives up the processor at [swtch] and is resumed later in
    a state other threads may have changed ([Switch]), spins for ever on a lock
    that cannot become free ([Spin]), or has used up the iterations the model
    allows a waiting loop ([NoFuel]). *)
Inductive outcome (S A : Type) : Type :=
| Ret (a : A) (s : S)
| Panic (msg : string) (s : S)
| Switch (s : S) (k : S -> outcome S A)
| Spin (s : S)
| NoFuel (s : S).
Arguments Ret {S A}.
Arguments Panic {S A}.
Arguments Switch {S A}.
Arguments Spin {S A}.
Arguments NoFuel {S A}.

Definition thread (S A : Type) : Type := S -> outcome S A.

Fixpoint obind {S A B : Type} (o : outcome S A) (f : A -> thread S B) : outcome S B :=
  match o with
  | Ret a s => f a s
  | Panic m s => Panic m s
  | Switch s k => Switch s (fun s' => obind (k s') f)
  | Spin s => Spin s
  | NoFuel s => NoFuel s
  end.

Definition ret {S A : Type} (a : A) : thread S A := fun s => Ret a s.
Definition bind {S A B : Type} (m : thread S A) (f : A -> thread S B) : thread S B :=
  fun s => obind (m s) f.
Arguments bind : simpl never.
Definition panic {S A : Type} (msg : string) : thread S A := fun s => Panic msg s.
Definition get {S : Type} : thread S S := fun s => Ret s s.
Definition gets {S A : Type} (f : S -> A) : thread S A := fun s => Ret (f s) s.
Definition modify {S : Type} (f : S -> S) : thread S unit := fun s => Ret tt (f s).
Definition swtch {S : Type} : thread S unit := fun s => Switch s (fun s' => Ret tt s').
Definition nofuel {S A : Type} : thread S A := fun s => NoFuel s.

Notation "'let!' x ':=' m 'in' k" := (bind m (fun x => k))
  (at level 10, x pattern, m at level 100, k at level 200,
   format "'[v' 'let!'  x  ':='  m  'in' '/' k ']'") : xv6_scope.
Notation "m ;;; k" := (bind m (fun _ => k))
  (at level 199, right associativity, format "'[v' m ;;; '/' k ']'") : xv6_scope.
Notation "'if!' c 'then!' m" := (if c then m else ret tt)
  (at level 10, c at level 100, m at level 150) : xv6_scope.

(** ** Reasoning about threads

    [wp guar rely o Q]: no panic and no spinning; whenever the thread gives up
    the processor the state satisfies [guar], and it may be resumed in any
    state [rely] allows; when it returns, [Q] holds.  A waiting loop that is
    woken more often than its fuel allows is not constrained. *)
Section WP.
Context {S : Type} (guar : S -> Prop) (rely : S -> S -> Prop).

Fixpoint wp {A : Type} (o : outcome S A) (Q : A -> S -> Prop) : Prop :=
  match o with
  | Ret a s => Q a s
  | Panic _ _ => False
  | Switch s k => guar s /\ forall s', rely s s' -> wp (k s') Q
  | Spin _ => False
  | NoFuel _ => True
  end.

Lemma wp_mono {A : Type} (o : outcome S A) (Q Q' : A -> S -> Prop) :
  wp o Q -> (forall a s, Q a s -> Q' a s) -> wp o Q'.
Proof. intros H HQ. induction o; naive_solver. Qed.

Lemma wp_obind {A B : Type} (o : outcome S A) (f : A -> thread S B) (Q : B -> S -> Prop) :
  wp o (fun a s => wp (f a s) Q) -> wp (obind o f) Q.
Proof. induction o; naive_solver. Qed.

Lemma wp_bind {A B : Type} (m : thread S A) (f : A -> thread S B) (s : S)
    (Q : B -> S -> Prop) :
  wp (m s) (fun a s' => wp (f a s') Q) -> wp (bind m f s) Q.
Proof. apply wp_obind. Qed.
End WP.

(** [runs o Q]: the thread returns without giving up the processor, and [Q] holds. *)
Definition runs {S A : Type} (o : outcome S A) (Q : A -> S -> Prop) : Prop :=
  match o with Ret a s => Q a s | _ => False end.

Lemma runs_mono {S A : Type} (o : outcome S A) (Q Q' : A -> S -> Prop) :
  runs o Q -> (forall a s, Q a s -> Q' a s) -> runs o Q'.
Proof. destruct o; simpl; naive_solver. Qed.

Lemma runs_bind {S A B : Type} (m : thread S A) (f : A -> thread S B) (s : S)
    (Q : B -> S -> Prop) :
  runs (m s) (fun a s' => runs (f a s') Q) -> runs (bind m f s) Q.
Proof. unfold bind. by destruct (m s). Qed.

Lemma runs_wp {S A : Type} guar rely (o : outcome S A) (Q : A -> S -> Prop) :
  runs o Q -> wp guar rely o Q.
Proof. by destruct o. Qed.

Lemma runs_inv {S A : Type} (o : outcome S A) (Q : A -> S -> Prop) :
  runs o Q -> exists a s, o = Ret a s /\ Q a s.
Proof. destruct o; simpl; naive_solver. Qed.

(** Evaluation of [bind] once the first computation is known to return. *)
Lemma bind_ret {S A B : Type} (m : thread S A) (f : A -> thread S B) (s s' : S) (a : A) :
  m s = Ret a s' -> bind m f s = f a s'.
Proof. unfold bind. by intros ->. Qed.

Lemma bind_panic {S A B : Type} (m : thread S A) (f : A -> thread S B) (s s' : S) msg :
  m s = Panic msg s' -> bind m f s = Panic msg s'.
Proof. unfold bind. by intros ->. Qed.

(** If a sequence returned, both parts did. *)
Lemma bind_seq {S A B C : Type} (m : thread S A) (f : A -> thread S B) (g : B -> thread S C) (s s' : S) b :
  bind m f s = Ret b s' -> bind m (fun a => bind (f a) g) s = g b s'.
Proof. unfold bind. destruct (m s); cbn; try done. by intros ->. Qed.

Lemma bind_inv_ret {S A B : Type} (m : thread S A) (f : A -> thread S B) (s : S) b s2 :
  bind m f s = Ret b s2 -> exists a s1, m s = Ret a s1 /\ f a s1 = Ret b s2.
Proof. unfold bind. destruct (m s); simpl; naive_solver. Qed.

(** [kret]: run the first computation of a sequence when it returns by
    reduction; [kret_by tac]: when [tac] shows what it returns. *)
Ltac kret := erewrite bind_ret by reflexivity; cbn beta.
Tactic Notation "kret_by" tactic3(tac) := erewrite bind_ret by tac; cbn beta.

(** ** Lists *)
Lemma alter_insert {A} (f : A -> A) (i : nat) (l : list A) (x : A) :
  l !! i = Some x -> alter f i l = <[i := f x]> l.
Proof.
  revert i. induction l as [|y l IH]; intros [|i] H; simplify_eq/=; [done|].
  f_equal. by apply IH.
Qed.

Lemma alter_insert_eq {A} (f : A -> A) (i : nat) (l : list A) (x : A) :
  alter f i (<[i := x]> l) = <[i := f x]> l.
Proof.
  revert i. induction l as [|y l IH]; intros [|i]; cbn; [done..|]. f_equal. apply IH.
Qed.

Lemma filter_true {A} (P : A -> Prop) `{!forall x, Decision (P x)} (l : list A) :
  (forall x, x ∈ l -> P x) -> filter P l = l.
Proof.
  induction l as [|x l IH]; intros HP; [done|].
  rewrite filter_cons_True by (apply HP; left). f_equal. apply IH. intros y Hy. apply HP. by right.
Qed.

(** ** Bytes *)
Definition is_byte (c : Z) : Prop := 0 <= c < 256.

(** A property of all bytes can be checked by evaluating it on each. *)
Lemma byte_cases (P : Z -> bool) :
  forallb P (seqZ 0 256) = true -> forall c, is_byte c -> P c = true.
Proof.
  intros H c Hc. rewrite forallb_forall in H. apply H.
  apply list_elem_of_In, elem_of_seqZ. unfold is_byte in Hc. lia.
Qed.

(** [blia]: [lia] after turning the boolean comparisons of the goal and the
    hypotheses into propositions. *)
Ltac bool_cases :=
  repeat match goal with
  | |- context [?a <=? ?b] => destruct (Z.leb_spec a b)
  | |- context [?a <? ?b] => destruct (Z.ltb_spec a b)
  | |- context [?a =? ?b] => destruct (Z.eqb_spec a b)
  | H : context [?a <=? ?b] |- _ => destruct (Z.leb_spec a b)
  | H : context [?a <? ?b] |- _ => destruct (Z.ltb_spec a b)
  | H : context [?a =? ?b] |- _ => destruct (Z.eqb_spec a b)
  end; cbn [andb orb negb] in *.
Ltac blia := bool_cases; (done || lia).
