(* ===== verification/Ring.v ===== *)
(** * Ring buffers with 32-bit counters

    The pipe (pipe.c) and the console's input line (console.c) keep bytes in an
    array of [N] bytes indexed by free-running 32-bit counters modulo [N]. *)

From S2P Require Import Prelude.

(** ** Wrapping counters *)
Lemma u32_sub_cases a b :
  0 <= a < 2 ^ 32 -> 0 <= b < 2 ^ 32 -> u32 (a - b) = if b <=? a then a - b else a - b + 2 ^ 32.
Proof.
  intros Ha Hb. unfold u32. destruct (Z.leb_spec b a).
  - apply Z.mod_small. lia.
  - symmetry. apply (Z.mod_unique _ _ (-1)); lia.
Qed.

Lemma u32_succ_cases a : 0 <= a < 2 ^ 32 -> u32 (a + 1) = if a =? 2 ^ 32 - 1 then 0 else a + 1.
Proof.
  intros Ha. unfold u32. destruct (Z.eqb_spec a (2 ^ 32 - 1)) as [->|]; [done|].
  apply Z.mod_small. lia.
Qed.

Lemma u32_pred_cases a : 0 <= a < 2 ^ 32 -> u32 (a - 1) = if a =? 0 then 2 ^ 32 - 1 else a - 1.
Proof. intros Ha. rewrite u32_sub_cases by lia. blia. Qed.

(** ** The bytes between two counters *)
Section Ring.
Context (N m : Z).
Hypothesis HN : 0 < N.
Hypothesis Hm : 2 ^ 32 = N * m.

(** [len] bytes from counter value [from]. *)
Definition ring (d : list Z) (from len : Z) : list Z :=
  (fun k => nth (Z.to_nat ((from + k) mod N)) d 0) <$> seqZ 0 len.

Lemma length_ring d from len : 0 <= len -> Z.of_nat (length (ring d from len)) = len.
Proof. intros. unfold ring. rewrite length_fmap, length_seqZ. lia. Qed.

(** The counters wrap at a multiple of the size. *)
Lemma u32_mod_ring x : u32 x mod N = x mod N.
Proof.
  unfold u32. rewrite Hm. assert (0 < m) by nia.
  rewrite Z.rem_mul_r, Z.add_mod, (Z.mul_comm N), Z.mod_mul, Z.add_0_r, !Zmod_mod by lia. done.
Qed.

(** Two indices within one turn share a slot only if they are equal. *)
Lemma ring_inj n j k : 0 <= j < N -> 0 <= k < N -> (n + j) mod N = (n + k) mod N -> j = k.
Proof.
  intros Hj Hk H. pose proof (Z.div_mod (n + j) N ltac:(lia)) as Ej.
  pose proof (Z.div_mod (n + k) N ltac:(lia)) as Ek. rewrite H in Ej.
  generalize dependent ((n + j) / N). generalize dependent ((n + k) / N). intros q2 Ek q1 Ej.
  assert (j - k = N * (q1 - q2)) by lia. destruct (decide (q1 = q2)) as [->|]; nia.
Qed.

Lemma ring_u32 d from len : ring d (u32 from) len = ring d from len.
Proof.
  apply list_fmap_ext. intros k x _. do 2 f_equal.
  by rewrite <- (u32_mod_ring (_ + x)), u32_idemp_add_l, u32_mod_ring.
Qed.

Lemma ring_snoc d from len :
  0 <= len -> ring d from (len + 1) = ring d from len ++ [nth (Z.to_nat ((from + len) mod N)) d 0].
Proof. intros. unfold ring. by rewrite seqZ_app, fmap_app by lia. Qed.

Lemma ring_cons d from len :
  0 < len -> ring d from len = nth (Z.to_nat (from mod N)) d 0 :: ring d (from + 1) (len - 1).
Proof.
  intros. unfold ring. rewrite seqZ_cons by lia. cbn [fmap list_fmap]. rewrite Z.add_0_r. f_equal.
  replace (Z.succ 0) with (0 + 1) by lia. rewrite <- (fmap_add_seqZ 1 0), <- list_fmap_compose.
  apply list_fmap_ext. intros k x _. cbn. do 3 f_equal. lia.
Qed.

Lemma ring_app d from n k :
  0 <= n -> 0 <= k -> ring d from (n + k) = ring d from n ++ ring d (from + n) k.
Proof.
  intros. unfold ring. rewrite seqZ_app, fmap_app by lia. f_equal.
  rewrite Z.add_0_l. replace n with (n + 0) at 1 by lia. rewrite <- (fmap_add_seqZ n 0), <- list_fmap_compose.
  apply list_fmap_ext. intros j x _. cbn. do 3 f_equal. lia.
Qed.

(** A store outside the bytes in question. *)
Lemma ring_insert_other d from len k c :
  0 <= len <= k -> k < N -> ring (<[Z.to_nat ((from + k) mod N) := c]> d) from len = ring d from len.
Proof.
  intros Hl Hk. apply list_fmap_ext. intros j x Hx. apply list_elem_of_lookup_2, elem_of_seqZ in Hx.
  rewrite !nth_lookup, list_lookup_insert_ne; [done|]. intros E.
  apply Z2Nat.inj in E; [|apply Z.mod_pos_bound; lia..]. apply ring_inj in E; lia.
Qed.

Lemma ring_insert_snoc d from len c :
  length d = Z.to_nat N -> 0 <= len < N ->
  ring (<[Z.to_nat ((from + len) mod N) := c]> d) from (len + 1) = ring d from len ++ [c].
Proof.
  intros Hd Hl. rewrite ring_snoc, ring_insert_other by lia. do 2 f_equal.
  rewrite nth_lookup, list_lookup_insert_eq; [done|].
  pose proof (Z.mod_pos_bound (from + len) N). lia.
Qed.
End Ring.
