(* ===== verification/State.v ===== *)
(** * The state of the kernel

    The structures the C headers declare, with the C field names under a short
    prefix per structure, and one record [kernel] of the global variables of
    the kernel's translation units.  Pointers into a static array are indices
    ([option nat], [None] for the null pointer); pointers to pages handed out by
    the page allocator are addresses.  The constants of param.h, fs.h, mmu.h and
    memlayout.h that several components use are here as well. *)

From S2P Require Import Prelude.
Set Primitive Projections.

(** ** Constants: param.h, stat.h, fs.h, memlayout.h, mmu.h *)
Definition NPROC : nat := 64.
Definition KSTACKSIZE : Z := 4096.
Definition NOFILE : nat := 16.
Definition NFILE : nat := 100.
Definition NINODE : nat := 50.
Definition NDEV : Z := 10.
Definition ROOTDEV : Z := 1.
Definition MAXARG : nat := 32.
Definition MAXOPBLOCKS : Z := 10.
Definition LOGSIZE : Z := MAXOPBLOCKS * 3.
Definition NBUF : nat := 30.
Definition FSSIZE : Z := 1000.

Definition T_DIR : Z := 1.
Definition T_FILE : Z := 2.
Definition T_DEV : Z := 3.

Definition ROOTINO : Z := 1.
Definition BSIZE : Z := 512.
Definition NDIRECT : Z := 12.
Definition NINDIRECT : Z := BSIZE / 4.
Definition MAXFILE : Z := NDIRECT + NINDIRECT.
Definition DIRSIZ : Z := 14.

Definition EXTMEM : Z := 0x100000.
Definition PHYSTOP : Z := 0xE000000.
Definition DEVSPACE : Z := 0xFE000000.
Definition KERNBASE : Z := 0x80000000.
Definition KERNLINK : Z := KERNBASE + EXTMEM.
Definition PGSIZE : Z := 4096.

(** ** Names of locks and wait channels

    The C code identifies a spin lock, a sleep lock and a wait channel by the
    address of an object; distinct objects have distinct addresses. *)
Inductive sleepid := SlBuf (i : nat) | SlInode (i : nat).
Inductive lockid :=
| LkPtable | LkTicks | LkKmem | LkBcache | LkLog | LkIcache | LkFtable | LkCons | LkIde
| LkPipe (a : Z) | LkSleep (l : sleepid).
Inductive chan :=
| ChTicks | ChProc (i : nat) | ChPipeRead (a : Z) | ChPipeWrite (a : Z) | ChLog
| ChInput | ChBuf (i : nat) | ChSleep (l : sleepid).

#[export] Instance sleepid_eq_dec : EqDecision sleepid.
Proof. solve_decision. Defined.
#[export] Instance lockid_eq_dec : EqDecision lockid.
Proof. solve_decision. Defined.
#[export] Instance chan_eq_dec : EqDecision chan.
Proof. solve_decision. Defined.

#[export] Instance sleepid_countable : Countable sleepid.
Proof.
  refine (inj_countable'
    (fun l => match l with SlBuf i => inl i | SlInode i => inr i end)
    (fun x => match x with inl i => SlBuf i | inr i => SlInode i end) _).
  by intros [].
Defined.

#[export] Instance lockid_countable : Countable lockid.
Proof.
  refine (inj_countable'
    (fun l => match l with
     | LkPtable => inl 0%nat | LkTicks => inl 1%nat | LkKmem => inl 2%nat
     | LkBcache => inl 3%nat | LkLog => inl 4%nat | LkIcache => inl 5%nat
     | LkFtable => inl 6%nat | LkCons => inl 7%nat | LkIde => inl 8%nat
     | LkPipe a => inr (inl a) | LkSleep l => inr (inr l) end)
    (fun x => match x with
     | inl 0%nat => LkPtable | inl 1%nat => LkTicks | inl 2%nat => LkKmem
     | inl 3%nat => LkBcache | inl 4%nat => LkLog | inl 5%nat => LkIcache
     | inl 6%nat => LkFtable | inl 7%nat => LkCons | inl _ => LkIde
     | inr (inl a) => LkPipe a | inr (inr l) => LkSleep l end) _).
  by intros [].
Defined.


(** ** Locks: spinlock.h, sleeplock.h

    The debugging fields [name] and [pcs] are not kept. *)

(** struct spinlock: held or not, and by which entry of [cpus]. *)
Record spinlock := mkspinlock {
  locked : Z;
  lk_cpu : option nat
}.
#[export] Instance eta_spinlock : Eta spinlock := fun r => mkspinlock (r.(locked)) (r.(lk_cpu)).
#[export] Instance set_locked : Setter locked. Proof. derive_setter. Defined.
#[export] Instance set_lk_cpu : Setter lk_cpu. Proof. derive_setter. Defined.

(** struct sleeplock; its spin lock is [LkSleep]. *)
Record sleeplock := mksleeplock {
  sl_locked : Z;
  sl_pid : Z
}.
#[export] Instance eta_sleeplock : Eta sleeplock := fun r => mksleeplock (r.(sl_locked)) (r.(sl_pid)).
#[export] Instance set_sl_locked : Setter sl_locked. Proof. derive_setter. Defined.
#[export] Instance set_sl_pid : Setter sl_pid. Proof. derive_setter. Defined.

(** ** Processes and processors: proc.h, x86.h *)

(** enum procstate. *)
Inductive procstate := UNUSED | EMBRYO | SLEEPING | RUNNABLE | RUNNING | ZOMBIE.
#[export] Instance procstate_eq_dec : EqDecision procstate.
Proof. solve_decision. Defined.


(** ** Segment and gate descriptors: mmu.h *)

(** struct segdesc. *)
Record segdesc := mkseg {
  sd_lim_15_0 : Z;
  sd_base_15_0 : Z;
  sd_base_23_16 : Z;
  sd_type : Z;
  sd_s : Z;
  sd_dpl : Z;
  sd_p : Z;
  sd_lim_19_16 : Z;
  sd_avl : Z;
  sd_rsv1 : Z;
  sd_db : Z;
  sd_g : Z;
  sd_base_31_24 : Z
}.
#[export] Instance eta_segdesc : Eta segdesc := fun r => mkseg (r.(sd_lim_15_0)) (r.(sd_base_15_0)) (r.(sd_base_23_16)) (r.(sd_type)) (r.(sd_s)) (r.(sd_dpl)) (r.(sd_p)) (r.(sd_lim_19_16)) (r.(sd_avl)) (r.(sd_rsv1)) (r.(sd_db)) (r.(sd_g)) (r.(sd_base_31_24)).
#[export] Instance set_sd_lim_15_0 : Setter sd_lim_15_0. Proof. derive_setter. Defined.
#[export] Instance set_sd_base_15_0 : Setter sd_base_15_0. Proof. derive_setter. Defined.
#[export] Instance set_sd_base_23_16 : Setter sd_base_23_16. Proof. derive_setter. Defined.
#[export] Instance set_sd_type : Setter sd_type. Proof. derive_setter. Defined.
#[export] Instance set_sd_s : Setter sd_s. Proof. derive_setter. Defined.
#[export] Instance set_sd_dpl : Setter sd_dpl. Proof. derive_setter. Defined.
#[export] Instance set_sd_p : Setter sd_p. Proof. derive_setter. Defined.
#[export] Instance set_sd_lim_19_16 : Setter sd_lim_19_16. Proof. derive_setter. Defined.
#[export] Instance set_sd_avl : Setter sd_avl. Proof. derive_setter. Defined.
#[export] Instance set_sd_rsv1 : Setter sd_rsv1. Proof. derive_setter. Defined.
#[export] Instance set_sd_db : Setter sd_db. Proof. derive_setter. Defined.
#[export] Instance set_sd_g : Setter sd_g. Proof. derive_setter. Defined.
#[export] Instance set_sd_base_31_24 : Setter sd_base_31_24. Proof. derive_setter. Defined.

(** struct gatedesc. *)
Record gatedesc := mkgate {
  gd_off_15_0 : Z;
  gd_cs : Z;
  gd_args : Z;
  gd_rsv1 : Z;
  gd_type : Z;
  gd_s : Z;
  gd_dpl : Z;
  gd_p : Z;
  gd_off_31_16 : Z
}.
#[export] Instance eta_gatedesc : Eta gatedesc := fun r => mkgate (r.(gd_off_15_0)) (r.(gd_cs)) (r.(gd_args)) (r.(gd_rsv1)) (r.(gd_type)) (r.(gd_s)) (r.(gd_dpl)) (r.(gd_p)) (r.(gd_off_31_16)).
#[export] Instance set_gd_off_15_0 : Setter gd_off_15_0. Proof. derive_setter. Defined.
#[export] Instance set_gd_cs : Setter gd_cs. Proof. derive_setter. Defined.
#[export] Instance set_gd_args : Setter gd_args. Proof. derive_setter. Defined.
#[export] Instance set_gd_rsv1 : Setter gd_rsv1. Proof. derive_setter. Defined.
#[export] Instance set_gd_type : Setter gd_type. Proof. derive_setter. Defined.
#[export] Instance set_gd_s : Setter gd_s. Proof. derive_setter. Defined.
#[export] Instance set_gd_dpl : Setter gd_dpl. Proof. derive_setter. Defined.
#[export] Instance set_gd_p : Setter gd_p. Proof. derive_setter. Defined.
#[export] Instance set_gd_off_31_16 : Setter gd_off_31_16. Proof. derive_setter. Defined.

(** struct cpu: the fields C code reads or writes, with the task state's [ss0],
    [esp0], [iomb]; and the processor's registers for the descriptor tables and
    the task: [c_gdtr] and [c_idtr] the limits loaded, [c_tr] the selector. *)
Record cpu := mkcpu {
  c_apicid : Z;
  c_started : Z;
  c_ncli : Z;
  c_intena : Z;
  c_proc : option nat;
  c_ss0 : Z;
  c_esp0 : Z;
  c_iomb : Z;
  c_gdt : list segdesc;
  c_gdtr : Z;
  c_tr : Z;
  c_idtr : Z
}.
#[export] Instance eta_cpu : Eta cpu := fun r => mkcpu (r.(c_apicid)) (r.(c_started)) (r.(c_ncli)) (r.(c_intena)) (r.(c_proc)) (r.(c_ss0)) (r.(c_esp0)) (r.(c_iomb)) (r.(c_gdt)) (r.(c_gdtr)) (r.(c_tr)) (r.(c_idtr)).
#[export] Instance set_c_apicid : Setter c_apicid. Proof. derive_setter. Defined.
#[export] Instance set_c_started : Setter c_started. Proof. derive_setter. Defined.
#[export] Instance set_c_ncli : Setter c_ncli. Proof. derive_setter. Defined.
#[export] Instance set_c_intena : Setter c_intena. Proof. derive_setter. Defined.
#[export] Instance set_c_proc : Setter c_proc. Proof. derive_setter. Defined.
#[export] Instance set_c_ss0 : Setter c_ss0. Proof. derive_setter. Defined.
#[export] Instance set_c_esp0 : Setter c_esp0. Proof. derive_setter. Defined.
#[export] Instance set_c_iomb : Setter c_iomb. Proof. derive_setter. Defined.
#[export] Instance set_c_gdt : Setter c_gdt. Proof. derive_setter. Defined.
#[export] Instance set_c_gdtr : Setter c_gdtr. Proof. derive_setter. Defined.
#[export] Instance set_c_tr : Setter c_tr. Proof. derive_setter. Defined.
#[export] Instance set_c_idtr : Setter c_idtr. Proof. derive_setter. Defined.

(** struct trapframe, without the padding fields. *)
Record trapframe := mktrapframe {
  tf_edi : Z;
  tf_esi : Z;
  tf_ebp : Z;
  tf_oesp : Z;
  tf_ebx : Z;
  tf_edx : Z;
  tf_ecx : Z;
  tf_eax : Z;
  tf_gs : Z;
  tf_fs : Z;
  tf_es : Z;
  tf_ds : Z;
  tf_trapno : Z;
  tf_err : Z;
  tf_eip : Z;
  tf_cs : Z;
  tf_eflags : Z;
  tf_esp : Z;
  tf_ss : Z
}.
#[export] Instance eta_trapframe : Eta trapframe := fun r => mktrapframe (r.(tf_edi)) (r.(tf_esi)) (r.(tf_ebp)) (r.(tf_oesp)) (r.(tf_ebx)) (r.(tf_edx)) (r.(tf_ecx)) (r.(tf_eax)) (r.(tf_gs)) (r.(tf_fs)) (r.(tf_es)) (r.(tf_ds)) (r.(tf_trapno)) (r.(tf_err)) (r.(tf_eip)) (r.(tf_cs)) (r.(tf_eflags)) (r.(tf_esp)) (r.(tf_ss)).
#[export] Instance set_tf_edi : Setter tf_edi. Proof. derive_setter. Defined.
#[export] Instance set_tf_esi : Setter tf_esi. Proof. derive_setter. Defined.
#[export] Instance set_tf_ebp : Setter tf_ebp. Proof. derive_setter. Defined.
#[export] Instance set_tf_oesp : Setter tf_oesp. Proof. derive_setter. Defined.
#[export] Instance set_tf_ebx : Setter tf_ebx. Proof. derive_setter. Defined.
#[export] Instance set_tf_edx : Setter tf_edx. Proof. derive_setter. Defined.
#[export] Instance set_tf_ecx : Setter tf_ecx. Proof. derive_setter. Defined.
#[export] Instance set_tf_eax : Setter tf_eax. Proof. derive_setter. Defined.
#[export] Instance set_tf_gs : Setter tf_gs. Proof. derive_setter. Defined.
#[export] Instance set_tf_fs : Setter tf_fs. Proof. derive_setter. Defined.
#[export] Instance set_tf_es : Setter tf_es. Proof. derive_setter. Defined.
#[export] Instance set_tf_ds : Setter tf_ds. Proof. derive_setter. Defined.
#[export] Instance set_tf_trapno : Setter tf_trapno. Proof. derive_setter. Defined.
#[export] Instance set_tf_err : Setter tf_err. Proof. derive_setter. Defined.
#[export] Instance set_tf_eip : Setter tf_eip. Proof. derive_setter. Defined.
#[export] Instance set_tf_cs : Setter tf_cs. Proof. derive_setter. Defined.
#[export] Instance set_tf_eflags : Setter tf_eflags. Proof. derive_setter. Defined.
#[export] Instance set_tf_esp : Setter tf_esp. Proof. derive_setter. Defined.
#[export] Instance set_tf_ss : Setter tf_ss. Proof. derive_setter. Defined.

(** struct context. *)
Record context := mkcontext {
  cx_edi : Z;
  cx_esi : Z;
  cx_ebx : Z;
  cx_ebp : Z;
  cx_eip : Z
}.
#[export] Instance eta_context : Eta context := fun r => mkcontext (r.(cx_edi)) (r.(cx_esi)) (r.(cx_ebx)) (r.(cx_ebp)) (r.(cx_eip)).
#[export] Instance set_cx_edi : Setter cx_edi. Proof. derive_setter. Defined.
#[export] Instance set_cx_esi : Setter cx_esi. Proof. derive_setter. Defined.
#[export] Instance set_cx_ebx : Setter cx_ebx. Proof. derive_setter. Defined.
#[export] Instance set_cx_ebp : Setter cx_ebp. Proof. derive_setter. Defined.
#[export] Instance set_cx_eip : Setter cx_eip. Proof. derive_setter. Defined.

(** struct proc.  [p_tf] and [p_context] are the pointers into the kernel stack,
    [p_frame] and [p_ctx] what they point to. *)
Record proc := mkproc {
  p_sz : Z;
  p_pgdir : Z;
  p_kstack : Z;
  p_state : procstate;
  p_pid : Z;
  p_parent : option nat;
  p_tf : Z;
  p_frame : trapframe;
  p_context : Z;
  p_ctx : context;
  p_chan : option chan;
  p_killed : Z;
  p_ofile : list (option nat);
  p_cwd : option nat;
  p_name : list Z;
  p_tickets : Z;
  p_ticks : Z
}.
#[export] Instance eta_proc : Eta proc := fun r => mkproc (r.(p_sz)) (r.(p_pgdir)) (r.(p_kstack)) (r.(p_state)) (r.(p_pid)) (r.(p_parent)) (r.(p_tf)) (r.(p_frame)) (r.(p_context)) (r.(p_ctx)) (r.(p_chan)) (r.(p_killed)) (r.(p_ofile)) (r.(p_cwd)) (r.(p_name)) (r.(p_tickets)) (r.(p_ticks)).
#[export] Instance set_p_sz : Setter p_sz. Proof. derive_setter. Defined.
#[export] Instance set_p_pgdir : Setter p_pgdir. Proof. derive_setter. Defined.
#[export] Instance set_p_kstack : Setter p_kstack. Proof. derive_setter. Defined.
#[export] Instance set_p_state : Setter p_state. Proof. derive_setter. Defined.
#[export] Instance set_p_pid : Setter p_pid. Proof. derive_setter. Defined.
#[export] Instance set_p_parent : Setter p_parent. Proof. derive_setter. Defined.
#[export] Instance set_p_tf : Setter p_tf. Proof. derive_setter. Defined.
#[export] Instance set_p_frame : Setter p_frame. Proof. derive_setter. Defined.
#[export] Instance set_p_context : Setter p_context. Proof. derive_setter. Defined.
#[export] Instance set_p_ctx : Setter p_ctx. Proof. derive_setter. Defined.
#[export] Instance set_p_chan : Setter p_chan. Proof. derive_setter. Defined.
#[export] Instance set_p_killed : Setter p_killed. Proof. derive_setter. Defined.
#[export] Instance set_p_ofile : Setter p_ofile. Proof. derive_setter. Defined.
#[export] Instance set_p_cwd : Setter p_cwd. Proof. derive_setter. Defined.
#[export] Instance set_p_name : Setter p_name. Proof. derive_setter. Defined.
#[export] Instance set_p_tickets : Setter p_tickets. Proof. derive_setter. Defined.
#[export] Instance set_p_ticks : Setter p_ticks. Proof. derive_setter. Defined.

(** ** Files, pipes, inodes, buffers: file.h, pipe.c, fs.h, buf.h, log.c *)

Inductive filetype := FD_NONE | FD_PIPE | FD_INODE.
#[export] Instance filetype_eq_dec : EqDecision filetype.
Proof. solve_decision. Defined.


(** struct file. *)
Record file := mkfile {
  f_type : filetype;
  f_ref : Z;
  f_readable : Z;
  f_writable : Z;
  f_pipe : Z;
  f_ip : option nat;
  f_off : Z
}.
#[export] Instance eta_file : Eta file := fun r => mkfile (r.(f_type)) (r.(f_ref)) (r.(f_readable)) (r.(f_writable)) (r.(f_pipe)) (r.(f_ip)) (r.(f_off)).
#[export] Instance set_f_type : Setter f_type. Proof. derive_setter. Defined.
#[export] Instance set_f_ref : Setter f_ref. Proof. derive_setter. Defined.
#[export] Instance set_f_readable : Setter f_readable. Proof. derive_setter. Defined.
#[export] Instance set_f_writable : Setter f_writable. Proof. derive_setter. Defined.
#[export] Instance set_f_pipe : Setter f_pipe. Proof. derive_setter. Defined.
#[export] Instance set_f_ip : Setter f_ip. Proof. derive_setter. Defined.
#[export] Instance set_f_off : Setter f_off. Proof. derive_setter. Defined.

(** struct pipe. *)
Record pipe := mkpipe {
  pi_data : list Z;
  pi_nread : Z;
  pi_nwrite : Z;
  pi_readopen : Z;
  pi_writeopen : Z
}.
#[export] Instance eta_pipe : Eta pipe := fun r => mkpipe (r.(pi_data)) (r.(pi_nread)) (r.(pi_nwrite)) (r.(pi_readopen)) (r.(pi_writeopen)).
#[export] Instance set_pi_data : Setter pi_data. Proof. derive_setter. Defined.
#[export] Instance set_pi_nread : Setter pi_nread. Proof. derive_setter. Defined.
#[export] Instance set_pi_nwrite : Setter pi_nwrite. Proof. derive_setter. Defined.
#[export] Instance set_pi_readopen : Setter pi_readopen. Proof. derive_setter. Defined.
#[export] Instance set_pi_writeopen : Setter pi_writeopen. Proof. derive_setter. Defined.

(** struct inode (file.h). *)
Record inode := mkinode {
  ip_dev : Z;
  ip_inum : Z;
  ip_ref : Z;
  ip_valid : Z;
  ip_type : Z;
  ip_major : Z;
  ip_minor : Z;
  ip_nlink : Z;
  ip_size : Z;
  ip_addrs : list Z
}.
#[export] Instance eta_inode : Eta inode := fun r => mkinode (r.(ip_dev)) (r.(ip_inum)) (r.(ip_ref)) (r.(ip_valid)) (r.(ip_type)) (r.(ip_major)) (r.(ip_minor)) (r.(ip_nlink)) (r.(ip_size)) (r.(ip_addrs)).
#[export] Instance set_ip_dev : Setter ip_dev. Proof. derive_setter. Defined.
#[export] Instance set_ip_inum : Setter ip_inum. Proof. derive_setter. Defined.
#[export] Instance set_ip_ref : Setter ip_ref. Proof. derive_setter. Defined.
#[export] Instance set_ip_valid : Setter ip_valid. Proof. derive_setter. Defined.
#[export] Instance set_ip_type : Setter ip_type. Proof. derive_setter. Defined.
#[export] Instance set_ip_major : Setter ip_major. Proof. derive_setter. Defined.
#[export] Instance set_ip_minor : Setter ip_minor. Proof. derive_setter. Defined.
#[export] Instance set_ip_nlink : Setter ip_nlink. Proof. derive_setter. Defined.
#[export] Instance set_ip_size : Setter ip_size. Proof. derive_setter. Defined.
#[export] Instance set_ip_addrs : Setter ip_addrs. Proof. derive_setter. Defined.

(** struct superblock (fs.h). *)
Record superblock := mksuperblock {
  sb_size : Z;
  sb_nblocks : Z;
  sb_ninodes : Z;
  sb_nlog : Z;
  sb_logstart : Z;
  sb_inodestart : Z;
  sb_bmapstart : Z
}.
#[export] Instance eta_superblock : Eta superblock := fun r => mksuperblock (r.(sb_size)) (r.(sb_nblocks)) (r.(sb_ninodes)) (r.(sb_nlog)) (r.(sb_logstart)) (r.(sb_inodestart)) (r.(sb_bmapstart)).
#[export] Instance set_sb_size : Setter sb_size. Proof. derive_setter. Defined.
#[export] Instance set_sb_nblocks : Setter sb_nblocks. Proof. derive_setter. Defined.
#[export] Instance set_sb_ninodes : Setter sb_ninodes. Proof. derive_setter. Defined.
#[export] Instance set_sb_nlog : Setter sb_nlog. Proof. derive_setter. Defined.
#[export] Instance set_sb_logstart : Setter sb_logstart. Proof. derive_setter. Defined.
#[export] Instance set_sb_inodestart : Setter sb_inodestart. Proof. derive_setter. Defined.
#[export] Instance set_sb_bmapstart : Setter sb_bmapstart. Proof. derive_setter. Defined.

Definition B_VALID : Z := 2.
Definition B_DIRTY : Z := 4.


(** struct buf; the prev/next links are the list [k_lru] of the cache. *)
Record buf := mkbuf {
  b_flags : Z;
  b_dev : Z;
  b_blockno : Z;
  b_refcnt : Z;
  b_data : list Z
}.
#[export] Instance eta_buf : Eta buf := fun r => mkbuf (r.(b_flags)) (r.(b_dev)) (r.(b_blockno)) (r.(b_refcnt)) (r.(b_data)).
#[export] Instance set_b_flags : Setter b_flags. Proof. derive_setter. Defined.
#[export] Instance set_b_dev : Setter b_dev. Proof. derive_setter. Defined.
#[export] Instance set_b_blockno : Setter b_blockno. Proof. derive_setter. Defined.
#[export] Instance set_b_refcnt : Setter b_refcnt. Proof. derive_setter. Defined.
#[export] Instance set_b_data : Setter b_data. Proof. derive_setter. Defined.

(** struct log with its struct logheader ([lh_n], [lh_block]). *)
Record logst := mklog {
  lg_start : Z;
  lg_size : Z;
  lg_outstanding : Z;
  lg_committing : Z;
  lg_dev : Z;
  lh_n : Z;
  lh_block : list Z
}.
#[export] Instance eta_logst : Eta logst := fun r => mklog (r.(lg_start)) (r.(lg_size)) (r.(lg_outstanding)) (r.(lg_committing)) (r.(lg_dev)) (r.(lh_n)) (r.(lh_block)).
#[export] Instance set_lg_start : Setter lg_start. Proof. derive_setter. Defined.
#[export] Instance set_lg_size : Setter lg_size. Proof. derive_setter. Defined.
#[export] Instance set_lg_outstanding : Setter lg_outstanding. Proof. derive_setter. Defined.
#[export] Instance set_lg_committing : Setter lg_committing. Proof. derive_setter. Defined.
#[export] Instance set_lg_dev : Setter lg_dev. Proof. derive_setter. Defined.
#[export] Instance set_lh_n : Setter lh_n. Proof. derive_setter. Defined.
#[export] Instance set_lh_block : Setter lh_block. Proof. derive_setter. Defined.

(** The console's [input] (console.c). *)
Record inputbuf := mkinput {
  in_buf : list Z;
  in_r : Z;
  in_w : Z;
  in_e : Z
}.
#[export] Instance eta_inputbuf : Eta inputbuf := fun r => mkinput (r.(in_buf)) (r.(in_r)) (r.(in_w)) (r.(in_e)).
#[export] Instance set_in_buf : Setter in_buf. Proof. derive_setter. Defined.
#[export] Instance set_in_r : Setter in_r. Proof. derive_setter. Defined.
#[export] Instance set_in_w : Setter in_w. Proof. derive_setter. Defined.
#[export] Instance set_in_e : Setter in_e. Proof. derive_setter. Defined.

(** The drivers the device switch [devsw] can point to. *)
Inductive driver := DrvConsole.

(** An operation on a device: an instruction on one of the processor's ports, or
    an access to a memory-mapped register.  What an input gave is kept with it. *)
Inductive ioop :=
| Outb (port v : Z) | Inb (port v : Z)
| Outsl (port : Z) (d : list Z) | Insl (port : Z) (d : list Z)
| Store (addr v : Z) | Fetch (addr v : Z).

(** The static variables of ide.c: idequeue and havedisk1, and the member qnext
    of every buffer. *)
Record idest := mkide {
  ide_queue : option nat;
  ide_qnext : list (option nat);
  ide_havedisk1 : Z
}.
#[export] Instance eta_idest : Eta idest := fun r => mkide (r.(ide_queue)) (r.(ide_qnext)) (r.(ide_havedisk1)).
#[export] Instance set_ide_queue : Setter ide_queue. Proof. derive_setter. Defined.
#[export] Instance set_ide_qnext : Setter ide_qnext. Proof. derive_setter. Defined.
#[export] Instance set_ide_havedisk1 : Setter ide_havedisk1. Proof. derive_setter. Defined.


(** ** The kernel

    - [k_apicid], [k_if], [k_cr3]: the executing processor's APIC id, interrupt flag and %cr3;
    - [k_cpus]: cpus[0..ncpu) (mp.c); [k_locks], [k_slocks]: all spin and sleep locks;
    - [k_procs], [k_initproc], [k_nextpid], [k_rseed], [k_first]: proc.c; [k_ticks]: trap.c;
    - [k_end], [k_datasym]: the linker symbols end and data; [k_mem]: the bytes of
      physical memory at their kernel virtual addresses; [k_use_lock], [k_freelist]:
      kmem of kalloc.c; [k_kpgdir]: vm.c;
    - [k_bufs], [k_lru]: bcache of bio.c, [k_lru] the buffers in list order from head.next;
    - [k_disksize], [k_disk]: memide.c; [k_writes]: the block writes so far, newest
      last (not in the C code; it lets a theorem speak of a crash between two writes);
    - [k_log], [k_sb], [k_inodes]: log.c and fs.c; [k_files], [k_devsw]: file.c;
      [k_pipes]: the pipes by the address of their page;
    - [k_conslocking], [k_panicked], [k_input]: console.c; [k_uart]: uart.c, [k_serial]
      the bytes sent to the serial port, newest last; [k_crtpos], [k_crt]: the cursor
      register and the text memory of the display; [k_shift]: kbd.c; [k_cr2]: %cr2;
      [k_kbdin], [k_serialin]: the bytes the keyboard and the serial port have to deliver;
    - [k_io]: the device operations so far, newest first (not in the C code; the
      devices answer according to it); [k_ide]: ide.c; [k_lapic], [k_ioapicid]: the
      variables lapic and ioapicid that mp.c sets; [k_idt]: idt of trap.c;
      [k_cpusym]: the address of cpus. *)
Record kernel := mkkernel {
  k_apicid : Z;
  k_if : bool;
  k_cr3 : Z;
  k_cpus : list cpu;
  k_locks : gmap lockid spinlock;
  k_slocks : gmap sleepid sleeplock;
  k_procs : list proc;
  k_initproc : option nat;
  k_nextpid : Z;
  k_rseed : Z;
  k_first : Z;
  k_ticks : Z;
  k_end : Z;
  k_datasym : Z;
  k_mem : Z -> Z;
  k_use_lock : Z;
  k_freelist : Z;
  k_kpgdir : Z;
  k_bufs : list buf;
  k_lru : list nat;
  k_disksize : Z;
  k_disk : Z -> list Z;
  k_writes : list (Z * list Z);
  k_log : logst;
  k_sb : superblock;
  k_inodes : list inode;
  k_files : list file;
  k_pipes : gmap Z pipe;
  k_devsw : list (option driver);
  k_conslocking : Z;
  k_panicked : Z;
  k_input : inputbuf;
  k_uart : Z;
  k_serial : list Z;
  k_crtpos : Z;
  k_crt : Z -> Z;
  k_shift : Z;
  k_cr2 : Z;
  k_kbdin : list Z;
  k_serialin : list Z;
  k_io : list ioop;
  k_ide : idest;
  k_lapic : Z;
  k_ioapicid : Z;
  k_idt : list gatedesc;
  k_cpusym : Z
}.
#[export] Instance eta_kernel : Eta kernel := fun r => mkkernel (r.(k_apicid)) (r.(k_if)) (r.(k_cr3)) (r.(k_cpus)) (r.(k_locks)) (r.(k_slocks)) (r.(k_procs)) (r.(k_initproc)) (r.(k_nextpid)) (r.(k_rseed)) (r.(k_first)) (r.(k_ticks)) (r.(k_end)) (r.(k_datasym)) (r.(k_mem)) (r.(k_use_lock)) (r.(k_freelist)) (r.(k_kpgdir)) (r.(k_bufs)) (r.(k_lru)) (r.(k_disksize)) (r.(k_disk)) (r.(k_writes)) (r.(k_log)) (r.(k_sb)) (r.(k_inodes)) (r.(k_files)) (r.(k_pipes)) (r.(k_devsw)) (r.(k_conslocking)) (r.(k_panicked)) (r.(k_input)) (r.(k_uart)) (r.(k_serial)) (r.(k_crtpos)) (r.(k_crt)) (r.(k_shift)) (r.(k_cr2)) (r.(k_kbdin)) (r.(k_serialin)) (r.(k_io)) (r.(k_ide)) (r.(k_lapic)) (r.(k_ioapicid)) (r.(k_idt)) (r.(k_cpusym)).
#[export] Instance set_k_apicid : Setter k_apicid. Proof. derive_setter. Defined.
#[export] Instance set_k_if : Setter k_if. Proof. derive_setter. Defined.
#[export] Instance set_k_cr3 : Setter k_cr3. Proof. derive_setter. Defined.
#[export] Instance set_k_cpus : Setter k_cpus. Proof. derive_setter. Defined.
#[export] Instance set_k_locks : Setter k_locks. Proof. derive_setter. Defined.
#[export] Instance set_k_slocks : Setter k_slocks. Proof. derive_setter. Defined.
#[export] Instance set_k_procs : Setter k_procs. Proof. derive_setter. Defined.
#[export] Instance set_k_initproc : Setter k_initproc. Proof. derive_setter. Defined.
#[export] Instance set_k_nextpid : Setter k_nextpid. Proof. derive_setter. Defined.
#[export] Instance set_k_rseed : Setter k_rseed. Proof. derive_setter. Defined.
#[export] Instance set_k_first : Setter k_first. Proof. derive_setter. Defined.
#[export] Instance set_k_ticks : Setter k_ticks. Proof. derive_setter. Defined.
#[export] Instance set_k_end : Setter k_end. Proof. derive_setter. Defined.
#[export] Instance set_k_datasym : Setter k_datasym. Proof. derive_setter. Defined.
#[export] Instance set_k_mem : Setter k_mem. Proof. derive_setter. Defined.
#[export] Instance set_k_use_lock : Setter k_use_lock. Proof. derive_setter. Defined.
#[export] Instance set_k_freelist : Setter k_freelist. Proof. derive_setter. Defined.
#[export] Instance set_k_kpgdir : Setter k_kpgdir. Proof. derive_setter. Defined.
#[export] Instance set_k_bufs : Setter k_bufs. Proof. derive_setter. Defined.
#[export] Instance set_k_lru : Setter k_lru. Proof. derive_setter. Defined.
#[export] Instance set_k_disksize : Setter k_disksize. Proof. derive_setter. Defined.
#[export] Instance set_k_disk : Setter k_disk. Proof. derive_setter. Defined.
#[export] Instance set_k_writes : Setter k_writes. Proof. derive_setter. Defined.
#[export] Instance set_k_log : Setter k_log. Proof. derive_setter. Defined.
#[export] Instance set_k_sb : Setter k_sb. Proof. derive_setter. Defined.
#[export] Instance set_k_inodes : Setter k_inodes. Proof. derive_setter. Defined.
#[export] Instance set_k_files : Setter k_files. Proof. derive_setter. Defined.
#[export] Instance set_k_pipes : Setter k_pipes. Proof. derive_setter. Defined.
#[export] Instance set_k_devsw : Setter k_devsw. Proof. derive_setter. Defined.
#[export] Instance set_k_conslocking : Setter k_conslocking. Proof. derive_setter. Defined.
#[export] Instance set_k_panicked : Setter k_panicked. Proof. derive_setter. Defined.
#[export] Instance set_k_input : Setter k_input. Proof. derive_setter. Defined.
#[export] Instance set_k_uart : Setter k_uart. Proof. derive_setter. Defined.
#[export] Instance set_k_serial : Setter k_serial. Proof. derive_setter. Defined.
#[export] Instance set_k_crtpos : Setter k_crtpos. Proof. derive_setter. Defined.
#[export] Instance set_k_crt : Setter k_crt. Proof. derive_setter. Defined.
#[export] Instance set_k_shift : Setter k_shift. Proof. derive_setter. Defined.
#[export] Instance set_k_cr2 : Setter k_cr2. Proof. derive_setter. Defined.
#[export] Instance set_k_kbdin : Setter k_kbdin. Proof. derive_setter. Defined.
#[export] Instance set_k_serialin : Setter k_serialin. Proof. derive_setter. Defined.
#[export] Instance set_k_io : Setter k_io. Proof. derive_setter. Defined.
#[export] Instance set_k_ide : Setter k_ide. Proof. derive_setter. Defined.
#[export] Instance set_k_lapic : Setter k_lapic. Proof. derive_setter. Defined.
#[export] Instance set_k_ioapicid : Setter k_ioapicid. Proof. derive_setter. Defined.
#[export] Instance set_k_idt : Setter k_idt. Proof. derive_setter. Defined.
#[export] Instance set_k_cpusym : Setter k_cpusym. Proof. derive_setter. Defined.


(** A kernel function. *)
Abbreviation K := (thread kernel).

(** ** The kernel's static storage when it is loaded

    Everything is zero except the initialised variables [nextpid], [rseed] and
    forkret's [first]; one processor with local APIC id 0 executes with
    interrupts off. *)
Definition zero_frame : trapframe := mktrapframe 0 0 0 0 0 0 0 0 0 0 0 0 0 0 0 0 0 0 0.
Definition zero_context : context := mkcontext 0 0 0 0 0.
Definition zero_proc : proc :=
  mkproc 0 0 0 UNUSED 0 None 0 zero_frame 0 zero_context None 0
    (replicate NOFILE None) None (replicate 16 0) 0 0.
Definition zero_buf : buf := mkbuf 0 0 0 0 (replicate (Z.to_nat BSIZE) 0).
Definition zero_file : file := mkfile FD_NONE 0 0 0 0 None 0.
Definition zero_inode : inode := mkinode 0 0 0 0 0 0 0 0 0 (replicate 13 0).
Definition zero_seg : segdesc := mkseg 0 0 0 0 0 0 0 0 0 0 0 0 0.
Definition zero_gate : gatedesc := mkgate 0 0 0 0 0 0 0 0 0.
Definition boot_cpu : cpu := mkcpu 0 0 0 0 None 0 0 0 (replicate 6 zero_seg) 0 0 0.

Definition loaded (kend data : Z) : kernel :=
  mkkernel 0 false 0 [boot_cpu] ∅ ∅
    (replicate NPROC zero_proc) None 1 1898888478 1
    0 kend data (fun _ => 0) 0 0 0
    (replicate NBUF zero_buf) [] 0 (fun _ => replicate (Z.to_nat BSIZE) 0) []
    (mklog 0 0 0 0 0 0 (replicate (Z.to_nat LOGSIZE) 0)) (mksuperblock 0 0 0 0 0 0 0)
    (replicate NINODE zero_inode) (replicate NFILE zero_file) ∅ (replicate (Z.to_nat NDEV) None)
    0 0 (mkinput (replicate 128 0) 0 0 0) 0 [] 0 (fun _ => 0) 0 0 [] []
    [] (mkide None (replicate NBUF None) 0) 0 0 (replicate 256 zero_gate) data.
