(* ===== verification/Io.v ===== *)
(** * Device operations: the port instructions of x86.h, memory-mapped registers

    Every operation is added to the history [k_io]; what an input gives is the
    answer of the device, which the class [Hardware] gives as a function of the
    history.  Nothing else is assumed of a device here: the files of the drivers
    state what they need of theirs. *)

From S2P Require Import Prelude State.

Class Hardware := {
  (** the byte an inb reads; the bytes an insl of [n] words reads; a register load *)
  hw_in : list ioop -> Z -> Z;
  hw_block : list ioop -> Z -> Z -> list Z;
  hw_load : list ioop -> Z -> Z
}.

Definition io (o : ioop) : K unit := modify (fun s => s<|k_io ::= cons o|>).

Definition outb (port data : Z) : K unit := io (Outb port (u8 data)).
(** [cnt] words of four bytes from the front of [d]. *)
Definition outsl (port : Z) (d : list Z) (cnt : Z) : K unit :=
  io (Outsl port (take (Z.to_nat (4 * cnt)) d)).
(** A store to a memory-mapped register of 32 bits. *)
Definition mmio_store (addr v : Z) : K unit := io (Store addr (u32 v)).

Section Inputs.
Context {H : Hardware}.

Definition inb (port : Z) : K Z :=
  let! s := get in
  let v := u8 (hw_in s.(k_io) port) in
  io (Inb port v) ;;;
  ret v.

Definition insl (port cnt : Z) : K (list Z) :=
  let! s := get in
  let d := hw_block s.(k_io) port cnt in
  io (Insl port d) ;;;
  ret d.

Definition mmio_load (addr : Z) : K Z :=
  let! s := get in
  let v := u32 (hw_load s.(k_io) addr) in
  io (Fetch addr v) ;;;
  ret v.
End Inputs.

(** What each operation does. *)
Lemma outb_spec p v s : outb p v s = Ret tt (s<|k_io ::= cons (Outb p (u8 v))|>).
Proof. reflexivity. Qed.

Lemma inb_spec {H : Hardware} p s :
  inb p s = Ret (u8 (hw_in s.(k_io) p)) (s<|k_io ::= cons (Inb p (u8 (hw_in s.(k_io) p)))|>).
Proof. reflexivity. Qed.

Lemma insl_spec {H : Hardware} p n s :
  insl p n s = Ret (hw_block s.(k_io) p n) (s<|k_io ::= cons (Insl p (hw_block s.(k_io) p n))|>).
Proof. reflexivity. Qed.

Lemma mmio_store_spec a v s : mmio_store a v s = Ret tt (s<|k_io ::= cons (Store a (u32 v))|>).
Proof. reflexivity. Qed.

Lemma mmio_load_spec {H : Hardware} a s :
  mmio_load a s = Ret (u32 (hw_load s.(k_io) a)) (s<|k_io ::= cons (Fetch a (u32 (hw_load s.(k_io) a)))|>).
Proof. reflexivity. Qed.

#[global] Opaque outb inb insl mmio_store mmio_load.
