(* ===== verification/Spinlock.v ===== *)
(** * Spin locks and interrupt nesting: spinlock.c, and mycpu/myproc of proc.c

    First the code of one processor as threads over [kernel], with the exact
    effect of pushcli, popcli, holding, acquire and release; then the same
    acquire and release run by several processors at once, as a step relation
    at the granularity of the atomic instructions, with mutual exclusion. *)

From S2P Require Import Prelude State.

Definition FL_IF : Z := 0x200.

(** ** The code *)

Definition readeflags : K Z := gets (fun s => if s.(k_if) then FL_IF else 0).
Definition cli : K unit := modify (fun s => s<|k_if := false|>).
Definition sti : K unit := modify (fun s => s<|k_if := true|>).

(** The index in [cpus] of the executing processor. *)
Definition me (s : kernel) : option nat :=
  fst <$> list_find (fun c => c.(c_apicid) = s.(k_apicid)) s.(k_cpus).

Definition mycpu : K nat :=
  let! eflags := readeflags in
  if truth (Z.land eflags FL_IF) then panic "mycpu called with interrupts enabled"
  else
    let! s := get in
    match me s with
    | Some i => ret i
    | None => panic "unknown apicid"
    end.

Definition cpuid : K nat := mycpu.

Definition cpu_at (i : nat) : K cpu :=
  let! s := get in
  match s.(k_cpus) !! i with
  | Some c => ret c
  | None => panic "cpus: index out of range"
  end.

Definition upd_cpu (i : nat) (f : cpu -> cpu) (s : kernel) : kernel :=
  s<|k_cpus ::= alter f i|>.

Definition pushcli : K unit :=
  let! eflags := readeflags in
  cli ;;;
  let! i := mycpu in
  let! c := cpu_at i in
  (if! c.(c_ncli) =? 0 then!
     modify (upd_cpu i (fun c => c<|c_intena := Z.land eflags FL_IF|>))) ;;;
  modify (upd_cpu i (fun c => c<|c_ncli := c.(c_ncli) + 1|>)).

Definition popcli : K unit :=
  let! eflags := readeflags in
  if truth (Z.land eflags FL_IF) then panic "popcli - interruptible"
  else
    let! i := mycpu in
    modify (upd_cpu i (fun c => c<|c_ncli := c.(c_ncli) - 1|>)) ;;;
    let! c := cpu_at i in
    if c.(c_ncli) <? 0 then panic "popcli"
    else if! (c.(c_ncli) =? 0) && truth c.(c_intena) then! sti.

Definition lock_of (lk : lockid) (s : kernel) : spinlock :=
  default (mkspinlock 0 None) (s.(k_locks) !! lk).
Definition upd_lock (lk : lockid) (f : spinlock -> spinlock) (s : kernel) : kernel :=
  s<|k_locks ::= <[lk := f (lock_of lk s)]>|>.

Definition initlock (lk : lockid) : K unit :=
  modify (upd_lock lk (fun _ => mkspinlock 0 None)).

Definition holding (lk : lockid) : K bool :=
  pushcli ;;;
  let! s := get in
  let! i := mycpu in
  let r := truth (lock_of lk s).(locked) && bool_decide ((lock_of lk s).(lk_cpu) = Some i) in
  popcli ;;;
  ret r.

(** [xchg(&lk->locked, 1)]: the old value, and the lock word set. *)
Definition xchg_locked (lk : lockid) : K Z :=
  let! s := get in
  modify (upd_lock lk (fun l => l<|locked := 1|>)) ;;;
  ret (lock_of lk s).(locked).

(** The spin loop: on the executing processor alone nobody else clears the
    word, so a first failure is a failure for ever. *)
Definition spin (lk : lockid) : K unit :=
  let! old := xchg_locked lk in
  if old =? 0 then ret tt else (fun s => Spin s).

Definition acquire (lk : lockid) : K unit :=
  pushcli ;;;
  let! h := holding lk in
  if h then panic "acquire"
  else
    spin lk ;;;
    let! i := mycpu in
    modify (upd_lock lk (fun l => l<|lk_cpu := Some i|>)).

Definition release (lk : lockid) : K unit :=
  let! h := holding lk in
  if negb h then panic "release"
  else
    modify (upd_lock lk (fun l => l<|lk_cpu := None|>)) ;;;
    modify (upd_lock lk (fun l => l<|locked := 0|>)) ;;;
    popcli.

(** proc.c: the process the processor runs. *)
Definition myproc : K (option nat) :=
  pushcli ;;;
  let! i := mycpu in
  let! c := cpu_at i in
  popcli ;;;
  ret c.(c_proc).

(** ** What one processor observes *)

Lemma list_find_alter {A} (P : A -> Prop) `{!forall x, Decision (P x)} (f : A -> A)
    (i : nat) (l : list A) :
  (forall x, P (f x) <-> P x) ->
  fst <$> list_find P (alter f i l) = fst <$> list_find P l.
Proof.
  intros HP. revert i. induction l as [|x l IH]; intros [|i]; simpl; try done.
  - destruct (decide (P (f x))), (decide (P x)); naive_solver.
  - destruct (decide (P x)); [done|]. specialize (IH i). revert IH.
    change (list_alter f i l) with (alter f i l).
    destruct (list_find P (alter f i l)) as [[??]|], (list_find P l) as [[??]|]; naive_solver.
Qed.

(** The processor is known, its nesting count is sane, and interrupts are off
    inside a pushcli. *)
Definition cpu_ok (i : nat) (c : cpu) (s : kernel) : Prop :=
  me s = Some i /\ s.(k_cpus) !! i = Some c /\ 0 <= c.(c_ncli) /\
  (0 < c.(c_ncli) -> s.(k_if) = false).

Definition if_word (s : kernel) : Z := if s.(k_if) then FL_IF else 0.

(** The processor's record after pushcli. *)
Definition pushed (s : kernel) (c : cpu) : cpu :=
  c<|c_intena := if c.(c_ncli) =? 0 then if_word s else c.(c_intena)|>
   <|c_ncli := c.(c_ncli) + 1|>.

Lemma me_upd_cpu i f s : (forall c, (f c).(c_apicid) = c.(c_apicid)) -> me (upd_cpu i f s) = me s.
Proof.
  intros Hf. unfold me, upd_cpu. cbn. apply list_find_alter. intros x. by rewrite Hf.
Qed.

Lemma me_off s : me (s<|k_if := false|>) = me s.
Proof. done. Qed.

Lemma truth_if (b : bool) : truth (Z.land (if b then FL_IF else 0) FL_IF) = b.
Proof. by destruct b. Qed.

Lemma mycpu_off i s : s.(k_if) = false -> me s = Some i -> mycpu s = Ret i s.
Proof.
  intros Hif Hme. unfold mycpu. kret. rewrite truth_if, Hif. kret. by rewrite Hme.
Qed.

Lemma mycpu_on s : s.(k_if) = true -> mycpu s = Panic "mycpu called with interrupts enabled" s.
Proof. intros Hif. unfold mycpu. kret. by rewrite truth_if, Hif. Qed.

Lemma cpu_at_spec i c s : s.(k_cpus) !! i = Some c -> cpu_at i s = Ret c s.
Proof. intros H. unfold cpu_at. kret. by rewrite H. Qed.

Lemma upd_cpu_set i f c s :
  s.(k_cpus) !! i = Some c -> upd_cpu i f s = s<|k_cpus ::= <[i := f c]>|>.
Proof.
  intros H. unfold upd_cpu, setf, set_k_cpus. f_equal. by apply alter_insert.
Qed.

Lemma land_if_word s : Z.land (if_word s) FL_IF = if_word s.
Proof. unfold if_word. by destruct (k_if s). Qed.

Lemma pushcli_spec i c s :
  cpu_ok i c s ->
  pushcli s = Ret tt (s<|k_if := false|><|k_cpus ::= <[i := pushed s c]>|>).
Proof.
  intros (Hme & Hc & _ & _). unfold pushcli.
  kret. fold (if_word s). kret. kret_by (by apply (mycpu_off i)). kret_by (by apply (cpu_at_spec i c)).
  unfold pushed. destruct (c_ncli c =? 0) eqn:E; kret; unfold modify; f_equal.
  - rewrite land_if_word, (upd_cpu_set i _ c (s<|k_if := false|>)) by done.
    erewrite upd_cpu_set by (cbn; apply list_lookup_insert_eq; by eapply lookup_lt_Some).
    cbn. unfold setf, set_k_cpus; cbn. by rewrite list_insert_insert_eq.
  - by rewrite (upd_cpu_set i _ c).
Qed.

(** The effect of a matched pushcli/popcli pair: nothing, except that the
    outermost pair leaves the interrupt state it saved in [intena]. *)
Definition settled (s : kernel) (c : cpu) : cpu :=
  c<|c_intena := if c.(c_ncli) =? 0 then if_word s else c.(c_intena)|>.
Definition settle (i : nat) (s : kernel) : kernel := upd_cpu i (settled s) s.

(** popcli when the count is positive: it decrements, and re-enables interrupts
    when the count reaches zero and they were enabled at the outermost pushcli. *)
Lemma popcli_spec i c s :
  me s = Some i -> s.(k_cpus) !! i = Some c -> 0 < c.(c_ncli) -> s.(k_if) = false ->
  popcli s =
    Ret tt (s<|k_cpus ::= <[i := c<|c_ncli := c.(c_ncli) - 1|>]>|>
             <|k_if := (c.(c_ncli) =? 1) && truth c.(c_intena)|>).
Proof.
  intros Hme Hc Hn Hif. unfold popcli.
  kret. rewrite truth_if, Hif. kret_by (by apply (mycpu_off i)). kret.
  rewrite (upd_cpu_set i _ c) by done.
  kret_by (apply cpu_at_spec; cbn; apply list_lookup_insert_eq; by eapply lookup_lt_Some).
  cbn. replace (c_ncli c - 1 <? 0) with false by lia.
  replace (c_ncli c - 1 =? 0) with (c_ncli c =? 1) by lia.
  destruct ((c_ncli c =? 1) && truth (c_intena c)); unfold sti, modify, ret; f_equal.
  unfold setf, set_k_cpus, set_k_if; cbn. by rewrite Hif.
Qed.

(** Too many popcli's panic, and so does popcli with interrupts enabled. *)
Lemma popcli_unbalanced i c s :
  me s = Some i -> s.(k_cpus) !! i = Some c -> c.(c_ncli) <= 0 -> s.(k_if) = false ->
  exists s', popcli s = Panic "popcli" s'.
Proof.
  intros Hme Hc Hn Hif. unfold popcli.
  kret. rewrite truth_if, Hif. kret_by (by apply (mycpu_off i)). kret.
  rewrite (upd_cpu_set i _ c) by done.
  kret_by (apply cpu_at_spec; cbn; apply list_lookup_insert_eq; by eapply lookup_lt_Some).
  cbn. replace (c_ncli c - 1 <? 0) with true by lia. by eexists.
Qed.

Lemma settle_set i c s :
  s.(k_cpus) !! i = Some c -> settle i s = s<|k_cpus ::= <[i := settled s c]>|>.
Proof. intros. unfold settle. by apply upd_cpu_set. Qed.

Lemma truth_if_word s : truth (if_word s) = s.(k_if).
Proof. unfold if_word. by destruct (k_if s). Qed.

(** The state after pushcli. *)
Definition push_state (i : nat) (s : kernel) : kernel :=
  (upd_cpu i (pushed s) s)<|k_if := false|>.

Lemma push_state_set i c s :
  s.(k_cpus) !! i = Some c ->
  push_state i s = s<|k_if := false|><|k_cpus ::= <[i := pushed s c]>|>.
Proof. intros H. unfold push_state. by rewrite (upd_cpu_set i _ c). Qed.

Lemma me_push_state i s : me (push_state i s) = me s.
Proof. unfold push_state. by rewrite me_off, me_upd_cpu. Qed.

Lemma pushcli_state i c s : cpu_ok i c s -> pushcli s = Ret tt (push_state i s).
Proof.
  intros Hok. rewrite (pushcli_spec i c) by done. f_equal. symmetry.
  apply push_state_set, Hok.
Qed.

Lemma cpu_ok_push i c s : cpu_ok i c s -> cpu_ok i (pushed s c) (push_state i s).
Proof.
  intros (Hme & Hc & Hn & Hif). split_and!.
  - by rewrite me_push_state.
  - rewrite (push_state_set i c) by done. cbn.
    apply list_lookup_insert_eq. by eapply lookup_lt_Some.
  - cbn. lia.
  - done.
Qed.

(** popcli undoes pushcli. *)
Lemma popcli_push_state i c s :
  cpu_ok i c s -> popcli (push_state i s) = Ret tt (settle i s).
Proof.
  intros Hok. pose proof Hok as (Hme & Hc & Hn & Hif).
  destruct (cpu_ok_push i c s Hok) as (Hme' & Hc' & _ & _).
  rewrite (popcli_spec i (pushed s c)) by (done || cbn; lia).
  f_equal. rewrite (settle_set i c) by done. rewrite (push_state_set i c) by done.
  transitivity (s<|k_if := (c_ncli (pushed s c) =? 1) && truth (c_intena (pushed s c))|>
    <|k_cpus ::= fun l => <[i := (pushed s c)<|c_ncli := c_ncli (pushed s c) - 1|>]>
                            (<[i := pushed s c]> l)|>); [reflexivity|].
  replace ((c_ncli (pushed s c) =? 1) && truth (c_intena (pushed s c))) with (k_if s).
  - replace ((pushed s c)<|c_ncli := c_ncli (pushed s c) - 1|>) with (settled s c).
    + unfold setf at 1, set_k_cpus. rewrite list_insert_insert_eq. reflexivity.
    + unfold pushed, settled, setf, set_c_ncli, set_c_intena; cbn. f_equal. lia.
  - unfold pushed; cbn. destruct (c_ncli c =? 0) eqn:E; cbn.
    + replace (c_ncli c + 1 =? 1) with true by lia. by rewrite truth_if_word.
    + replace (c_ncli c + 1 =? 1) with false by lia. cbn. apply Hif. lia.
Qed.

Lemma mycpu_push_state i c s : cpu_ok i c s -> mycpu (push_state i s) = Ret i (push_state i s).
Proof. intros Hok. apply mycpu_off; [done|]. rewrite me_push_state. apply Hok. Qed.

Lemma holding_spec lk i c s :
  cpu_ok i c s ->
  holding lk s =
    Ret (truth (lock_of lk s).(locked) && bool_decide ((lock_of lk s).(lk_cpu) = Some i))
        (settle i s).
Proof.
  intros Hok. unfold holding. kret_by (by apply (pushcli_state i c)). kret.
  kret_by (by apply (mycpu_push_state i c)). by kret_by (by apply (popcli_push_state i c)).
Qed.

Lemma myproc_spec i c s : cpu_ok i c s -> myproc s = Ret c.(c_proc) (settle i s).
Proof.
  intros Hok. unfold myproc. kret_by (by apply (pushcli_state i c)).
  kret_by (by apply (mycpu_push_state i c)).
  kret_by (apply cpu_at_spec, (cpu_ok_push i c s Hok)).
  by kret_by (by apply (popcli_push_state i c)).
Qed.

(** Inside a pushcli, a nested pair has no effect at all. *)
Lemma settle_nested i c s :
  s.(k_cpus) !! i = Some c -> c.(c_ncli) <> 0 -> settle i s = s.
Proof.
  intros Hc Hn. rewrite (settle_set i c) by done. unfold settled.
  replace (c_ncli c =? 0) with false by lia.
  transitivity (s<|k_cpus := k_cpus s|>); [|reflexivity].
  unfold setf, set_k_cpus; cbn. by rewrite list_insert_id.
Qed.

Definition unlocked (lk : lockid) (s : kernel) : Prop :=
  s.(k_locks) !! lk = Some (mkspinlock 0 None).

(** The state after acquire. *)
Definition acq (lk : lockid) (i : nat) (s : kernel) : kernel :=
  (push_state i s)<|k_locks ::= <[lk := mkspinlock 1 (Some i)]>|>.

Lemma upd_lock_insert lk f l s :
  upd_lock lk f (s<|k_locks ::= <[lk := l]>|>) = s<|k_locks ::= <[lk := f l]>|>.
Proof.
  unfold upd_lock, lock_of, setf, set_k_locks; cbn.
  by rewrite lookup_insert_eq, insert_insert_eq.
Qed.

Lemma spin_free lk s :
  (lock_of lk s).(locked) = 0 -> spin lk s = Ret tt (upd_lock lk (fun l => l<|locked := 1|>) s).
Proof. intros H. unfold spin, xchg_locked, bind, get, modify, ret; cbn. by rewrite H. Qed.

Lemma spin_held lk s :
  (lock_of lk s).(locked) <> 0 -> exists s', spin lk s = Spin s'.
Proof.
  intros H. unfold spin, xchg_locked, bind, get, modify, ret; cbn.
  replace (locked (lock_of lk s) =? 0) with false by lia. by eexists.
Qed.

Lemma acquire_spec lk i c s :
  cpu_ok i c s -> (lock_of lk s).(locked) = 0 -> acquire lk s = Ret tt (acq lk i s).
Proof.
  intros Hok Hfree. unfold acquire.
  pose proof (cpu_ok_push i c s Hok) as Hok'.
  assert (Hlk : lock_of lk (push_state i s) = lock_of lk s) by done.
  kret_by (by apply (pushcli_state i c)).
  kret_by (by apply (holding_spec lk i _ _ Hok')).
  rewrite Hlk, Hfree. change (truth 0) with false. cbn [andb].
  rewrite (settle_nested i (pushed s c)); [|apply Hok'|cbn; destruct Hok as (?&?&?&?); lia].
  kret_by (apply spin_free; by rewrite Hlk).
  kret_by (apply (mycpu_off i); [done|]; apply Hok').
  unfold modify, acq. f_equal. unfold upd_lock at 2. by rewrite upd_lock_insert.
Qed.

(** A processor that already holds the lock panics instead of deadlocking. *)
Lemma acquire_held lk i c s :
  cpu_ok i c s -> (lock_of lk s).(locked) <> 0 -> (lock_of lk s).(lk_cpu) = Some i ->
  exists s', acquire lk s = Panic "acquire" s'.
Proof.
  intros Hok Hl Hcpu. unfold acquire.
  pose proof (cpu_ok_push i c s Hok) as Hok'.
  assert (Hlk : lock_of lk (push_state i s) = lock_of lk s) by done.
  kret_by (by apply (pushcli_state i c)).
  kret_by (by apply (holding_spec lk i _ _ Hok')).
  rewrite Hlk, Hcpu, bool_decide_eq_true_2 by done. unfold truth.
  replace (locked (lock_of lk s) =? 0) with false by lia. by eexists.
Qed.

(** Releasing the lock acquire took, with nothing in between that touches the
    processor or the lock: only the outermost pushcli's saved flag is left. *)
Lemma release_acq lk i c s :
  cpu_ok i c s -> unlocked lk s -> release lk (acq lk i s) = Ret tt (settle i s).
Proof.
  intros Hok Hlk. unfold release.
  pose proof (cpu_ok_push i c s Hok) as Hok'.
  assert (Hok'' : cpu_ok i (pushed s c) (acq lk i s)) by exact Hok'.
  assert (Hl : lock_of lk (acq lk i s) = mkspinlock 1 (Some i))
    by (unfold lock_of; cbn; by rewrite lookup_insert_eq).
  kret_by (by apply (holding_spec lk i _ _ Hok'')).
  rewrite Hl. cbn [locked lk_cpu]. rewrite bool_decide_eq_true_2 by done.
  change (truth 1) with true. cbn [andb negb].
  rewrite (settle_nested i (pushed s c)); [|apply Hok''|cbn; destruct Hok as (?&?&?&?); lia].
  kret. kret. erewrite <- (popcli_push_state i c) by done. f_equal.
  unfold acq. rewrite !upd_lock_insert.
  transitivity ((push_state i s)<|k_locks := s.(k_locks)|>); [|reflexivity].
  unfold setf, set_k_locks; cbn. f_equal. by apply insert_id.
Qed.

(** Releasing a lock this processor holds, whatever happened since. *)
Lemma release_holding lk i c s :
  cpu_ok i c s -> 0 < c.(c_ncli) ->
  truth (lock_of lk s).(locked) && bool_decide ((lock_of lk s).(lk_cpu) = Some i) = true ->
  release lk s =
    Ret tt (s<|k_locks ::= <[lk := (lock_of lk s)<|lk_cpu := None|><|locked := 0|>]>|>
             <|k_cpus ::= <[i := c<|c_ncli := c.(c_ncli) - 1|>]>|>
             <|k_if := (c.(c_ncli) =? 1) && truth c.(c_intena)|>).
Proof.
  intros Hok Hn Hh. pose proof Hok as (Hme & Hc & _ & Hif). unfold release.
  kret_by (by apply (holding_spec lk i _ _ Hok)). rewrite Hh. cbn [negb].
  rewrite (settle_nested i c) by (done || lia).
  kret. kret. unfold upd_lock at 2. rewrite upd_lock_insert.
  by rewrite (popcli_spec i c) by (try done; by apply Hif).
Qed.

Lemma release_spec lk i c s :
  cpu_ok i c s -> 0 < c.(c_ncli) -> s.(k_locks) !! lk = Some (mkspinlock 1 (Some i)) ->
  release lk s =
    Ret tt (s<|k_locks ::= <[lk := mkspinlock 0 None]>|>
             <|k_cpus ::= <[i := c<|c_ncli := c.(c_ncli) - 1|>]>|>
             <|k_if := (c.(c_ncli) =? 1) && truth c.(c_intena)|>).
Proof.
  intros Hok Hn Hl.
  assert (Hlk : lock_of lk s = mkspinlock 1 (Some i)) by (unfold lock_of; by rewrite Hl).
  rewrite (release_holding lk i c) by (try done; rewrite Hlk; cbn; by rewrite bool_decide_eq_true_2).
  by rewrite Hlk.
Qed.

(** [krelease lk i c s by tac] runs a release at the head of a sequence, after
    presenting the state as [acq lk i s]; [tac] shows the lock was free in [s]. *)
Tactic Notation "krelease" constr(lk) constr(i) constr(c) uconstr(s) "by" tactic3(tac) :=
  match goal with |- context [bind ?m ?f ?st] => change st with (acq lk i s) end;
  erewrite bind_ret by (apply (release_acq lk i c); tac); cbn beta.

(** A lock another processor holds: the word is rewritten and the spin goes on. *)
Lemma acquire_busy lk i c s :
  cpu_ok i c s -> (lock_of lk s).(locked) <> 0 -> (lock_of lk s).(lk_cpu) <> Some i ->
  acquire lk s = Spin (upd_lock lk (fun l => l<|locked := 1|>) (push_state i s)).
Proof.
  intros Hok Hl Hcpu. unfold acquire.
  pose proof (cpu_ok_push i c s Hok) as Hok'.
  assert (Hlk : lock_of lk (push_state i s) = lock_of lk s) by done.
  kret_by (by apply (pushcli_state i c)).
  kret_by (by apply (holding_spec lk i _ _ Hok')).
  rewrite Hlk, bool_decide_eq_false_2, andb_false_r by done.
  rewrite (settle_nested i (pushed s c)); [|apply Hok'|cbn; destruct Hok as (?&?&?&?); lia].
  unfold bind at 1, spin, xchg_locked, bind, get, modify, ret; cbn.
  by replace (locked (lock_of lk (push_state i s)) =? 0) with false by (rewrite Hlk; lia).
Qed.

(** A lock this processor does not hold cannot be released. *)
Lemma release_not_held lk i c s :
  cpu_ok i c s -> truth (lock_of lk s).(locked) && bool_decide ((lock_of lk s).(lk_cpu) = Some i) = false ->
  exists s', release lk s = Panic "release" s'.
Proof.
  intros Hok Hh. unfold release. kret_by (by apply (holding_spec lk i _ _ Hok)).
  rewrite Hh. by eexists.
Qed.

(** From here on the specifications above are used, not the bodies. *)
#[global] Opaque mycpu pushcli popcli holding acquire release myproc.

(** ** Several processors

    The processors of [m_harts] share one lock.  [hart_step] splits acquire and
    release where another processor can interleave: after pushcli and the
    holding check ([Spinning]), at each xchg, between the successful xchg and
    the store to [lk->cpu] ([Taken]), in the critical section ([Critical]), and
    between the store that clears [lk->cpu] and the one that clears the lock
    word ([Clearing]). *)
Module Smp.

Inductive pc := Idle | Spinning | Taken | Critical | Clearing.
#[export] Instance pc_eq_dec : EqDecision pc.
Proof. solve_decision. Defined.

Record hart := mkhart { h_pc : pc; h_if : bool; h_cpu : cpu }.
Record smp := mksmp { m_lock : spinlock; m_harts : list hart }.

(** The processor and interrupt flag after pushcli and popcli. *)
Definition push_hart (p : pc) (h : hart) : hart :=
  let c := h_cpu h in
  mkhart p false
    (c<|c_intena := if c.(c_ncli) =? 0 then (if h_if h then FL_IF else 0) else c.(c_intena)|>
      <|c_ncli := c.(c_ncli) + 1|>).
Definition pop_hart (p : pc) (h : hart) : hart :=
  let c := h_cpu h in
  mkhart p ((c.(c_ncli) =? 1) && truth c.(c_intena)) (c<|c_ncli := c.(c_ncli) - 1|>).
Definition at_pc (p : pc) (h : hart) : hart := mkhart p (h_if h) (h_cpu h).

(** The result of the holding check on processor [i]. *)
Definition holds (i : nat) (m : smp) : bool :=
  truth (m_lock m).(locked) && bool_decide ((m_lock m).(lk_cpu) = Some i).

Definition set_hart (i : nat) (h : hart) (m : smp) : smp :=
  mksmp (m_lock m) (<[i := h]> (m_harts m)).
Definition set_lock (l : spinlock) (m : smp) : smp := mksmp l (m_harts m).

Inductive hart_step (i : nat) (m : smp) : smp -> Prop :=
| step_enter h :
    m_harts m !! i = Some h -> h_pc h = Idle -> holds i m = false ->
    hart_step i m (set_hart i (push_hart Spinning h) m)
| step_xchg_busy h :
    m_harts m !! i = Some h -> h_pc h = Spinning -> (m_lock m).(locked) <> 0 ->
    hart_step i m (set_lock ((m_lock m)<|locked := 1|>) m)
| step_xchg_won h :
    m_harts m !! i = Some h -> h_pc h = Spinning -> (m_lock m).(locked) = 0 ->
    hart_step i m (set_hart i (at_pc Taken h) (set_lock ((m_lock m)<|locked := 1|>) m))
| step_record h :
    m_harts m !! i = Some h -> h_pc h = Taken ->
    hart_step i m (set_hart i (at_pc Critical h) (set_lock ((m_lock m)<|lk_cpu := Some i|>) m))
| step_clear_cpu h :
    m_harts m !! i = Some h -> h_pc h = Critical -> holds i m = true ->
    hart_step i m (set_hart i (at_pc Clearing h) (set_lock ((m_lock m)<|lk_cpu := None|>) m))
| step_clear_word h :
    m_harts m !! i = Some h -> h_pc h = Clearing ->
    hart_step i m (set_hart i (pop_hart Idle h) (set_lock ((m_lock m)<|locked := 0|>) m)).

Definition step (m m' : smp) : Prop := exists i, hart_step i m m'.

Definition owns (h : hart) : bool :=
  match h_pc h with Taken | Critical | Clearing => true | _ => false end.

Definition initial (m : smp) : Prop :=
  m_lock m = mkspinlock 0 None /\
  Forall (fun h => h_pc h = Idle /\ 0 <= c_ncli (h_cpu h) /\
                   (0 < c_ncli (h_cpu h) -> h_if h = false)) (m_harts m).

Record inv (m : smp) : Prop := {
  inv_one : forall i j hi hj,
    m_harts m !! i = Some hi -> m_harts m !! j = Some hj -> owns hi -> owns hj -> i = j;
  inv_word : (m_lock m).(locked) <> 0 <-> exists i h, m_harts m !! i = Some h /\ owns h;
  inv_cpu : forall i,
    (m_lock m).(lk_cpu) = Some i <-> exists h, m_harts m !! i = Some h /\ h_pc h = Critical;
  inv_if : forall i h, m_harts m !! i = Some h ->
    0 <= c_ncli (h_cpu h) /\ (0 < c_ncli (h_cpu h) -> h_if h = false) /\
    (h_pc h <> Idle -> 0 < c_ncli (h_cpu h))
}.

Lemma inv_initial m : initial m -> inv m.
Proof.
  intros [Hl Hall]. rewrite Forall_lookup in Hall. split.
  - intros i j hi hj Hi _ Ho. destruct (Hall _ _ Hi) as [E _]. unfold owns in Ho. by rewrite E in Ho.
  - rewrite Hl. split; [done|]. intros (i & h & Hi & Ho).
    destruct (Hall _ _ Hi) as [E _]. unfold owns in Ho. by rewrite E in Ho.
  - intros i. rewrite Hl. split; [done|]. intros (h & Hi & E).
    destruct (Hall _ _ Hi) as [E' _]. congruence.
  - intros i h Hi. destruct (Hall _ _ Hi) as (E & Hn & Hif). by rewrite E.
Qed.

Lemma lookup_set_hart i j h h' m l :
  m_harts m !! i = Some h ->
  m_harts (set_hart i h' (set_lock l m)) !! j = if decide (i = j) then Some h' else m_harts m !! j.
Proof.
  intros Hi. cbn. case_decide as E.
  - subst. apply list_lookup_insert_eq. by eapply lookup_lt_Some.
  - by apply list_lookup_insert_ne.
Qed.

(** How the ownership facts move when hart [i] becomes [h'] and the lock [l]. *)
Lemma inv_update i h h' l m :
  inv m -> m_harts m !! i = Some h ->
  (owns h' -> owns h \/ (m_lock m).(locked) = 0) ->
  (l.(locked) <> 0 <-> owns h' \/ ((m_lock m).(locked) <> 0 /\ ~ owns h)) ->
  (forall j, l.(lk_cpu) = Some j <->
     if decide (i = j) then h_pc h' = Critical else (m_lock m).(lk_cpu) = Some j) ->
  (0 <= c_ncli (h_cpu h') /\ (0 < c_ncli (h_cpu h') -> h_if h' = false) /\
   (h_pc h' <> Idle -> 0 < c_ncli (h_cpu h'))) ->
  inv (set_hart i h' (set_lock l m)).
Proof.
  intros [H1 Hw Hc Hf] Hi Ho Hl Hcpu Hif. split.
  - intros j k hj hk. rewrite !(lookup_set_hart i _ h) by done.
    repeat case_decide; intros; simplify_eq; try done.
    + destruct (Ho ltac:(done)) as [Ho'|Hz]; [by eapply (H1 j k)|].
      destruct Hw as [_ Hw]. exfalso. apply Hw; [eauto|done].
    + destruct (Ho ltac:(done)) as [Ho'|Hz]; [by eapply (H1 j k)|].
      destruct Hw as [_ Hw]. exfalso. apply Hw; [eauto|done].
    + eauto.
  - cbn [m_lock set_hart set_lock]. rewrite Hl, Hw. split.
    + intros [Ho'|[(j & hj & Hj & Hoj) Hno]].
      * exists i, h'. rewrite (lookup_set_hart i _ h) by done. by rewrite decide_True.
      * exists j, hj. rewrite (lookup_set_hart i _ h) by done.
        rewrite decide_False; [done|]. intros ->. by simplify_eq.
    + intros (j & hj & Hj & Hoj). rewrite (lookup_set_hart i _ h) in Hj by done.
      case_decide; simplify_eq; [by left|].
      destruct (decide (owns h)) as [Hoi|Hoi].
      * exfalso. by assert (i = j) by (by eapply H1).
      * right. eauto.
  - intros j. cbn [m_lock set_hart set_lock]. rewrite Hcpu.
    setoid_rewrite (lookup_set_hart i j h); [|done]. case_decide.
    + subst. split; [eauto|]. intros (? & ? & ?). by simplify_eq.
    + apply Hc.
  - intros j hj. rewrite (lookup_set_hart i _ h) by done. case_decide; intros; simplify_eq; eauto.
Qed.

Lemma inv_owner_word i h m :
  inv m -> m_harts m !! i = Some h -> owns h -> (m_lock m).(locked) <> 0.
Proof. intros [_ Hw _ _] ??. apply Hw. eauto. Qed.

Lemma inv_cpu_owner i h m :
  inv m -> m_harts m !! i = Some h -> (m_lock m).(lk_cpu) = Some i -> h_pc h = Critical.
Proof. intros [_ _ Hc _] Hi E. destruct (proj1 (Hc i) E) as (h' & ? & ?). by simplify_eq. Qed.

(** An owner that is not [Critical] is the only owner, so [lk->cpu] is null. *)
Lemma inv_cpu_none i h m :
  inv m -> m_harts m !! i = Some h -> owns h -> h_pc h <> Critical ->
  forall j, (m_lock m).(lk_cpu) <> Some j.
Proof.
  intros Hinv Hi Ho Hp j E. destruct Hinv as [H1 _ Hc _].
  destruct (proj1 (Hc j) E) as (h' & Hj & E').
  assert (i = j) as -> by (eapply H1; eauto; unfold owns; by rewrite E'). by simplify_eq.
Qed.

Lemma hart_step_inv i m m' : inv m -> hart_step i m m' -> inv m'.
Proof.
  intros Hinv Hstep. pose proof Hinv as [H1 Hw Hc Hf].
  destruct Hstep as [h Hi Hp Hh|h Hi Hp Hl|h Hi Hp Hl|h Hi Hp|h Hi Hp Hh|h Hi Hp];
    destruct (Hf _ _ Hi) as (Hn & Hif & Hpc).
  - assert (Hno : ~ owns h) by (unfold owns; rewrite Hp; by intros []).
    apply (inv_update i h _ (m_lock m)); try done.
    + cbn. naive_solver.
    + intros j. cbn. case_decide; [|done]. subst. split; [|done].
      intros E. pose proof (inv_cpu_owner _ _ _ Hinv Hi E). congruence.
    + cbn. split_and!; [lia|done|lia].
  - destruct m as [l hs]. cbn in *. split; cbn; [done| |done|done].
    rewrite <- Hw. naive_solver.
  - assert (Hno : ~ owns h) by (unfold owns; rewrite Hp; by intros []).
    apply (inv_update i h); cbn; try done; [by right|naive_solver| |].
    + intros j. case_decide; [|done]. subst. split; [|done].
      intros E. pose proof (inv_cpu_owner _ _ _ Hinv Hi E). congruence.
    + split_and!; [done..|]. intros _. apply Hpc. by rewrite Hp.
  - assert (Ho : owns h) by (unfold owns; by rewrite Hp).
    pose proof (inv_owner_word _ _ _ Hinv Hi Ho).
    apply (inv_update i h); cbn; try done; [by left|naive_solver| |].
    + intros j. case_decide; [naive_solver|]. split; [naive_solver|].
      intros E. exfalso. eapply (inv_cpu_none i h m); eauto. congruence.
    + split_and!; [done..|]. intros _. apply Hpc. by rewrite Hp.
  - assert (Ho : owns h) by (unfold owns; by rewrite Hp).
    pose proof (inv_owner_word _ _ _ Hinv Hi Ho).
    apply (inv_update i h); cbn; try done; [by left|naive_solver| |].
    + intros j. case_decide; [done|]. split; [done|]. intros E.
      destruct (proj1 (Hc j) E) as (h' & Hj & E').
      assert (Ho' : owns h') by (unfold owns; by rewrite E'). by assert (i = j) by eauto.
    + split_and!; [done..|]. intros _. apply Hpc. by rewrite Hp.
  - assert (Ho : owns h) by (unfold owns; by rewrite Hp).
    pose proof (inv_owner_word _ _ _ Hinv Hi Ho).
    apply (inv_update i h); cbn; try done.
    + naive_solver.
    + intros j. case_decide; [|done]. subst. split; [|done]. intros E.
      exfalso. eapply (inv_cpu_none j h m); eauto. congruence.
    + specialize (Hpc ltac:(congruence)). split_and!; [lia| |done].
      intros Hpos. by replace (c_ncli (h_cpu h) =? 1) with false by lia.
Qed.

Lemma reachable_inv m0 m : initial m0 -> rtc step m0 m -> inv m.
Proof.
  intros H0 Hr. apply inv_initial in H0. induction Hr as [|m1 m2 m3 [i Hi] _ IH]; [done|].
  apply IH. by eapply hart_step_inv.
Qed.

(** The next instruction of processor [i] runs into a panic: acquire's holding
    check, release's holding check, or one of the two checks of popcli. *)
Definition panics (i : nat) (m : smp) : Prop :=
  exists h, m_harts m !! i = Some h /\
    match h_pc h with
    | Idle => holds i m = true
    | Critical => holds i m = false
    | Clearing => h_if h = true \/ c_ncli (h_cpu h) - 1 < 0
    | _ => False
    end.

(** C6: at most one processor is between the successful xchg of acquire and the
    end of release, in every state the processors can reach together; and a
    processor anywhere inside acquire, the critical section or release has
    interrupts disabled. *)
Theorem mutual_exclusion (m0 m : smp) (H0 : initial m0) (Hr : rtc step m0 m) :
  (forall i j hi hj, m_harts m !! i = Some hi -> m_harts m !! j = Some hj ->
     owns hi -> owns hj -> i = j) /\
  (forall i h, m_harts m !! i = Some h -> h_pc h <> Idle -> h_if h = false).
Proof.
  pose proof (reachable_inv m0 m H0 Hr) as [H1 _ _ Hf]. split; [exact H1|].
  intros i h Hi Hp. destruct (Hf i h Hi) as (_ & Hif & Hn). auto.
Qed.

(** no reachable state lets acquire, release or popcli panic: the debugging
    field [lk->cpu] names exactly the processor in its critical section. *)
Theorem never_panics (m0 m : smp) (H0 : initial m0) (Hr : rtc step m0 m) (i : nat) :
  ~ panics i m.
Proof.
  pose proof (reachable_inv m0 m H0 Hr) as Hinv. pose proof Hinv as [_ Hw Hc Hf].
  intros (h & Hi & Hp). destruct (h_pc h) eqn:E; try done.
  - unfold holds in Hp. apply andb_true_iff in Hp as [_ Hp]. apply bool_decide_eq_true in Hp.
    pose proof (inv_cpu_owner _ _ _ Hinv Hi Hp). congruence.
  - unfold holds in Hp. rewrite bool_decide_eq_true_2 in Hp by (apply Hc; eauto).
    unfold truth in Hp.
    assert (Ho : owns h) by (unfold owns; by rewrite E).
    pose proof (inv_owner_word _ _ _ Hinv Hi Ho). lia.
  - destruct (Hf i h Hi) as (_ & Hif & Hn). rewrite E in Hn. specialize (Hn ltac:(done)).
    destruct Hp as [Hp|Hp]; [|lia]. rewrite Hif in Hp by lia. done.
Qed.

(** [freed i h m]: the lock can be released from [m] without hart [i], at [h], moving. *)
Definition freed (i : nat) (h : hart) (m : smp) : Prop :=
  exists m', rtc step m m' /\ inv m' /\ (m_lock m').(locked) = 0 /\ m_harts m' !! i = Some h.

Lemma freed_step i h j m m' : hart_step j m m' -> freed i h m' -> freed i h m.
Proof. intros Hs (m2 & ? & ?). exists m2. split; [|done]. eapply rtc_l; [by exists j|done]. Qed.

Section Owner.
Context (i j : nat) (h hj : hart) (m : smp) (Hinv : inv m) (Hij : j <> i).
Context (Hi : m_harts m !! i = Some h) (Hj : m_harts m !! j = Some hj).

Lemma kept h' l : m_harts (set_hart j h' (set_lock l m)) !! i = Some h.
Proof. rewrite (lookup_set_hart j _ hj), decide_False; done. Qed.

Lemma moved h' l : m_harts (set_hart j h' (set_lock l m)) !! j = Some h'.
Proof. rewrite (lookup_set_hart j _ hj), decide_True; done. Qed.

Lemma clearing_freed : h_pc hj = Clearing -> freed i h m.
Proof.
  intros Hp. pose proof (step_clear_word j m hj Hj Hp) as Hs.
  eapply freed_step; [exact Hs|]. eexists. split; [reflexivity|].
  split; [by eapply hart_step_inv|]. split; [done|apply kept].
Qed.
End Owner.

Lemma critical_freed i j h hj m :
  inv m -> j <> i -> m_harts m !! i = Some h -> m_harts m !! j = Some hj ->
  h_pc hj = Critical -> freed i h m.
Proof.
  intros Hinv Hij Hi Hj Hp.
  assert (Hh : holds j m = true).
  { unfold holds. rewrite bool_decide_eq_true_2 by (apply (inv_cpu m Hinv); eauto). unfold truth.
    assert (Ho : owns hj) by (unfold owns; by rewrite Hp).
    pose proof (inv_owner_word _ _ _ Hinv Hj Ho). lia. }
  pose proof (step_clear_cpu j m hj Hj Hp Hh) as Hs. eapply freed_step; [exact Hs|].
  eapply (clearing_freed i j); [by eapply hart_step_inv|done|by eapply kept|by eapply moved|done].
Qed.

Lemma owner_freed i j h hj m :
  inv m -> j <> i -> m_harts m !! i = Some h -> m_harts m !! j = Some hj -> owns hj -> freed i h m.
Proof.
  intros Hinv Hij Hi Hj Ho. unfold owns in Ho. destruct (h_pc hj) eqn:Hp; try done.
  - pose proof (step_record j m hj Hj Hp) as Hs. eapply freed_step; [exact Hs|].
    eapply (critical_freed i j); [by eapply hart_step_inv|done|by eapply kept|by eapply moved|done].
  - by eapply critical_freed.
  - by eapply clearing_freed.
Qed.

(** C7: a processor spinning in acquire can always still get the lock: from every
    reachable state there is a run in which the present owner leaves and the
    spinning processor enters its critical section. *)
Theorem spinner_enters (m0 m : smp) (H0 : initial m0) (Hr : rtc step m0 m) (i : nat) (h : hart)
    (Hi : m_harts m !! i = Some h) (Hp : h_pc h = Spinning) :
  exists m' h', rtc step m m' /\ m_harts m' !! i = Some h' /\ h_pc h' = Critical /\
    (m_lock m').(lk_cpu) = Some i.
Proof.
  pose proof (reachable_inv m0 m H0 Hr) as Hinv.
  assert (Hf : freed i h m).
  { destruct (decide ((m_lock m).(locked) = 0)) as [|Hz]; [by exists m|].
    apply (inv_word m Hinv) in Hz as (j & hj & Hj & Ho). eapply (owner_freed i j); [done| |done..].
    intros ->. simplify_eq. unfold owns in Ho. by rewrite Hp in Ho. }
  destruct Hf as (m1 & Hr1 & Hinv1 & Hz & Hi1).
  pose proof (step_xchg_won i m1 h Hi1 Hp Hz) as Hs1.
  assert (Hi2 : m_harts (set_hart i (at_pc Taken h) (set_lock ((m_lock m1)<|locked := 1|>) m1)) !! i
                = Some (at_pc Taken h)) by (rewrite (lookup_set_hart i _ h), decide_True; done).
  pose proof (step_record i _ _ Hi2 eq_refl) as Hs2.
  eexists _, _. split.
  - etrans; [exact Hr1|]. eapply rtc_l; [by exists i|]. eapply rtc_once. by exists i.
  - split; [rewrite (lookup_set_hart i _ (at_pc Taken h)), decide_True; done|done].
Qed.

(** Two processors contending: the first holds the lock, the second spins. *)
Definition two_cpus : smp :=
  let c a := mkhart Idle true (boot_cpu<|c_apicid := a|><|c_started := 1|>) in
  mksmp (mkspinlock 0 None) [c 0; c 1].

Definition contended : smp :=
  mksmp (mkspinlock 1 (Some 0%nat))
    ((fun p => mkhart p.1 false (boot_cpu<|c_apicid := p.2|><|c_started := 1|><|c_intena := FL_IF|><|c_ncli := 1|>))
       <$> [(Critical, 0); (Spinning, 1)]).

Lemma two_cpus_initial : initial two_cpus.
Proof. unfold initial. split; [reflexivity|]. repeat constructor; cbn; lia. Defined.

Lemma contended_reachable : rtc step two_cpus contended.
Proof.
  eapply rtc_l; [exists 0%nat; by eapply step_enter|].
  eapply rtc_l; [exists 1%nat; by eapply step_enter|].
  eapply rtc_l; [exists 0%nat; by eapply step_xchg_won|].
  eapply rtc_l; [exists 0%nat; by eapply step_record|].
  eapply rtc_l; [exists 1%nat; by eapply step_xchg_busy|].
  reflexivity.
Defined.

Lemma mutual_exclusion_witness :
  exists h, m_harts contended !! 1%nat = Some h /\ h_if h = false.
Proof.
  eexists. split; [reflexivity|].
  by apply (proj2 (mutual_exclusion two_cpus contended two_cpus_initial contended_reachable) 1%nat).
Defined.

Lemma never_panics_witness : ~ panics 0 contended.
Proof. exact (never_panics two_cpus contended two_cpus_initial contended_reachable 0). Defined.

Lemma spinner_enters_witness :
  exists m' h', rtc step contended m' /\ m_harts m' !! 1%nat = Some h' /\ h_pc h' = Critical /\
    (m_lock m').(lk_cpu) = Some 1%nat.
Proof.
  exact (spinner_enters two_cpus contended two_cpus_initial contended_reachable 1 _ eq_refl eq_refl).
Defined.

(** ** The steps are the code's

    Hart [i] of [m], at [p], is the processor the kernel state [s] describes. *)
Definition sees (lk : lockid) (i : nat) (p : pc) (c : cpu) (s : kernel) (m : smp) : Prop :=
  m_lock m = lock_of lk s /\ cpu_ok i c s /\ m_harts m !! i = Some (mkhart p s.(k_if) c).

(** Hart [i] reaches [p] by its own steps alone, and is then the processor of [s']. *)
Definition runs_to (lk : lockid) (i : nat) (m : smp) (p : pc) (s' : kernel) : Prop :=
  exists m' c', rtc (hart_step i) m m' /\ sees lk i p c' s' m'.

Lemma lock_of_upd lk f s : lock_of lk (upd_lock lk f s) = f (lock_of lk s).
Proof. unfold lock_of at 1, upd_lock. cbn. by rewrite lookup_insert_eq. Qed.

Lemma sees_holds lk i p c s m :
  sees lk i p c s m ->
  holds i m = truth (lock_of lk s).(locked) && bool_decide ((lock_of lk s).(lk_cpu) = Some i).
Proof. intros (Hl & _ & _). unfold holds. by rewrite Hl. Qed.

(** The first step of acquire is pushcli and the holding check. *)
Lemma enter_step lk i c s m :
  sees lk i Idle c s m -> holds i m = false ->
  exists m', hart_step i m m' /\ sees lk i Spinning (pushed s c) (push_state i s) m'.
Proof.
  intros (Hl & Hok & Hi) Hh. eexists. split; [by eapply step_enter|].
  split; [done|]. split; [by apply cpu_ok_push|].
  cbn. by rewrite list_lookup_insert_eq by (by eapply lookup_lt_Some).
Qed.

(** A step that writes the lock's fields and moves the program counter. *)
Lemma sees_set_lock lk i p q c s m f :
  sees lk i p c s m ->
  sees lk i q c (upd_lock lk f s) (set_hart i (mkhart q s.(k_if) c) (set_lock (f (m_lock m)) m)).
Proof.
  intros (Hl & Hok & Hi). split; [by cbn; rewrite lock_of_upd, Hl|]. split; [exact Hok|].
  cbn. by rewrite list_lookup_insert_eq by (by eapply lookup_lt_Some).
Qed.

Lemma acquire_hart lk i c s m :
  sees lk i Idle c s m -> (m_lock m).(locked) = 0 -> runs_to lk i m Critical (acq lk i s).
Proof.
  intros Hs H0. assert (Hh : holds i m = false) by (unfold holds; by rewrite H0).
  destruct (enter_step _ _ _ _ _ Hs Hh) as (m1 & Hs1 & Hv1).
  pose proof Hv1 as (Hl1 & _ & Hi1).
  assert (H1 : (m_lock m1).(locked) = 0) by (rewrite Hl1; destruct Hs as [E _]; by rewrite E in H0).
  pose proof (step_xchg_won i m1 _ Hi1 eq_refl H1) as Hs2.
  pose proof (sees_set_lock _ _ _ Taken _ _ _ (fun l => l<|locked := 1|>) Hv1) as Hv2.
  pose proof Hv2 as (_ & _ & Hi2). pose proof (step_record i _ _ Hi2 eq_refl) as Hs3.
  pose proof (sees_set_lock _ _ _ Critical _ _ _ (fun l => l<|lk_cpu := Some i|>) Hv2) as Hv3.
  eexists _, _. split; [eapply rtc_l; [exact Hs1|]; eapply rtc_l; [exact Hs2|];
    eapply rtc_once; exact Hs3|].
  replace (acq lk i s) with (upd_lock lk (fun l => l<|lk_cpu := Some i|>)
    (upd_lock lk (fun l => l<|locked := 1|>) (push_state i s))); [exact Hv3|].
  unfold upd_lock at 2. by rewrite upd_lock_insert.
Qed.

Lemma acquire_spin_hart lk i c s m :
  sees lk i Idle c s m -> (m_lock m).(locked) <> 0 -> holds i m = false ->
  runs_to lk i m Spinning (upd_lock lk (fun l => l<|locked := 1|>) (push_state i s)).
Proof.
  intros Hs H0 Hh. destruct (enter_step _ _ _ _ _ Hs Hh) as (m1 & Hs1 & Hv1).
  pose proof Hv1 as (Hl1 & Hok1 & Hi1).
  assert (H1 : (m_lock m1).(locked) <> 0) by (rewrite Hl1; destruct Hs as [E _]; by rewrite E in H0).
  pose proof (step_xchg_busy i m1 _ Hi1 eq_refl H1) as Hs2.
  eexists _, _. split; [eapply rtc_l; [exact Hs1|]; eapply rtc_once; exact Hs2|].
  split; [by cbn; rewrite lock_of_upd, Hl1|]. split; [exact Hok1|exact Hi1].
Qed.

Lemma release_hart lk i c s m s' :
  sees lk i Critical c s m -> 0 < c.(c_ncli) -> holds i m = true ->
  release lk s = Ret tt s' -> runs_to lk i m Idle s'.
Proof.
  intros Hs Hn Hh Hr. pose proof (sees_holds _ _ _ _ _ _ Hs) as Hh'. rewrite Hh in Hh'.
  pose proof Hs as (Hl & Hok & Hi). rewrite (release_holding lk i c) in Hr by done.
  injection Hr as <-. pose proof (step_clear_cpu i m _ Hi eq_refl Hh) as Hs1.
  pose proof (sees_set_lock _ _ _ Clearing _ _ _ (fun l => l<|lk_cpu := None|>) Hs) as (Hl2 & _ & Hi2).
  pose proof (step_clear_word i _ _ Hi2 eq_refl) as Hs2.
  pose proof Hok as (Hme & Hc & _ & Hif).
  eexists _, (c<|c_ncli := c.(c_ncli) - 1|>).
  split; [eapply rtc_l; [exact Hs1|]; eapply rtc_once; exact Hs2|]. split; [|split].
  - cbn. unfold lock_of at 1. cbn. by rewrite lookup_insert_eq, Hl.
  - split_and!; cbn; [|apply list_lookup_insert_eq; by eapply lookup_lt_Some|lia|].
    + rewrite <- Hme, <- (me_upd_cpu i (fun c => c<|c_ncli := c.(c_ncli) - 1|>) s) by done.
      by rewrite (upd_cpu_set i _ c).
    + intros. by replace (c_ncli c =? 1) with false by lia.
  - cbn. rewrite list_lookup_insert_eq; [done|]. rewrite length_insert. by eapply lookup_lt_Some.
Qed.

(** C8: the steps above are what the kernel's acquire and release do.  On a
    processor outside the lock, acquire returns in the state its hart reaches at
    [Critical] by its own steps when the word is clear, spins in the state the
    hart reaches at [Spinning] when another processor holds the lock, and panics
    exactly where the step relation says so; release, from inside the lock,
    returns in the state the hart reaches at [Idle], or panics where the step
    relation says so. *)
Theorem lock_code_refines (lk : lockid) (i : nat) (c : cpu) (s : kernel) (m : smp) :
  (sees lk i Idle c s m ->
   match acquire lk s with
   | Ret _ s' => (m_lock m).(locked) = 0 /\ runs_to lk i m Critical s'
   | Spin s' => (m_lock m).(locked) <> 0 /\ runs_to lk i m Spinning s'
   | Panic _ _ => panics i m
   | _ => False
   end) /\
  (sees lk i Critical c s m -> 0 < c.(c_ncli) ->
   match release lk s with
   | Ret _ s' => holds i m = true /\ runs_to lk i m Idle s'
   | Panic _ _ => panics i m
   | _ => False
   end).
Proof.
  split.
  - intros Hs. pose proof Hs as (Hl & Hok & Hi). pose proof (sees_holds _ _ _ _ _ _ Hs) as Hh.
    destruct (decide (locked (lock_of lk s) = 0)) as [H0|H0].
    { rewrite (acquire_spec lk i c) by done. rewrite <- Hl in H0. eauto using acquire_hart. }
    destruct (decide (lk_cpu (lock_of lk s) = Some i)) as [Hc|Hc].
    + destruct (acquire_held lk i c s Hok H0 Hc) as (s' & ->). eexists. split; [exact Hi|].
      cbn. by rewrite Hh, truth_true, bool_decide_eq_true_2.
    + rewrite (acquire_busy lk i c) by done. rewrite <- Hl in H0. split; [done|].
      eapply acquire_spin_hart; [done..|]. by rewrite Hh, bool_decide_eq_false_2, andb_false_r.
  - intros Hs Hn. pose proof Hs as (Hl & Hok & Hi). pose proof (sees_holds _ _ _ _ _ _ Hs) as Hh.
    destruct (holds i m) eqn:E; symmetry in Hh.
    + pose proof (release_holding lk i c s Hok Hn Hh) as Hr. rewrite Hr. eauto using release_hart.
    + destruct (release_not_held lk i c s Hok Hh) as (s' & ->). eexists. split; [exact Hi|exact E].
Qed.

Lemma lock_code_refines_witness :
  runs_to LkKmem 0 (mksmp (mkspinlock 0 None) [mkhart Idle false boot_cpu]) Critical
    (acq LkKmem 0 (loaded 0 0)).
Proof.
  pose proof (proj1 (lock_code_refines LkKmem 0 boot_cpu (loaded 0 0)
    (mksmp (mkspinlock 0 None) [mkhart Idle false boot_cpu]))) as H.
  rewrite (acquire_spec LkKmem 0 boot_cpu) in H by (reflexivity || (split_and!; done)).
  apply H. split_and!; [reflexivity|split_and!; done|reflexivity].
Defined.

End Smp.
