(* ===== verification/Segments.v ===== *)
(** * Segments and gates: mmu.h, seginit of vm.c, tvinit and idtinit of trap.c

    The descriptors as the processor reads them, and what they let user code do. *)

From S2P Require Import Prelude State Spinlock.

(** ** mmu.h *)
Definition SEG_KCODE : Z := 1.
Definition SEG_KDATA : Z := 2.
Definition SEG_UCODE : Z := 3.
Definition SEG_UDATA : Z := 4.
Definition SEG_TSS : Z := 5.
Definition NSEGS : Z := 6.
Definition DPL_USER : Z := 3.
Definition STA_X : Z := 8.
Definition STA_W : Z := 2.
Definition STA_R : Z := 2.
Definition STS_T32A : Z := 9.
Definition STS_IG32 : Z := 0xE.
Definition STS_TG32 : Z := 0xF.

Definition SEG (type base lim dpl : Z) : segdesc :=
  mkseg (Z.land (Z.shiftr lim 12) 0xffff) (Z.land (u32 base) 0xffff)
    (Z.land (Z.shiftr (u32 base) 16) 0xff) type 1 dpl 1
    (Z.shiftr (u32 lim) 28) 0 0 1 1 (Z.shiftr (u32 base) 24).
Definition SEG16 (type base lim dpl : Z) : segdesc :=
  mkseg (Z.land lim 0xffff) (Z.land (u32 base) 0xffff)
    (Z.land (Z.shiftr (u32 base) 16) 0xff) type 1 dpl 1
    (Z.shiftr (u32 lim) 16) 0 0 1 0 (Z.shiftr (u32 base) 24).
Definition SETGATE (istrap : bool) (sel off d : Z) : gatedesc :=
  mkgate (Z.land (u32 off) 0xffff) sel 0 0 (if istrap then STS_TG32 else STS_IG32) 0 d 1
    (Z.shiftr (u32 off) 16).

(** ** x86.h: the processor's table registers hold the size less one *)
Definition lgdt (c : nat) (size : Z) : K unit := modify (upd_cpu c (fun r => r<|c_gdtr := u16 (size - 1)|>)).
Definition lidt (c : nat) (size : Z) : K unit := modify (upd_cpu c (fun r => r<|c_idtr := u16 (size - 1)|>)).
Definition ltr (c : nat) (sel : Z) : K unit := modify (upd_cpu c (fun r => r<|c_tr := sel|>)).

(** ** vm.c *)
Definition set_seg (c : nat) (n : Z) (d : segdesc) : K unit :=
  modify (upd_cpu c (fun r => r<|c_gdt ::= <[Z.to_nat n := d]>|>)).
Definition seginit : K unit :=
  let! c := cpuid in
  set_seg c SEG_KCODE (SEG (Z.lor STA_X STA_R) 0 0xffffffff 0) ;;;
  set_seg c SEG_KDATA (SEG STA_W 0 0xffffffff 0) ;;;
  set_seg c SEG_UCODE (SEG (Z.lor STA_X STA_R) 0 0xffffffff DPL_USER) ;;;
  set_seg c SEG_UDATA (SEG STA_W 0 0xffffffff DPL_USER) ;;;
  lgdt c (8 * NSEGS).

(** The address of the task state of processor [c]: struct cpu has 176 bytes, and
    its member ts is at offset 8. *)
Definition ts_address (c : nat) (s : kernel) : Z := u32 (s.(k_cpusym) + 176 * Z.of_nat c + 8).
Definition set_tss (c : nat) : K unit :=
  let! s := get in
  set_seg c SEG_TSS (SEG16 STS_T32A (ts_address c s) (104 - 1) 0) ;;;
  modify (upd_cpu c (fun r => r<|c_gdt ::= alter (fun d => d<|sd_s := 0|>) (Z.to_nat SEG_TSS)|>)).

Lemma set_tss_spec c s :
  set_tss c s = Ret tt (upd_cpu c (fun r => r<|c_gdt ::= fun l =>
    alter (fun d => d<|sd_s := 0|>) (Z.to_nat SEG_TSS)
      (<[Z.to_nat SEG_TSS := SEG16 STS_T32A (ts_address c s) (104 - 1) 0]> l)|>) s).
Proof.
  unfold set_tss. kret. unfold set_seg. kret. unfold modify, upd_cpu. f_equal.
  unfold setf, set_k_cpus. cbn. f_equal. apply list_alter_alter_eq.
Qed.

(** ** trap.c; [vectors] are the entry points of the generated vectors.S *)
Definition T_SYSCALL : Z := 64.
Section Vectors.
Context (vectors : nat -> Z).

Fixpoint set_gates (n : nat) : K unit :=
  match n with
  | O => ret tt
  | S n' =>
      let i := (256 - n)%nat in
      modify (fun s => s<|k_idt ::= <[i := SETGATE false (Z.shiftl SEG_KCODE 3) (vectors i) 0]>|>) ;;;
      set_gates n'
  end.
Definition tvinit : K unit :=
  set_gates 256 ;;;
  modify (fun s => s<|k_idt ::= <[Z.to_nat T_SYSCALL :=
    SETGATE true (Z.shiftl SEG_KCODE 3) (vectors (Z.to_nat T_SYSCALL)) DPL_USER]>|>) ;;;
  initlock LkTicks.
End Vectors.

Definition idtinit : K unit :=
  let! c := cpuid in
  lidt c (8 * 256).

(** ** What the processor makes of a descriptor *)
Definition seg_base (d : segdesc) : Z :=
  d.(sd_base_15_0) + 2 ^ 16 * d.(sd_base_23_16) + 2 ^ 24 * d.(sd_base_31_24).
Definition seg_limit (d : segdesc) : Z :=
  let l := d.(sd_lim_15_0) + 2 ^ 16 * d.(sd_lim_19_16) in
  if d.(sd_g) =? 1 then 4096 * l + 4095 else l.
Definition gate_offset (g : gatedesc) : Z := g.(gd_off_15_0) + 2 ^ 16 * g.(gd_off_31_16).

Lemma u32_halves a : Z.land (u32 a) 0xffff + 2 ^ 16 * Z.shiftr (u32 a) 16 = u32 a.
Proof.
  rewrite (land_ones_mod _ 16), Z.shiftr_div_pow2 by lia.
  pose proof (Z.div_mod (u32 a) (2 ^ 16)). lia.
Qed.

(** A descriptor round trip: the gate leads to the address it was made for. *)
Lemma gate_offset_SETGATE b sel off d : gate_offset (SETGATE b sel off d) = u32 off.
Proof. apply u32_halves. Qed.

Lemma seg_base_SEG16 type base lim dpl : seg_base (SEG16 type base lim dpl) = u32 base.
Proof.
  unfold seg_base. cbn [sd_base_15_0 sd_base_23_16 sd_base_31_24 SEG16].
  rewrite (land_ones_mod _ 16), (land_ones_mod _ 8), !Z.shiftr_div_pow2 by lia.
  pose proof (Z.div_mod (u32 base) (2 ^ 16)). pose proof (Z.div_mod (u32 base / 2 ^ 16) (2 ^ 8)).
  rewrite Z.div_div in * by lia. change (2 ^ 16 * 2 ^ 8) with (2 ^ 24) in *. lia.
Qed.

Section Tables.
Context (vectors : nat -> Z).

Definition a_gate (i : nat) : gatedesc := SETGATE false (Z.shiftl SEG_KCODE 3) (vectors i) 0.

Lemma set_gates_spec n : forall s, (n <= 256)%nat -> length s.(k_idt) = 256%nat ->
  exists l, set_gates vectors n s = Ret tt (s<|k_idt := l|>) /\ length l = 256%nat /\
    forall j, (j < 256)%nat -> l !! j = if decide (256 - n <= j)%nat then Some (a_gate j) else s.(k_idt) !! j.
Proof.
  induction n as [|n IH]; intros s Hn Hlen.
  - exists (k_idt s). split_and!; [done..|]. intros j Hj. rewrite decide_False by lia. done.
  - cbn [set_gates]. kret.
    destruct (IH (s<|k_idt ::= <[(256 - S n)%nat := a_gate (256 - S n)]>|>)) as (l & E & Hl & Hj);
      [lia|cbn; by rewrite length_insert|].
    exists l. split_and!; [exact E|done|]. intros j Hlt. rewrite Hj by done.
    destruct (decide (256 - n <= j)%nat); [by rewrite decide_True by lia|].
    change (k_idt (s<|k_idt ::= <[(256 - S n)%nat := a_gate (256 - S n)]>|>))
      with (<[(256 - S n)%nat := a_gate (256 - S n)]> (k_idt s)).
    destruct (decide (256 - S n <= j)%nat).
    + replace j with (256 - S n)%nat by lia. apply list_lookup_insert_eq. lia.
    + apply list_lookup_insert_ne. lia.
Qed.

(** The gate of vector [n]: present, into kernel code, at the entry point of the
    vector; only the system call's may be invoked by user code, and it is the
    only one that leaves interrupts enabled. *)
Definition gate_ok (n : nat) (g : gatedesc) : Prop :=
  let sys := bool_decide (n = Z.to_nat T_SYSCALL) in
  g.(gd_p) = 1 /\ g.(gd_s) = 0 /\ g.(gd_cs) = Z.shiftl SEG_KCODE 3 /\
  gate_offset g = u32 (vectors n) /\
  g.(gd_dpl) = (if sys then DPL_USER else 0) /\
  g.(gd_type) = (if sys then STS_TG32 else STS_IG32).

Lemma tvinit_spec s :
  length s.(k_idt) = 256%nat ->
  exists l, tvinit vectors s = Ret tt (upd_lock LkTicks (fun _ => mkspinlock 0 None) (s<|k_idt := l|>)) /\
    forall n, (n < 256)%nat -> exists g, l !! n = Some g /\ gate_ok n g.
Proof.
  intros Hlen. destruct (set_gates_spec 256 s (le_n _) Hlen) as (l & E & Hl & Hj).
  eexists. split; [unfold tvinit; kret_by exact E; by kret|]. cbn. intros n Hn.
  destruct (decide (n = Z.to_nat T_SYSCALL)) as [->|Hne].
  - eexists. split; [apply list_lookup_insert_eq; rewrite Hl; cbn; lia|]. unfold gate_ok.
    rewrite bool_decide_eq_true_2, gate_offset_SETGATE by done. done.
  - exists (a_gate n). rewrite list_lookup_insert_ne by done.
    split; [by rewrite Hj, decide_True by lia|]. unfold gate_ok, a_gate.
    rewrite bool_decide_eq_false_2, gate_offset_SETGATE by done. done.
Qed.

(** A segment over the whole address space, for code or for data, at a level. *)
Definition flat (d : segdesc) (type dpl : Z) : Prop :=
  d.(sd_p) = 1 /\ d.(sd_s) = 1 /\ seg_base d = 0 /\ seg_limit d = 2 ^ 32 - 1 /\
  d.(sd_type) = type /\ d.(sd_dpl) = dpl.

(** The segments of seg_init, with their types and levels. *)
Definition segments : list (Z * (Z * Z)) :=
  [(SEG_KCODE, (Z.lor STA_X STA_R, 0)); (SEG_KDATA, (STA_W, 0));
   (SEG_UCODE, (Z.lor STA_X STA_R, DPL_USER)); (SEG_UDATA, (STA_W, DPL_USER))].

Lemma seginit_spec i c s :
  cpu_ok i c s -> s.(k_if) = false -> length c.(c_gdt) = 6%nat ->
  exists s' c', seginit s = Ret tt s' /\ s'.(k_idt) = s.(k_idt) /\
    s'.(k_cpus) !! i = Some c' /\ c'.(c_gdtr) = 47 /\
    Forall (fun '(n, (t, d)) => exists e, c'.(c_gdt) !! Z.to_nat n = Some e /\ flat e t d) segments.
Proof.
  intros (Hme & Hc & _ & _) Hif Hlen. unfold seginit. kret_by (by apply (mycpu_off i)).
  unfold set_seg, lgdt. do 4 kret. unfold modify. eexists _, _. split; [reflexivity|]. split; [done|].
  split; [cbn; rewrite !list_lookup_alter_eq, Hc; reflexivity|]. split; [done|].
  destruct (c_gdt c) as [|d0 [|d1 [|d2 [|d3 [|d4 [|d5 [|]]]]]]] eqn:Eg; try done.
  repeat constructor; (eexists; split; [cbn; rewrite Eg; reflexivity|]; by split_and!).
Qed.
End Tables.


