(* ===== verification/Thread.v ===== *)
(** * The view of one kernel thread

    What a thread may assume and guarantee around the lock operations, in a
    form that the components above use without looking at nesting counts and
    interrupt flags: [running i p ls s] says that processor [i] executes, runs
    process [p] and holds exactly the spin locks [ls]; [quiet s s'] says that
    only lock words, processor records and the interrupt flag differ. *)

From S2P Require Import Prelude State Spinlock.

(** [n] counts the pushcli's that do not belong to a lock. *)
Definition nested (i : nat) (p : option nat) (ls : gset lockid) (n : Z) (s : kernel) : Prop :=
  exists c, cpu_ok i c s /\ c.(c_ncli) = Z.of_nat (size ls) + n /\ c.(c_proc) = p /\
    (forall lk, lk ∈ ls -> s.(k_locks) !! lk = Some (mkspinlock 1 (Some i))) /\
    (forall lk, lk ∉ ls -> (lock_of lk s).(locked) = 0).
Definition running (i : nat) (p : option nat) (ls : gset lockid) (s : kernel) : Prop :=
  nested i p ls 0 s.

Definition quiet (s s' : kernel) : Prop :=
  exists b cs lks, s' = s<|k_if := b|><|k_cpus := cs|><|k_locks := lks|>.

Lemma quiet_refl s : quiet s s.
Proof. by exists (k_if s), (k_cpus s), (k_locks s). Qed.

Lemma quiet_trans s s' s'' : quiet s s' -> quiet s' s'' -> quiet s s''.
Proof. intros (b & cs & lks & ->) (b' & cs' & lks' & ->). by exists b', cs', lks'. Qed.

#[export] Instance quiet_preorder : PreOrder quiet.
Proof. split; [exact quiet_refl|exact quiet_trans]. Qed.

(** [quiet_by H1 H2]: the goal is [quiet (G s) s2], where [H1 : quiet s s1],
    [H2 : quiet (G s1) s2] and [G] changes other components. *)
Ltac quiet_by H1 H2 :=
  destruct H1 as (? & ? & ? & ->); destruct H2 as (?b & ?cs & ?lks & ->);
  match goal with
  | |- quiet _ (_<|k_if := ?b|><|k_cpus := ?cs|><|k_locks := ?lks|>) =>
      exists b, cs, lks; reflexivity
  end.

Lemma settle_quiet i s : quiet s (settle i s).
Proof. by exists (k_if s), (alter (settled s) i (k_cpus s)), (k_locks s). Qed.

Lemma cpu_ok_settle i c s : cpu_ok i c s -> cpu_ok i (settled s c) (settle i s).
Proof.
  intros (Hme & Hc & Hn & Hif). split_and!; [|..|done|exact Hif].
  - unfold settle. by rewrite me_upd_cpu.
  - rewrite (settle_set i c) by done. cbn.
    apply list_lookup_insert_eq. by eapply lookup_lt_Some.
Qed.

(** A wakeup by the executing thread also makes sleepers runnable: [calm]. *)
Definition woken1 (p p' : proc) : Prop :=
  p' = p \/ p.(p_state) = SLEEPING /\ p' = p<|p_state := RUNNABLE|>.
Definition woken (ps ps' : list proc) : Prop := Forall2 woken1 ps ps'.
Definition calm (s s' : kernel) : Prop :=
  exists b cs lks ps, woken s.(k_procs) ps /\
    s' = s<|k_if := b|><|k_cpus := cs|><|k_locks := lks|><|k_procs := ps|>.

#[export] Instance woken1_preorder : PreOrder woken1.
Proof.
  split; [by left|].
  intros p p' p'' [->|[Hp ->]] [->|[Hp' ->]]; by (left + right).
Qed.
#[export] Instance woken_preorder : PreOrder woken.
Proof. change woken with (Forall2 woken1). apply _. Qed.

Lemma calm_quiet s s' : quiet s s' -> calm s s'.
Proof. intros (b & cs & lks & ->). by exists b, cs, lks, (k_procs s). Qed.

#[export] Instance calm_preorder : PreOrder calm.
Proof.
  split.
  - intros s. apply calm_quiet, quiet_refl.
  - intros s s' s'' (b & cs & lks & ps & Hw & ->) (b' & cs' & lks' & ps' & Hw' & ->).
    exists b', cs', lks', ps'. split; [|done]. by transitivity ps.
Qed.

(** The same for [calm]. *)
Ltac calm_by H1 H2 :=
  let Hw1 := fresh in let Hw2 := fresh in
  destruct H1 as (? & ? & ? & ? & Hw1 & ->); destruct H2 as (? & ? & ? & ? & Hw2 & ->);
  match goal with
  | |- calm _ (_<|k_if := ?b|><|k_cpus := ?cs|><|k_locks := ?lks|><|k_procs := ?ps|>) =>
      exists b, cs, lks, ps; split; [etransitivity; [exact Hw1|exact Hw2]|reflexivity]
  end.

(** The pid of the running process. *)
Definition has_pid (p : nat) (pid : Z) (s : kernel) : Prop :=
  p_pid <$> s.(k_procs) !! p = Some pid.

Lemma has_pid_calm p pid s s' : calm s s' -> has_pid p pid s -> has_pid p pid s'.
Proof.
  intros (b & cs & lks & ps & Hw & ->). unfold has_pid. cbn. intros H.
  apply fmap_Some in H as (pr & Hpr & ->).
  destruct (Forall2_lookup_l _ _ _ _ _ Hw Hpr) as (pr' & -> & [->|[_ ->]]); done.
Qed.

(** ** Changes that keep a thread running *)

Lemma running_settle i p ls n s : nested i p ls n s -> nested i p ls n (settle i s).
Proof.
  intros (c & Hok & Hrest). exists (settled s c). split; [by apply cpu_ok_settle|exact Hrest].
Qed.

(** Processors and locks are left alone. *)
Lemma running_frame i p ls n s s' :
  s'.(k_apicid) = s.(k_apicid) -> s'.(k_if) = s.(k_if) ->
  s'.(k_cpus) = s.(k_cpus) -> s'.(k_locks) = s.(k_locks) ->
  nested i p ls n s -> nested i p ls n s'.
Proof.
  intros Ha Hi Hc Hl (c & (Hme & Hci & Hn & Hif) & Hd & Hp & Hin & Hout).
  exists c. unfold cpu_ok, me, lock_of in *. rewrite Ha, Hi, Hc, Hl. done.
Qed.

(** [kframe H]: [H] says that the thread runs in a state which differs from the
    goal's in other components. *)
Ltac kframe H := eapply (fun e1 e2 e3 e4 => running_frame _ _ _ _ _ _ e1 e2 e3 e4 H); reflexivity.

(** The processor's record changes, not its identity and nesting count. *)
Lemma running_upd_cpu i p q ls n f s :
  (forall c, c_apicid (f c) = c_apicid c) -> (forall c, c_ncli (f c) = c_ncli c) ->
  (forall c, c_proc c = p -> c_proc (f c) = q) ->
  nested i p ls n s -> nested i q ls n (upd_cpu i f s).
Proof.
  intros Ha Hn Hq (c & (Hme & Hci & Hn0 & Hif) & Hd & Hp & Hin & Hout).
  exists (f c). split_and!; [|by rewrite Hn|by apply Hq|done|done].
  split_and!; rewrite ?Hn; try done.
  - by rewrite me_upd_cpu.
  - rewrite (upd_cpu_set i f c) by done. cbn. apply list_lookup_insert_eq. by eapply lookup_lt_Some.
Qed.

Lemma running_sti i p s : running i p ∅ s -> running i p ∅ (s<|k_if := true|>).
Proof.
  intros (c & (Hme & Hci & Hn & Hif) & Hd & Hp & Hin & Hout).
  rewrite size_empty in Hd. exists c. split_and!; try done. cbn in *. split_and!; try done; try lia.
Qed.

(** ** The lock operations *)

Lemma acquire_runs i p ls lk s (Q : unit -> kernel -> Prop) :
  running i p ls s -> lk ∉ ls ->
  (forall s', quiet s s' -> running i p ({[lk]} ∪ ls) s' -> Q tt s') ->
  runs (acquire lk s) Q.
Proof.
  intros (c & Hok & Hd & Hp & Hin & Hout) Hlk HQ.
  rewrite (acquire_spec lk i c) by auto. cbn. apply HQ.
  - by exists false, (alter (pushed s) i (k_cpus s)), (<[lk := mkspinlock 1 (Some i)]> (k_locks s)).
  - exists (pushed s c). split_and!.
    + exact (cpu_ok_push i c s Hok).
    + cbn. rewrite size_union by set_solver. rewrite size_singleton. lia.
    + done.
    + intros lk' Hlk'. cbn. destruct (decide (lk' = lk)) as [->|Hne].
      * by rewrite lookup_insert_eq.
      * rewrite lookup_insert_ne by done. apply Hin. set_solver.
    + intros lk' Hlk'. unfold lock_of. cbn. rewrite lookup_insert_ne by set_solver.
      apply (Hout lk'). set_solver.
Qed.

Lemma release_runs i p ls lk s (Q : unit -> kernel -> Prop) :
  running i p ls s -> lk ∈ ls ->
  (forall s', quiet s s' -> running i p (ls ∖ {[lk]}) s' -> Q tt s') ->
  runs (release lk s) Q.
Proof.
  intros (c & Hok & Hd & Hp & Hin & Hout) Hlk HQ.
  assert (Hsz : Z.of_nat (size ls) = Z.of_nat (size (ls ∖ {[lk]})) + 1).
  { rewrite (union_difference_singleton_L lk ls Hlk) at 1.
    rewrite size_union by set_solver. rewrite size_singleton. lia. }
  pose proof Hok as (Hme & Hci & Hn & Hif).
  rewrite (release_spec lk i c) by (auto; lia). cbn. apply HQ.
  - by eexists _, _, _.
  - exists (c<|c_ncli := c.(c_ncli) - 1|>). split_and!.
    + split_and!.
      * rewrite <- Hme. erewrite <- (me_upd_cpu i (fun c => c<|c_ncli := c.(c_ncli) - 1|>) s)
          by done. by rewrite (upd_cpu_set i _ c).
      * cbn. apply list_lookup_insert_eq. by eapply lookup_lt_Some.
      * cbn. lia.
      * cbn. intros. replace (c_ncli c =? 1) with false by lia. done.
    + cbn. lia.
    + done.
    + intros lk' Hlk'. cbn. rewrite lookup_insert_ne by set_solver. apply Hin. set_solver.
    + intros lk' Hlk'. unfold lock_of. cbn. destruct (decide (lk' = lk)) as [->|Hne].
      * by rewrite lookup_insert_eq.
      * rewrite lookup_insert_ne by done. apply (Hout lk'). set_solver.
Qed.

Lemma myproc_runs i p ls s (Q : option nat -> kernel -> Prop) :
  running i p ls s -> (forall s', quiet s s' -> running i p ls s' -> Q p s') -> runs (myproc s) Q.
Proof.
  intros Hrun HQ. pose proof Hrun as (c & Hok & _ & <- & _). rewrite (myproc_spec i c) by done.
  apply HQ; [apply settle_quiet|by apply running_settle].
Qed.

Lemma holding_runs i p ls lk s (Q : bool -> kernel -> Prop) :
  running i p ls s ->
  (forall s', quiet s s' -> running i p ls s' -> Q (bool_decide (lk ∈ ls)) s') ->
  runs (holding lk s) Q.
Proof.
  intros Hrun HQ. pose proof Hrun as (c & Hok & Hd & Hp & Hin & Hout).
  rewrite (holding_spec lk i c) by done.
  cbn. replace (truth _ && _) with (bool_decide (lk ∈ ls)).
  - apply HQ; [apply settle_quiet|by apply running_settle].
  - destruct (decide (lk ∈ ls)) as [Hl|Hl].
    + unfold lock_of. rewrite (Hin lk Hl). cbn. by rewrite !bool_decide_eq_true_2.
    + rewrite (Hout lk Hl). by rewrite bool_decide_eq_false_2.
Qed.

(** Interrupts are off while a lock is held, so mycpu may be called. *)
Lemma running_if i p ls s : running i p ls s -> ls <> ∅ -> s.(k_if) = false.
Proof.
  intros (c & (Hme & Hci & Hn & Hif) & Hd & _) Hls. apply Hif.
  assert (size ls <> 0%nat) by (intros H0; apply Hls, leibniz_equiv, size_empty_iff, H0). lia.
Qed.

Lemma mycpu_runs i p ls n s (Q : nat -> kernel -> Prop) :
  nested i p ls n s -> s.(k_if) = false -> Q i s -> runs (mycpu s) Q.
Proof.
  intros Hrun Hif HQ. rewrite (mycpu_off i); [done|done|].
  by destruct Hrun as (c & (Hme & _) & _).
Qed.

Lemma cpu_at_runs i p ls s (Q : cpu -> kernel -> Prop) :
  running i p ls s ->
  (forall c, cpu_ok i c s -> c.(c_ncli) = Z.of_nat (size ls) -> c.(c_proc) = p -> Q c s) ->
  runs (cpu_at i s) Q.
Proof.
  intros (c & Hok & Hd & Hp & _) HQ. rewrite (cpu_at_spec i c) by apply Hok. apply HQ; [done|lia|done].
Qed.

Lemma pushcli_runs i p ls n s (Q : unit -> kernel -> Prop) :
  nested i p ls n s ->
  (forall s', quiet s s' -> nested i p ls (n + 1) s' -> k_if s' = false -> Q tt s') ->
  runs (pushcli s) Q.
Proof.
  intros (c & Hok & Hd & Hp & Hin & Hout) HQ. rewrite (pushcli_state i c) by done.
  apply HQ; [|exists (pushed s c)|done].
  - by exists false, (alter (pushed s) i (k_cpus s)), (k_locks s).
  - split_and!; [by apply cpu_ok_push|cbn; lia|done..].
Qed.

Lemma popcli_runs i p ls n s (Q : unit -> kernel -> Prop) :
  nested i p ls n s -> 0 < n ->
  (forall s', quiet s s' -> nested i p ls (n - 1) s' -> Q tt s') ->
  runs (popcli s) Q.
Proof.
  intros (c & Hok & Hd & Hp & Hin & Hout) Hpos HQ. pose proof Hok as (Hme & Hci & Hn & Hif).
  rewrite (popcli_spec i c) by (done || lia || apply Hif; lia). apply HQ.
  - by exists ((c.(c_ncli) =? 1) && truth c.(c_intena)),
      (<[i := c<|c_ncli := c.(c_ncli) - 1|>]> (k_cpus s)), (k_locks s).
  - exists (c<|c_ncli := c.(c_ncli) - 1|>). split_and!; [split_and!|..]; try done; try (cbn; lia).
    + rewrite <- Hme. erewrite <- (me_upd_cpu i (fun c => c<|c_ncli := c.(c_ncli) - 1|>) s)
        by done. by rewrite (upd_cpu_set i _ c).
    + cbn. apply list_lookup_insert_eq. by eapply lookup_lt_Some.
Qed.

(** The same, as equations. *)
Lemma acquire_ex i p ls lk s :
  running i p ls s -> lk ∉ ls ->
  exists s', acquire lk s = Ret tt s' /\ quiet s s' /\ running i p ({[lk]} ∪ ls) s'.
Proof.
  intros Hr Hlk. destruct (runs_inv _ _ (acquire_runs i p ls lk s
    (fun _ s' => quiet s s' /\ running i p ({[lk]} ∪ ls) s') Hr Hlk (fun s' H1 H2 => conj H1 H2)))
    as ([] & s' & H). by exists s'.
Qed.

Lemma release_ex i p ls lk s :
  running i p ls s -> lk ∈ ls ->
  exists s', release lk s = Ret tt s' /\ quiet s s' /\ running i p (ls ∖ {[lk]}) s'.
Proof.
  intros Hr Hlk. destruct (runs_inv _ _ (release_runs i p ls lk s
    (fun _ s' => quiet s s' /\ running i p (ls ∖ {[lk]}) s') Hr Hlk (fun s' H1 H2 => conj H1 H2)))
    as ([] & s' & H). by exists s'.
Qed.

Lemma myproc_ex i p ls s :
  running i p ls s -> exists s', myproc s = Ret p s' /\ quiet s s' /\ running i p ls s'.
Proof.
  intros Hr. destruct (runs_inv _ _ (myproc_runs i p ls s
    (fun a s' => a = p /\ quiet s s' /\ running i p ls s') Hr
    (fun s' H1 H2 => conj eq_refl (conj H1 H2)))) as (? & s' & H & -> & H'). by exists s'.
Qed.

Lemma holding_ex i p ls lk s :
  running i p ls s ->
  exists s', holding lk s = Ret (bool_decide (lk ∈ ls)) s' /\ quiet s s' /\ running i p ls s'.
Proof.
  intros Hr. destruct (runs_inv _ _ (holding_runs i p ls lk s
    (fun a s' => a = bool_decide (lk ∈ ls) /\ quiet s s' /\ running i p ls s') Hr
    (fun s' H1 H2 => conj eq_refl (conj H1 H2)))) as (? & s' & H & -> & H'). by exists s'.
Qed.

(** The boot processor starts outside any lock. *)
Lemma loaded_running kend data : running 0 None ∅ (loaded kend data).
Proof.
  exists boot_cpu. split_and!; [done..| |]; intros lk.
  - intros H. by apply not_elem_of_empty in H.
  - intros _. unfold lock_of. cbn. by rewrite lookup_empty.
Qed.

(** A process in the kernel with one lock held, on a freshly loaded machine. *)
Definition in_kernel (p : nat) (lk : lockid) (s : kernel) : kernel :=
  s<|k_if := false|><|k_cpus := [boot_cpu<|c_ncli := 1|><|c_proc := Some p|>]|>
   <|k_locks := {[lk := mkspinlock 1 (Some 0%nat)]}|>.

Lemma in_kernel_running p lk s :
  s.(k_apicid) = 0 -> running 0 (Some p) {[lk]} (in_kernel p lk s).
Proof.
  intros Ha. exists (boot_cpu<|c_ncli := 1|><|c_proc := Some p|>). split_and!.
  - split_and!; try done. unfold me. cbn. by rewrite Ha.
  - by rewrite size_singleton.
  - done.
  - intros lk' ->%elem_of_singleton. by apply lookup_singleton_eq.
  - intros lk' Hlk. unfold lock_of. cbn. rewrite lookup_singleton_ne; [done|set_solver].
Qed.
