(* ===== verification/CString.v ===== *)
(** * Memory and string routines: string.c, the string part of ulib.c, x86.h

    Memory is a function from 32-bit addresses to bytes.  The mem* routines,
    whose arguments may overlap, work on it; the str* routines work on the
    contents of their two (distinct) objects from the pointer onwards, as
    lists, with reads past the listed bytes returning NUL. *)

From S2P Require Import Prelude.

Abbreviation mem := (Z -> Z).

Definition upd (m : mem) (a v : Z) : mem := fun x => if x =? a then v else m x.

(** ** String instructions of x86.h *)

(** [rep stosb]: [cnt] copies of the low byte of [data]. *)
Definition stosb (m : mem) (addr data cnt : Z) : mem :=
  fun x => if (addr <=? x) && (x <? addr + cnt) then u8 data else m x.

(** [rep stosl]: [cnt] copies of the 32-bit word [data], least significant byte first. *)
Definition stosl (m : mem) (addr data cnt : Z) : mem :=
  fun x => if (addr <=? x) && (x <? addr + 4 * cnt)
           then u8 (Z.shiftr data (8 * ((x - addr) mod 4))) else m x.

(** ** 32-bit words in memory *)
Definition load32 (m : mem) (a : Z) : Z :=
  m a + 256 * (m (a + 1) + 256 * (m (a + 2) + 256 * m (a + 3))).
Definition store32 (m : mem) (a w : Z) : mem := stosl m a w 1.

(** ** string.c *)

Definition memset (m : mem) (dst c n : Z) : mem :=
  if (dst mod 4 =? 0) && (n mod 4 =? 0) then
    let c := Z.land c 0xFF in
    stosl m dst
      (Z.lor (Z.lor (Z.lor (Z.shiftl c 24) (Z.shiftl c 16)) (Z.shiftl c 8)) c) (n / 4)
  else stosb m dst c n.

Fixpoint memcmp_loop (n : nat) (m : mem) (s1 s2 : Z) : Z :=
  match n with
  | O => 0
  | S n' => if negb (m s1 =? m s2) then m s1 - m s2
            else memcmp_loop n' m (u32 (s1 + 1)) (u32 (s2 + 1))
  end.
Definition memcmp (m : mem) (v1 v2 n : Z) : Z := memcmp_loop (Z.to_nat n) m v1 v2.

Fixpoint copy_down (n : nat) (m : mem) (d s : Z) : mem :=
  match n with
  | O => m
  | S n' =>
      let d := u32 (d - 1) in
      let s := u32 (s - 1) in
      copy_down n' (upd m d (m s)) d s
  end.
Fixpoint copy_up (n : nat) (m : mem) (d s : Z) : mem :=
  match n with
  | O => m
  | S n' => copy_up n' (upd m d (m s)) (u32 (d + 1)) (u32 (s + 1))
  end.
Definition memmove (m : mem) (dst src n : Z) : mem :=
  if (src <? dst) && (dst <? u32 (src + n))
  then copy_down (Z.to_nat n) m (u32 (dst + n)) (u32 (src + n))
  else copy_up (Z.to_nat n) m dst src.
Definition memcpy (m : mem) (dst src n : Z) : mem := memmove m dst src n.

(** The byte at the head of an object's contents, and the pointer advanced. *)
Definition deref (s : list Z) : Z := match s with [] => 0 | c :: _ => c end.
Definition next (s : list Z) : list Z := match s with [] => [] | _ :: s' => s' end.

Fixpoint strncmp (n : nat) (p q : list Z) : Z :=
  match n with
  | O => 0
  | S n' =>
      if truth (deref p) && (deref p =? deref q) then strncmp n' (next p) (next q)
      else u8 (deref p) - u8 (deref q)
  end.

(** [*s++ = c]: the contents of the destination after a store through it. *)
Fixpoint zero_fill (n : nat) (s : list Z) : list Z :=
  match n, s with
  | S n', _ :: s' => 0 :: zero_fill n' s'
  | _, _ => s
  end.
Fixpoint strncpy (n : nat) (s t : list Z) : list Z :=
  match n, s with
  | S n', _ :: s' =>
      if truth (deref t) then deref t :: strncpy n' s' (next t)
      else 0 :: zero_fill n' s'
  | _, _ => s
  end.

(** The loop of safestrcpy runs with [n] bytes left, the last for the NUL. *)
Fixpoint safestrcpy_loop (n : nat) (s t : list Z) : list Z :=
  match n, s with
  | S n', _ :: s' =>
      if truth (deref t) then deref t :: safestrcpy_loop n' s' (next t)
      else match s' with [] => [0] | _ :: s'' => 0 :: 0 :: s'' end
  | O, _ :: s' => 0 :: s'
  | _, [] => []
  end.
Definition safestrcpy (s t : list Z) (n : Z) : list Z :=
  if n <=? 0 then s else safestrcpy_loop (Z.to_nat (n - 1)) s t.

Fixpoint strlen (s : list Z) : Z :=
  match s with
  | [] => 0
  | c :: s' => if truth c then 1 + strlen s' else 0
  end.

(** ** The routines do what their names say *)

Lemma u8_byte (x : Z) : is_byte (u8 x).
Proof. apply u8_range. Qed.

Lemma upd_eq m a v x : x = a -> upd m a v x = v.
Proof. intros ->. unfold upd. by rewrite Z.eqb_refl. Qed.
Lemma upd_ne m a v x : x <> a -> upd m a v x = m x.
Proof. intros H. unfold upd. by replace (x =? a) with false by blia. Qed.

(** The four bytes of the replicated word are the byte itself. *)
Lemma splat_byte (c k : Z) :
  is_byte c -> 0 <= k < 4 ->
  u8 (Z.shiftr (Z.lor (Z.lor (Z.lor (Z.shiftl c 24) (Z.shiftl c 16)) (Z.shiftl c 8)) c) (8 * k)) = c.
Proof.
  intros Hc Hk. apply Z.eqb_eq.
  assert (k = 0 \/ k = 1 \/ k = 2 \/ k = 3) as [->|[->|[->| ->]]] by lia;
    revert c Hc; apply byte_cases; vm_compute; reflexivity.
Qed.

Lemma land_ff (c : Z) : Z.land c 0xFF = u8 c.
Proof. apply (land_ones_mod c 8). lia. Qed.

Lemma memset_lookup (m : mem) (dst c n x : Z) :
  memset m dst c n x = if (dst <=? x) && (x <? dst + n) then u8 c else m x.
Proof.
  unfold memset. destruct ((dst mod 4 =? 0) && (n mod 4 =? 0)) eqn:E; [|done].
  apply andb_true_iff in E as [_ E]. unfold stosl. rewrite land_ff.
  replace (4 * (n / 4)) with n by (pose proof (Z.div_mod n 4); lia).
  rewrite splat_byte; [done|apply u8_byte|]. by apply Z.mod_pos_bound.
Qed.

Lemma copy_up_spec (n : nat) : forall (m : mem) (d s x : Z),
  0 <= d -> 0 <= s -> d + Z.of_nat n < 2 ^ 32 -> s + Z.of_nat n < 2 ^ 32 ->
  d <= s \/ s + Z.of_nat n <= d ->
  copy_up n m d s x = if (d <=? x) && (x <? d + Z.of_nat n) then m (s + (x - d)) else m x.
Proof.
  induction n as [|n IH]; intros m d s x Hd Hs Hdn Hsn Hov.
  - cbn [copy_up]. change (Z.of_nat 0) with 0.
    by replace ((d <=? x) && (x <? d + 0)) with false by blia.
  - cbn [copy_up]. rewrite !u32_small, IH by lia. rewrite Nat2Z.inj_succ in *.
    destruct ((d + 1 <=? x) && (x <? d + 1 + Z.of_nat n)) eqn:E.
    + rewrite upd_ne by blia.
      replace ((d <=? x) && (x <? d + Z.succ (Z.of_nat n))) with true by blia. f_equal. lia.
    + destruct (decide (x = d)) as [->|Hx].
      * rewrite upd_eq by done.
        replace ((d <=? d) && (d <? d + Z.succ (Z.of_nat n))) with true by blia. f_equal. lia.
      * rewrite upd_ne by done.
        by replace ((d <=? x) && (x <? d + Z.succ (Z.of_nat n))) with false by blia.
Qed.

Lemma copy_down_spec (n : nat) : forall (m : mem) (d s x : Z),
  Z.of_nat n <= s <= d -> d < 2 ^ 32 ->
  copy_down n m d s x = if (d - Z.of_nat n <=? x) && (x <? d) then m (s + (x - d)) else m x.
Proof.
  induction n as [|n IH]; intros m d s x Hs Hd.
  - cbn [copy_down]. change (Z.of_nat 0) with 0.
    by replace ((d - 0 <=? x) && (x <? d)) with false by blia.
  - cbn [copy_down]. rewrite !u32_small, IH by lia. rewrite Nat2Z.inj_succ in *.
    destruct ((d - 1 - Z.of_nat n <=? x) && (x <? d - 1)) eqn:E.
    + rewrite upd_ne by blia.
      replace ((d - Z.succ (Z.of_nat n) <=? x) && (x <? d)) with true by blia. f_equal. lia.
    + destruct (decide (x = d - 1)) as [->|Hx].
      * rewrite upd_eq by done.
        replace ((d - Z.succ (Z.of_nat n) <=? d - 1) && (d - 1 <? d)) with true by blia. f_equal. lia.
      * rewrite upd_ne by done.
        by replace ((d - Z.succ (Z.of_nat n) <=? x) && (x <? d)) with false by blia.
Qed.

(** What copying [n] bytes from [src] to [dst] means: the old bytes of the source. *)
Definition copied (m : mem) (dst src n : Z) : mem :=
  fun x => if (dst <=? x) && (x <? dst + n) then m (src + (x - dst)) else m x.

Lemma memmove_lookup (m : mem) (dst src n x : Z) :
  0 <= dst -> 0 <= src -> 0 <= n -> dst + n < 2 ^ 32 -> src + n < 2 ^ 32 ->
  memmove m dst src n x = copied m dst src n x.
Proof.
  intros. unfold memmove, copied. rewrite !(u32_small (_ + n)) by lia.
  destruct ((src <? dst) && (dst <? src + n)) eqn:E.
  - rewrite copy_down_spec, Z2Nat.id by lia.
    replace (dst + n - n) with dst by lia.
    destruct ((dst <=? x) && (x <? dst + n)); [|done]. f_equal. lia.
  - rewrite copy_up_spec, Z2Nat.id by lia. done.
Qed.

(** Bytes stay bytes. *)
Definition mem_ok (m : mem) : Prop := forall x, is_byte (m x).

Lemma load32_range (m : mem) (a : Z) : mem_ok m -> 0 <= load32 m a < 2 ^ 32.
Proof.
  intros H. unfold load32.
  pose proof (H a); pose proof (H (a + 1)); pose proof (H (a + 2)); pose proof (H (a + 3)).
  unfold is_byte in *. lia.
Qed.

Lemma store32_same (m : mem) (a w : Z) : load32 (store32 m a w) a = u32 w.
Proof.
  unfold load32, store32, stosl.
  replace ((a <=? a) && (a <? a + 4 * 1)) with true by blia.
  replace ((a <=? a + 1) && (a + 1 <? a + 4 * 1)) with true by blia.
  replace ((a <=? a + 2) && (a + 2 <? a + 4 * 1)) with true by blia.
  replace ((a <=? a + 3) && (a + 3 <? a + 4 * 1)) with true by blia.
  replace ((a - a) mod 4) with 0 by (by rewrite Z.sub_diag).
  replace ((a + 1 - a) mod 4) with 1 by (by replace (a + 1 - a) with 1 by lia).
  replace ((a + 2 - a) mod 4) with 2 by (by replace (a + 2 - a) with 2 by lia).
  replace ((a + 3 - a) mod 4) with 3 by (by replace (a + 3 - a) with 3 by lia).
  unfold u8, u32. rewrite !Z.shiftr_div_pow2 by lia.
  change (2 ^ (8 * 0)) with 1; change (2 ^ (8 * 1)) with 256; change (2 ^ (8 * 2)) with 65536.
  change (2 ^ (8 * 3)) with 16777216; change (2 ^ 8) with 256; change (2 ^ 32) with 4294967296.
  Z.div_mod_to_equations. lia.
Qed.

Lemma store32_other (m : mem) (a w x : Z) :
  x < a \/ a + 4 <= x -> store32 m a w x = m x.
Proof.
  intros. unfold store32, stosl. by replace ((a <=? x) && (x <? a + 4 * 1)) with false by blia.
Qed.

Lemma load32_ext (m m' : mem) (a : Z) :
  (forall x, a <= x < a + 4 -> m x = m' x) -> load32 m a = load32 m' a.
Proof. intros H. unfold load32. rewrite !H by lia. done. Qed.

Lemma store32_disjoint (m : mem) (a b w : Z) :
  b + 4 <= a \/ a + 4 <= b -> load32 (store32 m a w) b = load32 m b.
Proof. intros. apply load32_ext. intros. apply store32_other. lia. Qed.

Lemma store32_ok (m : mem) (a w : Z) : mem_ok m -> mem_ok (store32 m a w).
Proof.
  intros H x. unfold store32, stosl. destruct (_ && _); [apply u8_byte|apply H].
Qed.

Lemma memset_ok (m : mem) (a c n : Z) : mem_ok m -> mem_ok (memset m a c n).
Proof. intros H x. rewrite memset_lookup. destruct (_ && _); [apply u8_byte|apply H]. Qed.

(** Words inside a zeroed region read zero. *)
Lemma memset_zero_load (m : mem) (a n b : Z) :
  a <= b -> b + 4 <= a + n -> load32 (memset m a 0 n) b = 0.
Proof.
  intros. unfold load32. rewrite !memset_lookup.
  replace ((a <=? b) && (b <? a + n)) with true by blia.
  replace ((a <=? b + 1) && (b + 1 <? a + n)) with true by blia.
  replace ((a <=? b + 2) && (b + 2 <? a + n)) with true by blia.
  by replace ((a <=? b + 3) && (b + 3 <? a + n)) with true by blia.
Qed.

Lemma memset_disjoint (m : mem) (a c n b : Z) :
  b + 4 <= a \/ a + n <= b -> load32 (memset m a c n) b = load32 m b.
Proof.
  intros. apply load32_ext. intros x ?. rewrite memset_lookup.
  by replace ((a <=? x) && (x <? a + n)) with false by blia.
Qed.

(** The memory routines meet their specification: memset fills the range with the
    low byte of [c] whichever of its two instruction sequences it uses, and
    memmove copies the old contents of the source even when the ranges overlap. *)
Theorem memset_memmove_correct (m : mem) (dst src c n : Z)
    (Hd : 0 <= dst) (Hs : 0 <= src) (Hn : 0 <= n)
    (Hdn : dst + n < 2 ^ 32) (Hsn : src + n < 2 ^ 32) :
  (forall x, memset m dst c n x = stosb m dst c n x) /\
  (forall x, dst <= x < dst + n -> memmove m dst src n x = m (src + (x - dst))) /\
  (forall x, x < dst \/ dst + n <= x -> memmove m dst src n x = m x).
Proof.
  split_and!; intros x; [apply memset_lookup|intros Hx..].
  - rewrite memmove_lookup by done. unfold copied.
    by replace ((dst <=? x) && (x <? dst + n)) with true by blia.
  - rewrite memmove_lookup by done. unfold copied.
    by replace ((dst <=? x) && (x <? dst + n)) with false by blia.
Qed.

(** Overlapping upwards by one byte: the backward loop is needed and used. *)
Lemma memset_memmove_correct_witness :
  let m : mem := fun x => x in
  memset m 8 7 8 9 = 7 /\ memmove m 11 10 3 12 = 11.
Proof.
  pose proof (memset_memmove_correct (fun x => x) 8 0 7 8 ltac:(lia) ltac:(lia) ltac:(lia)
                ltac:(lia) ltac:(lia)) as (H1 & _ & _).
  pose proof (memset_memmove_correct (fun x => x) 11 10 0 3 ltac:(lia) ltac:(lia) ltac:(lia)
                ltac:(lia) ltac:(lia)) as (_ & H2 & _).
  split; [exact (H1 9)|exact (H2 12 ltac:(lia))].
Defined.
