(* ===== verification/Cprintf.v ===== *)
(** * Console output: the output half of console.c, uartputc of uart.c

    A character goes to the serial port and to the display.  The display is its
    cursor register and its text memory, one cell per character position. *)

From S2P Require Import Prelude State Spinlock Thread CString.

(** ** uart.c: the polls for the transmitter only delay *)
Definition uartputc (c : Z) : K unit :=
  let! s := get in
  if! truth s.(k_uart) then! modify (fun s => s<|k_serial ::= fun l => l ++ [u8 c]|>).

(** ** console.c *)
Definition BACKSPACE : Z := 0x100.
Definition newline : Z := 10.

Definition cell_upd (crt : Z -> Z) (pos v : Z) : Z -> Z := fun x => if x =? pos then v else crt x.
(** [memmove(crt, crt+80, sizeof(crt[0])*23*80)] and the memset after it. *)
Definition scroll (crt : Z -> Z) (pos : Z) : Z -> Z :=
  let crt := fun x => if (0 <=? x) && (x <? 23 * 80) then crt (x + 80) else crt x in
  fun x => if (pos <=? x) && (x <? 24 * 80) then 0 else crt x.

(** The cursor and the cell after the first [if] chain of cgaputc. *)
Definition cga_put (c pos : Z) (crt : Z -> Z) : Z * (Z -> Z) :=
  if c =? newline then (pos + (80 - pos mod 80), crt)
  else if c =? BACKSPACE then (if 0 <? pos then pos - 1 else pos, crt)
  else (pos + 1, cell_upd crt pos (Z.lor (Z.land c 0xff) 0x0700)).
Definition cgaputc (c : Z) : K unit :=
  let! s := get in
  let '(pos, crt) := cga_put c s.(k_crtpos) s.(k_crt) in
  if (pos <? 0) || (25 * 80 <? pos) then
    modify (fun s => s<|k_crt := crt|>) ;;; panic "pos under/overflow"
  else
    let '(pos, crt) := if 24 <=? pos / 80 then (pos - 80, scroll crt (pos - 80)) else (pos, crt) in
    modify (fun s => s<|k_crtpos := u16 pos|>) ;;;
    modify (fun s => s<|k_crt := cell_upd crt pos (Z.lor 32 0x0700)|>).

(** The loop of a processor that stops. *)
Definition halt {A : Type} : K A := fun s => Spin s.

Definition consputc (c : Z) : K unit :=
  let! s := get in
  if truth s.(k_panicked) then cli ;;; halt
  else
    (if c =? BACKSPACE then uartputc 8 ;;; uartputc 32 ;;; uartputc 8
     else uartputc c) ;;;
    cgaputc c.

Fixpoint consputs (cs : list Z) : K unit :=
  match cs with
  | [] => ret tt
  | c :: cs' => consputc c ;;; consputs cs'
  end.

(** ** printint: digits[x % base], least significant first *)
Definition digit (d : Z) : Z := if d <? 10 then 48 + d else 87 + d.
Fixpoint printint_digits (fuel : nat) (x base : Z) : list Z :=
  match fuel with
  | O => []
  | S fuel' =>
      digit (x mod base) :: (if x / base =? 0 then [] else printint_digits fuel' (x / base) base)
  end.
(** The contents of buf; a 32-bit number has at most 32 digits. *)
Definition printint_buf (xx base : Z) (sign : bool) : list Z :=
  let neg := sign && (xx <? 0) in
  let x := if neg then u32 (- xx) else u32 xx in
  printint_digits 32 x base ++ (if neg then [45] else []).
(** printint prints buf from its end. *)
Definition printint (xx base : Z) (sign : bool) : K unit := consputs (reverse (printint_buf xx base sign)).

(** ** cprintf

    The arguments after the format: words, and pointers to strings.  Taking one
    that is not there, or printing a word as a string, has no defined effect in
    C; no caller does. *)
Inductive vararg := VInt (x : Z) | VStr (x : list Z).

(** The characters of a string up to its NUL. *)
Fixpoint c_string (s : list Z) : list Z :=
  match s with
  | [] => []
  | c :: s' => if c =? 0 then [] else c :: c_string s'
  end.
(** The bytes of a string literal. *)
Fixpoint bytes (x : string) : list Z :=
  match x with
  | EmptyString => []
  | String c x' => Z.of_N (Ascii.N_of_ascii c) :: bytes x'
  end.

Definition next_arg (args : list vararg) : K (vararg * list vararg) :=
  match args with
  | [] => panic "cprintf: no argument"
  | a :: args' => ret (a, args')
  end.
Definition word_arg (a : vararg) : K Z :=
  match a with VInt x => ret x | VStr _ => panic "cprintf: argument" end.

(** A conversion: the character after %, and the arguments left. *)
Definition cprintf_conv (c : Z) (args : list vararg) : K (list vararg) :=
  if c =? 100 then (* d *)
    let! (a, args) := next_arg args in
    let! x := word_arg a in
    printint (s32 x) 10 true ;;; ret args
  else if (c =? 120) || (c =? 112) then (* x, p *)
    let! (a, args) := next_arg args in
    let! x := word_arg a in
    printint (s32 x) 16 false ;;; ret args
  else if c =? 115 then (* s *)
    let! (a, args) := next_arg args in
    match a with
    | VStr cs => consputs (c_string cs) ;;; ret args
    | VInt x => if x =? 0 then consputs (bytes "(null)") ;;; ret args else panic "cprintf: argument"
    end
  else if c =? 37 then (* percent *)
    consputc 37 ;;; ret args
  else consputc 37 ;;; consputc c ;;; ret args.
Fixpoint cprintf_loop (fmt : list Z) (args : list vararg) : K unit :=
  match fmt with
  | [] => ret tt
  | c :: fmt' =>
      if c =? 0 then ret tt
      else if negb (c =? 37) then consputc c ;;; cprintf_loop fmt' args
      else
        match fmt' with
        | [] => ret tt
        | c :: fmt'' =>
            if c =? 0 then ret tt
            else let! args := cprintf_conv c args in cprintf_loop fmt'' args
        end
  end.

Definition cprintf (fmt : list Z) (args : list vararg) : K unit :=
  let! s := get in
  let locking := truth s.(k_conslocking) in
  (if! locking then! acquire LkCons) ;;;
  cprintf_loop fmt args ;;;
  (if! locking then! release LkCons).
(** A call with a literal that ends in a newline. *)
Definition cprintln (fmt : string) (args : list vararg) : K unit := cprintf (bytes fmt ++ [newline]) args.

(** ** The cursor stays on the screen *)
Definition on_screen (s : kernel) : Prop := 0 <= s.(k_crtpos) < 24 * 80.
(** Everything but the display and the serial line is as before. *)
Definition printed (s s' : kernel) : Prop :=
  exists l p t, s' = s<|k_serial := l|><|k_crtpos := p|><|k_crt := t|>.

#[export] Instance printed_preorder : PreOrder printed.
Proof.
  split.
  - intros s. by exists (k_serial s), (k_crtpos s), (k_crt s).
  - intros s1 s2 s3 (l & p & t & ->) (l' & p' & t' & ->). by exists l', p', t'.
Qed.

Lemma cga_put_range c pos crt :
  0 <= pos < 24 * 80 -> 0 <= (cga_put c pos crt).1 <= 24 * 80.
Proof.
  intros Hp. unfold cga_put. destruct (c =? newline).
  - cbn. pose proof (Z.div_mod pos 80). pose proof (Z.mod_pos_bound pos 80).
    assert (pos / 80 < 24) by (apply Z.div_lt_upper_bound; lia). lia.
  - destruct (c =? BACKSPACE); cbn; [|lia]. destruct (Z.ltb_spec 0 pos); lia.
Qed.

Lemma cgaputc_ok c s :
  on_screen s ->
  exists p t, cgaputc c s = Ret tt (s<|k_crtpos := p|><|k_crt := t|>) /\ 0 <= p < 24 * 80 /\
    forall x, x < 0 \/ 24 * 80 <= x -> t x = s.(k_crt) x.
Proof.
  intros Hp. unfold on_screen in Hp. unfold cgaputc. kret.
  pose proof (cga_put_range c (k_crtpos s) (k_crt s) Hp) as Hr.
  assert (Hcell : forall x, x < 0 \/ 24 * 80 <= x -> (cga_put c (k_crtpos s) (k_crt s)).2 x = k_crt s x).
  { intros x Hx. unfold cga_put. destruct (c =? newline), (c =? BACKSPACE); cbn; [done..|].
    unfold cell_upd. by rewrite (proj2 (Z.eqb_neq _ _)) by lia. }
  destruct (cga_put c (k_crtpos s) (k_crt s)) as [pos crt]. cbn [fst snd] in *.
  rewrite (proj2 (Z.ltb_ge pos 0)), (proj2 (Z.ltb_ge _ pos)) by lia. cbn [orb].
  destruct (Z.leb_spec 24 (pos / 80)) as [H24|H24].
  - assert (pos = 24 * 80) as ->.
    { pose proof (Z.mul_div_le pos 80). lia. }
    kret. eexists _, _. split; [reflexivity|]. split; [vm_compute; split; congruence|].
    intros x Hx. unfold cell_upd. rewrite (proj2 (Z.eqb_neq _ _)) by lia. unfold scroll.
    replace ((24 * 80 - 80 <=? x) && (x <? 24 * 80)) with false by blia.
    replace ((0 <=? x) && (x <? 23 * 80)) with false by blia. by apply Hcell.
  - assert (pos < 24 * 80).
    { pose proof (Z.div_mod pos 80). pose proof (Z.mod_pos_bound pos 80). lia. }
    assert (Hu : u16 pos = pos) by (apply (Z.mod_small pos 65536); lia).
    kret. eexists _, _. split; [reflexivity|]. rewrite Hu. split; [lia|].
    intros x Hx. unfold cell_upd. rewrite (proj2 (Z.eqb_neq _ _)) by lia. by apply Hcell.
Qed.

(** What consputc sends to the serial line. *)
Definition serial_of (uart c : Z) : list Z :=
  if truth uart then if c =? BACKSPACE then [8; 32; 8] else [u8 c] else [].

Lemma uartputc_ok c s :
  uartputc c s = Ret tt (s<|k_serial := s.(k_serial) ++ if truth s.(k_uart) then [u8 c] else []|>).
Proof. unfold uartputc. kret. destruct (truth (k_uart s)); [done|]. cbn. by rewrite app_nil_r. Qed.

Lemma consputc_ok c s :
  on_screen s -> s.(k_panicked) = 0 ->
  exists s', consputc c s = Ret tt s' /\ printed s s' /\ on_screen s' /\
    s'.(k_serial) = s.(k_serial) ++ serial_of s.(k_uart) c.
Proof.
  intros Hon Hp. unfold consputc. kret. rewrite Hp. change (truth 0) with false. cbv iota.
  assert (E : exists s1, (if c =? BACKSPACE then uartputc 8 ;;; uartputc 32 ;;; uartputc 8 else uartputc c)%xv6 s
      = Ret tt s1 /\ s1 = s<|k_serial := s.(k_serial) ++ serial_of s.(k_uart) c|>).
  { unfold serial_of. destruct (c =? BACKSPACE).
    - kret_by apply uartputc_ok. kret_by apply uartputc_ok. rewrite uartputc_ok. eexists. split; [done|].
      cbn. destruct (truth (k_uart s)); [by rewrite <- !app_assoc|by rewrite !app_nil_r].
    - rewrite uartputc_ok. by eexists. }
  destruct E as (s1 & E & Hs1). kret_by exact E.
  assert (Hon1 : on_screen s1) by (by rewrite Hs1).
  destruct (cgaputc_ok c s1 Hon1) as (p & t & -> & Hr & _). rewrite Hs1.
  eexists. split_and!; [done|by eexists _, _, _|exact Hr|done].
Qed.

Lemma consputs_ok cs : forall s,
  on_screen s -> s.(k_panicked) = 0 ->
  exists s', consputs cs s = Ret tt s' /\ printed s s' /\ on_screen s' /\
    s'.(k_serial) = s.(k_serial) ++ (cs ≫= serial_of s.(k_uart)).
Proof.
  induction cs as [|c cs IH]; intros s Hon Hp; cbn [consputs].
  - exists s. rewrite app_nil_r. by split_and!.
  - destruct (consputc_ok c s Hon Hp) as (s1 & E1 & Hpr1 & Hon1 & Hs1).
    destruct (IH s1 Hon1) as (s2 & E2 & Hpr2 & Hon2 & Hs2).
    { by destruct Hpr1 as (? & ? & ? & ->). }
    exists s2. kret_by exact E1. split_and!; [done|by transitivity s1|done|].
    rewrite Hs2, Hs1. replace (k_uart s1) with (k_uart s) by (by destruct Hpr1 as (? & ? & ? & ->)).
    cbn. by rewrite <- app_assoc.
Qed.

(** printing never leaves the screen.  Starting with the cursor in the 24
    rows used, any sequence of characters (newlines and backspaces included)
    is put out without the panic of cgaputc, the cursor is again within these
    rows, no cell of video memory beyond them is written by any of the
    characters, and the serial line gets each character in order, a backspace
    as backspace, space, backspace. *)
Theorem console_output (cs : list Z) (c : Z) (s : kernel) :
  on_screen s -> s.(k_panicked) = 0 ->
  (exists p t, cgaputc c s = Ret tt (s<|k_crtpos := p|><|k_crt := t|>) /\ 0 <= p < 24 * 80 /\
     forall x, x < 0 \/ 24 * 80 <= x -> t x = s.(k_crt) x) /\
  exists s', consputs cs s = Ret tt s' /\ printed s s' /\ on_screen s' /\
    s'.(k_serial) = s.(k_serial) ++ (cs ≫= serial_of s.(k_uart)).
Proof. intros Hon Hp. split; [by apply cgaputc_ok|by apply consputs_ok]. Qed.

Lemma console_output_witness :
  exists s', consputs [104; 105; 10; BACKSPACE] ((loaded 0 0)<|k_uart := 1|><|k_crtpos := 1919|>) = Ret tt s' /\
    on_screen s' /\ s'.(k_serial) = [104; 105; 10; 8; 32; 8].
Proof.
  destruct (console_output [104; 105; 10; BACKSPACE] 10 ((loaded 0 0)<|k_uart := 1|><|k_crtpos := 1919|>))
    as (_ & s' & E & _ & Hon & Hs).
  - by vm_compute.
  - reflexivity.
  - exists s'. split_and!; [exact E|exact Hon|exact Hs].
Defined.

(** ** printint prints the number *)
Definition undigit (c : Z) : Z := if c <=? 57 then c - 48 else c - 87.
(** The number a numeral stands for. *)
Definition read_num (base : Z) (cs : list Z) : Z := foldl (fun v c => v * base + undigit c) 0 cs.

Lemma undigit_digit d : 0 <= d < 16 -> undigit (digit d) = d.
Proof. intros. unfold undigit, digit. blia. Qed.

Lemma read_num_snoc base cs c : read_num base (cs ++ [c]) = read_num base cs * base + undigit c.
Proof. unfold read_num. by rewrite foldl_app. Qed.

Lemma printint_digits_value base fuel : forall x,
  2 <= base <= 16 -> 0 <= x < base ^ Z.of_nat fuel -> (0 < fuel)%nat ->
  read_num base (reverse (printint_digits fuel x base)) = x.
Proof.
  induction fuel as [|fuel IH]; intros x Hb Hx Hf; [lia|]. cbn [printint_digits].
  pose proof (Z.mod_pos_bound x base). pose proof (Z.div_mod x base).
  rewrite reverse_cons, read_num_snoc, undigit_digit by lia.
  destruct (Z.eqb_spec (x / base) 0) as [Hz|Hz].
  - change (read_num base (reverse [])) with 0. lia.
  - assert (0 <= x / base) by (apply Z.div_pos; lia).
    rewrite Nat2Z.inj_succ, Z.pow_succ_r in Hx by lia.
    assert (x / base < base ^ Z.of_nat fuel) by (apply Z.div_lt_upper_bound; lia).
    rewrite IH; [lia|done|lia|]. destruct fuel; [cbn in *; lia|lia].
Qed.

Lemma printint_digits_length base k fuel : forall x,
  2 <= base -> 0 <= x < base ^ Z.of_nat (S k) -> (length (printint_digits fuel x base) <= S k)%nat.
Proof.
  revert fuel. induction k as [|k IH]; intros fuel x Hb Hx.
  - destruct fuel as [|fuel]; cbn; [lia|]. rewrite Z.div_small by lia. cbn. lia.
  - destruct fuel as [|fuel]; cbn [printint_digits length]; [lia|]. apply le_n_S.
    destruct (x / base =? 0); [cbn; lia|]. apply IH; [done|].
    rewrite Nat2Z.inj_succ, Z.pow_succ_r in Hx by lia. split; [apply Z.div_pos; lia|].
    apply Z.div_lt_upper_bound; lia.
Qed.

(** printint prints the number.  For every 32-bit argument in base 10 or
    16 the characters put out are, after a minus sign for a negative number
    printed as signed, the numeral of its absolute value (of the unsigned value
    otherwise); there are at most 11 of them, so the 16-byte buffer of the code
    is never overrun, also for the most negative int. *)
Theorem printint_prints (xx base : Z) (sign : bool) (s : kernel) :
  - 2 ^ 31 <= xx < 2 ^ 31 -> base = 10 \/ base = 16 ->
  on_screen s -> s.(k_panicked) = 0 -> s.(k_uart) = 1 ->
  (length (printint_buf xx base sign) <= 11)%nat /\
  exists s' sgn ds, printint xx base sign s = Ret tt s' /\ on_screen s' /\
    s'.(k_serial) = s.(k_serial) ++ (u8 <$> sgn ++ ds) /\
    sgn = (if sign && (xx <? 0) then [45] else []) /\
    read_num base ds = (if sign && (xx <? 0) then - xx else u32 xx).
Proof.
  intros Hx Hb Hon Hp Hu. set (neg := sign && (xx <? 0)). set (x := if neg then u32 (- xx) else u32 xx).
  assert (Hxr : 0 <= x < 2 ^ 32) by (unfold x; destruct neg; apply u32_range).
  assert (Hlen : (length (printint_digits 32 x base) <= 10)%nat).
  { destruct Hb as [-> | ->]; [apply (printint_digits_length 10 9)|transitivity 8%nat; [|lia];
      apply (printint_digits_length 16 7)]; lia. }
  assert (Hneg : xx < 0 \/ neg = false) by (unfold neg; destruct sign; cbn; blia).
  destruct (consputs_ok (reverse (printint_buf xx base sign)) s Hon Hp) as (s' & E & _ & Hon' & Hs').
  unfold printint_buf in *. fold neg in E, Hs' |- *. fold x in E, Hs' |- *.
  split; [rewrite length_app; destruct neg; cbn [length]; lia|].
  exists s', (if neg then [45] else []), (reverse (printint_digits 32 x base)).
  split_and!; [exact E|exact Hon'| |done|].
  - rewrite Hs', Hu, reverse_app. f_equal.
    assert (Hser : forall cs, Forall (fun c => c <> BACKSPACE) cs -> cs ≫= serial_of 1 = u8 <$> cs).
    { induction 1 as [|c cs Hc _ IH]; [done|]. cbn. rewrite IH. unfold serial_of.
      by rewrite (proj2 (Z.eqb_neq _ _)). }
    replace (reverse (if neg then [45] else [])) with (if neg then [45] else [] : list Z) by (by destruct neg).
    apply Hser. apply Forall_app. split; [destruct neg; repeat constructor; done|].
    apply Forall_reverse. clear Hlen E Hs'. clearbody x. clear Hneg neg. revert x Hxr.
    generalize 32%nat. intros fuel.
    induction fuel as [|fuel IH]; intros x Hxr; constructor.
    + unfold digit, BACKSPACE. destruct Hb as [-> | ->];
        [pose proof (Z.mod_pos_bound x 10)|pose proof (Z.mod_pos_bound x 16)]; blia.
    + destruct (x / base =? 0); [constructor|]. apply IH.
      split; [apply Z.div_pos; lia|]. apply Z.div_lt_upper_bound; [lia|]. destruct Hb as [-> | ->]; lia.
  - rewrite printint_digits_value; [|lia|split; [lia|]|lia].
    + unfold x. destruct neg eqn:En; [|done]. apply u32_small. destruct Hneg; [lia|done].
    + destruct Hb as [-> | ->]; (eapply Z.lt_trans; [apply Hxr|]); by vm_compute.
Qed.

Lemma printint_prints_witness :
  exists s' sgn ds, printint (-205) 10 true ((loaded 0 0)<|k_uart := 1|>) = Ret tt s' /\ on_screen s' /\
    s'.(k_serial) = [] ++ (u8 <$> sgn ++ ds) /\ sgn = [45] /\ read_num 10 ds = 205.
Proof.
  refine (proj2 (printint_prints (-205) 10 true ((loaded 0 0)<|k_uart := 1|>) _ _ _ _ _));
    try reflexivity; [lia|by left|by vm_compute].
Defined.

(** ** cprintf of a message without conversions *)
Lemma printed_running i q ls s s' : printed s s' -> running i q ls s -> running i q ls s'.
Proof. intros (? & ? & ? & ->) Hr. kframe Hr. Qed.

Definition plain (fmt : list Z) : Prop := Forall (fun c => c <> 0 /\ c <> 37) fmt.

Lemma cprintf_loop_plain fmt args : forall s,
  plain fmt -> on_screen s -> s.(k_panicked) = 0 ->
  exists s', cprintf_loop fmt args s = Ret tt s' /\ printed s s' /\ on_screen s'.
Proof.
  induction fmt as [|c fmt IH]; intros s Hp Hon Hpa; [by exists s|].
  apply list.Forall_cons in Hp as [[H0 H37] Hp]. cbn [cprintf_loop].
  rewrite (proj2 (Z.eqb_neq c 0) H0), (proj2 (Z.eqb_neq c 37) H37). cbn [negb].
  destruct (consputc_ok c s Hon Hpa) as (s1 & E1 & Hpr1 & Hon1 & _).
  destruct (IH s1 Hp Hon1) as (s' & E' & Hpr' & Hon'); [by destruct Hpr1 as (? & ? & ? & ->)|].
  exists s'. split_and!; [by kret_by exact E1|by transitivity s1|done].
Qed.

(** Something was printed, and locks were taken and released. *)
Definition shown (s s' : kernel) : Prop := exists l p t, quiet (s<|k_serial := l|><|k_crtpos := p|><|k_crt := t|>) s'.

Lemma cprintln_ex i q ls s fmt :
  running i q ls s -> LkCons ∉ ls -> on_screen s -> s.(k_panicked) = 0 -> plain (bytes fmt ++ [newline]) ->
  exists s', cprintln fmt [] s = Ret tt s' /\ running i q ls s' /\ on_screen s' /\ shown s s'.
Proof.
  intros Hr Hls Hon Hpa Hpl. unfold cprintln, cprintf. kret. destruct (truth (k_conslocking s)).
  - destruct (acquire_ex _ _ _ LkCons _ Hr Hls) as (s1 & E1 & Hq1 & Hr1). kret_by exact E1.
    destruct (cprintf_loop_plain _ [] s1 Hpl) as (s2 & E2 & Hpr2 & Hon2); [by destruct Hq1 as (? & ? & ? & ->)..|].
    destruct (release_ex _ _ _ LkCons _ (printed_running _ _ _ _ _ Hpr2 Hr1) ltac:(set_solver)) as (s3 & E3 & Hq3 & Hr3).
    replace (({[LkCons]} ∪ ls) ∖ {[LkCons]}) with ls in Hr3 by set_solver.
    exists s3. split_and!; [kret_by exact E2; exact E3|done|by destruct Hq3 as (? & ? & ? & ->)|].
    destruct Hpr2 as (l & p & t & ->). exists l, p, t. by quiet_by Hq1 Hq3.
  - kret. destruct (cprintf_loop_plain _ [] s Hpl Hon Hpa) as (s2 & E2 & Hpr2 & Hon2).
    exists s2. split_and!; [by kret_by exact E2|by apply (printed_running _ _ _ _ _ Hpr2)|done|].
    destruct Hpr2 as (l & p & t & ->). by exists l, p, t.
Qed.
