(* ===== verification/Kalloc.v ===== *)
(** * The physical page allocator: kalloc.c, with the page macros of mmu.h

    The free list lives in the free pages themselves: the first word of a free
    page is the address of the next one.  [free_list] says that memory holds
    such a list, and the theorems show that kalloc, kfree and freerange act on
    it as pop, push and push of a range act on a stack of distinct pages. *)

From S2P Require Import Prelude State Spinlock Thread CString.

(** ** memlayout.h, mmu.h *)
Definition V2P (a : Z) : Z := u32 (a - KERNBASE).
Definition P2V (a : Z) : Z := u32 (a + KERNBASE).
Definition PGROUNDUP (sz : Z) : Z := Z.land (u32 (sz + PGSIZE - 1)) (u32 (Z.lnot (PGSIZE - 1))).
Definition PGROUNDDOWN (a : Z) : Z := Z.land a (u32 (Z.lnot (PGSIZE - 1))).

(** ** The code *)
Definition kfree (v : Z) : K unit :=
  let! s := get in
  if truth (v mod PGSIZE) || (v <? s.(k_end)) || (PHYSTOP <=? V2P v) then panic "kfree"
  else
    modify (fun s => s<|k_mem ::= fun m => memset m v 1 PGSIZE|>) ;;;
    let! ul := gets (fun s => s.(k_use_lock)) in
    (if! truth ul then! acquire LkKmem) ;;;
    modify (fun s => s<|k_mem ::= fun m => store32 m v s.(k_freelist)|>) ;;;
    modify (fun s => s<|k_freelist := v|>) ;;;
    let! ul := gets (fun s => s.(k_use_lock)) in
    if! truth ul then! release LkKmem.

Definition kalloc : K Z :=
  let! ul := gets (fun s => s.(k_use_lock)) in
  (if! truth ul then! acquire LkKmem) ;;;
  let! r := gets (fun s => s.(k_freelist)) in
  (if! truth r then! modify (fun s => s<|k_freelist := load32 s.(k_mem) r|>)) ;;;
  let! ul := gets (fun s => s.(k_use_lock)) in
  (if! truth ul then! release LkKmem) ;;;
  ret r.

(** The loop of freerange, [fuel] pages at most. *)
Fixpoint freerange_loop (fuel : nat) (p vend : Z) : K unit :=
  match fuel with
  | O => nofuel
  | S fuel' =>
      if u32 (p + PGSIZE) <=? vend
      then kfree p ;;; freerange_loop fuel' (u32 (p + PGSIZE)) vend
      else ret tt
  end.
(** One iteration per page below [vend], and the last test. *)
Definition freerange_fuel (vend : Z) : nat := S (Z.to_nat (vend / PGSIZE)).
Definition freerange (vstart vend : Z) : K unit :=
  freerange_loop (freerange_fuel vend) (PGROUNDUP vstart) vend.

Definition kinit1 (vstart vend : Z) : K unit :=
  initlock LkKmem ;;;
  modify (fun s => s<|k_use_lock := 0|>) ;;;
  freerange vstart vend.

Definition kinit2 (vstart vend : Z) : K unit :=
  freerange vstart vend ;;;
  modify (fun s => s<|k_use_lock := 1|>).

(** ** Page arithmetic *)

Lemma lnot_pg : u32 (Z.lnot (PGSIZE - 1)) = 2 ^ 32 - 2 ^ 12.
Proof. reflexivity. Qed.

Lemma pg_mask (a : Z) : 0 <= a < 2 ^ 32 -> Z.land a (2 ^ 32 - 2 ^ 12) = a - a mod PGSIZE.
Proof.
  intros Ha. change PGSIZE with (2 ^ 12). rewrite <- (land_clear_low a 12) by lia.
  replace a with (Z.land a (Z.ones 32)) at 2
    by (rewrite Z.land_ones by lia; by apply Z.mod_small).
  rewrite <- Z.land_assoc. f_equal.
Qed.

Lemma PGROUNDDOWN_spec (a : Z) : 0 <= a < 2 ^ 32 -> PGROUNDDOWN a = a - a mod PGSIZE.
Proof. intros. unfold PGROUNDDOWN. rewrite lnot_pg. by apply pg_mask. Qed.

(** PGROUNDUP rounds up to a page boundary, except that within a page of the top
    of the address space it wraps around to 0. *)
Lemma PGROUNDUP_spec (a : Z) :
  0 <= a < 2 ^ 32 ->
  PGROUNDUP a = if a + PGSIZE - 1 <? 2 ^ 32 then (a + PGSIZE - 1) / PGSIZE * PGSIZE else 0.
Proof.
  intros Ha. unfold PGROUNDUP. rewrite lnot_pg, pg_mask by apply u32_range.
  change PGSIZE with 4096 in *. destruct (a + 4096 - 1 <? 2 ^ 32) eqn:E.
  - rewrite u32_small by blia. pose proof (Z.div_mod (a + 4096 - 1) 4096). lia.
  - assert (Hw : u32 (a + 4096 - 1) = a + 4096 - 1 - 2 ^ 32).
    { unfold u32. rewrite (Z.mod_eq _ (2 ^ 32)) by lia.
      replace ((a + 4096 - 1) / 2 ^ 32) with 1; [lia|].
      apply (Z.div_unique _ _ 1 (a + 4096 - 1 - 2 ^ 32)); blia. }
    rewrite Hw, Z.mod_small by blia. lia.
Qed.

(** ** The free list *)

(** A page kfree accepts. *)
Definition page_ok (kend p : Z) : Prop :=
  p mod PGSIZE = 0 /\ kend <= p /\ KERNBASE <= p < KERNBASE + PHYSTOP.

(** [head] starts a list of pages [l] linked through their first words. *)
Fixpoint free_list (kend : Z) (m : mem) (head : Z) (l : list Z) : Prop :=
  match l with
  | [] => head = 0
  | p :: l' => head = p /\ page_ok kend p /\ free_list kend m (load32 m p) l'
  end.

Definition free_rep (s : kernel) (l : list Z) : Prop :=
  free_list s.(k_end) s.(k_mem) s.(k_freelist) l /\ NoDup l.

(** The allocator's lock is usable: not used yet, or free and on a sane processor. *)
Definition kmem_ready (i : nat) (c : cpu) (s : kernel) : Prop :=
  s.(k_use_lock) = 0 \/ cpu_ok i c s /\ unlocked LkKmem s.
(** What a call leaves behind of its lock operations. *)
Definition kmem_settle (i : nat) (s : kernel) : kernel :=
  if truth s.(k_use_lock) then settle i s else s.

Lemma page_ok_not_null kend p : page_ok kend p -> p <> 0.
Proof. unfold page_ok, KERNBASE. lia. Qed.

Lemma free_list_page kend m head l p : free_list kend m head l -> p ∈ l -> page_ok kend p.
Proof.
  revert head. induction l as [|q l IH]; intros head Hl Hp; [by apply not_elem_of_nil in Hp|].
  destruct Hl as (-> & Hq & Hl). apply elem_of_cons in Hp as [->|Hp]; [done|]. by eapply IH.
Qed.

Lemma free_list_ext kend m m' head l :
  (forall p, p ∈ l -> load32 m' p = load32 m p) ->
  free_list kend m head l -> free_list kend m' head l.
Proof.
  revert head. induction l as [|p l IH]; intros head Hext; [done|].
  intros (-> & Hp & Hl). split_and!; [done..|]. rewrite Hext by left. apply IH; [|done].
  intros q Hq. apply Hext. by right.
Qed.

Lemma free_list_head kend m head l : free_list kend m head l -> head = hd 0 l.
Proof. destruct l; simpl; naive_solver. Qed.

(** Distinct pages do not overlap. *)
Lemma pages_apart kend kend' p q :
  page_ok kend p -> page_ok kend' q -> p <> q -> p + PGSIZE <= q \/ q + PGSIZE <= p.
Proof.
  intros (Hp & _) (Hq & _) Hne. unfold PGSIZE in *.
  pose proof (Z.div_mod p 4096). pose proof (Z.div_mod q 4096). lia.
Qed.

Lemma kfree_test kend p :
  KERNBASE <= kend -> 0 <= p < 2 ^ 32 ->
  truth (p mod PGSIZE) || (p <? kend) || (PHYSTOP <=? V2P p) = false <-> page_ok kend p.
Proof.
  intros Hend Hp. unfold page_ok, truth, V2P.
  destruct (decide (KERNBASE <= p)) as [Hk|Hk].
  - rewrite u32_small by (unfold KERNBASE in *; lia). split; blia.
  - split; [|lia]. intros H. apply orb_false_iff in H as [H _].
    apply orb_false_iff in H as [_ H]. lia.
Qed.

(** The state kfree leaves: the page filled with ones, linked in front of the list. *)
Definition freed_state (v : Z) (s : kernel) : kernel :=
  s<|k_mem := store32 (memset s.(k_mem) v 1 PGSIZE) v s.(k_freelist)|><|k_freelist := v|>.

Lemma kfree_spec i c s v :
  KERNBASE <= s.(k_end) -> page_ok s.(k_end) v -> kmem_ready i c s ->
  kfree v s = Ret tt (kmem_settle i (freed_state v s)).
Proof.
  intros Hend Hv Hrdy. pose proof Hv as (_ & _ & Hr). unfold KERNBASE, PHYSTOP in Hr.
  unfold kfree. kret.
  rewrite (proj2 (kfree_test (k_end s) v Hend ltac:(lia)) Hv). kret. kret.
  change (k_use_lock (s<|k_mem ::= fun m => memset m v 1 PGSIZE|>)) with (k_use_lock s).
  unfold kmem_settle. change (k_use_lock (freed_state v s)) with (k_use_lock s).
  destruct (truth (k_use_lock s)) eqn:E.
  - destruct Hrdy as [Hz|[Hok Hul]]; [by rewrite Hz in E|].
    kret_by (apply (acquire_spec _ i c); [exact Hok|unfold lock_of; cbn; by rewrite Hul]).
    kret. kret. kret. cbn [k_use_lock]. change (k_use_lock _) with (k_use_lock s). rewrite E.
    apply (release_acq LkKmem i c (freed_state v s)); [exact Hok|exact Hul].
  - kret. kret. kret. kret. change (k_use_lock _) with (k_use_lock s). by rewrite E.
Qed.

(** Taking the first page off the list. *)
Lemma kalloc_pop s s' l :
  free_rep s l -> s'.(k_mem) = s.(k_mem) -> s'.(k_freelist) = s.(k_freelist) ->
  (if! truth (hd 0 l) then! modify (fun s => s<|k_freelist := load32 s.(k_mem) (hd 0 l)|>)) s'
  = Ret tt (s'<|k_freelist := hd 0 (tail l)|>).
Proof.
  intros [Hl _] Hm Hf. pose proof (free_list_head _ _ _ _ Hl) as Hhd. destruct l as [|p l]; cbn [hd tail] in *.
  - change (truth 0) with false. unfold ret. do 2 f_equal.
    transitivity (s'<|k_freelist := k_freelist s'|>); [reflexivity|]. by rewrite Hf, Hhd.
  - destruct Hl as (_ & Hp & Hl). apply page_ok_not_null in Hp.
    rewrite truth_true by done. unfold modify. cbn beta.
    by rewrite Hm, (free_list_head _ _ _ _ Hl).
Qed.

Lemma kalloc_spec i c s l :
  free_rep s l -> kmem_ready i c s ->
  kalloc s = Ret (hd 0 l) (kmem_settle i (s<|k_freelist := hd 0 (tail l)|>)).
Proof.
  intros Hrep Hrdy. pose proof (free_list_head _ _ _ _ (proj1 Hrep)) as Hhd.
  unfold kalloc. kret. unfold kmem_settle.
  change (k_use_lock (s<|k_freelist := hd 0 (tail l)|>)) with (k_use_lock s).
  destruct (truth (k_use_lock s)) eqn:E.
  - destruct Hrdy as [Hz|[Hok Hul]]; [by rewrite Hz in E|].
    kret_by (apply (acquire_spec _ i c); [exact Hok|unfold lock_of; by rewrite Hul]).
    kret. change (k_freelist (acq LkKmem i s)) with (k_freelist s). rewrite Hhd.
    kret_by (by apply (kalloc_pop s)). kret. change (k_use_lock _) with (k_use_lock s). rewrite E.
    by krelease LkKmem i c (s<|k_freelist := hd 0 (tail l)|>) by done.
  - kret. kret. rewrite Hhd. kret_by (by apply (kalloc_pop s)). kret.
    change (k_use_lock _) with (k_use_lock s). rewrite E. by kret.
Qed.

(** The same for a thread that does not hold the allocator's lock, or while the
    lock is not in use yet. *)
Definition can_alloc (i : nat) (q : option nat) (ls : gset lockid) (s : kernel) : Prop :=
  s.(k_use_lock) = 0 \/ running i q ls s.
Ltac aframe H := let H' := fresh in destruct H as [H'|H']; [left; exact H'|right; kframe H'].

Lemma can_running i q ls s : can_alloc i q ls s -> s.(k_use_lock) <> 0 -> running i q ls s.
Proof. by intros [H|H]. Qed.

Lemma kalloc_can i q ls l s :
  can_alloc i q ls s -> LkKmem ∉ ls -> free_rep s l ->
  exists s', kalloc s = Ret (hd 0 l) s' /\ quiet (s<|k_freelist := hd 0 (tail l)|>) s' /\
    can_alloc i q ls s' /\ (running i q ls s -> running i q ls s').
Proof.
  intros Hc Hls Hrep. pose proof (free_list_head _ _ _ _ (proj1 Hrep)) as Hhd. unfold kalloc. kret.
  destruct (truth (k_use_lock s)) eqn:E.
  - assert (Hr : running i q ls s) by (destruct Hc as [H|H]; [by rewrite H in E|done]).
    destruct (acquire_ex _ _ _ LkKmem _ Hr Hls) as (s1 & E1 & Hq1 & Hr1). kret_by exact E1. kret.
    assert (Hf : k_freelist s1 = hd 0 l) by (destruct Hq1 as (? & ? & ? & ->); exact Hhd). rewrite Hf.
    kret_by (apply (kalloc_pop s); [done|by destruct Hq1 as (? & ? & ? & ->)..]). kret.
    set (s2 := s1<|k_freelist := _|>).
    assert (Hul : k_use_lock s2 = k_use_lock s) by (by destruct Hq1 as (? & ? & ? & ->)). rewrite Hul, E.
    assert (Hr2 : running i q ({[LkKmem]} ∪ ls) s2) by kframe Hr1.
    destruct (release_ex _ _ _ LkKmem _ Hr2 ltac:(set_solver)) as (s3 & E3 & Hq3 & Hr3). kret_by exact E3.
    replace (({[LkKmem]} ∪ ls) ∖ {[LkKmem]}) with ls in Hr3 by set_solver.
    exists s3. split_and!; [done| |by right|done]. by quiet_by Hq1 Hq3.
  - kret. kret. rewrite Hhd. kret_by (by apply (kalloc_pop s)). kret.
    change (k_use_lock _) with (k_use_lock s). rewrite E. kret.
    eexists. split_and!; [reflexivity|reflexivity|aframe Hc|intros Hr; kframe Hr].
Qed.

Lemma kalloc_ex i q ls l s :
  running i q ls s -> LkKmem ∉ ls -> free_rep s l ->
  exists s', kalloc s = Ret (hd 0 l) s' /\ quiet (s<|k_freelist := hd 0 (tail l)|>) s' /\ running i q ls s'.
Proof.
  intros Hr Hls Hrep. destruct (kalloc_can i q ls l s (or_intror Hr) Hls Hrep) as (s' & E & Hq & _ & Hr').
  exists s'. by auto.
Qed.

Lemma kmem_settle_mem i s :
  k_mem (kmem_settle i s) = k_mem s /\ k_freelist (kmem_settle i s) = k_freelist s /\
  k_end (kmem_settle i s) = k_end s /\ k_use_lock (kmem_settle i s) = k_use_lock s.
Proof. unfold kmem_settle. by destruct (truth (k_use_lock s)). Qed.

Lemma free_rep_settle i s l : free_rep (kmem_settle i s) l <-> free_rep s l.
Proof.
  destruct (kmem_settle_mem i s) as (Hm & Hf & He & _). unfold free_rep. by rewrite Hm, Hf, He.
Qed.

Lemma kmem_ready_settle i c s :
  kmem_ready i c s -> kmem_ready i (if truth s.(k_use_lock) then settled s c else c) (kmem_settle i s).
Proof.
  unfold kmem_settle. destruct (truth (k_use_lock s)) eqn:E; [|done].
  intros [Hz|[Hok Hul]]; [by rewrite Hz in E|]. right. split; [by apply cpu_ok_settle|exact Hul].
Qed.

(** Popping keeps the rest of the list. *)
Lemma free_rep_pop s l : free_rep s l -> free_rep (s<|k_freelist := hd 0 (tail l)|>) (tail l).
Proof.
  intros [Hl Hnd]. destruct l as [|p l]; [done|]. cbn in *.
  destruct Hl as (_ & _ & Hl). apply list.NoDup_cons in Hnd as [_ Hnd]. split; [|done]. cbn.
  by rewrite <- (free_list_head _ _ _ _ Hl).
Qed.

(** Pushing a page that is not on the list keeps the list behind it. *)
Lemma free_rep_push s l v :
  free_rep s l -> page_ok s.(k_end) v -> v ∉ l -> free_rep (freed_state v s) (v :: l).
Proof.
  intros [Hl Hnd] Hv Hin. split; [|by constructor]. cbn. split_and!; [done..|].
  pose proof Hl as Hl0.
  assert (Hrange : 0 <= k_freelist s < 2 ^ 32).
  { rewrite (free_list_head _ _ _ _ Hl). destruct l as [|p l']; cbn; [lia|].
    destruct Hl0 as (_ & (_ & _ & Hp) & _). unfold KERNBASE, PHYSTOP in Hp. lia. }
  rewrite store32_same, u32_small by done.
  eapply free_list_ext; [|exact Hl]. intros p Hp.
  assert (Hok : page_ok (k_end s) p) by (by eapply free_list_page).
  assert (p <> v) by (intros ->; done).
  pose proof (pages_apart _ _ p v Hok Hv ltac:(done)) as Hap. unfold PGSIZE in *.
  rewrite store32_disjoint, memset_disjoint; [done|lia..].
Qed.

(** kfree of a thread that may allocate. *)
Lemma kfree_can i q ls l s v :
  can_alloc i q ls s -> LkKmem ∉ ls -> KERNBASE <= s.(k_end) -> page_ok s.(k_end) v -> free_rep s l -> v ∉ l ->
  exists s', kfree v s = Ret tt s' /\ quiet (freed_state v s) s' /\ free_rep s' (v :: l) /\
    can_alloc i q ls s' /\ (running i q ls s -> running i q ls s').
Proof.
  intros Hc Hls Hend Hv Hrep Hin. pose proof (free_rep_push s l v Hrep Hv Hin) as Hrep'.
  pose proof Hv as (_ & _ & Hr). unfold KERNBASE, PHYSTOP in Hr. unfold kfree. kret.
  rewrite (proj2 (kfree_test (k_end s) v Hend ltac:(lia)) Hv). kret. kret.
  set (s0 := s<|k_mem ::= fun m => memset m v 1 PGSIZE|>). change (k_use_lock s0) with (k_use_lock s).
  destruct (truth (k_use_lock s)) eqn:E.
  - assert (Hrun : running i q ls s) by (destruct Hc as [H|H]; [by rewrite H in E|done]).
    assert (Hr0 : running i q ls s0) by kframe Hrun.
    destruct (acquire_ex _ _ _ LkKmem _ Hr0 Hls) as (s1 & E1 & Hq1 & Hr1). kret_by exact E1. kret. kret. kret.
    set (s2 := s1<|k_mem ::= fun m => store32 m v (k_freelist s1)|><|k_freelist := v|>).
    assert (Hs2 : quiet (freed_state v s) s2) by (unfold s2; by destruct Hq1 as (b & cs & lks & ->); exists b, cs, lks).
    assert (Hr2 : running i q ({[LkKmem]} ∪ ls) s2) by kframe Hr1.
    assert (Hul : k_use_lock s2 = k_use_lock s) by (by destruct Hs2 as (? & ? & ? & ->)).
    rewrite Hul, E.
    destruct (release_ex _ _ _ LkKmem _ Hr2 ltac:(set_solver)) as (s3 & E3 & Hq3 & Hr3).
    replace (({[LkKmem]} ∪ ls) ∖ {[LkKmem]}) with ls in Hr3 by set_solver.
    assert (Hq : quiet (freed_state v s) s3) by (by transitivity s2).
    exists s3. split_and!; [done|done|by destruct Hq as (? & ? & ? & ->)|by right|done].
  - kret. kret. kret. kret. change (k_use_lock s0<|k_mem ::= _|><|k_freelist := v|>) with (k_use_lock s). rewrite E.
    eexists. split_and!; [reflexivity|reflexivity|done|aframe Hc|intros Hrun; kframe Hrun].
Qed.

(** ** freerange *)

Fixpoint pages (n : nat) (p : Z) : list Z :=
  match n with O => [] | S n' => p :: pages n' (p + PGSIZE) end.

Lemma elem_of_pages n p q : q ∈ pages n p -> p <= q < p + PGSIZE * Z.of_nat n.
Proof.
  revert p. induction n as [|n IH]; intros p; [by intros H%not_elem_of_nil|].
  cbn [pages]. rewrite elem_of_cons, Nat2Z.inj_succ. unfold PGSIZE in *.
  intros [->|H]; [lia|]. specialize (IH _ H). lia.
Qed.

Lemma freerange_loop_spec i vend n : forall fuel p c s l,
  p mod PGSIZE = 0 -> KERNBASE <= s.(k_end) <= p ->
  p + PGSIZE * Z.of_nat n <= vend < p + PGSIZE * (Z.of_nat n + 1) ->
  vend <= KERNBASE + PHYSTOP -> (n < fuel)%nat -> free_rep s l ->
  (forall q, q ∈ l -> q ∉ pages n p) -> kmem_ready i c s ->
  exists c' s', freerange_loop fuel p vend s = Ret tt s' /\
    free_rep s' (reverse (pages n p) ++ l) /\
    s'.(k_end) = s.(k_end) /\ s'.(k_use_lock) = s.(k_use_lock) /\ kmem_ready i c' s' /\
    (s.(k_use_lock) = 0 -> exists m fl, s' = s<|k_mem := m|><|k_freelist := fl|>).
Proof.
  induction n as [|n IH]; intros fuel p c s l Hal Hend Hvend Htop Hfuel Hrep Hdis Hrdy;
    (destruct fuel as [|fuel]; [lia|]); cbn [freerange_loop];
    unfold KERNBASE, PHYSTOP, PGSIZE in Hend, Hvend, Htop |- *;
    rewrite (u32_small (p + 4096)) by lia.
  - replace (p + 4096 <=? vend) with false by lia. eexists c, s. split_and!; try done. intros _. by exists s.(k_mem), s.(k_freelist).
  - replace (p + 4096 <=? vend) with true by lia.
    assert (Hp : page_ok (k_end s) p) by (unfold page_ok, KERNBASE, PHYSTOP; lia).
    kret_by (apply (kfree_spec i c); [unfold KERNBASE; lia|done..]).
    destruct (kmem_settle_mem i (freed_state p s)) as (_ & _ & He & Hu).
    assert (Hpl : p ∉ l) by (intros Hin; apply (Hdis _ Hin); cbn [pages]; left).
    pose proof (kmem_ready_settle i c (freed_state p s) Hrdy) as Hrdy1.
    set (c1 := if truth _ then _ else c) in Hrdy1.
    destruct (IH fuel (p + 4096) c1 (kmem_settle i (freed_state p s)) (p :: l))
      as (c' & s' & Hrun & Hrep' & He' & Hu' & Hrdy' & Hfr').
    + unfold PGSIZE in *. by rewrite Zplus_mod, Hal.
    + rewrite He. cbn. unfold KERNBASE. lia.
    + unfold PGSIZE. lia.
    + unfold KERNBASE, PHYSTOP. lia.
    + lia.
    + apply free_rep_settle. by apply free_rep_push.
    + intros q Hq Hin. apply elem_of_cons in Hq as [->|Hq].
      * apply elem_of_pages in Hin. unfold PGSIZE in Hin. lia.
      * apply (Hdis q Hq). cbn [pages]. unfold PGSIZE. by right.
    + exact Hrdy1.
    + exists c', s'. rewrite He', Hu', He, Hu. split_and!; [done| |done..|].
      * cbn [pages]. unfold PGSIZE. by rewrite reverse_cons, <- app_assoc.
      * intros H0. destruct Hfr' as (m & fl & ->); [by rewrite Hu|]. exists m, fl. unfold kmem_settle.
        change (k_use_lock (freed_state p s)) with (k_use_lock s). by rewrite (truth_false _ H0).
Qed.

Lemma PGROUNDUP_bounds (a : Z) :
  0 <= a -> a + PGSIZE < 2 ^ 32 ->
  PGROUNDUP a mod PGSIZE = 0 /\ a <= PGROUNDUP a < a + PGSIZE.
Proof.
  unfold PGSIZE. intros. rewrite PGROUNDUP_spec by lia. unfold PGSIZE.
  replace (a + 4096 - 1 <? 2 ^ 32) with true by lia.
  split; [by rewrite Z.mod_mul|]. pose proof (Z.div_mod (a + 4096 - 1) 4096).
  pose proof (Z.mod_pos_bound (a + 4096 - 1) 4096). lia.
Qed.

(** The pages freerange frees. *)
Definition range_pages (vstart vend : Z) : list Z :=
  pages (Z.to_nat ((vend - PGROUNDUP vstart) / PGSIZE)) (PGROUNDUP vstart).

Lemma freerange_spec i c s vstart vend l :
  KERNBASE <= s.(k_end) <= vstart -> PGROUNDUP vstart <= vend <= KERNBASE + PHYSTOP ->
  vstart <= vend -> free_rep s l -> (forall q, q ∈ l -> q ∉ range_pages vstart vend) ->
  kmem_ready i c s ->
  exists c' s', freerange vstart vend s = Ret tt s' /\
    free_rep s' (reverse (range_pages vstart vend) ++ l) /\
    s'.(k_end) = s.(k_end) /\ s'.(k_use_lock) = s.(k_use_lock) /\ kmem_ready i c' s' /\
    (s.(k_use_lock) = 0 -> exists m fl, s' = s<|k_mem := m|><|k_freelist := fl|>).
Proof.
  intros Hend Hvend Hle Hrep Hdis Hrdy. unfold freerange.
  unfold KERNBASE, PHYSTOP in Hend, Hvend.
  destruct (PGROUNDUP_bounds vstart) as [Hal Hup]; [unfold PGSIZE; lia..|].
  eapply (freerange_loop_spec i vend _ _ _ c); try done.
  - unfold KERNBASE. lia.
  - unfold PGSIZE in *. pose proof (Z.div_mod (vend - PGROUNDUP vstart) 4096).
    pose proof (Z.mod_pos_bound (vend - PGROUNDUP vstart) 4096).
    rewrite Z2Nat.id by (apply Z.div_pos; lia). lia.
  - unfold KERNBASE, PHYSTOP. lia.
  - unfold freerange_fuel.
    assert ((vend - PGROUNDUP vstart) / PGSIZE <= vend / PGSIZE)
      by (apply Z.div_le_mono; unfold PGSIZE; lia).
    assert (0 <= (vend - PGROUNDUP vstart) / PGSIZE) by (apply Z.div_pos; unfold PGSIZE; lia).
    lia.
Qed.

(** Freeing [v] does not touch memory outside the page and fills the page with
    ones behind the link word. *)
Lemma freed_state_mem v s x :
  (v + 4 <= x < v + PGSIZE -> k_mem (freed_state v s) x = 1) /\
  (x < v \/ v + PGSIZE <= x -> k_mem (freed_state v s) x = k_mem s x).
Proof.
  unfold freed_state, PGSIZE; cbn. split; intros Hx; rewrite store32_other, memset_lookup by lia.
  - by replace ((v <=? x) && (x <? v + 4096)) with true by blia.
  - by replace ((v <=? x) && (x <? v + 4096)) with false by blia.
Qed.

(** the allocator refines a stack of distinct free pages.  kalloc pops it
    (returning 0 when it is empty) without writing memory; kfree of a page that
    is not on it pushes that page, overwrites exactly that page, and leaves
    every byte after the link word equal to 1. *)
Theorem kalloc_kfree_stack (i : nat) (c : cpu) (s : kernel) (l : list Z)
    (Hrep : free_rep s l) (Hrdy : kmem_ready i c s) (Hend : KERNBASE <= s.(k_end)) :
  (exists s', kalloc s = Ret (hd 0 l) s' /\ free_rep s' (tail l) /\ s'.(k_mem) = s.(k_mem)) /\
  (forall v, page_ok s.(k_end) v -> v ∉ l ->
    exists s', kfree v s = Ret tt s' /\ free_rep s' (v :: l) /\
      forall x, (v + 4 <= x < v + PGSIZE -> s'.(k_mem) x = 1) /\
                (x < v \/ v + PGSIZE <= x -> s'.(k_mem) x = s.(k_mem) x)).
Proof.
  split.
  - eexists. split; [by apply (kalloc_spec i c)|]. split.
    + apply free_rep_settle. by apply free_rep_pop.
    + exact (proj1 (kmem_settle_mem i _)).
  - intros v Hv Hin. eexists. split; [by apply (kfree_spec i c)|]. split.
    + apply free_rep_settle. by apply free_rep_push.
    + intros x. destruct (kmem_settle_mem i (freed_state v s)) as (-> & _). apply freed_state_mem.
Qed.

(** kfree panics on every address that is not a page the allocator may own:
    unaligned, below the end of the kernel image, or at or above PHYSTOP. *)
Theorem kfree_rejects (s : kernel) (v : Z) (Hend : KERNBASE <= s.(k_end)) (Hv : 0 <= v < 2 ^ 32)
    (Hbad : v mod PGSIZE <> 0 \/ v < s.(k_end) \/ KERNBASE + PHYSTOP <= v) :
  kfree v s = Panic "kfree" s.
Proof.
  unfold kfree. kret.
  destruct (truth (v mod PGSIZE) || (v <? k_end s) || (PHYSTOP <=? V2P v)) eqn:E; [done|].
  apply kfree_test in E as (? & ? & ?); [lia|done|done].
Qed.

Lemma elem_of_range_pages vstart vend q :
  0 <= vstart -> vstart + PGSIZE < 2 ^ 32 -> PGROUNDUP vstart <= vend ->
  q ∈ range_pages vstart vend <-> q mod PGSIZE = 0 /\ vstart <= q /\ q + PGSIZE <= vend.
Proof.
  intros Hv Hv' Hle. destruct (PGROUNDUP_bounds vstart Hv Hv') as [Hal Hup].
  unfold range_pages. set (p := PGROUNDUP vstart) in *.
  assert (Hgen : forall n p, p mod PGSIZE = 0 ->
    (q ∈ pages n p <-> q mod PGSIZE = 0 /\ p <= q < p + PGSIZE * Z.of_nat n)).
  { unfold PGSIZE. induction n as [|n IH]; intros p' Hp'; cbn [pages].
    - change (Z.of_nat 0) with 0. rewrite elem_of_nil. lia.
    - unfold PGSIZE. rewrite elem_of_cons, IH by (by rewrite Zplus_mod, Hp'). rewrite Nat2Z.inj_succ.
      pose proof (Z.div_mod q 4096). pose proof (Z.div_mod p' 4096).
      split; [intros [->|?]; lia|]. intros ?. destruct (decide (q = p')); [left|right]; lia. }
  rewrite Hgen by done. unfold PGSIZE in *.
  rewrite Z2Nat.id by (apply Z.div_pos; lia).
  pose proof (Z.div_mod (vend - p) 4096). pose proof (Z.mod_pos_bound (vend - p) 4096).
  pose proof (Z.div_mod q 4096). pose proof (Z.div_mod p 4096). lia.
Qed.

(** kinit1 puts every whole page of [vstart, vend) on the free list, once, and
    nothing else, and leaves the allocator lockless; kinit2 adds a second,
    higher range and switches the lock on. *)
Theorem kinit_frees_range (s : kernel) (vstart vmid vend : Z)
    (Hend : KERNBASE <= s.(k_end) <= vstart) (Hmid : vstart + PGSIZE <= vmid)
    (Htop : vmid + PGSIZE <= vend <= KERNBASE + PHYSTOP) (Hempty : s.(k_freelist) = 0) :
  exists s1 s2 l1 l2,
    kinit1 vstart vmid s = Ret tt s1 /\ s1.(k_use_lock) = 0 /\ free_rep s1 l1 /\
    (forall q, q ∈ l1 <-> q mod PGSIZE = 0 /\ vstart <= q /\ q + PGSIZE <= vmid) /\
    kinit2 vmid vend s1 = Ret tt s2 /\ s2.(k_use_lock) = 1 /\ free_rep s2 (l2 ++ l1) /\
    (forall q, q ∈ l2 <-> q mod PGSIZE = 0 /\ vmid <= q /\ q + PGSIZE <= vend).
Proof.
  unfold KERNBASE, PHYSTOP, PGSIZE in Hend, Hmid, Htop.
  destruct (PGROUNDUP_bounds vstart) as [_ Hu1]; [unfold PGSIZE; lia..|].
  destruct (PGROUNDUP_bounds vmid) as [_ Hu2]; [unfold PGSIZE; lia..|]. unfold PGSIZE in Hu1, Hu2.
  set (s0 := (upd_lock LkKmem (fun _ => mkspinlock 0 None) s)<|k_use_lock := 0|>).
  destruct (freerange_spec 0 boot_cpu s0 vstart vmid []) as (c1 & s1 & Hr1 & Hrep1 & He1 & Hl1 & Hd1 & _).
  { unfold KERNBASE. cbn. lia. }
  { unfold KERNBASE, PHYSTOP. lia. }
  { lia. }
  { split; [exact Hempty|apply base.NoDup_nil_2]. }
  { intros q Hq. by apply not_elem_of_nil in Hq. }
  { by left. }
  rewrite app_nil_r in Hrep1.
  assert (Hel : forall q, q ∈ range_pages vstart vmid <->
    q mod PGSIZE = 0 /\ vstart <= q /\ q + PGSIZE <= vmid)
    by (intros q; apply elem_of_range_pages; unfold PGSIZE; lia).
  assert (Hel2 : forall q, q ∈ range_pages vmid vend <->
    q mod PGSIZE = 0 /\ vmid <= q /\ q + PGSIZE <= vend)
    by (intros q; apply elem_of_range_pages; unfold PGSIZE; lia).
  destruct (freerange_spec 0 c1 s1 vmid vend (reverse (range_pages vstart vmid)))
    as (c2 & s2 & Hr2 & Hrep2 & He2 & Hl2 & _).
  { rewrite He1. unfold KERNBASE. cbn. lia. }
  { unfold KERNBASE, PHYSTOP. lia. }
  { lia. }
  { done. }
  { intros q. rewrite elem_of_reverse, Hel, Hel2. unfold PGSIZE. lia. }
  { exact Hd1. }
  exists s1, (s2<|k_use_lock := 1|>), (reverse (range_pages vstart vmid)), (reverse (range_pages vmid vend)).
  split_and!; [unfold kinit1; kret; kret; exact Hr1|by rewrite Hl1|done|..].
  - intros q. by rewrite elem_of_reverse.
  - unfold kinit2. by kret_by (exact Hr2).
  - done.
  - exact Hrep2.
  - intros q. by rewrite elem_of_reverse.
Qed.

(** A machine with one page free and one page in use. *)
Definition two_pages : kernel :=
  (loaded 0x80110000 0x80108000)<|k_freelist := 0x80200000|>.

Lemma two_pages_rep : free_rep two_pages [0x80200000].
Proof.
  split; [|apply list.NoDup_singleton]. cbn. unfold page_ok, KERNBASE, PHYSTOP.
  split_and!; (done || lia).
Defined.

Lemma kalloc_kfree_stack_witness :
  (exists s', kalloc two_pages = Ret 0x80200000 s' /\ free_rep s' [] /\ s'.(k_mem) = two_pages.(k_mem)) /\
  (exists s', kfree 0x80201000 two_pages = Ret tt s' /\ free_rep s' [0x80201000; 0x80200000]).
Proof.
  destruct (kalloc_kfree_stack 0 boot_cpu two_pages [0x80200000] two_pages_rep (or_introl eq_refl)
              ltac:(done)) as [H1 H2].
  split; [exact H1|].
  destruct (H2 0x80201000) as (s' & Hs & Hr & _).
  - unfold page_ok, KERNBASE, PHYSTOP. cbn. split_and!; (done || lia).
  - intros Hin. apply list_elem_of_singleton in Hin. lia.
  - exists s'. split; [exact Hs|exact Hr].
Defined.

Lemma kfree_rejects_witness :
  kfree 0x80201004 two_pages = Panic "kfree" two_pages /\
  kfree 0x80000000 two_pages = Panic "kfree" two_pages /\
  kfree 0x8E000000 two_pages = Panic "kfree" two_pages.
Proof.
  split_and!; apply kfree_rejects; try done; try (left; done); right; unfold KERNBASE, PHYSTOP; cbn; lia.
Defined.

Lemma kinit_frees_range_witness :
  exists s1 s2 l1 l2,
    kinit1 0x80110123 0x80114000 (loaded 0x80110123 0x80108000) = Ret tt s1 /\
    s1.(k_use_lock) = 0 /\ free_rep s1 l1 /\
    (forall q, q ∈ l1 <-> q mod PGSIZE = 0 /\ 0x80110123 <= q /\ q + PGSIZE <= 0x80114000) /\
    kinit2 0x80114000 0x80118000 s1 = Ret tt s2 /\ s2.(k_use_lock) = 1 /\ free_rep s2 (l2 ++ l1) /\
    (forall q, q ∈ l2 <-> q mod PGSIZE = 0 /\ 0x80114000 <= q /\ q + PGSIZE <= 0x80118000).
Proof.
  apply (kinit_frees_range (loaded 0x80110123 0x80108000) 0x80110123 0x80114000 0x80118000);
    unfold KERNBASE, PHYSTOP, PGSIZE; cbn; lia.
Defined.
