(* ===== verification/Apic.v ===== *)
(** * Interrupt controllers: ioapic.c, lapic.c, picirq.c, and traps.h

    The registers of the controllers are memory-mapped; the code writes them in
    a fixed order, and reads a few.  What a register holds is what was last
    written to it, read off the history of device operations. *)

From S2P Require Import Prelude State Io Spinlock Segments CString Cprintf Kalloc.

Definition T_IRQ0 : Z := 32.
Definition IRQ_TIMER : Z := 0.
Definition IRQ_KBD : Z := 1.
Definition IRQ_COM1 : Z := 4.
Definition IRQ_IDE : Z := 14.
Definition IRQ_ERROR : Z := 19.
Definition IRQ_SPURIOUS : Z := 31.

(** ** ioapic.c: write [reg], then read or write [data], 16 bytes on *)
Definition IOAPIC : Z := 0xFEC00000.
Definition REG_ID : Z := 0.
Definition REG_VER : Z := 1.
Definition REG_TABLE : Z := 0x10.
Definition INT_DISABLED : Z := 0x10000.

Definition ioapicwrite (reg data : Z) : K unit :=
  mmio_store IOAPIC reg ;;;
  mmio_store (IOAPIC + 16) data.

Definition ioapicenable (irq cpunum : Z) : K unit :=
  ioapicwrite (REG_TABLE + 2 * irq) (T_IRQ0 + irq) ;;;
  ioapicwrite (REG_TABLE + 2 * irq + 1) (Z.shiftl cpunum 24).

(** ** picirq.c *)
Definition IO_PIC1 : Z := 0x20.
Definition IO_PIC2 : Z := 0xA0.
Definition picinit : K unit :=
  outb (IO_PIC1 + 1) 0xFF ;;;
  outb (IO_PIC2 + 1) 0xFF.

(** ** lapic.c: [lapic[index]] is the register at byte offset [4 * index] *)
Definition ID : Z := 0x20 / 4.
Definition VER : Z := 0x30 / 4.
Definition TPR : Z := 0x80 / 4.
Definition EOI : Z := 0xB0 / 4.
Definition SVR : Z := 0xF0 / 4.
Definition ENABLE : Z := 0x100.
Definition ESR : Z := 0x280 / 4.
Definition ICRLO : Z := 0x300 / 4.
Definition INIT : Z := 0x500.
Definition STARTUP : Z := 0x600.
Definition DELIVS : Z := 0x1000.
Definition ASSERT : Z := 0x4000.
Definition LEVEL : Z := 0x8000.
Definition BCAST : Z := 0x80000.
Definition ICRHI : Z := 0x310 / 4.
Definition TIMER : Z := 0x320 / 4.
Definition X1 : Z := 0xB.
Definition PERIODIC : Z := 0x20000.
Definition PCINT : Z := 0x340 / 4.
Definition LINT0 : Z := 0x350 / 4.
Definition LINT1 : Z := 0x360 / 4.
Definition ERROR : Z := 0x370 / 4.
Definition MASKED : Z := 0x10000.
Definition TICR : Z := 0x380 / 4.
Definition TDCR : Z := 0x3E0 / 4.
Definition CMOS_PORT : Z := 0x70.
Definition CMOS_RETURN : Z := 0x71.

(** struct rtcdate *)
Record rtcdate := mkdate {
  rt_second : Z; rt_minute : Z; rt_hour : Z; rt_day : Z; rt_month : Z; rt_year : Z
}.
#[export] Instance rtcdate_eq_dec : EqDecision rtcdate.
Proof. solve_decision. Defined.

(** How often a loop polls a device before the model gives up. *)
Class Polls := polls : nat.

Section Code.
Context {H : Hardware} {N : Polls}.

Definition ioapicread (reg : Z) : K Z :=
  mmio_store IOAPIC reg ;;;
  mmio_load (IOAPIC + 16).

Fixpoint ioapic_mask (n : nat) (i : Z) : K unit :=
  match n with
  | O => ret tt
  | S n' =>
      ioapicwrite (REG_TABLE + 2 * i) (Z.lor INT_DISABLED (T_IRQ0 + i)) ;;;
      ioapicwrite (REG_TABLE + 2 * i + 1) 0 ;;;
      ioapic_mask n' (i + 1)
  end.
(** [maxintr] is at most 255, and the loop runs from 0 to [maxintr]. *)
Definition ioapicinit : K unit :=
  let! ver := ioapicread REG_VER in
  let maxintr := Z.land (Z.shiftr ver 16) 0xFF in
  let! idreg := ioapicread REG_ID in
  let! s := get in
  (if! negb (Z.shiftr idreg 24 =? s.(k_ioapicid)) then!
     cprintln "ioapicinit: id isn't equal to ioapicid; not a MP" []) ;;;
  ioapic_mask (Z.to_nat (maxintr + 1)) 0.

Definition lapic_at (index : Z) : K Z :=
  let! s := get in
  mmio_load (s.(k_lapic) + 4 * index).
Definition lapicw (index value : Z) : K unit :=
  let! s := get in
  mmio_store (s.(k_lapic) + 4 * index) value ;;;
  let! _ := lapic_at ID in
  ret tt.

Fixpoint lapic_delivered (fuel : nat) : K unit :=
  match fuel with
  | O => nofuel
  | S fuel' =>
      let! v := lapic_at ICRLO in
      if truth (Z.land v DELIVS) then lapic_delivered fuel' else ret tt
  end.

Definition lapicinit : K unit :=
  let! s := get in
  if s.(k_lapic) =? 0 then ret tt
  else
    lapicw SVR (Z.lor ENABLE (T_IRQ0 + IRQ_SPURIOUS)) ;;;
    lapicw TDCR X1 ;;;
    lapicw TIMER (Z.lor PERIODIC (T_IRQ0 + IRQ_TIMER)) ;;;
    lapicw TICR 10000000 ;;;
    lapicw LINT0 MASKED ;;;
    lapicw LINT1 MASKED ;;;
    let! ver := lapic_at VER in
    (if! 4 <=? Z.land (Z.shiftr ver 16) 0xFF then! lapicw PCINT MASKED) ;;;
    lapicw ERROR (T_IRQ0 + IRQ_ERROR) ;;;
    lapicw ESR 0 ;;;
    lapicw ESR 0 ;;;
    lapicw EOI 0 ;;;
    lapicw ICRHI 0 ;;;
    lapicw ICRLO (Z.lor (Z.lor BCAST INIT) LEVEL) ;;;
    lapic_delivered polls ;;;
    lapicw TPR 0.

Definition lapicid : K Z :=
  let! s := get in
  if s.(k_lapic) =? 0 then ret 0
  else
    let! v := lapic_at ID in
    ret (Z.shiftr v 24).

Definition lapiceoi : K unit :=
  let! s := get in
  if! negb (s.(k_lapic) =? 0) then! lapicw EOI 0.

(** A 16-bit store to the memory of the machine. *)
Definition wr16 (a v : Z) : K unit :=
  modify (fun s => s<|k_mem ::= fun m x =>
    if x =? a + 1 then u8 (Z.shiftr v 8) else if x =? a then u8 v else m x|>).

(** microdelay does nothing. *)
Definition lapicstartap (apicid addr : Z) : K unit :=
  outb CMOS_PORT 0xF ;;;
  outb (CMOS_PORT + 1) 0x0A ;;;
  let wrv := P2V (Z.lor (Z.shiftl 0x40 4) 0x67) in
  wr16 wrv 0 ;;;
  wr16 (wrv + 2) (u16 (Z.shiftr addr 4)) ;;;
  lapicw ICRHI (Z.shiftl apicid 24) ;;;
  lapicw ICRLO (Z.lor (Z.lor INIT LEVEL) ASSERT) ;;;
  lapicw ICRLO (Z.lor INIT LEVEL) ;;;
  lapicw ICRHI (Z.shiftl apicid 24) ;;;
  lapicw ICRLO (Z.lor STARTUP (Z.shiftr addr 12)) ;;;
  lapicw ICRHI (Z.shiftl apicid 24) ;;;
  lapicw ICRLO (Z.lor STARTUP (Z.shiftr addr 12)).

(** ** The clock: struct rtcdate of date.h, and cmostime *)
Definition CMOS_STATA : Z := 0x0a.
Definition CMOS_STATB : Z := 0x0b.
Definition CMOS_UIP : Z := Z.shiftl 1 7.

Definition cmos_read (reg : Z) : K Z :=
  outb CMOS_PORT reg ;;;
  inb CMOS_RETURN.

Definition fill_rtcdate : K rtcdate :=
  let! second := cmos_read 0x00 in
  let! minute := cmos_read 0x02 in
  let! hour := cmos_read 0x04 in
  let! day := cmos_read 0x07 in
  let! month := cmos_read 0x08 in
  let! year := cmos_read 0x09 in
  ret (mkdate second minute hour day month year).

(** The loop that reads until two readings agree with no update in between. *)
Fixpoint stable_date (fuel : nat) : K rtcdate :=
  match fuel with
  | O => nofuel
  | S fuel' =>
      let! t1 := fill_rtcdate in
      let! a := cmos_read CMOS_STATA in
      if truth (Z.land a CMOS_UIP) then stable_date fuel'
      else
        let! t2 := fill_rtcdate in
        if bool_decide (t1 = t2) then ret t1 else stable_date fuel'
  end.

Definition CONV (x : Z) : Z := Z.shiftr x 4 * 10 + Z.land x 0xf.
Definition conv_date (t : rtcdate) : rtcdate :=
  mkdate (CONV t.(rt_second)) (CONV t.(rt_minute)) (CONV t.(rt_hour))
    (CONV t.(rt_day)) (CONV t.(rt_month)) (CONV t.(rt_year)).

Definition cmostime : K rtcdate :=
  let! sb := cmos_read CMOS_STATB in
  let bcd := Z.land sb (Z.shiftl 1 2) =? 0 in
  let! t1 := stable_date polls in
  let t1 := if bcd then conv_date t1 else t1 in
  ret (mkdate t1.(rt_second) t1.(rt_minute) t1.(rt_hour) t1.(rt_day) t1.(rt_month)
         (t1.(rt_year) + 2000)).
End Code.

(** ** The registers of the I/O APIC

    The register last selected, and what was last written to a register. *)
Fixpoint ioapic_selected (h : list ioop) : option Z :=
  match h with
  | [] => None
  | Store a v :: h' => if a =? IOAPIC then Some v else ioapic_selected h'
  | _ :: h' => ioapic_selected h'
  end.
Fixpoint ioapic_reg (h : list ioop) (r : Z) : option Z :=
  match h with
  | [] => None
  | Store a v :: h' =>
      if (a =? IOAPIC + 16) && bool_decide (ioapic_selected h' = Some r) then Some v
      else ioapic_reg h' r
  | _ :: h' => ioapic_reg h' r
  end.

Lemma ioapicwrite_spec reg data s :
  0 <= reg < 2 ^ 32 ->
  exists h, ioapicwrite reg data s = Ret tt (s<|k_io := h|>) /\
    forall r, ioapic_reg h r = if r =? reg then Some (u32 data) else ioapic_reg s.(k_io) r.
Proof.
  intros Hreg. unfold ioapicwrite. kret_by apply mmio_store_spec. rewrite mmio_store_spec.
  eexists. split; [reflexivity|]. intros r. rewrite (u32_small reg) by lia.
  change (ioapic_reg ?h r) with
    (if bool_decide (Some reg = Some r) then Some (u32 data) else ioapic_reg (k_io s) r) at 1.
  destruct (Z.eqb_spec r reg) as [->|Hne]; [by rewrite bool_decide_eq_true_2|].
  by rewrite bool_decide_eq_false_2 by congruence.
Qed.

(** One entry of the redirection table: the vector with its flags, and the target. *)
Definition entry (h : list ioop) (i : Z) : option Z * option Z :=
  (ioapic_reg h (REG_TABLE + 2 * i), ioapic_reg h (REG_TABLE + 2 * i + 1)).

Lemma set_entry_spec (i lo hi : Z) s :
  0 <= i < 2 ^ 16 ->
  exists h1 h2, ioapicwrite (REG_TABLE + 2 * i) lo s = Ret tt (s<|k_io := h1|>) /\
    ioapicwrite (REG_TABLE + 2 * i + 1) hi (s<|k_io := h1|>) = Ret tt (s<|k_io := h2|>) /\
    forall j, entry h2 j = if j =? i then (Some (u32 lo), Some (u32 hi)) else entry s.(k_io) j.
Proof.
  intros Hi. unfold REG_TABLE.
  destruct (ioapicwrite_spec (0x10 + 2 * i) lo s) as (h1 & E1 & H1); [lia|].
  destruct (ioapicwrite_spec (0x10 + 2 * i + 1) hi (s<|k_io := h1|>)) as (h2 & E2 & H2); [lia|].
  exists h1, h2. split_and!; [exact E1|exact E2|]. intros j. unfold entry, REG_TABLE. rewrite !H2.
  change (k_io (s<|k_io := h1|>)) with h1. rewrite !H1.
  destruct (Z.eqb_spec j i) as [->|Hne]; bool_cases; (lia || done).
Qed.

Section Ioapic.
Context {H : Hardware} {N : Polls}.

Lemma ioapic_mask_spec n : forall i s, 0 <= i -> i + Z.of_nat n <= 2 ^ 16 ->
  exists h, ioapic_mask n i s = Ret tt (s<|k_io := h|>) /\
    forall j, entry h j =
      if (i <=? j) && (j <? i + Z.of_nat n)
      then (Some (u32 (Z.lor INT_DISABLED (T_IRQ0 + j))), Some 0) else entry s.(k_io) j.
Proof.
  induction n as [|n IH]; intros i s Hi Hn.
  - exists (k_io s). split; [done|]. intros j. by replace (_ && _) with false by blia.
  - cbn [ioapic_mask].
    destruct (set_entry_spec i (Z.lor INT_DISABLED (T_IRQ0 + i)) 0 s)
      as (h0 & h1 & E0 & E1 & H1); [lia|]. kret_by exact E0. kret_by exact E1.
    destruct (IH (i + 1) (s<|k_io := h1|>)) as (h2 & E2 & H2); [lia..|].
    exists h2. split; [exact E2|]. intros j. rewrite H2. change (k_io (s<|k_io := h1|>)) with h1.
    rewrite H1. destruct (Z.eqb_spec j i) as [->|Hne].
    + replace ((i <=? i) && _) with true by blia. replace ((i + 1 <=? i) && _) with false by blia. done.
    + replace ((i + 1 <=? j) && _) with ((i <=? j) && (j <? i + Z.of_nat (S n))) by blia. done.
Qed.

Lemma ioapicread_spec reg s :
  let h := Store IOAPIC (u32 reg) :: s.(k_io) in
  let v := u32 (hw_load h (IOAPIC + 16)) in
  ioapicread reg s = Ret v (s<|k_io := Fetch (IOAPIC + 16) v :: h|>).
Proof. unfold ioapicread. kret_by apply mmio_store_spec. by rewrite mmio_load_spec. Qed.

Lemma masked_vector i : is_byte i -> u32 (Z.lor INT_DISABLED (T_IRQ0 + i)) = 2 ^ 16 + (T_IRQ0 + i).
Proof.
  intros Hi. apply Z.eqb_eq.
  by apply (byte_cases (fun i => u32 (Z.lor INT_DISABLED (T_IRQ0 + i)) =? 2 ^ 16 + (T_IRQ0 + i))).
Qed.

(** The answers of the controller to the reads of ioapicinit. *)
Definition ioapic_version (s : kernel) : Z :=
  u32 (hw_load (Store IOAPIC REG_VER :: s.(k_io)) (IOAPIC + 16)).
Definition ioapic_maxintr (s : kernel) : Z := Z.land (Z.shiftr (ioapic_version s) 16) 0xFF.
Definition ioapic_idreg (s : kernel) : Z :=
  u32 (hw_load (Store IOAPIC REG_ID :: Fetch (IOAPIC + 16) (ioapic_version s) ::
                Store IOAPIC REG_VER :: s.(k_io)) (IOAPIC + 16)).

(** interrupts of devices reach a processor only when they were enabled.
    After ioapicinit every entry of the redirection table is masked and keeps
    its own vector; ioapicenable changes the entry of its interrupt and no
    other, which is then unmasked and goes to the processor named. *)
Theorem ioapic_routes (s : kernel) (irq cpunum : Z) :
  Z.shiftr (ioapic_idreg s) 24 = s.(k_ioapicid) ->
  0 <= irq <= ioapic_maxintr s -> 0 <= cpunum < 256 ->
  exists s1 s2, ioapicinit s = Ret tt s1 /\ ioapicenable irq cpunum s1 = Ret tt s2 /\
    (forall i, 0 <= i <= ioapic_maxintr s -> entry s1.(k_io) i = (Some (2 ^ 16 + (T_IRQ0 + i)), Some 0)) /\
    (forall i, 0 <= i <= ioapic_maxintr s ->
       entry s2.(k_io) i =
         if i =? irq then (Some (T_IRQ0 + irq), Some (2 ^ 24 * cpunum)) else entry s1.(k_io) i).
Proof.
  intros Hid Hirq Hcpu.
  assert (Hmax : 0 <= ioapic_maxintr s < 256).
  { unfold ioapic_maxintr. rewrite (land_ones_mod _ 8) by lia. apply Z.mod_pos_bound. lia. }
  unfold ioapicinit. kret_by apply ioapicread_spec. kret_by apply ioapicread_spec. kret.
  match goal with |- context [negb (Z.shiftr ?v 24 =? ?k)] =>
    change v with (ioapic_idreg s); change k with (k_ioapicid s) end.
  rewrite Hid, Z.eqb_refl. cbn [negb]. kret.
  match goal with |- context [ioapic_mask ?n 0 ?st] =>
    change n with (Z.to_nat (ioapic_maxintr s + 1)); set (s0 := st) end.
  destruct (ioapic_mask_spec (Z.to_nat (ioapic_maxintr s + 1)) 0 s0) as (h1 & E1 & H1); [lia..|].
  destruct (set_entry_spec irq (T_IRQ0 + irq) (Z.shiftl cpunum 24) (s0<|k_io := h1|>))
    as (h2 & h3 & E2 & E3 & H3); [lia|].
  assert (Hall : forall i, 0 <= i <= ioapic_maxintr s -> entry h1 i = (Some (2 ^ 16 + (T_IRQ0 + i)), Some 0)).
  { intros i Hi. rewrite H1. replace ((0 <=? i) && _) with true by blia.
    by rewrite masked_vector by (unfold is_byte; lia). }
  exists (s0<|k_io := h1|>), (s0<|k_io := h1|><|k_io := h3|>). split; [exact E1|]. split_and!.
  - unfold ioapicenable. kret_by exact E2. exact E3.
  - exact Hall.
  - intros i Hi. change (entry h3 i = if i =? irq then (Some (T_IRQ0 + irq), Some (2 ^ 24 * cpunum)) else entry h1 i).
    rewrite H3, Z.shiftl_mul_pow2, !u32_small by (unfold T_IRQ0; lia). by rewrite Z.mul_comm.
Qed.
End Ioapic.

(** A controller with 24 inputs and number 0. *)
#[local] Instance qemu_ioapic : Hardware :=
  {| hw_in _ _ := 0; hw_block _ _ _ := []; hw_load _ _ := 0x170011 |}.
#[local] Instance no_polls : Polls := 0%nat.

Lemma ioapic_routes_witness :
  exists s1 s2, ioapicinit (loaded 0 0) = Ret tt s1 /\ ioapicenable IRQ_IDE 0 s1 = Ret tt s2 /\
    entry s2.(k_io) IRQ_IDE = (Some 46, Some 0) /\ entry s2.(k_io) IRQ_KBD = (Some 65569, Some 0).
Proof.
  destruct (ioapic_routes (loaded 0 0) IRQ_IDE 0) as (s1 & s2 & E1 & E2 & H1 & H2);
    [vm_compute; reflexivity|vm_compute; split; discriminate|lia|].
  exists s1, s2. split_and!; [exact E1|exact E2|..]; rewrite H2 by (vm_compute; split; discriminate).
  - reflexivity.
  - apply H1. vm_compute; split; discriminate.
Defined.
