(* ===== verification/Mp.v ===== *)
(** * Multiprocessor tables: mp.c, mp.h

    The firmware leaves a table of the processors and I/O APICs in memory; the
    kernel searches for it, checks it, and walks its entries. *)

From S2P Require Import Prelude State Io Spinlock CString Kalloc.

Definition NCPU : nat := 8.
Definition MPPROC : Z := 0.
Definition MPBUS : Z := 1.
Definition MPIOAPIC : Z := 2.
Definition MPIOINTR : Z := 3.
Definition MPLINTR : Z := 4.

(** The sizes of struct mp, mpconf, mpproc and mpioapic, and their members. *)
Definition MP : Z := 16.
Definition MPCONF : Z := 44.
Definition MPPROCSZ : Z := 20.
Definition MPIOAPICSZ : Z := 8.
Definition load16 (m : mem) (a : Z) : Z := m a + 256 * m (a + 1).
Definition mp_physaddr (m : mem) (p : Z) : Z := load32 m (p + 4).
Definition mp_imcrp (m : mem) (p : Z) : Z := m (p + 12).
Definition conf_length (m : mem) (p : Z) : Z := load16 m (p + 4).
Definition conf_version (m : mem) (p : Z) : Z := m (p + 6).
Definition conf_lapicaddr (m : mem) (p : Z) : Z := load32 m (p + 36).

(** ** The search *)
Fixpoint sum_loop (n : nat) (m : mem) (a acc : Z) : Z :=
  match n with
  | O => acc
  | S n' => sum_loop n' m (a + 1) (s32 (acc + m a))
  end.
Definition sum (m : mem) (addr len : Z) : Z := u8 (sum_loop (Z.to_nat len) m addr 0).

(** memcmp with a string constant gives 0. *)
Fixpoint same_bytes (m : mem) (p : Z) (cs : list Z) : bool :=
  match cs with
  | [] => true
  | c :: cs' => (m p =? c) && same_bytes m (p + 1) cs'
  end.
Definition sig_mp : list Z := [95; 77; 80; 95].
Definition sig_pcmp : list Z := [80; 67; 77; 80].

Fixpoint mpsearch_loop (fuel : nat) (m : mem) (p e : Z) : Z :=
  match fuel with
  | O => 0
  | S fuel' =>
      if negb (p <? e) then 0
      else if same_bytes m p sig_mp && (sum m p MP =? 0) then p
      else mpsearch_loop fuel' m (u32 (p + MP)) e
  end.
(** One step for every struct mp that fits, and one to stop. *)
Definition mpsearch1 (m : mem) (a len : Z) : Z :=
  let addr := P2V a in
  mpsearch_loop (S (Z.to_nat (len / MP))) m addr (u32 (addr + len)).

Definition mpsearch (m : mem) : Z :=
  let bda := P2V 0x400 in
  let p := Z.shiftl (Z.lor (Z.shiftl (m (bda + 0x0F)) 8) (m (bda + 0x0E))) 4 in
  let first :=
    if truth p then mpsearch1 m p 1024
    else mpsearch1 m (u32 (Z.lor (Z.shiftl (m (bda + 0x14)) 8) (m (bda + 0x13)) * 1024 - 1024)) 1024 in
  if truth first then first else mpsearch1 m 0xF0000 0x10000.

(** The configuration table, with the pointer that led to it. *)
Definition mpconfig (m : mem) : option (Z * Z) :=
  let mp := mpsearch m in
  if (mp =? 0) || (mp_physaddr m mp =? 0) then None
  else
    let conf := P2V (mp_physaddr m mp) in
    if negb (same_bytes m conf sig_pcmp) then None
    else if negb (conf_version m conf =? 1) && negb (conf_version m conf =? 4) then None
    else if negb (sum m conf (conf_length m conf) =? 0) then None
    else Some (mp, conf).

(** ** The entries *)
Definition add_cpu (apicid : Z) (s : kernel) : kernel :=
  s<|k_cpus ::= fun cs => if bool_decide (length cs < NCPU)%nat then cs ++ [boot_cpu<|c_apicid := apicid|>] else cs|>.

(** The [break] of the default case leaves the switch, not the loop. *)
Fixpoint mp_entries (fuel : nat) (p e : Z) (ismp : bool) : K bool :=
  match fuel with
  | O => nofuel
  | S fuel' =>
      if negb (p <? e) then ret ismp
      else
        let! s := get in
        let t := s.(k_mem) p in
        if t =? MPPROC then
          modify (add_cpu (s.(k_mem) (p + 1))) ;;;
          mp_entries fuel' (u32 (p + MPPROCSZ)) e ismp
        else if t =? MPIOAPIC then
          modify (fun s' => s'<|k_ioapicid := s.(k_mem) (p + 1)|>) ;;;
          mp_entries fuel' (u32 (p + MPIOAPICSZ)) e ismp
        else if (t =? MPBUS) || (t =? MPIOINTR) || (t =? MPLINTR) then
          mp_entries fuel' (u32 (p + 8)) e ismp
        else mp_entries fuel' p e false
  end.

(** An entry has at least 8 bytes. *)
Definition mpinit `{!Hardware} : K unit :=
  let! s := get in
  match mpconfig s.(k_mem) with
  | None => panic "Expect to run on an SMP"
  | Some (mp, conf) =>
      modify (fun s' => s'<|k_lapic := conf_lapicaddr s.(k_mem) conf|>) ;;;
      let len := conf_length s.(k_mem) conf in
      let! ismp := mp_entries (S (Z.to_nat (len / 8))) (u32 (conf + MPCONF)) (u32 (conf + len)) true in
      if negb ismp then panic "Didn't find a suitable machine"
      else
        if! truth (mp_imcrp s.(k_mem) mp) then!
          (outb 0x22 0x70 ;;;
           let! v := inb 0x23 in
           outb 0x23 (Z.lor v 1))
  end.

(** ** What the firmware leaves in memory

    Stated with the numbers of the Intel specification, not with the code's
    functions.  A structure is valid when it has its signature and its bytes
    add up to 0 modulo 256. *)
Definition text_at (m : mem) (p : Z) (cs : list Z) : Prop :=
  forall (k : nat) c, cs !! k = Some c -> m (p + Z.of_nat k) = c.
Fixpoint bytes_total (n : nat) (m : mem) (p : Z) : Z :=
  match n with O => 0 | S n' => m p + bytes_total n' m (p + 1) end.
Definition pointer_at (m : mem) (p : Z) : Prop :=
  text_at m p [95; 77; 80; 95] /\ bytes_total 16 m p mod 256 = 0.
Definition config_at (m : mem) (p : Z) : Prop :=
  text_at m p [80; 67; 77; 80] /\ (m (p + 6) = 1 \/ m (p + 6) = 4) /\
  bytes_total (Z.to_nat (m (p + 4) + 256 * m (p + 5))) m p mod 256 = 0.

(** The places for the floating pointer: every 16 bytes in the first kilobyte
    of the extended BIOS data area, or without one in the last kilobyte of base
    memory, and in the 64 kilobytes of ROM from 0xF0000. *)
Definition ebda (m : mem) : Z := 16 * (m (KERNBASE + 0x40E) + 256 * m (KERNBASE + 0x40F)).
Definition base_memory (m : mem) : Z := 1024 * (m (KERNBASE + 0x413) + 256 * m (KERNBASE + 0x414)).
Fixpoint places (n : nat) (p : Z) : list Z :=
  match n with O => [] | S n' => p :: places n' (p + 16) end.
Definition pointer_places (m : mem) : list Z :=
  places 64 (KERNBASE + if decide (ebda m = 0) then base_memory m - 1024 else ebda m) ++ places 4096 (KERNBASE + 0xF0000).
(** [p] is the first valid element of [l]. *)
Definition first_pointer (m : mem) (l : list Z) (p : Z) : Prop :=
  exists before after, l = before ++ p :: after /\ pointer_at m p /\ Forall (fun q => ~ pointer_at m q) before.
(** The first pointer leads to a valid table. *)
Definition table_at (m : mem) (p conf : Z) : Prop :=
  first_pointer m (pointer_places m) p /\ load32 m (p + 4) <> 0 /\ conf = P2V (load32 m (p + 4)) /\ config_at m conf.

(** An entry of the table, its type and its first member. *)
Inductive mpentry := EProc (apicid : Z) | EIoapic (apicno : Z) | EOther (type : Z).
Definition entry_size (e : mpentry) : Z := match e with EProc _ => 20 | _ => 8 end.
Fixpoint entries_size (es : list mpentry) : Z :=
  match es with [] => 0 | e :: es' => entry_size e + entries_size es' end.
Definition entry_at (m : mem) (p : Z) (e : mpentry) : Prop :=
  match e with
  | EProc a => m p = 0 /\ m (p + 1) = a
  | EIoapic a => m p = 2 /\ m (p + 1) = a
  | EOther t => m p = t /\ (t = 1 \/ t = 3 \/ t = 4)
  end.
Fixpoint entries_at (m : mem) (p : Z) (es : list mpentry) : Prop :=
  match es with
  | [] => True
  | e :: es' => entry_at m p e /\ entries_at m (p + entry_size e) es'
  end.
(** The processors and the I/O APIC the entries name. *)
Fixpoint table_cpus (es : list mpentry) : list cpu :=
  match es with
  | [] => []
  | EProc a :: es' => boot_cpu<|c_apicid := a|> :: table_cpus es'
  | _ :: es' => table_cpus es'
  end.
Fixpoint table_ioapic (es : list mpentry) (d : Z) : Z :=
  match es with
  | [] => d
  | EIoapic a :: es' => table_ioapic es' a
  | _ :: es' => table_ioapic es' d
  end.

(** ** The search finds it *)

Lemma sum_loop_total n m : forall a acc, sum_loop n m a acc mod 256 = (acc + bytes_total n m a) mod 256.
Proof.
  assert (H32 : forall x, s32 x mod 256 = x mod 256).
  { intros x. rewrite <- (Z.mod_mod_divide (s32 x) (2 ^ 32) 256), s32_mod by (by exists (2 ^ 24)).
    apply Z.mod_mod_divide. by exists (2 ^ 24). }
  induction n as [|n IH]; intros a acc; cbn [sum_loop bytes_total]; [f_equal; lia|].
  rewrite IH, <- Zplus_mod_idemp_l, H32, Zplus_mod_idemp_l. f_equal. lia.
Qed.

Lemma sum_total m a n : sum m a n = bytes_total (Z.to_nat n) m a mod 256.
Proof. unfold sum, u8. change (2 ^ 8) with 256. by rewrite sum_loop_total. Qed.

Lemma same_bytes_text m cs : forall p, same_bytes m p cs = true <-> text_at m p cs.
Proof.
  induction cs as [|c cs IH]; intros p; cbn [same_bytes]; [by split|]. rewrite andb_true_iff, Z.eqb_eq, IH. split.
  - intros [H0 H] [|k] d Hk; [injection Hk as <-; by rewrite Z.add_0_r|]. rewrite <- (H k d Hk). f_equal. lia.
  - intros H. split; [rewrite <- (H 0%nat c eq_refl); f_equal; lia|]. intros k d Hk. rewrite <- (H (S k) d Hk). f_equal. lia.
Qed.

Lemma valid_pointer m p : same_bytes m p sig_mp && (sum m p MP =? 0) = true <-> pointer_at m p.
Proof. unfold pointer_at. by rewrite andb_true_iff, same_bytes_text, Z.eqb_eq, sum_total. Qed.

(** The first valid place, or 0. *)
Definition search_result (m : mem) (l : list Z) (r : Z) : Prop :=
  first_pointer m l r \/ Forall (fun q => ~ pointer_at m q) l /\ r = 0.

Lemma mpsearch_loop_places m n : forall fuel p,
  0 <= p -> p + 16 * Z.of_nat n < 2 ^ 32 -> (n < fuel)%nat ->
  search_result m (places n p) (mpsearch_loop fuel m p (p + 16 * Z.of_nat n)).
Proof.
  induction n as [|n IH]; intros [|fuel] p Hp Hn Hf; [lia| |lia|]; cbn [mpsearch_loop places].
  { rewrite (proj2 (Z.ltb_ge p _)) by lia. by right. }
  rewrite (proj2 (Z.ltb_lt p _)) by lia. cbn [negb]. destruct (_ && _) eqn:E.
  - left. exists [], (places n (p + 16)). split_and!; [done| |done]. by apply valid_pointer.
  - assert (Hno : ~ pointer_at m p) by (rewrite <- valid_pointer, E; done). unfold MP. rewrite u32_small by lia.
    replace (p + 16 * Z.of_nat (S n)) with (p + 16 + 16 * Z.of_nat n) by lia.
    destruct (IH fuel (p + 16)) as [(bf & af & Hl & Hq & Hb)|[Hall H0]]; [lia|lia|lia|left|right].
    + exists (p :: bf), af. rewrite Hl. split_and!; [done|done|by constructor].
    + split; [by constructor|done].
Qed.

Lemma mpsearch1_places m a n :
  0 <= u32 (a + KERNBASE) -> u32 (a + KERNBASE) + 16 * Z.of_nat n < 2 ^ 32 ->
  search_result m (places n (P2V a)) (mpsearch1 m a (16 * Z.of_nat n)).
Proof.
  intros H0 H1. unfold mpsearch1. change (P2V a) with (u32 (a + KERNBASE)).
  rewrite (u32_small (_ + 16 * _)) by lia. apply mpsearch_loop_places; [done|done|]. unfold MP.
  rewrite (Z.mul_comm 16), Z.div_mul, Nat2Z.id by lia. lia.
Qed.

Lemma places_pos n : forall p, 0 < p -> Forall (fun q => 0 < q) (places n p).
Proof. induction n as [|n IH]; intros p Hp; cbn [places]; constructor; [done|apply IH; lia]. Qed.

(** One area after the other. *)
Lemma search_app m l1 l2 r1 r2 :
  Forall (fun q => 0 < q) l1 -> search_result m l1 r1 -> search_result m l2 r2 ->
  search_result m (l1 ++ l2) (if truth r1 then r1 else r2).
Proof.
  intros Hpos [(bf & af & -> & Hq & Hb)|[Hall ->]] H2.
  - apply list.Forall_app in Hpos as [_ [Hr _]%list.Forall_cons]. rewrite truth_true by lia. left.
    exists bf, (af ++ l2). split_and!; [by rewrite <- app_assoc|done|done].
  - cbn. destruct H2 as [(bf & af & -> & Hq & Hb)|[Hall2 ->]]; [left|right].
    + exists (l1 ++ bf), af. split_and!; [by rewrite app_assoc|done|by apply Forall_app].
    + split; [by apply Forall_app|done].
Qed.

Lemma lor_bytes a b : 0 <= a < 256 -> Z.lor (Z.shiftl b 8) a = a + 256 * b.
Proof.
  intros Ha. rewrite Z.shiftl_mul_pow2, (lor_low 8) by (lia || apply Z.mod_mul; lia). lia.
Qed.

Lemma first_unique m l p q : first_pointer m l p -> first_pointer m l q -> p = q.
Proof.
  intros (b1 & a1 & -> & Hp & H1) (b2 & a2 & E & Hq & H2). revert b2 E H2.
  induction H1 as [|x b1 Hx H1 IH]; intros [|y b2] E H2; injection E as -> E; [done| | |].
  - by apply list.Forall_cons in H2 as [? _].
  - done.
  - apply list.Forall_cons in H2 as [_ H2]. by eapply IH.
Qed.

Section Firmware.
Context (m : mem).
Hypothesis Hm : forall a, 0 <= m a < 256.

Lemma mpsearch_places : search_result m (pointer_places m) (mpsearch m).
Proof using Hm.
  unfold mpsearch, pointer_places. change (P2V 0x400 + 0x0F) with (KERNBASE + 0x40F). change (P2V 0x400 + 0x0E) with (KERNBASE + 0x40E).
  change (P2V 0x400 + 0x14) with (KERNBASE + 0x414). change (P2V 0x400 + 0x13) with (KERNBASE + 0x413).
  rewrite !lor_bytes by apply Hm. rewrite Z.shiftl_mul_pow2 by lia. change (2 ^ 4) with 16.
  pose proof (Hm (KERNBASE + 0x40E)). pose proof (Hm (KERNBASE + 0x40F)). pose proof (Hm (KERNBASE + 0x413)). pose proof (Hm (KERNBASE + 0x414)).
  unfold ebda, base_memory. rewrite (Z.mul_comm 16 (_ + _)), (Z.mul_comm 1024 (_ + _)).
  set (e := (m (KERNBASE + 0x40E) + 256 * m (KERNBASE + 0x40F)) * 16) in *.
  set (c := (m (KERNBASE + 0x413) + 256 * m (KERNBASE + 0x414)) * 1024) in *.
  assert (He : 0 <= e < 2 ^ 21) by (unfold e; lia). assert (Hc : 0 <= c < 2 ^ 26) by (unfold c; lia). clearbody e c.
  set (start := if decide (e = 0) then c - 1024 else e).
  assert (Hs : - 1024 <= start < 2 ^ 26) by (unfold start; case_decide; lia).
  apply search_app.
  - apply places_pos. unfold KERNBASE. lia.
  - unfold truth, start. case_decide as Hz.
    + rewrite Hz. cbn [Z.eqb negb]. pose proof (mpsearch1_places m (u32 (c - 1024)) 64) as Hp. unfold P2V in Hp.
      assert (E : u32 (u32 (c - 1024) + KERNBASE) = KERNBASE + (c - 1024)).
      { unfold u32, KERNBASE. rewrite Zplus_mod_idemp_l. rewrite Z.mod_small; lia. }
      rewrite E in Hp. apply Hp; unfold KERNBASE; lia.
    + rewrite (proj2 (Z.eqb_neq _ _) Hz). cbn [negb]. pose proof (mpsearch1_places m e 64) as Hp. unfold P2V in Hp.
      rewrite u32_small, (Z.add_comm e) in Hp by (unfold KERNBASE; lia). apply Hp; unfold KERNBASE; lia.
  - apply (mpsearch1_places m 0xF0000 4096); by vm_compute.
Qed.

Lemma first_pos p : first_pointer m (pointer_places m) p -> 0 < p.
Proof using Hm.
  intros (bf & af & E & _). assert (Hall : Forall (fun q => 0 < q) (pointer_places m)).
  { pose proof (Hm (KERNBASE + 0x413)). pose proof (Hm (KERNBASE + 0x414)). pose proof (Hm (KERNBASE + 0x40E)). pose proof (Hm (KERNBASE + 0x40F)).
    apply Forall_app. split; apply places_pos; [|done]. unfold ebda, base_memory, KERNBASE in *. case_decide; lia. }
  rewrite E in Hall. by apply list.Forall_app in Hall as [_ [? _]%list.Forall_cons].
Qed.

(** mpconfig finds exactly the table the first pointer leads to. *)
Lemma mpconfig_finds p conf : table_at m p conf -> mpconfig m = Some (p, conf).
Proof using Hm.
  intros (Hp & H0 & -> & Hsig & Hver & Hsum). unfold mpconfig.
  assert (Es : mpsearch m = p).
  { destruct mpsearch_places as [Hq|[Hno _]]; [by eapply first_unique|].
    destruct Hp as (bf & af & El & Hq & _). rewrite El in Hno. apply list.Forall_app in Hno as [_ [Hn _]%list.Forall_cons]. done. }
  rewrite Es. replace (p =? 0) with false by (symmetry; apply Z.eqb_neq; pose proof (first_pos p Hp); lia).
  unfold mp_physaddr. rewrite (proj2 (Z.eqb_neq _ _) H0). cbn [orb].
  rewrite (proj2 (same_bytes_text _ sig_pcmp _) Hsig). cbn [negb]. unfold conf_version, conf_length, load16.
  replace (negb _ && negb _) with false by (destruct Hver as [-> | ->]; done).
  rewrite sum_total, <- !Z.add_assoc. change (4 + 1) with 5. by rewrite Hsum.
Qed.

Lemma mpconfig_none : (forall p conf, ~ table_at m p conf) -> mpconfig m = None.
Proof using Hm.
  intros Hno. unfold mpconfig. destruct mpsearch_places as [Hp|[_ ->]]; [|done].
  destruct (_ || _) eqn:E; [done|]. apply orb_false_iff in E as [_ E0%Z.eqb_neq].
  destruct (same_bytes _ _ sig_pcmp) eqn:Es; [|done]. cbn [negb]. destruct (negb (_ =? 1) && negb _) eqn:Ev; [done|].
  destruct (Z.eqb_spec (sum m (P2V (mp_physaddr m (mpsearch m))) (conf_length m (P2V (mp_physaddr m (mpsearch m))))) 0) as [Eu|]; [|done].
  exfalso. apply (Hno (mpsearch m) (P2V (mp_physaddr m (mpsearch m)))). split_and!; [done|done|done|]. split_and!.
  - by apply same_bytes_text.
  - unfold conf_version in Ev. lia.
  - rewrite sum_total in Eu. unfold conf_length, load16 in Eu. by rewrite <- !Z.add_assoc in Eu.
Qed.
End Firmware.

(** ** The entries *)

Definition apply_entry (s : kernel) (e : mpentry) : kernel :=
  match e with
  | EProc a => add_cpu a s
  | EIoapic a => s<|k_ioapicid := a|>
  | EOther _ => s
  end.

Lemma entries_size_pos es : 0 <= entries_size es.
Proof. induction es as [|[] es IH]; cbn; lia. Qed.

Lemma apply_entry_mem s e : (apply_entry s e).(k_mem) = s.(k_mem).
Proof. by destruct e. Qed.

(** One step of the loop, on a known entry. *)
Lemma mp_entries_step fuel p e b s en :
  entry_at s.(k_mem) p en -> p < e ->
  mp_entries (S fuel) p e b s = mp_entries fuel (u32 (p + entry_size en)) e b (apply_entry s en).
Proof.
  intros Hen Hlt. cbn [mp_entries]. replace (p <? e) with true by lia. cbn [negb]. kret.
  destruct en as [a|a|t]; cbn in Hen.
  - destruct Hen as [-> <-]. cbn [MPPROC Z.eqb]. by kret.
  - destruct Hen as [-> <-]. cbn [MPPROC MPIOAPIC Z.eqb Pos.eqb]. by kret.
  - destruct Hen as [-> [-> | [-> | ->]]]; done.
Qed.

Lemma mp_entries_spec es : forall fuel p s,
  entries_at s.(k_mem) p es -> 0 <= p -> p + entries_size es < 2 ^ 32 ->
  entries_size es < 8 * Z.of_nat fuel ->
  mp_entries fuel p (p + entries_size es) true s = Ret true (foldl apply_entry s es).
Proof.
  induction es as [|en es IH]; intros [|fuel] p s Hat Hp Hsz Hf; cbn [entries_size] in *;
    try (pose proof (entries_size_pos es); destruct en; cbn in Hf; lia); try lia.
  - cbn [mp_entries]. by replace (p <? p + 0) with false by lia.
  - destruct Hat as [Hen Hat]. pose proof (entries_size_pos es).
    assert (Hpos : 8 <= entry_size en) by (destruct en; cbn; lia).
    rewrite (mp_entries_step _ _ _ _ _ en) by (done || lia). rewrite u32_small by lia.
    replace (p + (entry_size en + entries_size es)) with (p + entry_size en + entries_size es) by lia.
    apply IH; [by rewrite apply_entry_mem|lia..].
Qed.

Lemma apply_cpus es : forall s, (length s.(k_cpus) <= 8)%nat ->
  foldl apply_entry s es = s<|k_cpus := take 8 (s.(k_cpus) ++ table_cpus es)|><|k_ioapicid := table_ioapic es s.(k_ioapicid)|>.
Proof.
  induction es as [|en es IH]; intros s Hlen; cbn [foldl table_cpus table_ioapic].
  - rewrite app_nil_r, take_ge by done. by destruct s.
  - destruct en as [a|a|t]; cbn [apply_entry]; [|by rewrite IH|by apply IH].
    rewrite IH.
    + unfold add_cpu. destruct s. cbn in *. f_equal. case_bool_decide as Hc; [by rewrite <- app_assoc|].
      unfold NCPU in *. rewrite !take_app_le, !take_ge by lia. done.
    + unfold add_cpu. cbn. case_bool_decide as Hc; [rewrite length_app; unfold NCPU in Hc; cbn; lia|done].
Qed.


(** An entry of a type the code does not know makes the loop of mpinit run for
    ever: the check after it, and its panic, are never reached. *)
Lemma unknown_entry_hangs fuel p e b s :
  p < e -> s.(k_mem) p ∉ [MPPROC; MPBUS; MPIOAPIC; MPIOINTR; MPLINTR] ->
  mp_entries fuel p e b s = NoFuel s.
Proof.
  intros Hlt Ht. revert b. induction fuel as [|fuel IH]; intros b; [done|]. cbn [mp_entries].
  replace (p <? e) with true by lia. cbn [negb]. kret.
  rewrite !not_elem_of_cons in Ht. destruct Ht as (H0 & H1 & H2 & H3 & H4 & _).
  rewrite (proj2 (Z.eqb_neq _ _) H0), (proj2 (Z.eqb_neq _ _) H1), (proj2 (Z.eqb_neq _ _) H2),
    (proj2 (Z.eqb_neq _ _) H3), (proj2 (Z.eqb_neq _ _) H4). apply IH.
Qed.

(** The table of a machine with two processors. *)
Definition firmware : list (Z * list Z) :=
  [(0x800F0000, [95; 77; 80; 95; 0; 1; 15; 0; 1; 4; 144; 0; 0; 0; 0; 0]);
   (0x800F0100, [80; 67; 77; 80; 92; 0; 4; 142; 0; 0; 0; 0; 0; 0; 0; 0; 0; 0; 0; 0; 0; 0; 0; 0; 0; 0; 0; 0; 0; 0; 0; 0; 0; 0; 3; 0; 0; 0; 224; 254; 0; 0; 0; 0; 0; 0; 20; 3; 0; 0; 0; 0; 0; 0; 0; 0; 0; 0; 0; 0; 0; 0; 0; 0; 2; 2; 17; 1; 0; 0; 192; 254; 0; 1; 20; 1; 0; 0; 0; 0; 0; 0; 0; 0; 0; 0; 0; 0; 0; 0; 0; 0])].
Definition firmware_mem (a : Z) : Z :=
  foldr (fun '(base, bs) d => if (base <=? a) && (a <? base + Z.of_nat (length bs))
                              then nth (Z.to_nat (a - base)) bs 0 else d) 0 firmware.
#[local] Instance no_device : Hardware := {| hw_in _ _ := 0; hw_block _ _ _ := []; hw_load _ _ := 0 |}.
Definition powered_on : kernel := (loaded 0 0)<|k_cpus := []|><|k_mem := firmware_mem|>.


Lemma firmware_bytes a : 0 <= firmware_mem a < 256.
Proof.
  assert (Hn : forall n bs, Forall (fun b => 0 <= b < 256) bs -> 0 <= nth n bs 0 < 256).
  { intros n bs Hb. revert n. induction Hb; intros [|n]; cbn; [lia..|done|done]. }
  unfold firmware_mem, firmware. cbn -[nth Z.leb Z.ltb]. repeat case_match; try lia; apply Hn; by repeat constructor.
Qed.

