(* ===== verification/Layout.v ===== *)
(** * Structures on disk blocks: fs.h, struct logheader of log.c

    A block is the list of its bytes; integers are little-endian, as the C code
    reads and writes them through pointers into the block. *)

From S2P Require Import Prelude State CString.

(** ** Integers in a block *)
Definition get8 (d : list Z) (o : Z) : Z := nth (Z.to_nat o) d 0.
Definition get16 (d : list Z) (o : Z) : Z := get8 d o + 256 * get8 d (o + 1).
Definition get32 (d : list Z) (o : Z) : Z := get16 d o + 65536 * get16 d (o + 2).

Definition le16 (v : Z) : list Z := [u8 v; u8 (v / 256)].
Definition le32 (v : Z) : list Z := le16 v ++ le16 (v / 65536).
Definition put (d : list Z) (o : Z) (bs : list Z) : list Z := list_inserts (Z.to_nat o) bs d.

Definition is_block_data (d : list Z) : Prop := length d = Z.to_nat BSIZE /\ Forall is_byte d.

(** ** struct superblock *)
Definition decode_sb (d : list Z) : superblock :=
  mksuperblock (get32 d 0) (get32 d 4) (get32 d 8) (get32 d 12) (get32 d 16) (get32 d 20) (get32 d 24).

(** ** struct logheader *)
Definition hdr_n (d : list Z) : Z := s32 (get32 d 0).
Definition hdr_block (d : list Z) (i : Z) : Z := s32 (get32 d (4 + 4 * i)).
(** The stores [hb->block[i] = block[i]] for the entries of [bs] from index [i]. *)
Fixpoint put_blocks (d : list Z) (i : Z) (bs : list Z) : list Z :=
  match bs with
  | [] => d
  | b :: bs' => put_blocks (put d (4 + 4 * i) (le32 b)) (i + 1) bs'
  end.
Definition put_head (d : list Z) (n : Z) (block : list Z) : list Z :=
  put_blocks (put d 0 (le32 n)) 0 (take (Z.to_nat n) block).

(** ** struct dinode *)
Definition DINODE : Z := 64.
Definition IPB : Z := BSIZE / DINODE.
Record dinode := mkdinode {
  di_type : Z; di_major : Z; di_minor : Z; di_nlink : Z; di_size : Z; di_addrs : list Z
}.
Definition decode_dinode (d : list Z) (o : Z) : dinode :=
  mkdinode (s16 (get16 d o)) (s16 (get16 d (o + 2))) (s16 (get16 d (o + 4))) (s16 (get16 d (o + 6)))
    (get32 d (o + 8)) ((fun i => get32 d (o + 12 + 4 * i)) <$> seqZ 0 (NDIRECT + 1)).
Definition encode_dinode (di : dinode) : list Z :=
  le16 (di_type di) ++ le16 (di_major di) ++ le16 (di_minor di) ++ le16 (di_nlink di) ++
  le32 (di_size di) ++ (di_addrs di ≫= le32).

(** ** struct dirent *)
Definition DIRENT : Z := 16.
Definition de_inum (d : list Z) : Z := get16 d 0.
Definition de_name (d : list Z) : list Z := take (Z.to_nat DIRSIZ) (drop 2 d).
Definition encode_dirent (inum : Z) (name : list Z) : list Z := le16 inum ++ name.

(** ** Reading back what was written *)
Lemma length_put d o bs : length (put d o bs) = length d.
Proof. apply length_inserts. Qed.

Lemma get8_put_in d o bs k :
  0 <= o -> o + Z.of_nat (length bs) <= Z.of_nat (length d) -> o <= k < o + Z.of_nat (length bs) ->
  get8 (put d o bs) k = nth (Z.to_nat (k - o)) bs 0.
Proof.
  intros Ho Hlen Hk. unfold get8, put. rewrite !nth_lookup.
  rewrite list_lookup_inserts by lia.
  by replace (Z.to_nat k - Z.to_nat o)%nat with (Z.to_nat (k - o)) by lia.
Qed.

Lemma get8_put_out d o bs k :
  0 <= o -> 0 <= k -> k < o \/ o + Z.of_nat (length bs) <= k -> get8 (put d o bs) k = get8 d k.
Proof.
  intros Ho Hk Hout. unfold get8, put. rewrite !nth_lookup.
  destruct Hout; [by rewrite list_lookup_inserts_lt by lia|by rewrite list_lookup_inserts_ge by lia].
Qed.

Lemma length_le32 v : length (le32 v) = 4%nat.
Proof. done. Qed.

Lemma le16_value v : u8 v + 256 * u8 (v / 256) = u16 v.
Proof. unfold u8, u16. symmetry. exact (Z.rem_mul_r v 256 256 ltac:(lia) ltac:(lia)). Qed.

Lemma le32_value v : u16 v + 65536 * u16 (v / 65536) = u32 v.
Proof. unfold u16, u32. symmetry. exact (Z.rem_mul_r v 65536 65536 ltac:(lia) ltac:(lia)). Qed.

Lemma get32_put_same d o v :
  0 <= o -> o + 4 <= Z.of_nat (length d) -> get32 (put d o (le32 v)) o = u32 v.
Proof.
  intros Ho Hlen. unfold get32, get16. rewrite !get8_put_in by (rewrite ?length_le32; lia).
  rewrite Z.sub_diag. replace (o + 1 - o) with 1 by lia.
  replace (o + 2 - o) with 2 by lia. replace (o + 2 + 1 - o) with 3 by lia.
  change (u8 v + 256 * u8 (v / 256) + 65536 * (u8 (v / 65536) + 256 * u8 (v / 65536 / 256)) = u32 v).
  by rewrite !le16_value, le32_value.
Qed.

Lemma get32_put_other d o o' bs :
  0 <= o -> 0 <= o' -> o' + 4 <= o \/ o + Z.of_nat (length bs) <= o' ->
  get32 (put d o bs) o' = get32 d o'.
Proof. intros. unfold get32, get16. by rewrite !get8_put_out by lia. Qed.

(** The log header reads back. *)
Lemma length_put_blocks bs : forall d i, length (put_blocks d i bs) = length d.
Proof. induction bs as [|b bs IH]; intros d i; cbn [put_blocks]; [done|]. by rewrite IH, length_put. Qed.

Lemma put_blocks_before bs : forall d i o,
  0 <= i -> 0 <= o -> o + 4 <= 4 + 4 * i -> get32 (put_blocks d i bs) o = get32 d o.
Proof.
  induction bs as [|b bs IH]; intros d i o Hi Ho Hlt; cbn [put_blocks]; [done|].
  rewrite IH, get32_put_other by lia. done.
Qed.

Lemma put_blocks_lookup bs : forall d i k b,
  0 <= i -> 4 + 4 * (i + Z.of_nat (length bs)) <= Z.of_nat (length d) -> bs !! k = Some b ->
  get32 (put_blocks d i bs) (4 + 4 * (i + Z.of_nat k)) = u32 b.
Proof.
  induction bs as [|b' bs IH]; intros d i [|k] b Hi Hlen Hk; cbn [put_blocks]; simplify_eq/=.
  - rewrite Z.add_0_r, put_blocks_before by lia. apply get32_put_same; lia.
  - replace (i + Z.of_nat (S k)) with ((i + 1) + Z.of_nat k) by lia.
    apply IH; [lia| |done]. rewrite length_put. lia.
Qed.

(** A header that was written is decoded to what was written. *)
Lemma put_head_n d n block :
  (4 <= length d)%nat -> 0 <= n < 2 ^ 31 -> hdr_n (put_head d n block) = n.
Proof.
  intros Hlen Hn. unfold hdr_n, put_head. rewrite put_blocks_before by lia.
  rewrite get32_put_same by lia. rewrite u32_small, s32_small by lia. done.
Qed.

Lemma put_head_block d n block k b :
  4 + 4 * n <= Z.of_nat (length d) -> (Z.of_nat k < n) -> block !! k = Some b -> 0 <= b < 2 ^ 31 ->
  hdr_block (put_head d n block) (Z.of_nat k) = b.
Proof.
  intros Hlen Hk Hb Hr. unfold hdr_block, put_head.
  replace (Z.of_nat k) with (0 + Z.of_nat k) by lia.
  rewrite (put_blocks_lookup _ _ 0 k b).
  - rewrite u32_small, s32_small by lia. done.
  - lia.
  - rewrite length_put, length_take. lia.
  - rewrite lookup_take_lt by lia. done.
Qed.

Lemma length_put_head d n block : length (put_head d n block) = length d.
Proof. unfold put_head. by rewrite length_put_blocks, length_put. Qed.

(** A dinode reads back. *)
Lemma get16_put_in d o bs k :
  0 <= o -> 0 <= k -> o + Z.of_nat (length bs) <= Z.of_nat (length d) -> k + 2 <= Z.of_nat (length bs) ->
  get16 (put d o bs) (o + k) = get16 bs k.
Proof.
  intros Ho Hk Hlen Hk'. unfold get16. rewrite !get8_put_in by lia. unfold get8.
  by replace (o + k - o) with k by lia; replace (o + k + 1 - o) with (k + 1) by lia.
Qed.

Lemma get32_put_in d o bs k :
  0 <= o -> 0 <= k -> o + Z.of_nat (length bs) <= Z.of_nat (length d) -> k + 4 <= Z.of_nat (length bs) ->
  get32 (put d o bs) (o + k) = get32 bs k.
Proof.
  intros Ho Hk Hlen Hk'. unfold get32. rewrite get16_put_in by lia.
  rewrite <- (Z.add_assoc o k 2), get16_put_in by lia. done.
Qed.

Lemma get8_app l l' k : 0 <= k -> get8 (l ++ l') (Z.of_nat (length l) + k) = get8 l' k.
Proof. intros Hk. unfold get8. rewrite app_nth2 by lia. f_equal. lia. Qed.

Lemma get32_app l l' k : 0 <= k -> get32 (l ++ l') (Z.of_nat (length l) + k) = get32 l' k.
Proof. intros Hk. unfold get32, get16. rewrite <- !Z.add_assoc, !get8_app by lia. done. Qed.

Lemma get32_le32 v l : get32 (le32 v ++ l) 0 = u32 v.
Proof.
  change (u8 v + 256 * u8 (v / 256) + 65536 * (u8 (v / 65536) + 256 * u8 (v / 65536 / 256)) = u32 v).
  by rewrite !le16_value, le32_value.
Qed.

Lemma get32_words l : forall k a, l !! k = Some a -> get32 (l ≫= le32) (4 * Z.of_nat k) = u32 a.
Proof.
  induction l as [|x l IH]; intros [|k] a Hk; [done|done|..]; change ((x :: l) ≫= le32) with (le32 x ++ (l ≫= le32)).
  { injection Hk as <-. apply get32_le32. }
  replace (4 * Z.of_nat (S k)) with (Z.of_nat (length (le32 x)) + 4 * Z.of_nat k) by (rewrite length_le32; lia).
  rewrite get32_app by lia. by apply IH.
Qed.

Lemma length_words l : length (l ≫= le32) = (4 * length l)%nat.
Proof.
  induction l as [|x l IH]; [done|]. change ((x :: l) ≫= le32) with (le32 x ++ (l ≫= le32)).
  rewrite length_app, length_le32, IH. cbn. lia.
Qed.

(** The values the fields can have. *)
Definition is_s16 (x : Z) : Prop := - 2 ^ 15 <= x < 2 ^ 15.
Record dinode_ok (di : dinode) : Prop := {
  dok_short : is_s16 di.(di_type) /\ is_s16 di.(di_major) /\ is_s16 di.(di_minor) /\ is_s16 di.(di_nlink);
  dok_size : 0 <= di.(di_size) < 2 ^ 32;
  dok_len : length di.(di_addrs) = Z.to_nat (NDIRECT + 1);
  dok_addrs : Forall (fun a => 0 <= a < 2 ^ 32) di.(di_addrs)
}.

Lemma s16_u16 x : is_s16 x -> s16 (u16 x) = x.
Proof. unfold is_s16, s16, u16. intros. Z.to_euclidean_division_equations. lia. Qed.

Lemma length_encode_dinode di : dinode_ok di -> Z.of_nat (length (encode_dinode di)) = DINODE.
Proof.
  intros Hok. unfold encode_dinode. rewrite !length_app, length_words, (dok_len _ Hok). done.
Qed.

Lemma decode_encode_dinode di : dinode_ok di -> decode_dinode (encode_dinode di) 0 = di.
Proof.
  intros [(H1 & H2 & H3 & H4) Hsz Hlen Ha]. destruct di as [t ma mi nl sz ads]. cbn [di_type di_major di_minor di_nlink di_size di_addrs] in *.
  unfold decode_dinode. f_equal.
  - transitivity (s16 (u8 t + 256 * u8 (t / 256))); [done|]. by rewrite le16_value, s16_u16.
  - transitivity (s16 (u8 ma + 256 * u8 (ma / 256))); [done|]. by rewrite le16_value, s16_u16.
  - transitivity (s16 (u8 mi + 256 * u8 (mi / 256))); [done|]. by rewrite le16_value, s16_u16.
  - transitivity (s16 (u8 nl + 256 * u8 (nl / 256))); [done|]. by rewrite le16_value, s16_u16.
  - transitivity (get32 (le32 sz ++ (ads ≫= le32)) 0); [done|]. rewrite get32_le32. by apply u32_small.
  - apply list_eq. intros k. rewrite list_lookup_fmap. destruct (ads !! k) as [a|] eqn:Hk.
    + pose proof (lookup_lt_Some _ _ _ Hk) as Hlt. rewrite Hlen in Hlt.
      rewrite (proj2 (lookup_seqZ 0 _ k (Z.of_nat k))) by lia. cbn [fmap option_fmap option_map]. f_equal.
      set (pre := le16 t ++ le16 ma ++ le16 mi ++ le16 nl ++ le32 sz).
      change (get32 (pre ++ (ads ≫= le32)) (Z.of_nat (length pre) + 4 * Z.of_nat k) = a).
      rewrite get32_app by lia. rewrite (get32_words _ _ _ Hk).
      apply u32_small. by apply (Forall_lookup_1 _ _ _ _ Ha Hk).
    + apply lookup_ge_None in Hk. rewrite lookup_seqZ_ge; [done|]. rewrite Hlen in Hk. lia.
Qed.

Lemma decode_put_dinode d o di :
  dinode_ok di -> 0 <= o -> o + DINODE <= Z.of_nat (length d) -> decode_dinode (put d o (encode_dinode di)) o = di.
Proof.
  intros Hok Ho Hlen. rewrite <- (decode_encode_dinode di Hok) at 2.
  pose proof (length_encode_dinode di Hok) as Hl. unfold DINODE in *. unfold decode_dinode.
  pose proof (get16_put_in d o (encode_dinode di)) as G. pose proof (get32_put_in d o (encode_dinode di)) as G'.
  rewrite <- (Z.add_0_r o) at 2. rewrite !G, G' by lia. f_equal.
  apply list_fmap_ext. intros k a Hk. apply lookup_seqZ in Hk as [-> Hk]. change (NDIRECT + 1) with 13 in Hk.
  rewrite <- Z.add_assoc, G' by lia. done.
Qed.

(** The other dinodes of the block are not touched. *)
Lemma decode_put_other d o o' bs :
  0 <= o -> 0 <= o' -> o' + DINODE <= o \/ o + Z.of_nat (length bs) <= o' ->
  decode_dinode (put d o bs) o' = decode_dinode d o'.
Proof.
  intros Ho Ho' Hout. unfold DINODE in *. unfold decode_dinode, get32, get16. f_equal; try (by rewrite !get8_put_out by lia).
  apply list_fmap_ext. intros k a Hk. apply lookup_seqZ in Hk as [-> Hk]. change (NDIRECT + 1) with 13 in Hk.
  by rewrite !get8_put_out by lia.
Qed.
