(* ===== verification/Vm.v ===== *)
(** * Page tables and address spaces: vm.c, with the paging macros of mmu.h

    Page directories and page tables are pages of [k_mem], read and written a
    word at a time as the C code does through its pointers.  [xlate] is what
    the processor's paging unit does with them. *)

From S2P Require Import Prelude State Spinlock Segments Thread CString Cprintf Kalloc.

(** ** mmu.h *)
Definition PTE_P : Z := 1.
Definition PTE_W : Z := 2.
Definition PTE_U : Z := 4.
Definition NPDENTRIES : nat := 1024.
Definition PDX (va : Z) : Z := Z.land (Z.shiftr va 22) 0x3FF.
Definition PTX (va : Z) : Z := Z.land (Z.shiftr va 12) 0x3FF.
Definition PGADDR (d t o : Z) : Z := u32 (Z.lor (Z.lor (Z.shiftl d 22) (Z.shiftl t 12)) o).
Definition PTE_ADDR (pte : Z) : Z := Z.land pte (u32 (Z.lnot 0xFFF)).
Definition PTE_FLAGS (pte : Z) : Z := Z.land pte 0xFFF.

(** ** The code *)
Definition rd32 (a : Z) : K Z := gets (fun s => load32 s.(k_mem) a).
Definition wr32 (a w : Z) : K unit := modify (fun s => s<|k_mem ::= fun m => store32 m a w|>).

(** Null is 0; a non-null result is the address of the page-table entry. *)
Definition walkpgdir (pgdir va : Z) (alloc : bool) : K Z :=
  let pde := u32 (pgdir + 4 * PDX va) in
  let! e := rd32 pde in
  if truth (Z.land e PTE_P) then ret (u32 (P2V (PTE_ADDR e) + 4 * PTX va))
  else if negb alloc then ret 0
  else
    let! pgtab := kalloc in
    if pgtab =? 0 then ret 0
    else
      modify (fun s => s<|k_mem ::= fun m => memset m pgtab 0 PGSIZE|>) ;;;
      wr32 pde (Z.lor (Z.lor (Z.lor (V2P pgtab) PTE_P) PTE_W) PTE_U) ;;;
      ret (u32 (pgtab + 4 * PTX va)).

Fixpoint mappages_loop (fuel : nat) (pgdir a last pa perm : Z) : K Z :=
  match fuel with
  | O => nofuel
  | S fuel' =>
      let! pte := walkpgdir pgdir a true in
      if pte =? 0 then ret (-1)
      else
        let! e := rd32 pte in
        if truth (Z.land e PTE_P) then panic "remap"
        else
          wr32 pte (Z.lor (Z.lor pa perm) PTE_P) ;;;
          if a =? last then ret 0
          else mappages_loop fuel' pgdir (u32 (a + PGSIZE)) last (u32 (pa + PGSIZE)) perm
  end.
(** One iteration for each page from the first to the last. *)
Definition mappages (pgdir va size pa perm : Z) : K Z :=
  let a := PGROUNDDOWN va in
  let last := PGROUNDDOWN (u32 (va + size - 1)) in
  mappages_loop (S (Z.to_nat (u32 (last - a) / PGSIZE))) pgdir a last pa perm.

(** The loop of deallocuvm; every iteration advances [a] by at least a page. *)
Fixpoint deallocuvm_loop (fuel : nat) (pgdir a oldsz : Z) : K unit :=
  match fuel with
  | O => nofuel
  | S fuel' =>
      if negb (a <? oldsz) then ret tt
      else
        let! pte := walkpgdir pgdir a false in
        let! a' :=
          (if pte =? 0 then ret (u32 (PGADDR (PDX a + 1) 0 0 - PGSIZE))
           else
             let! e := rd32 pte in
             (if! truth (Z.land e PTE_P) then!
                (let pa := PTE_ADDR e in
                 if pa =? 0 then panic "kfree"
                 else kfree (P2V pa) ;;; wr32 pte 0)) ;;;
             ret a) in
        deallocuvm_loop fuel' pgdir (u32 (a' + PGSIZE)) oldsz
  end.
Definition deallocuvm (pgdir oldsz newsz : Z) : K Z :=
  if oldsz <=? newsz then ret oldsz
  else
    deallocuvm_loop (S (Z.to_nat (oldsz / PGSIZE + 1))) pgdir (PGROUNDUP newsz) oldsz ;;;
    ret newsz.

(** The second loop of freevm. *)
Fixpoint freevm_tables (n : nat) (i pgdir : Z) : K unit :=
  match n with
  | O => ret tt
  | S n' =>
      let! e := rd32 (u32 (pgdir + 4 * i)) in
      (if! truth (Z.land e PTE_P) then! kfree (P2V (PTE_ADDR e))) ;;;
      freevm_tables n' (i + 1) pgdir
  end.
Definition freevm (pgdir : Z) : K unit :=
  if pgdir =? 0 then panic "freevm: no pgdir"
  else
    deallocuvm pgdir KERNBASE 0 ;;;
    freevm_tables NPDENTRIES 0 pgdir ;;;
    kfree pgdir.

(** The table kmap[]: virtual address, physical start, physical end, permissions. *)
Definition kmap (s : kernel) : list (Z * Z * Z * Z) :=
  [ (KERNBASE, 0, EXTMEM, PTE_W);
    (KERNLINK, V2P KERNLINK, V2P s.(k_datasym), 0);
    (s.(k_datasym), V2P s.(k_datasym), PHYSTOP, PTE_W);
    (DEVSPACE, DEVSPACE, 0, PTE_W) ].

Fixpoint setupkvm_loop (ks : list (Z * Z * Z * Z)) (pgdir : Z) : K Z :=
  match ks with
  | [] => ret pgdir
  | (virt, phys_start, phys_end, perm) :: ks' =>
      let! r := mappages pgdir virt (u32 (phys_end - phys_start)) phys_start perm in
      if r <? 0 then freevm pgdir ;;; ret 0
      else setupkvm_loop ks' pgdir
  end.
Definition setupkvm : K Z :=
  let! pgdir := kalloc in
  if pgdir =? 0 then ret 0
  else
    modify (fun s => s<|k_mem ::= fun m => memset m pgdir 0 PGSIZE|>) ;;;
    if DEVSPACE <? P2V PHYSTOP then panic "PHYSTOP too high"
    else
      let! s := get in
      setupkvm_loop (kmap s) pgdir.

Definition lcr3 (v : Z) : K unit := modify (fun s => s<|k_cr3 := v|>).
Definition switchkvm : K unit :=
  let! s := get in
  lcr3 (V2P s.(k_kpgdir)).
Definition kvmalloc : K unit :=
  let! pgdir := setupkvm in
  modify (fun s => s<|k_kpgdir := pgdir|>) ;;;
  switchkvm.

Definition switchuvm (p : option nat) : K unit :=
  match p with
  | None => panic "switchuvm: no process"
  | Some i =>
      let! s := get in
      match s.(k_procs) !! i with
      | None => panic "ptable: index out of range"
      | Some pr =>
          if pr.(p_kstack) =? 0 then panic "switchuvm: no kstack"
          else if pr.(p_pgdir) =? 0 then panic "switchuvm: no pgdir"
          else
            pushcli ;;;
            let! c := mycpu in
            set_tss c ;;;
            modify (upd_cpu c (fun r => r<|c_ss0 := Z.shiftl SEG_KDATA 3|>)) ;;;
            modify (upd_cpu c (fun r => r<|c_esp0 := u32 (pr.(p_kstack) + KSTACKSIZE)|>)) ;;;
            modify (upd_cpu c (fun r => r<|c_iomb := 0xFFFF|>)) ;;;
            ltr c (Z.shiftl SEG_TSS 3) ;;;
            lcr3 (V2P pr.(p_pgdir)) ;;;
            popcli
      end
  end.

(** The initial program; [init] is the image of initcode.S. *)
Fixpoint write_bytes (m : mem) (a : Z) (bs : list Z) : mem :=
  match bs with
  | [] => m
  | b :: bs' => write_bytes (upd m a b) (u32 (a + 1)) bs'
  end.
Definition inituvm (pgdir : Z) (init : list Z) (sz : Z) : K unit :=
  if PGSIZE <=? sz then panic "inituvm: more than a page"
  else
    let! a := kalloc in
    modify (fun s => s<|k_mem ::= fun m => memset m a 0 PGSIZE|>) ;;;
    let! _ := mappages pgdir 0 PGSIZE (V2P a) (Z.lor PTE_W PTE_U) in
    modify (fun s => s<|k_mem ::= fun m => write_bytes m a (take (Z.to_nat sz) init)|>).

Fixpoint allocuvm_loop (fuel : nat) (pgdir a oldsz newsz : Z) : K Z :=
  match fuel with
  | O => nofuel
  | S fuel' =>
      if negb (a <? newsz) then ret newsz
      else
        let! p := kalloc in
        if p =? 0 then
          cprintln "allocuvm out of memory" [] ;;;
          let! _ := deallocuvm pgdir newsz oldsz in
          ret 0
        else
          modify (fun s => s<|k_mem ::= fun m => memset m p 0 PGSIZE|>) ;;;
          let! r := mappages pgdir a PGSIZE (V2P p) (Z.lor PTE_W PTE_U) in
          if r <? 0 then
            cprintln "allocuvm out of memory (2)" [] ;;;
            let! _ := deallocuvm pgdir newsz oldsz in
            kfree p ;;;
            ret 0
          else allocuvm_loop fuel' pgdir (u32 (a + PGSIZE)) oldsz newsz
  end.
Definition allocuvm (pgdir oldsz newsz : Z) : K Z :=
  if KERNBASE <=? newsz then ret 0
  else if newsz <? oldsz then ret oldsz
  else allocuvm_loop (S (Z.to_nat (newsz / PGSIZE + 1))) pgdir (PGROUNDUP oldsz) oldsz newsz.

Definition clearpteu (pgdir uva : Z) : K unit :=
  let! pte := walkpgdir pgdir uva false in
  if pte =? 0 then panic "clearpteu"
  else
    let! e := rd32 pte in
    wr32 pte (Z.land e (u32 (Z.lnot PTE_U))).

(** Copying stops with [false] where the C code jumps to bad. *)
Fixpoint copyuvm_loop (fuel : nat) (pgdir d i sz : Z) : K bool :=
  match fuel with
  | O => nofuel
  | S fuel' =>
      if negb (i <? sz) then ret true
      else
        let! pte := walkpgdir pgdir i false in
        if pte =? 0 then panic "copyuvm: pte should exist"
        else
          let! e := rd32 pte in
          if negb (truth (Z.land e PTE_P)) then panic "copyuvm: page not present"
          else
            let! p := kalloc in
            if p =? 0 then ret false
            else
              modify (fun s => s<|k_mem ::= fun m => memmove m p (P2V (PTE_ADDR e)) PGSIZE|>) ;;;
              let! r := mappages d i PGSIZE (V2P p) (PTE_FLAGS e) in
              if r <? 0 then kfree p ;;; ret false
              else copyuvm_loop fuel' pgdir d (u32 (i + PGSIZE)) sz
  end.
Definition copyuvm (pgdir sz : Z) : K Z :=
  let! d := setupkvm in
  if d =? 0 then ret 0
  else
    let! ok := copyuvm_loop (S (Z.to_nat (sz / PGSIZE + 1))) pgdir d 0 sz in
    if ok then ret d
    else freevm d ;;; ret 0.

(** A null walk is dereferenced at address 0, as in the C code. *)
Definition uva2ka (pgdir uva : Z) : K Z :=
  let! pte := walkpgdir pgdir uva false in
  let! e := rd32 pte in
  if negb (truth (Z.land e PTE_P)) then ret 0
  else if negb (truth (Z.land e PTE_U)) then ret 0
  else ret (P2V (PTE_ADDR e)).

(** [p] is the kernel buffer as the list of its bytes. *)
Fixpoint copyout_loop (fuel : nat) (pgdir va : Z) (p : list Z) (len : Z) : K Z :=
  match fuel with
  | O => nofuel
  | S fuel' =>
      if negb (0 <? len) then ret 0
      else
        let va0 := PGROUNDDOWN va in
        let! pa0 := uva2ka pgdir va0 in
        if pa0 =? 0 then ret (-1)
        else
          let n := PGSIZE - (va - va0) in
          let n := if len <? n then len else n in
          modify (fun s => s<|k_mem ::= fun m => write_bytes m (u32 (pa0 + (va - va0))) (take (Z.to_nat n) p)|>) ;;;
          copyout_loop fuel' pgdir (u32 (va0 + PGSIZE)) (drop (Z.to_nat n) p) (len - n)
  end.
(** A first partial page, whole pages, and the end test. *)
Definition copyout (pgdir va : Z) (p : list Z) (len : Z) : K Z :=
  copyout_loop (S (S (S (Z.to_nat (len / PGSIZE))))) pgdir va p len.

(** ** The paging unit

    The kernel address at which the byte at virtual address [va] is found
    through page directory [pgdir], or nothing if the access faults; the kernel
    runs with write protection on, so a store needs PTE_W. *)
Definition xlate (m : mem) (pgdir va : Z) (store : bool) : option Z :=
  let ok e := truth (Z.land e PTE_P) && (negb store || truth (Z.land e PTE_W)) in
  let pde := load32 m (u32 (pgdir + 4 * PDX va)) in
  if negb (ok pde) then None
  else
    let pte := load32 m (u32 (P2V (PTE_ADDR pde) + 4 * PTX va)) in
    if negb (ok pte) then None
    else Some (u32 (P2V (PTE_ADDR pte) + va mod PGSIZE)).

(** The kernel's accesses to user memory, through the page directory in %cr3.
    A fault in the kernel ends in trap's panic. *)
Definition load_user (va : Z) : K Z :=
  let! s := get in
  match xlate s.(k_mem) (P2V s.(k_cr3)) va false with
  | Some a => ret (s.(k_mem) a)
  | None => panic "trap"
  end.
Definition store_user (va c : Z) : K unit :=
  let! s := get in
  match xlate s.(k_mem) (P2V s.(k_cr3)) va true with
  | Some a => modify (fun s => s<|k_mem ::= fun m => upd m a (u8 c)|>)
  | None => panic "trap"
  end.
Fixpoint loads_user (n : nat) (va : Z) : K (list Z) :=
  match n with
  | O => ret []
  | S n' =>
      let! c := load_user va in
      let! cs := loads_user n' (u32 (va + 1)) in
      ret (c :: cs)
  end.
Fixpoint stores_user (va : Z) (cs : list Z) : K unit :=
  match cs with
  | [] => ret tt
  | c :: cs' => store_user va c ;;; stores_user (u32 (va + 1)) cs'
  end.

(** ** What switchuvm does

    [switchuvm] points the processor at the process's kernel stack and page
    directory, and changes nothing else a thread can see. *)
Lemma switchuvm_runs i p ls s n pr (Q : unit -> kernel -> Prop) :
  running i p ls s -> s.(k_procs) !! n = Some pr -> pr.(p_kstack) <> 0 -> pr.(p_pgdir) <> 0 ->
  (forall s0 s', quiet s s0 -> quiet (s0<|k_cr3 := V2P pr.(p_pgdir)|>) s' ->
     running i p ls s' -> Q tt s') ->
  runs (switchuvm (Some n) s) Q.
Proof.
  intros Hrun Hpr Hks Hpg HQ. unfold switchuvm. kret. rewrite Hpr.
  replace (p_kstack pr =? 0) with false by lia. replace (p_pgdir pr =? 0) with false by lia.
  apply runs_bind, (pushcli_runs i p ls 0 s); [done|]. intros s1 Hq1 Hn1 Hif1.
  apply runs_bind, (mycpu_runs i p ls 1 s1); [done..|].
  kret_by apply set_tss_spec. unfold ltr. do 5 kret.
  set (s2 := upd_cpu i _ (upd_cpu i _ (upd_cpu i _ (upd_cpu i _ (upd_cpu i _ s1))))).
  assert (Hn2 : nested i p ls 1 s2)
    by (unfold s2; repeat apply (running_upd_cpu i p p); done).
  assert (Hq2 : quiet s s2).
  { transitivity s1; [done|]. by exists (k_if s1), (k_cpus s2), (k_locks s1). }
  change (runs (popcli (s2<|k_cr3 := V2P (p_pgdir pr)|>)) Q).
  apply (popcli_runs i p ls 1); [exact Hn2|lia|]. intros s3 Hq3 Hn3.
  by apply (HQ s2).
Qed.

(** A process without a kernel stack or page directory is refused. *)
Lemma switchuvm_refuses s n pr :
  s.(k_procs) !! n = Some pr -> pr.(p_kstack) = 0 \/ pr.(p_pgdir) = 0 ->
  exists msg, switchuvm (Some n) s = Panic msg s.
Proof.
  intros Hpr Hz. unfold switchuvm. kret. rewrite Hpr.
  destruct (Z.eqb_spec (p_kstack pr) 0); [by eexists|].
  replace (p_pgdir pr =? 0) with true by lia. by eexists.
Qed.
