(* ===== verification/Paging.v ===== *)
(** * Address spaces: what the page-table code of vm.c does

    The words of a page directory and its tables as a function from virtual
    page numbers to entries; walkpgdir, mappages and allocuvm in these terms. *)

From S2P Require Import Prelude State Spinlock Thread CString Cprintf Kalloc Vm.

(** ** Arithmetic of addresses and entries *)

Lemma PDX_spec va : 0 <= va < 2 ^ 32 -> PDX va = va / PGSIZE / 1024 /\ 0 <= PDX va < 1024.
Proof.
  intros Hva. unfold PDX. change 0x3FF with (Z.ones 10). rewrite Z.land_ones, Z.shiftr_div_pow2 by lia.
  change PGSIZE with 4096. rewrite Z.div_div by lia. change (4096 * 1024) with (2 ^ 22).
  assert (0 <= va / 2 ^ 22 < 2 ^ 10) by (split; [apply Z.div_pos; lia|apply Z.div_lt_upper_bound; lia]).
  rewrite Z.mod_small by lia. split; [done|lia].
Qed.

Lemma PTX_spec va : 0 <= va < 2 ^ 32 -> PTX va = (va / PGSIZE) mod 1024 /\ 0 <= PTX va < 1024.
Proof.
  intros Hva. unfold PTX. change 0x3FF with (Z.ones 10). rewrite Z.land_ones, Z.shiftr_div_pow2 by lia.
  change PGSIZE with 4096. change (2 ^ 10) with 1024. change (2 ^ 12) with 4096.
  split; [done|]. apply Z.mod_pos_bound. lia.
Qed.

(** A page address with flags. *)
Lemma lor_flags a f : a mod PGSIZE = 0 -> 0 <= f < PGSIZE -> Z.lor a f = a + f.
Proof.
  change PGSIZE with (2 ^ 12). by apply lor_low.
Qed.

Definition present (e : Z) : bool := truth (Z.land e PTE_P).

Lemma present_odd e : present e = Z.odd e.
Proof. unfold present, PTE_P, truth. change 1 with (Z.ones 1). rewrite Z.land_ones by lia. change (2 ^ 1) with 2.
  rewrite Zmod_odd. by destruct (Z.odd e).
Qed.

Lemma PTE_ADDR_flags a f : a mod PGSIZE = 0 -> 0 <= a < 2 ^ 32 -> 0 <= f < PGSIZE -> PTE_ADDR (a + f) = a.
Proof.
  intros Ha Hr Hf. unfold PTE_ADDR. change (u32 (Z.lnot 0xFFF)) with (2 ^ 32 - 2 ^ 12). change PGSIZE with 4096 in *.
  rewrite pg_mask; change PGSIZE with 4096.
  - Z.to_euclidean_division_equations. lia.
  - Z.to_euclidean_division_equations. lia.
Qed.

Lemma page_phys kend t : KERNBASE <= kend -> page_ok kend t ->
  V2P t = t - KERNBASE /\ V2P t mod PGSIZE = 0 /\ 0 <= V2P t < PHYSTOP /\ P2V (V2P t) = t.
Proof.
  intros Hk (Hal & Hlo & Hhi). unfold V2P, P2V, KERNBASE, PHYSTOP, PGSIZE in *.
  rewrite (u32_small (t - _)) by lia. rewrite u32_small by lia. split_and!; [done| |lia|lia|lia].
  Z.to_euclidean_division_equations. lia.
Qed.

(** ** Page tables as functions *)

(** Entry [d] of a page directory, and the kernel address of its table. *)
Definition pde (m : mem) (pgdir d : Z) : Z := load32 m (pgdir + 4 * d).
Definition table (e : Z) : Z := P2V (PTE_ADDR e).
(** The entry for virtual page number [vpn]; 0 when there is no table. *)
Definition entry (m : mem) (pgdir vpn : Z) : Z :=
  let e := pde m pgdir (vpn / 1024) in
  if present e then load32 m (table e + 4 * (vpn mod 1024)) else 0.

(** A directory entry for table [t]: present, writable, for the user. *)
Definition tab_pde (t : Z) : Z := V2P t + 7.

(** The directory and its tables are distinct pages, none of them in [l]. *)
Record pt_ok (kend : Z) (m : mem) (pgdir : Z) (l : list Z) : Prop := {
  pt_dir : page_ok kend pgdir /\ pgdir ∉ l;
  pt_tab d : 0 <= d < 1024 -> present (pde m pgdir d) = true ->
    exists t, pde m pgdir d = tab_pde t /\ page_ok kend t /\ t ∉ l /\ t <> pgdir;
  pt_inj d d' t : 0 <= d < 1024 -> 0 <= d' < 1024 -> page_ok kend t ->
    pde m pgdir d = tab_pde t -> pde m pgdir d' = tab_pde t -> d = d'
}.

Lemma table_pde kend t : KERNBASE <= kend -> page_ok kend t -> table (tab_pde t) = t /\ present (tab_pde t) = true.
Proof.
  intros Hk Ht. destruct (page_phys kend t Hk Ht) as (E & Hal & Hr & Hback). unfold table, tab_pde.
  assert (0 <= V2P t < 2 ^ 32) by (unfold PHYSTOP in *; lia).
  rewrite PTE_ADDR_flags, Hback by (done || unfold PGSIZE; lia). split; [done|].
  rewrite present_odd. change 7 with (1 + 2 * 3). rewrite Z.add_assoc, Z.odd_add_mul_2.
  rewrite Z.add_1_r, Z.odd_succ.
  rewrite Zeven_mod. apply Z.eqb_eq. unfold PGSIZE in Hal. Z.to_euclidean_division_equations. lia.
Qed.

(** The pages that page-table code may write: the directory and its tables. *)
Definition pt_page (m : mem) (pgdir t : Z) : Prop :=
  t = pgdir \/ exists d, 0 <= d < 1024 /\ pde m pgdir d = tab_pde t.

(** Writing elsewhere does not change the tables. *)
Lemma entry_ext kend m m' pgdir l :
  KERNBASE <= kend -> pt_ok kend m pgdir l ->
  (forall t x, page_ok kend t -> pt_page m pgdir t -> t <= x < t + PGSIZE -> m' x = m x) ->
  (forall d, 0 <= d < 1024 -> pde m' pgdir d = pde m pgdir d) /\
  (forall vpn, 0 <= vpn < 2 ^ 20 -> entry m' pgdir vpn = entry m pgdir vpn) /\ pt_ok kend m' pgdir l.
Proof.
  intros Hk Hpt Hext. destruct (pt_dir _ _ _ _ Hpt) as [Hdir Hl].
  assert (Hpde : forall d, 0 <= d < 1024 -> pde m' pgdir d = pde m pgdir d).
  { intros d Hd. apply load32_ext. intros x Hx. apply (Hext pgdir); [done|by left|unfold PGSIZE; lia]. }
  split_and!; [done| |].
  - intros vpn Hv. assert (Hd : 0 <= vpn / 1024 < 1024).
    { split; [apply Z.div_pos; lia|apply Z.div_lt_upper_bound; lia]. }
    pose proof (Z.mod_pos_bound vpn 1024 ltac:(lia)) as Hm.
    unfold entry. rewrite Hpde by done. destruct (present (pde m pgdir (vpn / 1024))) eqn:Hp; [|done].
    destruct (pt_tab _ _ _ _ Hpt (vpn / 1024) Hd Hp) as (t & Et & Ht & _). rewrite Et.
    destruct (table_pde kend t Hk Ht) as [-> _]. apply load32_ext. intros x Hx.
    apply (Hext t); [done|right; by exists (vpn / 1024)|unfold PGSIZE; lia].
  - split.
    + done.
    + intros d Hd. rewrite Hpde by done. by apply (pt_tab _ _ _ _ Hpt).
    + intros d d' t Hd Hd' Ht. rewrite !Hpde by done. by apply (pt_inj _ _ _ _ Hpt).
Qed.

Lemma vpn_range vpn : 0 <= vpn < 2 ^ 20 -> 0 <= vpn / 1024 < 1024 /\ 0 <= vpn mod 1024 < 1024.
Proof.
  intros Hv. split; [|by apply Z.mod_pos_bound]. split; [apply Z.div_pos; lia|apply Z.div_lt_upper_bound; lia].
Qed.

(** A new table: zeroed and entered into the directory. *)
Section NewTable.
Context (kend : Z) (m : mem) (pgdir t d : Z) (l : list Z).
Hypothesis Hk : KERNBASE <= kend.
Hypothesis Hpt : pt_ok kend m pgdir (t :: l).
Hypothesis Ht : page_ok kend t.
Hypothesis Hnew : t ∉ l.
Hypothesis Hd : 0 <= d < 1024.
Hypothesis Hp : present (pde m pgdir d) = false.
Let m2 := store32 (memset m t 0 PGSIZE) (pgdir + 4 * d) (tab_pde t).

Lemma new_apart : page_ok kend pgdir /\ (t + PGSIZE <= pgdir \/ pgdir + PGSIZE <= t).
Proof.
  destruct (pt_dir _ _ _ _ Hpt) as [Hdir Hl]. split; [done|]. apply (pages_apart kend kend); [done|done|]. set_solver.
Qed.

Lemma new_frame x : ~ (t <= x < t + PGSIZE) -> ~ (pgdir <= x < pgdir + PGSIZE) -> m2 x = m x.
Proof.
  intros H1 H2. unfold m2. rewrite store32_other by (unfold PGSIZE in *; lia). rewrite memset_lookup.
  by replace ((t <=? x) && (x <? t + PGSIZE)) with false by lia.
Qed.

Lemma new_pde d' : 0 <= d' < 1024 -> pde m2 pgdir d' = if d' =? d then tab_pde t else pde m pgdir d'.
Proof.
  intros Hd'. destruct new_apart as [_ Hap], (page_phys kend t Hk Ht) as (_ & _ & Hr & _).
  unfold pde, m2. destruct (Z.eqb_spec d' d) as [->|Hne].
  - rewrite store32_same. apply u32_small. unfold tab_pde, PHYSTOP in *. lia.
  - rewrite store32_disjoint by lia. apply memset_disjoint. unfold PGSIZE in *. lia.
Qed.

Lemma new_entry vpn : 0 <= vpn < 2 ^ 20 -> entry m2 pgdir vpn = entry m pgdir vpn.
Proof.
  intros Hv. destruct (vpn_range vpn Hv) as [Hvd Hvm], new_apart as [Hdir Hap].
  unfold entry. rewrite new_pde by done. destruct (Z.eqb_spec (vpn / 1024) d) as [->|Hne].
  - destruct (table_pde kend t Hk Ht) as [-> ->]. rewrite Hp. unfold m2.
    rewrite store32_disjoint by (unfold PGSIZE in *; lia). apply memset_zero_load; unfold PGSIZE; lia.
  - destruct (present (pde m pgdir (vpn / 1024))) eqn:E; [|done].
    destruct (pt_tab _ _ _ _ Hpt (vpn / 1024) Hvd E) as (t' & Et & Ht' & Hnl & Hnp). rewrite Et.
    destruct (table_pde kend t' Hk Ht') as [-> _]. apply load32_ext. intros x Hx. apply new_frame.
    + destruct (pages_apart kend kend t' t Ht' Ht) as [|]; [set_solver|unfold PGSIZE in *; lia..].
    + destruct (pages_apart kend kend t' pgdir Ht' Hdir Hnp); unfold PGSIZE in *; lia.
Qed.

Lemma new_pt_ok : pt_ok kend m2 pgdir l.
Proof.
  destruct (pt_dir _ _ _ _ Hpt) as [Hdir Hl]. split.
  - split; [done|set_solver].
  - intros d' Hd'. rewrite new_pde by done. destruct (Z.eqb_spec d' d) as [->|Hne].
    + intros _. exists t. split_and!; [done|done|done|set_solver].
    + intros Hp'. destruct (pt_tab _ _ _ _ Hpt d' Hd' Hp') as (t' & Et & Ht' & Hnl & Hnp). exists t'. split_and!; [done|done|set_solver|done].
  - assert (Hno : forall d' t', 0 <= d' < 1024 -> d' <> d -> page_ok kend t' -> pde m pgdir d' = tab_pde t' -> t' <> t).
    { intros d' t' Hd' Hne Ht' Et ->. destruct (table_pde kend t Hk Ht) as [_ Hpr].
      destruct (pt_tab _ _ _ _ Hpt d' Hd') as (t2 & Et2 & Ht2 & Hnl & _); [by rewrite Et|].
      rewrite Et in Et2. assert (t2 = t) as ->; [|set_solver].
      destruct (table_pde kend t2 Hk Ht2) as [<- _], (table_pde kend t Hk Ht) as [E _]. by rewrite <- Et2, E. }
    assert (Hsame : forall t', page_ok kend t' -> tab_pde t = tab_pde t' -> t' = t).
    { intros t' Ht' E. destruct (table_pde kend t' Hk Ht') as [<- _], (table_pde kend t Hk Ht) as [E' _]. by rewrite <- E, E'. }
    intros d1 d2 t' H1 H2 Ht'. rewrite !new_pde by done.
    destruct (Z.eqb_spec d1 d) as [->|N1], (Z.eqb_spec d2 d) as [->|N2]; intros E1 E2; [done|..].
    + exfalso. apply (Hno d2 t'); auto.
    + exfalso. apply (Hno d1 t'); auto.
    + by apply (pt_inj _ _ _ _ Hpt d1 d2 t').
Qed.
End NewTable.

(** An entry of a table is written. *)
Lemma set_entry kend m pgdir l vpn t w :
  KERNBASE <= kend -> pt_ok kend m pgdir l -> 0 <= vpn < 2 ^ 20 -> page_ok kend t ->
  pde m pgdir (vpn / 1024) = tab_pde t ->
  let m' := store32 m (t + 4 * (vpn mod 1024)) w in
  pt_ok kend m' pgdir l /\ (forall d, 0 <= d < 1024 -> pde m' pgdir d = pde m pgdir d) /\
  forall v, 0 <= v < 2 ^ 20 -> entry m' pgdir v = if v =? vpn then u32 w else entry m pgdir v.
Proof.
  intros Hk Hpt Hv Ht Et m'. destruct (pt_dir _ _ _ _ Hpt) as [Hdir Hl], (vpn_range vpn Hv) as [Hvd Hvm].
  destruct (table_pde kend t Hk Ht) as [Htab Hpr].
  assert (Hnp : t <> pgdir).
  { destruct (pt_tab _ _ _ _ Hpt (vpn / 1024) Hvd) as (t2 & Et2 & Ht2 & _ & Hnp2); [by rewrite Et|].
    rewrite Et in Et2. destruct (table_pde kend t2 Hk Ht2) as [E2 _]. congruence. }
  assert (Hpde : forall d, 0 <= d < 1024 -> pde m' pgdir d = pde m pgdir d).
  { intros d Hd. apply store32_disjoint. destruct (pages_apart kend kend t pgdir Ht Hdir Hnp); unfold PGSIZE in *; lia. }
  split_and!; [|done|].
  - split; [done|..].
    + intros d Hd. rewrite Hpde by done. by apply (pt_tab _ _ _ _ Hpt).
    + intros d d' t' Hd Hd' Ht'. rewrite !Hpde by done. by apply (pt_inj _ _ _ _ Hpt).
  - intros v Hv'. destruct (vpn_range v Hv') as [Hvd' Hvm']. unfold entry. rewrite Hpde by done.
    destruct (present (pde m pgdir (v / 1024))) eqn:E.
    2: { rewrite (proj2 (Z.eqb_neq v vpn)); [done|]. intros ->. by rewrite Et, Hpr in E. }
    destruct (pt_tab _ _ _ _ Hpt (v / 1024) Hvd' E) as (t' & Et' & Ht' & _). rewrite Et'.
    destruct (table_pde kend t' Hk Ht') as [Htab' _]. rewrite Htab'. unfold m'.
    destruct (decide (v / 1024 = vpn / 1024)) as [Hsame|Hdiff].
    + assert (t' = t) as -> by (rewrite <- Hsame, Et' in Et; congruence).
      pose proof (Z.div_mod v 1024). pose proof (Z.div_mod vpn 1024).
      destruct (Z.eqb_spec v vpn) as [->|Hne]; [apply store32_same|]. apply store32_disjoint. lia.
    + rewrite (proj2 (Z.eqb_neq v vpn)) by (by intros ->). apply store32_disjoint.
      assert (t' <> t) by (intros ->; apply Hdiff; by apply (pt_inj _ _ _ _ Hpt _ _ t)).
      destruct (pages_apart kend kend t' t Ht' Ht); unfold PGSIZE in *; [done|lia|lia].
Qed.

(** ** walkpgdir and mappages *)

(** A thread that may allocate, the free pages [l] and an address space. *)
Record vm_ok (i : nat) (q : option nat) (ls : gset lockid) (pgdir : Z) (l : list Z) (s : kernel) : Prop := {
  vo_run : can_alloc i q ls s;
  vo_lock : LkKmem ∉ ls;
  vo_free : free_rep s l;
  vo_end : KERNBASE <= s.(k_end);
  vo_pt : pt_ok s.(k_end) s.(k_mem) pgdir l
}.

Definition in_page (p x : Z) : Prop := p <= x < p + PGSIZE.

(** What page-table code does between two states with free pages [l] and [l']:
    only memory, the free list and lock words change; memory only in pages that
    were free or belong to the page table; tables stay, and new tables were
    free; the pages that are no longer free are tables or have been given to the
    caller, as [ps]. *)
Record vm_step (pgdir : Z) (s : kernel) (l : list Z) (s' : kernel) (l' ps : list Z) : Prop := {
  vs_quiet : exists m fl, quiet (s<|k_mem := m|><|k_freelist := fl|>) s';
  vs_free : exists pre, l = pre ++ l';
  vs_pt t : page_ok s.(k_end) t -> pt_page s'.(k_mem) pgdir t -> pt_page s.(k_mem) pgdir t \/ t ∈ l;
  vs_tab t : page_ok s.(k_end) t -> pt_page s.(k_mem) pgdir t -> pt_page s'.(k_mem) pgdir t;
  vs_used p : page_ok s.(k_end) p -> p ∈ l -> p ∈ l' \/ p ∈ ps \/ pt_page s'.(k_mem) pgdir p;
  vs_given p : p ∈ ps -> p ∈ l;
  vs_mem x : (forall t, page_ok s.(k_end) t -> pt_page s.(k_mem) pgdir t -> ~ in_page t x) ->
    (forall p, p ∈ l -> ~ in_page p x) -> s'.(k_mem) x = s.(k_mem) x
}.

Lemma vm_step_refl pgdir s l : vm_step pgdir s l s l [].
Proof. split; [by exists s.(k_mem), s.(k_freelist)|by exists []|by left|done|by left|by intros p ?%elem_of_nil|done]. Qed.

Lemma vm_step_end pgdir s l s' l' ps : vm_step pgdir s l s' l' ps -> s'.(k_end) = s.(k_end).
Proof. by intros [(m & fl & b & cs & lks & ->) _ _ _ _ _ _]. Qed.

Lemma vm_step_trans pgdir s l s1 l1 s2 l2 ps1 ps2 :
  vm_step pgdir s l s1 l1 ps1 -> vm_step pgdir s1 l1 s2 l2 ps2 -> vm_step pgdir s l s2 l2 (ps1 ++ ps2).
Proof.
  intros H1 H2. pose proof (vm_step_end _ _ _ _ _ _ H1) as He.
  destruct H1 as [(m & fl & Hq) (pre & ->) Hp Ht Hu Hg Hm], H2 as [(m' & fl' & Hq') (pre' & ->) Hp' Ht' Hu' Hg' Hm']. rewrite He in *. split.
  - exists m', fl'. by quiet_by Hq Hq'.
  - exists (pre ++ pre'). by rewrite app_assoc.
  - intros t Hok Hpt. destruct (Hp' t Hok Hpt) as [H|H]; [by apply Hp|right; apply elem_of_app; by right].
  - intros t Hok Hpt. by apply Ht', Ht.
  - intros p Hok Hin. rewrite elem_of_app. destruct (Hu p Hok Hin) as [H|[H|H]]; [|by auto|by auto].
    destruct (Hu' p Hok H) as [?|[?|?]]; auto.
  - intros p [H%Hg|H%Hg']%elem_of_app; [done|set_solver].
  - intros x Hx Hl. rewrite Hm'.
    + by apply Hm.
    + intros t Hok Hpt. destruct (Hp t Hok Hpt) as [H|H]; [by apply Hx|by apply Hl].
    + intros p H. apply Hl, elem_of_app. by right.
Qed.

(** The free list is in its own pages. *)
Lemma free_rep_mem s s' l :
  free_rep s l -> s'.(k_freelist) = s.(k_freelist) -> s'.(k_end) = s.(k_end) ->
  (forall p x, p ∈ l -> page_ok s.(k_end) p -> in_page p x -> s'.(k_mem) x = s.(k_mem) x) -> free_rep s' l.
Proof.
  intros [Hl Hnd] Hf He Hm. split; [|done]. rewrite Hf, He. eapply free_list_ext; [|exact Hl].
  intros p Hp. pose proof (free_list_page _ _ _ _ _ Hl Hp) as Hok. apply load32_ext. intros x Hx.
  apply (Hm p); [done|done|]. unfold in_page, PGSIZE. lia.
Qed.

Section Walk.
Context (i : nat) (q : option nat) (ls : gset lockid) (pgdir : Z).

(** The free list is empty. *)
Lemma kalloc_none s :
  vm_ok i q ls pgdir [] s ->
  exists s1, kalloc s = Ret 0 s1 /\ vm_ok i q ls pgdir [] s1 /\ vm_step pgdir s [] s1 [] [] /\ s1.(k_mem) = s.(k_mem).
Proof.
  intros [Hrun Hlk Hfr Hk Hpt]. destruct (kalloc_can i q ls [] s Hrun Hlk Hfr) as (s1 & E1 & Hq1 & Hr1 & _).
  cbn [hd tail] in E1, Hq1. pose proof (free_list_head _ _ _ _ (proj1 Hfr)) as Hf.
  assert (Hm1 : k_mem s1 = k_mem s) by (by destruct Hq1 as (? & ? & ? & ->)).
  assert (He1 : k_end s1 = k_end s) by (by destruct Hq1 as (? & ? & ? & ->)).
  exists s1. split_and!; [done| | |done].
  - split; [done|done| |by rewrite He1|by rewrite He1, Hm1].
    destruct Hq1 as (? & ? & ? & ->). destruct Hfr as [Hl Hnd]. by split.
  - split; [by exists (k_mem s), 0|by exists []|rewrite Hm1; by left|by rewrite Hm1|by left|by intros p' ?%elem_of_nil|by rewrite Hm1].
Qed.

Lemma walkpgdir_present l s va (alloc : bool) :
  vm_ok i q ls pgdir l s -> 0 <= va < 2 ^ 32 -> present (pde s.(k_mem) pgdir (va / PGSIZE / 1024)) = true ->
  exists t, page_ok s.(k_end) t /\ pde s.(k_mem) pgdir (va / PGSIZE / 1024) = tab_pde t /\
    walkpgdir pgdir va alloc s = Ret (t + 4 * PTX va) s.
Proof.
  intros [Hrun Hlk Hfr Hk Hpt] Hva Hp. destruct (PDX_spec va Hva) as [Ed Hd], (PTX_spec va Hva) as [Et Ht].
  rewrite <- Ed in *. destruct (pt_tab _ _ _ _ Hpt _ Hd Hp) as (t & E & Hok & _). exists t. split_and!; [done..|].
  destruct (table_pde _ t Hk Hok) as [Htab _], (pt_dir _ _ _ _ Hpt) as [(_ & _ & Hdir) _], Hok as (_ & _ & Htr).
  unfold KERNBASE, PHYSTOP in *. unfold walkpgdir. rewrite (u32_small (pgdir + _)) by lia. unfold rd32, gets. kret.
  fold (pde (k_mem s) pgdir (PDX va)). fold (present (pde (k_mem s) pgdir (PDX va))). rewrite Hp, E.
  fold (table (tab_pde t)). rewrite Htab, u32_small by lia. done.
Qed.

Lemma walkpgdir_absent l s va :
  vm_ok i q ls pgdir l s -> 0 <= va < 2 ^ 32 -> present (pde s.(k_mem) pgdir (va / PGSIZE / 1024)) = false ->
  walkpgdir pgdir va false s = Ret 0 s.
Proof.
  intros [Hrun Hlk Hfr Hk Hpt] Hva Hp. destruct (PDX_spec va Hva) as [Ed Hd].
  rewrite <- Ed in *. destruct (pt_dir _ _ _ _ Hpt) as [(_ & _ & Hdir) _].
  unfold KERNBASE, PHYSTOP in *. unfold walkpgdir. rewrite (u32_small (pgdir + _)) by lia. unfold rd32, gets. kret.
  fold (pde (k_mem s) pgdir (PDX va)). fold (present (pde (k_mem s) pgdir (PDX va))). by rewrite Hp.
Qed.

Lemma walkpgdir_new l s va t :
  vm_ok i q ls pgdir (t :: l) s -> 0 <= va < 2 ^ 32 -> present (pde s.(k_mem) pgdir (va / PGSIZE / 1024)) = false ->
  exists s', walkpgdir pgdir va true s = Ret (t + 4 * PTX va) s' /\ page_ok s.(k_end) t /\
    pde s'.(k_mem) pgdir (va / PGSIZE / 1024) = tab_pde t /\ vm_ok i q ls pgdir l s' /\
    vm_step pgdir s (t :: l) s' l [] /\
    forall vpn, 0 <= vpn < 2 ^ 20 -> entry s'.(k_mem) pgdir vpn = entry s.(k_mem) pgdir vpn.
Proof.
  intros [Hrun Hlk Hfr Hk Hpt] Hva Hp. destruct (PDX_spec va Hva) as [Ed Hd], (PTX_spec va Hva) as [_ Ht].
  rewrite <- Ed in *. destruct (pt_dir _ _ _ _ Hpt) as [Hdok Hdl], Hfr as [Hl Hnd].
  pose proof (free_list_page _ _ _ _ t Hl ltac:(left)) as Htok. apply list.NoDup_cons in Hnd as [Htl Hnd].
  destruct (kalloc_can i q ls (t :: l) s Hrun Hlk) as (s1 & E1 & Hq1 & Hr1 & _); [by split; [|constructor]|].
  cbn [hd tail] in E1, Hq1.
  set (m2 := store32 (memset s.(k_mem) t 0 PGSIZE) (pgdir + 4 * PDX va) (tab_pde t)).
  assert (Hm1 : k_mem s1 = k_mem s) by (by destruct Hq1 as (? & ? & ? & ->)).
  assert (He1 : k_end s1 = k_end s) by (by destruct Hq1 as (? & ? & ? & ->)).
  assert (Hf1 : k_freelist s1 = hd 0 l) by (by destruct Hq1 as (? & ? & ? & ->)).
  set (s2 := s1<|k_mem := m2|>). assert (Hr2 : can_alloc i q ls s2) by aframe Hr1.
  exists s2. split_and!; [|done|..].
  - pose proof Hdok as (_ & _ & Hdir). pose proof Htok as (_ & _ & Htr). unfold KERNBASE, PHYSTOP in *.
    unfold walkpgdir. rewrite (u32_small (pgdir + _)) by lia. unfold rd32, gets. kret.
    fold (pde (k_mem s) pgdir (PDX va)). fold (present (pde (k_mem s) pgdir (PDX va))). rewrite Hp. cbn [negb].
    kret_by exact E1. rewrite (proj2 (Z.eqb_neq t 0)) by lia. kret. unfold wr32. kret. rewrite u32_small by lia.
    destruct (page_phys _ t Hk Htok) as (_ & Hal & _ & _).
    assert (EF : Z.lor (Z.lor (Z.lor (V2P t) PTE_P) PTE_W) PTE_U = tab_pde t).
    { rewrite <- !Z.lor_assoc. change (Z.lor PTE_P (Z.lor PTE_W PTE_U)) with 7. by apply lor_flags. }
    rewrite EF. apply (f_equal (Ret (t + 4 * PTX va))). unfold s2, m2. rewrite <- Hm1. done.
  - unfold s2. change (pde m2 pgdir (PDX va) = tab_pde t). unfold m2.
    rewrite (new_pde (k_end s) _ _ _ _ l) by done. by rewrite Z.eqb_refl.
  - split; [done|done| |by change (k_end s2) with (k_end s1); rewrite He1|].
    + destruct Hl as (_ & _ & Hl). split; [|done]. change (k_freelist s2) with (k_freelist s1). rewrite Hf1.
      rewrite <- (free_list_head _ _ _ _ Hl). change (k_end s2) with (k_end s1). rewrite He1.
      eapply free_list_ext; [|exact Hl]. intros p' Hp'. pose proof (free_list_page _ _ _ _ _ Hl Hp') as Hok'.
      apply load32_ext. intros x Hx. apply (new_frame (k_mem s) pgdir t (PDX va)); try done; unfold PGSIZE.
      * destruct (pages_apart _ _ p' t Hok' Htok); [by intros ->|unfold PGSIZE in *; lia..].
      * destruct (pages_apart _ _ p' pgdir Hok' Hdok); [intros ->; set_solver|unfold PGSIZE in *; lia..].
    + change (k_end s2) with (k_end s1). rewrite He1. by apply new_pt_ok.
  - split.
    + exists m2, (hd 0 l). unfold s2. destruct Hq1 as (b & cs & lks & ->). by exists b, cs, lks.
    + by exists [t].
    + intros t' Ht' [->|(d & Hd' & E)]; [by left; left|]. change (k_mem s2) with m2 in E. unfold m2 in E.
      rewrite (new_pde (k_end s) _ _ _ _ l) in E by done. destruct (d =? PDX va).
      * right. destruct (table_pde _ t Hk Htok) as [E1' _], (table_pde _ t' Hk Ht') as [E2' _]. rewrite <- E2', <- E, E1'. left.
      * left. right. by exists d.
    + intros t' Ht' [->|(d & Hd' & E)]; [by left|]. right. exists d. split; [done|]. change (k_mem s2) with m2. unfold m2.
      rewrite (new_pde (k_end s) _ _ _ _ l) by done. destruct (Z.eqb_spec d (PDX va)) as [->|]; [|done].
      destruct (table_pde _ t' Hk Ht') as [_ Hpr]. by rewrite E, Hpr in Hp.
    + intros p' _ [->|H]%elem_of_cons; [|by left]. right. right. right. exists (PDX va). split; [done|].
      change (k_mem s2) with m2. unfold m2. rewrite (new_pde (k_end s) _ _ _ _ l) by done. by rewrite Z.eqb_refl.
    + by intros p' ?%elem_of_nil.
    + intros x Hx Hl'. change (k_mem s2) with m2. apply (new_frame (k_mem s) pgdir t (PDX va)); try done.
      * apply Hl'. left.
      * apply Hx; [done|by left].
  - intros vpn Hv. apply (new_entry (k_end s) (k_mem s) pgdir t (PDX va) l); done.
Qed.

(** The tables that have to be allocated to map page [vpn]. *)
Definition new_tables (m : mem) (vpn : Z) : nat := if present (pde m pgdir (vpn / 1024)) then 0 else 1.

Lemma new_tables_one m vpn : (new_tables m vpn <= 1)%nat.
Proof. unfold new_tables. destruct (present _); lia. Qed.

Lemma walkpgdir_ok l s va :
  vm_ok i q ls pgdir l s -> 0 <= va < 2 ^ 32 ->
  exists r s' l', walkpgdir pgdir va true s = Ret r s' /\ vm_ok i q ls pgdir l' s' /\ vm_step pgdir s l s' l' [] /\
    (forall vpn, 0 <= vpn < 2 ^ 20 -> entry s'.(k_mem) pgdir vpn = entry s.(k_mem) pgdir vpn) /\
    (r = 0 /\ l = [] /\ l' = [] \/
     (length l <= length l' + new_tables s.(k_mem) (va / PGSIZE))%nat /\
     exists t, page_ok s.(k_end) t /\ pde s'.(k_mem) pgdir (va / PGSIZE / 1024) = tab_pde t /\ r = t + 4 * PTX va).
Proof.
  intros Hok Hva. unfold new_tables. destruct (present (pde s.(k_mem) pgdir (va / PGSIZE / 1024))) eqn:Hp.
  { destruct (walkpgdir_present l s va true Hok Hva Hp) as (t & Ht & E & Ew).
    eexists _, s, l. split_and!; [exact Ew|done|apply vm_step_refl|done|]. right. split; [lia|]. by exists t. }
  destruct l as [|t l].
  2: { destruct (walkpgdir_new l s va t Hok Hva Hp) as (s' & Ew & Ht & E & Hok' & Hst & Hen).
       eexists _, s', l. split_and!; [exact Ew|done|done|done|]. right. split; [cbn; lia|]. by exists t. }
  destruct (kalloc_none s Hok) as (s1 & E1 & Hok1 & Hst1 & Hm1).
  exists 0, s1, []. split_and!; [|done|done|by rewrite Hm1|by left].
  destruct Hok as [_ _ _ _ Hpt]. destruct (PDX_spec va Hva) as [Ed Hd]. rewrite <- Ed in Hp. destruct (pt_dir _ _ _ _ Hpt) as [(_ & _ & Hdir) _].
  unfold KERNBASE, PHYSTOP in *. unfold walkpgdir. rewrite (u32_small (pgdir + _)) by lia. unfold rd32, gets. kret.
  fold (pde (k_mem s) pgdir (PDX va)). fold (present (pde (k_mem s) pgdir (PDX va))). rewrite Hp. cbn [negb].
  by kret_by exact E1.
Qed.

(** What mappages writes into an entry. *)
Definition map_entry (pa perm : Z) : Z := pa + Z.lor perm PTE_P.

Lemma map_entry_lor pa perm :
  pa mod PGSIZE = 0 -> 0 <= perm < PGSIZE ->
  Z.lor (Z.lor pa perm) PTE_P = map_entry pa perm /\ 0 <= Z.lor perm PTE_P < PGSIZE.
Proof.
  intros Hpa Hperm. assert (Hr : 0 <= Z.lor perm PTE_P < PGSIZE).
  { split; [apply Z.lor_nonneg; split; [lia|done]|]. change PGSIZE with (2 ^ 12) in *.
    assert (Hb : Z.lor perm PTE_P = Z.lor perm PTE_P mod 2 ^ 12); [|rewrite Hb; apply Z.mod_pos_bound; lia].
    apply Z.bits_inj'. intros k Hk. destruct (Z.ltb_spec k 12).
    - by rewrite Z.mod_pow2_bits_low by lia.
    - rewrite Z.mod_pow2_bits_high, Z.lor_spec by lia. rewrite <- (Z.mod_small perm (2 ^ 12)) by lia.
      rewrite Z.mod_pow2_bits_high by lia. change PTE_P with (1 mod 2 ^ 12). by rewrite Z.mod_pow2_bits_high by lia. }
  split; [|done]. rewrite <- Z.lor_assoc. unfold map_entry. by apply lor_flags.
Qed.

(** The pages [v, v + k) were mapped to consecutive pages from [pa]. *)
Definition mapped_range (m m' : mem) (v k pa perm : Z) : Prop :=
  forall vpn, 0 <= vpn < 2 ^ 20 ->
    entry m' pgdir vpn =
      if (v <=? vpn) && (vpn <? v + k) then map_entry (pa + (vpn - v) * PGSIZE) perm else entry m pgdir vpn.

(** One page. *)
Lemma map_one l s v pa perm :
  vm_ok i q ls pgdir l s -> 0 <= v < 2 ^ 20 -> present (entry s.(k_mem) pgdir v) = false ->
  pa mod PGSIZE = 0 -> 0 <= pa < 2 ^ 32 -> 0 <= perm < PGSIZE ->
  exists r s1 l', walkpgdir pgdir (v * PGSIZE) true s = Ret r s1 /\
    (r = 0 /\ l = [] /\ l' = [] /\ vm_ok i q ls pgdir l' s1 /\ vm_step pgdir s l s1 l' [] /\
       mapped_range s.(k_mem) s1.(k_mem) v 0 pa perm \/
     r <> 0 /\ (length l <= length l' + new_tables s.(k_mem) v)%nat /\ present (load32 s1.(k_mem) r) = false /\
     let s2 := s1<|k_mem ::= fun m => store32 m r (Z.lor (Z.lor pa perm) PTE_P)|> in
     vm_ok i q ls pgdir l' s2 /\ vm_step pgdir s l s2 l' [] /\ mapped_range s.(k_mem) s2.(k_mem) v 1 pa perm /\
     present (pde s2.(k_mem) pgdir (v / 1024)) = true).
Proof.
  intros Hok Hv Hab Hal Hpa Hperm. change PGSIZE with 4096 in *.
  destruct (walkpgdir_ok l s (v * 4096) Hok ltac:(lia)) as (r & s1 & l' & E & Hok1 & Hst & Hen & Hr).
  change PGSIZE with 4096 in Hr. rewrite Z.div_mul in Hr by lia.
  pose proof (vm_step_end _ _ _ _ _ _ Hst) as He.
  exists r, s1, l'. split; [done|]. destruct Hr as [(-> & -> & ->)|(Hlen & t & Ht & Et & ->)].
  { left. split_and!; try done. intros vpn Hvpn. rewrite Hen by done.
    by replace ((v <=? vpn) && (vpn <? v + 0)) with false by lia. }
  right. destruct (PTX_spec (v * 4096) ltac:(lia)) as [Ep Hp]. change PGSIZE with 4096 in Ep. rewrite Z.div_mul in Ep by lia.
  rewrite Ep. pose proof Hok1 as [Hrun Hlk Hfr Hk Hpt]. rewrite <- He in Ht. destruct (table_pde _ t Hk Ht) as [Htab Hpr].
  set (w := Z.lor (Z.lor pa perm) PTE_P). destruct (map_entry_lor pa perm) as [Ew Hwr]; [done..|]. fold w in Ew.
  assert (Hw : u32 w = map_entry pa perm).
  { rewrite Ew. apply u32_small. unfold map_entry. change PGSIZE with 4096 in *. Z.to_euclidean_division_equations. lia. }
  pose proof (set_entry (k_end s1) (k_mem s1) pgdir l' v t w Hk Hpt Hv Ht Et) as Hset.
  cbv zeta in Hset. set (a := t + 4 * (v mod 1024)) in *. destruct Hset as (Hpt2 & Hpde2 & Hen2).
  assert (Hpp : pt_page (k_mem s1) pgdir t).
  { right. exists (v / 1024). split; [by apply vpn_range|done]. }
  assert (Hmem : forall x, ~ in_page t x -> store32 (k_mem s1) a w x = k_mem s1 x).
  { intros x Hx. apply store32_other. pose proof (vpn_range v Hv). unfold a, in_page in *. change PGSIZE with 4096 in Hx. lia. }
  assert (Htl : t ∉ l').
  { destruct (pt_tab _ _ _ _ Hpt (v / 1024)) as (t2 & E2 & Ht2 & Hn2 & _); [by apply vpn_range|by rewrite Et|].
    rewrite Et in E2. destruct (table_pde _ t2 Hk Ht2) as [E3 _]. congruence. }
  assert (Hkeep : forall t', pt_page (k_mem s1) pgdir t' -> pt_page (store32 (k_mem s1) a w) pgdir t').
  { intros t' [->|(d & Hd & Ed)]; [by left|]. right. exists d. by rewrite Hpde2. }
  cbv zeta. split_and!.
  - destruct Ht as (_ & _ & Htr). pose proof (vpn_range v Hv). unfold a, KERNBASE in *. lia.
  - done.
  - assert (Hload : load32 (k_mem s1) a = entry (k_mem s) pgdir v).
    { rewrite <- Hen by done. unfold entry. rewrite Et, Hpr, Htab. done. }
    by rewrite Hload.
  - split; [aframe Hrun|done| |done|done].
    apply (free_rep_mem s1); [done..|]. intros p' x Hp' Hok' Hx. cbn. apply Hmem.
    destruct (pages_apart _ _ p' t Hok' Ht); [by intros ->|unfold in_page in *; lia..].
  - destruct Hst as [(m & fl & Hq) Hpre Hptp Htab' Hused Hgiven Hmm]. split.
    + exists (store32 (k_mem s1) a w), fl. destruct Hq as (b & cs & lks & ->). by exists b, cs, lks.
    + done.
    + intros t' Ht' [->|(d & Hd & Ed)]; [by left; left|]. apply Hptp; [done|]. right. exists d. split; [done|].
      cbn in Ed. by rewrite Hpde2 in Ed.
    + intros t' Ht' Hp'. apply Hkeep. by apply Htab'.
    + intros p' Hp' Hin. destruct (Hused p' Hp' Hin) as [H|[H|H]]; [by left|by right; left|]. right. right. by apply Hkeep.
    + done.
    + intros x Hx Hl. cbn. rewrite Hmem; [by apply Hmm|]. destruct (Hptp t) as [H|H]; [by rewrite <- He|done|apply Hx; [by rewrite <- He|done]|by apply Hl].
  - intros vpn Hvpn. cbn. rewrite Hen2, Hw, Hen by done. destruct (Z.eqb_spec vpn v) as [->|Hne].
    + replace ((v <=? v) && (v <? v + 1)) with true by lia. by rewrite Z.sub_diag, Z.add_0_r.
    + by replace ((v <=? vpn) && (vpn <? v + 1)) with false by lia.
  - cbn. rewrite Hpde2 by (by apply vpn_range). by rewrite Et.
Qed.

(** The tables that mapping the pages from [v] to [v + n] allocates at most. *)
Definition tables (m : mem) (v n : Z) : Z := (v + n) / 1024 - v / 1024 + Z.of_nat (new_tables m v).

Lemma tables_nonneg m v n : 0 <= v -> 0 <= n -> 0 <= tables m v n.
Proof. intros Hv Hn. unfold tables. assert (v / 1024 <= (v + n) / 1024) by (apply Z.div_le_mono; lia). lia. Qed.

Lemma tables_step m m2 v n :
  0 <= v -> 0 <= n -> present (pde m2 pgdir (v / 1024)) = true ->
  0 <= tables m2 (v + 1) n /\ Z.of_nat (new_tables m v) + tables m2 (v + 1) n <= tables m v (n + 1).
Proof.
  intros Hv Hn Hp. unfold tables. replace (v + 1 + n) with (v + (n + 1)) by lia.
  assert ((v + 1) / 1024 <= (v + (n + 1)) / 1024) by (apply Z.div_le_mono; lia). split; [lia|].
  assert (Hc : (v + 1) / 1024 = v / 1024 \/ (v + 1) / 1024 = v / 1024 + 1) by (Z.to_euclidean_division_equations; lia).
  destruct Hc as [E|E].
  - assert (new_tables m2 (v + 1) = 0%nat) as -> by (unfold new_tables; by rewrite E, Hp). lia.
  - pose proof (new_tables_one m2 (v + 1)). lia.
Qed.

Lemma mapped_range_trans m m1 m2 v k pa perm :
  0 <= v -> 0 <= k -> mapped_range m m1 v 1 pa perm -> mapped_range m1 m2 (v + 1) k (pa + PGSIZE) perm ->
  mapped_range m m2 v (k + 1) pa perm.
Proof.
  intros Hv Hk H1 H2 vpn Hvpn. rewrite H2, H1 by done.
  destruct (Z.leb_spec (v + 1) vpn), (Z.ltb_spec vpn (v + 1 + k)), (Z.leb_spec v vpn), (Z.ltb_spec vpn (v + 1)),
    (Z.ltb_spec vpn (v + (k + 1))); cbn [andb]; try lia; try done. f_equal. lia.
Qed.

Lemma mappages_loop_ok perm n : forall l s v pa,
  vm_ok i q ls pgdir l s -> 0 <= v -> v + Z.of_nat n < 2 ^ 20 -> 0 <= perm < PGSIZE ->
  (forall vpn, v <= vpn <= v + Z.of_nat n -> present (entry s.(k_mem) pgdir vpn) = false) ->
  pa mod PGSIZE = 0 -> 0 <= pa -> pa + Z.of_nat n * PGSIZE < 2 ^ 32 ->
  exists r s' l' k, mappages_loop (S n) pgdir (v * PGSIZE) ((v + Z.of_nat n) * PGSIZE) pa perm s = Ret r s' /\
    vm_ok i q ls pgdir l' s' /\ vm_step pgdir s l s' l' [] /\ mapped_range s.(k_mem) s'.(k_mem) v k pa perm /\
    (length l <= length l' + Z.to_nat k)%nat /\
    Z.of_nat (length l) <= Z.of_nat (length l') + tables s.(k_mem) v (Z.of_nat n) /\
    (r = 0 /\ k = Z.of_nat n + 1 \/ r = -1 /\ 0 <= k <= Z.of_nat n /\ l' = []).
Proof.
  induction n as [|n IH]; intros l s v pa Hok Hv Hn Hperm Hab Hal Hpa Hmax; cbn [mappages_loop];
    (destruct (map_one l s v pa perm Hok) as (r & s1 & l1 & E & Hr);
      [lia|apply Hab; lia|done|unfold PGSIZE in *; lia|done|]);
    (destruct Hr as [(-> & -> & -> & Hok1 & Hst1 & Hm1)|(Hr0 & Hlen1 & Hload & Hok1 & Hst1 & Hm1 & Hp1)];
      [exists (-1), s1, [], 0; split_and!; [by kret_by exact E|done|done|done|done|apply tables_nonneg; lia|right; split_and!; [done|lia|lia|done]]|]).
  - set (s2 := s1<|k_mem ::= _|>) in *. exists 0, s2, l1, 1. pose proof (new_tables_one (k_mem s) v).
    split_and!; [|done|done|done|lia|unfold tables; rewrite Z.add_0_r; lia|by left].
    kret_by exact E. rewrite (proj2 (Z.eqb_neq r 0) Hr0). unfold rd32, wr32, gets. kret.
    fold (present (load32 (k_mem s1) r)). rewrite Hload. kret. rewrite (proj2 (Z.eqb_eq (v * PGSIZE) _)) by lia. done.
  - set (s2 := s1<|k_mem ::= _|>) in *.
    destruct (IH l1 s2 (v + 1) (pa + PGSIZE)) as (r' & s' & l' & k & E' & Hok' & Hst' & Hm' & Hlk' & Hlen' & Hr'); try done; try lia.
    { intros vpn Hvpn. rewrite Hm1 by lia. replace ((v <=? vpn) && (vpn <? v + 1)) with false by lia. apply Hab. lia. }
    { rewrite <- Z.add_mod_idemp_l, Hal by done. done. }
    destruct (tables_step (k_mem s) (k_mem s2) v (Z.of_nat n) ltac:(lia) ltac:(lia) Hp1) as [_ Htab].
    replace (Z.of_nat n + 1) with (Z.of_nat (S n)) in Htab by lia.
    pose proof (new_tables_one (k_mem s) v). exists r', s', l', (k + 1).
    split_and!; [|done|exact (vm_step_trans _ _ _ _ _ _ _ _ _ Hst1 Hst')| |destruct Hr' as [[? ?]|(? & ? & ?)]; lia|lia|destruct Hr' as [[? ?]|(? & ? & ?)]; [left|right]; split_and!; done || lia].
    + kret_by exact E. rewrite (proj2 (Z.eqb_neq r 0) Hr0). unfold rd32, wr32, gets. kret.
      fold (present (load32 (k_mem s1) r)). rewrite Hload. kret.
      rewrite (proj2 (Z.eqb_neq (v * PGSIZE) _)) by (unfold PGSIZE; lia).
      rewrite !u32_small by (unfold PGSIZE in *; lia).
      replace (v * PGSIZE + PGSIZE) with ((v + 1) * PGSIZE) by lia.
      replace (v + Z.of_nat (S n)) with (v + 1 + Z.of_nat n) by lia. exact E'.
    + eapply mapped_range_trans; [done|destruct Hr' as [[? ?]|(? & ? & ?)]; lia|exact Hm1|exact Hm'].
Qed.

(** mappages of whole pages that are not mapped yet. *)
Lemma mappages_ok l s v n pa perm :
  vm_ok i q ls pgdir l s -> 0 <= v -> 0 < n -> v + n <= 2 ^ 20 -> 0 <= perm < PGSIZE ->
  (forall vpn, v <= vpn < v + n -> present (entry s.(k_mem) pgdir vpn) = false) ->
  pa mod PGSIZE = 0 -> 0 <= pa -> pa + n * PGSIZE <= 2 ^ 32 ->
  exists r s' l' k, mappages pgdir (v * PGSIZE) (n * PGSIZE) pa perm s = Ret r s' /\
    vm_ok i q ls pgdir l' s' /\ vm_step pgdir s l s' l' [] /\ mapped_range s.(k_mem) s'.(k_mem) v k pa perm /\
    (length l <= length l' + Z.to_nat k)%nat /\ Z.of_nat (length l) <= Z.of_nat (length l') + tables s.(k_mem) v (n - 1) /\
    (r = 0 /\ k = n \/ r = -1 /\ 0 <= k < n /\ l' = []).
Proof.
  intros Hok Hv Hn Hmax Hperm Hab Hal Hpa Hpm. unfold mappages. change PGSIZE with 4096 in *.
  rewrite (u32_small (v * 4096 + n * 4096 - 1)) by lia. rewrite !PGROUNDDOWN_spec by lia. change PGSIZE with 4096.
  replace (v * 4096 - (v * 4096) mod 4096) with (v * 4096) by (rewrite Z.mod_mul; lia).
  replace (v * 4096 + n * 4096 - 1 - (v * 4096 + n * 4096 - 1) mod 4096) with ((v + (n - 1)) * 4096)
    by (Z.to_euclidean_division_equations; lia).
  rewrite (u32_small ((v + (n - 1)) * 4096 - v * 4096)) by lia.
  replace (((v + (n - 1)) * 4096 - v * 4096) / 4096) with (n - 1)
    by (replace ((v + (n - 1)) * 4096 - v * 4096) with ((n - 1) * 4096) by lia; by rewrite Z.div_mul).
  destruct (mappages_loop_ok perm (Z.to_nat (n - 1)) l s v pa Hok) as (r & s' & l' & k & E & Hok' & Hst & Hm & Hlk & Hlen & Hr);
    try done; try (change PGSIZE with 4096; lia).
  { intros vpn Hvpn. apply Hab. lia. }
  exists r, s', l', k. change PGSIZE with 4096 in E. rewrite Z2Nat.id in E, Hlen by lia. split_and!; try done.
  destruct Hr as [[? ?]|(? & ? & ?)]; [left|right]; split_and!; done || lia.
Qed.

(** ** allocuvm *)

(** A page is taken from the free list and filled. *)
Lemma claim_page l s p :
  vm_ok i q ls pgdir (p :: l) s ->
  exists s1, kalloc s = Ret p s1 /\ page_ok s.(k_end) p /\ p ∉ l /\ s1.(k_mem) = s.(k_mem) /\
    forall m2, (forall x, ~ in_page p x -> m2 x = s.(k_mem) x) ->
    let s2 := s1<|k_mem := m2|> in
    vm_ok i q ls pgdir l s2 /\ vm_step pgdir s (p :: l) s2 l [p] /\
    (forall vpn, 0 <= vpn < 2 ^ 20 -> entry m2 pgdir vpn = entry s.(k_mem) pgdir vpn) /\ ~ pt_page m2 pgdir p.
Proof.
  intros [Hrun Hlk Hfr Hk Hpt]. pose proof Hfr as [Hl Hnd].
  pose proof (free_list_page _ _ _ _ p Hl ltac:(left)) as Hp. apply list.NoDup_cons in Hnd as [Hpl Hnd].
  destruct (kalloc_can i q ls (p :: l) s Hrun Hlk Hfr) as (s1 & E1 & Hq1 & Hr1 & _). cbn [hd tail] in E1, Hq1.
  assert (Hm1 : k_mem s1 = k_mem s) by (by destruct Hq1 as (? & ? & ? & ->)).
  assert (He1 : k_end s1 = k_end s) by (by destruct Hq1 as (? & ? & ? & ->)).
  exists s1. split_and!; [done..|]. intros m2 Hm2.
  assert (Hnpt : forall t, page_ok (k_end s) t -> pt_page (k_mem s) pgdir t -> t <> p).
  { intros t Ht [->|(d & Hd & Ed)] ->; [by destruct (pt_dir _ _ _ _ Hpt); set_solver|].
    destruct (table_pde _ p Hk Ht) as [E Hpr].
    destruct (pt_tab _ _ _ _ Hpt d Hd) as (t' & Et & Ht' & Hnl & _); [by rewrite Ed|].
    rewrite Ed in Et. destruct (table_pde _ t' Hk Ht') as [E' _]. assert (t' = p) by congruence. set_solver. }
  destruct (entry_ext (k_end s) (k_mem s) m2 pgdir (p :: l) Hk Hpt) as (Hpde & Hen & Hpt2).
  { intros t x Ht Hpp Hx. apply Hm2. destruct (pages_apart _ _ t p Ht Hp (Hnpt t Ht Hpp)); unfold in_page; lia. }
  assert (Hpp : forall t, pt_page m2 pgdir t -> pt_page (k_mem s) pgdir t).
  { intros t [->|(d & Hd & Ed)]; [by left|]. right. exists d. by rewrite Hpde in Ed. }
  cbv zeta. split_and!.
  - split; [aframe Hr1|done| |by change (KERNBASE <= k_end s1); rewrite He1|].
    + destruct Hl as (_ & _ & Hl). split; [|done]. cbn. change (free_list (k_end s1) m2 (k_freelist s1) l).
      assert (k_freelist s1 = hd 0 l) as -> by (by destruct Hq1 as (? & ? & ? & ->)).
      rewrite <- (free_list_head _ _ _ _ Hl), He1. eapply free_list_ext; [|exact Hl]. intros p' Hp'.
      pose proof (free_list_page _ _ _ _ _ Hl Hp') as Hok'. apply load32_ext. intros x Hx. apply Hm2. unfold in_page.
      destruct (pages_apart _ _ p' p Hok' Hp); [by intros ->|unfold PGSIZE in *; lia..].
    + change (pt_ok (k_end s1) m2 pgdir l). rewrite He1. destruct Hpt2 as [[H1 H2] H3 H4]. split; [split; set_solver| |done].
      intros d Hd Hpr. destruct (H3 d Hd Hpr) as (t & ? & ? & ? & ?). exists t. split_and!; [done..|set_solver|done].
  - split.
    + exists m2, (hd 0 l). destruct Hq1 as (b & cs & lks & ->). by exists b, cs, lks.
    + by exists [p].
    + intros t Ht Ht2. left. by apply Hpp.
    + intros t Ht [->|(d & Hd & Ed)]; [by left|]. right. exists d. split; [done|]. cbn. by rewrite Hpde.
    + intros p' _ [->|H]%elem_of_cons; [right; left; left|by left].
    + intros p' ->%list_elem_of_singleton. left.
    + intros x _ Hx. apply Hm2, Hx. left.
  - done.
  - intros H. apply Hpp in H. by apply (Hnpt p Hp H).
Qed.

(** Pages that are neither free nor tables keep their contents. *)
Lemma step_keeps_page l s l' s' p ps :
  vm_ok i q ls pgdir l s -> vm_step pgdir s l s' l' ps -> page_ok s.(k_end) p -> p ∉ l -> ~ pt_page s.(k_mem) pgdir p ->
  (forall x, in_page p x -> s'.(k_mem) x = s.(k_mem) x) /\ p ∉ l' /\ ~ pt_page s'.(k_mem) pgdir p.
Proof.
  intros [_ _ Hfr Hk _] [_ (pre & ->) Hpt _ _ _ Hm] Hp Hl Hnp. split_and!.
  - intros x Hx. apply Hm.
    + intros t Ht Hpp Hxt. assert (t <> p) by (by intros ->).
      destruct (pages_apart _ _ t p Ht Hp); unfold in_page in *; [done|lia..].
    + intros p' Hp' Hxp. pose proof (free_list_page _ _ _ _ _ (proj1 Hfr) Hp') as Hok'.
      destruct (pages_apart _ _ p' p Hok' Hp); unfold in_page in *; [by intros ->|lia..].
  - set_solver.
  - intros H. destruct (Hpt p Hp H) as [|]; done.
Qed.

(** A new page is filled and mapped, as in allocuvm and copyuvm; this fails
    when it was the last one and a table is missing. *)
Lemma install_try l s v p perm (fill : mem -> mem) :
  vm_ok i q ls pgdir (p :: l) s -> 0 <= v < 2 ^ 20 -> present (entry s.(k_mem) pgdir v) = false ->
  0 <= perm < PGSIZE -> (forall x, ~ in_page p x -> fill s.(k_mem) x = s.(k_mem) x) ->
  exists s1 r s3 l3, kalloc s = Ret p s1 /\
    mappages pgdir (v * PGSIZE) PGSIZE (V2P p) perm (s1<|k_mem ::= fill|>) = Ret r s3 /\
    vm_ok i q ls pgdir l3 s3 /\ vm_step pgdir s (p :: l) s3 l3 [p] /\ (length l <= length l3 + 1)%nat /\
    (page_ok s.(k_end) p /\ p ∉ l3 /\ ~ pt_page s3.(k_mem) pgdir p) /\
    (r = 0 /\ (forall x, in_page p x -> s3.(k_mem) x = fill s.(k_mem) x) /\
       mapped_range s.(k_mem) s3.(k_mem) v 1 (V2P p) perm \/
     r = -1 /\ l = [] /\ l3 = [] /\ mapped_range s.(k_mem) s3.(k_mem) v 0 (V2P p) perm).
Proof.
  intros Hok Hv Hab Hperm Hfill. pose proof Hok as [_ _ _ Hk _].
  destruct (claim_page l s p Hok) as (s1 & E1 & Hp & Hpl & Hm1 & Hcl).
  destruct (Hcl (fill (k_mem s)) Hfill) as (Hok2 & Hst2 & Hen2 & Hnp2). rewrite <- Hm1 in Hok2, Hst2, Hen2, Hnp2.
  set (s2 := s1<|k_mem := fill (k_mem s1)|>) in *. pose proof (vm_step_end _ _ _ _ _ _ Hst2) as He2.
  assert (Hm2 : k_mem s2 = fill (k_mem s)) by (rewrite <- Hm1; done).
  destruct (page_phys _ p Hk Hp) as (_ & Hal & Hr & _).
  destruct (mappages_ok l s2 v 1 (V2P p) perm Hok2) as (r & s3 & l3 & k & E3 & Hok3 & Hst3 & Hm3 & Hlen3 & _ & Hr3);
    [lia|lia|lia|done| |done|lia|unfold PGSIZE, PHYSTOP in *; lia|].
  { intros vpn Hvpn. rewrite Hm2, <- Hm1, Hen2, Hm1 by lia. by replace vpn with v by lia. }
  destruct (step_keeps_page l s2 l3 s3 p [] Hok2 Hst3) as (Hkeep & Hl3 & Hnp3); [by rewrite He2|done|done|].
  assert (Hm : mapped_range (k_mem s) (k_mem s3) v k (V2P p) perm) by (intros vpn Hvpn; by rewrite Hm3, Hm2, <- Hm1, Hen2, Hm1 by done).
  exists s1, r, s3, l3. split_and!; [done|exact E3|done|exact (vm_step_trans _ _ _ _ _ _ _ _ _ Hst2 Hst3)|destruct Hr3 as [[? ?]|(? & ? & ?)]; lia|done|done|done|].
  destruct Hr3 as [[-> ->]|(-> & Hk0 & ->)]; [left|right].
  - split_and!; [done| |done]. intros x Hx. by rewrite Hkeep, Hm2 by done.
  - replace k with 0 in * by lia. split_and!; [done|destruct l; [done|cbn in Hlen3; lia]|done|done].
Qed.

(** The entries when [ps] is mapped from page [v], for the user to write. *)
Definition with_pages (m : mem) (v : Z) (ps : list Z) (vpn : Z) : Z :=
  match (if v <=? vpn then ps !! Z.to_nat (vpn - v) else None) with
  | Some p => map_entry (V2P p) (Z.lor PTE_W PTE_U)
  | None => entry m pgdir vpn
  end.

(** [ps] are cleared pages that were free and have become the user's. *)
Record fresh_pages (l l' ps : list Z) (s s' : kernel) : Prop := {
  fp_nodup : NoDup ps;
  fp_page p : p ∈ ps -> page_ok s.(k_end) p /\ p ∈ l /\ p ∉ l' /\ ~ pt_page s'.(k_mem) pgdir p;
  fp_zero p x : p ∈ ps -> in_page p x -> s'.(k_mem) x = 0
}.

(** Pages [ps] were added from page [v] on; [given] are all that left the free list for it. *)
Record grown (l : list Z) (s : kernel) (v : Z) (ps given l' : list Z) (s' : kernel) : Prop := {
  gr_vm : vm_ok i q ls pgdir l' s';
  gr_step : vm_step pgdir s l s' l' given;
  gr_fresh : fresh_pages l l' ps s s';
  gr_entry vpn : 0 <= vpn < 2 ^ 20 -> entry s'.(k_mem) pgdir vpn = with_pages s.(k_mem) v ps vpn
}.

Lemma fresh_nil l l' s s' : fresh_pages l l' [] s s'.
Proof. split; [by apply NoDup_nil_2|by intros p ?%elem_of_nil|by intros p x ?%elem_of_nil]. Qed.
Lemma with_pages_nil m v vpn : with_pages m v [] vpn = entry m pgdir vpn.
Proof. unfold with_pages. by destruct (v <=? vpn). Qed.

Lemma grown_cons l s v p l3 s3 ps given l' s' :
  grown l s v [p] [p] l3 s3 -> grown l3 s3 (v + 1) ps given l' s' -> grown l s v (p :: ps) (p :: given) l' s'.
Proof.
  intros [Hok3 Hst3 Hfp3 Hen3] [Hok' Hst' Hfp' Hen']. pose proof (vm_step_end _ _ _ _ _ _ Hst3) as He3.
  destruct (fp_page _ _ _ _ _ Hfp3 p ltac:(left)) as (Hp & Hpl & Hpl3 & Hnp3).
  destruct (step_keeps_page l3 s3 l' s' p given Hok3 Hst') as (Hkeep & Hpl' & Hnp'); [by rewrite He3|done|done|].
  destruct (vs_free _ _ _ _ _ _ Hst3) as (pre & Hpre).
  assert (Hin : forall p', p' ∈ l3 -> p' ∈ l) by (intros p' H; rewrite Hpre; set_solver).
  split; [done|exact (vm_step_trans _ _ _ _ _ _ _ _ _ Hst3 Hst')| |].
  - destruct Hfp' as [N1 N2 N3]. rewrite He3 in N2. split.
    + apply list.NoDup_cons. split; [|done]. intros H. by destruct (N2 p H) as (_ & H3 & _).
    + intros p' [->|H]%elem_of_cons; [split_and!; [done|done|done|done]|].
      destruct (N2 p' H) as (? & ? & ? & ?). split_and!; [done|by apply Hin|done|done].
    + intros p' x [->|H]%elem_of_cons Hx; [|by apply (N3 p')]. rewrite Hkeep by done. by apply (fp_zero _ _ _ _ _ Hfp3 p); [left|].
  - intros vpn Hvpn. rewrite Hen' by done. unfold with_pages. rewrite Hen3 by done. unfold with_pages.
    destruct (Z.leb_spec (v + 1) vpn), (Z.leb_spec v vpn); try lia; try done.
    + replace (Z.to_nat (vpn - v)) with (S (Z.to_nat (vpn - (v + 1)))) by lia. by cbn.
    + replace vpn with v by lia. rewrite Z.sub_diag. done.
Qed.

Lemma memset_fill p (m : mem) x : ~ in_page p x -> memset m p 0 PGSIZE x = m x.
Proof. intros Hx. rewrite memset_lookup. unfold in_page in Hx. by replace ((p <=? x) && (x <? p + PGSIZE)) with false by lia. Qed.

(** One page of allocuvm. *)
Lemma allocuvm_try l s v p :
  vm_ok i q ls pgdir (p :: l) s -> 0 <= v < 2 ^ 20 -> present (entry s.(k_mem) pgdir v) = false ->
  exists s1 r s3 l3, kalloc s = Ret p s1 /\
    mappages pgdir (v * PGSIZE) PGSIZE (V2P p) (Z.lor PTE_W PTE_U) (s1<|k_mem ::= fun m => memset m p 0 PGSIZE|>) = Ret r s3 /\
    (length l <= length l3 + 1)%nat /\ page_ok s.(k_end) p /\ ~ pt_page s3.(k_mem) pgdir p /\
    (r = 0 /\ grown (p :: l) s v [p] [p] l3 s3 \/ r = -1 /\ l = [] /\ l3 = [] /\ grown [p] s v [] [p] [] s3).
Proof.
  intros Hok Hv Hab.
  destruct (install_try l s v p (Z.lor PTE_W PTE_U) (fun m => memset m p 0 PGSIZE) Hok Hv Hab)
    as (s1 & r & s3 & l3 & E1 & E3 & Hok3 & Hst3 & Hlen3 & (Hp & Hl3 & Hnp3) & Hr); [done|intros x; apply memset_fill|].
  exists s1, r, s3, l3. split_and!; [done..|]. destruct Hr as [(-> & Hz & Hm3)|(-> & -> & -> & Hm3)]; [left|right].
  - split; [done|]. split; [done|done| |].
    + split; [apply list.NoDup_singleton| |].
      * intros p' ->%list_elem_of_singleton. split_and!; [done|left|done|done].
      * intros p' x ->%list_elem_of_singleton Hx. rewrite Hz, memset_lookup by done. unfold in_page in Hx.
        by replace ((p <=? x) && (x <? p + PGSIZE)) with true by lia.
    + intros vpn Hvpn. rewrite Hm3 by done. unfold with_pages.
      destruct (Z.leb_spec v vpn), (Z.ltb_spec vpn (v + 1)); cbn [andb]; try done.
      * replace vpn with v by lia. rewrite Z.sub_diag. cbn [lookup list_lookup Z.to_nat]. by rewrite Z.mul_0_l, Z.add_0_r.
      * destruct (Z.to_nat (vpn - v)) eqn:En; [lia|done].
  - split_and!; [done..|]. split; [done|done|apply fresh_nil|]. intros vpn Hvpn. rewrite Hm3, with_pages_nil by done.
    by replace ((v <=? vpn) && (vpn <? v + 0)) with false by lia.
Qed.

(** What the loop of allocuvm does when memory runs out: at the allocation, or
    with page [p] in hand. *)
Definition run_out1 (oldsz newsz : Z) : K Z :=
  (cprintln "allocuvm out of memory" [] ;;; let! _ := deallocuvm pgdir newsz oldsz in ret 0)%xv6.
Definition run_out2 (oldsz newsz p : Z) : K Z :=
  (cprintln "allocuvm out of memory (2)" [] ;;; let! _ := deallocuvm pgdir newsz oldsz in kfree p ;;; ret 0)%xv6.

(** The loop: all [n] pages, or as many as there were. *)
Lemma allocuvm_loop_try oldsz newsz n : forall fuel l s v,
  vm_ok i q ls pgdir l s -> 0 <= v -> v + Z.of_nat n <= 2 ^ 19 ->
  newsz <= (v + Z.of_nat n) * PGSIZE -> ((0 < n)%nat -> (v + Z.of_nat n - 1) * PGSIZE < newsz) -> (n < fuel)%nat ->
  (forall vpn, v <= vpn < v + Z.of_nat n -> present (entry s.(k_mem) pgdir vpn) = false) ->
  exists s' l' ps given, grown l s v ps given l' s' /\
    (allocuvm_loop fuel pgdir (v * PGSIZE) oldsz newsz s = Ret newsz s' /\ given = ps /\ length ps = n \/
     (length ps < n)%nat /\ (length l < 2 * n)%nat /\ l' = [] /\
     (given = ps /\ allocuvm_loop fuel pgdir (v * PGSIZE) oldsz newsz s = run_out1 oldsz newsz s' \/
      exists p, given = ps ++ [p] /\ page_ok s.(k_end) p /\ p ∉ ps /\ ~ pt_page s'.(k_mem) pgdir p /\
        allocuvm_loop fuel pgdir (v * PGSIZE) oldsz newsz s = run_out2 oldsz newsz p s')).
Proof.
  induction n as [|n IH]; intros [|fuel] l s v Hok Hv Hmax Hnew Hlast Hf Hab; try lia; cbn [allocuvm_loop].
  { exists s, l, [], []. replace (v * PGSIZE <? newsz) with false by (unfold PGSIZE in *; lia). cbn [negb].
    split; [split; [done|apply vm_step_refl|apply fresh_nil|by intros; rewrite with_pages_nil]|by left]. }
  replace (v * PGSIZE <? newsz) with true by (unfold PGSIZE in *; lia). cbn [negb]. destruct l as [|p l].
  { destruct (kalloc_none s Hok) as (s1 & E1 & Hok1 & Hst1 & Hm1). exists s1, [], [], [].
    split; [split; [done|done|apply fresh_nil|intros vpn Hvpn; by rewrite with_pages_nil, Hm1]|].
    right. split_and!; [cbn; lia|cbn; lia|done|left]. split; [done|]. kret_by exact E1. reflexivity. }
  destruct (allocuvm_try l s v p Hok) as (s1 & r & s3 & l3 & E1 & E3 & Hlen3 & Hp & Hnp3 & Hr); [lia|apply Hab; lia|].
  assert (Hp0 : p =? 0 = false) by (apply Z.eqb_neq; by eapply page_ok_not_null).
  destruct Hr as [(-> & Hg3)|(-> & -> & -> & Hg3)].
  - pose proof Hg3 as [Hok3 Hst3 Hfp3 Hen3]. pose proof (vm_step_end _ _ _ _ _ _ Hst3) as He3.
    destruct (IH fuel l3 s3 (v + 1)) as (s' & l' & ps & given & Hg & Hres); [done|lia|lia|lia|lia|lia| |].
    { intros vpn Hvpn. rewrite Hen3 by lia. unfold with_pages. replace (v <=? vpn) with true by lia.
      destruct (Z.to_nat (vpn - v)) eqn:En; [lia|]. cbn. apply Hab. lia. }
    pose proof (grown_cons _ _ _ _ _ _ _ _ _ _ Hg3 Hg) as Hg'. pose proof Hg as [_ Hst' _ _].
    exists s', l', (p :: ps), (p :: given). split; [done|].
    kret_by exact E1. rewrite Hp0. kret. kret_by exact E3. change (0 <? 0) with false. cbv iota.
    rewrite u32_small by (unfold PGSIZE; lia). replace (v * PGSIZE + PGSIZE) with ((v + 1) * PGSIZE) by lia.
    destruct Hres as [(E & -> & Hl)|(Hl & Hlen & -> & Hres)]; [left; split_and!; [done|done|cbn; lia]|right].
    split_and!; [cbn; lia|cbn [length]; lia|done|]. destruct Hres as [(-> & E)|(p' & -> & Hp' & Hnps & Hnp' & E)]; [by left|right].
    exists p'. rewrite He3 in Hp'. split_and!; [done|done| |done|done].
    intros [->|H]%elem_of_cons; [|done]. destruct (fp_page _ _ _ _ _ Hfp3 p ltac:(left)) as (_ & _ & Hpl3 & _).
    apply Hpl3, (vs_given _ _ _ _ _ _ Hst'), elem_of_app. right. left.
  - exists s3, [], [], [p]. split; [done|right]. split_and!; [cbn; lia|cbn; lia|done|right]. exists p.
    split_and!; [done|done|apply not_elem_of_nil|done|]. kret_by exact E1. rewrite Hp0. kret. kret_by exact E3. reflexivity.
Qed.
End Walk.

(** ** The user's view *)

Lemma flag_pde kend t f : KERNBASE <= kend -> page_ok kend t -> f = PTE_P \/ f = PTE_W -> truth (Z.land (tab_pde t) f) = true.
Proof.
  intros Hk Ht Hf. destruct (page_phys kend t Hk Ht) as (_ & Hal & _ & _).
  assert (H7 : Z.land (tab_pde t) 7 = 7).
  { change 7 with (Z.ones 3) at 1. rewrite Z.land_ones by lia. change (2 ^ 3) with 8. unfold tab_pde, PGSIZE in *.
    Z.to_euclidean_division_equations. lia. }
  destruct Hf as [->| ->].
  - change PTE_P with (Z.land 7 PTE_P). by rewrite Z.land_assoc, H7.
  - change PTE_W with (Z.land 7 PTE_W). by rewrite Z.land_assoc, H7.
Qed.

(** The paging unit, in terms of the entry. *)
Lemma xlate_entry kend m pgdir l va st :
  KERNBASE <= kend -> pt_ok kend m pgdir l -> 0 <= va < 2 ^ 32 ->
  xlate m pgdir va st =
    let e := entry m pgdir (va / PGSIZE) in
    if present e && (negb st || truth (Z.land e PTE_W)) then Some (u32 (P2V (PTE_ADDR e) + va mod PGSIZE)) else None.
Proof.
  intros Hk Hpt Hva. destruct (PDX_spec va Hva) as [Ed Hd], (PTX_spec va Hva) as [Et Ht].
  destruct (pt_dir _ _ _ _ Hpt) as [(_ & _ & Hdir) _]. unfold xlate, entry.
  rewrite (u32_small (pgdir + _)) by (unfold KERNBASE, PHYSTOP in *; lia). fold (pde m pgdir (PDX va)). rewrite <- Ed.
  fold (present (pde m pgdir (PDX va))). destruct (present (pde m pgdir (PDX va))) eqn:Hp; [|done].
  destruct (pt_tab _ _ _ _ Hpt _ Hd Hp) as (t & E & Hok & _). rewrite E.
  rewrite (flag_pde kend t PTE_W Hk Hok) by auto. rewrite orb_true_r. cbn [andb negb]. fold (table (tab_pde t)).
  destruct (table_pde kend t Hk Hok) as [-> _]. destruct Hok as (_ & _ & Htr).
  rewrite u32_small by (unfold KERNBASE, PHYSTOP in *; lia). rewrite <- Et.
  fold (present (load32 m (t + 4 * PTX va))). by destruct (present _ && _).
Qed.

Lemma xlate_page kend m pgdir l va st p :
  KERNBASE <= kend -> pt_ok kend m pgdir l -> 0 <= va < 2 ^ 32 -> page_ok kend p ->
  entry m pgdir (va / PGSIZE) = map_entry (V2P p) (Z.lor PTE_W PTE_U) ->
  xlate m pgdir va st = Some (p + va mod PGSIZE).
Proof.
  intros Hk Hpt Hva Hp He. rewrite (xlate_entry kend m pgdir l) by done. rewrite He.
  change (map_entry (V2P p) (Z.lor PTE_W PTE_U)) with (tab_pde p). destruct (table_pde kend p Hk Hp) as [Htab Hpr].
  cbv zeta. rewrite Hpr, (flag_pde kend p PTE_W Hk Hp), orb_true_r by auto. cbn [andb].
  fold (table (tab_pde p)). rewrite Htab. f_equal. apply u32_small. destruct Hp as (_ & _ & Hr).
  pose proof (Z.mod_pos_bound va PGSIZE ltac:(done)). unfold KERNBASE, PHYSTOP, PGSIZE in *. lia.
Qed.

(** Sizes below the kernel, in pages. *)
Lemma PGROUNDUP_pages sz :
  0 <= sz < KERNBASE -> let w := (sz + 4095) / 4096 in
  PGROUNDUP sz = w * PGSIZE /\ 0 <= w <= 2 ^ 19 /\ sz <= w * PGSIZE < sz + PGSIZE.
Proof.
  intros Hsz w. unfold KERNBASE in Hsz. rewrite PGROUNDUP_spec by lia. change PGSIZE with 4096.
  replace (sz + 4096 - 1 <? 2 ^ 32) with true by lia. replace (sz + 4096 - 1) with (sz + 4095) by lia. fold w.
  split; [done|]. unfold w. Z.to_euclidean_division_equations. lia.
Qed.

(** Translation in a range of fresh pages. *)
Section Fresh.
Context (pgdir v : Z) (l l' ps : list Z) (s s' : kernel).
Hypothesis Hk : KERNBASE <= s.(k_end).
Hypothesis Hpt : pt_ok s.(k_end) s'.(k_mem) pgdir l'.
Hypothesis Hfp : fresh_pages pgdir l l' ps s s'.
Hypothesis Hv : 0 <= v /\ v + Z.of_nat (length ps) <= 2 ^ 19.
Hypothesis Hen : forall vpn, 0 <= vpn < 2 ^ 20 -> entry s'.(k_mem) pgdir vpn = with_pages pgdir s.(k_mem) v ps vpn.

Lemma fresh_xlate va :
  v * PGSIZE <= va < (v + Z.of_nat (length ps)) * PGSIZE ->
  exists p, p ∈ ps /\ ps !! Z.to_nat (va / PGSIZE - v) = Some p /\
    forall st, xlate s'.(k_mem) pgdir va st = Some (p + va mod PGSIZE).
Proof.
  intros Hva. change PGSIZE with 4096 in *.
  assert (Hd : v <= va / 4096 < v + Z.of_nat (length ps)) by (Z.to_euclidean_division_equations; lia).
  destruct (lookup_lt_is_Some_2 ps (Z.to_nat (va / 4096 - v))) as [p Hp]; [lia|].
  exists p. split_and!; [by eapply list_elem_of_lookup_2|done|]. intros st.
  apply (xlate_page (k_end s) _ pgdir l'); [done|done|lia|by apply (fp_page _ _ _ _ _ _ Hfp), (list_elem_of_lookup_2 _ _ _ Hp)|].
  change PGSIZE with 4096. rewrite Hen by lia. unfold with_pages. by rewrite (proj2 (Z.leb_le v _)), Hp by lia.
Qed.

Lemma fresh_inj va va' st :
  v * PGSIZE <= va < (v + Z.of_nat (length ps)) * PGSIZE -> v * PGSIZE <= va' < (v + Z.of_nat (length ps)) * PGSIZE ->
  xlate s'.(k_mem) pgdir va st = xlate s'.(k_mem) pgdir va' st -> va = va'.
Proof.
  intros Hva Hva' Heq. destruct (fresh_xlate va Hva) as (p & Hp & Hpi & Hx), (fresh_xlate va' Hva') as (p' & Hp' & Hpi' & Hx').
  rewrite Hx, Hx' in Heq. injection Heq as Heq.
  destruct (fp_page _ _ _ _ _ _ Hfp p Hp) as ((Hal & _) & _), (fp_page _ _ _ _ _ _ Hfp p' Hp') as ((Hal' & _) & _).
  change PGSIZE with 4096 in *. assert (p = p' /\ va mod 4096 = va' mod 4096) as [-> Hm] by (Z.to_euclidean_division_equations; lia).
  pose proof (NoDup_lookup _ _ _ _ (fp_nodup _ _ _ _ _ _ Hfp) Hpi Hpi') as Hj.
  assert (v <= va / 4096 /\ v <= va' / 4096) by (Z.to_euclidean_division_equations; lia).
  pose proof (Z.div_mod va 4096). pose proof (Z.div_mod va' 4096). lia.
Qed.

Lemma fresh_other va st :
  pt_ok s.(k_end) s.(k_mem) pgdir l -> 0 <= va < 2 ^ 32 ->
  va < v * PGSIZE \/ (v + Z.of_nat (length ps)) * PGSIZE <= va -> xlate s'.(k_mem) pgdir va st = xlate s.(k_mem) pgdir va st.
Proof.
  intros Hpt0 Hva Hout. rewrite (xlate_entry (k_end s) _ pgdir l'), (xlate_entry (k_end s) s.(k_mem) pgdir l) by done.
  change PGSIZE with 4096 in *. assert (0 <= va / 4096 < 2 ^ 20) by (Z.to_euclidean_division_equations; lia).
  rewrite Hen by done. unfold with_pages. destruct (Z.leb_spec v (va / 4096)); [|done].
  rewrite lookup_ge_None_2; [done|]. Z.to_euclidean_division_equations. lia.
Qed.
End Fresh.

(** The addresses from [a] to [b] have cleared pages of their own, which were in
    [l] and are not in [l']; the others are as before. *)
Definition added_space (pgdir a b : Z) (l l' : list Z) (m m' : mem) : Prop :=
  (forall va, a <= va < b -> exists p, p ∈ l /\ p ∉ l' /\
     (forall st, xlate m' pgdir va st = Some (p + va mod PGSIZE)) /\ m' (p + va mod PGSIZE) = 0) /\
  (forall va va' st, a <= va < b -> a <= va' < b -> xlate m' pgdir va st = xlate m' pgdir va' st -> va = va') /\
  (forall va st, 0 <= va < 2 ^ 32 -> va < a \/ b <= va -> xlate m' pgdir va st = xlate m pgdir va st).

Lemma grown_space (i : nat) (q : option nat) (ls : gset lockid) (pgdir v : Z) (l ps given l' : list Z) (s s' : kernel) :
  KERNBASE <= s.(k_end) -> pt_ok s.(k_end) s.(k_mem) pgdir l -> 0 <= v -> v + Z.of_nat (length ps) <= 2 ^ 19 ->
  grown i q ls pgdir l s v ps given l' s' ->
  added_space pgdir (v * PGSIZE) ((v + Z.of_nat (length ps)) * PGSIZE) l l' s.(k_mem) s'.(k_mem).
Proof.
  intros Hk Hpt Hv Hmax [Hok' Hst Hfp Hen]. pose proof (vm_step_end _ _ _ _ _ _ Hst) as He. pose proof Hok' as [_ _ _ _ Hpt']. rewrite He in Hpt'.
  split_and!.
  - intros va Hva. destruct (fresh_xlate pgdir v l l' ps s s' Hk Hpt' Hfp ltac:(lia) Hen va Hva) as (p & Hp & _ & Hx). exists p.
    destruct (fp_page _ _ _ _ _ _ Hfp p Hp) as (Hpo & Hpl & Hpl' & _). split_and!; [done..|].
    apply (fp_zero _ _ _ _ _ _ Hfp p); [done|]. pose proof (Z.mod_pos_bound va PGSIZE ltac:(done)). unfold in_page. lia.
  - intros va va' st. apply (fresh_inj pgdir v l l' ps s s' Hk Hpt' Hfp ltac:(lia) Hen va va' st).
  - intros va st Hva Hout. by apply (fresh_other pgdir v l l' ps s s' Hk Hpt' ltac:(lia) Hen va st Hpt Hva).
Qed.

(** growing a process.  With enough free pages, allocuvm maps every page
    from the old size (rounded up) to the new one: each address of the range
    translates, for reading and writing, to a cleared byte of a page that was
    free and is no longer, and different addresses to different bytes.  Every
    other address translates as before, and no memory changes but free pages and
    this address space's own tables, so no other process and no kernel data is
    affected. *)
Theorem allocuvm_fresh (i : nat) (q : option nat) (ls : gset lockid) (pgdir oldsz newsz : Z) (l : list Z) (s : kernel) :
  vm_ok i q ls pgdir l s -> 0 <= oldsz <= newsz -> newsz < KERNBASE ->
  let a := PGROUNDUP oldsz in let b := PGROUNDUP newsz in
  (forall vpn, a / PGSIZE <= vpn < b / PGSIZE -> present (entry s.(k_mem) pgdir vpn) = false) ->
  2 * ((b - a) / PGSIZE) <= Z.of_nat (length l) ->
  exists s' l', allocuvm pgdir oldsz newsz s = Ret newsz s' /\ vm_ok i q ls pgdir l' s' /\
    added_space pgdir a b l l' s.(k_mem) s'.(k_mem) /\
    (forall x, (forall p, p ∈ l \/ pt_page s.(k_mem) pgdir p -> ~ in_page p x) -> s'.(k_mem) x = s.(k_mem) x).
Proof.
  intros Hok Hsz Hnew a b Hab Hlen. pose proof Hok as [_ _ _ Hk Hpt].
  destruct (PGROUNDUP_pages oldsz ltac:(lia)) as (Ha & Hv & Hvo), (PGROUNDUP_pages newsz ltac:(lia)) as (Hb & Hw & Hwo).
  pose proof Ha as Hround. fold a in Ha. fold b in Hb. set (v := (oldsz + 4095) / 4096) in *. set (w := (newsz + 4095) / 4096) in *.
  assert (Hvw : v <= w) by (apply Z.div_le_mono; lia). rewrite Ha, Hb in Hab, Hlen |- *. clearbody v w. clear a b Ha Hb.
  rewrite !Z.div_mul in Hab by done. rewrite <- Z.mul_sub_distr_r, Z.div_mul in Hlen by done.
  destruct (allocuvm_loop_try i q ls pgdir oldsz newsz (Z.to_nat (w - v)) (S (Z.to_nat (newsz / PGSIZE + 1))) l s v)
    as (s' & l' & ps & given & Hg & Hres); [done|lia|lia|unfold PGSIZE in *; lia|unfold PGSIZE in *; lia| | |].
  { change PGSIZE with 4096 in *. Z.to_euclidean_division_equations. lia. }
  { intros vpn Hvpn. apply Hab. lia. }
  destruct Hres as [(E & -> & Hlps)|(_ & Hshort & _)]; [|lia]. exists s', l'. split_and!.
  - unfold allocuvm. replace (KERNBASE <=? newsz) with false by lia. replace (newsz <? oldsz) with false by lia. rewrite Hround. exact E.
  - apply Hg.
  - replace w with (v + Z.of_nat (length ps)) by lia. by eapply grown_space; [..|lia|exact Hg]; [..|lia].
  - intros x Hx. apply (vs_mem _ _ _ _ _ _ (gr_step _ _ _ _ _ _ _ _ _ _ _ Hg)); intros; apply Hx; auto.
Qed.

(** A machine with an empty address space and three free pages. *)
Definition three_pages : kernel :=
  (loaded 0x80110000 0x80108000)<|k_freelist := 0x80202000|>
    <|k_mem := store32 (store32 (fun _ => 0) 0x80202000 0x80203000) 0x80203000 0x80204000|>.

Lemma three_pages_ok : vm_ok 0 None ∅ 0x80201000 [0x80202000; 0x80203000; 0x80204000] three_pages.
Proof.
  assert (Hpde : forall d, 0 <= d < 1024 -> pde (k_mem three_pages) 0x80201000 d = 0).
  { intros d Hd. unfold pde, three_pages. cbn [k_mem setf set_k_mem]. rewrite !store32_disjoint by lia. done. }
  split.
  - right. kframe (loaded_running 0x80110000 0x80108000).
  - apply not_elem_of_empty.
  - split; [|repeat (constructor; [set_solver|]); apply NoDup_nil_2].
    assert (H1 : load32 (k_mem three_pages) 0x80202000 = 0x80203000) by (vm_compute; reflexivity).
    assert (H2 : load32 (k_mem three_pages) 0x80203000 = 0x80204000) by (vm_compute; reflexivity).
    assert (H3 : load32 (k_mem three_pages) 0x80204000 = 0) by (vm_compute; reflexivity).
    cbn [free_list]. rewrite H1, H2, H3. unfold page_ok, KERNBASE, PHYSTOP. cbn. split_and!; (done || lia).
  - done.
  - split.
    + split; [unfold page_ok, KERNBASE, PHYSTOP; cbn; split_and!; done || lia|set_solver].
    + intros d Hd. by rewrite Hpde.
    + intros d d' t Hd Hd' Ht. rewrite !Hpde by done. intros E. exfalso.
      destruct (page_phys (k_end three_pages) t ltac:(done) Ht) as (_ & _ & Hr & _). unfold tab_pde in E. lia.
Qed.

Lemma allocuvm_fresh_witness :
  exists s', allocuvm 0x80201000 0 4096 three_pages = Ret 4096 s' /\
    exists a, xlate s'.(k_mem) 0x80201000 10 true = Some a /\ s'.(k_mem) a = 0.
Proof.
  destruct (allocuvm_fresh 0 None ∅ 0x80201000 0 4096 [0x80202000; 0x80203000; 0x80204000] three_pages three_pages_ok)
    as (s' & l' & E & _ & (Hin & _) & _); [lia|done| |by vm_compute|].
  { intros vpn Hvpn. unfold entry. assert (Hv : vpn = 0).
    { change (PGROUNDUP 0 / PGSIZE) with 0 in Hvpn. change (PGROUNDUP 4096 / PGSIZE) with 1 in Hvpn. lia. }
    rewrite Hv. assert (H0 : pde (k_mem three_pages) 0x80201000 (0 / 1024) = 0) by (vm_compute; reflexivity). by rewrite H0. }
  exists s'. split; [exact E|]. destruct (Hin 10) as (p & _ & _ & Hx & Hz); [change (PGROUNDUP 0) with 0; change (PGROUNDUP 4096) with 4096; lia|].
  eexists. split; [apply Hx|exact Hz].
Defined.
