(* ===== verification/Freevm.v ===== *)
(** * Giving memory back (vm.c): deallocuvm and freevm

    The pages a user address space maps, and that deallocuvm and freevm return
    exactly these, the tables and the directory to the free list. *)

From S2P Require Import Prelude State Spinlock Thread CString Cprintf Kalloc Vm Paging.

(** ** Entries with their permissions *)

Lemma map_entry_flags pa perm :
  pa mod PGSIZE = 0 -> 0 <= pa < 2 ^ 32 -> 0 <= perm < PGSIZE ->
  PTE_FLAGS (map_entry pa perm) = Z.lor perm PTE_P /\ PTE_ADDR (map_entry pa perm) = pa /\
  present (map_entry pa perm) = true /\ Z.land (map_entry pa perm) PTE_W = Z.land perm PTE_W.
Proof.
  intros Hal Hpa Hperm. destruct (map_entry_lor pa perm Hal Hperm) as [_ Hr].
  assert (Hf : PTE_FLAGS (map_entry pa perm) = Z.lor perm PTE_P).
  { unfold PTE_FLAGS, map_entry. change 0xFFF with (Z.ones 12). rewrite Z.land_ones by lia. change (2 ^ 12) with PGSIZE.
    rewrite <- Z.add_mod_idemp_l, Hal by done. by rewrite Z.mod_small. }
  assert (Hb : forall f, f = PTE_P \/ f = PTE_W -> Z.land (map_entry pa perm) f = Z.land (Z.lor perm PTE_P) f).
  { intros f Hff. rewrite <- Hf. unfold PTE_FLAGS. rewrite <- Z.land_assoc. f_equal. by destruct Hff as [-> | ->]. }
  split_and!; [done|by apply PTE_ADDR_flags| |].
  - unfold present. rewrite Hb by auto. rewrite Z.land_lor_distr_l. change (Z.land PTE_P PTE_P) with PTE_P.
    unfold truth. apply negb_true_iff, Z.eqb_neq. intros E. apply Z.lor_eq_0_iff in E as [_ E]. done.
  - rewrite Hb by auto. rewrite Z.land_lor_distr_l. change (Z.land PTE_P PTE_W) with 0. apply Z.lor_0_r.
Qed.

Lemma map_entry_page kend p f :
  KERNBASE <= kend -> page_ok kend p -> 0 <= f < PGSIZE -> present (map_entry (V2P p) f) = true /\ table (map_entry (V2P p) f) = p.
Proof.
  intros Hk Hp Hf. destruct (page_phys kend p Hk Hp) as (_ & Hal & Hr & Hpv).
  destruct (map_entry_flags (V2P p) f Hal) as (_ & Had & -> & _); [unfold PHYSTOP in *; lia|done|]. unfold table. by rewrite Had, Hpv.
Qed.

Lemma page_entry_flags kend p f :
  KERNBASE <= kend -> page_ok kend p -> 0 <= f < PGSIZE -> Z.land (map_entry (V2P p) f) 0xFFF = Z.lor f PTE_P.
Proof.
  intros Hk Hp Hf. destruct (page_phys kend p Hk Hp) as (_ & Hal & Hr & _).
  apply (map_entry_flags (V2P p) f Hal); [unfold PHYSTOP in *; lia|done].
Qed.

Section Free.
Context (i : nat) (q : option nat) (ls : gset lockid) (pgdir : Z).

(** The page that virtual page [vpn] is mapped to. *)
Definition upage (m : mem) (vpn : Z) : option Z :=
  let e := entry m pgdir vpn in if present e then Some (table e) else None.
(** Those of [k] virtual pages from [v] on, in order. *)
Definition upages (m : mem) (v k : Z) : list Z := omap (upage m) (seqZ v k).

(** The user pages from [v] on are pages of their own. *)
Record owns (kend : Z) (m : mem) (l : list Z) (v : Z) : Prop := {
  ow_page vpn t : v <= vpn < 2 ^ 19 -> upage m vpn = Some t ->
    page_ok kend t /\ KERNBASE < t /\ t ∉ l /\ ~ pt_page m pgdir t;
  ow_inj vpn vpn' t : v <= vpn < 2 ^ 19 -> v <= vpn' < 2 ^ 19 -> upage m vpn = Some t -> upage m vpn' = Some t -> vpn = vpn'
}.

(** What freeing the pages [ts] does. *)
Record vm_free (s s' : kernel) (ts : list Z) : Prop := {
  vf_quiet : exists m fl, quiet (s<|k_mem := m|><|k_freelist := fl|>) s';
  vf_pde d : 0 <= d < 1024 -> pde s'.(k_mem) pgdir d = pde s.(k_mem) pgdir d;
  vf_mem x : (forall t, t ∈ ts -> ~ in_page t x) -> (forall t, page_ok s.(k_end) t -> pt_page s.(k_mem) pgdir t -> ~ in_page t x) ->
    s'.(k_mem) x = s.(k_mem) x
}.

Lemma vm_free_refl s : vm_free s s [].
Proof. split; [by exists s.(k_mem), s.(k_freelist)|done..]. Qed.

Lemma vm_free_end s s' ts : vm_free s s' ts -> s'.(k_end) = s.(k_end).
Proof. by intros [(m & fl & b & cs & lks & ->) _ _]. Qed.

Lemma vm_free_pt s s' ts t : vm_free s s' ts -> pt_page s'.(k_mem) pgdir t <-> pt_page s.(k_mem) pgdir t.
Proof.
  intros [_ Hp _]. split; (intros [->|(d & Hd & E)]; [by left|right; exists d; split; [done|]]); [by rewrite <- Hp|by rewrite Hp].
Qed.

Lemma vm_free_trans s s1 s2 ts ts' : vm_free s s1 ts -> vm_free s1 s2 ts' -> vm_free s s2 (ts' ++ ts).
Proof.
  intros H1 H2. pose proof (vm_free_end _ _ _ H1) as He. pose proof (fun t => vm_free_pt s s1 ts t H1) as Hpt.
  destruct H1 as [(m & fl & Hq) Hp Hm], H2 as [(m' & fl' & Hq') Hp' Hm']. split.
  - exists m', fl'. by quiet_by Hq Hq'.
  - intros d Hd. by rewrite Hp', Hp.
  - intros x Hx Hx'. rewrite Hm'.
    + apply Hm; [|done]. intros t Ht. apply Hx, elem_of_app. by right.
    + intros t Ht. apply Hx, elem_of_app. by left.
    + intros t Ht Hpp. rewrite He in Ht. by apply Hx', Hpt.
Qed.

(** A page that is neither a table nor free is freed. *)
Lemma free_page l s t :
  vm_ok i q ls pgdir l s -> page_ok s.(k_end) t -> t ∉ l -> ~ pt_page s.(k_mem) pgdir t ->
  exists s', kfree t s = Ret tt s' /\ vm_ok i q ls pgdir (t :: l) s' /\ vm_free s s' [t] /\
    forall vpn, 0 <= vpn < 2 ^ 20 -> entry s'.(k_mem) pgdir vpn = entry s.(k_mem) pgdir vpn.
Proof.
  intros [Hrun Hlk Hfr Hk Hpt] Ht Hl Hnp.
  destruct (kfree_can i q ls l s t Hrun Hlk Hk Ht Hfr Hl) as (s' & E & Hq & Hfr' & Hrun' & Hr').
  assert (Hm : forall x, ~ in_page t x -> k_mem s' x = k_mem s x).
  { intros x Hx. destruct Hq as (? & ? & ? & ->). apply (freed_state_mem t s x). unfold in_page in Hx. lia. }
  assert (He : k_end s' = k_end s) by (by destruct Hq as (? & ? & ? & ->)).
  assert (Hap : forall t' x, page_ok (k_end s) t' -> pt_page (k_mem s) pgdir t' -> in_page t' x -> ~ in_page t x).
  { intros t' x Ht' Hp' Hx Hx'. assert (t' <> t) by (by intros ->). destruct (pages_apart _ _ t' t Ht' Ht); unfold in_page in *; [done|lia..]. }
  destruct (entry_ext (k_end s) (k_mem s) (k_mem s') pgdir l Hk Hpt) as (Hpde & Hen & Hpt').
  { intros t' x Ht' Hp' Hx. apply Hm. by apply (Hap t'). }
  exists s'. split_and!; [done| | |done].
  - split; [done|done|done|by rewrite He|]. rewrite He. destruct Hpt' as [[H1 H2] H3 H4]. split; [split; [done|]| |done].
    + intros [->|H]%elem_of_cons; [|done]. apply Hnp. by left.
    + intros d Hd Hpr. destruct (H3 d Hd Hpr) as (t' & Et & Ht' & Hnl & Hne). exists t'. split_and!; [done..| |done].
      intros [->|H]%elem_of_cons; [|done]. apply Hnp. right. exists d. split; [done|]. by rewrite <- Hpde.
  - split; [|done|].
    + destruct Hq as (b & cs & lks & ->). eexists _, _. by exists b, cs, lks.
    + intros x Hx _. apply Hm, Hx. left.
Qed.

(** The last page, taken in vain, is put back. *)
Lemma install_undo s s3 p :
  vm_ok i q ls pgdir [] s3 -> vm_step pgdir s [p] s3 [] [p] -> page_ok s.(k_end) p -> ~ pt_page s3.(k_mem) pgdir p ->
  exists s4, kfree p s3 = Ret tt s4 /\ vm_ok i q ls pgdir [p] s4 /\ vm_step pgdir s [p] s4 [p] [] /\
    forall vpn, 0 <= vpn < 2 ^ 20 -> entry s4.(k_mem) pgdir vpn = entry s3.(k_mem) pgdir vpn.
Proof.
  intros Hok3 Hst Hp Hnp. pose proof (vm_step_end _ _ _ _ _ _ Hst) as He.
  destruct (free_page [] s3 p Hok3) as (s4 & E & Hok4 & Hf & Hen); [by rewrite He|apply not_elem_of_nil|done|].
  exists s4. split_and!; [done|done| |done]. pose proof (fun t => vm_free_pt s3 s4 [p] t Hf) as Hpt.
  destruct Hst as [(m & fl & Hq) _ S2 S3 _ _ S5], Hf as [(m' & fl' & Hq') _ F3]. split.
  - exists m', fl'. by quiet_by Hq Hq'.
  - by exists [].
  - intros t Ht Hpp. apply S2; [done|]. by apply Hpt.
  - intros t Ht Hpp. apply Hpt. by apply S3.
  - by left.
  - by intros p' ?%elem_of_nil.
  - intros x Hx Hl. rewrite F3; [by apply S5|done|]. intros t Ht Hpp. rewrite He in Ht. destruct (S2 t Ht Hpp); [by apply Hx|by apply Hl].
Qed.

Lemma seqZ_cons' v k : 0 < k -> seqZ v k = v :: seqZ (v + 1) (k - 1).
Proof. intros Hk. rewrite seqZ_cons by lia. f_equal; f_equal; lia. Qed.

Lemma upages_cons m v k : 0 < k -> upages m v k = option_list (upage m v) ++ upages m (v + 1) (k - 1).
Proof. intros Hk. unfold upages. rewrite seqZ_cons' by done. cbn. by destruct (upage m v). Qed.

Lemma upages_nil m v k : (forall vpn, v <= vpn < v + k -> upage m vpn = None) -> upages m v k = [].
Proof.
  intros H. unfold upages. destruct (omap (upage m) (seqZ v k)) as [|t l] eqn:E; [done|]. exfalso.
  assert (Hin : t ∈ omap (upage m) (seqZ v k)) by (rewrite E; left).
  apply list_elem_of_omap in Hin as (vpn & Hv & Et). apply elem_of_seqZ in Hv. by rewrite H in Et by lia.
Qed.

Lemma upages_ext m m' v k : (forall vpn, v <= vpn < v + k -> entry m' pgdir vpn = entry m pgdir vpn) -> upages m' v k = upages m v k.
Proof.
  intros H. unfold upages. apply list_omap_ext. apply Forall2_same_length_lookup. split; [done|].
  intros j x y Hx Hy. rewrite Hx in Hy. injection Hy as <-. apply lookup_seqZ in Hx as [-> Hx]. unfold upage. by rewrite H by lia.
Qed.

(** The word of virtual page [v], where there is a table. *)
Lemma walk_entry l s v :
  vm_ok i q ls pgdir l s -> 0 <= v < 2 ^ 20 -> present (pde s.(k_mem) pgdir (v / 1024)) = true ->
  exists tb, let r := tb + 4 * (v mod 1024) in
    page_ok s.(k_end) tb /\ pde s.(k_mem) pgdir (v / 1024) = tab_pde tb /\ r <> 0 /\ u32 r = r /\
    walkpgdir pgdir (v * PGSIZE) false s = Ret r s /\ load32 s.(k_mem) r = entry s.(k_mem) pgdir v.
Proof.
  intros Hok Hv Hp. assert (Ev : v * PGSIZE / PGSIZE = v) by (by rewrite Z.div_mul).
  assert (Hva : 0 <= v * PGSIZE < 2 ^ 32) by (unfold PGSIZE; lia).
  destruct (walkpgdir_present i q ls pgdir l s (v * PGSIZE) false Hok Hva) as (tb & Htb & Etb & Ew); [by rewrite Ev|].
  destruct (PTX_spec (v * PGSIZE) Hva) as [Epx Hpx]. rewrite Ev in Epx, Etb. rewrite Epx in Ew, Hpx.
  pose proof Htb as (_ & _ & Hr). unfold KERNBASE, PHYSTOP in Hr. pose proof (vo_end _ _ _ _ _ _ Hok) as Hk.
  exists tb. cbv zeta. split_and!; [done..|lia|apply u32_small; lia|done|].
  unfold entry. rewrite Hp, Etb. by rewrite (proj1 (table_pde _ tb Hk Htb)).
Qed.

(** One page: freed, and its entry cleared. *)
Lemma dealloc_page l s v t :
  vm_ok i q ls pgdir l s -> owns s.(k_end) s.(k_mem) l v -> 0 <= v < 2 ^ 19 -> upage s.(k_mem) v = Some t ->
  exists r s1, walkpgdir pgdir (v * PGSIZE) false s = Ret r s /\ r <> 0 /\
    present (load32 s.(k_mem) r) = true /\ PTE_ADDR (load32 s.(k_mem) r) <> 0 /\ P2V (PTE_ADDR (load32 s.(k_mem) r)) = t /\
    kfree t s = Ret tt s1 /\ let s2 := s1<|k_mem ::= fun m => store32 m r 0|> in
    vm_ok i q ls pgdir (t :: l) s2 /\ vm_free s s2 [t] /\
    forall vpn, 0 <= vpn < 2 ^ 20 -> entry s2.(k_mem) pgdir vpn = if vpn =? v then 0 else entry s.(k_mem) pgdir vpn.
Proof.
  intros Hok How Hv Hup. destruct (ow_page _ _ _ _ How v t ltac:(lia) Hup) as (Ht & Ht0 & Htl & Hnp). unfold upage in Hup.
  destruct (present (entry (k_mem s) pgdir v)) eqn:Hpe; [|done]. injection Hup as Htab. rewrite <- Htab in *. clear t Htab.
  set (t := table (entry (k_mem s) pgdir v)) in *.
  assert (Hpde : present (pde (k_mem s) pgdir (v / 1024)) = true).
  { destruct (present (pde (k_mem s) pgdir (v / 1024))) eqn:Ep; [done|]. unfold entry in Hpe. by rewrite Ep in Hpe. }
  destruct (walk_entry l s v Hok ltac:(lia) Hpde) as (tb & Htb & Etb & Hr0 & _ & Ew & El). set (r := tb + 4 * (v mod 1024)) in *.
  destruct (free_page l s t Hok Ht Htl Hnp) as (s1 & E1 & Hok1 & Hf1 & Hen1).
  pose proof (vm_free_end _ _ _ Hf1) as He1. pose proof Hok1 as [Hrun1 Hlk Hfr1 Hk1 Hpt1]. rewrite He1 in Hk1, Hpt1.
  destruct (set_entry (k_end s) (k_mem s1) pgdir (t :: l) v tb 0 Hk1 Hpt1 ltac:(lia) Htb) as (Hpt2 & Hpde2 & Hen2).
  { rewrite (vf_pde _ _ _ Hf1); [done|]. apply vpn_range; lia. }
  fold r in Hpt2, Hpde2, Hen2.
  assert (Hm2 : forall x, ~ in_page tb x -> store32 (k_mem s1) r 0 x = k_mem s1 x).
  { intros x Hx. apply store32_other. pose proof (vpn_range v ltac:(lia)) as [_ Hvm]. unfold in_page, r, PGSIZE in *. lia. }
  assert (Hpp : pt_page (k_mem s) pgdir tb) by (right; exists (v / 1024); split; [apply vpn_range; lia|done]).
  exists r, s1. rewrite El. cbv zeta. split_and!; try done.
  - intros H0. unfold t, table in Ht0. rewrite H0 in Ht0. by vm_compute in Ht0.
  - split; [aframe Hrun1|done| |by change (KERNBASE <= k_end s1); rewrite He1|by change (k_end _) with (k_end s1); rewrite He1].
    apply (free_rep_mem s1); [done..|]. intros p' x Hp' Hok' Hx. cbn. apply Hm2. rewrite He1 in Hok'.
    assert (p' <> tb).
    { intros ->. apply elem_of_cons in Hp' as [->|Hp']; [done|]. destruct Hok as [_ _ _ Hk Hpt].
      destruct (pt_tab _ _ _ _ Hpt (v / 1024)) as (t2 & E2 & Ht2 & Hn2 & _); [apply vpn_range; lia|done|].
      rewrite Etb in E2. destruct (table_pde _ t2 Hk Ht2) as [E3 _], (table_pde _ tb Hk Htb) as [E4 _]. by assert (t2 = tb) as -> by congruence. }
    destruct (pages_apart _ _ p' tb Hok' Htb); unfold in_page in *; [done|lia..].
  - destruct Hf1 as [(m & fl & Hq) Hp Hm]. split.
    + destruct Hq as (b & cs & lks & ->). eexists _, fl. by exists b, cs, lks.
    + intros d Hd. cbn. by rewrite Hpde2, Hp.
    + intros x Hx Hx'. cbn. rewrite Hm2; [by apply Hm|by apply Hx'].
  - intros vpn Hvpn. cbn. rewrite Hen2, Hen1 by done. done.
Qed.

Lemma owns_step l s s2 v t ts :
  owns s.(k_end) s.(k_mem) l v -> 0 <= v -> vm_free s s2 ts -> upage s.(k_mem) v = Some t ->
  (forall vpn, 0 <= vpn < 2 ^ 20 -> entry s2.(k_mem) pgdir vpn = if vpn =? v then 0 else entry s.(k_mem) pgdir vpn) ->
  owns s2.(k_end) s2.(k_mem) (t :: l) (v + 1).
Proof.
  intros [H1 H2] Hv Hf Hup Hen. pose proof (vm_free_end _ _ _ Hf) as He.
  assert (Hu : forall vpn, v + 1 <= vpn < 2 ^ 19 -> upage (k_mem s2) vpn = upage (k_mem s) vpn).
  { intros vpn Hvpn. unfold upage. by rewrite Hen, (proj2 (Z.eqb_neq vpn v)) by lia. }
  split.
  - intros vpn t' Hvpn. rewrite Hu by done. intros Ht'. destruct (H1 vpn t' ltac:(lia) Ht') as (Q1 & Q2 & Q3 & Hn). rewrite He.
    split_and!; [done|done| |by rewrite vm_free_pt].
    intros [->|H]%elem_of_cons; [|done]. assert (vpn = v) by (eapply H2; [lia|lia|done|done]). lia.
  - intros vpn vpn' t' Hvpn Hvpn'. rewrite !Hu by done. apply H2; lia.
Qed.

Lemma upages_split m v j k : 0 <= j -> 0 <= k -> upages m v (j + k) = upages m v j ++ upages m (v + j) k.
Proof. intros Hj Hk. unfold upages. by rewrite seqZ_app, omap_app by lia. Qed.

Lemma owns_le kend m l v v' : owns kend m l v -> v <= v' -> owns kend m l v'.
Proof. intros [H1 H2] Hle. split; intros; [eapply H1|eapply H2]; try done; lia. Qed.

Lemma next_table a : 0 <= a < KERNBASE ->
  u32 (u32 (PGADDR (PDX a + 1) 0 0 - PGSIZE) + PGSIZE) = (a / PGSIZE / 1024 + 1) * 1024 * PGSIZE.
Proof.
  intros Ha. unfold KERNBASE in Ha. destruct (PDX_spec a ltac:(lia)) as [-> _]. unfold PGADDR. change (Z.shiftl 0 12) with 0. rewrite !Z.lor_0_r.
  rewrite Z.shiftl_mul_pow2 by lia. change (2 ^ 22) with (1024 * 4096). change PGSIZE with 4096.
  assert (0 <= a / 4096 / 1024 < 512) by (Z.to_euclidean_division_equations; lia).
  rewrite (u32_small (_ * _)) by lia. rewrite (u32_small (_ - _)) by lia. rewrite u32_small by lia. lia.
Qed.

(** What deallocuvm's loop has done when it ends: the pages from [v] are unmapped and free. *)
Record dealloced (l : list Z) (s : kernel) (v k : Z) (s' : kernel) : Prop := {
  de_vm : vm_ok i q ls pgdir (reverse (upages s.(k_mem) v k) ++ l) s';
  de_free : vm_free s s' (reverse (upages s.(k_mem) v k));
  de_owns : owns s'.(k_end) s'.(k_mem) (reverse (upages s.(k_mem) v k) ++ l) (v + k);
  de_entry vpn : 0 <= vpn < 2 ^ 20 ->
    present (entry s'.(k_mem) pgdir vpn) = (if (v <=? vpn) && (vpn <? v + k) then false else present (entry s.(k_mem) pgdir vpn)) /\
    (~ v <= vpn < v + k -> entry s'.(k_mem) pgdir vpn = entry s.(k_mem) pgdir vpn)
}.

(** Nothing mapped, nothing to do. *)
Lemma dealloced_none l s v k :
  vm_ok i q ls pgdir l s -> owns s.(k_end) s.(k_mem) l v -> 0 <= k ->
  (forall vpn, v <= vpn < v + k -> present (entry s.(k_mem) pgdir vpn) = false) -> dealloced l s v k s.
Proof.
  intros Hok How Hk Hab. assert (upages (k_mem s) v k = []) as E.
  { apply upages_nil. intros vpn Hv. unfold upage. by rewrite Hab. }
  split; rewrite ?E; [done|apply vm_free_refl|by apply (owns_le _ _ _ v); [|lia]|].
  intros vpn _. split; [|done]. destruct (Z.leb_spec v vpn), (Z.ltb_spec vpn (v + k)); cbn [andb]; try done. apply Hab. lia.
Qed.

Lemma dealloced_trans l s v j k s1 s2 :
  0 <= v -> 0 <= j -> 0 <= k -> v + j + k <= 2 ^ 19 -> dealloced l s v j s1 ->
  dealloced (reverse (upages s.(k_mem) v j) ++ l) s1 (v + j) k s2 -> dealloced l s v (j + k) s2.
Proof.
  intros Hv Hj Hk Hmax [A1 A2 A3 A4] [B1 B2 B3 B4].
  assert (E : reverse (upages (k_mem s) v (j + k)) = reverse (upages (k_mem s1) (v + j) k) ++ reverse (upages (k_mem s) v j)).
  { rewrite upages_split, reverse_app by done. do 2 f_equal. symmetry. apply upages_ext. intros vpn Hvpn. apply A4; lia. }
  split; rewrite ?E, <- ?app_assoc, ?Z.add_assoc; [done|by eapply vm_free_trans|done|].
  intros vpn Hvpn. destruct (A4 vpn Hvpn) as [C1 C2], (B4 vpn Hvpn) as [D1 D2]. split.
  - rewrite D1, C1. destruct (Z.leb_spec v vpn), (Z.ltb_spec vpn (v + j)), (Z.leb_spec (v + j) vpn), (Z.ltb_spec vpn (v + j + k)); cbn [andb]; try done; lia.
  - intros Hout. rewrite D2, C2 by lia. done.
Qed.

Lemma dealloced_one l s v t s2 :
  0 <= v < 2 ^ 19 -> owns s.(k_end) s.(k_mem) l v -> upage s.(k_mem) v = Some t -> vm_ok i q ls pgdir (t :: l) s2 -> vm_free s s2 [t] ->
  (forall vpn, 0 <= vpn < 2 ^ 20 -> entry s2.(k_mem) pgdir vpn = if vpn =? v then 0 else entry s.(k_mem) pgdir vpn) ->
  dealloced l s v 1 s2.
Proof.
  intros Hv How Hup Hok Hf Hen. assert (upages (k_mem s) v 1 = [t]) as E by (rewrite upages_cons, Hup by lia; done).
  split; rewrite ?E; [done|done|by apply (owns_step l s s2 v t [t]); [|lia|..]|].
  intros vpn Hvpn. rewrite Hen by done. destruct (Z.eqb_spec vpn v) as [->|Hne].
  - replace ((v <=? v) && (v <? v + 1)) with true by lia. split; [done|lia].
  - replace ((v <=? vpn) && (vpn <? v + 1)) with false by lia. done.
Qed.

(** One iteration where there is a table. *)
Lemma dealloc_iter l s v :
  vm_ok i q ls pgdir l s -> owns s.(k_end) s.(k_mem) l v -> 0 <= v < 2 ^ 19 -> present (pde s.(k_mem) pgdir (v / 1024)) = true ->
  exists r s1, walkpgdir pgdir (v * PGSIZE) false s = Ret r s /\ r <> 0 /\ dealloced l s v 1 s1 /\
    (let! e := rd32 r in
     (if! truth (Z.land e PTE_P) then!
        (let pa := PTE_ADDR e in
         if pa =? 0 then panic "kfree"
         else kfree (P2V pa) ;;; wr32 r 0)) ;;;
     ret (v * PGSIZE))%xv6 s = Ret (v * PGSIZE) s1.
Proof.
  intros Hok How Hv Hp. destruct (upage (k_mem s) v) as [t|] eqn:Hup.
  - destruct (dealloc_page l s v t Hok How Hv Hup) as (r & s1 & Ew & Hr & Hpr & Hpa & Ht & E1 & Hok2 & Hf2 & Hen2).
    set (s2 := s1<|k_mem ::= _|>) in *. exists r, s2. split_and!; [done|done|by apply (dealloced_one l s v t)|].
    unfold rd32, gets. kret. fold (present (load32 (k_mem s) r)). rewrite Hpr. cbv zeta. rewrite (proj2 (Z.eqb_neq _ _) Hpa), Ht.
    kret_by (kret_by exact E1; reflexivity). done.
  - destruct (walk_entry l s v Hok ltac:(lia) Hp) as (tb & _ & _ & Hr & _ & Ew & El). set (r := tb + 4 * (v mod 1024)) in *.
    unfold upage in Hup. destruct (present (entry (k_mem s) pgdir v)) eqn:Hpe; [done|].
    exists r, s. split_and!; [done|done| |].
    + apply dealloced_none; [done|done|lia|]. intros vpn Hvpn. by replace vpn with v by lia.
    + unfold rd32, gets. kret. rewrite El. fold (present (entry (k_mem s) pgdir v)). rewrite Hpe. by kret.
Qed.

Lemma deallocuvm_loop_ok oldsz k : forall fuel l s v,
  vm_ok i q ls pgdir l s -> owns s.(k_end) s.(k_mem) l v -> 0 <= v -> v + Z.of_nat k <= 2 ^ 19 ->
  oldsz <= (v + Z.of_nat k) * PGSIZE -> ((0 < k)%nat -> (v + Z.of_nat k - 1) * PGSIZE < oldsz) -> (k < fuel)%nat ->
  exists s', deallocuvm_loop fuel pgdir (v * PGSIZE) oldsz s = Ret tt s' /\ dealloced l s v (Z.of_nat k) s'.
Proof.
  induction k as [k IH] using lt_wf_ind. intros [|fuel] l s v Hok How Hv Hmax Hsz Hlast Hf; [lia|]. cbn [deallocuvm_loop].
  destruct k as [|k].
  { exists s. replace (v * PGSIZE <? oldsz) with false by lia. split; [done|]. apply dealloced_none; try done. intros vpn Hvpn. lia. }
  replace (v * PGSIZE <? oldsz) with true by (unfold PGSIZE in *; lia). cbn [negb].
  destruct (present (pde (k_mem s) pgdir (v / 1024))) eqn:Hp.
  - destruct (dealloc_iter l s v Hok How ltac:(lia) Hp) as (r & s1 & Ew & Hr & Hd & E1). pose proof Hd as [D1 D2 D3 D4].
    destruct (IH k ltac:(lia) fuel _ s1 (v + 1) D1 D3) as (s' & E' & Hd'); [lia|lia|lia|lia|lia|].
    exists s'. split.
    + kret_by exact Ew. rewrite (proj2 (Z.eqb_neq r 0) Hr). kret_by exact E1.
      rewrite u32_small by (unfold PGSIZE; lia). by replace (v * PGSIZE + PGSIZE) with ((v + 1) * PGSIZE) by lia.
    + replace (Z.of_nat (S k)) with (1 + Z.of_nat k) by lia. eapply dealloced_trans; [lia|lia|lia|lia|done|done].
  - set (v' := (v / 1024 + 1) * 1024). assert (Hv' : v < v' <= 2 ^ 19) by (unfold v'; Z.to_euclidean_division_equations; lia).
    assert (Hab : forall vpn, v <= vpn < v' -> present (entry (k_mem s) pgdir vpn) = false).
    { intros vpn Hvpn. unfold entry. replace (vpn / 1024) with (v / 1024) by (unfold v' in *; Z.to_euclidean_division_equations; lia). by rewrite Hp. }
    assert (Ev : v * PGSIZE / PGSIZE = v) by (by rewrite Z.div_mul).
    set (m := Z.to_nat (Z.max 0 (v + Z.of_nat (S k) - v'))). assert (Hm : (m < S k)%nat) by lia.
    destruct (decide (v' <= v + Z.of_nat (S k))) as [Hle|Hgt].
    + destruct (IH m Hm fuel l s v' Hok (owns_le _ _ _ v v' How ltac:(lia))) as (s' & E' & Hd'); [lia|lia|unfold PGSIZE in *; lia|unfold PGSIZE in *; lia|lia|].
      exists s'. split; [|].
      * kret_by (apply (walkpgdir_absent i q ls pgdir l s); [done|unfold PGSIZE; lia|by rewrite Ev]). cbn [Z.eqb]. kret.
        rewrite next_table by (unfold PGSIZE, KERNBASE; lia). by rewrite Ev.
      * replace (Z.of_nat (S k)) with (v' - v + Z.of_nat m) by lia. eapply dealloced_trans; [lia|lia|lia|lia| |].
        { apply (dealloced_none l s v (v' - v)); [done|done|lia|]. intros vpn Hvpn. apply Hab. lia. }
        rewrite (upages_nil _ v (v' - v)); [|intros vpn Hvpn; unfold upage; by rewrite Hab by lia].
        by replace (v + (v' - v)) with v' by lia.
    + destruct fuel as [|fuel]; [lia|]. exists s. split.
      * kret_by (apply (walkpgdir_absent i q ls pgdir l s); [done|unfold PGSIZE; lia|by rewrite Ev]). cbn [Z.eqb]. kret.
        rewrite next_table by (unfold PGSIZE, KERNBASE; lia). rewrite Ev. fold v'. cbn [deallocuvm_loop].
        by replace (v' * PGSIZE <? oldsz) with false by (unfold PGSIZE in *; lia).
      * apply dealloced_none; [done|done|lia|]. intros vpn Hvpn. apply Hab. lia.
Qed.

Lemma deallocuvm_ok l s oldsz newsz w k :
  vm_ok i q ls pgdir l s -> 0 <= newsz < oldsz -> oldsz <= KERNBASE ->
  w = (newsz + 4095) / 4096 -> w + k = (oldsz + 4095) / 4096 -> owns s.(k_end) s.(k_mem) l w ->
  exists s', deallocuvm pgdir oldsz newsz s = Ret newsz s' /\ 0 <= k /\ dealloced l s w k s'.
Proof.
  intros Hok Hnew Hold Ew Eu How. destruct (PGROUNDUP_pages newsz ltac:(lia)) as (Hr & Hw & _). rewrite <- Ew in Hr, Hw.
  assert (Hu : 0 <= k /\ w + k <= 2 ^ 19 /\ (w + k - 1) * PGSIZE < oldsz <= (w + k) * PGSIZE).
  { unfold KERNBASE, PGSIZE in *. change (2 ^ 19) with 524288. Z.to_euclidean_division_equations. lia. }
  destruct (deallocuvm_loop_ok oldsz (Z.to_nat k) (S (Z.to_nat (oldsz / PGSIZE + 1))) l s w Hok How) as (s' & E & Hd);
    [lia|lia|unfold PGSIZE in *; lia|unfold PGSIZE in *; lia| |].
  { assert (w + k <= oldsz / PGSIZE + 1) by (unfold PGSIZE; Z.to_euclidean_division_equations; lia). lia. }
  rewrite Z2Nat.id in Hd by lia. exists s'. split_and!; [|lia|done].
  unfold deallocuvm. replace (oldsz <=? newsz) with false by lia. rewrite Hr. by kret_by exact E.
Qed.

(** ** The tables *)

(** The tables of [k] directory entries from [d] on. *)
Definition dir_table (m : mem) (d : Z) : option Z := let e := pde m pgdir d in if present e then Some (table e) else None.
Definition dir_tables (m : mem) (d k : Z) : list Z := omap (dir_table m) (seqZ d k).

(** The tables from entry [d] on are pages of their own. *)
Record tables_from (kend : Z) (m : mem) (l : list Z) (d : Z) : Prop := {
  tf_dir : page_ok kend pgdir /\ pgdir ∉ l;
  tf_tab d' t : d <= d' < 1024 -> dir_table m d' = Some t -> page_ok kend t /\ t ∉ l /\ t <> pgdir;
  tf_inj d' d'' t : d <= d' < 1024 -> d <= d'' < 1024 -> dir_table m d' = Some t -> dir_table m d'' = Some t -> d' = d''
}.

Lemma pt_tables kend m l : KERNBASE <= kend -> pt_ok kend m pgdir l -> tables_from kend m l 0.
Proof.
  intros Hk [H1 H2 H3].
  assert (Ht : forall d t, 0 <= d < 1024 -> dir_table m d = Some t -> pde m pgdir d = tab_pde t /\ page_ok kend t /\ t ∉ l /\ t <> pgdir).
  { intros d t Hd. unfold dir_table. destruct (present (pde m pgdir d)) eqn:Hp; [|done]. intros [= <-].
    destruct (H2 d Hd Hp) as (t & E & Ht & Hl & Hn). rewrite E. destruct (table_pde kend t Hk Ht) as [-> _]. done. }
  split; [done| |].
  - intros d t Hd Et. by apply (Ht d).
  - intros d d' t Hd Hd' Et Et'. destruct (Ht d t Hd Et) as (E & Hok & _), (Ht d' t Hd' Et') as (E' & _). by apply (H3 d d' t).
Qed.

(** Only pages of [ts], the free list and lock words change. *)
Record within (s s' : kernel) (ts : list Z) : Prop := {
  wi_quiet : exists m fl, quiet (s<|k_mem := m|><|k_freelist := fl|>) s';
  wi_alloc : can_alloc i q ls s';
  wi_mem x : (forall t, t ∈ ts -> ~ in_page t x) -> s'.(k_mem) x = s.(k_mem) x
}.

Lemma within_refl s : can_alloc i q ls s -> within s s [].
Proof. split; [by exists s.(k_mem), s.(k_freelist)|done..]. Qed.

Lemma within_end s s' ts : within s s' ts -> s'.(k_end) = s.(k_end).
Proof. by intros [(m & fl & b & cs & lks & ->) _ _]. Qed.

Lemma within_app s s1 s2 ts ts' : within s s1 ts -> within s1 s2 ts' -> within s s2 (ts' ++ ts).
Proof.
  intros [(m & fl & Hq) Hc Hm] [(m' & fl' & Hq') Hc' Hm']. split; [|done|].
  - exists m', fl'. by quiet_by Hq Hq'.
  - intros x Hx. rewrite Hm'; [apply Hm|]; intros t Ht; apply Hx, elem_of_app; auto.
Qed.

Lemma give_back l s t :
  can_alloc i q ls s -> LkKmem ∉ ls -> KERNBASE <= s.(k_end) -> free_rep s l -> page_ok s.(k_end) t -> t ∉ l ->
  exists s', kfree t s = Ret tt s' /\ free_rep s' (t :: l) /\ within s s' [t].
Proof.
  intros Hc Hlk Hk Hfr Ht Hl. destruct (kfree_can i q ls l s t Hc Hlk Hk Ht Hfr Hl) as (s' & E & Hq & Hfr' & Hc' & Hr').
  exists s'. split_and!; [done|done|]. split; [|done|].
  - destruct Hq as (b & cs & lks & ->). eexists _, _. by exists b, cs, lks.
  - intros x Hx. destruct Hq as (? & ? & ? & ->). apply (freed_state_mem t s x). specialize (Hx t ltac:(left)). unfold in_page in Hx. lia.
Qed.

Lemma dir_tables_cons m d k : 0 < k -> dir_tables m d k = option_list (dir_table m d) ++ dir_tables m (d + 1) (k - 1).
Proof. intros Hk. unfold dir_tables. rewrite seqZ_cons' by done. cbn. by destruct (dir_table m d). Qed.

Lemma freevm_tables_ok n : forall d l s,
  can_alloc i q ls s -> LkKmem ∉ ls -> KERNBASE <= s.(k_end) -> free_rep s l -> tables_from s.(k_end) s.(k_mem) l d ->
  0 <= d -> d + Z.of_nat n <= 1024 ->
  let ts := dir_tables s.(k_mem) d (Z.of_nat n) in
  exists s', freevm_tables n d pgdir s = Ret tt s' /\ free_rep s' (reverse ts ++ l) /\ within s s' (reverse ts).
Proof.
  induction n as [|n IH]; intros d l s Hc Hlk Hk Hfr Htf Hd Hmax ts; cbn [freevm_tables].
  { exists s. split_and!; [done|done|by apply within_refl]. }
  destruct (tf_dir _ _ _ _ Htf) as [Hdok Hdl]. pose proof Hdok as (_ & _ & Hdr). unfold KERNBASE, PHYSTOP in Hdr.
  unfold ts. rewrite dir_tables_cons by lia. replace (Z.of_nat (S n) - 1) with (Z.of_nat n) by lia.
  destruct (dir_table (k_mem s) d) as [t|] eqn:Et.
  - destruct (tf_tab _ _ _ _ Htf d t ltac:(lia) Et) as (Ht & Htl & Hne).
    destruct (give_back l s t Hc Hlk Hk Hfr Ht Htl) as (s1 & E1 & Hfr1 & Hg1). pose proof (within_end _ _ _ Hg1) as He1.
    assert (Hpde : forall d', 0 <= d' < 1024 -> pde (k_mem s1) pgdir d' = pde (k_mem s) pgdir d').
    { intros d' Hd'. apply load32_ext. intros x Hx. apply (wi_mem _ _ _ Hg1). intros t' ->%list_elem_of_singleton.
      destruct (pages_apart _ _ t pgdir Ht Hdok Hne); unfold in_page, PGSIZE in *; lia. }
    assert (Hdt : forall d', 0 <= d' < 1024 -> dir_table (k_mem s1) d' = dir_table (k_mem s) d').
    { intros d' Hd'. unfold dir_table. by rewrite Hpde. }
    destruct (IH (d + 1) (t :: l) s1) as (s' & E' & Hfr' & Hg'); [apply Hg1|done|by rewrite He1|done| |lia|lia|].
    { destruct Htf as [_ H2 H3]. rewrite He1. split.
      - split; [done|]. intros [->|H]%elem_of_cons; done.
      - intros d' t' Hd'. rewrite Hdt by lia. intros Et'. destruct (H2 d' t' ltac:(lia) Et') as (Q1 & Q2 & Q3). split_and!; [done| |done].
        intros [->|H]%elem_of_cons; [|done]. assert (d' = d) by (eapply H3; [lia|lia|done|done]). lia.
      - intros d' d'' t' Hd' Hd''. rewrite !Hdt by lia. apply H3; lia. }
    assert (Ets : dir_tables (k_mem s1) (d + 1) (Z.of_nat n) = dir_tables (k_mem s) (d + 1) (Z.of_nat n)).
    { apply list_omap_ext, Forall2_same_length_lookup. split; [done|]. intros j x y Hx Hy. rewrite Hx in Hy. injection Hy as <-.
      apply lookup_seqZ in Hx as [-> Hx]. apply Hdt. lia. }
    rewrite Ets in Hfr', Hg'. exists s'. rewrite reverse_app. change (option_list (Some t)) with [t]. rewrite reverse_singleton. rewrite <- app_assoc. split_and!; [|exact Hfr'|].
    + unfold rd32, gets. kret. rewrite u32_small by lia. fold (pde (k_mem s) pgdir d). unfold dir_table in Et.
      fold (present (pde (k_mem s) pgdir d)). destruct (present (pde (k_mem s) pgdir d)); [|done]. injection Et as Et.
      unfold table in Et. rewrite Et. by kret_by exact E1.
    + by eapply within_app.
  - destruct (IH (d + 1) l s Hc Hlk Hk Hfr) as (s' & E' & Hfr' & Hg'); [|lia|lia|].
    { destruct Htf as [H1 H2 H3]. split; [done|intros; eapply H2; [|done]; lia|intros; eapply H3; [| |done|done]; lia]. }
    exists s'. cbn [option_list app]. split_and!; [|done|done].
    unfold rd32, gets. kret. rewrite u32_small by lia. fold (pde (k_mem s) pgdir d). unfold dir_table in Et.
    fold (present (pde (k_mem s) pgdir d)). destruct (present (pde (k_mem s) pgdir d)); [done|]. by kret.
Qed.

(** All the pages of an address space. *)
Definition space_pages (m : mem) : list Z := pgdir :: reverse (dir_tables m 0 1024) ++ reverse (upages m 0 (2 ^ 19)).

Lemma elem_of_dir_tables m d k t : t ∈ dir_tables m d k <-> exists d', d <= d' < d + k /\ dir_table m d' = Some t.
Proof.
  unfold dir_tables. rewrite list_elem_of_omap. split; intros (d' & Hd & E); exists d'; (split; [|done]); by apply elem_of_seqZ.
Qed.

Lemma elem_of_upages m v k t : t ∈ upages m v k <-> exists vpn, v <= vpn < v + k /\ upage m vpn = Some t.
Proof.
  unfold upages. rewrite list_elem_of_omap. split; intros (d' & Hd & E); exists d'; (split; [|done]); by apply elem_of_seqZ.
Qed.

Lemma pt_page_tables kend m l t :
  KERNBASE <= kend -> pt_ok kend m pgdir l -> page_ok kend t -> pt_page m pgdir t <-> t = pgdir \/ t ∈ dir_tables m 0 1024.
Proof.
  intros Hk Hpt Ht. rewrite elem_of_dir_tables. split.
  - intros [->|(d & Hd & E)]; [by left|]. right. exists d. split; [lia|].
    unfold dir_table. rewrite E. by destruct (table_pde kend t Hk Ht) as [-> ->].
  - intros [->|(d & Hd & E)]; [by left|]. right. exists d. split; [lia|].
    unfold dir_table in E. destruct (present (pde m pgdir d)) eqn:Hp; [|done]. injection E as <-.
    destruct (pt_tab _ _ _ _ Hpt d ltac:(lia) Hp) as (t' & E & Ht' & _). rewrite E. by destruct (table_pde kend t' Hk Ht') as [-> _].
Qed.

Lemma dir_tables_ext m m' d k : (forall d', d <= d' < d + k -> pde m' pgdir d' = pde m pgdir d') -> dir_tables m' d k = dir_tables m d k.
Proof.
  intros H. apply list_omap_ext, Forall2_same_length_lookup. split; [done|]. intros j x y Hx Hy. rewrite Hx in Hy. injection Hy as <-.
  apply lookup_seqZ in Hx as [-> Hx]. unfold dir_table. by rewrite H by lia.
Qed.

Lemma space_pages_app m l : space_pages m ++ l = pgdir :: reverse (dir_tables m 0 1024) ++ reverse (upages m 0 (2 ^ 19)) ++ l.
Proof.
  assert (E : forall (A B : list Z), (pgdir :: A ++ B) ++ l = pgdir :: A ++ B ++ l) by (intros; cbn; by rewrite app_assoc).
  apply E.
Qed.
Lemma elem_of_space m t :
  t ∈ space_pages m <-> t = pgdir \/ t ∈ dir_tables m 0 1024 \/ t ∈ upages m 0 (2 ^ 19).
Proof. unfold space_pages. by rewrite elem_of_cons, elem_of_app, !elem_of_reverse. Qed.

Lemma freevm_calls kend s s1 s2 s3 :
  page_ok kend pgdir -> deallocuvm pgdir KERNBASE 0 s = Ret 0 s1 ->
  freevm_tables NPDENTRIES 0 pgdir s1 = Ret tt s2 -> kfree pgdir s2 = Ret tt s3 -> freevm pgdir s = Ret tt s3.
Proof.
  intros Hdok%page_ok_not_null E1 E2 E3. unfold freevm. rewrite (proj2 (Z.eqb_neq pgdir 0) Hdok).
  kret_by exact E1. kret_by exact E2. exact E3.
Qed.

Lemma freevm_ok l s :
  vm_ok i q ls pgdir l s -> owns s.(k_end) s.(k_mem) l 0 ->
  exists s', freevm pgdir s = Ret tt s' /\ free_rep s' (space_pages s.(k_mem) ++ l) /\ within s s' (space_pages s.(k_mem)).
Proof.
  intros Hok How. pose proof Hok as [_ Hlk _ Hk Hpt].
  destruct (deallocuvm_ok l s KERNBASE 0 0 (2 ^ 19) Hok ltac:(done) ltac:(done) eq_refl eq_refl How) as (s1 & E1 & _ & [D1 D2 _ _]).
  remember (upages (k_mem s) 0 (2 ^ 19)) as us eqn:Eus. pose proof D1 as [Hc1 _ Hfr1 Hk1 Hpt1]. pose proof (vm_free_end _ _ _ D2) as He1.
  assert (Hn : Z.of_nat NPDENTRIES = 1024) by reflexivity.
  destruct (freevm_tables_ok NPDENTRIES 0 (reverse us ++ l) s1 Hc1 Hlk Hk1 Hfr1 (pt_tables _ _ _ Hk1 Hpt1)) as (s2 & E2 & Hfr2 & Hg2); [lia|rewrite Hn; lia|].
  rewrite Hn in Hfr2, Hg2. assert (Ets : dir_tables (k_mem s1) 0 1024 = dir_tables (k_mem s) 0 1024).
  { apply (dir_tables_ext (k_mem s) (k_mem s1) 0 1024). intros d Hd. apply (vf_pde _ _ _ D2). lia. }
  rewrite Ets in Hfr2, Hg2. remember (dir_tables (k_mem s) 0 1024) as ts eqn:Ets'.
  pose proof (within_end _ _ _ Hg2) as He2. destruct (pt_dir _ _ _ _ Hpt) as [Hdok Hdl].
  destruct (give_back (reverse ts ++ reverse us ++ l) s2 pgdir) as (s3 & E3 & Hfr3 & Hg3); [apply Hg2|done|by rewrite He2, He1|done|by rewrite He2, He1| |].
  { rewrite !elem_of_app, !elem_of_reverse. intros [H|[H|H]]; [|destruct (pt_dir _ _ _ _ Hpt1) as [_ Hno]; apply Hno, elem_of_app; left; by apply elem_of_reverse|done].
    rewrite Ets' in H. apply elem_of_dir_tables in H as (d & Hd & Ed).
    by destruct (tf_tab _ _ _ _ (pt_tables _ _ _ Hk Hpt) d pgdir ltac:(lia) Ed) as (_ & _ & Hne). }
  exists s3. split_and!.
  - by eapply freevm_calls.
  - rewrite space_pages_app, <- Eus, <- Ets'. exact Hfr3.
  - pose proof (within_app _ _ _ _ _ Hg2 Hg3) as [(m & fl & Hq) Hc3 Hm3]. destruct D2 as [(m1 & fl1 & Hq1) _ Hm1]. split; [|done|].
    + exists m, fl. by quiet_by Hq1 Hq.
    + intros x Hx. rewrite Hm3, Hm1; [done| | |].
      * intros t Ht. rewrite elem_of_reverse in Ht. apply Hx, elem_of_space. rewrite <- Eus. auto.
      * intros t Ht Hpp. apply Hx, elem_of_space. apply (pt_page_tables (k_end s) _ l) in Hpp; [|done..]. destruct Hpp; auto.
      * intros t Ht. apply Hx, elem_of_space. rewrite <- Ets'. apply elem_of_cons in Ht as [->|Ht]; [auto|]. rewrite elem_of_reverse in Ht. auto.
Qed.

(** ** Where the pages are

    The pages [A] are the free pages [l], the user's pages [us] and the
    directory with its tables. *)
Record account (A l us : list Z) (s : kernel) : Prop := {
  ac_ok p : p ∈ A -> page_ok s.(k_end) p;
  ac_nodup : NoDup A;
  ac_split p : page_ok s.(k_end) p -> p ∈ A <-> p ∈ l \/ p ∈ us \/ pt_page s.(k_mem) pgdir p
}.

Lemma account_step A l us s s' l' ps :
  vm_ok i q ls pgdir l s -> account A l us s -> vm_step pgdir s l s' l' ps -> account A l' (us ++ ps) s'.
Proof.
  intros Hok [H1 H2 H3] Hst. pose proof (vm_step_end _ _ _ _ _ _ Hst) as He. destruct Hst as [_ (pre & Hpre) Hpt Htab Hus Hgi _].
  split; rewrite ?He; [done|done|]. intros p Hp. rewrite (H3 p Hp), elem_of_app. split.
  - intros [H|[H|H]]; [|by auto|by auto]. destruct (Hus p Hp H) as [?|[?|?]]; auto.
  - intros [H|[[H|H]|H]]; [|by auto|by auto|].
    + left. rewrite Hpre. apply elem_of_app. by right.
    + destruct (Hpt p Hp H); auto.
Qed.

Lemma within_trans A s s1 s2 : within s s1 A -> within s1 s2 A -> within s s2 A.
Proof.
  intros [(m & fl & Hq) Hc Hm] [(m' & fl' & Hq') Hc' Hm']. split; [|done|].
  - exists m', fl'. by quiet_by Hq Hq'.
  - intros x Hx. by rewrite Hm', Hm.
Qed.

Lemma within_step A l us s s' l' ps :
  account A l us s -> vm_ok i q ls pgdir l s -> vm_ok i q ls pgdir l' s' -> vm_step pgdir s l s' l' ps -> within s s' A.
Proof.
  intros [H1 H2 H3] Hok Hok' Hst. split; [apply Hst|apply Hok'|]. intros x Hx. apply (vs_mem _ _ _ _ _ _ Hst).
  - intros t Ht Hpp. apply Hx, H3; auto.
  - intros p Hp. apply Hx, H3; [|by auto]. by eapply free_list_page; [apply (vo_free _ _ _ _ _ _ Hok)|].
Qed.

(** The pages of the address space and the free ones are all of them. *)
Lemma space_account A l us s :
  vm_ok i q ls pgdir l s -> owns s.(k_end) s.(k_mem) l 0 -> account A l us s ->
  (forall t, t ∈ upages s.(k_mem) 0 (2 ^ 19) <-> t ∈ us) -> space_pages s.(k_mem) ++ l ≡ₚ A.
Proof.
  intros Hok How [H1 H2 H3] Hus. destruct (freevm_ok l s Hok How) as (s' & E & Hfr & Hw). pose proof Hok as [_ _ [Hfl _] Hk Hpt].
  assert (Hsp : forall t, t ∈ space_pages (k_mem s) -> page_ok (k_end s) t /\ (t ∈ us \/ pt_page (k_mem s) pgdir t)).
  { intros t. rewrite elem_of_space, Hus. intros [->|[Ht|Ht]].
    - split; [apply (pt_dir _ _ _ _ Hpt)|right; by left].
    - assert (Hto : page_ok (k_end s) t).
      { apply elem_of_dir_tables in Ht as (d & Hd & Ed). apply (tf_tab _ _ _ _ (pt_tables _ _ _ Hk Hpt) d t ltac:(lia) Ed). }
      split; [done|]. right. apply (pt_page_tables (k_end s) _ l); auto.
    - split; [|by left]. apply Hus, elem_of_upages in Ht as (vpn & Hv & Ev). by apply (ow_page _ _ _ _ How vpn t ltac:(lia) Ev). }
  apply NoDup_Permutation; [apply Hfr|done|]. intros t. rewrite elem_of_app. split.
  - intros [Ht|Ht].
    + destruct (Hsp t Ht) as [Hto Hor]. apply H3; [done|]. by right.
    + apply H3; [by eapply free_list_page|by left].
  - intros Ht. pose proof (H1 t Ht) as Hto. apply (H3 t Hto) in Ht as [Ht|[Ht|Ht]]; [by right| |].
    + left. apply elem_of_space. right. right. by apply Hus.
    + left. apply elem_of_space. apply (pt_page_tables (k_end s) _ l) in Ht; [|done..]. destruct Ht; auto.
Qed.

(** freevm gives back everything. *)
Lemma freevm_all A l us s :
  vm_ok i q ls pgdir l s -> owns s.(k_end) s.(k_mem) l 0 -> account A l us s ->
  (forall t, t ∈ upages s.(k_mem) 0 (2 ^ 19) <-> t ∈ us) ->
  exists s' l', freevm pgdir s = Ret tt s' /\ free_rep s' l' /\ l' ≡ₚ A /\ within s s' A.
Proof.
  intros Hok How Hac Hus. destruct (freevm_ok l s Hok How) as (s' & E & Hfr & Hw). pose proof (space_account A l us s Hok How Hac Hus) as HA.
  exists s', (space_pages (k_mem s) ++ l). split_and!; [done|done|done|].
  destruct Hw as [Hq Hc Hm]. split; [done|done|]. intros x Hx. apply Hm. intros t Ht. apply Hx. rewrite <- HA. apply elem_of_app. by left.
Qed.
End Free.
