(* ===== verification/Kvm.v ===== *)
(** * The kernel's address space (vm.c): setupkvm and kvmalloc

    What the page directory setupkvm builds maps, in terms of the entries of
    Paging.v, and the memory the kernel starts with. *)

From S2P Require Import Prelude State Spinlock Thread CString Cprintf Kalloc Vm Paging Freevm.

(** ** Ranges of pages

    A range is its first page, its number of pages, the physical address of the
    first one and the permissions. *)
Definition range : Type := Z * Z * Z * Z.
Definition in_range (r : range) (vpn : Z) : bool := let '(v, n, _, _) := r in (v <=? vpn) && (vpn <? v + n).
Definition range_ok (r : range) : Prop :=
  let '(v, n, pa, perm) := r in
  0 <= v /\ 0 < n /\ v + n <= 2 ^ 20 /\ pa mod PGSIZE = 0 /\ 0 <= pa /\ pa + n * PGSIZE <= 2 ^ 32 /\ 0 <= perm < PGSIZE.
(** The entries of a page table that maps the ranges and nothing else. *)
Fixpoint ranges_entry (rs : list range) (vpn : Z) : Z :=
  match rs with
  | [] => 0
  | r :: rs' =>
      if in_range r vpn then let '(v, _, pa, perm) := r in map_entry (pa + (vpn - v) * PGSIZE) perm
      else ranges_entry rs' vpn
  end.
Fixpoint apart (rs : list range) : Prop :=
  match rs with
  | [] => True
  | r :: rs' => (forall r' vpn, r' ∈ rs' -> in_range r vpn = true -> in_range r' vpn = false) /\ apart rs'
  end.
(** The page tables they need at most. *)
Definition range_cost (r : range) : Z := let '(v, n, _, _) := r in (v + n - 1) / 1024 - v / 1024 + 1.
Definition ranges_cost (rs : list range) : Z := foldr (fun r c => range_cost r + c) 0 rs.
(** The line of kmap for a range. *)
Definition kmap_line (k : Z * Z * Z * Z) (r : range) : Prop :=
  let '(virt, phys_start, phys_end, kperm) := k in let '(v, n, pa, perm) := r in
  virt = v * PGSIZE /\ phys_start = pa /\ u32 (phys_end - phys_start) = n * PGSIZE /\ kperm = perm.

Lemma range_cost_pos r : range_ok r -> 0 < range_cost r.
Proof.
  destruct r as [[[v n] pa] perm]. intros (Hv & Hn & _). cbn. assert (v / 1024 <= (v + n - 1) / 1024) by (apply Z.div_le_mono; lia). lia.
Qed.
Lemma ranges_cost_nonneg rs : Forall range_ok rs -> 0 <= ranges_cost rs.
Proof. induction 1 as [|r rs Hr _ IH]; cbn; [done|]. pose proof (range_cost_pos r Hr). unfold ranges_cost in IH. lia. Qed.

Section Setup.
Context (i : nat) (q : option nat) (ls : gset lockid).

(** An address space without user pages. *)
Definition no_user (m : mem) (pgdir : Z) : Prop := forall vpn, 0 <= vpn < 2 ^ 19 -> entry m pgdir vpn = 0.

Lemma no_user_owns m pgdir kend l : no_user m pgdir -> owns pgdir kend m l 0 /\ upages pgdir m 0 (2 ^ 19) = [].
Proof.
  intros Hu. assert (Hn : forall vpn, 0 <= vpn < 2 ^ 19 -> upage pgdir m vpn = None) by (intros vpn Hv; unfold upage; by rewrite Hu).
  split; [|by apply upages_nil]. split; [intros vpn t Hv|intros vpn vpn' t Hv Hv']; by rewrite Hn.
Qed.

(** The loop of setupkvm over its table: it maps everything, or gives back
    all pages. *)
Lemma setupkvm_loop_ok pgdir A : forall rs ks l s,
  vm_ok i q ls pgdir l s -> account pgdir A l [] s -> no_user s.(k_mem) pgdir ->
  Forall range_ok rs -> apart rs -> Forall2 kmap_line ks rs ->
  (forall r vpn, r ∈ rs -> in_range r vpn = true -> 2 ^ 19 <= vpn) ->
  (forall r vpn, r ∈ rs -> 0 <= vpn < 2 ^ 20 -> in_range r vpn = true -> entry s.(k_mem) pgdir vpn = 0) ->
  exists r s' l', setupkvm_loop ks pgdir s = Ret r s' /\ within i q ls s s' A /\
    (r = 0 /\ Z.of_nat (length l) <= ranges_cost rs /\ free_rep s' l' /\ l' ≡ₚ A \/
     r = pgdir /\ vm_ok i q ls pgdir l' s' /\ account pgdir A l' [] s' /\ (exists pre, l = pre ++ l') /\
     Z.of_nat (length l) <= Z.of_nat (length l') + ranges_cost rs /\
     forall vpn, 0 <= vpn < 2 ^ 20 ->
       entry s'.(k_mem) pgdir vpn = if existsb (fun r => in_range r vpn) rs then ranges_entry rs vpn else entry s.(k_mem) pgdir vpn).
Proof.
  induction rs as [|r rs IH]; intros ks l s Hok Hac Hnu Hrs Hap Hks Hhi Hab.
  { inversion Hks; subst. exists pgdir, s, l. split_and!; [done|eapply within_step; [done|done|done|apply vm_step_refl]|].
    right. split_and!; [done|done|done|by exists []|cbn; lia|done]. }
  inversion Hks as [|k ? ks' ? Hk Hks']; subst. inversion Hrs as [|? ? Hr Hrs']; subst. destruct Hap as [Hap Hap'].
  destruct k as [[[virt ps] pe] kperm], r as [[[v n] pa] perm]. destruct Hk as (-> & -> & Hsz & ->).
  destruct Hr as (Hv & Hn & Hmax & Hal & Hpa & Hpm & Hperm). pose proof (ranges_cost_nonneg rs Hrs') as Hc.
  cbn [ranges_cost foldr range_cost]. fold (ranges_cost rs).
  destruct (mappages_ok i q ls pgdir l s v n pa perm Hok Hv Hn Hmax Hperm)
    as (r & s1 & l1 & k & E & Hok1 & Hst1 & Hm1 & _ & Hlen1 & Hr1); [|done|done|done|].
  { intros vpn Hvpn. rewrite (Hab (v, n, pa, perm) vpn); [done|left|lia|cbn; lia]. }
  pose proof (new_tables_one pgdir (k_mem s) v) as Hnt. unfold tables in Hlen1.
  replace (v + (n - 1)) with (v + n - 1) in Hlen1 by lia.
  pose proof (account_step i q ls pgdir A l [] s s1 l1 [] Hok Hac Hst1) as Hac1.
  pose proof (within_step i q ls pgdir A l [] s s1 l1 [] Hac Hok Hok1 Hst1) as Hw1.
  assert (Hlo : 2 ^ 19 <= v) by (apply (Hhi (v, n, pa, perm)); [left|cbn; lia]).
  assert (Hnu1 : no_user (k_mem s1) pgdir).
  { intros vpn Hvpn. rewrite Hm1 by lia. replace (v <=? vpn) with false by lia. by apply Hnu. }
  cbn [setupkvm_loop]. rewrite Hsz. destruct Hr1 as [[-> ->]|(-> & _ & ->)].
  - destruct (IH ks' l1 s1 Hok1 Hac1 Hnu1 Hrs' Hap' Hks') as (r & s' & l' & E' & Hw' & Hres); [by intros; eapply Hhi; [right|]| |].
    { intros r vpn Hr Hvpn Hin. rewrite Hm1 by done.
      assert (in_range (v, n, pa, perm) vpn = false) as Hno.
      { destruct (in_range (v, n, pa, perm) vpn) eqn:Hi; [|done]. rewrite (Hap r vpn Hr Hi) in Hin. done. }
      cbn in Hno. rewrite Hno. apply (Hab r); [by right|done|done]. }
    exists r, s', l'. split_and!; [by kret_by exact E|by eapply within_trans|].
    destruct Hres as [(-> & Hlen' & Hfr' & Hperm')|(-> & Hok' & Hac' & (pre & ->) & Hlen' & Hen')]; [left; split_and!; try done; lia|].
    right. destruct (vs_free _ _ _ _ _ _ Hst1) as (pre1 & ->). split_and!; [done|done|done|exists (pre1 ++ pre); by rewrite app_assoc|lia|].
    intros vpn Hvpn. rewrite Hen', Hm1 by done. cbn [existsb ranges_entry in_range].
    destruct ((v <=? vpn) && (vpn <? v + n)) eqn:Hi; cbn [orb]; [|done].
    replace (existsb _ rs) with false; [done|]. symmetry. apply not_true_iff_false. intros Hex.
    apply existsb_exists in Hex as (r' & Hr' & Hin). rewrite (Hap r' vpn (proj2 (list_elem_of_In _ _) Hr') Hi) in Hin. done.
  - destruct (no_user_owns (k_mem s1) pgdir (k_end s1) [] Hnu1) as [How Eus].
    destruct (freevm_all i q ls pgdir A [] [] s1 Hok1 How Hac1) as (s' & l' & E' & Hfr' & Hp' & Hw'); [by rewrite Eus|].
    exists 0, s', l'. split_and!; [kret_by exact E; change (-1 <? 0) with true; cbv iota; by kret_by exact E'|by eapply within_trans|]. left. split_and!; [done| |done|done].
    cbn in Hlen1. lia.
Qed.

(** A new page directory is empty. *)
Lemma fresh_dir l s p :
  can_alloc i q ls s -> LkKmem ∉ ls -> free_rep s (p :: l) -> KERNBASE <= s.(k_end) ->
  exists s1, kalloc s = Ret p s1 /\ p <> 0 /\
    let s2 := s1<|k_mem ::= fun m => memset m p 0 PGSIZE|> in
    vm_ok i q ls p l s2 /\ (exists m fl, quiet (s<|k_mem := m|><|k_freelist := fl|>) s2) /\
    (forall x, ~ in_page p x -> s2.(k_mem) x = s.(k_mem) x) /\
    (forall t, page_ok s.(k_end) t -> pt_page s2.(k_mem) p t -> t = p) /\
    forall vpn, 0 <= vpn < 2 ^ 20 -> entry s2.(k_mem) p vpn = 0.
Proof.
  intros Hrun Hlk Hfr Hk. pose proof Hfr as [Hl Hnd].
  pose proof (free_list_page _ _ _ _ p Hl ltac:(left)) as Hp. apply list.NoDup_cons in Hnd as [Hpl Hnd].
  destruct (kalloc_can i q ls (p :: l) s Hrun Hlk Hfr) as (s1 & E1 & Hq1 & Hr1 & _). cbn [hd tail] in E1, Hq1.
  assert (Hm1 : k_mem s1 = k_mem s) by (by destruct Hq1 as (? & ? & ? & ->)).
  assert (He1 : k_end s1 = k_end s) by (by destruct Hq1 as (? & ? & ? & ->)).
  set (m2 := memset (k_mem s1) p 0 PGSIZE).
  assert (Hm2 : forall x, ~ in_page p x -> m2 x = k_mem s x).
  { intros x Hx. unfold m2. rewrite memset_lookup, Hm1. unfold in_page in Hx.
    by replace ((p <=? x) && (x <? p + PGSIZE)) with false by lia. }
  assert (Hz : forall d, 0 <= d < 1024 -> pde m2 p d = 0).
  { intros d Hd. unfold pde, load32, m2. rewrite !memset_lookup. unfold PGSIZE.
    rewrite !(proj2 (andb_true_iff _ _)) by (split; lia). done. }
  exists s1. split_and!; [done|by apply (page_ok_not_null (k_end s))|]. cbv zeta. split_and!.
  - split; [aframe Hr1|done| |by change (KERNBASE <= k_end s1); rewrite He1|].
    + destruct Hl as (_ & _ & Hl). split; [|done]. cbn. change (free_list (k_end s1) m2 (k_freelist s1) l).
      assert (k_freelist s1 = hd 0 l) as -> by (by destruct Hq1 as (? & ? & ? & ->)).
      rewrite <- (free_list_head _ _ _ _ Hl), He1. eapply free_list_ext; [|exact Hl]. intros p' Hp'.
      pose proof (free_list_page _ _ _ _ _ Hl Hp') as Hok'. apply load32_ext. intros x Hx. apply Hm2. unfold in_page.
      destruct (pages_apart _ _ p' p Hok' Hp); [by intros ->|unfold PGSIZE in *; lia..].
    + change (pt_ok (k_end s1) m2 p l). rewrite He1. split; [done| |].
      * intros d Hd. by rewrite Hz by done.
      * intros d d' t Hd Hd' Ht. rewrite Hz by done. intros E. destruct (table_pde _ t Hk Ht) as [_ Hpr]. rewrite <- E in Hpr. done.
  - exists m2, (hd 0 l). unfold m2. destruct Hq1 as (b & cs & lks & ->). by exists b, cs, lks.
  - exact Hm2.
  - intros t Ht [->|(d & Hd & E)]; [done|]. change (pde m2 p d = tab_pde t) in E. rewrite Hz in E by done.
    destruct (table_pde _ t Hk Ht) as [_ Hpr]. rewrite <- E in Hpr. done.
  - intros vpn Hvpn. change (entry m2 p vpn = 0). unfold entry. rewrite Hz by (by apply vpn_range). done.
Qed.
End Setup.

(** ** The layout of memlayout.h *)

(** The pages of the kernel: low memory for I/O, the read-only text, data and
    free memory up to PHYSTOP, and the devices, each at a fixed distance. *)
Definition kernel_entry (data vpn : Z) : Z :=
  let pa := vpn * PGSIZE - KERNBASE in
  if vpn <? 0x80000 then 0
  else if vpn <? 0x80100 then map_entry pa PTE_W
  else if vpn * PGSIZE <? data then map_entry pa 0
  else if vpn <? 0x8E000 then map_entry pa PTE_W
  else if vpn <? 0xFE000 then 0
  else map_entry (vpn * PGSIZE) PTE_W.
Definition kernel_ranges (data : Z) : list range :=
  [(0x80000, 0x100, 0, PTE_W); (0x80100, data / PGSIZE - 0x80100, EXTMEM, 0);
   (data / PGSIZE, 0x8E000 - data / PGSIZE, data - KERNBASE, PTE_W); (0xFE000, 0x2000, DEVSPACE, PTE_W)].
(** kernel.ld puts the data of the kernel on a page of its own after the text. *)
Definition data_ok (data : Z) : Prop := data mod PGSIZE = 0 /\ KERNLINK < data < KERNBASE + PHYSTOP.

Section Layout.
Context (data : Z).
Hypothesis Hdata : data_ok data.

Lemma data_page : exists d, data = d * 4096 /\ data / PGSIZE = d /\ 0x80100 < d < 0x8E000.
Proof.
  destruct Hdata as [Hm Hr]. change PGSIZE with 4096 in *. unfold KERNLINK, KERNBASE, EXTMEM, PHYSTOP in Hr.
  exists (data / 4096). split_and!; [|done|..]; Z.to_euclidean_division_equations; lia.
Qed.

Lemma kernel_ranges_ok : Forall range_ok (kernel_ranges data) /\ apart (kernel_ranges data) /\ ranges_cost (kernel_ranges data) <= 66.
Proof.
  destruct data_page as (d & Ed & Ed' & Hd). unfold kernel_ranges. rewrite Ed', Ed. split_and!.
  - unfold PGSIZE, KERNBASE. rewrite !list.Forall_cons. unfold range_ok, PGSIZE, EXTMEM. split_and!; try (done || lia).
    replace (d * 4096 - 0x80000000) with ((d - 0x80000) * 4096) by lia. by rewrite Z.mod_mul.
  - cbn [apart]. split_and!; try done; intros [[[v n] pa] perm] vpn Hr; unfold in_range;
      repeat (apply elem_of_cons in Hr as [[= -> -> -> ->]|Hr]; [lia|]); by apply elem_of_nil in Hr.
  - cbn [ranges_cost foldr range_cost]. change ((0x80000 + 0x100 - 1) / 1024 - 0x80000 / 1024) with 0.
    change ((0xFE000 + 0x2000 - 1) / 1024 - 0xFE000 / 1024) with 7. Z.to_euclidean_division_equations. lia.
Qed.

Lemma kernel_kmap s : s.(k_datasym) = data -> Forall2 kmap_line (kmap s) (kernel_ranges data).
Proof.
  intros Es. destruct data_page as (d & Ed & Ed' & Hd). unfold kmap, kernel_ranges. rewrite Es, Ed'.
  assert (Hv : V2P data = data - KERNBASE) by (unfold V2P, KERNBASE in *; rewrite u32_small; lia).
  rewrite Hv, Ed. unfold KERNBASE. repeat constructor; unfold KERNLINK, KERNBASE, PHYSTOP, PGSIZE, EXTMEM, DEVSPACE; try done.
  - change (V2P (0x80000000 + 0x100000)) with 0x100000. rewrite u32_small; lia.
  - rewrite u32_small; lia.
Qed.

Lemma kernel_ranges_entry vpn : 0 <= vpn < 2 ^ 20 ->
  (if existsb (fun r => in_range r vpn) (kernel_ranges data) then ranges_entry (kernel_ranges data) vpn else 0) = kernel_entry data vpn.
Proof.
  intros Hv. destruct data_page as (d & Ed & Ed' & Hd). unfold kernel_ranges, kernel_entry. rewrite Ed', Ed.
  cbn [existsb ranges_entry in_range]. unfold KERNBASE, EXTMEM, DEVSPACE, PGSIZE.
  destruct (Z.ltb_spec vpn 0x80000), (Z.ltb_spec vpn 0x80100), (Z.ltb_spec (vpn * 4096) (d * 4096)), (Z.ltb_spec vpn 0x8E000),
    (Z.ltb_spec vpn 0xFE000); try lia;
    repeat match goal with |- context [(?a <=? ?b) && (?c <? ?e)] =>
      first [replace ((a <=? b) && (c <? e)) with true by lia | replace ((a <=? b) && (c <? e)) with false by lia] end;
    cbn [orb]; try done; f_equal; lia.
Qed.
End Layout.

(** No page of the kernel is for the user. *)
Lemma kernel_entry_no_user data vpn : data_ok data -> 0 <= vpn < 2 ^ 20 -> Z.land (kernel_entry data vpn) PTE_U = 0.
Proof.
  intros Hd Hv. assert (Hm : forall pa perm, pa mod 8 = 0 -> perm = 0 \/ perm = PTE_W -> Z.land (map_entry pa perm) PTE_U = 0).
  { intros pa perm Hpa Hperm. change PTE_U with (Z.land (Z.ones 3) 4). rewrite Z.land_assoc, Z.land_ones by lia. unfold map_entry.
    change (2 ^ 3) with 8. rewrite <- Z.add_mod_idemp_l, Hpa by done. by destruct Hperm as [-> | ->]. }
  assert (Hp : forall k, (k * 4096) mod 8 = 0) by (intros k; replace (k * 4096) with (k * 512 * 8) by lia; by rewrite Z.mod_mul).
  unfold kernel_entry, KERNBASE, PGSIZE. replace (vpn * 4096 - 0x80000000) with ((vpn - 0x80000) * 4096) by lia.
  repeat case_match; try done; apply Hm; auto.
Qed.

(** setupkvm with any number of free pages: it builds the kernel's address
    space, or returns null with all pages free again. *)
Lemma setupkvm_any (i : nat) (q : option nat) (ls : gset lockid) (A : list Z) (s : kernel) :
  can_alloc i q ls s -> LkKmem ∉ ls -> free_rep s A -> KERNBASE <= s.(k_end) -> data_ok s.(k_datasym) ->
  exists r s' l', setupkvm s = Ret r s' /\ within i q ls s s' A /\
    (r = 0 /\ Z.of_nat (length A) <= 67 /\ free_rep s' l' /\ l' ≡ₚ A \/
     r <> 0 /\ hd 0 A = r /\ vm_ok i q ls r l' s' /\ account r A l' [] s' /\ (exists pre, A = pre ++ l') /\
     Z.of_nat (length A) <= Z.of_nat (length l') + 67 /\
     forall vpn, 0 <= vpn < 2 ^ 20 -> entry s'.(k_mem) r vpn = kernel_entry s.(k_datasym) vpn).
Proof.
  intros Hc Hlk Hfr Hk Hd. destruct A as [|p l].
  { destruct (kalloc_can i q ls [] s Hc Hlk Hfr) as (s1 & E1 & Hq & Hr1 & _). cbn [hd tail] in E1, Hq.
    exists 0, s1, []. split_and!; [unfold setupkvm; by kret_by exact E1| |left; split_and!; [done|cbn; lia| |done]].
    - destruct Hq as (b & cs & lks & ->). split; [exists (k_mem s), 0; by exists b, cs, lks|done|done].
    - destruct Hq as (b & cs & lks & ->). by split; [|apply NoDup_nil_2]. }
  destruct (fresh_dir i q ls l s p Hc Hlk Hfr Hk) as (s1 & E1 & Hp0 & Hok & Hq & Hm & Hpt & Hen).
  set (s2 := s1<|k_mem ::= _|>) in *. destruct (kernel_ranges_ok _ Hd) as (Hr1 & Hr2 & Hr3).
  assert (Hds : k_datasym s2 = k_datasym s) by (by destruct Hq as (? & ? & ? & ? & ? & ->)).
  assert (Hend : k_end s2 = k_end s) by (by destruct Hq as (? & ? & ? & ? & ? & ->)).
  pose proof Hfr as [Hfl Hnd]. assert (Hac : account p (p :: l) l [] s2).
  { split; [intros p' Hp'; rewrite Hend; by eapply free_list_page|done|]. rewrite Hend. intros p' Hp'. rewrite elem_of_cons, elem_of_nil. split.
    - intros [->|H]; [right; right; by left|by left].
    - intros [H|[[]|H]]; [by right|left; by apply Hpt]. }
  assert (Hw2 : within i q ls s s2 (p :: l)).
  { split; [done|apply (vo_run _ _ _ _ _ _ Hok)|]. intros x Hx. apply Hm, Hx. left. }
  destruct (setupkvm_loop_ok i q ls p (p :: l) (kernel_ranges (k_datasym s)) (kmap s2) l s2)
    as (r & s' & l' & E' & Hw' & Hres); [done|done|by intros vpn Hv; apply Hen; lia|done|done|by apply kernel_kmap| |by intros; apply Hen|].
  { intros r vpn Hr. destruct (data_page _ Hd) as (d & _ & Ed' & Hd'). unfold kernel_ranges in Hr. rewrite Ed' in Hr. change (2 ^ 19) with 0x80000.
    repeat (apply elem_of_cons in Hr as [->|Hr]; [cbn; lia|]). by apply elem_of_nil in Hr. }
  exists r, s', l'. split_and!; [|by eapply within_trans|].
  - unfold setupkvm. kret_by exact E1. rewrite (proj2 (Z.eqb_neq p 0) Hp0). kret. change (DEVSPACE <? P2V PHYSTOP) with false. cbv iota. kret. exact E'.
  - cbn [length hd]. destruct Hres as [(-> & Hlen' & Hfr' & Hp')|(-> & Hok' & Hac' & (pre & ->) & Hlen' & Hen')]; [left|right]; split_and!; try done; try lia.
    + by exists (p :: pre).
    + intros vpn Hv. rewrite Hen', (Hen vpn) by done. by apply kernel_ranges_entry.
Qed.

Lemma setupkvm_ok (i : nat) (q : option nat) (ls : gset lockid) (p : Z) (l : list Z) (s : kernel) :
  can_alloc i q ls s -> LkKmem ∉ ls -> free_rep s (p :: l) -> KERNBASE <= s.(k_end) -> data_ok s.(k_datasym) ->
  66 < Z.of_nat (length l) ->
  exists s' l', setupkvm s = Ret p s' /\ vm_ok i q ls p l' s' /\
    (forall vpn, 0 <= vpn < 2 ^ 20 -> entry s'.(k_mem) p vpn = kernel_entry s.(k_datasym) vpn) /\
    (exists pre, p :: l = pre ++ l') /\ Z.of_nat (length l) <= Z.of_nat (length l') + 66 /\
    (forall x, (forall p', p' ∈ p :: l -> ~ in_page p' x) -> s'.(k_mem) x = s.(k_mem) x) /\
    (forall t, page_ok s.(k_end) t -> pt_page s'.(k_mem) p t -> t ∈ p :: l) /\
    exists m fl, quiet (s<|k_mem := m|><|k_freelist := fl|>) s'.
Proof.
  intros Hc Hlk Hfr Hk Hd Hlen. destruct (setupkvm_any i q ls (p :: l) s Hc Hlk Hfr Hk Hd) as (r & s' & l' & E & Hw & Hres).
  cbn [length] in Hres. destruct Hres as [(_ & Hn & _)|(_ & <- & Hok & Hac & Hpre & Hlen' & Hen)]; [lia|]. cbn [hd] in *.
  exists s', l'. split_and!; [done|done|done|done|lia|apply Hw| |apply Hw].
  intros t Ht Hpp. rewrite <- (within_end _ _ _ _ _ _ Hw) in Ht. apply (ac_split _ _ _ _ _ Hac); auto.
Qed.

(** C18: the kernel's address space.  With a free page for the directory and
    enough for the tables, setupkvm returns a page directory that maps every page
    of the kernel where memlayout.h says (low memory and the text at their
    physical address plus KERNBASE, data and free memory likewise up to PHYSTOP,
    the devices at their own address), the text read-only, none of them for
    the user, and nothing else.  It takes its pages from the free list, and
    memory outside them is untouched. *)
Theorem setupkvm_maps (i : nat) (q : option nat) (ls : gset lockid) (p : Z) (l : list Z) (s : kernel) :
  can_alloc i q ls s -> LkKmem ∉ ls -> free_rep s (p :: l) -> KERNBASE <= s.(k_end) -> data_ok s.(k_datasym) ->
  66 < Z.of_nat (length l) ->
  exists s' l', setupkvm s = Ret p s' /\ vm_ok i q ls p l' s' /\
    (forall vpn, 0 <= vpn < 2 ^ 20 -> entry s'.(k_mem) p vpn = kernel_entry s.(k_datasym) vpn /\
       Z.land (entry s'.(k_mem) p vpn) PTE_U = 0) /\
    (exists pre, p :: l = pre ++ l') /\ Z.of_nat (length l) <= Z.of_nat (length l') + 66 /\
    (forall x, (forall p', p' ∈ p :: l -> ~ in_page p' x) -> s'.(k_mem) x = s.(k_mem) x) /\
    exists m fl, quiet (s<|k_mem := m|><|k_freelist := fl|>) s'.
Proof.
  intros Hc Hlk Hfr Hk Hd Hlen.
  destruct (setupkvm_ok i q ls p l s Hc Hlk Hfr Hk Hd Hlen) as (s' & l' & E & Hok & Hen & Hpre & Hlen' & Hm & _ & Hq).
  exists s', l'. split_and!; try done. intros vpn Hv. rewrite Hen by done. split; [done|by apply kernel_entry_no_user].
Qed.

(** ** The memory the kernel starts with *)

(** The first two calls of main. *)
Definition early_memory : K unit :=
  let! s := get in
  kinit1 s.(k_end) (P2V (4 * 1024 * 1024)) ;;;
  kvmalloc.

Lemma length_pages n p : length (pages n p) = n.
Proof. revert p. induction n as [|n IH]; intros p; cbn; [done|by rewrite IH]. Qed.

(** The pages kinit1 puts on the free list. *)
Lemma kinit1_pages (s : kernel) :
  let vmid := KERNBASE + 4 * 1024 * 1024 in
  KERNBASE <= s.(k_end) -> s.(k_end) + 69 * PGSIZE <= vmid -> s.(k_freelist) = 0 ->
  exists s1 p l, kinit1 s.(k_end) vmid s = Ret tt s1 /\ free_rep s1 (p :: l) /\
    66 < Z.of_nat (length l) /\ S (length l) = Z.to_nat ((vmid - PGROUNDUP s.(k_end)) / PGSIZE) /\
    s1.(k_end) = s.(k_end) /\ s1.(k_datasym) = s.(k_datasym) /\ s1.(k_use_lock) = 0 /\
    (s1.(k_cpus) = s.(k_cpus) /\ s1.(k_apicid) = s.(k_apicid) /\ s1.(k_if) = s.(k_if)) /\
    forall t, t ∈ p :: l -> t mod PGSIZE = 0 /\ s.(k_end) <= t /\ t + PGSIZE <= vmid.
Proof.
  intros vmid Hk Hroom Hfl. unfold PGSIZE in Hroom.
  set (s0 := (upd_lock LkKmem (fun _ => mkspinlock 0 None) s)<|k_use_lock := 0|>).
  destruct (PGROUNDUP_bounds s.(k_end)) as [_ Hup]; [unfold KERNBASE in *; lia|unfold PGSIZE, KERNBASE in *; lia|].
  destruct (freerange_spec 0 boot_cpu s0 s.(k_end) vmid []) as (c1 & s1 & E1 & Hrep & He1 & Hu1 & _ & Hfr);
    [done|unfold vmid, KERNBASE, PHYSTOP, PGSIZE in *; lia|lia|by split; [|apply base.NoDup_nil_2]|by intros t ?%elem_of_nil|by left|].
  rewrite app_nil_r in Hrep. destruct (Hfr eq_refl) as (m & fl & Es1).
  assert (Hlr : length (reverse (range_pages s.(k_end) vmid)) = Z.to_nat ((vmid - PGROUNDUP s.(k_end)) / PGSIZE)).
  { rewrite length_reverse. unfold range_pages. apply length_pages. }
  assert (Hlen : 68 <= Z.of_nat (length (reverse (range_pages s.(k_end) vmid)))).
  { rewrite Hlr. change PGSIZE with 4096 in *.
    rewrite Z2Nat.id by (apply Z.div_pos; lia). apply Z.div_le_lower_bound; lia. }
  assert (Hel : forall t, t ∈ reverse (range_pages s.(k_end) vmid) -> t mod PGSIZE = 0 /\ s.(k_end) <= t /\ t + PGSIZE <= vmid).
  { intros t Ht. apply elem_of_range_pages; [unfold PGSIZE in *; unfold vmid, KERNBASE in *; lia..|by apply elem_of_reverse]. }
  destruct (reverse (range_pages s.(k_end) vmid)) as [|p l] eqn:El; [cbn in Hlen; lia|]. cbn [length] in Hlen.
  exists s1, p, l. split_and!; [unfold kinit1; kret; kret; exact E1|done|lia|exact Hlr|done|by rewrite Es1|done|by rewrite Es1|by rewrite Es1|by rewrite Es1|exact Hel].
Qed.

(** the start of the kernel.  When the kernel image leaves 69 pages of the
    first four megabytes, kinit1 and kvmalloc put these pages on the free list,
    take the kernel's page directory and its tables from it, and switch to a
    page directory that maps exactly the layout of the kernel: no allocation
    fails before the processor tables, the devices and the other processors are
    set up. *)
Theorem early_memory_maps (s : kernel) :
  KERNBASE <= s.(k_end) -> s.(k_end) + 69 * PGSIZE <= KERNBASE + 4 * 1024 * 1024 -> s.(k_freelist) = 0 ->
  data_ok s.(k_datasym) ->
  exists s' l p, early_memory s = Ret tt s' /\ s'.(k_kpgdir) = p /\ s'.(k_cr3) = V2P p /\ s'.(k_use_lock) = 0 /\
    free_rep s' l /\ p ∉ l /\
    (forall t, t ∈ p :: l -> t mod PGSIZE = 0 /\ s.(k_end) <= t /\ t + PGSIZE <= KERNBASE + 4 * 1024 * 1024) /\
    (forall vpn, 0 <= vpn < 2 ^ 20 -> entry s'.(k_mem) p vpn = kernel_entry s.(k_datasym) vpn).
Proof.
  intros Hk Hroom Hfl Hd. destruct (kinit1_pages s Hk Hroom Hfl) as (s1 & p & l & E1 & Hrep & Hlen & _ & He1 & Hd1 & Hu1 & _ & Hel).
  destruct (setupkvm_ok 0 None ∅ p l s1) as (s2 & l' & E2 & Hok & Hen & (pre & Hpre) & _ & _ & _ & (m' & fl' & Hq));
    [by left|apply not_elem_of_empty|done|by rewrite He1|by rewrite Hd1|lia|].
  exists (s2<|k_kpgdir := p|><|k_cr3 := V2P p|>), l', p. destruct Hok as [_ _ Hfree _ Hpt]. split_and!; try done.
  - unfold early_memory, kvmalloc. kret. kret_by exact E1. kret_by exact E2. kret. done.
  - cbn. by destruct Hq as (b & cs & lks & ->).
  - by destruct (pt_dir _ _ _ _ Hpt).
  - intros t Ht. apply Hel. rewrite Hpre. apply elem_of_cons in Ht as [->|Ht]; [|set_solver]. rewrite <- Hpre. left.
  - intros vpn Hv. change (entry (k_mem s2) p vpn = kernel_entry (k_datasym s) vpn). rewrite Hen by done. by rewrite Hd1.
Qed.

Lemma early_memory_maps_witness :
  exists s' p, early_memory (loaded 0x80115000 0x80108000) = Ret tt s' /\ s'.(k_kpgdir) = p /\
    entry s'.(k_mem) p 0x80000 = 3 /\ entry s'.(k_mem) p 0x80107 = 0x107001 /\ entry s'.(k_mem) p 0 = 0.
Proof.
  destruct (early_memory_maps (loaded 0x80115000 0x80108000)) as (s' & l & p & E & Ep & _ & _ & _ & _ & _ & Hen);
    [done|done|done|by vm_compute|].
  exists s', p. split; [exact E|]. split; [exact Ep|]. rewrite !Hen by lia. vm_compute. auto.
Defined.

Lemma setupkvm_maps_witness :
  exists s p s', setupkvm s = Ret p s' /\ entry s'.(k_mem) p 0xFE000 = 0xFE000003.
Proof.
  destruct (kinit1_pages (loaded 0x80115000 0x80108000)) as (s & p & l & _ & Hrep & Hlen & _ & He & Hd & Hu & _); [done|done|done|].
  destruct (setupkvm_maps 0 None ∅ p l s) as (s' & l' & E & _ & Hen & _);
    [by left|apply not_elem_of_empty|exact Hrep|by rewrite He|rewrite Hd; by vm_compute|exact Hlen|].
  exists s, p, s'. split; [exact E|]. destruct (Hen 0xFE000) as [-> _]; [lia|]. rewrite Hd. vm_compute. reflexivity.
Defined.
