(* ===== verification/Copyuvm.v ===== *)
(** * The memory of a new process (vm.c): copyuvm

    What fork gives the child: an address space with the kernel's pages and its
    own copy of every page of the parent. *)

From S2P Require Import Prelude State Spinlock Thread CString Cprintf Kalloc Vm Paging Freevm Kvm.

(** Translation of a mapped page: what its permissions allow. *)
Lemma xlate_map_entry kend m pgdir l va st p perm :
  KERNBASE <= kend -> pt_ok kend m pgdir l -> 0 <= va < 2 ^ 32 -> page_ok kend p -> 0 <= perm < PGSIZE ->
  entry m pgdir (va / PGSIZE) = map_entry (V2P p) perm ->
  xlate m pgdir va st = if negb st || truth (Z.land perm PTE_W) then Some (p + va mod PGSIZE) else None.
Proof.
  intros Hk Hpt Hva Hp Hperm He. rewrite (xlate_entry kend m pgdir l) by done. rewrite He. cbv zeta.
  destruct (page_phys kend p Hk Hp) as (_ & Hal & Hr & Hpv).
  destruct (map_entry_flags (V2P p) perm Hal) as (_ & -> & -> & ->); [unfold PHYSTOP in *; lia|done|]. cbn [andb].
  destruct (negb st || _); [|done]. rewrite Hpv. f_equal. apply u32_small. destruct Hp as (_ & _ & Hpr).
  pose proof (Z.mod_pos_bound va PGSIZE ltac:(done)). unfold KERNBASE, PHYSTOP, PGSIZE in *. lia.
Qed.

(** ** The parent *)

(** The first [n] pages of the parent are mapped to pages that are not free. *)
Record parent_ok (kend : Z) (m0 : mem) (pgdir : Z) (A : list Z) (n : Z) : Prop := {
  pa_pt : pt_ok kend m0 pgdir A;
  pa_page vpn : 0 <= vpn < n ->
    exists t f, entry m0 pgdir vpn = map_entry (V2P t) f /\ 0 <= f < PGSIZE /\ page_ok kend t /\ t ∉ A
}.

Section Copy.
Context (i : nat) (q : option nat) (ls : gset lockid).
(** The parent's directory and the child's, the pages that were free, memory and
    state at the call and the number of pages. *)
Context (pgdir d : Z) (A : list Z) (kend data : Z) (m0 : mem) (s0 : kernel) (n : Z).
Hypothesis Hk : KERNBASE <= kend.
Hypothesis HA : forall p, p ∈ A -> page_ok kend p.
Hypothesis Hpar : parent_ok kend m0 pgdir A n.
Hypothesis Hn : n <= 2 ^ 19.

(** Page [p] is the child's copy of page [vpn]. *)
Definition copy_of (m : mem) (vpn p : Z) : Prop :=
  exists t f, entry m0 pgdir vpn = map_entry (V2P t) f /\ 0 <= f < PGSIZE /\ page_ok kend t /\ t ∉ A /\
    entry m d vpn = map_entry (V2P p) f /\ forall o, 0 <= o < PGSIZE -> m (p + o) = m0 (t + o).

(** The loop has copied the first pages, to [ps]; [l] is free. *)
Record copying (ps l : list Z) (s : kernel) : Prop := {
  cp_vm : vm_ok i q ls d l s;
  cp_end : s.(k_end) = kend;
  cp_free p : p ∈ l -> p ∈ A;
  cp_pt t : page_ok kend t -> pt_page s.(k_mem) d t -> t ∈ A;
  cp_mem x : (forall p, p ∈ A -> ~ in_page p x) -> s.(k_mem) x = m0 x;
  cp_nodup : NoDup ps;
  cp_own p : p ∈ ps -> page_ok kend p /\ p ∈ A /\ p ∉ l /\ ~ pt_page s.(k_mem) d p;
  cp_copy v p : ps !! v = Some p -> copy_of s.(k_mem) (Z.of_nat v) p;
  cp_rest vpn : Z.of_nat (length ps) <= vpn < 2 ^ 20 -> entry s.(k_mem) d vpn = kernel_entry data vpn;
  cp_acct : account d A l ps s;
  cp_quiet : exists m fl, quiet (s0<|k_mem := m|><|k_freelist := fl|>) s
}.

(** Pages that were not free are apart from those that were. *)
Lemma apart_from_free t x : page_ok kend t -> t ∉ A -> in_page t x -> forall p, p ∈ A -> ~ in_page p x.
Proof.
  intros Ht Hn' Hx p Hp. assert (p <> t) by (by intros ->).
  destruct (pages_apart _ _ p t (HA p Hp) Ht); unfold in_page in *; [done|lia..].
Qed.

Lemma parent_table t : page_ok kend t -> pt_page m0 pgdir t -> t ∉ A.
Proof.
  intros Ht [->|(e & He & Ee)]; [by destruct (pt_dir _ _ _ _ (pa_pt _ _ _ _ _ Hpar))|].
  destruct (table_pde _ t Hk Ht) as [E Hpr].
  destruct (pt_tab _ _ _ _ (pa_pt _ _ _ _ _ Hpar) e He) as (t' & Et & Ht' & Hnl & _); [by rewrite Ee|].
  rewrite Ee in Et. destruct (table_pde _ t' Hk Ht') as [E' _]. by assert (t' = t) as -> by congruence.
Qed.

(** The parent is as it was. *)
Lemma copying_parent ps l s : copying ps l s ->
  vm_ok i q ls pgdir l s /\ forall vpn, 0 <= vpn < 2 ^ 20 -> entry s.(k_mem) pgdir vpn = entry m0 pgdir vpn.
Proof.
  intros [[Hrun Hlk Hfr Hke _] He Hsub _ Hm _ _ _ _ _ _].
  destruct (entry_ext kend m0 (k_mem s) pgdir A Hk (pa_pt _ _ _ _ _ Hpar)) as (_ & Hen & Hpt).
  { intros t x Ht Hpp Hx. apply Hm. apply (apart_from_free t); [done|by apply parent_table|done]. }
  split; [|done]. split; try done. rewrite He. destruct Hpt as [[H1 H2] H3 H4]. split; [split; [done|by intros H%Hsub]| |done].
  intros e Hd Hpr. destruct (H3 e Hd Hpr) as (t & ? & ? & Hnt & ?). exists t. split_and!; [done..|by intros Hin%Hsub|done].
Qed.

(** The entry of the parent that the loop reads. *)
Lemma copy_read ps l s v : copying ps l s -> 0 <= v < n ->
  exists t f r, entry m0 pgdir v = map_entry (V2P t) f /\ 0 <= f < PGSIZE /\ page_ok kend t /\ t ∉ A /\
    walkpgdir pgdir (v * PGSIZE) false s = Ret r s /\ r <> 0 /\ load32 s.(k_mem) r = map_entry (V2P t) f.
Proof.
  intros Hc Hv. destruct (copying_parent ps l s Hc) as [Hok Hen]. destruct (pa_page _ _ _ _ _ Hpar v Hv) as (t & f & E & Hf & Ht & HtA).
  destruct (page_phys kend t Hk Ht) as (_ & Hal & Hr & _).
  destruct (map_entry_flags (V2P t) f Hal) as (_ & _ & Hpr & _); [unfold PHYSTOP in *; lia|done|].
  assert (Ev : v * PGSIZE / PGSIZE = v) by (by rewrite Z.div_mul). rewrite <- (Hen v ltac:(lia)) in E.
  assert (Hpde : present (pde (k_mem s) pgdir (v / 1024)) = true).
  { destruct (present (pde (k_mem s) pgdir (v / 1024))) eqn:Ep; [done|]. unfold entry in E. rewrite Ep in E.
    rewrite <- E in Hpr. done. }
  assert (Hva : 0 <= v * PGSIZE < 2 ^ 32) by (unfold PGSIZE; lia).
  destruct (walkpgdir_present i q ls pgdir l s (v * PGSIZE) false Hok Hva) as (tb & Htb & Etb & Ew); [by rewrite Ev|].
  destruct (PTX_spec (v * PGSIZE) Hva) as [Epx Hpx]. rewrite Ev in Epx, Etb.
  exists t, f, (tb + 4 * PTX (v * PGSIZE)). split_and!; try done; [by rewrite <- (Hen v ltac:(lia))|lia|lia| |].
  - destruct Htb as (_ & _ & Hp). unfold KERNBASE in *. lia.
  - rewrite <- E. unfold entry. rewrite Hpde, Etb, Epx. rewrite (cp_end _ _ _ Hc) in Htb.
    by rewrite (proj1 (table_pde _ tb Hk Htb)).
Qed.

(** The pages [ps1] are added, if any. *)
Lemma copying_step ps ps1 l s l3 s3 : copying ps l s ->
  vm_ok i q ls d l3 s3 -> vm_step d s l s3 l3 ps1 -> NoDup ps1 ->
  (forall p, p ∈ ps1 -> page_ok kend p /\ p ∉ l3 /\ ~ pt_page s3.(k_mem) d p) ->
  (forall v p, ps1 !! v = Some p -> copy_of s3.(k_mem) (Z.of_nat (length ps + v)) p) ->
  (forall vpn, 0 <= vpn < 2 ^ 20 -> ~ Z.of_nat (length ps) <= vpn < Z.of_nat (length ps + length ps1) ->
     entry s3.(k_mem) d vpn = entry s.(k_mem) d vpn) ->
  Z.of_nat (length ps) <= n -> copying (ps ++ ps1) l3 s3.
Proof.
  intros Hc Hok3 Hst Hnd1 Hp1 Hcp Hen Hlen. pose proof Hc as [Hok He Hsub Hpt Hm Hnd Hown Hcopy Hrest Hacc Hq].
  pose proof (vm_step_end _ _ _ _ _ _ Hst) as He3.
  assert (Hkeep : forall p', p' ∈ ps -> (forall x, in_page p' x -> k_mem s3 x = k_mem s x) /\ p' ∉ l3 /\ ~ pt_page (k_mem s3) d p').
  { intros p' Hp'. destruct (Hown p' Hp') as (H1 & _ & H3 & H4). eapply step_keeps_page; [exact Hok|done|by rewrite He|done|done]. }
  split; [done|by rewrite He3| | | | | | | |by eapply account_step|destruct Hq as (m & fl & Hq), (vs_quiet _ _ _ _ _ _ Hst) as (m' & fl' & Hq'); exists m', fl'; by quiet_by Hq Hq'].
  - destruct (vs_free _ _ _ _ _ _ Hst) as (pre & E). intros p' Hp'. apply Hsub. rewrite E. set_solver.
  - intros t Ht Hpp. destruct (vs_pt _ _ _ _ _ _ Hst t) as [H|H]; [by rewrite He|done|by apply Hpt|by apply Hsub].
  - intros x Hx. rewrite (vs_mem _ _ _ _ _ _ Hst), Hm; [done|done| |intros p' Hp'; by apply Hx, Hsub].
    intros t Ht Hpp. apply Hx, Hpt; [by rewrite <- He|done].
  - apply list.NoDup_app. split_and!; [done| |done].
    intros p' Hp' Hin. destruct (Hown p' Hp') as (_ & _ & H & _). by apply H, (vs_given _ _ _ _ _ _ Hst).
  - intros p' [Hp'|Hp']%elem_of_app.
    + destruct (Hown p' Hp') as (? & ? & _ & _), (Hkeep p' Hp') as (_ & ? & ?). done.
    + destruct (Hp1 p' Hp') as (? & ? & ?). split_and!; [done|by apply Hsub, (vs_given _ _ _ _ _ _ Hst)|done|done].
  - intros v p' [Hv|[Hv Hv2]]%lookup_app_Some.
    + destruct (Hcopy v p' Hv) as (t & f & E & Hf & Ht & HtA & E' & Hb). exists t, f. split_and!; try done; [lia|lia| |].
      * apply lookup_lt_Some in Hv. rewrite Hen by lia. done.
      * intros o Ho. destruct (Hkeep p') as (Hx & _); [by eapply list_elem_of_lookup_2|]. rewrite Hx by (unfold in_page; lia). by apply Hb.
    + replace v with (length ps + (v - length ps))%nat by lia. by apply Hcp.
  - intros vpn. rewrite length_app. intros Hvpn. rewrite Hen by lia. apply Hrest. lia.
Qed.

(** One page: copied, or there is no memory. *)
Lemma copy_page ps l s : copying ps l s -> Z.of_nat (length ps) < n ->
  let v := Z.of_nat (length ps) in
  exists r e p s1, walkpgdir pgdir (v * PGSIZE) false s = Ret r s /\ r <> 0 /\
    load32 s.(k_mem) r = e /\ present e = true /\ kalloc s = Ret p s1 /\
    (p = 0 /\ l = [] /\ copying ps [] s1 \/
     p <> 0 /\ exists m s3 l3,
       mappages d (v * PGSIZE) PGSIZE (V2P p) (PTE_FLAGS e) (s1<|k_mem ::= fun m => memmove m p (P2V (PTE_ADDR e)) PGSIZE|>)
         = Ret m s3 /\
       (m = 0 /\ copying (ps ++ [p]) l3 s3 /\ (length l <= length l3 + 2)%nat \/
        m = -1 /\ l = [p] /\ exists s4, kfree p s3 = Ret tt s4 /\ copying ps l s4)).
Proof.
  intros Hc Hlt v. destruct (copy_read ps l s v Hc) as (t & f & r & E0 & Hf & Ht & HtA & Ew & Hr & Er); [lia|].
  pose proof Hc as [Hok He Hsub _ Hm _ _ _ Hrest _ _].
  destruct (page_phys kend t Hk Ht) as (_ & Hal & Hpr & Hpv).
  destruct (map_entry_flags (V2P t) f Hal) as (Hfl & Had & Hpre & _); [unfold PHYSTOP in *; lia|done|].
  assert (Hkeep : forall s' l', vm_ok i q ls d l' s' -> vm_step d s l s' l' [] ->
    (forall vpn, 0 <= vpn < 2 ^ 20 -> entry (k_mem s') d vpn = entry (k_mem s) d vpn) -> copying ps l' s').
  { intros s' l' Hok' Hst' Hen'. rewrite <- (app_nil_r ps). eapply copying_step; try done; [by apply list.NoDup_nil|by intros p ?%elem_of_nil|by intros; apply Hen'|lia]. }
  destruct l as [|p l].
  { destruct (kalloc_none i q ls d s Hok) as (s1 & E1 & Hok1 & Hst1 & Hm1). exists r, (map_entry (V2P t) f), 0, s1. split_and!; try done.
    left. split_and!; [done|done|]. apply Hkeep; [done|done|]. by rewrite Hm1. }
  pose proof (HA p ltac:(apply Hsub; left)) as Hp.
  assert (Hmv : forall x, memmove (k_mem s) p t PGSIZE x = copied (k_mem s) p t PGSIZE x).
  { intros x. pose proof Hp as (_ & _ & ?). pose proof Ht as (_ & _ & ?). unfold KERNBASE, PHYSTOP, PGSIZE in *. apply memmove_lookup; lia. }
  destruct (map_entry_lor 0 f eq_refl Hf) as [_ Hf'].
  destruct (install_try i q ls d l s v p (Z.lor f PTE_P) (fun m => memmove m p t PGSIZE) Hok)
    as (s1 & m & s3 & l3 & E1 & E3 & Hok3 & Hst3 & Hlen3 & (Hpk & Hpl3 & Hnp3) & Hres); [lia| |done| |].
  { rewrite Hrest by lia. unfold kernel_entry. by replace (v <? 0x80000) with true by lia. }
  { intros x Hx. rewrite Hmv. unfold copied. unfold in_page in Hx. by replace ((p <=? x) && (x <? p + PGSIZE)) with false by lia. }
  exists r, (map_entry (V2P t) f), p, s1. rewrite Hfl, Had, Hpv. split_and!; try done. right.
  split; [by apply (page_ok_not_null (k_end s))|]. exists m, s3, l3. split; [done|].
  destruct Hres as [(-> & Hz & Hm3)|(-> & -> & -> & Hm3)]; [left|right].
  - split_and!; [done| |cbn; lia]. eapply copying_step; try done; [apply list.NoDup_singleton| | | |lia].
    + intros p' ->%list_elem_of_singleton. done.
    + intros v' p' [-> <-]%list_lookup_singleton_Some. rewrite Nat.add_0_r. fold v. exists t, f. split_and!; try done; [lia|lia| |].
      * rewrite Hm3 by lia. replace ((v <=? v) && (v <? v + 1)) with true by lia. rewrite Z.sub_diag, Z.mul_0_l, Z.add_0_r.
        unfold map_entry. by rewrite <- Z.lor_assoc.
      * intros o Ho. rewrite Hz by (unfold in_page; lia). rewrite Hmv. unfold copied.
        replace ((p <=? p + o) && (p + o <? p + PGSIZE)) with true by lia. replace (t + (p + o - p)) with (t + o) by lia.
        apply Hm. apply (apart_from_free t); [done|done|unfold in_page; lia].
    + cbn [length]. intros vpn Hvpn Hne'. rewrite Hm3 by done. replace ((v <=? vpn) && (vpn <? v + 1)) with false by lia. done.
  - split_and!; [done|done|]. destruct (install_undo i q ls d s s3 p Hok3 Hst3 Hpk Hnp3) as (s4 & E4 & Hok4 & Hst4 & Hen4).
    exists s4. split; [done|]. apply Hkeep; [done|done|]. intros vpn Hvpn. rewrite Hen4, Hm3 by done.
    by replace ((v <=? vpn) && (vpn <? v + 0)) with false by lia.
Qed.

Lemma copyuvm_loop_ok sz k : forall fuel ps l s,
  copying ps l s -> Z.of_nat (length ps) + Z.of_nat k = n -> sz <= n * PGSIZE ->
  ((0 < k)%nat -> (n - 1) * PGSIZE < sz) -> (k < fuel)%nat ->
  exists b ps' l' s', copyuvm_loop fuel pgdir d (Z.of_nat (length ps) * PGSIZE) sz s = Ret b s' /\
    copying ps' l' s' /\ Z.of_nat (length ps') <= n /\ if b then Z.of_nat (length ps') = n else (length l < 2 * k)%nat.
Proof.
  induction k as [|k IH]; intros [|fuel] ps l s Hc Hlen Hsz Hlast Hf; try lia; cbn [copyuvm_loop].
  - exists true, ps, l, s. replace (_ <? sz) with false by (unfold PGSIZE in *; lia). split_and!; [done|done|lia|lia].
  - destruct (copy_page ps l s Hc) as (r & e & p & s1 & Ew & Hr & Ee & Hpre & E1 & Hres); [lia|].
    replace (_ <? sz) with true by (unfold PGSIZE in *; lia). cbn [negb].
    kret_by exact Ew. rewrite (proj2 (Z.eqb_neq r 0) Hr). unfold rd32, gets. kret. rewrite Ee.
    unfold present in Hpre. rewrite Hpre. cbn [negb]. kret_by exact E1.
    destruct Hres as [(-> & -> & Hc1)|(Hp0 & m & s3 & l3 & E3 & Hres)].
    { exists false, ps, [], s1. split_and!; [done|done|lia|cbn; lia]. }
    rewrite (proj2 (Z.eqb_neq p 0) Hp0). kret. kret_by exact E3. destruct Hres as [(-> & Hc3 & Hl3)|(-> & -> & s4 & E4 & Hc4)].
    + cbn [Z.ltb Z.compare]. rewrite u32_small by (unfold PGSIZE; lia).
      destruct (IH fuel (ps ++ [p]) l3 s3 Hc3) as (b & ps' & l' & s' & E' & Hc' & Hle' & Hb); [rewrite length_app; cbn; lia|lia|lia|lia|].
      rewrite length_app in E'. cbn [length] in E'.
      replace (Z.of_nat (length ps) * PGSIZE + PGSIZE) with (Z.of_nat (length ps + 1) * PGSIZE) by lia.
      exists b, ps', l', s'. split_and!; try done. destruct b; lia.
    + change (-1 <? 0) with true. cbv iota. exists false, ps, [p], s4. split_and!; [by kret_by exact E4|done|lia|cbn; lia].
Qed.

(** What the finished loop shows the child. *)
Section Copied.
Context (ps l : list Z) (s : kernel).
Hypothesis Hc : copying ps l s.
Hypothesis Hps : Z.of_nat (length ps) = n.

Lemma copied_page va : 0 <= va < n * PGSIZE ->
  exists c t, ps !! Z.to_nat (va / PGSIZE) = Some c /\ c ∈ ps /\ t ∉ A /\
    (forall o, 0 <= o < PGSIZE -> s.(k_mem) (c + o) = m0 (t + o)) /\
    Z.land (entry s.(k_mem) d (va / PGSIZE)) 0xFFF = Z.land (entry m0 pgdir (va / PGSIZE)) 0xFFF /\
    exists w : bool, forall st,
      xlate m0 pgdir va st = (if negb st || w then Some (t + va mod PGSIZE) else None) /\
      xlate s.(k_mem) d va st = (if negb st || w then Some (c + va mod PGSIZE) else None).
Proof.
  intros Hva. assert (Hv : 0 <= va / PGSIZE < n) by (unfold PGSIZE in *; Z.to_euclidean_division_equations; lia).
  destruct (lookup_lt_is_Some_2 ps (Z.to_nat (va / PGSIZE))) as (c & Hcl); [lia|].
  pose proof (list_elem_of_lookup_2 _ _ _ Hcl) as Hin. destruct (cp_own _ _ _ Hc c Hin) as (Hcok & _).
  destruct (cp_copy _ _ _ Hc _ _ Hcl) as (t & f & E & Hf & Ht & HtA & E' & Hb). rewrite Z2Nat.id in E, E' by lia.
  exists c, t. split_and!; try done; [by rewrite E, E', !(page_entry_flags kend)|].
  exists (truth (Z.land f PTE_W)). intros st.
  pose proof (vo_pt _ _ _ _ _ _ (cp_vm _ _ _ Hc)) as Hpt. rewrite (cp_end _ _ _ Hc) in Hpt.
  split; (eapply xlate_map_entry; [exact Hk| |unfold PGSIZE in *; lia|done|exact Hf|done]); [exact (pa_pt _ _ _ _ _ Hpar)|exact Hpt].
Qed.

Lemma copied_inj va va' st b : 0 <= va < n * PGSIZE -> 0 <= va' < n * PGSIZE ->
  xlate s.(k_mem) d va st = Some b -> xlate s.(k_mem) d va' st = Some b -> va = va'.
Proof.
  intros Hva Hva'. destruct (copied_page va Hva) as (c & t & Hl1 & Hin & _ & _ & _ & w & Hx), (copied_page va' Hva') as (c' & t' & Hl2 & Hin' & _ & _ & _ & w' & Hx').
  destruct (Hx st) as (_ & ->), (Hx' st) as (_ & ->). destruct (negb st || w), (negb st || w'); try done. intros [= <-] [= E].
  destruct (cp_own _ _ _ Hc c Hin) as (Hp & _), (cp_own _ _ _ Hc c' Hin') as (Hp' & _).
  assert (Hcc : c = c').
  { destruct (decide (c = c')) as [|Hne]; [done|]. destruct (pages_apart _ _ c c' Hp Hp' Hne); unfold PGSIZE in *;
      Z.to_euclidean_division_equations; lia. }
  subst c'. assert (Z.to_nat (va / PGSIZE) = Z.to_nat (va' / PGSIZE)) by (eapply NoDup_lookup; [apply (cp_nodup _ _ _ Hc)|done..]).
  unfold PGSIZE in *. Z.to_euclidean_division_equations. lia.
Qed.
End Copied.
End Copy.

(** ** fork's memory *)

(** The parent sees nothing of changes to free pages. *)
Lemma parent_kept (kend pgdir n : Z) (A : list Z) (m0 m : mem) :
  KERNBASE < kend -> (forall p, p ∈ A -> page_ok kend p) -> parent_ok kend m0 pgdir A n ->
  (forall x, (forall p, p ∈ A -> ~ in_page p x) -> m x = m0 x) ->
  (forall vpn, 0 <= vpn < 2 ^ 20 -> entry m pgdir vpn = entry m0 pgdir vpn) /\
  (forall va st, 0 <= va < 2 ^ 32 -> xlate m pgdir va st = xlate m0 pgdir va st).
Proof.
  intros Hk HA Hpar Hm. destruct (entry_ext kend m0 m pgdir A ltac:(lia) (pa_pt _ _ _ _ _ Hpar)) as (_ & Hen & Hpt).
  { intros t x Ht Hpp Hx. apply Hm. eapply (apart_from_free A kend HA t); [done|eapply (parent_table pgdir A kend m0 n); [lia|done|done|done]|done]. }
  split; [exact Hen|]. intros va st Hva.
  rewrite (xlate_entry kend m pgdir A) by (done || lia). rewrite (xlate_entry kend m0 pgdir A) by (lia || done || apply Hpar).
  rewrite Hen; [done|]. change PGSIZE with 4096. Z.to_euclidean_division_equations. lia.
Qed.

(** A free page [k] is taken for something else. *)
Section Taken.
Context (kend pgdir n k : Z) (A : list Z) (m0 m : mem).
Hypothesis Hk : KERNBASE < kend.
Hypothesis HA : forall p, p ∈ k :: A -> page_ok kend p.
Hypothesis Hpar : parent_ok kend m0 pgdir (k :: A) n.
Hypothesis Hm : forall x, ~ in_page k x -> m x = m0 x.
Hypothesis Hn : n <= 2 ^ 19.

Lemma parent_taken : parent_ok kend m pgdir A n.
Proof.
  destruct (entry_ext kend m0 m pgdir (k :: A) ltac:(lia) (pa_pt _ _ _ _ _ Hpar)) as (_ & Hen & Hpt).
  { intros t x Ht Hpp Hx. apply Hm, (apart_from_free (k :: A) kend HA t); [done| |done|left]. eapply parent_table; [|exact Hpar|done|done]. lia. }
  split.
  - destruct Hpt as [[H1 H2] H3 H4]. split; [split; [done|set_solver]| |done].
    intros d Hd Hpr. destruct (H3 d Hd Hpr) as (t & ? & ? & ? & ?). exists t. split_and!; [done..|set_solver|done].
  - intros vpn Hv. destruct (pa_page _ _ _ _ _ Hpar vpn Hv) as (t & f & E & Hf & Ht & HtA). exists t, f.
    rewrite Hen by lia. split_and!; [done|lia|lia|done|set_solver].
Qed.
End Taken.

(** The child's user pages are the copies. *)
Lemma copying_user (i : nat) (q : option nat) (ls : gset lockid) (pgdir d n kend data : Z) (A ps l : list Z) (m0 : mem) (s0 s : kernel) :
  KERNBASE < kend -> n <= 2 ^ 19 -> copying i q ls pgdir d A kend data m0 s0 ps l s -> Z.of_nat (length ps) <= n ->
  owns d s.(k_end) s.(k_mem) l 0 /\ forall t, t ∈ upages d s.(k_mem) 0 (2 ^ 19) <-> t ∈ ps.
Proof.
  intros Hk Hn Hc Hlen. destruct Hc as [Hok He _ _ _ Hnd Hown Hcopy Hrest _ _].
  assert (Hu : forall vpn, 0 <= vpn < 2 ^ 19 -> upage d (k_mem s) vpn = ps !! Z.to_nat vpn).
  { intros vpn Hv. unfold upage. destruct (ps !! Z.to_nat vpn) as [p|] eqn:Ep.
    - destruct (Hcopy _ _ Ep) as (t & f & _ & Hf & _ & _ & E & _). rewrite Z2Nat.id in E by lia. rewrite E.
      destruct (Hown p (list_elem_of_lookup_2 _ _ _ Ep)) as (Hp & _). by destruct (map_entry_page kend p f ltac:(lia) Hp Hf) as [-> ->].
    - apply lookup_ge_None in Ep. rewrite Hrest by lia. unfold kernel_entry. by replace (vpn <? 0x80000) with true by lia. }
  split; [split|].
  - intros vpn t Hv. rewrite Hu by done. intros Et. destruct (Hown t (list_elem_of_lookup_2 _ _ _ Et)) as (Hp & _ & Hnl & Hnp). rewrite He.
    split_and!; [done|destruct Hp as (_ & ? & _); lia|done|done].
  - intros vpn vpn' t Hv Hv'. rewrite !Hu by done. intros E E'. assert (Z.to_nat vpn = Z.to_nat vpn') by (by eapply NoDup_lookup). lia.
  - intros t. rewrite elem_of_upages. split.
    + intros (vpn & Hv & E). rewrite Hu in E by lia. by eapply list_elem_of_lookup_2.
    + intros (v & Ev)%list_elem_of_lookup_1. pose proof (lookup_lt_Some _ _ _ Ev). exists (Z.of_nat v). split; [lia|]. rewrite Hu by lia. by rewrite Nat2Z.id.
Qed.

(** Nothing but the pages that were free has changed. *)
Lemma copying_within (i : nat) (q : option nat) (ls : gset lockid) (pgdir d kend data : Z) (A ps l : list Z) (s s2 : kernel) :
  copying i q ls pgdir d A kend data s.(k_mem) s ps l s2 -> within i q ls s s2 A.
Proof. intros [Hok _ _ _ Hm _ _ _ _ _ Hq]. split; [done|apply Hok|done]. Qed.

(** The state in which the loop starts. *)
Lemma copying_start (i : nat) (q : option nat) (ls : gset lockid) (pgdir : Z) (A : list Z) (s : kernel) :
  can_alloc i q ls s -> LkKmem ∉ ls -> free_rep s A -> KERNBASE <= s.(k_end) -> data_ok s.(k_datasym) ->
  exists r s' l', setupkvm s = Ret r s' /\
    (r = 0 /\ Z.of_nat (length A) <= 67 /\ within i q ls s s' A /\ free_rep s' l' /\ l' ≡ₚ A \/
     r <> 0 /\ r ∈ A /\ Z.of_nat (length A) <= Z.of_nat (length l') + 67 /\
     copying i q ls pgdir r A s.(k_end) s.(k_datasym) s.(k_mem) s [] l' s').
Proof.
  intros Hc Hlk Hfr Hk Hd. destruct (setupkvm_any i q ls A s Hc Hlk Hfr Hk Hd) as (r & s' & l' & E & Hw & Hres).
  exists r, s', l'. split; [done|]. destruct Hres as [(-> & Hl & Hfr' & Hp)|(Hr0 & Hhd & Hok & Hac & (pre & Hpre) & Hlen & Hen)]; [by left|].
  pose proof (within_end _ _ _ _ _ _ Hw) as He. right. split_and!; [done| |done|].
  { destruct A as [|p A]; [by rewrite <- Hhd in Hr0|]. rewrite <- Hhd. left. }
  split; try done.
  - intros p' Hp'. rewrite Hpre. set_solver.
  - intros t Ht Hpp. rewrite <- He in Ht. apply (ac_split _ _ _ _ _ Hac); auto.
  - apply Hw.
  - by apply list.NoDup_nil.
  - by intros p' ?%elem_of_nil.
  - apply Hw.
Qed.

(** copyuvm's calls: the copy, or all pages free again. *)
Lemma copyuvm_cases (i : nat) (q : option nat) (ls : gset lockid) (pgdir sz : Z) (A : list Z) (s : kernel) :
  can_alloc i q ls s -> LkKmem ∉ ls -> free_rep s A -> KERNBASE < s.(k_end) -> data_ok s.(k_datasym) ->
  0 <= sz < KERNBASE -> let n := (sz + 4095) / 4096 in parent_ok s.(k_end) s.(k_mem) pgdir A n ->
  exists r s' l', copyuvm pgdir sz s = Ret r s' /\ within i q ls s s' A /\
    (r = 0 /\ Z.of_nat (length A) < 68 + 2 * n /\ free_rep s' l' /\ l' ≡ₚ A \/
     r <> 0 /\ r ∈ A /\ exists ps, Z.of_nat (length ps) = n /\ copying i q ls pgdir r A s.(k_end) s.(k_datasym) s.(k_mem) s ps l' s').
Proof.
  intros Hc Hlk Hfr Hk Hd Hsz n Hpar. destruct (PGROUNDUP_pages sz Hsz) as (_ & Hn & Hszn). fold n in Hn, Hszn.
  assert (HA : forall p', p' ∈ A -> page_ok (k_end s) p') by (intros p' Hp'; by eapply free_list_page; [apply Hfr|]).
  destruct (copying_start i q ls pgdir A s Hc Hlk Hfr ltac:(lia) Hd) as (d & s1 & l1 & E1 & [(-> & Hl & Hw & Hfr1 & Hp)|(Hd0 & HdA & Hl1 & Hc1)]).
  { exists 0, s1, l1. split_and!; [unfold copyuvm; by kret_by exact E1|done|left; split_and!; [done|lia|done|done]]. }
  destruct (copyuvm_loop_ok i q ls pgdir d A (k_end s) (k_datasym s) (k_mem s) s n ltac:(lia) HA Hpar ltac:(lia) sz (Z.to_nat n)
    (S (Z.to_nat (sz / PGSIZE + 1))) [] l1 s1 Hc1) as (b & ps & l' & s' & E & Hc' & Hle & Hps);
    [cbn; lia|lia|unfold PGSIZE in *; lia| |].
  { unfold n, PGSIZE. assert ((sz + 4095) / 4096 <= sz / 4096 + 1) by (Z.to_euclidean_division_equations; lia). lia. }
  pose proof (copying_within _ _ _ _ _ _ _ _ _ _ _ _ Hc') as Hw'. destruct b.
  - exists d, s', l'. split_and!; [|done|right; split_and!; [done|done|by exists ps]].
    unfold copyuvm. kret_by exact E1. rewrite (proj2 (Z.eqb_neq d 0) Hd0). by kret_by exact E.
  - destruct (copying_user i q ls pgdir d n (k_end s) (k_datasym s) A ps l' (k_mem s) s s' Hk ltac:(lia) Hc' Hle) as [How Hus].
    destruct (freevm_all i q ls d A l' ps s' (cp_vm _ _ _ _ _ _ _ _ _ _ _ _ _ Hc') How (cp_acct _ _ _ _ _ _ _ _ _ _ _ _ _ Hc') Hus)
      as (s2 & l2 & E2 & Hfr2 & Hp2 & Hw2).
    exists 0, s2, l2. split_and!; [|by eapply within_trans|left; split_and!; [done|lia|done|done]].
    unfold copyuvm. kret_by exact E1. rewrite (proj2 (Z.eqb_neq d 0) Hd0). kret_by exact E. cbv iota. by kret_by exact E2.
Qed.

(** The first [n] pages of [d] in [m'] are copies of those of [pgdir] in [m]: the
    same bytes under the same flags, each in a page of its own that was in [A]
    and is not in [l']. *)
Definition copied_space (pgdir : Z) (m : mem) (d : Z) (m' : mem) (n : Z) (A l' : list Z) : Prop :=
  (forall va, 0 <= va < n * PGSIZE -> exists c t, c ∈ A /\ c ∉ l' /\ t ∉ A /\
     (forall o, 0 <= o < PGSIZE -> m' (c + o) = m (t + o)) /\
     Z.land (entry m' d (va / PGSIZE)) 0xFFF = Z.land (entry m pgdir (va / PGSIZE)) 0xFFF /\
     exists w : bool, forall st,
       xlate m pgdir va st = (if negb st || w then Some (t + va mod PGSIZE) else None) /\
       xlate m' d va st = (if negb st || w then Some (c + va mod PGSIZE) else None)) /\
  (forall va va' st b, 0 <= va < n * PGSIZE -> 0 <= va' < n * PGSIZE ->
     xlate m' d va st = Some b -> xlate m' d va' st = Some b -> va = va').

Lemma copying_space (i : nat) (q : option nat) (ls : gset lockid) (pgdir d kend data n : Z) (A ps l : list Z) (m0 : mem) (s0 s : kernel) :
  KERNBASE < kend -> n <= 2 ^ 19 -> parent_ok kend m0 pgdir A n ->
  copying i q ls pgdir d A kend data m0 s0 ps l s -> Z.of_nat (length ps) = n -> copied_space pgdir m0 d s.(k_mem) n A l.
Proof.
  intros Hk Hn Hpar Hc' Hps. split.
  - intros va Hva. edestruct copied_page as (c & t & _ & Hin & Ht & Hb & Hfl & Hx); [|exact Hpar|lia|exact Hc'|exact Hps|exact Hva|]; [lia|].
    destruct (cp_own _ _ _ _ _ _ _ _ _ _ _ _ _ Hc' c Hin) as (_ & Hin2 & Hno & _). by exists c, t.
  - intros va va' st b Hva Hva'. eapply copied_inj; [|exact Hpar|lia|exact Hc'|exact Hps|done|done]; lia.
Qed.

(** The copy was made after page [k] had been taken. *)
Lemma copied_taken (kend pgdir d n k : Z) (A l : list Z) (m0 m m' : mem) :
  KERNBASE < kend -> (forall p, p ∈ k :: A -> page_ok kend p) -> parent_ok kend m0 pgdir (k :: A) n ->
  (forall x, ~ in_page k x -> m x = m0 x) -> n <= 2 ^ 19 ->
  copied_space pgdir m d m' n A l -> copied_space pgdir m0 d m' n (k :: A) l.
Proof.
  intros Hk HA Hpar Hm Hn [H1 H2]. split; [|done]. intros va Hva.
  destruct (H1 va Hva) as (c & t & Hc & Hcl & _ & Hb & Hfl & w & Hx).
  assert (Hv : 0 <= va / PGSIZE < n) by (unfold PGSIZE in *; Z.to_euclidean_division_equations; lia).
  destruct (pa_page _ _ _ _ _ Hpar _ Hv) as (t' & f & E & Hf & Ht' & HtA). destruct (Hx false) as [Hxf _]. cbn [negb orb] in Hxf.
  destruct (parent_kept kend pgdir n (k :: A) m0 m Hk HA Hpar) as [Hen Hsame]; [intros x Hx'; apply Hm, Hx'; left|].
  rewrite Hsame, (xlate_map_entry kend m0 pgdir (k :: A) va false t' f) in Hxf by (done || lia || apply Hpar || (unfold PGSIZE in *; lia)).
  cbn [negb orb] in Hxf. injection Hxf as Hxf. assert (t = t') as -> by lia.
  exists c, t'. split_and!; [by right|done|done| |by rewrite <- Hen by lia|].
  - intros o Ho. rewrite Hb by done. apply Hm, (apart_from_free (k :: A) kend HA t'); [done|done|unfold in_page; lia|left].
  - exists w. intros st. rewrite <- Hsame by (unfold PGSIZE in *; lia). apply Hx.
Qed.

(** C15: the memory of a child.  copyuvm returns a page directory or null.  It
    returns null only when memory is short, and then every page that was free
    is free again.  Otherwise every address below the size holds in the new
    address space the byte it holds in the parent, under an entry with the same
    flags (present, writable, accessible to user code and the others), in a page
    that was free and that no other address of the child shares; the addresses from the size up to the kernel are not mapped, and those of the
    kernel are mapped as setupkvm maps them; and freevm would give all the pages
    back.  In both cases the parent's address space and everything else that was
    not free is unchanged, so neither process sees the other's stores. *)
Theorem copyuvm_copies (i : nat) (q : option nat) (ls : gset lockid) (pgdir sz : Z) (A : list Z) (s : kernel) :
  can_alloc i q ls s -> LkKmem ∉ ls -> free_rep s A -> KERNBASE < s.(k_end) -> data_ok s.(k_datasym) ->
  0 <= sz < KERNBASE -> let n := (sz + 4095) / 4096 in parent_ok s.(k_end) s.(k_mem) pgdir A n ->
  exists r s' l', copyuvm pgdir sz s = Ret r s' /\ free_rep s' l' /\
    (r = 0 /\ Z.of_nat (length A) < 68 + 2 * n /\ l' ≡ₚ A \/
     r <> 0 /\
     copied_space pgdir s.(k_mem) r s'.(k_mem) n A l' /\
     (forall vpn, n <= vpn < 2 ^ 20 -> entry s'.(k_mem) r vpn = kernel_entry s.(k_datasym) vpn) /\
     exists s2 l2, freevm r s' = Ret tt s2 /\ free_rep s2 l2 /\ l2 ≡ₚ A) /\
    (forall vpn, 0 <= vpn < 2 ^ 20 -> entry s'.(k_mem) pgdir vpn = entry s.(k_mem) pgdir vpn) /\
    (forall va st, 0 <= va < 2 ^ 32 -> xlate s'.(k_mem) pgdir va st = xlate s.(k_mem) pgdir va st) /\
    (forall x, (forall p', p' ∈ A -> ~ in_page p' x) -> s'.(k_mem) x = s.(k_mem) x).
Proof.
  intros Hc Hlk Hfr Hk Hd Hsz n Hpar.
  destruct (copyuvm_cases i q ls pgdir sz A s Hc Hlk Hfr Hk Hd Hsz Hpar) as (r & s' & l' & E & Hw & Hres).
  assert (HA : forall p', p' ∈ A -> page_ok (k_end s) p') by (intros p' Hp'; by eapply free_list_page; [apply Hfr|]).
  exists r, s', l'. split; [done|]. split; [destruct Hres as [(_ & _ & H & _)|(_ & _ & ps & _ & Hc')]; [done|apply Hc']|].
  destruct (parent_kept (k_end s) pgdir n A (k_mem s) (k_mem s') Hk HA Hpar (wi_mem _ _ _ _ _ _ Hw)) as [Hen Hx].
  split; [|split_and!; [exact Hen|exact Hx|apply Hw]].
  destruct Hres as [(-> & Hl & _ & Hp)|(Hr0 & _ & ps & Hps & Hc')]; [by left|right]. destruct (PGROUNDUP_pages sz Hsz) as (_ & Hn & _). fold n in Hn.
  pose proof Hc' as [Hok _ _ _ _ _ _ _ Hrest Hac _]. rewrite Hps in Hrest. split_and!; [done|by eapply copying_space; [exact Hk|lia|..]|done|].
  - destruct (copying_user i q ls pgdir r n (k_end s) (k_datasym s) A ps l' (k_mem s) s s' Hk ltac:(lia) Hc' ltac:(lia)) as [How Hus].
    destruct (freevm_all i q ls r A l' ps s' Hok How Hac Hus) as (s2 & l2 & E2 & Hfr2 & Hp2 & _). by exists s2, l2.
Qed.

(** A parent with one page, in the machine that main starts on. *)
Lemma one_page_parent : exists s p l pgdir,
  can_alloc 0 None ∅ s /\ free_rep s (p :: l) /\ s.(k_end) = 0x80115000 /\ s.(k_datasym) = 0x80108000 /\
  100 < Z.of_nat (length l) /\ parent_ok s.(k_end) s.(k_mem) pgdir (p :: l) 1.
Proof.
  destruct (kinit1_pages (loaded 0x80115000 0x80108000)) as (s & d & l & _ & Hrep & Hlen & Hl & He & Hd & Hu & _); [done|done|done|].
  assert (Hl' : length l = 746%nat) by (enough (S (length l) = 747%nat) by lia; rewrite Hl; vm_compute; reflexivity). clear Hl.
  destruct (setupkvm_ok 0 None ∅ d l s) as (s1 & l1 & _ & Hok1 & Hen1 & _ & Hlen1 & _ & _ & Hq);
    [by left|apply not_elem_of_empty|exact Hrep|by rewrite He|rewrite Hd; by vm_compute|exact Hlen|].
  destruct l1 as [|p l1]; [cbn in Hlen1; lia|].
  destruct (allocuvm_try 0 None ∅ d l1 s1 0 p Hok1) as (_ & r & s3 & l3 & _ & _ & Hlen3 & _ & _ & Hr); [lia|by rewrite Hen1 by lia|].
  destruct Hr as [(_ & [Hok3 Hst3 Hfp Hen3])|(_ & -> & _)]; [|cbn in Hlen1; lia].
  destruct l3 as [|p' l3]; [cbn [length] in *; lia|]. pose proof (vm_step_end _ _ _ _ _ _ Hst3) as He3.
  assert (k_end s1 = k_end s /\ k_datasym s1 = k_datasym s) as [He1 Hd1] by (by destruct Hq as (? & ? & ? & ? & ? & ->)).
  exists s3, p', l3, d. destruct Hok3 as [Hc _ Hfr _ Hpt]. split_and!; [done|done|by rewrite He3, He1, He| |cbn [length] in *; lia|].
  - destruct (vs_quiet _ _ _ _ _ _ Hst3) as (? & ? & ? & ? & ? & ->). cbn. by rewrite Hd1, Hd.
  - split; [done|]. intros vpn Hvpn. replace vpn with 0 by lia. destruct (fp_page _ _ _ _ _ _ Hfp p ltac:(left)) as (Hp & _ & Hno & _).
    exists p, (Z.lor PTE_W PTE_U). rewrite Hen3 by lia. split_and!; try done. by rewrite He3.
Qed.

Lemma copyuvm_copies_witness :
  exists s pgdir r s' s2, copyuvm pgdir 100 s = Ret r s' /\ r <> 0 /\ freevm r s' = Ret tt s2 /\
    (forall x, x < KERNBASE -> s'.(k_mem) x = s.(k_mem) x).
Proof.
  destruct one_page_parent as (s & p & l & pgdir & Hc & Hfr & He & Hd & Hlen & Hpar).
  destruct (copyuvm_copies 0 None ∅ pgdir 100 (p :: l) s Hc) as (r & s' & l' & E & _ & Hres & _ & _ & Hm);
    [apply not_elem_of_empty|exact Hfr|by rewrite He|rewrite Hd; by vm_compute|by vm_compute|exact Hpar|].
  destruct Hres as [(_ & Hshort & _)|(Hr & _ & _ & s2 & _ & E2 & _)]; [vm_compute Z.div in Hshort; cbn [length] in Hshort; lia|].
  exists s, pgdir, r, s', s2. split_and!; [exact E|exact Hr|exact E2|]. intros x Hx. apply Hm. intros p' Hp'.
  destruct (free_list_page _ _ _ _ _ (proj1 Hfr) Hp') as (_ & H & _). rewrite He in H. unfold in_page, KERNBASE in *. lia.
Defined.
