(* ===== verification/Sched.v ===== *)
(** * The process table, sleep/wakeup and the lottery scheduler: proc.c, pstat.h

    The part of proc.c that works on the process table alone: the random number
    generator, the ticket count and the draw, the scheduler loop, sched, yield,
    sleep, wakeup, kill, setTicket and fillpstat.  Process creation, exit and
    wait, which also use memory and files, are in Proc.v.

    Signed overflow of a ticket sum is modelled as the two's complement
    wrap-around of the compiled code. *)

From S2P Require Import Prelude State Spinlock Thread CString Kalloc Vm.

(** ** Access to the table *)
Definition upd_proc (i : nat) (f : proc -> proc) (s : kernel) : kernel :=
  s<|k_procs ::= alter f i|>.

(** [&ptable.proc[i]], dereferenced. *)
Definition proc_at (i : nat) : K proc :=
  let! s := get in
  match s.(k_procs) !! i with
  | Some p => ret p
  | None => panic "ptable: index out of range"
  end.

(** myproc() where the C code dereferences the result. *)
Definition curproc : K nat :=
  let! p := myproc in
  match p with
  | Some i => ret i
  | None => panic "null process"
  end.

(** ** random *)
Definition RAND_MAX : Z := 2 ^ 31 - 1.
Definition random_next (rseed : Z) : Z :=
  s32 (Z.land (u32 (s32 (s32 (rseed * 1103515245) + 12345))) RAND_MAX).
Definition random : K Z :=
  let! s := get in
  modify (fun s => s<|k_rseed := random_next s.(k_rseed)|>) ;;;
  ret (random_next s.(k_rseed)).

(** ** wakeup, kill, setTicket *)
Definition wake (ch : chan) (p : proc) : proc :=
  if bool_decide (p.(p_state) = SLEEPING) && bool_decide (p.(p_chan) = Some ch)
  then p<|p_state := RUNNABLE|> else p.
Definition wakeup1 (ch : chan) : K unit :=
  modify (fun s => s<|k_procs ::= fmap (wake ch)|>).
Definition wakeup (ch : chan) : K unit :=
  acquire LkPtable ;;;
  wakeup1 ch ;;;
  release LkPtable.

(** The loops that look for the first process with a given pid. *)
Definition find_pid (pid : Z) (ps : list proc) : option nat :=
  fst <$> list_find (fun p => p.(p_pid) = pid) ps.

Definition kill_proc (p : proc) : proc :=
  let p := p<|p_killed := 1|> in
  if bool_decide (p.(p_state) = SLEEPING) then p<|p_state := RUNNABLE|> else p.
Definition kill (pid : Z) : K Z :=
  acquire LkPtable ;;;
  let! s := get in
  match find_pid pid s.(k_procs) with
  | Some i =>
      modify (upd_proc i kill_proc) ;;;
      release LkPtable ;;;
      ret 0
  | None =>
      release LkPtable ;;;
      ret (-1)
  end.

Definition setTicket (pid tickets : Z) : K Z :=
  let! s := get in
  match find_pid pid s.(k_procs) with
  | Some i =>
      modify (upd_proc i (fun p => p<|p_tickets := tickets|>)) ;;;
      ret 0
  | None => ret (-1)
  end.

(** ** fillpstat: pstat.h *)
Record pstat_t := mkpstat {
  ps_inuse : Z; ps_tickets : Z; ps_pid : Z; ps_ticks : Z; ps_name : list Z; ps_state : Z
}.

(** The first character of states[state]: U, E, S, A, R, Z. *)
Definition state_char (st : procstate) : Z :=
  match st with
  | UNUSED => 85 | EMBRYO => 69 | SLEEPING => 83 | RUNNABLE => 65 | RUNNING => 82 | ZOMBIE => 90
  end.
Definition fill_entry (p : proc) (e : pstat_t) : pstat_t :=
  if bool_decide (p.(p_state) = UNUSED)
  then mkpstat 0 (ps_tickets e) (ps_pid e) (ps_ticks e) (ps_name e) (ps_state e)
  else mkpstat 1 p.(p_tickets) p.(p_pid) p.(p_ticks)
         (safestrcpy (ps_name e) p.(p_name) 16) (state_char p.(p_state)).
(** [table] is the caller's pstatTable; entry [i] is filled from ptable.proc[i]. *)
Definition fillpstat (table : list pstat_t) : K (list pstat_t) :=
  gets (fun s => zip_with fill_entry s.(k_procs) table).

(** ** The lottery *)
Fixpoint total_tickets (ps : list proc) (totalTickets : Z) : Z :=
  match ps with
  | [] => totalTickets
  | p :: ps' =>
      if bool_decide (p.(p_state) <> RUNNABLE) then total_tickets ps' totalTickets
      else total_tickets ps' (s32 (totalTickets + p.(p_tickets)))
  end.

(** The index at which the second loop stops: the break, or one past the end. *)
Fixpoint draw (ps : list proc) (winner counter : Z) (i : nat) : nat :=
  match ps with
  | [] => i
  | p :: ps' =>
      if bool_decide (p.(p_state) <> RUNNABLE) then draw ps' winner counter (S i)
      else
        let counter := s32 (counter + p.(p_tickets)) in
        if winner <? counter then i else draw ps' winner counter (S i)
  end.

(** One iteration of the scheduler's for(;;). *)
Definition scheduler_body (c : nat) : K unit :=
  sti ;;;
  acquire LkPtable ;;;
  let! s := get in
  let totalTickets := total_tickets s.(k_procs) 0 in
  if totalTickets <=? 0 then release LkPtable
  else
    let! r := random in
    let winner := Z.rem r totalTickets in
    let p := draw s.(k_procs) winner 0 0 in
    modify (upd_cpu c (fun r => r<|c_proc := Some p|>)) ;;;
    switchuvm (Some p) ;;;
    modify (upd_proc p (fun r => r<|p_state := RUNNING|>)) ;;;
    swtch ;;;
    switchkvm ;;;
    modify (upd_cpu c (fun r => r<|c_proc := None|>)) ;;;
    modify (upd_proc p (fun r => r<|p_ticks := s32 (r.(p_ticks) + 1)|>)) ;;;
    release LkPtable.

Fixpoint scheduler_loop (fuel : nat) (c : nat) : K unit :=
  match fuel with
  | O => nofuel
  | S fuel' => scheduler_body c ;;; scheduler_loop fuel' c
  end.
(** The scheduler for [fuel] iterations; it never returns. *)
Definition scheduler (fuel : nat) : K unit :=
  let! c := mycpu in
  modify (upd_cpu c (fun r => r<|c_proc := None|>)) ;;;
  scheduler_loop fuel c.

(** ** Giving up the processor *)
Definition sched : K unit :=
  let! p := curproc in
  let! h := holding LkPtable in
  if negb h then panic "sched ptable.lock"
  else
    let! i := mycpu in
    let! c := cpu_at i in
    if negb (c.(c_ncli) =? 1) then panic "sched locks"
    else
      let! pr := proc_at p in
      if bool_decide (pr.(p_state) = RUNNING) then panic "sched running"
      else
        let! eflags := readeflags in
        if truth (Z.land eflags FL_IF) then panic "sched interruptible"
        else
          swtch ;;;
          let! i := mycpu in
          modify (upd_cpu i (fun r => r<|c_intena := c.(c_intena)|>)).

Definition yield : K unit :=
  acquire LkPtable ;;;
  let! p := curproc in
  modify (upd_proc p (fun r => r<|p_state := RUNNABLE|>)) ;;;
  sched ;;;
  release LkPtable.

(** The lock operations sleep is written with: those of spinlock.c.  The proofs
    also run it with other processors at work around them. *)
Class LockOps := { lock_acquire : lockid -> K unit; lock_release : lockid -> K unit }.
#[export] Instance spinlocks : LockOps := {| lock_acquire := acquire; lock_release := release |}.

(** A lock argument is never null here. *)
Definition sleep `{LockOps} (ch : chan) (lk : lockid) : K unit :=
  let! p := myproc in
  match p with
  | None => panic "sleep"
  | Some p =>
      (if! bool_decide (lk <> LkPtable) then! (lock_acquire LkPtable ;;; lock_release lk)) ;;;
      modify (upd_proc p (fun r => r<|p_chan := Some ch|>)) ;;;
      modify (upd_proc p (fun r => r<|p_state := SLEEPING|>)) ;;;
      sched ;;;
      modify (upd_proc p (fun r => r<|p_chan := None|>)) ;;;
      if! bool_decide (lk <> LkPtable) then! (lock_release LkPtable ;;; lock_acquire lk)
  end.

(** ** The random numbers *)
Lemma random_next_mod r : random_next r = (r * 1103515245 + 12345) mod 2 ^ 31.
Proof.
  unfold random_next, RAND_MAX. change (2 ^ 31 - 1) with (Z.ones 31).
  rewrite Z.land_ones by lia.
  rewrite s32_small by (pose proof (Z.mod_pos_bound
    (u32 (s32 (s32 (r * 1103515245) + 12345))) (2 ^ 31)); lia).
  unfold u32. rewrite s32_idemp_add, s32_mod. apply Z.mod_mod_divide. by exists 2.
Qed.

(** the generator stays in [0, RAND_MAX] and, on that range, is a
    permutation: different seeds give different next values, so no value of the
    2^31 possible ones is favoured by the recurrence. *)
Theorem random_permutes (r1 r2 : Z) :
  0 <= r1 <= RAND_MAX -> 0 <= r2 <= RAND_MAX ->
  0 <= random_next r1 <= RAND_MAX /\
  (random_next r1 = random_next r2 -> r1 = r2).
Proof.
  unfold RAND_MAX. intros H1 H2. rewrite !random_next_mod.
  split; [pose proof (Z.mod_pos_bound (r1 * 1103515245 + 12345) (2 ^ 31)); lia|].
  intros Heq.
  assert (Hd : (2 ^ 31 | (r1 - r2) * 1103515245)).
  { apply Z.mod_divide; [lia|].
    replace ((r1 - r2) * 1103515245)
      with ((r1 * 1103515245 + 12345) - (r2 * 1103515245 + 12345)) by lia.
    by rewrite Zminus_mod, Heq, Z.sub_diag. }
  rewrite Z.mul_comm in Hd.
  apply Z.gauss in Hd; [|by vm_compute]. destruct Hd as [q Hq]. lia.
Qed.

Lemma random_permutes_witness : random_next 0 <> random_next 1.
Proof.
  intros H. assert (0 = 1) as [=]. apply random_permutes in H; [done|unfold RAND_MAX; lia..].
Defined.

(** ** The draw *)

(** Either the loop stops at a runnable process, or it runs to the end and the
    counter, which is then the ticket total, never exceeded the winner. *)
Lemma draw_cases ps w : forall c k, c <= w ->
  (exists j p, draw ps w c k = (k + j)%nat /\ ps !! j = Some p /\ p.(p_state) = RUNNABLE) \/
  (draw ps w c k = (k + length ps)%nat /\ total_tickets ps c <= w).
Proof.
  induction ps as [|p ps IH]; intros c k Hc; cbn [draw total_tickets length].
  - right. split; [lia|done].
  - case_bool_decide as Hst.
    + destruct (IH c (S k) Hc) as [(j & q & -> & Hq & Hr)|[-> Ht]].
      * left. exists (S j), q. split_and!; [lia|done..].
      * right. split; [lia|done].
    + destruct (Z.ltb_spec w (s32 (c + p_tickets p))) as [Hlt|Hge].
      * left. exists 0%nat, p. split_and!; [lia|done..].
      * destruct (IH _ (S k) Hge) as [(j & q & -> & Hq & Hr)|[-> Ht]].
        -- left. exists (S j), q. split_and!; [lia|done..].
        -- right. split; [lia|done].
Qed.

(** The scheduler's second loop never runs off the process table: whenever the
    (possibly wrapped-around) ticket total is positive, it stops at a runnable
    process. *)
Lemma draw_runnable (ps : list proc) (r : Z) :
  0 <= r -> 0 < total_tickets ps 0 ->
  exists p, ps !! draw ps (Z.rem r (total_tickets ps 0)) 0 0 = Some p /\ p.(p_state) = RUNNABLE.
Proof.
  intros Hr Ht. set (w := Z.rem r (total_tickets ps 0)).
  assert (0 <= w < total_tickets ps 0) by (by apply Z.rem_bound_pos).
  destruct (draw_cases ps w 0 0 ltac:(lia)) as [(j & p & -> & Hp & Hst)|[_ Hle]]; [by exists p|lia].
Qed.

Definition runnable_with (t : Z) : proc := zero_proc<|p_state := RUNNABLE|><|p_tickets := t|>.

(** The tickets that take part in the lottery. *)
Definition weight (p : proc) : Z :=
  if bool_decide (p.(p_state) = RUNNABLE) then p.(p_tickets) else 0.
Fixpoint weights (ps : list proc) : Z :=
  match ps with [] => 0 | p :: ps' => weight p + weights ps' end.
Definition fair_table (ps : list proc) : Prop :=
  Forall (fun p => 0 <= weight p) ps /\ weights ps < 2 ^ 31.

Lemma weights_nonneg ps : Forall (fun p => 0 <= weight p) ps -> 0 <= weights ps.
Proof. induction 1; simpl; lia. Qed.

Lemma weights_take_mono ps i :
  Forall (fun p => 0 <= weight p) ps -> 0 <= weights (take i ps) <= weights ps.
Proof.
  intros H. revert i. induction H as [|p ps Hp H IH]; intros [|i]; simpl; [lia..| |].
  - pose proof (weights_nonneg ps H). lia.
  - specialize (IH i). lia.
Qed.

Lemma total_tickets_exact ps : forall c,
  Forall (fun p => 0 <= weight p) ps -> 0 <= c -> c + weights ps < 2 ^ 31 ->
  total_tickets ps c = c + weights ps.
Proof.
  induction ps as [|p ps IH]; intros c Hall Hc Hlt; cbn [total_tickets weights] in *; [lia|].
  apply list.Forall_cons in Hall as [Hp Hall]. pose proof (weights_nonneg ps Hall).
  revert Hp Hlt. unfold weight. repeat case_bool_decide; try done; intros.
  - rewrite s32_small by lia. rewrite IH by (done || lia). lia.
  - rewrite IH by (done || lia). lia.
Qed.

Lemma draw_offset ps w : forall c k, draw ps w c k = (k + draw ps w c 0)%nat.
Proof.
  induction ps as [|p ps IH]; intros c k; cbn [draw]; [lia|].
  case_bool_decide; [|destruct (w <? _); [lia|]].
  all: rewrite (IH _ (S k)), (IH _ 1%nat); lia.
Qed.

(** Without overflow the draw is [i] exactly for the winners in the interval of
    tickets that belongs to process [i]. *)
Lemma draw_interval ps w i : forall c,
  Forall (fun p => 0 <= weight p) ps -> 0 <= c <= w -> c + weights ps < 2 ^ 31 ->
  (i < length ps)%nat ->
  draw ps w c 0 = i <->
  c + weights (take i ps) <= w < c + weights (take (S i) ps).
Proof.
  revert i. induction ps as [|p ps IH]; intros i c Hall Hc Hlt Hi; [simpl in Hi; lia|].
  apply list.Forall_cons in Hall as [Hp Hall]. cbn [weights] in Hlt.
  pose proof (weights_nonneg ps Hall). cbn [draw].
  assert (Hnext : forall j c', c + weight p = c' -> (j < length ps)%nat -> c' <= w ->
    draw ps w c' 0 = j <->
    c + weights (take (S j) (p :: ps)) <= w < c + weights (take (S (S j)) (p :: ps))).
  { intros j c' <- Hj Hc'. rewrite (IH j (c + weight p)) by (done || lia).
    cbn [take weights]. lia. }
  pose proof (weights_take_mono ps (pred i) Hall) as Hpre.
  destruct (decide (p_state p = RUNNABLE)) as [Hr|Hr].
  - assert (Hw : weight p = p_tickets p) by (unfold weight; by rewrite bool_decide_eq_true_2).
    rewrite (bool_decide_eq_false_2 (p_state p <> RUNNABLE)) by (intros Hn; by apply Hn).
    rewrite s32_small by lia.
    destruct i as [|j]; destruct (Z.ltb_spec w (c + p_tickets p)) as [Hl|Hg];
      cbn [take weights Nat.pred] in *; [lia|rewrite draw_offset, take_0; cbn [weights]; lia|lia|].
    rewrite draw_offset, <- (Hnext j (c + p_tickets p)) by (simpl in Hi; lia). lia.
  - assert (Hw : weight p = 0) by (unfold weight; by rewrite bool_decide_eq_false_2).
    rewrite bool_decide_eq_true_2 by done. rewrite draw_offset.
    destruct i as [|j]; [cbn [take weights]; rewrite take_0; cbn [weights]; lia|].
    rewrite <- (Hnext j c) by (simpl in Hi; lia). lia.
Qed.

(** How many of [0, 1, ..., n-1] satisfy [P]. *)
Definition count (P : Z -> bool) (n : Z) : Z :=
  Z.of_nat (length (filter (fun r => P r = true) (seqZ 0 n))).

Lemma count_S P n : 0 <= n -> count P (n + 1) = count P n + b2z (P n).
Proof.
  intros Hn. unfold count. rewrite seqZ_app, list.filter_app by lia.
  rewrite length_app, Nat2Z.inj_add. f_equal. rewrite Z.add_0_l.
  replace (seqZ n 1) with [n] by done.
  rewrite filter_cons, filter_nil. by destruct (P n).
Qed.

Lemma count_ext P P' n :
  0 <= n -> (forall r, 0 <= r < n -> P r = P' r) -> count P n = count P' n.
Proof.
  intros Hn. revert n Hn. apply (natlike_ind (fun n => (forall r, 0 <= r < n -> P r = P' r) ->
    count P n = count P' n)); [done|].
  intros n Hn IH H. rewrite <- Z.add_1_r, !count_S, H, IH by (done || lia || intros; apply H; lia).
  done.
Qed.

(** The closed form of a count over the residues in [a, b). *)
Lemma count_residues T a b n :
  0 <= a <= b -> b <= T -> 0 < T -> 0 <= n ->
  count (fun r => (a <=? r mod T) && (r mod T <? b)) n =
  (n / T) * (b - a) + Z.max 0 (Z.min (b - a) (n mod T - a)).
Proof.
  intros Ha Hb HT Hn. revert n Hn. apply natlike_ind.
  - change (count _ 0) with 0. rewrite Z.div_0_l, Z.mod_0_l by lia. lia.
  - intros n Hn IH. rewrite <- Z.add_1_r, count_S, IH by lia. clear IH.
    pose proof (Z.div_mod n T ltac:(lia)) as Hdm.
    pose proof (Z.mod_pos_bound n T HT) as Hm.
    set (q := n / T) in *. set (m := n mod T) in *.
    destruct (decide (m + 1 = T)) as [Hw|Hw].
    + rewrite <- (Z.div_unique_pos (n + 1) T (q + 1) 0) by lia.
      rewrite <- (Z.mod_unique_pos (n + 1) T (q + 1) 0) by lia.
      unfold b2z. bool_cases; lia.
    + rewrite <- (Z.div_unique_pos (n + 1) T q (m + 1)) by lia.
      rewrite <- (Z.mod_unique_pos (n + 1) T q (m + 1)) by lia.
      unfold b2z. bool_cases; lia.
Qed.

Lemma weights_take_S ps i p :
  ps !! i = Some p -> weights (take (S i) ps) = weights (take i ps) + weight p.
Proof.
  revert i. induction ps as [|q ps IH]; intros [|i] H; simplify_eq/=; [lia|].
  rewrite (IH _ H). lia.
Qed.

(** C4: the lottery is fair.  When the tickets of the runnable processes do not
    overflow an int, then among the 2^31 values random can return, process [i]
    wins for at least [t * (2^31 / T)] and at most [t * (2^31 / T + 1)] of them,
    where [t] is the number of tickets it takes part with (none when it is not
    runnable) and [T] the total: its share of the draws is its share of the
    tickets, up to the remainder of the modulo. *)
Theorem lottery_fair (ps : list proc) (i : nat) (p : proc) :
  fair_table ps -> 0 < weights ps -> ps !! i = Some p ->
  let wins r := bool_decide (draw ps (Z.rem r (total_tickets ps 0)) 0 0 = i) in
  weight p * (2 ^ 31 / weights ps) <= count wins (2 ^ 31) <=
  weight p * (2 ^ 31 / weights ps + 1).
Proof.
  intros [Hall Hlt] Hpos Hi wins. set (T := weights ps) in *.
  rewrite (count_ext wins
    (fun r => (weights (take i ps) <=? r mod T) && (r mod T <? weights (take (S i) ps)))).
  - pose proof (weights_take_mono ps i Hall). pose proof (weights_take_mono ps (S i) Hall).
    assert (0 <= weight p) by (by apply (Forall_lookup_1 (fun p => 0 <= weight p) ps i)).
    rewrite (weights_take_S ps i p) in * by done.
    rewrite count_residues by (unfold T; lia).
    replace (weights (take i ps) + weight p - weights (take i ps)) with (weight p) by lia.
    nia.
  - lia.
  - intros r Hr. unfold wins. rewrite total_tickets_exact by (done || lia).
    rewrite Z.add_0_l, Z.rem_mod_nonneg by (unfold T in *; lia). fold T.
    pose proof (Z.mod_pos_bound r T Hpos).
    apply eq_true_iff_eq. rewrite bool_decide_eq_true, andb_true_iff, Z.leb_le, Z.ltb_lt.
    rewrite (draw_interval ps _ i 0) by (done || lia || by eapply lookup_lt_Some). lia.
Qed.

Lemma lottery_fair_witness :
  let ps := [runnable_with 10; zero_proc; runnable_with 30] in
  30 * (2 ^ 31 / 40) <=
  count (fun r => bool_decide (draw ps (Z.rem r (total_tickets ps 0)) 0 0 = 2%nat)) (2 ^ 31) <=
  30 * (2 ^ 31 / 40 + 1).
Proof.
  intros ps. apply (lottery_fair ps 2 (runnable_with 30)); [|by vm_compute|done].
  split; [|by vm_compute]. by repeat constructor.
Defined.

Lemma quiet_procs s s' : quiet s s' -> s'.(k_procs) = s.(k_procs).
Proof. by intros (b & cs & lks & ->). Qed.

(** The loop's total is the sum of the tickets as an int. *)
Lemma total_tickets_wraps ps : forall c,
  - 2 ^ 31 <= c < 2 ^ 31 -> total_tickets ps c = s32 (c + weights ps).
Proof.
  induction ps as [|p ps IH]; intros c Hc; cbn [total_tickets weights]; [rewrite s32_small by lia; lia|].
  unfold weight. repeat case_bool_decide; try done.
  - rewrite IH by done. f_equal; lia.
  - rewrite IH by apply s32_range. rewrite s32_idemp_add. f_equal; lia.
Qed.

Lemma weights_insert ps n p q : ps !! n = Some p -> weights (<[n := q]> ps) = weights (delete n ps) + weight q.
Proof.
  revert n. induction ps as [|r ps IH]; intros [|n] H; simplify_eq/=; [lia|]. rewrite (IH _ H). lia.
Qed.

(** An iteration with no positive total releases the lock and runs nobody. *)
Lemma scheduler_idle i s :
  running i None ∅ s -> total_tickets s.(k_procs) 0 <= 0 ->
  exists s', scheduler_body i s = Ret tt s' /\ quiet s s' /\ running i None ∅ s'.
Proof.
  intros Hrun Ht. unfold scheduler_body. kret.
  destruct (acquire_ex i None ∅ LkPtable _ (running_sti _ _ _ Hrun) ltac:(set_solver)) as (s1 & E1 & Hq1 & Hr1).
  kret_by exact E1. kret.
  assert (Hq : quiet s s1) by (destruct Hq1 as (b & cs & lks & ->); by exists b, cs, lks).
  rewrite (quiet_procs _ _ Hq). replace (_ <=? 0) with true by lia.
  destruct (release_ex i None _ LkPtable _ Hr1 ltac:(set_solver)) as (s2 & E2 & Hq2 & Hr2).
  replace (({[LkPtable]} ∪ ∅) ∖ {[LkPtable]}) with (∅ : gset lockid) in Hr2 by set_solver.
  exists s2. split_and!; [done|by transitivity s1|done].
Qed.

Lemma scheduler_loop_idle i fuel : forall s,
  running i None ∅ s -> total_tickets s.(k_procs) 0 <= 0 ->
  exists s', scheduler_loop fuel i s = NoFuel s' /\ quiet s s'.
Proof.
  induction fuel as [|fuel IH]; intros s Hr Ht; cbn [scheduler_loop]; [by exists s|].
  destruct (scheduler_idle i s Hr Ht) as (s1 & E1 & Hq1 & Hr1). kret_by exact E1.
  destruct (IH s1 Hr1) as (s2 & E2 & Hq2); [by rewrite (quiet_procs _ _ Hq1)|].
  exists s2. split; [done|by transitivity s1].
Qed.

(** C35: settickets puts no upper bound on tickets, so one process can stop the
    scheduler.  When the other runnable processes have [W] tickets in all, a
    process that asks for 2^31 - W gets them; the system call accepts the number.
    From then on, while it is runnable too, the total wraps around to a negative
    int: no iteration of the scheduler, however many there are, runs a process
    or changes the process table, although [W] tickets of other processes take
    part. *)
Theorem ticket_overflow_starves (n : nat) (p : proc) (s : kernel) :
  s.(k_procs) !! n = Some p -> (forall m q, (m < n)%nat -> s.(k_procs) !! m = Some q -> q.(p_pid) <> p.(p_pid)) ->
  let W := weights (delete n s.(k_procs)) in
  0 < W <= 2 ^ 31 - 10 ->
  let t := 2 ^ 31 - W in
  10 <= t < 2 ^ 31 /\
  setTicket p.(p_pid) t s = Ret 0 (s<|k_procs ::= <[n := p<|p_tickets := t|>]>|>) /\
  forall i fuel s1, running i None ∅ s1 ->
    s1.(k_procs) = <[n := p<|p_tickets := t|><|p_state := RUNNABLE|>]> s.(k_procs) ->
    exists s2, scheduler_loop fuel i s1 = NoFuel s2 /\ quiet s1 s2.
Proof.
  intros Hp Hfst W HW t. split; [unfold t; lia|]. split.
  - unfold setTicket. kret. unfold find_pid. rewrite (proj2 (list_find_Some _ _ n p)) by (split_and!; [done|done|]; intros; by eapply Hfst). cbn. kret.
    unfold upd_proc, ret. f_equal. transitivity (s<|k_procs := alter (fun p => p<|p_tickets := t|>) n s.(k_procs)|>); [reflexivity|].
    by rewrite (alter_insert _ _ _ p).
  - intros i fuel s1 Hr Hps. apply scheduler_loop_idle; [done|].
    rewrite total_tickets_wraps, Hps, (weights_insert _ _ p) by (done || lia). unfold weight. rewrite bool_decide_eq_true_2 by done.
    change (s32 (0 + (W + t)) <= 0). by replace (0 + (W + t)) with (2 ^ 31) by (unfold t; lia).
Qed.

(** Two processes with the default ten tickets, of which the second asks for more. *)
Definition ready_proc (pid t : Z) : proc :=
  (runnable_with t)<|p_pid := pid|><|p_kstack := KERNLINK + PGSIZE * pid|><|p_pgdir := KERNLINK + PGSIZE * (8 + pid)|>.
Definition two_ready (t : Z) : kernel :=
  (loaded KERNLINK KERNLINK)<|k_procs := ready_proc 1 10 :: ready_proc 2 t :: replicate (NPROC - 2) zero_proc|>.

Lemma ticket_overflow_starves_witness :
  setTicket 2 (2 ^ 31 - 10) (two_ready 10) = Ret 0 (two_ready (2 ^ 31 - 10)) /\
  forall fuel, exists s2, scheduler_loop fuel 0 (two_ready (2 ^ 31 - 10)) = NoFuel s2 /\ (p_state <$> s2.(k_procs) !! 0%nat) = Some RUNNABLE.
Proof.
  destruct (ticket_overflow_starves 1 (ready_proc 2 10) (two_ready 10)) as (_ & E & Hl); [done| |by vm_compute|].
  - intros [|m] r Hm Hr; [by injection Hr as <-|lia].
  - split; [exact E|]. intros fuel. destruct (Hl 0%nat fuel (two_ready (2 ^ 31 - 10))) as (s2 & E2 & Hq); [|done|].
    + kframe (loaded_running KERNLINK KERNLINK).
    + exists s2. split; [exact E2|]. by rewrite (quiet_procs _ _ Hq).
Defined.

(** A process the scheduler may pick has a kernel stack and an address space. *)
Definition runnable_ok (ps : list proc) : Prop :=
  Forall (fun p => p.(p_state) = RUNNABLE -> p.(p_kstack) <> 0 /\ p.(p_pgdir) <> 0) ps.

(** The process an iteration started in [s] picks. *)
Definition drawn (s : kernel) : nat :=
  draw s.(k_procs) (Z.rem (random_next s.(k_rseed)) (total_tickets s.(k_procs) 0)) 0 0.

(** The end of an iteration, when the processor comes back from process [n]. *)
Lemma scheduler_resume i n s :
  running i (Some n) {[LkPtable]} s ->
  runs ((switchkvm ;;;
         modify (upd_cpu i (fun r => r<|c_proc := None|>)) ;;;
         modify (upd_proc n (fun r => r<|p_ticks := s32 (r.(p_ticks) + 1)|>)) ;;;
         release LkPtable)%xv6 s) (fun _ s' =>
    s'.(k_procs) = alter (fun p => p<|p_ticks := s32 (p.(p_ticks) + 1)|>) n s.(k_procs) /\
    s'.(k_cr3) = V2P s.(k_kpgdir) /\ running i None ∅ s').
Proof.
  intros Hrun. kret. kret. kret.
  match goal with |- context [release _ ?st] => set (s1 := st) end.
  assert (Hr1 : running i None {[LkPtable]} s1).
  { apply (running_frame _ _ _ _ (upd_cpu i (fun r => r<|c_proc := None|>) s)); try done.
    by apply (running_upd_cpu i (Some n)). }
  apply (release_runs _ _ _ _ _ _ Hr1); [set_solver|]. intros s2 (b & cs & lks & ->) Hr2.
  split_and!; [done..|].
  by replace ({[LkPtable]} ∖ {[LkPtable]}) with (∅ : gset lockid) in Hr2 by set_solver.
Qed.

(** The part of an iteration between the draw and the switch. *)
Lemma scheduler_dispatch i n pr s :
  running i None {[LkPtable]} s -> s.(k_procs) !! n = Some pr ->
  pr.(p_kstack) <> 0 -> pr.(p_pgdir) <> 0 ->
  runs ((modify (upd_cpu i (fun r => r<|c_proc := Some n|>)) ;;;
         switchuvm (Some n) ;;;
         modify (upd_proc n (fun r => r<|p_state := RUNNING|>)))%xv6 s) (fun _ s' =>
    s'.(k_procs) = <[n := pr<|p_state := RUNNING|>]> s.(k_procs) /\
    s'.(k_cr3) = V2P pr.(p_pgdir) /\ s'.(k_rseed) = s.(k_rseed) /\
    running i (Some n) {[LkPtable]} s').
Proof.
  intros Hrun Hpr Hks Hpg. kret.
  apply runs_bind, (switchuvm_runs i (Some n) {[LkPtable]} _ n pr); try done.
  { by apply (running_upd_cpu i None). }
  intros s0 s' (b & cs & lks & ->) (b' & cs' & lks' & ->) Hr. cbn -[running].
  split_and!; [|done|done|exact Hr].
  by apply alter_insert.
Qed.

(** C3: one iteration of the scheduler when there are tickets: it marks the
    drawn process RUNNING, makes it the processor's process, loads its page
    directory and switches to it with only ptable.lock held; when the processor
    comes back it returns to the kernel page table, charges the process exactly
    one tick, clears the processor's process and holds no lock. *)
Theorem scheduler_iteration (i : nat) (s : kernel) :
  running i None ∅ s -> runnable_ok s.(k_procs) -> 0 < total_tickets s.(k_procs) 0 ->
  exists pr s1 k,
    scheduler_body i s = Switch s1 k /\
    s.(k_procs) !! drawn s = Some pr /\ pr.(p_state) = RUNNABLE /\
    s1.(k_procs) = <[drawn s := pr<|p_state := RUNNING|>]> s.(k_procs) /\
    s1.(k_cr3) = V2P pr.(p_pgdir) /\ s1.(k_rseed) = random_next s.(k_rseed) /\
    running i (Some (drawn s)) {[LkPtable]} s1 /\
    forall s2, running i (Some (drawn s)) {[LkPtable]} s2 ->
      runs (k s2) (fun _ s3 =>
        s3.(k_procs) = alter (fun p => p<|p_ticks := s32 (p.(p_ticks) + 1)|>) (drawn s) s2.(k_procs) /\
        s3.(k_cr3) = V2P s2.(k_kpgdir) /\ running i None ∅ s3).
Proof.
  intros Hrun Hok Hpos. unfold scheduler_body. kret.
  destruct (runs_inv _ _ (acquire_runs i None ∅ LkPtable _ (fun _ s' => quiet _ s' /\ _)
    (running_sti _ _ _ Hrun) ltac:(set_solver) (fun s' H1 H2 => conj H1 H2)))
    as ([] & s1 & Hacq & (b & cs & lks & ->) & Hr1).
  rewrite union_empty_r_L in Hr1.
  kret_by exact Hacq. kret. clear Hacq.
  set (s0 := _<|k_locks := lks|>) in *. change (k_procs s0) with (k_procs s).
  replace (total_tickets (k_procs s) 0 <=? 0) with false by lia.
  kret. change (random_next (k_rseed s0)) with (random_next (k_rseed s)). fold (drawn s).
  destruct (draw_runnable (k_procs s) (random_next (k_rseed s))) as (pr & Hpr & Hst).
  { rewrite random_next_mod. apply Z.mod_pos_bound. lia. }
  { done. }
  fold (drawn s) in Hpr.
  destruct (proj1 (Forall_lookup _ _) Hok _ _ Hpr Hst) as [Hks Hpg].
  assert (Hr2 : running i None {[LkPtable]} (s0<|k_rseed := random_next (k_rseed s)|>))
    by kframe Hr1.
  destruct (runs_inv _ _ (scheduler_dispatch i (drawn s) pr _ Hr2 Hpr Hks Hpg))
    as ([] & s1 & Hd & Hp1 & Hc1 & Hs1 & Hrun1).
  apply bind_inv_ret in Hd as ([] & sa & Ha & Hd).
  apply bind_inv_ret in Hd as ([] & sb & Hb & Hd).
  kret_by exact Ha. kret_by exact Hb. kret_by exact Hd.
  exists pr, s1. eexists. split; [reflexivity|]. split_and!; try done.
  intros s2 Hs2. by apply scheduler_resume.
Qed.

Definition one_runnable : kernel :=
  (loaded KERNLINK KERNLINK)
    <|k_procs := (runnable_with 10)<|p_kstack := KERNLINK|><|p_pgdir := KERNLINK|>
                 :: replicate (NPROC - 1) zero_proc|>.

Lemma scheduler_iteration_witness :
  drawn one_runnable = 0%nat /\
  exists s1 k, scheduler_body 0 one_runnable = Switch s1 k /\ running 0 (Some 0%nat) {[LkPtable]} s1.
Proof.
  split; [by vm_compute|].
  destruct (scheduler_iteration 0 one_runnable) as (pr & s1 & k & Hb & _ & _ & _ & _ & _ & Hr & _).
  - kframe (loaded_running KERNLINK KERNLINK).
  - apply Forall_cons; [done|]. apply Forall_replicate. done.
  - by vm_compute.
  - exists s1, k. split; [done|]. exact Hr.
Defined.

(** ** wakeup and kill *)

(** A change of the process table under ptable.lock. *)
Lemma ptable_update i q ls (f : list proc -> list proc) (m : K unit) s :
  running i q ls s -> LkPtable ∉ ls -> (forall s, m s = Ret tt (s<|k_procs ::= f|>)) ->
  exists s', (acquire LkPtable ;;; m ;;; release LkPtable)%xv6 s = Ret tt s' /\
    quiet (s<|k_procs ::= f|>) s' /\ running i q ls s'.
Proof.
  intros Hr Hls Hm.
  destruct (acquire_ex _ _ _ LkPtable _ Hr Hls) as (s1 & E1 & Hq1 & Hr1). kret_by exact E1.
  kret_by apply Hm. set (s2 := s1<|k_procs ::= f|>).
  assert (Hr2 : running i q ({[LkPtable]} ∪ ls) s2) by kframe Hr1.
  destruct (release_ex _ _ _ LkPtable _ Hr2 ltac:(set_solver)) as (s3 & E3 & Hq3 & Hr3).
  exists s3. split_and!; [done|by quiet_by Hq1 Hq3|].
  by replace (({[LkPtable]} ∪ ls) ∖ {[LkPtable]}) with ls in Hr3 by set_solver.
Qed.

Lemma wakeup_ex i q ls ch s :
  running i q ls s -> LkPtable ∉ ls ->
  exists s', wakeup ch s = Ret tt s' /\
    quiet (s<|k_procs ::= fmap (wake ch)|>) s' /\ running i q ls s'.
Proof. intros Hr Hls. by apply ptable_update. Qed.

(** ** Giving up the processor *)

Lemma curproc_ex i p ls s :
  running i (Some p) ls s ->
  exists s', curproc s = Ret p s' /\ quiet s s' /\ running i (Some p) ls s'.
Proof.
  intros Hr. destruct (myproc_ex _ _ _ _ Hr) as (s' & E & Hq & Hr').
  exists s'. split; [|done]. unfold curproc. by kret_by exact E.
Qed.

Lemma proc_at_runs s p pr (Q : proc -> kernel -> Prop) :
  s.(k_procs) !! p = Some pr -> Q pr s -> runs (proc_at p s) Q.
Proof. intros Hp HQ. unfold proc_at. kret. by rewrite Hp. Qed.

(** sched with only ptable.lock held and the state already changed: it passes
    its checks and switches; resumed with a lock held, it returns. *)
Lemma sched_switches i p pr s :
  running i (Some p) {[LkPtable]} s -> s.(k_procs) !! p = Some pr -> pr.(p_state) <> RUNNING ->
  exists s1 k, sched s = Switch s1 k /\ quiet s s1 /\ running i (Some p) {[LkPtable]} s1 /\
    forall j q ls s2, running j q ls s2 -> ls <> ∅ ->
      runs (k s2) (fun _ s3 => quiet s2 s3 /\ running j q ls s3).
Proof.
  intros Hr Hpr Hst. unfold sched.
  destruct (curproc_ex i p _ s Hr) as (s1 & H1 & Hq1 & Hr1). kret_by exact H1. clear H1.
  destruct (holding_ex i _ _ LkPtable _ Hr1) as (s2 & H1 & Hq2 & Hr2). kret_by exact H1. clear H1.
  rewrite bool_decide_eq_true_2 by set_solver. cbn [negb].
  pose proof (running_if _ _ _ _ Hr2 ltac:(set_solver)) as Hif.
  pose proof Hr2 as (c & (Hme & Hc & _) & Hn & _). rewrite size_singleton in Hn.
  kret_by (by apply (mycpu_off i)). kret_by (by apply cpu_at_spec).
  replace (c_ncli c =? 1) with true by lia. cbn [negb].
  assert (Hpr2 : k_procs s2 !! p = Some pr) by (by rewrite (quiet_procs s1), (quiet_procs s)).
  kret_by (unfold proc_at; kret; by rewrite Hpr2).
  rewrite bool_decide_eq_false_2 by done. kret. rewrite truth_if, Hif.
  eexists s2, _. split; [reflexivity|]. split; [by transitivity s1|]. split; [done|].
  intros j q ls s3 Hr3 Hls. cbn [obind].
  apply runs_bind, (mycpu_runs j q ls 0); [done|by eapply running_if|].
  cbn. split; [by exists (k_if s3), (alter (fun r => r<|c_intena := c.(c_intena)|>) j (k_cpus s3)), (k_locks s3)|].
  by apply (running_upd_cpu j q q).
Qed.

(** sched refuses to switch with another lock held, without ptable.lock, or
    while the process is still marked RUNNING. *)
Lemma sched_refuses i p pr ls s :
  running i (Some p) ls s -> s.(k_procs) !! p = Some pr ->
  LkPtable ∉ ls \/ ls <> {[LkPtable]} \/ pr.(p_state) = RUNNING ->
  exists msg s', sched s = Panic msg s'.
Proof.
  intros Hr Hpr Hbad. unfold sched.
  destruct (curproc_ex i p _ s Hr) as (s1 & H1 & Hq1 & Hr1). kret_by exact H1. clear H1.
  destruct (holding_ex i _ _ LkPtable _ Hr1) as (s2 & H1 & Hq2 & Hr2). kret_by exact H1. clear H1.
  case_bool_decide as Hin; [cbn [negb]|by eexists _, _].
  pose proof (running_if _ _ _ _ Hr2 ltac:(set_solver)) as Hif.
  pose proof Hr2 as (c & (Hme & Hc & _) & Hn & _).
  kret_by (by apply (mycpu_off i)). kret_by (by apply cpu_at_spec).
  destruct (Z.eqb_spec (c_ncli c) 1) as [H1|H1]; [cbn [negb]|by eexists _, _].
  assert (Hpr2 : k_procs s2 !! p = Some pr) by (by rewrite (quiet_procs s1), (quiet_procs s)).
  kret_by (unfold proc_at; kret; by rewrite Hpr2).
  assert (Hls : ls = {[LkPtable]}).
  { assert (size ls = 1%nat) as (lk & Hlk)%size_1_elem_of by lia. set_solver. }
  rewrite bool_decide_eq_true_2 by naive_solver. by eexists _, _.
Qed.

(** The sleeping process, as the others see it. *)
Definition asleep (ch : chan) (p : proc) : proc := p<|p_chan := Some ch|><|p_state := SLEEPING|>.

(** The way into sleep: exchange the caller's lock for ptable.lock. *)
Lemma sleep_locks i p lk s :
  running i (Some p) {[lk]} s ->
  exists s', (if! bool_decide (lk <> LkPtable) then! (acquire LkPtable ;;; release lk))%xv6 s = Ret tt s' /\
    quiet s s' /\ running i (Some p) {[LkPtable]} s'.
Proof.
  intros Hr. case_bool_decide as Hlk; [|subst lk; by exists s].
  destruct (acquire_ex _ _ _ LkPtable _ Hr ltac:(set_solver)) as (s2 & E2 & Hq2 & Hr2).
  destruct (release_ex _ _ _ lk _ Hr2 ltac:(set_solver)) as (s3 & E3 & Hq3 & Hr3).
  replace (({[LkPtable]} ∪ {[lk]}) ∖ {[lk]}) with ({[LkPtable]} : gset lockid) in Hr3 by set_solver.
  exists s3. split; [by kret_by exact E2|]. split; [by transitivity s2|done].
Qed.

(** The way out. *)
Lemma sleep_unlocks i p lk s :
  running i (Some p) {[LkPtable]} s ->
  exists s', (if! bool_decide (lk <> LkPtable) then! (release LkPtable ;;; acquire lk))%xv6 s = Ret tt s' /\
    quiet s s' /\ running i (Some p) {[lk]} s'.
Proof.
  intros Hr. case_bool_decide as Hlk; [|subst lk; by exists s].
  destruct (release_ex _ _ _ LkPtable _ Hr ltac:(set_solver)) as (s2 & E2 & Hq2 & Hr2).
  replace ({[LkPtable]} ∖ {[LkPtable]}) with (∅ : gset lockid) in Hr2 by set_solver.
  destruct (acquire_ex _ _ _ lk _ Hr2 ltac:(set_solver)) as (s3 & E3 & Hq3 & Hr3).
  rewrite union_empty_r_L in Hr3.
  exists s3. split; [by kret_by exact E2|]. split; [by transitivity s2|done].
Qed.

(** From the exchange of the locks to the switch, and back. *)
Lemma sleep_rest (i p : nat) (pr : proc) (ch : chan) (s : kernel) (m : K unit) :
  running i (Some p) {[LkPtable]} s -> s.(k_procs) !! p = Some pr ->
  exists s1 k, (modify (upd_proc p (fun r => r<|p_chan := Some ch|>)) ;;;
      modify (upd_proc p (fun r => r<|p_state := SLEEPING|>)) ;;;
      sched ;;;
      modify (upd_proc p (fun r => r<|p_chan := None|>)) ;;; m)%xv6 s = Switch s1 k /\
    quiet (s<|k_procs ::= <[p := asleep ch pr]>|>) s1 /\
    running i (Some p) {[LkPtable]} s1 /\
    forall j s2, running j (Some p) {[LkPtable]} s2 ->
      exists s3, k s2 = m s3 /\ quiet (upd_proc p (fun r => r<|p_chan := None|>) s2) s3 /\ running j (Some p) {[LkPtable]} s3.
Proof.
  intros Hr Hp. kret. kret.
  match goal with |- context [bind sched _ ?st] => set (s4 := st) end.
  assert (Hs4 : s4 = s<|k_procs ::= <[p := asleep ch pr]>|>).
  { unfold s4, upd_proc, setf at 1 2 5, set_k_procs; cbn -[alter]. f_equal.
    erewrite !alter_insert;
      [|done|erewrite alter_insert by done; apply list_lookup_insert_eq; by eapply lookup_lt_Some].
    by rewrite list_insert_insert_eq. }
  assert (Hr4 : running i (Some p) {[LkPtable]} s4) by kframe Hr.
  destruct (sched_switches i p (asleep ch pr) s4 Hr4) as (s5 & k & E5 & Hq5 & Hr5 & Hk); [|done|].
  { rewrite Hs4. cbn. apply list_lookup_insert_eq. by eapply lookup_lt_Some. }
  unfold bind at 1. rewrite E5. cbn [obind]. eexists s5, _. split; [reflexivity|].
  split; [by rewrite <- Hs4|]. split; [done|].
  intros j s6 Hr6. specialize (Hk _ _ _ _ Hr6 ltac:(set_solver)).
  apply runs_inv in Hk as ([] & s7 & E7 & Hq7 & Hr7). rewrite E7. cbn [obind]. kret.
  eexists. split; [reflexivity|]. split; [|kframe Hr7]. by destruct Hq7 as (b & cs & lks & ->); exists b, cs, lks.
Qed.

Lemma sleep_switches (i p : nat) (pr : proc) (ch : chan) (lk : lockid) (s : kernel) :
  running i (Some p) {[lk]} s -> s.(k_procs) !! p = Some pr ->
  exists s1 k, sleep ch lk s = Switch s1 k /\
    quiet (s<|k_procs ::= <[p := asleep ch pr]>|>) s1 /\
    running i (Some p) {[LkPtable]} s1 /\
    forall j s2, running j (Some p) {[LkPtable]} s2 ->
      runs (k s2) (fun _ s3 =>
        quiet (upd_proc p (fun r => r<|p_chan := None|>) s2) s3 /\ running j (Some p) {[lk]} s3).
Proof.
  intros Hr Hpr. unfold sleep. cbn [lock_acquire lock_release spinlocks].
  destruct (myproc_ex _ _ _ _ Hr) as (s1 & E1 & Hq1 & Hr1). kret_by exact E1.
  destruct (sleep_locks _ _ _ _ Hr1) as (s3 & E3 & Hq3 & Hr3). kret_by exact E3.
  assert (Hp3 : k_procs s3 !! p = Some pr) by (by rewrite (quiet_procs s1), (quiet_procs s)).
  edestruct (sleep_rest i p pr ch s3) as (s5 & k & -> & Hq5 & Hr5 & Hk); [done|done|].
  exists s5, k. split; [reflexivity|]. assert (Hq13 : quiet s s3) by (by transitivity s1).
  split; [by quiet_by Hq13 Hq5|]. split; [done|].
  intros j s6 Hr6. destruct (Hk j s6 Hr6) as (s7 & -> & Hq7 & Hr7).
  destruct (sleep_unlocks _ _ lk _ Hr7) as (s9 & E9 & Hq9 & Hr9). rewrite E9. cbn.
  split; [by transitivity s7|done].
Qed.

(** The same lock operations with the other processors at work before each
    acquire and after each release. *)
Definition preempted : LockOps :=
  {| lock_acquire lk := (swtch ;;; acquire lk)%xv6; lock_release lk := (release lk ;;; swtch)%xv6 |}.

(** [no_gap i p ch lk o]: until process [p] is asleep on [ch], whenever others
    act, processor [i] holds [lk] or ptable.lock, whatever the others did before
    without that lock. *)
Inductive no_gap (i p : nat) (ch : chan) (lk : lockid) : outcome kernel unit -> Prop :=
| gap_asleep s k pr :
    running i (Some p) {[LkPtable]} s -> s.(k_procs) !! p = Some (asleep ch pr) -> no_gap i p ch lk (Switch s k)
| gap_held s k held :
    held = lk \/ held = LkPtable -> running i (Some p) {[held]} s ->
    (forall s', running i (Some p) {[held]} s' -> is_Some (s'.(k_procs) !! p) -> no_gap i p ch lk (k s')) ->
    no_gap i p ch lk (Switch s k).

Lemma sleep_no_gap (i p : nat) (ch : chan) (lk : lockid) (s : kernel) :
  running i (Some p) {[lk]} s -> is_Some (s.(k_procs) !! p) -> no_gap i p ch lk (@sleep preempted ch lk s).
Proof.
  intros Hr [pr Hpr]. unfold sleep. cbn [lock_acquire lock_release preempted].
  destruct (myproc_ex _ _ _ _ Hr) as (s1 & E1 & Hq1 & Hr1). kret_by exact E1.
  assert (Hrest : forall m s', running i (Some p) {[LkPtable]} s' -> is_Some (k_procs s' !! p) ->
    no_gap i p ch lk ((modify (upd_proc p (fun r => r<|p_chan := Some ch|>)) ;;;
      modify (upd_proc p (fun r => r<|p_state := SLEEPING|>)) ;;;
      sched ;;;
      modify (upd_proc p (fun r => r<|p_chan := None|>)) ;;; m)%xv6 s')).
  { intros m s' Hr' [q Hq]. destruct (sleep_rest i p q ch s' m Hr' Hq) as (s5 & k & -> & Hq5 & Hr5 & _).
    apply (gap_asleep _ _ _ _ _ _ q); [done|]. rewrite (quiet_procs _ _ Hq5). cbn. apply list_lookup_insert_eq. by eapply lookup_lt_Some. }
  case_bool_decide as Hlk.
  - unfold bind at 1. unfold bind at 1. cbn [swtch obind]. apply (gap_held _ _ _ _ _ _ lk); [by left|done|]. intros s2 Hr2 Hp2.
    destruct (acquire_ex _ _ _ LkPtable _ Hr2 ltac:(set_solver)) as (s3 & E3 & Hq3 & Hr3).
    destruct (release_ex _ _ _ lk _ Hr3 ltac:(set_solver)) as (s4 & E4 & Hq4 & Hr4).
    replace (({[LkPtable]} ∪ {[lk]}) ∖ {[lk]}) with ({[LkPtable]} : gset lockid) in Hr4 by set_solver.
    rewrite E3. cbn [obind]. unfold bind at 1. rewrite E4. cbn [obind swtch].
    apply (gap_held _ _ _ _ _ _ LkPtable); [by right|done|]. intros s5 Hr5 Hp5. by apply Hrest.
  - subst lk. kret. apply Hrest; [done|]. by rewrite (quiet_procs _ _ Hq1).
Qed.

(** C5: sleep releases the caller's lock and gives up the processor atomically
    with respect to wakeup.  When other processors act before each acquire and
    after each release inside it, the caller's lock or ptable.lock is held at
    every one of these points until the process is SLEEPING on the channel, and
    another processor that wants the caller's lock, or calls wakeup while
    ptable.lock is held, spins: no wakeup is lost.  At the switch the process is
    SLEEPING on the channel, the caller's lock is free and ptable.lock is still
    held, so every later wakeup on the channel makes it RUNNABLE; when it is
    resumed, on whatever processor, it clears its channel and returns holding
    exactly the caller's lock again. *)
Theorem sleep_atomic (i p : nat) (pr : proc) (ch : chan) (lk : lockid) (s : kernel) :
  running i (Some p) {[lk]} s -> s.(k_procs) !! p = Some pr ->
  no_gap i p ch lk (@sleep preempted ch lk s) /\
  (forall j c s', cpu_ok j c s' -> j <> i ->
     (s'.(k_locks) !! lk = Some (mkspinlock 1 (Some i)) -> exists s'', acquire lk s' = Spin s'') /\
     (s'.(k_locks) !! LkPtable = Some (mkspinlock 1 (Some i)) -> exists s'', wakeup ch s' = Spin s'')) /\
  exists s1 k, sleep ch lk s = Switch s1 k /\
    s1.(k_procs) = <[p := asleep ch pr]> s.(k_procs) /\
    running i (Some p) {[LkPtable]} s1 /\
    (forall j q s2, running j q ∅ s2 -> s2.(k_procs) !! p = Some (asleep ch pr) ->
       runs (wakeup ch s2) (fun _ s3 =>
         s3.(k_procs) !! p = Some ((asleep ch pr)<|p_state := RUNNABLE|>))) /\
    forall j s2, running j (Some p) {[LkPtable]} s2 ->
      runs (k s2) (fun _ s3 =>
        s3.(k_procs) = alter (fun r => r<|p_chan := None|>) p s2.(k_procs) /\
        running j (Some p) {[lk]} s3).
Proof.
  intros Hr Hpr. split; [by apply sleep_no_gap|]. split.
  { intros j c s' Hok Hj. split; intros Hl; [exists (upd_lock lk (fun l => l<|locked := 1|>) (push_state j s'))|
      exists (upd_lock LkPtable (fun l => l<|locked := 1|>) (push_state j s')); unfold wakeup, bind at 1];
      rewrite (acquire_busy _ j c); unfold lock_of; rewrite ?Hl; cbn; congruence. }
  destruct (sleep_switches i p pr ch lk s Hr Hpr) as (s1 & k & E & Hq1 & Hr1 & Hk).
  exists s1, k. split_and!; [done| |done| |].
  - by rewrite (quiet_procs _ s1 Hq1).
  - intros j q s2 Hr2 Hps.
    destruct (wakeup_ex j q ∅ ch s2 Hr2 ltac:(set_solver)) as (s3 & -> & Hq3 & _).
    cbn. rewrite (quiet_procs _ _ Hq3). cbn. rewrite list_lookup_fmap, Hps.
    cbn. unfold wake, asleep. cbn. by rewrite !bool_decide_eq_true_2.
  - intros j s2 Hr2. eapply runs_mono; [by apply Hk|].
    intros _ s3 (Hq3 & Hr3). split; [|done]. by rewrite (quiet_procs _ s3 Hq3).
Qed.

Lemma sleep_atomic_witness :
  exists s1 k, sleep ChTicks LkTicks (in_kernel 0 LkTicks one_runnable) = Switch s1 k /\
    (p_state <$> s1.(k_procs) !! 0%nat) = Some SLEEPING.
Proof.
  destruct (sleep_atomic 0 0 _ ChTicks LkTicks (in_kernel 0 LkTicks one_runnable)
    (in_kernel_running 0 LkTicks one_runnable eq_refl) eq_refl) as (_ & _ & s1 & k & E & Hp & _).
  exists s1, k. split; [exact E|]. by rewrite Hp.
Defined.

Lemma find_pid_Some pid ps n :
  find_pid pid ps = Some n ->
  exists p, ps !! n = Some p /\ p.(p_pid) = pid /\
    forall m p', (m < n)%nat -> ps !! m = Some p' -> p'.(p_pid) <> pid.
Proof.
  unfold find_pid. intros H. apply fmap_Some in H as ([n' p] & H & ->). cbn.
  apply list_find_Some in H as (Hl & Hp & Hbefore). exists p. split_and!; [done..|].
  intros m p' Hm Hp'. by eapply Hbefore.
Qed.

Lemma find_pid_None pid ps :
  find_pid pid ps = None -> Forall (fun p => p.(p_pid) <> pid) ps.
Proof. unfold find_pid. intros H%fmap_None. exact (proj1 (list_find_None _ _) H). Qed.

(** kill finds the first slot with the given pid, marks it killed, makes it
    RUNNABLE if it was asleep and leaves every other slot alone, and returns 0;
    without such a slot it returns -1 and changes nothing.  The lock is free
    again either way. *)
Theorem kill_effect (i : nat) (q : option nat) (pid : Z) (s : kernel) :
  running i q ∅ s ->
  runs (kill pid s) (fun r s' => running i q ∅ s' /\
    ((r = 0 /\ exists n p, s.(k_procs) !! n = Some p /\ p.(p_pid) = pid /\
        (forall m p', (m < n)%nat -> s.(k_procs) !! m = Some p' -> p'.(p_pid) <> pid) /\
        s'.(k_procs) = <[n := p<|p_killed := 1|>
          <|p_state := if bool_decide (p.(p_state) = SLEEPING) then RUNNABLE else p.(p_state)|>]>
          s.(k_procs)) \/
     (r = -1 /\ Forall (fun p => p.(p_pid) <> pid) s.(k_procs) /\ quiet s s'))).
Proof.
  intros Hr. unfold kill.
  destruct (acquire_ex _ _ _ LkPtable _ Hr ltac:(set_solver)) as (s1 & E1 & Hq1 & Hr1).
  kret_by exact E1. kret. rewrite (quiet_procs _ _ Hq1), union_empty_r_L in *.
  destruct (find_pid pid (k_procs s)) as [n|] eqn:Ef.
  - kret. set (s2 := upd_proc n kill_proc s1).
    assert (Hr2 : running i q {[LkPtable]} s2) by kframe Hr1.
    destruct (release_ex _ _ _ LkPtable _ Hr2 ltac:(set_solver)) as (s3 & E3 & Hq3 & Hr3).
    kret_by exact E3. cbn.
    replace ({[LkPtable]} ∖ {[LkPtable]}) with (∅ : gset lockid) in Hr3 by set_solver.
    split; [done|]. left. split; [done|].
    destruct (find_pid_Some _ _ _ Ef) as (p & Hp & Hpid & Hbefore). exists n, p.
    split_and!; [done..|]. rewrite (quiet_procs _ _ Hq3). unfold s2, upd_proc. cbn -[alter].
    rewrite (quiet_procs _ _ Hq1), (alter_insert _ _ _ p) by done. f_equal. unfold kill_proc. cbn.
    by case_bool_decide.
  - destruct (release_ex _ _ _ LkPtable _ Hr1 ltac:(set_solver)) as (s3 & E3 & Hq3 & Hr3).
    kret_by exact E3. cbn.
    replace ({[LkPtable]} ∖ {[LkPtable]}) with (∅ : gset lockid) in Hr3 by set_solver.
    split; [done|]. right. split_and!; [done|by apply find_pid_None|by transitivity s1].
Qed.

Lemma kill_effect_witness : exists s', kill 7 (loaded KERNLINK KERNLINK) = Ret (-1) s'.
Proof.
  pose proof (runs_inv _ _ (kill_effect 0 None 7 _ (loaded_running KERNLINK KERNLINK)))
    as (r & s' & E & _ & [(-> & n & p & Hp & Hpid & _)|(-> & _)]).
  - exfalso. apply list_elem_of_lookup_2 in Hp. unfold loaded in Hp. cbn [k_procs] in Hp.
    apply elem_of_replicate in Hp as [-> _]. done.
  - by exists s'.
Defined.
