(* ===== verification/Sleeplock.v ===== *)
(** * Sleep locks: sleeplock.c

    A waiter goes round the loop of acquiresleep every time it is woken and
    finds the lock taken again; how often that may happen is not bounded by the
    code, so the loop takes its fuel from the class [Patience] and every
    theorem holds for every value of it. *)

From S2P Require Import Prelude State Spinlock Thread CString Kalloc Vm Sched.

Class Patience := patience : nat.

Definition slock_of (l : sleepid) (s : kernel) : sleeplock :=
  default (mksleeplock 0 0) (s.(k_slocks) !! l).
Definition upd_slock (l : sleepid) (f : sleeplock -> sleeplock) (s : kernel) : kernel :=
  s<|k_slocks ::= <[l := f (slock_of l s)]>|>.

(** myproc()->pid *)
Definition mypid : K Z :=
  let! p := curproc in
  let! pr := proc_at p in
  ret pr.(p_pid).

Definition initsleeplock (l : sleepid) : K unit :=
  initlock (LkSleep l) ;;;
  modify (upd_slock l (fun k => k<|sl_locked := 0|>)) ;;;
  modify (upd_slock l (fun k => k<|sl_pid := 0|>)).

Fixpoint acquiresleep_wait (fuel : nat) (l : sleepid) : K unit :=
  match fuel with
  | O => nofuel
  | S fuel' =>
      let! s := get in
      if truth (slock_of l s).(sl_locked) then
        sleep (ChSleep l) (LkSleep l) ;;;
        acquiresleep_wait fuel' l
      else ret tt
  end.
Definition acquiresleep `{!Patience} (l : sleepid) : K unit :=
  acquire (LkSleep l) ;;;
  acquiresleep_wait (S patience) l ;;;
  modify (upd_slock l (fun k => k<|sl_locked := 1|>)) ;;;
  let! pid := mypid in
  modify (upd_slock l (fun k => k<|sl_pid := pid|>)) ;;;
  release (LkSleep l).

Definition releasesleep (l : sleepid) : K unit :=
  acquire (LkSleep l) ;;;
  modify (upd_slock l (fun k => k<|sl_locked := 0|>)) ;;;
  modify (upd_slock l (fun k => k<|sl_pid := 0|>)) ;;;
  wakeup (ChSleep l) ;;;
  release (LkSleep l).

Definition holdingsleep (l : sleepid) : K bool :=
  acquire (LkSleep l) ;;;
  let! s := get in
  let! r :=
    (if truth (slock_of l s).(sl_locked) then
       let! pid := mypid in
       ret ((slock_of l s).(sl_pid) =? pid)
     else ret false) in
  release (LkSleep l) ;;;
  ret r.

(** ** A process in the kernel

    [thr i p pid ls s]: process [p], whose pid is [pid], executes on processor
    [i] and holds the spin locks [ls]. *)
Definition thr (i p : nat) (pid : Z) (ls : gset lockid) (s : kernel) : Prop :=
  running i (Some p) ls s /\ has_pid p pid s.

Lemma thr_frame i p pid ls s s' :
  s'.(k_apicid) = s.(k_apicid) -> s'.(k_if) = s.(k_if) -> s'.(k_cpus) = s.(k_cpus) ->
  s'.(k_locks) = s.(k_locks) -> s'.(k_procs) = s.(k_procs) ->
  thr i p pid ls s -> thr i p pid ls s'.
Proof.
  intros Ha Hi Hc Hl Hp [Hr Hpid]. split; [by apply (running_frame _ _ _ _ s)|].
  unfold has_pid. by rewrite Hp.
Qed.
(** [tframe H]: as [kframe], for [thr]. *)
Ltac tframe H := eapply (fun e1 e2 e3 e4 e5 => thr_frame _ _ _ _ _ _ e1 e2 e3 e4 e5 H); reflexivity.

Lemma acquire_thr i p pid ls lk s :
  thr i p pid ls s -> lk ∉ ls ->
  exists s', acquire lk s = Ret tt s' /\ calm s s' /\ thr i p pid ({[lk]} ∪ ls) s'.
Proof.
  intros [Hr Hp] Hlk. destruct (acquire_ex _ _ _ _ _ Hr Hlk) as (s' & E & Hq & Hr').
  apply calm_quiet in Hq. exists s'. split_and!; [done..|]. split; [done|]. by eapply has_pid_calm.
Qed.

Lemma release_thr i p pid ls lk s :
  thr i p pid ({[lk]} ∪ ls) s -> lk ∉ ls ->
  exists s', release lk s = Ret tt s' /\ calm s s' /\ thr i p pid ls s'.
Proof.
  intros [Hr Hp] Hlk. destruct (release_ex _ _ _ lk _ Hr ltac:(set_solver)) as (s' & E & Hq & Hr').
  replace (({[lk]} ∪ ls) ∖ {[lk]}) with ls in Hr' by set_solver.
  apply calm_quiet in Hq. exists s'. split_and!; [done..|]. split; [done|]. by eapply has_pid_calm.
Qed.

Lemma mypid_thr i p pid ls s :
  thr i p pid ls s -> exists s', mypid s = Ret pid s' /\ calm s s' /\ thr i p pid ls s'.
Proof.
  intros [Hr Hp]. destruct (curproc_ex _ _ _ _ Hr) as (s' & E & Hq & Hr').
  apply calm_quiet in Hq. pose proof (has_pid_calm _ _ _ _ Hq Hp) as Hp'.
  unfold has_pid in Hp'. apply fmap_Some in Hp' as (pr & Hpr & ->).
  exists s'. split; [|split; [done|split; [done|unfold has_pid; by rewrite Hpr]]].
  unfold mypid. kret_by exact E. kret_by (unfold proc_at; kret; by rewrite Hpr). done.
Qed.

Lemma wake_woken ch ps : woken ps (wake ch <$> ps).
Proof.
  induction ps as [|p ps IH]; constructor; [|exact IH].
  unfold wake. case_bool_decide; [|by left]. case_bool_decide; [by right|by left].
Qed.

Lemma wakeup_thr i p pid ls ch s :
  thr i p pid ls s -> LkPtable ∉ ls ->
  exists s', wakeup ch s = Ret tt s' /\ calm s s' /\ thr i p pid ls s'.
Proof.
  intros [Hr Hp] Hls. destruct (wakeup_ex _ _ _ ch _ Hr Hls) as (s' & E & Hq & Hr').
  assert (Hc : calm s s').
  { destruct Hq as (b & cs & lks & ->). exists b, cs, lks, (wake ch <$> k_procs s).
    split; [apply wake_woken|reflexivity]. }
  exists s'. split_and!; [done..|]. split; [done|]. by eapply has_pid_calm.
Qed.

Lemma slock_of_set l k s : slock_of l (s<|k_slocks ::= <[l := k]>|>) = k.
Proof. unfold slock_of. cbn. by rewrite lookup_insert_eq. Qed.

Lemma upd_slock_set l f k s :
  upd_slock l f (s<|k_slocks ::= <[l := k]>|>) = s<|k_slocks ::= <[l := f k]>|>.
Proof.
  unfold upd_slock. rewrite slock_of_set. unfold setf, set_k_slocks. cbn.
  by rewrite insert_insert_eq.
Qed.

Lemma slock_of_calm l s s' : calm s s' -> slock_of l s' = slock_of l s.
Proof. by intros (b & cs & lks & ps & _ & ->). Qed.

Section Specs.
Context {P : Patience} (i p : nat) (pid : Z) (ls : gset lockid) (l : sleepid) (s : kernel).
Hypothesis Hthr : thr i p pid ls s.
Hypothesis Hls : LkSleep l ∉ ls.

(** The lock is free: acquiresleep takes it without sleeping. *)
Lemma acquiresleep_ex :
  (slock_of l s).(sl_locked) = 0 ->
  exists s', acquiresleep l s = Ret tt s' /\
    calm (s<|k_slocks ::= <[l := mksleeplock 1 pid]>|>) s' /\ thr i p pid ls s'.
Proof.
  intros Hfree. unfold acquiresleep.
  destruct (acquire_thr _ _ _ _ _ _ Hthr Hls) as (s1 & E1 & Hc1 & Ht1). kret_by exact E1.
  kret_by (cbn [acquiresleep_wait]; kret; by rewrite (slock_of_calm _ s s1), Hfree by done). kret.
  set (s2 := upd_slock l _ s1). assert (Ht2 : thr i p pid ({[LkSleep l]} ∪ ls) s2) by tframe Ht1.
  destruct (mypid_thr _ _ _ _ _ Ht2) as (s3 & E3 & Hc3 & Ht3). kret_by exact E3. kret.
  set (s4 := upd_slock l _ s3). assert (Ht4 : thr i p pid ({[LkSleep l]} ∪ ls) s4) by tframe Ht3.
  destruct (release_thr _ _ _ _ _ _ Ht4 Hls) as (s5 & E5 & Hc5 & Ht5).
  exists s5. split_and!; [done| |done].
  assert (Hs4 : calm (s<|k_slocks ::= <[l := mksleeplock 1 pid]>|>) s4).
  { replace (mksleeplock 1 pid) with
      ((slock_of l s)<|sl_locked := 1|><|sl_pid := pid|>) by done.
    erewrite <- upd_slock_set. unfold s4.
    assert (Hc2 : calm (s<|k_slocks ::= <[l := (slock_of l s)<|sl_locked := 1|>]>|>) s2).
    { unfold s2, upd_slock. rewrite (slock_of_calm _ s s1) by done.
      destruct Hc1 as (b & cs & lks & ps & Hw & ->). by exists b, cs, lks, ps. }
    assert (Hc : calm (s<|k_slocks ::= <[l := (slock_of l s)<|sl_locked := 1|>]>|>) s3)
      by (by transitivity s2).
    unfold upd_slock. rewrite (slock_of_calm _ _ _ Hc).
    destruct Hc as (b & cs & lks & ps & Hw & ->). by exists b, cs, lks, ps. }
  by transitivity s4.
Qed.

Lemma holdingsleep_ex :
  exists s', holdingsleep l s =
      Ret (truth (slock_of l s).(sl_locked) && ((slock_of l s).(sl_pid) =? pid)) s' /\
    calm s s' /\ thr i p pid ls s'.
Proof.
  unfold holdingsleep.
  destruct (acquire_thr _ _ _ _ _ _ Hthr Hls) as (s1 & E1 & Hc1 & Ht1). kret_by exact E1. kret.
  rewrite (slock_of_calm _ s s1) by done. destruct (truth _) eqn:El; cbn [andb].
  - destruct (mypid_thr _ _ _ _ _ Ht1) as (s3 & E3 & Hc3 & Ht3). kret_by (by kret_by exact E3).
    destruct (release_thr _ _ _ _ _ _ Ht3 Hls) as (s5 & E5 & Hc5 & Ht5). kret_by exact E5.
    exists s5. split_and!; [done| |done]. transitivity s1; [done|]. by transitivity s3.
  - kret. destruct (release_thr _ _ _ _ _ _ Ht1 Hls) as (s5 & E5 & Hc5 & Ht5). kret_by exact E5.
    exists s5. split_and!; [done| |done]. by transitivity s1.
Qed.

Lemma releasesleep_ex :
  LkPtable ∉ ls ->
  exists s', releasesleep l s = Ret tt s' /\
    calm (s<|k_slocks ::= <[l := mksleeplock 0 0]>|>) s' /\ thr i p pid ls s'.
Proof.
  intros Hpt. unfold releasesleep.
  destruct (acquire_thr _ _ _ _ _ _ Hthr Hls) as (s1 & E1 & Hc1 & Ht1). kret_by exact E1. kret. kret.
  set (s2 := upd_slock l _ (upd_slock l _ s1)).
  assert (Ht2 : thr i p pid ({[LkSleep l]} ∪ ls) s2) by tframe Ht1.
  destruct (wakeup_thr _ _ _ _ (ChSleep l) _ Ht2 ltac:(set_solver)) as (s3 & E3 & Hc3 & Ht3).
  kret_by exact E3.
  destruct (release_thr _ _ _ _ _ _ Ht3 Hls) as (s5 & E5 & Hc5 & Ht5).
  exists s5. split_and!; [done| |done].
  assert (Hs2 : calm (s<|k_slocks ::= <[l := mksleeplock 0 0]>|>) s2).
  { unfold s2. unfold upd_slock at 2. rewrite upd_slock_set.
    destruct Hc1 as (b & cs & lks & ps & Hw & ->). by exists b, cs, lks, ps. }
  transitivity s2; [done|]. by transitivity s3.
Qed.
End Specs.

(** ** Contention *)

(** The process is asleep on the lock, which is taken; ptable.lock is the only
    spin lock held. *)
Definition waits_for (p : nat) (l : sleepid) (s : kernel) : Prop :=
  (slock_of l s).(sl_locked) <> 0 /\
  (exists pr, s.(k_procs) !! p = Some pr /\ pr.(p_state) = SLEEPING /\ pr.(p_chan) = Some (ChSleep l)) /\
  exists i, running i (Some p) {[LkPtable]} s.
(** The scheduler of some processor switches back to the process; anything else
    may have changed. *)
Definition resumed (p : nat) (pid : Z) (_ s : kernel) : Prop :=
  has_pid p pid s /\ exists i, running i (Some p) {[LkPtable]} s.

Lemma has_pid_upd_proc p pid n f s :
  (forall pr, p_pid (f pr) = p_pid pr) -> has_pid p pid s -> has_pid p pid (upd_proc n f s).
Proof.
  intros Hf. unfold has_pid, upd_proc. cbn -[alter]. intros H.
  apply fmap_Some in H as (pr & Hpr & ->). destruct (decide (n = p)) as [->|Hne].
  - rewrite list_lookup_alter_eq, Hpr. cbn. by rewrite Hf.
  - by rewrite list_lookup_alter_ne, Hpr by done.
Qed.

Lemma acquiresleep_wait_wp p pid l fuel : forall i s,
  thr i p pid {[LkSleep l]} s ->
  wp (waits_for p l) (resumed p pid) (acquiresleep_wait fuel l s) (fun _ s' =>
    (slock_of l s').(sl_locked) = 0 /\ exists j, thr j p pid {[LkSleep l]} s').
Proof.
  induction fuel as [|fuel IH]; intros i s [Hr Hp]; [done|]. cbn [acquiresleep_wait]. kret.
  destruct (truth (sl_locked (slock_of l s))) eqn:El.
  - pose proof Hp as Hp0. unfold has_pid in Hp0. apply fmap_Some in Hp0 as (pr & Hpr & Hpid).
    destruct (sleep_switches i p pr (ChSleep l) (LkSleep l) s Hr Hpr)
      as (s1 & k & E & Hq1 & Hr1 & Hk).
    unfold bind. rewrite E. cbn [obind wp]. split.
    + destruct Hq1 as (b & cs & lks & ->). split; [|split; [|by eexists]].
      * change (slock_of l _) with (slock_of l s). unfold truth in El.
        by destruct (Z.eqb_spec (sl_locked (slock_of l s)) 0).
      * exists (asleep (ChSleep l) pr). split; [|done]. cbn.
        apply list_lookup_insert_eq. by eapply lookup_lt_Some.
    + intros s2 [Hp2 [j Hr2]]. apply wp_obind. eapply runs_wp, runs_mono; [by apply Hk|].
      intros _ s3 [Hq3 Hr3]. apply (IH j). split; [done|].
      eapply has_pid_calm; [by apply calm_quiet|]. by apply has_pid_upd_proc.
  - cbn. split; [|by exists i]. unfold truth in El. by apply negb_false_iff, Z.eqb_eq in El.
Qed.

(** acquiresleep under contention.  However often the process is woken and
    whatever the others did meanwhile, it only ever gives up the processor
    asleep on the taken lock with no other spin lock than ptable.lock held, it
    never panics, and when it returns the lock is taken in its name and no spin
    lock is held. *)
Theorem acquiresleep_takes {P : Patience} (i p : nat) (pid : Z) (l : sleepid) (s : kernel) :
  thr i p pid ∅ s ->
  wp (waits_for p l) (resumed p pid) (acquiresleep l s) (fun _ s' =>
    slock_of l s' = mksleeplock 1 pid /\ exists j, thr j p pid ∅ s').
Proof.
  intros Ht. unfold acquiresleep.
  destruct (acquire_thr _ _ _ _ (LkSleep l) _ Ht ltac:(set_solver)) as (s1 & E1 & Hc1 & Ht1).
  kret_by exact E1. rewrite union_empty_r_L in Ht1.
  apply wp_bind. eapply wp_mono; [by apply (acquiresleep_wait_wp p pid l _ i)|].
  intros _ s2 [Hfree [j Ht2]]. kret. set (s3 := upd_slock l _ s2).
  assert (Ht3 : thr j p pid {[LkSleep l]} s3) by tframe Ht2.
  destruct (mypid_thr _ _ _ _ _ Ht3) as (s4 & E4 & Hc4 & Ht4). kret_by exact E4. kret.
  set (s5 := upd_slock l _ s4).
  assert (Ht5 : thr j p pid ({[LkSleep l]} ∪ ∅) s5) by (rewrite union_empty_r_L; tframe Ht4).
  destruct (release_thr _ _ _ _ _ _ Ht5 ltac:(set_solver)) as (s6 & -> & Hc6 & Ht6).
  cbn. split; [|by exists j]. rewrite (slock_of_calm _ _ _ Hc6). unfold s5, upd_slock.
  rewrite slock_of_set, (slock_of_calm _ _ _ Hc4). unfold s3, upd_slock. by rewrite slock_of_set.
Qed.

#[local] Instance one_wait : Patience := 1%nat.

Lemma acquiresleep_takes_witness :
  wp (waits_for 0 (SlBuf 3)) (resumed 0 0)
    (acquiresleep (SlBuf 3)
      (one_runnable<|k_cpus := [boot_cpu<|c_proc := Some 0%nat|>]|>
        <|k_slocks := {[SlBuf 3 := mksleeplock 1 9]}|>))
    (fun _ s' => slock_of (SlBuf 3) s' = mksleeplock 1 0).
Proof.
  eapply wp_mono; [apply (acquiresleep_takes 0 0 0 (SlBuf 3))|by intros _ s' [H _]].
  split; [|done].
  eexists. split_and!; [done..| |].
  - by intros lk ?%not_elem_of_empty.
  - intros lk _. unfold lock_of. cbn. by rewrite lookup_empty.
Defined.
