(* ===== verification/Disk.v ===== *)
(** * Block devices: the driver interface of buf.h, and memide.c

    The buffer cache calls the driver's iderw and the trap handler its ideintr.
    [BlockDriver] is that interface, [SyncDriver] what a driver that finishes the transfer before it
    returns promises, and [memide] the in-memory disk, which keeps it. *)

From S2P Require Import Prelude State Spinlock Thread CString Kalloc Vm Sched Sleeplock.

(** ** Buffers *)
Definition buf_of (b : nat) (s : kernel) : buf := default zero_buf (s.(k_bufs) !! b).
Definition upd_buf (b : nat) (f : buf -> buf) (s : kernel) : kernel := s<|k_bufs ::= alter f b|>.

Definition valid (x : buf) : bool := truth (Z.land x.(b_flags) B_VALID).
Definition dirty (x : buf) : bool := truth (Z.land x.(b_flags) B_DIRTY).

Class BlockDriver := { iderw : nat -> K unit; disk_intr : K unit }.

(** ** memide.c *)
Definition block_upd (bn : Z) (d : list Z) (dk : Z -> list Z) : Z -> list Z :=
  fun n => if n =? bn then d else dk n.
Definition disk_write (bn : Z) (d : list Z) (s : kernel) : kernel :=
  s<|k_disk ::= block_upd bn d|>
   <|k_writes ::= fun w => w ++ [(bn, d)]|>.

(** [img] is the file system image linked into the kernel, cut into blocks. *)
Definition ideinit (img : Z -> list Z) (size : Z) : K unit :=
  modify (fun s => s<|k_disk := img|><|k_disksize := size / BSIZE|>).
Definition ideintr : K unit := ret tt.

Definition memide_rw (b : nat) : K unit :=
  let! h := holdingsleep (SlBuf b) in
  if negb h then panic "iderw: buf not locked"
  else
    let! s := get in
    let x := buf_of b s in
    if Z.land x.(b_flags) (Z.lor B_VALID B_DIRTY) =? B_VALID then panic "iderw: nothing to do"
    else if negb (x.(b_dev) =? 1) then panic "iderw: request not for disk 1"
    else if s.(k_disksize) <=? x.(b_blockno) then panic "iderw: block out of range"
    else
      (if truth (Z.land x.(b_flags) B_DIRTY) then
         modify (upd_buf b (fun x => x<|b_flags := Z.land x.(b_flags) (Z.lnot B_DIRTY)|>)) ;;;
         modify (disk_write x.(b_blockno) x.(b_data))
       else
         modify (upd_buf b (fun y => y<|b_data := s.(k_disk) x.(b_blockno)|>))) ;;;
      modify (upd_buf b (fun x => x<|b_flags := Z.lor x.(b_flags) B_VALID|>)).

#[export] Instance memide : BlockDriver := {| iderw := memide_rw; disk_intr := ideintr |}.

(** ** What a synchronous driver promises *)

(** The flags a buffer can have: nothing, valid, or valid and dirty. *)
Definition flags_ok (x : buf) : Prop :=
  x.(b_flags) = 0 \/ x.(b_flags) = B_VALID \/ x.(b_flags) = Z.lor B_VALID B_DIRTY.

Class SyncDriver (D : BlockDriver) : Prop := {
  (** A buffer that is not valid is filled from the disk. *)
  iderw_read i p pid s b x :
    thr i p pid ∅ s -> slock_of (SlBuf b) s = mksleeplock 1 pid ->
    s.(k_bufs) !! b = Some x -> x.(b_flags) = 0 -> x.(b_dev) = 1 ->
    x.(b_blockno) < s.(k_disksize) ->
    exists s', iderw b s = Ret tt s' /\
      calm (s<|k_bufs ::= <[b := x<|b_flags := B_VALID|><|b_data := s.(k_disk) x.(b_blockno)|>]>|>) s' /\
      thr i p pid ∅ s';
  (** A dirty buffer is written, and is then valid and clean. *)
  iderw_write i p pid s b x :
    thr i p pid ∅ s -> slock_of (SlBuf b) s = mksleeplock 1 pid ->
    s.(k_bufs) !! b = Some x -> x.(b_flags) = Z.lor B_VALID B_DIRTY -> x.(b_dev) = 1 ->
    x.(b_blockno) < s.(k_disksize) ->
    exists s', iderw b s = Ret tt s' /\
      calm (disk_write x.(b_blockno) x.(b_data) (s<|k_bufs ::= <[b := x<|b_flags := B_VALID|>]>|>)) s' /\
      thr i p pid ∅ s'
}.

Lemma calm_fields s s' :
  calm s s' ->
  s'.(k_bufs) = s.(k_bufs) /\ s'.(k_lru) = s.(k_lru) /\ s'.(k_disk) = s.(k_disk) /\
  s'.(k_disksize) = s.(k_disksize) /\ s'.(k_slocks) = s.(k_slocks).
Proof. by intros (b & cs & lks & ps & _ & ->). Qed.

(** The checks memide_rw makes before the transfer, with the buffer locked. *)
Lemma memide_rw_checked i p pid s b x :
  thr i p pid ∅ s -> slock_of (SlBuf b) s = mksleeplock 1 pid ->
  s.(k_bufs) !! b = Some x -> x.(b_flags) <> B_VALID -> flags_ok x -> x.(b_dev) = 1 ->
  x.(b_blockno) < s.(k_disksize) ->
  exists s', calm s s' /\ thr i p pid ∅ s' /\
    memide_rw b s =
      ((if truth (Z.land x.(b_flags) B_DIRTY) then
          modify (upd_buf b (fun x => x<|b_flags := Z.land x.(b_flags) (Z.lnot B_DIRTY)|>)) ;;;
          modify (disk_write x.(b_blockno) x.(b_data))
        else
          modify (upd_buf b (fun y => y<|b_data := s.(k_disk) x.(b_blockno)|>))) ;;;
       modify (upd_buf b (fun x => x<|b_flags := Z.lor x.(b_flags) B_VALID|>)))%xv6 s'.
Proof.
  intros Ht Hsl Hx Hnv Hfl Hdev Hbn. unfold memide_rw.
  destruct (holdingsleep_ex i p pid ∅ (SlBuf b) s Ht ltac:(set_solver)) as (s1 & E1 & Hc1 & Ht1).
  rewrite Hsl in E1. cbn in E1. rewrite Z.eqb_refl in E1. kret_by exact E1. cbn [negb]. kret.
  destruct (calm_fields _ _ Hc1) as (Hb & _ & Hd & Hsz & _).
  unfold buf_of. rewrite Hb, Hd, Hsz, Hx. cbn [default from_option id].
  replace (_ =? B_VALID) with false.
  - rewrite Hdev. cbn [Z.eqb negb Pos.eqb].
    replace (k_disksize s <=? b_blockno x) with false by lia. by exists s1.
  - destruct Hfl as [->|[Hf| ->]]; [done|congruence|done].
Qed.

Lemma upd_buf_set b f x s :
  s.(k_bufs) !! b = Some x -> upd_buf b f s = s<|k_bufs ::= <[b := f x]>|>.
Proof. intros H. unfold upd_buf, setf, set_k_bufs. f_equal. by apply alter_insert. Qed.

Lemma upd_buf_insert b f x s :
  (b < length s.(k_bufs))%nat ->
  upd_buf b f (s<|k_bufs ::= <[b := x]>|>) = s<|k_bufs ::= <[b := f x]>|>.
Proof.
  intros H. rewrite (upd_buf_set b f x) by (by apply list_lookup_insert_eq).
  unfold setf, set_k_bufs. cbn. by rewrite list_insert_insert_eq.
Qed.

#[export] Instance memide_sync : SyncDriver memide.
Proof.
  split; intros i p pid s b x Ht Hsl Hx Hf Hdev Hbn; cbn [iderw memide];
    (destruct (memide_rw_checked i p pid s b x) as (s1 & Hc1 & Ht1 & ->);
      [solve [done | by rewrite Hf | unfold flags_ok; naive_solver]..|]);
    (assert (Hx1 : k_bufs s1 !! b = Some x) by (by destruct (calm_fields _ _ Hc1) as (-> & _)));
    pose proof (lookup_lt_Some _ _ _ Hx1) as Hlt; rewrite Hf.
  - change (truth _) with false. kret. unfold modify.
    rewrite (upd_buf_set b _ x s1) by done. rewrite upd_buf_insert by done.
    eexists. split; [reflexivity|]. split; [|tframe Ht1].
    destruct Hc1 as (b1 & cs & lks & ps & Hw & ->). exists b1, cs, lks, ps. split; [done|].
    cbn. rewrite Hf. reflexivity.
  - change (truth _) with true. unfold bind at 1. cbn [obind]. unfold bind, modify. cbn [obind].
    rewrite (upd_buf_set b _ x s1) by done.
    change (disk_write ?n ?d (?st<|k_bufs ::= ?g|>)) with ((disk_write n d st)<|k_bufs ::= g|>).
    rewrite upd_buf_insert by done. cbn [b_flags].
    eexists. split; [reflexivity|]. split; [|tframe Ht1].
    destruct Hc1 as (b1 & cs & lks & ps & Hw & ->). exists b1, cs, lks, ps. split; [done|].
    cbn. rewrite Hf. reflexivity.
Qed.
