(* ===== verification/Ide.v ===== *)
(** * The IDE driver: ide.c

    Requests wait in a queue linked through the buffers; the first one is being
    served by the disk, and the interrupt handler finishes it and starts the
    next.  A process that asks for a transfer sleeps until its buffer is done.
    The disk is what the ATA ports promise, read off the history of port
    operations. *)

From S2P Require Import Prelude State Io Spinlock Thread CString Cprintf Kalloc Apic Vm Sched Sleeplock Disk.

(** ** The code *)
Definition SECTOR_SIZE : Z := 512.
Definition IDE_BSY : Z := 0x80.
Definition IDE_DRDY : Z := 0x40.
Definition IDE_DF : Z := 0x20.
Definition IDE_ERR : Z := 0x01.
Definition IDE_CMD_READ : Z := 0x20.
Definition IDE_CMD_WRITE : Z := 0x30.
Definition IDE_CMD_RDMUL : Z := 0xc4.
Definition IDE_CMD_WRMUL : Z := 0xc5.

Definition upd_ide (f : idest -> idest) (s : kernel) : kernel := s<|k_ide ::= f|>.

(** The pointers the loop of iderw walks over: [&idequeue] and [&b->qnext]. *)
Inductive slot := SlotHead | SlotNext (b : nat).
Definition load_slot (pp : slot) (d : idest) : option nat :=
  match pp with
  | SlotHead => d.(ide_queue)
  | SlotNext b => default None (d.(ide_qnext) !! b)
  end.
Definition store_slot (pp : slot) (v : option nat) (d : idest) : idest :=
  match pp with
  | SlotHead => d<|ide_queue := v|>
  | SlotNext b => d<|ide_qnext ::= <[b := v]>|>
  end.

Fixpoint queue_end (fuel : nat) (pp : slot) : K slot :=
  match fuel with
  | O => nofuel
  | S fuel' =>
      let! s := get in
      match load_slot pp s.(k_ide) with
      | Some b => queue_end fuel' (SlotNext b)
      | None => ret pp
      end
  end.

Section Code.
Context {H : Hardware} {N : Polls} {P : Patience}.

Fixpoint idewait_loop (fuel : nat) : K Z :=
  match fuel with
  | O => nofuel
  | S fuel' =>
      let! r := inb 0x1f7 in
      if Z.land r (Z.lor IDE_BSY IDE_DRDY) =? IDE_DRDY then ret r else idewait_loop fuel'
  end.
Definition idewait (checkerr : bool) : K Z :=
  let! r := idewait_loop polls in
  if checkerr && truth (Z.land r (Z.lor IDE_DF IDE_ERR)) then ret (-1) else ret 0.

(** The probe for the second disk. *)
Fixpoint probe (n : nat) : K unit :=
  match n with
  | O => ret tt
  | S n' =>
      let! r := inb 0x1f7 in
      if truth r then modify (upd_ide (fun d => d<|ide_havedisk1 := 1|>)) else probe n'
  end.
Definition ideinit : K unit :=
  initlock LkIde ;;;
  let! s := get in
  ioapicenable IRQ_IDE (Z.of_nat (length s.(k_cpus)) - 1) ;;;
  let! _ := idewait false in
  outb 0x1f6 (Z.lor 0xe0 (Z.shiftl 1 4)) ;;;
  probe 1000 ;;;
  outb 0x1f6 (Z.lor 0xe0 (Z.shiftl 0 4)).

Definition idestart (b : option nat) : K unit :=
  match b with
  | None => panic "idestart"
  | Some b =>
      let! s := get in
      let x := buf_of b s in
      if FSSIZE <=? x.(b_blockno) then panic "incorrect blockno"
      else
        let sector_per_block := BSIZE / SECTOR_SIZE in
        let sector := s32 (x.(b_blockno) * sector_per_block) in
        let read_cmd := if sector_per_block =? 1 then IDE_CMD_READ else IDE_CMD_RDMUL in
        let write_cmd := if sector_per_block =? 1 then IDE_CMD_WRITE else IDE_CMD_WRMUL in
        if 7 <? sector_per_block then panic "idestart"
        else
          let! _ := idewait false in
          outb 0x3f6 0 ;;;
          outb 0x1f2 sector_per_block ;;;
          outb 0x1f3 (Z.land sector 0xff) ;;;
          outb 0x1f4 (Z.land (Z.shiftr sector 8) 0xff) ;;;
          outb 0x1f5 (Z.land (Z.shiftr sector 16) 0xff) ;;;
          outb 0x1f6 (Z.lor (Z.lor 0xe0 (Z.shiftl (Z.land x.(b_dev) 1) 4))
                            (Z.land (Z.shiftr sector 24) 0x0f)) ;;;
          if truth (Z.land x.(b_flags) B_DIRTY) then
            outb 0x1f7 write_cmd ;;;
            outsl 0x1f0 x.(b_data) (BSIZE / 4)
          else outb 0x1f7 read_cmd
  end.

(** The body of the handler, for the buffer [b] at the head of the queue. *)
Definition ide_finish (b : nat) : K unit :=
  modify (upd_ide (fun d => d<|ide_queue := load_slot (SlotNext b) d|>)) ;;;
  let! s := get in
  (if! negb (dirty (buf_of b s)) then!
     (let! r := idewait true in
      if! 0 <=? r then!
        (let! d := insl 0x1f0 (BSIZE / 4) in
         modify (upd_buf b (fun x => x<|b_data := d|>))))) ;;;
  modify (upd_buf b (fun x => x<|b_flags := Z.lor x.(b_flags) B_VALID|>)) ;;;
  modify (upd_buf b (fun x => x<|b_flags := Z.land x.(b_flags) (Z.lnot B_DIRTY)|>)) ;;;
  wakeup (ChBuf b) ;;;
  let! s := get in
  if! bool_decide (s.(k_ide).(ide_queue) <> None) then! idestart s.(k_ide).(ide_queue).
Definition ideintr : K unit :=
  acquire LkIde ;;;
  let! s := get in
  match s.(k_ide).(ide_queue) with
  | None => release LkIde
  | Some b =>
      ide_finish b ;;;
      release LkIde
  end.

Fixpoint iderw_wait (fuel : nat) (b : nat) : K unit :=
  match fuel with
  | O => nofuel
  | S fuel' =>
      let! s := get in
      if negb (Z.land (buf_of b s).(b_flags) (Z.lor B_VALID B_DIRTY) =? B_VALID) then
        sleep (ChBuf b) LkIde ;;;
        iderw_wait fuel' b
      else ret tt
  end.

(** Appending to the queue and starting the disk; the queue has no more entries
    than there are buffers. *)
Definition iderw_submit (b : nat) : K unit :=
  modify (upd_ide (store_slot (SlotNext b) None)) ;;;
  let! pp := queue_end (S NBUF) SlotHead in
  modify (upd_ide (store_slot pp (Some b))) ;;;
  let! s := get in
  if! bool_decide (s.(k_ide).(ide_queue) = Some b) then! idestart (Some b).

Definition ide_rw (b : nat) : K unit :=
  let! h := holdingsleep (SlBuf b) in
  if negb h then panic "iderw: buf not locked"
  else
    let! s := get in
    let x := buf_of b s in
    if Z.land x.(b_flags) (Z.lor B_VALID B_DIRTY) =? B_VALID then panic "iderw: nothing to do"
    else if truth x.(b_dev) && negb (truth s.(k_ide).(ide_havedisk1))
    then panic "iderw: ide disk 1 not present"
    else
      acquire LkIde ;;;
      iderw_submit b ;;;
      iderw_wait (S patience) b ;;;
      release LkIde.
End Code.

#[export] Instance ide `{!Hardware, !Polls, !Patience} : BlockDriver :=
  {| iderw := ide_rw; disk_intr := ideintr |}.

(** ** The disk behind the ports

    What the ATA ports document: a register keeps the byte last written to it;
    a command addresses the sector the registers name; the data of a write
    command is the next block sent to the data port; a read command hands out
    the sector as the last write to it left it. *)
Fixpoint reg (h : list ioop) (p : Z) : Z :=
  match h with
  | [] => 0
  | Outb q v :: h' => if q =? p then v else reg h' p
  | _ :: h' => reg h' p
  end.

Definition lba (h : list ioop) : Z :=
  reg h 0x1f3 + 2 ^ 8 * reg h 0x1f4 + 2 ^ 16 * reg h 0x1f5 + 2 ^ 24 * (reg h 0x1f6 mod 16).
Definition drive (h : list ioop) : Z := reg h 0x1f6 / 16 mod 2.
(** One sector, in LBA mode. *)
Definition addressed (h : list ioop) : bool :=
  (reg h 0x1f2 =? 1) && (Z.land (reg h 0x1f6) 0xe0 =? 0xe0).

Inductive command := CmdRead (d n : Z) | CmdWrite (d n : Z).
#[export] Instance command_eq_dec : EqDecision command.
Proof. solve_decision. Defined.

(** The command whose data is still to be moved. *)
Fixpoint active (h : list ioop) : option command :=
  match h with
  | [] => None
  | Outb p v :: h' =>
      if p =? 0x1f7 then
        if addressed h' && (v =? IDE_CMD_READ) then Some (CmdRead (drive h') (lba h'))
        else if addressed h' && (v =? IDE_CMD_WRITE) then Some (CmdWrite (drive h') (lba h'))
        else None
      else active h'
  | Outsl p _ :: h' | Insl p _ :: h' => if p =? 0x1f0 then None else active h'
  | _ :: h' => active h'
  end.

Definition store : Type := Z -> Z -> list Z.
Definition sector_upd (d n : Z) (v : list Z) (m : store) : store :=
  fun d' n' => if (d' =? d) && (n' =? n) then v else m d' n'.

Fixpoint platter (img : store) (h : list ioop) : store :=
  match h with
  | [] => img
  | Outsl p v :: h' =>
      match active h' with
      | Some (CmdWrite d n) => if p =? 0x1f0 then sector_upd d n v (platter img h') else platter img h'
      | _ => platter img h'
      end
  | _ :: h' => platter img h'
  end.

(** The history after [n] more readings of the status port. *)
Fixpoint polled `{!Hardware} (n : nat) (h : list ioop) : list ioop :=
  match n with
  | O => h
  | S n' => polled n' (Inb 0x1f7 (u8 (hw_in h 0x1f7)) :: h)
  end.

Definition status_ready (r : Z) : bool := Z.land r (Z.lor IDE_BSY IDE_DRDY) =? IDE_DRDY.

(** A working disk with the contents [img] at the start: it becomes ready within
    the polls allowed, it reports no error, and when it is ready it hands out
    the sector the active read command names. *)
Class AtaDisk (H : Hardware) (N : Polls) (img : store) : Prop := {
  ata_ready h : exists n, (n < polls)%nat /\ status_ready (u8 (hw_in (polled n h) 0x1f7)) = true;
  ata_no_error h : Z.land (u8 (hw_in h 0x1f7)) (Z.lor IDE_DF IDE_ERR) = 0;
  ata_read h r d n :
    active h = Some (CmdRead d n) -> status_ready r = true ->
    hw_block (Inb 0x1f7 r :: h) 0x1f0 (BSIZE / 4) = platter img h d n
}.

(** ** Waiting and starting *)
Section Ports.
Context {H : Hardware} {N : Polls} {img : store} {A : AtaDisk H N img}.

Lemma polled_S n h : polled (S n) h = Inb 0x1f7 (u8 (hw_in (polled n h) 0x1f7)) :: polled n h.
Proof. revert h. induction n as [|n IH]; intros h; [done|]. exact (IH _). Qed.

(** Polling changes nothing the disk looks at. *)
Lemma polled_same n h :
  (forall p, reg (polled n h) p = reg h p) /\ active (polled n h) = active h /\
  platter img (polled n h) = platter img h.
Proof. induction n as [|n (H1 & H2 & H3)]; [done|]. rewrite polled_S. cbn. by split_and!. Qed.

Lemma idewait_loop_spec n : forall fuel s, (n < fuel)%nat ->
  status_ready (u8 (hw_in (polled n s.(k_io)) 0x1f7)) = true ->
  exists m r, idewait_loop fuel s = Ret r (s<|k_io := Inb 0x1f7 r :: polled m s.(k_io)|>) /\
    status_ready r = true /\ r = u8 (hw_in (polled m s.(k_io)) 0x1f7).
Proof.
  induction n as [|n IH]; intros [|fuel] s Hn Hr; try lia;
    cbn [idewait_loop]; kret_by (apply inb_spec); fold (status_ready (u8 (hw_in (k_io s) 0x1f7))).
  - cbn [polled] in Hr. rewrite Hr. by eexists 0%nat, _.
  - destruct (status_ready (u8 (hw_in (k_io s) 0x1f7))) eqn:E; [by eexists 0%nat, _|].
    destruct (IH fuel (s<|k_io ::= cons (Inb 0x1f7 (u8 (hw_in (k_io s) 0x1f7)))|>))
      as (m & r & E1 & E2 & E3); [lia|done|].
    exists (S m), r. split_and!; done.
Qed.

(** idewait returns, with success, and the disk ready. *)
Lemma idewait_spec c s :
  exists m r, idewait c s = Ret 0 (s<|k_io := Inb 0x1f7 r :: polled m s.(k_io)|>) /\
    status_ready r = true.
Proof.
  destruct (ata_ready (img := img) (k_io s)) as (n & Hn & Hr).
  destruct (idewait_loop_spec n polls s Hn Hr) as (m & r & E & Hready & Hv).
  exists m, r. split; [|done]. unfold idewait. kret_by exact E.
  rewrite Hv, (ata_no_error (img := img)). by rewrite andb_false_r.
Qed.

Definition disk_of (x : buf) : Z := Z.land x.(b_dev) 1.

(** What the ports hold after the register writes of idestart. *)
Lemma registers_address h sector d :
  0 <= sector < FSSIZE -> 0 <= d <= 1 ->
  let h' := Outb 0x1f6 (u8 (Z.lor (Z.lor 0xe0 (Z.shiftl d 4)) (Z.land (Z.shiftr sector 24) 0x0f))) ::
            Outb 0x1f5 (u8 (Z.land (Z.shiftr sector 16) 0xff)) ::
            Outb 0x1f4 (u8 (Z.land (Z.shiftr sector 8) 0xff)) ::
            Outb 0x1f3 (u8 (Z.land sector 0xff)) :: Outb 0x1f2 1 :: Outb 0x3f6 0 :: h in
  addressed h' = true /\ drive h' = d /\ lba h' = sector.
Proof.
  intros Hs Hd. unfold FSSIZE in Hs.
  assert (E24 : Z.shiftr sector 24 = 0) by (rewrite Z.shiftr_div_pow2 by lia; apply Z.div_small; lia).
  assert (E16 : Z.shiftr sector 16 = 0) by (rewrite Z.shiftr_div_pow2 by lia; apply Z.div_small; lia).
  assert (E8 : u8 (Z.land (Z.shiftr sector 8) 0xff) = sector / 256).
  { rewrite Z.shiftr_div_pow2, (land_ones_mod _ 8) by lia. unfold u8. change (2 ^ 8) with 256.
    rewrite Z.mod_mod by lia. apply Z.mod_small. split; [apply Z.div_pos; lia|apply Z.div_lt_upper_bound; lia]. }
  assert (E0 : u8 (Z.land sector 0xff) = sector mod 256).
  { rewrite (land_ones_mod _ 8) by lia. unfold u8. change (2 ^ 8) with 256. by rewrite Z.mod_mod. }
  rewrite E24, E16, E8, E0.
  assert (d = 0 \/ d = 1) as [-> | ->] by lia; (split_and!; [reflexivity|reflexivity|]);
    unfold lba; cbn [reg Z.eqb Pos.eqb];
    match goal with |- _ + 2 ^ 24 * ?e = _ => change e with 0 end;
    change (u8 (Z.land 0 255)) with 0; pose proof (Z.div_mod sector 256); lia.
Qed.

Lemma command_active h d n :
  addressed h = true /\ drive h = d /\ lba h = n ->
  active (Outb 0x1f7 IDE_CMD_READ :: h) = Some (CmdRead d n) /\
  active (Outb 0x1f7 IDE_CMD_WRITE :: h) = Some (CmdWrite d n).
Proof. intros (Ha & <- & <-). cbn. by rewrite Ha. Qed.

Lemma platter_write h d n v :
  active h = Some (CmdWrite d n) -> platter img (Outsl 0x1f0 v :: h) = sector_upd d n v (platter img h).
Proof. intros E. cbn. by rewrite E. Qed.

Lemma idestart_spec b x s :
  s.(k_bufs) !! b = Some x -> 0 <= x.(b_blockno) < FSSIZE ->
  exists h, idestart (Some b) s = Ret tt (s<|k_io := h|>) /\
    if dirty x then
      active h = None /\
      platter img h = sector_upd (disk_of x) x.(b_blockno) (take 512 x.(b_data)) (platter img s.(k_io))
    else active h = Some (CmdRead (disk_of x) x.(b_blockno)) /\ platter img h = platter img s.(k_io).
Proof.
  intros Hx Hbn. unfold idestart. kret. unfold buf_of. rewrite Hx. cbn [default from_option id].
  replace (FSSIZE <=? b_blockno x) with false by lia.
  cbv zeta. change (BSIZE / SECTOR_SIZE) with 1. rewrite Z.mul_1_r, s32_small by (unfold FSSIZE in *; lia).
  change (7 <? 1) with false. cbv iota.
  destruct (idewait_spec false s) as (m & r & E & _). kret_by exact E.
  do 6 (kret_by (apply outb_spec)).
  assert (Hd : 0 <= disk_of x <= 1).
  { pose proof (land_ones_mod (b_dev x) 1 ltac:(lia)) as E1. unfold disk_of.
    change (2 ^ 1 - 1) with 1 in E1. rewrite E1. pose proof (Z.mod_pos_bound (b_dev x) (2 ^ 1)). lia. }
  destruct (command_active _ _ _ (registers_address (Inb 0x1f7 r :: polled m (k_io s)) _ _ Hbn Hd))
    as [Hrd Hwr].
  destruct (polled_same m (k_io s)) as (_ & _ & Hp).
  unfold dirty. destruct (truth (Z.land (b_flags x) B_DIRTY)).
  - eexists. split; [kret_by (apply outb_spec); reflexivity|]. split; [done|].
    etransitivity; [exact (platter_write _ _ _ (take 512 (b_data x)) Hwr)|]. f_equal. exact Hp.
  - eexists. split; [rewrite outb_spec; reflexivity|]. split; [exact Hrd|exact Hp].
Qed.
End Ports.

(** ** The queue

    [links next p q]: the list that starts at the pointer [p] and goes on through
    the members qnext is [q]. *)
Fixpoint links (next : list (option nat)) (p : option nat) (q : list nat) : Prop :=
  match q with
  | [] => p = None
  | b :: q' => p = Some b /\ exists n, next !! b = Some n /\ links next n q'
  end.

Lemma links_insert next p q b v : b ∉ q -> links next p q -> links (<[b := v]> next) p q.
Proof.
  revert p. induction q as [|a q IH]; intros p Hb; [done|]. intros [-> (n & Hn & Hl)].
  split; [done|]. exists n. split; [|apply IH; [set_solver|done]].
  rewrite list_lookup_insert_ne by set_solver. done.
Qed.

Lemma links_snoc next p q l b :
  base.NoDup q -> list.last q = Some l -> b ∉ q -> next !! b = Some None ->
  links next p q -> links (<[l := Some b]> next) p (q ++ [b]).
Proof.
  revert p. induction q as [|a q IH]; intros p Hnd Hlast Hb Hnb; [done|].
  intros [-> (n & Hn & Hl)]. apply list.NoDup_cons in Hnd as [Ha Hnd]. cbn. split; [done|].
  destruct q as [|c q].
  - cbn in Hlast. injection Hlast as <-. exists (Some b).
    split; [apply list_lookup_insert_eq; by eapply lookup_lt_Some|]. split; [done|].
    exists None. split; [|done]. rewrite list_lookup_insert_ne by set_solver. done.
  - assert (Hla : a <> l).
    { intros ->. apply Ha. change (list.last (c :: q) = Some l) in Hlast.
      apply last_Some in Hlast as [q' ->]. set_solver. }
    exists n. split; [by rewrite list_lookup_insert_ne by done|]. apply IH; set_solver.
Qed.

Lemma queue_end_spec q : forall fuel pp s,
  links s.(k_ide).(ide_qnext) (load_slot pp s.(k_ide)) q -> (length q < fuel)%nat ->
  queue_end fuel pp s = Ret (match list.last q with Some l => SlotNext l | None => pp end) s.
Proof.
  induction q as [|a q IH]; intros [|fuel] pp s Hl Hf; cbn [length] in *; try lia;
    cbn [queue_end]; kret.
  - by rewrite Hl.
  - destruct Hl as [-> (n & Hn & Hl)]. rewrite (IH fuel); [|by cbn; rewrite Hn|lia].
    rewrite list.last_cons. by destruct (list.last q).
Qed.

(** A buffer in the queue has something to transfer to or from a block of the disk. *)
Definition pending (x : buf) : Prop := Z.land x.(b_flags) (Z.lor B_VALID B_DIRTY) <> B_VALID.
Definition request (x : buf) : Prop :=
  pending x /\ 0 <= x.(b_blockno) < FSSIZE /\ length x.(b_data) = 512%nat.

Section Queue.
Context (img : store).

(** The disk has been given the command for [x]; the data of a write is on the disk. *)
Definition started (x : buf) (h : list ioop) : Prop :=
  if dirty x then platter img h (disk_of x) x.(b_blockno) = x.(b_data)
  else active h = Some (CmdRead (disk_of x) x.(b_blockno)).

(** The driver's variables when idelock is free. *)
Record ide_ok (q : list nat) (s : kernel) : Prop := {
  iq_links : links s.(k_ide).(ide_qnext) s.(k_ide).(ide_queue) q;
  iq_nodup : base.NoDup q;
  iq_len : length s.(k_ide).(ide_qnext) = length s.(k_bufs) /\ (length s.(k_bufs) <= NBUF)%nat;
  iq_request b : b ∈ q -> exists x, s.(k_bufs) !! b = Some x /\ request x;
  iq_started b x : list.head q = Some b -> s.(k_bufs) !! b = Some x -> started x s.(k_io)
}.

(** The disk once the writes in [q] are done, in their order. *)
Definition flush (bufs : list buf) (m : store) (b : nat) : store :=
  match bufs !! b with
  | Some x => if dirty x then sector_upd (disk_of x) x.(b_blockno) x.(b_data) m else m
  | None => m
  end.
Definition disk_after (q : list nat) (s : kernel) : store :=
  foldl (flush s.(k_bufs)) (platter img s.(k_io)) q.

(** The data the request of [b] is to end with: what it writes, or its block as
    the requests before it leave it. *)
Fixpoint before (b : nat) (q : list nat) : list nat :=
  match q with
  | [] => []
  | c :: q' => if decide (b = c) then [] else c :: before b q'
  end.
Definition promise (q : list nat) (s : kernel) (b : nat) : list Z :=
  let x := buf_of b s in
  if dirty x then x.(b_data) else disk_after (before b q) s (disk_of x) x.(b_blockno).

Lemma ide_ok_frame q s s' :
  s'.(k_ide) = s.(k_ide) -> s'.(k_bufs) = s.(k_bufs) -> s'.(k_io) = s.(k_io) ->
  ide_ok q s -> ide_ok q s'.
Proof. intros H1 H2 H3 []. split; rewrite ?H1, ?H2, ?H3; done. Qed.

Lemma promise_frame q s s' b :
  s'.(k_bufs) = s.(k_bufs) -> s'.(k_io) = s.(k_io) -> promise q s' b = promise q s b.
Proof. intros H1 H2. unfold promise, disk_after, buf_of. by rewrite H1, H2. Qed.

Lemma queue_bound q s : ide_ok q s -> (length q < S NBUF)%nat.
Proof.
  intros [_ Hnd [_ Hb] Hreq _].
  assert (Hsub : q ⊆+ seq 0 NBUF).
  { apply NoDup_submseteq; [done|]. intros b (x & Hx & _)%Hreq.
    apply lookup_lt_Some in Hx. apply elem_of_seq. lia. }
  apply submseteq_length in Hsub. rewrite length_seq in Hsub. lia.
Qed.

(** Equal contents. *)
#[export] Instance store_equiv : Equiv store := fun m m' => forall d n, m d n = m' d n.
#[export] Instance store_equivalence : Equivalence (≡@{store}).
Proof.
  split; [by intros m d n|intros m m' Hm d n; by rewrite Hm|].
  intros m m' m'' H1 H2 d n. by rewrite H1, H2.
Qed.
#[export] Instance sector_upd_proper d n v : Proper ((≡) ==> (≡)) (sector_upd d n v).
Proof. intros m m' Hm d' n'. unfold sector_upd. by case_match. Qed.
#[export] Instance flush_proper bufs : Proper ((≡) ==> (=) ==> (≡)) (flush bufs).
Proof. intros m m' Hm b ? <-. unfold flush. repeat case_match; [by apply sector_upd_proper|done..]. Qed.

Lemma flushes_proper bufs q m m' : m ≡ m' -> foldl (flush bufs) m q ≡ foldl (flush bufs) m' q.
Proof. revert m m'. induction q as [|b q IH]; intros m m' Hm; [done|]. apply IH. by rewrite Hm. Qed.

(** Only the buffers in the queue matter. *)
Lemma flushes_ext bufs bufs' q m :
  (forall b, b ∈ q -> bufs' !! b = bufs !! b) -> foldl (flush bufs') m q = foldl (flush bufs) m q.
Proof.
  revert m. induction q as [|b q IH]; intros m Hb; [done|]. cbn.
  unfold flush at 2 4. rewrite (Hb b) by set_solver. apply IH. set_solver.
Qed.

Lemma sector_upd_same d n v m : m d n = v -> sector_upd d n v m ≡ m.
Proof.
  intros Hm d' n'. unfold sector_upd. destruct (_ && _) eqn:E; [|done].
  apply andb_true_iff in E as [->%Z.eqb_eq ->%Z.eqb_eq]. done.
Qed.

(** A write that is already on the disk changes nothing. *)
Lemma flush_started bufs b x h :
  bufs !! b = Some x -> started x h -> flush bufs (platter img h) b ≡ platter img h.
Proof.
  unfold flush, started. intros ->. destruct (dirty x); [|done]. apply sector_upd_same.
Qed.

Lemma before_cons b c q : b <> c -> before b (c :: q) = c :: before b q.
Proof. intros. cbn. by rewrite decide_False. Qed.

Lemma before_subset b q : before b q ⊆ q.
Proof. induction q as [|c q IH]; cbn; [done|]. case_decide; set_solver. Qed.

Lemma before_app b q c : b ∈ q -> before b (q ++ [c]) = before b q.
Proof.
  induction q as [|a q IH]; intros Hb; [set_solver|]. cbn. case_decide; [done|].
  rewrite IH by set_solver. done.
Qed.

Lemma before_end b q : b ∉ q -> before b (q ++ [b]) = q.
Proof.
  induction q as [|a q IH]; intros Hb; cbn; [by rewrite decide_True|].
  rewrite decide_False, IH by set_solver. done.
Qed.
End Queue.

(** ** Adding a request *)
Section Driver.
Context {H : Hardware} {N : Polls} {P : Patience} {img : store} {A : AtaDisk H N img}.

(** The links after the store through [pp]. *)
Lemma append_links q b d :
  links d.(ide_qnext) d.(ide_queue) q -> base.NoDup q -> b ∉ q -> (b < length d.(ide_qnext))%nat ->
  let pp := match list.last q with Some l => SlotNext l | None => SlotHead end in
  let d' := store_slot pp (Some b) (store_slot (SlotNext b) None d) in
  links d'.(ide_qnext) d'.(ide_queue) (q ++ [b]) /\ length d'.(ide_qnext) = length d.(ide_qnext).
Proof.
  intros Hl Hnd Hb Hlt. assert (Hnb : <[b := None]> d.(ide_qnext) !! b = Some None)
    by (by apply list_lookup_insert_eq).
  pose proof (links_insert _ _ _ _ None Hb Hl) as Hl1.
  destruct (list.last q) as [l|] eqn:E.
  - split; [by apply links_snoc|]. cbn. by rewrite !length_insert.
  - apply list.last_None in E as ->. split; [|cbn; by rewrite length_insert].
    split; [done|]. by exists None.
Qed.

Definition submitted (q : list nat) (b : nat) (x : buf) (s s' : kernel) : Prop :=
  (exists d h, s' = s<|k_ide := d|><|k_io := h|>) /\ ide_ok img (q ++ [b]) s' /\
  promise img (q ++ [b]) s' b =
    (if dirty x then x.(b_data) else disk_after img q s (disk_of x) x.(b_blockno)) /\
  (forall b', b' ∈ q -> promise img (q ++ [b]) s' b' = promise img q s b') /\
  disk_after img (q ++ [b]) s' ≡ flush s.(k_bufs) (disk_after img q s) b.

Lemma promise_end q b x s :
  s.(k_bufs) !! b = Some x -> b ∉ q ->
  promise img (q ++ [b]) s b =
    if dirty x then x.(b_data) else disk_after img q s (disk_of x) x.(b_blockno).
Proof. intros Hx Hb. unfold promise, buf_of. rewrite Hx. cbn. by rewrite before_end. Qed.

(** The disk is idle: the request is started at once. *)
Lemma submit_first b x s d :
  ide_ok img [] s -> s.(k_bufs) !! b = Some x -> request x ->
  links d.(ide_qnext) d.(ide_queue) [b] -> length d.(ide_qnext) = length s.(k_bufs) ->
  exists s', idestart (Some b) (s<|k_ide := d|>) = Ret tt s' /\ submitted [] b x s s'.
Proof.
  intros Hok Hx Hreq Hl Hlen. pose proof Hreq as (Hp & Hbn & Hdata).
  set (s0 := s<|k_ide := d|>).
  destruct (idestart_spec (img := img) b x s0 Hx Hbn) as (h & E & Hh).
  rewrite take_ge in Hh by lia. eexists. split; [exact E|]. split; [by exists d, h|].
  assert (Hst : started img x h).
  { unfold started. destruct (dirty x); destruct Hh as [H1 H2]; [|exact H1].
    rewrite H2. unfold sector_upd. by rewrite !Z.eqb_refl. }
  split_and!.
  - split; [exact Hl|apply list.NoDup_singleton|..]; cbn.
    + split; [done|apply Hok].
    + intros b' ->%list_elem_of_singleton. by exists x.
    + intros b' x' [= <-] ?. by simplify_eq.
  - rewrite (promise_end [] b x) by (done || set_solver). unfold disk_after; cbn.
    destruct (dirty x); [done|]. by destruct Hh as [_ ->].
  - intros b' Hb'. set_solver.
  - unfold disk_after. cbn. rewrite (flush_started img _ b x) by done.
    unfold flush. rewrite Hx. destruct (dirty x); destruct Hh as [_ ->]; done.
Qed.

(** The disk is busy: the request waits. *)
Lemma submit_later q b x s d :
  ide_ok img q s -> q <> [] -> b ∉ q -> s.(k_bufs) !! b = Some x -> request x ->
  links d.(ide_qnext) d.(ide_queue) (q ++ [b]) -> length d.(ide_qnext) = length s.(k_bufs) ->
  submitted q b x s (s<|k_ide := d|>).
Proof.
  intros Hok Hq Hb Hx Hreq Hl Hlen. destruct q as [|a q]; [done|].
  split; [by exists d, (k_io s)|]. destruct Hok as [_ Hnd [_ Hlen'] Hr Hst].
  split_and!.
  - split; cbn; [exact Hl| |done| |].
    + apply (list.NoDup_app (a :: q)). split_and!; [done|set_solver|apply list.NoDup_singleton].
    + intros b' [Hb'| ->%list_elem_of_singleton]%(elem_of_app (a :: q)); [by apply Hr|by exists x].
    + exact Hst.
  - by rewrite (promise_end (a :: q) b x).
  - intros b' Hb'. unfold promise, buf_of. cbn [k_bufs]. by rewrite (before_app b' (a :: q)).
  - unfold disk_after. by rewrite foldl_app.
Qed.

Lemma submit_spec q b x s :
  ide_ok img q s -> s.(k_bufs) !! b = Some x -> request x -> b ∉ q ->
  exists s', iderw_submit b s = Ret tt s' /\ submitted q b x s s'.
Proof.
  intros Hok Hx Hreq Hb. pose proof Hok as [Hl Hnd [Hlen Hlen'] _ _].
  pose proof (lookup_lt_Some _ _ _ Hx) as Hlt.
  destruct (append_links q b (k_ide s)) as [Hl' Hn']; [done..|lia|].
  unfold iderw_submit. kret.
  kret_by (apply (queue_end_spec q); [by apply links_insert|by eapply queue_bound]). kret. kret.
  set (d := store_slot _ (Some b) (store_slot (SlotNext b) None (k_ide s))) in *.
  change (upd_ide _ (upd_ide _ s)) with (s<|k_ide := d|>). cbn [k_ide].
  destruct q as [|a q].
  - rewrite bool_decide_eq_true_2 by apply Hl'. apply submit_first; [done..|lia].
  - rewrite bool_decide_eq_false_2; [eexists; split; [done|]; apply submit_later; (done || lia)|].
    destruct Hl' as [Hq _]. intros E. change (ide_queue d = Some b) in E. rewrite Hq in E.
    injection E as ->. set_solver.
Qed.

(** ** The interrupt handler *)

(** The buffer when its request is done, with the data [d]. *)
Definition finished (d : list Z) (x : buf) : buf :=
  x<|b_data := d|><|b_flags := Z.land (Z.lor x.(b_flags) B_VALID) (Z.lnot B_DIRTY)|>.

Lemma finished_ready d x : Z.land (finished d x).(b_flags) (Z.lor B_VALID B_DIRTY) = B_VALID.
Proof.
  cbn. rewrite <- Z.land_assoc. change (Z.land (Z.lnot B_DIRTY) (Z.lor B_VALID B_DIRTY)) with B_VALID.
  rewrite Z.land_lor_distr_l, Z.land_diag. apply Z.bits_inj'. intros n _.
  rewrite Z.lor_spec, Z.land_spec. by destruct (Z.testbit (b_flags x) n), (Z.testbit B_VALID n).
Qed.

(** The data of a read comes from the block the disk was told to read. *)
Lemma intr_data b x s :
  s.(k_bufs) !! b = Some x -> started img x s.(k_io) ->
  exists h,
    (if! negb (dirty x) then!
       (let! r := idewait true in
        if! 0 <=? r then!
          (let! d := insl 0x1f0 (BSIZE / 4) in
           modify (upd_buf b (fun x => x<|b_data := d|>)))))%xv6 s =
      Ret tt (s<|k_io := h|><|k_bufs ::= <[b := x<|b_data := platter img s.(k_io) (disk_of x) x.(b_blockno)|>]>|>) /\
    platter img h = platter img s.(k_io).
Proof.
  intros Hx Hst. unfold started in Hst. destruct (dirty x); cbn [negb].
  - exists (k_io s). split; [|done]. rewrite Hst. unfold ret. f_equal.
    transitivity (s<|k_bufs ::= <[b := x]>|>); [|reflexivity].
    unfold setf, set_k_bufs. by rewrite list_insert_id.
  - destruct (idewait_spec (img := img) true s) as (m & r & E & Hr). kret_by exact E.
    change (0 <=? 0) with true. cbv iota. kret_by (apply insl_spec).
    destruct (polled_same (img := img) m (k_io s)) as (_ & Ha & Hp).
    pose proof (ata_read (img := img) (polled m (k_io s)) r (disk_of x) (b_blockno x)
                  (eq_trans Ha Hst) Hr) as Hd. rewrite Hp in Hd.
    eexists. split; [unfold modify; rewrite (upd_buf_set b _ x) by done; rewrite <- Hd; reflexivity|].
    exact Hp.
Qed.

Definition flush_head (bufs : list buf) (m : store) (q : list nat) : store :=
  match q with [] => m | c :: _ => flush bufs m c end.

(** The next request is started, if there is one. *)
Lemma start_next rest s :
  s.(k_ide).(ide_queue) = list.head rest ->
  (forall c, c ∈ rest -> exists y, s.(k_bufs) !! c = Some y /\ request y) ->
  exists h,
    (if! bool_decide (s.(k_ide).(ide_queue) <> None) then! idestart s.(k_ide).(ide_queue))%xv6 s =
      Ret tt (s<|k_io := h|>) /\
    (forall c y, list.head rest = Some c -> s.(k_bufs) !! c = Some y -> started img y h) /\
    platter img h = flush_head s.(k_bufs) (platter img s.(k_io)) rest.
Proof.
  intros Hq Hreq. destruct rest as [|c rest]; cbn in Hq; rewrite Hq.
  - rewrite bool_decide_eq_false_2 by naive_solver. by exists (k_io s).
  - rewrite bool_decide_eq_true_2 by done.
    destruct (Hreq c) as (y & Hy & Hp & Hbn & Hlen); [set_solver|].
    destruct (idestart_spec (img := img) c y s Hy Hbn) as (h & E & Hh).
    rewrite take_ge in Hh by lia. exists h. split; [exact E|]. unfold started, flush_head, flush. split.
    + intros c' y' [= <-] ?. simplify_eq. destruct (dirty y); destruct Hh as [H1 H2]; [|exact H1].
      rewrite H2. unfold sector_upd. by rewrite !Z.eqb_refl.
    + rewrite Hy. by destruct (dirty y); destruct Hh as [_ ->].
Qed.

Lemma flush_idemp bufs m c : flush bufs (flush bufs m c) c ≡ flush bufs m c.
Proof.
  unfold flush. destruct (bufs !! c) as [y|]; [|done]. destruct (dirty y); [|done].
  apply sector_upd_same. unfold sector_upd. by rewrite !Z.eqb_refl.
Qed.

Section Done.
Context (b : nat) (x : buf) (rest : list nat) (s s' : kernel) (d : list Z).
Context (Hok : ide_ok img (b :: rest) s) (Hx : s.(k_bufs) !! b = Some x).
Context (Hide : s'.(k_ide) = (s.(k_ide))<|ide_queue := load_slot (SlotNext b) s.(k_ide)|>).
Context (Hbufs : s'.(k_bufs) = <[b := finished d x]> s.(k_bufs)).
Context (Hst : forall c y, list.head rest = Some c -> s.(k_bufs) !! c = Some y -> started img y s'.(k_io)).
Context (Hplat : platter img s'.(k_io) = flush_head s.(k_bufs) (platter img s.(k_io)) rest).

Lemma rest_bufs c : c ∈ rest -> s'.(k_bufs) !! c = s.(k_bufs) !! c.
Proof.
  intros Hc. rewrite Hbufs, list_lookup_insert_ne; [done|].
  pose proof (iq_nodup _ _ _ Hok) as [Hb _]%list.NoDup_cons. by intros ->.
Qed.

Lemma done_ok : ide_ok img rest s'.
Proof.
  pose proof Hok as [[_ (n & Hn & Hl)] [_ Hnd]%list.NoDup_cons [Hlen Hlen'] Hreq _].
  split; rewrite ?Hide, ?Hbufs; [|done|..].
  - cbn. by rewrite Hn.
  - cbn. by rewrite length_insert.
  - intros c Hc. rewrite <- Hbufs, rest_bufs by done. apply Hreq. set_solver.
  - intros c y Hc. rewrite <- Hbufs, rest_bufs; [by apply Hst|]. by apply list.head_Some_elem_of.
Qed.

(** What the first requests of [rest] leave on the disk. *)
Lemma done_flushes l :
  l ⊆ rest ->
  (l = [] /\ flush_head s.(k_bufs) (platter img s.(k_io)) rest ≡ platter img s.(k_io)) \/
  (exists c l', l = c :: l' /\ list.head rest = Some c) ->
  foldl (flush s'.(k_bufs)) (platter img s'.(k_io)) l ≡
  foldl (flush s.(k_bufs)) (platter img s.(k_io)) (b :: l).
Proof.
  intros Hsub Hhd. rewrite (flushes_ext s.(k_bufs) s'.(k_bufs)) by (intros; apply rest_bufs; set_solver).
  assert (Hb : started img x s.(k_io)) by (by apply (iq_started _ _ _ Hok b)).
  transitivity (foldl (flush s.(k_bufs)) (platter img s.(k_io)) l).
  - rewrite Hplat. destruct Hhd as [[-> Hf]|(c & l' & -> & Hc)]; [exact Hf|].
    destruct rest as [|c' r]; [done|]. injection Hc as ->. cbn. apply flushes_proper, flush_idemp.
  - symmetry. cbn. apply flushes_proper. by apply (flush_started img _ b x).
Qed.

Lemma done_promise c : c ∈ rest -> promise img rest s' c = promise img (b :: rest) s c.
Proof.
  intros Hc. pose proof (iq_nodup _ _ _ Hok) as [Hb _]%list.NoDup_cons.
  assert (Hcb : c <> b) by (by intros ->).
  unfold promise, buf_of. rewrite rest_bufs by done. destruct (dirty _) eqn:Ed; [done|].
  rewrite before_cons by done. apply done_flushes; [apply before_subset|].
  destruct rest as [|a r]; [set_solver|]. cbn. case_decide as Hca; [left|right; by eexists _, _].
  split; [done|]. subst. unfold flush. destruct (k_bufs s !! a) as [y|]; [|done].
  cbn in Ed. by rewrite Ed.
Qed.

Lemma done_disk : disk_after img rest s' ≡ disk_after img (b :: rest) s.
Proof.
  apply done_flushes; [done|]. destruct rest as [|a r]; [by left|right; by eexists _, _].
Qed.
End Done.

Lemma quiet_ide s s' :
  quiet s s' -> s'.(k_ide) = s.(k_ide) /\ s'.(k_bufs) = s.(k_bufs) /\ s'.(k_io) = s.(k_io) /\
    s'.(k_procs) = s.(k_procs).
Proof. by intros (b & cs & lks & ->). Qed.

Lemma ide_finish_spec i p b x rest s :
  running i p {[LkIde]} s -> ide_ok img (b :: rest) s -> s.(k_bufs) !! b = Some x ->
  exists s', ide_finish b s = Ret tt s' /\ running i p {[LkIde]} s' /\
    s'.(k_ide) = (s.(k_ide))<|ide_queue := load_slot (SlotNext b) s.(k_ide)|> /\
    s'.(k_bufs) = <[b := finished (platter img s.(k_io) (disk_of x) x.(b_blockno)) x]> s.(k_bufs) /\
    s'.(k_procs) = wake (ChBuf b) <$> s.(k_procs) /\
    (forall c y, list.head rest = Some c -> s.(k_bufs) !! c = Some y -> started img y s'.(k_io)) /\
    platter img s'.(k_io) = flush_head s.(k_bufs) (platter img s.(k_io)) rest.
Proof.
  intros Hr Hok Hx. pose proof Hok as [[Hq (n & Hn & Hl)] [Hb _]%list.NoDup_cons _ Hreq Hst].
  specialize (Hst b x eq_refl Hx). unfold ide_finish. kret. kret.
  set (s1 := upd_ide _ s). destruct (intr_data b x s1 Hx Hst) as (h & E1 & Hh).
  replace (buf_of b s1) with x by (unfold buf_of, s1; cbn; by rewrite Hx).
  change (k_io s1) with (k_io s) in Hh, E1. set (d := platter img _ _ _) in *. kret_by exact E1.
  pose proof (lookup_lt_Some _ _ _ Hx) as Hlt. kret. kret.
  rewrite upd_buf_insert by done. rewrite upd_buf_insert by done.
  match goal with |- context [bind (wakeup _) _ ?st] => set (s2 := st) end.
  assert (Hr2 : running i p {[LkIde]} s2) by kframe Hr.
  destruct (wakeup_ex _ _ _ (ChBuf b) _ Hr2 ltac:(set_solver)) as (s3 & E3 & Hq3 & Hr3). kret_by exact E3. kret.
  apply quiet_ide in Hq3 as (Hide3 & Hbufs3 & Hio3 & Hprocs3).
  change (k_io s3 = h) in Hio3.
  assert (Hrest : forall c, c ∈ rest -> k_bufs s3 !! c = k_bufs s !! c).
  { intros c Hc. rewrite Hbufs3. apply list_lookup_insert_ne. by intros ->. }
  destruct (start_next rest s3) as (h' & E4 & Hst4 & Hp4).
  { rewrite Hide3. cbn. rewrite Hn. by destruct rest as [|c r]; [|destruct Hl as [-> _]]. }
  { intros c Hc. rewrite Hrest by done. apply Hreq. set_solver. }
  eexists. split; [exact E4|]. split; [kframe Hr3|]. split_and!; [exact Hide3|exact Hbufs3|exact Hprocs3|..].
  - intros c y Hc Hy. apply (Hst4 c); [done|]. rewrite Hrest; [done|]. by apply list.head_Some_elem_of.
  - transitivity (platter img h'); [done|]. rewrite Hp4, Hio3, Hh.
    destruct rest as [|c r]; [done|]. cbn. unfold flush. rewrite Hrest by set_solver. done.
Qed.

(** The handler with a request in the queue. *)
Lemma ideintr_first (i : nat) (p : option nat) (b : nat) (x : buf) (rest : list nat) (s : kernel) :
  running i p ∅ s -> ide_ok img (b :: rest) s -> s.(k_bufs) !! b = Some x ->
  exists s', ideintr s = Ret tt s' /\ running i p ∅ s' /\ ide_ok img rest s' /\
    s'.(k_bufs) = <[b := finished (promise img (b :: rest) s b) x]> s.(k_bufs) /\
    s'.(k_procs) = wake (ChBuf b) <$> s.(k_procs) /\
    (forall c, c ∈ rest -> promise img rest s' c = promise img (b :: rest) s c) /\
    disk_after img rest s' ≡ disk_after img (b :: rest) s.
Proof.
  intros Hr Hok Hx. unfold ideintr.
  destruct (acquire_ex _ _ _ LkIde _ Hr ltac:(set_solver)) as (s1 & E1 & Hq1 & Hr1). kret_by exact E1. kret.
  rewrite union_empty_r_L in Hr1.
  apply quiet_ide in Hq1 as (Hide1 & Hbufs1 & Hio1 & Hprocs1).
  pose proof (ide_ok_frame img (b :: rest) s s1 Hide1 Hbufs1 Hio1 Hok) as Hok1.
  assert (Hx1 : k_bufs s1 !! b = Some x) by (by rewrite Hbufs1).
  destruct (ide_finish_spec i p b x rest s1 Hr1 Hok1 Hx1) as (s2 & E2 & Hr2 & Hide2 & Hbufs2 & Hprocs2 & Hst2 & Hp2).
  destruct (release_ex _ _ _ LkIde _ Hr2 ltac:(set_solver)) as (s3 & E3 & Hq3 & Hr3).
  apply quiet_ide in Hq3 as (Hide3 & Hbufs3 & Hio3 & Hprocs3).
  rewrite difference_diag_L in Hr3. rewrite Hio1, Hbufs1 in Hp2. rewrite Hbufs1 in Hst2.
  rewrite <- Hio3 in Hst2, Hp2.
  assert (Hb3 : k_bufs s3 = <[b := finished (promise img (b :: rest) s b) x]> (k_bufs s)).
  { rewrite Hbufs3, Hbufs2, Hbufs1, Hio1. do 2 f_equal. unfold promise, buf_of, disk_after. rewrite Hx.
    cbn. rewrite decide_True by done. pose proof (iq_started _ _ _ Hok b x eq_refl Hx) as Hs.
    unfold started in Hs. by destruct (dirty x). }
  assert (Hi3 : k_ide s3 = (k_ide s)<|ide_queue := load_slot (SlotNext b) (k_ide s)|>)
    by (by rewrite Hide3, Hide2, Hide1).
  exists s3. split; [|split_and!; [exact Hr3|..]].
  - rewrite (proj1 (iq_links _ _ _ Hok1)). by kret_by exact E2.
  - eapply (done_ok b x rest s s3); eassumption.
  - exact Hb3.
  - by rewrite Hprocs3, Hprocs2, Hprocs1.
  - intros c. eapply (done_promise b x rest s s3); eassumption.
  - eapply (done_disk b x rest s s3); eassumption.
Qed.

(** ** A request from the beginning to the end *)

(** The request of [b] ends, or has ended, with [d]. *)
Definition served (q : list nat) (b : nat) (d : list Z) (s : kernel) : Prop :=
  ide_ok img q s /\
  (b ∈ q /\ promise img q s b = d \/
   b ∉ q /\ exists x, s.(k_bufs) !! b = Some x /\ ~ pending x /\ x.(b_data) = d).

Lemma served_frame q b d s s' :
  s'.(k_ide) = s.(k_ide) -> s'.(k_bufs) = s.(k_bufs) -> s'.(k_io) = s.(k_io) ->
  served q b d s -> served q b d s'.
Proof.
  intros H1 H2 H3 [Hok Hs]. split; [by apply (ide_ok_frame img q s)|].
  by rewrite (promise_frame img q s s'), H2.
Qed.

(** An interrupt with nothing to do changes nothing. *)
Lemma ideintr_spurious i p s :
  running i p ∅ s -> ide_ok img [] s -> exists s', ideintr s = Ret tt s' /\ quiet s s' /\ running i p ∅ s'.
Proof.
  intros Hr Hok. unfold ideintr.
  destruct (acquire_ex _ _ _ LkIde _ Hr ltac:(set_solver)) as (s1 & E1 & Hq1 & Hr1). kret_by exact E1. kret.
  destruct (quiet_ide _ _ Hq1) as (-> & _). rewrite (iq_links _ _ _ Hok).
  destruct (release_ex _ _ _ LkIde _ Hr1 ltac:(set_solver)) as (s2 & E2 & Hq2 & Hr2).
  replace (({[LkIde]} ∪ ∅) ∖ {[LkIde]}) with (∅ : gset lockid) in Hr2 by set_solver.
  exists s2. split_and!; [done|by transitivity s1|done].
Qed.

(** The request of another buffer changes nothing for [b]. *)
Lemma served_submit q b d s c y :
  served q b d s -> c <> b -> c ∉ q -> s.(k_bufs) !! c = Some y -> request y ->
  runs (iderw_submit c s) (fun _ s' => served (q ++ [c]) b d s').
Proof.
  intros [Hok Hb] Hcb Hc Hy Hreq. destruct (submit_spec q c y s Hok Hy Hreq Hc)
    as (s' & -> & (d' & h & Hs') & Hok' & _ & Hkeep & _). split; [done|].
  destruct Hb as [[Hin Hp]|(Hni & y' & Hy' & Hny & Hd)]; [left; split; [set_solver|by rewrite Hkeep]|].
  right. split; [set_solver|]. exists y'. by rewrite Hs'.
Qed.

(** Nor does an interrupt, which may be the one that ends it. *)
Lemma served_first a x rest b d s s' :
  ide_ok img (a :: rest) s -> s.(k_bufs) !! a = Some x -> ide_ok img rest s' ->
  s'.(k_bufs) = <[a := finished (promise img (a :: rest) s a) x]> s.(k_bufs) ->
  (forall c, c ∈ rest -> promise img rest s' c = promise img (a :: rest) s c) ->
  served (a :: rest) b d s -> served rest b d s'.
Proof.
  intros Hok Hx Hok' Hbufs Hkeep [_ Hb]. split; [done|].
  pose proof (iq_nodup _ _ _ Hok) as [Ha _]%list.NoDup_cons.
  destruct Hb as [[Hin Hp]|(Hni & y & Hy & Hny & Hd)].
  - apply elem_of_cons in Hin as [->|Hin]; [right|left; by rewrite Hkeep].
    split; [done|]. eexists. split; [by rewrite Hbufs, list_lookup_insert_eq by (by eapply lookup_lt_Some)|].
    split; [|done]. unfold pending. rewrite finished_ready. naive_solver.
  - right. split; [set_solver|]. exists y. rewrite Hbufs, list_lookup_insert_ne by set_solver. done.
Qed.

(** C9: the interrupt handler serves the first request of the queue.  Its buffer
    ends valid and clean, with the data the request was to end with; no other
    buffer changes; exactly the processes asleep on the buffer become runnable;
    the rest of the queue is kept, with its first request started.  What every
    other request is to end with, and the disk after all of them, are as before.
    An interrupt with an empty queue changes nothing. *)
Theorem ideintr_serves (i : nat) (p : option nat) (q : list nat) (s : kernel) :
  running i p ∅ s -> ide_ok img q s ->
  exists s', ideintr s = Ret tt s' /\ running i p ∅ s' /\ ide_ok img (tail q) s' /\
    match q with
    | [] => quiet s s'
    | b :: _ => exists x, s.(k_bufs) !! b = Some x /\
        s'.(k_bufs) = <[b := finished (promise img q s b) x]> s.(k_bufs) /\
        s'.(k_procs) = wake (ChBuf b) <$> s.(k_procs)
    end /\
    (forall b d, served q b d s -> served (tail q) b d s') /\
    disk_after img (tail q) s' ≡ disk_after img q s.
Proof.
  intros Hr Hok. destruct q as [|a rest].
  - destruct (ideintr_spurious i p s Hr Hok) as (s' & E & Hq & Hr'). exists s'.
    destruct (quiet_ide _ _ Hq) as (Hi & Hb & Ho & _).
    split_and!; [done..|by apply (ide_ok_frame img [] s)|done| |].
    + intros b d. by apply served_frame.
    + unfold disk_after. by rewrite Ho.
  - destruct (iq_request _ _ _ Hok a) as (x & Hx & _); [set_solver|].
    destruct (ideintr_first i p a x rest s Hr Hok Hx)
      as (s' & E & Hr' & Hok' & Hbufs & Hprocs & Hkeep & Hdisk).
    exists s'. split_and!; [done..|by exists x| |done].
    intros b d. by apply (served_first a x).
Qed.

(** The process is asleep on its buffer, whose request is still in the queue. *)
Definition waiting (p b : nat) (d : list Z) (s : kernel) : Prop :=
  (exists q, served q b d s /\ b ∈ q) /\
  (exists pr, s.(k_procs) !! p = Some pr /\ pr.(p_state) = SLEEPING /\ pr.(p_chan) = Some (ChBuf b)) /\
  exists i, running i (Some p) {[LkPtable]} s.
Definition resumed_served (p : nat) (pid : Z) (b : nat) (d : list Z) (s s' : kernel) : Prop :=
  resumed p pid s s' /\ exists q, served q b d s'.

Lemma iderw_wait_wp p pid b d fuel : forall i q s,
  thr i p pid {[LkIde]} s -> served q b d s ->
  wp (waiting p b d) (resumed_served p pid b d) (iderw_wait fuel b s) (fun _ s' =>
    (exists q', served q' b d s' /\ b ∉ q') /\ exists j, thr j p pid {[LkIde]} s').
Proof.
  induction fuel as [|fuel IH]; intros i q s [Hr Hp] Hs; [done|]. cbn [iderw_wait]. kret.
  pose proof Hs as [Hok [[Hin Hpr]|(Hni & x & Hx & Hnp & Hd)]].
  - destruct (iq_request _ _ _ Hok b Hin) as (x & Hx & Hpend & _).
    unfold buf_of. rewrite Hx. cbn [default from_option id]. unfold pending in Hpend.
    rewrite (proj2 (Z.eqb_neq _ _) Hpend). cbn [negb].
    pose proof Hp as Hp0. unfold has_pid in Hp0. apply fmap_Some in Hp0 as (pr & Hprl & Hpid).
    destruct (sleep_switches i p pr (ChBuf b) LkIde s Hr Hprl) as (s1 & k & E & Hq1 & Hr1 & Hk).
    unfold bind. rewrite E. cbn [obind wp]. apply quiet_ide in Hq1 as (Hi1 & Hb1 & Ho1 & Hp1). split.
    + split; [exists q; split; [by apply (served_frame q b d s)|done]|]. split; [|by exists i].
      exists (asleep (ChBuf b) pr). split; [|done]. rewrite Hp1.
      apply list_lookup_insert_eq. by eapply lookup_lt_Some.
    + intros s2 [[Hp2 [j Hr2]] [q2 Hs2]]. apply wp_obind. eapply runs_wp, runs_mono; [by apply Hk|].
      intros _ s3 [Hq3 Hr3]. apply (IH j q2).
      * split; [done|]. eapply has_pid_calm; [by apply calm_quiet|]. by apply has_pid_upd_proc.
      * apply quiet_ide in Hq3 as (? & ? & ? & _). by apply (served_frame q2 b d s2).
  - unfold buf_of. rewrite Hx. cbn [default from_option id].
    destruct (Z.eqb_spec (Z.land (b_flags x) (Z.lor B_VALID B_DIRTY)) B_VALID) as [He|He];
      [|by destruct (Hnp He)]. split; [|by exists i]. by exists q.
Qed.

Lemma calm_ide s s' :
  calm s s' -> s'.(k_ide) = s.(k_ide) /\ s'.(k_bufs) = s.(k_bufs) /\ s'.(k_io) = s.(k_io).
Proof. by intros (b & cs & lks & ps & _ & ->). Qed.

(** C10: a transfer.  A process that holds the buffer calls iderw with a request
    that is not queued yet.  It only gives up the processor asleep on the buffer
    with its request in the queue, and however often it is woken it returns only
    when the request is done; the buffer then holds what it was to write, or the
    block as the requests queued before the call leave it.  It never panics. *)
Theorem iderw_transfers (i p : nat) (pid : Z) (b : nat) (x : buf) (q : list nat) (s : kernel) :
  thr i p pid ∅ s -> slock_of (SlBuf b) s = mksleeplock 1 pid ->
  ide_ok img q s -> s.(k_bufs) !! b = Some x -> request x -> b ∉ q ->
  x.(b_dev) = 0 \/ s.(k_ide).(ide_havedisk1) <> 0 ->
  let d := if dirty x then x.(b_data) else disk_after img q s (disk_of x) x.(b_blockno) in
  wp (waiting p b d) (resumed_served p pid b d) (ide_rw b s) (fun _ s' =>
    (exists q' y, ide_ok img q' s' /\ b ∉ q' /\ s'.(k_bufs) !! b = Some y /\ ~ pending y /\
       y.(b_data) = d) /\
    exists j, thr j p pid ∅ s').
Proof.
  intros Ht Hsl Hok Hx Hreq Hb Hdev d. unfold ide_rw.
  destruct (holdingsleep_ex i p pid ∅ (SlBuf b) s Ht ltac:(set_solver)) as (s1 & E1 & Hc1 & Ht1).
  rewrite Hsl in E1. cbn in E1. rewrite Z.eqb_refl in E1. kret_by exact E1. cbn [negb]. kret.
  destruct (calm_ide _ _ Hc1) as (Hi1 & Hb1 & Ho1).
  unfold buf_of. rewrite Hb1, Hx, Hi1. cbn [default from_option id].
  rewrite (proj2 (Z.eqb_neq _ _) (proj1 Hreq)).
  replace (truth (b_dev x) && negb (truth (ide_havedisk1 (k_ide s)))) with false
    by (destruct Hdev as [-> |Hd1]; [done|]; by rewrite (truth_true _ Hd1), andb_false_r).
  destruct (acquire_thr _ _ _ _ LkIde _ Ht1 ltac:(set_solver)) as (s2 & E2 & Hc2 & Ht2).
  kret_by exact E2. rewrite union_empty_r_L in Ht2.
  destruct (calm_ide _ _ Hc2) as (Hi2 & Hb2 & Ho2). rewrite Hi1 in Hi2. rewrite Hb1 in Hb2. rewrite Ho1 in Ho2.
  pose proof (ide_ok_frame img q s s2 Hi2 Hb2 Ho2 Hok) as Hok2.
  destruct (submit_spec q b x s2 Hok2) as (s3 & E3 & (d' & h & Hs3) & Hok3 & Hpr & _); [by rewrite Hb2|done..|].
  kret_by exact E3. unfold disk_after in Hpr. rewrite Hb2, Ho2 in Hpr. fold (disk_after img q s) in Hpr.
  assert (Ht3 : thr i p pid {[LkIde]} s3) by (rewrite Hs3; tframe Ht2).
  apply wp_bind. eapply wp_mono.
  { apply (iderw_wait_wp p pid b d _ i (q ++ [b])); [done|]. split; [done|]. left. split; [set_solver|exact Hpr]. }
  intros _ s4 [(q' & Hs4 & Hn4) [j Ht4]].
  assert (Ht4' : thr j p pid ({[LkIde]} ∪ ∅) s4) by (by rewrite union_empty_r_L).
  destruct (release_thr _ _ _ _ _ _ Ht4' ltac:(set_solver)) as (s5 & -> & Hc5 & Ht5). cbn.
  split; [|by exists j]. destruct (calm_ide _ _ Hc5) as (Hi5 & Hb5 & Ho5).
  pose proof (served_frame q' b d s4 s5 Hi5 Hb5 Ho5 Hs4) as [Hok5 [[Hin _]|(_ & y & Hy)]]; [done|].
  exists q', y. naive_solver.
Qed.
End Driver.

(** ** A disk that is always ready *)
Definition blank_disk : store := fun _ _ => replicate 512 7.
#[local] Instance ready_disk : Hardware := {|
  hw_in _ _ := 0x40;
  hw_block h _ _ :=
    match h with
    | Inb _ _ :: h' =>
        match active h' with Some (CmdRead d n) => platter blank_disk h' d n | _ => [] end
    | _ => []
    end;
  hw_load _ _ := 0
|}.
#[local] Instance one_poll : Polls := 1%nat.
#[local] Instance two_waits : Patience := 2%nat.
#[local] Instance ready_ata : AtaDisk ready_disk one_poll blank_disk.
Proof.
  split.
  - intros h. exists 0%nat. split; [apply Nat.lt_0_1|reflexivity].
  - reflexivity.
  - intros h r d n E _. cbn. by rewrite E.
Defined.

(** A process that holds buffer 3, for block 5; the disk is idle, or reads it. *)
Definition a_request : buf := zero_buf<|b_dev := 1|><|b_blockno := 5|><|b_refcnt := 1|>.
Definition disk_idle : kernel :=
  one_runnable<|k_cpus := [boot_cpu<|c_proc := Some 0%nat|>]|>
    <|k_bufs ::= <[3%nat := a_request]>|>
    <|k_slocks := {[SlBuf 3 := mksleeplock 1 0]}|>
    <|k_ide := mkide None (replicate NBUF None) 1|>.
Definition disk_busy : kernel :=
  disk_idle<|k_ide := mkide (Some 3%nat) (replicate NBUF None) 1|>
    <|k_io := [Outb 0x1f7 0x20; Outb 0x1f6 0xf0; Outb 0x1f5 0; Outb 0x1f4 0; Outb 0x1f3 5; Outb 0x1f2 1]|>.

Lemma disk_idle_thr : thr 0 0 0 ∅ disk_idle.
Proof.
  split; [|done]. eexists. split_and!; [done..| |].
  - by intros lk ?%not_elem_of_empty.
  - intros lk _. unfold lock_of. cbn. by rewrite lookup_empty.
Defined.

Lemma disk_busy_running : running 0 (Some 0%nat) ∅ disk_busy.
Proof. kframe (proj1 disk_idle_thr). Defined.

Lemma a_request_ok : request a_request.
Proof. split; [by intros [=]|]. split; [unfold FSSIZE; cbn; lia|reflexivity]. Defined.

Lemma disk_idle_ok : ide_ok blank_disk [] disk_idle.
Proof. split; [done|constructor|split; [done|cbn; apply le_n]|set_solver|done]. Defined.

Lemma disk_busy_ok : ide_ok blank_disk [3%nat] disk_busy.
Proof.
  split; [by split; [|exists None]|apply list.NoDup_singleton|split; [done|cbn; apply le_n]|..].
  - intros b ->%list_elem_of_singleton. exists a_request. split; [reflexivity|exact a_request_ok].
  - intros b x [= <-] [= <-]. reflexivity.
Defined.

Lemma ideintr_serves_witness :
  exists s', ideintr disk_busy = Ret tt s' /\
    (b_data <$> s'.(k_bufs) !! 3%nat) = Some (replicate 512 7).
Proof.
  destruct (ideintr_serves 0 (Some 0%nat) [3%nat] disk_busy disk_busy_running disk_busy_ok)
    as (s' & E & _ & _ & (x & Hx & Hb & _) & _).
  exists s'. split; [exact E|]. rewrite Hb. rewrite list_lookup_insert_eq; [reflexivity|].
  by eapply lookup_lt_Some.
Defined.

Lemma iderw_transfers_witness :
  wp (waiting (img := blank_disk) 0 3 (replicate 512 7))
     (resumed_served (img := blank_disk) 0 0 3 (replicate 512 7)) (ide_rw 3 disk_idle)
     (fun _ s' => (b_data <$> s'.(k_bufs) !! 3%nat) = Some (replicate 512 7)).
Proof.
  eapply wp_mono.
  - apply (iderw_transfers 0 0 0 3 a_request [] disk_idle disk_idle_thr eq_refl disk_idle_ok eq_refl
             a_request_ok); [set_solver|by right].
  - intros _ s' [(q & y & _ & _ & Hy & _ & Hd) _]. rewrite Hy. exact (f_equal Some Hd).
Defined.

(** A disk that reports an error on every status read. *)
Definition failing_disk : Hardware := {| hw_in _ _ := 0x41; hw_block _ _ _ := []; hw_load _ _ := 0 |}.

(** A failed read is not reported: the buffer is marked valid with the data it
    had before. *)
Lemma read_error_marks_valid :
  match ideintr (H := failing_disk) disk_busy with
  | Ret _ s' => (fun x => (b_flags x, b_data x)) <$> s'.(k_bufs) !! 3%nat
  | _ => None
  end = Some (B_VALID, replicate 512 0).
Proof. vm_compute. reflexivity. Qed.
