(* ===== verification/Boot.v ===== *)
(** * The boot loader: bootmain.c

    It runs before paging, so that the memory [k_mem] is indexed by physical
    addresses here, and reads the kernel from the disk of [Ide], from its second
    sector on. *)

From S2P Require Import Prelude State Io Spinlock Thread CString Cprintf Kalloc Apic Vm Sched Sleeplock Disk Ide.

Definition SECTSIZE : Z := 512.
Definition ELF_MAGIC : Z := 0x464C457F.

(** The bytes [d] stored from the address [a] on. *)
Definition blit (m : mem) (a : Z) (d : list Z) : mem :=
  fun x => if (a <=? x) && (x <? a + Z.of_nat (length d)) then nth (Z.to_nat (x - a)) d 0 else m x.

(** struct elfhdr and struct proghdr in memory: the members the loader reads. *)
Definition hdr_magic (m : mem) (e : Z) : Z := load32 m e.
Definition hdr_entry (m : mem) (e : Z) : Z := load32 m (e + 24).
Definition hdr_phoff (m : mem) (e : Z) : Z := load32 m (e + 28).
Definition hdr_phnum (m : mem) (e : Z) : Z := m (e + 44) + 256 * m (e + 45).
Record proghdr := mkproghdr { ph_off : Z; ph_paddr : Z; ph_filesz : Z; ph_memsz : Z }.
Definition proghdr_at (m : mem) (p : Z) : proghdr :=
  mkproghdr (load32 m (p + 4)) (load32 m (p + 12)) (load32 m (p + 16)) (load32 m (p + 20)).
Definition PROGHDR : Z := 32.

Section Code.
Context {H : Hardware} {N : Polls}.

Fixpoint waitdisk_loop (fuel : nat) : K unit :=
  match fuel with
  | O => nofuel
  | S fuel' =>
      let! r := inb 0x1f7 in
      if Z.land r 0xC0 =? 0x40 then ret tt else waitdisk_loop fuel'
  end.
Definition waitdisk : K unit := waitdisk_loop polls.

Definition readsect (dst offset : Z) : K unit :=
  waitdisk ;;;
  outb 0x1f2 1 ;;;
  outb 0x1f3 offset ;;;
  outb 0x1f4 (Z.shiftr offset 8) ;;;
  outb 0x1f5 (Z.shiftr offset 16) ;;;
  outb 0x1f6 (Z.lor (Z.shiftr offset 24) 0xE0) ;;;
  outb 0x1f7 0x20 ;;;
  waitdisk ;;;
  let! d := insl 0x1f0 (SECTSIZE / 4) in
  modify (fun s => s<|k_mem ::= fun m => blit m dst d|>).

Fixpoint readseg_loop (fuel : nat) (pa epa offset : Z) : K unit :=
  match fuel with
  | O => nofuel
  | S fuel' =>
      if negb (pa <? epa) then ret tt
      else
        readsect pa offset ;;;
        readseg_loop fuel' (u32 (pa + SECTSIZE)) epa (u32 (offset + 1))
  end.
(** The sectors from the one of the first byte to the one of the last. *)
Definition readseg (pa count offset : Z) : K unit :=
  let epa := u32 (pa + count) in
  let pa := u32 (pa - offset mod SECTSIZE) in
  let offset := u32 (offset / SECTSIZE + 1) in
  readseg_loop (S (Z.to_nat (u32 (epa - pa) / SECTSIZE + 1))) pa epa offset.

Fixpoint load_phs (n : nat) (ph : Z) : K unit :=
  match n with
  | O => ret tt
  | S n' =>
      let! s := get in
      let h := proghdr_at s.(k_mem) ph in
      readseg h.(ph_paddr) h.(ph_filesz) h.(ph_off) ;;;
      (if! h.(ph_filesz) <? h.(ph_memsz) then!
         modify (fun s => s<|k_mem ::= fun m =>
           stosb m (u32 (h.(ph_paddr) + h.(ph_filesz))) 0 (h.(ph_memsz) - h.(ph_filesz))|>)) ;;;
      load_phs n' (u32 (ph + PROGHDR))
  end.

(** The address the loader jumps to, or [None] when the image is not ELF. *)
Definition bootmain : K (option Z) :=
  let elf := 0x10000 in
  readseg elf 4096 0 ;;;
  let! s := get in
  if negb (hdr_magic s.(k_mem) elf =? ELF_MAGIC) then ret None
  else
    load_phs (Z.to_nat (hdr_phnum s.(k_mem) elf)) (u32 (elf + hdr_phoff s.(k_mem) elf)) ;;;
    let! s := get in
    ret (Some (hdr_entry s.(k_mem) elf)).
End Code.

(** ** One sector *)
Section Load.
Context {H : Hardware} {N : Polls} {img : store} {A : AtaDisk H N img}.

Lemma waitdisk_same fuel s :
  waitdisk_loop fuel s = obind (idewait_loop fuel s) (fun _ => ret tt).
Proof.
  revert s. induction fuel as [|fuel IH]; intros s; [done|]. cbn [waitdisk_loop idewait_loop].
  kret_by apply inb_spec. erewrite (bind_ret (inb 0x1f7)) by apply inb_spec. cbn beta.
  change (Z.lor IDE_BSY IDE_DRDY) with 0xC0. change IDE_DRDY with 0x40.
  destruct (_ =? _); [done|]. apply IH.
Qed.

Lemma waitdisk_spec s :
  exists m r, waitdisk s = Ret tt (s<|k_io := Inb 0x1f7 r :: polled m s.(k_io)|>) /\ status_ready r = true.
Proof.
  destruct (ata_ready (img := img) (k_io s)) as (n & Hn & Hr).
  destruct (idewait_loop_spec n polls s Hn Hr) as (m & r & E & Hready & _).
  exists m, r. split; [|done]. unfold waitdisk. by rewrite waitdisk_same, E.
Qed.

(** The byte of port 0x1f6 names disk 0, LBA mode and the top four bits. *)
Lemma select_byte hi :
  0 <= hi < 16 ->
  let v := u8 (Z.lor hi 0xE0) in Z.land v 0xe0 = 0xe0 /\ v / 16 mod 2 = 0 /\ v mod 16 = hi.
Proof.
  intros Hhi v.
  pose proof (byte_cases (fun hi => (16 <=? hi) || ((Z.land (u8 (Z.lor hi 0xE0)) 0xe0 =? 0xe0) &&
    (u8 (Z.lor hi 0xE0) / 16 mod 2 =? 0) && (u8 (Z.lor hi 0xE0) mod 16 =? hi))) eq_refl hi) as Hc.
  specialize (Hc ltac:(unfold is_byte; lia)). cbv beta in Hc. fold v in Hc.
  replace (16 <=? hi) with false in Hc by lia. cbn [orb] in Hc.
  apply andb_true_iff in Hc as [[H1 H2]%andb_true_iff H3]. lia.
Qed.

Lemma sector_address h offset :
  0 <= offset < 2 ^ 28 ->
  let h' := Outb 0x1f6 (u8 (Z.lor (Z.shiftr offset 24) 0xE0)) :: Outb 0x1f5 (u8 (Z.shiftr offset 16)) ::
            Outb 0x1f4 (u8 (Z.shiftr offset 8)) :: Outb 0x1f3 (u8 offset) :: Outb 0x1f2 1 :: h in
  addressed h' = true /\ drive h' = 0 /\ lba h' = offset.
Proof.
  intros Ho. rewrite !Z.shiftr_div_pow2 by lia.
  destruct (select_byte (offset / 2 ^ 24)) as (H1 & H2 & H3).
  { split; [apply Z.div_pos; lia|apply Z.div_lt_upper_bound; lia]. }
  cbv zeta. unfold addressed, drive, lba. cbn [reg Z.eqb Pos.eqb]. rewrite H1, H2, H3.
  split_and!; [done..|]. unfold u8.
  pose proof (Z.div_mod offset (2 ^ 8)). pose proof (Z.div_mod (offset / 2 ^ 8) (2 ^ 8)).
  pose proof (Z.div_mod (offset / 2 ^ 16) (2 ^ 8)).
  rewrite !Z.div_div in * by lia. change (2 ^ 8 * 2 ^ 8) with (2 ^ 16) in *.
  change (2 ^ 16 * 2 ^ 8) with (2 ^ 24) in *. lia.
Qed.

Lemma readsect_spec dst offset s :
  0 <= offset < 2 ^ 28 ->
  exists h, readsect dst offset s =
      Ret tt (s<|k_io := h|><|k_mem ::= fun m => blit m dst (platter img s.(k_io) 0 offset)|>) /\
    platter img h = platter img s.(k_io).
Proof.
  intros Ho. unfold readsect. destruct (waitdisk_spec s) as (m & r & E & _). kret_by exact E.
  do 6 (kret_by apply outb_spec).
  destruct (command_active _ _ _ (sector_address (Inb 0x1f7 r :: polled m (k_io s)) offset Ho)) as [Hrd _].
  match goal with |- context [bind waitdisk _ ?st] => set (s1 := st) end.
  destruct (waitdisk_spec s1) as (m1 & r1 & E1 & Hr1). kret_by exact E1. kret_by apply insl_spec.
  destruct (polled_same (img := img) m (k_io s)) as (_ & _ & Hp).
  destruct (polled_same (img := img) m1 (k_io s1)) as (_ & Ha1 & Hp1).
  pose proof (ata_read (img := img) (polled m1 (k_io s1)) r1 0 offset (eq_trans Ha1 Hrd) Hr1) as Hd.
  rewrite Hp1 in Hd. change (platter img (k_io s1)) with (platter img (polled m (k_io s))) in Hd.
  rewrite Hp in Hd. eexists. split; [unfold modify; rewrite <- Hd; reflexivity|].
  etransitivity; [exact Hp1|exact Hp].
Qed.

(** ** A segment *)

(** The image of the kernel: byte [k] of it, from the second sector on. *)
Definition kbyte (disk : store) (k : Z) : Z := nth (Z.to_nat (k mod 512)) (disk 0 (k / 512 + 1)) 0.
Definition whole_sectors (disk : store) : Prop := forall n, length (disk 0 n) = 512%nat.

Lemma readseg_loop_spec n : forall fuel pa epa off s,
  whole_sectors (platter img s.(k_io)) -> (n < fuel)%nat -> 0 <= pa -> pa + 512 * Z.of_nat n < 2 ^ 32 ->
  pa + 512 * (Z.of_nat n - 1) < epa -> epa <= pa + 512 * Z.of_nat n ->
  0 <= off -> off + Z.of_nat n < 2 ^ 28 ->
  exists h m, readseg_loop fuel pa epa off s = Ret tt (s<|k_io := h|><|k_mem := m|>) /\
    platter img h = platter img s.(k_io) /\
    forall x, m x =
      if (pa <=? x) && (x <? pa + 512 * Z.of_nat n)
      then nth (Z.to_nat ((x - pa) mod 512)) (platter img s.(k_io) 0 (off + (x - pa) / 512)) 0
      else s.(k_mem) x.
Proof.
  induction n as [|n IH]; intros [|fuel] pa epa off s Hw Hf Hpa Hmax Hlo Hhi Hoff Hofs; try lia;
    cbn [readseg_loop].
  - replace (pa <? epa) with false by lia. exists (k_io s), (k_mem s). split_and!; [done..|].
    intros x. by replace (_ && _) with false by blia.
  - replace (pa <? epa) with true by lia. cbn [negb].
    destruct (readsect_spec pa off s) as (h1 & E1 & Hp1); [lia|]. kret_by exact E1.
    unfold SECTSIZE. rewrite !u32_small by lia.
    match goal with |- context [readseg_loop fuel _ _ _ ?st] => set (s1 := st) end.
    assert (Hk1 : platter img (k_io s1) = platter img (k_io s)) by exact Hp1.
    destruct (IH fuel (pa + 512) epa (off + 1) s1) as (h & m & E & Hp & Hm); try lia; [by rewrite Hk1|].
    exists h, m. split_and!; [exact E|congruence|]. intros x. rewrite Hm, Hk1.
    change (k_mem s1 x) with (blit (k_mem s) pa (platter img (k_io s) 0 off) x). unfold blit. rewrite (Hw off).
    destruct (Z.lt_ge_cases x pa) as [H1|H1]; [by replace (_ && _) with false by blia;
      replace ((pa <=? x) && (x <? pa + Z.of_nat 512)) with false by blia;
      replace ((pa <=? x) && _) with false by blia|].
    destruct (Z.lt_ge_cases x (pa + 512)) as [H2|H2].
    + replace ((pa + 512 <=? x) && _) with false by blia.
      replace ((pa <=? x) && (x <? pa + Z.of_nat 512)) with true by blia.
      replace ((pa <=? x) && (x <? pa + 512 * Z.of_nat (S n))) with true by blia.
      rewrite Z.mod_small, Z.div_small, Z.add_0_r by lia. done.
    + replace ((pa <=? x) && (x <? pa + Z.of_nat 512)) with false by blia.
      replace ((pa <=? x) && (x <? pa + 512 * Z.of_nat (S n)))
        with ((pa + 512 <=? x) && (x <? pa + 512 + 512 * Z.of_nat n)) by blia.
      replace (x - pa) with (x - (pa + 512) + 1 * 512) by lia.
      rewrite Z.mod_add, Z.div_add by lia.
      by replace (off + ((x - (pa + 512)) / 512 + 1)) with (off + 1 + (x - (pa + 512)) / 512) by lia.
Qed.

(** Where the sectors of a segment start and end in memory. *)
Definition seg_start (pa off : Z) : Z := pa - off mod 512.
Definition seg_end (pa count off : Z) : Z :=
  seg_start pa off + 512 * ((pa + count - seg_start pa off + 511) / 512).

Lemma seg_end_bounds pa count off :
  0 <= count -> pa + count <= seg_end pa count off < pa + count + 512.
Proof.
  intros Hc. unfold seg_end. pose proof (Z.mod_pos_bound off 512 ltac:(lia)).
  unfold seg_start. pose proof (Z.div_mod (pa + count - (pa - off mod 512) + 511) 512 ltac:(lia)).
  pose proof (Z.mod_pos_bound (pa + count - (pa - off mod 512) + 511) 512 ltac:(lia)). lia.
Qed.

(** readseg puts the bytes of the image in their place, and touches nothing
    outside the sectors they are in. *)
Lemma readseg_spec pa count off s :
  whole_sectors (platter img s.(k_io)) -> 0 <= off -> 0 <= count -> 0 <= seg_start pa off ->
  pa + count + 512 < 2 ^ 32 -> off + count + 1536 < 2 ^ 37 ->
  exists h m, readseg pa count off s = Ret tt (s<|k_io := h|><|k_mem := m|>) /\
    platter img h = platter img s.(k_io) /\
    forall x, m x =
      if (seg_start pa off <=? x) && (x <? seg_end pa count off)
      then kbyte (platter img s.(k_io)) (x - pa + off) else s.(k_mem) x.
Proof.
  intros Hw Hoff Hc Hst Hmax Hsec. pose proof (seg_end_bounds pa count off Hc) as Hend.
  pose proof (Z.mod_pos_bound off 512 ltac:(lia)) as Hmod. pose proof (Z.div_mod off 512 ltac:(lia)) as Hdm.
  assert (H0 : 0 <= off / 512) by (apply Z.div_pos; lia).
  unfold readseg, SECTSIZE. fold (seg_start pa off).
  set (n := (pa + count - seg_start pa off + 511) / 512) in *.
  assert (Hn : 0 <= n) by (apply Z.div_pos; unfold seg_start in *; lia).
  unfold seg_end in *. fold n in Hend |- *.
  assert (Hnd : 512 * n <= pa + count - seg_start pa off + 511) by (apply Z.mul_div_le; lia).
  unfold seg_start in Hst, Hend, Hnd |- *.
  rewrite (u32_small (pa + count)), (u32_small (pa - off mod 512)), (u32_small (off / 512 + 1)) by lia.
  rewrite (u32_small (pa + count - _)) by lia.
  destruct (readseg_loop_spec (Z.to_nat n) (S (Z.to_nat ((pa + count - (pa - off mod 512)) / 512 + 1)))
    (pa - off mod 512) (pa + count) (off / 512 + 1) s) as (h & m & E & Hp & Hm); rewrite ?Z2Nat.id by lia; try lia.
  { done. }
  { pose proof (Z.mul_succ_div_gt (pa + count - (pa - off mod 512)) 512 ltac:(lia)).
    assert (0 <= (pa + count - (pa - off mod 512)) / 512) by (apply Z.div_pos; lia). lia. }
  exists h, m. split_and!; [exact E|done|]. intros x. rewrite Hm, Z2Nat.id by lia. unfold kbyte.
  replace (x - pa + off) with (x - (pa - off mod 512) + off / 512 * 512) by lia.
  rewrite Z.mod_add, Z.div_add by lia. replace (off / 512 + 1 + (x - (pa - off mod 512)) / 512)
    with ((x - (pa - off mod 512)) / 512 + off / 512 + 1) by lia. done.
Qed.

(** ** The image *)
Section Image.
Context (disk : store).
Let kb : mem := kbyte disk.

(** The program headers of the image. *)
Definition phs (n i : nat) : list proghdr :=
  (fun j => proghdr_at (kbyte disk) (hdr_phoff (kbyte disk) 0 + PROGHDR * Z.of_nat j)) <$> seq i n.

(** A segment above the loader's scratch page and inside the address space. *)
Definition seg_ok (h : proghdr) : Prop :=
  0 <= h.(ph_off) < 2 ^ 32 /\ 0 <= h.(ph_filesz) /\ 0x11000 <= seg_start h.(ph_paddr) h.(ph_off) /\
  h.(ph_paddr) + h.(ph_filesz) + 512 < 2 ^ 32 /\ h.(ph_paddr) + h.(ph_memsz) < 2 ^ 32.
(** The segments are in increasing order, as linkers put them. *)
Fixpoint in_order (l : list proghdr) : Prop :=
  match l with
  | [] => True
  | h :: l' =>
      Forall (fun h' => h.(ph_paddr) + Z.max h.(ph_filesz) h.(ph_memsz) <= seg_start h'.(ph_paddr) h'.(ph_off)) l' /\
      in_order l'
  end.

(** The segment is in memory: its bytes of the file, and zeroes up to its size. *)
Definition seg_loaded (m : mem) (h : proghdr) : Prop :=
  forall k, 0 <= k ->
    (k < h.(ph_filesz) -> m (h.(ph_paddr) + k) = kbyte disk (h.(ph_off) + k)) /\
    (h.(ph_filesz) <= k < h.(ph_memsz) -> m (h.(ph_paddr) + k) = 0).

Lemma load_segment h s :
  whole_sectors disk -> platter img s.(k_io) = disk -> seg_ok h ->
  exists io m,
    (readseg h.(ph_paddr) h.(ph_filesz) h.(ph_off) ;;;
     if! h.(ph_filesz) <? h.(ph_memsz) then!
       modify (fun s => s<|k_mem ::= fun m =>
         stosb m (u32 (h.(ph_paddr) + h.(ph_filesz))) 0 (h.(ph_memsz) - h.(ph_filesz))|>))%xv6 s =
      Ret tt (s<|k_io := io|><|k_mem := m|>) /\
    platter img io = disk /\ seg_loaded m h /\
    (forall x, x < seg_start h.(ph_paddr) h.(ph_off) -> m x = s.(k_mem) x).
Proof.
  intros Hw Hd (Hoff & Hfs & Hst & Hmax & Hmem).
  destruct (readseg_spec h.(ph_paddr) h.(ph_filesz) h.(ph_off) s) as (io & m & E & Hp & Hm);
    try (by rewrite Hd); try lia.
  { pose proof (Z.mod_pos_bound (ph_off h) 512 ltac:(lia)). unfold seg_start in Hst. lia. }
  kret_by exact E. rewrite Hd in Hp, Hm.
  pose proof (seg_end_bounds (ph_paddr h) (ph_filesz h) (ph_off h) ltac:(lia)) as Hend.
  pose proof (Z.mod_pos_bound (ph_off h) 512 ltac:(lia)) as Hmod.
  assert (Hpa : 0 <= ph_paddr h) by (unfold seg_start in Hst; lia).
  assert (Hle : seg_start (ph_paddr h) (ph_off h) <= ph_paddr h) by (unfold seg_start; lia).
  assert (Hfile : forall k, 0 <= k < ph_filesz h -> m (ph_paddr h + k) = kbyte disk (ph_off h + k)).
  { intros k Hk. rewrite Hm. replace (_ && _) with true by blia. f_equal. lia. }
  assert (Hlow : forall x, x < seg_start (ph_paddr h) (ph_off h) -> m x = s.(k_mem) x).
  { intros x Hx. rewrite Hm. by replace (_ && _) with false by blia. }
  destruct (Z.ltb_spec (ph_filesz h) (ph_memsz h)) as [Hbss|Hbss].
  - exists io, (stosb m (u32 (ph_paddr h + ph_filesz h)) 0 (ph_memsz h - ph_filesz h)).
    split_and!; [done..| |]; rewrite u32_small by lia; unfold stosb.
    + intros k Hk. split; intros Hk2; [|by replace (_ && _) with true by blia].
      replace (_ && _) with false by blia. by apply Hfile.
    + intros x Hx. replace (_ && _) with false by blia. by apply Hlow.
  - exists io, m. split_and!; [done..| |done]. intros k Hk. split; [|lia]. intros. by apply Hfile.
Qed.

(** The first page of the image is in the scratch page. *)
Definition page_read (m : mem) : Prop := forall k, 0 <= k < 4096 -> m (0x10000 + k) = kbyte disk k.

Lemma load32_read m k : page_read m -> 0 <= k <= 4092 -> load32 m (0x10000 + k) = load32 (kbyte disk) k.
Proof.
  intros Hm Hk. unfold load32. rewrite <- !Z.add_assoc, !Hm by lia. done.
Qed.

Lemma proghdr_read m k :
  page_read m -> 0 <= k -> k + PROGHDR <= 4096 -> proghdr_at m (0x10000 + k) = proghdr_at (kbyte disk) k.
Proof.
  intros Hm H0 Hk. unfold PROGHDR in Hk. unfold proghdr_at.
  rewrite <- !Z.add_assoc, !load32_read by (done || lia). done.
Qed.

Lemma load_phs_spec n : forall i s,
  let off := hdr_phoff (kbyte disk) 0 in
  whole_sectors disk -> platter img s.(k_io) = disk -> page_read s.(k_mem) ->
  0 <= off -> off + PROGHDR * Z.of_nat (i + n) <= 4096 ->
  Forall seg_ok (phs n i) -> in_order (phs n i) ->
  exists io m, load_phs n (0x10000 + (off + PROGHDR * Z.of_nat i)) s = Ret tt (s<|k_io := io|><|k_mem := m|>) /\
    Forall (seg_loaded m) (phs n i) /\
    forall x, Forall (fun h => x < seg_start h.(ph_paddr) h.(ph_off)) (phs n i) -> m x = s.(k_mem) x.
Proof.
  induction n as [|n IH]; intros i s off Hw Hd Hpage H0 Hmax Hok Hord.
  - exists (k_io s), (k_mem s). by split_and!.
  - cbn [load_phs]. kret. unfold PROGHDR in *. rewrite proghdr_read by (done || unfold PROGHDR; lia).
    set (h := proghdr_at (kbyte disk) (off + 32 * Z.of_nat i)).
    change (phs (S n) i) with (h :: phs n (S i)) in *.
    apply list.Forall_cons in Hok as [Hh Hok]. destruct Hord as [Hfst Hord].
    destruct (load_segment h s Hw Hd Hh) as (io1 & m1 & E1 & Hd1 & Hl1 & Hlow1).
    rewrite (bind_seq _ _ _ _ _ _ E1). rewrite u32_small by lia.
    replace (65536 + (off + 32 * Z.of_nat i) + 32) with (65536 + (off + 32 * Z.of_nat (S i))) by lia.
    set (s1 := s<|k_io := io1|><|k_mem := m1|>).
    assert (Hpage1 : page_read (k_mem s1)).
    { intros k Hk. change (k_mem s1) with m1. rewrite Hlow1; [by apply Hpage|].
      destruct Hh as (_ & _ & Hst & _). lia. }
    destruct (IH (S i) s1) as (io & m & E & Hl & Hlow); try done; [lia|].
    exists io, m. split; [exact E|]. split.
    + constructor; [|done]. intros k Hk. destruct (Hl1 k Hk) as [Ha Hb].
      assert (Hkeep : k < Z.max (ph_filesz h) (ph_memsz h) -> m (ph_paddr h + k) = m1 (ph_paddr h + k)).
      { intros Hlt. apply Hlow. eapply Forall_impl, Hfst. intros h' Hh'. cbv beta in Hh' |- *. lia. }
      split; intros Hlt; rewrite Hkeep by lia; [by apply Ha|by apply Hb].
    + intros x [Hx Hxs]%list.Forall_cons. rewrite Hlow by done. by apply Hlow1.
Qed.

(** A disk of whole sectors of bytes. *)
Definition readable : Prop := whole_sectors disk /\ forall k, is_byte (kbyte disk k).
(** The rest of an ELF image. *)
Record elf_ok : Prop := {
  elf_headers : hdr_phoff (kbyte disk) 0 + PROGHDR * hdr_phnum (kbyte disk) 0 <= 4096;
  elf_segments : Forall seg_ok (phs (Z.to_nat (hdr_phnum (kbyte disk) 0)) 0);
  elf_order : in_order (phs (Z.to_nat (hdr_phnum (kbyte disk) 0)) 0)
}.
End Image.

(** bootmain up to the check of the magic number. *)
Lemma bootmain_page (s : kernel) (disk : store) :
  platter img s.(k_io) = disk -> readable disk ->
  exists s1, platter img s1.(k_io) = disk /\ page_read disk s1.(k_mem) /\
    (forall x, x < 0x10000 \/ 0x11000 <= x -> s1.(k_mem) x = s.(k_mem) x) /\
    bootmain s =
      if negb (hdr_magic (kbyte disk) 0 =? ELF_MAGIC) then Ret None s1
      else (load_phs (Z.to_nat (hdr_phnum (kbyte disk) 0)) (u32 (0x10000 + hdr_phoff (kbyte disk) 0)) ;;;
            let! s := get in
            ret (Some (hdr_entry s.(k_mem) 0x10000)))%xv6 s1.
Proof.
  intros Hd [Hw Hb]. unfold bootmain.
  destruct (readseg_spec 0x10000 4096 0 s) as (io1 & m1 & E1 & Hp1 & Hm1);
    [by rewrite Hd|by vm_compute..|]. rewrite Hd in Hp1, Hm1.
  change (seg_start 0x10000 0) with 0x10000 in Hm1. change (seg_end 0x10000 4096 0) with 0x11000 in Hm1.
  assert (Hpage : page_read disk m1).
  { intros k Hk. rewrite Hm1. replace (_ && _) with true by blia. f_equal. lia. }
  exists (s<|k_io := io1|><|k_mem := m1|>). split_and!; [exact Hp1|exact Hpage| |].
  { intros x Hx. cbn. rewrite Hm1. by replace (_ && _) with false by blia. }
  kret_by exact E1. kret. change (k_mem (s<|k_io := io1|><|k_mem := m1|>)) with m1.
  replace (hdr_magic m1 0x10000) with (hdr_magic (kbyte disk) 0)
    by (symmetry; exact (load32_read disk m1 0 Hpage ltac:(lia))).
  replace (hdr_phoff m1 0x10000) with (hdr_phoff (kbyte disk) 0)
    by (symmetry; exact (load32_read disk m1 28 Hpage ltac:(lia))).
  replace (hdr_phnum m1 0x10000) with (hdr_phnum (kbyte disk) 0)
    by (unfold hdr_phnum; rewrite !Hpage by lia; done).
  by destruct (negb _).
Qed.

End Load.

(** ** A disk with a small kernel

    One segment at one megabyte: four bytes of the file, eight in memory. *)
Definition small_kernel : store := fun _ n =>
  if n =? 1 then
    [127; 69; 76; 70; 0; 0; 0; 0; 0; 0; 0; 0; 0; 0; 0; 0; 0; 0; 0; 0; 0; 0; 0; 0; 12; 0; 16; 0; 52; 0; 0; 0; 0; 0; 0; 0; 0; 0; 0; 0; 0; 0; 0; 0; 1; 0; 0; 0; 0; 0; 0; 0; 1; 0; 0; 0; 0; 16; 0; 0; 0; 0; 16; 128; 0; 0; 16; 0; 4; 0; 0; 0; 8; 0; 0; 0] ++ replicate 436 0
  else if n =? 9 then [250; 235; 254; 144] ++ replicate 508 1
  else replicate 512 0.

#[local] Instance boot_hw : Hardware := {|
  hw_in _ _ := 0x40;
  hw_block h _ _ :=
    match h with
    | Inb _ _ :: h' =>
        match active h' with Some (CmdRead d n) => platter small_kernel h' d n | _ => [] end
    | _ => []
    end;
  hw_load _ _ := 0
|}.
#[local] Instance boot_poll : Polls := 1%nat.
#[local] Instance boot_ata : AtaDisk boot_hw boot_poll small_kernel.
Proof.
  split.
  - intros h. exists 0%nat. split; [apply Nat.lt_0_1|reflexivity].
  - reflexivity.
  - intros h r d n E _. cbn. by rewrite E.
Defined.

Lemma small_kernel_bytes n : length (small_kernel 0 n) = 512%nat /\ Forall is_byte (small_kernel 0 n).
Proof.
  unfold small_kernel. destruct (n =? 1); [|destruct (n =? 9)]; (split; [reflexivity|]).
  - apply Forall_app; split; [repeat (constructor; [unfold is_byte; lia|]); constructor|].
    apply Forall_replicate. unfold is_byte. lia.
  - apply Forall_app; split; [repeat (constructor; [unfold is_byte; lia|]); constructor|].
    apply Forall_replicate. unfold is_byte. lia.
  - apply Forall_replicate. unfold is_byte. lia.
Defined.

Lemma small_kernel_phs :
  phs small_kernel (Z.to_nat (hdr_phnum (kbyte small_kernel) 0)) 0 = [mkproghdr 0x1000 0x100000 4 8].
Proof. vm_compute. reflexivity. Defined.

Lemma small_kernel_readable : readable small_kernel.
Proof.
  split.
  - intros n. apply small_kernel_bytes.
  - intros k. unfold kbyte. destruct (small_kernel_bytes (k / 512 + 1)) as [Hl Hb].
    rewrite list.Forall_forall in Hb. apply Hb, list_elem_of_In, nth_In. rewrite Hl.
    pose proof (Z.mod_pos_bound k 512 ltac:(lia)). lia.
Defined.

Lemma small_kernel_ok : elf_ok small_kernel.
Proof.
  split.
  - vm_compute. discriminate.
  - rewrite small_kernel_phs. constructor; [|constructor].
    unfold seg_ok, seg_start. cbn [ph_off ph_paddr ph_filesz ph_memsz].
    change (0x1000 mod 512) with 0. lia.
  - rewrite small_kernel_phs. split; [constructor|exact I].
Defined.

