(* ===== verification/Bio.v ===== *)
(** * The buffer cache: bio.c

    The circular list through the prev and next fields is the list [k_lru] of
    buffer numbers, from head.next (most recently used) to head.prev; Module
    [Links] shows that the pointer assignments of binit and brelse do to the
    links what the list operations do to that list. *)

From S2P Require Import Prelude State Spinlock Thread CString Kalloc Vm Sched Sleeplock Disk.

(** ** The code *)
Definition binit_buf (b : nat) : K unit :=
  initsleeplock (SlBuf b) ;;;
  modify (fun s => s<|k_lru ::= cons b|>).
Fixpoint binit_loop (bs : list nat) : K unit :=
  match bs with
  | [] => ret tt
  | b :: bs' => binit_buf b ;;; binit_loop bs'
  end.
Definition binit : K unit :=
  initlock LkBcache ;;;
  modify (fun s => s<|k_lru := []|>) ;;;
  binit_loop (seq 0 NBUF).

(** The two searches of bget. *)
Definition is_block (dev blockno : Z) (s : kernel) (b : nat) : bool :=
  ((buf_of b s).(b_dev) =? dev) && ((buf_of b s).(b_blockno) =? blockno).
Definition recyclable (s : kernel) (b : nat) : bool :=
  ((buf_of b s).(b_refcnt) =? 0) && negb (dirty (buf_of b s)).
Definition find_buf (f : nat -> bool) (bs : list nat) : option nat :=
  snd <$> list_find (fun b => f b = true) bs.

Section Code.
Context {P : Patience} {D : BlockDriver}.

Definition bget (dev blockno : Z) : K nat :=
  acquire LkBcache ;;;
  let! s := get in
  match find_buf (is_block dev blockno s) s.(k_lru) with
  | Some b =>
      modify (upd_buf b (fun x => x<|b_refcnt := u32 (x.(b_refcnt) + 1)|>)) ;;;
      release LkBcache ;;;
      acquiresleep (SlBuf b) ;;;
      ret b
  | None =>
      match find_buf (recyclable s) (reverse s.(k_lru)) with
      | Some b =>
          modify (upd_buf b (fun x => x<|b_dev := dev|><|b_blockno := blockno|>
                                       <|b_flags := 0|><|b_refcnt := 1|>)) ;;;
          release LkBcache ;;;
          acquiresleep (SlBuf b) ;;;
          ret b
      | None => panic "bget: no buffers"
      end
  end.

Definition bread (dev blockno : Z) : K nat :=
  let! b := bget dev blockno in
  let! s := get in
  (if! negb (valid (buf_of b s)) then! iderw b) ;;;
  ret b.

Definition bwrite (b : nat) : K unit :=
  let! h := holdingsleep (SlBuf b) in
  if negb h then panic "bwrite"
  else
    modify (upd_buf b (fun x => x<|b_flags := Z.lor x.(b_flags) B_DIRTY|>)) ;;;
    iderw b.

(** Unlink [b] and insert it after head. *)
Definition to_front (b : nat) (l : list nat) : list nat := b :: filter (fun x => x <> b) l.

Definition brelse (b : nat) : K unit :=
  let! h := holdingsleep (SlBuf b) in
  if negb h then panic "brelse"
  else
    releasesleep (SlBuf b) ;;;
    acquire LkBcache ;;;
    modify (upd_buf b (fun x => x<|b_refcnt := u32 (x.(b_refcnt) - 1)|>)) ;;;
    let! s := get in
    (if! (buf_of b s).(b_refcnt) =? 0 then! modify (fun s => s<|k_lru ::= to_front b|>)) ;;;
    release LkBcache.
End Code.

(** ** The links

    Nodes are buffer numbers; [head] is the list head.  [prev] and [next] are
    the link fields of all nodes. *)
Module Links.

Record links := mklinks { prev : nat -> nat; next : nat -> nat }.
Definition set_prev (n v : nat) (k : links) : links :=
  mklinks (fun x => if decide (x = n) then v else prev k x) (next k).
Definition set_next (n v : nat) (k : links) : links :=
  mklinks (prev k) (fun x => if decide (x = n) then v else next k x).

Section Head.
Variable head : nat.

(** The assignments that link [b] after head: binit and the end of brelse. *)
Definition insert_head (b : nat) (k : links) : links :=
  let k := set_next b (next k head) k in
  let k := set_prev b head k in
  let k := set_prev (next k head) b k in
  set_next head b k.
(** The two assignments of brelse that unlink [b]. *)
Definition unlink (b : nat) (k : links) : links :=
  let k := set_prev (next k b) (prev k b) k in
  set_next (prev k b) (next k b) k.
Definition move_to_head (b : nat) (k : links) : links := insert_head b (unlink b k).
Definition empty_list (k : links) : links := set_next head head (set_prev head head k).

(** [k] holds the circular list head, l_0, ..., l_n, head. *)
Fixpoint chain (k : links) (from : nat) (l : list nat) (to : nat) : Prop :=
  match l with
  | [] => next k from = to /\ prev k to = from
  | b :: l' => next k from = b /\ prev k b = from /\ chain k b l' to
  end.
Definition ring (k : links) (l : list nat) : Prop :=
  chain k head l head /\ NoDup (head :: l).
End Head.

(** What the loops along next and along prev visit. *)
Fixpoint walk (f : nat -> nat) (n : nat) (fuel : nat) (head : nat) : list nat :=
  match fuel with
  | O => []
  | S fuel' => if decide (n = head) then [] else n :: walk f (f n) fuel' head
  end.

Lemma chain_ext k k' from l to :
  (forall x, x = from \/ x ∈ l -> next k' x = next k x) ->
  (forall x, x = to \/ x ∈ l -> prev k' x = prev k x) ->
  chain k from l to -> chain k' from l to.
Proof.
  revert from. induction l as [|b l IH]; intros from Hn Hp; cbn.
  - intros [H1 H2]. rewrite Hn, Hp by auto. done.
  - intros (H1 & H2 & H3). rewrite Hn, Hp by (auto; right; left). split_and!; [done..|].
    apply IH; [| |done]; intros x Hx; [apply Hn|apply Hp]; set_solver.
Qed.

Lemma chain_app k from l1 b l2 to :
  chain k from (l1 ++ b :: l2) to <-> chain k from l1 b /\ chain k b l2 to.
Proof.
  revert from. induction l1 as [|a l1 IH]; intros from; cbn; [naive_solver|].
  rewrite IH. naive_solver.
Qed.

Lemma insert_head_ring head b k l :
  ring head k l -> b ∉ head :: l -> ring head (insert_head head b k) (b :: l).
Proof.
  intros [Hc Hnd] [Hbh Hb]%not_elem_of_cons. apply list.NoDup_cons in Hnd as [Hh Hnd].
  split; [|rewrite !list.NoDup_cons, elem_of_cons; naive_solver].
  destruct l as [|c l]; cbn in *.
  - destruct Hc as [Hn Hp]. repeat (rewrite ?Hn; case_decide); naive_solver.
  - destruct Hc as (Hn & Hp & Hc). apply list.NoDup_cons in Hnd as [Hcl Hnd].
    apply not_elem_of_cons in Hb as [Hbc Hbl], Hh as [Hhc Hhl].
    rewrite (decide_False (P := head = b)) by done. rewrite Hn.
    split_and!; repeat case_decide; try done.
    eapply chain_ext; [| |exact Hc]; intros x Hx; cbn; repeat case_decide;
      destruct Hx as [->|Hx]; subst; congruence.
Qed.

Lemma chain_last k from l to : chain k from l to -> prev k to = from \/ prev k to ∈ l.
Proof.
  revert from. induction l as [|b l IH]; intros from; cbn; [naive_solver|].
  intros (_ & _ & H). right. destruct (IH _ H) as [->|Hin]; [by left|by right].
Qed.

Lemma chain_first k from l to : chain k from l to -> next k from = to \/ next k from ∈ l.
Proof. destruct l as [|b l]; cbn; [naive_solver|]. intros (-> & _). right. by left. Qed.

Lemma unlink_chain k b l2 to : forall l1 from,
  chain k from l1 b -> chain k b l2 to ->
  NoDup (l1 ++ b :: l2) -> from ∉ l1 ++ b :: l2 -> to ∉ l1 ++ b :: l2 ->
  chain (unlink b k) from (l1 ++ l2) to.
Proof.
  intros l1. induction l1 as [|a l1 IH]; intros from H1 H2 Hnd Hfrom Hto.
  - cbn in H1, Hnd, Hfrom, Hto |- *. destruct H1 as [Hnf Hpb].
    apply list.NoDup_cons in Hnd as [Hbl Hnd].
    apply not_elem_of_cons in Hfrom as [Hfb Hfl], Hto as [Htb Htl].
    destruct l2 as [|c l2]; cbn in H2 |- *.
    + destruct H2 as [Hnb Hpt]. rewrite Hnb, Hpb. by repeat case_decide; subst.
    + destruct H2 as (Hnb & Hpc & H2). rewrite Hnb, Hpb.
      apply not_elem_of_cons in Hbl as [Hbc Hbl], Hfl as [Hfc Hfl], Htl as [Htc Htl].
      apply list.NoDup_cons in Hnd as [Hcl Hnd].
      rewrite (decide_False (P := b = c)), !decide_True by done. split_and!; [done..|].
      eapply chain_ext; [| |exact H2]; intros x Hx; cbn; rewrite ?Hnb, ?Hpb;
        repeat case_decide; destruct Hx as [->|Hx]; subst; congruence.
  - cbn in H1, Hnd, Hfrom, Hto |- *. destruct H1 as (Hnf & Hpa & H1).
    apply list.NoDup_cons in Hnd as [Hal Hnd].
    apply not_elem_of_cons in Hfrom as [Hfa Hfl], Hto as [Hta Htl].
    assert (Hlast := chain_last _ _ _ _ H1). assert (Hfirst := chain_first _ _ _ _ H2).
    apply not_elem_of_app in Hfl as [Hfl1 [Hfb Hfl2]%not_elem_of_cons].
    pose proof Hal as Hal'. apply not_elem_of_app in Hal' as [Hal1 [Hab Hal2]%not_elem_of_cons].
    pose proof Htl as Htl'. apply not_elem_of_app in Htl' as [Htl1 [Htb Htl2]%not_elem_of_cons].
    apply list.NoDup_app in Hnd as Hnd'. destruct Hnd' as (_ & _ & [Hbl _]%list.NoDup_cons).
    assert (b <> next k b) by (intros Hb; rewrite <- Hb in Hfirst; naive_solver).
    rewrite (decide_False (P := b = next k b)) by done.
    rewrite (decide_False (P := from = prev k b)) by (intros Hb; rewrite <- Hb in Hlast; naive_solver).
    rewrite (decide_False (P := a = next k b)) by (intros Hb; rewrite <- Hb in Hfirst; naive_solver).
    split_and!; [done..|]. by apply IH.
Qed.

Lemma ring_move head b k l :
  ring head k l -> b ∈ l -> ring head (move_to_head head b k) (to_front b l).
Proof.
  intros [Hc Hnd] (l1 & l2 & ->)%list_elem_of_split.
  apply list.NoDup_cons in Hnd as [Hh Hnd]. pose proof Hnd as Hnd0.
  apply list.NoDup_app in Hnd as (Hnd1 & Hdis & [Hb2 Hnd2]%list.NoDup_cons).
  assert (Hb1 : b ∉ l1) by (intros Hin; apply (Hdis _ Hin); left).
  apply chain_app in Hc as [Hc1 Hc2].
  assert (Hf : filter (fun x => x <> b) (l1 ++ b :: l2) = l1 ++ l2).
  { rewrite list.filter_app, filter_cons_False by naive_solver. f_equal;
      apply filter_true; intros x Hx; congruence. }
  unfold to_front, move_to_head. rewrite Hf. apply insert_head_ring.
  - split; [by apply unlink_chain|]. apply list.NoDup_cons. split; [set_solver|].
    apply list.NoDup_app. split_and!; [done| |done]. intros x H1 H2. apply (Hdis _ H1). by right.
  - set_solver.
Qed.
(** The loops follow the links round the ring. *)
Lemma walk_next k from l head : forall fuel,
  chain k from l head -> head ∉ l -> (length l < fuel)%nat ->
  walk (next k) (next k from) fuel head = l.
Proof.
  revert from. induction l as [|b l IH]; intros from [|fuel] Hc Hh Hf; cbn in *; try lia.
  - destruct Hc as [-> _]. by rewrite decide_True.
  - destruct Hc as (-> & _ & Hc). apply not_elem_of_cons in Hh as [Hb Hl].
    rewrite decide_False by done. f_equal. apply IH; [done..|lia].
Qed.

Lemma walk_prev k to l head : forall fuel,
  chain k head l to -> head ∉ l -> (length l < fuel)%nat ->
  walk (prev k) (prev k to) fuel head = reverse l.
Proof.
  revert to. induction l as [|b l IH] using rev_ind; intros to [|fuel] Hc Hh Hf;
    rewrite ?length_app in Hf; cbn in *; try lia.
  - destruct Hc as [_ ->]. by rewrite decide_True.
  - apply chain_app in Hc as [Hc [_ ->]]. apply not_elem_of_app in Hh as [Hl Hb%not_elem_of_cons].
    rewrite decide_False by naive_solver. rewrite reverse_snoc. f_equal. apply IH; [done..|lia].
Qed.

(** The links binit builds. *)
Definition binit_links (head : nat) (k : links) : links :=
  foldl (fun k b => insert_head head b k) (empty_list head k) (seq 0 NBUF).

Lemma insert_all_ring head bs : forall k l,
  ring head k l -> NoDup bs -> (forall b, b ∈ bs -> b ∉ head :: l) ->
  ring head (foldl (fun k b => insert_head head b k) k bs) (reverse bs ++ l).
Proof.
  induction bs as [|b bs IH]; intros k l Hr Hnd Hdis; [done|].
  apply list.NoDup_cons in Hnd as [Hb Hnd]. cbn [foldl]. rewrite reverse_cons, <- app_assoc. apply IH; [|done|].
  - apply insert_head_ring; [done|]. apply Hdis. left.
  - intros b' Hb'. pose proof (Hdis b' ltac:(by right)). set_solver.
Qed.

(** C34: the pointer code of the buffer cache implements the recency list.
    binit links all buffers into one ring, newest first; the six assignments of
    brelse move a linked buffer to the front and keep all others in order; and
    the loops of bget along next and along prev visit exactly that list and its
    reverse, and stop. *)
Theorem links_implement_lru (head : nat) (k : links) :
  (NBUF <= head)%nat ->
  ring head (binit_links head k) (reverse (seq 0 NBUF)) /\
  forall k l, ring head k l ->
    (forall b, b ∈ l -> ring head (move_to_head head b k) (to_front b l)) /\
    (forall fuel, (length l < fuel)%nat ->
       walk (next k) (next k head) fuel head = l /\
       walk (prev k) (prev k head) fuel head = reverse l).
Proof.
  intros Hhd. split.
  - rewrite <- (app_nil_r (reverse _)). apply insert_all_ring; [|apply list.NoDup_seq|].
    + split; [|apply list.NoDup_singleton]. cbn. by rewrite !decide_True.
    + intros b Hb%elem_of_seq. apply not_elem_of_cons. split; [lia|apply not_elem_of_nil].
  - intros k' l Hr. split; [intros b Hb; by apply ring_move|].
    destruct Hr as [Hc [Hh _]%list.NoDup_cons]. intros fuel Hf.
    split; [by apply walk_next|by apply walk_prev].
Qed.

Lemma links_implement_lru_witness :
  ring NBUF (move_to_head NBUF 3 (binit_links NBUF (mklinks (fun _ => 0%nat) (fun _ => 0%nat))))
    (3%nat :: filter (fun x => x <> 3%nat) (reverse (seq 0 NBUF))).
Proof.
  destruct (links_implement_lru NBUF (mklinks (fun _ => 0%nat) (fun _ => 0%nat)) ltac:(done)) as [H1 H2].
  destruct (H2 _ _ H1) as [H3 _]. apply H3, elem_of_reverse, elem_of_seq. unfold NBUF. lia.
Defined.

End Links.

(** ** What the cache promises

    [bc pid hold s]: the cache is consistent, the process with pid [pid] holds
    the buffers [hold] and nobody holds any other.  [view s bn] is the content
    of disk block [bn] as the users of the cache see it, [dirty_at s bn] says
    that it is pinned in the cache because it is newer than the disk. *)
Definition caches (x : buf) (bn : Z) : Prop :=
  x.(b_dev) = 1 /\ x.(b_blockno) = bn /\ valid x = true.
#[export] Instance caches_dec x bn : Decision (caches x bn).
Proof. unfold caches. apply _. Defined.

Definition view (s : kernel) (bn : Z) : list Z :=
  match list_find (fun x => caches x bn) s.(k_bufs) with
  | Some (_, x) => x.(b_data)
  | None => s.(k_disk) bn
  end.

Definition dirty_at (s : kernel) (bn : Z) : Prop :=
  exists b x, s.(k_bufs) !! b = Some x /\ caches x bn /\ dirty x = true.

Record bc (pid : Z) (hold : gset nat) (s : kernel) : Prop := {
  bc_len : length s.(k_bufs) = NBUF;
  bc_lru : s.(k_lru) ≡ₚ seq 0 NBUF;
  bc_uniq b b' x x' :
    s.(k_bufs) !! b = Some x -> s.(k_bufs) !! b' = Some x' -> x.(b_dev) = 1 -> x'.(b_dev) = 1 ->
    x.(b_blockno) = x'.(b_blockno) -> b = b';
  bc_flags b x :
    s.(k_bufs) !! b = Some x ->
    flags_ok x /\ (valid x = true -> x.(b_dev) = 1 /\ x.(b_blockno) < s.(k_disksize));
  bc_free b x :
    s.(k_bufs) !! b = Some x -> b ∉ hold ->
    x.(b_refcnt) = 0 /\ (slock_of (SlBuf b) s).(sl_locked) = 0 /\
    (valid x = true -> dirty x = false -> x.(b_data) = s.(k_disk) x.(b_blockno));
  bc_held b :
    b ∈ hold ->
    exists x, s.(k_bufs) !! b = Some x /\ x.(b_refcnt) = 1 /\ valid x = true /\
      slock_of (SlBuf b) s = mksleeplock 1 pid
}.

(** A step that changes nothing but the cache. *)
Definition cache_step (s s' : kernel) : Prop :=
  (exists bs lru sl, calm (s<|k_bufs := bs|><|k_lru := lru|><|k_slocks := sl|>) s') /\
  (forall l, (forall b, l <> SlBuf b) -> slock_of l s' = slock_of l s).

Lemma view_cached pid hold s b x bn :
  bc pid hold s -> s.(k_bufs) !! b = Some x -> caches x bn -> view s bn = x.(b_data).
Proof.
  intros Hbc Hx Hc. unfold view. destruct (list_find _ _) as [[b' x']|] eqn:E.
  - apply list_find_Some in E as (Hx' & Hc' & _). unfold caches in Hc, Hc'.
    rewrite (bc_uniq _ _ _ Hbc b b' x x') in Hx by naive_solver. naive_solver.
  - rewrite list_find_None in E. exfalso.
    exact (Forall_lookup_1 _ _ _ _ E Hx Hc).
Qed.

Lemma view_uncached s bn :
  (forall b x, s.(k_bufs) !! b = Some x -> ~ caches x bn) -> view s bn = s.(k_disk) bn.
Proof.
  intros H. unfold view. destruct (list_find _ _) as [[b' x']|] eqn:E; [|done].
  apply list_find_Some in E as (Hx' & Hc' & _). by apply H in Hx'.
Qed.

(** Either some buffer caches the block, or none does. *)
Lemma cached_or_not s bn :
  (exists b x, s.(k_bufs) !! b = Some x /\ caches x bn) \/
  (forall b x, s.(k_bufs) !! b = Some x -> ~ caches x bn).
Proof.
  destruct (list_find (fun x => caches x bn) (k_bufs s)) as [[b x]|] eqn:E.
  - apply list_find_Some in E as (Hx & Hc & _). left. by exists b, x.
  - right. rewrite list_find_None in E. intros b x Hx.
    exact (Forall_lookup_1 _ _ _ _ E Hx).
Qed.

Lemma flags_clean x : flags_ok x -> valid x = false -> x.(b_flags) = 0.
Proof. unfold flags_ok, valid. intros [->|[-> | ->]]; done. Qed.

(** ** One buffer changes

    All operations replace one entry of [k_bufs]; these lemmas say what the
    replacement does to the cache's contents. *)
Section Replace.
Context (pid : Z) (hold : gset nat) (s s' : kernel) (b : nat) (x z : buf) (bn : Z).
Hypothesis Hbc : bc pid hold s.
Hypothesis Hx : s.(k_bufs) !! b = Some x.
Hypothesis Hbufs : s'.(k_bufs) = <[b := z]> s.(k_bufs).
Hypothesis Hz : caches z bn.
(** No other buffer has the block. *)
Hypothesis Hother : forall b' x', b' <> b -> s.(k_bufs) !! b' = Some x' ->
  x'.(b_dev) = 1 -> x'.(b_blockno) <> bn.

Lemma replaced b' x' :
  s'.(k_bufs) !! b' = Some x' -> b' = b /\ x' = z \/ b' <> b /\ s.(k_bufs) !! b' = Some x'.
Proof.
  rewrite Hbufs. intros H. destruct (decide (b' = b)) as [->|Hne].
  - rewrite list_lookup_insert_eq in H by (by eapply lookup_lt_Some). naive_solver.
  - rewrite list_lookup_insert_ne in H by done. auto.
Qed.

Lemma lookup_replaced : s'.(k_bufs) !! b = Some z.
Proof. rewrite Hbufs. apply list_lookup_insert_eq. by eapply lookup_lt_Some. Qed.

Lemma lookup_kept b' : b' <> b -> s'.(k_bufs) !! b' = s.(k_bufs) !! b'.
Proof. intros. rewrite Hbufs. by apply list_lookup_insert_ne. Qed.

Lemma uniq_replaced b1 b2 x1 x2 :
  s'.(k_bufs) !! b1 = Some x1 -> s'.(k_bufs) !! b2 = Some x2 -> x1.(b_dev) = 1 -> x2.(b_dev) = 1 ->
  x1.(b_blockno) = x2.(b_blockno) -> b1 = b2.
Proof.
  intros [[-> ->]|[H1 H1']]%replaced [[-> ->]|[H2 H2']]%replaced Hd1 Hd2 Hn; try done.
  - destruct Hz as (_ & Hzn & _). exfalso. eapply (Hother b2); [done..|]. congruence.
  - destruct Hz as (_ & Hzn & _). exfalso. eapply (Hother b1); [done..|]. congruence.
  - by eapply (bc_uniq _ _ _ Hbc).
Qed.

Lemma caches_replaced b1 b2 x1 x2 n :
  s'.(k_bufs) !! b1 = Some x1 -> s'.(k_bufs) !! b2 = Some x2 -> caches x1 n -> caches x2 n ->
  b1 = b2 /\ x1 = x2.
Proof.
  intros H1 H2 (Hd1 & Hn1 & _) (Hd2 & Hn2 & _).
  assert (b1 = b2) as -> by (eapply uniq_replaced; [done..|congruence]). naive_solver.
Qed.

Lemma view_new : view s' bn = z.(b_data).
Proof.
  unfold view. destruct (list_find _ _) as [[b' x']|] eqn:E.
  - apply list_find_Some in E as (Hx' & Hc' & _).
    by destruct (caches_replaced _ _ _ _ _ Hx' lookup_replaced Hc' Hz) as [_ ->].
  - rewrite list_find_None in E. exfalso.
    exact (Forall_lookup_1 _ _ _ _ E lookup_replaced Hz).
Qed.

(** Other blocks are seen as before, if the replaced buffer cached either [bn]
    or a clean copy. *)
Lemma view_other bn' :
  bn' <> bn -> s'.(k_disk) bn' = s.(k_disk) bn' ->
  (caches x bn' -> x.(b_data) = s.(k_disk) bn') ->
  view s' bn' = view s bn'.
Proof.
  intros Hne Hdisk Hclean.
  destruct (cached_or_not s' bn') as [(b1 & x1 & H1 & Hc1)|Hno].
  - pose proof H1 as H1'. apply replaced in H1' as [[-> ->]|[Hne1 H1']].
    + exfalso. destruct Hc1 as (_ & Hn1 & _), Hz as (_ & Hn2 & _). congruence.
    + rewrite (view_cached pid hold s b1 x1) by done. unfold view.
      destruct (list_find _ _) as [[b2 x2]|] eqn:E.
      * apply list_find_Some in E as (Hx2 & Hc2 & _).
        by destruct (caches_replaced _ _ _ _ _ Hx2 H1 Hc2 Hc1) as [_ ->].
      * rewrite list_find_None in E. exfalso. exact (Forall_lookup_1 _ _ _ _ E H1 Hc1).
  - rewrite (view_uncached s') by done. rewrite Hdisk.
    destruct (cached_or_not s bn') as [(b1 & x1 & H1 & Hc1)|Hno'].
    + rewrite (view_cached pid hold s b1 x1) by done.
      destruct (decide (b1 = b)) as [->|Hne1]; [naive_solver|].
      exfalso. by apply (Hno b1 x1); [rewrite lookup_kept|].
    + by rewrite (view_uncached s).
Qed.

Lemma dirty_at_replaced bn' :
  (dirty z = true <-> caches x bn /\ dirty x = true) ->
  (forall n, caches x n -> dirty x = true -> n = bn) ->
  dirty_at s' bn' <-> dirty_at s bn'.
Proof.
  intros Hd Hown. split; intros (b1 & x1 & H1 & Hc1 & Hd1).
  - apply replaced in H1 as [[-> ->]|[Hne H1]]; [|by exists b1, x1].
    assert (bn' = bn) as -> by (destruct Hc1 as (_ & <- & _), Hz as (_ & -> & _); done).
    destruct (proj1 Hd Hd1). by exists b, x.
  - destruct (decide (b1 = b)) as [->|Hne]; [|exists b1, x1; by rewrite lookup_kept].
    assert (x1 = x) as -> by congruence. pose proof (Hown _ Hc1 Hd1) as ->.
    exists b, z. split_and!; [apply lookup_replaced|done|by apply Hd].
Qed.

(** The cache stays consistent; [hold'] is the new set of held buffers. *)
Lemma bc_replaced hold' :
  flags_ok z -> bn < s'.(k_disksize) -> s'.(k_disksize) = s.(k_disksize) ->
  s'.(k_lru) ≡ₚ seq 0 NBUF -> (forall n, n <> bn -> s'.(k_disk) n = s.(k_disk) n) ->
  (forall b', b' <> b -> slock_of (SlBuf b') s' = slock_of (SlBuf b') s) ->
  (forall b', b' <> b -> b' ∈ hold' <-> b' ∈ hold) ->
  (b ∉ hold' -> z.(b_refcnt) = 0 /\ (slock_of (SlBuf b) s').(sl_locked) = 0 /\
     (dirty z = false -> z.(b_data) = s'.(k_disk) bn)) ->
  (b ∈ hold' -> z.(b_refcnt) = 1 /\ slock_of (SlBuf b) s' = mksleeplock 1 pid) ->
  bc pid hold' s'.
Proof.
  intros Hfl Hbn Hsz Hlru Hdisk Hsl Hhold Hfree Hheld.
  pose proof Hz as (Hzd & Hzn & Hzv). split.
  - rewrite Hbufs, length_insert. apply (bc_len _ _ _ Hbc).
  - done.
  - exact uniq_replaced.
  - intros b' x' [[-> ->]|[Hne H']]%replaced.
    + split; [done|]. intros _. by rewrite Hzn.
    + rewrite Hsz. by apply (bc_flags _ _ _ Hbc b').
  - intros b' x' [[-> ->]|[Hne H']]%replaced Hb'.
    + destruct (Hfree Hb') as (Hr & Hk & Hd). split_and!; [done..|]. intros _. by rewrite Hzn.
    + rewrite Hsl by done. rewrite (Hhold b' Hne) in Hb'.
      destruct (bc_free _ _ _ Hbc b' x' H' Hb') as (Hr & Hk & Hd). split_and!; [done..|].
      intros Hv Hcl. destruct (bc_flags _ _ _ Hbc b' x' H') as [_ [Hdev _]]; [done|].
      rewrite Hdisk; [by apply Hd|by apply (Hother b')].
  - intros b' Hb'. destruct (decide (b' = b)) as [->|Hne].
    + exists z. split; [apply lookup_replaced|]. destruct (Hheld Hb'). done.
    + apply (Hhold b' Hne), (bc_held _ _ _ Hbc) in Hb' as (x' & Hx' & Hrest).
      exists x'. rewrite Hsl, lookup_kept by done. done.
Qed.
End Replace.

(** ** bread *)
Lemma find_buf_Some f l b : find_buf f l = Some b -> b ∈ l /\ f b = true.
Proof.
  unfold find_buf. intros ([k b'] & H & ->)%fmap_Some. apply list_find_Some in H as (Hl & Hf & _).
  split; [by eapply list_elem_of_lookup_2|done].
Qed.

Lemma find_buf_None f l b : find_buf f l = None -> b ∈ l -> f b = false.
Proof.
  unfold find_buf. intros H%fmap_None Hb. rewrite list_find_None, Forall_lookup in H.
  apply list_elem_of_lookup_1 in Hb as [k Hk]. apply not_true_is_false. by eapply H.
Qed.

Lemma buf_of_lookup b s : (b < length s.(k_bufs))%nat -> s.(k_bufs) !! b = Some (buf_of b s).
Proof. intros H. unfold buf_of. by destruct (lookup_lt_is_Some_2 _ _ H) as [x ->]. Qed.

Lemma elem_of_lru pid hold s b : bc pid hold s -> b ∈ s.(k_lru) <-> (b < length s.(k_bufs))%nat.
Proof. intros Hbc. rewrite (bc_lru _ _ _ Hbc), elem_of_seq, (bc_len _ _ _ Hbc). lia. Qed.

(** No held buffer has block [bn]. *)
Definition not_held (hold : gset nat) (bn : Z) (s : kernel) : Prop :=
  forall b x, b ∈ hold -> s.(k_bufs) !! b = Some x -> x.(b_blockno) <> bn.
(** There is a buffer for block [bn]: its own, or one to recycle. *)
Definition has_room (hold : gset nat) (bn : Z) (s : kernel) : Prop :=
  exists b x, s.(k_bufs) !! b = Some x /\ b ∉ hold /\
    (x.(b_dev) = 1 /\ x.(b_blockno) = bn \/ dirty x = false).

(** How bget and bread replace buffer [b], which was [x], by [z]. *)
Definition recycled (s : kernel) (x : buf) (bn : Z) : Prop :=
  dirty x = false /\ forall b' x', s.(k_bufs) !! b' = Some x' -> x'.(b_dev) = 1 -> x'.(b_blockno) <> bn.
Definition got (s : kernel) (bn : Z) (x y : buf) : Prop :=
  x.(b_dev) = 1 /\ x.(b_blockno) = bn /\ y = x<|b_refcnt := 1|> \/
  recycled s x bn /\
  y = x<|b_dev := 1|><|b_blockno := bn|><|b_flags := 0|><|b_refcnt := 1|>.

Section Bread.
Context {P : Patience} {D : BlockDriver} {SD : SyncDriver D}.
Context (i p : nat) (pid : Z) (hold : gset nat) (s : kernel) (bn : Z).
Hypothesis Ht : thr i p pid ∅ s.
Hypothesis Hbc : bc pid hold s.
Hypothesis Hnh : not_held hold bn s.

(** The end of bget: release the cache's lock, lock the buffer. *)
Lemma bget_lock b x y s1 :
  calm s s1 -> thr i p pid ({[LkBcache]} ∪ ∅) s1 -> s.(k_bufs) !! b = Some x -> b ∉ hold ->
  exists s', (release LkBcache ;;; acquiresleep (SlBuf b) ;;; ret b)%xv6 (s1<|k_bufs ::= <[b := y]>|>)
      = Ret b s' /\
    calm (s<|k_bufs ::= <[b := y]>|><|k_slocks ::= <[SlBuf b := mksleeplock 1 pid]>|>) s' /\
    thr i p pid ∅ s'.
Proof.
  intros Hc1 Ht1 Hx Hb. set (s2 := s1<|k_bufs ::= <[b := y]>|>).
  assert (Ht2 : thr i p pid ({[LkBcache]} ∪ ∅) s2) by tframe Ht1.
  destruct (release_thr _ _ _ _ _ _ Ht2 ltac:(set_solver)) as (s3 & E3 & Hc3 & Ht3). kret_by exact E3.
  destruct (bc_free _ _ _ Hbc b x Hx Hb) as (_ & Hfree & _).
  destruct (acquiresleep_ex i p pid ∅ (SlBuf b) s3 Ht3 ltac:(set_solver)) as (s4 & E4 & Hc4 & Ht4).
  { rewrite (slock_of_calm _ _ _ Hc3). change (slock_of _ s2) with (slock_of (SlBuf b) s1).
    by rewrite (slock_of_calm _ _ _ Hc1). }
  kret_by exact E4. exists s4. split_and!; [done| |done].
  assert (Hc : calm (s<|k_bufs ::= <[b := y]>|>) s3) by (by calm_by Hc1 Hc3).
  by calm_by Hc Hc4.
Qed.

Lemma bget_ex :
  has_room hold bn s ->
  exists b x y s', bget 1 bn s = Ret b s' /\ s.(k_bufs) !! b = Some x /\ b ∉ hold /\ got s bn x y /\
    calm (s<|k_bufs ::= <[b := y]>|><|k_slocks ::= <[SlBuf b := mksleeplock 1 pid]>|>) s' /\
    thr i p pid ∅ s'.
Proof.
  intros (br & xr & Hxr & Hbr & Hroom). unfold bget.
  destruct (acquire_thr _ _ _ _ LkBcache _ Ht ltac:(set_solver)) as (s1 & E1 & Hc1 & Ht1).
  kret_by exact E1. kret. destruct (calm_fields _ _ Hc1) as (Hbufs & Hlru & _).
  assert (Hof : forall b, buf_of b s1 = buf_of b s) by (intros; unfold buf_of; by rewrite Hbufs).
  assert (Hin : forall b, b ∈ k_lru s1 <-> (b < length (k_bufs s))%nat)
    by (intros; rewrite Hlru; by apply (elem_of_lru pid hold)).
  destruct (find_buf (is_block 1 bn s1) (k_lru s1)) as [b|] eqn:Ef.
  - apply find_buf_Some in Ef as [Hb [Hd Hn]%andb_true_iff]. rewrite Hof in Hd, Hn.
    apply Hin, buf_of_lookup in Hb. set (x := buf_of b s) in *.
    assert (b ∉ hold) by (intros Hh; apply (Hnh b x Hh Hb); lia).
    destruct (bc_free _ _ _ Hbc b x Hb ltac:(done)) as (Hrc & _).
    kret. rewrite (upd_buf_set b _ x s1) by (by rewrite Hbufs). rewrite Hrc.
    change (u32 (0 + 1)) with 1.
    destruct (bget_lock b x (x<|b_refcnt := 1|>) s1) as (s' & -> & Hc' & Ht'); [done..|].
    exists b, x, (x<|b_refcnt := 1|>), s'. split_and!; try done. left. split_and!; [lia..|done].
  - assert (Hno : forall b' x', k_bufs s !! b' = Some x' -> b_dev x' = 1 -> b_blockno x' <> bn).
    { intros b' x' Hx' Hd' Hn'. pose proof (find_buf_None _ _ b' Ef) as Hf. unfold is_block in Hf.
      rewrite Hof in Hf. unfold buf_of in Hf. rewrite Hx' in Hf. cbn in Hf.
      rewrite Hd', Hn', !Z.eqb_refl in Hf. cbn in Hf.
      enough (true = false) by done. apply Hf, Hin. by eapply lookup_lt_Some. }
    destruct Hroom as [[Hd Hn]|Hclean]; [by exfalso; eapply Hno|].
    destruct (find_buf (recyclable s1) (reverse (k_lru s1))) as [b|] eqn:Er.
    + apply find_buf_Some in Er as [Hb [Hrc Hdirty]%andb_true_iff].
      rewrite elem_of_reverse in Hb.
      rewrite Hof in Hrc, Hdirty. apply Hin, buf_of_lookup in Hb. set (x := buf_of b s) in *.
      assert (b ∉ hold).
      { intros Hh. destruct (bc_held _ _ _ Hbc b Hh) as (x0 & Hx0 & Hrc0 & _).
        assert (x0 = x) as -> by congruence. lia. }
      kret. rewrite (upd_buf_set b _ x s1) by (by rewrite Hbufs).
      edestruct (bget_lock b x) as (s' & -> & Hc' & Ht'); [done..|].
      eexists b, x, _, s'. split_and!; try done. right. split; [|done].
      split; [by apply negb_true_iff|done].
    + exfalso. pose proof (find_buf_None _ _ br Er) as Hf. unfold recyclable in Hf.
      rewrite Hof in Hf. unfold buf_of in Hf. rewrite Hxr in Hf. cbn in Hf.
      destruct (bc_free _ _ _ Hbc br xr Hxr Hbr) as (Hrc & _). rewrite Hrc, Hclean in Hf. cbn in Hf.
      enough (true = false) by done. apply Hf, elem_of_reverse, Hin. by eapply lookup_lt_Some.
Qed.

Lemma read_buf (y : buf) (d : list Z) :
  y.(b_dev) = 1 -> y.(b_blockno) = bn -> y.(b_refcnt) = 1 ->
  y<|b_flags := B_VALID|><|b_data := d|> = mkbuf B_VALID 1 bn 1 d.
Proof. destruct y. cbn. by intros -> -> ->. Qed.

(** What bread leaves in buffer [b]: its cached copy, or the block from the disk. *)
Definition filled (b : nat) (x z : buf) : Prop :=
  caches x bn /\ z = x<|b_refcnt := 1|> \/
  dirty x = false /\
  (forall b' x', b' <> b -> s.(k_bufs) !! b' = Some x' -> x'.(b_dev) = 1 -> x'.(b_blockno) <> bn) /\
  z = mkbuf B_VALID 1 bn 1 (s.(k_disk) bn).

Lemma bread_fills :
  has_room hold bn s -> bn < s.(k_disksize) ->
  exists b x z s', bread 1 bn s = Ret b s' /\ s.(k_bufs) !! b = Some x /\ b ∉ hold /\ filled b x z /\
    calm (s<|k_bufs ::= <[b := z]>|><|k_slocks ::= <[SlBuf b := mksleeplock 1 pid]>|>) s' /\
    thr i p pid ∅ s'.
Proof.
  intros Hroom Hbn. unfold bread.
  destruct (bget_ex Hroom) as (b & x & y & s1 & E1 & Hx & Hb & Hgot & Hc1 & Ht1). kret_by exact E1. kret.
  pose proof (lookup_lt_Some _ _ _ Hx) as Hlt.
  destruct (calm_fields _ _ Hc1) as (Hbufs & _ & Hdisk & Hsz & Hsl). cbn in Hbufs, Hdisk, Hsz, Hsl.
  assert (Hy : k_bufs s1 !! b = Some y) by (rewrite Hbufs; by apply list_lookup_insert_eq).
  assert (Hother : forall b' x', b' <> b -> k_bufs s !! b' = Some x' -> b_dev x' = 1 -> b_blockno x' <> bn).
  { intros b' x' Hne Hx' Hd' Hn'. destruct Hgot as [(Hd & Hn & _)|[[_ Hno] _]]; [|by eapply Hno].
    apply Hne. eapply (bc_uniq _ _ _ Hbc); [done..|congruence]. }
  replace (buf_of b s1) with y by (unfold buf_of; by rewrite Hy).
  destruct (valid y) eqn:Hv; cbn [negb].
  - kret. exists b, x, y, s1. split_and!; try done. left.
    destruct Hgot as [(Hd & Hn & ->)|[_ ->]]; [by split|by cbv in Hv].
  - destruct (bc_flags _ _ _ Hbc b x Hx) as [Hfl _].
    assert (Hy0 : b_flags y = 0 /\ b_dev y = 1 /\ b_blockno y = bn /\ b_refcnt y = 1 /\ dirty x = false).
    { destruct Hgot as [(Hd & Hn & ->)|[[Hdx _] ->]]; [|done].
      pose proof (flags_clean x Hfl Hv) as Hf. unfold dirty. cbn. by rewrite Hf. }
    destruct Hy0 as (Hf & Hd & Hn & Hr & Hdx).
    destruct (iderw_read i p pid s1 b y) as (s2 & E2 & Hc2 & Ht2); try done.
    { unfold slock_of. rewrite Hsl. by rewrite lookup_insert_eq. }
    { by rewrite Hn, Hsz. }
    kret_by exact E2. eexists b, x, _, s2. split_and!; [done..|right; by split_and!| |done].
    rewrite Hdisk, Hn, read_buf in Hc2 by done.
    transitivity (s1<|k_bufs ::= <[b := mkbuf B_VALID 1 bn 1 (k_disk s bn)]>|>); [|done].
    destruct Hc1 as (b1 & cs & lks & ps & Hw & ->). exists b1, cs, lks, ps. split; [done|].
    unfold setf at 1 6 7, set_k_bufs; cbn. by rewrite list_insert_insert_eq.
Qed.
End Bread.

(** ** The laws *)
Definition same_blocks (s s' : kernel) : Prop :=
  (forall n, view s' n = view s n) /\ (forall n, dirty_at s' n <-> dirty_at s n).

(** The process holds buffer [b], which has block [bn] with contents [d]. *)
Definition holds_block (b : nat) (bn : Z) (d : list Z) (s : kernel) : Prop :=
  exists z, s.(k_bufs) !! b = Some z /\ caches z bn /\ z.(b_data) = d.

Class CacheLaws (P : Patience) (D : BlockDriver) : Prop := {
  bread_law i p pid hold s bn :
    thr i p pid ∅ s -> bc pid hold s -> not_held hold bn s -> has_room hold bn s ->
    bn < s.(k_disksize) ->
    exists b s', bread 1 bn s = Ret b s' /\ thr i p pid ∅ s' /\
      b ∉ hold /\ bc pid ({[b]} ∪ hold) s' /\ holds_block b bn (view s bn) s' /\
      (forall b', b' ∈ hold -> s'.(k_bufs) !! b' = s.(k_bufs) !! b') /\
      same_blocks s s' /\ cache_step s s';
  bwrite_law i p pid hold s b bn d :
    thr i p pid ∅ s -> bc pid hold s -> b ∈ hold -> holds_block b bn d s ->
    exists s', bwrite b s = Ret tt s' /\ thr i p pid ∅ s' /\ bc pid hold s' /\
      holds_block b bn d s' /\
      (forall b', b' <> b -> s'.(k_bufs) !! b' = s.(k_bufs) !! b') /\
      (forall n, view s' n = view s n) /\ (forall n, dirty_at s' n <-> dirty_at s n /\ n <> bn) /\
      cache_step (disk_write bn d s) s';
  brelse_law i p pid hold s b bn d :
    thr i p pid ∅ s -> bc pid hold s -> b ∈ hold -> holds_block b bn d s ->
    dirty_at s bn \/ d = s.(k_disk) bn ->
    exists s', brelse b s = Ret tt s' /\ thr i p pid ∅ s' /\ bc pid (hold ∖ {[b]}) s' /\
      (forall b', b' <> b -> s'.(k_bufs) !! b' = s.(k_bufs) !! b') /\
      same_blocks s s' /\ cache_step s s'
}.

Lemma cache_step_of s s' bs lru b k :
  calm (s<|k_bufs := bs|><|k_lru := lru|><|k_slocks ::= <[SlBuf b := k]>|>) s' -> cache_step s s'.
Proof.
  intros Hc. split; [by eexists _, _, _|].
  intros l Hl. rewrite (slock_of_calm _ _ _ Hc). unfold slock_of. cbn.
  rewrite lookup_insert_ne; [done|]. intros <-. by apply (Hl b).
Qed.

Section Laws.
Context {P : Patience} {D : BlockDriver} {SD : SyncDriver D}.

Lemma filled_facts pid hold s b x z bn :
  bc pid hold s -> s.(k_bufs) !! b = Some x -> b ∉ hold -> filled s bn b x z ->
  caches z bn /\ flags_ok z /\ z.(b_refcnt) = 1 /\
  (forall b' x', b' <> b -> s.(k_bufs) !! b' = Some x' -> x'.(b_dev) = 1 -> x'.(b_blockno) <> bn) /\
  (dirty z = true <-> caches x bn /\ dirty x = true) /\
  (forall n, caches x n -> dirty x = true -> n = bn) /\
  (forall n, n <> bn -> caches x n -> x.(b_data) = s.(k_disk) n) /\ z.(b_data) = view s bn.
Proof.
  intros Hbc Hx Hb Hf. destruct (bc_flags _ _ _ Hbc b x Hx) as [Hfl _].
  destruct (bc_free _ _ _ Hbc b x Hx Hb) as (_ & _ & Hcl).
  destruct Hf as [[Hc ->]|(Hd & Hother & ->)].
  - pose proof Hc as (Hd & Hn & Hv). split_and!; try done.
    + intros b' x' Hne Hx' Hd' Hn'. apply Hne.
      eapply (bc_uniq _ _ _ Hbc); [done..|congruence].
    + naive_solver.
    + intros n (_ & Hn' & _) _. congruence.
    + intros n Hne (_ & Hn' & _). congruence.
    + symmetry. exact (view_cached pid hold s b x bn Hbc Hx Hc).
  - split_and!; try done.
    + right. by left.
    + rewrite Hd. naive_solver.
    + rewrite Hd. done.
    + intros n Hne (_ & Hn & Hv). rewrite <- Hn. by apply Hcl.
    + cbn. destruct (cached_or_not s bn) as [(b1 & x1 & Hx1 & Hc1)|Hno].
      * assert (b1 = b) as -> by (apply dec_stable; intros Hne; destruct Hc1 as (H1 & H2 & _); exact (Hother _ _ Hne Hx1 H1 H2)).
        assert (x1 = x) as -> by congruence. rewrite (view_cached pid hold s b x) by done.
        destruct Hc1 as (_ & Hn & Hv). symmetry. rewrite <- Hn. by apply Hcl.
      * by rewrite view_uncached.
Qed.

Lemma bread_ok i p pid hold s bn :
  thr i p pid ∅ s -> bc pid hold s -> not_held hold bn s -> has_room hold bn s ->
  bn < s.(k_disksize) ->
  exists b s', bread 1 bn s = Ret b s' /\ thr i p pid ∅ s' /\
    b ∉ hold /\ bc pid ({[b]} ∪ hold) s' /\ holds_block b bn (view s bn) s' /\
    (forall b', b' ∈ hold -> s'.(k_bufs) !! b' = s.(k_bufs) !! b') /\
    same_blocks s s' /\ cache_step s s'.
Proof.
  intros Ht Hbc Hnh Hroom Hbn.
  destruct (bread_fills i p pid hold s bn Ht Hbc Hnh Hroom Hbn)
    as (b & x & z & s' & E & Hx & Hb & Hfill & Hc & Ht').
  destruct (filled_facts pid hold s b x z bn Hbc Hx Hb Hfill)
    as (Hz & Hfl & Hrc & Hother & Hdz & Hown & Hclean & Hdata).
  destruct (calm_fields _ _ Hc) as (Hbufs & Hlru & Hdisk & Hsz & Hsl).
  cbn in Hbufs, Hlru, Hdisk, Hsz, Hsl.
  exists b, s'. split_and!; try done.
  - apply (bc_replaced pid hold s s' b x z bn Hbc Hx Hbufs Hz Hother); rewrite ?Hsz, ?Hdisk; try done.
    + rewrite Hlru. apply (bc_lru _ _ _ Hbc).
    + intros b' Hne. unfold slock_of. by rewrite Hsl, lookup_insert_ne by congruence.
    + set_solver.
    + set_solver.
    + intros _. split; [done|]. unfold slock_of. by rewrite Hsl, lookup_insert_eq.
  - exists z. by split_and!; [apply (lookup_replaced s s' b x z)|..].
  - intros b' Hb'. apply (lookup_kept s s' b z Hbufs). set_solver.
  - split.
    + intros n. destruct (decide (n = bn)) as [->|Hne].
      * by rewrite (view_new pid hold s s' b x z bn).
      * apply (view_other pid hold s s' b x z bn); try done. by rewrite Hdisk. by apply Hclean.
    + intros n. by apply (dirty_at_replaced s s' b x z bn).
  - eapply (cache_step_of s s' (<[b := z]> (k_bufs s)) (k_lru s) b). exact Hc.
Qed.

(** The checks on a held buffer. *)
Lemma held_facts pid hold s b bn d :
  bc pid hold s -> b ∈ hold -> holds_block b bn d s ->
  exists x, s.(k_bufs) !! b = Some x /\ caches x bn /\ x.(b_data) = d /\ flags_ok x /\
    x.(b_refcnt) = 1 /\ bn < s.(k_disksize) /\ slock_of (SlBuf b) s = mksleeplock 1 pid /\
    (forall b' x', b' <> b -> s.(k_bufs) !! b' = Some x' -> x'.(b_dev) = 1 -> x'.(b_blockno) <> bn).
Proof.
  intros Hbc Hb (x & Hx & Hc & Hd). pose proof Hc as (Hdev & Hn & Hv).
  destruct (bc_held _ _ _ Hbc b Hb) as (x' & Hx' & Hr & _ & Hsl). assert (x' = x) as -> by congruence.
  destruct (bc_flags _ _ _ Hbc b x Hx) as [Hfl [_ Hbn]]; [done|].
  exists x. split_and!; try done; [by rewrite <- Hn|].
  intros b' x' Hne Hx'' Hd' Hn'. apply Hne. eapply (bc_uniq _ _ _ Hbc); [done..|congruence].
Qed.

Lemma holdingsleep_held i p pid s b :
  thr i p pid ∅ s -> slock_of (SlBuf b) s = mksleeplock 1 pid ->
  exists s', holdingsleep (SlBuf b) s = Ret true s' /\ calm s s' /\ thr i p pid ∅ s'.
Proof.
  intros Ht Hsl. destruct (holdingsleep_ex i p pid ∅ (SlBuf b) s Ht ltac:(set_solver)) as (s1 & E & Hc & Ht1).
  rewrite Hsl in E. cbn in E. rewrite Z.eqb_refl in E. by exists s1.
Qed.

Lemma bwrite_writes i p pid s b x :
  thr i p pid ∅ s -> s.(k_bufs) !! b = Some x -> flags_ok x -> valid x = true ->
  slock_of (SlBuf b) s = mksleeplock 1 pid -> x.(b_dev) = 1 -> x.(b_blockno) < s.(k_disksize) ->
  exists s', bwrite b s = Ret tt s' /\ thr i p pid ∅ s' /\
    calm (disk_write x.(b_blockno) x.(b_data) (s<|k_bufs ::= <[b := x<|b_flags := B_VALID|>]>|>)) s'.
Proof.
  intros Ht Hx Hfl Hv Hsl Hdev Hbn. unfold bwrite.
  destruct (holdingsleep_held _ _ _ _ _ Ht Hsl) as (s1 & E1 & Hc1 & Ht1). kret_by exact E1.
  cbn [negb]. kret. destruct (calm_fields _ _ Hc1) as (Hb1 & _ & _ & Hsz1 & Hsl1).
  rewrite (upd_buf_set b _ x s1) by (by rewrite Hb1).
  set (y := x<|b_flags := Z.lor (b_flags x) B_DIRTY|>). set (s2 := s1<|k_bufs ::= <[b := y]>|>).
  pose proof (lookup_lt_Some _ _ _ Hx) as Hlt.
  destruct (iderw_write i p pid s2 b y) as (s' & E & Hc' & Ht').
  { tframe Ht1. }
  { unfold slock_of. change (k_slocks s2) with (k_slocks s1). rewrite Hsl1. exact Hsl. }
  { unfold s2. cbn. rewrite Hb1. by apply list_lookup_insert_eq. }
  { unfold y. cbn. destruct Hfl as [Hf|[-> | ->]]; [|done..]. unfold valid in Hv. by rewrite Hf in Hv. }
  { done. }
  { change (b_blockno x < k_disksize s1). by rewrite Hsz1. }
  exists s'. split_and!; [done..|]. etransitivity; [|exact Hc'].
  destruct Hc1 as (b1 & cs & lks & ps & Hw & ->). exists b1, cs, lks, ps. split; [done|].
  unfold s2, disk_write, setf at 3 7 8, set_k_bufs; cbn. by rewrite list_insert_insert_eq.
Qed.

Lemma bwrite_ok i p pid hold s b bn d :
  thr i p pid ∅ s -> bc pid hold s -> b ∈ hold -> holds_block b bn d s ->
  exists s', bwrite b s = Ret tt s' /\ thr i p pid ∅ s' /\ bc pid hold s' /\
    holds_block b bn d s' /\
    (forall b', b' <> b -> s'.(k_bufs) !! b' = s.(k_bufs) !! b') /\
    (forall n, view s' n = view s n) /\ (forall n, dirty_at s' n <-> dirty_at s n /\ n <> bn) /\
    cache_step (disk_write bn d s) s'.
Proof.
  intros Ht Hbc Hb Hh.
  destruct (held_facts _ _ _ _ _ _ Hbc Hb Hh) as (x & Hx & Hc & Hd & Hfl & Hr & Hbn & Hsl & Hother).
  pose proof Hc as (Hdev & Hn & Hv).
  destruct (bwrite_writes i p pid s b x) as (s' & E & Ht' & Hc'); [done..|by rewrite Hn|].
  rewrite Hn, Hd in Hc'. set (z := x<|b_flags := B_VALID|>) in Hc'.
  destruct (calm_fields _ _ Hc') as (Hbufs & Hlru & Hdisk & Hsz & Hsl').
  cbn in Hbufs, Hlru, Hdisk, Hsz, Hsl'.
  assert (Hz : caches z bn) by done.
  assert (Hlk : forall l, slock_of l s' = slock_of l s) by (intros l; unfold slock_of; by rewrite Hsl').
  assert (Hdk : forall n, n <> bn -> k_disk s' n = k_disk s n).
  { intros n Hne. rewrite Hdisk. unfold block_upd. by replace (n =? bn) with false by lia. }
  exists s'. split_and!; try done.
  - apply (bc_replaced pid hold s s' b x z bn Hbc Hx Hbufs Hz Hother); try done.
    + by right; left.
    + by rewrite Hsz.
    + rewrite Hlru. apply (bc_lru _ _ _ Hbc).
    + intros _. by rewrite Hlk.
  - exists z. split_and!; [by apply (lookup_replaced s s' b x z)|done|done].
  - intros b' Hne. by apply (lookup_kept s s' b z).
  - intros n. destruct (decide (n = bn)) as [->|Hne].
    + rewrite (view_new pid hold s s' b x z bn), (view_cached pid hold s b x) by done. done.
    + apply (view_other pid hold s s' b x z bn); try done; [by apply Hdk|].
      intros (_ & Hn' & _). congruence.
  - intros n. split.
    + intros (b1 & x1 & Hx1 & Hc1 & Hd1).
      apply (replaced s s' b x z bn Hx Hbufs Hz) in Hx1 as [[-> ->]|[Hne Hx1]]; [done|].
      split; [by exists b1, x1|]. intros ->. destruct Hc1 as (H1 & H2 & _). by apply (Hother b1 x1).
    + intros [(b1 & x1 & Hx1 & Hc1 & Hd1) Hne]. exists b1, x1. split_and!; [|done..].
      rewrite (lookup_kept s s' b z); [done|done|]. intros ->. assert (x1 = x) as -> by congruence.
      destruct Hc1 as (_ & H2 & _). congruence.
  - split; [|intros l _; apply Hlk].
    exists (<[b := z]> (k_bufs s)), (k_lru s), (k_slocks s). exact Hc'.
Qed.

(** ** brelse *)
Lemma to_front_perm b l n :
  l ≡ₚ seq 0 n -> (b < n)%nat -> to_front b l ≡ₚ seq 0 n.
Proof.
  intros Hl Hb. unfold to_front. rewrite Hl.
  apply NoDup_Permutation.
  - apply list.NoDup_cons. split; [rewrite list_elem_of_filter; naive_solver|].
    apply list.NoDup_filter, list.NoDup_seq.
  - apply list.NoDup_seq.
  - intros c. rewrite elem_of_cons, list_elem_of_filter, elem_of_seq.
    destruct (decide (c = b)); naive_solver lia.
Qed.

Lemma brelse_releases i p pid s b x :
  thr i p pid ∅ s -> s.(k_bufs) !! b = Some x -> slock_of (SlBuf b) s = mksleeplock 1 pid ->
  x.(b_refcnt) = 1 ->
  exists s', brelse b s = Ret tt s' /\ thr i p pid ∅ s' /\
    calm (s<|k_bufs ::= <[b := x<|b_refcnt := 0|>]>|><|k_lru ::= to_front b|>
           <|k_slocks ::= <[SlBuf b := mksleeplock 0 0]>|>) s'.
Proof.
  intros Ht Hx Hsl Hr. unfold brelse. pose proof (lookup_lt_Some _ _ _ Hx) as Hlt.
  destruct (holdingsleep_held _ _ _ _ _ Ht Hsl) as (s1 & E1 & Hc1 & Ht1). kret_by exact E1. cbn [negb].
  destruct (releasesleep_ex i p pid ∅ (SlBuf b) s1 Ht1) as (s2 & E2 & Hc2 & Ht2); [set_solver..|].
  kret_by exact E2.
  destruct (acquire_thr _ _ _ _ LkBcache _ Ht2 ltac:(set_solver)) as (s3 & E3 & Hc3 & Ht3).
  kret_by exact E3. kret.
  assert (Hc : calm (s<|k_slocks ::= <[SlBuf b := mksleeplock 0 0]>|>) s3).
  { transitivity s2; [|done]. by calm_by Hc1 Hc2. }
  destruct (calm_fields _ _ Hc) as (Hb3 & _). cbn in Hb3.
  rewrite (upd_buf_set b _ x s3) by (by rewrite Hb3). rewrite Hr. change (u32 (1 - 1)) with 0.
  kret. unfold buf_of. cbn [k_bufs setf]. unfold setf at 1, set_k_bufs; cbn.
  rewrite Hb3, list_lookup_insert_eq by done. cbn. kret.
  match goal with |- context [release LkBcache ?st] => set (s4 := st) end.
  assert (Ht4 : thr i p pid ({[LkBcache]} ∪ ∅) s4) by tframe Ht3.
  destruct (release_thr _ _ _ _ _ _ Ht4 ltac:(set_solver)) as (s5 & E5 & Hc5 & Ht5).
  exists s5. split_and!; [done..|]. transitivity s4; [|done]. unfold s4.
  destruct Hc as (b1 & cs & lks & ps & Hw & ->). by exists b1, cs, lks, ps.
Qed.

Lemma brelse_ok i p pid hold s b bn d :
  thr i p pid ∅ s -> bc pid hold s -> b ∈ hold -> holds_block b bn d s ->
  dirty_at s bn \/ d = s.(k_disk) bn ->
  exists s', brelse b s = Ret tt s' /\ thr i p pid ∅ s' /\ bc pid (hold ∖ {[b]}) s' /\
    (forall b', b' <> b -> s'.(k_bufs) !! b' = s.(k_bufs) !! b') /\
    same_blocks s s' /\ cache_step s s'.
Proof.
  intros Ht Hbc Hb Hh Hsync.
  destruct (held_facts _ _ _ _ _ _ Hbc Hb Hh) as (x & Hx & Hc & Hd & Hfl & Hr & Hbn & Hsl & Hother).
  pose proof Hc as (Hdev & Hn & Hv).
  destruct (brelse_releases i p pid s b x) as (s' & E & Ht' & Hc'); [done..|].
  set (z := x<|b_refcnt := 0|>) in Hc'. assert (Hz : caches z bn) by done.
  destruct (calm_fields _ _ Hc') as (Hbufs & Hlru & Hdisk & Hsz & Hsl').
  cbn in Hbufs, Hlru, Hdisk, Hsz, Hsl'.
  exists s'. split_and!; try done.
  - apply (bc_replaced pid hold s s' b x z bn Hbc Hx Hbufs Hz Hother); rewrite ?Hdisk; try done.
    + by rewrite Hsz.
    + rewrite Hlru. apply to_front_perm; [apply (bc_lru _ _ _ Hbc)|].
      rewrite <- (bc_len _ _ _ Hbc). by eapply lookup_lt_Some.
    + intros b' Hne. unfold slock_of. by rewrite Hsl', lookup_insert_ne by congruence.
    + set_solver.
    + intros _. split_and!; [done| |].
      * unfold slock_of. by rewrite Hsl', lookup_insert_eq.
      * intros Hcl. destruct Hsync as [(b1 & x1 & Hx1 & Hc1 & Hd1)|Hsync]; [|by rewrite <- Hsync].
        assert (b1 = b) as ->.
        { apply dec_stable. intros Hne. destruct Hc1 as (H1 & H2 & _). by apply (Hother b1 x1). }
        assert (x1 = x) as -> by congruence. change (dirty z) with (dirty x) in Hcl. congruence.
    + set_solver.
  - intros b' Hne. by apply (lookup_kept s s' b z).
  - split.
    + intros n. destruct (decide (n = bn)) as [->|Hne].
      * rewrite (view_new pid hold s s' b x z bn), (view_cached pid hold s b x) by done. done.
      * apply (view_other pid hold s s' b x z bn); try done; [by rewrite Hdisk|].
        intros (_ & Hn' & _). congruence.
    + intros n. apply (dirty_at_replaced s s' b x z bn); try done; [naive_solver|].
      intros m (_ & Hm & _) _. congruence.
  - by eapply (cache_step_of s s' (<[b := z]> (k_bufs s)) (to_front b (k_lru s)) b).
Qed.

#[export] Instance sync_cache : CacheLaws P D.
Proof. split; [exact bread_ok|exact bwrite_ok|exact brelse_ok]. Qed.
End Laws.

(** ** Using the cache *)

(** A holder changes the contents of its buffer. *)
Definition set_data (b : nat) (d : list Z) : K unit := modify (upd_buf b (fun x => x<|b_data := d|>)).

Lemma set_data_ok pid hold s b bn d d' :
  bc pid hold s -> b ∈ hold -> holds_block b bn d s ->
  let s' := upd_buf b (fun x => x<|b_data := d'|>) s in
  bc pid hold s' /\ holds_block b bn d' s' /\
  (forall b', b' <> b -> s'.(k_bufs) !! b' = s.(k_bufs) !! b') /\
  (forall n, view s' n = if n =? bn then d' else view s n) /\
  (forall n, dirty_at s' n <-> dirty_at s n).
Proof.
  intros Hbc Hb Hh s'.
  destruct (held_facts _ _ _ _ _ _ Hbc Hb Hh) as (x & Hx & Hc & Hd & Hfl & Hr & Hbn & Hsl & Hother).
  pose proof Hc as (Hdev & Hn & Hv).
  set (z := x<|b_data := d'|>). assert (Hz : caches z bn) by done.
  assert (Hbufs : k_bufs s' = <[b := z]> (k_bufs s)) by (by apply alter_insert).
  split_and!.
  - apply (bc_replaced pid hold s s' b x z bn Hbc Hx Hbufs Hz Hother); try done.
    apply (bc_lru _ _ _ Hbc).
  - exists z. split_and!; [by apply (lookup_replaced s s' b x z)|done|done].
  - intros b' Hne. by apply (lookup_kept s s' b z).
  - intros n. destruct (Z.eqb_spec n bn) as [->|Hne].
    + by rewrite (view_new pid hold s s' b x z bn).
    + apply (view_other pid hold s s' b x z bn); try done. intros (_ & Hn' & _). congruence.
  - intros n. apply (dirty_at_replaced s s' b x z bn); try done; [naive_solver|].
    intros m (_ & Hm & _) _. congruence.
Qed.

Lemma dirty_caches pid hold s b x :
  bc pid hold s -> s.(k_bufs) !! b = Some x -> dirty x = true -> caches x (b_blockno x).
Proof.
  intros Hbc Hx Hd. destruct (bc_flags _ _ _ Hbc b _ Hx) as [Hfl Hv].
  assert (Hval : valid x = true).
  { apply not_false_iff_true. intros Hf. apply flags_clean in Hf; [|done].
    unfold dirty in Hd. by rewrite Hf in Hd. }
  split_and!; [by apply Hv|done|done].
Qed.

(** Distinct dirty buffers cache distinct dirty blocks. *)
Lemma dirty_count pid hold s (bs : list nat) ds :
  bc pid hold s -> NoDup bs ->
  (forall b, b ∈ bs -> exists x, s.(k_bufs) !! b = Some x /\ dirty x = true) ->
  (forall n, dirty_at s n -> n ∈ ds) -> (length bs <= length ds)%nat.
Proof.
  intros Hbc Hnd Hbs Hds. rewrite <- (length_fmap (fun b => b_blockno (buf_of b s)) bs).
  apply submseteq_length, NoDup_submseteq.
  - apply NoDup_fmap_2_strong; [|done]. intros b b' Hb Hb' Heq.
    destruct (Hbs b Hb) as (x & Hx & Hd), (Hbs b' Hb') as (x' & Hx' & Hd').
    unfold buf_of in Heq. rewrite Hx, Hx' in Heq.
    apply (bc_uniq _ _ _ Hbc b b' x x'); try done; eapply dirty_caches; done.
  - intros n (b & -> & Hb)%list_elem_of_fmap. apply Hds. destruct (Hbs b Hb) as (x & Hx & Hd).
    exists b, x. unfold buf_of. rewrite Hx. split_and!; [done| |done]. by eapply dirty_caches.
Qed.

(** The dirty blocks are among the list [ds] and there are fewer of them than
    buffers nobody holds: then any block can be read. *)
Lemma room_for pid hold s bn ds :
  bc pid hold s -> (forall n, dirty_at s n -> n ∈ ds) ->
  (length ds + size hold < NBUF)%nat -> has_room hold bn s.
Proof.
  intros Hbc Hds Hlen. unfold has_room.
  assert (Hlk : forall b, b ∈ seq 0 NBUF -> k_bufs s !! b = Some (buf_of b s)).
  { intros b Hb%elem_of_seq. apply buf_of_lookup. rewrite (bc_len _ _ _ Hbc). lia. }
  destruct (decide (Exists (fun b => b ∉ hold /\ dirty (buf_of b s) = false) (seq 0 NBUF))) as [He|He].
  - apply Exists_exists in He as (b & Hb & Hh & Hd). apply list_elem_of_In in Hb.
    exists b, (buf_of b s). split_and!; [by apply Hlk|done|by right].
  - exfalso. apply not_Exists_Forall in He; [|apply _]. rewrite Forall_forall in He.
    set (D := filter (fun b => b ∉ hold) (seq 0 NBUF)).
    assert (length D <= length ds)%nat.
    { apply (dirty_count pid hold s); [done|apply list.NoDup_filter, list.NoDup_seq| |done].
      intros b [Hb Hin]%list_elem_of_filter. exists (buf_of b s). split; [by apply Hlk|].
      apply not_false_iff_true. intros Hd. apply (He b); [by apply list_elem_of_In|done]. }
    assert (NBUF <= length D + size hold)%nat; [|lia].
    change (NBUF <= length D + length (elements hold))%nat.
    rewrite <- (length_app D), <- (length_seq NBUF 0) at 1.
    apply submseteq_length, NoDup_submseteq; [apply list.NoDup_seq|].
    intros b Hb. apply elem_of_app.
    destruct (decide (b ∈ hold)); [right; by apply elem_of_elements|left; by apply list_elem_of_filter].
Qed.

Lemma cache_step_fields s s' :
  cache_step s s' ->
  s'.(k_disk) = s.(k_disk) /\ s'.(k_disksize) = s.(k_disksize) /\ s'.(k_writes) = s.(k_writes) /\
  s'.(k_log) = s.(k_log).
Proof. by intros [(bs & lru & sl & b & cs & lks & ps & _ & ->) _]. Qed.

(** Read a block, replace its contents, write it through and release it. *)
Definition update_block `{!Patience, !BlockDriver} (bn : Z) (d : list Z) : K unit :=
  let! b := bread 1 bn in
  set_data b d ;;;
  bwrite b ;;;
  brelse b.
Definition read_block `{!Patience, !BlockDriver} (bn : Z) : K (list Z) :=
  let! b := bread 1 bn in
  let! s := get in
  brelse b ;;;
  ret (buf_of b s).(b_data).

Lemma no_dirty_room pid s bn : bc pid ∅ s -> (forall n, ~ dirty_at s n) -> has_room ∅ bn s.
Proof.
  intros Hbc Hnd. apply (room_for pid ∅ s bn []); [done|by intros n ?%Hnd|].
  rewrite size_empty. cbn. unfold NBUF. lia.
Qed.

Section Clients.
Context {P : Patience} {D : BlockDriver} {CL : CacheLaws P D}.

Lemma update_block_ok i p pid s bn d :
  thr i p pid ∅ s -> bc pid ∅ s -> (forall n, ~ dirty_at s n) -> bn < s.(k_disksize) ->
  exists s', update_block bn d s = Ret tt s' /\ thr i p pid ∅ s' /\ bc pid ∅ s' /\
    (forall n, ~ dirty_at s' n) /\ s'.(k_disksize) = s.(k_disksize) /\
    s'.(k_writes) = s.(k_writes) ++ [(bn, d)] /\
    forall n, view s' n = (if n =? bn then d else view s n) /\
              s'.(k_disk) n = (if n =? bn then d else s.(k_disk) n).
Proof.
  intros Ht Hbc Hnd Hbn. unfold update_block, set_data.
  destruct (bread_law i p pid ∅ s bn) as (b & s1 & E1 & Ht1 & _ & Hbc1 & Hh1 & _ & [Hv1 Hd1] & Hs1);
    [done|done|by intros ??|by eapply no_dirty_room|done|].
  kret_by exact E1. kret.
  destruct (set_data_ok pid _ s1 b bn _ d Hbc1 ltac:(set_solver) Hh1) as (Hbc2 & Hh2 & _ & Hv2 & Hd2).
  set (s2 := upd_buf b _ s1) in *. assert (Ht2 : thr i p pid ∅ s2) by tframe Ht1.
  destruct (bwrite_law i p pid _ s2 b bn d Ht2 Hbc2 ltac:(set_solver) Hh2)
    as (s3 & E3 & Ht3 & Hbc3 & Hh3 & _ & Hv3 & Hd3 & Hs3).
  kret_by exact E3.
  apply cache_step_fields in Hs1 as (Hk1 & Hz1 & Hw1 & _), Hs3 as (Hk3 & Hz3 & Hw3 & _).
  assert (Hk3' : forall n, k_disk s3 n = if n =? bn then d else k_disk s n).
  { intros n. rewrite Hk3. cbn. by rewrite Hk1. }
  destruct (brelse_law i p pid _ s3 b bn d Ht3 Hbc3 ltac:(set_solver) Hh3) as (s4 & E4 & Ht4 & Hbc4 & _ & [Hv4 Hd4] & Hs4).
  { right. by rewrite Hk3', Z.eqb_refl. }
  apply cache_step_fields in Hs4 as (Hk4 & Hz4 & Hw4 & _).
  exists s4. split_and!; try done.
  - by replace (({[b]} ∪ ∅) ∖ {[b]}) with (∅ : gset nat) in Hbc4 by set_solver.
  - intros n Hn. apply Hd4, Hd3 in Hn as [Hn _]. by apply Hd2, Hd1, Hnd in Hn.
  - by rewrite Hz4, Hz3.
  - by rewrite Hw4, Hw3; cbn; rewrite Hw1.
  - intros n. rewrite Hv4, Hv3, Hv2, Hv1, Hk4, Hk3'. done.
Qed.

Lemma read_block_ok i p pid s bn :
  thr i p pid ∅ s -> bc pid ∅ s -> (forall n, ~ dirty_at s n) -> bn < s.(k_disksize) ->
  view s bn = s.(k_disk) bn ->
  exists s', read_block bn s = Ret (view s bn) s' /\ thr i p pid ∅ s' /\ bc pid ∅ s' /\
    (forall n, ~ dirty_at s' n) /\ s'.(k_disk) = s.(k_disk) /\ s'.(k_writes) = s.(k_writes) /\
    forall n, view s' n = view s n.
Proof.
  intros Ht Hbc Hnd Hbn Hsync. unfold read_block.
  destruct (bread_law i p pid ∅ s bn) as (b & s1 & E1 & Ht1 & _ & Hbc1 & Hh1 & _ & [Hv1 Hd1] & Hs1);
    [done|done|by intros ??|by eapply no_dirty_room|done|].
  kret_by exact E1. kret. pose proof Hh1 as (z & Hz & _ & Hdz).
  apply cache_step_fields in Hs1 as (Hk1 & Hz1 & Hw1 & _).
  destruct (brelse_law i p pid _ s1 b bn (view s bn) Ht1 Hbc1 ltac:(set_solver) Hh1) as (s4 & E4 & Ht4 & Hbc4 & _ & [Hv4 Hd4] & Hs4).
  { right. by rewrite Hk1. }
  apply cache_step_fields in Hs4 as (Hk4 & Hz4 & Hw4 & _).
  kret_by exact E4. unfold buf_of. rewrite Hz. cbn. rewrite Hdz.
  exists s4. split_and!; try done.
  - by replace (({[b]} ∪ ∅) ∖ {[b]}) with (∅ : gset nat) in Hbc4 by set_solver.
  - intros n Hn. by apply Hd4, Hd1, Hnd in Hn.
  - by rewrite Hk4.
  - by rewrite Hw4.
  - intros n. by rewrite Hv4, Hv1.
Qed.

End Clients.

(** C33: the cache is coherent.  With the code of bio.c and the memory disk of
    memide.c: after a block is read, overwritten, written through and released,
    reading it again returns what was written, the disk holds it as well, every
    other block is seen and stored as before, exactly one disk write happened,
    and no buffer or lock is left held; no step panics. *)
Theorem block_roundtrip {P : Patience} (i p : nat) (pid : Z) (s : kernel) (bn : Z) (d : list Z) :
  thr i p pid ∅ s -> bc pid ∅ s -> (forall n, ~ dirty_at s n) -> bn < s.(k_disksize) ->
  runs ((update_block bn d ;;; read_block bn)%xv6 s) (fun r s' =>
    r = d /\ s'.(k_disk) bn = d /\ s'.(k_writes) = s.(k_writes) ++ [(bn, d)] /\
    (forall n, n <> bn -> view s' n = view s n /\ s'.(k_disk) n = s.(k_disk) n) /\
    bc pid ∅ s' /\ thr i p pid ∅ s').
Proof.
  intros Ht Hbc Hnd Hbn.
  destruct (update_block_ok i p pid s bn d Ht Hbc Hnd Hbn)
    as (s1 & E1 & Ht1 & Hbc1 & Hnd1 & Hz1 & Hw1 & Hv1).
  kret_by exact E1. destruct (Hv1 bn) as [Hvb Hkb]. rewrite Z.eqb_refl in Hvb, Hkb.
  destruct (read_block_ok i p pid s1 bn) as (s2 & -> & Ht2 & Hbc2 & _ & Hk2 & Hw2 & Hv2); try done.
  { by rewrite Hz1. }
  { by rewrite Hvb. }
  cbn. rewrite Hvb, Hk2, Hw2. split_and!; try done.
  intros n Hne. rewrite Hv2. destruct (Hv1 n) as [-> ->]. by replace (n =? bn) with false by lia.
Qed.

(** The cache binit leaves is consistent. *)
Lemma bc_boot pid s :
  s.(k_bufs) = replicate NBUF zero_buf -> s.(k_lru) = reverse (seq 0 NBUF) -> s.(k_slocks) = ∅ ->
  bc pid ∅ s /\ forall n, ~ dirty_at s n.
Proof.
  intros Hb Hl Hs.
  assert (Hz : forall b x, k_bufs s !! b = Some x -> x = zero_buf).
  { intros b x. rewrite Hb. intros [-> _]%lookup_replicate. done. }
  split.
  - split.
    + by rewrite Hb.
    + by rewrite Hl, reverse_Permutation.
    + intros b b' x x' Hx _ Hd. by rewrite (Hz _ _ Hx) in Hd.
    + intros b x Hx. rewrite (Hz _ _ Hx). split; [by left|done].
    + intros b x Hx _. rewrite (Hz _ _ Hx). split_and!; try done. unfold slock_of. by rewrite Hs.
    + by intros b ?%not_elem_of_empty.
  - intros n (b & x & Hx & _ & Hd). by rewrite (Hz _ _ Hx) in Hd.
Qed.

(** A machine with one process in the kernel, an empty cache and a zeroed disk. *)
Definition fs_machine : kernel :=
  one_runnable<|k_cpus := [boot_cpu<|c_proc := Some 0%nat|>]|>
    <|k_lru := reverse (seq 0 NBUF)|><|k_disksize := FSSIZE|>.

Lemma fs_machine_thr : thr 0 0 0 ∅ fs_machine.
Proof.
  split; [|done]. eexists. split_and!; [done..| |].
  - by intros lk ?%not_elem_of_empty.
  - intros lk _. unfold lock_of. cbn. by rewrite lookup_empty.
Qed.

#[local] Instance two_waits : Patience := 2%nat.

Lemma block_roundtrip_witness :
  runs ((update_block 7 [1; 2; 3] ;;; read_block 7)%xv6 fs_machine) (fun r s' =>
    r = [1; 2; 3] /\ s'.(k_writes) = [(7, [1; 2; 3])]).
Proof.
  destruct (bc_boot 0 fs_machine) as [Hbc Hnd]; [done..|].
  eapply runs_mono; [apply (block_roundtrip 0 0 0 fs_machine 7 [1; 2; 3] fs_machine_thr Hbc Hnd)|].
  - done.
  - by intros r s' (Hr & _ & Hw & _).
Defined.
