(* ===== verification/Log.v ===== *)
(** * The write-ahead log: log.c

    The code, then crash safety of the commit.  A crash is modelled through
    [k_writes], the sequence of block writes: after a crash the disk holds the
    old contents with some prefix of the writes applied, and everything else is
    lost. *)

From S2P Require Import Prelude State Spinlock Thread CString Kalloc Layout Vm Sched Sleeplock Disk Bio.

(** ** The code *)
Definition upd_log (f : logst -> logst) (s : kernel) : kernel := s<|k_log ::= f|>.

(** [log.lh.block[i]]; the C code does not check the index. *)
Definition lh_at (i : Z) : K Z :=
  let! s := get in
  match s.(k_log).(lh_block) !! Z.to_nat i with
  | Some n => ret n
  | None => panic "log.lh.block: index out of range"
  end.
Definition set_lh_at (i v : Z) : K unit :=
  let! s := get in
  if Z.of_nat (length s.(k_log).(lh_block)) <=? i then panic "log.lh.block: index out of range"
  else modify (upd_log (fun l => l<|lh_block ::= <[Z.to_nat i := v]>|>)).
Definition buf_data (b : nat) : K (list Z) := gets (fun s => (buf_of b s).(b_data)).

Section Code.
Context {P : Patience} {D : BlockDriver}.

(** fs.c *)
Definition readsb (dev : Z) : K superblock :=
  let! b := bread dev 1 in
  let! d := buf_data b in
  brelse b ;;;
  ret (decode_sb d).

Fixpoint install_trans_loop (fuel : nat) (tail : Z) : K unit :=
  match fuel with
  | O => nofuel
  | S fuel' =>
      let! s := get in
      let log := s.(k_log) in
      if negb (tail <? log.(lh_n)) then ret tt
      else
        let! lbuf := bread (u32 log.(lg_dev)) (u32 (log.(lg_start) + tail + 1)) in
        let! n := lh_at tail in
        let! dbuf := bread (u32 log.(lg_dev)) (u32 n) in
        let! d := buf_data lbuf in
        set_data dbuf d ;;;
        bwrite dbuf ;;;
        brelse lbuf ;;;
        brelse dbuf ;;;
        install_trans_loop fuel' (tail + 1)
  end.
(** One iteration per logged block. *)
Definition install_trans : K unit :=
  let! s := get in
  install_trans_loop (S (Z.to_nat s.(k_log).(lh_n))) 0.

Fixpoint read_head_loop (fuel : nat) (d : list Z) (i : Z) : K unit :=
  match fuel with
  | O => nofuel
  | S fuel' =>
      let! s := get in
      if negb (i <? s.(k_log).(lh_n)) then ret tt
      else set_lh_at i (hdr_block d i) ;;; read_head_loop fuel' d (i + 1)
  end.
Definition read_head : K unit :=
  let! s := get in
  let! b := bread (u32 s.(k_log).(lg_dev)) (u32 s.(k_log).(lg_start)) in
  let! d := buf_data b in
  modify (upd_log (fun l => l<|lh_n := hdr_n d|>)) ;;;
  read_head_loop (S (Z.to_nat (hdr_n d))) d 0 ;;;
  brelse b.

Definition write_head : K unit :=
  let! s := get in
  let! b := bread (u32 s.(k_log).(lg_dev)) (u32 s.(k_log).(lg_start)) in
  let! d := buf_data b in
  let! s := get in
  set_data b (put_head d s.(k_log).(lh_n) s.(k_log).(lh_block)) ;;;
  bwrite b ;;;
  brelse b.

Definition recover_from_log : K unit :=
  read_head ;;;
  install_trans ;;;
  modify (upd_log (fun l => l<|lh_n := 0|>)) ;;;
  write_head.

(** sizeof(struct logheader) is 4 + 4 * LOGSIZE. *)
Definition initlog (dev : Z) : K unit :=
  if BSIZE <=? 4 + 4 * LOGSIZE then panic "initlog: too big logheader"
  else
    initlock LkLog ;;;
    let! sb := readsb dev in
    modify (upd_log (fun l => l<|lg_start := s32 sb.(sb_logstart)|><|lg_size := s32 sb.(sb_nlog)|>
                               <|lg_dev := dev|>)) ;;;
    recover_from_log.

Fixpoint begin_op_loop (fuel : nat) : K unit :=
  match fuel with
  | O => nofuel
  | S fuel' =>
      let! s := get in
      let log := s.(k_log) in
      if truth log.(lg_committing) then sleep ChLog LkLog ;;; begin_op_loop fuel'
      else if LOGSIZE <? log.(lh_n) + (log.(lg_outstanding) + 1) * MAXOPBLOCKS
      then sleep ChLog LkLog ;;; begin_op_loop fuel'
      else
        modify (upd_log (fun l => l<|lg_outstanding := l.(lg_outstanding) + 1|>)) ;;;
        release LkLog
  end.
Definition begin_op : K unit :=
  acquire LkLog ;;;
  begin_op_loop (S patience).

Fixpoint write_log_loop (fuel : nat) (tail : Z) : K unit :=
  match fuel with
  | O => nofuel
  | S fuel' =>
      let! s := get in
      let log := s.(k_log) in
      if negb (tail <? log.(lh_n)) then ret tt
      else
        let! to := bread (u32 log.(lg_dev)) (u32 (log.(lg_start) + tail + 1)) in
        let! n := lh_at tail in
        let! from := bread (u32 log.(lg_dev)) (u32 n) in
        let! d := buf_data from in
        set_data to d ;;;
        bwrite to ;;;
        brelse from ;;;
        brelse to ;;;
        write_log_loop fuel' (tail + 1)
  end.
Definition write_log : K unit :=
  let! s := get in
  write_log_loop (S (Z.to_nat s.(k_log).(lh_n))) 0.

Definition commit : K unit :=
  let! s := get in
  if! 0 <? s.(k_log).(lh_n) then!
    (write_log ;;;
     write_head ;;;
     install_trans ;;;
     modify (upd_log (fun l => l<|lh_n := 0|>)) ;;;
     write_head).

Definition end_op : K unit :=
  acquire LkLog ;;;
  modify (upd_log (fun l => l<|lg_outstanding := l.(lg_outstanding) - 1|>)) ;;;
  let! s := get in
  if truth s.(k_log).(lg_committing) then panic "log.committing"
  else
    let! do_commit :=
      (if s.(k_log).(lg_outstanding) =? 0 then
         modify (upd_log (fun l => l<|lg_committing := 1|>)) ;;; ret true
       else wakeup ChLog ;;; ret false) in
    release LkLog ;;;
    if! do_commit then!
      (commit ;;;
       acquire LkLog ;;;
       modify (upd_log (fun l => l<|lg_committing := 0|>)) ;;;
       wakeup ChLog ;;;
       release LkLog).

(** The index at which the absorption loop of log_write stops. *)
Definition absorb (log : logst) (blockno : Z) : nat :=
  let bs := take (Z.to_nat log.(lh_n)) log.(lh_block) in
  match list_find (fun n => u32 n = blockno) bs with
  | Some (i, _) => i
  | None => Z.to_nat log.(lh_n)
  end.

Definition log_write (b : nat) : K unit :=
  let! s := get in
  let log := s.(k_log) in
  if (LOGSIZE <=? log.(lh_n)) || (log.(lg_size) - 1 <=? log.(lh_n)) then panic "too big a transaction"
  else if log.(lg_outstanding) <? 1 then panic "log_write outside of trans"
  else
    acquire LkLog ;;;
    let! s := get in
    let blockno := (buf_of b s).(b_blockno) in
    let i := absorb s.(k_log) blockno in
    set_lh_at (Z.of_nat i) (s32 blockno) ;;;
    (if! Z.of_nat i =? s.(k_log).(lh_n) then!
       modify (upd_log (fun l => l<|lh_n := l.(lh_n) + 1|>))) ;;;
    modify (upd_buf b (fun x => x<|b_flags := Z.lor x.(b_flags) B_DIRTY|>)) ;;;
    release LkLog.
End Code.

(** ** Crashes and recovery, on disks

    [recovered start dk] is the disk recovery makes of [dk]: the blocks the
    header lists are copied from the log to their home. *)
Definition apply_writes (ws : list (Z * list Z)) (dk : Z -> list Z) : Z -> list Z :=
  foldl (fun dk w => block_upd w.1 w.2 dk) dk ws.
Definition install_writes (start : Z) (dk : Z -> list Z) : list (Z * list Z) :=
  (fun t => (hdr_block (dk start) t, dk (start + 1 + t))) <$> seqZ 0 (hdr_n (dk start)).
Definition recovered (start : Z) (dk : Z -> list Z) : Z -> list Z :=
  apply_writes (install_writes start dk) dk.

Lemma apply_writes_app ws1 ws2 dk :
  apply_writes (ws1 ++ ws2) dk = apply_writes ws2 (apply_writes ws1 dk).
Proof. unfold apply_writes. apply foldl_app. Qed.

Lemma apply_writes_cons w ws dk :
  apply_writes (w :: ws) dk = apply_writes ws (block_upd w.1 w.2 dk).
Proof. done. Qed.

Lemma apply_writes_ext ws : forall dk dk' m,
  dk m = dk' m -> apply_writes ws dk m = apply_writes ws dk' m.
Proof.
  induction ws as [|w ws IH]; intros dk dk' m H; [done|]. rewrite !apply_writes_cons.
  apply IH. unfold block_upd. by destruct (m =? w.1).
Qed.

Lemma apply_writes_out ws m : forall dk,
  m ∉ ws.*1 -> apply_writes ws dk m = dk m.
Proof.
  induction ws as [|w ws IH]; intros dk Hm; [done|]. rewrite apply_writes_cons.
  apply not_elem_of_cons in Hm as [Hne Hm]. rewrite IH by done. unfold block_upd.
  by replace (m =? w.1) with false by lia.
Qed.

(** A block that is written gets the same contents from every disk. *)
Lemma apply_writes_in ws m : forall dk dk',
  m ∈ ws.*1 -> apply_writes ws dk m = apply_writes ws dk' m.
Proof.
  induction ws as [|w ws IH]; intros dk dk' Hm; [by apply not_elem_of_nil in Hm|].
  rewrite !apply_writes_cons. destruct (decide (m ∈ ws.*1)) as [Hin|Hout]; [by apply IH|].
  apply elem_of_cons in Hm as [Hm|]; [|done].
  apply apply_writes_ext. unfold block_upd. by replace (m =? w.1) with true by lia.
Qed.

Lemma not_in_take (ws : list (Z * list Z)) m k : m ∉ ws.*1 -> m ∉ (take k ws).*1.
Proof.
  intros Hm Hin. rewrite fmap_take in Hin. apply elem_of_take in Hin as (j & Hj & _).
  by apply Hm, (list_elem_of_lookup_2 _ j).
Qed.

(** Redoing a sequence of writes of which a part was already done. *)
Lemma apply_writes_redo ws k dk m :
  apply_writes ws (apply_writes (take k ws) dk) m = apply_writes ws dk m.
Proof.
  destruct (decide (m ∈ ws.*1)) as [Hin|Hout]; [by apply apply_writes_in|].
  by apply apply_writes_ext, apply_writes_out, not_in_take.
Qed.

(** ** The writes of a commit

    A transaction updates the blocks [bs] to the contents [ds]; [hdr] is the
    header block before. *)
Definition commit_writes (start : Z) (hdr : list Z) (bs : list Z) (ds : list (list Z)) :
    list (Z * list Z) :=
  let n := Z.of_nat (length bs) in
  zip (seqZ (start + 1) n) ds ++ (start, put_head hdr n bs) :: zip bs ds ++
  [(start, put_head (put_head hdr n bs) 0 bs)].

Definition in_log (start size m : Z) : Prop := start <= m < start + size.

Section Pure.
Context (start size : Z) (dk : Z -> list Z) (bs : list Z) (ds : list (list Z)).
Hypothesis Hlen : length ds = length bs.
Hypothesis Hsize : Z.of_nat (length bs) < size.
Hypothesis Hbs : Forall (fun b => 0 <= b < 2 ^ 31 /\ ~ in_log start size b) bs.
Let n := Z.of_nat (length bs).
Let W1 := zip (seqZ (start + 1) n) ds.
Let W3 := zip bs ds.
Let hdr1 := put_head (dk start) n bs.
Let hdr2 := put_head hdr1 0 bs.

Lemma W1_blocks : W1.*1 = seqZ (start + 1) n.
Proof. apply fst_zip. rewrite length_seqZ, Hlen. lia. Qed.
Lemma W3_blocks : W3.*1 = bs.
Proof. apply fst_zip. lia. Qed.

Lemma out_of_W1 m : ~ in_log start size m -> m ∉ W1.*1.
Proof. rewrite W1_blocks, elem_of_seqZ. unfold in_log, n. lia. Qed.

Lemma log_not_home m : in_log start size m -> m ∉ W3.*1.
Proof.
  rewrite W3_blocks. intros Hm Hin. rewrite Forall_forall in Hbs.
  by apply (Hbs m); [apply list_elem_of_In|].
Qed.

Lemma seqZ_lookup_shift m k len :
  (k < len)%nat -> seqZ m (Z.of_nat len) !! k = Some (m + Z.of_nat k).
Proof. intros. rewrite lookup_seqZ. lia. Qed.

(** After the log blocks are written, log slot [k] holds the new contents of
    the [k]th block. *)
Lemma W1_lookup k d dk0 :
  ds !! k = Some d -> apply_writes W1 dk0 (start + 1 + Z.of_nat k) = d.
Proof.
  unfold W1, n. rewrite <- Hlen. clear. generalize (start + 1) as a. intros a. revert a k dk0.
  induction ds as [|d0 ds' IH]; intros a [|k] dk0 Hk; cbn [length]; try done.
  - cbn in Hk. injection Hk as <-.
    rewrite Nat2Z.inj_succ, seqZ_cons by lia. cbn [zip zip_with]. rewrite apply_writes_cons.
    rewrite apply_writes_out; [unfold block_upd; cbn [fst snd]; change (Z.of_nat 0) with 0; by rewrite Z.add_0_r, Z.eqb_refl|].
    rewrite fst_zip by (rewrite length_seqZ; lia). rewrite elem_of_seqZ. change (Z.of_nat 0) with 0. lia.
  - rewrite Nat2Z.inj_succ, seqZ_cons by lia. cbn [zip zip_with]. rewrite apply_writes_cons.
    replace (Z.pred (Z.succ (Z.of_nat (length ds')))) with (Z.of_nat (length ds')) by lia.
    replace (a + Z.of_nat (S k)) with (Z.succ a + Z.of_nat k) by lia. by apply IH.
Qed.

Hypothesis Hmax : Z.of_nat (length bs) <= LOGSIZE.
Hypothesis Hhdr : length (dk start) = Z.to_nat BSIZE.

Lemma hdr1_n : hdr_n hdr1 = n.
Proof using Hmax Hhdr. clear Hlen Hsize Hbs. unfold LOGSIZE, MAXOPBLOCKS in Hmax. apply put_head_n; [rewrite Hhdr; unfold BSIZE; lia|lia]. Qed.

Lemma hdr2_n : hdr_n hdr2 = 0.
Proof using Hhdr.
  clear Hlen Hsize Hbs Hmax.
  apply put_head_n; [|lia]. unfold hdr1. rewrite length_put_head, Hhdr. unfold BSIZE. lia.
Qed.

Lemma hdr1_block k b : bs !! k = Some b -> hdr_block hdr1 (Z.of_nat k) = b.
Proof using Hmax Hhdr Hbs.
  clear Hlen Hsize.
  intros Hk. assert (Hr : 0 <= b < 2 ^ 31 /\ ~ in_log start size b) by (by eapply Forall_lookup_1 in Hbs).
  apply put_head_block; [|apply lookup_lt_Some in Hk; unfold n; lia|done|apply Hr].
  rewrite Hhdr. unfold LOGSIZE, MAXOPBLOCKS, BSIZE, n in *. lia.
Qed.

Lemma install_none X : hdr_n (X start) = 0 -> recovered start X = X.
Proof. intros H. unfold recovered, install_writes. by rewrite H. Qed.

(** With the header committed and the log blocks in place, recovery installs
    exactly the transaction. *)
Lemma install_all X :
  X start = hdr1 -> (forall k d, ds !! k = Some d -> X (start + 1 + Z.of_nat k) = d) ->
  install_writes start X = W3.
Proof.
  intros Hs Hl. unfold install_writes, W3. rewrite Hs, hdr1_n. apply list_eq. intros k.
  rewrite list_lookup_fmap, lookup_zip_with. destruct (bs !! k) as [b|] eqn:Hb; cbn.
  - assert (Hk : (k < length bs)%nat) by (by eapply lookup_lt_Some).
    destruct (lookup_lt_is_Some_2 ds k) as [d Hd]; [lia|]. rewrite Hd. cbn.
    unfold n. rewrite seqZ_lookup_shift, Z.add_0_l by done. cbn. by rewrite (hdr1_block k b), (Hl k d).
  - assert (Hk : (length bs <= k)%nat) by (by apply lookup_ge_None).
    rewrite lookup_ge_None_2; [done|]. unfold n. rewrite length_seqZ. lia.
Qed.

Let base := block_upd start hdr1 (apply_writes W1 dk).

Lemma base_home m : ~ in_log start size m -> base m = dk m.
Proof.
  intros Hm. unfold base, block_upd.
  replace (m =? start) with false by (unfold in_log in Hm; lia).
  by apply apply_writes_out, out_of_W1.
Qed.

Lemma base_slots k d : ds !! k = Some d -> base (start + 1 + Z.of_nat k) = d.
Proof.
  intros Hd. unfold base, block_upd. rewrite (proj2 (Z.eqb_neq (start + 1 + Z.of_nat k) start)) by lia. by apply W1_lookup.
Qed.

(** Recovery after a crash at any point of a commit, block by block. *)
Lemma commit_crash j m :
  hdr_n (dk start) = 0 -> ~ in_log start size m ->
  recovered start (apply_writes (take j (commit_writes start (dk start) bs ds)) dk) m =
  if (j <=? length bs)%nat then dk m else apply_writes W3 dk m.
Proof.
  intros H0 Hm. unfold commit_writes. fold n. fold W1. fold W3. fold hdr1. fold hdr2.
  assert (HW1 : length W1 = length bs) by (unfold W1; rewrite length_zip_with, length_seqZ, Hlen; lia).
  assert (HW3 : length W3 = length bs) by (unfold W3; rewrite length_zip_with, Hlen; lia).
  assert (Hst : in_log start size start) by (unfold in_log; lia).
  destruct (Nat.leb_spec j (length bs)) as [Hj|Hj].
  - rewrite take_app_le by lia. rewrite install_none.
    + by apply apply_writes_out, not_in_take, out_of_W1.
    + rewrite apply_writes_out; [done|]. apply not_in_take. rewrite W1_blocks, elem_of_seqZ. lia.
  - rewrite take_app_ge, HW1 by lia. destruct (j - length bs)%nat as [|k] eqn:Ek; [lia|].
    cbn [take]. rewrite apply_writes_app, apply_writes_cons. cbn [fst snd]. fold base.
    destruct (decide (k <= length bs)%nat) as [Hk|Hk].
    + rewrite take_app_le by lia. unfold recovered. rewrite install_all.
      * rewrite apply_writes_redo. apply apply_writes_ext. by apply base_home.
      * rewrite apply_writes_out by (by apply not_in_take, log_not_home).
        unfold base, block_upd. by rewrite Z.eqb_refl.
      * intros k' d Hd. rewrite apply_writes_out; [by apply base_slots|].
        apply not_in_take, log_not_home. apply lookup_lt_Some in Hd. unfold in_log. lia.
    + rewrite take_ge by (rewrite length_app, HW3; cbn; lia).
      rewrite apply_writes_app, apply_writes_cons. cbn [fst snd].
      change (apply_writes [] ?x) with x. rewrite install_none.
      * unfold block_upd at 1. replace (m =? start) with false by (unfold in_log in Hm; lia).
        apply apply_writes_ext. by apply base_home.
      * unfold block_upd at 1. rewrite Z.eqb_refl. apply hdr2_n.
Qed.

(** The disk after a complete commit. *)
Lemma commit_final m :
  ~ in_log start size m ->
  apply_writes (commit_writes start (dk start) bs ds) dk m = apply_writes W3 dk m.
Proof.
  intros Hm. unfold commit_writes. fold n. fold W1. fold W3. fold hdr1. fold hdr2.
  rewrite apply_writes_app, apply_writes_cons, apply_writes_app, apply_writes_cons. cbn [fst snd]. fold base.
  change (apply_writes [] ?x) with x. unfold block_upd at 1.
  rewrite (proj2 (Z.eqb_neq m start)) by (unfold in_log in Hm; lia).
  apply apply_writes_ext. by apply base_home.
Qed.

(** The header a crash during the commit leaves. *)
Lemma crash_header j :
  let X := apply_writes (take j (commit_writes start (dk start) bs ds)) dk in
  X start = dk start \/ X start = hdr1 \/ X start = hdr2.
Proof using Hlen Hsize Hbs.
  clear Hmax Hhdr.
  unfold commit_writes. fold n. fold W1. fold W3. fold hdr1. fold hdr2.
  assert (HW1 : length W1 = length bs) by (unfold W1; rewrite length_zip_with, length_seqZ, Hlen; lia).
  assert (HW3 : length W3 = length bs) by (unfold W3; rewrite length_zip_with, Hlen; lia).
  assert (Hst : in_log start size start) by (unfold in_log; lia).
  destruct (decide (j <= length bs)%nat) as [Hj|Hj].
  - left. rewrite take_app_le by lia. apply apply_writes_out, not_in_take.
    rewrite W1_blocks, elem_of_seqZ. lia.
  - right. rewrite take_app_ge, HW1 by lia. destruct (j - length bs)%nat as [|k] eqn:Ek; [lia|].
    cbn [take]. rewrite apply_writes_app, apply_writes_cons. cbn [fst snd]. fold base.
    destruct (decide (k <= length bs)%nat) as [Hk|Hk].
    + left. rewrite take_app_le by lia. rewrite apply_writes_out by (by apply not_in_take, log_not_home).
      unfold base, block_upd. by rewrite Z.eqb_refl.
    + right. rewrite take_ge by (rewrite length_app, HW3; cbn; lia).
      rewrite apply_writes_app, apply_writes_cons. cbn [fst snd].
      change (apply_writes [] ?x) with x. unfold block_upd at 1. by rewrite Z.eqb_refl.
Qed.
End Pure.

Lemma apply_zip_fmap (f : Z -> list Z) bs dk m :
  apply_writes (zip bs (f <$> bs)) dk m = if decide (m ∈ bs) then f m else dk m.
Proof.
  revert dk. induction bs as [|b bs IH]; intros dk; [by rewrite decide_False by apply not_elem_of_nil|].
  cbn [fmap list_fmap zip zip_with]. rewrite apply_writes_cons. cbn [fst snd]. rewrite IH. unfold block_upd.
  destruct (decide (m ∈ bs)) as [Hin|Hout].
  - by rewrite decide_True by (by right).
  - destruct (Z.eqb_spec m b) as [->|Hne].
    + by rewrite decide_True by left.
    + by rewrite decide_False by (by apply not_elem_of_cons).
Qed.

(** The writes of a recovery. *)
Definition recovery_writes (start : Z) (dk : Z -> list Z) : list (Z * list Z) :=
  install_writes start dk ++ [(start, put_head (dk start) 0 [])].

(** A header recovery can act on: as many entries as fit, none of them in the log. *)
Definition header_ok (start size dsz : Z) (d : list Z) : Prop :=
  length d = Z.to_nat BSIZE /\ 0 <= hdr_n d < size /\ hdr_n d <= LOGSIZE /\
  forall t, 0 <= t < hdr_n d -> 0 <= hdr_block d t < dsz /\ ~ in_log start size (hdr_block d t).

Lemma install_blocks start dk : (install_writes start dk).*1 = hdr_block (dk start) <$> seqZ 0 (hdr_n (dk start)).
Proof. unfold install_writes. rewrite <- list_fmap_compose. done. Qed.

Lemma install_not_log start size dsz dk m :
  header_ok start size dsz (dk start) -> in_log start size m -> m ∉ (install_writes start dk).*1.
Proof.
  intros (_ & _ & _ & Hb) Hm. rewrite install_blocks. intros (t & -> & Ht)%list_elem_of_fmap.
  apply elem_of_seqZ in Ht. by apply (Hb t); [lia|].
Qed.

(** Recovery after a crash during recovery. *)
Lemma recovery_crash start size dsz dk j m :
  0 < size -> header_ok start size dsz (dk start) -> ~ in_log start size m ->
  recovered start (apply_writes (take j (recovery_writes start dk)) dk) m = recovered start dk m.
Proof.
  intros Hsz Hok Hm. pose proof Hok as (Hlen & Hn & _ & Hb). unfold recovery_writes.
  assert (Hst : in_log start size start) by (unfold in_log; lia).
  set (W := install_writes start dk).
  destruct (decide (j <= length W)%nat) as [Hj|Hj].
  - rewrite take_app_le by done. unfold recovered at 1.
    assert (Hsame : forall x, in_log start size x -> apply_writes (take j W) dk x = dk x).
    { intros x Hx. apply apply_writes_out, not_in_take. by apply (install_not_log start size dsz). }
    assert (install_writes start (apply_writes (take j W) dk) = W) as ->; [|by rewrite apply_writes_redo].
    unfold install_writes. rewrite (Hsame start Hst). apply list_fmap_ext.
    intros k t Ht. apply lookup_seqZ in Ht as [-> Ht]. f_equal. apply Hsame. unfold in_log. lia.
  - rewrite take_ge by (rewrite length_app; cbn; lia). rewrite apply_writes_app, apply_writes_cons.
    change (apply_writes [] ?x) with x. cbn [fst snd].
    assert (H0 : hdr_n (put_head (dk start) 0 []) = 0)
      by (apply put_head_n; [rewrite Hlen; unfold BSIZE|]; lia).
    rewrite install_none by (unfold block_upd; by rewrite Z.eqb_refl). unfold block_upd.
    by rewrite (proj2 (Z.eqb_neq m start)) by (unfold in_log in Hm; lia).
Qed.

(** ** What the code does *)

(** Only the cache, the disk and the log changed. *)
Definition log_step (s s' : kernel) : Prop :=
  (exists bs lru sl dk ws l,
     calm (s<|k_bufs := bs|><|k_lru := lru|><|k_slocks := sl|><|k_disk := dk|><|k_writes := ws|>
            <|k_log := l|>) s') /\
  (forall l, (forall b, l <> SlBuf b) -> slock_of l s' = slock_of l s).

#[export] Instance log_step_preorder : PreOrder log_step.
Proof.
  split.
  - intros s. split; [|done]. exists (k_bufs s), (k_lru s), (k_slocks s), (k_disk s), (k_writes s), (k_log s).
    reflexivity.
  - intros s s' s'' [(bs & lru & sl & dk & ws & l & Hc) Hl] [(bs' & lru' & sl' & dk' & ws' & l' & Hc') Hl'].
    split; [|intros k Hk; by rewrite Hl', Hl].
    exists bs', lru', sl', dk', ws', l'. by calm_by Hc Hc'.
Qed.

Lemma cache_step_log s s' : cache_step s s' -> log_step s s'.
Proof.
  intros [(bs & lru & sl & Hc) Hl]. split; [|done].
  exists bs, lru, sl, (k_disk s), (k_writes s), (k_log s). exact Hc.
Qed.

Lemma disk_write_step n d s s' : cache_step (disk_write n d s) s' -> log_step s s'.
Proof.
  intros [(bs & lru & sl & Hc) Hl]. split; [|done].
  eexists bs, lru, sl, _, _, (k_log s). exact Hc.
Qed.

Lemma upd_buf_step b f s : log_step s (upd_buf b f s).
Proof.
  split; [|done].
  by eexists (alter f b (k_bufs s)), (k_lru s), (k_slocks s), (k_disk s), (k_writes s), (k_log s).
Qed.

Lemma upd_log_step f s : log_step s (upd_log f s).
Proof.
  split; [|done].
  by eexists (k_bufs s), (k_lru s), (k_slocks s), (k_disk s), (k_writes s), (f (k_log s)).
Qed.

Section Steps.
Context {P : Patience} {D : BlockDriver} {CL : CacheLaws P D}.
Context (i p : nat) (pid : Z).

(** Between two operations of the log: nothing held, only blocks of [ds] dirty. *)
Definition idle (ds : list Z) (s : kernel) : Prop :=
  thr i p pid ∅ s /\ bc pid ∅ s /\ forall n, dirty_at s n -> n ∈ ds.

(** A block is dirty in the cache, or seen as it is on disk. *)
Lemma dirty_or_clean s n : bc pid ∅ s -> dirty_at s n \/ view s n = s.(k_disk) n.
Proof.
  intros Hbc. destruct (cached_or_not s n) as [(b & x & Hx & Hc)|Hno].
  - destruct (dirty x) eqn:Hd; [left; by exists b, x|right].
    rewrite (view_cached pid ∅ s b x) by done. pose proof Hc as (_ & <- & Hv).
    by apply (bc_free _ _ _ Hbc b x Hx).
  - right. by apply view_uncached.
Qed.

Lemma bread_two ds s n1 n2 :
  idle ds s -> (length ds < NBUF)%nat -> n1 <> n2 -> n1 < s.(k_disksize) -> n2 < s.(k_disksize) ->
  dirty_at s n2 \/ (length ds + 1 < NBUF)%nat ->
  exists b1 b2 s1 s2, bread 1 n1 s = Ret b1 s1 /\ bread 1 n2 s1 = Ret b2 s2 /\ b1 <> b2 /\
    s1.(k_log) = s.(k_log) /\ thr i p pid ∅ s2 /\ bc pid {[b1; b2]} s2 /\
    holds_block b1 n1 (view s n1) s2 /\ holds_block b2 n2 (view s n2) s2 /\
    same_blocks s s2 /\ cache_step s s1 /\ cache_step s1 s2.
Proof.
  intros (Ht & Hbc & Hds) Hlen Hne Hn1 Hn2 Hroom.
  destruct (bread_law i p pid ∅ s n1) as (b1 & s1 & E1 & Ht1 & _ & Hbc1 & Hh1 & _ & [Hv1 Hd1] & Hs1);
    [done|done|by intros ??|apply (room_for pid ∅ s n1 ds); [done..|rewrite size_empty; lia]|done|].
  rewrite union_empty_r_L in Hbc1. pose proof Hs1 as (_ & Hsz1 & _ & Hlog1)%cache_step_fields.
  assert (Hnh : not_held {[b1]} n2 s1).
  { intros b x ->%elem_of_singleton Hx. destruct Hh1 as (z & Hz & (_ & Hzn & _) & _).
    assert (x = z) as -> by congruence. congruence. }
  destruct (bread_law i p pid {[b1]} s1 n2) as (b2 & s2 & E2 & Ht2 & Hb2 & Hbc2 & Hh2 & Hk2 & [Hv2 Hd2] & Hs2);
    [done|done|done| |by rewrite Hsz1|].
  { destruct Hroom as [Hd|Hl].
    - apply Hd1 in Hd as (b & x & Hx & (Hdev & Hn & _) & _). exists b, x. split_and!; [done| |by left].
      intros Hb. by apply (Hnh b x Hb Hx).
    - apply (room_for pid {[b1]} s1 n2 ds); [done| |by rewrite size_singleton].
      intros n Hn. by apply Hds, Hd1. }
  exists b1, b2, s1, s2. split_and!; try done.
  - intros ->. set_solver.
  - by replace ({[b1; b2]} : gset nat) with ({[b2]} ∪ {[b1]} : gset nat) by set_solver.
  - destruct Hh1 as (z & Hz & Hc). exists z. rewrite Hk2 by set_solver. done.
  - by rewrite Hv1 in Hh2.
  - split; intros n; [by rewrite Hv2|by rewrite Hd2].
Qed.

(** Copy the contents of held buffer [bs] to held buffer [bd] and write it. *)
Lemma copy_write hold s bs bd ns nd v w :
  thr i p pid ∅ s -> bc pid hold s -> bs ∈ hold -> bd ∈ hold -> bs <> bd ->
  holds_block bs ns v s -> holds_block bd nd w s ->
  exists s1, bwrite bd (upd_buf bd (fun x => x<|b_data := v|>) s) = Ret tt s1 /\
    thr i p pid ∅ s1 /\ bc pid hold s1 /\ holds_block bs ns v s1 /\ holds_block bd nd v s1 /\
    (forall n, view s1 n = block_upd nd v (view s) n) /\
    (forall n, dirty_at s1 n <-> dirty_at s n /\ n <> nd) /\
    s1.(k_disk) = block_upd nd v s.(k_disk) /\ s1.(k_writes) = s.(k_writes) ++ [(nd, v)] /\
    s1.(k_log) = s.(k_log) /\ s1.(k_disksize) = s.(k_disksize) /\ log_step s s1.
Proof.
  intros Ht Hbc Hbs Hbd Hne Hs Hd.
  destruct (set_data_ok pid hold s bd nd w v Hbc Hbd Hd) as (Hbc1 & Hd1 & Hk1 & Hv1 & Hdirty1).
  set (s0 := upd_buf bd _ s) in *.
  assert (Ht0 : thr i p pid ∅ s0) by tframe Ht.
  destruct (bwrite_law i p pid hold s0 bd nd v Ht0 Hbc1 Hbd Hd1)
    as (s1 & E & Ht1 & Hbc' & Hd' & Hk' & Hv' & Hdirty' & Hstep).
  exists s1. split_and!; try done.
  - destruct Hs as (z & Hz & Hc). exists z. rewrite Hk', Hk1 by done. done.
  - intros n. rewrite Hv', Hv1. done.
  - intros n. by rewrite Hdirty', Hdirty1.
  - by apply cache_step_fields in Hstep as (-> & _).
  - by apply cache_step_fields in Hstep as (_ & _ & -> & _).
  - by apply cache_step_fields in Hstep as (_ & _ & _ & ->).
  - by apply cache_step_fields in Hstep as (_ & -> & _).
  - transitivity s0; [apply upd_buf_step|]. by eapply disk_write_step.
Qed.

Lemma release_two s x y nx ny vx vy :
  thr i p pid ∅ s -> bc pid {[x; y]} s -> x <> y ->
  holds_block x nx vx s -> holds_block y ny vy s ->
  dirty_at s nx \/ vx = s.(k_disk) nx -> dirty_at s ny \/ vy = s.(k_disk) ny ->
  exists s1 s2, brelse x s = Ret tt s1 /\ brelse y s1 = Ret tt s2 /\
    thr i p pid ∅ s2 /\ bc pid ∅ s2 /\ same_blocks s s2 /\ cache_step s s1 /\ cache_step s1 s2.
Proof.
  intros Ht Hbc Hne Hx Hy Hsx Hsy.
  destruct (brelse_law i p pid _ s x nx vx Ht Hbc ltac:(set_solver) Hx Hsx)
    as (s1 & E1 & Ht1 & Hbc1 & Hk1 & [Hv1 Hd1] & Hs1).
  replace ({[x; y]} ∖ {[x]}) with ({[y]} : gset nat) in Hbc1 by set_solver.
  destruct (brelse_law i p pid _ s1 y ny vy Ht1 Hbc1 ltac:(set_solver))
    as (s2 & E2 & Ht2 & Hbc2 & Hk2 & [Hv2 Hd2] & Hs2).
  { destruct Hy as (z & Hz & Hc). exists z. rewrite Hk1 by done. done. }
  { rewrite Hd1. by apply cache_step_fields in Hs1 as (-> & _). }
  replace ({[y]} ∖ {[y]}) with (∅ : gset nat) in Hbc2 by set_solver.
  exists s1, s2. split_and!; try done. split; intros n; [by rewrite Hv2|by rewrite Hd2].
Qed.

(** ** The loops *)

(** Block number [j] of the transaction. *)
Definition blk (L : logst) (j : Z) : Z := default 0 (L.(lh_block) !! Z.to_nat j).

(** The log is on device 1 at [start, start + size) of a disk of [dsz] blocks,
    and the in-memory header lists blocks outside it. *)
Record log_ok (start size dsz : Z) (L : logst) : Prop := {
  lok_dev : L.(lg_dev) = 1;
  lok_start : L.(lg_start) = start;
  lok_area : 0 <= start /\ start + size <= dsz /\ dsz <= 2 ^ 31;
  lok_n : 0 <= L.(lh_n) < size /\ L.(lh_n) <= LOGSIZE;
  lok_block j : 0 <= j < L.(lh_n) -> L.(lh_block) !! Z.to_nat j = Some (blk L j);
  lok_range j : 0 <= j < L.(lh_n) -> 0 <= blk L j < dsz /\ ~ in_log start size (blk L j)
}.

Context (start size dsz : Z).

(** What a loop over the log leaves behind: the writes [ws] on disk and in the
    view, and otherwise only cache and lock words changed. *)
Definition wrote (ws : list (Z * list Z)) (s s' : kernel) : Prop :=
  s'.(k_writes) = s.(k_writes) ++ ws /\ s'.(k_disk) = apply_writes ws s.(k_disk) /\
  (forall n, view s' n = apply_writes ws (view s) n) /\
  s'.(k_log) = s.(k_log) /\ s'.(k_disksize) = s.(k_disksize) /\ log_step s s'.

Lemma wrote_app ws1 ws2 s s1 s2 : wrote ws1 s s1 -> wrote ws2 s1 s2 -> wrote (ws1 ++ ws2) s s2.
Proof.
  intros (Hw1 & Hd1 & Hv1 & Hl1 & Hz1 & Hs1) (Hw2 & Hd2 & Hv2 & Hl2 & Hz2 & Hs2).
  split_and!.
  - by rewrite Hw2, Hw1, app_assoc.
  - by rewrite Hd2, Hd1, apply_writes_app.
  - intros n. rewrite Hv2, apply_writes_app. by apply apply_writes_ext.
  - congruence.
  - congruence.
  - by transitivity s1.
Qed.

Lemma same_wrote s s' : same_blocks s s' -> cache_step s s' -> wrote [] s s'.
Proof.
  intros [Hv _] Hs. pose proof Hs as (Hk & Hz & Hw & Hl)%cache_step_fields.
  split_and!; rewrite ?app_nil_r; try done. by apply cache_step_log.
Qed.

Lemma lh_at_ok L j s :
  log_ok start size dsz L -> s.(k_log) = L -> 0 <= j < L.(lh_n) -> lh_at j s = Ret (blk L j) s.
Proof. intros Hok HL Hj. unfold lh_at. kret. by rewrite HL, (lok_block _ _ _ _ Hok). Qed.

Lemma log_u32 L j :
  log_ok start size dsz L -> 0 <= j < L.(lh_n) ->
  u32 (L.(lg_start) + j + 1) = start + 1 + j /\ u32 (blk L j) = blk L j /\ u32 L.(lg_dev) = 1 /\
  start + 1 + j < dsz /\ start + 1 + j <> blk L j.
Proof.
  intros Hok Hj. destruct (lok_area _ _ _ _ Hok), (lok_n _ _ _ _ Hok), (lok_range _ _ _ _ Hok j Hj) as [Hr Hl].
  rewrite (lok_start _ _ _ _ Hok), (lok_dev _ _ _ _ Hok).
  split_and!; [rewrite u32_small by lia; lia|by rewrite u32_small by lia|done|lia|].
  intros Heq. apply Hl. unfold in_log. lia.
Qed.

(** Both loops read a log block [n1] and a home block [n2], copy one to the
    other, write it and release both, the source first; [fwd] copies to the log. *)
Lemma copy_pair (fwd : bool) ds s n1 n2 :
  idle ds s -> (length ds < NBUF)%nat -> n1 <> n2 -> n1 < s.(k_disksize) -> n2 < s.(k_disksize) ->
  dirty_at s n2 \/ (length ds + 1 < NBUF)%nat ->
  let nsrc := if fwd then n2 else n1 in
  let ndst := if fwd then n1 else n2 in
  exists b1 b2 s1 s2 s3 s4 s5,
    let src := if fwd then b2 else b1 in
    let dst := if fwd then b1 else b2 in
    bread 1 n1 s = Ret b1 s1 /\ s1.(k_log) = s.(k_log) /\ bread 1 n2 s1 = Ret b2 s2 /\
    buf_data src s2 = Ret (view s nsrc) s2 /\
    bwrite dst (upd_buf dst (fun x => x<|b_data := view s nsrc|>) s2) = Ret tt s3 /\
    brelse src s3 = Ret tt s4 /\ brelse dst s4 = Ret tt s5 /\ idle ds s5 /\
    (forall n, dirty_at s5 n <-> dirty_at s n /\ n <> ndst) /\ wrote [(ndst, view s nsrc)] s s5.
Proof.
  intros Hidle Hlen Hne Hn1 Hn2 Hroom nsrc ndst.
  destruct (bread_two ds s n1 n2 Hidle Hlen Hne Hn1 Hn2 Hroom) as
    (b1 & b2 & s1 & s2 & E1 & E2 & Hb12 & HL1 & Ht2 & Hbc2 & Hh1 & Hh2 & [Hv2 Hd2] & Hs1 & Hs2).
  set (src := if fwd then b2 else b1). set (dst := if fwd then b1 else b2).
  assert (Hsd : src <> dst) by (unfold src, dst; destruct fwd; congruence).
  assert (Hnn : nsrc <> ndst) by (unfold nsrc, ndst; destruct fwd; congruence).
  assert (Hhold : {[b1; b2]} = ({[src; dst]} : gset nat))
    by (unfold src, dst; destruct fwd; set_solver).
  assert (Hsrc : holds_block src nsrc (view s nsrc) s2) by (unfold src, nsrc; by destruct fwd).
  assert (Hdst : holds_block dst ndst (view s ndst) s2) by (unfold dst, ndst; by destruct fwd).
  rewrite Hhold in Hbc2.
  destruct (copy_write {[src; dst]} s2 src dst nsrc ndst (view s nsrc) (view s ndst))
    as (s3 & E3 & Ht3 & Hbc3 & Hhs & Hhd & Hv3 & Hd3 & Hk3 & Hw3 & Hl3 & Hz3 & Hst3);
    [done|done|set_solver|set_solver|done|done|done|].
  destruct (release_two s3 src dst nsrc ndst (view s nsrc) (view s nsrc))
    as (s4 & s5 & E4 & E5 & Ht5 & Hbc5 & [Hv5 Hd5] & Hs4 & Hs5); [done|done|done|done|done| | |].
  { rewrite Hd3, Hd2. destruct (dirty_or_clean s nsrc) as [Hd|Hc]; [apply Hidle|by left|right].
    rewrite Hk3. unfold block_upd. rewrite (proj2 (Z.eqb_neq _ _)) by done.
    apply cache_step_fields in Hs1 as (Hk1 & _), Hs2 as (Hk2 & _). by rewrite Hk2, Hk1. }
  { right. rewrite Hk3. unfold block_upd. by rewrite Z.eqb_refl. }
  assert (Hd : forall n, dirty_at s5 n <-> dirty_at s n /\ n <> ndst) by (intros n; by rewrite Hd5, Hd3, Hd2).
  exists b1, b2, s1, s2, s3, s4, s5. split_and!; try done.
  - destruct Hsrc as (z & Hz & _ & Hdata). unfold buf_data, gets, buf_of. fold src. by rewrite Hz; cbn; rewrite Hdata.
  - destruct Hidle as (_ & _ & Hds). split_and!; try done. intros n Hn. apply Hds, Hd, Hn.
  - apply cache_step_fields in Hs1 as F1. apply cache_step_fields in Hs2 as F2.
    apply cache_step_fields in Hs4 as F4. apply cache_step_fields in Hs5 as F5.
    destruct F1 as (K1 & Z1 & W1 & L1), F2 as (K2 & Z2 & W2 & L2),
      F4 as (K4 & Z4 & W4 & L4), F5 as (K5 & Z5 & W5 & L5).
    split_and!.
    + by rewrite W5, W4, Hw3, W2, W1.
    + by rewrite K5, K4, Hk3, K2, K1.
    + intros n. rewrite Hv5, Hv3. cbn. unfold block_upd. by rewrite Hv2.
    + congruence.
    + congruence.
    + transitivity s1; [by apply cache_step_log|]. transitivity s2; [by apply cache_step_log|].
      transitivity s3; [done|]. transitivity s4; by apply cache_step_log.
Qed.

(** One iteration of write_log: the home block is copied to its log slot. *)
Lemma write_log_iter ds L j s m :
  idle ds s -> log_ok start size dsz L -> s.(k_log) = L -> s.(k_disksize) = dsz -> 0 <= j < L.(lh_n) ->
  (length ds < NBUF)%nat -> (forall n, n ∈ ds -> ~ in_log start size n) -> dirty_at s (blk L j) ->
  exists s', write_log_loop (S m) j s = write_log_loop m (j + 1) s' /\ idle ds s' /\
    (forall n, dirty_at s' n <-> dirty_at s n) /\
    wrote [(start + 1 + j, view s (blk L j))] s s'.
Proof.
  intros Hidle Hok HL Hz Hj Hlen Hds Hdirty. destruct (log_u32 L j Hok Hj) as (Hu1 & Hu2 & Hu3 & Hb1 & Hne).
  destruct (lok_range _ _ _ _ Hok j Hj) as [Hr _].
  cbn [write_log_loop]. kret. rewrite HL. replace (j <? lh_n L) with true by lia. cbn [negb].
  rewrite Hu1, Hu3.
  destruct (copy_pair true ds s (start + 1 + j) (blk L j) Hidle Hlen Hne) as
    (b1 & b2 & s1 & s2 & s3 & s4 & s5 & E1 & HL1 & E2 & Ed & E3 & E4 & E5 & Hidle5 & Hd5 & Hw5);
    [lia|lia|by left|].
  kret_by exact E1. kret_by (apply (lh_at_ok L); [done|congruence|done]). rewrite Hu2. kret_by exact E2.
  kret_by exact Ed. kret. kret_by exact E3. kret_by exact E4. kret_by exact E5.
  exists s5. split_and!; try done. intros n. rewrite Hd5. split; [naive_solver|]. intros Hn.
  split; [done|]. intros ->. apply (Hds (start + 1 + j)); [by apply Hidle|].
  destruct (lok_n _ _ _ _ Hok). unfold in_log. lia.
Qed.

(** One iteration of install_trans: the log slot is copied to the home block. *)
Lemma install_trans_iter ds L j s m :
  idle ds s -> log_ok start size dsz L -> s.(k_log) = L -> s.(k_disksize) = dsz -> 0 <= j < L.(lh_n) ->
  (length ds < NBUF)%nat -> dirty_at s (blk L j) \/ (length ds + 1 < NBUF)%nat ->
  exists s', install_trans_loop (S m) j s = install_trans_loop m (j + 1) s' /\ idle ds s' /\
    (forall n, dirty_at s' n <-> dirty_at s n /\ n <> blk L j) /\
    wrote [(blk L j, view s (start + 1 + j))] s s'.
Proof.
  intros Hidle Hok HL Hz Hj Hlen Hroom. destruct (log_u32 L j Hok Hj) as (Hu1 & Hu2 & Hu3 & Hb1 & Hne).
  destruct (lok_range _ _ _ _ Hok j Hj) as [Hr _].
  cbn [install_trans_loop]. kret. rewrite HL. replace (j <? lh_n L) with true by lia. cbn [negb].
  rewrite Hu1, Hu3.
  destruct (copy_pair false ds s (start + 1 + j) (blk L j) Hidle Hlen Hne) as
    (b1 & b2 & s1 & s2 & s3 & s4 & s5 & E1 & HL1 & E2 & Ed & E3 & E4 & E5 & Hidle5 & Hd5 & Hw5);
    [lia|lia|done|].
  kret_by exact E1. kret_by (apply (lh_at_ok L); [done|congruence|done]). rewrite Hu2. kret_by exact E2.
  kret_by exact Ed. kret. kret_by exact E3. kret_by exact E4. kret_by exact E5.
  by exists s5.
Qed.

Definition log_writes (L : logst) (s : kernel) (t k : Z) : list (Z * list Z) :=
  (fun j => (start + 1 + j, view s (blk L j))) <$> seqZ t k.
Definition home_writes (L : logst) (s : kernel) (t k : Z) : list (Z * list Z) :=
  (fun j => (blk L j, view s (start + 1 + j))) <$> seqZ t k.

Lemma write_log_loop_ok ds L k : forall fuel t s,
  idle ds s -> log_ok start size dsz L -> s.(k_log) = L -> s.(k_disksize) = dsz ->
  0 <= t -> t + Z.of_nat k = L.(lh_n) -> (k < fuel)%nat -> (length ds < NBUF)%nat ->
  (forall n, n ∈ ds -> ~ in_log start size n) ->
  (forall j, 0 <= j < L.(lh_n) -> dirty_at s (blk L j)) ->
  exists s', write_log_loop fuel t s = Ret tt s' /\ idle ds s' /\
    (forall n, dirty_at s' n <-> dirty_at s n) /\ wrote (log_writes L s t (Z.of_nat k)) s s'.
Proof.
  induction k as [|k IH]; intros [|fuel] t s Hidle Hok HL Hz Ht Hk Hf Hlen Hds Hdirty; try lia.
  - exists s. cbn [write_log_loop]. kret. rewrite HL. replace (t <? lh_n L) with false by lia.
    split_and!; try done. by apply same_wrote; [|split; [exists (k_bufs s), (k_lru s), (k_slocks s)|]].
  - destruct (write_log_iter ds L t s fuel) as (s1 & -> & Hidle1 & Hd1 & Hw1); [done..|lia|done|done|apply Hdirty; lia|].
    pose proof Hw1 as (_ & _ & Hv1 & HL1 & Hz1 & _).
    destruct (IH fuel (t + 1) s1) as (s2 & E2 & Hidle2 & Hd2 & Hw2); try done; try lia.
    + by rewrite HL1.
    + intros j Hj. by apply Hd1, Hdirty.
    + exists s2. split_and!; [done|done|intros n; by rewrite Hd2|].
      assert (log_writes L s t (Z.of_nat (S k)) =
        [(start + 1 + t, view s (blk L t))] ++ log_writes L s1 (t + 1) (Z.of_nat k)) as ->;
        [|by eapply wrote_app].
      unfold log_writes. rewrite Nat2Z.inj_succ, seqZ_cons by lia. cbn [fmap list_fmap app]. f_equal.
      rewrite Z.pred_succ, <- Z.add_1_r. apply list_fmap_ext. intros ? j Hj%lookup_seqZ. f_equal.
      rewrite Hv1. symmetry. apply apply_writes_out. cbn. intros [=]%list_elem_of_singleton.
      destruct (lok_range _ _ _ _ Hok j) as [_ Hlog]; [lia|]. apply Hlog.
      destruct (lok_n _ _ _ _ Hok). unfold in_log. lia.
Qed.

Lemma install_trans_loop_ok ds L k : forall fuel t s,
  idle ds s -> log_ok start size dsz L -> s.(k_log) = L -> s.(k_disksize) = dsz ->
  0 <= t -> t + Z.of_nat k = L.(lh_n) -> (k < fuel)%nat -> (length ds < NBUF)%nat ->
  (length ds + 1 < NBUF)%nat \/
  (forall j, t <= j < L.(lh_n) -> dirty_at s (blk L j)) /\
  (forall j j', 0 <= j < L.(lh_n) -> 0 <= j' < L.(lh_n) -> blk L j = blk L j' -> j = j') ->
  exists s', install_trans_loop fuel t s = Ret tt s' /\ idle ds s' /\
    (forall n, dirty_at s' n <-> dirty_at s n /\ n ∉ (home_writes L s t (Z.of_nat k)).*1) /\
    wrote (home_writes L s t (Z.of_nat k)) s s'.
Proof.
  induction k as [|k IH]; intros [|fuel] t s Hidle Hok HL Hz Ht Hk Hf Hlen Hroom; try lia.
  - exists s. cbn [install_trans_loop]. kret. rewrite HL. replace (t <? lh_n L) with false by lia.
    split_and!; try done; [intros n; split; [|naive_solver]; intros; split; [done|apply not_elem_of_nil]|].
    by apply same_wrote; [|split; [exists (k_bufs s), (k_lru s), (k_slocks s)|]].
  - destruct (install_trans_iter ds L t s fuel) as (s1 & -> & Hidle1 & Hd1 & Hw1); [done..|lia|done| |].
    { destruct Hroom as [?|[Hd _]]; [by right|left; apply Hd; lia]. }
    pose proof Hw1 as (_ & _ & Hv1 & HL1 & Hz1 & _).
    destruct (IH fuel (t + 1) s1) as (s2 & E2 & Hidle2 & Hd2 & Hw2); try done; try lia.
    + by rewrite HL1.
    + destruct Hroom as [?|[Hd Hinj]]; [by left|right]. split; [|done]. intros j Hj. apply Hd1.
      split; [apply Hd; lia|]. intros Heq. apply Hinj in Heq; lia.
    + assert (Hcons : home_writes L s t (Z.of_nat (S k)) =
        [(blk L t, view s (start + 1 + t))] ++ home_writes L s1 (t + 1) (Z.of_nat k)).
      { unfold home_writes. rewrite Nat2Z.inj_succ, seqZ_cons by lia. cbn [fmap list_fmap app]. f_equal.
        rewrite Z.pred_succ, <- Z.add_1_r. apply list_fmap_ext. intros ? j Hj%lookup_seqZ. f_equal.
        rewrite Hv1. symmetry. apply apply_writes_out. cbn. intros Heq%list_elem_of_singleton.
        destruct (lok_range _ _ _ _ Hok t) as [_ Hlog]; [lia|]. apply Hlog.
        destruct (lok_n _ _ _ _ Hok). unfold in_log. lia. }
      exists s2. rewrite Hcons. split_and!; [done|done| |by eapply wrote_app].
      intros n. rewrite Hd2, Hd1, fmap_app, not_elem_of_app. cbn. rewrite list_elem_of_singleton. naive_solver.
Qed.

Lemma write_head_ok ds L s :
  idle ds s -> log_ok start size dsz L -> s.(k_log) = L -> s.(k_disksize) = dsz ->
  (length ds < NBUF)%nat -> (forall n, n ∈ ds -> ~ in_log start size n) ->
  exists s', write_head s = Ret tt s' /\ idle ds s' /\ (forall n, dirty_at s' n <-> dirty_at s n) /\
    wrote [(start, put_head (view s start) L.(lh_n) L.(lh_block))] s s'.
Proof.
  intros (Ht & Hbc & Hds) Hok HL Hz Hlen Hnl. destruct (lok_area _ _ _ _ Hok), (lok_n _ _ _ _ Hok).
  assert (Hst : in_log start size start) by (unfold in_log; lia).
  unfold write_head. kret. rewrite HL, (lok_dev _ _ _ _ Hok), (lok_start _ _ _ _ Hok).
  rewrite !u32_small by lia.
  destruct (bread_law i p pid ∅ s start) as (b & s1 & E1 & Ht1 & _ & Hbc1 & Hh1 & _ & [Hv1 Hd1] & Hs1);
    [done|done|by intros ??|apply (room_for pid ∅ s start ds); [done..|rewrite size_empty; lia]|lia|].
  kret_by exact E1. rewrite union_empty_r_L in Hbc1. pose proof Hh1 as (z & Hzb & _ & Hdz).
  kret. unfold buf_of. rewrite Hzb. cbn [default from_option id]. rewrite Hdz. kret.
  apply cache_step_fields in Hs1 as F1. destruct F1 as (K1 & Z1 & W1 & L1).
  rewrite L1, HL. kret.
  set (d := put_head (view s start) (lh_n L) (lh_block L)).
  destruct (set_data_ok pid {[b]} s1 b start _ d Hbc1 ltac:(set_solver) Hh1) as (Hbc2 & Hh2 & _ & Hv2 & Hd2).
  set (s2 := upd_buf b _ s1) in *. assert (Ht2 : thr i p pid ∅ s2) by tframe Ht1.
  destruct (bwrite_law i p pid _ s2 b start d Ht2 Hbc2 ltac:(set_solver) Hh2)
    as (s3 & E3 & Ht3 & Hbc3 & Hh3 & _ & Hv3 & Hd3 & Hs3).
  kret_by exact E3. apply cache_step_fields in Hs3 as F3. destruct F3 as (K3 & Z3 & W3 & L3).
  destruct (brelse_law i p pid _ s3 b start d Ht3 Hbc3 ltac:(set_solver) Hh3)
    as (s4 & E4 & Ht4 & Hbc4 & _ & [Hv4 Hd4] & Hs4).
  { right. rewrite K3. cbn. unfold block_upd. by rewrite Z.eqb_refl. }
  apply cache_step_fields in Hs4 as F4. destruct F4 as (K4 & Z4 & W4 & L4).
  replace ({[b]} ∖ {[b]}) with (∅ : gset nat) in Hbc4 by set_solver.
  assert (Hd : forall n, dirty_at s4 n <-> dirty_at s n).
  { intros n. rewrite Hd4, Hd3, Hd2, Hd1. split; [naive_solver|]. intros Hn. split; [done|].
    intros ->. by apply (Hnl start); [apply Hds|]. }
  exists s4. split; [done|]. split; [split_and!; [done..|intros n Hn; by apply Hds, Hd]|].
  split; [done|]. split_and!.
  - by rewrite W4, W3; cbn; rewrite W1.
  - by rewrite K4, K3; cbn; rewrite K1.
  - intros n. rewrite Hv4, Hv3, Hv2. cbn. unfold block_upd. by rewrite Hv1.
  - rewrite L4, L3. exact L1.
  - rewrite Z4, Z3. exact Z1.
  - transitivity s1; [by apply cache_step_log|]. transitivity s2; [apply upd_buf_step|].
    transitivity s3; [by eapply disk_write_step|by apply cache_step_log].
Qed.

Lemma idle_upd_log ds f s : idle ds s -> idle ds (upd_log f s).
Proof. intros (Ht & Hbc & Hds). split_and!; [tframe Ht|by destruct Hbc; split|done]. Qed.

(** The blocks of the transaction and their new contents. *)
Definition tx_blocks (L : logst) : list Z := blk L <$> seqZ 0 L.(lh_n).

Lemma tx_blocks_lookup L k :
  (Z.of_nat k < L.(lh_n)) -> tx_blocks L !! k = Some (blk L (Z.of_nat k)).
Proof.
  intros Hk. unfold tx_blocks. rewrite list_lookup_fmap, (proj2 (lookup_seqZ 0 _ k (Z.of_nat k))) by lia. done.
Qed.

Lemma length_tx_blocks L : length (tx_blocks L) = Z.to_nat L.(lh_n).
Proof. unfold tx_blocks. by rewrite length_fmap, length_seqZ. Qed.

Lemma tx_blocks_take L :
  log_ok start size dsz L -> take (Z.to_nat L.(lh_n)) L.(lh_block) = tx_blocks L.
Proof.
  intros Hok. apply list_eq. intros k. destruct (lok_n _ _ _ _ Hok).
  destruct (decide (k < Z.to_nat (lh_n L))%nat) as [Hk|Hk].
  - rewrite lookup_take_lt by done. rewrite tx_blocks_lookup by lia.
    rewrite <- (lok_block _ _ _ _ Hok) by lia. by rewrite Nat2Z.id.
  - rewrite lookup_take_ge by lia. symmetry. apply lookup_ge_None. rewrite length_tx_blocks. lia.
Qed.

Lemma put_head_tx L d : log_ok start size dsz L -> put_head d L.(lh_n) L.(lh_block) = put_head d L.(lh_n) (tx_blocks L).
Proof.
  intros Hok. unfold put_head. rewrite (tx_blocks_take L Hok), (take_ge (tx_blocks L)); [done|].
  by rewrite length_tx_blocks.
Qed.

Lemma lookup_seqZ_0 n k : (Z.of_nat k < n) -> seqZ 0 n !! k = Some (Z.of_nat k).
Proof. intros. apply lookup_seqZ. lia. Qed.

Lemma log_writes_zip L s :
  0 <= L.(lh_n) ->
  log_writes L s 0 L.(lh_n) = zip (seqZ (start + 1) (Z.of_nat (length (tx_blocks L)))) (view s <$> tx_blocks L).
Proof.
  intros Hn. rewrite length_tx_blocks, Z2Nat.id by done. apply list_eq. intros k.
  unfold log_writes. rewrite list_lookup_fmap, lookup_zip_with, list_lookup_fmap.
  destruct (decide (Z.of_nat k < lh_n L)) as [Hk|Hk].
  - rewrite lookup_seqZ_0, tx_blocks_lookup by done.
    rewrite (proj2 (lookup_seqZ (start + 1) _ k (start + 1 + Z.of_nat k))) by lia. done.
  - by rewrite !(lookup_ge_None_2 (seqZ _ _)) by (rewrite length_seqZ; lia).
Qed.

Lemma home_writes_zip L s ds :
  0 <= L.(lh_n) -> length ds = length (tx_blocks L) ->
  (forall k d, ds !! k = Some d -> view s (start + 1 + Z.of_nat k) = d) ->
  home_writes L s 0 L.(lh_n) = zip (tx_blocks L) ds.
Proof.
  intros Hn Hlen Hds. rewrite length_tx_blocks in Hlen. apply list_eq. intros k.
  unfold home_writes. rewrite list_lookup_fmap, lookup_zip_with.
  destruct (decide (Z.of_nat k < lh_n L)) as [Hk|Hk].
  - rewrite lookup_seqZ_0, tx_blocks_lookup by done. cbn.
    destruct (lookup_lt_is_Some_2 ds k) as [d Hd]; [lia|]. rewrite Hd. cbn. by rewrite (Hds k d).
  - rewrite (lookup_ge_None_2 (seqZ _ _)), (lookup_ge_None_2 (tx_blocks _)); [done|..];
      rewrite ?length_seqZ, ?length_tx_blocks; lia.
Qed.

(** A transaction ready to commit: its blocks are distinct and dirty, and
    nothing else is. *)
Record ready (L : logst) (s : kernel) : Prop := {
  rd_idle : idle (tx_blocks L) s;
  rd_ok : log_ok start size dsz L;
  rd_log : s.(k_log) = L;
  rd_dsz : s.(k_disksize) = dsz;
  rd_n : 0 < L.(lh_n) < Z.of_nat NBUF;
  rd_dirty j : 0 <= j < L.(lh_n) -> dirty_at s (blk L j);
  rd_inj j j' : 0 <= j < L.(lh_n) -> 0 <= j' < L.(lh_n) -> blk L j = blk L j' -> j = j'
}.

Lemma tx_not_log L n : log_ok start size dsz L -> n ∈ tx_blocks L -> ~ in_log start size n.
Proof.
  intros Hok (j & -> & Hj%elem_of_seqZ)%list_elem_of_fmap. by apply (lok_range _ _ _ _ Hok j).
Qed.

Lemma tx_length L : 0 < L.(lh_n) < Z.of_nat NBUF -> (length (tx_blocks L) < NBUF)%nat.
Proof. rewrite length_tx_blocks. lia. Qed.

(** The first half of a commit: log blocks and header. *)
Lemma commit_log L s :
  ready L s ->
  exists s1 s2, write_log s = Ret tt s1 /\ write_head s1 = Ret tt s2 /\ idle (tx_blocks L) s2 /\
    (forall n, dirty_at s2 n <-> dirty_at s n) /\
    let ds := view s <$> tx_blocks L in
    wrote (zip (seqZ (start + 1) (Z.of_nat (length (tx_blocks L)))) ds ++
           [(start, put_head (view s start) L.(lh_n) (tx_blocks L))]) s s2.
Proof.
  intros [Hidle Hok HL Hz Hn Hdirty Hinj].
  assert (Hlen := tx_length L Hn). assert (Hnl := fun n => tx_not_log L n Hok).
  destruct (write_log_loop_ok (tx_blocks L) L (Z.to_nat (lh_n L)) (S (Z.to_nat (lh_n L))) 0 s)
    as (s1 & E1 & Hidle1 & Hd1 & Hw1); try done; try lia.
  rewrite Z2Nat.id in Hw1 by lia. pose proof Hw1 as (_ & _ & Hv1 & HL1 & Hz1 & _).
  destruct (write_head_ok (tx_blocks L) L s1) as (s2 & E2 & Hidle2 & Hd2 & Hw2); try done; try congruence.
  exists s1, s2. split_and!; try done.
  - unfold write_log. kret. by rewrite HL.
  - intros n. by rewrite Hd2.
  - cbn zeta. rewrite <- log_writes_zip by lia. rewrite <- put_head_tx by done.
    eapply wrote_app; [exact Hw1|]. replace (view s start) with (view s1 start); [done|].
    rewrite Hv1. apply apply_writes_out. rewrite log_writes_zip by lia.
    rewrite fst_zip by (rewrite length_seqZ, length_fmap; lia). rewrite elem_of_seqZ. lia.
Qed.

Lemma log_ok_zero L : log_ok start size dsz L -> log_ok start size dsz (L<|lh_n := 0|>).
Proof.
  intros [Hd Hs Ha Hn Hb Hr]. split; try done; cbn; intros; lia.
Qed.

Lemma idle_shrink ds ds' s :
  idle ds s -> (forall n, dirty_at s n -> n ∈ ds') -> idle ds' s.
Proof. intros (Ht & Hbc & _) H. by split_and!. Qed.

(** The second half: install the blocks, and clear the header. *)
Lemma commit_install L s ds :
  idle (tx_blocks L) s -> log_ok start size dsz L -> s.(k_log) = L -> s.(k_disksize) = dsz ->
  0 < L.(lh_n) < Z.of_nat NBUF ->
  (forall j, 0 <= j < L.(lh_n) -> dirty_at s (blk L j)) ->
  (forall j j', 0 <= j < L.(lh_n) -> 0 <= j' < L.(lh_n) -> blk L j = blk L j' -> j = j') ->
  length ds = length (tx_blocks L) ->
  (forall k d, ds !! k = Some d -> view s (start + 1 + Z.of_nat k) = d) ->
  exists s1 s2, install_trans s = Ret tt s1 /\
    write_head (upd_log (fun l => l<|lh_n := 0|>) s1) = Ret tt s2 /\ idle [] s2 /\
    s2.(k_log) = L<|lh_n := 0|> /\ s2.(k_disksize) = dsz /\ log_step s s2 /\
    let ws := zip (tx_blocks L) ds ++ [(start, put_head (view s start) 0 (tx_blocks L))] in
    s2.(k_writes) = s.(k_writes) ++ ws /\ s2.(k_disk) = apply_writes ws s.(k_disk) /\
    forall n, view s2 n = apply_writes ws (view s) n.
Proof.
  intros Hidle Hok HL Hz Hn Hdirty Hinj Hlen Hds.
  destruct (install_trans_loop_ok (tx_blocks L) L (Z.to_nat (lh_n L)) (S (Z.to_nat (lh_n L))) 0 s)
    as (s1 & E1 & Hidle1 & Hd1 & Hw1); try done; try lia; [by apply tx_length|by right|].
  rewrite Z2Nat.id, (home_writes_zip L s ds) in Hw1, Hd1 by (done || lia).
  destruct Hw1 as (Hw1 & Hk1 & Hv1 & HL1 & Hz1 & Hs1).
  assert (Hclean : idle [] s1).
  { eapply idle_shrink; [exact Hidle1|]. intros n [Hd Hnot]%Hd1. exfalso. apply Hnot.
    rewrite fst_zip by lia. by apply Hidle. }
  destruct (write_head_ok [] (L<|lh_n := 0|>) (upd_log (fun l => l<|lh_n := 0|>) s1))
    as (s2 & E2 & Hidle2 & Hd2 & Hw2 & Hk2 & Hv2 & HL2 & Hz2 & Hs2).
  { by apply idle_upd_log. }
  { by apply log_ok_zero. }
  { unfold upd_log, setf, set_k_log. cbn. by rewrite HL1, HL. }
  { change (k_disksize s1 = dsz). congruence. }
  { cbn. unfold NBUF. lia. }
  { by intros n ?%not_elem_of_nil. }
  exists s1, s2. split_and!; try done.
  - unfold install_trans. kret. by rewrite HL.
  - rewrite HL2. unfold upd_log, setf, set_k_log. cbn. by rewrite HL1, HL.
  - rewrite Hz2. change (k_disksize s1 = dsz). congruence.
  - transitivity s1; [done|]. transitivity (upd_log (fun l => l<|lh_n := 0|>) s1); [apply upd_log_step|done].
  - assert (Hst : view s1 start = view s start).
    { rewrite Hv1. apply apply_writes_out. rewrite fst_zip by lia. intros Hin.
      apply (tx_not_log L start Hok Hin). destruct (lok_n _ _ _ _ Hok). unfold in_log. lia. }
    change (view (upd_log _ s1) start) with (view s1 start) in *. rewrite Hst in *.
    change (put_head (view s start) 0 (lh_block L)) with (put_head (view s start) 0 (tx_blocks L)) in *.
    cbn zeta. split_and!.
    + rewrite Hw2. change (k_writes (upd_log _ s1)) with (k_writes s1). by rewrite Hw1, app_assoc.
    + rewrite Hk2. change (k_disk (upd_log _ s1)) with (k_disk s1). by rewrite Hk1, apply_writes_app.
    + intros n. rewrite Hv2, apply_writes_app. apply apply_writes_ext. exact (Hv1 n).
Qed.

Lemma commit_ok L s :
  ready L s ->
  exists s', commit s = Ret tt s' /\ idle [] s' /\ s'.(k_log) = L<|lh_n := 0|> /\
    s'.(k_disksize) = dsz /\ log_step s s' /\
    let ws := commit_writes start (view s start) (tx_blocks L) (view s <$> tx_blocks L) in
    s'.(k_writes) = s.(k_writes) ++ ws /\ s'.(k_disk) = apply_writes ws s.(k_disk) /\
    forall n, view s' n = apply_writes ws (view s) n.
Proof.
  intros Hrd. pose proof Hrd as [Hidle Hok HL Hz Hn Hdirty Hinj].
  set (bs := tx_blocks L). set (ds := view s <$> bs).
  assert (Hlen : length ds = length bs) by (apply length_fmap).
  assert (Hnn : Z.of_nat (length bs) = lh_n L) by (unfold bs; rewrite length_tx_blocks; lia).
  destruct (commit_log L s Hrd) as (s1 & s2 & E1 & E2 & Hidle2 & Hd2 & Hw2 & Hk2 & Hv2 & HL2 & Hz2 & Hs2).
  cbn zeta in Hw2, Hk2, Hv2. fold bs ds in Hw2, Hk2, Hv2.
  set (ws1 := zip _ ds ++ [_]) in Hw2, Hk2, Hv2.
  destruct (commit_install L s2 ds) as (s3 & s4 & E3 & E4 & Hidle4 & HL4 & Hz4 & Hs4 & Hw4 & Hk4 & Hv4);
    try done; try congruence.
  { intros j Hj. by apply Hd2, Hdirty. }
  { intros k d Hd. rewrite Hv2. unfold ws1. rewrite apply_writes_app. cbn. unfold block_upd.
    assert (k < length bs)%nat by (rewrite <- Hlen; by eapply lookup_lt_Some).
    rewrite (proj2 (Z.eqb_neq (start + 1 + Z.of_nat k) start)) by lia. by apply (W1_lookup start bs ds). }
  assert (Hhd : view s2 start = put_head (view s start) (lh_n L) bs).
  { rewrite Hv2. unfold ws1. rewrite apply_writes_app. cbn. unfold block_upd. by rewrite Z.eqb_refl. }
  rewrite Hhd in Hw4, Hk4, Hv4. fold bs in Hw4, Hk4, Hv4.
  assert (Hws : commit_writes start (view s start) bs ds =
    ws1 ++ zip bs ds ++ [(start, put_head (put_head (view s start) (lh_n L) bs) 0 bs)]).
  { unfold commit_writes, ws1. rewrite Hnn. by rewrite <- app_assoc. }
  exists s4. split_and!; try done.
  - unfold commit. kret. rewrite HL. replace (0 <? lh_n L) with true by lia.
    kret_by exact E1. kret_by exact E2. kret_by exact E3. kret. done.
  - by transitivity s2.
  - cbn zeta. fold bs ds. rewrite Hws. split_and!.
    + by rewrite Hw4, Hw2, <- app_assoc.
    + by rewrite Hk4, Hk2, <- apply_writes_app.
    + intros n. rewrite Hv4, (apply_writes_app ws1). by apply apply_writes_ext.
Qed.

(** ** Recovery *)

(** The header read so far agrees with [d]; the rest of the log is as in [L]. *)
Definition read_upto (L : logst) (d : list Z) (t : Z) (L' : logst) : Prop :=
  L' = L<|lh_n := hdr_n d|><|lh_block := L'.(lh_block)|> /\
  length L'.(lh_block) = Z.to_nat LOGSIZE /\
  forall j, 0 <= j < t -> L'.(lh_block) !! Z.to_nat j = Some (hdr_block d j).

Lemma read_head_loop_ok d L0 k : forall fuel t s,
  read_upto L0 d t s.(k_log) -> 0 <= t -> t + Z.of_nat k = hdr_n d -> (k < fuel)%nat ->
  hdr_n d <= LOGSIZE ->
  exists L', read_head_loop fuel d t s = Ret tt (s<|k_log := L'|>) /\ read_upto L0 d (hdr_n d) L'.
Proof.
  induction k as [|k IH]; intros [|fuel] t s Hup Ht Hk Hf Hmax; try lia; cbn [read_head_loop]; kret;
    pose proof Hup as (HL & Hlen & Hb); assert (Hn : lh_n (k_log s) = hdr_n d) by (by rewrite HL);
    rewrite Hn.
  - replace (t <? hdr_n d) with false by lia. exists (k_log s). split; [done|].
    by replace (hdr_n d) with t by lia.
  - replace (t <? hdr_n d) with true by lia. cbn [negb].
    set (s1 := upd_log (fun l => l<|lh_block ::= <[Z.to_nat t := hdr_block d t]>|>) s).
    assert (E : set_lh_at t (hdr_block d t) s = Ret tt s1).
    { unfold set_lh_at. kret. by rewrite (proj2 (Z.leb_gt _ _)) by (rewrite Hlen; unfold LOGSIZE, MAXOPBLOCKS in *; lia). }
    kret_by exact E. destruct (IH fuel (t + 1) s1) as (L' & E' & Hup'); [|lia..|].
    + split_and!.
      * unfold s1, upd_log. cbn. rewrite HL at 1. done.
      * unfold s1, upd_log. cbn. by rewrite length_insert.
      * intros j Hj. unfold s1, upd_log. cbn. destruct (decide (j = t)) as [->|Hne].
        -- apply list_lookup_insert_eq. rewrite Hlen. lia.
        -- rewrite list_lookup_insert_ne by lia. apply Hb. lia.
    + by exists L'.
Qed.

Lemma read_head_ok L s :
  idle [] s -> s.(k_log) = L -> L.(lg_dev) = 1 -> L.(lg_start) = start ->
  length L.(lh_block) = Z.to_nat LOGSIZE -> 0 <= start < dsz -> dsz <= 2 ^ 31 -> s.(k_disksize) = dsz ->
  0 <= hdr_n (view s start) <= LOGSIZE ->
  exists s' L', read_head s = Ret tt s' /\ idle [] s' /\ s'.(k_log) = L' /\
    read_upto L (view s start) (hdr_n (view s start)) L' /\ same_blocks s s' /\
    s'.(k_disk) = s.(k_disk) /\ s'.(k_writes) = s.(k_writes) /\ s'.(k_disksize) = dsz /\ log_step s s'.
Proof.
  intros (Ht & Hbc & Hds) HL Hdev Hstart Hlen Hst Hdsz Hz Hn. unfold read_head. kret.
  rewrite HL, Hdev, Hstart, !u32_small by lia.
  assert (Hclean : forall n, ~ dirty_at s n) by (by intros n ?%Hds%not_elem_of_nil).
  destruct (bread_law i p pid ∅ s start) as (b & s1 & E1 & Ht1 & _ & Hbc1 & Hh1 & _ & [Hv1 Hd1] & Hs1);
    [done|done|by intros ??|by eapply no_dirty_room|lia|].
  kret_by exact E1. rewrite union_empty_r_L in Hbc1. pose proof Hh1 as (z & Hzb & _ & Hdz).
  kret. unfold buf_of. rewrite Hzb. cbn [default from_option id]. rewrite Hdz. kret.
  set (d := view s start) in *. apply cache_step_fields in Hs1 as F1. destruct F1 as (K1 & Z1 & W1 & L1).
  set (s2 := upd_log (fun l => l<|lh_n := hdr_n d|>) s1).
  destruct (read_head_loop_ok d L (Z.to_nat (hdr_n d)) (S (Z.to_nat (hdr_n d))) 0 s2) as (L' & E2 & Hup);
    [|lia..|].
  { unfold s2, upd_log, setf, set_k_log. cbn. rewrite L1, HL. split_and!; [done|done|lia]. }
  kret_by exact E2. set (s3 := s2<|k_log := L'|>).
  assert (Ht3 : thr i p pid ∅ s3) by tframe Ht1.
  assert (Hbc3 : bc pid {[b]} s3) by (by destruct Hbc1; split).
  destruct (brelse_law i p pid _ s3 b start d Ht3 Hbc3 ltac:(set_solver) Hh1)
    as (s4 & E4 & Ht4 & Hbc4 & _ & [Hv4 Hd4] & Hs4).
  { right. change (d = k_disk s1 start). rewrite K1. destruct (dirty_or_clean s start Hbc) as [?%Hclean|]; done. }
  apply cache_step_fields in Hs4 as F4. destruct F4 as (K4 & Z4 & W4 & L4).
  replace ({[b]} ∖ {[b]}) with (∅ : gset nat) in Hbc4 by set_solver.
  exists s4, L'. split_and!; try done.
  - split_and!; [done|done|]. intros n Hn'. by apply Hd4, Hd1, Hclean in Hn'.
  - split; intros n; [rewrite Hv4; exact (Hv1 n)|rewrite Hd4; exact (Hd1 n)].
  - rewrite K4. exact K1.
  - rewrite W4. exact W1.
  - rewrite Z4. change (k_disksize s1 = dsz). congruence.
  - transitivity s1; [by apply cache_step_log|]. transitivity s2; [apply upd_log_step|].
    transitivity s3; [apply (upd_log_step (fun _ => L') s2)|by apply cache_step_log].
Qed.

Lemma clean_view s n : idle [] s -> view s n = s.(k_disk) n.
Proof.
  intros (_ & Hbc & Hds). destruct (dirty_or_clean s n Hbc) as [?%Hds%not_elem_of_nil|]; done.
Qed.

Lemma read_log_ok L d L' :
  L.(lg_dev) = 1 -> L.(lg_start) = start -> 0 <= start -> start + size <= dsz -> dsz <= 2 ^ 31 ->
  header_ok start size dsz d -> read_upto L d (hdr_n d) L' ->
  log_ok start size dsz L' /\ lh_n L' = hdr_n d /\ forall j, 0 <= j < hdr_n d -> blk L' j = hdr_block d j.
Proof.
  intros Hdev Hstart Hs Hsz Hdsz (_ & Hn & Hmax & Hb) (HL & Hlen & Hrd).
  assert (Hn' : lh_n L' = hdr_n d) by (by rewrite HL).
  assert (Hblk : forall j, 0 <= j < hdr_n d -> blk L' j = hdr_block d j)
    by (intros j Hj; unfold blk; by rewrite Hrd).
  split; [|done]. split.
  - by rewrite HL.
  - by rewrite HL.
  - done.
  - rewrite Hn'. done.
  - intros j Hj. rewrite Hn' in Hj. by rewrite Hblk, Hrd.
  - intros j Hj. rewrite Hn' in Hj. rewrite Hblk by done. by apply Hb.
Qed.

Lemma recover_ok L s :
  idle [] s -> s.(k_log) = L -> L.(lg_dev) = 1 -> L.(lg_start) = start ->
  length L.(lh_block) = Z.to_nat LOGSIZE -> 0 <= start -> start + size <= dsz -> dsz <= 2 ^ 31 ->
  s.(k_disksize) = dsz -> header_ok start size dsz (s.(k_disk) start) ->
  exists s', recover_from_log s = Ret tt s' /\ idle [] s' /\ lh_n s'.(k_log) = 0 /\
    s'.(k_disksize) = dsz /\ log_step s s' /\
    s'.(k_writes) = s.(k_writes) ++ recovery_writes start s.(k_disk) /\
    s'.(k_disk) = apply_writes (recovery_writes start s.(k_disk)) s.(k_disk).
Proof.
  intros Hidle HL Hdev Hstart Hlen H0 Hsz Hdsz Hz Hh. unfold recover_from_log.
  pose proof Hh as (_ & Hn & Hmax & _). rewrite <- (clean_view s start Hidle) in Hh, Hn, Hmax.
  destruct (read_head_ok L s) as (s1 & L' & E1 & Hidle1 & HL1 & Hup & [Hv1 _] & K1 & W1 & Z1 & Hs1); try done; try lia.
  kret_by exact E1. set (d := view s start) in *.
  destruct (read_log_ok L d L') as (Hok & Hn' & Hblk); try done.
  destruct (install_trans_loop_ok [] L' (Z.to_nat (lh_n L')) (S (Z.to_nat (lh_n L'))) 0 s1)
    as (s2 & E2 & Hidle2 & Hd2 & W2 & K2 & Hv2 & HL2 & Z2 & Hs2); try done; try lia;
    [cbn; unfold NBUF; lia|left; cbn; unfold NBUF; lia|].
  kret_by (unfold install_trans; kret; by rewrite HL1). kret.
  destruct (write_head_ok [] (L'<|lh_n := 0|>) (upd_log (fun l => l<|lh_n := 0|>) s2))
    as (s3 & E3 & Hidle3 & Hd3 & W3 & K3 & Hv3 & HL3 & Z3 & Hs3).
  { by apply idle_upd_log. }
  { by apply log_ok_zero. }
  { unfold upd_log, setf, set_k_log. cbn. by rewrite HL2, HL1. }
  { change (k_disksize s2 = dsz). congruence. }
  { cbn. unfold NBUF. lia. }
  { by intros n ?%not_elem_of_nil. }
  assert (Hws : home_writes L' s1 0 (Z.of_nat (Z.to_nat (lh_n L'))) = install_writes start (k_disk s)).
  { unfold home_writes, install_writes. rewrite Z2Nat.id by lia. rewrite Hn', <- (clean_view s start Hidle).
    apply list_fmap_ext. intros ? j [-> Hj]%lookup_seqZ. fold d in Hj |- *. rewrite Hblk by lia. f_equal.
    rewrite Hv1. by apply clean_view. }
  rewrite Hws in W2, K2, Hv2.
  assert (Hst : view s2 start = k_disk s start).
  { rewrite Hv2, apply_writes_out; [by rewrite Hv1; apply clean_view|].
    apply (install_not_log start size dsz); [by rewrite <- (clean_view s start Hidle)|].
    unfold in_log. lia. }
  change (view (upd_log _ s2) start) with (view s2 start) in *. rewrite Hst in *.
  exists s3. split_and!; try done.
  - by rewrite HL3.
  - rewrite Z3. change (k_disksize s2 = dsz). congruence.
  - transitivity s1; [done|]. transitivity s2; [done|].
    transitivity (upd_log (fun l => l<|lh_n := 0|>) s2); [apply upd_log_step|done].
  - rewrite W3. change (k_writes (upd_log _ s2)) with (k_writes s2). rewrite W2, W1, <- app_assoc. done.
  - rewrite K3. change (k_disk (upd_log _ s2)) with (k_disk s2).
    rewrite K2, K1. unfold recovery_writes. by rewrite apply_writes_app.
Qed.
End Steps.

(** ** Crash safety *)
Section Crash.
Context {P : Patience} {D : BlockDriver} {CL : CacheLaws P D}.
Context (i p : nat) (pid : Z) (start size dsz : Z).

(** A machine that has just booted: nothing cached, the log not read yet. *)
Record rebooted (dk : Z -> list Z) (s : kernel) : Prop := {
  rb_idle : idle i p pid [] s;
  rb_disk : s.(k_disk) = dk;
  rb_dsz : s.(k_disksize) = dsz;
  rb_dev : lg_dev s.(k_log) = 1;
  rb_start : lg_start s.(k_log) = start;
  rb_len : length (lh_block s.(k_log)) = Z.to_nat LOGSIZE
}.

(** Recovery makes of a disk what [recovered] says, outside the log. *)
Lemma recover_recovered dk s :
  0 <= start -> 0 < size -> start + size <= dsz -> dsz <= 2 ^ 31 ->
  rebooted dk s -> header_ok start size dsz (dk start) ->
  exists s', recover_from_log s = Ret tt s' /\
    s'.(k_writes) = s.(k_writes) ++ recovery_writes start dk /\
    forall m, ~ in_log start size m -> s'.(k_disk) m = recovered start dk m.
Proof.
  intros H0 Hsz Hdsz Hmax [Hidle Hdk Hz Hdev Hst Hlen] Hh.
  destruct (recover_ok i p pid start size dsz (k_log s) s) as (s' & E & _ & _ & _ & _ & Hw & Hk);
    try done; [by rewrite Hdk|].
  exists s'. split_and!; [done|by rewrite Hw, Hdk|]. intros m Hm. rewrite Hk, Hdk.
  unfold recovery_writes. rewrite apply_writes_app, apply_writes_cons. cbn [fst snd].
  change (apply_writes [] ?x) with x. unfold block_upd, in_log in *.
  by rewrite (proj2 (Z.eqb_neq m start)) by lia.
Qed.

Lemma hdr_ok_zero d : 0 < size -> length d = Z.to_nat BSIZE -> hdr_n d = 0 -> header_ok start size dsz d.
Proof.
  intros Hs Hl Hn. unfold header_ok. rewrite Hn. split_and!; [done|lia|lia| |].
  - unfold LOGSIZE, MAXOPBLOCKS. lia.
  - intros t Ht. lia.
Qed.

Lemma crash_header_ok dk bs ds j :
  length ds = length bs -> Z.of_nat (length bs) < size -> Z.of_nat (length bs) <= LOGSIZE ->
  dsz <= 2 ^ 31 -> length (dk start) = Z.to_nat BSIZE -> hdr_n (dk start) = 0 ->
  Forall (fun b => 0 <= b < dsz /\ ~ in_log start size b) bs ->
  header_ok start size dsz (apply_writes (take j (commit_writes start (dk start) bs ds)) dk start).
Proof.
  intros Hld Hsz Hmax Hdsz Hlen H0 Hbs.
  assert (Hbs' : Forall (fun b => 0 <= b < 2 ^ 31 /\ ~ in_log start size b) bs).
  { eapply list.Forall_impl; [exact Hbs|]. cbn. intros b [? ?]. split; [lia|done]. }
  destruct (crash_header start size dk bs ds Hld Hsz Hbs' j) as [-> |[-> | ->]].
  - apply hdr_ok_zero; [lia|done..].
  - unfold header_ok. rewrite length_put_head, hdr1_n by done. split_and!; [done|lia..|].
    intros t Ht. destruct (lookup_lt_is_Some_2 bs (Z.to_nat t)) as [b Hb]; [lia|].
    replace t with (Z.of_nat (Z.to_nat t)) by lia.
    rewrite (hdr1_block start size dk bs Hbs' Hmax Hlen _ b) by done.
    exact (Forall_lookup_1 _ _ _ _ Hbs Hb).
  - apply hdr_ok_zero; [lia|by rewrite !length_put_head|by apply (hdr2_n start)].
Qed.

(** C1: committing a transaction is atomic with respect to crashes.  If the
    machine stops after any number of the disk writes commit makes, then
    recovery on the rebooted machine terminates and leaves every block outside
    the log either as it was before the transaction, or as the transaction made
    it, the same for all blocks.  A commit that completes has installed all of
    its blocks. *)
Theorem commit_crash_safe (L : logst) (s : kernel) :
  ready i p pid start size dsz L s ->
  length (s.(k_disk) start) = Z.to_nat BSIZE -> hdr_n (s.(k_disk) start) = 0 ->
  exists s' ws, commit s = Ret tt s' /\ s'.(k_writes) = s.(k_writes) ++ ws /\
    (forall m, ~ in_log start size m -> s'.(k_disk) m = view s m) /\
    forall j s1, rebooted (apply_writes (take j ws) s.(k_disk)) s1 ->
      exists s2, recover_from_log s1 = Ret tt s2 /\
        ((forall m, ~ in_log start size m -> s2.(k_disk) m = s.(k_disk) m) \/
         (forall m, ~ in_log start size m -> s2.(k_disk) m = view s m)).
Proof.
  intros Hrd Hlen H0. pose proof Hrd as [Hidle Hok HL Hz Hn Hdirty Hinj].
  destruct (lok_area _ _ _ _ Hok) as (Hs0 & Hs1 & Hs2), (lok_n _ _ _ _ Hok) as [Hn0 Hn1].
  destruct (commit_ok i p pid start size dsz L s Hrd) as (s' & E & _ & _ & _ & _ & Hw & Hk & _).
  set (bs := tx_blocks L) in *. set (ds := view s <$> bs) in *. cbn zeta in Hw, Hk.
  assert (Hst : view s start = k_disk s start).
  { destruct (dirty_or_clean pid s start) as [Hd|]; [apply Hidle| |done]. exfalso.
    apply Hidle in Hd. apply (tx_not_log start size dsz L start Hok Hd). unfold in_log. lia. }
  rewrite Hst in Hw, Hk. set (ws := commit_writes start (k_disk s start) bs ds) in *.
  assert (Hlb : Z.of_nat (length bs) = lh_n L) by (unfold bs; rewrite length_tx_blocks; lia).
  assert (Hld : length ds = length bs) by (apply length_fmap).
  assert (Hbs0 : Forall (fun b => 0 <= b < dsz /\ ~ in_log start size b) bs).
  { apply Forall_forall. intros b (j & -> & Hj%elem_of_seqZ)%list_elem_of_In%list_elem_of_fmap.
    by apply (lok_range _ _ _ _ Hok j). }
  assert (Hbs : Forall (fun b => 0 <= b < 2 ^ 31 /\ ~ in_log start size b) bs).
  { eapply list.Forall_impl; [exact Hbs0|]. cbn. intros b [? ?]. split; [lia|done]. }
  assert (Hnew : forall m, apply_writes (zip bs ds) (k_disk s) m = view s m).
  { intros m. unfold ds. rewrite apply_zip_fmap. destruct (decide (m ∈ bs)) as [|Hout]; [done|].
    destruct (dirty_or_clean pid s m) as [Hd|]; [apply Hidle| |done]. by apply Hidle in Hd. }
  exists s', ws. split_and!; [done|done| |].
  - intros m Hm. rewrite Hk. unfold ws. rewrite (commit_final start size); try done. lia.
  - intros j s1 Hrb.
    destruct (recover_recovered _ s1 Hs0 ltac:(lia) Hs1 Hs2 Hrb) as (s2 & E2 & _ & Hk2).
    { apply crash_header_ok; try done; lia. }
    exists s2. split; [done|]. destruct (Nat.leb_spec j (length bs)) as [Hj|Hj]; [left|right];
      intros m Hm; rewrite Hk2 by done; unfold ws; rewrite (commit_crash start size) by (done || lia).
    + by rewrite (proj2 (Nat.leb_le _ _)) by done.
    + by rewrite (proj2 (Nat.leb_gt _ _)) by done.
Qed.

(** The header a crash during recovery leaves. *)
Lemma recovery_header_ok dk j :
  0 < size -> header_ok start size dsz (dk start) ->
  header_ok start size dsz (apply_writes (take j (recovery_writes start dk)) dk start).
Proof.
  intros Hsz Hh. pose proof Hh as (Hlen & _). unfold recovery_writes.
  set (W := install_writes start dk).
  destruct (decide (j <= length W)%nat) as [Hj|Hj].
  - rewrite take_app_le by done. rewrite apply_writes_out; [done|].
    apply not_in_take. apply (install_not_log start size dsz); [done|unfold in_log; lia].
  - rewrite take_ge by (rewrite length_app; cbn; lia). rewrite apply_writes_app, apply_writes_cons.
    cbn [fst snd]. change (apply_writes [] ?x) with x. unfold block_upd. rewrite Z.eqb_refl.
    apply hdr_ok_zero; [done|by rewrite length_put_head|].
    apply put_head_n; [rewrite Hlen; unfold BSIZE|]; lia.
Qed.

(** C2: recovery can itself be interrupted.  If the machine stops after any
    number of the writes recovery makes and recovery is started again, it
    terminates and leaves every block outside the log as the uninterrupted
    recovery would have. *)
Theorem recovery_restartable (dk : Z -> list Z) (s : kernel) :
  0 <= start -> 0 < size -> start + size <= dsz -> dsz <= 2 ^ 31 ->
  rebooted dk s -> header_ok start size dsz (dk start) ->
  exists s' ws, recover_from_log s = Ret tt s' /\ s'.(k_writes) = s.(k_writes) ++ ws /\
    forall j s1, rebooted (apply_writes (take j ws) dk) s1 ->
      exists s2, recover_from_log s1 = Ret tt s2 /\
        forall m, ~ in_log start size m -> s2.(k_disk) m = s'.(k_disk) m.
Proof.
  intros H0 Hsz Hdsz Hmax Hrb Hh.
  destruct (recover_recovered dk s H0 Hsz Hdsz Hmax Hrb Hh) as (s' & E & Hw & Hk).
  exists s', (recovery_writes start dk). split_and!; [done..|]. intros j s1 Hrb1.
  destruct (recover_recovered _ s1 H0 Hsz Hdsz Hmax Hrb1) as (s2 & E2 & _ & Hk2).
  { by apply recovery_header_ok. }
  exists s2. split; [done|]. intros m Hm. rewrite Hk2, Hk by done. by apply (recovery_crash start size dsz).
Qed.
End Crash.

(** ** A concrete transaction: block 45 is dirty, with contents 1 2 3. *)
#[local] Instance log_waits : Patience := 1%nat.

Definition tx_log : logst := mklog 2 30 0 1 1 1 (45 :: replicate 29 0).
Definition tx_machine : kernel :=
  fs_machine<|k_bufs ::= <[0%nat := mkbuf (Z.lor B_VALID B_DIRTY) 1 45 0 [1; 2; 3]]>|><|k_log := tx_log|>.

Lemma tx_bufs b x :
  tx_machine.(k_bufs) !! b = Some x ->
  b = 0%nat /\ x = mkbuf (Z.lor B_VALID B_DIRTY) 1 45 0 [1; 2; 3] \/ x = zero_buf.
Proof.
  change (k_bufs tx_machine)
    with (<[0%nat := mkbuf (Z.lor B_VALID B_DIRTY) 1 45 0 [1; 2; 3]]> (replicate NBUF zero_buf)).
  intros H. destruct (decide (b = 0%nat)) as [->|Hne].
  - left. split; [done|]. cbn in H. congruence.
  - right. rewrite list_lookup_insert_ne in H by done. by apply lookup_replicate in H as [-> _].
Qed.

Lemma tx_ready : ready 0 0 0 2 30 FSSIZE tx_log tx_machine.
Proof.
  assert (Hd : forall n, dirty_at tx_machine n -> n = 45).
  { intros n (b & x & [[-> ->]| ->]%tx_bufs & (_ & Hn & _) & Hd); [done|by cbv in Hd]. }
  assert (Hbc : bc 0 ∅ tx_machine).
  { split.
    - done.
    - change (k_lru tx_machine) with (reverse (seq 0 NBUF)). apply reverse_Permutation.
    - intros b b' x x' [[-> ->]| ->]%tx_bufs [[-> ->]| ->]%tx_bufs; done.
    - intros b x [[-> ->]| ->]%tx_bufs; (split; [unfold flags_ok; cbn; auto|done]).
    - intros b x [[-> ->]| ->]%tx_bufs _; split_and!; done.
    - by intros b ?%not_elem_of_empty. }
  split; try done.
  - split_and!; [|done|].
    + pose proof fs_machine_thr as Ht. tframe Ht.
    + intros n ->%Hd. by left.
  - split; try done; try (cbn; unfold LOGSIZE, MAXOPBLOCKS, FSSIZE; lia);
      intros j Hj; cbn in Hj; assert (j = 0) as -> by lia; [done|].
    change (blk tx_log 0) with 45. unfold in_log, FSSIZE. lia.
  - intros j Hj. cbn in Hj. assert (j = 0) as -> by lia. by exists 0%nat, (mkbuf 6 1 45 0 [1; 2; 3]).
  - intros j j' Hj Hj' _. cbn in Hj, Hj'. lia.
Qed.

Lemma commit_crash_safe_witness :
  exists s', commit tx_machine = Ret tt s' /\ s'.(k_disk) 45 = [1; 2; 3].
Proof.
  destruct (commit_crash_safe 0 0 0 2 30 FSSIZE tx_log tx_machine tx_ready) as (s' & ws & E & _ & Hk & _);
    [done|done|].
  exists s'. split; [done|]. rewrite Hk; [done|unfold in_log; lia].
Defined.

(** A machine whose log has not been read yet; the log holds the new contents
    of block 45. *)
Definition logged_disk (n : Z) : list Z :=
  if n =? 2 then le32 1 ++ le32 45 ++ replicate 504 0 else replicate 512 (if n =? 3 then 7 else 0).
Definition log_machine (dk : Z -> list Z) : kernel := fs_machine<|k_disk := dk|><|k_log := mklog 2 30 0 0 1 0 (replicate 30 0)|>.

Lemma log_machine_rebooted dk : rebooted 0 0 0 2 FSSIZE dk (log_machine dk).
Proof.
  destruct (bc_boot 0 (log_machine dk)) as [Hbc Hnd]; [done..|].
  split; [|done..]. split_and!; [|done|by intros n ?%Hnd].
  pose proof fs_machine_thr as Ht. tframe Ht.
Qed.

Lemma logged_header : header_ok 2 30 FSSIZE (logged_disk 2).
Proof.
  unfold header_ok. change (hdr_n (logged_disk 2)) with 1. split_and!; [done|done|done|done|].
  intros t Ht. replace t with 0 by lia. change (hdr_block (logged_disk 2) 0) with 45. unfold in_log, FSSIZE. lia.
Qed.

(** Recovery stops after its first write, and is run again. *)
Lemma recovery_restartable_witness :
  exists s' s2 j, recover_from_log (log_machine logged_disk) = Ret tt s' /\ s'.(k_disk) 45 = replicate 512 7 /\
    recover_from_log (log_machine (apply_writes (take 1 j) logged_disk)) = Ret tt s2 /\ s2.(k_disk) 45 = replicate 512 7.
Proof.
  destruct (recovery_restartable 0 0 0 2 30 FSSIZE logged_disk (log_machine logged_disk) ltac:(lia) ltac:(lia) ltac:(done) ltac:(done)
    (log_machine_rebooted logged_disk) logged_header) as (s' & ws & E & Hw & Hj).
  destruct (Hj 1%nat _ (log_machine_rebooted _)) as (s2 & E2 & H2). exists s', s2, ws.
  assert (H45 : s'.(k_disk) 45 = replicate 512 7) by (vm_compute in E; injection E as <-; reflexivity).
  split_and!; [exact E|exact H45|exact E2|]. rewrite H2; [exact H45|unfold in_log; lia].
Defined.
