(* ===== verification/Tx.v ===== *)
(** * Blocks inside a transaction: log_write of log.c over the buffer cache

    Between begin_op and end_op a process reads blocks and changes them with
    log_write.  [in_tx cap] describes that phase: the dirty buffers are exactly
    the blocks listed in the log header, and [cap] more blocks fit into the log
    and into the cache; [in_tx 0] also describes a process that only reads,
    outside a transaction.  These are the laws the file system is verified
    against. *)

From S2P Require Import Prelude State Spinlock Thread CString Kalloc Layout Vm Sched Sleeplock Disk Bio Log.

Definition logged (L : logst) : list Z := take (Z.to_nat L.(lh_n)) L.(lh_block).
Record log_room (cap : Z) (L : logst) : Prop := {
  tl_len : length L.(lh_block) = Z.to_nat LOGSIZE;
  tl_n : 0 <= L.(lh_n) /\ 0 <= cap /\ L.(lh_n) + cap < Z.of_nat NBUF /\ L.(lh_n) + cap < L.(lg_size);
  tl_open : 0 < cap -> 1 <= L.(lg_outstanding);
  tl_range : Forall (fun b => 0 <= b < 2 ^ 31) (logged L);
  tl_nodup : NoDup (logged L)
}.

(** The log after log_write of a block. *)
Definition log_add (bn : Z) (L : logst) : logst :=
  if bool_decide (bn ∈ logged L) then L
  else L<|lh_block ::= <[Z.to_nat L.(lh_n) := bn]>|><|lh_n := L.(lh_n) + 1|>.

Lemma length_logged cap L : log_room cap L -> Z.of_nat (length (logged L)) = L.(lh_n).
Proof.
  intros H. destruct (tl_n _ _ H) as (H0 & H1 & H2 & _). unfold logged. rewrite length_take, (tl_len _ _ H).
  unfold LOGSIZE, MAXOPBLOCKS, NBUF in *. lia.
Qed.

Lemma logged_append cap bn L :
  log_room cap L -> 1 <= cap ->
  logged (L<|lh_block ::= <[Z.to_nat (lh_n L) := bn]>|><|lh_n := lh_n L + 1|>) = logged L ++ [bn].
Proof.
  intros HL Hcap. destruct (tl_n _ _ HL) as (H0 & H1 & H2 & _). unfold logged. cbn.
  replace (Z.to_nat (lh_n L + 1)) with (S (Z.to_nat (lh_n L))) by lia.
  rewrite (take_S_r _ _ bn); [by rewrite take_insert_ge by lia|].
  apply list_lookup_insert_eq. rewrite (tl_len _ _ HL). unfold LOGSIZE, MAXOPBLOCKS, NBUF in *. lia.
Qed.

Lemma logged_add cap bn L :
  log_room cap L -> 1 <= cap ->
  forall n, n ∈ logged (log_add bn L) <-> n ∈ logged L \/ n = bn.
Proof.
  intros HL Hcap n. unfold log_add. case_bool_decide as Hin; [naive_solver|].
  assert (E := logged_append cap bn L HL Hcap).
  rewrite E, elem_of_app, list_elem_of_singleton. done.
Qed.

Lemma tx_log_add cap bn L :
  log_room cap L -> 1 <= cap -> 0 <= bn < 2 ^ 31 -> log_room (cap - 1) (log_add bn L).
Proof.
  intros HL Hcap Hbn. destruct (tl_n _ _ HL) as (H0 & H1 & H2 & H3). unfold log_add. case_bool_decide as Hin.
  - split; [apply HL|lia|intros _; apply (tl_open _ _ HL); lia|apply HL..].
  - assert (E := logged_append cap bn L HL Hcap).
    split; [cbn; by rewrite length_insert, (tl_len _ _ HL)|cbn; lia|intros _; apply (tl_open _ _ HL); lia|..]; rewrite E.
    + apply Forall_app. split; [apply HL|]. by constructor.
    + apply list.NoDup_app. split_and!; [apply HL| |apply list.NoDup_singleton].
      intros x Hx ->%list_elem_of_singleton. done.
Qed.

Section Laws.
Context {P : Patience} {D : BlockDriver} {CL : CacheLaws P D}.
Context (i p : nat) (pid : Z).

Record in_tx (hold : gset nat) (cap : Z) (s : kernel) : Prop := {
  itx_thr : thr i p pid ∅ s;
  itx_bc : bc pid hold s;
  itx_log : log_room cap s.(k_log);
  itx_dirty n : dirty_at s n <-> n ∈ logged s.(k_log);
  itx_size n : Z.of_nat (length (view s n)) = BSIZE
}.

(** What the operations of a transaction change. *)
Definition tx_step (s s' : kernel) : Prop := log_step s s' /\ s'.(k_disk) = s.(k_disk).

#[export] Instance tx_step_preorder : PreOrder tx_step.
Proof.
  split; [done|]. intros s s' s'' [H1 H2] [H3 H4]. split; [by transitivity s'|by rewrite H4, H2].
Qed.

Lemma cache_step_tx s s' : cache_step s s' -> tx_step s s'.
Proof. intros H. split; [by apply cache_step_log|]. by apply cache_step_fields in H as (? & _). Qed.
Lemma upd_buf_tx b f s : tx_step s (upd_buf b f s).
Proof. split; [apply upd_buf_step|done]. Qed.

Lemma tx_step_fields s s' :
  tx_step s s' -> s'.(k_inodes) = s.(k_inodes) /\ s'.(k_sb) = s.(k_sb) /\ s'.(k_disksize) = s.(k_disksize) /\
  s'.(k_disk) = s.(k_disk).
Proof. intros [[(bs & lru & sl & dk & ws & l & b & cs & lks & ps & _ & ->) _] Hd]. by rewrite Hd. Qed.

(** The absorption loop. *)
Lemma absorb_logged cap L bn :
  log_room cap L -> 0 <= bn < 2 ^ 31 ->
  match decide (bn ∈ logged L) with
  | left _ => L.(lh_block) !! absorb L bn = Some bn /\ Z.of_nat (absorb L bn) < L.(lh_n)
  | right _ => Z.of_nat (absorb L bn) = L.(lh_n)
  end.
Proof.
  intros HL Hbn. destruct (tl_n _ _ HL) as (H0 & _). unfold absorb. fold (logged L).
  pose proof (length_logged _ _ HL) as Hlen.
  assert (Hu : forall n, n ∈ logged L -> u32 n = n).
  { intros n Hn. apply u32_small. pose proof (tl_range _ _ HL) as Hr. rewrite Forall_forall in Hr.
    specialize (Hr n (proj1 (list_elem_of_In _ _) Hn)). lia. }
  destruct (list_find _ (logged L)) as [[k n]|] eqn:E.
  - apply list_find_Some in E as (Hk & Hn & _). rewrite Hu in Hn by (by eapply list_elem_of_lookup_2). subst n.
    rewrite decide_True by (by eapply list_elem_of_lookup_2). pose proof (lookup_lt_Some _ _ _ Hk) as Hlt. split; [|lia].
    unfold logged in Hk. apply lookup_take_Some in Hk as [Hk _]. done.
  - rewrite list_find_None in E. rewrite decide_False; [lia|]. intros Hin. rewrite Forall_forall in E.
    apply (E bn (proj1 (list_elem_of_In _ _) Hin)). by apply Hu.
Qed.

(** A holder's buffer is marked dirty. *)
Lemma mark_dirty_ok hold s b bn d :
  bc pid hold s -> b ∈ hold -> holds_block b bn d s ->
  let s' := upd_buf b (fun x => x<|b_flags := Z.lor x.(b_flags) B_DIRTY|>) s in
  bc pid hold s' /\ holds_block b bn d s' /\
  (forall b', b' <> b -> s'.(k_bufs) !! b' = s.(k_bufs) !! b') /\
  (forall n, view s' n = view s n) /\ (forall n, dirty_at s' n <-> dirty_at s n \/ n = bn).
Proof.
  intros Hbc Hb Hh s'.
  destruct (held_facts _ _ _ _ _ _ Hbc Hb Hh) as (x & Hx & Hc & Hd & Hfl & Hr & Hbn & Hsl & Hother).
  pose proof Hc as (Hdev & Hn & Hv).
  set (z := x<|b_flags := Z.lor (b_flags x) B_DIRTY|>).
  assert (Hflag : b_flags z = Z.lor B_VALID B_DIRTY).
  { unfold z. cbn. destruct Hfl as [E|[E|E]]; rewrite E in *; try done. unfold valid in Hv. by rewrite E in Hv. }
  assert (Hz : caches z bn) by (split_and!; [done..|]; unfold valid; by rewrite Hflag).
  assert (Hzd : dirty z = true) by (unfold dirty; by rewrite Hflag).
  assert (Hbufs : k_bufs s' = <[b := z]> (k_bufs s)) by exact (alter_insert (fun x => x<|b_flags := Z.lor x.(b_flags) B_DIRTY|>) b (k_bufs s) x Hx).
  split_and!.
  - apply (bc_replaced pid hold s s' b x z bn Hbc Hx Hbufs Hz Hother); try done; [by right; right|apply (bc_lru _ _ _ Hbc)].
  - exists z. split_and!; [by apply (lookup_replaced s s' b x z)|done|done].
  - intros b' Hne. by apply (lookup_kept s s' b z).
  - intros n. destruct (Z.eqb_spec n bn) as [->|Hne].
    + rewrite (view_new pid hold s s' b x z bn) by done. by rewrite (view_cached pid hold s b x).
    + apply (view_other pid hold s s' b x z bn); try done. intros (_ & Hn' & _). congruence.
  - intros n. split.
    + intros (b1 & x1 & H1 & Hc1 & Hd1). apply (replaced s s' b x z bn Hx Hbufs Hz) in H1 as [[_ E1]|[Hne H1]].
      * right. rewrite E1 in Hc1. destruct Hc1 as (_ & <- & _). by destruct Hz as (_ & -> & _).
      * left. by exists b1, x1.
    + intros [(b1 & x1 & H1 & Hc1 & Hd1)| ->].
      * destruct (decide (b1 = b)) as [->|Hne].
        -- assert (x1 = x) as -> by congruence. exists b, z. split_and!; [by apply (lookup_replaced s s' b x z)| |done].
           destruct Hc1 as (? & Hn1 & ?). rewrite <- Hn1, Hn. done.
        -- exists b1, x1. by rewrite (lookup_kept s s' b z).
      * exists b, z. split_and!; [by apply (lookup_replaced s s' b x z)|done|done].
Qed.

Lemma bc_calm hold s s' : calm s s' -> bc pid hold s -> bc pid hold s'.
Proof. intros (b & cs & lks & ps & _ & ->) Hbc. by destruct Hbc; split. Qed.
Lemma bc_upd_log hold f s : bc pid hold s -> bc pid hold (upd_log f s).
Proof. intros Hbc. by destruct Hbc; split. Qed.

Lemma calm_same s s' :
  calm s s' -> same_blocks s s' /\ k_bufs s' = k_bufs s /\ k_log s' = k_log s /\ k_disk s' = k_disk s /\
  log_step s s'.
Proof.
  intros Hc. pose proof Hc as (b & cs & lks & ps & _ & E). split_and!; [by subst s'..|].
  split; [|intros l _; by apply slock_of_calm].
  by exists (k_bufs s), (k_lru s), (k_slocks s), (k_disk s), (k_writes s), (k_log s).
Qed.

Lemma upd_log_ext f g s : f s.(k_log) = g s.(k_log) -> upd_log f s = upd_log g s.
Proof. intros E. unfold upd_log, setf, set_k_log. by rewrite E. Qed.

(** The header update of log_write. *)
Lemma log_slot cap L bn s :
  log_room cap L -> 1 <= cap -> 0 <= bn < 2 ^ 31 -> s.(k_log) = L ->
  exists s1, set_lh_at (Z.of_nat (absorb L bn)) (s32 bn) s = Ret tt s1 /\
    (if! Z.of_nat (absorb L bn) =? L.(lh_n) then!
       modify (upd_log (fun l => l<|lh_n := l.(lh_n) + 1|>)))%xv6 s1
    = Ret tt (upd_log (fun _ => log_add bn L) s).
Proof.
  intros HL Hcap Hbn Hs. pose proof (absorb_logged cap L bn HL Hbn) as Ha.
  destruct (tl_n _ _ HL) as (H0 & H1 & H2 & H3). rewrite s32_small by lia.
  assert (E : set_lh_at (Z.of_nat (absorb L bn)) bn s
    = Ret tt (upd_log (fun l => l<|lh_block ::= <[absorb L bn := bn]>|>) s)).
  { unfold set_lh_at. kret. rewrite Hs, (tl_len _ _ HL), Nat2Z.id.
    assert (Hlt : Z.of_nat (absorb L bn) < LOGSIZE).
    { change (Z.of_nat NBUF) with LOGSIZE in H2. case_decide; lia. }
    by rewrite Z2Nat.id, (proj2 (Z.leb_gt _ _) Hlt). }
  eexists. split; [exact E|]. unfold log_add. case_decide as Hin.
  - destruct Ha as [Hl Hlt]. rewrite (bool_decide_eq_true_2 _ Hin), (proj2 (Z.eqb_neq _ _)) by lia.
    apply (f_equal (Ret tt)), upd_log_ext. rewrite Hs. unfold setf, set_lh_block. by rewrite (list_insert_id _ _ _ Hl).
  - rewrite (bool_decide_eq_false_2 _ Hin), (proj2 (Z.eqb_eq _ _)) by lia.
    replace (absorb L bn) with (Z.to_nat (lh_n L)) by lia.
    refine (f_equal (Ret tt) (upd_log_ext (fun l => l<|lh_block ::= <[Z.to_nat (lh_n L) := bn]>|>
      <|lh_n := lh_n l + 1|>) _ s _)). by rewrite Hs.
Qed.

(** log_write of a held block: it becomes dirty and is listed in the log. *)
Lemma log_write_ok hold s b bn d cap :
  thr i p pid ∅ s -> bc pid hold s -> b ∈ hold -> holds_block b bn d s ->
  log_room cap s.(k_log) -> 1 <= cap -> 0 <= bn < 2 ^ 31 ->
  exists s', log_write b s = Ret tt s' /\ thr i p pid ∅ s' /\ bc pid hold s' /\ holds_block b bn d s' /\
    (forall n, view s' n = view s n) /\ (forall n, dirty_at s' n <-> dirty_at s n \/ n = bn) /\
    (forall b', b' <> b -> s'.(k_bufs) !! b' = s.(k_bufs) !! b') /\
    s'.(k_log) = log_add bn s.(k_log) /\ tx_step s s'.
Proof.
  intros Ht Hbc Hb Hh HL Hcap Hbn.
  destruct (acquire_thr i p pid ∅ LkLog s Ht (not_elem_of_empty _)) as (s1 & E1 & Hc1 & Ht1).
  destruct (calm_same _ _ Hc1) as ([Hv1 Hd1] & Hb1 & HL1 & Hk1 & Hs1).
  set (s2 := upd_log (fun _ => log_add bn (k_log s)) s1).
  assert (Hh2 : holds_block b bn d s2).
  { destruct Hh as (z & Hz & Hc). exists z. split; [|done]. change (k_bufs s2) with (k_bufs s1). by rewrite Hb1. }
  destruct (mark_dirty_ok hold s2 b bn d (bc_upd_log _ _ _ (bc_calm _ _ _ Hc1 Hbc)) Hb Hh2)
    as (Hbc3 & Hh3 & Hb3 & Hv3 & Hd3).
  set (s3 := upd_buf b _ s2) in *.
  assert (Ht3 : thr i p pid ({[LkLog]} ∪ ∅) s3) by tframe Ht1.
  destruct (release_thr i p pid ∅ LkLog s3 Ht3 (not_elem_of_empty _)) as (s4 & E4 & Hc4 & Ht4).
  destruct (calm_same _ _ Hc4) as ([Hv4 Hd4] & Hb4 & HL4 & Hk4 & Hs4).
  assert (Hbno : (buf_of b s1).(b_blockno) = bn).
  { destruct Hh2 as (z & Hz & (_ & Hn & _) & _). change (k_bufs s2) with (k_bufs s1) in Hz.
    unfold buf_of. by rewrite Hz. }
  exists s4. split_and!; [|done|by eapply bc_calm|..].
  - destruct (tl_n _ _ HL) as (H0 & H1 & H2 & H3). pose proof (tl_open _ _ HL ltac:(lia)) as H4.
    change (Z.of_nat NBUF) with LOGSIZE in H2. unfold log_write. kret.
    rewrite (proj2 (Z.leb_gt _ _)), (proj2 (Z.leb_gt _ _)), (proj2 (Z.ltb_ge _ _)) by lia. cbn [orb].
    kret_by exact E1. kret. rewrite Hbno, HL1.
    destruct (log_slot cap _ bn s1 HL Hcap Hbn HL1) as (s1' & E2 & E3).
    kret_by exact E2. kret_by exact E3. kret. exact E4.
  - destruct Hh3 as (z & Hz & Hc). exists z. by rewrite Hb4.
  - intros n. rewrite Hv4, Hv3. apply Hv1.
  - intros n. rewrite Hd4, Hd3. by rewrite <- (Hd1 n).
  - intros b' Hne. rewrite Hb4, Hb3 by done. change (k_bufs s2) with (k_bufs s1). by rewrite Hb1.
  - by rewrite HL4.
  - split; [|by rewrite Hk4; change (k_disk s3) with (k_disk s1)].
    transitivity s1; [done|]. transitivity s2; [apply upd_log_step|]. transitivity s3; [apply upd_buf_step|done].
Qed.

(** The buffers of [hold] were not touched. *)
Definition same_held (hold : gset nat) (s s' : kernel) : Prop :=
  forall b, b ∈ hold -> s'.(k_bufs) !! b = s.(k_bufs) !! b.
(** Block [bn] can be read while [hold] is held. *)
Definition can_read (hold : gset nat) (cap bn : Z) (s : kernel) : Prop :=
  not_held hold bn s /\ Z.of_nat (size hold) <= cap /\ bn < s.(k_disksize).

Lemma can_read_empty cap bn s : 0 <= cap -> bn < s.(k_disksize) -> can_read ∅ cap bn s.
Proof. intros H H'. split; [by intros ??|]. by rewrite size_empty. Qed.

Lemma tx_bread hold cap s bn :
  in_tx hold cap s -> can_read hold cap bn s ->
  exists b s1, bread 1 bn s = Ret b s1 /\ buf_data b s1 = Ret (view s bn) s1 /\
    thr i p pid ∅ s1 /\ b ∉ hold /\ bc pid ({[b]} ∪ hold) s1 /\ holds_block b bn (view s bn) s1 /\
    same_held hold s s1 /\ same_blocks s s1 /\ cache_step s s1.
Proof.
  intros [Ht Hbc HL Hd _] (Hnh & Hroom & Hn).
  destruct (bread_law i p pid hold s bn) as (b & s1 & E1 & Ht1 & Hb & Hbc1 & Hh1 & Hk1 & Hv1 & Hs1);
    [done|done|done| |done|].
  { apply (room_for pid hold s bn (logged s.(k_log))); [done|apply Hd|].
    pose proof (length_logged _ _ HL). pose proof (tl_n _ _ HL). lia. }
  exists b, s1. split_and!; try done.
  destruct Hh1 as (z & Hz & _ & Hdata). unfold buf_data, gets, buf_of. rewrite Hz. cbn. by rewrite Hdata.
Qed.

Lemma clean_unless_dirty hold s bn :
  bc pid hold s -> not_held hold bn s -> dirty_at s bn \/ view s bn = s.(k_disk) bn.
Proof.
  intros Hbc Hnh. destruct (cached_or_not s bn) as [(b & x & Hx & Hc)|Hno]; [|right; by apply view_uncached].
  destruct (dirty x) eqn:Hd; [left; by exists b, x|right].
  rewrite (view_cached pid hold s b x) by done. pose proof Hc as (_ & Hn & Hv).
  destruct (bc_free _ _ _ Hbc b x Hx) as (_ & _ & Hcl); [by intros Hb; apply (Hnh b x Hb Hx)|].
  rewrite <- Hn. by apply Hcl.
Qed.

Lemma release_hold (b : nat) (hold : gset nat) : b ∉ hold -> ({[b]} ∪ hold) ∖ {[b]} = hold.
Proof. set_solver. Qed.

(** Reading a block. *)
Lemma tx_read hold cap s bn :
  in_tx hold cap s -> can_read hold cap bn s ->
  exists b s1 s2, bread 1 bn s = Ret b s1 /\ buf_data b s1 = Ret (view s bn) s1 /\ brelse b s1 = Ret tt s2 /\
    tx_step s s1 /\ in_tx hold cap s2 /\ (forall n, view s2 n = view s n) /\ same_held hold s s2 /\ tx_step s s2.
Proof.
  intros Htx Hr. destruct (tx_bread hold cap s bn Htx Hr)
    as (b & s1 & E1 & Hdata & Ht1 & Hb & Hbc1 & Hh1 & Hk1 & [Hv1 Hd1] & Hs1).
  destruct Htx as [Ht Hbc HL Hd Hsz]. pose proof (cache_step_fields _ _ Hs1) as (Hdk1 & _ & _ & HL1).
  destruct (brelse_law i p pid _ s1 b bn _ Ht1 Hbc1 ltac:(set_solver) Hh1)
    as (s2 & E2 & Ht2 & Hbc2 & Hk2 & [Hv2 Hd2] & Hs2).
  { rewrite Hd1, Hdk1. apply (clean_unless_dirty hold); [done|apply Hr]. }
  rewrite release_hold in Hbc2 by done. pose proof (cache_step_fields _ _ Hs2) as (_ & _ & _ & HL2).
  exists b, s1, s2. split_and!; try done.
  - by apply cache_step_tx.
  - split; [done|done|by rewrite HL2, HL1| |intros n; by rewrite Hv2, Hv1].
    intros n. by rewrite Hd2, Hd1, HL2, HL1.
  - intros n. by rewrite Hv2, Hv1.
  - intros b' Hb'. rewrite Hk2 by (by intros ->). by apply Hk1.
  - transitivity s1; by apply cache_step_tx.
Qed.

(** The second half of a change: a held block has its new contents, is logged
    and released. *)
Lemma tx_write_held hold cap s b bn d d' :
  in_tx ({[b]} ∪ hold) cap s -> b ∉ hold -> holds_block b bn d s ->
  1 <= cap -> 0 <= bn < 2 ^ 31 -> Z.of_nat (length d') = BSIZE ->
  exists s2 s3, log_write b (upd_buf b (fun x => x<|b_data := d'|>) s) = Ret tt s2 /\ brelse b s2 = Ret tt s3 /\
    in_tx hold (cap - 1) s3 /\ (forall n, view s3 n = if n =? bn then d' else view s n) /\
    same_held hold s s3 /\ tx_step s s3.
Proof.
  intros [Ht Hbc HL Hd Hsz] Hb Hh Hcap Hn Hlen.
  destruct (set_data_ok pid _ s b bn _ d' Hbc ltac:(set_solver) Hh) as (Hbc1 & Hh1 & Hk1 & Hv1 & Hd1).
  set (s1 := upd_buf b _ s) in *. assert (Ht1 : thr i p pid ∅ s1) by tframe Ht.
  destruct (log_write_ok ({[b]} ∪ hold) s1 b bn d' cap)
    as (s2 & E2 & Ht2 & Hbc2 & Hh2 & Hv2 & Hd2 & Hk2 & HL2 & Hs2);
    [done|done|set_solver|done|done|done|done|].
  change (k_log s1) with (k_log s) in HL2.
  destruct (brelse_law i p pid _ s2 b bn _ Ht2 Hbc2 ltac:(set_solver) Hh2)
    as (s3 & E3 & Ht3 & Hbc3 & Hk3 & [Hv3 Hd3] & Hs3).
  { left. apply Hd2. by right. }
  rewrite release_hold in Hbc3 by done. pose proof (cache_step_fields _ _ Hs3) as (_ & _ & _ & HL3).
  assert (Hv : forall n, view s3 n = if n =? bn then d' else view s n) by (intros n; by rewrite Hv3, Hv2, Hv1).
  exists s2, s3. split_and!; try done.
  - split; [done|done|rewrite HL3, HL2; by apply tx_log_add| |].
    + intros n. rewrite Hd3, Hd2, Hd1, HL3, HL2, (logged_add cap) by done. by rewrite Hd.
    + intros n. rewrite Hv. by destruct (n =? bn).
  - intros b' Hb'. assert (b' <> b) by (by intros ->). by rewrite Hk3, Hk2, Hk1.
  - transitivity s1; [apply upd_buf_tx|]. transitivity s2; [done|by apply cache_step_tx].
Qed.

(** Reading a block and keeping it. *)
Lemma tx_hold hold cap s bn :
  in_tx hold cap s -> can_read hold cap bn s ->
  exists b s1, bread 1 bn s = Ret b s1 /\ buf_data b s1 = Ret (view s bn) s1 /\ b ∉ hold /\
    in_tx ({[b]} ∪ hold) cap s1 /\ holds_block b bn (view s bn) s1 /\ same_held hold s s1 /\
    (forall n, view s1 n = view s n) /\ tx_step s s1.
Proof.
  intros Htx Hr. destruct (tx_bread hold cap s bn Htx Hr)
    as (b & s1 & E1 & Hdata & Ht1 & Hb & Hbc1 & Hh1 & Hk1 & [Hv1 Hd1] & Hs1).
  pose proof (cache_step_fields _ _ Hs1) as (_ & _ & _ & HL1). destruct Htx as [Ht Hbc HL Hd Hsz].
  exists b, s1. split_and!; try done; [|by apply cache_step_tx].
  split; [done|done|by rewrite HL1| |intros n; by rewrite Hv1]. intros n. by rewrite Hd1, HL1.
Qed.

(** Changing a block: read it, replace its contents, log it, release it. *)
Lemma tx_update hold cap s bn d :
  in_tx hold cap s -> can_read hold cap bn s -> 1 <= cap -> 0 <= bn -> s.(k_disksize) <= 2 ^ 31 ->
  Z.of_nat (length d) = BSIZE ->
  exists b s1 s2 s3, bread 1 bn s = Ret b s1 /\ buf_data b s1 = Ret (view s bn) s1 /\
    log_write b (upd_buf b (fun x => x<|b_data := d|>) s1) = Ret tt s2 /\ brelse b s2 = Ret tt s3 /\
    tx_step s s1 /\ in_tx hold (cap - 1) s3 /\ (forall n, view s3 n = if n =? bn then d else view s n) /\
    same_held hold s s3 /\ tx_step s s3.
Proof.
  intros Htx Hr Hcap H0 Hmax Hlen. pose proof Hr as (_ & _ & Hn).
  destruct (tx_hold hold cap s bn Htx Hr) as (b & s1 & E1 & Hdata & Hb & Htx1 & Hh1 & Hk1 & Hv1 & Hs1).
  destruct (tx_write_held hold cap s1 b bn _ d Htx1 Hb Hh1 Hcap) as (s2 & s3 & E2 & E3 & Htx3 & Hv3 & Hk3 & Hs3);
    [lia|done|].
  exists b, s1, s2, s3. split_and!; try done.
  - intros n. rewrite Hv3. by rewrite Hv1.
  - intros b' Hb'. by rewrite Hk3, Hk1.
  - by transitivity s1.
Qed.
End Laws.
