(* ===== verification/Fs.v ===== *)
(** * The file system: fs.c

    Blocks, inodes, inode contents, directories and path names.  An inode
    pointer is an index into [k_inodes]; its sleep lock is [SlInode].  A device
    inode is read and written through the device switch, whose functions belong
    to the console and are the operations of [Devices]. *)

From S2P Require Import Prelude State Spinlock Thread CString Cprintf Kalloc Layout Vm Sched Sleeplock Disk Bio Log.

(** The functions devsw points to,
    a read returning its result and the bytes stored. *)
Class Devices := {
  dev_read : driver -> nat -> Z -> K (Z * list Z);
  dev_write : driver -> nat -> list Z -> Z -> K Z
}.

(** ** Inodes in memory *)
Definition inode_at (i : nat) : K inode :=
  let! s := get in
  match s.(k_inodes) !! i with
  | Some ip => ret ip
  | None => panic "icache: index out of range"
  end.
Definition upd_inode (i : nat) (f : inode -> inode) (s : kernel) : kernel := s<|k_inodes ::= alter f i|>.
Definition set_inode (i : nat) (f : inode -> inode) : K unit := modify (upd_inode i f).
(** [ip->addrs[bn]] *)
Definition addr_at (ip : inode) (bn : Z) : Z := nth (Z.to_nat bn) ip.(ip_addrs) 0.
Definition set_addr (bn v : Z) (ip : inode) : inode := ip<|ip_addrs ::= <[Z.to_nat bn := v]>|>.

(** ** Blocks: the free map *)
Definition BPB : Z := BSIZE * 8.
Definition BBLOCK (b : Z) (sb : superblock) : Z := u32 (b / BPB + sb.(sb_bmapstart)).
Definition IBLOCK (i : Z) (sb : superblock) : Z := u32 (i / IPB + sb.(sb_inodestart)).

Definition bit_free (d : list Z) (bi : Z) : bool := Z.land (get8 d (bi / 8)) (Z.shiftl 1 (bi mod 8)) =? 0.
Definition set_bit (d : list Z) (bi : Z) : list Z :=
  put d (bi / 8) [u8 (Z.lor (get8 d (bi / 8)) (Z.shiftl 1 (bi mod 8)))].
Definition clear_bit (d : list Z) (bi : Z) : list Z :=
  put d (bi / 8) [u8 (Z.land (get8 d (bi / 8)) (Z.lnot (Z.shiftl 1 (bi mod 8))))].

(** The inner loop of balloc: the first free bit of the map block, from [bi]. *)
Fixpoint balloc_scan (n : nat) (d : list Z) (b bi size : Z) : option Z :=
  match n with
  | O => None
  | S n' =>
      if (bi <? BPB) && (b + bi <? size) then
        if bit_free d bi then Some bi else balloc_scan n' d b (bi + 1) size
      else None
  end.

(** ** Path elements *)
Definition slash : Z := 47.
Fixpoint skip_slashes (path : list Z) : list Z :=
  match path with
  | c :: path' => if c =? slash then skip_slashes path' else path
  | [] => []
  end.
(** The characters up to the next slash or the end, and the rest. *)
Fixpoint split_elem (path : list Z) : list Z * list Z :=
  match path with
  | c :: path' =>
      if (c =? slash) || (c =? 0) then ([], path)
      else let '(e, r) := split_elem path' in (c :: e, r)
  | [] => ([], [])
  end.
Definition skipelem (path name : list Z) : option (list Z * list Z) :=
  let path := skip_slashes path in
  if deref path =? 0 then None
  else
    let '(e, path) := split_elem path in
    let len := Z.of_nat (length e) in
    let name := if DIRSIZ <=? len then put name 0 (take (Z.to_nat DIRSIZ) e)
                else put (put name 0 e) len [0] in
    Some (skip_slashes path, name).

Definition namecmp (a t : list Z) : Z := strncmp (Z.to_nat DIRSIZ) a t.

Section Code.
Context {P : Patience} {D : BlockDriver} {V : Devices}.

(** ** Blocks *)
Definition bzero (dev bno : Z) : K unit :=
  let! bp := bread (u32 dev) (u32 bno) in
  let! d := buf_data bp in
  set_data bp (replicate (Z.to_nat BSIZE) 0) ;;;
  log_write bp ;;;
  brelse bp.

Fixpoint balloc_loop (fuel : nat) (dev b : Z) : K Z :=
  match fuel with
  | O => nofuel
  | S fuel' =>
      let! s := get in
      if negb (b <? s.(k_sb).(sb_size)) then panic "balloc: out of blocks"
      else
        let! bp := bread dev (BBLOCK b s.(k_sb)) in
        let! d := buf_data bp in
        match balloc_scan (Z.to_nat BPB) d b 0 s.(k_sb).(sb_size) with
        | Some bi =>
            set_data bp (set_bit d bi) ;;;
            log_write bp ;;;
            brelse bp ;;;
            bzero dev (b + bi) ;;;
            ret (u32 (b + bi))
        | None => brelse bp ;;; balloc_loop fuel' dev (b + BPB)
        end
  end.
(** One iteration per block of the free map, and one to fail. *)
Definition balloc (dev : Z) : K Z :=
  let! s := get in
  balloc_loop (S (S (Z.to_nat (s.(k_sb).(sb_size) / BPB)))) dev 0.

Definition bfree (dev b : Z) : K unit :=
  let! sb := readsb (u32 dev) in
  modify (fun s => s<|k_sb := sb|>) ;;;
  let! bp := bread (u32 dev) (BBLOCK b sb) in
  let! d := buf_data bp in
  let bi := b mod BPB in
  if bit_free d bi then panic "freeing free block"
  else
    set_data bp (clear_bit d bi) ;;;
    log_write bp ;;;
    brelse bp.

(** ** Inodes *)
Fixpoint iinit_loop (slots : list nat) : K unit :=
  match slots with
  | [] => ret tt
  | i :: slots' => initsleeplock (SlInode i) ;;; iinit_loop slots'
  end.
Definition iinit (dev : Z) : K unit :=
  initlock LkIcache ;;;
  iinit_loop (seq 0 NINODE) ;;;
  let! sb := readsb (u32 dev) in
  modify (fun s => s<|k_sb := sb|>) ;;;
  cprintln "sb: size %d nblocks %d ninodes %d nlog %d logstart %d inodestart %d bmap start %d"
    (VInt <$> [sb.(sb_size); sb.(sb_nblocks); sb.(sb_ninodes); sb.(sb_nlog); sb.(sb_logstart);
               sb.(sb_inodestart); sb.(sb_bmapstart)]).

(** The two searches of iget, both in array order. *)
Definition is_inode (dev inum : Z) (ip : inode) : bool :=
  (0 <? ip.(ip_ref)) && (ip.(ip_dev) =? dev) && (ip.(ip_inum) =? inum).
Definition unreferenced (ip : inode) : bool := ip.(ip_ref) =? 0.
Definition find_inode (f : inode -> bool) (s : kernel) : option nat :=
  fst <$> list_find (fun ip => f ip = true) s.(k_inodes).
Definition iget (dev inum : Z) : K nat :=
  acquire LkIcache ;;;
  let! s := get in
  match find_inode (is_inode dev inum) s with
  | Some i =>
      set_inode i (fun ip => ip<|ip_ref := ip.(ip_ref) + 1|>) ;;;
      release LkIcache ;;;
      ret i
  | None =>
      match find_inode unreferenced s with
      | None => panic "iget: no inodes"
      | Some i =>
          set_inode i (fun ip => ip<|ip_dev := dev|><|ip_inum := inum|><|ip_ref := 1|><|ip_valid := 0|>) ;;;
          release LkIcache ;;;
          ret i
      end
  end.

Definition idup (i : nat) : K nat :=
  acquire LkIcache ;;;
  set_inode i (fun ip => ip<|ip_ref := ip.(ip_ref) + 1|>) ;;;
  release LkIcache ;;;
  ret i.

Fixpoint ialloc_loop (fuel : nat) (dev type inum : Z) : K nat :=
  match fuel with
  | O => nofuel
  | S fuel' =>
      let! s := get in
      if negb (inum <? s.(k_sb).(sb_ninodes)) then panic "ialloc: no inodes"
      else
        let! bp := bread dev (IBLOCK inum s.(k_sb)) in
        let! d := buf_data bp in
        let o := inum mod IPB * DINODE in
        if (decode_dinode d o).(di_type) =? 0 then
          set_data bp (put (put d o (replicate (Z.to_nat DINODE) 0)) o (le16 type)) ;;;
          log_write bp ;;;
          brelse bp ;;;
          iget dev inum
        else
          brelse bp ;;;
          ialloc_loop fuel' dev type (inum + 1)
  end.
(** One iteration per inode, and one to fail. *)
Definition ialloc (dev type : Z) : K nat :=
  let! s := get in
  ialloc_loop (S (Z.to_nat s.(k_sb).(sb_ninodes))) dev type 1.

(** The dinode iupdate stores, and the inode ilock loads. *)
Definition to_dinode (ip : inode) : dinode :=
  mkdinode ip.(ip_type) ip.(ip_major) ip.(ip_minor) ip.(ip_nlink) ip.(ip_size) ip.(ip_addrs).
Definition load_dinode (di : dinode) (ip : inode) : inode :=
  ip<|ip_type := di.(di_type)|><|ip_major := di.(di_major)|><|ip_minor := di.(di_minor)|>
    <|ip_nlink := di.(di_nlink)|><|ip_size := di.(di_size)|><|ip_addrs := di.(di_addrs)|>.

Definition iupdate (i : nat) : K unit :=
  let! ip := inode_at i in
  let! s := get in
  let! bp := bread ip.(ip_dev) (IBLOCK ip.(ip_inum) s.(k_sb)) in
  let! d := buf_data bp in
  let! ip := inode_at i in
  set_data bp (put d (ip.(ip_inum) mod IPB * DINODE) (encode_dinode (to_dinode ip))) ;;;
  log_write bp ;;;
  brelse bp.

Definition ilock (p : option nat) : K unit :=
  match p with
  | None => panic "ilock"
  | Some i =>
      let! ip := inode_at i in
      if ip.(ip_ref) <? 1 then panic "ilock"
      else
        acquiresleep (SlInode i) ;;;
        let! ip := inode_at i in
        if! ip.(ip_valid) =? 0 then!
          (let! s := get in
           let! bp := bread ip.(ip_dev) (IBLOCK ip.(ip_inum) s.(k_sb)) in
           let! d := buf_data bp in
           set_inode i (load_dinode (decode_dinode d (ip.(ip_inum) mod IPB * DINODE))) ;;;
           brelse bp ;;;
           set_inode i (fun ip => ip<|ip_valid := 1|>) ;;;
           let! ip := inode_at i in
           if! ip.(ip_type) =? 0 then! panic "ilock: no type")
  end.

Definition iunlock (p : option nat) : K unit :=
  match p with
  | None => panic "iunlock"
  | Some i =>
      let! h := holdingsleep (SlInode i) in
      let! ip := inode_at i in
      if negb h || (ip.(ip_ref) <? 1) then panic "iunlock"
      else releasesleep (SlInode i)
  end.

(** ** Inode contents *)
Definition bmap (i : nat) (bn : Z) : K Z :=
  let! ip := inode_at i in
  if bn <? NDIRECT then
    let addr := addr_at ip bn in
    if addr =? 0 then
      let! addr := balloc ip.(ip_dev) in
      set_inode i (set_addr bn addr) ;;;
      ret addr
    else ret addr
  else
    let bn := bn - NDIRECT in
    if bn <? NINDIRECT then
      let! addr :=
        (let addr := addr_at ip NDIRECT in
         if addr =? 0 then
           let! addr := balloc ip.(ip_dev) in
           set_inode i (set_addr NDIRECT addr) ;;;
           ret addr
         else ret addr) in
      let! bp := bread ip.(ip_dev) addr in
      let! d := buf_data bp in
      let addr := get32 d (4 * bn) in
      let! addr :=
        (if addr =? 0 then
           let! addr := balloc ip.(ip_dev) in
           let! d := buf_data bp in
           set_data bp (put d (4 * bn) (le32 addr)) ;;;
           log_write bp ;;;
           ret addr
         else ret addr) in
      brelse bp ;;;
      ret addr
    else panic "bmap: out of range".

Fixpoint itrunc_direct (bns : list Z) (i : nat) : K unit :=
  match bns with
  | [] => ret tt
  | bn :: bns' =>
      let! ip := inode_at i in
      (if! truth (addr_at ip bn) then!
         (bfree ip.(ip_dev) (addr_at ip bn) ;;;
          set_inode i (set_addr bn 0))) ;;;
      itrunc_direct bns' i
  end.
Fixpoint itrunc_indirect (js : list Z) (bp : nat) (dev : Z) : K unit :=
  match js with
  | [] => ret tt
  | j :: js' =>
      let! d := buf_data bp in
      (if! truth (get32 d (4 * j)) then! bfree dev (get32 d (4 * j))) ;;;
      itrunc_indirect js' bp dev
  end.
Definition itrunc (i : nat) : K unit :=
  itrunc_direct (seqZ 0 NDIRECT) i ;;;
  let! ip := inode_at i in
  (if! truth (addr_at ip NDIRECT) then!
     (let! bp := bread ip.(ip_dev) (addr_at ip NDIRECT) in
      itrunc_indirect (seqZ 0 NINDIRECT) bp ip.(ip_dev) ;;;
      brelse bp ;;;
      bfree ip.(ip_dev) (addr_at ip NDIRECT) ;;;
      set_inode i (set_addr NDIRECT 0))) ;;;
  set_inode i (fun ip => ip<|ip_size := 0|>) ;;;
  iupdate i.

Definition iput (i : nat) : K unit :=
  acquiresleep (SlInode i) ;;;
  let! ip := inode_at i in
  (if! truth ip.(ip_valid) && (ip.(ip_nlink) =? 0) then!
     (acquire LkIcache ;;;
      let! ip := inode_at i in
      let r := ip.(ip_ref) in
      release LkIcache ;;;
      if! r =? 1 then!
        (itrunc i ;;;
         set_inode i (fun ip => ip<|ip_type := 0|>) ;;;
         iupdate i ;;;
         set_inode i (fun ip => ip<|ip_valid := 0|>)))) ;;;
  releasesleep (SlInode i) ;;;
  acquire LkIcache ;;;
  set_inode i (fun ip => ip<|ip_ref := ip.(ip_ref) - 1|>) ;;;
  release LkIcache.

Definition iunlockput (i : nat) : K unit :=
  iunlock (Some i) ;;;
  iput i.

(** struct stat (stat.h). *)
Record stat := mkstat { st_type : Z; st_dev : Z; st_ino : Z; st_nlink : Z; st_size : Z }.
Definition stati (i : nat) : K stat :=
  let! ip := inode_at i in
  ret (mkstat ip.(ip_type) (s32 ip.(ip_dev)) ip.(ip_inum) ip.(ip_nlink) ip.(ip_size)).

(** [devsw[ip->major]], when there is one. *)
Definition device (ip : inode) (s : kernel) : option driver :=
  if (ip.(ip_major) <? 0) || (NDEV <=? ip.(ip_major)) then None
  else s.(k_devsw) !! Z.to_nat ip.(ip_major) ≫= id.

(** The result and the bytes stored at dst. *)
Fixpoint readi_loop (fuel : nat) (i : nat) (off n tot : Z) : K (list Z) :=
  match fuel with
  | O => nofuel
  | S fuel' =>
      if negb (tot <? n) then ret []
      else
        let! addr := bmap i (off / BSIZE) in
        let! ip := inode_at i in
        let! bp := bread ip.(ip_dev) addr in
        let m := Z.min (n - tot) (BSIZE - off mod BSIZE) in
        let! d := buf_data bp in
        brelse bp ;;;
        let! rest := readi_loop fuel' i (off + m) n (tot + m) in
        ret (take (Z.to_nat m) (drop (Z.to_nat (off mod BSIZE)) d) ++ rest)
  end.
(** A first partial block, then whole blocks, and the end test. *)
Definition io_fuel (n : Z) : nat := S (S (S (Z.to_nat (n / BSIZE)))).
Definition readi (i : nat) (off n : Z) : K (Z * list Z) :=
  let! ip := inode_at i in
  if ip.(ip_type) =? T_DEV then
    let! s := get in
    match device ip s with
    | None => ret (-1, [])
    | Some drv => dev_read drv i (s32 n)
    end
  else if (ip.(ip_size) <? off) || (u32 (off + n) <? off) then ret (-1, [])
  else
    let n := if ip.(ip_size) <? u32 (off + n) then u32 (ip.(ip_size) - off) else n in
    let! bs := readi_loop (io_fuel n) i off n 0 in
    ret (s32 n, bs).

(** The offset at the end. *)
Fixpoint writei_loop (fuel : nat) (i : nat) (src : list Z) (off n tot : Z) : K Z :=
  match fuel with
  | O => nofuel
  | S fuel' =>
      if negb (tot <? n) then ret off
      else
        let! addr := bmap i (off / BSIZE) in
        let! ip := inode_at i in
        let! bp := bread ip.(ip_dev) addr in
        let m := Z.min (n - tot) (BSIZE - off mod BSIZE) in
        let! d := buf_data bp in
        set_data bp (put d (off mod BSIZE) (take (Z.to_nat m) src)) ;;;
        log_write bp ;;;
        brelse bp ;;;
        writei_loop fuel' i (drop (Z.to_nat m) src) (off + m) n (tot + m)
  end.
Definition writei (i : nat) (src : list Z) (off n : Z) : K Z :=
  let! ip := inode_at i in
  if ip.(ip_type) =? T_DEV then
    let! s := get in
    match device ip s with
    | None => ret (-1)
    | Some drv => dev_write drv i src (s32 n)
    end
  else if (ip.(ip_size) <? off) || (u32 (off + n) <? off) then ret (-1)
  else if MAXFILE * BSIZE <? u32 (off + n) then ret (-1)
  else
    let! off := writei_loop (io_fuel n) i src off n 0 in
    let! ip := inode_at i in
    (if! (0 <? n) && (ip.(ip_size) <? off) then!
       (set_inode i (fun ip => ip<|ip_size := off|>) ;;;
        iupdate i)) ;;;
    ret (s32 n).

(** ** Directories *)
Fixpoint dirlookup_loop (fuel : nat) (dp : nat) (name : list Z) (off : Z) : K (option (nat * Z)) :=
  match fuel with
  | O => nofuel
  | S fuel' =>
      let! d := inode_at dp in
      if negb (off <? d.(ip_size)) then ret None
      else
        let! (r, de) := readi dp off DIRENT in
        if negb (r =? DIRENT) then panic "dirlookup read"
        else if de_inum de =? 0 then dirlookup_loop fuel' dp name (u32 (off + DIRENT))
        else if namecmp name (de_name de) =? 0 then
          let! d := inode_at dp in
          let! i := iget d.(ip_dev) (de_inum de) in
          ret (Some (i, off))
        else dirlookup_loop fuel' dp name (u32 (off + DIRENT))
  end.
(** One iteration per entry, and the end test. *)
Definition dir_fuel (d : inode) : nat := S (S (Z.to_nat (d.(ip_size) / DIRENT))).
(** The inode found and, for a caller that passes poff, the offset. *)
Definition dirlookup (dp : nat) (name : list Z) : K (option (nat * Z)) :=
  let! d := inode_at dp in
  if negb (d.(ip_type) =? T_DIR) then panic "dirlookup not DIR"
  else dirlookup_loop (dir_fuel d) dp name 0.

(** The offset of the first free entry, or the size. *)
Fixpoint free_dirent (fuel : nat) (dp : nat) (off : Z) : K Z :=
  match fuel with
  | O => nofuel
  | S fuel' =>
      let! d := inode_at dp in
      if negb (off <? d.(ip_size)) then ret off
      else
        let! (r, de) := readi dp off DIRENT in
        if negb (r =? DIRENT) then panic "dirlink read"
        else if de_inum de =? 0 then ret off
        else free_dirent fuel' dp (off + DIRENT)
  end.
(** strncpy writes every byte of de.name. *)
Definition dirlink (dp : nat) (name : list Z) (inum : Z) : K Z :=
  let! found := dirlookup dp name in
  match found with
  | Some (i, _) => iput i ;;; ret (-1)
  | None =>
      let! d := inode_at dp in
      let! off := free_dirent (dir_fuel d) dp 0 in
      let de := encode_dirent inum (strncpy (Z.to_nat DIRSIZ) (replicate (Z.to_nat DIRSIZ) 0) name) in
      let! r := writei dp de (u32 off) DIRENT in
      if negb (r =? DIRENT) then panic "dirlink"
      else ret 0
  end.

(** ** Path names *)
Fixpoint namex_loop (fuel : nat) (ip : nat) (path : list Z) (nameiparent : bool) (name : list Z) :
    K (option nat * list Z) :=
  match fuel with
  | O => nofuel
  | S fuel' =>
      match skipelem path name with
      | None => if nameiparent then iput ip ;;; ret (None, name) else ret (Some ip, name)
      | Some (path, name) =>
          ilock (Some ip) ;;;
          let! d := inode_at ip in
          if negb (d.(ip_type) =? T_DIR) then iunlockput ip ;;; ret (None, name)
          else if nameiparent && (deref path =? 0) then iunlock (Some ip) ;;; ret (Some ip, name)
          else
            let! found := dirlookup ip name in
            match found with
            | None => iunlockput ip ;;; ret (None, name)
            | Some (next, _) => iunlockput ip ;;; namex_loop fuel' next path nameiparent name
            end
      end
  end.
(** The inode, and the contents of name; every element uses up a character. *)
Definition namex (path : list Z) (nameiparent : bool) (name : list Z) : K (option nat * list Z) :=
  let! ip :=
    (if deref path =? slash then iget ROOTDEV ROOTINO
     else
       let! p := curproc in
       let! pr := proc_at p in
       match pr.(p_cwd) with
       | Some c => idup c
       | None => panic "null inode"
       end) in
  namex_loop (S (length path)) ip path nameiparent name.

Definition namei (path : list Z) : K (option nat) :=
  let! (ip, _) := namex path false (replicate (Z.to_nat DIRSIZ) 0) in
  ret ip.
Definition nameiparent (path name : list Z) : K (option nat * list Z) := namex path true name.
End Code.

(** ** Path elements

    The elements of a path: what lies between its slashes, up to the NUL. *)
Definition flush (cur : list Z) : list (list Z) := match cur with [] => [] | _ => [cur] end.
Fixpoint elems (cur l : list Z) : list (list Z) :=
  match l with
  | [] => flush cur
  | c :: l' =>
      if c =? 0 then flush cur
      else if c =? slash then flush cur ++ elems [] l'
      else elems (cur ++ [c]) l'
  end.
Definition elements (path : list Z) : list (list Z) := elems [] path.

Lemma elements_skip path : elements (skip_slashes path) = elements path.
Proof.
  unfold elements. induction path as [|c path IH]; [done|]. cbn [skip_slashes elems].
  destruct (Z.eqb_spec c slash) as [->|Hc]; [exact IH|]. cbn [elems].
  by rewrite (proj2 (Z.eqb_neq c slash) Hc).
Qed.

Lemma length_skip path : (length (skip_slashes path) <= length path)%nat.
Proof. induction path as [|c path IH]; [done|]. cbn. destruct (c =? slash); cbn; lia. Qed.

Lemma skip_no_slash path : deref (skip_slashes path) <> slash.
Proof.
  induction path as [|c path IH]; [done|]. cbn. destruct (Z.eqb_spec c slash); [done|]. done.
Qed.

(** The first element of a path without leading slashes. *)
Lemma elems_split cur path :
  elems cur path = flush (cur ++ (split_elem path).1) ++ elems [] (split_elem path).2.
Proof.
  revert cur. induction path as [|c path IH]; intros cur; cbn [elems split_elem].
  - by rewrite !app_nil_r.
  - destruct (Z.eqb_spec c 0) as [->|H0]; [|destruct (Z.eqb_spec c slash) as [->|Hs]]; cbn [orb fst snd].
    + by rewrite !app_nil_r.
    + by rewrite app_nil_r.
    + rewrite IH. destruct (split_elem path) as [e r]. cbn [fst snd]. by rewrite <- app_assoc.
Qed.

Lemma split_elem_first c path :
  c <> 0 -> c <> slash -> (split_elem (c :: path)).1 = c :: (split_elem path).1.
Proof.
  intros H0 Hs. cbn [split_elem]. rewrite (proj2 (Z.eqb_neq _ _) Hs), (proj2 (Z.eqb_neq _ _) H0). cbn [orb].
  by destruct (split_elem path).
Qed.

Lemma split_elem_length path :
  (length (split_elem path).1 + length (split_elem path).2)%nat = length path.
Proof.
  induction path as [|c path IH]; [done|]. cbn [split_elem]. destruct (_ || _); [done|].
  destruct (split_elem path). cbn in *. lia.
Qed.

Lemma split_elem_no_nul path : Forall (fun c => c <> 0) (split_elem path).1.
Proof.
  induction path as [|c path IH]; [constructor|]. cbn [split_elem].
  destruct (Z.eqb_spec c slash), (Z.eqb_spec c 0); cbn [orb]; try constructor.
  destruct (split_elem path). by constructor.
Qed.

Lemma elements_nil path : deref path <> slash -> (deref path = 0 <-> elements path = []).
Proof.
  intros Hs. destruct path as [|c path]; [done|]. cbn [deref] in *. unfold elements. cbn [elems].
  destruct (Z.eqb_spec c 0) as [->|H0]; [done|]. rewrite (proj2 (Z.eqb_neq _ _) Hs), elems_split.
  split; [done|]. by cbn.
Qed.

(** What is in name. *)
Lemma c_string_app l r : Forall (fun c => c <> 0) l -> c_string (l ++ 0 :: r) = l.
Proof.
  induction 1 as [|c l Hc _ IH]; [done|]. cbn. by rewrite (proj2 (Z.eqb_neq _ _) Hc), IH.
Qed.
Lemma c_string_id l : Forall (fun c => c <> 0) l -> c_string l = l.
Proof. induction 1 as [|c l Hc _ IH]; [done|]. cbn. by rewrite (proj2 (Z.eqb_neq _ _) Hc), IH. Qed.

Lemma put_prefix name e :
  (length e <= length name)%nat -> put name 0 e = e ++ drop (length e) name.
Proof.
  intros Hlen. unfold put. change (Z.to_nat 0) with 0%nat. apply list_eq. intros k.
  destruct (decide (k < length e)%nat) as [Hk|Hk].
  - rewrite list_lookup_inserts by lia. rewrite lookup_app_l by done. by rewrite Nat.sub_0_r.
  - rewrite list_lookup_inserts_ge by lia. rewrite lookup_app_r, lookup_drop by lia. f_equal. lia.
Qed.

Lemma name_content name e :
  length name = Z.to_nat DIRSIZ -> Forall (fun c => c <> 0) e ->
  let len := Z.of_nat (length e) in
  let name' := if DIRSIZ <=? len then put name 0 (take (Z.to_nat DIRSIZ) e) else put (put name 0 e) len [0] in
  length name' = Z.to_nat DIRSIZ /\ c_string name' = take (Z.to_nat DIRSIZ) e.
Proof.
  intros Hlen He len name'. unfold name', len. clear name' len. unfold DIRSIZ in *.
  destruct (Z.leb_spec 14 (Z.of_nat (length e))) as [Hl|Hl]; rewrite !length_put; (split; [done|]).
  - rewrite put_prefix, drop_ge, app_nil_r by (rewrite ?length_take; lia).
    by apply c_string_id, Forall_take.
  - rewrite (take_ge e), put_prefix by lia.
    destruct (drop (length e) name) as [|x r] eqn:Ed.
    { apply (f_equal length) in Ed. rewrite length_drop in Ed. cbn in Ed. lia. }
    unfold put. rewrite Nat2Z.id. cbn [list_inserts].
    replace (length e) with (length e + 0)%nat by lia. rewrite insert_app_r. cbn. by apply c_string_app.
Qed.

(** skipelem splits a path into its elements.  It returns null exactly when
    the path has none; otherwise the returned rest holds the remaining elements,
    starts with a NUL exactly when there are none, and is shorter than the path
    (so the loop of namex ends), and name holds the first element, cut to
    DIRSIZ characters. *)
Theorem skipelem_elements (path name : list Z) :
  length name = Z.to_nat DIRSIZ ->
  match skipelem path name with
  | None => elements path = []
  | Some (rest, name') => exists e, elements path = e :: elements rest /\
      (deref rest = 0 <-> elements rest = []) /\ (length rest < length path)%nat /\
      length name' = Z.to_nat DIRSIZ /\ c_string name' = take (Z.to_nat DIRSIZ) e
  end.
Proof.
  intros Hname. unfold skipelem. pose proof (skip_no_slash path) as Hns. pose proof (length_skip path) as Hlp.
  rewrite <- (elements_skip path). destruct (skip_slashes path) as [|c p]; [done|]. cbn [deref] in *.
  destruct (Z.eqb_spec c 0) as [->|Hc]; [done|].
  pose proof (split_elem_first c p Hc Hns) as H1. pose proof (split_elem_length (c :: p)) as Hl.
  pose proof (split_elem_no_nul (c :: p)) as Hnul. pose proof (elems_split [] (c :: p)) as Hel.
  destruct (split_elem (c :: p)) as [e r]. cbn [fst snd] in *. exists e. split_and!.
  - unfold elements at 1. rewrite Hel, elements_skip, H1. done.
  - apply elements_nil, skip_no_slash.
  - pose proof (length_skip r). rewrite H1 in Hl. cbn in Hl, Hlp. lia.
  - apply (name_content name e Hname Hnul).
  - apply (name_content name e Hname Hnul).
Qed.

Lemma skipelem_elements_witness :
  skipelem (bytes "///a//bb") (replicate 14 0) = Some (bytes "bb", 97 :: replicate 13 0) /\
  elements (bytes "///a//bb") = [bytes "a"; bytes "bb"].
Proof.
  pose proof (skipelem_elements (bytes "///a//bb") (replicate 14 0) eq_refl) as H.
  split; [reflexivity|]. vm_compute in H. destruct H as (e & H & _). reflexivity.
Defined.
