(* ===== verification/Freemap.v ===== *)
(** * The free map (fs.c): balloc and bfree inside a transaction

    The bitmap as a predicate on block numbers, and what balloc and bfree do to
    it and to the contents of the blocks. *)

From S2P Require Import Prelude State Spinlock Thread CString Cprintf Kalloc Layout Vm Sched Sleeplock Disk Bio Log Tx Fs.

(** ** Bits of the free map *)

Lemma land_bit x k : 0 <= k -> (Z.land x (Z.shiftl 1 k) =? 0) = negb (Z.testbit x k).
Proof.
  intros Hk. destruct (Z.testbit x k) eqn:E; cbn.
  - apply Z.eqb_neq. intros H. apply (f_equal (fun z => Z.testbit z k)) in H.
    rewrite Z.land_spec, Z.shiftl_spec, Z.sub_diag, E, Z.bits_0 in H by done. done.
  - apply Z.eqb_eq, Z.bits_inj'. intros n Hn. rewrite Z.land_spec, Z.bits_0, Z.shiftl_1_l, Z.pow2_bits_eqb by lia.
    destruct (Z.eqb_spec k n) as [<-|]; [by rewrite E|by rewrite andb_false_r].
Qed.

Lemma bit_free_testbit d bi : bit_free d bi = negb (Z.testbit (get8 d (bi / 8)) (bi mod 8)).
Proof. apply land_bit. pose proof (Z.mod_pos_bound bi 8). lia. Qed.

Lemma testbit_u8 x k : 0 <= k < 8 -> Z.testbit (u8 x) k = Z.testbit x k.
Proof. intros Hk. unfold u8. change 256 with (2 ^ 8). by rewrite Z.mod_pow2_bits_low by lia. Qed.

Lemma bit_free_put d bi bj v :
  0 <= bi < BPB -> 0 <= bj -> Z.of_nat (length d) = BSIZE ->
  (forall k, 0 <= k < 8 -> k <> bi mod 8 -> Z.testbit v k = Z.testbit (get8 d (bi / 8)) k) ->
  bit_free (put d (bi / 8) [u8 v]) bj = if bj =? bi then negb (Z.testbit v (bi mod 8)) else bit_free d bj.
Proof.
  unfold BPB, BSIZE. intros Hi Hj Hlen Hv. rewrite !bit_free_testbit.
  pose proof (Z.mod_pos_bound bi 8). pose proof (Z.mod_pos_bound bj 8).
  pose proof (Z.div_mod bi 8). pose proof (Z.div_mod bj 8).
  destruct (decide (bj / 8 = bi / 8)) as [E|E].
  - rewrite E, get8_put_in by (cbn; lia). rewrite Z.sub_diag. change (nth (Z.to_nat 0) [u8 v] 0) with (u8 v). rewrite testbit_u8 by lia.
    destruct (Z.eqb_spec bj bi) as [->|Hne]; [done|]. rewrite Hv by lia. done.
  - rewrite get8_put_out by (cbn; lia). destruct (Z.eqb_spec bj bi) as [->|Hne]; [lia|done].
Qed.

Lemma set_bit_spec d bi bj :
  0 <= bi < BPB -> 0 <= bj -> Z.of_nat (length d) = BSIZE ->
  bit_free (set_bit d bi) bj = if bj =? bi then false else bit_free d bj.
Proof.
  intros Hi Hj Hlen. unfold set_bit. pose proof (Z.mod_pos_bound bi 8) as Hm. rewrite bit_free_put; [|done..|].
  - rewrite Z.lor_spec, Z.shiftl_1_l, Z.pow2_bits_true, orb_true_r by lia. done.
  - intros k Hk Hne. rewrite Z.lor_spec, Z.shiftl_1_l, Z.pow2_bits_false, orb_false_r by lia. done.
Qed.

Lemma clear_bit_spec d bi bj :
  0 <= bi < BPB -> 0 <= bj -> Z.of_nat (length d) = BSIZE ->
  bit_free (clear_bit d bi) bj = if bj =? bi then true else bit_free d bj.
Proof.
  intros Hi Hj Hlen. unfold clear_bit. pose proof (Z.mod_pos_bound bi 8) as Hm. rewrite bit_free_put; [|done..|].
  - rewrite Z.land_spec, Z.lnot_spec, Z.shiftl_1_l, Z.pow2_bits_true, andb_false_r by lia. done.
  - intros k Hk Hne. rewrite Z.land_spec, Z.lnot_spec, Z.shiftl_1_l, Z.pow2_bits_false, andb_true_r by lia. done.
Qed.

(** The scan stops at the first free bit. *)
Lemma balloc_scan_spec d b size n : forall bi,
  0 <= bi -> BPB - bi <= Z.of_nat n ->
  match balloc_scan n d b bi size with
  | Some k => bi <= k < BPB /\ b + k < size /\ bit_free d k = true /\ forall j, bi <= j < k -> bit_free d j = false
  | None => forall j, bi <= j < BPB -> b + j < size -> bit_free d j = false
  end.
Proof.
  induction n as [|n IH]; intros bi Hbi Hn; cbn [balloc_scan]; [lia|].
  destruct (Z.ltb_spec bi BPB), (Z.ltb_spec (b + bi) size); cbn [andb]; try lia.
  destruct (bit_free d bi) eqn:E; [split_and!; [lia..|done|lia]|].
  specialize (IH (bi + 1)). destruct (balloc_scan n d b (bi + 1) size) as [k|].
  - destruct IH as (H1 & H2 & H3 & H4); [lia..|]. split_and!; [lia..|done|]. intros j Hj.
    destruct (decide (j = bi)) as [->|]; [done|]. apply H4. lia.
  - intros j Hj Hs. destruct (decide (j = bi)) as [->|]; [done|]. apply IH; lia.
Qed.

(** ** The file system's blocks *)

(** Block [b] is marked free in the map. *)
Definition free (s : kernel) (b : Z) : bool := bit_free (view s (BBLOCK b s.(k_sb))) (b mod BPB).

(** The map lies on the disk, and block 0 and its own blocks are in use. *)
Record map_ok (s : kernel) : Prop := {
  mo_size : 0 < s.(k_sb).(sb_size) <= s.(k_disksize) /\ s.(k_disksize) <= 2 ^ 31;
  mo_start : 0 <= s.(k_sb).(sb_bmapstart) /\
    s.(k_sb).(sb_bmapstart) + s.(k_sb).(sb_size) / BPB < s.(k_sb).(sb_size);
  mo_boot : free s 0 = false;
  mo_used b : 0 <= b < s.(k_sb).(sb_size) -> free s (BBLOCK b s.(k_sb)) = false
}.

Lemma BBLOCK_eq s b :
  map_ok s -> 0 <= b < s.(k_sb).(sb_size) ->
  BBLOCK b s.(k_sb) = b / BPB + s.(k_sb).(sb_bmapstart) /\ 0 <= BBLOCK b s.(k_sb) < s.(k_sb).(sb_size).
Proof.
  intros Hm Hb. destruct (mo_size _ Hm), (mo_start _ Hm) as [? Hst]. unfold BBLOCK.
  assert (0 <= b / BPB <= sb_size (k_sb s) / BPB).
  { split; [apply Z.div_pos; unfold BPB, BSIZE; lia|apply Z.div_le_mono; unfold BPB, BSIZE; lia]. }
  rewrite u32_small by lia. lia.
Qed.

Lemma BBLOCK_same s b k :
  0 <= k < BPB -> b mod BPB = 0 -> BBLOCK (b + k) s.(k_sb) = BBLOCK b s.(k_sb) /\ (b + k) mod BPB = k.
Proof.
  unfold BBLOCK, BPB, BSIZE. intros Hk Hb. pose proof (Z.div_mod b (512 * 8)).
  replace (b + k) with (k + b / (512 * 8) * (512 * 8)) by lia.
  rewrite Z.div_add, Z.mod_add, (Z.div_small k), (Z.mod_small k) by lia. done.
Qed.

(** The map after a bit of one of its blocks changed. *)
Lemma free_update s s' a (v : bool) d :
  map_ok s -> 0 <= a < s.(k_sb).(sb_size) -> s'.(k_sb) = s.(k_sb) ->
  view s' (BBLOCK a s.(k_sb)) = d ->
  (forall j, 0 <= j -> bit_free d j = if j =? a mod BPB then v else bit_free (view s (BBLOCK a s.(k_sb))) j) ->
  (forall b, 0 <= b < s.(k_sb).(sb_size) -> BBLOCK b s.(k_sb) <> BBLOCK a s.(k_sb) ->
     view s' (BBLOCK b s.(k_sb)) = view s (BBLOCK b s.(k_sb))) ->
  forall b, 0 <= b < s.(k_sb).(sb_size) -> free s' b = if b =? a then v else free s b.
Proof.
  intros Hm Ha Hsb Hd Hbits Hv b Hb. unfold free. rewrite Hsb.
  destruct (BBLOCK_eq s a Hm Ha) as [Ea _], (BBLOCK_eq s b Hm Hb) as [Eb _].
  assert (Hmod : 0 <= b mod BPB) by (apply Z.mod_pos_bound; unfold BPB, BSIZE; lia).
  destruct (decide (b / BPB = a / BPB)) as [E|E].
  - replace (BBLOCK b (k_sb s)) with (BBLOCK a (k_sb s)) by lia. rewrite Hd, Hbits by done.
    pose proof (Z.div_mod b BPB). pose proof (Z.div_mod a BPB).
    assert (BPB = 4096) as HB by done.
    destruct (Z.eqb_spec b a) as [->|Hne]; [by rewrite Z.eqb_refl|].
    rewrite (proj2 (Z.eqb_neq _ _)) by lia. done.
  - rewrite Hv by (done || lia). rewrite (proj2 (Z.eqb_neq b a)); [done|]. intros ->. done.
Qed.

Section Alloc.
Context {P : Patience} {D : BlockDriver} {CL : CacheLaws P D}.
Context (i p : nat) (pid : Z).

(** The blocks of [hold] are in use and not part of the map. *)
Definition held_data (hold : gset nat) (s : kernel) : Prop :=
  forall b x, b ∈ hold -> s.(k_bufs) !! b = Some x ->
    0 <= x.(b_blockno) < s.(k_sb).(sb_size) /\ free s x.(b_blockno) = false /\
    forall n, 0 <= n < s.(k_sb).(sb_size) -> x.(b_blockno) <> BBLOCK n s.(k_sb).

Lemma bzero_ok hold cap s a :
  in_tx i p pid hold cap s -> can_read hold cap a s -> 1 <= cap -> 0 <= a -> s.(k_disksize) <= 2 ^ 31 ->
  exists s', bzero 1 a s = Ret tt s' /\ in_tx i p pid hold (cap - 1) s' /\
    (forall n, view s' n = if n =? a then replicate (Z.to_nat BSIZE) 0 else view s n) /\
    same_held hold s s' /\ tx_step s s'.
Proof.
  intros Htx Hr Hcap Ha Hmax. pose proof Hr as (_ & _ & Hlt).
  destruct (tx_update i p pid hold cap s a (replicate (Z.to_nat BSIZE) 0) Htx Hr Hcap Ha Hmax)
    as (b & s1 & s2 & s3 & E1 & E1' & E2 & E3 & _ & Htx3 & Hv3 & Hk3 & Hs3).
  { by rewrite length_replicate. }
  exists s3. split_and!; try done. unfold bzero. rewrite (u32_small a) by lia. change (u32 1) with 1.
  kret_by exact E1. kret_by exact E1'. unfold set_data. kret. kret_by exact E2. exact E3.
Qed.

(** What balloc does when it returns block [a]. *)
Record allocated (hold : gset nat) (cap : Z) (s : kernel) (a : Z) (s' : kernel) : Prop := {
  al_tx : in_tx i p pid hold (cap - 2) s';
  al_range : 0 <= a < s.(k_sb).(sb_size);
  al_first : free s a = true /\ forall b, 0 <= b < a -> free s b = false;
  al_zero : view s' a = replicate (Z.to_nat BSIZE) 0;
  al_view n : n <> a -> n <> BBLOCK a s.(k_sb) -> view s' n = view s n;
  al_free b : 0 <= b < s.(k_sb).(sb_size) -> free s' b = if b =? a then false else free s b;
  al_held : same_held hold s s';
  al_step : tx_step s s'
}.

(** The map block of [b] may be read, and the free block [a] be zeroed. *)
Lemma can_read_map hold cap s b :
  map_ok s -> held_data hold s -> Z.of_nat (size hold) <= cap -> 0 <= b < s.(k_sb).(sb_size) ->
  can_read hold cap (BBLOCK b s.(k_sb)) s.
Proof.
  intros Hm Hh Hc Hb. destruct (mo_size _ Hm), (BBLOCK_eq s b Hm Hb) as [_ HB]. split_and!; [|done|lia].
  intros b' x Hb' Hx. destruct (Hh b' x Hb' Hx) as (_ & _ & Hne). by apply Hne.
Qed.

Lemma balloc_take hold cap s b k fuel :
  in_tx i p pid hold cap s -> map_ok s -> held_data hold s -> Z.of_nat (size hold) + 1 <= cap -> 2 <= cap ->
  0 <= b -> b mod BPB = 0 -> (forall b', 0 <= b' < b -> b' < s.(k_sb).(sb_size) -> free s b' = false) ->
  balloc_scan (Z.to_nat BPB) (view s (BBLOCK b s.(k_sb))) b 0 s.(k_sb).(sb_size) = Some k ->
  exists s', balloc_loop (S fuel) 1 b s = Ret (b + k) s' /\ allocated hold cap s (b + k) s'.
Proof.
  intros Htx Hm Hh Hsz Hcap H0 Hb Hno Hscan. destruct (mo_size _ Hm) as [Hs1 Hs2].
  pose proof (balloc_scan_spec (view s (BBLOCK b s.(k_sb))) b (sb_size (k_sb s)) (Z.to_nat BPB) 0) as Hspec.
  rewrite Hscan in Hspec. destruct Hspec as (Hk & Hlt & Hfree & Hbefore); [lia|lia|].
  destruct (BBLOCK_same s b k Hk Hb) as [EB Emod].
  assert (Hfa : free s (b + k) = true) by (unfold free; by rewrite EB, Emod).
  assert (Hsize := itx_size _ _ _ _ _ _ Htx (BBLOCK b (k_sb s))).
  set (d := set_bit (view s (BBLOCK b (k_sb s))) k).
  destruct (tx_update i p pid hold cap s (BBLOCK b (k_sb s)) d Htx)
    as (bp & s1 & s2 & s3 & E1 & E1' & E2 & E3 & _ & Htx3 & Hv3 & Hk3 & Hst3).
  { apply can_read_map; [done|done|lia|lia]. }
  { lia. } { apply (BBLOCK_eq s b Hm). lia. } { done. } { unfold d, set_bit. by rewrite length_put. }
  pose proof (tx_step_fields _ _ Hst3) as (_ & Hsb3 & Hdz3 & _).
  destruct (bzero_ok hold (cap - 1) s3 (b + k) Htx3) as (s4 & E4 & Htx4 & Hv4 & Hk4 & Hst4).
  { split_and!; [|lia|lia]. intros b' x Hb' Hx. rewrite Hk3 in Hx by done.
    destruct (Hh b' x Hb' Hx) as (_ & Hu & _). congruence. }
  { lia. } { lia. } { lia. }
  assert (Hne : BBLOCK b (k_sb s) <> b + k).
  { intros Heq. pose proof (mo_used _ Hm b) as Hu. rewrite Heq in Hu. rewrite Hu in Hfa by lia. done. }
  exists s4. split.
  - cbn [balloc_loop]. kret. replace (b <? sb_size (k_sb s)) with true by lia. cbn [negb].
    kret_by exact E1. kret_by exact E1'. rewrite Hscan. unfold set_data. kret. kret_by exact E2. kret_by exact E3.
    kret_by exact E4. by rewrite u32_small by lia.
  - split; rewrite ?EB.
    + by replace (cap - 2) with (cap - 1 - 1) by lia.
    + lia.
    + split; [done|]. intros b' Hb'. destruct (decide (b' < b)); [apply Hno; lia|].
      replace b' with (b + (b' - b)) by lia. unfold free. destruct (BBLOCK_same s b (b' - b)) as [-> ->]; [lia|done|].
      apply Hbefore. lia.
    + by rewrite Hv4, Z.eqb_refl.
    + intros n Hn1 Hn2. by rewrite Hv4, Hv3, !(proj2 (Z.eqb_neq _ _)).
    + apply (free_update s s4 (b + k) false d Hm); rewrite ?EB; try done; [lia|..].
      * destruct (tx_step_fields _ _ Hst4) as (_ & -> & _). done.
      * rewrite Hv4, Hv3, Z.eqb_refl. by rewrite (proj2 (Z.eqb_neq _ _)).
      * intros j Hj. rewrite Emod. by apply set_bit_spec.
      * intros b' Hb' Hn. rewrite Hv4, Hv3, (proj2 (Z.eqb_neq _ _) Hn). rewrite (proj2 (Z.eqb_neq _ _)); [done|].
        intros Heq. pose proof (mo_used _ Hm b' Hb') as Hu. rewrite Heq in Hu. congruence.
    + intros b' Hb'. by rewrite Hk4, Hk3.
    + by transitivity s3.
Qed.

(** A map block without a free bit is skipped. *)
Lemma balloc_skip hold cap s b fuel :
  in_tx i p pid hold cap s -> map_ok s -> held_data hold s -> Z.of_nat (size hold) <= cap ->
  0 <= b < s.(k_sb).(sb_size) ->
  balloc_scan (Z.to_nat BPB) (view s (BBLOCK b s.(k_sb))) b 0 s.(k_sb).(sb_size) = None ->
  exists s', balloc_loop (S fuel) 1 b s = balloc_loop fuel 1 (b + BPB) s' /\ in_tx i p pid hold cap s' /\
    (forall n, view s' n = view s n) /\ same_held hold s s' /\ tx_step s s'.
Proof.
  intros Htx Hm Hh Hsz Hb Hscan.
  destruct (tx_read i p pid hold cap s (BBLOCK b s.(k_sb)) Htx (can_read_map hold cap s b Hm Hh Hsz Hb))
    as (bp & s1 & s2 & E1 & E1' & E2 & _ & Htx2 & Hv2 & Hk2 & Hs2).
  exists s2. split_and!; try done. cbn [balloc_loop]. kret. replace (b <? sb_size (k_sb s)) with true by lia.
  cbn [negb]. kret_by exact E1. kret_by exact E1'. rewrite Hscan. by kret_by exact E2.
Qed.

Lemma map_ok_same s s' :
  (forall n, view s' n = view s n) -> s'.(k_sb) = s.(k_sb) -> s'.(k_disksize) = s.(k_disksize) ->
  (forall b, free s' b = free s b) /\ (map_ok s -> map_ok s').
Proof.
  intros Hv Hsb Hz. assert (Hf : forall b, free s' b = free s b) by (intros b; unfold free; by rewrite Hsb, Hv).
  split; [done|]. intros [H1 H2 H3 H4]. split; rewrite ?Hsb, ?Hz; try done; [by rewrite Hf|].
  intros b Hb. rewrite Hf. by apply H4.
Qed.

Lemma held_data_same hold s s' :
  (forall b, free s' b = free s b) -> s'.(k_sb) = s.(k_sb) -> same_held hold s s' ->
  held_data hold s -> held_data hold s'.
Proof.
  intros Hf Hsb Hk Hh b x Hb Hx. rewrite Hk in Hx by done. rewrite Hsb, Hf. by apply (Hh b x).
Qed.

Lemma balloc_loop_ok hold cap a fuel : forall s b,
  in_tx i p pid hold cap s -> map_ok s -> held_data hold s -> Z.of_nat (size hold) + 1 <= cap -> 2 <= cap ->
  0 <= b -> b mod BPB = 0 -> (forall b', 0 <= b' < b -> b' < s.(k_sb).(sb_size) -> free s b' = false) ->
  0 <= a < s.(k_sb).(sb_size) -> free s a = true -> s.(k_sb).(sb_size) <= b + Z.of_nat fuel * BPB ->
  exists a' s', balloc_loop fuel 1 b s = Ret a' s' /\ allocated hold cap s a' s'.
Proof.
  induction fuel as [|fuel IH]; intros s b Htx Hm Hh Hsz Hcap H0 Hb Hno Ha Hfree Hfuel.
  { assert (a < b) by lia. rewrite Hno in Hfree by lia. done. }
  assert (b <= a) by (destruct (decide (b <= a)); [done|rewrite Hno in Hfree by lia; done]).
  destruct (balloc_scan (Z.to_nat BPB) (view s (BBLOCK b s.(k_sb))) b 0 s.(k_sb).(sb_size)) as [k|] eqn:Hscan.
  { destruct (balloc_take hold cap s b k fuel) as (s' & E & Hal); try done. by exists (b + k), s'. }
  pose proof (balloc_scan_spec (view s (BBLOCK b s.(k_sb))) b (sb_size (k_sb s)) (Z.to_nat BPB) 0) as Hspec.
  rewrite Hscan in Hspec.
  destruct (balloc_skip hold cap s b fuel) as (s1 & E & Htx1 & Hv1 & Hk1 & Hs1); [done|done|done|lia|lia|done|].
  pose proof (tx_step_fields _ _ Hs1) as (_ & Hsb1 & Hz1 & _).
  destruct (map_ok_same s s1 Hv1 Hsb1 Hz1) as [Hf1 Hm1].
  destruct (IH s1 (b + BPB)) as (a' & s' & E' & Hal); rewrite ?Hsb1, ?Hf1;
    [done|by auto|by eapply held_data_same|done|done|unfold BPB, BSIZE; lia| | |done|done|lia|].
  { rewrite <- Z.add_mod_idemp_l, Hb by done. done. }
  { intros b' Hb' Hlt. rewrite Hf1. destruct (decide (b' < b)); [apply Hno; lia|].
    replace b' with (b + (b' - b)) by lia. unfold free. destruct (BBLOCK_same s b (b' - b)) as [-> ->]; [lia|done|].
    apply Hspec; lia. }
  exists a', s'. split; [by rewrite E|]. destruct Hal as [A1 A2 A3 A4 A5 A6 A7 A8]. rewrite Hsb1 in *.
  split; try done.
  - rewrite <- Hf1. split; [apply A3|]. intros b' Hb'. rewrite <- Hf1. by apply A3.
  - intros n Hn1 Hn2. by rewrite A5, Hv1.
  - intros b' Hb'. rewrite A6, Hf1 by done. done.
  - intros b' Hb'. by rewrite A7, Hk1.
  - by transitivity s1.
Qed.

(** balloc takes the first free block. *)
Lemma balloc_ok hold cap s a :
  in_tx i p pid hold cap s -> map_ok s -> held_data hold s -> Z.of_nat (size hold) + 1 <= cap -> 2 <= cap ->
  0 <= a < s.(k_sb).(sb_size) -> free s a = true ->
  exists a' s', balloc 1 s = Ret a' s' /\ allocated hold cap s a' s'.
Proof.
  intros Htx Hm Hh Hsz Hcap Ha Hfree. unfold balloc. kret.
  apply (balloc_loop_ok hold cap a); try done; [lia|].
  pose proof (Z.div_mod (sb_size (k_sb s)) BPB). pose proof (Z.mod_pos_bound (sb_size (k_sb s)) BPB).
  assert (0 <= sb_size (k_sb s) / BPB) by (apply Z.div_pos; unfold BPB, BSIZE; lia).
  unfold BPB, BSIZE in *. lia.
Qed.

Lemma bfree_start hold cap s a :
  in_tx i p pid hold cap s -> can_read hold cap 1 s -> decode_sb (view s 1) = s.(k_sb) ->
  exists s1, in_tx i p pid hold cap s1 /\ (forall n, view s1 n = view s n) /\ same_held hold s s1 /\ tx_step s s1 /\
    bfree 1 a s =
      (let! bp := bread 1 (BBLOCK a s.(k_sb)) in
       let! d := buf_data bp in
       if bit_free d (a mod BPB) then panic "freeing free block"
       else set_data bp (clear_bit d (a mod BPB)) ;;; log_write bp ;;; brelse bp)%xv6 s1.
Proof.
  intros Htx Hr Hsb.
  destruct (tx_read i p pid hold cap s 1 Htx Hr) as (b & s1 & s2 & E1 & E1' & E2 & _ & Htx2 & Hv2 & Hk2 & Hs2).
  exists s2. split_and!; try done. pose proof (tx_step_fields _ _ Hs2) as (_ & Hsb2 & _).
  assert (E : readsb (u32 1) s = Ret s.(k_sb) s2).
  { unfold readsb. change (u32 1) with 1. kret_by exact E1. kret_by exact E1'. kret_by exact E2. by rewrite Hsb. }
  unfold bfree. kret_by exact E. kret. rewrite <- Hsb2. done.
Qed.

Lemma bfree_ok hold cap s a :
  in_tx i p pid hold cap s -> map_ok s -> held_data hold s -> Z.of_nat (size hold) <= cap -> 1 <= cap ->
  can_read hold cap 1 s -> decode_sb (view s 1) = s.(k_sb) -> 0 <= a < s.(k_sb).(sb_size) ->
  if free s a then exists s', bfree 1 a s = Panic "freeing free block" s'
  else exists s', bfree 1 a s = Ret tt s' /\ in_tx i p pid hold (cap - 1) s' /\
    (forall n, n <> BBLOCK a s.(k_sb) -> view s' n = view s n) /\
    (forall b, 0 <= b < s.(k_sb).(sb_size) -> free s' b = if b =? a then true else free s b) /\
    same_held hold s s' /\ tx_step s s'.
Proof.
  intros Htx Hm Hh Hsz Hcap Hr1 Hsb Ha. destruct (mo_size _ Hm) as [Hs1 Hs2].
  destruct (bfree_start hold cap s a Htx Hr1 Hsb) as (s1 & Htx1 & Hv1 & Hk1 & Hst1 & ->).
  pose proof (tx_step_fields _ _ Hst1) as (_ & Hsb1 & Hz1 & _).
  destruct (map_ok_same s s1 Hv1 Hsb1 Hz1) as [Hf1 Hm1]. destruct (BBLOCK_eq s a Hm Ha) as [_ HB].
  assert (Hr : can_read hold cap (BBLOCK a (k_sb s)) s1).
  { rewrite <- Hsb1. apply can_read_map; rewrite ?Hsb1; [by auto|by eapply held_data_same|done|done]. }
  assert (Hmod : 0 <= a mod BPB < BPB) by (apply Z.mod_pos_bound; unfold BPB, BSIZE; lia).
  set (d := clear_bit (view s1 (BBLOCK a (k_sb s))) (a mod BPB)).
  destruct (tx_update i p pid hold cap s1 (BBLOCK a (k_sb s)) d Htx1 Hr Hcap)
    as (bp & s2 & s3 & s4 & E2 & E2' & E3 & E4 & _ & Htx4 & Hv4 & Hk4 & Hst4); [lia|lia| |].
  { unfold d, clear_bit. rewrite length_put. apply (itx_size _ _ _ _ _ _ Htx1). }
  unfold free. rewrite <- (Hv1 (BBLOCK a (k_sb s))). destruct (bit_free _ _) eqn:Hbit.
  { eexists. kret_by exact E2. kret_by exact E2'. by rewrite Hbit. }
  exists s4. split_and!; try done.
  - kret_by exact E2. kret_by exact E2'. rewrite Hbit. unfold set_data. kret. kret_by exact E3. exact E4.
  - intros n Hn. by rewrite Hv4, (proj2 (Z.eqb_neq _ _) Hn).
  - fold (free s). apply (free_update s s4 a true d Hm Ha).
    + by destruct (tx_step_fields _ _ Hst4) as (_ & -> & _).
    + by rewrite Hv4, Z.eqb_refl.
    + intros j Hj. unfold d. rewrite Hv1. apply clear_bit_spec; [done|done|]. apply (itx_size _ _ _ _ _ _ Htx).
    + intros b Hb Hn. by rewrite Hv4, (proj2 (Z.eqb_neq _ _) Hn), Hv1.
  - intros b Hb. by rewrite Hk4, Hk1.
  - by transitivity s1.
Qed.
End Alloc.

(** map_ok only looks at the map. *)
Lemma map_ok_free s s' :
  map_ok s -> s'.(k_sb) = s.(k_sb) -> s'.(k_disksize) = s.(k_disksize) ->
  (forall b, 0 <= b < s.(k_sb).(sb_size) -> free s b = false -> free s' b = false) -> map_ok s'.
Proof.
  intros Hm Hsb Hz Hf. destruct (mo_size _ Hm) as [H1 H2]. split; rewrite ?Hsb, ?Hz; [apply Hm..| |].
  - apply Hf; [lia|apply Hm].
  - intros b Hb. apply Hf; [by apply (BBLOCK_eq s b Hm)|by apply Hm].
Qed.

(** C21: block allocation.  When some block is free, balloc returns the first
    free one, zeroed and marked in use; no other block and no other bit of the
    map changes.  bfree gives the block back, which restores the map, and a
    second bfree of the same block panics. *)
Theorem balloc_bfree {P : Patience} {D : BlockDriver} {CL : CacheLaws P D} (i p : nat) (pid cap f : Z) (s : kernel) :
  in_tx i p pid ∅ cap s -> 4 <= cap -> map_ok s -> decode_sb (view s 1) = s.(k_sb) ->
  free s 1 = false -> 1 < s.(k_sb).(sb_bmapstart) -> 0 <= f < s.(k_sb).(sb_size) -> free s f = true ->
  exists a s1 s2 s3, balloc 1 s = Ret a s1 /\
    free s a = true /\ 0 <= a < s.(k_sb).(sb_size) /\ (forall b, 0 <= b < a -> free s b = false) /\
    view s1 a = replicate (Z.to_nat BSIZE) 0 /\
    (forall n, n <> a -> n <> BBLOCK a s.(k_sb) -> view s1 n = view s n) /\
    (forall b, 0 <= b < s.(k_sb).(sb_size) -> free s1 b = if b =? a then false else free s b) /\
    bfree 1 a s1 = Ret tt s2 /\ (forall b, 0 <= b < s.(k_sb).(sb_size) -> free s2 b = free s b) /\
    bfree 1 a s2 = Panic "freeing free block" s3.
Proof.
  intros Htx Hcap Hm Hsb1 Hu1 Hst Hf Hfree. destruct (mo_size _ Hm) as [Hz1 Hz2], (mo_start _ Hm) as [_ Hst'].
  assert (Hsz : 0 <= s.(k_sb).(sb_size) / BPB) by (apply Z.div_pos; unfold BPB, BSIZE; lia).
  assert (Hno : forall s', held_data ∅ s') by (intros s' b x; set_solver).
  destruct (balloc_ok i p pid ∅ cap s f Htx Hm (Hno s)) as (a & s1 & E1 & Hal);
    [rewrite size_empty; lia|lia|done|done|].
  pose proof Hal as [Htx1 Ha [Hfa Hfirst] Hzero Hv1 Hf1 _ Hs1]. destruct (tx_step_fields _ _ Hs1) as (_ & Hsb & Hdz & _).
  destruct (BBLOCK_eq s a Hm Ha) as [EB _].
  assert (0 <= a / BPB) by (apply Z.div_pos; unfold BPB, BSIZE; lia).
  assert (Hm1 : map_ok s1).
  { apply (map_ok_free s); [done..|]. intros b Hb Hub. rewrite Hf1 by done. by destruct (b =? a). }
  assert (Hv11 : view s1 1 = view s 1) by (apply Hv1; [congruence|lia]).
  pose proof (bfree_ok i p pid ∅ (cap - 2) s1 a Htx1 Hm1 (Hno s1)) as H2. rewrite Hsb, Hf1, Z.eqb_refl in H2 by done.
  destruct H2 as (s2 & E2 & Htx2 & Hv2 & Hf2 & _ & Hs2);
    [rewrite size_empty; lia|lia|apply can_read_empty; lia|by rewrite Hv11|done|].
  assert (Hback : forall b, 0 <= b < s.(k_sb).(sb_size) -> free s2 b = free s b).
  { intros b Hb. rewrite Hf2, Hf1 by done. destruct (Z.eqb_spec b a) as [->|]; done. }
  destruct (tx_step_fields _ _ Hs2) as (_ & Hsb2 & Hdz2 & _). rewrite Hsb in Hsb2. rewrite Hdz in Hdz2.
  assert (Hm2 : map_ok s2) by (apply (map_ok_free s); [done..|]; intros b Hb; by rewrite Hback).
  pose proof (bfree_ok i p pid ∅ (cap - 2 - 1) s2 a Htx2 Hm2 (Hno s2)) as H3. rewrite Hsb2, Hback, Hfa in H3 by done.
  destruct H3 as (s3 & E3); [rewrite size_empty; lia|lia|apply can_read_empty; lia| |done|].
  { rewrite Hv2, Hv11 by lia. done. }
  by exists a, s1, s2, s3.
Qed.

(** ** A small file system *)
Definition map_block : list Z := replicate 7 255 ++ [7] ++ replicate 504 0.
Definition small_sb : superblock := mksuperblock FSSIZE 941 200 30 2 32 58.
Definition sb_block : list Z :=
  ([FSSIZE; 941; 200; 30; 2; 32; 58] ≫= le32) ++ replicate 484 0.
Definition small_disk (n : Z) : list Z :=
  if n =? 58 then map_block else if n =? 1 then sb_block else replicate 512 0.
(** In a transaction: mkfs's layout of 1000 blocks, the 59 first in use. *)
Definition small_fs : kernel :=
  fs_machine<|k_disk := small_disk|><|k_sb := small_sb|><|k_log := mklog 2 30 1 0 1 0 (replicate 30 0)|>.

Lemma small_view n : view small_fs n = small_disk n.
Proof.
  apply view_uncached. intros b x Hx (Hd & _). change (k_bufs small_fs) with (replicate NBUF zero_buf) in Hx.
  apply lookup_replicate in Hx as [-> _]. done.
Qed.

Lemma small_tx cap : 0 <= cap < 29 -> in_tx 0 0 0 ∅ cap small_fs.
Proof.
  intros Hcap. destruct (bc_boot 0 small_fs) as [Hbc Hnd]; [done..|]. split.
  - pose proof fs_machine_thr as Ht. tframe Ht.
  - done.
  - split; [done|cbn; unfold NBUF; lia|done|by constructor|by apply NoDup_nil_2].
  - intros n. split; [by intros ?%Hnd|by intros ?%elem_of_nil].
  - intros n. rewrite small_view. unfold small_disk. destruct (n =? 58); [done|]. by destruct (n =? 1).
Qed.

Lemma small_free b : 0 <= b < FSSIZE -> free small_fs b = (59 <=? b).
Proof.
  intros Hb. unfold free. rewrite small_view. unfold FSSIZE in *.
  assert (Hd : b / BPB = 0) by (apply Z.div_small; unfold BPB, BSIZE; lia).
  unfold BBLOCK. rewrite Hd. change (small_disk (u32 (0 + sb_bmapstart (k_sb small_fs)))) with map_block.
  rewrite Z.mod_small by (unfold BPB, BSIZE; lia).
  assert (Hall : forallb (fun b => eqb (bit_free map_block b) (59 <=? b)) (seqZ 0 1000) = true) by (by vm_compute).
  rewrite forallb_forall in Hall. apply eqb_prop, Hall, list_elem_of_In, elem_of_seqZ. lia.
Qed.

Lemma small_map : map_ok small_fs.
Proof.
  split; [done|done|by rewrite small_free|]. intros b Hb. change (sb_size (k_sb small_fs)) with 1000 in Hb.
  assert (Hd : b / BPB = 0) by (apply Z.div_small; unfold BPB, BSIZE; lia). unfold BBLOCK. rewrite Hd. by rewrite small_free.
Qed.

#[local] Instance no_waits : Patience := 0%nat.

Lemma balloc_bfree_witness :
  exists s1 s2 s3, balloc 1 small_fs = Ret 59 s1 /\ bfree 1 59 s1 = Ret tt s2 /\ bfree 1 59 s2 = Panic "freeing free block" s3.
Proof.
  destruct (balloc_bfree 0 0 0 10 59 small_fs) as (a & s1 & s2 & s3 & E1 & Hfa & Ha & Hfirst & _ & _ & _ & E2 & _ & E3);
    [by apply small_tx|done|apply small_map|by rewrite small_view; vm_compute|by rewrite small_free|done|done|by rewrite small_free|].
  assert (a = 59) as ->; [|exists s1, s2, s3; exact (conj E1 (conj E2 E3))].
  change (sb_size (k_sb small_fs)) with FSSIZE in Ha. rewrite small_free in Hfa by done. apply Z.leb_le in Hfa.
  destruct (decide (a = 59)) as [|Hne]; [done|]. specialize (Hfirst 59 ltac:(lia)). rewrite small_free in Hfirst; done.
Defined.
