(* ===== verification/Inode.v ===== *)
(** * The contents of inodes (fs.c): bmap, readi and writei

    The contents of a file as a function from offsets to bytes, which bmap does
    not change, a write changes at the written offsets only and a read
    returns. *)

From S2P Require Import Prelude State Spinlock Thread CString Cprintf Kalloc Layout Vm Sched Sleeplock Disk Bio Log Tx Fs Freemap.

Lemma get8_zeros n o : get8 (replicate n 0) o = 0.
Proof.
  unfold get8. rewrite nth_lookup. destruct (replicate n 0 !! _) as [x|] eqn:E; [|done].
  by apply lookup_replicate in E as [-> _].
Qed.

Lemma get32_zeros n o : get32 (replicate n 0) o = 0.
Proof. unfold get32, get16. by rewrite !get8_zeros. Qed.

(** ** The blocks and the bytes of a file *)

(** The block address bmap would find, or 0. *)
Definition block_addr (s : kernel) (ip : inode) (bn : Z) : Z :=
  if bn <? NDIRECT then addr_at ip bn
  else if addr_at ip NDIRECT =? 0 then 0
  else get32 (view s (addr_at ip NDIRECT)) (4 * (bn - NDIRECT)).
(** All blocks of a file: the data blocks and, last, the indirect block. *)
Definition slot (s : kernel) (ip : inode) (j : Z) : Z :=
  if j =? MAXFILE then addr_at ip NDIRECT else block_addr s ip j.

(** The byte at offset [o]; a block that is not there reads as zeros. *)
Definition file_byte (s : kernel) (ip : inode) (o : Z) : Z :=
  let a := slot s ip (o / BSIZE) in
  if a =? 0 then 0 else get8 (view s a) (o mod BSIZE).

(** A block for data: in use, and neither part of the map nor the inode's own. *)
Definition data_block (s : kernel) (inum a : Z) : Prop :=
  0 < a < s.(k_sb).(sb_size) /\ free s a = false /\
  (forall n, 0 <= n < s.(k_sb).(sb_size) -> a <> BBLOCK n s.(k_sb)) /\ a <> IBLOCK inum s.(k_sb).

Record file_ok (s : kernel) (ip : inode) : Prop := {
  fk_dev : ip.(ip_dev) = 1;
  fk_len : length ip.(ip_addrs) = Z.to_nat (NDIRECT + 1);
  fk_slot j : 0 <= j <= MAXFILE -> slot s ip j <> 0 -> data_block s ip.(ip_inum) (slot s ip j);
  fk_inj j j' : 0 <= j <= MAXFILE -> 0 <= j' <= MAXFILE -> slot s ip j <> 0 -> slot s ip j = slot s ip j' -> j = j';
  fk_iblock : 0 < IBLOCK ip.(ip_inum) s.(k_sb) < s.(k_sb).(sb_size) /\ free s (IBLOCK ip.(ip_inum) s.(k_sb)) = false /\
    forall n, 0 <= n < s.(k_sb).(sb_size) -> IBLOCK ip.(ip_inum) s.(k_sb) <> BBLOCK n s.(k_sb)
}.

(** The inode [ip'] is [ip] but for its addresses and size. *)
Definition same_inode (ip ip' : inode) : Prop :=
  ip' = ip<|ip_addrs := ip'.(ip_addrs)|><|ip_size := ip'.(ip_size)|>.

(** Block [a] was taken from the map and put into slot [j0] of the file. *)
Record extends (s : kernel) (ip : inode) (j0 a : Z) (s' : kernel) (ip' : inode) : Prop := {
  ex_j0 : 0 <= j0 <= MAXFILE /\ slot s ip j0 = 0;
  ex_free : 0 <= a < s.(k_sb).(sb_size) /\ free s a = true;
  ex_inode : same_inode ip ip' /\ length ip'.(ip_addrs) = length ip.(ip_addrs);
  ex_fs : s'.(k_sb) = s.(k_sb) /\ s'.(k_disksize) = s.(k_disksize);
  ex_map b : 0 <= b < s.(k_sb).(sb_size) -> free s' b = if b =? a then false else free s b;
  ex_slot j : 0 <= j <= MAXFILE -> slot s' ip' j = if j =? j0 then a else slot s ip j;
  ex_view n : n <> a -> n <> BBLOCK a s.(k_sb) -> n <> slot s' ip' MAXFILE -> view s' n = view s n;
  ex_zero : j0 <> MAXFILE -> view s' a = replicate (Z.to_nat BSIZE) 0
}.

Section Extend.
Context (s s' : kernel) (ip ip' : inode) (j0 a : Z).
Hypothesis Hm : map_ok s.
Hypothesis Hf : file_ok s ip.
Hypothesis He : extends s ip j0 a s' ip'.

Lemma ex_fresh j : 0 <= j <= MAXFILE -> slot s ip j <> 0 -> slot s ip j <> a.
Proof.
  intros Hj Hn Heq. destruct (fk_slot _ _ Hf j Hj Hn) as (_ & Hu & _). destruct (ex_free _ _ _ _ _ _ He) as [_ Hfr].
  congruence.
Qed.

Lemma ex_data : data_block s' ip.(ip_inum) a.
Proof.
  destruct (ex_free _ _ _ _ _ _ He) as [Ha Hfr], (ex_fs _ _ _ _ _ _ He) as [Hsb _].
  destruct (fk_iblock _ _ Hf) as (Hi1 & Hi2 & _). unfold data_block. rewrite Hsb. split_and!.
  - assert (a <> 0) by (intros ->; rewrite (mo_boot _ Hm) in Hfr; done). lia.
  - lia.
  - by rewrite (ex_map _ _ _ _ _ _ He), Z.eqb_refl.
  - intros n Hn Heq. pose proof (mo_used _ Hm n Hn) as Hu. congruence.
  - congruence.
Qed.

Lemma used_extends b : 0 <= b < s.(k_sb).(sb_size) -> free s b = false -> free s' b = false.
Proof. intros Hb Hu. rewrite (ex_map _ _ _ _ _ _ He) by done. by destruct (b =? a). Qed.

Lemma file_ok_extends : file_ok s' ip'.
Proof.
  destruct (ex_inode _ _ _ _ _ _ He) as [Hsame Hlen], (ex_fs _ _ _ _ _ _ He) as [Hsb _].
  assert (Hinum : ip_inum ip' = ip_inum ip) by (by rewrite Hsame).
  split.
  - rewrite Hsame. apply (fk_dev _ _ Hf).
  - rewrite Hlen. apply (fk_len _ _ Hf).
  - intros j Hj. rewrite (ex_slot _ _ _ _ _ _ He) by done. rewrite Hinum. destruct (Z.eqb_spec j j0) as [->|Hne].
    + intros _. apply ex_data.
    + intros Hn. destruct (fk_slot _ _ Hf j Hj Hn) as (H1 & H2 & H3 & H4). unfold data_block. rewrite Hsb.
      split_and!; [lia|lia|apply used_extends; [lia|done]|done|done].
  - intros j j' Hj Hj'. rewrite !(ex_slot _ _ _ _ _ _ He) by done.
    destruct (Z.eqb_spec j j0) as [->|Hne], (Z.eqb_spec j' j0) as [->|Hne']; intros Hn Heq; [done|..].
    + exfalso. apply (ex_fresh j' Hj'); congruence.
    + exfalso. by apply (ex_fresh j Hj).
    + by apply (fk_inj _ _ Hf).
  - rewrite Hinum, Hsb. destruct (fk_iblock _ _ Hf) as (H1 & H2 & H3). split_and!; [lia..|apply used_extends; [lia|done]|done].
Qed.

Lemma file_byte_extends o : 0 <= o < MAXFILE * BSIZE -> file_byte s' ip' o = file_byte s ip o.
Proof.
  intros Ho. unfold file_byte. assert (Hb : 0 <= o / BSIZE < MAXFILE).
  { split; [apply Z.div_pos; unfold BSIZE; lia|apply Z.div_lt_upper_bound; unfold BSIZE in *; lia]. }
  rewrite (ex_slot _ _ _ _ _ _ He (o / BSIZE)) by lia. destruct (ex_j0 _ _ _ _ _ _ He) as [Hj0 H0].
  destruct (Z.eqb_spec (o / BSIZE) j0) as [E|Hne].
  - rewrite E, H0. rewrite (ex_zero _ _ _ _ _ _ He) by lia. destruct ex_data as ((Ha & _) & _).
    rewrite (proj2 (Z.eqb_neq a 0)) by lia. apply get8_zeros.
  - destruct (Z.eqb_spec (slot s ip (o / BSIZE)) 0) as [|Hn]; [done|].
    destruct (fk_slot _ _ Hf (o / BSIZE) ltac:(lia) Hn) as (_ & _ & Hmap & _).
    rewrite (ex_view _ _ _ _ _ _ He); [done|by apply ex_fresh; [lia|]|..].
    + apply Hmap. apply (ex_free _ _ _ _ _ _ He).
    + rewrite (ex_slot _ _ _ _ _ _ He) by done.
      destruct (Z.eqb_spec MAXFILE j0); [by apply ex_fresh; [lia|]|].
      intros Heq. apply (fk_inj _ _ Hf) in Heq; [lia|lia|lia|done].
Qed.

Lemma map_ok_extends : map_ok s'.
Proof.
  destruct (ex_fs _ _ _ _ _ _ He) as [Hsb Hz]. destruct (mo_size _ Hm) as [Hs1 Hs2]. split; rewrite ?Hsb, ?Hz; [apply Hm..| |].
  - apply used_extends; [lia|apply (mo_boot _ Hm)].
  - intros b Hb. destruct (BBLOCK_eq s b Hm Hb) as [_ HB]. apply used_extends; [lia|by apply (mo_used _ Hm)].
Qed.
End Extend.

(** ** Allocating blocks for a file *)

(** At least [k] blocks are free. *)
Definition room (k : nat) (s : kernel) : Prop :=
  exists X : gset Z, (k <= size X)%nat /\ forall b, b ∈ X -> 0 <= b < s.(k_sb).(sb_size) /\ free s b = true.

Lemma room_le k k' s : (k' <= k)%nat -> room k s -> room k' s.
Proof. intros Hk (X & Hs & HX). exists X. split; [lia|done]. Qed.

Lemma room_some k s : room (S k) s -> exists b, 0 <= b < s.(k_sb).(sb_size) /\ free s b = true.
Proof.
  intros (X & Hs & HX). destruct (set_choose_or_empty X) as [[b Hb]|He]; [exists b; by apply HX|].
  apply leibniz_equiv in He. subst X. rewrite size_empty in Hs. lia.
Qed.

Lemma room_extends k s ip j0 a s' ip' : extends s ip j0 a s' ip' -> room (S k) s -> room k s'.
Proof.
  intros He (X & Hs & HX). exists (X ∖ {[a]}). destruct (ex_fs _ _ _ _ _ _ He) as [-> _]. split.
  - pose proof (size_difference_alt X {[a]}). assert (size (X ∩ {[a]}) <= 1)%nat; [|lia].
    rewrite <- (size_singleton (C := gset Z) a). apply subseteq_size. set_solver.
  - intros b [Hb Hne]%elem_of_difference. destruct (HX b Hb) as [Hr Hfr]. split; [done|].
    rewrite (ex_map _ _ _ _ _ _ He) by done. rewrite (proj2 (Z.eqb_neq b a)); [done|]. set_solver.
Qed.

Lemma addr_at_set ip bn v j :
  0 <= bn < Z.of_nat (length ip.(ip_addrs)) -> 0 <= j -> addr_at (set_addr bn v ip) j = if j =? bn then v else addr_at ip j.
Proof.
  intros Hbn Hj. unfold addr_at, set_addr. cbn. rewrite !nth_lookup. destruct (Z.eqb_spec j bn) as [->|Hne].
  - by rewrite list_lookup_insert_eq by lia.
  - by rewrite list_lookup_insert_ne by lia.
Qed.

Lemma slot_direct s ip j : j < NDIRECT -> slot s ip j = addr_at ip j.
Proof.
  intros Hj. unfold slot, block_addr. rewrite (proj2 (Z.eqb_neq j MAXFILE)) by (intros ->; done).
  by rewrite (proj2 (Z.ltb_lt _ _) Hj).
Qed.
Lemma slot_last s ip : slot s ip MAXFILE = addr_at ip NDIRECT.
Proof. done. Qed.
Lemma slot_indirect s ip j :
  NDIRECT <= j < MAXFILE ->
  slot s ip j = if addr_at ip NDIRECT =? 0 then 0 else get32 (view s (addr_at ip NDIRECT)) (4 * (j - NDIRECT)).
Proof.
  intros Hj. unfold slot, block_addr. rewrite (proj2 (Z.eqb_neq j MAXFILE)) by lia.
  by rewrite (proj2 (Z.ltb_ge _ _) (proj1 Hj)).
Qed.

Section Bmap.
Context {P : Patience} {D : BlockDriver} {CL : CacheLaws P D}.
Context (i p : nat) (pid : Z) (e : nat).

Lemma in_tx_inode hold cap f s : in_tx i p pid hold cap s -> in_tx i p pid hold cap (upd_inode e f s).
Proof. intros [H1 H2 H3 H4 H5]. split; [tframe H1|by destruct H2; split|done..]. Qed.

(** One of the inode's own addresses is set to a new block. *)
Lemma extends_addr hold cap s s1 ip bn a :
  map_ok s -> file_ok s ip -> 0 <= bn <= NDIRECT -> addr_at ip bn = 0 -> allocated i p pid hold cap s a s1 ->
  extends s ip (if bn <? NDIRECT then bn else MAXFILE) a (upd_inode e (set_addr bn a) s1) (set_addr bn a ip).
Proof.
  intros Hm Hf Hbn H0 [A1 A2 [A3 _] A4 A5 A6 A7 A8]. pose proof (fk_len _ _ Hf) as Hlen.
  destruct (tx_step_fields _ _ A8) as (_ & Hsb & Hz & _). set (j0 := if bn <? NDIRECT then bn else MAXFILE).
  assert (Hj0 : 0 <= j0 <= MAXFILE).
  { unfold j0. destruct (Z.ltb_spec bn NDIRECT); [|done]. change MAXFILE with 140. change NDIRECT with 12 in *. lia. }
  assert (Hset : forall j, 0 <= j -> addr_at (set_addr bn a ip) j = if j =? bn then a else addr_at ip j).
  { intros j Hj. apply addr_at_set; [|done]. rewrite Hlen. change NDIRECT with 12 in *. lia. }
  assert (Hind : addr_at ip NDIRECT <> 0 -> view s1 (addr_at ip NDIRECT) = view s (addr_at ip NDIRECT)).
  { intros Hn. destruct (fk_slot _ _ Hf MAXFILE ltac:(done) Hn) as (_ & Hu & Hmap & _). apply A5.
    - intros Heq. rewrite slot_last in Hu. congruence.
    - by apply Hmap. }
  split; try done.
  - split; [done|]. unfold j0. destruct (Z.ltb_spec bn NDIRECT); [by rewrite slot_direct|].
    replace bn with NDIRECT in H0 by lia. by rewrite slot_last.
  - split; [done|]. unfold set_addr. cbn. by rewrite length_insert.
  - intros j Hj. unfold j0. destruct (decide (j = MAXFILE)) as [->|Hj'].
    { rewrite !slot_last, Hset by done. destruct (Z.ltb_spec bn NDIRECT).
      - rewrite !(proj2 (Z.eqb_neq _ _)); [done|change NDIRECT with 12 in *; change MAXFILE with 140; lia|lia].
      - by rewrite Z.eqb_refl, (proj2 (Z.eqb_eq _ _)) by lia. }
    destruct (decide (j < NDIRECT)) as [Hd|Hd].
    { rewrite !slot_direct, Hset by lia. destruct (Z.ltb_spec bn NDIRECT); [done|].
      by rewrite !(proj2 (Z.eqb_neq _ _)) by lia. }
    rewrite !slot_indirect, Hset by lia. change (view (upd_inode e ?f s1)) with (view s1).
    destruct (Z.ltb_spec bn NDIRECT).
    + rewrite (proj2 (Z.eqb_neq NDIRECT bn)), (proj2 (Z.eqb_neq j bn)) by lia.
      destruct (Z.eqb_spec (addr_at ip NDIRECT) 0); [done|]. by rewrite Hind.
    + replace bn with NDIRECT in * by lia. rewrite Z.eqb_refl, H0, (proj2 (Z.eqb_neq j MAXFILE)) by lia.
      cbn [Z.eqb]. rewrite A4, get32_zeros. by destruct (a =? 0).
  - intros n H1 H2 _. by apply A5.
Qed.

(** An entry of the indirect block is set to a new block: [s1] has the block
    held, [s2] is after balloc and [s3] after the write. *)
Lemma extends_entry hold cap s s1 s2 s3 ip bn a :
  map_ok s -> file_ok s ip -> NDIRECT <= bn < MAXFILE -> addr_at ip NDIRECT <> 0 -> slot s ip bn = 0 ->
  (forall n, Z.of_nat (length (view s n)) = BSIZE) ->
  (forall n, view s1 n = view s n) -> tx_step s s1 -> allocated i p pid hold cap s1 a s2 -> tx_step s2 s3 ->
  (forall n, view s3 n = if n =? addr_at ip NDIRECT
     then put (view s (addr_at ip NDIRECT)) (4 * (bn - NDIRECT)) (le32 a) else view s2 n) ->
  extends s ip bn a s3 ip.
Proof.
  intros Hm Hf Hbn Hind H0 Hlen Hv1 Hs1 [A1 A2 [A3 _] A4 A5 A6 A7 A8] Hs3 Hv3.
  destruct (tx_step_fields _ _ Hs1) as (_ & Hsb1 & Hz1 & _), (tx_step_fields _ _ A8) as (_ & Hsb2 & Hz2 & _),
    (tx_step_fields _ _ Hs3) as (_ & Hsb3 & Hz3 & _).
  destruct (map_ok_same s s1 Hv1 Hsb1 Hz1) as [Hf1 _]. rewrite Hsb1, ?Hf1 in *.
  destruct (mo_size _ Hm) as [Hm1 Hm2].
  destruct (fk_slot _ _ Hf MAXFILE ltac:(done) Hind) as (_ & Hu & Hmap & _). rewrite slot_last in *.
  assert (Hne : a <> addr_at ip NDIRECT) by congruence.
  split; try done.
  - split; [|done]. change NDIRECT with 12 in *. lia.
  - split; congruence.
  - intros b Hb. transitivity (free s2 b); [|rewrite A6 by done; by rewrite Hf1].
    unfold free. rewrite Hsb3, Hv3, Hsb2. by rewrite (proj2 (Z.eqb_neq _ _)) by (by apply not_eq_sym, Hmap).
  - intros j Hj. destruct (decide (j = MAXFILE)) as [->|Hj'].
    { by rewrite !slot_last, (proj2 (Z.eqb_neq MAXFILE bn)) by lia. }
    destruct (decide (j < NDIRECT)) as [Hd|Hd].
    { by rewrite !slot_direct, (proj2 (Z.eqb_neq j bn)) by lia. }
    rewrite !slot_indirect, Hv3, Z.eqb_refl, (proj2 (Z.eqb_neq _ _) Hind) by lia.
    change MAXFILE with 140 in *. change NDIRECT with 12 in *.
    pose proof (Hlen (addr_at ip 12)) as Hl. unfold BSIZE in Hl. destruct (Z.eqb_spec j bn) as [->|Hjn].
    + rewrite get32_put_same by lia. apply u32_small. lia.
    + apply get32_put_other; rewrite ?length_le32; lia.
  - intros n H1 H2 H3. rewrite slot_last in H3. rewrite Hv3, (proj2 (Z.eqb_neq _ _) H3), A5, Hv1 by done. done.
  - intros _. by rewrite Hv3, (proj2 (Z.eqb_neq _ _) Hne).
Qed.

(** The state between two operations on the file of inode [e], with room for
    [cap] blocks in the log and [k] on the disk. *)
Record fs_tx (cap : Z) (k : nat) (s : kernel) (ip : inode) : Prop := {
  ft_tx : in_tx i p pid ∅ cap s;
  ft_map : map_ok s;
  ft_inode : s.(k_inodes) !! e = Some ip;
  ft_file : file_ok s ip;
  ft_room : room k s
}.

(** Blocks in use that are neither the file's nor its inode's nor of the map are
    as before; the file keeps its blocks and may have got more. *)
Record frame (s : kernel) (ip : inode) (s' : kernel) (ip' : inode) : Prop := {
  gr_inode : same_inode ip ip';
  gr_fs : s'.(k_sb) = s.(k_sb) /\ s'.(k_disksize) = s.(k_disksize);
  gr_inodes : s'.(k_inodes) = <[e := ip']> s.(k_inodes);
  gr_used b : 0 <= b < s.(k_sb).(sb_size) -> free s b = false -> free s' b = false;
  gr_slot j : 0 <= j <= MAXFILE -> slot s' ip' j = slot s ip j \/
    slot s ip j = 0 /\ 0 <= slot s' ip' j < s.(k_sb).(sb_size) /\ free s (slot s' ip' j) = true;
  gr_view n : 0 <= n < s.(k_sb).(sb_size) -> free s n = false ->
    (forall b, 0 <= b < s.(k_sb).(sb_size) -> n <> BBLOCK b s.(k_sb)) ->
    (forall j, 0 <= j <= MAXFILE -> n <> slot s ip j) -> n <> IBLOCK ip.(ip_inum) s.(k_sb) -> view s' n = view s n
}.
(** And the contents are the same. *)
Definition grows (s : kernel) (ip : inode) (s' : kernel) (ip' : inode) : Prop :=
  frame s ip s' ip' /\ ip'.(ip_size) = ip.(ip_size) /\ forall o, 0 <= o < MAXFILE * BSIZE -> file_byte s' ip' o = file_byte s ip o.

Lemma frame_refl s ip : s.(k_inodes) !! e = Some ip -> frame s ip s ip.
Proof. intros He. split; try done; [|by auto]. by rewrite list_insert_id. Qed.
Lemma grows_refl s ip : s.(k_inodes) !! e = Some ip -> grows s ip s ip.
Proof. intros He. split_and!; [by apply frame_refl|done|done]. Qed.

Lemma frame_trans s ip s1 ip1 s2 ip2 : frame s ip s1 ip1 -> frame s1 ip1 s2 ip2 -> frame s ip s2 ip2.
Proof.
  intros [A1 [A2 A2'] A3 A5 A6 A7] [B1 [B2 B2'] B3 B5 B6 B7]. rewrite A2 in *. split.
  - unfold same_inode in *. rewrite B1, A1. done.
  - split; congruence.
  - by rewrite B3, A3, list_insert_insert_eq.
  - intros b Hb Hu. by apply B5, A5.
  - intros j Hj. destruct (B6 j Hj) as [->|(H0 & H1 & H2)]; [by apply A6|]. right. split_and!; try lia.
    + destruct (A6 j Hj) as [E|(E & _)]; congruence.
    + destruct (free s (slot s2 ip2 j)) eqn:E; [done|]. rewrite A5 in H2 by done. done.
  - intros n Hn Hu Hmap Hsl Hib. rewrite B7; [by apply A7|done|by apply A5|done| |by rewrite A1].
    intros j Hj Heq. destruct (A6 j Hj) as [E|(_ & _ & E)]; [by apply (Hsl j Hj); congruence|congruence].
Qed.

Lemma slot_kept s ip s' ip' j :
  frame s ip s' ip' -> 0 <= j <= MAXFILE -> slot s ip j <> 0 -> slot s' ip' j = slot s ip j.
Proof. intros Hfr Hj Hn. by destruct (gr_slot _ _ _ _ Hfr j Hj) as [->|(E & _)]. Qed.

Lemma grows_trans s ip s1 ip1 s2 ip2 : grows s ip s1 ip1 -> grows s1 ip1 s2 ip2 -> grows s ip s2 ip2.
Proof.
  intros (A1 & A2 & A3) (B1 & B2 & B3). split_and!; [by eapply frame_trans|congruence|].
  intros o Ho. by rewrite B3, A3.
Qed.

Lemma extends_grows s ip j0 a s' ip' :
  map_ok s -> file_ok s ip -> extends s ip j0 a s' ip' -> ip'.(ip_size) = ip.(ip_size) ->
  s'.(k_inodes) = <[e := ip']> s.(k_inodes) -> grows s ip s' ip'.
Proof.
  intros Hm Hf He Hsz Hin. destruct (ex_free _ _ _ _ _ _ He) as [Ha Hfr].
  split_and!; [|done|intros o Ho; by eapply file_byte_extends]. split; try done.
  - apply He.
  - apply He.
  - intros b Hb Hu. by eapply used_extends.
  - intros j Hj. rewrite (ex_slot _ _ _ _ _ _ He) by done. destruct (Z.eqb_spec j j0) as [->|]; [right|by left].
    split; [apply He|done].
  - intros n Hn Hu Hmap Hsl _. apply (ex_view _ _ _ _ _ _ He).
    + congruence.
    + by apply Hmap.
    + rewrite (ex_slot _ _ _ _ _ _ He) by done. destruct (_ =? _); [congruence|by apply Hsl].
Qed.

Lemma in_tx_le hold cap cap' s : 0 <= cap' <= cap -> in_tx i p pid hold cap s -> in_tx i p pid hold cap' s.
Proof. intros Hc [H1 H2 [L1 L2 L3 L4 L5] H4 H5]. split; try done. split; try done; [lia|]. intros ?. apply L3. lia. Qed.

Lemma fs_tx_le cap cap' k k' s ip : 0 <= cap' <= cap -> (k' <= k)%nat -> fs_tx cap k s ip -> fs_tx cap' k' s ip.
Proof. intros Hc Hk [H1 H2 H3 H4 H5]. split; try done; [by eapply in_tx_le|by eapply room_le]. Qed.

(** After an extension. *)
Lemma fs_tx_extends cap cap' k s ip j0 a s' ip' :
  fs_tx cap (S k) s ip -> extends s ip j0 a s' ip' -> in_tx i p pid ∅ cap' s' ->
  s'.(k_inodes) !! e = Some ip' -> fs_tx cap' k s' ip'.
Proof.
  intros [H1 H2 H3 H4 H5] He Htx Hip. split; [done|by eapply map_ok_extends|done|by eapply file_ok_extends|by eapply room_extends].
Qed.

(** ** bmap *)

(** Whether the indirect block is still to be allocated. *)
Definition indz (ip : inode) : Z := if addr_at ip NDIRECT =? 0 then 1 else 0.

Lemma indz_range ip : 0 <= indz ip <= 1.
Proof. unfold indz. destruct (_ =? _); lia. Qed.

Lemma inode_at_ok s ip : s.(k_inodes) !! e = Some ip -> inode_at e s = Ret ip s.
Proof. intros He. unfold inode_at. kret. by rewrite He. Qed.

(** An address of the inode is allocated. *)
Lemma alloc_addr cap k s ip bn :
  fs_tx (cap + 2) (S k) s ip -> 0 <= cap -> 0 <= bn <= NDIRECT -> addr_at ip bn = 0 ->
  exists a s' ip',
    (let! addr := balloc ip.(ip_dev) in set_inode e (set_addr bn addr) ;;; ret addr)%xv6 s = Ret a s' /\
    fs_tx cap k s' ip' /\ grows s ip s' ip' /\ ip' = set_addr bn a ip /\ a <> 0.
Proof.
  intros Hft Hcap Hbn H0. pose proof Hft as [Htx Hm He Hf Hroom].
  destruct (room_some _ _ Hroom) as (b & Hb & Hfr).
  destruct (balloc_ok i p pid ∅ (cap + 2) s b Htx Hm) as (a & s1 & E & Hal); [by intros ??|rewrite size_empty; lia|lia|done|done|].
  pose proof (extends_addr ∅ (cap + 2) s s1 ip bn a Hm Hf Hbn H0 Hal) as Hext.
  set (s' := upd_inode e (set_addr bn a) s1) in *.
  destruct (tx_step_fields _ _ (al_step _ _ _ _ _ _ _ _ Hal)) as (Hin & _).
  assert (Hin' : k_inodes s' = <[e := set_addr bn a ip]> (k_inodes s)).
  { unfold s'. cbn. rewrite Hin. by apply alter_insert. }
  exists a, s', (set_addr bn a ip). split_and!; [|..|by eapply extends_grows|done|].
  - rewrite (fk_dev _ _ Hf). kret_by exact E. unfold set_inode. by kret.
  - eapply (fs_tx_extends (cap + 2)); [done|done| |].
    + apply in_tx_inode. by replace cap with (cap + 2 - 2) by lia; apply Hal.
    + rewrite Hin'. apply list_lookup_insert_eq. by eapply lookup_lt_Some.
  - destruct (ex_data s s' ip _ _ a Hm Hf Hext) as (Ha & _). lia.
Qed.

(** An entry of the indirect block. *)
Definition bmap_entry (dev addr bn : Z) : K Z :=
  let! bp := bread dev addr in
  let! d := buf_data bp in
  let addr := get32 d (4 * bn) in
  let! addr :=
    (if addr =? 0 then
       let! addr := balloc dev in
       let! d := buf_data bp in
       set_data bp (put d (4 * bn) (le32 addr)) ;;;
       log_write bp ;;;
       ret addr
     else ret addr) in
  brelse bp ;;;
  ret addr.

Lemma bmap_entry_mapped cap k s ip bn :
  fs_tx cap k s ip -> NDIRECT <= bn < MAXFILE -> addr_at ip NDIRECT <> 0 -> slot s ip bn <> 0 ->
  exists s', bmap_entry 1 (addr_at ip NDIRECT) (bn - NDIRECT) s = Ret (slot s ip bn) s' /\
    in_tx i p pid ∅ cap s' /\ (forall n, view s' n = view s n) /\ tx_step s s'.
Proof.
  intros [Htx Hm He Hf Hroom] Hbn Hind Hn. pose proof (tl_n _ _ (itx_log _ _ _ _ _ _ Htx)) as Hcap.
  destruct (fk_slot _ _ Hf MAXFILE ltac:(done) Hind) as (Hr & _). rewrite slot_last in Hr.
  destruct (mo_size _ Hm) as [Hm1 Hm2].
  destruct (tx_read i p pid ∅ cap s (addr_at ip NDIRECT) Htx (can_read_empty cap (addr_at ip NDIRECT) s ltac:(lia) ltac:(lia)))
    as (b & s1 & s2 & E1 & E1' & E2 & _ & Htx2 & Hv2 & _ & Hs2).
  exists s2. split_and!; try done. unfold bmap_entry. kret_by exact E1. kret_by exact E1'.
  rewrite slot_indirect in Hn |- * by lia. rewrite (proj2 (Z.eqb_neq _ _) Hind) in Hn |- *.
  rewrite (proj2 (Z.eqb_neq _ _) Hn). kret. by kret_by exact E2.
Qed.

Lemma bmap_entry_alloc cap k s ip bn :
  fs_tx (cap + 3) (S k) s ip -> 0 <= cap -> NDIRECT <= bn < MAXFILE -> addr_at ip NDIRECT <> 0 -> slot s ip bn = 0 ->
  exists a s', bmap_entry 1 (addr_at ip NDIRECT) (bn - NDIRECT) s = Ret a s' /\ in_tx i p pid ∅ cap s' /\
    extends s ip bn a s' ip /\ s'.(k_inodes) = s.(k_inodes).
Proof.
  intros [Htx Hm He Hf Hroom] Hcap Hbn Hind H0. destruct (mo_size _ Hm) as [Hm1 Hm2].
  destruct (fk_slot _ _ Hf MAXFILE ltac:(done) Hind) as (Hr & Hu & Hmap & _). rewrite slot_last in Hr, Hu, Hmap.
  set (ind := addr_at ip NDIRECT) in *.
  destruct (tx_hold i p pid ∅ (cap + 3) s ind Htx (can_read_empty (cap + 3) ind s ltac:(lia) ltac:(lia)))
    as (b & s1 & E1 & E1' & Hb & Htx1 & Hh1 & _ & Hv1 & Hs1).
  pose proof (tx_step_fields _ _ Hs1) as (Hin1 & Hsb1 & Hz1 & _).
  destruct (map_ok_same s s1 Hv1 Hsb1 Hz1) as [Hf1 Hm1'].
  destruct (room_some _ _ Hroom) as (c & Hc & Hfr).
  destruct (balloc_ok i p pid ({[b]} ∪ ∅) (cap + 3) s1 c Htx1 (Hm1' Hm)) as (a & s2 & E2 & Hal).
  { intros b' x Hb' Hx. assert (b' = b) as -> by set_solver. destruct Hh1 as (z & Hz & (_ & Hzn & _) & _).
    assert (x = z) as -> by congruence. rewrite Hzn, Hsb1, Hf1. split_and!; [lia|lia|done|done]. }
  { rewrite union_empty_r_L, size_singleton. lia. }
  { lia. } { by rewrite Hsb1. } { by rewrite Hf1. }
  assert (Hh2 : holds_block b ind (view s ind) s2).
  { destruct Hh1 as (z & Hz & Hrest). exists z. rewrite (al_held _ _ _ _ _ _ _ _ Hal) by set_solver. done. }
  set (d' := put (view s ind) (4 * (bn - NDIRECT)) (le32 a)).
  destruct (tx_write_held i p pid ∅ (cap + 3 - 2) s2 b ind (view s ind) d') as (s3 & s4 & E3 & E4 & Htx4 & Hv4 & _ & Hs4);
    [apply Hal|done|done|lia|lia|unfold d'; rewrite length_put; apply (itx_size _ _ _ _ _ _ Htx)|].
  exists a, s4. split_and!.
  - unfold bmap_entry. kret_by exact E1. kret_by exact E1'. rewrite slot_indirect in H0 by lia. fold ind in H0.
    rewrite (proj2 (Z.eqb_neq _ _) Hind) in H0. rewrite H0. cbn [Z.eqb].
    assert (E2' : buf_data b s2 = Ret (view s ind) s2).
    { destruct Hh2 as (z & Hz & _ & Hdata). unfold buf_data, gets, buf_of. rewrite Hz. cbn. by rewrite Hdata. }
    assert (Ein : (let! addr := balloc 1 in let! d := buf_data b in
                   set_data b (put d (4 * (bn - NDIRECT)) (le32 addr)) ;;; log_write b ;;; ret addr)%xv6 s1 = Ret a s3).
    { kret_by exact E2. kret_by exact E2'. unfold set_data. kret. by kret_by exact E3. }
    kret_by exact Ein. by kret_by exact E4.
  - by replace cap with (cap + 3 - 2 - 1) by lia.
  - apply (extends_entry ({[b]} ∪ ∅) (cap + 3) s s1 s2 s4); try done. apply (itx_size _ _ _ _ _ _ Htx).
  - destruct (tx_step_fields _ _ Hs4) as (-> & _), (tx_step_fields _ _ (al_step _ _ _ _ _ _ _ _ Hal)) as (-> & _). done.
Qed.

Lemma fs_tx_same cap k s s' ip :
  fs_tx cap k s ip -> in_tx i p pid ∅ cap s' -> (forall n, view s' n = view s n) -> tx_step s s' ->
  fs_tx cap k s' ip /\ grows s ip s' ip.
Proof.
  intros [Htx Hm He Hf Hroom] Htx' Hv Hs. destruct (tx_step_fields _ _ Hs) as (Hin & Hsb & Hz & _).
  destruct (map_ok_same s s' Hv Hsb Hz) as [Hfr Hm'].
  assert (Hsl : forall j, slot s' ip j = slot s ip j).
  { intros j. unfold slot, block_addr. by rewrite Hv. }
  assert (Hdata : forall n a, data_block s' n a <-> data_block s n a).
  { intros n a. unfold data_block. by rewrite Hsb, Hfr. }
  split.
  - split; [done|by auto|by rewrite Hin| |].
    + destruct Hf as [F1 F2 F3 F4 F5]. split; try done.
      * intros j Hj. rewrite Hsl, Hdata. by apply F3.
      * intros j j' Hj Hj'. rewrite !Hsl. by apply F4.
      * by rewrite Hsb, Hfr.
    + destruct Hroom as (X & HX1 & HX2). exists X. split; [done|]. intros b Hb. rewrite Hsb, Hfr. by apply HX2.
  - split_and!; [|done|intros o Ho; unfold file_byte; by rewrite Hsl, Hv]. split; try done.
    + by rewrite Hin, list_insert_id.
    + intros b Hb. by rewrite Hfr.
    + intros j Hj. left. apply Hsl.
Qed.

(** Nothing but the cache of blocks changes. *)
Definition reads (s s' : kernel) : Prop := (forall n, view s' n = view s n) /\ tx_step s s'.
Lemma reads_refl s : reads s s.
Proof. by split. Qed.
Lemma reads_trans s s1 s2 : reads s s1 -> reads s1 s2 -> reads s s2.
Proof. intros [V1 S1] [V2 S2]. split; [intros n; by rewrite V2|by transitivity s1]. Qed.
Lemma reads_grows cap k cap' k' s s' ip : fs_tx cap k s ip -> fs_tx cap' k' s' ip -> reads s s' -> grows s ip s' ip.
Proof.
  intros Hft [Htx' _ _ _ _] [Hv Hs].
  assert (H0 : fs_tx 0 0 s ip).
  { destruct (tl_n _ _ (itx_log _ _ _ _ _ _ (ft_tx _ _ _ _ Hft))). apply (fs_tx_le cap 0 k 0); [lia|lia|done]. }
  apply (fs_tx_same 0 0 s s' ip); [done| |done|done].
  destruct (tl_n _ _ (itx_log _ _ _ _ _ _ Htx')). by apply (in_tx_le ∅ cap'); [lia|].
Qed.

Lemma bmap_entry_ok cap k s ip bn :
  fs_tx (cap + 3) (S k) s ip -> 0 <= cap -> NDIRECT <= bn < MAXFILE -> addr_at ip NDIRECT <> 0 ->
  exists a s', bmap_entry 1 (addr_at ip NDIRECT) (bn - NDIRECT) s = Ret a s' /\ fs_tx cap k s' ip /\
    grows s ip s' ip /\ slot s' ip bn = a /\ a <> 0.
Proof.
  intros Hft Hcap Hbn Hind. destruct (decide (slot s ip bn = 0)) as [H0|Hn].
  - destruct (bmap_entry_alloc cap k s ip bn Hft Hcap Hbn Hind H0) as (a & s' & E & Htx & Hext & Hin).
    pose proof Hft as [_ Hm He Hf Hroom]. assert (Hin' : k_inodes s' = <[e := ip]> (k_inodes s)) by (by rewrite Hin, list_insert_id).
    exists a, s'. split_and!; [done|by eapply fs_tx_extends; [..|rewrite Hin]|by eapply extends_grows|..].
    + rewrite (ex_slot _ _ _ _ _ _ Hext) by (change NDIRECT with 12 in *; lia). by rewrite Z.eqb_refl.
    + destruct (ex_data s s' ip ip bn a Hm Hf Hext) as (Ha & _). lia.
  - destruct (bmap_entry_mapped (cap + 3) (S k) s ip bn Hft Hbn Hind Hn) as (s' & E & Htx & Hv & Hs).
    destruct (fs_tx_same _ _ _ s' _ Hft Htx Hv Hs) as [Hft' Hg]. exists (slot s ip bn), s'.
    split_and!; [done|eapply fs_tx_le; [..|exact Hft']; lia|done| |done]. unfold slot, block_addr. by rewrite Hv.
Qed.

(** The direct blocks. *)
Lemma bmap_direct cap k s ip bn :
  fs_tx (cap + 3 + 2 * indz ip) (k + 1 + Z.to_nat (indz ip)) s ip -> 0 <= cap -> 0 <= bn < NDIRECT ->
  exists a s' ip',
    (if addr_at ip bn =? 0 then let! addr := balloc ip.(ip_dev) in set_inode e (set_addr bn addr) ;;; ret addr
     else ret (addr_at ip bn))%xv6 s = Ret a s' /\
    fs_tx (cap + 2 * indz ip') (k + Z.to_nat (indz ip')) s' ip' /\
    grows s ip s' ip' /\ slot s' ip' bn = a /\ a <> 0 /\ indz ip' <= indz ip.
Proof.
  intros Hft Hcap Hbn. pose proof (indz_range ip) as Hiz. pose proof Hft as [Htx Hm He Hf Hroom].
  destruct (Z.eqb_spec (addr_at ip bn) 0) as [H0|Hn].
  - destruct (alloc_addr (cap + 2 * indz ip) (k + Z.to_nat (indz ip)) s ip bn) as (a & s' & ip' & E & Hft' & Hg & Hip & Ha);
      [|lia|lia|done|].
    { eapply fs_tx_le; [..|exact Hft]; lia. }
    assert (Hset : forall j, 0 <= j -> addr_at ip' j = if j =? bn then a else addr_at ip j).
    { intros j Hj. rewrite Hip. apply addr_at_set; [|done]. rewrite (fk_len _ _ Hf). change NDIRECT with 12 in *. lia. }
    assert (Hiz' : indz ip' = indz ip).
    { unfold indz. by rewrite Hset, (proj2 (Z.eqb_neq NDIRECT bn)) by (done || lia). }
    exists a, s', ip'. rewrite Hiz', slot_direct, Hset, Z.eqb_refl by lia. split_and!; try done; lia.
  - exists (addr_at ip bn), s, ip. rewrite slot_direct by lia.
    split_and!; [done|eapply fs_tx_le; [..|exact Hft]; lia|by apply grows_refl|done|done|lia].
Qed.

(** The indirect block. *)
Lemma bmap_indirect cap k s ip :
  fs_tx (cap + 2 * indz ip) (k + Z.to_nat (indz ip)) s ip -> 0 <= cap ->
  exists a s' ip',
    (if addr_at ip NDIRECT =? 0 then
       let! addr := balloc ip.(ip_dev) in set_inode e (set_addr NDIRECT addr) ;;; ret addr
     else ret (addr_at ip NDIRECT))%xv6 s = Ret a s' /\
    fs_tx cap k s' ip' /\ grows s ip s' ip' /\ addr_at ip' NDIRECT = a /\ a <> 0.
Proof.
  intros Hft Hcap. pose proof Hft as [Htx Hm He Hf Hroom]. unfold indz in Hft.
  destruct (Z.eqb_spec (addr_at ip NDIRECT) 0) as [H0|Hn].
  - destruct (alloc_addr cap k s ip NDIRECT) as (a & s' & ip' & E & Hft' & Hg & Hip & Ha);
      [eapply fs_tx_le; [..|exact Hft]; lia|lia|done|done|].
    exists a, s', ip'. split_and!; try done. rewrite Hip, addr_at_set; [by rewrite Z.eqb_refl| |done].
    by rewrite (fk_len _ _ Hf).
  - exists (addr_at ip NDIRECT), s, ip. split_and!; [done| |by apply grows_refl|done|done].
    eapply fs_tx_le; [..|exact Hft]; lia.
Qed.

(** bmap returns the file's block, which it allocates if necessary; the
    contents of the file do not change. *)
Lemma bmap_ok cap k s ip bn :
  fs_tx (cap + 3 + 2 * indz ip) (k + 1 + Z.to_nat (indz ip)) s ip -> 0 <= cap -> 0 <= bn < MAXFILE ->
  exists a s' ip', bmap e bn s = Ret a s' /\ fs_tx (cap + 2 * indz ip') (k + Z.to_nat (indz ip')) s' ip' /\
    grows s ip s' ip' /\ slot s' ip' bn = a /\ a <> 0 /\ indz ip' <= indz ip.
Proof.
  intros Hft Hcap Hbn. pose proof (indz_range ip) as Hiz. pose proof Hft as [Htx Hm He Hf Hroom].
  pose proof (inode_at_ok s ip He) as Ei. pose proof (fk_dev _ _ Hf) as Hdev. unfold bmap. kret_by exact Ei.
  destruct (Z.ltb_spec bn NDIRECT) as [Hd|Hd]; [apply bmap_direct; [done|done|lia]|].
  replace (bn - NDIRECT <? NINDIRECT) with true by (symmetry; apply Z.ltb_lt; unfold MAXFILE in *; lia).
  destruct (bmap_indirect (cap + 3) (S k) s ip) as (a1 & s1 & ip1 & E1 & Hft1 & Hg1 & Ha1 & Hn1); [|lia|].
  { eapply fs_tx_le; [..|exact Hft]; lia. }
  kret_by exact E1. subst a1.
  destruct (bmap_entry_ok cap k s1 ip1 bn Hft1 Hcap) as (a & s' & E & Hft' & Hg & Ha & Hn); [lia|done|].
  assert (Hiz1 : indz ip1 = 0) by (unfold indz; by rewrite (proj2 (Z.eqb_neq _ _) Hn1)).
  exists a, s', ip1. rewrite Hiz1, Hdev. split_and!; [exact E| | |done|done|lia].
  - eapply fs_tx_le; [..|exact Hft']; lia.
  - by eapply grows_trans.
Qed.
End Bmap.
