(* ===== verification/Contents.v ===== *)
(** * Reading and writing files (fs.c): readi and writei

    The loops over the blocks of a file, in terms of the file's bytes
    ([file_byte]). *)

From S2P Require Import Prelude State Spinlock Thread CString Cprintf Kalloc Layout Vm Sched Sleeplock Disk Bio Log Tx Fs Freemap Inode.

(** ** The blocks of a range of offsets *)

(** The number of blocks that [r] bytes at [off] touch. *)
Definition nblk (off r : Z) : Z :=
  if r <=? 0 then 0 else (off + r - 1) / BSIZE - off / BSIZE + 1.
(** The bytes of the first of them. *)
Definition chunk (off r : Z) : Z := Z.min r (BSIZE - off mod BSIZE).

Lemma chunk_range off r : 0 <= off -> 0 < r -> 0 < chunk off r <= r /\ off mod BSIZE + chunk off r <= BSIZE.
Proof. unfold chunk, BSIZE. intros. pose proof (Z.mod_pos_bound off 512). lia. Qed.

Lemma nblk_step off r : 0 <= off -> 0 < r -> nblk off r = nblk (off + chunk off r) (r - chunk off r) + 1.
Proof.
  intros Hoff Hr. unfold nblk, chunk, BSIZE. pose proof (Z.mod_pos_bound off 512).
  destruct (Z.leb_spec r 0); [lia|]. destruct (Z.leb_spec (r - Z.min r (512 - off mod 512)) 0).
  - replace ((off + r - 1) / 512) with (off / 512); [lia|]. Z.to_euclidean_division_equations. lia.
  - replace (Z.min r (512 - off mod 512)) with (512 - off mod 512) by lia.
    replace (off + (512 - off mod 512) + (r - (512 - off mod 512)) - 1) with (off + r - 1) by lia.
    replace ((off + (512 - off mod 512)) / 512) with (off / 512 + 1); [lia|].
    Z.to_euclidean_division_equations. lia.
Qed.

Lemma nblk_nonneg off r : 0 <= off -> 0 <= nblk off r.
Proof.
  intros Hoff. unfold nblk, BSIZE. destruct (Z.leb_spec r 0); [done|].
  assert (off / 512 <= (off + r - 1) / 512) by (apply Z.div_le_mono; lia). lia.
Qed.

Lemma nblk_fuel off n : 0 <= off -> 0 <= n -> nblk off n < Z.of_nat (io_fuel n).
Proof.
  intros Hoff Hn. unfold io_fuel, nblk, BSIZE. assert (0 <= n / 512) by (apply Z.div_pos; lia).
  destruct (Z.leb_spec n 0); [lia|]. Z.to_euclidean_division_equations. lia.
Qed.

(** ** Bytes *)

(** [f] with [bs] at offset [off]. *)
Definition put_bytes (f : Z -> Z) (off : Z) (bs : list Z) (o : Z) : Z :=
  if (off <=? o) && (o <? off + Z.of_nat (length bs)) then nth (Z.to_nat (o - off)) bs 0 else f o.

Lemma put_bytes_nil f off o : put_bytes f off [] o = f o.
Proof. unfold put_bytes. cbn [length]. destruct (Z.leb_spec off o), (Z.ltb_spec o (off + Z.of_nat 0)); cbn [andb]; try done. lia. Qed.

Lemma put_bytes_split f off m bs o :
  0 <= m <= Z.of_nat (length bs) ->
  put_bytes (put_bytes f off (take (Z.to_nat m) bs)) (off + m) (drop (Z.to_nat m) bs) o = put_bytes f off bs o.
Proof.
  intros Hm. unfold put_bytes. rewrite length_take, length_drop, !nth_lookup.
  destruct (Z.leb_spec (off + m) o), (Z.ltb_spec o (off + m + Z.of_nat (length bs - Z.to_nat m))),
    (Z.leb_spec off o), (Z.ltb_spec o (off + Z.of_nat (Z.to_nat m `min` length bs))),
    (Z.ltb_spec o (off + Z.of_nat (length bs))); cbn [andb]; try lia; try done.
  - rewrite lookup_drop. do 2 f_equal. lia.
  - by rewrite lookup_take_lt by lia.
Qed.

Lemma put_bytes_ext f g off bs o : f o = g o -> put_bytes f off bs o = put_bytes g off bs o.
Proof. intros E. unfold put_bytes. by rewrite E. Qed.

Lemma slice_get8 d o m :
  0 <= o -> 0 <= m -> o + m <= Z.of_nat (length d) ->
  take (Z.to_nat m) (drop (Z.to_nat o) d) = get8 d <$> seqZ o m.
Proof.
  intros Ho Hm Hlen. apply list_eq. intros k. rewrite list_lookup_fmap.
  destruct (decide (Z.of_nat k < m)) as [Hk|Hk].
  - rewrite lookup_take_lt, lookup_drop by lia. rewrite (proj2 (lookup_seqZ o m k (o + Z.of_nat k))) by lia. cbn.
    unfold get8. rewrite nth_lookup. replace (Z.to_nat (o + Z.of_nat k)) with (Z.to_nat o + k)%nat by lia.
    destruct (lookup_lt_is_Some_2 d (Z.to_nat o + k)) as [x Hx]; [lia|]. by rewrite Hx.
  - rewrite lookup_take_ge by lia. by rewrite lookup_seqZ_ge by lia.
Qed.

(** The blocks of [r] bytes at [off] are there. *)
Definition mapped (s : kernel) (ip : inode) (off r : Z) : Prop :=
  forall bn, 0 < r -> off / BSIZE <= bn -> bn * BSIZE < off + r -> slot s ip bn <> 0.

Lemma mapped_step s ip off r :
  0 <= off -> 0 < r ->
  mapped s ip off r <->
  slot s ip (off / BSIZE) <> 0 /\ mapped s ip (off + chunk off r) (r - chunk off r).
Proof.
  intros Hoff Hr. pose proof (Z.div_mod off BSIZE ltac:(done)) as Hd.
  pose proof (Z.mod_pos_bound off BSIZE ltac:(done)) as Hm. destruct (chunk_range off r Hoff Hr) as [Hc1 Hc2].
  assert (Hle : off / BSIZE <= (off + chunk off r) / BSIZE) by (apply Z.div_le_mono; unfold BSIZE in *; lia).
  split.
  - intros H. split; [apply H; unfold BSIZE in *; lia|]. intros bn H0 H1 H2. apply H; lia.
  - intros [H0 H] bn _ H1 H2. destruct (decide (bn = off / BSIZE)) as [->|Hne]; [done|].
    assert (0 < r - chunk off r) by (unfold chunk, BSIZE in *; lia). apply H; [done| |lia].
    assert (off + chunk off r < off + r) by (unfold BSIZE in *; lia).
    assert (chunk off r = BSIZE - off mod BSIZE) as -> by (unfold chunk in *; lia).
    replace (off + (BSIZE - off mod BSIZE)) with ((off / BSIZE + 1) * BSIZE) by lia. rewrite Z.div_mul by done. lia.
Qed.

Section Data.
Context {P : Patience} {D : BlockDriver} {CL : CacheLaws P D} {V : Devices}.
Context (i p : nat) (pid : Z) (e : nat).

(** ** One block *)

(** The file's own blocks: those it may write, other than the indirect block. *)
Definition own_block (s : kernel) (ip : inode) (a : Z) : Prop :=
  0 <= a < s.(k_sb).(sb_size) /\ (forall n, 0 <= n < s.(k_sb).(sb_size) -> a <> BBLOCK n s.(k_sb)) /\
  addr_at ip NDIRECT <> a /\ (a = IBLOCK ip.(ip_inum) s.(k_sb) \/ exists j, 0 <= j <= MAXFILE /\ a = slot s ip j).

(** Updating one of them. *)
Lemma own_update cap k s ip a d :
  fs_tx i p pid e (cap + 1) k s ip -> 0 <= cap -> own_block s ip a -> Z.of_nat (length d) = BSIZE ->
  exists b s1 s2 s3, bread 1 a s = Ret b s1 /\ buf_data b s1 = Ret (view s a) s1 /\
    log_write b (upd_buf b (fun x => x<|b_data := d|>) s1) = Ret tt s2 /\ brelse b s2 = Ret tt s3 /\
    tx_step s s1 /\ fs_tx i p pid e cap k s3 ip /\ frame e s ip s3 ip /\
    (forall j, 0 <= j <= MAXFILE -> slot s3 ip j = slot s ip j) /\
    forall n, view s3 n = if n =? a then d else view s n.
Proof.
  intros [Htx Hm He Hf Hroom] Hcap (Ha & Hmap & Hind & Hown) Hlen. destruct (mo_size _ Hm) as [Hm1 Hm2].
  destruct (tx_update i p pid ∅ (cap + 1) s a d Htx (can_read_empty (cap + 1) a s ltac:(lia) ltac:(lia)))
    as (b & s1 & s2 & s3 & E1 & E1' & E2 & E3 & Hs1 & Htx3 & Hv3 & _ & Hs3); [lia|lia|lia|done|].
  destruct (tx_step_fields _ _ Hs3) as (Hin & Hsb & Hz & _).
  assert (Hslot : forall j, 0 <= j <= MAXFILE -> slot s3 ip j = slot s ip j).
  { intros j Hj. unfold slot, block_addr. by rewrite Hv3, (proj2 (Z.eqb_neq _ _) Hind). }
  assert (Hfr : forall c, 0 <= c < s.(k_sb).(sb_size) -> free s3 c = free s c).
  { intros c Hc. unfold free. rewrite Hsb, Hv3. by rewrite (proj2 (Z.eqb_neq _ _)) by (by apply not_eq_sym, Hmap). }
  assert (Hdata : forall a', data_block s (ip_inum ip) a' -> data_block s3 (ip_inum ip) a').
  { intros a' (D1 & D2 & D3). unfold data_block. rewrite Hsb, Hfr by lia. done. }
  exists b, s1, s2, s3. split_and!; try done.
  - split; [by replace cap with (cap + 1 - 1) by lia| |by rewrite Hin| |].
    + destruct Hm as [M1 M2 M3 M4]. split; rewrite ?Hsb, ?Hz; try done; [by rewrite Hfr by lia|].
      intros c Hc. rewrite Hfr; [by apply M4|]. by apply (BBLOCK_eq s c (Build_map_ok s M1 M2 M3 M4)).
    + destruct Hf as [F1 F2 F3 F4 (F5 & F6 & F7)]. split; try done.
      * intros j Hj. rewrite Hslot by done. intros Hj0. by apply Hdata, F3.
      * intros j j' Hj Hj'. rewrite !Hslot by done. by apply F4.
      * rewrite Hsb, Hfr by lia. split_and!; [lia|lia|done|done].
    + destruct Hroom as (X & HX1 & HX2). exists X. split; [done|]. intros c Hc. destruct (HX2 c Hc). rewrite Hsb, Hfr by lia. done.
  - split; try done.
    + by rewrite Hin, list_insert_id.
    + intros c Hc. by rewrite Hfr.
    + intros j Hj. left. by apply Hslot.
    + intros n _ _ _ Hns Hib. rewrite Hv3, (proj2 (Z.eqb_neq n a)); [done|].
      destruct Hown as [->|(j & Hj & ->)]; [done|by apply Hns].
Qed.

Lemma slot_own s ip bn :
  map_ok s -> file_ok s ip -> 0 <= bn < MAXFILE -> slot s ip bn <> 0 -> own_block s ip (slot s ip bn).
Proof.
  intros Hm Hf Hbn Hn. destruct (fk_slot _ _ Hf bn ltac:(lia) Hn) as (Ha & Hu & Hmap & Hib).
  split_and!; [lia|lia|done| |right; exists bn; split; [lia|done]].
  intros Heq. assert (bn = MAXFILE) by (apply (fk_inj _ _ Hf); [lia|done|done|done]). lia.
Qed.

Lemma inode_own s ip : map_ok s -> file_ok s ip -> own_block s ip (IBLOCK ip.(ip_inum) s.(k_sb)).
Proof.
  intros Hm Hf. destruct (fk_iblock _ _ Hf) as (H1 & H2 & H3). split_and!; [lia|lia|done| |by left].
  intros Heq. destruct (decide (addr_at ip NDIRECT = 0)) as [E|E].
  - lia.
  - by destruct (fk_slot _ _ Hf MAXFILE ltac:(done) E) as (_ & _ & _ & Hib).
Qed.
Lemma write_block_bytes s s' ip bn o bs :
  file_ok s ip -> 0 <= bn < MAXFILE -> slot s ip bn <> 0 ->
  0 <= o -> o + Z.of_nat (length bs) <= BSIZE -> Z.of_nat (length (view s (slot s ip bn))) = BSIZE ->
  (forall n, view s' n = if n =? slot s ip bn then put (view s (slot s ip bn)) o bs else view s n) ->
  (forall j, 0 <= j <= MAXFILE -> slot s' ip j = slot s ip j) ->
  forall q, 0 <= q < MAXFILE * BSIZE -> file_byte s' ip q = put_bytes (file_byte s ip) (bn * BSIZE + o) bs q.
Proof.
  intros Hf Hbn Hn Ho Hlen Hsz Hv Hslot. set (a := slot s ip bn) in *.
  intros q Hq. unfold file_byte, put_bytes.
  assert (Hqb : 0 <= q / BSIZE < MAXFILE).
  { split; [apply Z.div_pos; unfold BSIZE; lia|apply Z.div_lt_upper_bound; unfold BSIZE in *; lia]. }
  pose proof (Z.div_mod q BSIZE ltac:(done)). pose proof (Z.mod_pos_bound q BSIZE ltac:(done)).
  rewrite Hslot, Hv by lia. destruct (decide (q / BSIZE = bn)) as [E|E].
  - rewrite E. fold a. rewrite Z.eqb_refl, (proj2 (Z.eqb_neq a 0) Hn).
    destruct (Z.leb_spec (bn * BSIZE + o) q), (Z.ltb_spec q (bn * BSIZE + o + Z.of_nat (length bs))); cbn [andb].
    + rewrite get8_put_in by lia. f_equal. lia.
    + apply get8_put_out; lia.
    + apply get8_put_out; lia.
    + lia.
  - assert (Hout : q < bn * BSIZE \/ bn * BSIZE + BSIZE <= q) by (unfold BSIZE in *; lia).
    replace ((bn * BSIZE + o <=? q) && (q <? bn * BSIZE + o + Z.of_nat (length bs))) with false by lia.
    destruct (Z.eqb_spec (slot s ip (q / BSIZE)) a) as [Ea|Ea]; [|done].
    destruct E. symmetry. apply (fk_inj _ _ Hf); [lia|lia|done|done].
Qed.

Lemma write_block cap k s ip bn o bs :
  fs_tx i p pid e (cap + 1) k s ip -> 0 <= cap -> 0 <= bn < MAXFILE -> slot s ip bn <> 0 ->
  0 <= o -> o + Z.of_nat (length bs) <= BSIZE ->
  exists b s1 s2 s3, bread 1 (slot s ip bn) s = Ret b s1 /\ buf_data b s1 = Ret (view s (slot s ip bn)) s1 /\
    log_write b (upd_buf b (fun x => x<|b_data := put (view s (slot s ip bn)) o bs|>) s1) = Ret tt s2 /\
    brelse b s2 = Ret tt s3 /\ fs_tx i p pid e cap k s3 ip /\ frame e s ip s3 ip /\
    forall q, 0 <= q < MAXFILE * BSIZE -> file_byte s3 ip q = put_bytes (file_byte s ip) (bn * BSIZE + o) bs q.
Proof.
  intros Hft Hcap Hbn Hn Ho Hlen. pose proof Hft as [Htx Hm He Hf _].
  pose proof (itx_size _ _ _ _ _ _ Htx (slot s ip bn)) as Hsz.
  destruct (own_update cap k s ip (slot s ip bn) (put (view s (slot s ip bn)) o bs) Hft Hcap)
    as (b & s1 & s2 & s3 & E1 & E1' & E2 & E3 & _ & Hft3 & Hfr & Hslot & Hv); [by apply slot_own|by rewrite length_put|].
  exists b, s1, s2, s3. split_and!; try done. by apply write_block_bytes.
Qed.

(** Bytes of the file are not affected by other blocks. *)
Lemma file_byte_other s s' ip a d :
  file_ok s ip -> (forall j, 0 <= j <= MAXFILE -> slot s ip j <> 0 -> slot s ip j <> a) ->
  (forall j, 0 <= j <= MAXFILE -> slot s' ip j = slot s ip j) -> (forall n, view s' n = if n =? a then d else view s n) ->
  forall q, 0 <= q < MAXFILE * BSIZE -> file_byte s' ip q = file_byte s ip q.
Proof.
  intros Hf Ha Hslot Hv q Hq. unfold file_byte. assert (Hqb : 0 <= q / BSIZE < MAXFILE).
  { split; [apply Z.div_pos; unfold BSIZE; lia|apply Z.div_lt_upper_bound; unfold BSIZE in *; lia]. }
  rewrite Hslot by lia. destruct (Z.eqb_spec (slot s ip (q / BSIZE)) 0) as [|Hn]; [done|].
  by rewrite Hv, (proj2 (Z.eqb_neq _ _) (Ha (q / BSIZE) ltac:(lia) Hn)).
Qed.

(** The dinode of [ip] on disk. *)
Definition on_disk (s : kernel) (ip : inode) : dinode :=
  decode_dinode (view s (IBLOCK ip.(ip_inum) s.(k_sb))) (ip.(ip_inum) mod IPB * DINODE).

Lemma iupdate_ok cap k s ip :
  fs_tx i p pid e (cap + 1) k s ip -> 0 <= cap -> dinode_ok (to_dinode ip) ->
  exists s', iupdate e s = Ret tt s' /\ fs_tx i p pid e cap k s' ip /\ frame e s ip s' ip /\
    (forall q, 0 <= q < MAXFILE * BSIZE -> file_byte s' ip q = file_byte s ip q) /\ on_disk s' ip = to_dinode ip.
Proof.
  intros Hft Hcap Hdi. pose proof Hft as [Htx Hm He Hf _]. set (ib := IBLOCK (ip_inum ip) (k_sb s)).
  pose proof (itx_size _ _ _ _ _ _ Htx ib) as Hsz.
  set (d := put (view s ib) (ip_inum ip mod IPB * DINODE) (encode_dinode (to_dinode ip))).
  destruct (own_update cap k s ip ib d Hft Hcap)
    as (b & s1 & s2 & s3 & E1 & E1' & E2 & E3 & Hs1 & Hft3 & Hfr & Hslot & Hv); [by apply inode_own|by unfold d; rewrite length_put|].
  pose proof (inode_at_ok e s ip He) as Ei. destruct (tx_step_fields _ _ Hs1) as (Hin1 & _).
  pose proof (inode_at_ok e s1 ip ltac:(by rewrite Hin1)) as Ei1.
  exists s3. split_and!; try done.
  - unfold iupdate. kret_by exact Ei. kret. rewrite (fk_dev _ _ Hf). kret_by exact E1. kret_by exact E1'.
    kret_by exact Ei1. unfold set_data. kret. kret_by exact E2. exact E3.
  - apply (file_byte_other s s3 ip ib d); try done. intros j Hj Hn. apply (fk_slot _ _ Hf j Hj Hn).
  - unfold on_disk. rewrite (proj1 (gr_fs _ _ _ _ _ Hfr)), Hv. fold ib. rewrite Z.eqb_refl.
    pose proof (Z.mod_pos_bound (ip_inum ip) IPB ltac:(done)). change IPB with 8 in *. unfold DINODE, BSIZE in *.
    apply decode_put_dinode; [done|lia|]. unfold DINODE. lia.
Qed.

(** ** writei *)

Lemma writei_loop_ok cap k fuel : forall src off n tot s ip,
  fs_tx i p pid e (cap + 4 * nblk off (n - tot) + 2 * indz ip)
    (k + Z.to_nat (nblk off (n - tot)) + Z.to_nat (indz ip)) s ip ->
  0 <= cap -> 0 <= off -> 0 <= n - tot -> off + (n - tot) <= MAXFILE * BSIZE ->
  n - tot <= Z.of_nat (length src) -> nblk off (n - tot) < Z.of_nat fuel ->
  exists s' ip', writei_loop fuel e src off n tot s = Ret (off + (n - tot)) s' /\
    fs_tx i p pid e (cap + 2 * indz ip') (k + Z.to_nat (indz ip')) s' ip' /\ frame e s ip s' ip' /\
    ip'.(ip_size) = ip.(ip_size) /\ mapped s' ip' off (n - tot) /\ forall q, 0 <= q < MAXFILE * BSIZE ->
      file_byte s' ip' q = put_bytes (file_byte s ip) off (take (Z.to_nat (n - tot)) src) q.
Proof.
  induction fuel as [|fuel IH]; intros src off n tot s ip Hft Hcap Hoff Hr Hmax Hsrc Hfuel.
  { pose proof (nblk_nonneg off (n - tot) Hoff). lia. }
  cbn [writei_loop]. destruct (Z.ltb_spec tot n) as [Hlt|Hge]; cbn [negb].
  2: { replace (n - tot) with 0 in * by lia. exists s, ip. split_and!.
       - by rewrite Z.add_0_r.
       - eapply fs_tx_le; [..|exact Hft]; pose proof (nblk_nonneg off 0 Hoff); pose proof (indz_range ip); lia.
       - apply frame_refl, Hft.
       - done.
       - intros bn H0. lia.
       - intros q Hq. by rewrite put_bytes_nil. }
  set (m := chunk off (n - tot)). destruct (chunk_range off (n - tot) Hoff ltac:(lia)) as [Hm1 Hm2]. fold m in Hm1, Hm2.
  pose proof (nblk_step off (n - tot) Hoff ltac:(lia)) as Hstep. fold m in Hstep.
  replace (n - tot - m) with (n - (tot + m)) in Hstep by lia. set (nb := nblk (off + m) (n - (tot + m))) in *.
  assert (Hnb : 0 <= nb) by (apply nblk_nonneg; lia).
  assert (Hbn : 0 <= off / BSIZE < MAXFILE).
  { split; [apply Z.div_pos; unfold BSIZE; lia|apply Z.div_lt_upper_bound; unfold BSIZE in *; lia]. }
  destruct (bmap_ok i p pid e (cap + 1 + 4 * nb) (k + Z.to_nat nb) s ip (off / BSIZE))
    as (a & s1 & ip1 & E1 & Hft1 & (Hfr1 & Hsz1 & Hby1) & Ha & Hn & Hiz); [|lia|done|].
  { eapply fs_tx_le; [..|exact Hft]; pose proof (indz_range ip); lia. }
  pose proof (indz_range ip1) as Hiz1. subst a.
  destruct (write_block (cap + 4 * nb + 2 * indz ip1) (k + Z.to_nat nb + Z.to_nat (indz ip1)) s1 ip1 (off / BSIZE)
    (off mod BSIZE) (take (Z.to_nat m) src)) as (b & s2 & s3 & s4 & E2 & E2' & E3 & E4 & Hft4 & Hfr4 & Hby4);
    [by replace (cap + 4 * nb + 2 * indz ip1 + 1) with (cap + 1 + 4 * nb + 2 * indz ip1) by lia|lia|done|done|..].
  { pose proof (Z.mod_pos_bound off BSIZE). unfold BSIZE in *. lia. }
  { rewrite length_take. lia. }
  destruct (IH (drop (Z.to_nat m) src) (off + m) n (tot + m) s4 ip1) as (s' & ip' & E' & Hft' & Hfr' & Hsz' & Hmp' & Hby');
    fold nb; [done|lia|lia|lia|lia|rewrite length_drop; lia|lia|].
  exists s', ip'. split_and!; [|done|by eapply frame_trans; [|eapply frame_trans]|congruence| |].
  - kret_by exact E1. pose proof (inode_at_ok e s1 ip1 (ft_inode _ _ _ _ _ _ _ _ Hft1)) as Ei. kret_by exact Ei.
    rewrite (fk_dev _ _ (ft_file _ _ _ _ _ _ _ _ Hft1)). kret_by exact E2. kret_by exact E2'. unfold set_data. kret.
    change (Z.min (n - tot) (BSIZE - off mod BSIZE)) with m. kret_by exact E3. kret_by exact E4. rewrite E'.
    f_equal. lia.
  - apply mapped_step; [done|lia|]. fold m. split; [|by replace (n - tot - m) with (n - (tot + m)) by lia].
    assert (Hn4 : slot s4 ip1 (off / BSIZE) <> 0) by (rewrite (slot_kept e s1 ip1 s4 ip1) by (done || lia); done).
    rewrite (slot_kept e s4 ip1 s' ip') by (done || lia). done.
  - intros q Hq. rewrite Hby' by done. rewrite <- (put_bytes_split _ off m) by (rewrite length_take; lia).
    rewrite take_take, take_drop_commute. replace (Z.to_nat m `min` Z.to_nat (n - tot))%nat with (Z.to_nat m) by lia.
    replace (Z.to_nat m + Z.to_nat (n - (tot + m)))%nat with (Z.to_nat (n - tot)) by lia.
    apply put_bytes_ext. rewrite Hby4 by done. replace (off / BSIZE * BSIZE + off mod BSIZE) with off.
    + apply put_bytes_ext. by apply Hby1.
    + pose proof (Z.div_mod off BSIZE ltac:(done)). lia.
Qed.

Lemma fs_tx_size cap k s ip z :
  fs_tx i p pid e cap k s ip ->
  fs_tx i p pid e cap k (upd_inode e (fun ip => ip<|ip_size := z|>) s) (ip<|ip_size := z|>) /\
  frame e s ip (upd_inode e (fun ip => ip<|ip_size := z|>) s) (ip<|ip_size := z|>).
Proof.
  intros [Htx Hm He Hf Hroom]. set (s' := upd_inode _ _ s).
  assert (Hin : k_inodes s' = <[e := ip<|ip_size := z|>]> (k_inodes s))
    by exact (alter_insert (fun ip => ip<|ip_size := z|>) _ _ _ He).
  split.
  - split; [by apply in_tx_inode|by destruct Hm; split| |by destruct Hf; split|done].
    rewrite Hin. apply list_lookup_insert_eq. by eapply lookup_lt_Some.
  - split; try done. intros j _. by left.
Qed.

Lemma dinode_ok_file s ip :
  map_ok s -> file_ok s ip -> is_s16 ip.(ip_type) /\ is_s16 ip.(ip_major) /\ is_s16 ip.(ip_minor) /\ is_s16 ip.(ip_nlink) ->
  0 <= ip.(ip_size) < 2 ^ 32 -> dinode_ok (to_dinode ip).
Proof.
  intros Hm Hf Hsh Hsz. destruct (mo_size _ Hm) as [Hm1 Hm2]. split; [done|done|apply (fk_len _ _ Hf)|].
  apply Forall_lookup. intros j a Ha. pose proof (lookup_lt_Some _ _ _ Ha) as Hlt. cbn in Ha, Hlt. rewrite (fk_len _ _ Hf) in Hlt.
  change (Z.to_nat (NDIRECT + 1)) with 13%nat in Hlt.
  assert (Hj : exists j', 0 <= j' <= MAXFILE /\ slot s ip j' = a).
  { destruct (decide (j = 12%nat)) as [->|Hne].
    - exists MAXFILE. split; [done|]. rewrite slot_last. unfold addr_at. rewrite nth_lookup. change (Z.to_nat NDIRECT) with 12%nat. by rewrite Ha.
    - exists (Z.of_nat j). change MAXFILE with 140. split; [lia|]. rewrite slot_direct by (change NDIRECT with 12; lia).
      unfold addr_at. by rewrite Nat2Z.id, nth_lookup, Ha. }
  destruct Hj as (j' & Hj' & <-). destruct (decide (slot s ip j' = 0)) as [->|Hn]; [lia|].
  destruct (fk_slot _ _ Hf j' Hj' Hn) as (Hr & _). lia.
Qed.

(** The fields of an inode of a file, other than its blocks. *)
Definition plain_file (ip : inode) : Prop :=
  ip.(ip_type) <> T_DEV /\ 0 <= ip.(ip_size) <= MAXFILE * BSIZE /\
  is_s16 ip.(ip_type) /\ is_s16 ip.(ip_major) /\ is_s16 ip.(ip_minor) /\ is_s16 ip.(ip_nlink).

(** The new size is stored. *)
Lemma writei_grow cap k s ip z :
  fs_tx i p pid e (cap + 1) k s ip -> 0 <= cap -> 0 <= z < 2 ^ 32 ->
  is_s16 ip.(ip_type) /\ is_s16 ip.(ip_major) /\ is_s16 ip.(ip_minor) /\ is_s16 ip.(ip_nlink) ->
  exists s', (set_inode e (fun ip => ip<|ip_size := z|>) ;;; iupdate e)%xv6 s = Ret tt s' /\
    fs_tx i p pid e cap k s' (ip<|ip_size := z|>) /\ frame e s ip s' (ip<|ip_size := z|>) /\
    (forall q, 0 <= q < MAXFILE * BSIZE -> file_byte s' (ip<|ip_size := z|>) q = file_byte s ip q) /\
    on_disk s' (ip<|ip_size := z|>) = to_dinode (ip<|ip_size := z|>).
Proof.
  intros Hft Hcap Hz Hsh. destruct (fs_tx_size _ _ _ _ z Hft) as [Hft2 Hfr2].
  set (s2 := upd_inode e _ s) in *. set (ip2 := ip<|ip_size := z|>) in *.
  destruct (iupdate_ok cap k s2 ip2 Hft2 Hcap) as (s3 & E3 & Hft3 & Hfr3 & Hby3 & Hod3).
  { by apply (dinode_ok_file s2); [apply Hft2|apply Hft2|..]. }
  exists s3. split_and!; try done.
  - by eapply frame_trans.
Qed.

Lemma writei_ok cap k src off n s ip :
  fs_tx i p pid e (cap + 1 + 4 * nblk off n + 2 * indz ip) (k + Z.to_nat (nblk off n) + Z.to_nat (indz ip)) s ip ->
  0 <= cap -> plain_file ip -> 0 <= off <= ip.(ip_size) -> 0 <= n -> off + n <= MAXFILE * BSIZE ->
  n <= Z.of_nat (length src) ->
  exists s' ip', writei e src off n s = Ret n s' /\
    fs_tx i p pid e (cap + 2 * indz ip') (k + Z.to_nat (indz ip')) s' ip' /\ frame e s ip s' ip' /\
    ip'.(ip_size) = Z.max ip.(ip_size) (off + n) /\ mapped s' ip' off n /\
    (ip.(ip_size) < off + n -> on_disk s' ip' = to_dinode ip') /\
    forall q, 0 <= q < MAXFILE * BSIZE -> file_byte s' ip' q = put_bytes (file_byte s ip) off (take (Z.to_nat n) src) q.
Proof.
  intros Hft Hcap (Hty & Hsz & Hsh) Hoff Hn Hmax Hsrc. pose proof Hft as [Htx Hm He Hf _].
  change (MAXFILE * BSIZE) with 71680 in *.
  pose proof (inode_at_ok e s ip He) as Ei.
  destruct (writei_loop_ok (cap + 1) k (io_fuel n) src off n 0 s ip) as (s1 & ip1 & E1 & Hft1 & Hfr1 & Hsz1 & Hmp1 & Hby1);
    rewrite ?Z.sub_0_r in *; try (done || lia).
  { by apply nblk_fuel; lia. }
  pose proof (inode_at_ok e s1 ip1 (ft_inode _ _ _ _ _ _ _ _ Hft1)) as Ei1.
  assert (Hcode : writei e src off n s =
    ((if! (0 <? n) && (ip1.(ip_size) <? off + n) then!
        (set_inode e (fun ip => ip<|ip_size := off + n|>) ;;; iupdate e)) ;;; ret (s32 n))%xv6 s1).
  { unfold writei. kret_by exact Ei. rewrite (proj2 (Z.eqb_neq _ _) Hty), u32_small by lia.
    rewrite (proj2 (Z.ltb_ge (ip_size ip) off)), (proj2 (Z.ltb_ge (off + n) off)) by lia. cbn [orb].
    change (MAXFILE * BSIZE) with 71680. rewrite (proj2 (Z.ltb_ge 71680 (off + n))) by lia.
    kret_by exact E1. by kret_by exact Ei1. }
  rewrite Hcode, Hsz1. destruct (decide (ip.(ip_size) < off + n)) as [Hgrow|Hkeep].
  - rewrite (proj2 (Z.ltb_lt 0 n)), (proj2 (Z.ltb_lt (ip_size ip) (off + n))) by lia. cbn [andb].
    assert (Hsame : same_inode ip ip1) by apply Hfr1. pose proof (indz_range ip1) as Hiz1.
    destruct (writei_grow (cap + 2 * indz ip1) (k + Z.to_nat (indz ip1)) s1 ip1 (off + n))
      as (s3 & E3 & Hft3 & Hfr3 & Hby3 & Hod3); [|lia|lia|by rewrite Hsame|].
    { by replace (cap + 2 * indz ip1 + 1) with (cap + 1 + 2 * indz ip1) by lia. }
    exists s3, (ip1<|ip_size := off + n|>). split_and!; try done.
    + kret_by exact E3. by rewrite s32_small by lia.
    + by eapply frame_trans.
    + change (off + n = ip_size ip `max` (off + n)). lia.
    + intros bn H0 H1 H2. rewrite (slot_kept e s1 ip1); [by apply Hmp1|done| |by apply Hmp1].
      assert (0 <= off / BSIZE) by (apply Z.div_pos; unfold BSIZE; lia). change MAXFILE with 140. unfold BSIZE in *. lia.
    + intros q Hq. rewrite Hby3 by done. by apply Hby1.
  - replace (ip_size ip <? off + n) with false by lia. rewrite andb_false_r.
    exists s1, ip1. split_and!; try done.
    + kret. by rewrite s32_small by lia.
    + eapply fs_tx_le; [..|exact Hft1]; pose proof (indz_range ip1); lia.
    + lia.
Qed.

(** ** readi *)

(** bmap of a block that is there only reads. *)
Lemma bmap_mapped cap k s ip bn :
  fs_tx i p pid e cap k s ip -> 0 <= bn < MAXFILE -> slot s ip bn <> 0 ->
  exists s', bmap e bn s = Ret (slot s ip bn) s' /\ in_tx i p pid ∅ cap s' /\ (forall n, view s' n = view s n) /\ tx_step s s'.
Proof.
  intros Hft Hbn Hn. pose proof Hft as [Htx Hm He Hf _]. pose proof (inode_at_ok e s ip He) as Ei.
  pose proof (fk_dev _ _ Hf) as Hdev. unfold bmap. kret_by exact Ei. destruct (Z.ltb_spec bn NDIRECT) as [Hd|Hd].
  { exists s. rewrite slot_direct in Hn |- * by done. rewrite (proj2 (Z.eqb_neq _ _) Hn). done. }
  assert (Hind : addr_at ip NDIRECT <> 0).
  { intros E. rewrite slot_indirect, E in Hn by lia. done. }
  replace (bn - NDIRECT <? NINDIRECT) with true by (symmetry; apply Z.ltb_lt; unfold MAXFILE in *; lia).
  rewrite (proj2 (Z.eqb_neq _ _) Hind). kret. rewrite Hdev.
  apply (bmap_entry_mapped i p pid e cap k); [done|lia|done|done].
Qed.

Lemma file_bytes_chunk s ip off m :
  0 <= off -> 0 <= m -> off mod BSIZE + m <= BSIZE -> slot s ip (off / BSIZE) <> 0 ->
  Z.of_nat (length (view s (slot s ip (off / BSIZE)))) = BSIZE ->
  take (Z.to_nat m) (drop (Z.to_nat (off mod BSIZE)) (view s (slot s ip (off / BSIZE)))) = file_byte s ip <$> seqZ off m.
Proof.
  intros Hoff Hm Hle Hn Hlen. pose proof (Z.mod_pos_bound off BSIZE ltac:(done)) as Hmod.
  pose proof (Z.div_mod off BSIZE ltac:(done)) as Hdiv. rewrite slice_get8 by lia.
  apply list_eq. intros k. rewrite !list_lookup_fmap. destruct (decide (Z.of_nat k < m)) as [Hk|Hk].
  - rewrite (proj2 (lookup_seqZ _ m k _)) by (split; [reflexivity|lia]).
    rewrite (proj2 (lookup_seqZ off m k _)) by (split; [reflexivity|lia]). cbn [fmap option_fmap option_map]. f_equal.
    unfold file_byte. replace (off + Z.of_nat k) with (off mod BSIZE + Z.of_nat k + off / BSIZE * BSIZE) by lia.
    rewrite Z.div_add, Z.mod_add by done. rewrite (Z.div_small (_ + _)), (Z.mod_small (_ + _)) by lia. rewrite Z.add_0_l.
    by rewrite (proj2 (Z.eqb_neq _ _) Hn).
  - by rewrite !lookup_seqZ_ge by lia.
Qed.

Lemma readi_loop_ok cap k ip fuel : forall off n tot s,
  fs_tx i p pid e cap k s ip -> 0 <= off -> 0 <= n - tot -> off + (n - tot) <= MAXFILE * BSIZE ->
  mapped s ip off (n - tot) -> nblk off (n - tot) < Z.of_nat fuel ->
  exists s', readi_loop fuel e off n tot s = Ret (file_byte s ip <$> seqZ off (n - tot)) s' /\
    fs_tx i p pid e cap k s' ip /\ reads s s'.
Proof.
  induction fuel as [|fuel IH]; intros off n tot s Hft Hoff Hr Hmax Hmp Hfuel.
  { pose proof (nblk_nonneg off (n - tot) Hoff). lia. }
  cbn [readi_loop]. destruct (Z.ltb_spec tot n) as [Hlt|Hge]; cbn [negb].
  2: { replace (n - tot) with 0 in * by lia. exists s. split_and!; [done|done|apply reads_refl]. }
  set (m := chunk off (n - tot)). destruct (chunk_range off (n - tot) Hoff ltac:(lia)) as [Hm1 Hm2]. fold m in Hm1, Hm2.
  pose proof (nblk_step off (n - tot) Hoff ltac:(lia)) as Hstep. fold m in Hstep.
  apply (mapped_step s ip off (n - tot) Hoff ltac:(lia)) in Hmp as [Hn Hmp']. fold m in Hmp'.
  replace (n - tot - m) with (n - (tot + m)) in * by lia.
  assert (Hbn : 0 <= off / BSIZE < MAXFILE).
  { split; [apply Z.div_pos; unfold BSIZE; lia|apply Z.div_lt_upper_bound; unfold BSIZE in *; lia]. }
  destruct (bmap_mapped cap k s ip (off / BSIZE) Hft Hbn Hn) as (s1 & E1 & Htx1 & Hv1 & Hs1).
  destruct (fs_tx_same i p pid e cap k s s1 ip Hft Htx1 Hv1 Hs1) as [Hft1 Hg1].
  pose proof (slot_kept e s ip s1 ip (off / BSIZE) (proj1 Hg1) ltac:(lia) Hn) as Hsl.
  destruct (fk_slot _ _ (ft_file _ _ _ _ _ _ _ _ Hft) (off / BSIZE) ltac:(lia) Hn) as (Ha & _).
  destruct (mo_size _ (ft_map _ _ _ _ _ _ _ _ Hft)) as [Hz1 Hz2].
  pose proof (tl_n _ _ (itx_log _ _ _ _ _ _ Htx1)) as Hcap.
  destruct (tx_step_fields _ _ Hs1) as (_ & _ & Hz & _).
  destruct (tx_read i p pid ∅ cap s1 (slot s ip (off / BSIZE)) Htx1 (can_read_empty cap (slot s ip (off / BSIZE)) s1 ltac:(lia) ltac:(rewrite Hz; lia)))
    as (b & s2 & s3 & E2 & E2' & E3 & _ & Htx3 & Hv3 & _ & Hs3).
  destruct (fs_tx_same i p pid e cap k s1 s3 ip Hft1 Htx3 Hv3 Hs3) as [Hft3 Hg3].
  assert (Hg : grows e s ip s3 ip) by (by eapply grows_trans).
  destruct (IH (off + m) n (tot + m) s3) as (s' & E' & Hft' & Hg'); [done|lia|lia|lia| |lia|].
  { intros bn H0 H1 H2. assert (0 <= (off + m) / BSIZE) by (apply Z.div_pos; unfold BSIZE; lia).
    rewrite (slot_kept e s ip s3 ip); [by apply Hmp'|apply Hg| |by apply Hmp']. unfold BSIZE in *. lia. }
  exists s'. split_and!; [|done|eapply reads_trans; [by split|by eapply reads_trans; [split|]]].
  kret_by exact E1. pose proof (inode_at_ok e s1 ip (ft_inode _ _ _ _ _ _ _ _ Hft1)) as Ei. kret_by exact Ei.
  rewrite (fk_dev _ _ (ft_file _ _ _ _ _ _ _ _ Hft1)). kret_by exact E2. kret_by exact E2'. kret_by exact E3.
  change (Z.min (n - tot) (BSIZE - off mod BSIZE)) with m. kret_by exact E'. f_equal.
  rewrite Hv1, file_bytes_chunk by (lia || done || apply (itx_size _ _ _ _ _ _ (ft_tx _ _ _ _ _ _ _ _ Hft))).
  replace (n - tot) with (m + (n - (tot + m))) by lia. rewrite seqZ_app, fmap_app by lia. f_equal.
  apply list_fmap_ext. intros j q Hq. apply lookup_seqZ in Hq as [-> Hq]. apply Hg. lia.
Qed.

Lemma readi_ok cap k off n s ip :
  fs_tx i p pid e cap k s ip -> ip.(ip_type) <> T_DEV -> 0 <= ip.(ip_size) <= MAXFILE * BSIZE ->
  0 <= off <= ip.(ip_size) -> 0 <= n < 2 ^ 31 -> mapped s ip off (Z.min n (ip.(ip_size) - off)) ->
  let m := Z.min n (ip.(ip_size) - off) in
  exists s', readi e off n s = Ret (m, file_byte s ip <$> seqZ off m) s' /\
    fs_tx i p pid e cap k s' ip /\ reads s s'.
Proof.
  intros Hft Hty Hsz Hoff Hn Hmp m. change (MAXFILE * BSIZE) with 71680 in *.
  pose proof (inode_at_ok e s ip (ft_inode _ _ _ _ _ _ _ _ Hft)) as Ei.
  destruct (readi_loop_ok cap k ip (io_fuel m) off m 0 s Hft) as (s' & E & Hft' & Hg);
    rewrite ?Z.sub_0_r; [lia|unfold m; lia|change (MAXFILE * BSIZE) with 71680; unfold m; lia|done|apply nblk_fuel; unfold m; lia|].
  rewrite Z.sub_0_r in E. exists s'. split_and!; [|done|done]. unfold readi. kret_by exact Ei.
  rewrite (proj2 (Z.eqb_neq _ _) Hty), (u32_small (off + n)) by lia.
  rewrite (proj2 (Z.ltb_ge (ip_size ip) off)), (proj2 (Z.ltb_ge (off + n) off)) by lia. cbn [orb].
  replace (if ip_size ip <? off + n then u32 (ip_size ip - off) else n) with m.
  - kret_by exact E. by rewrite s32_small by (unfold m; lia).
  - unfold m. destruct (Z.ltb_spec (ip_size ip) (off + n)); [rewrite u32_small by lia|]; lia.
Qed.
End Data.

Lemma put_bytes_read f off bs :
  0 <= off -> put_bytes f off bs <$> seqZ off (Z.of_nat (length bs)) = bs.
Proof.
  intros Hoff. apply list_eq. intros k. rewrite list_lookup_fmap. destruct (bs !! k) as [x|] eqn:Hk.
  - pose proof (lookup_lt_Some _ _ _ Hk) as Hlt. rewrite (proj2 (lookup_seqZ off _ k (off + Z.of_nat k))) by lia.
    cbn [fmap option_fmap option_map]. f_equal. unfold put_bytes.
    replace ((off <=? off + Z.of_nat k) && (off + Z.of_nat k <? off + Z.of_nat (length bs))) with true by lia.
    replace (Z.to_nat (off + Z.of_nat k - off)) with k by lia. by rewrite nth_lookup, Hk.
  - apply lookup_ge_None in Hk. by rewrite lookup_seqZ_ge by lia.
Qed.

(** C11: the contents of files.  Inside a transaction with room for the blocks,
    writei of [n] bytes at an offset up to the size of a file writes them all,
    also across block boundaries, into new blocks, and into blocks reached
    through the indirect block: a readi of the range returns exactly these
    bytes, every other byte of the file is as before (bytes of new blocks are
    zero), and the size is the larger of the old one and the end of the write,
    in memory and, if it grew, in the inode on disk.  No block in use that is
    neither the file's nor its inode's nor of the free map changes, so no other
    file does. *)
Theorem file_roundtrip {P : Patience} {D : BlockDriver} {CL : CacheLaws P D} {V : Devices}
    (i p e : nat) (pid off n : Z) (src : list Z) (s : kernel) (ip : inode) :
  fs_tx i p pid e (1 + 4 * nblk off n + 2 * indz ip) (Z.to_nat (nblk off n + indz ip)) s ip ->
  plain_file ip -> 0 <= off <= ip.(ip_size) -> 0 <= n -> off + n <= MAXFILE * BSIZE -> n <= Z.of_nat (length src) ->
  exists s1 ip1 s2,
    writei e src off n s = Ret n s1 /\ s1.(k_inodes) !! e = Some ip1 /\
    readi e off n s1 = Ret (n, take (Z.to_nat n) src) s2 /\
    (forall q, 0 <= q < MAXFILE * BSIZE -> file_byte s2 ip1 q = put_bytes (file_byte s ip) off (take (Z.to_nat n) src) q) /\
    ip1.(ip_size) = Z.max ip.(ip_size) (off + n) /\ file_ok s2 ip1 /\ map_ok s2 /\
    (ip.(ip_size) < off + n -> on_disk s1 ip1 = to_dinode ip1) /\ frame e s ip s2 ip1.
Proof.
  intros Hft Hpl Hoff Hn Hmax Hsrc. pose proof (indz_range ip) as Hiz. pose proof (nblk_nonneg off n ltac:(lia)) as Hnb.
  destruct (writei_ok i p pid e 0 0 src off n s ip) as (s1 & ip1 & E1 & Hft1 & Hfr1 & Hsz1 & Hmp1 & Hod1 & Hby1); try done.
  { by replace (0 + Z.to_nat (nblk off n) + Z.to_nat (indz ip))%nat with (Z.to_nat (nblk off n + indz ip)) by lia. }
  destruct Hpl as (Hty & Hsz & _). change (MAXFILE * BSIZE) with 71680 in *.
  assert (Hmin : Z.min n (ip1.(ip_size) - off) = n) by lia.
  destruct (readi_ok i p pid e _ _ off n s1 ip1 Hft1) as (s2 & E2 & Hft2 & Hr2);
    [rewrite (gr_inode _ _ _ _ _ Hfr1); exact Hty|change (MAXFILE * BSIZE) with 71680; lia|lia|lia|by rewrite Hmin|].
  pose proof (reads_grows _ _ _ _ _ _ _ _ _ _ _ Hft1 Hft2 Hr2) as Hg2.
  rewrite Hmin in E2. exists s1, ip1, s2. split_and!; [done|apply Hft1| |..|done|apply Hft2|apply Hft2|done|].
  - rewrite E2. do 2 f_equal. rewrite <- (put_bytes_read (file_byte s ip) off (take (Z.to_nat n) src)) by lia.
    rewrite length_take. replace (Z.of_nat (Z.to_nat n `min` length src)) with n by lia.
    apply list_fmap_ext. intros k q Hq. apply lookup_seqZ in Hq as [-> Hq]. apply Hby1. lia.
  - intros q Hq. destruct Hg2 as (_ & _ & Hb). rewrite Hb by done. by apply Hby1.
  - eapply frame_trans; [done|apply Hg2].
Qed.

(** ** A file of a small file system *)
Definition small_inode : inode := mkinode 1 5 1 1 T_FILE 0 0 1 0 (replicate 13 0).
Definition small_file : kernel := small_fs<|k_inodes := [small_inode]|>.

Lemma small_slot j : slot small_file small_inode j = 0.
Proof.
  assert (Ha : forall k, addr_at small_inode k = 0).
  { intros k. unfold addr_at. rewrite nth_lookup. change (ip_addrs small_inode) with (replicate 13 0).
    destruct (replicate 13 0 !! Z.to_nat k) as [x|] eqn:E; [|done]. by apply lookup_replicate in E as [-> _]. }
  unfold slot, block_addr. rewrite !Ha. by destruct (j =? MAXFILE), (j <? NDIRECT).
Qed.

Lemma small_file_ok : fs_tx 0 0 0 0 11 3 small_file small_inode.
Proof.
  assert (Hf : forall b, free small_file b = free small_fs b) by done. split.
  - destruct (small_tx 11 ltac:(lia)) as [H1 H2 H3 H4 H5]. split; [tframe H1|by destruct H2; split|done|done|done].
  - destruct small_map as [H1 H2 H3 H4]. by split.
  - done.
  - split; [done|done|by intros j _ Hn; rewrite small_slot in Hn|by intros j j' _ _ Hn; rewrite small_slot in Hn|].
    change (IBLOCK (ip_inum small_inode) (k_sb small_file)) with 32. split_and!; [done|done|by rewrite Hf, small_free|].
    intros b Hb. change (sb_size (k_sb small_file)) with 1000 in Hb.
    assert (Hd : b / BPB = 0) by (apply Z.div_small; unfold BPB, BSIZE; lia). unfold BBLOCK. by rewrite Hd.
  - exists {[59; 60; 61]}. split; [by vm_compute|]. intros b Hb. rewrite Hf.
    change (sb_size (k_sb small_file)) with 1000. assert (b = 59 \/ b = 60 \/ b = 61) by set_solver.
    rewrite small_free by (unfold FSSIZE; lia). lia.
Qed.

#[local] Instance no_waits : Patience := 0%nat.
#[local] Instance no_devices : Devices := {| dev_read _ _ _ := ret (-1, []); dev_write _ _ _ _ := ret (-1) |}.

Lemma file_roundtrip_witness :
  exists s1 s2, writei 0 (replicate 600 7) 0 600 small_file = Ret 600 s1 /\
    readi 0 0 600 s1 = Ret (600, replicate 600 7) s2.
Proof.
  destruct (file_roundtrip 0 0 0 0 0 600 (replicate 600 7) small_file small_inode) as (s1 & ip1 & s2 & E1 & _ & E2 & _);
    [exact small_file_ok|by unfold plain_file, is_s16|done|lia|done|done|].
  exists s1, s2. split; [exact E1|]. rewrite E2. rewrite take_ge; [done|]. by rewrite length_replicate.
Defined.
