(* ===== verification/Dir.v ===== *)
(** * Directories (fs.c): dirlookup and dirlink

    A directory is a file of 16-byte entries.  What it means is a finite map
    from names to inode numbers: dirlookup is its lookup and dirlink adds a
    name to it. *)

From S2P Require Import Prelude State Spinlock Thread CString Cprintf Kalloc Layout Vm Sched Sleeplock Disk Bio Log Tx Fs Freemap Inode Contents.

(** ** Names

    A name is compared up to its first NUL and to at most DIRSIZ characters. *)
Fixpoint cname (n : nat) (l : list Z) : list Z :=
  match n with
  | O => []
  | S n' => if truth (deref l) then deref l :: cname n' (next l) else []
  end.
Definition name_key (l : list Z) : list Z := cname (Z.to_nat DIRSIZ) l.

Lemma deref_byte l : Forall is_byte l -> 0 <= deref l < 256.
Proof. by intros [|x l' Hx _]. Qed.
Lemma next_bytes l : Forall is_byte l -> Forall is_byte (next l).
Proof. by intros [|x l' _ Hl]. Qed.

Lemma strncmp_cname n : forall p q, Forall is_byte p -> Forall is_byte q -> strncmp n p q = 0 <-> cname n p = cname n q.
Proof.
  induction n as [|n IH]; intros p q Hp Hq; [done|]. cbn [strncmp cname].
  pose proof (deref_byte p Hp) as Bp. pose proof (deref_byte q Hq) as Bq. rewrite !u8_small by done.
  unfold truth. destruct (Z.eqb_spec (deref p) 0) as [Ep|Np]; cbn [negb andb].
  - rewrite Ep. destruct (Z.eqb_spec (deref q) 0); cbn [negb]; [by rewrite e|]. split; [lia|done].
  - destruct (Z.eqb_spec (deref p) (deref q)) as [E|N].
    + rewrite <- E, (proj2 (Z.eqb_neq _ _) Np). cbn [negb].
      rewrite IH by (by apply next_bytes). split; [by intros ->|by intros [= ->]].
    + split; [lia|]. destruct (Z.eqb_spec (deref q) 0); cbn [negb]; [done|by intros [= ? _]].
Qed.

Lemma strncpy_bytes n : forall s t, Forall is_byte s -> Forall is_byte t -> Forall is_byte (strncpy n s t).
Proof.
  assert (Hz : forall m s, Forall is_byte s -> Forall is_byte (zero_fill m s)).
  { intros m. induction m as [|m IH]; intros [|x s] H; try done. inversion H; subst. cbn. constructor; [done|by apply IH]. }
  induction n as [|n IH]; intros [|x s] t Hs Ht; try done. inversion Hs; subst. cbn [strncpy].
  destruct (truth (deref t)); constructor; try done; [by apply deref_byte|by apply IH, next_bytes|by apply Hz].
Qed.

Lemma length_strncpy n : forall s t, length (strncpy n s t) = length s.
Proof.
  assert (Hz : forall m s, length (zero_fill m s) = length s).
  { intros m. induction m as [|m IH]; intros [|x s]; cbn; [done..|by rewrite IH]. }
  induction n as [|n IH]; intros [|x s] t; cbn [strncpy]; try done.
  destruct (truth (deref t)); cbn; by rewrite ?IH, ?Hz.
Qed.

(** What strncpy stores compares equal to its source. *)
Lemma cname_strncpy n : forall s t, length s = n -> cname n (strncpy n s t) = cname n t.
Proof.
  induction n as [|n IH]; intros [|x s] t Hs; try done. cbn [strncpy cname].
  destruct (truth (deref t)) eqn:E; cbn [deref next]; [|done]. rewrite E, IH; [done|]. by injection Hs.
Qed.

(** ** Directories as maps *)
Definition dent (s : kernel) (ip : inode) (j : Z) : list Z := file_byte s ip <$> seqZ (DIRENT * j) DIRENT.
Definition dents (s : kernel) (ip : inode) : list (list Z) := dent s ip <$> seqZ 0 (ip.(ip_size) / DIRENT).
Definition names (key : list Z) (de : list Z) : Prop := de_inum de <> 0 /\ name_key (de_name de) = key.
#[export] Instance names_dec key de : Decision (names key de).
Proof. unfold names. apply _. Defined.
(** The entry of a name: its position and its inode. *)
Definition dir_find (l : list (list Z)) (key : list Z) : option (nat * Z) :=
  (fun '(j, de) => (j, de_inum de)) <$> list_find (names key) l.
(** The map a directory stands for. *)
Definition dir_map (s : kernel) (ip : inode) (key : list Z) : option Z := snd <$> dir_find (dents s ip) key.

Lemma dir_find_cons de l key :
  snd <$> dir_find (de :: l) key = if decide (names key de) then Some (de_inum de) else snd <$> dir_find l key.
Proof.
  unfold dir_find. cbn [list_find]. case_decide; [done|]. by destruct (list_find (names key) l) as [[j d]|].
Qed.

Lemma dir_find_app l l' key :
  snd <$> dir_find (l ++ l') key =
  match snd <$> dir_find l key with Some v => Some v | None => snd <$> dir_find l' key end.
Proof.
  induction l as [|de l IH]; [done|]. rewrite <- app_comm_cons, !dir_find_cons. by case_decide.
Qed.

(** An entry replaces a free one, or is added at the end. *)
Lemma dir_find_place l m de key :
  (m <= length l)%nat -> (forall d, l !! m = Some d -> de_inum d = 0) ->
  (names key de -> snd <$> dir_find l key = None) ->
  snd <$> dir_find (take m l ++ de :: drop (S m) l) key =
  if decide (names key de) then Some (de_inum de) else snd <$> dir_find l key.
Proof.
  intros Hm Hfree Hnew. assert (Hl : snd <$> dir_find l key = snd <$> dir_find (take m l ++ drop (S m) l) key).
  { destruct (l !! m) as [d|] eqn:Hd.
    - rewrite <- (take_drop_middle _ _ _ Hd) at 1. rewrite !dir_find_app, dir_find_cons, decide_False; [done|].
      intros [H _]. by apply H, Hfree.
    - apply lookup_ge_None in Hd. by rewrite take_ge, drop_ge, app_nil_r by lia. }
  rewrite Hl in Hnew |- *. rewrite !dir_find_app, dir_find_cons in *. case_decide as Hn; [|done].
  specialize (Hnew Hn). by destruct (snd <$> dir_find (take m l) key).
Qed.

Lemma encode_dirent_ok inum name :
  0 < inum < 2 ^ 16 -> Forall is_byte name ->
  let de := encode_dirent inum (strncpy (Z.to_nat DIRSIZ) (replicate (Z.to_nat DIRSIZ) 0) name) in
  de_inum de = inum /\ name_key (de_name de) = name_key name /\ Forall is_byte de /\ length de = Z.to_nat DIRENT.
Proof.
  intros Hi Hn de. unfold de, encode_dirent. set (nm := strncpy _ _ _).
  assert (Hl : length nm = Z.to_nat DIRSIZ) by (unfold nm; by rewrite length_strncpy, length_replicate).
  split_and!.
  - transitivity (u8 inum + 256 * u8 (inum / 256)); [done|]. rewrite le16_value. unfold u16. apply Z.mod_small. lia.
  - transitivity (name_key nm); [|by apply cname_strncpy; rewrite length_replicate].
    unfold de_name. change (drop 2 (le16 inum ++ nm)) with nm. by rewrite take_ge by lia.
  - apply Forall_app. split; [repeat constructor; apply u8_range|].
    apply strncpy_bytes; [|done]. by apply Forall_replicate.
  - rewrite length_app, Hl. done.
Qed.

Record directory (s : kernel) (ip : inode) : Prop := {
  dr_type : ip.(ip_type) = T_DIR;
  dr_size : 0 <= ip.(ip_size) <= MAXFILE * BSIZE /\ (DIRENT | ip.(ip_size));
  dr_mapped : mapped s ip 0 ip.(ip_size);
  dr_bytes o : 0 <= o < ip.(ip_size) -> is_byte (file_byte s ip o)
}.
(** The number of entries. *)
Definition ndents (ip : inode) : Z := ip.(ip_size) / DIRENT.

Lemma ndents_range s ip : directory s ip -> 0 <= ndents ip <= 4480 /\ ip.(ip_size) = DIRENT * ndents ip.
Proof.
  intros H. destruct (dr_size _ _ H) as [Hz [n Hn]]. unfold ndents, DIRENT in *. change (MAXFILE * BSIZE) with 71680 in Hz.
  rewrite Hn, Z.div_mul by done. lia.
Qed.

Lemma length_dents s ip : length (dents s ip) = Z.to_nat (ndents ip).
Proof. unfold dents. by rewrite length_fmap, length_seqZ. Qed.

Lemma dents_lookup s ip j : 0 <= j < ndents ip -> dents s ip !! Z.to_nat j = Some (dent s ip j).
Proof.
  intros Hj. unfold dents. rewrite list_lookup_fmap, (proj2 (lookup_seqZ _ _ _ j)); [done|]. unfold ndents in Hj. lia.
Qed.

Lemma drop_dents s ip j : 0 <= j < ndents ip -> drop (Z.to_nat j) (dents s ip) = dent s ip j :: drop (Z.to_nat (j + 1)) (dents s ip).
Proof.
  intros Hj. rewrite (drop_S _ _ _ (dents_lookup s ip j Hj)). do 2 f_equal. lia.
Qed.

Lemma dent_bytes s ip j : directory s ip -> 0 <= j < ndents ip -> Forall is_byte (de_name (dent s ip j)).
Proof.
  intros Hd Hj. destruct (ndents_range s ip Hd) as [_ Hz]. apply Forall_take, Forall_drop. apply list.Forall_forall.
  intros b Hb. apply list_elem_of_fmap in Hb as (o & -> & Ho). apply elem_of_seqZ in Ho. apply (dr_bytes _ _ Hd).
  unfold DIRENT in *. lia.
Qed.

Lemma dents_same s ip s' ip' :
  ip'.(ip_size) = ip.(ip_size) -> (forall o, 0 <= o < ip.(ip_size) -> file_byte s' ip' o = file_byte s ip o) ->
  dents s' ip' = dents s ip.
Proof.
  intros Hz Hb. unfold dents. rewrite Hz. apply list_fmap_ext. intros n j Hj. apply lookup_seqZ in Hj as [-> Hj].
  unfold dent. apply list_fmap_ext. intros m o Ho. apply lookup_seqZ in Ho as [-> Ho]. apply Hb.
  unfold DIRENT in *. pose proof (Z.mul_div_le (ip_size ip) 16 ltac:(lia)). lia.
Qed.

Section Dir.
Context {P : Patience} {D : BlockDriver} {CL : CacheLaws P D} {V : Devices}.
Context (i p : nat) (pid : Z) (e : nat).

Lemma mapped_kept s ip s' ip' n : frame e s ip s' ip' -> n <= MAXFILE * BSIZE -> mapped s ip 0 n -> mapped s' ip' 0 n.
Proof.
  intros Hfr Hn Hm bn H0 H1 H2. rewrite (slot_kept e s ip s' ip' bn Hfr); [by apply Hm| |by apply Hm].
  change (MAXFILE * BSIZE) with 71680 in Hn. change MAXFILE with 140. unfold BSIZE in *. rewrite Z.div_0_l in H1 by done. lia.
Qed.

Lemma directory_grows s ip s' : directory s ip -> grows e s ip s' ip -> directory s' ip /\ dents s' ip = dents s ip.
Proof.
  intros Hd (Hfr & _ & Hb). pose proof (dr_size _ _ Hd) as [Hz Hdiv].
  assert (Hb' : forall o, 0 <= o < ip.(ip_size) -> file_byte s' ip o = file_byte s ip o) by (intros o Ho; apply Hb; lia).
  split; [|by apply dents_same]. split; [apply Hd|done| |].
  - by eapply mapped_kept; [|lia|apply Hd].
  - intros o Ho. rewrite Hb' by done. by apply (dr_bytes _ _ Hd).
Qed.

(** One entry is read. *)
Lemma read_dent cap k s ip j :
  fs_tx i p pid e cap k s ip -> directory s ip -> 0 <= j < ndents ip ->
  exists s', readi e (DIRENT * j) DIRENT s = Ret (DIRENT, dent s ip j) s' /\ fs_tx i p pid e cap k s' ip /\
    reads s s'.
Proof.
  intros Hft Hd Hj. destruct (ndents_range s ip Hd) as [Hn Hz]. unfold DIRENT in *.
  destruct (readi_ok i p pid e cap k (16 * j) 16 s ip Hft) as (s' & E & H1 & H2).
  - by rewrite (dr_type _ _ Hd).
  - apply (dr_size _ _ Hd).
  - lia.
  - lia.
  - intros bn H0 H1 H2. apply (dr_mapped _ _ Hd); [lia| |lia].
    transitivity (16 * j / BSIZE); [apply Z.div_le_mono; unfold BSIZE; lia|done].
  - exists s'. rewrite Z.min_l in E by lia. done.
Qed.

(** The loops over the entries, from entry [j] on. *)
Lemma dirlookup_loop_ok cap k ip name fuel : forall j s,
  fs_tx i p pid e cap k s ip -> directory s ip -> Forall is_byte name -> 0 <= j <= ndents ip ->
  ndents ip - j < Z.of_nat fuel ->
  exists s', fs_tx i p pid e cap k s' ip /\ reads s s' /\
    dirlookup_loop fuel e name (DIRENT * j) s =
    match dir_find (drop (Z.to_nat j) (dents s ip)) (name_key name) with
    | None => Ret None s'
    | Some (m, inum) => (let! x := iget ip.(ip_dev) inum in ret (Some (x, DIRENT * (j + Z.of_nat m))))%xv6 s'
    end.
Proof.
  induction fuel as [|fuel IH]; intros j s Hft Hd Hnm Hj Hf; [lia|]. destruct (ndents_range s ip Hd) as [Hn Hz].
  pose proof (inode_at_ok e s ip (ft_inode _ _ _ _ _ _ _ _ Hft)) as Ei. cbn [dirlookup_loop].
  destruct (decide (j = ndents ip)) as [->|Hne].
  - exists s. split_and!; [done|apply reads_refl|]. kret_by exact Ei.
    rewrite Hz, Z.ltb_irrefl. cbn [negb]. rewrite drop_ge by (by rewrite length_dents). done.
  - destruct (read_dent cap k s ip j Hft Hd ltac:(lia)) as (s1 & E1 & Hft1 & Hr1).
    destruct (directory_grows s ip s1 Hd (reads_grows _ _ _ _ _ _ _ _ _ _ _ Hft Hft1 Hr1)) as [Hd1 Hds1].
    assert (Hu : u32 (DIRENT * j + DIRENT) = DIRENT * (j + 1)).
    { rewrite u32_small; unfold DIRENT in *; lia. }
    destruct (IH (j + 1) s1 Hft1 Hd1 Hnm ltac:(lia) ltac:(lia)) as (s2 & Hft2 & Hg2 & E2).
    rewrite Hds1 in E2. rewrite (drop_dents s ip j) by lia.
    assert (Hskip : ~ names (name_key name) (dent s ip j) ->
      exists s', fs_tx i p pid e cap k s' ip /\ reads s s' /\
        dirlookup_loop fuel e name (u32 (DIRENT * j + DIRENT)) s1 =
        match dir_find (dent s ip j :: drop (Z.to_nat (j + 1)) (dents s ip)) (name_key name) with
        | None => Ret None s'
        | Some (m, inum) => (let! x := iget ip.(ip_dev) inum in ret (Some (x, DIRENT * (j + Z.of_nat m))))%xv6 s'
        end).
    { intros Hno. exists s2. split_and!; [done|by eapply reads_trans|]. rewrite Hu, E2. unfold dir_find. cbn [list_find].
      rewrite decide_False by done. destruct (list_find _ _) as [[m de]|]; [|done]. cbn.
      by replace (j + 1 + Z.of_nat m) with (j + Z.of_nat (S m)) by lia. }
    destruct (decide (names (name_key name) (dent s ip j))) as [[Hi Hk]|Hno].
    + exists s1. split_and!; [done|done|]. unfold dir_find. cbn [list_find]. rewrite decide_True by done. kret_by exact Ei. rewrite (proj2 (Z.ltb_lt _ _)) by (unfold DIRENT in *; lia).
      cbn [negb]. kret_by exact E1. cbv beta iota. rewrite Z.eqb_refl. cbn [negb]. rewrite (proj2 (Z.eqb_neq _ _) Hi).
      rewrite (proj2 (Z.eqb_eq _ _)) by (by apply strncmp_cname; [|apply dent_bytes; [|lia]|]).
      kret_by exact (inode_at_ok e s1 ip (ft_inode _ _ _ _ _ _ _ _ Hft1)). cbn [fmap option_fmap option_map].
      by rewrite Z.add_0_r.
    + destruct (Hskip Hno) as (s' & H1 & H2 & E'). exists s'. split_and!; [done|done|]. kret_by exact Ei.
      rewrite (proj2 (Z.ltb_lt _ _)) by (unfold DIRENT in *; lia). cbn [negb]. kret_by exact E1. cbv beta iota. rewrite Z.eqb_refl. cbn [negb].
      rewrite <- E'. destruct (Z.eqb_spec (de_inum (dent s ip j)) 0) as [|Hi]; [done|].
      rewrite (proj2 (Z.eqb_neq _ _)); [done|]. intros Hc. apply Hno. split; [done|].
      symmetry. by apply strncmp_cname in Hc; [|done|apply dent_bytes; [|lia]].
Qed.

Lemma free_dirent_ok cap k ip fuel : forall j s,
  fs_tx i p pid e cap k s ip -> directory s ip -> 0 <= j <= ndents ip -> ndents ip - j < Z.of_nat fuel ->
  exists s' m, fs_tx i p pid e cap k s' ip /\ reads s s' /\
    free_dirent fuel e (DIRENT * j) s = Ret (DIRENT * m) s' /\ j <= m <= ndents ip /\
    (m < ndents ip -> de_inum (dent s ip m) = 0) /\ forall q, j <= q < m -> de_inum (dent s ip q) <> 0.
Proof.
  induction fuel as [|fuel IH]; intros j s Hft Hd Hj Hf; [lia|]. destruct (ndents_range s ip Hd) as [Hn Hz].
  pose proof (inode_at_ok e s ip (ft_inode _ _ _ _ _ _ _ _ Hft)) as Ei. cbn [free_dirent].
  destruct (decide (j = ndents ip)) as [->|Hne].
  { exists s, (ndents ip). split_and!; [done|apply reads_refl| |lia..|intros q ?; lia]. kret_by exact Ei. by rewrite Hz, Z.ltb_irrefl. }
  destruct (read_dent cap k s ip j Hft Hd ltac:(lia)) as (s1 & E1 & Hft1 & Hr1).
  destruct (directory_grows s ip s1 Hd (reads_grows _ _ _ _ _ _ _ _ _ _ _ Hft Hft1 Hr1)) as [Hd1 Hds1].
  assert (Hlt : DIRENT * j <? ip_size ip = true) by (apply Z.ltb_lt; unfold DIRENT in *; lia).
  destruct (decide (de_inum (dent s ip j) = 0)) as [H0|H0].
  - exists s1, j. split_and!; [done|done| |lia..|done|intros q ?; lia]. kret_by exact Ei. rewrite Hlt. cbn [negb]. kret_by exact E1.
    cbv beta iota. by rewrite Z.eqb_refl, H0.
  - destruct (IH (j + 1) s1 Hft1 Hd1 ltac:(lia) ltac:(lia)) as (s2 & m & Hft2 & Hg2 & E2 & Hm & Hm0 & Hq).
    assert (Hde : forall q, 0 <= q < ndents ip -> dent s1 ip q = dent s ip q).
    { intros q Hq'. apply (inj Some). by rewrite <- !dents_lookup, Hds1 by lia. }
    exists s2, m. split_and!; [done|by eapply reads_trans| |lia..| |].
    + kret_by exact Ei. rewrite Hlt. cbn [negb]. kret_by exact E1. cbv beta iota. rewrite Z.eqb_refl. cbn [negb].
      rewrite (proj2 (Z.eqb_neq _ _) H0). by replace (DIRENT * j + DIRENT) with (DIRENT * (j + 1)) by lia.
    + intros Hlt'. rewrite <- Hde by lia. by apply Hm0.
    + intros q Hq'. destruct (decide (q = j)) as [->|]; [done|]. rewrite <- Hde by lia. apply Hq. lia.
Qed.

(** dirlookup finds the first entry of the name, and takes a reference to its inode. *)
Lemma dirlookup_ok cap k ip name s :
  fs_tx i p pid e cap k s ip -> directory s ip -> Forall is_byte name ->
  exists s', fs_tx i p pid e cap k s' ip /\ reads s s' /\
    dirlookup e name s =
    match dir_find (dents s ip) (name_key name) with
    | None => Ret None s'
    | Some (m, inum) => (let! x := iget ip.(ip_dev) inum in ret (Some (x, DIRENT * Z.of_nat m)))%xv6 s'
    end.
Proof.
  intros Hft Hd Hnm. destruct (ndents_range s ip Hd) as [Hn Hz].
  destruct (dirlookup_loop_ok cap k ip name (dir_fuel ip) 0 s Hft Hd Hnm ltac:(lia)) as (s' & H1 & H2 & E).
  { unfold dir_fuel. fold (ndents ip). lia. }
  exists s'. split_and!; [done|done|]. unfold dirlookup.
  kret_by exact (inode_at_ok e s ip (ft_inode _ _ _ _ _ _ _ _ Hft)). by rewrite (dr_type _ _ Hd).
Qed.

(** ** iget *)

(** The entry of the cache iget takes: the one of the inode, or one without references. *)
Definition icache_slot (dev inum : Z) (s : kernel) : option nat :=
  match find_inode (is_inode dev inum) s with
  | Some m => Some m
  | None => find_inode unreferenced s
  end.
(** What is in it afterwards. *)
Definition referenced (dev inum : Z) (x : inode) : inode :=
  if is_inode dev inum x then x<|ip_ref := x.(ip_ref) + 1|>
  else x<|ip_dev := dev|><|ip_inum := inum|><|ip_ref := 1|><|ip_valid := 0|>.

Lemma find_inode_Some f s m : find_inode f s = Some m -> exists x, s.(k_inodes) !! m = Some x /\ f x = true.
Proof.
  unfold find_inode. intros ([m' x] & Hx & ->)%fmap_Some. apply list_find_Some in Hx as (H1 & H2 & _). by exists x.
Qed.
Lemma find_inode_None f s m x : find_inode f s = None -> s.(k_inodes) !! m = Some x -> f x = false.
Proof.
  unfold find_inode. intros H Hx. apply fmap_None in H. rewrite list_find_None in H. rewrite list.Forall_forall in H.
  destruct (f x) eqn:E; [|done]. exfalso. by apply (H x (list_elem_of_lookup_2 _ _ _ Hx)).
Qed.

Lemma iget_ok dev inum m x s :
  thr i p pid ∅ s -> icache_slot dev inum s = Some m -> s.(k_inodes) !! m = Some x ->
  exists s', iget dev inum s = Ret m s' /\ thr i p pid ∅ s' /\
    calm (s<|k_inodes := <[m := referenced dev inum x]> s.(k_inodes)|>) s'.
Proof.
  intros Ht Hm Hx. destruct (acquire_thr i p pid ∅ LkIcache s Ht (not_elem_of_empty _)) as (s1 & E1 & Hc1 & Ht1).
  assert (Hi1 : k_inodes s1 = k_inodes s) by (by destruct Hc1 as (b & cs & lks & ps & _ & ->)).
  assert (Hf : forall f, find_inode f s1 = find_inode f s) by (intros f; unfold find_inode; by rewrite Hi1).
  set (s2 := s1<|k_inodes := <[m := referenced dev inum x]> s1.(k_inodes)|>).
  assert (Ht2 : thr i p pid ({[LkIcache]} ∪ ∅) s2) by tframe Ht1.
  destruct (release_thr i p pid ∅ LkIcache s2 Ht2 (not_elem_of_empty _)) as (s3 & E3 & Hc3 & Ht3).
  assert (Hset : forall f, f x = referenced dev inum x -> set_inode m f s1 = Ret tt s2).
  { intros f E. unfold set_inode, modify, upd_inode, s2. f_equal. unfold setf, set_k_inodes. f_equal. rewrite <- E.
    apply (alter_insert f m (k_inodes s1) x). by rewrite Hi1. }
  exists s3. split_and!; [|done|].
  - unfold iget. kret_by exact E1. kret. rewrite !Hf. unfold icache_slot in Hm.
    destruct (find_inode (is_inode dev inum) s) as [m'|] eqn:Ef.
    + injection Hm as ->. apply find_inode_Some in Ef as (x' & Hx' & Hi). simplify_eq.
      kret_by exact (Hset (fun ip => ip<|ip_ref := ip.(ip_ref) + 1|>) ltac:(unfold referenced; by rewrite Hi)).
      by kret_by exact E3.
    + rewrite Hm. pose proof (find_inode_None _ _ _ _ Ef Hx) as Hi.
      kret_by exact (Hset (fun ip => ip<|ip_dev := dev|><|ip_inum := inum|><|ip_ref := 1|><|ip_valid := 0|>)
        ltac:(unfold referenced; by rewrite Hi)).
      by kret_by exact E3.
  - destruct Hc1 as (b & cs & lks & ps & Hw & ->), Hc3 as (b' & cs' & lks' & ps' & Hw' & ->).
    exists b', cs', lks', ps'. split; [|done]. by etransitivity.
Qed.

(** The inode of the directory may be the one whose reference is taken. *)
Definition with_ref (m : nat) (ip : inode) : inode := if decide (m = e) then ip<|ip_ref := ip.(ip_ref) + 1|> else ip.

Lemma fs_tx_iget cap k s ip dev inum m x s' :
  fs_tx i p pid e cap k s ip -> 0 < ip.(ip_ref) -> icache_slot dev inum s = Some m -> s.(k_inodes) !! m = Some x ->
  thr i p pid ∅ s' -> calm (s<|k_inodes := <[m := referenced dev inum x]> s.(k_inodes)|>) s' ->
  fs_tx i p pid e cap k s' (with_ref m ip) /\ dents s' (with_ref m ip) = dents s ip /\
  (directory s ip -> directory s' (with_ref m ip)).
Proof.
  intros [Htx Hm He Hf Hr] Href Hslot Hx Ht' (b & cs & lks & ps & _ & ->).
  assert (Hi : with_ref m ip = ip<|ip_ref := (with_ref m ip).(ip_ref)|>) by (unfold with_ref; destruct ip; by case_decide).
  assert (He' : <[m := referenced dev inum x]> (k_inodes s) !! e = Some (with_ref m ip)).
  { unfold with_ref. case_decide as Hme; [subst m|by rewrite list_lookup_insert_ne].
    rewrite Hx in He. injection He as ->. rewrite list_lookup_insert_eq by (by eapply lookup_lt_Some).
    unfold referenced. enough (is_inode dev inum ip = true) as -> by done. unfold icache_slot in Hslot.
    destruct (find_inode (is_inode dev inum) s) as [m'|] eqn:E; [injection Hslot as ->; apply find_inode_Some in E as (y & Hy & Hb); congruence|].
    apply find_inode_Some in Hslot as (y & Hy & Hb). assert (y = ip) as -> by congruence. unfold unreferenced in Hb. lia. }
  destruct Htx as [H1 H2 H3 H4 H5]. split_and!.
  - split; [split; [exact Ht'|by destruct H2; split|done..]|by destruct Hm; split|exact He'| |exact Hr].
    rewrite Hi. by destruct Hf; split.
  - rewrite Hi. done.
  - rewrite Hi. intros Hd. by destruct Hd; split.
Qed.

(** ** An entry is written *)
Lemma nblk_dent m : 0 <= m -> nblk (DIRENT * m) DIRENT = 1.
Proof. intros Hm. unfold nblk, DIRENT, BSIZE. cbn [Z.leb Z.compare]. Z.to_euclidean_division_equations. lia. Qed.

Lemma dents_place s ip s' ip' m de :
  directory s ip -> length de = Z.to_nat DIRENT -> 0 <= m <= ndents ip ->
  ip'.(ip_size) = Z.max ip.(ip_size) (DIRENT * m + DIRENT) -> DIRENT * m + DIRENT <= MAXFILE * BSIZE ->
  (forall q, 0 <= q < MAXFILE * BSIZE -> file_byte s' ip' q = put_bytes (file_byte s ip) (DIRENT * m) de q) ->
  dents s' ip' = take (Z.to_nat m) (dents s ip) ++ de :: drop (S (Z.to_nat m)) (dents s ip).
Proof.
  intros Hd Hde Hm Hz Hmax Hb. destruct (ndents_range s ip Hd) as [Hn Hsz].
  assert (Hn' : ndents ip' = Z.max (ndents ip) (m + 1)).
  { unfold ndents at 1. rewrite Hz, Hsz. unfold DIRENT. rewrite <- Z.mul_succ_r, Z.mul_max_distr_nonneg_l, Z.mul_comm, Z.div_mul by lia. lia. }
  assert (Hdent : forall j, 0 <= j < ndents ip' -> dent s' ip' j = if decide (j = m) then de else dent s ip j).
  { intros j Hj. unfold dent. case_decide as E.
    - subst j. rewrite <- (put_bytes_read (file_byte s ip) (DIRENT * m) de) by (unfold DIRENT; lia).
      rewrite Hde, Z2Nat.id by done. apply list_fmap_ext. intros n q Hq. apply lookup_seqZ in Hq as [-> Hq].
      apply Hb. unfold DIRENT in *. lia.
    - apply list_fmap_ext. intros n q Hq. apply lookup_seqZ in Hq as [-> Hq].
      change (MAXFILE * BSIZE) with 71680 in *. rewrite Hb by (unfold DIRENT in *; lia). unfold put_bytes. rewrite Hde.
      unfold DIRENT in *. destruct (Z.leb_spec (16 * m) (16 * j + Z.of_nat n)), (Z.ltb_spec (16 * j + Z.of_nat n) (16 * m + Z.of_nat (Z.to_nat 16))); cbn [andb]; try done; lia. }
  apply list_eq. intros n. destruct (decide (n < Z.to_nat (ndents ip'))%nat) as [Hlt|Hge].
  - replace n with (Z.to_nat (Z.of_nat n)) at 1 by lia. rewrite dents_lookup, Hdent by lia.
    pose proof (length_dents s ip) as Hlen. case_decide as E.
    + rewrite (lookup_app_r (take _ _)) by (rewrite length_take; lia). rewrite length_take.
      by replace (n - Z.to_nat m `min` length (dents s ip))%nat with 0%nat by lia.
    + destruct (decide (n < Z.to_nat m)%nat) as [Hl|Hl].
      * rewrite lookup_app_l by (rewrite length_take; lia). rewrite lookup_take_lt by lia.
        replace n with (Z.to_nat (Z.of_nat n)) at 2 by lia. by rewrite dents_lookup by lia.
      * rewrite lookup_app_r by (rewrite length_take; lia). rewrite length_take, lookup_cons_ne_0 by lia.
        rewrite lookup_drop. replace (S (Z.to_nat m) + _)%nat with (Z.to_nat (Z.of_nat n)) by lia.
        by rewrite dents_lookup by lia.
  - rewrite !(proj2 (lookup_ge_None _ _)); [done|..].
    + rewrite length_app, length_take, length_cons, length_drop, length_dents. lia.
    + rewrite length_dents. lia.
Qed.

Lemma write_dent cap k s ip m de :
  fs_tx i p pid e (cap + 5 + 2 * indz ip) (k + 1 + Z.to_nat (indz ip)) s ip -> 0 <= cap -> plain_file ip ->
  directory s ip -> 0 <= m <= ndents ip -> DIRENT * m + DIRENT <= MAXFILE * BSIZE ->
  Forall is_byte de -> length de = Z.to_nat DIRENT ->
  exists s' ip', writei e de (DIRENT * m) DIRENT s = Ret DIRENT s' /\
    fs_tx i p pid e (cap + 2 * indz ip') (k + Z.to_nat (indz ip')) s' ip' /\ frame e s ip s' ip' /\ directory s' ip' /\
    dents s' ip' = take (Z.to_nat m) (dents s ip) ++ de :: drop (S (Z.to_nat m)) (dents s ip).
Proof.
  intros Hft Hcap Hpl Hd Hm Hmax Hby Hde. destruct (ndents_range s ip Hd) as [Hn Hsz].
  destruct (writei_ok i p pid e cap k de (DIRENT * m) DIRENT s ip) as (s' & ip' & E & Hft' & Hfr & Hz & Hmp & _ & Hb);
    [by rewrite nblk_dent by lia; replace (cap + 1 + 4 * 1) with (cap + 5) by lia|done|done|unfold DIRENT in *; lia|done|done|lia|].
  rewrite take_ge in Hb by lia. exists s', ip'. split_and!; [done|done|done| |by eapply dents_place].
  assert (Hmax' : ip'.(ip_size) <= MAXFILE * BSIZE) by (pose proof (dr_size _ _ Hd) as [? _]; lia). split.
  - rewrite (gr_inode _ _ _ _ _ Hfr). apply (dr_type _ _ Hd).
  - split; [unfold DIRENT in *; lia|]. rewrite Hz, Hsz, <- Z.mul_succ_r, Z.mul_max_distr_nonneg_l by done. apply Z.divide_factor_l.
  - intros bn H0 H1 H2. rewrite Z.div_0_l in H1 by done. destruct (decide (bn * BSIZE < ip.(ip_size))) as [Hlt|Hge].
    + eapply (mapped_kept s ip s' ip' ip.(ip_size)); [done|apply (dr_size _ _ Hd)|apply (dr_mapped _ _ Hd)|unfold BSIZE in *; lia|by rewrite Z.div_0_l|lia].
    + apply Hmp; [done| |lia]. rewrite Hz in H2. unfold DIRENT, BSIZE in *.
      apply Z.lt_succ_r, Z.div_lt_upper_bound; lia.
  - intros o Ho. rewrite Hb by lia. unfold put_bytes.
    destruct (Z.leb_spec (DIRENT * m) o), (Z.ltb_spec o (DIRENT * m + Z.of_nat (length de))); cbn [andb].
    + rewrite nth_lookup. destruct (de !! _) as [x|] eqn:Ex; [|done]. by eapply Forall_lookup_1.
    + apply (dr_bytes _ _ Hd). rewrite Hde in *. unfold DIRENT in *. lia.
    + apply (dr_bytes _ _ Hd). unfold DIRENT in *. lia.
    + apply (dr_bytes _ _ Hd). unfold DIRENT in *. lia.
Qed.
End Dir.

(** directories as maps, lookup.  In a well-formed directory, dirlookup of
    a name (compared up to its NUL and to DIRSIZ characters) that the directory
    does not map returns null, with the directory as it was.  Of a name it maps
    to an inode, it returns the cache entry of this inode, or a free one set up
    for it, with one more reference, and the offset of an entry of that name and
    inode; no other cached inode changes. *)
Theorem dirlookup_finds {P : Patience} {D : BlockDriver} {CL : CacheLaws P D} {V : Devices}
    (i p e k : nat) (pid cap : Z) (name : list Z) (s : kernel) (ip : inode) :
  fs_tx i p pid e cap k s ip -> directory s ip -> 0 < ip.(ip_ref) -> Forall is_byte name ->
  match dir_map s ip (name_key name) with
  | None => exists s', dirlookup e name s = Ret None s' /\ fs_tx i p pid e cap k s' ip /\ directory s' ip /\
      dents s' ip = dents s ip
  | Some inum => forall m x, icache_slot 1 inum s = Some m -> s.(k_inodes) !! m = Some x ->
      exists j s' ip', dirlookup e name s = Ret (Some (m, DIRENT * j)) s' /\ 0 <= j < ndents ip /\
        names (name_key name) (dent s ip j) /\ de_inum (dent s ip j) = inum /\
        s'.(k_inodes) = <[m := referenced 1 inum x]> s.(k_inodes) /\
        fs_tx i p pid e cap k s' ip' /\ directory s' ip' /\ dents s' ip' = dents s ip
  end.
Proof.
  intros Hft Hd Href Hnm. destruct (dirlookup_ok i p pid e cap k ip name s Hft Hd Hnm) as (s1 & Hft1 & Hr1 & E).
  pose proof (reads_grows _ _ _ _ _ _ _ _ _ _ _ Hft Hft1 Hr1) as Hg1.
  destruct (directory_grows e s ip s1 Hd Hg1) as [Hd1 Hds1].
  unfold dir_map. destruct (dir_find _ _) as [[j inum]|] eqn:Ef; cbn [fmap option_fmap option_map snd]; [|by exists s1].
  intros m x Hm Hx.
  assert (Hi1 : s1.(k_inodes) = s.(k_inodes)).
  { rewrite (gr_inodes _ _ _ _ _ (proj1 Hg1)). by apply list_insert_id, Hft. }
  assert (Hm1 : icache_slot 1 inum s1 = Some m) by (unfold icache_slot, find_inode; rewrite Hi1; exact Hm).
  assert (Hx1 : s1.(k_inodes) !! m = Some x) by (by rewrite Hi1).
  destruct (iget_ok i p pid 1 inum m x s1 (itx_thr _ _ _ _ _ _ (ft_tx _ _ _ _ _ _ _ _ Hft1)) Hm1 Hx1) as (s2 & E2 & Ht2 & Hc2).
  destruct (fs_tx_iget i p pid e cap k s1 ip 1 inum m x s2 Hft1 Href Hm1 Hx1 Ht2 Hc2) as (Hft2 & Hds2 & Hd2).
  unfold dir_find in Ef. apply fmap_Some in Ef as ([j' de] & Hl & [= -> ->]). apply list_find_Some in Hl as (Hl & Hnames & _).
  pose proof (lookup_lt_Some _ _ _ Hl) as Hlt. rewrite length_dents in Hlt.
  assert (de = dent s ip (Z.of_nat j')) as ->.
  { apply (inj Some). rewrite <- Hl, <- dents_lookup by lia. by rewrite Nat2Z.id. }
  exists (Z.of_nat j'), s2, (with_ref e m ip).
  split_and!; [|lia|lia|done|done| |done|by apply Hd2|by rewrite Hds2].
  - rewrite E, (fk_dev _ _ (ft_file _ _ _ _ _ _ _ _ Hft)). kret_by exact E2. done.
  - rewrite <- Hi1. by destruct Hc2 as (b & cs & lks & ps & _ & ->).
Qed.

(** C12: directories as maps, insertion.  In a transaction with room for it,
    dirlink of a name that the directory does not map adds the name with the
    inode number: afterwards the directory maps every other name as before, is
    again well formed, and has grown by an entry only if all were in use.
    Blocks of other files stay as they are. *)
Theorem dirlink_adds {P : Patience} {D : BlockDriver} {CL : CacheLaws P D} {V : Devices}
    (i p e : nat) (pid inum : Z) (name : list Z) (s : kernel) (ip : inode) :
  fs_tx i p pid e (5 + 2 * indz ip) (1 + Z.to_nat (indz ip)) s ip -> plain_file ip -> directory s ip ->
  ip.(ip_size) + DIRENT <= MAXFILE * BSIZE -> Forall is_byte name -> 0 < inum < 2 ^ 16 ->
  dir_map s ip (name_key name) = None ->
  exists s' ip', dirlink e name inum s = Ret 0 s' /\ s'.(k_inodes) !! e = Some ip' /\ directory s' ip' /\
    (forall key, dir_map s' ip' key = if decide (key = name_key name) then Some inum else dir_map s ip key) /\
    (ip'.(ip_size) = ip.(ip_size) \/
     ip'.(ip_size) = ip.(ip_size) + DIRENT /\ forall j, 0 <= j < ndents ip -> de_inum (dent s ip j) <> 0) /\
    map_ok s' /\ file_ok s' ip' /\ frame e s ip s' ip'.
Proof.
  intros Hft Hpl Hd Hmax Hnm Hi Hnone. destruct (ndents_range s ip Hd) as [Hn Hsz].
  destruct (dirlookup_ok i p pid e _ _ ip name s Hft Hd Hnm) as (s1 & Hft1 & Hr1 & E1).
  pose proof (reads_grows _ _ _ _ _ _ _ _ _ _ _ Hft Hft1 Hr1) as Hg1.
  destruct (directory_grows e s ip s1 Hd Hg1) as [Hd1 Hds1].
  assert (Hf : dir_find (dents s ip) (name_key name) = None) by (unfold dir_map in Hnone; by apply fmap_None in Hnone).
  rewrite Hf in E1.
  destruct (free_dirent_ok i p pid e _ _ ip (dir_fuel ip) 0 s1 Hft1 Hd1 ltac:(lia)) as (s2 & m & Hft2 & Hr2 & E2 & Hm & Hm0 & Hused).
  { unfold dir_fuel. fold (ndents ip). lia. }
  pose proof (reads_grows _ _ _ _ _ _ _ _ _ _ _ Hft1 Hft2 Hr2) as Hg2.
  destruct (directory_grows e s1 ip s2 Hd1 Hg2) as [Hd2 Hds2].
  assert (Hde : forall q, 0 <= q < ndents ip -> dent s1 ip q = dent s ip q).
  { intros q Hq'. apply (inj Some). by rewrite <- !dents_lookup, Hds1 by lia. }
  destruct (encode_dirent_ok inum name Hi Hnm) as (D1 & D2 & D3 & D4). set (de := encode_dirent _ _) in *.
  destruct (write_dent i p pid e 0 0 s2 ip m de) as (s3 & ip3 & E3 & Hft3 & Hfr3 & Hd3 & Hds3);
    [done|done|done|done|done|unfold DIRENT in *; lia|done|done|].
  exists s3, ip3. split_and!; [|apply Hft3|done| | |apply Hft3|apply Hft3|].
  - unfold dirlink. kret_by exact E1. cbv beta iota. kret_by exact (inode_at_ok e s1 ip (ft_inode _ _ _ _ _ _ _ _ Hft1)).
    kret_by exact E2. rewrite u32_small by (unfold DIRENT in *; change (MAXFILE * BSIZE) with 71680 in *; lia).
    kret_by exact E3. done.
  - intros key. unfold dir_map. rewrite Hds3, Hds2, Hds1, dir_find_place.
    + rewrite D1. destruct (decide (key = name_key name)) as [->|Hne].
      * rewrite decide_True; [done|]. split; [rewrite D1; lia|done].
      * rewrite decide_False; [done|]. intros [_ Hk]. congruence.
    + rewrite length_dents. lia.
    + intros d Hdm. pose proof (lookup_lt_Some _ _ _ Hdm) as Hlt. rewrite length_dents in Hlt.
      rewrite dents_lookup in Hdm by lia. injection Hdm as <-. rewrite <- Hde by lia. apply Hm0. lia.
    + intros [_ Hk]. rewrite D2 in Hk. by rewrite <- Hk, Hf.
  - pose proof (length_dents s3 ip3) as Hl. rewrite Hds3, length_app, length_take, length_cons, length_drop, Hds2, Hds1, length_dents in Hl.
    destruct (ndents_range s3 ip3 Hd3) as [Hn3 Hsz3]. destruct (decide (m = ndents ip)) as [->|Hne].
    + right. split; [unfold DIRENT in *; lia|]. intros j Hj. rewrite <- Hde by lia. by apply Hused.
    + left. unfold DIRENT in *. lia.
  - eapply frame_trans; [apply Hg1|]. eapply frame_trans; [apply Hg2|done].
Qed.

(** ** A directory of a small file system *)
Definition small_dir_inode : inode := small_inode<|ip_type := T_DIR|>.
Definition blank_inode : inode := mkinode 0 0 0 0 0 0 0 0 0 (replicate 13 0).
Definition small_dir : kernel := small_fs<|k_inodes := [small_dir_inode; blank_inode]|>.

Lemma small_dir_ok : fs_tx 0 0 0 0 7 2 small_dir small_dir_inode.
Proof.
  destruct small_file_ok as [_ Hm _ Hf Hr]. split.
  - destruct (small_tx 7 ltac:(lia)) as [H1 H2 H3 H4 H5]. split; [tframe H1|by destruct H2; split|done|done|done].
  - by destruct Hm; split.
  - done.
  - by destruct Hf; split.
  - by apply (room_le 3); [lia|].
Qed.

Lemma small_dir_directory : directory small_dir small_dir_inode /\ plain_file small_dir_inode.
Proof.
  split; [|by unfold plain_file, is_s16]. split; [done|split; [done|by exists 0]|by intros bn H0|].
  intros o Ho. change (ip_size small_dir_inode) with 0 in Ho. lia.
Qed.

#[local] Instance no_waits : Patience := 0%nat.
#[local] Instance no_devices : Devices := {| dev_read _ _ _ := ret (-1, []); dev_write _ _ _ _ := ret (-1) |}.
(** The entry of a file called hi. *)
Definition small_entry : list Z := encode_dirent 7 (strncpy 14 (replicate 14 0) [104; 105; 0]).

Lemma dirlookup_finds_witness :
  exists s j s', dirlookup 0 [104; 105; 0] s = Ret (Some (1%nat, DIRENT * j)) s' /\
    s'.(k_inodes) !! 1%nat = Some (blank_inode<|ip_dev := 1|><|ip_inum := 7|><|ip_ref := 1|>).
Proof.
  destruct small_dir_directory as [Hd Hp].
  destruct (write_dent 0 0 0 0 0 0 small_dir small_dir_inode 0 small_entry)
    as (s & ip & _ & Hft & Hfr & Hds & Hl); [exact small_dir_ok|lia|done|done|done|done|by (repeat constructor)|done|].
  change (dents small_dir small_dir_inode) with ([] : list (list Z)) in Hl. cbn [take drop app Z.to_nat] in Hl.
  pose proof (gr_inodes _ _ _ _ _ Hfr) as Hi. pose proof (gr_inode _ _ _ _ _ Hfr) as Hsame.
  assert (Hslot : icache_slot 1 7 s = Some 1%nat).
  { unfold icache_slot, find_inode. rewrite Hi, Hsame. done. }
  assert (Hmap : dir_map s ip (name_key [104; 105; 0]) = Some 7) by (unfold dir_map; rewrite Hl; done).
  pose proof (dirlookup_finds 0 0 0 _ 0 _ [104; 105; 0] s ip Hft Hds) as H. rewrite Hmap in H.
  destruct (H ltac:(by rewrite Hsame) ltac:(by (repeat constructor)) 1%nat blank_inode Hslot ltac:(by rewrite Hi))
    as (j & s' & ip' & E & _ & _ & _ & Hi' & _).
  exists s, j, s'. split; [exact E|]. by rewrite Hi', Hi.
Defined.

Lemma dirlink_adds_witness :
  exists s' ip', dirlink 0 [104; 105; 0] 7 small_dir = Ret 0 s' /\ s'.(k_inodes) !! 0%nat = Some ip' /\
    dir_map s' ip' [104; 105] = Some 7 /\ dir_map s' ip' [104] = None.
Proof.
  destruct small_dir_directory as [Hd Hp].
  destruct (dirlink_adds 0 0 0 0 7 [104; 105; 0] small_dir small_dir_inode) as (s' & ip' & E & Hi & _ & Hm & _);
    [exact small_dir_ok|done|done|done|by (repeat constructor)|done|done|].
  exists s', ip'. split_and!; [exact E|exact Hi|by rewrite Hm|by rewrite Hm].
Defined.
