(* ===== verification/Namei.v ===== *)
(** * Path names (fs.c): ilock, iunlock, iput and namex

    The disk as a tree of inodes, and what a path means in it.  namex, which
    locks, reads and releases one directory after the other through the inode
    cache, finds exactly the inode the path means. *)

From S2P Require Import Prelude State Spinlock Thread CString Cprintf Kalloc Layout Vm Sched Sleeplock Disk Bio Log Tx Fs Freemap Inode Contents Dir.

(** ** The tree on the disk *)
Definition disk_inode (s : kernel) (n : Z) : dinode :=
  decode_dinode (view s (IBLOCK n s.(k_sb))) (n mod IPB * DINODE).
(** As it is in the cache when it has been read. *)
Definition inode_of (s : kernel) (n : Z) : inode := load_dinode (disk_inode s n) (mkinode 1 n 1 1 0 0 0 0 0 []).
Definition is_dir (s : kernel) (n : Z) : bool := (disk_inode s n).(di_type) =? T_DIR.

(** The inodes of [live] are allocated, have links and are well formed, and the
    directories among them have entries for live inodes only. *)
Record tree_ok (live : Z -> Prop) (s : kernel) : Prop := {
  tr_file n : live n -> file_ok s (inode_of s n) /\ (disk_inode s n).(di_type) <> 0 /\ (disk_inode s n).(di_nlink) <> 0;
  tr_dir n : live n -> is_dir s n = true -> directory s (inode_of s n);
  tr_entry n key j : live n -> is_dir s n = true -> dir_map s (inode_of s n) key = Some j -> live j
}.

(** The inode a path means, from inode [n] on: the elements [es] one after the
    other, cut to DIRSIZ characters; with [par], the directory of the last. *)
Fixpoint resolve (s : kernel) (par : bool) (n : Z) (es : list (list Z)) : option Z :=
  match es with
  | [] => if par then None else Some n
  | e :: es' =>
      if negb (is_dir s n) then None
      else if par && bool_decide (es' = []) then Some n
      else dir_map s (inode_of s n) (take (Z.to_nat DIRSIZ) e) ≫= fun j => resolve s par j es'
  end.

(** ** The inode cache *)

(** What is cached of a referenced inode is what is on the disk. *)
Definition entry_ok (s : kernel) (x : inode) : Prop :=
  0 <= x.(ip_ref) /\
  (0 < x.(ip_ref) -> x.(ip_dev) = 1 /\ (x.(ip_valid) = 0 \/ x.(ip_valid) = 1 /\ to_dinode x = disk_inode s x.(ip_inum))).
(** The process holds the lock of [held] and no inode is locked otherwise. *)
Definition locks (pid : Z) (held : option nat) (s : kernel) : Prop :=
  (forall m, held <> Some m -> (slock_of (SlInode m) s).(sl_locked) = 0) /\
  forall m, held = Some m -> slock_of (SlInode m) s = mksleeplock 1 pid.

Definition same_disk (s s' : kernel) : Prop :=
  (forall n, view s' n = view s n) /\ s'.(k_sb) = s.(k_sb) /\ s'.(k_disksize) = s.(k_disksize).

Lemma same_disk_trans s s1 s2 : same_disk s s1 -> same_disk s1 s2 -> same_disk s s2.
Proof. intros (V1 & B1 & Z1) (V2 & B2 & Z2). split_and!; [intros n; by rewrite V2|congruence..]. Qed.

Section Same.
Context (s s' : kernel).
Hypothesis Hsame : same_disk s s'.

Lemma disk_inode_same n : disk_inode s' n = disk_inode s n.
Proof. destruct Hsame as (Hv & Hsb & _). unfold disk_inode. by rewrite Hsb, Hv. Qed.
Lemma inode_of_same n : inode_of s' n = inode_of s n.
Proof. unfold inode_of. by rewrite disk_inode_same. Qed.
Lemma is_dir_same n : is_dir s' n = is_dir s n.
Proof. unfold is_dir. by rewrite disk_inode_same. Qed.
Lemma file_byte_same ip o : file_byte s' ip o = file_byte s ip o.
Proof. destruct Hsame as (Hv & _). unfold file_byte, slot, block_addr. by rewrite !Hv. Qed.
Lemma dir_map_same ip key : dir_map s' ip key = dir_map s ip key.
Proof. unfold dir_map. by rewrite (dents_same s ip s' ip) by (done || intros; apply file_byte_same). Qed.

Lemma map_same : map_ok s -> map_ok s'.
Proof. destruct Hsame as (Hv & Hsb & Hz). apply (map_ok_same s s' Hv Hsb Hz). Qed.
Lemma file_same ip : file_ok s ip -> file_ok s' ip.
Proof.
  destruct Hsame as (Hv & Hsb & Hz). destruct (map_ok_same s s' Hv Hsb Hz) as [Hfr _]. intros [F1 F2 F3 F4 F5].
  assert (Hsl : forall j, slot s' ip j = slot s ip j) by (intros j; unfold slot, block_addr; by rewrite Hv).
  split; try done.
  - intros j Hj. rewrite Hsl. unfold data_block. rewrite Hsb, Hfr. by apply F3.
  - intros j j' Hj Hj'. rewrite !Hsl. by apply F4.
  - by rewrite Hsb, Hfr.
Qed.
Lemma directory_same ip : directory s ip -> directory s' ip.
Proof.
  intros [D1 D2 D3 D4]. destruct Hsame as (Hv & _). split; try done.
  - intros bn H0 H1 H2. unfold slot, block_addr. rewrite Hv. by apply D3.
  - intros o Ho. rewrite file_byte_same. by apply D4.
Qed.
Lemma tree_same live : tree_ok live s -> tree_ok live s'.
Proof.
  intros [T1 T2 T3]. split.
  - intros n Hn. rewrite inode_of_same, disk_inode_same. destruct (T1 n Hn) as (H1 & H2 & H3). split_and!; [by apply file_same|done|done].
  - intros n Hn. rewrite is_dir_same, inode_of_same. intros Hd. by apply directory_same, T2.
  - intros n key j Hn. rewrite is_dir_same, inode_of_same, dir_map_same. by apply T3.
Qed.
Lemma entry_same x : entry_ok s x -> entry_ok s' x.
Proof. intros [H1 H2]. split; [done|]. by rewrite disk_inode_same. Qed.
End Same.

(** A valid entry is the inode of the disk, with references. *)
Lemma valid_entry s x :
  x.(ip_dev) = 1 -> x.(ip_valid) = 1 -> to_dinode x = disk_inode s x.(ip_inum) ->
  x = (inode_of s x.(ip_inum))<|ip_ref := x.(ip_ref)|>.
Proof.
  intros Hd Hv Hto. unfold inode_of. rewrite <- Hto. destruct x. cbn in *. by subst.
Qed.

Lemma valid_file s x :
  x.(ip_dev) = 1 -> x.(ip_valid) = 1 -> to_dinode x = disk_inode s x.(ip_inum) ->
  (file_ok s (inode_of s x.(ip_inum)) -> file_ok s x) /\ (directory s (inode_of s x.(ip_inum)) -> directory s x) /\
  (forall key, dir_map s x key = dir_map s (inode_of s x.(ip_inum)) key) /\ (is_dir s x.(ip_inum) = (x.(ip_type) =? T_DIR)).
Proof.
  intros Hd Hv Hto. pose proof (valid_entry s x Hd Hv Hto) as E. set (y := inode_of s (ip_inum x)) in *.
  assert (Ht : is_dir s (ip_inum x) = (ip_type x =? T_DIR)) by (unfold is_dir; by rewrite <- Hto).
  split_and!; [..|done]; rewrite E; [intros [F1 F2 F3 F4 F5]; by split|intros [D1 D2 D3 D4]; by split|done].
Qed.

(** ** Operations on the cache *)
Definition ref (s : kernel) (m : nat) : Z := from_option ip_ref 0 (s.(k_inodes) !! m).
Definition times (m : nat) (hs : list nat) : Z := Z.of_nat (length (filter (fun h => h = m) hs)).

Lemma times_cons m h hs : times m (h :: hs) = (if decide (h = m) then 1 else 0) + times m hs.
Proof. unfold times. rewrite filter_cons. case_decide; cbn [length]; lia. Qed.
Lemma times_nonneg m hs : 0 <= times m hs.
Proof. unfold times. lia. Qed.
Lemma times_elem m hs : m ∈ hs -> 0 < times m hs.
Proof.
  induction hs as [|h hs IH]; [by intros ?%elem_of_nil|]. rewrite times_cons. pose proof (times_nonneg m hs).
  intros [->|H']%elem_of_cons; [rewrite decide_True by done; lia|]. specialize (IH H'). case_decide; lia.
Qed.

(** ** Elements of a path *)
Lemma cname_c_string n : forall l, (length l <= n)%nat -> cname n l = c_string l.
Proof.
  induction n as [|n IH]; intros [|c l] Hl; cbn in *; try done; [lia|]. unfold truth. destruct (c =? 0); [done|]. cbn [negb]. rewrite IH by lia. done.
Qed.

Lemma put_bytes_ok d o bs : Forall is_byte d -> Forall is_byte bs -> Forall is_byte (put d o bs).
Proof.
  intros Hd Hb. unfold put. generalize (Z.to_nat o) as k. revert d Hd. induction Hb as [|b bs Hb _ IH]; intros d Hd k; [done|].
  cbn. by apply Forall_insert; [apply IH|].
Qed.

Lemma skip_slashes_bytes path : Forall is_byte path -> Forall is_byte (skip_slashes path).
Proof. induction 1 as [|c l Hc Hl IH]; cbn; [constructor|]. destruct (c =? slash); [done|by constructor]. Qed.
Lemma split_elem_bytes path : Forall is_byte path -> Forall is_byte (split_elem path).1 /\ Forall is_byte (split_elem path).2.
Proof.
  induction 1 as [|c l Hc Hl [IH1 IH2]]; cbn; [by split|]. destruct (_ || _); [by split; [|constructor]|].
  destruct (split_elem l). cbn in *. split; [by constructor|done].
Qed.

(** skipelem, with the bytes it returns. *)
Lemma skipelem_names path name :
  length name = Z.to_nat DIRSIZ -> Forall is_byte path -> Forall is_byte name ->
  match skipelem path name with
  | None => elements path = []
  | Some (rest, name') => exists e, elements path = e :: elements rest /\
      (deref rest = 0 <-> elements rest = []) /\ (length rest < length path)%nat /\
      length name' = Z.to_nat DIRSIZ /\ Forall is_byte rest /\ Forall is_byte name' /\
      name_key name' = take (Z.to_nat DIRSIZ) e /\ c_string name' = take (Z.to_nat DIRSIZ) e
  end.
Proof.
  intros Hlen Hp Hn.
  assert (Hb : forall r n', skipelem path name = Some (r, n') -> Forall is_byte r /\ Forall is_byte n').
  { intros r n'. unfold skipelem. destruct (split_elem_bytes (skip_slashes path) (skip_slashes_bytes _ Hp)) as [H1 H2].
    destruct (_ =? 0); [done|]. destruct (split_elem (skip_slashes path)) as [e q]. cbn in H1, H2. intros [= <- <-].
    split; [by apply skip_slashes_bytes|]. destruct (DIRSIZ <=? _); repeat apply put_bytes_ok; try done; [by apply Forall_take|by repeat constructor]. }
  pose proof (skipelem_elements path name Hlen) as H. destruct (skipelem path name) as [[r n']|]; [|done]. destruct (Hb r n' eq_refl) as [Hb1 Hb2]. destruct H as (e & H1 & H2 & H3 & H4 & H5).
  exists e. split_and!; try done; try apply H2. unfold name_key. rewrite cname_c_string; [done|]. by rewrite H4.
Qed.

Section Names.
Context {P : Patience} {D : BlockDriver} {CL : CacheLaws P D} {V : Devices}.
Context (i p : nat) (pid cap : Z) (live : Z -> Prop).

(** Between two operations on inodes. *)
Record fs_idle (held : option nat) (s : kernel) : Prop := {
  fi_tx : in_tx i p pid ∅ cap s;
  fi_map : map_ok s;
  fi_tree : tree_ok live s;
  fi_entry m x : s.(k_inodes) !! m = Some x -> entry_ok s x;
  fi_uniq m m' x x' : s.(k_inodes) !! m = Some x -> s.(k_inodes) !! m' = Some x' -> 0 < x.(ip_ref) -> 0 < x'.(ip_ref) ->
    x.(ip_inum) = x'.(ip_inum) -> m = m';
  fi_locks : locks pid held s
}.

(** Since [s0], nothing on the disk has changed, the process has got references
    to the entries [hs], and every inode that was referenced is where it was. *)
Record since (s0 : kernel) (hs : list nat) (s : kernel) : Prop := {
  sn_disk : same_disk s0 s;
  sn_len : length s.(k_inodes) = length s0.(k_inodes);
  sn_ref m : ref s m = ref s0 m + times m hs /\ 0 <= ref s0 m;
  sn_inum m x0 : s0.(k_inodes) !! m = Some x0 -> 0 < x0.(ip_ref) ->
    exists x, s.(k_inodes) !! m = Some x /\ x.(ip_inum) = x0.(ip_inum)
}.

Lemma since_refl held s : fs_idle held s -> since s [] s.
Proof.
  intros Hid. split; [by split_and!|done| |by eauto]. intros m. unfold times, ref. cbn [filter length Z.of_nat]. split; [by rewrite Z.add_0_r|].
  destruct (k_inodes s !! m) as [x|] eqn:E; [|done]. apply (fi_entry _ _ Hid m x E).
Qed.

Lemma since_held s0 hs s m x : since s0 (m :: hs) s -> s.(k_inodes) !! m = Some x -> 0 < x.(ip_ref).
Proof.
  intros Hsn Hx. destruct (sn_ref _ _ _ Hsn m) as [Hrm H0]. unfold ref at 1 in Hrm. rewrite Hx, times_cons, decide_True in Hrm by done.
  cbn in Hrm. pose proof (times_nonneg m hs). lia.
Qed.

(** One entry has changed. *)
Lemma idle_update held held' s s' m x x' :
  fs_idle held s -> in_tx i p pid ∅ cap s' -> same_disk s s' ->
  s.(k_inodes) !! m = Some x -> s'.(k_inodes) = <[m := x']> s.(k_inodes) -> entry_ok s x' ->
  (0 < x'.(ip_ref) -> 0 < x.(ip_ref) /\ x'.(ip_inum) = x.(ip_inum) \/
     forall j y, s.(k_inodes) !! j = Some y -> 0 < y.(ip_ref) -> y.(ip_inum) <> x'.(ip_inum)) ->
  locks pid held' s' -> fs_idle held' s'.
Proof.
  intros [_ Hm Ht He Hu _] Htx Hd Hx Hi Hok Hnew Hl. pose proof (lookup_lt_Some _ _ _ Hx) as Hlt. split; try done.
  - by apply (map_same s).
  - by apply (tree_same s).
  - intros j y Hy. apply (entry_same s); [done|]. rewrite Hi in Hy.
    apply list_lookup_insert_Some in Hy as [(_ & <- & _)|(_ & Hy)]; [done|by apply (He j)].
  - assert (Hone : forall j y, <[m := x']> (k_inodes s) !! j = Some y -> 0 < ip_ref y -> 0 < ip_ref x' -> ip_inum y = ip_inum x' -> j = m).
    { intros j y [(-> & _)|(Hne & Hy)]%list_lookup_insert_Some H1 H2 H3; [done|].
      destruct (Hnew H2) as [[H4 H5]|Hno]; [by eapply (Hu j m y x); congruence|by destruct (Hno j y)]. }
    rewrite Hi. intros j j' y y' Hy Hy' Hr Hr' E.
    destruct (decide (j = m)) as [->|Hj]; [|destruct (decide (j' = m)) as [->|Hj']].
    + rewrite list_lookup_insert_eq in Hy by done. injection Hy as <-. symmetry. by apply (Hone j' y').
    + rewrite list_lookup_insert_eq in Hy' by done. injection Hy' as <-. by apply (Hone j y).
    + rewrite list_lookup_insert_ne in Hy, Hy' by done. by apply (Hu j j' y y').
Qed.

Lemma since_update s0 hs hs' s s' m x x' :
  since s0 hs s -> same_disk s s' -> s.(k_inodes) !! m = Some x -> s'.(k_inodes) = <[m := x']> s.(k_inodes) ->
  (forall j, times j hs' = times j hs + if decide (j = m) then x'.(ip_ref) - x.(ip_ref) else 0) ->
  (0 < ref s0 m -> x'.(ip_inum) = x.(ip_inum)) -> since s0 hs' s'.
Proof.
  intros [Hd Hl Hr Hn] Hd' Hx Hi Ht Hid. pose proof (lookup_lt_Some _ _ _ Hx) as Hlt. split.
  - by eapply same_disk_trans.
  - by rewrite Hi, length_insert.
  - intros j. unfold ref in *. rewrite Hi, Ht. destruct (Hr j) as [Hrj Hr0]. split; [|done]. case_decide as Hj; [subst j|rewrite list_lookup_insert_ne by done; lia].
    rewrite list_lookup_insert_eq by done. rewrite Hx in Hrj. cbn in *. lia.
  - intros j y Hy Hry. destruct (Hn j y Hy Hry) as (z & Hz & Ez). rewrite Hi.
    destruct (decide (j = m)) as [->|Hj]; [|exists z; by rewrite list_lookup_insert_ne].
    exists x'. rewrite list_lookup_insert_eq by done. split; [done|]. rewrite Hid; [congruence|]. unfold ref. by rewrite Hy.
Qed.

(** Steps that touch neither blocks nor buffers. *)
Lemma in_tx_calm s t s' :
  in_tx i p pid ∅ cap s -> calm t s' -> thr i p pid ∅ s' ->
  t.(k_bufs) = s.(k_bufs) -> t.(k_lru) = s.(k_lru) -> t.(k_disk) = s.(k_disk) -> t.(k_disksize) = s.(k_disksize) ->
  t.(k_log) = s.(k_log) -> t.(k_sb) = s.(k_sb) -> (forall b, slock_of (SlBuf b) t = slock_of (SlBuf b) s) ->
  in_tx i p pid ∅ cap s' /\ same_disk s s' /\ s'.(k_inodes) = t.(k_inodes) /\ forall l, slock_of l s' = slock_of l t.
Proof.
  intros [_ H2 H3 H4 H5] Hc Ht E1 E2 E3 E4 E5 E6 E7.
  assert (F : k_bufs s' = k_bufs s /\ k_lru s' = k_lru s /\ k_disk s' = k_disk s /\ k_disksize s' = k_disksize s /\
    k_log s' = k_log s /\ k_sb s' = k_sb s /\ k_inodes s' = k_inodes t).
  { destruct Hc as (b & cs & lks & ps & _ & ->). by split_and!. }
  destruct F as (F1 & F2 & F3 & F4 & F5 & F6 & F7). pose proof (slock_of_calm) as Hsl.
  assert (Hv : forall n, view s' n = view s n) by (intros n; unfold view; by rewrite F1, F3).
  split_and!; [|by split_and!|done|intros l; by apply slock_of_calm].
  split; [done| |by rewrite F5| |intros n; by rewrite Hv].
  - destruct H2 as [B1 B2 B3 B4 B5 B6]. split; rewrite ?F1, ?F2, ?F3, ?F4; try done.
    intros b x Hx Hb. rewrite (slock_of_calm _ _ _ Hc), E7. by apply B5.
  - intros n. rewrite F5, <- H4. unfold dirty_at. by rewrite F1.
Qed.

(** A referenced inode stays where it is. *)
Definition keeps (s s' : kernel) : Prop :=
  forall m x, s.(k_inodes) !! m = Some x -> 0 < x.(ip_ref) ->
    exists x', s'.(k_inodes) !! m = Some x' /\ x'.(ip_inum) = x.(ip_inum) /\ 0 < x'.(ip_ref).

Lemma keeps_update s s' m x x' :
  s.(k_inodes) !! m = Some x -> s'.(k_inodes) = <[m := x']> s.(k_inodes) ->
  (0 < x.(ip_ref) -> x'.(ip_inum) = x.(ip_inum) /\ 0 < x'.(ip_ref)) -> keeps s s'.
Proof.
  intros Hx Hi Hk j y Hy Hr. rewrite Hi. destruct (decide (j = m)) as [->|Hj]; [|exists y; by rewrite list_lookup_insert_ne].
  rewrite list_lookup_insert_eq by (by eapply lookup_lt_Some). exists x'. assert (y = x) as -> by congruence.
  destruct (Hk Hr). done.
Qed.

Lemma keeps_trans s s1 s2 : keeps s s1 -> keeps s1 s2 -> keeps s s2.
Proof.
  intros K1 K2 m x Hx Hr. destruct (K1 m x Hx Hr) as (y & Hy & E & Hr'). destruct (K2 m y Hy Hr') as (z & Hz & E' & Hr'').
  exists z. split_and!; [done|congruence|done].
Qed.

(** Two entries of the cache are not in use. *)
Definition two_free (s : kernel) : Prop :=
  exists a b x y, a <> b /\ s.(k_inodes) !! a = Some x /\ s.(k_inodes) !! b = Some y /\ x.(ip_ref) = 0 /\ y.(ip_ref) = 0.

Lemma free_entry s0 hs s :
  since s0 hs s -> two_free s0 -> (length hs <= 1)%nat -> exists m x, s.(k_inodes) !! m = Some x /\ x.(ip_ref) = 0.
Proof.
  intros [_ Hl Hr _] (a & b & x & y & Hab & Ha & Hb & Hx & Hy) Hlen.
  assert (Hj : exists j z, s0.(k_inodes) !! j = Some z /\ z.(ip_ref) = 0 /\ times j hs = 0).
  { destruct hs as [|h [|]]; [by exists a, x| |cbn in Hlen; lia].
    destruct (decide (h = a)) as [->|Hne]; [exists b, y|exists a, x]; (split_and!; [done|done|]);
      rewrite times_cons, decide_False by done; done. }
  destruct Hj as (j & z & Hj & Hz & Ht). destruct (lookup_lt_is_Some_2 (k_inodes s) j) as [w Hw].
  { rewrite Hl. by eapply lookup_lt_Some. }
  exists j, w. split; [done|]. destruct (Hr j) as [Hrj _]. unfold ref in Hrj. rewrite Hw, Hj, Ht in Hrj. cbn in Hrj. lia.
Qed.

(** The slot iget takes. *)
Lemma slot_for held s0 hs s n :
  fs_idle held s -> since s0 hs s -> two_free s0 -> (length hs <= 1)%nat ->
  exists m x, icache_slot 1 n s = Some m /\ s.(k_inodes) !! m = Some x /\
    (is_inode 1 n x = true /\ 0 < x.(ip_ref) /\ x.(ip_inum) = n \/
     is_inode 1 n x = false /\ x.(ip_ref) = 0 /\ forall j y, s.(k_inodes) !! j = Some y -> 0 < y.(ip_ref) -> y.(ip_inum) <> n).
Proof.
  intros Hid Hsn H2 Hlen. unfold icache_slot. destruct (find_inode (is_inode 1 n) s) as [m|] eqn:E.
  - destruct (find_inode_Some _ _ _ E) as (x & Hx & Hb). exists m, x. split_and!; [done|done|]. left.
    pose proof Hb as Hb'. unfold is_inode in Hb'. split_and!; [done|lia|lia].
  - destruct (find_inode unreferenced s) as [m|] eqn:Eu.
    + destruct (find_inode_Some _ _ _ Eu) as (x & Hx & Hb). exists m, x. split_and!; [done|done|]. right. split_and!.
      * by eapply find_inode_None.
      * unfold unreferenced in Hb. lia.
      * intros j y Hy Hr Hn. pose proof (find_inode_None _ _ _ _ E Hy) as Hf. destruct (fi_entry _ _ Hid j y Hy) as [_ He].
        destruct (He Hr) as [Hdev _]. unfold is_inode in Hf. lia.
    + destruct (free_entry s0 hs s Hsn H2 Hlen) as (m & x & Hx & Hr). pose proof (find_inode_None _ _ _ _ Eu Hx) as Hf.
      unfold unreferenced in Hf. lia.
Qed.

Lemma locks_same held s s' : (forall m, slock_of (SlInode m) s' = slock_of (SlInode m) s) -> locks pid held s -> locks pid held s'.
Proof. intros Hs [L1 L2]. split; intros m Hm; rewrite Hs; [by apply L1|by apply L2]. Qed.

Lemma iget_names held s0 hs s n :
  fs_idle held s -> since s0 hs s -> two_free s0 -> (length hs <= 1)%nat ->
  exists m s' x, iget 1 n s = Ret m s' /\ fs_idle held s' /\ since s0 (m :: hs) s' /\ keeps s s' /\
    s'.(k_inodes) !! m = Some x /\ x.(ip_inum) = n.
Proof.
  intros Hid Hsn H2 Hlen. destruct (slot_for held s0 hs s n Hid Hsn H2 Hlen) as (m & x & Hsl & Hx & Hcase).
  destruct (iget_ok i p pid 1 n m x s (itx_thr _ _ _ _ _ _ (fi_tx _ _ Hid)) Hsl Hx) as (s' & E & Ht & Hc).
  set (x' := referenced 1 n x) in *.
  destruct (in_tx_calm s _ s' (fi_tx _ _ Hid) Hc Ht) as (Htx & Hd & Hi & Hsk); [done..|]. cbn in Hi.
  assert (Hx' : ip_inum x' = n /\ ip_ref x' = ip_ref x + 1 /\ 0 <= ip_ref x).
  { unfold x', referenced. destruct Hcase as [(-> & ? & ?)|(-> & Hr & _)]; cbn; [|rewrite Hr]; lia. }
  destruct Hx' as (Hn & Hr & Hr0). exists m, s', x'. split_and!; [done| | | | |done].
  - apply (idle_update held held s s' m x x'); try done.
    + split; [lia|]. intros _. unfold x', referenced. destruct Hcase as [(-> & Hpos & _)|(-> & _)]; [|split; [done|by left]].
      destruct (fi_entry _ _ Hid m x Hx) as [_ He]. by apply He.
    + intros _. destruct Hcase as [(_ & ? & ?)|(_ & _ & Hno)]; [left; split; [done|congruence]|right; by rewrite Hn].
    + apply (locks_same held s); [|apply Hid]. intros j. by rewrite Hsk.
  - apply (since_update s0 hs _ s s' m x x'); try done.
    + intros j. rewrite times_cons, Hr. destruct (decide (m = j)), (decide (j = m)); [lia|congruence|congruence|lia].
    + intros Hpos. destruct Hcase as [(_ & _ & ?)|(_ & Hz & _)]; [congruence|]. destruct (sn_ref _ _ _ Hsn m) as [Hrm _].
      pose proof (times_nonneg m hs). unfold ref at 1 in Hrm. rewrite Hx in Hrm. cbn in Hrm. lia.
  - apply (keeps_update s s' m x x'); [done|done|]. intros Hpos. destruct Hcase as [(_ & _ & ?)|(_ & ? & _)]; [split; [congruence|lia]|lia].
  - rewrite Hi. by apply list_lookup_insert_eq; eapply lookup_lt_Some.
Qed.

(** The block of an inode is read into its entry. *)
Lemma load_block s m f bn :
  in_tx i p pid ∅ cap s -> bn < s.(k_disksize) ->
  exists b s1 s2, bread 1 bn s = Ret b s1 /\ buf_data b s1 = Ret (view s bn) s1 /\
    brelse b (upd_inode m f s1) = Ret tt s2 /\ in_tx i p pid ∅ cap s2 /\ same_disk s s2 /\ k_sb s1 = k_sb s /\
    k_inodes s1 = k_inodes s /\ k_inodes s2 = alter f m (k_inodes s) /\ forall j, slock_of (SlInode j) s2 = slock_of (SlInode j) s.
Proof.
  intros Htx Hbn. pose proof (tl_n _ _ (itx_log _ _ _ _ _ _ Htx)) as (_ & Hcap & _).
  destruct (tx_bread i p pid ∅ cap s bn Htx (can_read_empty cap bn s Hcap Hbn))
    as (b & s1 & E1 & Hdata & Ht1 & _ & Hbc1 & Hh1 & _ & [Hv1 Hd1] & Hs1).
  pose proof (cache_step_fields _ _ Hs1) as (Hk1 & Hz1 & _ & HL1).
  destruct (tx_step_fields _ _ (cache_step_tx _ _ Hs1)) as (Hi1 & Hsb1 & _).
  set (s1' := upd_inode m f s1).
  destruct (brelse_law i p pid ({[b]} ∪ ∅) s1' b bn (view s bn)) as (s2 & E2 & Ht2 & Hbc2 & _ & [Hv2 Hd2] & Hs2).
  { tframe Ht1. }
  { by destruct Hbc1; split. }
  { set_solver. }
  { exact Hh1. }
  { change (dirty_at s1 bn \/ view s bn = k_disk s1 bn). rewrite Hd1, Hk1.
    by apply (clean_unless_dirty pid ∅ s bn); [apply Htx|intros ??]. }
  pose proof (cache_step_fields _ _ Hs2) as (_ & Hz2 & _ & HL2).
  destruct (tx_step_fields _ _ (cache_step_tx _ _ Hs2)) as (Hi2 & Hsb2 & _).
  assert (Hv : forall n, view s2 n = view s n) by (intros n; rewrite Hv2; by rewrite <- Hv1).
  exists b, s1, s2. split_and!; try done.
  - destruct Htx as [_ _ H3 H4 H5]. rewrite release_hold in Hbc2 by set_solver.
    split; [done|done|by rewrite HL2; change (k_log s1') with (k_log s1); rewrite HL1| |intros n; by rewrite Hv].
    intros n. rewrite Hd2, HL2. change (dirty_at s1 n <-> n ∈ logged (k_log s1)). by rewrite Hd1, HL1.
  - split_and!; [done|by rewrite Hsb2|by rewrite Hz2].
  - rewrite Hi2. change (alter f m (k_inodes s1) = alter f m (k_inodes s)). by rewrite Hi1.
  - intros j. destruct Hs1 as [_ L1], Hs2 as [_ L2]. rewrite L2 by done. change (slock_of (SlInode j) s1 = slock_of (SlInode j) s). by apply L1.
Qed.

(** What the entry of a locked inode holds. *)
Definition locked_entry (s : kernel) (x : inode) : Prop :=
  0 < x.(ip_ref) /\ x.(ip_dev) = 1 /\ x.(ip_valid) = 1 /\ to_dinode x = disk_inode s x.(ip_inum).

Lemma slock_inode_ne m k s b : slock_of (SlBuf b) (s<|k_slocks ::= <[SlInode m := k]>|>) = slock_of (SlBuf b) s.
Proof. unfold slock_of. cbn. by rewrite lookup_insert_ne. Qed.
Lemma slock_inode m k s j :
  slock_of (SlInode j) (s<|k_slocks ::= <[SlInode m := k]>|>) = if decide (j = m) then k else slock_of (SlInode j) s.
Proof. case_decide as E; [subst; apply slock_of_set|]. unfold slock_of. cbn. rewrite lookup_insert_ne; [done|]. intros [=]. by subst. Qed.

Lemma locks_take m s s' :
  locks pid None s -> (forall j, slock_of (SlInode j) s' = if decide (j = m) then mksleeplock 1 pid else slock_of (SlInode j) s) ->
  locks pid (Some m) s'.
Proof. intros [L _] Hs. split; intros j Hj; rewrite Hs; case_decide; [congruence|by apply L|done|congruence]. Qed.
Lemma locks_drop m s s' :
  locks pid (Some m) s -> (forall j, slock_of (SlInode j) s' = if decide (j = m) then mksleeplock 0 0 else slock_of (SlInode j) s) ->
  locks pid None s'.
Proof. intros [L _] Hs. split; intros j Hj; [|done]. rewrite Hs. case_decide; [done|]. apply L. congruence. Qed.

(** An entry that was only locked or unlocked. *)
Lemma names_lock held held' s0 hs s s' m x :
  fs_idle held s -> since s0 hs s -> s.(k_inodes) !! m = Some x -> in_tx i p pid ∅ cap s' -> same_disk s s' ->
  s'.(k_inodes) = s.(k_inodes) -> locks pid held' s' -> fs_idle held' s' /\ since s0 hs s' /\ keeps s s'.
Proof.
  intros Hid Hsn Hx Htx Hd Hi Hl. assert (Hi' : k_inodes s' = <[m := x]> (k_inodes s)) by (by rewrite list_insert_id).
  split_and!.
  - apply (idle_update held held' s s' m x x); try done; [by apply (fi_entry _ _ Hid m)|by auto].
  - apply (since_update s0 hs hs s s' m x x); try done. intros j. case_decide; lia.
  - apply (keeps_update s s' m x x); auto.
Qed.

(** The inode is read when it has not been. *)
Lemma ilock_load s0 hs s m x :
  fs_idle (Some m) s -> since s0 hs s -> s.(k_inodes) !! m = Some x -> 0 < x.(ip_ref) -> live x.(ip_inum) ->
  exists s' x', (let! s := get in
     let! bp := bread x.(ip_dev) (IBLOCK x.(ip_inum) s.(k_sb)) in
     let! d := buf_data bp in
     set_inode m (load_dinode (decode_dinode d (x.(ip_inum) mod IPB * DINODE))) ;;;
     brelse bp ;;;
     set_inode m (fun ip => ip<|ip_valid := 1|>) ;;;
     let! ip := inode_at m in
     if! ip.(ip_type) =? 0 then! panic "ilock: no type")%xv6 s = Ret tt s' /\
    fs_idle (Some m) s' /\ since s0 hs s' /\ keeps s s' /\
    s'.(k_inodes) !! m = Some x' /\ x'.(ip_inum) = x.(ip_inum) /\ locked_entry s' x'.
Proof.
  intros Hid Hsn Hx Hr Hlv. destruct (fi_entry _ _ Hid m x Hx) as [_ He]. destruct (He Hr) as [Hdev _].
  destruct (tr_file _ _ (fi_tree _ _ Hid) _ Hlv) as (Hfile & Hty & _). set (bn := IBLOCK (ip_inum x) (k_sb s)).
  assert (Hbn : bn < k_disksize s).
  { destruct (fk_iblock _ _ Hfile) as ([_ Hb] & _), (mo_size _ (fi_map _ _ Hid)). unfold bn. cbn in Hb. lia. }
  set (f := load_dinode (decode_dinode (view s bn) (ip_inum x mod IPB * DINODE))).
  destruct (load_block s m f bn (fi_tx _ _ Hid) Hbn) as (b & s2 & s3 & E2 & E2' & E3 & Htx3 & Hd3 & _ & _ & Hi3 & Hk3).
  set (s4 := upd_inode m (fun ip => ip<|ip_valid := 1|>) s3). set (x' := (f x)<|ip_valid := 1|>).
  pose proof (lookup_lt_Some _ _ _ Hx) as Hlt.
  assert (Hi4 : k_inodes s4 = <[m := x']> (k_inodes s)).
  { change (alter (fun ip => ip<|ip_valid := 1|>) m (k_inodes s3) = <[m := x']> (k_inodes s)).
    rewrite Hi3, (alter_insert f m (k_inodes s) x Hx).
    rewrite (alter_insert _ m _ (f x)) by (by apply list_lookup_insert_eq). by rewrite list_insert_insert_eq. }
  assert (Hto : to_dinode x' = disk_inode s (ip_inum x')).
  { unfold disk_inode. change (ip_inum x') with (ip_inum x). fold bn. unfold x', f. by destruct (decode_dinode _ _). }
  assert (Hx4 : k_inodes s4 !! m = Some x') by (rewrite Hi4; by apply list_lookup_insert_eq).
  assert (Hd4 : same_disk s s4) by exact Hd3.
  exists s4, x'. split_and!; [| | |by apply (keeps_update s s4 m x x')|done|done|].
  - kret. rewrite Hdev. fold bn. kret_by exact E2. kret_by exact E2'. kret. fold f. kret_by exact E3. kret.
    kret_by exact (inode_at_ok m s4 x' Hx4). rewrite (proj2 (Z.eqb_neq (ip_type x') 0)); [done|].
    change (di_type (to_dinode x') <> 0). by rewrite Hto.
  - apply (idle_update (Some m) (Some m) s s4 m x x'); try done; [by apply in_tx_inode|split; [cbn; lia|by auto]|by auto|].
    apply (locks_same _ s); [|apply Hid]. exact Hk3.
  - apply (since_update s0 hs hs s s4 m x x'); try done. intros j. change (ip_ref x') with (ip_ref x). case_decide; lia.
  - split_and!; [done..|]. by rewrite (disk_inode_same s s4).
Qed.

Lemma ilock_names s0 hs s m x :
  fs_idle None s -> since s0 hs s -> s.(k_inodes) !! m = Some x -> 0 < x.(ip_ref) -> live x.(ip_inum) ->
  exists s' x', ilock (Some m) s = Ret tt s' /\ fs_idle (Some m) s' /\ since s0 hs s' /\ keeps s s' /\
    s'.(k_inodes) !! m = Some x' /\ x'.(ip_inum) = x.(ip_inum) /\ locked_entry s' x'.
Proof.
  intros Hid Hsn Hx Hr Hlv. destruct (fi_entry _ _ Hid m x Hx) as [_ He]. destruct (He Hr) as [Hdev Hval].
  destruct (acquiresleep_ex i p pid ∅ (SlInode m) s (itx_thr _ _ _ _ _ _ (fi_tx _ _ Hid)) (not_elem_of_empty _)) as (s1 & E1 & Hc1 & Ht1).
  { by apply (fi_locks _ _ Hid). }
  destruct (in_tx_calm s _ s1 (fi_tx _ _ Hid) Hc1 Ht1) as (Htx1 & Hd1 & Hi1 & Hk1); [done..|apply slock_inode_ne|]. cbn in Hi1.
  assert (Hl1 : locks pid (Some m) s1).
  { apply (locks_take m s); [apply Hid|]. intros j. by rewrite Hk1, slock_inode. }
  destruct (names_lock None (Some m) s0 hs s s1 m x) as (Hid1 & Hsn1 & Hkp1); try done.
  assert (Hx1 : k_inodes s1 !! m = Some x) by (by rewrite Hi1).
  destruct Hval as [Hv0|[Hv1 Hto]].
  - destruct (ilock_load s0 hs s1 m x) as (s' & x' & E & Hid' & Hsn' & Hkp' & Hx' & Hn & Hle); try done.
    exists s', x'. split_and!; try done; [|by eapply keeps_trans].
    unfold ilock. kret_by exact (inode_at_ok m s x Hx). replace (ip_ref x <? 1) with false by lia. kret_by exact E1.
    kret_by exact (inode_at_ok m s1 x Hx1). rewrite Hv0. exact E.
  - exists s1, x. split_and!; try done; [|split_and!; [done..|by rewrite (disk_inode_same s s1)]].
    unfold ilock. kret_by exact (inode_at_ok m s x Hx). replace (ip_ref x <? 1) with false by lia. kret_by exact E1.
    kret_by exact (inode_at_ok m s1 x Hx1). by rewrite Hv1.
Qed.

Lemma iunlock_names s0 hs s m x :
  fs_idle (Some m) s -> since s0 hs s -> s.(k_inodes) !! m = Some x -> 0 < x.(ip_ref) ->
  exists s', iunlock (Some m) s = Ret tt s' /\ fs_idle None s' /\ since s0 hs s' /\ s'.(k_inodes) = s.(k_inodes).
Proof.
  intros Hid Hsn Hx Hr. destruct (fi_locks _ _ Hid) as [Hl Hh]. specialize (Hh m eq_refl).
  destruct (holdingsleep_ex i p pid ∅ (SlInode m) s (itx_thr _ _ _ _ _ _ (fi_tx _ _ Hid)) (not_elem_of_empty _)) as (s1 & E1 & Hc1 & Ht1).
  rewrite Hh in E1. cbn in E1. rewrite Z.eqb_refl in E1.
  destruct (releasesleep_ex i p pid ∅ (SlInode m) s1 Ht1 (not_elem_of_empty _) (not_elem_of_empty _)) as (s2 & E2 & Hc2 & Ht2).
  destruct (in_tx_calm s s s1 (fi_tx _ _ Hid) Hc1 Ht1) as (Htx1 & Hd1 & Hi1 & Hk1); [done..|].
  destruct (in_tx_calm s1 _ s2 Htx1 Hc2 Ht2) as (Htx2 & Hd2 & Hi2 & Hk2); [done..|apply slock_inode_ne|]. cbn in Hi2. rewrite Hi1 in Hi2.
  exists s2. destruct (names_lock (Some m) None s0 hs s s2 m x) as (Hid2 & Hsn2 & _); try done.
  - by eapply same_disk_trans.
  - apply (locks_drop m s); [apply Hid|]. intros j. by rewrite Hk2, slock_inode, Hk1.
  - split_and!; try done. unfold iunlock. kret_by exact E1. kret_by exact (inode_at_ok m s1 x ltac:(by rewrite Hi1)).
    replace (ip_ref x <? 1) with false by lia. exact E2.
Qed.

(** A change under icache.lock. *)
Lemma locked_update s m f :
  in_tx i p pid ∅ cap s ->
  exists s', (acquire LkIcache ;;; set_inode m f ;;; release LkIcache)%xv6 s = Ret tt s' /\
    (acquire LkIcache ;;; set_inode m f ;;; release LkIcache ;;; ret m)%xv6 s = Ret m s' /\ in_tx i p pid ∅ cap s' /\
    same_disk s s' /\ s'.(k_inodes) = alter f m s.(k_inodes) /\ forall l, slock_of l s' = slock_of l s.
Proof.
  intros Htx. destruct (acquire_thr i p pid ∅ LkIcache s (itx_thr _ _ _ _ _ _ Htx) (not_elem_of_empty _)) as (s1 & E1 & Hc1 & Ht1).
  set (s2 := upd_inode m f s1). assert (Ht2 : thr i p pid ({[LkIcache]} ∪ ∅) s2) by tframe Ht1.
  destruct (release_thr i p pid ∅ LkIcache s2 Ht2 (not_elem_of_empty _)) as (s3 & E3 & Hc3 & Ht3).
  assert (Hc : calm (upd_inode m f s) s3).
  { unfold s2, upd_inode in Hc3. unfold upd_inode. calm_by Hc1 Hc3. }
  destruct (in_tx_calm s _ s3 Htx Hc Ht3) as (Htx3 & Hd3 & Hi3 & Hk3); [done..|].
  exists s3. split_and!; try done; kret_by exact E1; kret; [exact E3|by kret_by exact E3].
Qed.

(** A reference to an inode with links is dropped. *)
Lemma iput_names s0 hs s m x :
  fs_idle None s -> since s0 (m :: hs) s -> s.(k_inodes) !! m = Some x -> live x.(ip_inum) ->
  exists s' x', iput m s = Ret tt s' /\ fs_idle None s' /\ since s0 hs s' /\ s'.(k_inodes) = <[m := x']> s.(k_inodes) /\
    x'.(ip_inum) = x.(ip_inum) /\ x'.(ip_ref) = x.(ip_ref) - 1.
Proof.
  intros Hid Hsn Hx Hlv. pose proof (since_held s0 hs s m x Hsn Hx) as Hr.
  destruct (fi_entry _ _ Hid m x Hx) as [_ He]. destruct (He Hr) as [Hdev Hval].
  destruct (acquiresleep_ex i p pid ∅ (SlInode m) s (itx_thr _ _ _ _ _ _ (fi_tx _ _ Hid)) (not_elem_of_empty _)) as (s1 & E1 & Hc1 & Ht1).
  { by apply (fi_locks _ _ Hid). }
  destruct (in_tx_calm s _ s1 (fi_tx _ _ Hid) Hc1 Ht1) as (Htx1 & Hd1 & Hi1 & Hk1); [done..|apply slock_inode_ne|]. cbn in Hi1.
  destruct (releasesleep_ex i p pid ∅ (SlInode m) s1 Ht1 (not_elem_of_empty _) (not_elem_of_empty _)) as (s2 & E2 & Hc2 & Ht2).
  destruct (in_tx_calm s1 _ s2 Htx1 Hc2 Ht2) as (Htx2 & Hd2 & Hi2 & Hk2); [done..|apply slock_inode_ne|]. cbn in Hi2. rewrite Hi1 in Hi2.
  destruct (locked_update s2 m (fun ip => ip<|ip_ref := ip.(ip_ref) - 1|>) Htx2) as (s3 & E3 & _ & Htx3 & Hd3 & Hi3 & Hk3).
  set (x' := x<|ip_ref := ip_ref x - 1|>). rewrite Hi2, (alter_insert _ m _ x Hx) in Hi3.
  assert (Hd : same_disk s s3) by (eapply same_disk_trans; [done|by eapply same_disk_trans]).
  exists s3, x'. split_and!; try done.
  - unfold iput. kret_by exact E1. kret_by exact (inode_at_ok m s1 x ltac:(by rewrite Hi1)).
    assert (truth (ip_valid x) && (ip_nlink x =? 0) = false) as ->; [|kret; kret_by exact E2; exact E3].
    destruct Hval as [->|[-> Hto]]; [done|]. destruct (tr_file _ _ (fi_tree _ _ Hid) _ Hlv) as (_ & _ & Hnl).
    apply Z.eqb_neq. change (di_nlink (to_dinode x) <> 0). by rewrite Hto.
  - apply (idle_update None None s s3 m x x'); try done; [split; [cbn; lia|intros _; exact (He Hr)]|by auto|].
    split; [|done]. intros j _. rewrite Hk3, Hk2, slock_inode. case_decide; [done|]. rewrite Hk1, slock_inode, decide_False by done.
    by apply (fi_locks _ _ Hid).
  - apply (since_update s0 (m :: hs) hs s s3 m x x'); try done. intros j. rewrite times_cons. change (ip_ref x') with (ip_ref x - 1).
    destruct (decide (m = j)), (decide (j = m)); [lia|congruence|congruence|lia].
Qed.

Lemma since_swap s0 a b hs s : since s0 (a :: b :: hs) s -> since s0 (b :: a :: hs) s.
Proof.
  intros [H1 H2 H3 H4]. split; try done. intros m. destruct (H3 m) as [Hr H0]. split; [|done]. rewrite !times_cons in *. lia.
Qed.

Lemma iunlockput_names s0 hs s m x :
  fs_idle (Some m) s -> since s0 (m :: hs) s -> s.(k_inodes) !! m = Some x -> 0 < x.(ip_ref) -> live x.(ip_inum) ->
  exists s', iunlockput m s = Ret tt s' /\ fs_idle None s' /\ since s0 hs s' /\
    forall j y, s.(k_inodes) !! j = Some y -> exists y', s'.(k_inodes) !! j = Some y' /\ y'.(ip_inum) = y.(ip_inum).
Proof.
  intros Hid Hsn Hx Hr Hlv. destruct (iunlock_names s0 _ s m x Hid Hsn Hx Hr) as (s1 & E1 & Hid1 & Hsn1 & Hi1).
  destruct (iput_names s0 hs s1 m x Hid1 Hsn1) as (s2 & x' & E2 & Hid2 & Hsn2 & Hi2 & Hn & _); [by rewrite Hi1|done|].
  exists s2. split_and!; try done; [unfold iunlockput; kret_by exact E1; exact E2|].
  intros j y Hy. rewrite Hi2, Hi1. destruct (decide (j = m)) as [->|Hj]; [|exists y; by rewrite list_lookup_insert_ne].
  exists x'. rewrite list_lookup_insert_eq by (by eapply lookup_lt_Some). split; [done|congruence].
Qed.

Lemma names_reads held s0 hs s s' m x :
  fs_idle held s -> since s0 hs s -> s.(k_inodes) !! m = Some x -> in_tx i p pid ∅ cap s' -> reads s s' ->
  fs_idle held s' /\ since s0 hs s' /\ keeps s s' /\ s'.(k_inodes) = s.(k_inodes).
Proof.
  intros Hid Hsn Hx Htx [Hv Hs]. destruct (tx_step_fields _ _ Hs) as (Hi & Hsb & Hz & _).
  destruct (names_lock held held s0 hs s s' m x Hid Hsn Hx Htx) as (H1 & H2 & H3); [by split_and!|done| |done].
  apply (locks_same held s); [|apply Hid]. intros j. destruct Hs as [[_ L] _]. by apply L.
Qed.

Lemma dirlookup_names s0 s m x name :
  fs_idle (Some m) s -> since s0 [m] s -> two_free s0 -> s.(k_inodes) !! m = Some x -> locked_entry s x ->
  live x.(ip_inum) -> is_dir s0 x.(ip_inum) = true -> Forall is_byte name ->
  match dir_map s0 (inode_of s0 x.(ip_inum)) (name_key name) with
  | None => exists s', dirlookup m name s = Ret None s' /\ fs_idle (Some m) s' /\ since s0 [m] s' /\ keeps s s'
  | Some n => live n /\ exists m' o s' y, dirlookup m name s = Ret (Some (m', o)) s' /\ fs_idle (Some m) s' /\
      since s0 [m'; m] s' /\ keeps s s' /\ s'.(k_inodes) !! m' = Some y /\ y.(ip_inum) = n
  end.
Proof.
  intros Hid Hsn H2 Hx (Hr & Hdev & Hval & Hto) Hlv Hdir Hnm. pose proof (sn_disk _ _ _ Hsn) as Hd.
  destruct (valid_file s x Hdev Hval Hto) as (Hf & Hdr & Hmap & _). pose proof Hdir as Hdir'. rewrite <- (is_dir_same s0 s Hd) in Hdir.
  specialize (Hdr (tr_dir _ _ (fi_tree _ _ Hid) _ Hlv Hdir)). specialize (Hf (proj1 (tr_file _ _ (fi_tree _ _ Hid) _ Hlv))).
  assert (Hft : fs_tx i p pid m cap 0 s x).
  { split; [apply Hid|apply Hid|done|done|]. exists ∅. split; [lia|]. intros b Hb. set_solver. }
  destruct (dirlookup_ok i p pid m cap 0 x name s Hft Hdr Hnm) as (s1 & Hft1 & Hr1 & E).
  destruct (names_reads (Some m) s0 [m] s s1 m x Hid Hsn Hx (ft_tx _ _ _ _ _ _ _ _ Hft1) Hr1) as (Hid1 & Hsn1 & Hkp1 & Hi1).
  assert (Em : dir_map s0 (inode_of s0 (ip_inum x)) (name_key name) = snd <$> dir_find (dents s x) (name_key name)).
  { rewrite <- (dir_map_same s0 s Hd), <- (inode_of_same s0 s Hd), <- Hmap. done. }
  rewrite Em. destruct (dir_find (dents s x) (name_key name)) as [[k n]|] eqn:Ef; cbn.
  - split.
    { apply (tr_entry _ _ (fi_tree _ _ Hid) (ip_inum x) (name_key name)); [done|done|]. rewrite <- Hmap. unfold dir_map. by rewrite Ef. }
    rewrite Hdev in E. destruct (iget_names (Some m) s0 [m] s1 n Hid1 Hsn1 H2 ltac:(cbn; lia)) as (m' & s2 & y & E2 & Hid2 & Hsn2 & Hkp2 & Hy & Hyn).
    exists m', (DIRENT * Z.of_nat k), s2, y. split_and!; try done; [|by eapply keeps_trans]. rewrite E. by kret_by exact E2.
  - exists s1. split_and!; done.
Qed.

(** A name is looked up and the directory left. *)
Lemma namex_enter s0 s m x name :
  fs_idle (Some m) s -> since s0 [m] s -> two_free s0 -> s.(k_inodes) !! m = Some x -> locked_entry s x ->
  live x.(ip_inum) -> is_dir s0 x.(ip_inum) = true -> Forall is_byte name ->
  match dir_map s0 (inode_of s0 x.(ip_inum)) (name_key name) with
  | None => exists s1 s2, dirlookup m name s = Ret None s1 /\ iunlockput m s1 = Ret tt s2 /\ fs_idle None s2 /\ since s0 [] s2
  | Some n => live n /\ exists m' o s1 s2 y, dirlookup m name s = Ret (Some (m', o)) s1 /\ iunlockput m s1 = Ret tt s2 /\
      fs_idle None s2 /\ since s0 [m'] s2 /\ s2.(k_inodes) !! m' = Some y /\ y.(ip_inum) = n
  end.
Proof.
  intros Hid Hsn H2 Hx Hle Hlv Hdir Hnm. pose proof (dirlookup_names s0 s m x name Hid Hsn H2 Hx Hle Hlv Hdir Hnm) as Hlook.
  pose proof Hle as (Hr & _). destruct (dir_map s0 _ _) as [n|].
  - destruct Hlook as (Hlvn & m' & o & s1 & y & E1 & Hid1 & Hsn1 & Hkp1 & Hy & Hyn). split; [done|].
    destruct (Hkp1 m x Hx Hr) as (x1 & Hx1 & Hin1 & Hr1).
    destruct (iunlockput_names s0 [m'] s1 m x1 Hid1 (since_swap _ _ _ _ _ Hsn1) Hx1 Hr1) as (s2 & E2 & Hid2 & Hsn2 & Hk2); [by rewrite Hin1|].
    destruct (Hk2 m' y Hy) as (y' & Hy' & Hyn'). exists m', o, s1, s2, y'. split_and!; try done. congruence.
  - destruct Hlook as (s1 & E1 & Hid1 & Hsn1 & Hkp1). destruct (Hkp1 m x Hx Hr) as (x1 & Hx1 & Hin1 & Hr1).
    destruct (iunlockput_names s0 [] s1 m x1 Hid1 Hsn1 Hx1 Hr1) as (s2 & E2 & Hid2 & Hsn2 & _); [by rewrite Hin1|].
    by exists s1, s2.
Qed.

(** What namex returns for the elements [es] of a path, from inode [n]. *)
Definition found (s0 : kernel) (par : bool) (n : Z) (es : list (list Z)) (r : option nat) (name : list Z) (s : kernel) : Prop :=
  match resolve s0 par n es with
  | None => r = None /\ since s0 [] s
  | Some k => exists m x, r = Some m /\ since s0 [m] s /\ s.(k_inodes) !! m = Some x /\ x.(ip_inum) = k /\
      (par = true -> c_string name = take (Z.to_nat DIRSIZ) (List.last es []))
  end.

Lemma namex_loop_ok par s0 fuel : forall path name m x s,
  fs_idle None s -> since s0 [m] s -> two_free s0 -> s.(k_inodes) !! m = Some x -> live x.(ip_inum) ->
  (length path < fuel)%nat -> length name = Z.to_nat DIRSIZ -> Forall is_byte path -> Forall is_byte name ->
  exists r name' s', namex_loop fuel m path par name s = Ret (r, name') s' /\ fs_idle None s' /\
    found s0 par x.(ip_inum) (elements path) r name' s'.
Proof.
  induction fuel as [|fuel IH]; intros path name m x s Hid Hsn H2 Hx Hlv Hf Hlen Hp Hn; [lia|].
  pose proof (skipelem_names path name Hlen Hp Hn) as Hsk. cbn [namex_loop]. unfold found.
  destruct (skipelem path name) as [[rest name1]|].
  2: { rewrite Hsk. destruct par; cbn [resolve].
       - destruct (iput_names s0 [] s m x Hid Hsn Hx Hlv) as (s' & x' & E & Hid' & Hsn' & _).
         exists None, name, s'. split_and!; try done. by kret_by exact E.
       - exists (Some m), name, s. split_and!; try done. by exists m, x. }
  destruct Hsk as (e & He & Hnul & Hsh & Hlen1 & Hp1 & Hn1 & Hkey & Hcs). rewrite He.
  pose proof (since_held s0 [] s m x Hsn Hx) as Hr.
  destruct (ilock_names s0 [m] s m x Hid Hsn Hx Hr Hlv) as (s1 & x1 & E1 & Hid1 & Hsn1 & Hkp1 & Hx1 & Hin1 & Hle1).
  pose proof Hle1 as (Hr1 & Hdev1 & Hval1 & Hto1). destruct (valid_file s1 x1 Hdev1 Hval1 Hto1) as (_ & _ & _ & Hisd).
  rewrite (is_dir_same s0 s1 (sn_disk _ _ _ Hsn1)), Hin1 in Hisd. assert (Hlv1 : live (ip_inum x1)) by (by rewrite Hin1).
  cbn [resolve]. rewrite Hisd. kret_by exact E1. kret_by exact (inode_at_ok m s1 x1 Hx1).
  destruct (ip_type x1 =? T_DIR) eqn:Ety; cbn [negb].
  2: { destruct (iunlockput_names s0 [] s1 m x1 Hid1 Hsn1 Hx1 Hr1 Hlv1) as (s' & E & Hid' & Hsn' & _).
       exists None, name1, s'. split_and!; try done. by kret_by exact E. }
  assert (Hq : (deref rest =? 0) = bool_decide (elements rest = [])).
  { apply eq_true_iff_eq. by rewrite Z.eqb_eq, bool_decide_eq_true. }
  rewrite Hq. destruct (par && bool_decide (elements rest = [])) eqn:Epar.
  { destruct (iunlock_names s0 [m] s1 m x1 Hid1 Hsn1 Hx1 Hr1) as (s' & E & Hid' & Hsn' & Hi').
    exists (Some m), name1, s'. apply andb_true_iff in Epar as [-> Er%bool_decide_eq_true]. split_and!; [by kret_by exact E|done|].
    exists m, x1. split_and!; try done; [by rewrite Hi'|]. rewrite Er. done. }
  pose proof (namex_enter s0 s1 m x1 name1 Hid1 Hsn1 H2 Hx1 Hle1 Hlv1 ltac:(by rewrite Hin1, Hisd) Hn1) as Hlook.
  rewrite Hin1, Hkey in Hlook. destruct (dir_map s0 _ _) as [n|]; cbn.
  - destruct Hlook as (Hlvn & m' & o & s2 & s3 & y & E2 & E3 & Hid3 & Hsn3 & Hy & <-).
    destruct (IH rest name1 m' y s3 Hid3 Hsn3 H2 Hy Hlvn ltac:(lia) Hlen1 Hp1 Hn1) as (r & name' & s' & E & Hid' & Hfd).
    exists r, name', s'. split_and!; [kret_by exact E2; cbv beta iota; kret_by exact E3; exact E|done|]. unfold found in Hfd.
    destruct (resolve s0 par (ip_inum y) (elements rest)) as [k|] eqn:Eres; [|done]. destruct Hfd as (m'' & x'' & H3 & H4 & H5 & H6 & H7).
    exists m'', x''. split_and!; try done. intros Hpt. specialize (H7 Hpt). destruct (elements rest) as [|e2 es2]; [|done].
    by subst par.
  - destruct Hlook as (s2 & s3 & E2 & E3 & Hid3 & Hsn3).
    exists None, name1, s3. split_and!; try done. kret_by exact E2. cbv beta iota. by kret_by exact E3.
Qed.

(** The inode a path starts from: the root, or the current directory. *)
Definition starts_at (s : kernel) (path : list Z) (n : Z) : Prop :=
  if deref path =? slash then n = ROOTINO
  else exists pr c x, s.(k_procs) !! p = Some pr /\ pr.(p_cwd) = Some c /\ s.(k_inodes) !! c = Some x /\
    0 < x.(ip_ref) /\ x.(ip_inum) = n.

Lemma idup_names s0 s m x :
  fs_idle None s -> since s0 [] s -> s.(k_inodes) !! m = Some x -> 0 < x.(ip_ref) ->
  exists s' x', idup m s = Ret m s' /\ fs_idle None s' /\ since s0 [m] s' /\ s'.(k_inodes) !! m = Some x' /\ x'.(ip_inum) = x.(ip_inum).
Proof.
  intros Hid Hsn Hx Hr. destruct (locked_update s m (fun ip => ip<|ip_ref := ip.(ip_ref) + 1|>) (fi_tx _ _ Hid)) as (s1 & _ & E1 & Htx1 & Hd1 & Hi1 & Hk1).
  set (x' := x<|ip_ref := ip_ref x + 1|>). rewrite (alter_insert _ m _ x Hx) in Hi1.
  destruct (fi_entry _ _ Hid m x Hx) as [_ He]. exists s1, x'. split_and!.
  - exact E1.
  - apply (idle_update None None s s1 m x x'); try done; [split; [cbn; lia|intros _; exact (He Hr)]|by auto|].
    apply (locks_same None s); [|apply Hid]. intros j. apply Hk1.
  - apply (since_update s0 [] [m] s s1 m x x'); try done. intros j. rewrite times_cons. change (ip_ref x') with (ip_ref x + 1).
    destruct (decide (m = j)), (decide (j = m)); [lia|congruence|congruence|lia].
  - rewrite Hi1. by apply list_lookup_insert_eq; eapply lookup_lt_Some.
  - done.
Qed.

Lemma namex_start s path n :
  fs_idle None s -> two_free s -> live n -> starts_at s path n ->
  exists m x s1, since s [m] s1 /\ fs_idle None s1 /\ s1.(k_inodes) !! m = Some x /\ x.(ip_inum) = n /\
    forall par name, namex path par name s = namex_loop (S (length path)) m path par name s1.
Proof.
  intros Hid H2 Hlv Hst. pose proof (since_refl None s Hid) as Hsn. unfold starts_at in Hst. destruct (deref path =? slash) eqn:Esl.
  - subst n. destruct (iget_names None s [] s ROOTINO Hid Hsn H2 ltac:(cbn; lia)) as (m & s1 & x & E & Hid1 & Hsn1 & _ & Hx & Hn).
    exists m, x, s1. split_and!; try done. intros par name. unfold namex. rewrite Esl. by kret_by exact E.
  - destruct Hst as (pr & c & x & Hpr & Hc & Hx & Hr & Hn). destruct (itx_thr _ _ _ _ _ _ (fi_tx _ _ Hid)) as [Hrun Hpid].
    destruct (curproc_ex i p ∅ s Hrun) as (s1 & E1 & Hq1 & Hr1).
    assert (Hp1 : k_procs s1 = k_procs s) by (by destruct Hq1 as (b & cs & lks & ->)).
    destruct (in_tx_calm s s s1 (fi_tx _ _ Hid) (calm_quiet _ _ Hq1)) as (Htx1 & Hd1 & Hi1 & Hk1); [|done..|].
    { split; [done|]. unfold has_pid. by rewrite Hp1. }
    assert (Hi1' : k_inodes s1 = <[c := x]> (k_inodes s)) by (by rewrite list_insert_id).
    assert (Hid1 : fs_idle None s1).
    { apply (idle_update None None s s1 c x x); try done; [by apply (fi_entry _ _ Hid c)|by auto|].
      apply (locks_same None s); [|apply Hid]. intros j. apply Hk1. }
    assert (Hsn1 : since s [] s1) by (apply (since_update s [] [] s s1 c x x); try done; intros j; case_decide; lia).
    destruct (idup_names s s1 c x Hid1 Hsn1 ltac:(by rewrite Hi1) Hr) as (s2 & x2 & E2 & Hid2 & Hsn2 & Hx2 & Hn2).
    exists c, x2, s2. split_and!; try done; [congruence|]. intros par name. unfold namex. rewrite Esl.
    assert (Ep : proc_at p s1 = Ret pr s1) by (unfold proc_at; kret; by rewrite Hp1, Hpr).
    refine (bind_ret _ (fun ip => namex_loop (S (length path)) ip path par name) s s2 c _). kret_by exact E1. kret_by exact Ep. by rewrite Hc.
Qed.
End Names.

(** C20: on a file system whose directories are well formed, namex on any path,
    from the root or from the current directory, returns the inode the path
    denotes, or none when the path does not denote one (an element is not a
    directory, or has no such entry, or the parent of an empty path is asked
    for).  It ends with one more reference to that inode and to no other, with
    no inode lock held, with the disk as it was, and, for nameiparent, with the
    path's last element in the name buffer. *)
Theorem namex_resolves `{P : Patience, D : BlockDriver, CL : !CacheLaws P D, V : Devices} (i p : nat) (pid cap : Z)
    (live : Z -> Prop) (s : kernel) (path : list Z) (par : bool) (name : list Z) (n : Z) :
  fs_idle i p pid cap live None s -> two_free s -> live n -> starts_at p s path n ->
  length name = Z.to_nat DIRSIZ -> Forall is_byte path -> Forall is_byte name ->
  exists r name' s', namex path par name s = Ret (r, name') s' /\ fs_idle i p pid cap live None s' /\
    found s par n (elements path) r name' s'.
Proof.
  intros Hid H2 Hlv Hst Hlen Hp Hn. destruct (namex_start i p pid cap live s path n Hid H2 Hlv Hst) as (m & x & s1 & Hsn & Hid1 & Hx & <- & E).
  rewrite E. eapply namex_loop_ok; try done. lia.
Qed.

(** ** A root directory with one file *)
Definition root_dinode : dinode := mkdinode T_DIR 0 0 1 DIRENT (50 :: replicate 12 0).
Definition file_dinode : dinode := mkdinode T_FILE 0 0 1 0 (replicate 13 0).
Definition tree_disk (n : Z) : list Z :=
  if n =? 32 then replicate 64 0 ++ encode_dinode root_dinode ++ encode_dinode file_dinode ++ replicate 320 0
  else if n =? 50 then encode_dirent 2 (strncpy 14 (replicate 14 0) [104; 105; 0]) ++ replicate 496 0
  else small_disk n.
Definition tree_fs : kernel := small_fs<|k_disk := tree_disk|><|k_inodes := replicate 2 blank_inode|>.
Definition tree_live (n : Z) : Prop := n = 1 \/ n = 2.

Lemma tree_view n : view tree_fs n = tree_disk n.
Proof.
  apply view_uncached. intros b x Hx (Hd & _). change (k_bufs tree_fs) with (replicate NBUF zero_buf) in Hx.
  apply lookup_replicate in Hx as [-> _]. done.
Qed.
Lemma tree_inode : disk_inode tree_fs 1 = root_dinode /\ disk_inode tree_fs 2 = file_dinode.
Proof. split; vm_compute; reflexivity. Qed.

Lemma tree_BBLOCK b : 0 <= b < 1000 -> BBLOCK b small_sb = 58.
Proof. intros Hb. assert (Hd : b / BPB = 0) by (apply Z.div_small; unfold BPB, BSIZE; lia). unfold BBLOCK. by rewrite Hd. Qed.
Lemma tree_free b : 0 <= b < 1000 -> free tree_fs b = (59 <=? b).
Proof.
  intros Hb. rewrite <- small_free by done. unfold free. change (k_sb tree_fs) with small_sb. change (k_sb small_fs) with small_sb.
  by rewrite tree_BBLOCK, tree_view, small_view.
Qed.

(** An inode with at most its first block. *)
Lemma one_slot s ip a j : ip.(ip_addrs) = a :: replicate 12 0 -> 0 <= j -> slot s ip j = if j =? 0 then a else 0.
Proof.
  intros Ha Hj. assert (Hz : forall k, 0 < k -> addr_at ip k = 0).
  { intros k Hk. unfold addr_at. rewrite nth_lookup, Ha. replace (Z.to_nat k) with (S (Z.to_nat (k - 1))) by lia.
    change ((a :: ?l) !! S ?n) with (l !! n). destruct (replicate 12 0 !! _) as [x|] eqn:E; [|done]. by apply lookup_replicate in E as [-> _]. }
  unfold slot, block_addr. rewrite !Hz by (unfold NDIRECT; lia). destruct (Z.eqb_spec j 0) as [->|Hne].
  - unfold addr_at. by rewrite Ha.
  - rewrite Hz by lia. by destruct (j =? MAXFILE), (j <? NDIRECT).
Qed.

Lemma tree_file ip a :
  ip.(ip_addrs) = a :: replicate 12 0 -> ip.(ip_dev) = 1 -> tree_live ip.(ip_inum) -> a = 0 \/ a = 50 -> file_ok tree_fs ip.
Proof.
  intros Ha Hd Hl Hor. assert (Hib : IBLOCK (ip_inum ip) (k_sb tree_fs) = 32) by (destruct Hl as [->| ->]; done). split.
  - done.
  - by rewrite Ha.
  - intros j Hj. rewrite (one_slot _ _ _ _ Ha) by lia. destruct (j =? 0); [|done]. intros Hn. destruct Hor as [->| ->]; [done|].
    unfold data_block. rewrite Hib. split_and!; [done|done|by rewrite tree_free| |done].
    intros b Hb. change (k_sb tree_fs) with small_sb in *. rewrite tree_BBLOCK by done. done.
  - intros j j' Hj Hj'. rewrite !(one_slot _ _ _ _ Ha) by lia. destruct (Z.eqb_spec j 0), (Z.eqb_spec j' 0); subst; congruence.
  - rewrite Hib. split_and!; [done|done|by rewrite tree_free|].
    intros b Hb. change (k_sb tree_fs) with small_sb in *. rewrite tree_BBLOCK by done. done.
Qed.

Lemma tree_root : dents tree_fs (load_dinode root_dinode (mkinode 1 1 1 1 0 0 0 0 0 [])) = [encode_dirent 2 (strncpy 14 (replicate 14 0) [104; 105; 0])].
Proof. vm_compute. reflexivity. Qed.

Lemma tree_fs_tree : tree_ok tree_live tree_fs.
Proof.
  destruct tree_inode as [H1 H2].
  assert (Hroot : inode_of tree_fs 1 = load_dinode root_dinode (mkinode 1 1 1 1 0 0 0 0 0 [])) by (unfold inode_of; by rewrite H1).
  assert (Hfile : inode_of tree_fs 2 = load_dinode file_dinode (mkinode 1 2 1 1 0 0 0 0 0 [])) by (unfold inode_of; by rewrite H2).
  assert (Hdir : forall n, tree_live n -> is_dir tree_fs n = true -> n = 1).
  { intros n [->| ->] Hd; [done|]. unfold is_dir in Hd. by rewrite H2 in Hd. }
  split.
  - intros n [->| ->]; rewrite ?Hroot, ?Hfile, ?H1, ?H2; clear; (split; [|done]).
    + apply (tree_file _ 50); [reflexivity|reflexivity|by left|by right].
    + apply (tree_file _ 0); [reflexivity|reflexivity|by right|by left].
  - intros n Hn Hd. rewrite (Hdir n Hn Hd), Hroot. clear. split; [reflexivity|split; [easy|by exists 1]| |].
    + intros bn _ Hb0 Hb1. rewrite (one_slot _ _ 50) by done. change (bn * 512 < 16) in Hb1. change (0 <= bn) in Hb0. by replace bn with 0 by lia.
    + intros o Ho. change (0 <= o < 16) in Ho. set (ip := load_dinode root_dinode _).
      assert (Hb : Forall is_byte (mjoin (dents tree_fs ip))) by (unfold ip; rewrite tree_root; by repeat constructor).
      apply (Forall_lookup_1 _ _ (Z.to_nat o) _ Hb). change (mjoin (dents tree_fs ip)) with ((file_byte tree_fs ip <$> seqZ 0 16) ++ []).
      rewrite app_nil_r, list_lookup_fmap, lookup_seqZ_lt by lia. cbn. do 2 f_equal. lia.
  - intros n key j Hn Hd. rewrite (Hdir n Hn Hd), Hroot. unfold dir_map. rewrite tree_root, dir_find_cons.
    case_decide; [|done]. intros [= <-]. by right.
Qed.

Lemma tree_idle : fs_idle 0 0 0 7 tree_live None tree_fs.
Proof.
  split.
  - destruct (bc_boot 0 tree_fs) as [Hbc _]; [done..|].
    destruct (small_tx 7 ltac:(lia)) as [H1 _ H3 H4 H5]. split; [tframe H1|done|done|exact H4|].
    intros n. rewrite tree_view. unfold tree_disk. do 2 (destruct (_ =? _); [by vm_compute|]).
    rewrite <- small_view. apply H5.
  - split; [done|done|by rewrite tree_free|]. intros b Hb. change (k_sb tree_fs) with small_sb in *. by rewrite tree_BBLOCK, tree_free.
  - exact tree_fs_tree.
  - intros m x Hx. apply lookup_replicate in Hx as [-> _]. done.
  - intros m m' x x' Hx _ Hr. apply lookup_replicate in Hx as [-> _]. done.
  - split; [|done]. intros m _. done.
Qed.

#[local] Instance no_waits : Patience := 0%nat.
#[local] Instance no_devices : Devices := {| dev_read _ _ _ := ret (-1, []); dev_write _ _ _ _ := ret (-1) |}.

(** /hi is inode 2, and there is no /ho. *)
Lemma namex_resolves_witness :
  (exists m name s x, namex [47; 104; 105; 0] false (replicate 14 0) tree_fs = Ret (Some m, name) s /\
    s.(k_inodes) !! m = Some x /\ x.(ip_inum) = 2) /\
  exists name s, namex [47; 104; 111; 0] false (replicate 14 0) tree_fs = Ret (None, name) s.
Proof.
  assert (H2 : two_free tree_fs) by (by exists 0%nat, 1%nat, blank_inode, blank_inode).
  assert (R1 : resolve tree_fs false 1 (elements [47; 104; 105; 0]) = Some 2) by (vm_compute; reflexivity).
  assert (R2 : resolve tree_fs false 1 (elements [47; 104; 111; 0]) = None) by (vm_compute; reflexivity). split.
  - destruct (namex_resolves 0 0 0 7 tree_live tree_fs [47; 104; 105; 0] false (replicate 14 0) 1)
      as (r & name & s & E & _ & Hf); [exact tree_idle|done|by left|done|done|by repeat constructor|by repeat constructor|].
    unfold found in Hf. rewrite R1 in Hf. destruct Hf as (m & x & -> & _ & Hx & Hn & _).
    exists m, name, s, x. exact (conj E (conj Hx Hn)).
  - destruct (namex_resolves 0 0 0 7 tree_live tree_fs [47; 104; 111; 0] false (replicate 14 0) 1)
      as (r & name & s & E & _ & Hf); [exact tree_idle|done|by left|done|done|by repeat constructor|by repeat constructor|].
    unfold found in Hf. rewrite R2 in Hf. destruct Hf as [-> _]. exists name, s. exact E.
Defined.
