(* ===== verification/Pipe.v ===== *)
(** * Pipes: pipe.c without pipealloc

    A pipe is named by the address of its page; [k_pipes] holds the pipes in
    use.  The counters nread and nwrite are 32-bit and wrap around; the data are
    a ring of PIPESIZE bytes. *)

From S2P Require Import Prelude Ring State Spinlock Thread CString Kalloc Vm Sched Sleeplock.

Definition PIPESIZE : Z := 512.

(** [*p]; a pipe whose page was freed is gone. *)
Definition pipe_at (a : Z) : K pipe :=
  let! s := get in
  match s.(k_pipes) !! a with
  | Some p => ret p
  | None => panic "pipe freed"
  end.
Definition upd_pipe (a : Z) (f : pipe -> pipe) (s : kernel) : kernel := s<|k_pipes ::= alter f a|>.
Definition myproc_killed : K Z :=
  let! p := curproc in
  let! pr := proc_at p in
  ret pr.(p_killed).

Definition pipeclose (a : Z) (writable : bool) : K unit :=
  acquire (LkPipe a) ;;;
  (if writable then
     modify (upd_pipe a (fun p => p<|pi_writeopen := 0|>)) ;;; wakeup (ChPipeRead a)
   else
     modify (upd_pipe a (fun p => p<|pi_readopen := 0|>)) ;;; wakeup (ChPipeWrite a)) ;;;
  let! p := pipe_at a in
  if (p.(pi_readopen) =? 0) && (p.(pi_writeopen) =? 0) then
    release (LkPipe a) ;;;
    kfree a ;;;
    modify (fun s => s<|k_pipes ::= delete a|>)
  else release (LkPipe a).

(** [p->data[p->nwrite++ % PIPESIZE] = c] and [p->data[p->nread++ % PIPESIZE]]. *)
Definition full (p : pipe) : bool := p.(pi_nwrite) =? u32 (p.(pi_nread) + PIPESIZE).
Definition empty (p : pipe) : bool := p.(pi_nread) =? p.(pi_nwrite).
Definition put_char (c : Z) (p : pipe) : pipe :=
  p<|pi_data ::= <[Z.to_nat (p.(pi_nwrite) mod PIPESIZE) := u8 c]>|>
   <|pi_nwrite := u32 (p.(pi_nwrite) + 1)|>.
Definition head_char (p : pipe) : Z := nth (Z.to_nat (p.(pi_nread) mod PIPESIZE)) p.(pi_data) 0.
Definition drop_char (p : pipe) : pipe := p<|pi_nread := u32 (p.(pi_nread) + 1)|>.

(** Wait for room; [false] when the writer gives up, the lock then released. *)
Fixpoint pipewrite_wait (fuel : nat) (a : Z) : K bool :=
  match fuel with
  | O => nofuel
  | S fuel' =>
      let! p := pipe_at a in
      if negb (full p) then ret true
      else
        let! hopeless :=
          (if p.(pi_readopen) =? 0 then ret true
           else let! k := myproc_killed in ret (truth k)) in
        if hopeless then release (LkPipe a) ;;; ret false
        else
          wakeup (ChPipeRead a) ;;;
          sleep (ChPipeWrite a) (LkPipe a) ;;;
          pipewrite_wait fuel' a
  end.

(** Wait for data or for the last writer to close; [false] when the reader was
    killed, the lock then released. *)
Fixpoint piperead_wait (fuel : nat) (a : Z) : K bool :=
  match fuel with
  | O => nofuel
  | S fuel' =>
      let! p := pipe_at a in
      if negb (empty p && truth p.(pi_writeopen)) then ret true
      else
        let! k := myproc_killed in
        if truth k then release (LkPipe a) ;;; ret false
        else
          sleep (ChPipeRead a) (LkPipe a) ;;;
          piperead_wait fuel' a
  end.

(** The copy loop of piperead: the bytes stored at addr. *)
Fixpoint piperead_copy (n : nat) (a : Z) : K (list Z) :=
  match n with
  | O => ret []
  | S n' =>
      let! p := pipe_at a in
      if empty p then ret []
      else
        modify (upd_pipe a drop_char) ;;;
        let! cs := piperead_copy n' a in
        ret (head_char p :: cs)
  end.

Section Code.
Context {P : Patience}.

(** [addr] is the n bytes of the caller's buffer. *)
Fixpoint pipewrite_loop (addr : list Z) (a : Z) : K bool :=
  match addr with
  | [] => ret true
  | c :: addr' =>
      let! ok := pipewrite_wait (S patience) a in
      if negb ok then ret false
      else
        modify (upd_pipe a (put_char c)) ;;;
        pipewrite_loop addr' a
  end.
Definition pipewrite (a : Z) (addr : list Z) (n : Z) : K Z :=
  acquire (LkPipe a) ;;;
  let! ok := pipewrite_loop (take (Z.to_nat n) addr) a in
  if negb ok then ret (-1)
  else
    wakeup (ChPipeRead a) ;;;
    release (LkPipe a) ;;;
    ret n.

Definition piperead (a n : Z) : K (Z * list Z) :=
  acquire (LkPipe a) ;;;
  let! ok := piperead_wait (S patience) a in
  if negb ok then ret (-1, [])
  else
    let! cs := piperead_copy (Z.to_nat n) a in
    wakeup (ChPipeWrite a) ;;;
    release (LkPipe a) ;;;
    ret (Z.of_nat (length cs), cs).
End Code.

(** ** The ring is a bounded queue

    [queue p] is what has been written and not yet read, oldest first. *)
Definition pipe_len (p : pipe) : Z := u32 (p.(pi_nwrite) - p.(pi_nread)).
Definition queue (p : pipe) : list Z := ring PIPESIZE p.(pi_data) p.(pi_nread) (pipe_len p).
Definition pipe_ok (p : pipe) : Prop :=
  length p.(pi_data) = Z.to_nat PIPESIZE /\ 0 <= p.(pi_nread) < 2 ^ 32 /\ 0 <= p.(pi_nwrite) < 2 ^ 32 /\
  pipe_len p <= PIPESIZE.

Lemma length_queue p : Z.of_nat (length (queue p)) = pipe_len p.
Proof. apply length_ring, u32_range. Qed.

Lemma full_len p : pipe_ok p -> full p = (pipe_len p =? PIPESIZE).
Proof.
  intros (_ & Hr & Hw & Hl). unfold full, pipe_len, PIPESIZE in *. rewrite u32_sub_cases in * by done.
  unfold u32. destruct (Z.ltb_spec (pi_nread p + 512) (2 ^ 32)).
  - rewrite Z.mod_small by lia. blia.
  - replace ((pi_nread p + 512) mod 2 ^ 32) with (pi_nread p + 512 - 2 ^ 32)
      by (apply (Z.mod_unique _ _ 1); lia). blia.
Qed.

Lemma empty_len p : pipe_ok p -> empty p = (pipe_len p =? 0).
Proof.
  intros (_ & Hr & Hw & Hl). unfold empty, pipe_len in *. rewrite u32_sub_cases in * by done. blia.
Qed.

Lemma put_len c p : pipe_ok p -> full p = false -> pipe_len (put_char c p) = pipe_len p + 1.
Proof.
  intros Hok Hf. rewrite (full_len _ Hok) in Hf. destruct Hok as (_ & Hr & Hw & Hl).
  unfold pipe_len, put_char, PIPESIZE in *. cbn [pi_nwrite pi_nread setf set_pi_nwrite set_pi_data].
  rewrite u32_succ_cases, !u32_sub_cases in * by (rewrite ?u32_succ_cases; blia). blia.
Qed.

Lemma put_ok c p : pipe_ok p -> full p = false -> pipe_ok (put_char c p).
Proof.
  intros Hok Hf. pose proof (put_len c p Hok Hf) as Hlen. rewrite (full_len _ Hok) in Hf.
  destruct Hok as (Hd & Hr & Hw & Hl). unfold pipe_ok. rewrite Hlen. split_and!.
  - unfold put_char. cbn. by rewrite length_insert.
  - apply Hr.
  - apply Hr.
  - apply u32_range.
  - apply u32_range.
  - lia.
Qed.

(** The slot of the next byte. *)
Lemma write_slot p :
  pi_nwrite p mod PIPESIZE = (pi_nread p + pipe_len p) mod PIPESIZE.
Proof.
  rewrite <- (u32_mod_ring PIPESIZE 8388608 eq_refl eq_refl (_ + _)). unfold pipe_len.
  rewrite u32_idemp_add_r, (u32_mod_ring PIPESIZE 8388608) by done. f_equal. lia.
Qed.

Lemma put_queue c p : pipe_ok p -> full p = false -> queue (put_char c p) = queue p ++ [u8 c].
Proof.
  intros Hok Hf. unfold queue. rewrite (put_len c p Hok Hf). rewrite (full_len _ Hok) in Hf.
  pose proof Hok as (Hd & _ & _ & Hl). assert (H0 : 0 <= pipe_len p) by apply u32_range.
  unfold put_char. cbn. rewrite write_slot.
  apply (ring_insert_snoc PIPESIZE eq_refl); [done|]. blia.
Qed.

Lemma drop_len p : pipe_ok p -> empty p = false -> pipe_len (drop_char p) = pipe_len p - 1.
Proof.
  intros Hok He. rewrite (empty_len _ Hok) in He. destruct Hok as (_ & Hr & Hw & Hl).
  unfold pipe_len, drop_char in *. cbn [pi_nwrite pi_nread setf set_pi_nread].
  rewrite u32_succ_cases, !u32_sub_cases in * by (rewrite ?u32_succ_cases; blia). blia.
Qed.

Lemma drop_ok p : pipe_ok p -> empty p = false -> pipe_ok (drop_char p).
Proof.
  intros Hok He. pose proof (drop_len p Hok He) as Hlen. destruct Hok as (Hd & Hr & Hw & Hl).
  unfold pipe_ok. rewrite Hlen. split_and!; [done|apply u32_range..|apply Hw|apply Hw|lia].
Qed.

Lemma drop_queue p : pipe_ok p -> empty p = false -> queue p = head_char p :: queue (drop_char p).
Proof.
  intros Hok He. unfold queue. rewrite (drop_len p Hok He). rewrite (empty_len _ Hok) in He.
  assert (H0 : 0 <= pipe_len p) by apply u32_range.
  rewrite ring_cons by blia. f_equal. cbn. by rewrite (ring_u32 PIPESIZE 8388608).
Qed.

(** ** Reading and writing *)
Definition set_pipe (a : Z) (q : pipe) (s : kernel) : kernel := s<|k_pipes ::= <[a := q]>|>.

Lemma upd_pipe_set a f p s : s.(k_pipes) !! a = Some p -> upd_pipe a f s = set_pipe a (f p) s.
Proof.
  intros Hp. unfold upd_pipe, set_pipe, setf, set_k_pipes.
  assert (E : alter f a (k_pipes s) = <[a := f p]> (k_pipes s)); [|by rewrite E].
  apply map_eq. intros b. destruct (decide (b = a)) as [->|Hne].
  - by rewrite lookup_alter_eq, Hp, lookup_insert_eq.
  - by rewrite lookup_alter_ne, lookup_insert_ne.
Qed.

Lemma set_pipe_lookup a q s : (set_pipe a q s).(k_pipes) !! a = Some q.
Proof. unfold set_pipe. cbn. by rewrite lookup_insert_eq. Qed.

Lemma set_pipe_set a q q' s : set_pipe a q' (set_pipe a q s) = set_pipe a q' s.
Proof. unfold set_pipe, setf, set_k_pipes. cbn. by rewrite insert_insert_eq. Qed.

Lemma set_pipe_id a p s : s.(k_pipes) !! a = Some p -> set_pipe a p s = s.
Proof. intros H. unfold set_pipe, setf, set_k_pipes. by rewrite insert_id. Qed.

Definition puts (bs : list Z) (p : pipe) : pipe := foldl (fun q c => put_char c q) p bs.
Definition drops (n : nat) (p : pipe) : pipe := Nat.iter n drop_char p.

Lemma puts_ok bs : forall p,
  pipe_ok p -> pipe_len p + Z.of_nat (length bs) <= PIPESIZE ->
  pipe_ok (puts bs p) /\ queue (puts bs p) = queue p ++ (u8 <$> bs) /\
  (puts bs p).(pi_writeopen) = p.(pi_writeopen) /\ (puts bs p).(pi_readopen) = p.(pi_readopen).
Proof.
  induction bs as [|c bs IH]; intros p Hok Hlen; cbn [puts foldl length] in *.
  - by rewrite app_nil_r.
  - assert (Hf : full p = false) by (rewrite full_len by done; lia).
    destruct (IH (put_char c p)) as (H1 & H2 & H3 & H4);
      [by apply put_ok|rewrite put_len by done; lia|].
    unfold puts in H1, H2, H3, H4. rewrite H2, H3, H4, put_queue by done. split_and!; [done| |done..].
    by rewrite <- app_assoc.
Qed.

(** With room for all the bytes the write loop stores them and does not wait. *)
Lemma pipewrite_loop_ok `{!Patience} a bs : forall p s,
  s.(k_pipes) !! a = Some p -> pipe_ok p -> pipe_len p + Z.of_nat (length bs) <= PIPESIZE ->
  pipewrite_loop bs a s = Ret true (set_pipe a (puts bs p) s).
Proof.
  induction bs as [|c bs IH]; intros p s Hp Hok Hlen; cbn [pipewrite_loop length] in *.
  - unfold puts. cbn. by rewrite set_pipe_id.
  - assert (Hf : full p = false) by (rewrite full_len by done; lia).
    kret_by (cbn [pipewrite_wait]; kret_by (by unfold pipe_at; kret; rewrite Hp); by rewrite Hf).
    cbn [negb]. kret. rewrite (upd_pipe_set _ _ p) by done.
    rewrite (IH (put_char c p)), set_pipe_set; [done|apply set_pipe_lookup|by apply put_ok|].
    rewrite put_len by done. lia.
Qed.

(** The copy loop takes what there is, up to [n] bytes, from the front. *)
Lemma piperead_copy_ok a n : forall p s,
  s.(k_pipes) !! a = Some p -> pipe_ok p ->
  exists q, piperead_copy n a s = Ret (take n (queue p)) (set_pipe a q s) /\
    pipe_ok q /\ queue q = drop n (queue p) /\
    q.(pi_writeopen) = p.(pi_writeopen) /\ q.(pi_readopen) = p.(pi_readopen).
Proof.
  induction n as [|n IH]; intros p s Hp Hok; cbn [piperead_copy].
  - exists p. by rewrite set_pipe_id.
  - kret_by (by unfold pipe_at; kret; rewrite Hp). destruct (empty p) eqn:He.
    + exists p. rewrite set_pipe_id by done. rewrite empty_len in He by done.
      assert (queue p = []) as -> by (apply length_zero_iff_nil; pose proof (length_queue p); lia).
      done.
    + kret. rewrite (upd_pipe_set _ _ p) by done.
      destruct (IH (drop_char p) (set_pipe a (drop_char p) s)) as (q & E & H1 & H2 & H3 & H4);
        [apply set_pipe_lookup|by apply drop_ok|].
      exists q. kret_by exact E. rewrite set_pipe_set, (drop_queue p) by done. cbn [take drop]. done.
Qed.

Section Transfer.
Context {P : Patience} (i p : nat) (pid : Z) (a : Z) (q : pipe) (s : kernel).
Hypothesis Ht : thr i p pid ∅ s.
Hypothesis Hq : s.(k_pipes) !! a = Some q.
Hypothesis Hok : pipe_ok q.

Lemma acquire_pipe :
  exists s1, acquire (LkPipe a) s = Ret tt s1 /\ calm s s1 /\ thr i p pid ({[LkPipe a]} ∪ ∅) s1 /\
    s1.(k_pipes) !! a = Some q.
Proof using Ht Hq.
  destruct (acquire_thr _ _ _ _ (LkPipe a) _ Ht (not_elem_of_empty _)) as (s1 & E1 & Hc1 & Ht1).
  exists s1. split_and!; [done..|]. by destruct Hc1 as (? & ? & ? & ? & _ & ->).
Qed.

(** The end of pipewrite and piperead: wake the other side, release the lock. *)
Lemma pipe_finish {A : Type} ch q' s1 (r : A) :
  calm s s1 -> thr i p pid ({[LkPipe a]} ∪ ∅) s1 ->
  exists s', (wakeup ch ;;; release (LkPipe a) ;;; ret r)%xv6 (set_pipe a q' s1) = Ret r s' /\
    calm (set_pipe a q' s) s' /\ thr i p pid ∅ s'.
Proof.
  intros Hc1 Ht1. set (s2 := set_pipe a q' s1).
  assert (Ht2 : thr i p pid ({[LkPipe a]} ∪ ∅) s2) by tframe Ht1.
  destruct (wakeup_thr _ _ _ _ ch _ Ht2 ltac:(set_solver)) as (s3 & E3 & Hc3 & Ht3). kret_by exact E3.
  destruct (release_thr _ _ _ _ _ _ Ht3 ltac:(set_solver)) as (s4 & E4 & Hc4 & Ht4). kret_by exact E4.
  exists s4. split_and!; [done| |done].
  assert (Hc : calm s2 s4) by (by transitivity s3). by calm_by Hc1 Hc.
Qed.

Lemma pipewrite_ok bs :
  pipe_len q + Z.of_nat (length bs) <= PIPESIZE ->
  exists s', pipewrite a bs (Z.of_nat (length bs)) s = Ret (Z.of_nat (length bs)) s' /\
    calm (set_pipe a (puts bs q) s) s' /\ thr i p pid ∅ s'.
Proof.
  intros Hroom. destruct acquire_pipe as (s1 & E1 & Hc1 & Ht1 & Hq1).
  destruct (pipe_finish (ChPipeRead a) (puts bs q) s1 (Z.of_nat (length bs)) Hc1 Ht1) as (s' & E' & H').
  exists s'. split; [|done]. unfold pipewrite. kret_by exact E1.
  rewrite Nat2Z.id, firstn_all. kret_by (by apply (pipewrite_loop_ok a bs q)). exact E'.
Qed.

(** A read that need not wait: there are bytes, or the writers are gone. *)
Lemma piperead_ok n :
  empty q = false \/ q.(pi_writeopen) = 0 ->
  exists q' s', piperead a n s =
      Ret (Z.of_nat (length (take (Z.to_nat n) (queue q))), take (Z.to_nat n) (queue q)) s' /\
    calm (set_pipe a q' s) s' /\ thr i p pid ∅ s' /\
    pipe_ok q' /\ queue q' = drop (Z.to_nat n) (queue q).
Proof.
  intros Hready. destruct acquire_pipe as (s1 & E1 & Hc1 & Ht1 & Hq1).
  destruct (piperead_copy_ok a (Z.to_nat n) q s1 Hq1 Hok) as (q' & Ecopy & Hok' & Hqueue & _).
  destruct (pipe_finish (ChPipeWrite a) q' s1
    (Z.of_nat (length (take (Z.to_nat n) (queue q))), take (Z.to_nat n) (queue q)) Hc1 Ht1) as (s' & E' & Hc' & Ht').
  exists q', s'. split_and!; [|done..]. unfold piperead. kret_by exact E1.
  assert (Hstop : empty q && truth (pi_writeopen q) = false).
  { destruct Hready as [->|Hw]; [done|]. rewrite (truth_false _ Hw). by rewrite andb_false_r. }
  kret_by (cbn [piperead_wait]; kret_by (by unfold pipe_at; kret; rewrite Hq1); by rewrite Hstop).
  cbn [negb]. kret_by exact Ecopy. exact E'.
Qed.
End Transfer.

(** C36: a pipe is a first-in first-out queue of bytes.  A write that fits into
    the 512-byte ring returns the number of bytes written without sleeping; a
    read of [n] bytes after it returns the [n] oldest bytes (fewer if there are
    fewer), in the order in which they were written, and leaves the rest,
    whatever the counters are and also when they wrap around at 2^32 in
    between. *)
Theorem pipe_fifo `{!Patience} (i p : nat) (pid a n : Z) (q : pipe) (bs : list Z) (s : kernel) :
  thr i p pid ∅ s -> s.(k_pipes) !! a = Some q -> pipe_ok q ->
  pipe_len q + Z.of_nat (length bs) <= PIPESIZE -> Forall is_byte bs -> queue q ++ bs <> [] ->
  exists s1 q2 s2,
    pipewrite a bs (Z.of_nat (length bs)) s = Ret (Z.of_nat (length bs)) s1 /\
    piperead a n s1 =
      Ret (Z.of_nat (length (take (Z.to_nat n) (queue q ++ bs))), take (Z.to_nat n) (queue q ++ bs)) s2 /\
    s2.(k_pipes) !! a = Some q2 /\ pipe_ok q2 /\ queue q2 = drop (Z.to_nat n) (queue q ++ bs).
Proof.
  intros Ht Hq Hok Hroom Hb Hne.
  destruct (pipewrite_ok i p pid a q s Ht Hq Hok bs Hroom) as (s1 & E1 & Hc1 & Ht1).
  destruct (puts_ok bs q Hok Hroom) as (Hok1 & Hqueue & _).
  replace (u8 <$> bs) with bs in Hqueue.
  2:{ symmetry. rewrite <- (list_fmap_id bs) at 2. apply list_fmap_ext. intros k x Hx.
      apply u8_small. by apply (Forall_lookup_1 _ _ _ _ Hb Hx). }
  assert (Hq1 : k_pipes s1 !! a = Some (puts bs q)).
  { destruct Hc1 as (? & ? & ? & ? & _ & ->). apply set_pipe_lookup. }
  rewrite <- Hqueue in Hne |- *.
  destruct (piperead_ok i p pid a _ s1 Ht1 Hq1 Hok1 n) as (q2 & s2 & E2 & Hc2 & _ & Hok2 & Hqueue2).
  { left. rewrite empty_len by done. apply Z.eqb_neq. intros H0. apply Hne, length_zero_iff_nil.
    pose proof (length_queue (puts bs q)). lia. }
  exists s1, q2, s2. split_and!; [done..| |done|done].
  destruct Hc2 as (? & ? & ? & ? & _ & ->). apply set_pipe_lookup.
Qed.

(** ** The ends of a pipe *)
Lemma myproc_killed_ex i p ls pr s :
  running i (Some p) ls s -> s.(k_procs) !! p = Some pr ->
  exists s', myproc_killed s = Ret pr.(p_killed) s' /\ quiet s s' /\ running i (Some p) ls s'.
Proof.
  intros Hr Hpr. destruct (curproc_ex _ _ _ _ Hr) as (s' & E & Hq & Hr').
  exists s'. split_and!; [|done..]. unfold myproc_killed. kret_by exact E.
  kret_by (unfold proc_at; kret; by rewrite (quiet_procs _ _ Hq), Hpr). done.
Qed.

(** C40: the ends of a pipe.  Once the write end is closed a reader of an empty
    pipe gets 0 bytes; once the read end is closed a writer to a full pipe gets
    -1 and the pipe keeps its contents; and a reader of an empty pipe that may
    still be written goes to sleep on the channel the writers wake, having
    released the pipe's lock. *)
Theorem pipe_ends `{!Patience} (i p : nat) (pid a n : Z) (q : pipe) (pr : proc) (bs : list Z) (s : kernel) :
  thr i p pid ∅ s -> s.(k_pipes) !! a = Some q -> pipe_ok q -> s.(k_procs) !! p = Some pr ->
  (queue q = [] -> q.(pi_writeopen) = 0 -> exists s', piperead a n s = Ret (0, []) s' /\ thr i p pid ∅ s') /\
  (pipe_len q = PIPESIZE -> q.(pi_readopen) = 0 -> bs <> [] ->
   exists s', pipewrite a bs (Z.of_nat (length bs)) s = Ret (-1) s' /\ calm s s' /\ thr i p pid ∅ s') /\
  (queue q = [] -> q.(pi_writeopen) <> 0 -> pr.(p_killed) = 0 ->
   exists s1 k, piperead a n s = Switch s1 k /\
     s1.(k_procs) = <[p := asleep (ChPipeRead a) pr]> s.(k_procs) /\
     running i (Some p) {[LkPtable]} s1).
Proof.
  intros Ht Hq Hok Hpr. split_and!.
  - intros He Hw. destruct (piperead_ok i p pid a q s Ht Hq Hok n (or_intror Hw)) as (q' & s' & E & _ & Ht' & _).
    rewrite He, take_nil in E. by exists s'.
  - intros Hl Hro Hbs. destruct (acquire_pipe i p pid a q s Ht Hq) as (s1 & E1 & Hc1 & Ht1 & Hq1).
    destruct (release_thr _ _ _ _ _ _ Ht1 (not_elem_of_empty _)) as (s2 & E2 & Hc2 & Ht2).
    exists s2. split_and!; [|by transitivity s1|done]. unfold pipewrite. kret_by exact E1.
    destruct bs as [|c bs]; [done|]. rewrite Nat2Z.id, firstn_all.
    assert (Ew : pipewrite_wait (S patience) a s1 = Ret false s2).
    { cbn [pipewrite_wait]. kret_by (by unfold pipe_at; kret; rewrite Hq1).
      rewrite (full_len _ Hok), Hl, Hro. cbn [Z.eqb Pos.eqb PIPESIZE negb]. kret. cbv iota. by kret_by exact E2. }
    kret_by (cbn [pipewrite_loop]; kret_by exact Ew; reflexivity). done.
  - intros He Hw Hk. destruct (acquire_pipe i p pid a q s Ht Hq) as (s1 & E1 & Hc1 & Ht1 & Hq1).
    rewrite union_empty_r_L in Ht1. destruct (acquire_ex i (Some p) ∅ (LkPipe a) s (proj1 Ht) (not_elem_of_empty _))
      as (s1' & E1' & Hqu & _). rewrite E1 in E1'. injection E1' as <-.
    assert (Hpr1 : k_procs s1 !! p = Some pr) by (by rewrite (quiet_procs _ _ Hqu)).
    destruct (myproc_killed_ex i p _ pr s1 (proj1 Ht1) Hpr1) as (s2 & E2 & Hq2 & Hr2).
    destruct (sleep_switches i p pr (ChPipeRead a) (LkPipe a) s2 Hr2) as (s3 & k & E3 & Hq3 & Hr3 & _);
      [by rewrite (quiet_procs _ _ Hq2)|].
    eexists s3, _. split_and!; [| |done].
    + unfold piperead. kret_by exact E1. unfold bind at 1. cbn [piperead_wait].
      rewrite (bind_ret _ _ s1 s1 q) by (unfold pipe_at; kret; by rewrite Hq1).
      rewrite (empty_len _ Hok), <- length_queue, He. rewrite (truth_true _ Hw).
      change (negb ((Z.of_nat (length (@nil Z)) =? 0) && true)) with false. cbv iota.
      rewrite (bind_ret _ _ _ _ _ E2), Hk. change (truth 0) with false. cbv iota.
      unfold bind at 1. rewrite E3. reflexivity.
    + rewrite (quiet_procs _ _ Hq3). cbn. by rewrite (quiet_procs _ _ Hq2), (quiet_procs _ _ Hqu).
Qed.

(** Two bytes in transit across the wrap-around of both counters. *)
Definition wrapping_pipe : pipe :=
  mkpipe (<[511%nat := 65]> (replicate 512 0)) (2 ^ 32 - 1) 0 1 1.
Definition pipe_machine : kernel :=
  (loaded KERNLINK KERNLINK)<|k_cpus := [boot_cpu<|c_proc := Some 0%nat|>]|>
    <|k_pipes := {[4096 := wrapping_pipe]}|>.

Lemma pipe_machine_thr : thr 0 0 0 ∅ pipe_machine.
Proof.
  split; [|done]. eexists. split_and!; [done..| |].
  - by intros lk ?%not_elem_of_empty.
  - intros lk _. unfold lock_of. cbn. by rewrite lookup_empty.
Qed.

#[local] Instance no_wait : Patience := 0%nat.

Lemma pipe_fifo_witness :
  exists s1 s2, pipewrite 4096 [66; 67] 2 pipe_machine = Ret 2 s1 /\
    piperead 4096 10 s1 = Ret (3, [65; 66; 67]) s2.
Proof.
  destruct (pipe_fifo 0 0 0 4096 10 wrapping_pipe [66; 67] pipe_machine pipe_machine_thr)
    as (s1 & q2 & s2 & E1 & E2 & _); [reflexivity| | | |done|].
  - split_and!; [reflexivity|..]; vm_compute; congruence.
  - vm_compute; congruence.
  - repeat constructor; vm_compute; congruence.
  - exists s1, s2. split; [exact E1|].
    assert (Hq : queue wrapping_pipe ++ [66; 67] = [65; 66; 67]) by (vm_compute; reflexivity).
    rewrite Hq in E2. exact E2.
Defined.

Definition empty_pipe : pipe := mkpipe (replicate 512 0) 7 7 1 1.

Lemma pipe_ends_witness :
  exists s1 k, piperead 4096 10 (set_pipe 4096 empty_pipe pipe_machine) = Switch s1 k /\
    (p_state <$> s1.(k_procs) !! 0%nat) = Some SLEEPING.
Proof.
  destruct (pipe_ends 0 0 0 4096 10 empty_pipe zero_proc [] (set_pipe 4096 empty_pipe pipe_machine))
    as (_ & _ & H3).
  - tframe pipe_machine_thr.
  - apply set_pipe_lookup.
  - split_and!; [reflexivity|..]; vm_compute; congruence.
  - reflexivity.
  - destruct H3 as (s1 & k & E & Hp & _); [reflexivity|done|reflexivity|].
    exists s1, k. split; [exact E|]. by rewrite Hp.
Defined.
