(* ===== verification/File.v ===== *)
(** * Open files: file.c, and pipealloc of pipe.c

    A file pointer is an index into [k_files]. *)

From S2P Require Import Prelude State Spinlock Thread CString Cprintf Kalloc Layout Vm Sched Sleeplock.
From S2P Require Import Disk Bio Log Fs Pipe.

Definition file_at (f : nat) : K file :=
  let! s := get in
  match s.(k_files) !! f with
  | Some x => ret x
  | None => panic "ftable: index out of range"
  end.
Definition upd_file (f : nat) (g : file -> file) (s : kernel) : kernel := s<|k_files ::= alter g f|>.
Definition set_file (f : nat) (g : file -> file) : K unit := modify (upd_file f g).

Definition fileinit : K unit := initlock LkFtable.

Definition unused_file (x : file) : bool := x.(f_ref) =? 0.
Definition find_file (s : kernel) : option nat :=
  fst <$> list_find (fun x => unused_file x = true) s.(k_files).
Definition filealloc : K (option nat) :=
  acquire LkFtable ;;;
  let! s := get in
  match find_file s with
  | Some f =>
      set_file f (fun x => x<|f_ref := 1|>) ;;;
      release LkFtable ;;;
      ret (Some f)
  | None =>
      release LkFtable ;;;
      ret None
  end.

Definition filedup (f : nat) : K nat :=
  acquire LkFtable ;;;
  let! x := file_at f in
  if x.(f_ref) <? 1 then panic "filedup"
  else
    set_file f (fun x => x<|f_ref := x.(f_ref) + 1|>) ;;;
    release LkFtable ;;;
    ret f.

(** [f->ip] where the C code dereferences it. *)
Definition the_inode (x : file) : K nat :=
  match x.(f_ip) with
  | Some i => ret i
  | None => panic "null inode"
  end.

Section Code.
Context {P : Patience} {D : BlockDriver} {V : Devices}.

Definition fileclose (f : nat) : K unit :=
  acquire LkFtable ;;;
  let! x := file_at f in
  if x.(f_ref) <? 1 then panic "fileclose"
  else
    set_file f (fun x => x<|f_ref := x.(f_ref) - 1|>) ;;;
    let! ff := file_at f in
    if 0 <? ff.(f_ref) then release LkFtable
    else
      set_file f (fun x => x<|f_ref := 0|><|f_type := FD_NONE|>) ;;;
      release LkFtable ;;;
      match ff.(f_type) with
      | FD_PIPE => pipeclose ff.(f_pipe) (truth ff.(f_writable))
      | FD_INODE =>
          begin_op ;;;
          let! i := the_inode ff in
          iput i ;;;
          end_op
      | FD_NONE => ret tt
      end.

(** The result and what is stored at st. *)
Definition filestat (f : nat) : K (Z * option stat) :=
  let! x := file_at f in
  match x.(f_type) with
  | FD_INODE =>
      ilock x.(f_ip) ;;;
      let! i := the_inode x in
      let! st := stati i in
      iunlock x.(f_ip) ;;;
      ret (0, Some st)
  | _ => ret (-1, None)
  end.

(** The result and the bytes stored at addr. *)
Definition fileread (f : nat) (n : Z) : K (Z * list Z) :=
  let! x := file_at f in
  if x.(f_readable) =? 0 then ret (-1, [])
  else
    match x.(f_type) with
    | FD_PIPE => piperead x.(f_pipe) n
    | FD_INODE =>
        ilock x.(f_ip) ;;;
        let! i := the_inode x in
        let! x := file_at f in
        let! (r, cs) := readi i x.(f_off) (u32 n) in
        (if! 0 <? r then! set_file f (fun x => x<|f_off := u32 (x.(f_off) + r)|>)) ;;;
        iunlock x.(f_ip) ;;;
        ret (r, cs)
    | FD_NONE => panic "fileread"
    end.

(** The most bytes one transaction of filewrite writes. *)
Definition max_write : Z := ((MAXOPBLOCKS - 1 - 1 - 2) / 2) * 512.
(** The value of i when the loop ends. *)
Fixpoint filewrite_loop (fuel : nat) (f : nat) (addr : list Z) (i n : Z) : K Z :=
  match fuel with
  | O => nofuel
  | S fuel' =>
      if negb (i <? n) then ret i
      else
        let n1 := Z.min (n - i) max_write in
        begin_op ;;;
        let! x := file_at f in
        ilock x.(f_ip) ;;;
        let! ip := the_inode x in
        let! x := file_at f in
        let! r := writei ip (take (Z.to_nat n1) (drop (Z.to_nat i) addr)) x.(f_off) (u32 n1) in
        (if! 0 <? r then! set_file f (fun x => x<|f_off := u32 (x.(f_off) + r)|>)) ;;;
        iunlock x.(f_ip) ;;;
        end_op ;;;
        if r <? 0 then ret i
        else if negb (r =? n1) then panic "short filewrite"
        else filewrite_loop fuel' f addr (i + r) n
  end.
(** [addr] is the n bytes of the caller's buffer; every iteration but the last
    writes max_write bytes. *)
Definition filewrite (f : nat) (addr : list Z) (n : Z) : K Z :=
  let! x := file_at f in
  if x.(f_writable) =? 0 then ret (-1)
  else
    match x.(f_type) with
    | FD_PIPE => pipewrite x.(f_pipe) addr n
    | FD_INODE =>
        let! i := filewrite_loop (S (S (Z.to_nat (n / max_write)))) f addr 0 n in
        ret (if i =? n then n else -1)
    | FD_NONE => panic "filewrite"
    end.

(** ** pipealloc

    The contents of the new page are arbitrary: the data of the pipe are what
    memory held there. *)
Definition page_data (a : Z) (s : kernel) : list Z := (fun o => s.(k_mem) (a + o)) <$> seqZ 52 PIPESIZE.
Definition new_pipe (a : Z) (s : kernel) : pipe := mkpipe (page_data a s) 0 0 1 1.
Definition close_opt (f : option nat) : K unit :=
  match f with
  | Some f => fileclose f
  | None => ret tt
  end.
Definition pipe_end (readable : bool) (a : Z) (x : file) : file :=
  x<|f_type := FD_PIPE|><|f_readable := b2z readable|><|f_writable := b2z (negb readable)|><|f_pipe := a|>.
(** The two files, or failure with both closed. *)
Definition pipealloc : K (option (nat * nat)) :=
  let bad f0 f1 := close_opt f0 ;;; close_opt f1 ;;; ret None in
  let! f0 := filealloc in
  match f0 with
  | None => bad None None
  | Some r =>
      let! f1 := filealloc in
      match f1 with
      | None => bad f0 None
      | Some w =>
          let! a := kalloc in
          if a =? 0 then bad f0 f1
          else
            modify (fun s => s<|k_pipes ::= <[a := new_pipe a s]>|>) ;;;
            initlock (LkPipe a) ;;;
            set_file r (pipe_end true a) ;;;
            set_file w (pipe_end false a) ;;;
            ret (Some (r, w))
      end
  end.
End Code.
