(* ===== verification/Proc.v ===== *)
(** * The life of a process: the rest of proc.c

    allocproc, userinit, growproc, fork, exit, wait, forkret and procdump, with
    getcallerpcs of spinlock.c.  The saved registers of a sleeping process are
    not kept, so the program counters procdump prints are those of the frames
    its context last named. *)

From S2P Require Import Prelude State Spinlock Segments Thread CString Cprintf Kalloc Layout Vm Sched Sleeplock.
From S2P Require Import Disk Bio Log Fs Pipe File.

(** ** mmu.h, and the sizes of the structures on the kernel stack *)
Definition TRAPFRAME : Z := 76.
Definition CONTEXT : Z := 20.

(** The addresses of forkret and trapret, which the linker chooses, and the
    image of initcode.S, which the build embeds. *)
Class Image := { forkret_sym : Z; trapret_sym : Z; initcode : list Z }.

Definition set_proc (i : nat) (f : proc -> proc) : K unit := modify (upd_proc i f).
Definition pinit : K unit := initlock LkPtable.

(** ** allocproc *)
Definition unused_slot (p : proc) : bool := bool_decide (p.(p_state) = UNUSED).
Definition find_unused (ps : list proc) : option nat :=
  fst <$> list_find (fun p => unused_slot p = true) ps.

(** The kernel stack: trap frame, return address to trapret, context. *)
Definition stack_tf (kstack : Z) : Z := u32 (kstack + KSTACKSIZE - TRAPFRAME).
Definition stack_ctx (kstack : Z) : Z := u32 (stack_tf kstack - 4 - CONTEXT).

Definition allocproc `{!Image} : K (option nat) :=
  acquire LkPtable ;;;
  let! s := get in
  match find_unused s.(k_procs) with
  | None => release LkPtable ;;; ret None
  | Some i =>
      let pid := s.(k_nextpid) in
      set_proc i (fun p => p<|p_state := EMBRYO|><|p_pid := pid|>) ;;;
      modify (fun s => s<|k_nextpid := s32 (pid + 1)|>) ;;;
      release LkPtable ;;;
      let! kstack := kalloc in
      set_proc i (fun p => p<|p_kstack := kstack|>) ;;;
      if kstack =? 0 then
        set_proc i (fun p => p<|p_state := UNUSED|>) ;;;
        ret None
      else
        set_proc i (fun p => p<|p_tf := stack_tf kstack|>) ;;;
        wr32 (u32 (stack_tf kstack - 4)) trapret_sym ;;;
        set_proc i (fun p => p<|p_context := stack_ctx kstack|>
                              <|p_ctx := zero_context<|cx_eip := forkret_sym|>|>) ;;;
        ret (Some i)
  end.

(** The pointer allocproc returned, where it is not checked. *)
Definition the_proc (p : option nat) : K nat :=
  match p with
  | Some i => ret i
  | None => panic "null process"
  end.

(** ** growproc *)
Definition growproc (n : Z) : K Z :=
  let! cur := curproc in
  let! p := proc_at cur in
  let sz := p.(p_sz) in
  let! sz' :=
    (if 0 <? n then allocuvm p.(p_pgdir) sz (u32 (sz + n))
     else if n <? 0 then deallocuvm p.(p_pgdir) sz (u32 (sz + n))
     else ret sz) in
  if negb (n =? 0) && (sz' =? 0) then ret (-1)
  else
    set_proc cur (fun p => p<|p_sz := sz'|>) ;;;
    switchuvm (Some cur) ;;;
    ret 0.

(** ** fork *)
Definition fork_tickets (parent : Z) : Z := if 10 <? parent then parent else 10.

Fixpoint fork_files (fds : list nat) (cur np : nat) : K unit :=
  match fds with
  | [] => ret tt
  | fd :: fds' =>
      let! p := proc_at cur in
      match p.(p_ofile) !! fd with
      | Some (Some f) =>
          let! f' := filedup f in
          set_proc np (fun p => p<|p_ofile ::= <[fd := Some f']>|>) ;;;
          fork_files fds' cur np
      | _ => fork_files fds' cur np
      end
  end.
(** [*p->cwd] where the C code dereferences it. *)
Definition the_cwd (p : proc) : K nat :=
  match p.(p_cwd) with
  | Some c => ret c
  | None => panic "null inode"
  end.

Definition fork `{!Image} : K Z :=
  let! cur := curproc in
  let! np := allocproc in
  match np with
  | None => ret (-1)
  | Some np =>
      let! p := proc_at cur in
      let! pgdir := copyuvm p.(p_pgdir) p.(p_sz) in
      set_proc np (fun q => q<|p_pgdir := pgdir|>) ;;;
      if pgdir =? 0 then
        let! q := proc_at np in
        kfree q.(p_kstack) ;;;
        set_proc np (fun q => q<|p_kstack := 0|><|p_state := UNUSED|>) ;;;
        ret (-1)
      else
        let! p := proc_at cur in
        set_proc np (fun q => q<|p_sz := p.(p_sz)|><|p_parent := Some cur|><|p_frame := p.(p_frame)|>) ;;;
        set_proc np (fun q => q<|p_ticks := 0|><|p_tickets := fork_tickets p.(p_tickets)|>) ;;;
        set_proc np (fun q => q<|p_frame ::= fun tf => tf<|tf_eax := 0|>|>) ;;;
        fork_files (seq 0 NOFILE) cur np ;;;
        let! c := the_cwd p in
        let! cwd := idup c in
        set_proc np (fun q => q<|p_cwd := Some cwd|>) ;;;
        let! p := proc_at cur in
        set_proc np (fun q => q<|p_name := safestrcpy q.(p_name) p.(p_name) 16|>) ;;;
        let! q := proc_at np in
        acquire LkPtable ;;;
        set_proc np (fun q => q<|p_state := RUNNABLE|>) ;;;
        release LkPtable ;;;
        ret q.(p_pid)
  end.

(** ** exit and wait *)

(** wakeup1 of a process pointer; null is the null channel. *)
Definition wake_proc (q : option nat) (p : proc) : proc :=
  if bool_decide (p.(p_state) = SLEEPING) && bool_decide (p.(p_chan) = ChProc <$> q)
  then p<|p_state := RUNNABLE|> else p.
Definition wakeup1_proc (q : option nat) : K unit :=
  modify (fun s => s<|k_procs ::= fmap (wake_proc q)|>).

(** Pass the children of [cur] among the slots to init. *)
Fixpoint reparent (slots : list nat) (cur : nat) : K unit :=
  match slots with
  | [] => ret tt
  | i :: slots' =>
      let! p := proc_at i in
      let! s := get in
      (if! bool_decide (p.(p_parent) = Some cur) then!
         (set_proc i (fun p => p<|p_parent := s.(k_initproc)|>) ;;;
          if! bool_decide (p.(p_state) = ZOMBIE) then! wakeup1_proc s.(k_initproc))) ;;;
      reparent slots' cur
  end.

(** The end of exit, from the acquire of ptable.lock; does not return. *)
Definition exit_handover {A : Type} (cur : nat) : K A :=
  acquire LkPtable ;;;
  let! p := proc_at cur in
  wakeup1_proc p.(p_parent) ;;;
  reparent (seq 0 NPROC) cur ;;;
  set_proc cur (fun p => p<|p_state := ZOMBIE|>) ;;;
  sched ;;;
  panic "zombie exit".

Definition zombie_child (cur : nat) (p : proc) : bool :=
  bool_decide (p.(p_parent) = Some cur) && bool_decide (p.(p_state) = ZOMBIE).

(** What wait does with the child it found: the caller holds ptable.lock. *)
Definition wait_found (i : nat) : K Z :=
  let! p := proc_at i in
  let pid := p.(p_pid) in
  kfree p.(p_kstack) ;;;
  set_proc i (fun p => p<|p_kstack := 0|>) ;;;
  let! p := proc_at i in
  freevm p.(p_pgdir) ;;;
  set_proc i (fun p => p<|p_pid := 0|>) ;;;
  set_proc i (fun p => p<|p_parent := None|>) ;;;
  set_proc i (fun p => p<|p_name ::= <[0%nat := 0]>|>) ;;;
  set_proc i (fun p => p<|p_killed := 0|>) ;;;
  set_proc i (fun p => p<|p_state := UNUSED|>) ;;;
  release LkPtable ;;;
  ret pid.

(** The scan through the table: the pid it returns from inside the loop, or
    [havekids] at its end. *)
Fixpoint wait_scan (slots : list nat) (cur : nat) (havekids : bool) : K (Z + bool) :=
  match slots with
  | [] => ret (inr havekids)
  | i :: slots' =>
      let! p := proc_at i in
      if negb (bool_decide (p.(p_parent) = Some cur)) then wait_scan slots' cur havekids
      else if bool_decide (p.(p_state) = ZOMBIE) then
        let! pid := wait_found i in
        ret (inl pid)
      else wait_scan slots' cur true
  end.

Fixpoint wait_loop (fuel : nat) (cur : nat) : K Z :=
  match fuel with
  | O => nofuel
  | S fuel' =>
      let! r := wait_scan (seq 0 NPROC) cur false in
      match r with
      | inl pid => ret pid
      | inr havekids =>
          let! c := proc_at cur in
          if negb havekids || truth c.(p_killed) then
            release LkPtable ;;;
            ret (-1)
          else
            sleep (ChProc cur) LkPtable ;;;
            wait_loop fuel' cur
      end
  end.

(** ** getcallerpcs and procdump *)
Fixpoint getcallerpcs (n : nat) (m : mem) (ebp : Z) : list Z :=
  match n with
  | O => []
  | S n' =>
      if (ebp =? 0) || (ebp <? KERNBASE) || (ebp =? 0xffffffff) then replicate n 0
      else load32 m (ebp + 4) :: getcallerpcs n' m (load32 m ebp)
  end.
Fixpoint print_pcs (pc : list Z) : K unit :=
  match pc with
  | [] => ret tt
  | x :: pc' => if x =? 0 then ret tt else cprintf (bytes " %p") [VInt x] ;;; print_pcs pc'
  end.
Definition state_name (st : procstate) : list Z :=
  match st with
  | UNUSED => bytes "unused" | EMBRYO => bytes "embryo" | SLEEPING => bytes "sleep "
  | RUNNABLE => bytes "runble" | RUNNING => bytes "run   " | ZOMBIE => bytes "zombie"
  end.
Fixpoint procdump_loop (slots : list nat) : K unit :=
  match slots with
  | [] => ret tt
  | i :: slots' =>
      let! p := proc_at i in
      (if! negb (bool_decide (p.(p_state) = UNUSED)) then!
         (cprintf (bytes "%d %s %s") [VInt p.(p_pid); VStr (state_name p.(p_state)); VStr p.(p_name)] ;;;
          let! p := proc_at i in
          (if! bool_decide (p.(p_state) = SLEEPING) then!
             (let! s := get in print_pcs (getcallerpcs 10 s.(k_mem) p.(p_ctx).(cx_ebp)))) ;;;
          cprintf [newline] [])) ;;;
      procdump_loop slots'
  end.
Definition procdump : K unit := procdump_loop (seq 0 NPROC).

Section Code.
Context {P : Patience} {D : BlockDriver} {V : Devices} {I : Image}.

Definition user_frame : trapframe :=
  let ds := Z.lor (Z.shiftl SEG_UDATA 3) DPL_USER in
  zero_frame<|tf_cs := Z.lor (Z.shiftl SEG_UCODE 3) DPL_USER|><|tf_ds := ds|><|tf_es := ds|><|tf_ss := ds|>
    <|tf_eflags := FL_IF|><|tf_esp := PGSIZE|><|tf_eip := 0|>.
Definition userinit : K unit :=
  let! p := allocproc in
  modify (fun s => s<|k_initproc := p|>) ;;;
  let! i := the_proc p in
  let! pgdir := setupkvm in
  set_proc i (fun p => p<|p_pgdir := pgdir|>) ;;;
  if pgdir =? 0 then panic "userinit: out of memory?"
  else
    inituvm pgdir initcode (Z.of_nat (length initcode)) ;;;
    set_proc i (fun p => p<|p_sz := PGSIZE|><|p_frame := user_frame|>) ;;;
    set_proc i (fun p => p<|p_ticks := 0|><|p_tickets := 10|>) ;;;
    set_proc i (fun p => p<|p_name := safestrcpy p.(p_name) (bytes "initcode") 16|>) ;;;
    let! cwd := namei (bytes "/") in
    set_proc i (fun p => p<|p_cwd := cwd|>) ;;;
    acquire LkPtable ;;;
    set_proc i (fun p => p<|p_state := RUNNABLE|>) ;;;
    release LkPtable.

Fixpoint exit_files (fds : list nat) (cur : nat) : K unit :=
  match fds with
  | [] => ret tt
  | fd :: fds' =>
      let! p := proc_at cur in
      match p.(p_ofile) !! fd with
      | Some (Some f) =>
          fileclose f ;;;
          set_proc cur (fun p => p<|p_ofile ::= <[fd := None]>|>) ;;;
          exit_files fds' cur
      | _ => exit_files fds' cur
      end
  end.
(** Does not return. *)
Definition exit {A : Type} : K A :=
  let! cur := curproc in
  let! s := get in
  if bool_decide (s.(k_initproc) = Some cur) then panic "init exiting"
  else
    exit_files (seq 0 NOFILE) cur ;;;
    begin_op ;;;
    let! p := proc_at cur in
    let! c := the_cwd p in
    iput c ;;;
    end_op ;;;
    set_proc cur (fun p => p<|p_cwd := None|>) ;;;
    exit_handover cur.

Definition wait : K Z :=
  let! cur := curproc in
  acquire LkPtable ;;;
  wait_loop (S patience) cur.

Definition forkret : K unit :=
  release LkPtable ;;;
  let! s := get in
  if! truth s.(k_first) then!
    (modify (fun s => s<|k_first := 0|>) ;;;
     iinit ROOTDEV ;;;
     initlog ROOTDEV).
End Code.

(** ** Process identifiers

    The pids in use are below nextpid, and no two slots share one. *)
Definition pids_ok (ps : list proc) (next : Z) : Prop :=
  (forall i p, ps !! i = Some p -> 0 <= p.(p_pid) < next) /\
  (forall i j p q, ps !! i = Some p -> ps !! j = Some q -> p.(p_pid) = q.(p_pid) -> p.(p_pid) <> 0 -> i = j).

Lemma pids_ok_insert ps next n p :
  0 < next -> pids_ok ps next -> p.(p_pid) = next -> pids_ok (<[n := p]> ps) (next + 1).
Proof.
  intros Hn [Hlt Huniq] Hp. split.
  - intros i q Hi. apply list_lookup_insert_Some in Hi as [(-> & <- & _)|[_ Hi]]; [lia|]. specialize (Hlt _ _ Hi). lia.
  - intros i j q r Hi Hj Heq Hne.
    apply list_lookup_insert_Some in Hi as [(-> & <- & _)|[_ Hi]];
      apply list_lookup_insert_Some in Hj as [(-> & <- & _)|[_ Hj]]; [done|..].
    + specialize (Hlt _ _ Hj). lia.
    + specialize (Hlt _ _ Hi). lia.
    + by eapply Huniq.
Qed.

Lemma find_unused_Some ps n :
  find_unused ps = Some n -> exists p, ps !! n = Some p /\ p.(p_state) = UNUSED.
Proof.
  unfold find_unused. intros ([n' p] & H & ->)%fmap_Some. apply list_find_Some in H as (Hl & Hp & _).
  exists p. split; [done|]. unfold unused_slot in Hp. by apply bool_decide_eq_true in Hp.
Qed.

(** The new process, from the slot [p]. *)
Definition born `{!Image} (pid kstack : Z) (p : proc) : proc :=
  p<|p_state := EMBRYO|><|p_pid := pid|><|p_kstack := kstack|><|p_tf := stack_tf kstack|>
   <|p_context := stack_ctx kstack|><|p_ctx := zero_context<|cx_eip := forkret_sym|>|>.

Lemma allocproc_full `{I : Image} (i : nat) (q : option nat) (s : kernel) :
  running i q ∅ s -> find_unused s.(k_procs) = None -> exists s', allocproc s = Ret None s' /\ running i q ∅ s' /\ quiet s s'.
Proof.
  intros Hr Hn. destruct (acquire_ex _ _ _ LkPtable _ Hr (not_elem_of_empty _)) as (s1 & E1 & Hq1 & Hr1).
  destruct (release_ex _ _ _ LkPtable _ Hr1 ltac:(set_solver)) as (s2 & E2 & Hq2 & Hr2).
  replace (({[LkPtable]} ∪ ∅) ∖ {[LkPtable]}) with (∅ : gset lockid) in Hr2 by set_solver.
  exists s2. split_and!; [|done|by eapply quiet_trans].
  unfold allocproc. kret_by exact E1. kret. rewrite (quiet_procs _ _ Hq1), Hn. by kret_by exact E2.
Qed.

Section Alloc.
Context {I : Image} (i : nat) (q : option nat) (s : kernel) (n : nat) (p : proc).
Hypothesis Hr : running i q ∅ s.
Hypothesis Hn : find_unused s.(k_procs) = Some n.
Hypothesis Hp : s.(k_procs) !! n = Some p.

(** allocproc up to the allocation of the stack. *)
Lemma allocproc_slot l :
  free_rep s l ->
  exists s1, running i q ∅ s1 /\
    s1.(k_procs) = <[n := p<|p_state := EMBRYO|><|p_pid := s.(k_nextpid)|>]> s.(k_procs) /\
    s1.(k_nextpid) = s32 (s.(k_nextpid) + 1) /\
    quiet (s<|k_procs := s1.(k_procs)|><|k_nextpid := s1.(k_nextpid)|><|k_freelist := hd 0 (tail l)|>) s1 /\
    allocproc s =
      (set_proc n (fun p => p<|p_kstack := hd 0 l|>) ;;;
       if hd 0 l =? 0 then set_proc n (fun p => p<|p_state := UNUSED|>) ;;; ret None
       else
         set_proc n (fun p => p<|p_tf := stack_tf (hd 0 l)|>) ;;;
         wr32 (u32 (stack_tf (hd 0 l) - 4)) trapret_sym ;;;
         set_proc n (fun p => p<|p_context := stack_ctx (hd 0 l)|>
                               <|p_ctx := zero_context<|cx_eip := forkret_sym|>|>) ;;;
         ret (Some n))%xv6 s1.
Proof.
  intros Hrep. unfold allocproc.
  destruct (acquire_ex _ _ _ LkPtable _ Hr (not_elem_of_empty _)) as (s1 & E1 & Hq1 & Hr1).
  kret_by exact E1. kret. rewrite (quiet_procs _ _ Hq1), Hn. kret. kret.
  set (s2 := (upd_proc n _ s1)<|k_nextpid := _|>).
  assert (Hr2 : running i q ({[LkPtable]} ∪ ∅) s2) by kframe Hr1.
  destruct (release_ex _ _ _ LkPtable _ Hr2 ltac:(set_solver)) as (s3 & E3 & Hq3 & Hr3). kret_by exact E3.
  replace (({[LkPtable]} ∪ ∅) ∖ {[LkPtable]}) with (∅ : gset lockid) in Hr3 by set_solver.
  assert (Hnext : k_nextpid s1 = k_nextpid s) by (by destruct Hq1 as (? & ? & ? & ->)).
  assert (Hps3 : k_procs s3 = <[n := p<|p_state := EMBRYO|><|p_pid := k_nextpid s|>]> (k_procs s)).
  { rewrite (quiet_procs _ _ Hq3). unfold s2, upd_proc. cbn -[alter].
    by rewrite (quiet_procs _ _ Hq1), Hnext, (alter_insert _ _ _ p). }
  assert (Hrep3 : free_rep s3 l).
  { destruct Hq3 as (? & ? & ? & ->), Hq1 as (? & ? & ? & Hs1). unfold s2. by rewrite Hs1. }
  destruct (kalloc_ex i q ∅ l s3 Hr3 (not_elem_of_empty _) Hrep3) as (s4 & E4 & Hq4 & Hr4).
  exists s4. split_and!; [done|by rewrite (quiet_procs _ _ Hq4)| | |by rewrite (bind_ret _ _ _ _ _ E4)].
  - destruct Hq4 as (? & ? & ? & ->), Hq3 as (? & ? & ? & ->). cbn. by rewrite Hnext.
  - destruct Hq4 as (b4 & c4 & l4 & ->), Hq3 as (b3 & c3 & l3 & ->), Hq1 as (b1 & c1 & l1 & ->). by exists b4, c4, l4.
Qed.
End Alloc.

(** allocproc.  With every slot in use it returns null and changes nothing.
    Otherwise, if a page is free, it returns the first unused slot as an EMBRYO
    with the next pid, a kernel stack, and a context that starts in forkret, and
    changes no other slot; without a page it returns null and the slot is unused
    again.  In all cases the pids in the table stay distinct and below nextpid,
    so the new pid differs from that of every other process. *)
Theorem allocproc_fresh {I : Image} (i : nat) (q : option nat) (l : list Z) (s : kernel) :
  running i q ∅ s -> free_rep s l -> pids_ok s.(k_procs) s.(k_nextpid) ->
  0 < s.(k_nextpid) < 2 ^ 31 - 1 ->
  exists r s', allocproc s = Ret r s' /\ running i q ∅ s' /\ pids_ok s'.(k_procs) s'.(k_nextpid) /\
    match find_unused s.(k_procs), l with
    | None, _ => r = None /\ quiet s s'
    | Some n, [] => r = None /\ exists p, s'.(k_procs) = <[n := p]> s.(k_procs) /\ p.(p_state) = UNUSED
    | Some n, kstack :: _ => r = Some n /\ exists p, s.(k_procs) !! n = Some p /\
        s'.(k_procs) = <[n := born s.(k_nextpid) kstack p]> s.(k_procs)
    end.
Proof.
  intros Hr Hrep Hpids Hnext. destruct (find_unused (k_procs s)) as [n|] eqn:Hn.
  - destruct (find_unused_Some _ _ Hn) as (p & Hp & _).
    destruct (allocproc_slot i q s n p Hr Hn Hp l Hrep) as (s1 & Hr1 & Hps1 & Hn1 & _ & ->).
    rewrite s32_small in Hn1 by lia.
    destruct l as [|kstack l]; cbn [hd].
    + kret. cbn [Z.eqb]. kret. eexists _, _. split; [reflexivity|]. split; [kframe Hr1|].
      unfold upd_proc. cbn -[alter]. rewrite Hps1, !alter_insert_eq, Hn1.
      split; [apply pids_ok_insert; [lia|done..]|]. split; [done|]. by eexists.
    + kret. destruct Hrep as [(_ & Hpage & _) _]. apply page_ok_not_null in Hpage.
      rewrite (proj2 (Z.eqb_neq _ _) Hpage). kret. kret. kret.
      eexists _, _. split; [reflexivity|]. split; [kframe Hr1|].
      unfold upd_proc. cbn -[alter]. rewrite Hps1, !alter_insert_eq, Hn1.
      split; [apply pids_ok_insert; [lia|done..]|]. split; [done|]. by exists p.
  - destruct (allocproc_full i q s Hr Hn) as (s2 & E2 & Hr2 & Hq).
    exists None, s2. split; [exact E2|split; [done|]]. split; [|done]. by destruct Hq as (? & ? & ? & ->).
Qed.

#[local] Instance image : Image := {| forkret_sym := 0x80103000; trapret_sym := 0x80105000; initcode := [] |}.
(** One free page, an empty process table. *)
Definition one_page : kernel :=
  (loaded 0x80110000 0x80108000)<|k_freelist := 0x80200000|>.

Lemma one_page_rep : free_rep one_page [0x80200000].
Proof.
  split; [|apply list.NoDup_singleton]. cbn. unfold page_ok, KERNBASE, PHYSTOP. split_and!; (done || lia).
Qed.

Lemma one_page_running : running 0 None ∅ one_page.
Proof. kframe (loaded_running 0x80110000 0x80108000). Qed.

Lemma one_page_pids : pids_ok one_page.(k_procs) 1.
Proof.
  assert (H : forall i p, one_page.(k_procs) !! i = Some p -> p = zero_proc).
  { intros i p Hi. apply list_elem_of_lookup_2 in Hi. by apply elem_of_replicate in Hi as [-> _]. }
  split; [by intros i p ->%H|]. by intros i j p r ->%H ->%H.
Qed.

Lemma allocproc_fresh_witness :
  exists s', allocproc one_page = Ret (Some 0%nat) s' /\
    s'.(k_procs) = <[0%nat := born 1 0x80200000 zero_proc]> one_page.(k_procs).
Proof.
  destruct (allocproc_fresh 0 None [0x80200000] one_page one_page_running one_page_rep one_page_pids)
    as (r & s' & E & _ & _ & H); [by vm_compute|].
  assert (Hf : find_unused (k_procs one_page) = Some 0%nat) by reflexivity. rewrite Hf in H.
  destruct H as (-> & p & Hp & Hps). exists s'. split; [exact E|]. rewrite Hps.
  change (Some zero_proc = Some p) in Hp. by injection Hp as <-.
Defined.

(** kill(0) reaches a process that does not exist yet.  A slot that is not
    in use has pid 0, so kill(0) finds it, marks it killed and reports success;
    allocproc does not clear the mark, and the next process created in the slot
    is born killed. *)
Theorem kill_zero_marks_unborn {I : Image} (i : nat) (q : option nat) (n : nat) (p : proc) (kstack : Z)
    (l : list Z) (s : kernel) :
  running i q ∅ s -> free_rep s (kstack :: l) -> s.(k_procs) !! n = Some p ->
  find_pid 0 s.(k_procs) = Some n -> find_unused s.(k_procs) = Some n ->
  exists s1 s2, kill 0 s = Ret 0 s1 /\ allocproc s1 = Ret (Some n) s2 /\
    s2.(k_procs) !! n = Some (born s.(k_nextpid) kstack (p<|p_killed := 1|>)).
Proof.
  intros Hr Hrep Hp Hpid Hun.
  assert (Hlen : (n < length (k_procs s))%nat) by (by eapply lookup_lt_Some).
  assert (Hst : p_state p = UNUSED).
  { destruct (find_unused_Some _ _ Hun) as (p' & Hp' & Hs'). by simplify_eq. }
  assert (Hk : kill_proc p = p<|p_killed := 1|>) by (unfold kill_proc; cbn; by rewrite Hst).
  destruct (acquire_ex _ _ _ LkPtable _ Hr (not_elem_of_empty _)) as (s1 & E1 & Hq1 & Hr1).
  set (s2 := upd_proc n kill_proc s1). assert (Hr2 : running i q ({[LkPtable]} ∪ ∅) s2) by kframe Hr1.
  destruct (release_ex _ _ _ LkPtable _ Hr2 ltac:(set_solver)) as (s3 & E3 & Hq3 & Hr3).
  replace (({[LkPtable]} ∪ ∅) ∖ {[LkPtable]}) with (∅ : gset lockid) in Hr3 by set_solver.
  assert (Hps3 : k_procs s3 = <[n := p<|p_killed := 1|>]> (k_procs s)).
  { rewrite (quiet_procs _ _ Hq3). unfold s2, upd_proc. cbn -[alter].
    by rewrite (quiet_procs _ _ Hq1), (alter_insert _ _ _ p), Hk. }
  assert (Hun3 : find_unused (k_procs s3) = Some n).
  { rewrite Hps3. unfold find_unused in *. apply fmap_Some in Hun as ([n' p'] & Hf & Heq). cbn in Heq. subst n'.
    apply list_find_Some in Hf as (_ & _ & Hbefore). apply fmap_Some. exists (n, p<|p_killed := 1|>). split; [|done].
    apply list_find_Some. split_and!; [by apply list_lookup_insert_eq| |].
    - unfold unused_slot. cbn. by rewrite Hst.
    - intros j r Hj Hlt. rewrite list_lookup_insert_ne in Hj by lia. by apply (Hbefore j r). }
  assert (Hrep3 : free_rep s3 (kstack :: l)).
  { destruct Hq3 as (? & ? & ? & ->), Hq1 as (? & ? & ? & Hs1). unfold s2. by rewrite Hs1. }
  assert (Hnext : k_nextpid s3 = k_nextpid s).
  { destruct Hq3 as (? & ? & ? & ->), Hq1 as (? & ? & ? & Hs1). unfold s2. by rewrite Hs1. }
  assert (Hp3 : k_procs s3 !! n = Some (p<|p_killed := 1|>)) by (rewrite Hps3; by apply list_lookup_insert_eq).
  destruct (allocproc_slot i q s3 n _ Hr3 Hun3 Hp3 _ Hrep3) as (s4 & Hr4 & Hps4 & _ & _ & E4).
  eexists s3, _. split_and!.
  - unfold kill. kret_by exact E1. kret. rewrite (quiet_procs _ _ Hq1), Hpid. kret. by kret_by exact E3.
  - rewrite E4. destruct Hrep as [(_ & Hpage & _) _]. apply page_ok_not_null in Hpage. cbn [hd].
    kret. rewrite (proj2 (Z.eqb_neq _ _) Hpage). kret. kret. kret. reflexivity.
  - unfold upd_proc. cbn -[alter]. rewrite Hps4, !alter_insert_eq, Hnext.
    by rewrite list_lookup_insert_eq by (by rewrite Hps3, length_insert).
Qed.

Lemma kill_zero_marks_unborn_witness :
  exists s1 s2, kill 0 one_page = Ret 0 s1 /\ allocproc s1 = Ret (Some 0%nat) s2 /\
    s2.(k_procs) !! 0%nat = Some (born 1 0x80200000 (zero_proc<|p_killed := 1|>)).
Proof.
  exact (kill_zero_marks_unborn 0 None 0 zero_proc 0x80200000 [] one_page one_page_running one_page_rep
    eq_refl eq_refl eq_refl).
Defined.

(** ** exit *)

Definition adopt (init : option nat) (cur : nat) (p : proc) : proc :=
  if bool_decide (p.(p_parent) = Some cur) then p<|p_parent := init|> else p.

Lemma wake_adopt o init cur p : wake_proc o (adopt init cur p) = adopt init cur (wake_proc o p).
Proof.
  unfold wake_proc, adopt. destruct (bool_decide (p_parent p = Some cur)) eqn:E; cbn.
  - destruct (_ && _); cbn; by rewrite E.
  - destruct (_ && _); cbn; by rewrite E.
Qed.

Lemma zombie_wake cur o p : zombie_child cur (wake_proc o p) = zombie_child cur p.
Proof.
  unfold zombie_child, wake_proc. destruct (bool_decide (p_state p = SLEEPING)) eqn:E; cbn [andb]; [|done].
  destruct (bool_decide (p_chan p = _)); [|done]. cbn. apply bool_decide_eq_true in E. rewrite E.
  by destruct (bool_decide (p_parent p = _)).
Qed.

(** A slot after the loop: a child has a new parent, and init was woken if one
    of the children is a zombie. *)
Definition slot_after (init : option nat) (cur : nat) (woken child : bool) (p : proc) : proc :=
  (if woken then wake_proc init else id) ((if child then adopt init cur else id) p).
Definition abandoned_zombie (cur : nat) (slots : list nat) (ps : list proc) : bool :=
  existsb (fun i => match ps !! i with Some p => zombie_child cur p | None => false end) slots.

Lemma wake_idemp o p : wake_proc o (wake_proc o p) = wake_proc o p.
Proof. unfold wake_proc at 2 3. destruct (_ && _) eqn:E; [done|]. unfold wake_proc. by rewrite E. Qed.

Lemma abandoned_ext cur slots ps ps' :
  (forall j, j ∈ slots -> zombie_child cur <$> ps' !! j = zombie_child cur <$> ps !! j) ->
  abandoned_zombie cur slots ps' = abandoned_zombie cur slots ps.
Proof.
  unfold abandoned_zombie. induction slots as [|i slots IH]; intros H; [done|]. cbn [existsb]. rewrite IH by (intros; apply H; by right). f_equal.
  specialize (H i ltac:(left)). destruct (ps' !! i), (ps !! i); naive_solver.
Qed.

Lemma slot_after_wake init cur w child p :
  slot_after init cur w child (wake_proc init p) = slot_after init cur true child p.
Proof.
  unfold slot_after. destruct child; cbn.
  - rewrite <- wake_adopt. destruct w; [apply wake_idemp|done].
  - destruct w; [apply wake_idemp|done].
Qed.

(** One iteration of the loop. *)
Lemma reparent_step i cur s p :
  s.(k_procs) !! i = Some p ->
  exists ps1, (forall slots, reparent (i :: slots) cur s = reparent slots cur (s<|k_procs := ps1|>)) /\
    length ps1 = length s.(k_procs) /\
    forall j, ps1 !! j =
      slot_after s.(k_initproc) cur (zombie_child cur p) (bool_decide (j = i)) <$> s.(k_procs) !! j.
Proof.
  intros Hp. set (init := k_initproc s).
  set (ps1 := if bool_decide (p_parent p = Some cur)
              then alter (fun p => p<|p_parent := init|>) i (k_procs s) else k_procs s).
  exists (if zombie_child cur p then wake_proc init <$> ps1 else ps1). split_and!.
  - intros slots. cbn [reparent]. kret_by (unfold proc_at; kret; by rewrite Hp). kret.
    unfold ps1, zombie_child. destruct (bool_decide (p_parent p = Some cur)); cbn [andb]; [|by kret].
    destruct (bool_decide (p_state p = ZOMBIE)); kret_by (by kret); done.
  - assert (length ps1 = length (k_procs s)) by (unfold ps1; destruct (bool_decide _); by rewrite ?length_alter).
    destruct (zombie_child cur p); by rewrite ?length_fmap.
  - intros j. unfold slot_after.
    assert (H1 : ps1 !! j = (if bool_decide (j = i) then adopt init cur else id) <$> k_procs s !! j).
    { unfold ps1. destruct (decide (j = i)) as [->|Hj];
        [rewrite (bool_decide_eq_true_2 (i = i)) by done|rewrite (bool_decide_eq_false_2 (j = i)) by done].
      - rewrite Hp. unfold adopt. cbn. destruct (bool_decide (p_parent p = Some cur)) eqn:E.
        + by rewrite list_lookup_alter_eq, Hp.
        + done.
      - rewrite option_fmap_id. destruct (bool_decide (p_parent p = Some cur)); [|done].
        by rewrite list_lookup_alter_ne. }
    destruct (zombie_child cur p); [rewrite list_lookup_fmap|]; rewrite H1; by destruct (k_procs s !! j).
Qed.

Lemma reparent_ok cur slots : forall s,
  NoDup slots -> Forall (fun i => i < length s.(k_procs))%nat slots ->
  exists ps', reparent slots cur s = Ret tt (s<|k_procs := ps'|>) /\
    forall j, ps' !! j = slot_after s.(k_initproc) cur (abandoned_zombie cur slots s.(k_procs))
      (bool_decide (j ∈ slots)) <$> s.(k_procs) !! j.
Proof.
  induction slots as [|i slots IH]; intros s Hnd Hlen.
  - exists (k_procs s). split; [done|]. intros j. rewrite bool_decide_eq_false_2 by apply not_elem_of_nil.
    by destruct (k_procs s !! j).
  - apply list.NoDup_cons in Hnd as [Hi Hnd]. apply list.Forall_cons in Hlen as [Hlt Hlen].
    destruct (lookup_lt_is_Some_2 _ _ Hlt) as [p Hp].
    destruct (reparent_step i cur s p Hp) as (ps1 & Hstep & Hl1 & Hps1). rewrite Hstep.
    destruct (IH (s<|k_procs := ps1|>) Hnd) as (ps' & E & Hps'); [cbn; by rewrite Hl1|].
    exists ps'. split; [exact E|]. intros j. rewrite Hps'. cbn [k_procs k_initproc setf set_k_procs]. rewrite Hps1.
    rewrite (abandoned_ext cur slots (k_procs s) ps1).
    2:{ intros j' Hj'. rewrite Hps1, bool_decide_eq_false_2 by (intros ->; done). unfold slot_after.
        destruct (k_procs s !! j'); [|done]. cbn. f_equal.
        destruct (zombie_child cur p); [apply zombie_wake|done]. }
    replace (abandoned_zombie cur (i :: slots) (k_procs s))
      with (zombie_child cur p || abandoned_zombie cur slots (k_procs s))
      by (unfold abandoned_zombie; cbn [existsb]; by rewrite Hp).
    destruct (k_procs s !! j) as [r|]; [|done]. cbn [fmap option_fmap option_map]. f_equal.
    assert (Hin : bool_decide (j ∈ i :: slots) = bool_decide (j = i) || bool_decide (j ∈ slots)).
    { rewrite <- bool_decide_or. apply bool_decide_ext. by rewrite elem_of_cons. }
    assert (Hex : j = i -> bool_decide (j ∈ slots) = false) by (intros ->; by apply bool_decide_eq_false_2).
    rewrite Hin. destruct (zombie_child cur p); cbn [orb]; [unfold slot_after at 2; rewrite slot_after_wake|];
      unfold slot_after; destruct (bool_decide_reflect (j = i)) as [Hj|Hj]; by rewrite ?(Hex Hj).
Qed.

Lemma abandoned_all cur ps :
  abandoned_zombie cur (seq 0 (length ps)) ps = existsb (zombie_child cur) ps.
Proof.
  unfold abandoned_zombie. apply eq_true_iff_eq. rewrite !existsb_exists. split.
  - intros (i & _ & Hi). destruct (ps !! i) as [p|] eqn:Hp; [|done]. exists p. split; [|done].
    by apply list_elem_of_In, (list_elem_of_lookup_2 _ i).
  - intros (p & Hp & Hz). apply list_elem_of_In, list_elem_of_lookup_1 in Hp as [i Hi]. exists i.
    split; [|by rewrite Hi]. apply list_elem_of_In, elem_of_seq. apply lookup_lt_Some in Hi. lia.
Qed.

Lemma wake_fields o p :
  p_parent (wake_proc o p) = p_parent p /\ p_pid (wake_proc o p) = p_pid p /\
  p_chan (wake_proc o p) = p_chan p /\
  p_state (wake_proc o p) =
    if bool_decide (p.(p_state) = SLEEPING) && bool_decide (p.(p_chan) = ChProc <$> o)
    then RUNNABLE else p.(p_state).
Proof. unfold wake_proc. by destruct (_ && _). Qed.

Lemma adopt_fields init cur p :
  p_parent (adopt init cur p) = (if bool_decide (p.(p_parent) = Some cur) then init else p.(p_parent)) /\
  p_pid (adopt init cur p) = p_pid p /\ p_chan (adopt init cur p) = p_chan p /\
  p_state (adopt init cur p) = p_state p.
Proof. unfold adopt. by destruct (bool_decide _). Qed.

(** The processes exit wakes: whoever waits for the exiting process's parent
    pointer, and init's waiters if a zombie child is passed to init. *)
Definition wakes (s : kernel) (p : nat) (pr r : proc) : bool :=
  bool_decide (r.(p_state) = SLEEPING) &&
  (bool_decide (r.(p_chan) = ChProc <$> pr.(p_parent)) ||
   existsb (zombie_child p) s.(k_procs) && bool_decide (r.(p_chan) = ChProc <$> s.(k_initproc))).

Lemma slot_exit s p pr r :
  let r' := slot_after s.(k_initproc) p (existsb (zombie_child p) s.(k_procs)) true (wake_proc pr.(p_parent) r) in
  r'.(p_parent) = (if bool_decide (r.(p_parent) = Some p) then s.(k_initproc) else r.(p_parent)) /\
  r'.(p_pid) = r.(p_pid) /\ r'.(p_state) = if wakes s p pr r then RUNNABLE else r.(p_state).
Proof.
  intros r'. destruct (wake_fields (p_parent pr) r) as (Wp & Wi & Wc & Ws).
  destruct (adopt_fields (k_initproc s) p (wake_proc (p_parent pr) r)) as (Ap & Ai & Ac & As).
  rewrite Wp in Ap. unfold r', slot_after, wakes. destruct (existsb _ _); cbn [andb].
  - destruct (wake_fields (k_initproc s) (adopt (k_initproc s) p (wake_proc (p_parent pr) r)))
      as (Xp & Xi & Xc & Xs).
    rewrite Xp, Xi, Xs, Ap, Ai, As, Ac, Wi, Wc, Ws. split_and!; [done..|].
    destruct (bool_decide (p_state r = SLEEPING)) eqn:E; cbn [andb]; [|by rewrite E].
    destruct (bool_decide (p_chan r = ChProc <$> p_parent pr)); cbn [andb orb]; [done|].
    rewrite E. by destruct (bool_decide (p_chan r = _)).
  - cbn [id]. rewrite Ap, Ai, As, Wi, Ws, orb_false_r. done.
Qed.

(** the end of exit.  When the exiting process gives up the processor for
    the last time it is a ZOMBIE, ptable.lock is the only lock held, each of its
    children has init as its parent, its own parent (if asleep in wait) is
    runnable, and so is init if one of the children passed to it is already a
    zombie; no other process changes state and no pid changes.  Were the
    process ever resumed, it would panic instead of returning. *)
Theorem exit_hands_over {A : Type} (i p : nat) (pr : proc) (s : kernel) :
  running i (Some p) ∅ s -> s.(k_procs) !! p = Some pr -> length s.(k_procs) = NPROC ->
  exists s1 k, @exit_handover A p s = Switch s1 k /\ running i (Some p) {[LkPtable]} s1 /\
    (forall j r, s.(k_procs) !! j = Some r -> exists r', s1.(k_procs) !! j = Some r' /\
       r'.(p_pid) = r.(p_pid) /\
       r'.(p_parent) = (if bool_decide (r.(p_parent) = Some p) then s.(k_initproc) else r.(p_parent)) /\
       r'.(p_state) = (if bool_decide (j = p) then ZOMBIE else if wakes s p pr r then RUNNABLE else r.(p_state))) /\
    forall i2 s2, running i2 (Some p) {[LkPtable]} s2 -> exists s3, k s2 = Panic "zombie exit" s3.
Proof.
  intros Hr Hp Hlen. unfold exit_handover.
  destruct (acquire_ex _ _ _ LkPtable _ Hr (not_elem_of_empty _)) as (s1 & E1 & Hq1 & Hr1). kret_by exact E1.
  rewrite union_empty_r_L in Hr1. pose proof (quiet_procs _ _ Hq1) as Hps1.
  kret_by (unfold proc_at; kret; by rewrite Hps1, Hp). kret.
  set (s2 := s1<|k_procs ::= fmap (wake_proc (p_parent pr))|>).
  assert (Hps2 : k_procs s2 = wake_proc (p_parent pr) <$> k_procs s) by (unfold s2; cbn; by rewrite Hps1).
  assert (Hini : k_initproc s2 = k_initproc s) by (unfold s2; by destruct Hq1 as (? & ? & ? & ->)).
  destruct (reparent_ok p (seq 0 NPROC) s2) as (ps' & E' & Hps'); [apply list.NoDup_seq| |].
  { apply Forall_forall. intros j Hj. apply list_elem_of_In, elem_of_seq in Hj. rewrite Hps2, length_fmap. lia. }
  kret_by exact E'. kret. set (s3 := upd_proc p _ _).
  assert (Hz : abandoned_zombie p (seq 0 NPROC) (k_procs s2) = existsb (zombie_child p) (k_procs s)).
  { rewrite (abandoned_ext p _ (k_procs s)), <- Hlen; [apply abandoned_all|]. intros j _.
    rewrite Hps2, list_lookup_fmap. destruct (k_procs s !! j); [|done]. cbn. by rewrite zombie_wake. }
  assert (Hslot : forall j r, k_procs s !! j = Some r -> ps' !! j =
    Some (slot_after (k_initproc s) p (existsb (zombie_child p) (k_procs s)) true (wake_proc (p_parent pr) r))).
  { intros j r Hj. rewrite Hps', bool_decide_eq_true_2.
    - by rewrite Hz, Hini, Hps2, list_lookup_fmap, Hj.
    - apply lookup_lt_Some in Hj. apply elem_of_seq. lia. }
  assert (Hr3 : running i (Some p) {[LkPtable]} s3) by kframe Hr1.
  destruct (sched_switches i p ((slot_after (k_initproc s) p (existsb (zombie_child p) (k_procs s)) true
    (wake_proc (p_parent pr) pr))<|p_state := ZOMBIE|>) s3 Hr3) as (s4 & k & E4 & Hq4 & Hr4 & Hk); [|done|].
  { unfold s3, upd_proc. cbn -[alter]. by rewrite list_lookup_alter_eq, (Hslot p pr). }
  unfold bind at 1. rewrite E4. cbn [obind]. eexists s4, _. split; [reflexivity|]. split; [done|]. split.
  - intros j r Hj. rewrite (quiet_procs _ _ Hq4). unfold s3, upd_proc. cbn -[alter].
    destruct (slot_exit s p pr r) as (Hpar & Hpid & Hst). destruct (bool_decide_reflect (j = p)) as [->|Hjp].
    + rewrite list_lookup_alter_eq, (Hslot p r Hj). eexists. by split_and!.
    + rewrite list_lookup_alter_ne, (Hslot j r Hj) by done. eexists. by split_and!.
  - intros i2 s5 Hr5. destruct (runs_inv _ _ (Hk i2 (Some p) _ s5 Hr5 (non_empty_singleton_L _))) as (a & s6 & E6 & _).
    rewrite E6. by eexists.
Qed.

(** Slot 1 exits: its parent 0 (init) waits, its child 2 is a zombie. *)
Definition exit_machine : kernel :=
  (loaded 0 0)<|k_cpus := [boot_cpu<|c_proc := Some 1%nat|>]|><|k_initproc := Some 0%nat|>
    <|k_procs := zero_proc<|p_pid := 1|><|p_state := SLEEPING|><|p_chan := Some (ChProc 0)|> ::
                 zero_proc<|p_pid := 2|><|p_state := RUNNING|><|p_parent := Some 0%nat|> ::
                 zero_proc<|p_pid := 3|><|p_state := ZOMBIE|><|p_parent := Some 1%nat|> ::
                 replicate 61 zero_proc|>.

Lemma exit_hands_over_witness :
  exists s1 k, @exit_handover unit 1 exit_machine = Switch s1 k /\
    p_state <$> s1.(k_procs) !! 0%nat = Some RUNNABLE /\ p_state <$> s1.(k_procs) !! 1%nat = Some ZOMBIE /\
    p_parent <$> s1.(k_procs) !! 2%nat = Some (Some 0%nat).
Proof.
  assert (Hr : running 0 (Some 1%nat) ∅ exit_machine).
  { eexists. split_and!; [done..| |].
    - by intros lk ?%not_elem_of_empty.
    - intros lk _. unfold lock_of. cbn. by rewrite lookup_empty. }
  destruct (@exit_hands_over unit 0 1 _ exit_machine Hr eq_refl eq_refl) as (s1 & k & E & _ & H & _).
  exists s1, k. split; [exact E|].
  destruct (H 0%nat _ eq_refl) as (r0 & L0 & _ & _ & H0). destruct (H 1%nat _ eq_refl) as (r1 & L1 & _ & _ & H1).
  destruct (H 2%nat _ eq_refl) as (r2 & L2 & _ & H2 & _). rewrite L0, L1, L2.
  split_and!.
  - transitivity (Some (p_state r0)); [reflexivity|]. rewrite H0. vm_compute. reflexivity.
  - transitivity (Some (p_state r1)); [reflexivity|]. rewrite H1. vm_compute. reflexivity.
  - transitivity (Some (p_parent r2)); [reflexivity|]. rewrite H2. vm_compute. reflexivity.
Defined.
