(* ===== verification/Fork.v ===== *)
(** * Creating and reaping processes (proc.c): fork and wait

    What fork gives the child and what it costs, in every outcome, and what wait
    gives back. *)

From S2P Require Import Prelude State Spinlock Segments Thread CString Cprintf Kalloc Layout Vm Paging Freevm Kvm Copyuvm Sched Sleeplock.
From S2P Require Import Disk Bio Log Fs Pipe File Proc.

(** ** The slot and the kernel stack *)

Lemma allocproc_ok `{I : Image} (i : nat) (q : option nat) (s : kernel) (n : nat) (p : proc) (k : Z) (A : list Z) :
  running i q ∅ s -> find_unused s.(k_procs) = Some n -> s.(k_procs) !! n = Some p -> free_rep s (k :: A) ->
  exists m s1, allocproc s = Ret (Some n) s1 /\ running i q ∅ s1 /\ free_rep s1 A /\
    (forall x, ~ in_page k x -> m x = s.(k_mem) x) /\ load32 m (u32 (stack_tf k - 4)) = u32 trapret_sym /\
    quiet (s<|k_procs := <[n := born s.(k_nextpid) k p]> s.(k_procs)|><|k_nextpid := s32 (s.(k_nextpid) + 1)|>
      <|k_mem := m|><|k_freelist := hd 0 A|>) s1.
Proof.
  intros Hr Hn Hp Hrep. destruct (allocproc_slot i q s n p Hr Hn Hp _ Hrep) as (s1 & Hr1 & Hps1 & Hn1 & Hq1 & E).
  pose proof Hrep as [(_ & Hk & Hl) Hnd]. apply list.NoDup_cons in Hnd as [HkA Hnd]. cbn [hd tail] in *.
  pose proof (page_ok_not_null _ _ Hk) as Hk0. set (a := u32 (stack_tf k - 4)).
  assert (Ha : k <= a /\ a + 4 <= k + PGSIZE).
  { unfold a, stack_tf, KSTACKSIZE, TRAPFRAME, PGSIZE. destruct Hk as (_ & _ & Hk). unfold KERNBASE, PHYSTOP in Hk. rewrite (u32_small (k + _ - _)) by lia. rewrite u32_small by lia. lia. }
  rewrite (proj2 (Z.eqb_neq _ _) Hk0) in E. set (m := store32 (k_mem s) a trapret_sym).
  assert (Hm1 : k_mem s1 = k_mem s) by (by destruct Hq1 as (? & ? & ? & ->)).
  set (s2 := s1<|k_procs := <[n := born (k_nextpid s) k p]> (k_procs s)|><|k_mem := m|>).
  assert (Hm : forall x, ~ in_page k x -> m x = k_mem s x) by (intros x Hx; apply store32_other; unfold in_page in Hx; lia).
  exists m, s2. split_and!; [|kframe Hr1| |done|apply store32_same|].
  - rewrite E. kret. kret. kret. kret. apply (f_equal (Ret (Some n))). unfold s2, m. rewrite <- Hm1.
    set (f := fun p => p<|p_kstack := k|>). set (g := fun p => p<|p_tf := stack_tf k|>).
    set (h := fun p => p<|p_context := stack_ctx k|><|p_ctx := zero_context<|cx_eip := forkret_sym|>|>).
    transitivity (s1<|k_procs := alter h n (alter g n (alter f n (k_procs s1)))|><|k_mem := store32 (k_mem s1) a trapret_sym|>); [reflexivity|].
    by rewrite Hps1, !alter_insert_eq.
  - split; [|done]. unfold s2. cbn. destruct Hq1 as (b & cs & lks & ->). cbn. rewrite <- (free_list_head _ _ _ _ Hl).
    eapply free_list_ext; [|exact Hl]. intros p' Hp'. pose proof (free_list_page _ _ _ _ _ Hl Hp') as Hok'.
    apply load32_ext. intros x Hx. apply Hm. destruct (pages_apart _ _ p' k Hok' Hk); unfold in_page, PGSIZE in *; [by intros ->|lia..].
  - unfold s2. rewrite Hn1 in Hq1. destruct Hq1 as (b & cs & lks & ->). by exists b, cs, lks.
Qed.

(** ** References *)

Lemma filedup_ex (i : nat) (q : option nat) (s : kernel) f x :
  running i q ∅ s -> s.(k_files) !! f = Some x -> 1 <= x.(f_ref) ->
  exists s', filedup f s = Ret f s' /\ running i q ∅ s' /\
    quiet (s<|k_files := alter (fun x => x<|f_ref := x.(f_ref) + 1|>) f s.(k_files)|>) s'.
Proof.
  intros Hr Hf Hx. destruct (acquire_ex _ _ _ LkFtable _ Hr (not_elem_of_empty _)) as (s1 & E1 & Hq1 & Hr1).
  set (s2 := upd_file f (fun x => x<|f_ref := f_ref x + 1|>) s1). assert (Hr2 : running i q ({[LkFtable]} ∪ ∅) s2) by kframe Hr1.
  destruct (release_ex _ _ _ LkFtable _ Hr2 ltac:(set_solver)) as (s3 & E3 & Hq3 & Hr3).
  replace (({[LkFtable]} ∪ ∅) ∖ {[LkFtable]}) with (∅ : gset lockid) in Hr3 by set_solver.
  assert (Hfs : k_files s1 = k_files s) by (by destruct Hq1 as (? & ? & ? & ->)).
  assert (Hf1 : file_at f s1 = Ret x s1) by (unfold file_at; kret; by rewrite Hfs, Hf).
  exists s3. split_and!; [|done|].
  - unfold filedup. kret_by exact E1. kret_by exact Hf1. rewrite (proj2 (Z.ltb_ge _ _) Hx). kret. by kret_by exact E3.
  - unfold s2, upd_file in Hq3. by quiet_by Hq1 Hq3.
Qed.

Lemma idup_ex (i : nat) (q : option nat) (s : kernel) c :
  running i q ∅ s ->
  exists s', idup c s = Ret c s' /\ running i q ∅ s' /\
    quiet (s<|k_inodes := alter (fun x => x<|ip_ref := x.(ip_ref) + 1|>) c s.(k_inodes)|>) s'.
Proof.
  intros Hr. destruct (acquire_ex _ _ _ LkIcache _ Hr (not_elem_of_empty _)) as (s1 & E1 & Hq1 & Hr1).
  set (s2 := upd_inode c (fun x => x<|ip_ref := ip_ref x + 1|>) s1). assert (Hr2 : running i q ({[LkIcache]} ∪ ∅) s2) by kframe Hr1.
  destruct (release_ex _ _ _ LkIcache _ Hr2 ltac:(set_solver)) as (s3 & E3 & Hq3 & Hr3).
  replace (({[LkIcache]} ∪ ∅) ∖ {[LkIcache]}) with (∅ : gset lockid) in Hr3 by set_solver.
  exists s3. split_and!; [|done|].
  - unfold idup. kret_by exact E1. kret. by kret_by exact E3.
  - unfold s2, upd_inode in Hq3. by quiet_by Hq1 Hq3.
Qed.

(** The open files among the descriptors [fds], and one more reference to each. *)
Definition open_files (fds : list nat) (o : list (option nat)) : list nat := omap (fun fd => mjoin (o !! fd)) fds.
Definition add_refs (fs : list nat) (files : list file) : list file :=
  foldl (fun l f => alter (fun x => x<|f_ref := x.(f_ref) + 1|>) f l) files fs.
(** The child's descriptors after those in [fds] have been copied. *)
Definition inherit (fds : list nat) (o o' : list (option nat)) : list (option nat) :=
  foldl (fun l fd => match o !! fd with Some (Some f) => <[fd := Some f]> l | _ => l end) o' fds.

Lemma add_refs_lookup fs files f x :
  files !! f = Some x -> add_refs fs files !! f = Some (x<|f_ref := x.(f_ref) + Z.of_nat (length (filter (.= f) fs))|>).
Proof.
  unfold add_refs. revert files x. induction fs as [|g fs IH]; intros files x Hx; cbn [foldl].
  { change (Z.of_nat (length (filter (.= f) []))) with 0. rewrite Hx, Z.add_0_r. by destruct x. }
  rewrite filter_cons. destruct (decide (g = f)) as [->|Hne].
  - rewrite (IH _ (x<|f_ref := f_ref x + 1|>)) by (by rewrite list_lookup_alter_eq, Hx). cbn [length]. rewrite Nat2Z.inj_succ.
    set (L := Z.of_nat _). replace (f_ref x + Z.succ L) with (f_ref x + 1 + L) by lia. by destruct x.
  - by apply IH; rewrite list_lookup_alter_ne.
Qed.

Lemma inherit_lookup fds o o' j :
  length o' = length o ->
  inherit fds o o' !! j = if decide (j ∈ fds) then match o !! j with Some (Some f) => Some (Some f) | _ => o' !! j end else o' !! j.
Proof.
  unfold inherit. revert o'. induction fds as [|fd fds IH]; intros o' Hl; cbn [foldl]; [done|].
  destruct (o !! fd) as [[f|]|] eqn:Ef.
  - rewrite IH by (by rewrite length_insert). assert (Hlt : (fd < length o')%nat) by (rewrite Hl; by eapply lookup_lt_Some).
    destruct (decide (fd = j)) as [->|Hne].
    + rewrite list_lookup_insert_eq, (decide_True (P := j ∈ j :: fds)) by (done || left). rewrite Ef. by destruct (decide (j ∈ fds)).
    + rewrite list_lookup_insert_ne by done. destruct (decide (j ∈ fds)); [rewrite decide_True by (by right)|rewrite decide_False by set_solver]; done.
  - rewrite IH by done. destruct (decide (j ∈ fds)); [rewrite decide_True by (by right); done|].
    destruct (decide (j ∈ fd :: fds)); [|done]. assert (j = fd) as -> by set_solver. by rewrite Ef.
  - rewrite IH by done. destruct (decide (j ∈ fds)); [rewrite decide_True by (by right); done|].
    destruct (decide (j ∈ fd :: fds)); [|done]. assert (j = fd) as -> by set_solver. by rewrite Ef.
Qed.

(** Every descriptor of a process names an open file. *)
Definition files_ok (o : list (option nat)) (files : list file) : Prop :=
  forall fd f, o !! fd = Some (Some f) -> exists x, files !! f = Some x /\ 1 <= x.(f_ref).

Lemma fork_files_ok (i cur np : nat) (pr : proc) fds : forall (s : kernel) (c : proc),
  running i (Some cur) ∅ s -> cur <> np -> s.(k_procs) !! cur = Some pr -> s.(k_procs) !! np = Some c -> files_ok pr.(p_ofile) s.(k_files) ->
  exists s', fork_files fds cur np s = Ret tt s' /\ running i (Some cur) ∅ s' /\
    quiet (s<|k_files := add_refs (open_files fds pr.(p_ofile)) s.(k_files)|>
      <|k_procs := <[np := c<|p_ofile := inherit fds pr.(p_ofile) c.(p_ofile)|>]> s.(k_procs)|>) s'.
Proof.
  induction fds as [|fd fds IH]; intros s c Hr Hne Hcur Hnp Hfs; cbn [fork_files].
  { exists s. split_and!; [done|done|]. cbn. replace (c<|p_ofile := p_ofile c|>) with c by (by destruct c). rewrite list_insert_id by done.
    by destruct s; eexists _, _, _. }
  assert (Hp : proc_at cur s = Ret pr s) by (unfold proc_at; kret; by rewrite Hcur).
  destruct (p_ofile pr !! fd) as [[f|]|] eqn:Ef.
  - destruct (Hfs fd f Ef) as (x & Hx & Hx1). destruct (filedup_ex i (Some cur) s f x Hr Hx Hx1) as (s1 & E1 & Hr1 & Hq1).
    set (s2 := upd_proc np (fun p => p<|p_ofile ::= <[fd := Some f]>|>) s1). assert (Hr2 : running i (Some cur) ∅ s2) by kframe Hr1.
    assert (Hps : k_procs s2 = <[np := c<|p_ofile ::= <[fd := Some f]>|>]> (k_procs s)).
    { unfold s2, upd_proc. destruct Hq1 as (? & ? & ? & ->). cbn -[alter]. by rewrite (alter_insert _ _ _ c). }
    assert (Hfl : k_files s2 = alter (fun x => x<|f_ref := f_ref x + 1|>) f (k_files s)) by (unfold s2; by destruct Hq1 as (? & ? & ? & ->)).
    destruct (IH s2 (c<|p_ofile ::= <[fd := Some f]>|>) Hr2 Hne) as (s' & E' & Hr' & Hq').
    { by rewrite Hps, list_lookup_insert_ne by done. }
    { rewrite Hps. apply list_lookup_insert_eq. by eapply lookup_lt_Some. }
    { intros fd' f' Hf'. rewrite Hfl. destruct (Hfs fd' f' Hf') as (y & Hy & Hy1). destruct (decide (f = f')) as [->|Hnf].
      - rewrite list_lookup_alter_eq, Hy. eexists. split; [done|]. cbn. lia.
      - rewrite list_lookup_alter_ne by done. by exists y. }
    exists s'. split_and!; [|done|].
    + kret_by exact Hp. rewrite Ef. kret_by exact E1. kret. exact E'.
    + rewrite Hps, Hfl, list_insert_insert_eq in Hq'. unfold inherit, open_files in *. cbn [omap list_omap foldl mjoin option_join]. rewrite Ef. cbn.
      destruct Hq1 as (b & cs & lks & Es1). unfold s2 in Hq'. rewrite Es1 in Hq'. exact Hq'.
  - destruct (IH s c Hr Hne Hcur Hnp Hfs) as (s' & E' & Hr' & Hq'). exists s'. split_and!; [by kret_by exact Hp; rewrite Ef|done|].
    unfold inherit, open_files in *. cbn. by rewrite Ef.
  - destruct (IH s c Hr Hne Hcur Hnp Hfs) as (s' & E' & Hr' & Hq'). exists s'. split_and!; [by kret_by exact Hp; rewrite Ef|done|].
    unfold inherit, open_files in *. cbn. by rewrite Ef.
Qed.

(** ** fork *)

Lemma fork_tickets_max t : fork_tickets t = Z.max 10 t.
Proof. unfold fork_tickets. destruct (Z.ltb_spec 10 t); lia. Qed.

(** The child, from the slot it is created in. *)
Definition child `{!Image} (pid kstack pgdir : Z) (cur : nat) (pr slot : proc) : proc :=
  (born pid kstack slot)<|p_pgdir := pgdir|><|p_sz := pr.(p_sz)|><|p_parent := Some cur|><|p_frame := pr.(p_frame)<|tf_eax := 0|>|>
    <|p_ticks := 0|><|p_tickets := Z.max 10 pr.(p_tickets)|>
    <|p_ofile := inherit (seq 0 NOFILE) pr.(p_ofile) slot.(p_ofile)|><|p_cwd := pr.(p_cwd)|>
    <|p_name := safestrcpy slot.(p_name) pr.(p_name) 16|><|p_state := RUNNABLE|>.

Lemma within_running i q ls s s' A :
  within i q ls s s' A -> s.(k_use_lock) <> 0 -> running i q ls s' /\ exists m fl, quiet (s<|k_mem := m|><|k_freelist := fl|>) s' /\ m = s'.(k_mem).
Proof.
  intros [(m & fl & Hq) Hc Hm] Hul. split; [apply can_running; [done|by destruct Hq as (? & ? & ? & ->)]|].
  exists m, fl. split; [done|]. by destruct Hq as (? & ? & ? & ->).
Qed.

(** What fork may change besides memory and the free list. *)
Definition fork_frame (s : kernel) (ps : list proc) (np : Z) (fs : list file) (ins : list inode) (s' : kernel) : Prop :=
  exists m fl, quiet (s<|k_procs := ps|><|k_nextpid := np|><|k_files := fs|><|k_inodes := ins|><|k_mem := m|><|k_freelist := fl|>) s'.

Lemma allocproc_short `{I : Image} (i : nat) (q : option nat) (s : kernel) (n : nat) (p : proc) :
  running i q ∅ s -> find_unused s.(k_procs) = Some n -> s.(k_procs) !! n = Some p -> free_rep s [] ->
  exists s', allocproc s = Ret None s' /\ running i q ∅ s' /\
    quiet (s<|k_procs := <[n := p<|p_pid := s.(k_nextpid)|><|p_kstack := 0|><|p_state := UNUSED|>]> s.(k_procs)|>
      <|k_nextpid := s32 (s.(k_nextpid) + 1)|><|k_freelist := 0|>) s'.
Proof.
  intros Hr Hn Hp Hrep. destruct (allocproc_slot i q s n p Hr Hn Hp _ Hrep) as (s1 & Hr1 & Hps1 & Hn1 & Hq1 & E).
  cbn [hd tail] in *. change (0 =? 0) with true in E. cbv iota in E.
  set (f := fun p => p<|p_kstack := 0|>) in *. set (g := fun p => p<|p_state := UNUSED|>) in *.
  set (s2 := s1<|k_procs := alter g n (alter f n (k_procs s1))|>).
  exists s2. split_and!; [rewrite E; kret; by kret|kframe Hr1|].
  unfold s2. rewrite Hps1, !alter_insert_eq. rewrite Hn1 in Hq1. destruct Hq1 as (b & cs & lks & ->). by exists b, cs, lks.
Qed.

(** fork from the copy of the memory on. *)
Section Copied.
Context `{I : Image} (i cur n : nat) (pr slot : proc) (c : nat) (d : Z) (s : kernel).
Hypothesis Hr : running i (Some cur) ∅ s.
Hypothesis Hne : cur <> n.
Hypothesis Hcur : s.(k_procs) !! cur = Some pr.
Hypothesis Hslot : s.(k_procs) !! n = Some slot.
Hypothesis Hcwd : pr.(p_cwd) = Some c.
Hypothesis Hfiles : files_ok pr.(p_ofile) s.(k_files).

Definition fork_rest : K Z :=
  (let! p := proc_at cur in
   set_proc n (fun q => q<|p_sz := p.(p_sz)|><|p_parent := Some cur|><|p_frame := p.(p_frame)|>) ;;;
   set_proc n (fun q => q<|p_ticks := 0|><|p_tickets := fork_tickets p.(p_tickets)|>) ;;;
   set_proc n (fun q => q<|p_frame ::= fun tf => tf<|tf_eax := 0|>|>) ;;;
   fork_files (seq 0 NOFILE) cur n ;;;
   let! c := the_cwd p in
   let! cwd := idup c in
   set_proc n (fun q => q<|p_cwd := Some cwd|>) ;;;
   let! p := proc_at cur in
   set_proc n (fun q => q<|p_name := safestrcpy q.(p_name) p.(p_name) 16|>) ;;;
   let! q := proc_at n in
   acquire LkPtable ;;;
   set_proc n (fun q => q<|p_state := RUNNABLE|>) ;;;
   release LkPtable ;;;
   ret q.(p_pid))%xv6.

Lemma fork_rest_ok :
  exists s', fork_rest s = Ret slot.(p_pid) s' /\ running i (Some cur) ∅ s' /\
    quiet (s<|k_files := add_refs (open_files (seq 0 NOFILE) pr.(p_ofile)) s.(k_files)|>
      <|k_inodes := alter (fun x => x<|ip_ref := x.(ip_ref) + 1|>) c s.(k_inodes)|>
      <|k_procs := <[n := slot<|p_sz := pr.(p_sz)|><|p_parent := Some cur|><|p_frame := pr.(p_frame)<|tf_eax := 0|>|>
         <|p_ticks := 0|><|p_tickets := Z.max 10 pr.(p_tickets)|>
         <|p_ofile := inherit (seq 0 NOFILE) pr.(p_ofile) slot.(p_ofile)|><|p_cwd := Some c|>
         <|p_name := safestrcpy slot.(p_name) pr.(p_name) 16|><|p_state := RUNNABLE|>]> s.(k_procs)|>) s'.
Proof.
  rewrite <- fork_tickets_max.
  assert (Hp : forall t, k_procs t !! cur = Some pr -> proc_at cur t = Ret pr t) by (intros t Ht; unfold proc_at; kret; by rewrite Ht).
  unfold fork_rest. kret_by exact (Hp s Hcur). kret. kret. kret.
  set (s1 := upd_proc n _ (upd_proc n _ (upd_proc n _ s))).
  set (c1 := slot<|p_sz := p_sz pr|><|p_parent := Some cur|><|p_frame := (p_frame pr)<|tf_eax := 0|>|>
    <|p_ticks := 0|><|p_tickets := fork_tickets (p_tickets pr)|>).
  assert (Hps1 : k_procs s1 = <[n := c1]> (k_procs s)).
  { unfold s1, upd_proc. cbn -[alter]. rewrite (alter_insert _ n (k_procs s) slot Hslot), !alter_insert_eq. done. }
  assert (Hlt : (n < length (k_procs s))%nat) by (by eapply lookup_lt_Some).
  assert (Hr1 : running i (Some cur) ∅ s1) by kframe Hr.
  destruct (fork_files_ok i cur n pr (seq 0 NOFILE) s1 c1 Hr1 Hne) as (s2 & E2 & Hr2 & Hq2); [by rewrite Hps1, list_lookup_insert_ne|by rewrite Hps1, list_lookup_insert_eq|done|].
  rewrite Hps1, list_insert_insert_eq in Hq2. change (p_ofile c1) with (p_ofile slot) in Hq2.
  kret_by exact E2. unfold the_cwd. rewrite Hcwd. kret.
  destruct (idup_ex i (Some cur) s2 c Hr2) as (s3 & E3 & Hr3 & Hq3). kret_by exact E3. kret.
  set (c2 := c1<|p_ofile := inherit (seq 0 NOFILE) (p_ofile pr) (p_ofile slot)|>) in *.
  assert (Hps3 : k_procs s3 = <[n := c2]> (k_procs s)) by (rewrite (quiet_procs _ _ Hq3); cbn; by rewrite (quiet_procs _ _ Hq2)).
  set (s4 := upd_proc n _ s3).
  assert (Hps4 : k_procs s4 = <[n := c2<|p_cwd := Some c|>]> (k_procs s)) by (unfold s4, upd_proc; cbn -[alter]; by rewrite Hps3, alter_insert_eq).
  kret_by (apply Hp; by rewrite Hps4, list_lookup_insert_ne). kret. set (s5 := upd_proc n _ s4).
  set (c5 := c2<|p_cwd := Some c|><|p_name := safestrcpy (p_name slot) (p_name pr) 16|>).
  assert (Hps5 : k_procs s5 = <[n := c5]> (k_procs s)) by (transitivity (alter (fun q => q<|p_name := safestrcpy (p_name q) (p_name pr) 16|>) n (k_procs s4)); [reflexivity|by rewrite Hps4, alter_insert_eq]).
  kret_by (unfold proc_at; kret; by rewrite Hps5, list_lookup_insert_eq).
  assert (Hr5 : running i (Some cur) ∅ s5) by kframe Hr3.
  destruct (acquire_ex _ _ _ LkPtable _ Hr5 (not_elem_of_empty _)) as (s6 & E6 & Hq6 & Hr6). kret_by exact E6. kret.
  set (s7 := upd_proc n _ s6). assert (Hr7 : running i (Some cur) ({[LkPtable]} ∪ ∅) s7) by kframe Hr6.
  destruct (release_ex _ _ _ LkPtable _ Hr7 ltac:(set_solver)) as (s8 & E8 & Hq8 & Hr8). kret_by exact E8.
  replace (({[LkPtable]} ∪ ∅) ∖ {[LkPtable]}) with (∅ : gset lockid) in Hr8 by set_solver.
  exists s8. split_and!; [done|done|].
  assert (Hs7 : s7 = s6<|k_procs := <[n := c5<|p_state := RUNNABLE|>]> (k_procs s)|>).
  { unfold s7, upd_proc. transitivity (s6<|k_procs := alter (fun q => q<|p_state := RUNNABLE|>) n (k_procs s6)|>); [reflexivity|].
    by rewrite (quiet_procs _ _ Hq6), Hps5, alter_insert_eq. }
  rewrite Hs7 in Hq8. clear - Hq2 Hq3 Hq6 Hq8.
  destruct Hq8 as (b8 & cs8 & lk8 & ->), Hq6 as (b6 & cs6 & lk6 & ->). exists b8, cs8, lk8. unfold s5, s4, upd_proc.
  destruct Hq3 as (b3 & cs3 & lk3 & ->), Hq2 as (b2 & cs2 & lk2 & ->). subst s1 c5 c2 c1. unfold upd_proc. clear. destruct s.
  cbn -[alter add_refs open_files inherit safestrcpy fork_tickets]. reflexivity.
Qed.
End Copied.

(** ** What a process owns *)

(** The pages of process [c]: its kernel stack and its address space. *)
Definition proc_pages (m : mem) (c : proc) : list Z := c.(p_kstack) :: space_pages c.(p_pgdir) m.

(** The pages of [c] are its own: wait can give them back. *)
Record reapable (s : kernel) (l : list Z) (c : proc) : Prop := {
  re_pt : pt_ok s.(k_end) s.(k_mem) c.(p_pgdir) l;
  re_owns : owns c.(p_pgdir) s.(k_end) s.(k_mem) l 0;
  re_stack : page_ok s.(k_end) c.(p_kstack);
  re_apart : c.(p_kstack) ∉ space_pages c.(p_pgdir) s.(k_mem) ++ l
}.

Section Fork.
Context `{I : Image} (i cur n : nat) (pr slot : proc) (c : nat) (k : Z) (A : list Z) (s : kernel).
Hypothesis Hr : running i (Some cur) ∅ s.
Hypothesis Hul : s.(k_use_lock) <> 0.
Hypothesis Hcur : s.(k_procs) !! cur = Some pr.
Hypothesis Hlive : pr.(p_state) <> UNUSED.
Hypothesis Hcwd : pr.(p_cwd) = Some c.
Hypothesis Hfiles : files_ok pr.(p_ofile) s.(k_files).
Hypothesis Hk : KERNBASE < s.(k_end).
Hypothesis Hd : data_ok s.(k_datasym).
Hypothesis Hsz : 0 <= pr.(p_sz) < KERNBASE.
Let np := (pr.(p_sz) + 4095) / 4096.
Hypothesis Hn : find_unused s.(k_procs) = Some n.
Hypothesis Hslot : s.(k_procs) !! n = Some slot.
Hypothesis Hfr : free_rep s (k :: A).
Hypothesis Hpar : parent_ok s.(k_end) s.(k_mem) pr.(p_pgdir) (k :: A) np.

(** fork up to the copy of the memory. *)
Lemma fork_to_copy :
  cur <> n /\
  exists m s1, running i (Some cur) ∅ s1 /\ free_rep s1 A /\ (forall x, ~ in_page k x -> m x = s.(k_mem) x) /\
    quiet (s<|k_procs := <[n := born s.(k_nextpid) k slot]> s.(k_procs)|><|k_nextpid := s32 (s.(k_nextpid) + 1)|>
      <|k_mem := m|><|k_freelist := hd 0 A|>) s1 /\
    fork s = (let! pgdir := copyuvm pr.(p_pgdir) pr.(p_sz) in
      set_proc n (fun q => q<|p_pgdir := pgdir|>) ;;;
      if pgdir =? 0 then
        let! q := proc_at n in
        kfree q.(p_kstack) ;;;
        set_proc n (fun q => q<|p_kstack := 0|><|p_state := UNUSED|>) ;;;
        ret (-1)
      else fork_rest cur n)%xv6 s1.
Proof.
  assert (Hne : cur <> n).
  { intros ->. destruct (find_unused_Some _ _ Hn) as (p & Hp & Hu). rewrite Hp in Hcur. by injection Hcur as ->. }
  destruct (curproc_ex _ _ _ _ Hr) as (s0 & E0 & Hq0 & Hr0).
  assert (Hps0 : k_procs s0 = k_procs s) by (by apply quiet_procs).
  assert (Hfr0 : free_rep s0 (k :: A)) by (by destruct Hq0 as (? & ? & ? & ->)).
  destruct (allocproc_ok i (Some cur) s0 n slot k A Hr0) as (m & s1 & E1 & Hr1 & Hfr1 & Hm & _ & Hq1); [by rewrite Hps0..|done|].
  split; [done|]. exists m, s1. split_and!; [done|done| | |].
  - intros x Hx. rewrite Hm by done. by destruct Hq0 as (? & ? & ? & ->).
  - destruct Hq0 as (? & ? & ? & ->). exact Hq1.
  - unfold fork. kret_by exact E0. kret_by exact E1. cbv iota. kret_by (unfold proc_at; kret; rewrite (quiet_procs _ _ Hq1); cbn;
      by rewrite list_lookup_insert_ne, Hps0, Hcur by done). reflexivity.
Qed.

(** The copy fails: the slot and all the pages are given back. *)
Lemma fork_no_copy s1 s2 l :
  quiet (s<|k_procs := <[n := born s.(k_nextpid) k slot]> s.(k_procs)|><|k_nextpid := s32 (s.(k_nextpid) + 1)|>
    <|k_mem := s1.(k_mem)|><|k_freelist := hd 0 A|>) s1 ->
  within i (Some cur) ∅ s1 s2 A -> free_rep s2 l -> l ≡ₚ A ->
  exists s', (set_proc n (fun q => q<|p_pgdir := 0|>) ;;;
        let! q := proc_at n in
        kfree q.(p_kstack) ;;;
        set_proc n (fun q => q<|p_kstack := 0|><|p_state := UNUSED|>) ;;;
        ret (-1))%xv6 s2 = Ret (-1) s' /\
    running i (Some cur) ∅ s' /\ free_rep s' (k :: l) /\ (forall x, ~ in_page k x -> s'.(k_mem) x = s2.(k_mem) x) /\
    fork_frame s (<[n := (born s.(k_nextpid) k slot)<|p_pgdir := 0|><|p_kstack := 0|><|p_state := UNUSED|>]> s.(k_procs))
      (s32 (s.(k_nextpid) + 1)) s.(k_files) s.(k_inodes) s'.
Proof.
  intros Hq1 Hw Hfr2 Hl. assert (Hul1 : k_use_lock s1 <> 0) by (by destruct Hq1 as (? & ? & ? & ->)).
  destruct (within_running _ _ _ _ _ _ Hw Hul1) as (Hr2 & m & fl & Hq2 & _).
  pose proof Hfr as [(_ & Hkok & Hfl) Hnd]. apply list.NoDup_cons in Hnd as [HkA _].
  set (b := born (k_nextpid s) k slot) in *. assert (Hlt : (n < length (k_procs s))%nat) by (by eapply lookup_lt_Some).
  assert (Hps2 : k_procs s2 = <[n := b]> (k_procs s)) by (rewrite (quiet_procs _ _ Hq2); cbn; by rewrite (quiet_procs _ _ Hq1)).
  assert (He2 : k_end s2 = k_end s) by (destruct Hq2 as (? & ? & ? & ->); cbn; by destruct Hq1 as (? & ? & ? & ->)).
  set (s3 := s2<|k_procs := alter (fun q => q<|p_pgdir := 0|>) n (k_procs s2)|>). kret. change (upd_proc n _ s2) with s3.
  assert (Hps3 : k_procs s3 = <[n := b<|p_pgdir := 0|>]> (k_procs s)) by (unfold s3; cbn -[alter]; by rewrite Hps2, alter_insert_eq).
  kret_by (unfold proc_at; kret; by rewrite Hps3, list_lookup_insert_eq). change (p_kstack (b<|p_pgdir := 0|>)) with k.
  assert (Hr3 : running i (Some cur) ∅ s3) by kframe Hr2.
  destruct (kfree_can i (Some cur) ∅ l s3 k) as (s4 & E4 & Hq4 & Hfr4 & _ & Hr4); [by right|apply not_elem_of_empty| | |done|by rewrite Hl|].
  { change (k_end s3) with (k_end s2). rewrite He2. lia. } { change (k_end s3) with (k_end s2). by rewrite He2. }
  specialize (Hr4 Hr3). kret_by exact E4.
  set (s5 := s4<|k_procs := alter (fun q => q<|p_kstack := 0|><|p_state := UNUSED|>) n (k_procs s4)|>).
  assert (Hps4 : k_procs s4 = k_procs s3) by (by destruct Hq4 as (? & ? & ? & ->)).
  exists s5. split_and!; [by kret|kframe Hr4|exact Hfr4| |].
  - intros x Hx. change (k_mem s5) with (k_mem s4). destruct Hq4 as (? & ? & ? & ->). apply (freed_state_mem k s3 x). unfold in_page in Hx. lia.
  - unfold s5. rewrite Hps4, Hps3, alter_insert_eq. exists (store32 (memset (k_mem s2) k 1 PGSIZE) k (k_freelist s2)), k.
    clear - Hq1 Hq2 Hq4. unfold freed_state, s3 in Hq4. destruct Hq4 as (b4 & c4 & l4 & ->). exists b4, c4, l4.
    destruct Hq2 as (? & ? & ? & ->), Hq1 as (b1 & c1 & l1 & E). rewrite E.
    clear. destruct s. cbn -[born store32 memset s32]. reflexivity.
Qed.

(** The copy succeeds. *)
Lemma fork_copy s1 s2 d l :
  quiet (s<|k_procs := <[n := born s.(k_nextpid) k slot]> s.(k_procs)|><|k_nextpid := s32 (s.(k_nextpid) + 1)|>
    <|k_mem := s1.(k_mem)|><|k_freelist := hd 0 A|>) s1 ->
  cur <> n -> within i (Some cur) ∅ s1 s2 A -> free_rep s2 l ->
  exists s', (set_proc n (fun q => q<|p_pgdir := d|>) ;;; fork_rest cur n)%xv6 s2 = Ret s.(k_nextpid) s' /\
    running i (Some cur) ∅ s' /\ free_rep s' l /\ s'.(k_mem) = s2.(k_mem) /\
    fork_frame s (<[n := child s.(k_nextpid) k d cur pr slot]> s.(k_procs)) (s32 (s.(k_nextpid) + 1))
      (add_refs (open_files (seq 0 NOFILE) pr.(p_ofile)) s.(k_files))
      (alter (fun x => x<|ip_ref := x.(ip_ref) + 1|>) c s.(k_inodes)) s'.
Proof.
  intros Hq1 Hne Hw Hfr2. assert (Hul1 : k_use_lock s1 <> 0) by (by destruct Hq1 as (? & ? & ? & ->)).
  destruct (within_running _ _ _ _ _ _ Hw Hul1) as (Hr2 & m & fl & Hq2 & Em).
  set (b := born (k_nextpid s) k slot) in *. assert (Hlt : (n < length (k_procs s))%nat) by (by eapply lookup_lt_Some).
  assert (k_procs s2 = <[n := b]> (k_procs s) /\ k_files s2 = k_files s /\ k_inodes s2 = k_inodes s) as (Hps2 & Hfs2 & Hin2)
    by (destruct Hq2 as (? & ? & ? & ->); cbn; by destruct Hq1 as (? & ? & ? & ->)).
  set (s3 := s2<|k_procs := alter (fun q => q<|p_pgdir := d|>) n (k_procs s2)|>). kret. change (upd_proc n _ s2) with s3.
  assert (Hps3 : k_procs s3 = <[n := b<|p_pgdir := d|>]> (k_procs s)) by (unfold s3; cbn -[alter]; by rewrite Hps2, alter_insert_eq).
  assert (Hr3 : running i (Some cur) ∅ s3) by kframe Hr2.
  destruct (fork_rest_ok i cur n pr (b<|p_pgdir := d|>) c s3 Hr3 Hne) as (s' & E' & Hr' & Hq');
    [by rewrite Hps3, list_lookup_insert_ne|by rewrite Hps3, list_lookup_insert_eq|done|by change (k_files s3) with (k_files s2); rewrite Hfs2|].
  exists s'. split_and!; [exact E'|done|by destruct Hq' as (? & ? & ? & ->)|by destruct Hq' as (? & ? & ? & ->)|].
  rewrite Hps3, list_insert_insert_eq in Hq'. change (k_files s3) with (k_files s2) in Hq'. change (k_inodes s3) with (k_inodes s2) in Hq'.
  rewrite Hfs2, Hin2, <- Hcwd in Hq'. fold (child (k_nextpid s) k d cur pr slot) in Hq'.
  exists (k_mem s2), (k_freelist s2). clear - Hq1 Hq2 Hq'. unfold s3 in Hq'.
  destruct Hq' as (b' & c' & l' & ->). exists b', c', l'. destruct Hq2 as (? & ? & ? & ->), Hq1 as (b1 & c1 & l1 & E). rewrite E.
  clear. destruct s. reflexivity.
Qed.

(** What a slot and a page for the stack lead to. *)
Lemma fork_slot :
  exists r s' l, fork s = Ret r s' /\ running i (Some cur) ∅ s' /\ free_rep s' l /\
    (forall x, (forall p, p ∈ k :: A -> ~ in_page p x) -> s'.(k_mem) x = s.(k_mem) x) /\
    (r = -1 /\ Z.of_nat (length (k :: A)) < 69 + 2 * np /\ l ≡ₚ k :: A /\
     fork_frame s (<[n := (born s.(k_nextpid) k slot)<|p_pgdir := 0|><|p_kstack := 0|><|p_state := UNUSED|>]> s.(k_procs))
       (s32 (s.(k_nextpid) + 1)) s.(k_files) s.(k_inodes) s' \/
     exists d, r = s.(k_nextpid) /\
     let ch := child s.(k_nextpid) k d cur pr slot in
     fork_frame s (<[n := ch]> s.(k_procs)) (s32 (s.(k_nextpid) + 1))
       (add_refs (open_files (seq 0 NOFILE) pr.(p_ofile)) s.(k_files))
       (alter (fun x => x<|ip_ref := x.(ip_ref) + 1|>) c s.(k_inodes)) s' /\
     copied_space pr.(p_pgdir) s.(k_mem) d s'.(k_mem) np (k :: A) l /\
     reapable s' l ch /\ proc_pages s'.(k_mem) ch ++ l ≡ₚ k :: A).
Proof.
  destruct fork_to_copy as (Hne & m & s1 & Hr1 & Hfr1 & Hm & Hq1 & E).
  pose proof Hfr as [(_ & Hkok & Hfl) Hnd]. apply list.NoDup_cons in Hnd as [HkA HndA].
  assert (HA : forall p, p ∈ k :: A -> page_ok (k_end s) p) by (intros p Hp; by eapply free_list_page; [apply Hfr|]).
  assert (m = k_mem s1 /\ k_end s1 = k_end s /\ k_datasym s1 = k_datasym s) as (-> & He1 & Hd1) by (by destruct Hq1 as (? & ? & ? & ->)).
  destruct (PGROUNDUP_pages (p_sz pr) Hsz) as (_ & Hnp & _). fold np in Hnp.
  destruct (copyuvm_cases i (Some cur) ∅ (p_pgdir pr) (p_sz pr) A s1) as (d & s2 & l & E2 & Hw & Hres);
    [by right|apply not_elem_of_empty|done|by rewrite He1|by rewrite Hd1|done| |].
  { rewrite He1. fold np. eapply parent_taken; [exact Hk|exact HA|exact Hpar|exact Hm|lia]. }
  assert (Hm2 : forall x, (forall p, p ∈ k :: A -> ~ in_page p x) -> k_mem s2 x = k_mem s x).
  { intros x Hx. rewrite (wi_mem _ _ _ _ _ _ Hw), Hm; [done|apply Hx; left|intros p Hp; apply Hx; by right]. }
  destruct Hres as [(-> & Hshort & Hfr2 & Hl)|(Hd0 & HdA & ps & Hps & Hcp)].
  - destruct (fork_no_copy s1 s2 l Hq1 Hw Hfr2 Hl) as (s' & E' & Hr' & Hfr' & Hm' & Hf').
    exists (-1), s', (k :: l). split_and!; [rewrite E; by kret_by exact E2|done|done| |].
    + intros x Hx. rewrite Hm', Hm2; [done..|]. apply Hx. left.
    + left. split_and!; [done|cbn [length]; fold np in Hshort; lia|by rewrite Hl|done].
  - pose proof Hcp as [Hok He2 _ _ _ _ _ _ _ Hac _].
    destruct (fork_copy s1 s2 d l Hq1 Hne Hw (vo_free _ _ _ _ _ _ Hok)) as (s' & E' & Hr' & Hfr' & Hm' & Hf').
    exists (k_nextpid s), s', l. split_and!; [rewrite E; kret_by exact E2; by rewrite (proj2 (Z.eqb_neq d 0) Hd0)|done|done|by rewrite Hm'|].
    right. exists d. split; [done|]. intros ch.
    destruct (copying_user i (Some cur) ∅ (p_pgdir pr) d np (k_end s1) (k_datasym s1) A ps l (k_mem s1) s1 s2) as [How Hus];
      [by rewrite He1|lia|done|fold np in Hps; lia|].
    pose proof (space_account _ _ _ _ _ _ _ _ Hok How Hac Hus) as Hall.
    assert (He' : k_end s' = k_end s2) by (rewrite He2, He1; destruct Hf' as (? & ? & ? & ? & ? & ->); done).
    split_and!; [done| | |].
    + rewrite Hm'. eapply copied_taken; [exact Hk|exact HA|exact Hpar|exact Hm|lia|].
      eapply copying_space; [|lia| |exact Hcp|exact Hps]; [by rewrite He1|]. rewrite He1. eapply parent_taken; [exact Hk|exact HA|exact Hpar|exact Hm|lia].
    + split; rewrite ?Hm', ?He'; [apply Hok|exact How|by rewrite He2, He1|]. change (p_pgdir ch) with d. change (p_kstack ch) with k. by rewrite Hall.
    + rewrite Hm'. unfold proc_pages. change (p_pgdir ch) with d. change (p_kstack ch) with k. rewrite <- Hall. apply Permutation_refl.
Qed.

End Fork.

(** The slots of a failed fork: one that was UNUSED may hold other leftovers. *)
Definition slots_kept (ps ps' : list proc) : Prop :=
  Forall2 (fun p p' => p' = p \/ p.(p_state) = UNUSED /\ p'.(p_state) = UNUSED) ps ps'.

Lemma slots_kept_refl ps : slots_kept ps ps.
Proof. apply Forall_Forall2_diag, Forall_true. by left. Qed.
Lemma slots_kept_insert ps n p p' :
  ps !! n = Some p -> p.(p_state) = UNUSED -> p'.(p_state) = UNUSED -> slots_kept ps (<[n := p']> ps).
Proof.
  intros Hp Hu Hu'. apply Forall2_same_length_lookup. split; [by rewrite length_insert|]. intros j x y Hx Hy.
  apply list_lookup_insert_Some in Hy as [(<- & <- & _)|[_ Hy]]; [rewrite Hp in Hx; injection Hx as <-; by right|].
  rewrite Hx in Hy. injection Hy as ->. by left.
Qed.

(** C16: fork in every outcome.  Without a free slot, or when memory is short, it
    returns -1: every page that was free is free again, no process changes, no
    file or inode gains a reference.  Otherwise it returns the next process
    identifier: the first free slot holds a RUNNABLE child of the caller with the
    caller's registers but eax = 0, its name, at least 10 tickets, and its open
    files and directory, each with one reference more per descriptor; the child's
    memory holds the caller's bytes in pages of its own; and the child's stack,
    tables and pages with those still free are exactly the pages that were
    free, so that wait can give them back.  Nothing else changes but lock
    words, and no memory outside the pages that were free. *)
Theorem fork_outcomes `{I : Image} (i cur : nat) (pr : proc) (c : nat) (A : list Z) (s : kernel) :
  running i (Some cur) ∅ s -> s.(k_use_lock) <> 0 -> s.(k_procs) !! cur = Some pr -> pr.(p_state) <> UNUSED ->
  pr.(p_cwd) = Some c -> files_ok pr.(p_ofile) s.(k_files) -> KERNBASE < s.(k_end) -> data_ok s.(k_datasym) ->
  0 <= pr.(p_sz) < KERNBASE -> free_rep s A ->
  let np := (pr.(p_sz) + 4095) / 4096 in parent_ok s.(k_end) s.(k_mem) pr.(p_pgdir) A np ->
  exists r s' l, fork s = Ret r s' /\ running i (Some cur) ∅ s' /\ free_rep s' l /\
    (forall x, (forall p, p ∈ A -> ~ in_page p x) -> s'.(k_mem) x = s.(k_mem) x) /\
    (r = -1 /\ (find_unused s.(k_procs) = None \/ Z.of_nat (length A) < 69 + 2 * np) /\ l ≡ₚ A /\
       (exists ps next, fork_frame s ps next s.(k_files) s.(k_inodes) s' /\ slots_kept s.(k_procs) ps) \/
     exists n slot k d, find_unused s.(k_procs) = Some n /\ s.(k_procs) !! n = Some slot /\ r = s.(k_nextpid) /\
       let ch := child s.(k_nextpid) k d cur pr slot in
       fork_frame s (<[n := ch]> s.(k_procs)) (s32 (s.(k_nextpid) + 1))
         (add_refs (open_files (seq 0 NOFILE) pr.(p_ofile)) s.(k_files))
         (alter (fun x => x<|ip_ref := x.(ip_ref) + 1|>) c s.(k_inodes)) s' /\
       copied_space pr.(p_pgdir) s.(k_mem) d s'.(k_mem) np A l /\
       reapable s' l ch /\ proc_pages s'.(k_mem) ch ++ l ≡ₚ A).
Proof.
  intros Hr Hul Hcur Hlive Hcwd Hfiles Hk Hd Hsz Hfr np Hpar. destruct (curproc_ex _ _ _ _ Hr) as (s0 & E0 & Hq0 & Hr0).
  assert (Hps0 : k_procs s0 = k_procs s) by (by apply quiet_procs).
  destruct (find_unused (k_procs s)) as [n|] eqn:Hn.
  2:{ destruct (allocproc_full i (Some cur) s0 Hr0) as (s1 & E1 & Hr1 & Hq1); [by rewrite Hps0|].
    exists (-1), s1, A. split_and!; [unfold fork; kret_by exact E0; by kret_by exact E1|done| | |left; split_and!; [done|by left|done|]].
    - by destruct Hq1 as (? & ? & ? & ->), Hq0 as (? & ? & ? & ->).
    - intros x _. by destruct Hq1 as (? & ? & ? & ->), Hq0 as (? & ? & ? & ->).
    - exists (k_procs s), (k_nextpid s). split; [|apply slots_kept_refl]. exists (k_mem s), (k_freelist s).
      pose proof (quiet_trans _ _ _ Hq0 Hq1) as (b & cs & lks & ->). by exists b, cs, lks; destruct s. }
  destruct (find_unused_Some _ _ Hn) as (slot & Hslot & Hu). destruct A as [|k A].
  - assert (Hfr0 : free_rep s0 []) by (by destruct Hq0 as (? & ? & ? & ->)).
    destruct (allocproc_short i (Some cur) s0 n slot Hr0) as (s1 & E1 & Hr1 & Hq1); [by rewrite Hps0..|done|].
    assert (Hnp : 0 <= np) by (unfold np; Z.to_euclidean_division_equations; lia).
    exists (-1), s1, []. split_and!; [unfold fork; kret_by exact E0; by kret_by exact E1|done| | |left; split_and!; [done|right; cbn; lia|done|]].
    + destruct Hq1 as (? & ? & ? & ->). split; [done|apply NoDup_nil_2].
    + intros x _. by destruct Hq1 as (? & ? & ? & ->), Hq0 as (? & ? & ? & ->).
    + rewrite Hps0 in Hq1. set (sl := slot<|p_pid := k_nextpid s0|><|p_kstack := 0|><|p_state := UNUSED|>) in Hq1.
      exists (<[n := sl]> (k_procs s)), (s32 (k_nextpid s0 + 1)). split; [|exact (slots_kept_insert (k_procs s) n slot sl Hslot Hu eq_refl)].
      exists (k_mem s), 0. destruct Hq1 as (b & cs & lks & ->). exists b, cs, lks. destruct Hq0 as (? & ? & ? & ->). by destruct s.
  - destruct (fork_slot i cur n pr slot c k A s) as (r & s' & l & E & Hr' & Hfr' & Hm & Hres); [done..|].
    exists r, s', l. split_and!; [done..|]. destruct Hres as [(-> & Hshort & Hl & Hf)|(d & -> & Hch)]; [left|right].
    + split_and!; [done|by right|done|]. eexists _, _. split; [exact Hf|]. by eapply slots_kept_insert.
    + by exists n, slot, k, d.
Qed.

(** A process with one page and one open file, on the machine that main starts. *)
Definition forker (pgdir : Z) : proc :=
  zero_proc<|p_state := RUNNING|><|p_pid := 1|><|p_sz := 100|><|p_pgdir := pgdir|><|p_cwd := Some 0%nat|>
    <|p_ofile := <[0%nat := Some 0%nat]> (replicate NOFILE None)|>.
Definition forking (m : mem) (fl pgdir : Z) : kernel :=
  (loaded 0x80115000 0x80108000)<|k_mem := m|><|k_freelist := fl|><|k_use_lock := 1|>
    <|k_cpus := [boot_cpu<|c_proc := Some 0%nat|>]|><|k_nextpid := 2|>
    <|k_files := [zero_file<|f_ref := 1|>]|><|k_inodes := [zero_inode<|ip_ref := 1|>]|>
    <|k_procs := [forker pgdir; zero_proc]|>.
#[local] Instance image : Image := {| forkret_sym := 0x80103000; trapret_sym := 0x80105000; initcode := [] |}.

Lemma forking_running m fl pgdir : running 0 (Some 0%nat) ∅ (forking m fl pgdir).
Proof.
  exists (boot_cpu<|c_proc := Some 0%nat|>). split_and!; [split_and!; try done; by vm_compute|done|done|..]; intros lk H; [set_solver|].
  by intros.
Qed.

Lemma forking_files m fl pgdir : files_ok (forker pgdir).(p_ofile) (forking m fl pgdir).(k_files).
Proof.
  intros fd f H. cbn in H. destruct fd as [|fd]; cbn in H.
  - injection H as <-. eexists. split; [reflexivity|]. by vm_compute.
  - assert (Hn : (replicate 15 (@None nat)) !! fd = Some (Some f)) by exact H. by apply lookup_replicate in Hn as [? _].
Qed.

(** The machine of a one-page parent, as fork's caller. *)
Lemma forking_ready : exists m fl pgdir k A,
  free_rep (forking m fl pgdir) (k :: A) /\ 75 < Z.of_nat (length (k :: A)) /\ parent_ok 0x80115000 m pgdir (k :: A) 1.
Proof.
  destruct one_page_parent as (s & p & l & pgdir & Hc & Hfr & He & Hd & Hlen & Hpar).
  exists (k_mem s), (k_freelist s), pgdir, p, l. rewrite He in Hpar. split_and!; [|cbn [length]; lia|done].
  unfold free_rep in *. rewrite He in Hfr. exact Hfr.
Qed.

Lemma fork_outcomes_witness :
  exists m fl pgdir s', fork (forking m fl pgdir) = Ret 2 s' /\
    (p_state <$> s'.(k_procs) !! 1%nat) = Some RUNNABLE /\ f_ref <$> s'.(k_files) = [2].
Proof.
  destruct forking_ready as (m & fl & pgdir & k & A & Hfr & Hlen & Hpar).
  destruct (fork_outcomes 0 0 (forker pgdir) 0 (k :: A) (forking m fl pgdir)) as (r & s' & l & E & _ & _ & _ & Hres);
    [apply forking_running|done|done|done|done|apply forking_files|done|by vm_compute|done|exact Hfr|exact Hpar|].
  exists m, fl, pgdir, s'. destruct Hres as [(_ & [Hno|Hno] & _)|(n & slot & k' & d & Hn & Hs & -> & Hf & _)]; [done| |].
  { change ((p_sz (forker pgdir) + 4095) / 4096) with 1 in Hno. lia. }
  injection Hn as <-. split; [exact E|]. destruct Hf as (? & ? & ? & ? & ? & ->). by split.
Defined.

(** ** wait *)

(** The slot of a child that has been waited for: free, with no stack, pid,
    parent or kill left, and an empty name. *)
Definition freed_slot (c : proc) : proc :=
  c<|p_state := UNUSED|><|p_kstack := 0|><|p_pid := 0|><|p_parent := None|><|p_killed := 0|><|p_name := <[0%nat := 0]> c.(p_name)|>.

(** The stores of wait to the slot, after the first. *)
Lemma clear_slot (n : nat) (c : proc) (s s' : kernel) :
  (n < length s.(k_procs))%nat -> s'.(k_procs) = <[n := c<|p_kstack := 0|>]> s.(k_procs) ->
  upd_proc n (fun p => p<|p_state := UNUSED|>) (upd_proc n (fun p => p<|p_killed := 0|>)
    (upd_proc n (fun p => p<|p_name ::= <[0%nat := 0]>|>) (upd_proc n (fun p => p<|p_parent := None|>)
      (upd_proc n (fun p => p<|p_pid := 0|>) s')))) = s'<|k_procs := <[n := freed_slot c]> s.(k_procs)|>.
Proof.
  intros Hlt Hps. assert (Hu : forall f x, upd_proc n f (s'<|k_procs := <[n := x]> s.(k_procs)|>) = s'<|k_procs := <[n := f x]> s.(k_procs)|>).
  { intros f x. transitivity (s'<|k_procs := alter f n (<[n := x]> s.(k_procs))|>); [reflexivity|]. by rewrite alter_insert_eq. }
  replace s' with (s'<|k_procs := <[n := c<|p_kstack := 0|>]> s.(k_procs)|>) at 1 by (rewrite <- Hps; by destruct s').
  by rewrite !Hu.
Qed.

Section Reap.
Context (i cur n : nat) (c : proc) (l : list Z) (s : kernel).
Hypothesis Hr : running i (Some cur) {[LkPtable]} s.
Hypothesis Hul : s.(k_use_lock) <> 0.
Hypothesis Hc : s.(k_procs) !! n = Some c.
Hypothesis Hfr : free_rep s l.
Hypothesis Hk : KERNBASE <= s.(k_end).
Hypothesis Hre : reapable s l c.

(** The stack is freed: the address space and what it owns stay. *)
Lemma reap_stack :
  exists s1, kfree c.(p_kstack) s = Ret tt s1 /\ within i (Some cur) {[LkPtable]} s s1 [c.(p_kstack)] /\
    vm_ok i (Some cur) {[LkPtable]} c.(p_pgdir) (c.(p_kstack) :: l) s1 /\
    owns c.(p_pgdir) s1.(k_end) s1.(k_mem) (c.(p_kstack) :: l) 0 /\
    space_pages c.(p_pgdir) s1.(k_mem) = space_pages c.(p_pgdir) s.(k_mem).
Proof.
  destruct Hre as [Hpt How Hst Hap]. set (k := p_kstack c) in *. set (d := p_pgdir c) in *.
  rewrite elem_of_app, elem_of_space in Hap.
  destruct (free_page i (Some cur) {[LkPtable]} d l s k) as (s1 & E1 & Hok1 & Hf1 & Hen1); [|done|tauto| |].
  { split; [by right|set_solver|done|done|done]. }
  { intros Hp. apply Hap. left. apply (pt_page_tables d (k_end s) (k_mem s) l k Hk Hpt Hst) in Hp. tauto. }
  pose proof (vm_free_end _ _ _ _ Hf1) as He1. pose proof (fun t => vm_free_pt _ _ _ _ t Hf1) as Hpt1.
  assert (Hup : forall vpn, 0 <= vpn < 2 ^ 19 -> upage d (k_mem s1) vpn = upage d (k_mem s) vpn) by (intros vpn Hv; unfold upage; by rewrite Hen1 by lia).
  exists s1. split_and!; [done| |done| |].
  - destruct (give_back i (Some cur) {[LkPtable]} l s k) as (s1' & E1' & _ & Hw); [by right|set_solver|done|done|done|tauto|].
    rewrite E1 in E1'. by injection E1' as <-.
  - destruct How as [H1 H2]. rewrite He1. split.
    + intros vpn t Hv. rewrite Hup by done. intros Et. destruct (H1 vpn t Hv Et) as (Q1 & Q2 & Q3 & Q4). split_and!; [done|done| |by rewrite Hpt1].
      intros [->|Hin]%elem_of_cons; [|done]. apply Hap. left. right. right. apply elem_of_upages. exists vpn. split; [lia|done].
    + intros vpn vpn' t Hv Hv'. rewrite !Hup by done. by apply H2.
  - unfold space_pages. rewrite (dir_tables_ext d (k_mem s) (k_mem s1) 0 1024), (upages_ext d (k_mem s) (k_mem s1) 0 (2 ^ 19)); [done| |].
    + intros vpn Hv. apply Hen1. lia.
    + intros t Ht. apply (vf_pde _ _ _ _ Hf1). lia.
Qed.
(** A zombie child is reaped. *)
Lemma wait_found_ok :
  exists s', wait_found n s = Ret c.(p_pid) s' /\ running i (Some cur) ∅ s' /\
    free_rep s' (space_pages c.(p_pgdir) s.(k_mem) ++ c.(p_kstack) :: l) /\
    (forall x, (forall p, p ∈ proc_pages s.(k_mem) c -> ~ in_page p x) -> s'.(k_mem) x = s.(k_mem) x) /\
    fork_frame s (<[n := freed_slot c]> s.(k_procs)) s.(k_nextpid) s.(k_files) s.(k_inodes) s'.
Proof.
  destruct reap_stack as (s1 & E1 & Hw1 & Hok1 & How1 & Hsp). set (k := p_kstack c) in *. set (d := p_pgdir c) in *.
  assert (Hlt : (n < length (k_procs s))%nat) by (by eapply lookup_lt_Some).
  assert (Hps1 : k_procs s1 = k_procs s) by (by destruct Hw1 as [(? & ? & ? & ? & ? & ->) _ _]).
  set (c0 := c<|p_kstack := 0|>). set (s2 := s1<|k_procs := <[n := c0]> (k_procs s)|>).
  assert (Es2 : upd_proc n (fun p => p<|p_kstack := 0|>) s1 = s2).
  { unfold s2, upd_proc. transitivity (s1<|k_procs := alter (fun p => p<|p_kstack := 0|>) n (k_procs s1)|>); [reflexivity|].
    by rewrite Hps1, (alter_insert _ _ _ c Hc). }
  assert (Hok2 : vm_ok i (Some cur) {[LkPtable]} d (k :: l) s2).
  { destruct Hok1 as [H1 H2 H3 H4 H5]. split; [|done|exact H3|exact H4|exact H5]. clear - H1. aframe H1. }
  destruct (freevm_ok i (Some cur) {[LkPtable]} d (k :: l) s2 Hok2 How1) as (s3 & E3 & Hfr3 & Hw3).
  change (k_mem s2) with (k_mem s1) in *. rewrite Hsp in Hfr3, Hw3. pose proof Hw3 as [(m3 & fl3 & Hq3) Hc3 Hm3].
  assert (Hps3 : k_procs s3 = <[n := c0]> (k_procs s)) by (by rewrite (quiet_procs _ _ Hq3)).
  set (s4 := s3<|k_procs := <[n := freed_slot c]> (k_procs s)|>).
  assert (Hr4 : running i (Some cur) {[LkPtable]} s4).
  { assert (Hul2 : k_use_lock s2 <> 0) by (change (k_use_lock s1 <> 0); by destruct Hw1 as [(? & ? & ? & ? & ? & ->) _ _]).
    destruct (within_running _ _ _ _ _ _ Hw3 Hul2) as [H _]. kframe H. }
  destruct (release_ex _ _ _ LkPtable _ Hr4 ltac:(set_solver)) as (s5 & E5 & Hq5 & Hr5).
  replace ({[LkPtable]} ∖ {[LkPtable]}) with (∅ : gset lockid) in Hr5 by set_solver.
  exists s5. split_and!; [|done|by destruct Hq5 as (? & ? & ? & ->)| |].
  - unfold wait_found. kret_by (unfold proc_at; kret; by rewrite Hc). kret_by exact E1.
    kret. change (upd_proc n _ s1) with (upd_proc n (fun p => p<|p_kstack := 0|>) s1). rewrite Es2.
    kret_by (unfold proc_at; kret; cbn; by rewrite list_lookup_insert_eq). kret_by exact E3. do 5 kret. rewrite (clear_slot n c s s3 Hlt Hps3).
    by kret_by exact E5.
  - intros x Hx. transitivity (k_mem s3 x); [by destruct Hq5 as (? & ? & ? & ->)|]. rewrite Hm3.
    + apply (wi_mem _ _ _ _ _ _ Hw1). intros t ->%list_elem_of_singleton. apply Hx. left.
    + intros t Ht. apply Hx. by right.
  - exists m3, fl3. clear - Hq5 Hq3 Hw1. destruct Hq5 as (b & cs & lks & ->). exists b, cs, lks. destruct Hq3 as (? & ? & ? & E3).
    destruct Hw1 as [(? & ? & ? & ? & ? & E1) _ _]. unfold s4. rewrite E3. unfold s2. rewrite E1. clear. destruct s. reflexivity.
Qed.
End Reap.

(** A ZOMBIE child of [cur]. *)
Definition dead_child (cur : nat) (c : proc) : Prop := c.(p_parent) = Some cur /\ c.(p_state) = ZOMBIE.

(** The scan stops at the first dead child. *)
Lemma wait_scan_first cur n rest s : forall slots b,
  (forall j, j ∈ slots -> exists q, s.(k_procs) !! j = Some q /\ ~ dead_child cur q) ->
  (exists c, s.(k_procs) !! n = Some c /\ dead_child cur c) ->
  wait_scan (slots ++ n :: rest) cur b s = bind (wait_found n) (fun pid => ret (inl pid)) s.
Proof.
  induction slots as [|j slots IH]; intros b Hno (c & Hc & Hp & Hz); cbn [wait_scan app].
  - kret_by (unfold proc_at; kret; by rewrite Hc). by rewrite !bool_decide_true.
  - destruct (Hno j (list_elem_of_here _ _)) as (q & Hq & Hd). kret_by (unfold proc_at; kret; by rewrite Hq).
    assert (forall b, wait_scan (slots ++ n :: rest) cur b s = bind (wait_found n) (fun pid => ret (inl pid)) s).
    { intros b'. apply IH; [|by exists c]. intros k Hk. apply Hno. by right. }
    case_bool_decide as H1; cbn [negb]; [|done]. rewrite bool_decide_false; [done|]. by intros ?; apply Hd.
Qed.

(** Without one it ends knowing whether there is a child. *)
Lemma wait_scan_end cur s : forall slots b,
  (forall j, j ∈ slots -> exists q, s.(k_procs) !! j = Some q /\ ~ dead_child cur q) ->
  exists h, wait_scan slots cur b s = Ret (inr h) s /\
    (h = true <-> b = true \/ exists j q, j ∈ slots /\ s.(k_procs) !! j = Some q /\ q.(p_parent) = Some cur).
Proof.
  induction slots as [|j slots IH]; intros b Hno; cbn [wait_scan].
  { exists b. split; [done|]. split; [by left|]. intros [?|(? & ? & []%not_elem_of_nil & _)]; done. }
  destruct (Hno j (list_elem_of_here _ _)) as (q & Hq & Hd). kret_by (unfold proc_at; kret; by rewrite Hq).
  assert (Hno' : forall k, k ∈ slots -> exists q, k_procs s !! k = Some q /\ ~ dead_child cur q) by (intros; apply Hno; by right).
  case_bool_decide as H1; cbn [negb].
  - rewrite bool_decide_false by (intros ?; by apply Hd). destruct (IH true Hno') as (h & E & Hh). exists h. split; [done|].
    split; [|intros _; apply Hh; by left]. intros _. right. exists j, q. split; [left|done].
  - destruct (IH b Hno') as (h & E & Hh). exists h. split; [done|]. rewrite Hh. split; (intros [?|(k & p & Hk & Hp & Hpar)]; [by left|right]).
    + exists k, p. split; [by right|done].
    + apply elem_of_cons in Hk as [->|Hk]; [by simplify_eq|]. by exists k, p.
Qed.

(** The outcome [o] of wait from state [s]; [next] is what it does when it is
    resumed. *)
Record waited (i cur : nat) (pr : proc) (l : list Z) (s : kernel) (o : outcome kernel Z) (next : K Z) : Prop := Waited {
  wd_reap n c : s.(k_procs) !! n = Some c -> dead_child cur c ->
    (forall j q, (j < n)%nat -> s.(k_procs) !! j = Some q -> ~ dead_child cur q) ->
    exists s', o = Ret c.(p_pid) s' /\ running i (Some cur) ∅ s' /\
      free_rep s' (space_pages c.(p_pgdir) s.(k_mem) ++ c.(p_kstack) :: l) /\
      (forall x, (forall p, p ∈ proc_pages s.(k_mem) c -> ~ in_page p x) -> s'.(k_mem) x = s.(k_mem) x) /\
      fork_frame s (<[n := freed_slot c]> s.(k_procs)) s.(k_nextpid) s.(k_files) s.(k_inodes) s';
  wd_none : (forall j q, s.(k_procs) !! j = Some q -> ~ dead_child cur q) ->
    (forall j q, s.(k_procs) !! j = Some q -> q.(p_parent) <> Some cur) \/ pr.(p_killed) <> 0 ->
    exists s', o = Ret (-1) s' /\ running i (Some cur) ∅ s' /\ quiet s s';
  wd_sleep : (forall j q, s.(k_procs) !! j = Some q -> ~ dead_child cur q) ->
    (exists j q, s.(k_procs) !! j = Some q /\ q.(p_parent) = Some cur) -> pr.(p_killed) = 0 ->
    exists s1 k, o = Switch s1 k /\ running i (Some cur) {[LkPtable]} s1 /\
      quiet (s<|k_procs ::= <[cur := asleep (ChProc cur) pr]>|>) s1 /\
      forall j s2, running j (Some cur) {[LkPtable]} s2 -> exists s3, k s2 = next s3 /\
        running j (Some cur) {[LkPtable]} s3 /\ quiet (upd_proc cur (fun r => r<|p_chan := None|>) s2) s3 }.

Section Wait.
Context (i cur : nat) (pr : proc) (l : list Z) (s : kernel) (fuel : nat).
Hypothesis Hr : running i (Some cur) {[LkPtable]} s.
Hypothesis Hcur : s.(k_procs) !! cur = Some pr.
Hypothesis Hn : length s.(k_procs) = NPROC.

(** The end of a scan that found no dead child. *)
Lemma wait_loop_scanned :
  (forall j q, s.(k_procs) !! j = Some q -> ~ dead_child cur q) ->
  exists h, (h = true <-> exists j q, s.(k_procs) !! j = Some q /\ q.(p_parent) = Some cur) /\
    wait_loop (S fuel) cur s =
      (if negb h || truth pr.(p_killed) then (release LkPtable ;;; ret (-1)) s
       else (sleep (ChProc cur) LkPtable ;;; wait_loop fuel cur) s).
Proof.
  intros Hno. destruct (wait_scan_end cur s (seq 0 NPROC) false) as (h & E & Hh).
  { intros j Hj%elem_of_seq. destruct (lookup_lt_is_Some_2 (k_procs s) j ltac:(lia)) as [q Hq]. exists q. split; [done|by eapply Hno]. }
  exists h. split.
  - rewrite Hh. split; [intros [?|(j & q & _ & H)]; [done|by exists j, q]|]. intros (j & q & Hq & Hp). right. exists j, q.
    split_and!; [|done|done]. apply lookup_lt_Some in Hq. apply elem_of_seq. lia.
  - cbn [wait_loop]. kret_by exact E. cbv iota. kret_by (unfold proc_at; kret; by rewrite Hcur). by destruct (negb h || _).
Qed.

Lemma wait_loop_waited :
  s.(k_use_lock) <> 0 -> free_rep s l -> KERNBASE <= s.(k_end) ->
  (forall n c, s.(k_procs) !! n = Some c -> dead_child cur c -> reapable s l c) ->
  waited i cur pr l s (wait_loop (S fuel) cur s) (wait_loop fuel cur).
Proof.
  intros Hul Hfr Hk Hre. split.
  - intros n c Hc Hd Hfst. destruct (wait_found_ok i cur n c l s Hr Hul Hc Hfr Hk (Hre n c Hc Hd)) as (s' & E & H).
    exists s'. split; [|exact H]. cbn [wait_loop]. pose proof (lookup_lt_Some _ _ _ Hc) as Hlt.
    assert (Es : wait_scan (seq 0 NPROC) cur false s = Ret (inl c.(p_pid)) s').
    { replace NPROC with (n + S (NPROC - S n))%nat by lia. rewrite seq_app. cbn [seq Nat.add].
      rewrite wait_scan_first; [by kret_by exact E| |by exists c].
      intros j Hj%elem_of_seq. destruct (lookup_lt_is_Some_2 (k_procs s) j ltac:(lia)) as [q Hq]. exists q. split; [done|]. eapply Hfst; [|done]. lia. }
    by kret_by exact Es.
  - intros Hno Hor. destruct (wait_loop_scanned Hno) as (h & Hh & ->).
    replace (negb h || truth (p_killed pr)) with true.
    2:{ destruct Hor as [Hor|Hor]; [|by rewrite (truth_true _ Hor), orb_true_r]. destruct h; [|done].
        destruct (proj1 Hh eq_refl) as (j & q & Hq & Hp). by destruct (Hor j q Hq). }
    destruct (release_ex _ _ _ LkPtable _ Hr ltac:(set_solver)) as (s5 & E5 & Hq5 & Hr5).
    replace ({[LkPtable]} ∖ {[LkPtable]}) with (∅ : gset lockid) in Hr5 by set_solver.
    exists s5. split_and!; [|done|done]. by kret_by exact E5.
  - intros Hno Hex H0. destruct (wait_loop_scanned Hno) as (h & Hh & ->). rewrite H0, (proj2 Hh Hex). cbn [negb truth Z.eqb orb].
    destruct (sleep_switches i cur pr (ChProc cur) LkPtable s Hr Hcur) as (s1 & k & E & Hq & Hr1 & Hres).
    exists s1, (fun s2 => obind (k s2) (fun _ => wait_loop fuel cur)). split_and!; [|done|done|].
    + unfold bind at 1. by rewrite E.
    + intros j s2 Hr2. specialize (Hres j s2 Hr2). apply runs_inv in Hres as ([] & s3 & E3 & Hq3 & Hr3). exists s3. by rewrite E3.
Qed.
End Wait.

Lemma waited_quiet i cur pr l s s1 o next : quiet s s1 -> waited i cur pr l s1 o next -> waited i cur pr l s o next.
Proof.
  intros Hq [H1 H2 H3]. rewrite (quiet_procs _ _ Hq) in *. split.
  - intros n c Hc Hd Hf. destruct (H1 n c Hc Hd Hf) as (s' & E & Hr & Hfr & Hm & m & fl & Hfr').
    exists s'. destruct Hq as (? & ? & ? & ->). split_and!; [done..|]. by exists m, fl.
  - intros Hno Hor. destruct (H2 Hno Hor) as (s' & E & Hr & Hs). exists s'. split_and!; [done..|]. by eapply quiet_trans.
  - intros Hno Hex H0. destruct (H3 Hno Hex H0) as (s2 & k & E & Hr & Hs & Hk). exists s2, k. split_and!; [done|done| |done]. by quiet_by Hq Hs.
Qed.

(** C17: wait in every case.  If the caller has a child that is a ZOMBIE, the
    first such slot is freed and its pid returned: exactly the child's stack,
    pages, tables and directory go to the free list, its slot is UNUSED without
    stack, pid, parent, name or kill, and no other process and no other memory
    changes.  With no such child, and without any child or when the caller has
    been killed, wait returns -1 and changes nothing.  When there is a child,
    none is dead and the caller has not been killed, the caller sleeps on
    itself holding only ptable.lock, and whoever resumes it makes it look
    again. *)
Theorem wait_outcomes `{P : Patience} (i cur : nat) (pr : proc) (l : list Z) (s : kernel) :
  running i (Some cur) ∅ s -> s.(k_use_lock) <> 0 -> s.(k_procs) !! cur = Some pr -> length s.(k_procs) = NPROC ->
  free_rep s l -> KERNBASE <= s.(k_end) ->
  (forall n c, s.(k_procs) !! n = Some c -> dead_child cur c -> reapable s l c) ->
  waited i cur pr l s (wait s) (wait_loop patience cur).
Proof.
  intros Hr Hul Hcur Hlen Hfr Hk Hre. destruct (curproc_ex _ _ _ _ Hr) as (s0 & E0 & Hq0 & Hr0).
  destruct (acquire_ex _ _ _ LkPtable _ Hr0 (not_elem_of_empty _)) as (s1 & E1 & Hq1 & Hr1). rewrite union_empty_r_L in Hr1.
  pose proof (quiet_trans _ _ _ Hq0 Hq1) as Hq. clear Hq0 Hq1.
  assert (Ew : wait s = wait_loop (S patience) cur s1) by (unfold wait; kret_by exact E0; by kret_by exact E1). rewrite Ew. clear Ew E0 E1 Hr0 s0.
  apply (waited_quiet _ _ _ _ _ _ _ _ Hq). pose proof Hq as (? & ? & ? & Es). apply wait_loop_waited; rewrite ?Es; [by rewrite <- Es|done..|].
  intros n c Hc Hd. destruct (Hre n c Hc Hd) as [H1 H2 H3 H4]. by split.
Qed.

(** The child of that fork has exited. *)
Lemma zombie_ready : exists s l c,
  running 0 (Some 0%nat) ∅ s /\ s.(k_use_lock) <> 0 /\ (exists pgdir, s.(k_procs) = forker pgdir :: c :: replicate (NPROC - 2) zero_proc) /\ free_rep s l /\
  KERNBASE <= s.(k_end) /\ c.(p_pid) = 2 /\ c.(p_parent) = Some 0%nat /\ c.(p_state) = ZOMBIE /\ reapable s l c /\
  75 < Z.of_nat (length (proc_pages s.(k_mem) c ++ l)).
Proof.
  destruct forking_ready as (m & fl & pgdir & k & A & Hfr & Hlen & Hpar).
  destruct (fork_slot 0 0 1 (forker pgdir) zero_proc 0 k A (forking m fl pgdir)) as (r & s' & l & E & Hr & Hfr' & _ & Hres);
    [apply forking_running|done|done|done|done|apply forking_files|done|by vm_compute|done|done|done|exact Hfr|exact Hpar|].
  destruct Hres as [(_ & Hno & _)|(d & _ & Hf & _ & Hre & Hall)]; [change ((p_sz (forker pgdir) + 4095) / 4096) with 1 in Hno; lia|].
  set (c := child (k_nextpid (forking m fl pgdir)) k d 0 (forker pgdir) zero_proc) in *.
  exists (s'<|k_procs := forker pgdir :: c<|p_state := ZOMBIE|> :: replicate (NPROC - 2) zero_proc|>), l, (c<|p_state := ZOMBIE|>).
  split_and!; [kframe Hr|destruct Hf as (? & ? & ? & ? & ? & ->); done|by exists pgdir|exact Hfr'|destruct Hf as (? & ? & ? & ? & ? & ->); by vm_compute|done|done|done| |].
  - destruct Hre as [H1 H2 H3 H4]. by split.
  - assert (Hl : length (proc_pages (k_mem s') c ++ l) = length (k :: A)) by (by rewrite Hall). rewrite <- Hl in Hlen. exact Hlen.
Qed.
#[local] Instance no_wait : Patience := 0%nat.

Lemma wait_outcomes_witness :
  exists s s' l, wait s = Ret 2 s' /\ free_rep s' l /\ 75 < Z.of_nat (length l) /\ (p_state <$> s'.(k_procs) !! 1%nat) = Some UNUSED.
Proof.
  destruct zombie_ready as (s & l & c & Hr & Hul & (pgdir & Hps) & Hfr & Hk & Hpid & Hpar & Hz & Hre & Hlen).
  destruct (wait_outcomes 0 0 (forker pgdir) l s) as [Hw _ _]; [exact Hr|exact Hul|by rewrite Hps|by rewrite Hps|exact Hfr|exact Hk| |].
  { intros n c' Hn Hd'. rewrite Hps in Hn. destruct n as [|[|n]]; [by injection Hn as <-; destruct Hd'|by injection Hn as <-|].
    change (replicate (NPROC - 2) zero_proc !! n = Some c') in Hn. apply lookup_replicate in Hn as [-> _]. by destruct Hd'. }
  rewrite Hps in Hw. destruct (Hw 1%nat c) as (s' & E & _ & Hfr' & _ & m & fl & Hq); [done|done| |].
  { intros [|j] q Hj Hq; [|lia]. injection Hq as <-. by intros []. }
  rewrite Hpid in E.
  exists s, s', (space_pages (p_pgdir c) (k_mem s) ++ p_kstack c :: l). split; [exact E|]. split; [exact Hfr'|]. split.
  - unfold proc_pages in Hlen. rewrite length_app in *. cbn [length] in *. lia.
  - destruct Hq as (? & ? & ? & ->). reflexivity.
Defined.
