(* ===== verification/Grow.v ===== *)
(** * Resizing a process (growproc of proc.c)

    What allocuvm does when memory runs out, and what growproc does for every
    argument: the mapping, the free pages and the size of the process. *)

From S2P Require Import Prelude State Spinlock Segments Thread CString Cprintf Kalloc Vm Paging Freevm Sched Proc.

(** ** Taking back what was added *)
Section Undo.
Context (i : nat) (q : option nat) (ls : gset lockid) (pgdir : Z).

(** The pages added are the user's own. *)
Lemma grown_owns l s v ps given l' s' :
  grown i q ls pgdir l s v ps given l' s' -> KERNBASE < s.(k_end) -> 0 <= v ->
  (forall vpn, v <= vpn < 2 ^ 19 -> present (entry s.(k_mem) pgdir vpn) = false) ->
  owns pgdir s'.(k_end) s'.(k_mem) l' v /\
  forall k, Z.of_nat (length ps) <= k -> v + k <= 2 ^ 19 -> forall t, t ∈ upages pgdir s'.(k_mem) v k <-> t ∈ ps.
Proof.
  intros [Hok Hst [Hnd Hfp _] Hen] Hk Hv Hab. pose proof (vm_step_end _ _ _ _ _ _ Hst) as He.
  assert (Hu : forall vpn, v <= vpn < 2 ^ 19 -> upage pgdir (k_mem s') vpn = ps !! Z.to_nat (vpn - v)).
  { intros vpn Hvpn. unfold upage. rewrite Hen by lia. unfold with_pages. replace (v <=? vpn) with true by lia.
    destruct (ps !! Z.to_nat (vpn - v)) as [p|] eqn:Ep; [|by rewrite Hab].
    destruct (Hfp p (list_elem_of_lookup_2 _ _ _ Ep)) as (Hp & _). by destruct (map_entry_page (k_end s) p (Z.lor PTE_W PTE_U) ltac:(lia) Hp) as [-> ->]. }
  split; [split|].
  - intros vpn t Hvpn. rewrite Hu by done. intros Et. destruct (Hfp t (list_elem_of_lookup_2 _ _ _ Et)) as (Hp & _ & Hnl & Hnp). rewrite He.
    split_and!; [done|destruct Hp as (_ & ? & _); lia|done|done].
  - intros vpn vpn' t Hvpn Hvpn'. rewrite !Hu by done. intros E E'. pose proof (NoDup_lookup _ _ _ _ Hnd E E'). lia.
  - intros k Hlen Hmax t. rewrite elem_of_upages. split.
    + intros (vpn & Hvpn & E). rewrite Hu in E by lia. by eapply list_elem_of_lookup_2.
    + intros (j & Ej)%list_elem_of_lookup_1. pose proof (lookup_lt_Some _ _ _ Ej). exists (v + Z.of_nat j). split; [lia|].
      rewrite Hu by lia. by replace (Z.to_nat (v + Z.of_nat j - v)) with j by lia.
Qed.

(** Everything the process and others can see is as before; the pages of [l] are
    in [l'], but for those that have become tables. *)
Record restored (l : list Z) (s : kernel) (l' : list Z) (s' : kernel) : Prop := {
  rs_vm : vm_ok i q ls pgdir l' s';
  rs_entry vpn : 0 <= vpn < 2 ^ 20 ->
    entry s'.(k_mem) pgdir vpn = entry s.(k_mem) pgdir vpn \/
    present (entry s'.(k_mem) pgdir vpn) = false /\ present (entry s.(k_mem) pgdir vpn) = false;
  rs_pages p : page_ok s.(k_end) p -> (p ∈ l \/ pt_page s.(k_mem) pgdir p) <-> (p ∈ l' \/ pt_page s'.(k_mem) pgdir p);
  rs_mem x : (forall p, p ∈ l \/ page_ok s.(k_end) p /\ pt_page s.(k_mem) pgdir p -> ~ in_page p x) -> s'.(k_mem) x = s.(k_mem) x;
  rs_frame : exists m fl, shown (s<|k_mem := m|><|k_freelist := fl|>) s'
}.

(** The message, and deallocuvm. *)
Lemma undo_added fmt l s v ps given s1 oldsz newsz :
  grown i q ls pgdir l s v ps given [] s1 -> s.(k_use_lock) <> 0 -> LkCons ∉ ls -> on_screen s -> s.(k_panicked) = 0 ->
  plain (bytes fmt ++ [newline]) -> KERNBASE < s.(k_end) -> 0 <= oldsz < newsz -> newsz < KERNBASE ->
  v = (oldsz + 4095) / 4096 -> v + Z.of_nat (length ps) <= (newsz + 4095) / 4096 ->
  (forall vpn, v <= vpn < 2 ^ 19 -> present (entry s.(k_mem) pgdir vpn) = false) ->
  exists s3 us, (cprintln fmt [] ;;; deallocuvm pgdir newsz oldsz)%xv6 s1 = Ret oldsz s3 /\ vm_ok i q ls pgdir us s3 /\
    (forall t, t ∈ us <-> t ∈ ps) /\ (forall t, pt_page s3.(k_mem) pgdir t <-> pt_page s1.(k_mem) pgdir t) /\
    (forall vpn, 0 <= vpn < 2 ^ 20 -> entry s3.(k_mem) pgdir vpn = entry s.(k_mem) pgdir vpn \/
       present (entry s3.(k_mem) pgdir vpn) = false /\ present (entry s.(k_mem) pgdir vpn) = false) /\
    (forall x, (forall p, p ∈ ps \/ page_ok s.(k_end) p /\ pt_page s1.(k_mem) pgdir p -> ~ in_page p x) -> s3.(k_mem) x = s1.(k_mem) x) /\
    exists m fl, shown (s<|k_mem := m|><|k_freelist := fl|>) s3.
Proof.
  intros Hg Hul Hls Hon Hpa Hpl Hk Hsz Hnew Ev Hlen Hab. destruct (PGROUNDUP_pages oldsz ltac:(unfold KERNBASE in *; lia)) as (_ & Hv & _). rewrite <- Ev in Hv.
  destruct (PGROUNDUP_pages newsz ltac:(lia)) as (_ & Hw & _). set (w := (newsz + 4095) / 4096) in *.
  destruct (grown_owns _ _ _ _ _ _ _ Hg Hk ltac:(lia) Hab) as [How Hus]. pose proof Hg as [Hok1 Hst _ Hen]. pose proof (vm_step_end _ _ _ _ _ _ Hst) as He1.
  destruct (vs_quiet _ _ _ _ _ _ Hst) as (m1 & fl1 & Hq1). pose proof Hok1 as [Hc1 Hlk Hfr1 Hk1 Hpt1].
  assert (Hr1 : running i q ls s1) by (apply can_running; [done|]; by destruct Hq1 as (? & ? & ? & ->)).
  destruct (cprintln_ex i q ls s1 fmt Hr1 Hls) as (s2 & E2 & Hr2 & _ & Hsh2); [by destruct Hq1 as (? & ? & ? & ->)..|done|].
  assert (k_mem s2 = k_mem s1 /\ k_end s2 = k_end s1) as [Hm2 He2] by (by destruct Hsh2 as (? & ? & ? & ? & ? & ? & ->)).
  assert (Hok2 : vm_ok i q ls pgdir [] s2).
  { split; [by right|done| |by rewrite He2|by rewrite Hm2, He2]. by destruct Hsh2 as (? & ? & ? & ? & ? & ? & ->). }
  destruct (deallocuvm_ok i q ls pgdir [] s2 newsz oldsz v (w - v) Hok2) as (s3 & E3 & Hk3 & [D1 D2 _ D4]); [lia|lia|done|unfold w; lia|by rewrite Hm2, He2|].
  pose proof (fun t => vm_free_pt _ _ _ _ t D2) as Hpt3. rewrite Hm2 in Hpt3, D4, D1, D2. rewrite app_nil_r in D1.
  specialize (Hus (w - v) ltac:(lia) ltac:(lia)). remember (upages pgdir (k_mem s1) v (w - v)) as us eqn:Eus.
  exists s3, (reverse us). split_and!; [by kret_by exact E2|done|intros t; rewrite elem_of_reverse; apply Hus|exact Hpt3| | |].
  - intros vpn Hvpn. destruct (D4 vpn Hvpn) as [Dp De]. destruct (decide (v <= vpn < v + (w - v))) as [Hin|Hout].
    + right. split; [|apply Hab; lia]. rewrite Dp. by replace ((v <=? vpn) && (vpn <? v + (w - v))) with true by lia.
    + left. rewrite De, Hen by done. unfold with_pages. destruct (Z.leb_spec v vpn); [|done]. rewrite lookup_ge_None_2 by lia. done.
  - intros x Hx. rewrite <- Hm2. apply (vf_mem _ _ _ _ D2).
    + intros t Ht. apply Hx. left. apply Hus. by rewrite elem_of_reverse in Ht.
    + intros t Ht Hp. rewrite He2, He1 in Ht. rewrite Hm2 in Hp. apply Hx. by right.
  - destruct (vf_quiet _ _ _ _ D2) as (m3 & fl3 & Hq3). exists m3, fl3. destruct Hsh2 as (a & b & c & Hq2). exists a, b, c.
    clear - Hq1 Hq2 Hq3. destruct Hq3 as (b3 & c3 & l3 & ->). exists b3, c3, l3. destruct Hq2 as (? & ? & ? & ->), Hq1 as (? & ? & ? & ->). by destruct s.
Qed.

(** The account of the pages when [extra] is put back besides. *)
Lemma undo_pages (l : list Z) s (ps given : list Z) s1 s3 (us extra : list Z) :
  vm_step pgdir s l s1 [] given -> (forall t, t ∈ given <-> t ∈ ps \/ t ∈ extra) -> (forall t, t ∈ us <-> t ∈ ps) ->
  (forall t, pt_page s3.(k_mem) pgdir t <-> pt_page s1.(k_mem) pgdir t) ->
  forall p, page_ok s.(k_end) p -> (p ∈ l \/ pt_page s.(k_mem) pgdir p) <-> (p ∈ extra ++ us \/ pt_page s3.(k_mem) pgdir p).
Proof.
  intros [_ _ S3 S4 S5 S6 _] Hg Hus Hpt p Hp. rewrite Hpt, elem_of_app, Hus. split.
  - intros [H|H]; [|by auto]. destruct (S5 p Hp H) as [?%elem_of_nil|[H'|H']]; [done| |by auto]. apply Hg in H'. tauto.
  - intros [H|H]; [left; apply S6, Hg; tauto|]. by destruct (S3 p Hp H); auto.
Qed.

Section RunOut.
Context (l : list Z) (s : kernel) (v : Z) (ps given : list Z) (s1 : kernel) (oldsz newsz : Z).
Hypothesis Hg : grown i q ls pgdir l s v ps given [] s1.
Hypothesis Hul : s.(k_use_lock) <> 0.
Hypothesis Hls : LkCons ∉ ls.
Hypothesis Hon : on_screen s.
Hypothesis Hpa : s.(k_panicked) = 0.
Hypothesis Hk : KERNBASE < s.(k_end).
Hypothesis Hsz : 0 <= oldsz < newsz.
Hypothesis Hnew : newsz < KERNBASE.
Hypothesis Ev : v = (oldsz + 4095) / 4096.
Hypothesis Hlen : v + Z.of_nat (length ps) <= (newsz + 4095) / 4096.
Hypothesis Hab : forall vpn, v <= vpn < 2 ^ 19 -> present (entry s.(k_mem) pgdir vpn) = false.

Lemma grown_mem x :
  (forall p, p ∈ l \/ page_ok s.(k_end) p /\ pt_page s.(k_mem) pgdir p -> ~ in_page p x) ->
  s1.(k_mem) x = s.(k_mem) x /\ forall p, p ∈ given \/ page_ok s.(k_end) p /\ pt_page s1.(k_mem) pgdir p -> ~ in_page p x.
Proof.
  intros Hx. destruct (gr_step _ _ _ _ _ _ _ _ _ _ _ Hg) as [_ _ S3 _ _ S6 S7]. split.
  - apply S7; intros; apply Hx; auto.
  - intros p [Hp|[Hp Hpp]]; apply Hx; [left; by apply S6|]. destruct (S3 p Hp Hpp); auto.
Qed.

Lemma run_out1_ok : given = ps -> exists s' l', run_out1 pgdir oldsz newsz s1 = Ret 0 s' /\ restored l s l' s'.
Proof.
  intros Egiven.
  destruct (undo_added "allocuvm out of memory" l s v ps given s1 oldsz newsz) as (s3 & us & E3 & Hok3 & Hus & Hpt3 & Hen3 & Hm3 & Hf3); try done.
  { by repeat (constructor; [done|]); constructor. }
  exists s3, us. split.
  - unfold run_out1. by rewrite (bind_seq _ _ _ _ _ _ E3).
  - split; [done|done| | |done].
    + apply (undo_pages l s ps given s1 s3 us []); [apply Hg|intros t; rewrite Egiven; set_solver|done|done].
    + intros x Hx. destruct (grown_mem x Hx) as [<- Hx1]. apply Hm3. rewrite Egiven in Hx1. done.
Qed.

Lemma run_out2_ok p :
  given = ps ++ [p] -> page_ok s.(k_end) p -> p ∉ ps -> ~ pt_page s1.(k_mem) pgdir p ->
  exists s' l', run_out2 pgdir oldsz newsz p s1 = Ret 0 s' /\ restored l s l' s'.
Proof.
  intros Egiven Hp Hps Hnp.
  destruct (undo_added "allocuvm out of memory (2)" l s v ps given s1 oldsz newsz) as (s3 & us & E3 & Hok3 & Hus & Hpt3 & Hen3 & Hm3 & Hf3); try done.
  { by repeat (constructor; [done|]); constructor. }
  assert (He3 : k_end s3 = k_end s) by (by destruct Hf3 as (? & ? & ? & ? & ? & ? & ? & ? & ->)).
  destruct (free_page i q ls pgdir us s3 p Hok3) as (s4 & E4 & Hok4 & Hf4 & Hen4); [by rewrite He3|by rewrite Hus|by rewrite Hpt3|].
  exists s4, (p :: us). split.
  - unfold run_out2. rewrite (bind_seq _ _ _ _ _ _ E3). by kret_by exact E4.
  - split; [done| | | |].
    + intros vpn Hvpn. rewrite Hen4 by done. by apply Hen3.
    + apply (undo_pages l s ps given s1 s4 us [p]); [apply Hg|intros t; rewrite Egiven; set_solver|done|].
      intros t. by rewrite (vm_free_pt _ _ _ _ t Hf4), Hpt3.
    + intros x Hx. destruct (grown_mem x Hx) as [<- Hx1]. rewrite Egiven in Hx1. rewrite <- Hm3.
      * apply (vf_mem _ _ _ _ Hf4).
        -- intros t ->%list_elem_of_singleton. apply Hx1. left. apply elem_of_app. right. left.
        -- intros t Ht Hpp. rewrite He3 in Ht. rewrite Hpt3 in Hpp. apply Hx1. by right.
      * intros t [Ht|Ht]; apply Hx1; [left; apply elem_of_app; by left|by right].
    + destruct (vf_quiet _ _ _ _ Hf4) as (m4 & fl4 & Hq4). exists m4, fl4. destruct Hf3 as (m3 & fl3 & a & b & c & Hq3). exists a, b, c.
      clear - Hq3 Hq4. destruct Hq4 as (b4 & c4 & l4 & ->). exists b4, c4, l4. destruct Hq3 as (? & ? & ? & ->). by destruct s.
Qed.
End RunOut.

Lemma restored_xlate l s l' s' va st :
  restored l s l' s' -> pt_ok s.(k_end) s.(k_mem) pgdir l -> 0 <= va < 2 ^ 32 -> xlate s'.(k_mem) pgdir va st = xlate s.(k_mem) pgdir va st.
Proof.
  intros [[_ _ _ Hk Hpt] Hen _ _ (m & fl & a & b & c & Hq)] Hpt0 Hva. assert (He : k_end s' = k_end s) by (by destruct Hq as (? & ? & ? & ->)).
  rewrite (xlate_entry (k_end s') (k_mem s') pgdir l'), (xlate_entry (k_end s) (k_mem s) pgdir l) by (done || by rewrite <- He).
  destruct (Hen (va / PGSIZE)) as [-> |[H1 H2]]; [unfold PGSIZE; Z.to_euclidean_division_equations; lia|done|].
  cbv zeta. by rewrite H1, H2.
Qed.

(** allocuvm: all the pages, or none. *)
Lemma allocuvm_cases l s oldsz newsz :
  vm_ok i q ls pgdir l s -> s.(k_use_lock) <> 0 -> LkCons ∉ ls -> on_screen s -> s.(k_panicked) = 0 -> KERNBASE < s.(k_end) ->
  0 <= oldsz < newsz -> newsz < KERNBASE ->
  let v := (oldsz + 4095) / 4096 in let w := (newsz + 4095) / 4096 in
  (forall vpn, v <= vpn < 2 ^ 19 -> present (entry s.(k_mem) pgdir vpn) = false) ->
  exists s' l', allocuvm pgdir oldsz newsz s = Ret newsz s' /\
      (exists ps, grown i q ls pgdir l s v ps ps l' s' /\ v + Z.of_nat (length ps) = w) \/
    allocuvm pgdir oldsz newsz s = Ret 0 s' /\ Z.of_nat (length l) < 2 * (w - v) /\ restored l s l' s'.
Proof.
  intros Hok Hul Hls Hon Hpa Hk Hsz Hnew v w Hab.
  destruct (PGROUNDUP_pages oldsz ltac:(lia)) as (Hround & Hv & Hvo), (PGROUNDUP_pages newsz ltac:(lia)) as (_ & Hw & Hwo).
  fold v in Hround, Hv, Hvo. fold w in Hw, Hwo. assert (Hvw : v <= w) by (apply Z.div_le_mono; lia).
  assert (Eal : allocuvm pgdir oldsz newsz s = allocuvm_loop (S (Z.to_nat (newsz / PGSIZE + 1))) pgdir (v * PGSIZE) oldsz newsz s).
  { unfold allocuvm. replace (KERNBASE <=? newsz) with false by lia. replace (newsz <? oldsz) with false by lia. by rewrite Hround. }
  destruct (allocuvm_loop_try i q ls pgdir oldsz newsz (Z.to_nat (w - v)) (S (Z.to_nat (newsz / PGSIZE + 1))) l s v)
    as (s1 & l1 & ps & given & Hg & Hres); [done|lia|lia|unfold PGSIZE in *; lia|unfold PGSIZE in *; lia| | |].
  { change PGSIZE with 4096 in *. Z.to_euclidean_division_equations. lia. }
  { intros vpn Hvpn. apply Hab. lia. }
  rewrite Eal. destruct Hres as [(E & -> & Hl)|(Hl & Hlen & -> & Hres)].
  - exists s1, l1. left. split; [done|]. exists ps. split; [done|lia].
  - destruct Hres as [(-> & E)|(p & -> & Hp & Hps & Hnp & E)]; rewrite E.
    + destruct (run_out1_ok l s v ps ps s1 oldsz newsz Hg Hul Hls Hon Hpa Hk Hsz Hnew eq_refl ltac:(fold w; lia) Hab eq_refl) as (s' & l' & E' & Hre).
      exists s', l'. right. split_and!; [done|lia|done].
    + destruct (run_out2_ok l s v ps (ps ++ [p]) s1 oldsz newsz Hg Hul Hls Hon Hpa Hk Hsz Hnew eq_refl ltac:(fold w; lia) Hab p eq_refl Hp Hps Hnp) as (s' & l' & E' & Hre).
      exists s', l'. right. split_and!; [done|lia|done].
Qed.
End Undo.

(** ** growproc *)

(** What growproc may change besides the caller's memory and the free list. *)
Definition grow_frame (s : kernel) (ps : list proc) (cr3 : Z) (s' : kernel) : Prop :=
  exists m fl, shown (s<|k_procs := ps|><|k_cr3 := cr3|><|k_mem := m|><|k_freelist := fl|>) s'.

(** The end of growproc: the new size, and the caller's address space again. *)
Lemma grow_commit (i cur : nat) (pr : proc) (sz : Z) (s t : kernel) :
  (exists m fl, shown (s<|k_mem := m|><|k_freelist := fl|>) t) -> running i (Some cur) ∅ t ->
  s.(k_procs) !! cur = Some pr -> pr.(p_kstack) <> 0 -> pr.(p_pgdir) <> 0 ->
  exists s', (set_proc cur (fun p => p<|p_sz := sz|>) ;;; switchuvm (Some cur) ;;; ret 0)%xv6 t = Ret 0 s' /\
    running i (Some cur) ∅ s' /\ s'.(k_mem) = t.(k_mem) /\ s'.(k_freelist) = t.(k_freelist) /\
    grow_frame s (<[cur := pr<|p_sz := sz|>]> s.(k_procs)) (V2P pr.(p_pgdir)) s'.
Proof.
  intros (m & fl & a & b & c & Hq) Hr Hpr Hks Hpg. kret.
  set (t1 := t<|k_procs := <[cur := pr<|p_sz := sz|>]> (k_procs s)|>).
  assert (Et1 : upd_proc cur (fun p => p<|p_sz := sz|>) t = t1).
  { unfold t1, upd_proc. transitivity (t<|k_procs := alter (fun p => p<|p_sz := sz|>) cur (k_procs t)|>); [reflexivity|].
    assert (Hps : k_procs t = k_procs s) by (by destruct Hq as (? & ? & ? & ->)). by rewrite Hps, (alter_insert _ _ _ pr Hpr). }
  change (upd_proc cur _ t) with (upd_proc cur (fun p => p<|p_sz := sz|>) t). rewrite Et1.
  assert (Hr1 : running i (Some cur) ∅ t1) by kframe Hr.
  assert (Hsw : runs (switchuvm (Some cur) t1) (fun _ s' => running i (Some cur) ∅ s' /\ quiet (t1<|k_cr3 := V2P pr.(p_pgdir)|>) s')).
  { apply (switchuvm_runs i (Some cur) ∅ t1 cur (pr<|p_sz := sz|>)); [done| |done|done|].
    - unfold t1. cbn. apply list_lookup_insert_eq. by eapply lookup_lt_Some.
    - intros s0 s' Hq0 Hq' Hr'. split; [done|]. clear - Hq0 Hq'. by quiet_by Hq0 Hq'. }
  apply runs_inv in Hsw as ([] & s' & E' & Hr' & Hq'). kret_by exact E'. exists s'.
  split_and!; [done|done|by destruct Hq' as (? & ? & ? & ->)|by destruct Hq' as (? & ? & ? & ->)|].
  exists m, fl, a, b, c. clear - Hq Hq'. unfold t1 in Hq'. destruct Hq' as (b1 & c1 & l1 & ->). exists b1, c1, l1. destruct Hq as (? & ? & ? & ->). by destruct s.
Qed.

Section Growproc.
Context (i cur : nat) (pr : proc) (l : list Z) (n : Z) (s : kernel).
Hypothesis Hr : running i (Some cur) ∅ s.
Hypothesis Hul : s.(k_use_lock) <> 0.
Hypothesis Hpr : s.(k_procs) !! cur = Some pr.
Hypothesis Hks : pr.(p_kstack) <> 0.
Hypothesis Hon : on_screen s.
Hypothesis Hpa : s.(k_panicked) = 0.
Hypothesis Hk : KERNBASE < s.(k_end).
Hypothesis Hsz : 0 < pr.(p_sz) < KERNBASE.
Hypothesis Hn : - 2 ^ 31 <= n < 2 ^ 31.
Hypothesis Hfr : free_rep s l.
Hypothesis Hpt : pt_ok s.(k_end) s.(k_mem) pr.(p_pgdir) l.
Hypothesis How : owns pr.(p_pgdir) s.(k_end) s.(k_mem) l 0.
Let v := (pr.(p_sz) + 4095) / 4096.
Hypothesis Hab : forall vpn, v <= vpn < 2 ^ 19 -> present (entry s.(k_mem) pr.(p_pgdir) vpn) = false.
Let new := pr.(p_sz) + n.

(** growproc after it has found the caller. *)
Lemma growproc_starts :
  exists s0, quiet s s0 /\ running i (Some cur) ∅ s0 /\ vm_ok i (Some cur) ∅ pr.(p_pgdir) l s0 /\
    growproc n s = (let! sz' :=
      (if 0 <? n then allocuvm pr.(p_pgdir) pr.(p_sz) (u32 new)
       else if n <? 0 then deallocuvm pr.(p_pgdir) pr.(p_sz) (u32 new) else ret pr.(p_sz)) in
      if negb (n =? 0) && (sz' =? 0) then ret (-1)
      else set_proc cur (fun p => p<|p_sz := sz'|>) ;;; switchuvm (Some cur) ;;; ret 0)%xv6 s0.
Proof.
  destruct (curproc_ex _ _ _ _ Hr) as (s0 & E0 & Hq0 & Hr0). exists s0. split_and!; [done|done| |].
  - destruct Hq0 as (? & ? & ? & ->). split; [by right|apply not_elem_of_empty|done|cbn; lia|done].
  - unfold growproc. kret_by exact E0. kret_by (unfold proc_at; kret; by rewrite (quiet_procs _ _ Hq0), Hpr). reflexivity.
Qed.

Lemma pgdir_not_null : pr.(p_pgdir) <> 0.
Proof. destruct Hpt as [[H _] _ _]. by eapply page_ok_not_null. Qed.

(** More memory. *)
Lemma growproc_more :
  0 < n ->
  exists r s' l', growproc n s = Ret r s' /\ running i (Some cur) ∅ s' /\ free_rep s' l' /\ pt_ok s.(k_end) s'.(k_mem) pr.(p_pgdir) l' /\
    (forall x, (forall p, p ∈ l \/ page_ok s.(k_end) p /\ pt_page s.(k_mem) pr.(p_pgdir) p -> ~ in_page p x) -> s'.(k_mem) x = s.(k_mem) x) /\
    (r = 0 /\ new < KERNBASE /\ grow_frame s (<[cur := pr<|p_sz := new|>]> s.(k_procs)) (V2P pr.(p_pgdir)) s' /\
       added_space pr.(p_pgdir) (PGROUNDUP pr.(p_sz)) (PGROUNDUP new) l l' s.(k_mem) s'.(k_mem) \/
     r = -1 /\ (KERNBASE <= new \/ Z.of_nat (length l) < 2 * ((new + 4095) / 4096 - v)) /\ grow_frame s s.(k_procs) s.(k_cr3) s' /\
       (forall va st, 0 <= va < 2 ^ 32 -> xlate s'.(k_mem) pr.(p_pgdir) va st = xlate s.(k_mem) pr.(p_pgdir) va st) /\
       (forall p, page_ok s.(k_end) p -> p ∈ l \/ pt_page s.(k_mem) pr.(p_pgdir) p <-> p ∈ l' \/ pt_page s'.(k_mem) pr.(p_pgdir) p)).
Proof.
  intros Hpos. destruct growproc_starts as (s0 & Hq0 & Hr0 & Hok0 & E0). set (d := p_pgdir pr) in *.
  assert (k_mem s0 = k_mem s /\ k_end s0 = k_end s) as [Hm0 He0] by (by destruct Hq0 as (? & ? & ? & ->)).
  rewrite (proj2 (Z.ltb_lt 0 n) Hpos) in E0. assert (Hu : u32 new = new) by (apply u32_small; unfold new, KERNBASE in *; lia). rewrite Hu in E0.
  rewrite (proj2 (Z.eqb_neq n 0) ltac:(lia)) in E0. cbn [negb andb] in E0.
  destruct (Z.le_gt_cases KERNBASE new) as [Hbig|Hbig].
  { exists (-1), s0, l. split_and!; [|done|by destruct Hq0 as (? & ? & ? & ->)|by rewrite Hm0|by intros x _; rewrite Hm0|].
    - rewrite E0. kret_by (unfold allocuvm; by rewrite (proj2 (Z.leb_le _ _) Hbig)). done.
    - right. split_and!; [done|by left| |by rewrite Hm0|by rewrite Hm0]. exists (k_mem s), (k_freelist s), (k_serial s), (k_crtpos s), (k_crt s).
      destruct Hq0 as (b & cs & lks & ->). exists b, cs, lks. by destruct s. }
  destruct (allocuvm_cases i (Some cur) ∅ d l s0 (p_sz pr) new Hok0) as (s1 & l1 & Hcase);
    [by destruct Hq0 as (? & ? & ? & ->)|apply not_elem_of_empty|by destruct Hq0 as (? & ? & ? & ->)|by destruct Hq0 as (? & ? & ? & ->)|by rewrite He0|unfold new; lia|lia|by rewrite Hm0|].
  fold v in Hcase. destruct (PGROUNDUP_pages (p_sz pr) ltac:(lia)) as (Ha & Hv & _), (PGROUNDUP_pages new ltac:(unfold new in *; lia)) as (Hb & Hw & _). fold v in Ha, Hv.
  destruct Hcase as [(E1 & ps & Hg & Hlen)|(E1 & Hshort & Hre)].
  - pose proof Hg as [Hok1 Hst1 _ _]. destruct (vs_quiet _ _ _ _ _ _ Hst1) as (m1 & fl1 & Hq1). pose proof (vm_step_end _ _ _ _ _ _ Hst1) as He1.
    assert (Hr1 : running i (Some cur) ∅ s1) by (apply can_running; [apply Hok1|]; destruct Hq1 as (? & ? & ? & ->), Hq0 as (? & ? & ? & ->); done).
    destruct (grow_commit i cur pr new s s1) as (s' & E' & Hr' & Hm' & Hfl' & Hf'); [|done|done|done|apply pgdir_not_null|].
    { exists m1, fl1, (k_serial s), (k_crtpos s), (k_crt s). clear - Hq0 Hq1. destruct Hq1 as (b & cs & lks & ->). exists b, cs, lks. destruct Hq0 as (? & ? & ? & ->). by destruct s. }
    assert (He' : k_end s' = k_end s) by (by destruct Hf' as (? & ? & ? & ? & ? & ? & ? & ? & ->)).
    exists 0, s', l1. split_and!.
    + rewrite E0. kret_by exact E1. rewrite (proj2 (Z.eqb_neq new 0) ltac:(unfold new; lia)). exact E'.
    + done.
    + unfold free_rep. rewrite Hm', Hfl', He', <- He0, <- He1. apply Hok1.
    + rewrite Hm', <- He0, <- He1. apply Hok1.
    + intros x Hx. rewrite Hm', <- Hm0. apply (vs_mem _ _ _ _ _ _ Hst1); rewrite ?He0, ?Hm0; intros; apply Hx; auto.
    + left. split_and!; [done|lia|done|]. rewrite Hm', Ha, Hb, <- Hlen, <- Hm0.
      eapply grown_space; [by rewrite He0; lia|apply Hok0|lia|lia|exact Hg].
  - pose proof Hre as [Hok1 _ Hpg Hmem (m1 & fl1 & Hsh)]. rewrite He0, Hm0 in *.
    assert (He1 : k_end s1 = k_end s) by (destruct Hsh as (? & ? & ? & ? & ? & ? & ->), Hq0 as (? & ? & ? & ->); done).
    exists (-1), s1, l1. split_and!; [|apply can_running; [apply Hok1|]; destruct Hsh as (? & ? & ? & ? & ? & ? & ->), Hq0 as (? & ? & ? & ->); done|apply Hok1|rewrite <- He1; apply Hok1|exact Hmem|].
    + rewrite E0. by kret_by exact E1.
    + right. split_and!; [done|right; lia| | |exact Hpg].
      * exists m1, fl1. destruct Hsh as (a & b & c & Hq1). exists a, b, c. clear - Hq0 Hq1. destruct Hq1 as (b1 & cs & lks & ->). exists b1, cs, lks.
        destruct Hq0 as (? & ? & ? & ->). by destruct s.
      * intros va st Hva. rewrite <- Hm0. eapply restored_xlate; [exact Hre|apply Hok0|done].
Qed.

(** Less memory, down to any size that is not negative. *)
Lemma growproc_less :
  n < 0 -> 0 <= new ->
  let w := (new + 4095) / 4096 in let ts := upages pr.(p_pgdir) s.(k_mem) w (v - w) in
  exists r s', growproc n s = Ret r s' /\ running i (Some cur) ∅ s' /\ free_rep s' (reverse ts ++ l) /\
    pt_ok s.(k_end) s'.(k_mem) pr.(p_pgdir) (reverse ts ++ l) /\
    (forall x, (forall p, p ∈ ts \/ page_ok s.(k_end) p /\ pt_page s.(k_mem) pr.(p_pgdir) p -> ~ in_page p x) -> s'.(k_mem) x = s.(k_mem) x) /\
    (forall va st, 0 <= va < 2 ^ 32 -> xlate s'.(k_mem) pr.(p_pgdir) va st =
       if (PGROUNDUP new <=? va) && (va <? PGROUNDUP pr.(p_sz)) then None else xlate s.(k_mem) pr.(p_pgdir) va st) /\
    if new =? 0 then r = -1 /\ grow_frame s s.(k_procs) s.(k_cr3) s'
    else r = 0 /\ grow_frame s (<[cur := pr<|p_sz := new|>]> s.(k_procs)) (V2P pr.(p_pgdir)) s'.
Proof.
  intros Hneg Hnew w ts. destruct growproc_starts as (s0 & Hq0 & Hr0 & Hok0 & E0). set (d := p_pgdir pr) in *.
  assert (k_mem s0 = k_mem s /\ k_end s0 = k_end s) as [Hm0 He0] by (by destruct Hq0 as (? & ? & ? & ->)).
  assert (Hlt : new < p_sz pr) by (unfold new; lia).
  rewrite (proj2 (Z.ltb_ge 0 n) ltac:(lia)), (proj2 (Z.ltb_lt n 0) Hneg), (proj2 (Z.eqb_neq n 0) ltac:(lia)) in E0. cbn [negb andb] in E0.
  assert (Hu : u32 new = new) by (apply u32_small; unfold KERNBASE in *; lia). rewrite Hu in E0.
  destruct (PGROUNDUP_pages (p_sz pr) ltac:(lia)) as (Ha & Hv & _), (PGROUNDUP_pages new ltac:(lia)) as (Hb & Hw & _). fold v in Ha, Hv. fold w in Hb, Hw.
  destruct (deallocuvm_ok i (Some cur) ∅ d l s0 (p_sz pr) new w (v - w) Hok0) as (s1 & E1 & Hk1 & [D1 D2 _ D4]); [lia|lia|done|unfold v; lia| |].
  { rewrite Hm0, He0. destruct How as [H1 H2]. split; [intros; eapply H1; [|done]; lia|intros; eapply H2; [| |done|done]; lia]. }
  rewrite Hm0 in D1, D4. fold ts in D1. pose proof (vm_free_end _ _ _ _ D2) as He1. destruct (vf_quiet _ _ _ _ D2) as (m1 & fl1 & Hq1).
  assert (Hsh : exists m fl, shown (s<|k_mem := m|><|k_freelist := fl|>) s1).
  { exists m1, fl1, (k_serial s), (k_crtpos s), (k_crt s). clear - Hq0 Hq1. destruct Hq1 as (b & cs & lks & ->). exists b, cs, lks. destruct Hq0 as (? & ? & ? & ->). by destruct s. }
  assert (Hr1 : running i (Some cur) ∅ s1) by (apply can_running; [apply D1|]; destruct Hq1 as (? & ? & ? & ->), Hq0 as (? & ? & ? & ->); done).
  assert (Hpt1 : pt_ok (k_end s) (k_mem s1) d (reverse ts ++ l)) by (rewrite <- He0, <- He1; apply D1).
  assert (Hmem : forall x, (forall p, p ∈ ts \/ page_ok s.(k_end) p /\ pt_page s.(k_mem) d p -> ~ in_page p x) -> k_mem s1 x = k_mem s x).
  { intros x Hx. rewrite <- Hm0. apply (vf_mem _ _ _ _ D2).
    - intros t Ht. apply Hx. left. unfold ts. rewrite elem_of_reverse, Hm0 in Ht. done.
    - intros t Ht Hpp. rewrite Hm0 in Hpp. rewrite He0 in Ht. apply Hx. by right. }
  assert (Hxl : forall va st, 0 <= va < 2 ^ 32 -> xlate (k_mem s1) d va st =
    if (PGROUNDUP new <=? va) && (va <? PGROUNDUP (p_sz pr)) then None else xlate (k_mem s) d va st).
  { intros va st Hva. rewrite Ha, Hb. rewrite (xlate_entry (k_end s) (k_mem s1) d (reverse ts ++ l)) by (done || lia).
    rewrite (xlate_entry (k_end s) (k_mem s) d l) by (done || lia). cbv zeta. clear Hu E0 E1.
    assert (Hvp : 0 <= va / PGSIZE < 2 ^ 20) by (unfold PGSIZE; Z.to_euclidean_division_equations; lia). destruct (D4 _ Hvp) as [Dp De].
    assert (Hiff : (w <=? va / PGSIZE) && (va / PGSIZE <? w + (v - w)) = (w * PGSIZE <=? va) && (va <? v * PGSIZE)).
    { unfold PGSIZE. clear -Hk1. f_equal; Z.to_euclidean_division_equations; lia. }
    rewrite <- Hiff. destruct ((w <=? va / PGSIZE) && (va / PGSIZE <? w + (v - w))) eqn:Ein; [by rewrite Dp|]. rewrite De by lia. done. }
  destruct (Z.eqb_spec new 0) as [Hz|Hz].
  - exists (-1), s1. split_and!; [|done|apply D1|done|exact Hmem|exact Hxl|done|].
    + rewrite E0. kret_by exact E1. by rewrite Hz.
    + destruct Hsh as (m & fl & a & b & c & Hq). exists m, fl, a, b, c. clear - Hq. destruct Hq as (b1 & cs & lks & ->). exists b1, cs, lks. by destruct s.
  - destruct (grow_commit i cur pr new s s1 Hsh Hr1 Hpr Hks pgdir_not_null) as (s' & E' & Hr' & Hm' & Hfl' & Hf').
    assert (He' : k_end s' = k_end s1) by (rewrite He1, He0; by destruct Hf' as (? & ? & ? & ? & ? & ? & ? & ? & ->)).
    exists 0, s'. split_and!; [|done|unfold free_rep; rewrite Hm', Hfl', He'; apply D1|by rewrite Hm'|by rewrite Hm'|by rewrite Hm'|done|done].
    rewrite E0. kret_by exact E1. by rewrite (proj2 (Z.eqb_neq new 0) Hz).
Qed.

(** Nothing asked for, or more than there is given back. *)
Lemma growproc_same :
  n = 0 \/ new < 0 ->
  exists s', growproc n s = Ret 0 s' /\ running i (Some cur) ∅ s' /\ free_rep s' l /\ s'.(k_mem) = s.(k_mem) /\
    grow_frame s s.(k_procs) (V2P pr.(p_pgdir)) s'.
Proof.
  intros Hc. destruct growproc_starts as (s0 & Hq0 & Hr0 & Hok0 & E0).
  destruct (grow_commit i cur pr (p_sz pr) s s0) as (s' & E' & Hr' & Hm' & Hfl' & Hf'); [|done|done|done|apply pgdir_not_null|].
  { exists (k_mem s), (k_freelist s), (k_serial s), (k_crtpos s), (k_crt s). destruct Hq0 as (b & cs & lks & ->). exists b, cs, lks. by destruct s. }
  replace (<[cur := pr<|p_sz := p_sz pr|>]> (k_procs s)) with (k_procs s) in Hf' by (replace (pr<|p_sz := p_sz pr|>) with pr by (by destruct pr); by rewrite list_insert_id).
  assert (Es : growproc n s = Ret 0 s').
  { rewrite E0. destruct Hc as [Hz|Hneg].
    - rewrite Hz. change (0 <? 0) with false. cbv iota. kret. exact E'.
    - rewrite (proj2 (Z.ltb_ge 0 n)), (proj2 (Z.ltb_lt n 0)), (proj2 (Z.eqb_neq n 0)) by (unfold new in *; lia). cbn [negb andb].
      assert (Hu : p_sz pr <= u32 new) by (unfold u32, new, KERNBASE in *; Z.to_euclidean_division_equations; lia).
      kret_by (unfold deallocuvm; by rewrite (proj2 (Z.leb_le _ _) Hu)). rewrite (proj2 (Z.eqb_neq (p_sz pr) 0)) by lia. exact E'. }
  exists s'. split_and!; [done|done| | |done].
  - unfold free_rep. rewrite Hm', Hfl'. assert (He' : k_end s' = k_end s0) by (destruct Hf' as (? & ? & ? & ? & ? & ? & ? & ? & ->), Hq0 as (? & ? & ? & ->); done).
    rewrite He'. apply Hok0.
  - rewrite Hm'. by destruct Hq0 as (? & ? & ? & ->).
Qed.
End Growproc.

(** C14: growproc for every argument, in every outcome.  A positive number adds
    cleared pages of the process's own up to the new size, or, when that reaches
    the kernel or memory is short, returns -1 with every address translated as
    before and every page accounted for: free again, or a table of the process.
    A negative number that leaves a positive size unmaps exactly the pages above
    it and puts them on the free list.  If nothing is left the pages are
    given back too, but the answer is -1 and the size is not changed; and if more
    is given back than there is, nothing happens and the answer is 0.  Nothing
    else in memory changes. *)
Theorem growproc_outcomes (i cur : nat) (pr : proc) (l : list Z) (n : Z) (s : kernel) :
  running i (Some cur) ∅ s -> s.(k_use_lock) <> 0 -> s.(k_procs) !! cur = Some pr -> pr.(p_kstack) <> 0 ->
  on_screen s -> s.(k_panicked) = 0 -> KERNBASE < s.(k_end) -> 0 < pr.(p_sz) < KERNBASE -> - 2 ^ 31 <= n < 2 ^ 31 ->
  free_rep s l -> pt_ok s.(k_end) s.(k_mem) pr.(p_pgdir) l -> owns pr.(p_pgdir) s.(k_end) s.(k_mem) l 0 ->
  let d := pr.(p_pgdir) in let v := (pr.(p_sz) + 4095) / 4096 in
  (forall vpn, v <= vpn < 2 ^ 19 -> present (entry s.(k_mem) d vpn) = false) ->
  let new := pr.(p_sz) + n in let w := (new + 4095) / 4096 in let ts := upages d s.(k_mem) w (v - w) in
  exists r s' l', growproc n s = Ret r s' /\ running i (Some cur) ∅ s' /\ free_rep s' l' /\ pt_ok s.(k_end) s'.(k_mem) d l' /\
    (forall x, (forall p, p ∈ l \/ p ∈ ts \/ page_ok s.(k_end) p /\ pt_page s.(k_mem) d p -> ~ in_page p x) -> s'.(k_mem) x = s.(k_mem) x) /\
    let resized := grow_frame s (<[cur := pr<|p_sz := new|>]> s.(k_procs)) (V2P d) s' in
    let kept := grow_frame s s.(k_procs) s.(k_cr3) s' in
    if 0 <? n then
      r = 0 /\ new < KERNBASE /\ resized /\ added_space d (PGROUNDUP pr.(p_sz)) (PGROUNDUP new) l l' s.(k_mem) s'.(k_mem) \/
      r = -1 /\ (KERNBASE <= new \/ Z.of_nat (length l) < 2 * (w - v)) /\ kept /\
        (forall va st, 0 <= va < 2 ^ 32 -> xlate s'.(k_mem) d va st = xlate s.(k_mem) d va st) /\
        (forall p, page_ok s.(k_end) p -> p ∈ l \/ pt_page s.(k_mem) d p <-> p ∈ l' \/ pt_page s'.(k_mem) d p)
    else if (n =? 0) || (new <? 0) then r = 0 /\ grow_frame s s.(k_procs) (V2P d) s' /\ l' = l /\ s'.(k_mem) = s.(k_mem)
    else
      l' = reverse ts ++ l /\
      (forall va st, 0 <= va < 2 ^ 32 -> xlate s'.(k_mem) d va st =
         if (PGROUNDUP new <=? va) && (va <? PGROUNDUP pr.(p_sz)) then None else xlate s.(k_mem) d va st) /\
      if new =? 0 then r = -1 /\ kept else r = 0 /\ resized.
Proof.
  intros Hr Hul Hpr Hks Hon Hpa Hk Hsz Hn Hfr Hpt How d v Hab new w ts. destruct (Z.ltb_spec 0 n) as [Hpos|Hneg].
  - destruct (growproc_more i cur pr l n s Hr Hul Hpr Hks Hon Hpa Hk Hsz Hn Hfr Hpt How Hab Hpos) as (r & s' & l' & E & Hr' & Hfr' & Hpt' & Hm & Hres).
    exists r, s', l'. split; [done|]. split; [done|]. split; [done|]. split; [done|]. split; [|exact Hres].
    intros x Hx. apply Hm. intros p Hp. apply Hx. tauto.
  - destruct ((n =? 0) || (new <? 0)) eqn:Ec.
    + destruct (growproc_same i cur pr l n s Hr Hul Hpr Hks Hon Hpa Hk Hsz Hn Hfr Hpt How Hab) as (s' & E & Hr' & Hfr' & Hm & Hf).
      { apply orb_true_iff in Ec as [Ec|Ec]; [left; by apply Z.eqb_eq|right; by apply Z.ltb_lt]. }
      exists 0, s', l. split; [done|]. split; [done|]. split; [done|]. split; [by rewrite Hm|]. split; [by intros x _; rewrite Hm|done].
    + apply orb_false_iff in Ec as [Ec1%Z.eqb_neq Ec2%Z.ltb_ge].
      destruct (growproc_less i cur pr l n s Hr Hul Hpr Hks Hk Hsz Hfr Hpt How ltac:(lia) Ec2) as (r & s' & E & Hr' & Hfr' & Hpt' & Hm & Hx & Hres).
      exists r, s', (reverse ts ++ l). split; [done|]. split; [done|]. split; [done|]. split; [done|]. split; [|exact (conj eq_refl (conj Hx Hres))].
      intros x Hx'. apply Hm. intros p Hp. apply Hx'. tauto.
Qed.

(** A process of 100 bytes on the machine with three free pages. *)
Definition sbrk_machine : kernel :=
  three_pages<|k_use_lock := 1|><|k_cpus := [boot_cpu<|c_proc := Some 0%nat|>]|>
    <|k_procs := [zero_proc<|p_sz := 100|><|p_pgdir := 0x80201000|><|p_kstack := 0x80210000|>]|>.

Lemma growproc_outcomes_witness :
  exists s', growproc 4096 sbrk_machine = Ret 0 s' /\ (p_sz <$> s'.(k_procs) !! 0%nat) = Some 4196 /\
    exists a, xlate s'.(k_mem) 0x80201000 5000 true = Some a /\ s'.(k_mem) a = 0.
Proof.
  destruct three_pages_ok as [_ _ Hfr _ Hpt].
  assert (Hpde : forall d, 0 <= d < 1024 -> pde (k_mem sbrk_machine) 0x80201000 d = 0).
  { intros d Hd. change (k_mem sbrk_machine) with (k_mem three_pages). unfold pde, three_pages. cbn [k_mem setf set_k_mem]. rewrite !store32_disjoint by lia. done. }
  assert (Hno : forall vpn, 0 <= vpn < 2 ^ 20 -> present (entry (k_mem sbrk_machine) 0x80201000 vpn) = false).
  { intros vpn Hvpn. unfold entry. rewrite Hpde by (Z.to_euclidean_division_equations; lia). done. }
  destruct (growproc_outcomes 0 0 (zero_proc<|p_sz := 100|><|p_pgdir := 0x80201000|><|p_kstack := 0x80210000|>)
    [0x80202000; 0x80203000; 0x80204000] 4096 sbrk_machine) as (r & s' & l' & E & _ & _ & _ & _ & Hres).
  - exists (boot_cpu<|c_proc := Some 0%nat|>). split_and!; [split_and!; try done; by vm_compute|done|done|..]; intros lk H; [set_solver|by intros].
  - done.
  - done.
  - done.
  - by vm_compute.
  - done.
  - done.
  - done.
  - lia.
  - exact Hfr.
  - exact Hpt.
  - split; intros; unfold upage in *; rewrite Hno in * by lia; done.
  - intros vpn [Hvpn Hmax]. apply Hno. vm_compute Z.div in Hvpn. split; [|by eapply Z.lt_trans]. by eapply Z.le_trans; [|exact Hvpn].
  - destruct Hres as [(-> & _ & Hf & Hadd & _)|(_ & [Hbig|Hshort] & _)]; [|by vm_compute in Hbig|by vm_compute in Hshort].
    exists s'. split; [exact E|]. split; [by destruct Hf as (? & ? & ? & ? & ? & ? & ? & ? & ->)|].
    destruct (Hadd 5000) as (p & _ & _ & Hx & Hz); [by vm_compute|]. eexists. split; [apply Hx|exact Hz].
Defined.
