(* ===== verification/Syscall.v ===== *)
(** * System call arguments and the process system calls: syscall.c, sysproc.c

    The kernel reads and writes user memory through the page directory of the
    current process ([load_user], [store_user] of Vm.v).  A string argument is
    its bytes, read where argstr checks it: no other process can change them. *)

From S2P Require Import Prelude State Spinlock Thread CString Cprintf Kalloc Layout Vm Sched Sleeplock.
From S2P Require Import Disk Bio Log Fs Pipe File Proc.

(** ** syscall.c: arguments.  [None] is the result -1. *)
Definition fetchint (addr : Z) : K (option Z) :=
  let! cur := curproc in
  let! p := proc_at cur in
  if (p.(p_sz) <=? addr) || (p.(p_sz) <? u32 (addr + 4)) then ret None
  else
    let! bs := loads_user 4 addr in
    ret (Some (s32 (get32 bs 0))).

Fixpoint fetchstr_loop (n : nat) (addr : Z) : K (option (list Z)) :=
  match n with
  | O => ret None
  | S n' =>
      let! c := load_user addr in
      if c =? 0 then ret (Some [])
      else
        let! r := fetchstr_loop n' (u32 (addr + 1)) in
        ret (cons c <$> r)
  end.
(** The characters of the string; the C function returns their number. *)
Definition fetchstr (addr : Z) : K (option (list Z)) :=
  let! cur := curproc in
  let! p := proc_at cur in
  if p.(p_sz) <=? addr then ret None
  else fetchstr_loop (Z.to_nat (p.(p_sz) - addr)) addr.

Definition argint (n : Z) : K (option Z) :=
  let! cur := curproc in
  let! p := proc_at cur in
  fetchint (u32 (p.(p_frame).(tf_esp) + 4 + 4 * n)).

Definition argptr (n size : Z) : K (option Z) :=
  let! cur := curproc in
  let! i := argint n in
  match i with
  | None => ret None
  | Some i =>
      let! p := proc_at cur in
      if (size <? 0) || (p.(p_sz) <=? u32 i) || (p.(p_sz) <? u32 (u32 i + size)) then ret None
      else ret (Some (u32 i))
  end.

Definition argstr (n : Z) : K (option (list Z)) :=
  let! addr := argint n in
  match addr with
  | None => ret None
  | Some addr => fetchstr (u32 addr)
  end.

(** ** sysproc.c *)
Definition sys_kill : K Z :=
  let! pid := argint 0 in
  match pid with
  | None => ret (-1)
  | Some pid => kill pid
  end.

Definition sys_getpid : K Z := mypid.

Definition sys_sbrk : K Z :=
  let! n := argint 0 in
  match n with
  | None => ret (-1)
  | Some n =>
      let! cur := curproc in
      let! p := proc_at cur in
      let addr := s32 p.(p_sz) in
      let! r := growproc n in
      if r <? 0 then ret (-1) else ret addr
  end.

(** The comparison is unsigned. *)
Fixpoint sleep_ticks (fuel : nat) (ticks0 n : Z) : K Z :=
  match fuel with
  | O => nofuel
  | S fuel' =>
      let! s := get in
      if negb (u32 (s.(k_ticks) - ticks0) <? u32 n) then release LkTicks ;;; ret 0
      else
        let! k := myproc_killed in
        if truth k then release LkTicks ;;; ret (-1)
        else
          sleep ChTicks LkTicks ;;;
          sleep_ticks fuel' ticks0 n
  end.
Definition sys_sleep `{!Patience} : K Z :=
  let! n := argint 0 in
  match n with
  | None => ret (-1)
  | Some n =>
      acquire LkTicks ;;;
      let! s := get in
      sleep_ticks (S patience) s.(k_ticks) n
  end.

Definition sys_uptime : K Z :=
  acquire LkTicks ;;;
  let! s := get in
  let xticks := s.(k_ticks) in
  release LkTicks ;;;
  ret (s32 xticks).

(** pstat_t in user memory: four ints, the name, the state, three bytes of padding. *)
Definition PSTAT : Z := 36.
Definition decode_pstat (d : list Z) : pstat_t :=
  mkpstat (s32 (get32 d 0)) (s32 (get32 d 4)) (s32 (get32 d 8)) (s32 (get32 d 12))
    (take 16 (drop 16 d)) (get8 d 32).
Definition encode_pstat (e : pstat_t) : list Z :=
  le32 (ps_inuse e) ++ le32 (ps_tickets e) ++ le32 (ps_pid e) ++ le32 (ps_ticks e) ++
  ps_name e ++ [ps_state e].
Fixpoint read_pstats (n : nat) (a : Z) : K (list pstat_t) :=
  match n with
  | O => ret []
  | S n' =>
      let! d := loads_user 33 a in
      let! es := read_pstats n' (u32 (a + PSTAT)) in
      ret (decode_pstat d :: es)
  end.
Fixpoint write_pstats (a : Z) (es : list pstat_t) : K unit :=
  match es with
  | [] => ret tt
  | e :: es' => stores_user a (encode_pstat e) ;;; write_pstats (u32 (a + PSTAT)) es'
  end.
(** The string at [a]: characters up to the first NUL. *)
Fixpoint user_string (fuel : nat) (a : Z) : K (list Z) :=
  match fuel with
  | O => nofuel
  | S fuel' =>
      let! c := load_user a in
      if c =? 0 then ret []
      else
        let! cs := user_string fuel' (u32 (a + 1)) in
        ret (c :: cs)
  end.
(** The printing loop.  The address of the state, a single char, is printed as
    a string; it is read as far as a NUL or the end of the process. *)
Fixpoint print_pstats (n : nat) (a : Z) : K unit :=
  match n with
  | O => ret tt
  | S n' =>
      let! d := loads_user 33 a in
      let e := decode_pstat d in
      (if! negb (ps_inuse e =? 0) then!
         (let! cur := curproc in
          let! p := proc_at cur in
          let! state := user_string (S (Z.to_nat (PGROUNDUP p.(p_sz) - a))) (u32 (a + 32)) in
          cprintf (bytes "%d" ++ [9] ++ bytes "%d" ++ [9] ++ bytes "%d" ++ [9] ++ bytes "%s" ++ [9] ++
                   bytes "%s" ++ [newline])
            [VInt (ps_pid e); VInt (ps_tickets e); VInt (ps_ticks e); VStr state; VStr (ps_name e)])) ;;;
      print_pstats n' (u32 (a + PSTAT))
  end.
Definition sys_getpinfo : K Z :=
  let! p := argptr 0 (Z.of_nat NPROC * PSTAT) in
  match p with
  | None => ret (-1)
  | Some p =>
      let! table := read_pstats NPROC p in
      let! table := fillpstat table in
      write_pstats p table ;;;
      cprintf (bytes "PID" ++ [9] ++ bytes "TKTS" ++ [9] ++ bytes "TCKS" ++ [9] ++ bytes "STAT" ++ [9] ++
               bytes "NAME" ++ [newline]) [] ;;;
      print_pstats NPROC p ;;;
      ret 0
  end.

Definition sys_settickets : K Z :=
  let! n := argint 0 in
  match n with
  | None => ret (-1)
  | Some n =>
      if n <? 10 then ret (-1)
      else
        let! pid := sys_getpid in
        let! _ := setTicket pid n in
        ret 0
  end.

Section Code.
Context {P : Patience} {D : BlockDriver} {V : Devices} {I : Image}.

Definition sys_fork : K Z := fork.
Definition sys_exit : K Z := exit.
Definition sys_wait : K Z := wait.
End Code.

(** ** Arguments stay inside the process

    [peek s va] is the user byte at [va]; [space_ok] says the pages below the
    process's size are mapped, as exec, growproc and fork leave them. *)
Definition peek (s : kernel) (va : Z) : Z :=
  match xlate s.(k_mem) (P2V s.(k_cr3)) va false with
  | Some a => s.(k_mem) a
  | None => 0
  end.
Definition peek32 (s : kernel) (va : Z) : Z := get32 (peek s <$> seqZ va 4) 0.
Definition space_ok (sz : Z) (s : kernel) : Prop :=
  0 <= sz <= KERNBASE /\
  forall va, 0 <= va < sz -> is_Some (xlate s.(k_mem) (P2V s.(k_cr3)) va false).

Lemma peek_quiet s s' va : quiet s s' -> peek s' va = peek s va.
Proof. by intros (? & ? & ? & ->). Qed.

Lemma peek32_quiet s s' va : quiet s s' -> peek32 s' va = peek32 s va.
Proof. by intros (? & ? & ? & ->). Qed.

Lemma space_ok_quiet sz s s' : quiet s s' -> space_ok sz s -> space_ok sz s'.
Proof. by intros (? & ? & ? & ->). Qed.

Lemma load_user_ok sz s va : space_ok sz s -> 0 <= va < sz -> load_user va s = Ret (peek s va) s.
Proof.
  intros [_ Hm] Hva. unfold load_user, peek. kret. by destruct (Hm va Hva) as [a ->].
Qed.

Lemma loads_user_ok sz s n : forall va,
  space_ok sz s -> 0 <= va -> va + Z.of_nat n <= sz ->
  loads_user n va s = Ret (peek s <$> seqZ va (Z.of_nat n)) s.
Proof.
  induction n as [|n IH]; intros va Hs Hva Hn; cbn [loads_user]; [done|].
  pose proof Hs as [[_ Hsz] _]. unfold KERNBASE in Hsz.
  kret_by (apply (load_user_ok sz); [done|lia]). rewrite u32_small by lia.
  kret_by (apply IH; [done|lia..]). rewrite (seqZ_cons va) by lia. unfold ret. cbn [fmap list_fmap].
  replace (Z.pred (Z.of_nat (S n))) with (Z.of_nat n) by lia. done.
Qed.

Section Args.
Context (i p : nat) (ls : gset lockid) (pr : proc) (s : kernel).
Hypothesis Hr : running i (Some p) ls s.
Hypothesis Hp : s.(k_procs) !! p = Some pr.
Hypothesis Hs : space_ok pr.(p_sz) s.

Lemma cur_ex :
  exists s', curproc s = Ret p s' /\ proc_at p s' = Ret pr s' /\ quiet s s' /\ running i (Some p) ls s'.
Proof.
  destruct (curproc_ex _ _ _ _ Hr) as (s' & E & Hq & Hr').
  exists s'. split_and!; [done| |done..]. unfold proc_at. kret. by rewrite (quiet_procs _ _ Hq), Hp.
Qed.

Lemma fetchint_ex addr :
  0 <= addr < 2 ^ 32 ->
  exists s', fetchint addr s =
      Ret (if addr + 4 <=? pr.(p_sz) then Some (s32 (peek32 s addr)) else None) s' /\
    quiet s s' /\ running i (Some p) ls s'.
Proof.
  intros Ha. destruct cur_ex as (s' & E1 & E2 & Hq & Hr'). exists s'. split; [|done].
  unfold fetchint. kret_by exact E1. kret_by exact E2.
  pose proof (space_ok_quiet _ _ _ Hq Hs) as Hs'. pose proof Hs as [[Hsz0 Hsz] _]. unfold KERNBASE in Hsz.
  destruct (Z.leb_spec (p_sz pr) addr).
  - cbn [orb]. by rewrite (proj2 (Z.leb_gt _ _)) by lia.
  - rewrite u32_small by lia. destruct (Z.leb_spec (addr + 4) (p_sz pr)).
    + rewrite (proj2 (Z.ltb_ge _ _)) by lia. cbn [orb].
      kret_by (apply (loads_user_ok (p_sz pr)); [done|lia|lia]). by rewrite <- (peek32_quiet _ _ _ Hq).
    + by rewrite (proj2 (Z.ltb_lt _ _)) by lia.
Qed.
End Args.

(** The address of argument [n], and whether all of it is in the process. *)
Definition arg_addr (pr : proc) (n : Z) : Z := u32 (pr.(p_frame).(tf_esp) + 4 + 4 * n).
Definition arg_ok (pr : proc) (n : Z) : bool := arg_addr pr n + 4 <=? pr.(p_sz).

Lemma argint_ex i p ls pr s n :
  running i (Some p) ls s -> s.(k_procs) !! p = Some pr -> space_ok pr.(p_sz) s ->
  exists s', argint n s = Ret (if arg_ok pr n then Some (s32 (peek32 s (arg_addr pr n))) else None) s' /\
    quiet s s' /\ running i (Some p) ls s'.
Proof.
  intros Hr Hp Hs. destruct (cur_ex i p ls pr s Hr Hp) as (s1 & E1 & E2 & Hq1 & Hr1).
  assert (Hp1 : k_procs s1 !! p = Some pr) by (by rewrite (quiet_procs _ _ Hq1)).
  destruct (fetchint_ex i p ls pr s1 Hr1 Hp1 (space_ok_quiet _ _ _ Hq1 Hs) (arg_addr pr n) (u32_range _))
    as (s2 & E & Hq2 & Hr2).
  exists s2. split_and!; [|by transitivity s1|done]. unfold argint. kret_by exact E1. kret_by exact E2.
  by rewrite <- (peek32_quiet _ _ _ Hq1).
Qed.

(** C38: what argptr accepts.  For a process whose memory is mapped, argptr
    returns without a fault, and it returns a pointer exactly when the argument
    word lies in the process, the size is not negative and the whole block of
    that size at the pointer lies in the process; 32-bit wrap-around cannot get
    a block past the test.  The state is not changed. *)
Theorem argptr_exact (i p : nat) (ls : gset lockid) (pr : proc) (n size : Z) (s : kernel) :
  running i (Some p) ls s -> s.(k_procs) !! p = Some pr -> space_ok pr.(p_sz) s ->
  - 2 ^ 31 <= size < 2 ^ 31 ->
  exists r s', argptr n size s = Ret r s' /\ quiet s s' /\ running i (Some p) ls s' /\
    forall a, r = Some a <->
      arg_ok pr n = true /\ a = u32 (peek32 s (arg_addr pr n)) /\ 0 <= size /\
      a < pr.(p_sz) /\ a + size <= pr.(p_sz).
Proof.
  intros Hr Hp Hs Hsize. destruct (cur_ex i p ls pr s Hr Hp) as (s1 & E1 & _ & Hq1 & Hr1).
  assert (Hp1 : k_procs s1 !! p = Some pr) by (by rewrite (quiet_procs _ _ Hq1)).
  destruct (argint_ex i p ls pr s1 n Hr1 Hp1 (space_ok_quiet _ _ _ Hq1 Hs)) as (s2 & E2 & Hq2 & Hr2).
  rewrite (peek32_quiet _ _ _ Hq1) in E2. assert (Hq : quiet s s2) by (by transitivity s1).
  unfold argptr. rewrite (bind_ret _ _ _ _ _ E1), (bind_ret _ _ _ _ _ E2).
  destruct (arg_ok pr n); [|exists None, s2; split_and!; [done..|]; naive_solver].
  assert (Hp2 : proc_at p s2 = Ret pr s2) by (unfold proc_at; kret; by rewrite (quiet_procs _ _ Hq), Hp).
  rewrite (bind_ret _ _ _ _ _ Hp2). set (w := peek32 s (arg_addr pr n)).
  assert (Hu : u32 (s32 w) = u32 w) by apply s32_mod. rewrite Hu.
  pose proof (u32_range w) as Hwr. pose proof Hs as [[Hsz0 Hsz] _]. unfold KERNBASE in Hsz.
  destruct (Z.ltb_spec size 0); [|destruct (Z.leb_spec (p_sz pr) (u32 w)); [|destruct (Z.ltb_spec (p_sz pr) (u32 (u32 w + size)))]];
    cbn [orb]; eexists _, s2; (split_and!; [done..|]); intros a; split; intros Ha;
    rewrite ?(u32_small (u32 w + size)) in * by lia; naive_solver lia.
Qed.

(** A one-page process: page directory at physical 0x1000, page table at
    0x2000, its page at 0x3000, the argument word 100 at 0xff4. *)
Definition user_mem : mem :=
  store32 (store32 (store32 (fun _ => 0) 0x80001000 0x2007) 0x80002000 0x3007) 0x80003ff4 100.
Definition user_proc : proc :=
  zero_proc<|p_sz := 4096|><|p_state := RUNNING|><|p_pid := 7|><|p_frame := zero_frame<|tf_esp := 0xff0|>|>.
Definition user_machine : kernel :=
  pipe_machine<|k_mem := user_mem|><|k_cr3 := 0x1000|><|k_procs ::= <[0%nat := user_proc]>|>.

Lemma user_machine_running : running 0 (Some 0%nat) ∅ user_machine.
Proof. kframe (proj1 pipe_machine_thr). Qed.

Lemma user_space_ok : space_ok 4096 user_machine.
Proof.
  split; [by vm_compute|]. intros va Hva.
  assert (Hd : PDX va = 0) by (unfold PDX; rewrite Z.shiftr_div_pow2, Z.div_small by lia; done).
  assert (Ht : PTX va = 0) by (unfold PTX; rewrite Z.shiftr_div_pow2, Z.div_small by lia; done).
  assert (H1 : load32 user_mem (u32 (P2V 0x1000 + 4 * 0)) = 0x2007) by (vm_compute; reflexivity).
  assert (H2 : load32 user_mem (u32 (P2V (PTE_ADDR 0x2007) + 4 * 0)) = 0x3007) by (vm_compute; reflexivity).
  unfold xlate. change (k_mem user_machine) with user_mem. change (k_cr3 user_machine) with 0x1000.
  rewrite Hd, Ht, H1. cbv zeta. rewrite H2. eexists. reflexivity.
Qed.

Lemma argptr_exact_witness :
  exists s', argptr 0 64 user_machine = Ret (Some 100) s'.
Proof.
  destruct (argptr_exact 0 0 ∅ user_proc 0 64 user_machine user_machine_running eq_refl user_space_ok)
    as (r & s' & E & _ & _ & Hr); [lia|].
  exists s'. rewrite E. f_equal. apply Hr. vm_compute. split_and!; congruence.
Defined.

(** settickets.  The call returns 0 and gives exactly the calling process
    the requested number of tickets when the argument can be read and is at
    least 10, and otherwise returns -1 and changes no process. *)
Theorem settickets_minimum (i p : nat) (ls : gset lockid) (pr : proc) (s : kernel) :
  running i (Some p) ls s -> s.(k_procs) !! p = Some pr -> space_ok pr.(p_sz) s ->
  find_pid pr.(p_pid) s.(k_procs) = Some p ->
  let n := s32 (peek32 s (arg_addr pr 0)) in
  exists s', running i (Some p) ls s' /\
    if arg_ok pr 0 && (10 <=? n)
    then sys_settickets s = Ret 0 s' /\ s'.(k_procs) = <[p := pr<|p_tickets := n|>]> s.(k_procs)
    else sys_settickets s = Ret (-1) s' /\ s'.(k_procs) = s.(k_procs).
Proof.
  intros Hr Hp Hs Hfind n. destruct (argint_ex i p ls pr s 0 Hr Hp Hs) as (s1 & E1 & Hq1 & Hr1).
  fold n in E1. unfold sys_settickets. destruct (arg_ok pr 0); cbn [andb].
  2:{ exists s1. split; [done|]. kret_by exact E1. by rewrite (quiet_procs _ _ Hq1). }
  destruct (Z.leb_spec 10 n) as [H10|H10].
  2:{ exists s1. split; [done|]. kret_by exact E1. cbv iota. rewrite (proj2 (Z.ltb_lt _ _)) by lia.
      by rewrite (quiet_procs _ _ Hq1). }
  assert (Hp1 : k_procs s1 !! p = Some pr) by (by rewrite (quiet_procs _ _ Hq1)).
  destruct (cur_ex i p ls pr s1 Hr1 Hp1) as (s2' & E2' & E2'' & Hq2 & Hr2).
  assert (Em : mypid s1 = Ret (p_pid pr) s2') by (unfold mypid; kret_by exact E2'; kret_by exact E2''; done).
  assert (Hps : k_procs s2' = k_procs s) by (by rewrite (quiet_procs _ _ Hq2), (quiet_procs _ _ Hq1)).
  exists (upd_proc p (fun q => q<|p_tickets := n|>) s2'). split; [kframe Hr2|]. split.
  - kret_by exact E1. cbv iota. rewrite (proj2 (Z.ltb_ge _ _)) by lia. kret_by exact Em.
    kret_by (unfold setTicket; kret; rewrite Hps, Hfind; kret; reflexivity). done.
  - unfold upd_proc. cbn -[alter]. by rewrite Hps, (alter_insert _ _ _ pr).
Qed.

Lemma settickets_minimum_witness :
  exists s', sys_settickets user_machine = Ret 0 s' /\
    s'.(k_procs) = <[0%nat := user_proc<|p_tickets := 100|>]> user_machine.(k_procs).
Proof.
  destruct (settickets_minimum 0 0 ∅ user_proc user_machine user_machine_running eq_refl user_space_ok)
    as (s' & _ & H); [vm_compute; reflexivity|].
  exists s'. exact H.
Defined.
