(* ===== verification/Sysfile.v ===== *)
(** * The file system calls and exec: sysfile.c, exec.c, loaduvm of vm.c *)

From S2P Require Import Prelude State Spinlock Thread CString Cprintf Kalloc Layout Vm Sched Sleeplock.
From S2P Require Import Disk Bio Log Fs Pipe File Proc Syscall.

(** ** fcntl.h, elf.h *)
Definition O_RDONLY : Z := 0.
Definition O_WRONLY : Z := 1.
Definition O_RDWR : Z := 2.
Definition O_CREATE : Z := 0x200.

Definition ELF_MAGIC : Z := 0x464C457F.
Definition ELF_PROG_LOAD : Z := 1.
(** struct elfhdr: the fields exec reads. *)
Record elfhdr := mkelfhdr { e_magic : Z; e_entry : Z; e_phoff : Z; e_phnum : Z }.
Definition ELFHDR : Z := 52.
Definition decode_elfhdr (d : list Z) : elfhdr :=
  mkelfhdr (get32 d 0) (get32 d 24) (get32 d 28) (get16 d 44).
(** struct proghdr: the fields exec reads. *)
Record proghdr := mkproghdr { ph_type : Z; ph_off : Z; ph_vaddr : Z; ph_filesz : Z; ph_memsz : Z }.
Definition PROGHDR : Z := 32.
Definition decode_proghdr (d : list Z) : proghdr :=
  mkproghdr (get32 d 0) (get32 d 4) (get32 d 8) (get32 d 16) (get32 d 20).

(** ** Descriptors *)

(** The descriptor and its file. *)
Definition argfd (n : Z) : K (option (Z * nat)) :=
  let! fd := argint n in
  match fd with
  | None => ret None
  | Some fd =>
      if (fd <? 0) || (Z.of_nat NOFILE <=? fd) then ret None
      else
        let! cur := curproc in
        let! p := proc_at cur in
        match p.(p_ofile) !! Z.to_nat fd with
        | Some (Some f) => ret (Some (fd, f))
        | _ => ret None
        end
  end.

Definition find_fd (fds : list (option nat)) : option nat :=
  fst <$> list_find (fun f : option nat => f = None) fds.
Definition fdalloc (f : nat) : K Z :=
  let! cur := curproc in
  let! p := proc_at cur in
  match find_fd p.(p_ofile) with
  | Some fd =>
      set_proc cur (fun p => p<|p_ofile ::= <[fd := Some f]>|>) ;;;
      ret (Z.of_nat fd)
  | None => ret (-1)
  end.

Definition sys_dup : K Z :=
  let! a := argfd 0 in
  match a with
  | None => ret (-1)
  | Some (_, f) =>
      let! fd := fdalloc f in
      if fd <? 0 then ret (-1)
      else
        let! _ := filedup f in
        ret fd
  end.

(** argfd(0), argint(2), argptr(1, n) of read and write. *)
Definition args_rw : K (option (nat * Z * Z)) :=
  let! a := argfd 0 in
  match a with
  | None => ret None
  | Some (_, f) =>
      let! n := argint 2 in
      match n with
      | None => ret None
      | Some n =>
          let! p := argptr 1 n in
          ret ((fun p => (f, n, p)) <$> p)
      end
  end.

(** struct stat in user memory; the padding is not written. *)
Definition STAT : Z := 20.
Definition store_stat (a : Z) (st : stat) : K unit :=
  stores_user (u32 (a + 4)) (le32 (st_dev st)) ;;;
  stores_user (u32 (a + 8)) (le32 (st_ino st)) ;;;
  stores_user a (le16 (st_type st)) ;;;
  stores_user (u32 (a + 12)) (le16 (st_nlink st)) ;;;
  stores_user (u32 (a + 16)) (le32 (st_size st)).

(** The part of path after its last slash. *)
Fixpoint last_elem (last s : list Z) : list Z :=
  match s with
  | [] => last
  | c :: s' => if c =? slash then last_elem s' s' else last_elem last s'
  end.

Section Code.
Context {P : Patience} {D : BlockDriver} {V : Devices} {I : Image}.

(** ** sysfile.c *)
Definition sys_read : K Z :=
  let! a := args_rw in
  match a with
  | None => ret (-1)
  | Some (f, n, p) =>
      let! (r, cs) := fileread f n in
      stores_user p cs ;;;
      ret r
  end.

Definition sys_write : K Z :=
  let! a := args_rw in
  match a with
  | None => ret (-1)
  | Some (f, n, p) =>
      let! cs := loads_user (Z.to_nat n) p in
      filewrite f cs n
  end.

Definition sys_close : K Z :=
  let! a := argfd 0 in
  match a with
  | None => ret (-1)
  | Some (fd, f) =>
      let! cur := curproc in
      set_proc cur (fun p => p<|p_ofile ::= <[Z.to_nat fd := None]>|>) ;;;
      fileclose f ;;;
      ret 0
  end.

Definition sys_fstat : K Z :=
  let! a := argfd 0 in
  match a with
  | None => ret (-1)
  | Some (_, f) =>
      let! st := argptr 1 STAT in
      match st with
      | None => ret (-1)
      | Some p =>
          let! (r, st) := filestat f in
          (match st with Some st => store_stat p st | None => ret tt end) ;;;
          ret r
      end
  end.

Definition set_nlink (i : nat) (d : Z) : K unit :=
  set_inode i (fun ip => ip<|ip_nlink := s16 (ip.(ip_nlink) + d)|>).
Definition fresh_name : list Z := replicate (Z.to_nat DIRSIZ) 0.

(** The code at label bad of sys_link. *)
Definition link_bad (ip : nat) : K Z :=
  ilock (Some ip) ;;;
  set_nlink ip (-1) ;;;
  iupdate ip ;;;
  iunlockput ip ;;;
  end_op ;;;
  ret (-1).
Definition link_paths (old new : list Z) : K Z :=
  begin_op ;;;
  let! ip := namei old in
  match ip with
  | None => end_op ;;; ret (-1)
  | Some ip =>
      ilock (Some ip) ;;;
      let! x := inode_at ip in
      if x.(ip_type) =? T_DIR then iunlockput ip ;;; end_op ;;; ret (-1)
      else
        set_nlink ip 1 ;;;
        iupdate ip ;;;
        iunlock (Some ip) ;;;
        let! (dp, name) := nameiparent new fresh_name in
        match dp with
        | None => link_bad ip
        | Some dp =>
            ilock (Some dp) ;;;
            let! d := inode_at dp in
            let! x := inode_at ip in
            let! ok :=
              (if negb (d.(ip_dev) =? x.(ip_dev)) then ret false
               else let! r := dirlink dp name x.(ip_inum) in ret (negb (r <? 0))) in
            iunlockput dp ;;;
            if negb ok then link_bad ip
            else iput ip ;;; end_op ;;; ret 0
        end
  end.
Definition sys_link : K Z :=
  let! old := argstr 0 in
  match old with
  | None => ret (-1)
  | Some old =>
      let! new := argstr 1 in
      match new with
      | None => ret (-1)
      | Some new => link_paths old new
      end
  end.

Fixpoint isdirempty_loop (fuel : nat) (dp : nat) (off : Z) : K bool :=
  match fuel with
  | O => nofuel
  | S fuel' =>
      let! d := inode_at dp in
      if negb (off <? d.(ip_size)) then ret true
      else
        let! (r, de) := readi dp off DIRENT in
        if negb (r =? DIRENT) then panic "isdirempty: readi"
        else if negb (de_inum de =? 0) then ret false
        else isdirempty_loop fuel' dp (off + DIRENT)
  end.
Definition isdirempty (dp : nat) : K bool :=
  let! d := inode_at dp in
  isdirempty_loop (dir_fuel d) dp (2 * DIRENT).

(** The code at label bad of sys_unlink. *)
Definition unlink_bad (dp : nat) : K Z := iunlockput dp ;;; end_op ;;; ret (-1).
Definition unlink_path (path : list Z) : K Z :=
  begin_op ;;;
  let! (dp, name) := nameiparent path fresh_name in
  match dp with
  | None => end_op ;;; ret (-1)
  | Some dp =>
      ilock (Some dp) ;;;
      if (namecmp name (bytes ".") =? 0) || (namecmp name (bytes "..") =? 0) then unlink_bad dp
      else
        let! found := dirlookup dp name in
        match found with
        | None => unlink_bad dp
        | Some (ip, off) =>
            ilock (Some ip) ;;;
            let! x := inode_at ip in
            if x.(ip_nlink) <? 1 then panic "unlink: nlink < 1"
            else
              let! busy := (if x.(ip_type) =? T_DIR
                            then let! e := isdirempty ip in ret (negb e) else ret false) in
              if busy then iunlockput ip ;;; unlink_bad dp
              else
                let! r := writei dp (replicate (Z.to_nat DIRENT) 0) off DIRENT in
                if negb (r =? DIRENT) then panic "unlink: writei"
                else
                  let! x := inode_at ip in
                  (if! x.(ip_type) =? T_DIR then! (set_nlink dp (-1) ;;; iupdate dp)) ;;;
                  iunlockput dp ;;;
                  set_nlink ip (-1) ;;;
                  iupdate ip ;;;
                  iunlockput ip ;;;
                  end_op ;;;
                  ret 0
        end
  end.
Definition sys_unlink : K Z :=
  let! path := argstr 0 in
  match path with
  | None => ret (-1)
  | Some path => unlink_path path
  end.

(** The new inode, locked. *)
Definition create (path : list Z) (type major minor : Z) : K (option nat) :=
  let! (dp, name) := nameiparent path fresh_name in
  match dp with
  | None => ret None
  | Some dp =>
      ilock (Some dp) ;;;
      let! found := dirlookup dp name in
      match found with
      | Some (ip, _) =>
          iunlockput dp ;;;
          ilock (Some ip) ;;;
          let! x := inode_at ip in
          if (type =? T_FILE) && (x.(ip_type) =? T_FILE) then ret (Some ip)
          else iunlockput ip ;;; ret None
      | None =>
          let! d := inode_at dp in
          let! ip := ialloc d.(ip_dev) type in
          ilock (Some ip) ;;;
          set_inode ip (fun x => x<|ip_major := s16 major|><|ip_minor := s16 minor|><|ip_nlink := 1|>) ;;;
          iupdate ip ;;;
          let! x := inode_at ip in
          (if! type =? T_DIR then!
             (set_nlink dp 1 ;;;
              iupdate dp ;;;
              let! r := dirlink ip (bytes ".") x.(ip_inum) in
              if r <? 0 then panic "create dots"
              else
                let! d := inode_at dp in
                let! r := dirlink ip (bytes "..") d.(ip_inum) in
                if r <? 0 then panic "create dots" else ret tt)) ;;;
          let! r := dirlink dp name x.(ip_inum) in
          if r <? 0 then panic "create: dirlink"
          else
            iunlockput dp ;;;
            ret (Some ip)
      end
  end.

(** The inode to open, locked. *)
Definition open_inode (path : list Z) (omode : Z) : K (option nat) :=
  if truth (Z.land omode O_CREATE) then create path T_FILE 0 0
  else
    let! ip := namei path in
    match ip with
    | None => ret None
    | Some ip =>
        ilock (Some ip) ;;;
        let! x := inode_at ip in
        if (x.(ip_type) =? T_DIR) && negb (omode =? O_RDONLY) then iunlockput ip ;;; ret None
        else ret (Some ip)
    end.
(** A file and a descriptor for it. *)
Definition open_file : K (option (nat * Z)) :=
  let! f := filealloc in
  match f with
  | None => ret None
  | Some f =>
      let! fd := fdalloc f in
      if fd <? 0 then fileclose f ;;; ret None
      else ret (Some (f, fd))
  end.
Definition opened (ip : nat) (omode : Z) (x : file) : file :=
  x<|f_type := FD_INODE|><|f_ip := Some ip|><|f_off := 0|>
   <|f_readable := b2z (negb (truth (Z.land omode O_WRONLY)))|>
   <|f_writable := b2z (truth (Z.land omode O_WRONLY) || truth (Z.land omode O_RDWR))|>.
Definition open_path (path : list Z) (omode : Z) : K Z :=
  begin_op ;;;
  let! ip := open_inode path omode in
  match ip with
  | None => end_op ;;; ret (-1)
  | Some ip =>
      let! f := open_file in
      match f with
      | None => iunlockput ip ;;; end_op ;;; ret (-1)
      | Some (f, fd) =>
          iunlock (Some ip) ;;;
          end_op ;;;
          set_file f (opened ip omode) ;;;
          ret fd
      end
  end.
Definition sys_open : K Z :=
  let! path := argstr 0 in
  match path with
  | None => ret (-1)
  | Some path =>
      let! omode := argint 1 in
      match omode with
      | None => ret (-1)
      | Some omode => open_path path omode
      end
  end.

Definition create_done (ip : option nat) : K Z :=
  match ip with
  | None => end_op ;;; ret (-1)
  | Some ip => iunlockput ip ;;; end_op ;;; ret 0
  end.
Definition sys_mkdir : K Z :=
  begin_op ;;;
  let! path := argstr 0 in
  match path with
  | None => create_done None
  | Some path => let! ip := create path T_DIR 0 0 in create_done ip
  end.
Definition sys_mknod : K Z :=
  begin_op ;;;
  let! path := argstr 0 in
  match path with
  | None => create_done None
  | Some path =>
      let! major := argint 1 in
      match major with
      | None => create_done None
      | Some major =>
          let! minor := argint 2 in
          match minor with
          | None => create_done None
          | Some minor => let! ip := create path T_DEV major minor in create_done ip
          end
      end
  end.

Definition sys_chdir : K Z :=
  let! cur := curproc in
  begin_op ;;;
  let! path := argstr 0 in
  let! ip := (match path with None => ret None | Some path => namei path end) in
  match ip with
  | None => end_op ;;; ret (-1)
  | Some ip =>
      ilock (Some ip) ;;;
      let! x := inode_at ip in
      if negb (x.(ip_type) =? T_DIR) then iunlockput ip ;;; end_op ;;; ret (-1)
      else
        iunlock (Some ip) ;;;
        let! p := proc_at cur in
        let! c := the_cwd p in
        iput c ;;;
        end_op ;;;
        set_proc cur (fun p => p<|p_cwd := Some ip|>) ;;;
        ret 0
  end.

(** The descriptors are stored at fd[0] and fd[1]. *)
Definition sys_pipe : K Z :=
  let! fd := argptr 0 8 in
  match fd with
  | None => ret (-1)
  | Some fd =>
      let! fs := pipealloc in
      match fs with
      | None => ret (-1)
      | Some (rf, wf) =>
          let bad := fileclose rf ;;; fileclose wf ;;; ret (-1) in
          let! fd0 := fdalloc rf in
          if fd0 <? 0 then bad
          else
            let! fd1 := fdalloc wf in
            if fd1 <? 0 then
              let! cur := curproc in
              set_proc cur (fun p => p<|p_ofile ::= <[Z.to_nat fd0 := None]>|>) ;;;
              bad
            else
              stores_user fd (le32 fd0) ;;;
              stores_user (u32 (fd + 4)) (le32 fd1) ;;;
              ret 0
      end
  end.

(** ** exec *)
Fixpoint loaduvm_loop (fuel : nat) (pgdir addr : Z) (ip : nat) (offset sz i : Z) : K Z :=
  match fuel with
  | O => nofuel
  | S fuel' =>
      if negb (i <? sz) then ret 0
      else
        let! pte := walkpgdir pgdir (u32 (addr + i)) false in
        if pte =? 0 then panic "loaduvm: address should exist"
        else
          let! e := rd32 pte in
          let pa := PTE_ADDR e in
          let n := if sz - i <? PGSIZE then sz - i else PGSIZE in
          let! (r, cs) := readi ip (u32 (offset + i)) n in
          modify (fun s => s<|k_mem ::= fun m => write_bytes m (P2V pa) cs|>) ;;;
          if negb (u32 r =? n) then ret (-1)
          else loaduvm_loop fuel' pgdir addr ip offset sz (u32 (i + PGSIZE))
  end.
(** One iteration per page, and the end test. *)
Definition loaduvm (pgdir addr : Z) (ip : nat) (offset sz : Z) : K Z :=
  if truth (addr mod PGSIZE) then panic "loaduvm: addr must be page aligned"
  else loaduvm_loop (S (S (Z.to_nat (sz / PGSIZE)))) pgdir addr ip offset sz 0.

(** The loop over the program headers: the size of the image, or failure. *)
Fixpoint load_segments (phnum : nat) (pgdir : Z) (ip : nat) (off sz : Z) : K (option Z) :=
  match phnum with
  | O => ret (Some sz)
  | S phnum' =>
      let! (r, d) := readi ip (u32 off) PROGHDR in
      if negb (r =? PROGHDR) then ret None
      else
        let ph := decode_proghdr d in
        let next sz := load_segments phnum' pgdir ip (off + PROGHDR) sz in
        if negb (ph_type ph =? ELF_PROG_LOAD) then next sz
        else if ph_memsz ph <? ph_filesz ph then ret None
        else if u32 (ph_vaddr ph + ph_memsz ph) <? ph_vaddr ph then ret None
        else
          let! sz := allocuvm pgdir sz (u32 (ph_vaddr ph + ph_memsz ph)) in
          if sz =? 0 then ret None
          else if truth (ph_vaddr ph mod PGSIZE) then ret None
          else
            let! r := loaduvm pgdir (ph_vaddr ph) ip (ph_off ph) (ph_filesz ph) in
            if r <? 0 then ret None else next sz
  end.

(** The loop that pushes the argument strings: the stack pointer and the
    addresses of the strings, or failure. *)
Fixpoint push_args (argc : nat) (argv : list (list Z)) (pgdir sp : Z) (ustack : list Z) :
    K (option (Z * list Z)) :=
  match argv with
  | [] => ret (Some (sp, ustack))
  | arg :: argv' =>
      if bool_decide (MAXARG <= argc)%nat then ret None
      else
        let len := strlen arg + 1 in
        let sp := Z.land (u32 (sp - len)) (u32 (Z.lnot 3)) in
        let! r := copyout pgdir sp (arg ++ [0]) len in
        if r <? 0 then ret None
        else push_args (S argc) argv' pgdir sp (ustack ++ [sp])
  end.

(** The code at label bad. *)
Definition exec_bad (pgdir : Z) (ip : option nat) : K Z :=
  (if! negb (pgdir =? 0) then! freevm pgdir) ;;;
  (match ip with
   | Some ip => iunlockput ip ;;; end_op
   | None => ret tt
   end) ;;;
  ret (-1).

(** From the loaded image to the end: the user stack and the commitment. *)
Definition exec_commit (path : list Z) (argv : list (list Z)) (entry pgdir sz : Z) : K Z :=
  let! cur := curproc in
  let sz := PGROUNDUP sz in
  let! sz := allocuvm pgdir sz (u32 (sz + 2 * PGSIZE)) in
  if sz =? 0 then exec_bad pgdir None
  else
    clearpteu pgdir (u32 (sz - 2 * PGSIZE)) ;;;
    let! r := push_args 0 argv pgdir sz [] in
    match r with
    | None => exec_bad pgdir None
    | Some (sp, ptrs) =>
        let argc := Z.of_nat (length ptrs) in
        let ustack := [0xffffffff; argc; u32 (sp - (argc + 1) * 4)] ++ ptrs ++ [0] in
        let sp := u32 (sp - (3 + argc + 1) * 4) in
        let! r := copyout pgdir sp (ustack ≫= le32) ((3 + argc + 1) * 4) in
        if r <? 0 then exec_bad pgdir None
        else
          set_proc cur (fun p => p<|p_name := safestrcpy p.(p_name) (last_elem path path) 16|>) ;;;
          let! p := proc_at cur in
          let oldpgdir := p.(p_pgdir) in
          set_proc cur (fun p => p<|p_pgdir := pgdir|><|p_sz := sz|>) ;;;
          set_proc cur (fun p => p<|p_frame ::= fun tf => tf<|tf_eip := entry|><|tf_esp := sp|>|>) ;;;
          switchuvm (Some cur) ;;;
          freevm oldpgdir ;;;
          ret 0
    end.

Definition exec (path : list Z) (argv : list (list Z)) : K Z :=
  begin_op ;;;
  let! ip := namei path in
  match ip with
  | None =>
      end_op ;;;
      cprintln "exec: fail" [] ;;;
      ret (-1)
  | Some ip =>
      ilock (Some ip) ;;;
      let! (r, d) := readi ip 0 ELFHDR in
      let elf := decode_elfhdr d in
      if negb (r =? ELFHDR) then exec_bad 0 (Some ip)
      else if negb (e_magic elf =? ELF_MAGIC) then exec_bad 0 (Some ip)
      else
        let! pgdir := setupkvm in
        if pgdir =? 0 then exec_bad 0 (Some ip)
        else
          let! sz := load_segments (Z.to_nat (e_phnum elf)) pgdir ip (s32 (e_phoff elf)) 0 in
          match sz with
          | None => exec_bad pgdir (Some ip)
          | Some sz =>
              iunlockput ip ;;;
              end_op ;;;
              exec_commit path argv (e_entry elf) pgdir sz
          end
  end.

(** The argument vector of sys_exec; [n] entries of argv are left. *)
Fixpoint fetch_argv (n : nat) (uargv : Z) (i : Z) : K (option (list (list Z))) :=
  match n with
  | O => ret None
  | S n' =>
      let! uarg := fetchint (u32 (uargv + 4 * i)) in
      match uarg with
      | None => ret None
      | Some uarg =>
          if uarg =? 0 then ret (Some [])
          else
            let! arg := fetchstr (u32 uarg) in
            match arg with
            | None => ret None
            | Some arg =>
                let! rest := fetch_argv n' uargv (i + 1) in
                ret (cons arg <$> rest)
            end
      end
  end.
Definition sys_exec : K Z :=
  let! path := argstr 0 in
  match path with
  | None => ret (-1)
  | Some path =>
      let! uargv := argint 1 in
      match uargv with
      | None => ret (-1)
      | Some uargv =>
          let! argv := fetch_argv MAXARG (u32 uargv) 0 in
          match argv with
          | None => ret (-1)
          | Some argv => exec path argv
          end
      end
  end.
End Code.
