(* ===== verification/Kbd.v ===== *)
(** * The keyboard: kbd.h, kbdgetc of kbd.c

    The controller's output buffer is [k_kbdin]: the status bit KBS_DIB is set
    when it is not empty, and reading the data port takes its first byte. *)

From S2P Require Import Prelude State.

(** ** kbd.h *)
Definition SHIFT : Z := 1.
Definition CTL : Z := 2.
Definition ALT : Z := 4.
Definition CAPSLOCK : Z := 8.
Definition NUMLOCK : Z := 16.
Definition SCROLLLOCK : Z := 32.
Definition E0ESC : Z := 64.

Definition shiftcode (data : Z) : Z :=
  if data =? 0x1D then CTL else if data =? 0x2A then SHIFT else if data =? 0x36 then SHIFT
  else if data =? 0x38 then ALT else if data =? 0x9D then CTL else if data =? 0xB8 then ALT else 0.
Definition togglecode (data : Z) : Z :=
  if data =? 0x3A then CAPSLOCK else if data =? 0x45 then NUMLOCK
  else if data =? 0x46 then SCROLLLOCK else 0.

(** The designated entries the three maps end with: KP_Enter and KP_Div, then
    KEY_UP, KEY_DN, KEY_PGUP, KEY_PGDN, KEY_LF, KEY_RT, KEY_HOME, KEY_END,
    KEY_INS, KEY_DEL; [other] is the entry of the leading rows, or 0. *)
Definition keypad (enter div data other : Z) : Z :=
  if data =? 0x9C then enter else if data =? 0xB5 then div
  else if data =? 0xC8 then 0xE2 else if data =? 0xD0 then 0xE3
  else if data =? 0xC9 then 0xE6 else if data =? 0xD1 then 0xE7
  else if data =? 0xCB then 0xE4 else if data =? 0xCD then 0xE5
  else if data =? 0x97 then 0xE0 else if data =? 0xCF then 0xE1
  else if data =? 0xD2 then 0xE8 else if data =? 0xD3 then 0xE9
  else other.
Definition normalmap_row : list Z :=
  [ 0; 27; 49; 50; 51; 52; 53; 54; 55; 56; 57; 48; 45; 61; 8; 9;
    113; 119; 101; 114; 116; 121; 117; 105; 111; 112; 91; 93; 10; 0; 97; 115;
    100; 102; 103; 104; 106; 107; 108; 59; 39; 96; 0; 92; 122; 120; 99; 118;
    98; 110; 109; 44; 46; 47; 0; 42; 0; 32; 0; 0; 0; 0; 0; 0;
    0; 0; 0; 0; 0; 0; 0; 55; 56; 57; 45; 52; 53; 54; 43; 49;
    50; 51; 48; 46; 0; 0; 0; 0].
Definition normalmap (data : Z) : Z :=
  keypad 10 47 data (nth (Z.to_nat data) normalmap_row 0).
Definition shiftmap_row : list Z :=
  [ 0; 27; 33; 64; 35; 36; 37; 94; 38; 42; 40; 41; 95; 43; 8; 9;
    81; 87; 69; 82; 84; 89; 85; 73; 79; 80; 123; 125; 10; 0; 65; 83;
    68; 70; 71; 72; 74; 75; 76; 58; 34; 126; 0; 124; 90; 88; 67; 86;
    66; 78; 77; 60; 62; 63; 0; 42; 0; 32; 0; 0; 0; 0; 0; 0;
    0; 0; 0; 0; 0; 0; 0; 55; 56; 57; 45; 52; 53; 54; 43; 49;
    50; 51; 48; 46; 0; 0; 0; 0].
Definition shiftmap (data : Z) : Z :=
  keypad 10 47 data (nth (Z.to_nat data) shiftmap_row 0).
Definition ctlmap_row : list Z :=
  [ 0; 0; 0; 0; 0; 0; 0; 0; 0; 0; 0; 0; 0; 0; 0; 0;
    17; 23; 5; 18; 20; 25; 21; 9; 15; 16; 0; 0; 13; 0; 1; 19;
    4; 6; 7; 8; 10; 11; 12; 0; 0; 0; 0; 28; 26; 24; 3; 22;
    2; 14; 13; 0; 0; 239; 0; 0].
Definition ctlmap (data : Z) : Z :=
  keypad 13 239 data (nth (Z.to_nat data) ctlmap_row 0).
Definition charcode (i data : Z) : Z :=
  if i =? 0 then normalmap data else if i =? 1 then shiftmap data else ctlmap data.

(** ** kbd.c *)
Definition capslock (c : Z) : Z :=
  if (97 <=? c) && (c <=? 122) then c + (65 - 97)
  else if (65 <=? c) && (c <=? 90) then c + (97 - 65)
  else c.
(** One byte of data: the new modifiers and the character. *)
Definition kbd_step (shift data : Z) : Z * Z :=
  if data =? 0xE0 then (Z.lor shift E0ESC, 0)
  else if truth (Z.land data 0x80) then
    let data := if truth (Z.land shift E0ESC) then data else Z.land data 0x7F in
    (Z.land shift (Z.lnot (Z.lor (shiftcode data) E0ESC)), 0)
  else
    let '(data, shift) := if truth (Z.land shift E0ESC)
                          then (Z.lor data 0x80, Z.land shift (Z.lnot E0ESC)) else (data, shift) in
    let shift := Z.lor shift (shiftcode data) in
    let shift := Z.lxor shift (togglecode data) in
    let c := charcode (Z.land shift (Z.lor CTL SHIFT)) data in
    (shift, if truth (Z.land shift CAPSLOCK) then capslock c else c).

Definition kbdgetc : K Z :=
  let! s := get in
  match s.(k_kbdin) with
  | [] => ret (-1)
  | data :: rest =>
      let '(shift, c) := kbd_step s.(k_shift) (u8 data) in
      modify (fun s => s<|k_kbdin := rest|><|k_shift := shift|>) ;;;
      ret c
  end.

(** ** What the tables mean

    The modifiers are 7 bits and data a byte, so a property of all of them can
    be checked by evaluating it on each. *)
Definition has (shift bit : Z) : bool := truth (Z.land shift bit).
Definition key_ok (shift data : Z) : bool :=
  let '(shift', c) := kbd_step shift data in
  (0 <=? shift') && (shift' <? 128) && (0 <=? c) && (c <? 256).
(** Pressing and releasing a key clears its modifier and flips its toggle. *)
Definition release_ok (shift data : Z) : bool :=
  has shift E0ESC || (128 <=? data) || (data =? 0x60) ||
  ((kbd_step (kbd_step shift data).1 (data + 128)).1 =?
   Z.lxor (Z.land shift (Z.lnot (shiftcode data))) (togglecode data)).
Definition letter_char (shift lower : Z) : Z :=
  if has shift CTL then lower - 96
  else if xorb (has shift SHIFT) (has shift CAPSLOCK) then lower - 32
  else lower.
Definition letter_ok (shift data : Z) : bool :=
  has shift E0ESC || negb ((97 <=? normalmap data) && (normalmap data <=? 122)) ||
  ((kbd_step shift data).2 =? letter_char shift (normalmap data)).

Lemma kbd_table :
  forallb (fun shift => forallb (fun data =>
    key_ok shift data && release_ok shift data && letter_ok shift data) (seqZ 0 256)) (seqZ 0 128) = true.
Proof. vm_compute. reflexivity. Qed.

Lemma kbd_cases shift data :
  0 <= shift < 128 -> is_byte data ->
  key_ok shift data = true /\ release_ok shift data = true /\ letter_ok shift data = true.
Proof.
  intros Hs Hd. pose proof kbd_table as H. rewrite forallb_forall in H.
  specialize (H shift ltac:(apply list_elem_of_In, elem_of_seqZ; lia)).
  apply (byte_cases _ H) in Hd. by apply andb_true_iff in Hd as [[? ?]%andb_true_iff ?].
Qed.

(** C39: the keyboard decoder.  For every state of the modifiers and every byte
    from the controller, the modifiers stay within their 7 bits and the
    character within a byte, so no table is indexed out of range.  Pressing and
    then releasing a key (other than after an escape byte) leaves its shift bit
    clear, flips its lock bit and changes no other modifier.  A letter key gives
    the control character when Control is down, and otherwise the letter in the
    case that Shift and Caps Lock select together. *)
Theorem kbd_decode (shift data : Z) :
  0 <= shift < 128 -> is_byte data ->
  0 <= (kbd_step shift data).1 < 128 /\ 0 <= (kbd_step shift data).2 < 256 /\
  (has shift E0ESC = false -> data < 128 -> data <> 0x60 ->
   (kbd_step (kbd_step shift data).1 (data + 128)).1 =
     Z.lxor (Z.land shift (Z.lnot (shiftcode data))) (togglecode data)) /\
  (has shift E0ESC = false -> 97 <= normalmap data <= 122 ->
   (kbd_step shift data).2 = letter_char shift (normalmap data)).
Proof.
  intros Hs Hd. destruct (kbd_cases shift data Hs Hd) as (Hk & Hr & Hl).
  unfold key_ok in Hk. destruct (kbd_step shift data) as [shift' c] eqn:E. cbn [fst snd].
  split_and!; try (intros; blia).
  - intros He Hlt Hne. unfold release_ok in Hr. rewrite He, E in Hr. blia.
  - intros He Hlet. unfold letter_ok in Hl. rewrite He, E in Hl. cbn [snd] in Hl. blia.
Qed.

Lemma kbd_decode_witness : (kbd_step CTL 0x2E).2 = 3.
Proof.
  assert (Hc : is_byte 0x2E) by (unfold is_byte; lia).
  destruct (kbd_decode CTL 0x2E ltac:(unfold CTL; lia) Hc) as (_ & _ & _ & H).
  rewrite H by (vm_compute; try split; congruence). reflexivity.
Defined.
