(* ===== verification/Console.v ===== *)
(** * Console input: the rest of console.c, uartgetc, kbdintr and uartintr

    The console is the instance of [Devices] the device switch points to. *)

From S2P Require Import Prelude Ring State Io Spinlock Segments Thread CString Cprintf Kalloc Apic Layout Vm Sched Sleeplock.
From S2P Require Import Disk Bio Log Fs Pipe File Proc Kbd.

Definition INPUT_BUF : Z := 128.
Definition C (x : Z) : Z := x - 64.
Definition ctl_D : Z := C 68.
Definition ctl_H : Z := C 72.
Definition ctl_P : Z := C 80.
Definition ctl_U : Z := C 85.

Definition upd_input (f : inputbuf -> inputbuf) (s : kernel) : kernel := s<|k_input ::= f|>.
(** [input.buf[i % INPUT_BUF]] *)
Definition in_at (i : Z) (b : inputbuf) : Z := nth (Z.to_nat (i mod INPUT_BUF)) b.(in_buf) 0.
Definition in_store (c : Z) (b : inputbuf) : inputbuf :=
  b<|in_buf ::= <[Z.to_nat (b.(in_e) mod INPUT_BUF) := c]>|><|in_e := u32 (b.(in_e) + 1)|>.

(** ** consoleintr *)

(** Kill line; e - w characters are being edited, at most INPUT_BUF of them. *)
Fixpoint kill_line (fuel : nat) : K unit :=
  match fuel with
  | O => nofuel
  | S fuel' =>
      let! s := get in
      let i := s.(k_input) in
      if negb (i.(in_e) =? i.(in_w)) && negb (in_at (u32 (i.(in_e) - 1)) i =? newline) then
        modify (upd_input (fun b => b<|in_e := u32 (b.(in_e) - 1)|>)) ;;;
        consputc BACKSPACE ;;;
        kill_line fuel'
      else ret tt
  end.
(** One character; the result says whether it asked for a process listing. *)
Definition consoleintr_char (c : Z) : K bool :=
  if c =? ctl_P then ret true
  else if c =? ctl_U then kill_line (S (Z.to_nat INPUT_BUF)) ;;; ret false
  else if (c =? ctl_H) || (c =? 0x7f) then
    let! s := get in
    (if! negb (s.(k_input).(in_e) =? s.(k_input).(in_w)) then!
       (modify (upd_input (fun b => b<|in_e := u32 (b.(in_e) - 1)|>)) ;;;
        consputc BACKSPACE)) ;;;
    ret false
  else
    let! s := get in
    (if! negb (c =? 0) && (u32 (s.(k_input).(in_e) - s.(k_input).(in_r)) <? INPUT_BUF) then!
       (let c := if c =? 13 then newline else c in
        modify (upd_input (in_store c)) ;;;
        consputc c ;;;
        let! s := get in
        let i := s.(k_input) in
        if! (c =? newline) || (c =? ctl_D) || (i.(in_e) =? u32 (i.(in_r) + INPUT_BUF)) then!
          (modify (upd_input (fun b => b<|in_w := b.(in_e)|>)) ;;;
           wakeup ChInput))) ;;;
    ret false.

Fixpoint consoleintr_loop (fuel : nat) (getc : K Z) (doprocdump : bool) : K bool :=
  match fuel with
  | O => nofuel
  | S fuel' =>
      let! c := getc in
      if c <? 0 then ret doprocdump
      else
        let! dump := consoleintr_char c in
        consoleintr_loop fuel' getc (doprocdump || dump)
  end.
(** Every call of getc but the last takes a byte of a device. *)
Definition consoleintr (getc : K Z) : K unit :=
  acquire LkCons ;;;
  let! s := get in
  let! doprocdump := consoleintr_loop (S (length s.(k_kbdin) + length s.(k_serialin))) getc false in
  release LkCons ;;;
  if! doprocdump then! procdump.

Definition uartgetc : K Z :=
  let! s := get in
  if negb (truth s.(k_uart)) then ret (-1)
  else
    match s.(k_serialin) with
    | [] => ret (-1)
    | c :: rest => modify (fun s => s<|k_serialin := rest|>) ;;; ret (u8 c)
    end.
Definition uartintr : K unit := consoleintr uartgetc.
Definition kbdintr : K unit := consoleintr kbdgetc.

(** ** consoleread and consolewrite *)

(** Wait for a line; [false] when the reader was killed. *)
Fixpoint input_wait (fuel : nat) : K bool :=
  match fuel with
  | O => nofuel
  | S fuel' =>
      let! s := get in
      if negb (s.(k_input).(in_r) =? s.(k_input).(in_w)) then ret true
      else
        let! k := myproc_killed in
        if truth k then ret false
        else
          sleep ChInput LkCons ;;;
          input_wait fuel'
  end.

Section Code.
Context {P : Patience} {D : BlockDriver}.

(** [n] characters are wanted, [target] were; whether the reader was not
    killed, and the bytes stored at dst. *)
Fixpoint consoleread_loop (n target : nat) : K (bool * list Z) :=
  match n with
  | O => ret (true, [])
  | S n' =>
      let! ok := input_wait (S patience) in
      if negb ok then ret (false, [])
      else
        let! s := get in
        let c := in_at s.(k_input).(in_r) s.(k_input) in
        modify (upd_input (fun b => b<|in_r := u32 (b.(in_r) + 1)|>)) ;;;
        if c =? ctl_D then
          (if! bool_decide (n < target)%nat then!
             modify (upd_input (fun b => b<|in_r := u32 (b.(in_r) - 1)|>))) ;;;
          ret (true, [])
        else if c =? newline then ret (true, [c])
        else
          let! (ok, cs) := consoleread_loop n' target in
          ret (ok, c :: cs)
  end.
Definition consoleread (ip : nat) (n : Z) : K (Z * list Z) :=
  iunlock (Some ip) ;;;
  acquire LkCons ;;;
  let! (ok, cs) := consoleread_loop (Z.to_nat n) (Z.to_nat n) in
  release LkCons ;;;
  ilock (Some ip) ;;;
  ret (if ok then Z.of_nat (length cs) else -1, cs).

(** [buf] is the n bytes of the caller's buffer. *)
Definition consolewrite (ip : nat) (buf : list Z) (n : Z) : K Z :=
  iunlock (Some ip) ;;;
  acquire LkCons ;;;
  consputs ((fun c => Z.land c 0xff) <$> take (Z.to_nat n) buf) ;;;
  release LkCons ;;;
  ilock (Some ip) ;;;
  ret n.
End Code.

#[export] Instance console `{!Patience, !BlockDriver} : Devices := {|
  dev_read drv ip n := match drv with DrvConsole => consoleread ip n end;
  dev_write drv ip buf n := match drv with DrvConsole => consolewrite ip buf n end
|}.

Definition CONSOLE : nat := 1.
Definition consoleinit : K unit :=
  initlock LkCons ;;;
  modify (fun s => s<|k_devsw ::= <[CONSOLE := Some DrvConsole]>|>) ;;;
  modify (fun s => s<|k_conslocking := 1|>) ;;;
  ioapicenable IRQ_KBD 0.

(** uart.c *)
Definition COM1 : Z := 0x3f8.
Fixpoint uartputs (cs : list Z) : K unit :=
  match cs with
  | [] => ret tt
  | c :: cs' => uartputc c ;;; uartputs cs'
  end.
Definition uartinit `{!Hardware} : K unit :=
  outb (COM1 + 2) 0 ;;;
  outb (COM1 + 3) 0x80 ;;;
  outb (COM1 + 0) (115200 / 9600) ;;;
  outb (COM1 + 1) 0 ;;;
  outb (COM1 + 3) 0x03 ;;;
  outb (COM1 + 4) 0 ;;;
  outb (COM1 + 1) 0x01 ;;;
  let! status := inb (COM1 + 5) in
  if status =? 0xFF then ret tt
  else
    modify (fun s => s<|k_uart := 1|>) ;;;
    let! _ := inb (COM1 + 2) in
    let! _ := inb (COM1 + 0) in
    ioapicenable IRQ_COM1 0 ;;;
    uartputs (bytes "xv6..." ++ [newline]).

(** ** The line discipline

    What a terminal promises: complete lines ready to be read, and a line being
    edited. *)
Record tty := mktty { t_ready : list Z; t_edit : list Z }.
Definition t_size (t : tty) : Z := Z.of_nat (length (t_ready t ++ t_edit t)).
Definition tty_type (t : tty) (c : Z) : tty :=
  let t' := mktty (t_ready t) (t_edit t ++ [c]) in
  if (c =? newline) || (c =? ctl_D) || (t_size t' =? INPUT_BUF)
  then mktty (t_ready t ++ t_edit t ++ [c]) [] else t'.
Definition tty_step (t : tty) (c : Z) : tty :=
  if c =? ctl_P then t
  else if c =? ctl_U then mktty (t_ready t) []
  else if (c =? ctl_H) || (c =? 0x7f) then mktty (t_ready t) (removelast (t_edit t))
  else if negb (c =? 0) && (t_size t <? INPUT_BUF) then tty_type t (if c =? 13 then newline else c)
  else t.

(** The ring as a terminal: ready from r to w, edited from w to e. *)
Definition ready_len (b : inputbuf) : Z := u32 (b.(in_w) - b.(in_r)).
Definition edit_len (b : inputbuf) : Z := u32 (b.(in_e) - b.(in_w)).
Definition tty_of (b : inputbuf) : tty :=
  mktty (ring INPUT_BUF b.(in_buf) b.(in_r) (ready_len b)) (ring INPUT_BUF b.(in_buf) b.(in_w) (edit_len b)).
Definition is_u32 (x : Z) : Prop := 0 <= x < 2 ^ 32.
(** At most INPUT_BUF bytes are stored, and no newline is being edited. *)
Definition input_ok (b : inputbuf) : Prop :=
  length b.(in_buf) = Z.to_nat INPUT_BUF /\ is_u32 b.(in_r) /\ is_u32 b.(in_w) /\ is_u32 b.(in_e) /\
  ready_len b + edit_len b <= INPUT_BUF /\ newline ∉ t_edit (tty_of b).

Lemma len_range b : 0 <= ready_len b < 2 ^ 32 /\ 0 <= edit_len b < 2 ^ 32.
Proof. split; apply u32_range. Qed.

Lemma t_size_of b : input_ok b -> t_size (tty_of b) = ready_len b + edit_len b.
Proof.
  intros _. unfold t_size, tty_of. cbn [t_ready t_edit]. rewrite length_app, Nat2Z.inj_add.
  by rewrite !length_ring by apply len_range.
Qed.

Lemma total_len b : input_ok b -> u32 (b.(in_e) - b.(in_r)) = ready_len b + edit_len b.
Proof.
  intros (_ & Hr & Hw & He & Hl & _). unfold ready_len, edit_len, is_u32, INPUT_BUF in *.
  rewrite !u32_sub_cases in * by done. blia.
Qed.

Lemma no_edit b : input_ok b -> (b.(in_e) =? b.(in_w)) = (edit_len b =? 0).
Proof.
  intros (_ & Hr & Hw & He & _ & _). unfold edit_len, is_u32 in *. rewrite u32_sub_cases by done. blia.
Qed.

(** The position of the next byte to store, and of the last one stored. *)
Lemma edit_slot b : b.(in_e) mod INPUT_BUF = (b.(in_w) + edit_len b) mod INPUT_BUF.
Proof.
  rewrite <- (u32_mod_ring INPUT_BUF 33554432 eq_refl eq_refl (_ + _)). unfold edit_len.
  rewrite u32_idemp_add_r, (u32_mod_ring INPUT_BUF 33554432) by done. f_equal. lia.
Qed.

Lemma last_slot b :
  u32 (b.(in_e) - 1) mod INPUT_BUF = (b.(in_w) + (edit_len b - 1)) mod INPUT_BUF.
Proof.
  rewrite (u32_mod_ring INPUT_BUF 33554432) by done.
  replace (in_w b + (edit_len b - 1)) with (in_w b + edit_len b - 1) by lia.
  rewrite Zminus_mod, edit_slot, <- Zminus_mod. done.
Qed.

(** One more byte is erased from the line being edited. *)
Definition back (b : inputbuf) : inputbuf := b<|in_e := u32 (b.(in_e) - 1)|>.

Lemma back_len b : input_ok b -> edit_len b <> 0 -> edit_len (back b) = edit_len b - 1.
Proof.
  intros (_ & _ & Hw & He & Hl & _) Hne. unfold edit_len, back, is_u32 in *. cbn [in_e in_w setf set_in_e].
  rewrite u32_pred_cases, !u32_sub_cases in * by (rewrite ?u32_pred_cases; blia). blia.
Qed.

Lemma back_edit b :
  input_ok b -> edit_len b <> 0 ->
  t_edit (tty_of b) = t_edit (tty_of (back b)) ++ [in_at (u32 (b.(in_e) - 1)) b].
Proof.
  intros Hok Hne. pose proof (len_range b). unfold tty_of at 2. cbn [t_edit]. rewrite back_len by done.
  cbn [back in_buf in_w setf set_in_e]. unfold in_at. rewrite last_slot.
  rewrite <- (ring_snoc INPUT_BUF) by lia. cbn. f_equal. lia.
Qed.

Lemma back_ok b : input_ok b -> edit_len b <> 0 -> input_ok (back b).
Proof.
  intros Hok Hne. pose proof (back_len b Hok Hne) as Hlen. pose proof (back_edit b Hok Hne) as Hed.
  destruct Hok as (H1 & H2 & H3 & H4 & H5 & H6). rewrite Hed in H6. unfold input_ok.
  change (ready_len (back b)) with (ready_len b). rewrite Hlen.
  split_and!; [done..|apply u32_range|lia|set_solver].
Qed.

(** ** consoleintr implements it *)

(** The state after the input buffer became [b] and something was printed. *)
Definition typed (b : inputbuf) (s s' : kernel) : Prop := printed (s<|k_input := b|>) s'.

Lemma printed_fields s s' :
  printed s s' -> s'.(k_input) = s.(k_input) /\ s'.(k_panicked) = s.(k_panicked) /\
  s'.(k_procs) = s.(k_procs) /\ s'.(k_kbdin) = s.(k_kbdin) /\ s'.(k_serialin) = s.(k_serialin) /\
  s'.(k_uart) = s.(k_uart).
Proof. by intros (? & ? & ? & ->). Qed.

Lemma kill_line_ok fuel : forall s,
  on_screen s -> s.(k_panicked) = 0 -> input_ok s.(k_input) -> edit_len s.(k_input) < Z.of_nat fuel ->
  exists b s', kill_line fuel s = Ret tt s' /\ typed b s s' /\ on_screen s' /\ input_ok b /\
    tty_of b = mktty (t_ready (tty_of s.(k_input))) [].
Proof.
  induction fuel as [|fuel IH]; intros s Hon Hp Hok Hlen; [pose proof (len_range (k_input s)); lia|].
  cbn [kill_line]. kret. rewrite no_edit by done. destruct (Z.eqb_spec (edit_len (k_input s)) 0) as [Hz|Hnz].
  - exists (k_input s), s. split_and!; [done|by exists (k_serial s), (k_crtpos s), (k_crt s)|done..|].
    unfold tty_of at 1. by rewrite Hz.
  - assert (Hnl : (in_at (u32 (in_e (k_input s) - 1)) (k_input s) =? newline) = false).
    { apply Z.eqb_neq. intros E. destruct Hok as (? & ? & ? & ? & ? & Hin) eqn:EH.
      apply Hin. rewrite back_edit by done. rewrite E. set_solver. }
    rewrite Hnl. cbn [negb andb]. kret.
    set (s1 := upd_input _ s). assert (Hs1 : s1 = s<|k_input := back (k_input s)|>) by done.
    destruct (consputc_ok BACKSPACE s1) as (s2 & E2 & Hpr2 & Hon2 & _); [done..|]. kret_by exact E2.
    destruct (printed_fields _ _ Hpr2) as (Hi2 & Hp2 & _).
    assert (Hb : k_input s2 = back (k_input s)) by (by rewrite Hi2).
    destruct (IH s2) as (b & s3 & E3 & Hpr3 & Hon3 & Hb3 & Ht3); [done|by rewrite Hp2|..].
    + rewrite Hb. by apply back_ok.
    + rewrite Hb, back_len by done. lia.
    + exists b, s3. split_and!; [done| |done..|].
      * unfold typed in *. destruct Hpr2 as (l & p & t & ->). destruct Hpr3 as (l' & p' & t' & ->).
        by exists l', p', t'.
      * rewrite Ht3, Hb. done.
Qed.

Lemma store_len c b :
  input_ok b -> ready_len b + edit_len b < INPUT_BUF -> edit_len (in_store c b) = edit_len b + 1.
Proof.
  intros (_ & _ & Hw & He & _ & _) Hroom. pose proof (len_range b) as [Hr0 _].
  unfold edit_len, in_store, is_u32, INPUT_BUF in *. cbn [in_e in_w setf set_in_e set_in_buf].
  rewrite u32_succ_cases, !u32_sub_cases in * by (rewrite ?u32_succ_cases; blia). blia.
Qed.

Lemma store_tty c b :
  input_ok b -> ready_len b + edit_len b < INPUT_BUF ->
  tty_of (in_store c b) = mktty (t_ready (tty_of b)) (t_edit (tty_of b) ++ [c]).
Proof.
  intros Hok Hroom. pose proof (len_range b) as [Hr0 He0]. pose proof Hok as (Hd & _).
  unfold tty_of at 1. rewrite store_len by done.
  unfold in_store. cbn [in_buf in_r in_w setf set_in_e set_in_buf].
  change (ready_len _) with (ready_len b). rewrite edit_slot. f_equal.
  - assert (Hslot : (in_w b + edit_len b) mod INPUT_BUF = (in_r b + (ready_len b + edit_len b)) mod INPUT_BUF).
    { rewrite <- (u32_mod_ring INPUT_BUF 33554432 eq_refl eq_refl (in_r b + _)). unfold ready_len.
      rewrite Z.add_assoc, <- u32_idemp_add_l, (u32_idemp_add_r (in_r b)), u32_idemp_add_l.
      rewrite (u32_mod_ring INPUT_BUF 33554432) by done. f_equal. lia. }
    rewrite Hslot. apply (ring_insert_other INPUT_BUF eq_refl); lia.
  - apply (ring_insert_snoc INPUT_BUF eq_refl); [done|lia].
Qed.

Lemma store_ok c b :
  input_ok b -> ready_len b + edit_len b < INPUT_BUF -> c <> newline -> input_ok (in_store c b).
Proof.
  intros Hok Hroom Hc. pose proof (store_len c b Hok Hroom) as Hlen. pose proof (store_tty c b Hok Hroom) as Ht.
  destruct Hok as (H1 & H2 & H3 & H4 & H5 & H6). unfold input_ok. rewrite Hlen, Ht.
  change (ready_len (in_store c b)) with (ready_len b).
  split_and!; [unfold in_store; cbn; by rewrite length_insert|done..|apply u32_range|lia|]. cbn [t_edit].
  rewrite not_elem_of_app, list_elem_of_singleton. split; [done|congruence].
Qed.

(** [input.w = input.e]: the edited line becomes ready. *)
Definition commit_line (b : inputbuf) : inputbuf := b<|in_w := b.(in_e)|>.

Lemma commit_tty b :
  length b.(in_buf) = Z.to_nat INPUT_BUF -> is_u32 b.(in_r) -> is_u32 b.(in_w) -> is_u32 b.(in_e) ->
  ready_len b + edit_len b <= INPUT_BUF ->
  input_ok (commit_line b) /\
  tty_of (commit_line b) = mktty (t_ready (tty_of b) ++ t_edit (tty_of b)) [].
Proof.
  intros Hd Hr Hw He Hl. pose proof (len_range b) as [Hr0 He0].
  assert (Hlen : ready_len (commit_line b) = ready_len b + edit_len b).
  { unfold ready_len, edit_len, commit_line, is_u32, INPUT_BUF in *. cbn [in_w in_r in_e setf set_in_w].
    rewrite !u32_sub_cases in * by done. blia. }
  assert (Hlen' : edit_len (commit_line b) = 0).
  { unfold edit_len, commit_line. cbn [in_w in_e setf set_in_w]. by rewrite Z.sub_diag. }
  assert (Ht : tty_of (commit_line b) = mktty (t_ready (tty_of b) ++ t_edit (tty_of b)) []).
  { unfold tty_of at 1. rewrite Hlen, Hlen'. cbn [commit_line in_buf in_r setf set_in_w].
    f_equal. rewrite ring_app by lia. cbn [tty_of t_ready t_edit]. f_equal.
    rewrite <- (ring_u32 INPUT_BUF 33554432 eq_refl eq_refl _ (_ + _)). unfold ready_len.
    rewrite u32_idemp_add_r. replace (in_r b + (in_w b - in_r b)) with (in_w b) by lia.
    by rewrite (ring_u32 INPUT_BUF 33554432). }
  split; [|done]. unfold input_ok. rewrite Hlen, Hlen', Ht.
  split_and!; [done|exact Hr|exact He|exact He|lia|]. apply not_elem_of_nil.
Qed.

(** The line is complete, or the buffer full. *)
Lemma full_input b :
  is_u32 b.(in_r) -> is_u32 b.(in_w) -> is_u32 b.(in_e) ->
  ready_len b + edit_len b <= INPUT_BUF ->
  (b.(in_e) =? u32 (b.(in_r) + INPUT_BUF)) = (ready_len b + edit_len b =? INPUT_BUF).
Proof.
  intros Hr Hw He Hl. unfold ready_len, edit_len, is_u32, INPUT_BUF in *.
  rewrite !u32_sub_cases in * by done. unfold u32.
  destruct (Z.ltb_spec (in_r b + 128) (2 ^ 32)).
  - rewrite Z.mod_small by lia. blia.
  - replace ((in_r b + 128) mod 2 ^ 32) with (in_r b + 128 - 2 ^ 32)
      by (apply (Z.mod_unique _ _ 1); lia). blia.
Qed.

(** A processor in consoleintr, and what its steps leave alone. *)
Definition con_ok (i : nat) (q : option nat) (s : kernel) : Prop :=
  running i q {[LkCons]} s /\ on_screen s /\ s.(k_panicked) = 0 /\ input_ok s.(k_input).
Definition devices_kept (s s' : kernel) : Prop :=
  s'.(k_serialin) = s.(k_serialin) /\ s'.(k_kbdin) = s.(k_kbdin) /\ s'.(k_uart) = s.(k_uart).

Lemma typed_ok i q b s s' :
  con_ok i q s -> typed b s s' -> on_screen s' -> input_ok b ->
  con_ok i q s' /\ s'.(k_input) = b /\ devices_kept s s'.
Proof.
  intros (Hr & _ & Hp & _) Hty Hon Hb. destruct (printed_fields _ _ Hty) as (Hi & Hp' & _ & Hk & Hs & Hu).
  split_and!; [split_and!|..]; [|done|by rewrite Hp'|by rewrite Hi|by rewrite Hi|done].
  apply (printed_running _ _ _ _ _ Hty). kframe Hr.
Qed.

(** A character is typed into the buffer with room for it. *)
Definition type_char (c : Z) : K unit :=
  modify (upd_input (in_store c)) ;;;
  consputc c ;;;
  let! s := get in
  let i := s.(k_input) in
  if! (c =? newline) || (c =? ctl_D) || (i.(in_e) =? u32 (i.(in_r) + INPUT_BUF)) then!
    (modify (upd_input (fun b => b<|in_w := b.(in_e)|>)) ;;;
     wakeup ChInput).

Lemma type_char_ok i q c s :
  con_ok i q s -> ready_len s.(k_input) + edit_len s.(k_input) < INPUT_BUF ->
  exists s', type_char c s = Ret tt s' /\ con_ok i q s' /\ devices_kept s s' /\
    tty_of s'.(k_input) = tty_type (tty_of s.(k_input)) c.
Proof.
  intros Hok Hroom. pose proof Hok as (Hr & Hon & Hp & Hin). unfold type_char. kret.
  set (b := in_store c (k_input s)). change (upd_input (in_store c) s) with (s<|k_input := b|>).
  destruct (consputc_ok c (s<|k_input := b|>)) as (s1 & E1 & Hty & Hon1 & _); [done..|]. kret_by exact E1. kret.
  destruct (printed_fields _ _ Hty) as (Hi1 & Hp1 & Hps1 & Hk1 & Hs1 & Hu1). cbn in Hi1. rewrite Hi1.
  pose proof (store_len c _ Hin Hroom) as Hlen. pose proof (store_tty c _ Hin Hroom) as Htty. fold b in Hlen, Htty.
  pose proof Hin as (Hd & H2 & H3 & _). assert (He : is_u32 (in_e b)) by apply u32_range.
  assert (Hbd : length (in_buf b) = Z.to_nat INPUT_BUF) by (unfold b, in_store; cbn; by rewrite length_insert).
  assert (Hrl : ready_len b = ready_len (k_input s)) by done.
  rewrite full_input by (done || lia).
  assert (Hsize : t_size (mktty (t_ready (tty_of (k_input s))) (t_edit (tty_of (k_input s)) ++ [c]))
    = ready_len b + edit_len b).
  { rewrite Hlen, Hrl, Z.add_assoc, <- t_size_of by done. unfold t_size. cbn [t_ready t_edit].
    rewrite !length_app. cbn. lia. }
  unfold tty_type. rewrite Hsize.
  destruct ((c =? newline) || (c =? ctl_D) || (ready_len b + edit_len b =? INPUT_BUF)) eqn:Ecommit.
  - kret. set (s2 := upd_input _ s1). destruct (commit_tty b) as [Hcok Hct]; [done..|lia|].
    assert (Hi2 : k_input s2 = commit_line b) by (unfold s2, upd_input; cbn; by rewrite Hi1).
    assert (Hr2 : running i q {[LkCons]} s2).
    { assert (Hr1 : running i q {[LkCons]} s1) by (apply (printed_running _ _ _ _ _ Hty); kframe Hr). kframe Hr1. }
    destruct (wakeup_ex i q _ ChInput s2 Hr2 ltac:(set_solver)) as (s3 & E3 & Hq3 & Hr3).
    destruct Hq3 as (? & ? & ? & ->). eexists. split; [exact E3|]. cbn [k_input].
    split; [split_and!; [done|exact Hon1|change (k_panicked s1 = 0); by rewrite Hp1|]|].
    + cbn. change (input_ok (k_input s2)). by rewrite Hi2.
    + split; [done|]. etransitivity; [exact (f_equal tty_of Hi2)|]. by rewrite Hct, Htty.
  - assert (Hbok : input_ok b) by (apply store_ok; [done..|]; apply orb_false_iff in Ecommit as [E%orb_false_iff _];
      by apply Z.eqb_neq, E).
    destruct (typed_ok i q b s s1 Hok Hty Hon1 Hbok) as (Hok1 & _ & Hdev).
    exists s1. split_and!; [done..|]. by rewrite Hi1, Htty.
Qed.

Lemma consoleintr_char_ok i q c s :
  con_ok i q s ->
  exists s', consoleintr_char c s = Ret (c =? ctl_P) s' /\ con_ok i q s' /\ devices_kept s s' /\
    tty_of s'.(k_input) = tty_step (tty_of s.(k_input)) c.
Proof.
  intros Hok. pose proof Hok as (Hr & Hon & Hp & Hin). unfold consoleintr_char, tty_step.
  destruct (c =? ctl_P); [by exists s|]. destruct (c =? ctl_U).
  { destruct (kill_line_ok (S (Z.to_nat INPUT_BUF)) s Hon Hp Hin) as (b & s' & E & Hty & Hon' & Hb & Ht).
    { destruct Hin as (_ & _ & _ & _ & Hl & _). pose proof (len_range (k_input s)). unfold INPUT_BUF in *. lia. }
    destruct (typed_ok i q b s s' Hok Hty Hon' Hb) as (Hok' & Hi & Hdev).
    kret_by exact E. exists s'. split_and!; [done..|]. by rewrite Hi. }
  destruct ((c =? ctl_H) || (c =? 127)).
  { kret. rewrite no_edit by done. destruct (Z.eqb_spec (edit_len (k_input s)) 0) as [Hz|Hnz]; cbn [negb].
    - kret. exists s. split_and!; [done..|]. unfold tty_of. by rewrite Hz.
    - destruct (consputc_ok BACKSPACE (s<|k_input := back (k_input s)|>)) as (s' & E & Hty & Hon' & _); [done..|].
      destruct (typed_ok i q _ s s' Hok Hty Hon' (back_ok _ Hin Hnz)) as (Hok' & Hi & Hdev).
      kret_by (kret; exact E). exists s'. split_and!; [done..|].
      rewrite Hi, back_edit, removelast_last by done. done. }
  kret. rewrite total_len, t_size_of by done. destruct (negb (c =? 0) && _) eqn:Eroom.
  - apply andb_true_iff in Eroom as [_ Eroom%Z.ltb_lt].
    destruct (type_char_ok i q (if c =? 13 then newline else c) s Hok Eroom) as (s' & E & H').
    kret_by exact E. by exists s'.
  - kret. by exists s.
Qed.

(** ** The interrupt handler *)
Lemma uartgetc_ok c rest s :
  s.(k_uart) = 1 -> s.(k_serialin) = c :: rest -> uartgetc s = Ret (u8 c) (s<|k_serialin := rest|>).
Proof. intros Hu Hs. unfold uartgetc. kret. by rewrite Hu, Hs. Qed.

Lemma uart_loop_ok i q cs : forall fuel dump s,
  con_ok i q s -> s.(k_uart) = 1 -> s.(k_serialin) = cs -> (length cs < fuel)%nat ->
  exists s', consoleintr_loop fuel uartgetc dump s =
      Ret (dump || existsb (fun c => u8 c =? ctl_P) cs) s' /\
    con_ok i q s' /\ s'.(k_serialin) = [] /\
    tty_of s'.(k_input) = foldl tty_step (tty_of s.(k_input)) (u8 <$> cs).
Proof.
  induction cs as [|c cs IH]; intros [|fuel] dump s Hok Hu Hs Hf; cbn [length] in Hf; try lia;
    cbn [consoleintr_loop].
  - kret_by (unfold uartgetc; kret; by rewrite Hu, Hs). exists s. cbn. rewrite orb_false_r. by split_and!.
  - kret_by (by apply (uartgetc_ok c cs)). pose proof (u8_range c) as Hc.
    rewrite (proj2 (Z.ltb_ge (u8 c) 0)) by lia. set (s1 := s<|k_serialin := cs|>).
    assert (Hok1 : con_ok i q s1).
    { destruct Hok as (Hr & Hon & Hp & Hin). split_and!; [kframe Hr|done..]. }
    destruct (consoleintr_char_ok i q (u8 c) s1 Hok1) as (s2 & E2 & Hok2 & (Hs2 & _ & Hu2) & Ht2).
    kret_by exact E2.
    destruct (IH fuel (dump || (u8 c =? ctl_P)) s2) as (s3 & E3 & Hok3 & Hs3 & Ht3); [done|by rewrite Hu2|done|lia|].
    exists s3. rewrite E3, Ht3, Ht2. split_and!; [|done..]. cbn [existsb]. by rewrite orb_assoc.
Qed.

Lemma asks_dump cs : existsb (fun c => u8 c =? ctl_P) cs = bool_decide (ctl_P ∈ u8 <$> cs).
Proof.
  apply eq_true_iff_eq. rewrite bool_decide_eq_true, existsb_exists, list_elem_of_fmap. split.
  - intros (c & Hc & E%Z.eqb_eq). exists c. by rewrite list_elem_of_In.
  - intros (c & E & Hc). exists c. by rewrite <- list_elem_of_In, <- E, Z.eqb_refl.
Qed.

(** C37: the console's line discipline.  The serial interrupt handler feeds
    every character that has arrived through the line editor: backspace and
    kill-line erase only the line being edited, a newline, an end-of-file
    character or a full buffer makes the line ready for readers, a character
    that finds the buffer full is dropped, and control-P leaves the line alone.
    This takes the handler neither a panic nor more than its loop bounds,
    whatever the ring's counters are, and leaves the ring well formed and all
    locks released.  Then, if control-P was among the characters and only then,
    it lists the processes, once. *)
Theorem uartintr_edits (i : nat) (q : option nat) (s : kernel) :
  running i q ∅ s -> on_screen s -> s.(k_panicked) = 0 -> input_ok s.(k_input) -> s.(k_uart) = 1 ->
  exists s', uartintr s = (if decide (ctl_P ∈ u8 <$> s.(k_serialin)) then procdump s' else Ret tt s') /\
    running i q ∅ s' /\ s'.(k_serialin) = [] /\ input_ok s'.(k_input) /\
    tty_of s'.(k_input) = foldl tty_step (tty_of s.(k_input)) (u8 <$> s.(k_serialin)).
Proof.
  intros Hr Hon Hp Hin Hu. unfold uartintr, consoleintr.
  destruct (acquire_ex i q ∅ LkCons s Hr (not_elem_of_empty _)) as (s1 & E1 & Hq1 & Hr1). kret_by exact E1. kret.
  rewrite union_empty_r_L in Hr1.
  assert (Hok1 : con_ok i q s1) by (destruct Hq1 as (? & ? & ? & ->); by split_and!).
  assert (Hs1 : k_serialin s1 = k_serialin s) by (by destruct Hq1 as (? & ? & ? & ->)).
  assert (Hi1 : k_input s1 = k_input s) by (by destruct Hq1 as (? & ? & ? & ->)).
  destruct (uart_loop_ok i q (k_serialin s) (S (length (k_kbdin s1) + length (k_serialin s1))) false s1)
    as (s2 & E2 & (Hr2 & _ & _ & Hin2) & Hs2 & Ht2); [done|by destruct Hq1 as (? & ? & ? & ->)|done|rewrite Hs1; lia|].
  kret_by exact E2. destruct (release_ex i q _ LkCons s2 Hr2 ltac:(set_solver)) as (s3 & E3 & Hq3 & Hr3).
  kret_by exact E3. replace ({[LkCons]} ∖ {[LkCons]}) with (∅ : gset lockid) in Hr3 by set_solver.
  exists s3. rewrite <- Hi1, <- Ht2, orb_false_l, asks_dump. split; [case_bool_decide; by case_decide|].
  destruct Hq3 as (? & ? & ? & ->). by split_and!.
Qed.

Definition typing : kernel :=
  (loaded 0 0)<|k_uart := 1|><|k_serialin := bytes "lz" ++ [8; 115; 13; 120; 16]|>.

Lemma uartintr_edits_witness :
  exists s', uartintr typing = procdump s' /\ tty_of s'.(k_input) = mktty [108; 115; 10] [120].
Proof.
  destruct (uartintr_edits 0 None typing) as (s' & E & _ & _ & _ & Ht).
  - exact (loaded_running 0 0).
  - by vm_compute.
  - reflexivity.
  - split_and!; [reflexivity|..]; try (vm_compute; split; congruence); try (vm_compute; congruence).
    apply not_elem_of_nil.
  - reflexivity.
  - exists s'. split; [exact E|]. rewrite Ht. vm_compute. reflexivity.
Defined.

(** ** consoleread takes a line

    What a read of [n] (of [target]) characters takes from the ready bytes, and
    what it leaves; nothing where it would have to wait. *)
Fixpoint take_line (n target : nat) (l : list Z) : option (list Z * list Z) :=
  match n, l with
  | O, _ => Some ([], l)
  | S _, [] => None
  | S n', c :: l' =>
      if c =? ctl_D then Some ([], if bool_decide (n < target)%nat then l else l')
      else if c =? newline then Some ([c], l')
      else (fun '(cs, r) => (c :: cs, r)) <$> take_line n' target l'
  end.

Definition advance (b : inputbuf) : inputbuf := b<|in_r := u32 (b.(in_r) + 1)|>.

Lemma advance_tty b :
  input_ok b -> ready_len b <> 0 ->
  input_ok (advance b) /\ t_ready (tty_of b) = in_at b.(in_r) b :: t_ready (tty_of (advance b)) /\
  t_edit (tty_of (advance b)) = t_edit (tty_of b).
Proof.
  intros Hok Hne. pose proof (len_range b) as [Hr0 _]. pose proof Hok as (H1 & H2 & H3 & H4 & H5 & H6).
  assert (Hlen : ready_len (advance b) = ready_len b - 1).
  { unfold ready_len, advance, is_u32, INPUT_BUF in *. cbn [in_w in_r setf set_in_r].
    rewrite u32_succ_cases, !u32_sub_cases in * by (rewrite ?u32_succ_cases; blia). blia. }
  split_and!; [| |done].
  - unfold input_ok. rewrite Hlen. change (edit_len (advance b)) with (edit_len b).
    split_and!; [done|apply u32_range|done|done|lia|done].
  - unfold tty_of at 1 2. cbn [t_ready]. rewrite Hlen, ring_cons by lia. f_equal.
    cbn [advance in_buf in_r setf set_in_r]. by rewrite (ring_u32 INPUT_BUF 33554432).
Qed.

Lemma advance_back b : input_ok b -> (advance b)<|in_r := u32 (u32 (b.(in_r) + 1) - 1)|> = b.
Proof.
  intros (_ & Hr & _). unfold advance. cbn.
  replace (u32 (u32 (in_r b + 1) - 1)) with (in_r b); [done|].
  unfold Z.sub. rewrite u32_idemp_add_l. symmetry. replace (in_r b + 1 + - (1)) with (in_r b) by lia.
  apply u32_small, Hr.
Qed.

Lemma some_ready b : input_ok b -> (b.(in_r) =? b.(in_w)) = (ready_len b =? 0).
Proof.
  intros (_ & Hr & Hw & _). unfold ready_len, is_u32 in *. rewrite u32_sub_cases by done. blia.
Qed.

Lemma consoleread_loop_ok `{!Patience} target n : forall s cs r,
  input_ok s.(k_input) -> take_line n target (t_ready (tty_of s.(k_input))) = Some (cs, r) ->
  exists b, consoleread_loop n target s = Ret (true, cs) (s<|k_input := b|>) /\ input_ok b /\
    tty_of b = mktty r (t_edit (tty_of s.(k_input))).
Proof.
  induction n as [|n IH]; intros s cs r Hok Htake; cbn [consoleread_loop].
  - cbn in Htake. injection Htake as <- <-. by exists (k_input s).
  - assert (Hne : ready_len (k_input s) <> 0).
    { intros Hz. cbn in Htake. by rewrite Hz in Htake. }
    destruct (advance_tty _ Hok Hne) as (Hok' & Hready & Hedit).
    kret_by (cbn [input_wait]; kret; by rewrite some_ready, (proj2 (Z.eqb_neq _ _) Hne)). cbn [negb]. kret. kret.
    change (upd_input _ s) with (s<|k_input := advance (k_input s)|>).
    rewrite Hready in Htake. cbn [take_line] in Htake.
    destruct (in_at (in_r (k_input s)) (k_input s) =? ctl_D).
    + injection Htake as <- <-. case_bool_decide.
      * kret. exists (k_input s). split_and!; [|done|].
        -- unfold ret. f_equal. change (upd_input _ _) with
             (s<|k_input := (advance (k_input s))<|in_r := u32 (u32 (in_r (k_input s) + 1) - 1)|>|>).
           by rewrite advance_back.
        -- exact (f_equal (fun l => mktty l (t_edit (tty_of (k_input s)))) Hready).
      * kret. exists (advance (k_input s)). split_and!; [done..|]. by rewrite <- Hedit.
    + destruct (_ =? newline).
      * injection Htake as <- <-. exists (advance (k_input s)). split_and!; [done..|]. by rewrite <- Hedit.
      * destruct (take_line n target _) as [[cs' r']|] eqn:Etake; [|done]. cbn in Htake. injection Htake as <- <-.
        destruct (IH (s<|k_input := advance (k_input s)|>) cs' r') as (b & E & Hb & Hbt); [exact Hok'|exact Etake|].
        kret_by exact E. exists b. split_and!; [done..|]. rewrite Hbt. cbn [k_input setf set_k_input].
        by rewrite <- Hedit.
Qed.

(** An inode the process holds locked: unlocking and locking it again. *)
Definition holds_inode (ip : nat) (pid : Z) (s : kernel) : Prop :=
  slock_of (SlInode ip) s = mksleeplock 1 pid /\
  exists x, s.(k_inodes) !! ip = Some x /\ 1 <= x.(ip_ref) /\ x.(ip_valid) <> 0.

Section Relock.
Context {P : Patience} {D : BlockDriver} (i p : nat) (pid : Z) (ip : nat).

Lemma iunlock_ok s :
  thr i p pid ∅ s -> holds_inode ip pid s ->
  exists s', iunlock (Some ip) s = Ret tt s' /\
    calm (s<|k_slocks ::= <[SlInode ip := mksleeplock 0 0]>|>) s' /\ thr i p pid ∅ s'.
Proof.
  intros Ht (Hsl & x & Hx & Href & _). unfold iunlock.
  destruct (holdingsleep_ex i p pid ∅ (SlInode ip) s Ht (not_elem_of_empty _)) as (s1 & E1 & Hc1 & Ht1).
  kret_by exact E1. rewrite Hsl. cbn [sl_locked sl_pid]. rewrite Z.eqb_refl.
  assert (Hx1 : k_inodes s1 !! ip = Some x) by (by destruct Hc1 as (? & ? & ? & ? & _ & ->)).
  kret_by (unfold inode_at; kret; by rewrite Hx1). rewrite (proj2 (Z.ltb_ge _ _)) by lia. cbn [truth Z.eqb andb negb orb].
  destruct (releasesleep_ex i p pid ∅ (SlInode ip) s1 Ht1 (not_elem_of_empty _) (not_elem_of_empty _))
    as (s2 & E2 & Hc2 & Ht2).
  exists s2. split_and!; [done| |done]. by calm_by Hc1 Hc2.
Qed.

Lemma ilock_ok s x :
  thr i p pid ∅ s -> (slock_of (SlInode ip) s).(sl_locked) = 0 ->
  s.(k_inodes) !! ip = Some x -> 1 <= x.(ip_ref) -> x.(ip_valid) <> 0 ->
  exists s', ilock (Some ip) s = Ret tt s' /\
    calm (s<|k_slocks ::= <[SlInode ip := mksleeplock 1 pid]>|>) s' /\ thr i p pid ∅ s'.
Proof.
  intros Ht Hsl Hx Href Hv. unfold ilock. kret_by (unfold inode_at; kret; by rewrite Hx).
  rewrite (proj2 (Z.ltb_ge _ _)) by lia.
  destruct (acquiresleep_ex i p pid ∅ (SlInode ip) s Ht (not_elem_of_empty _) Hsl) as (s1 & E1 & Hc1 & Ht1).
  kret_by exact E1.
  assert (Hx1 : k_inodes s1 !! ip = Some x) by (by destruct Hc1 as (? & ? & ? & ? & _ & ->)).
  kret_by (unfold inode_at; kret; by rewrite Hx1). rewrite (proj2 (Z.eqb_neq _ _) Hv). by exists s1.
Qed.
End Relock.

(** reading the console.  A process that holds the console's inode and asks
    for [n] characters gets the ready bytes up to and including the first
    newline, or up to an end-of-file character, or [n] of them; an end-of-file
    character is consumed only by a read that returns nothing else, so that it
    makes exactly one read return 0.  The rest stays ready, the line being
    edited is not touched, and the inode is locked again. *)
Theorem consoleread_line {P : Patience} {D : BlockDriver} (i p ip : nat) (pid n : Z) (cs r : list Z) (s : kernel) :
  thr i p pid ∅ s -> holds_inode ip pid s -> input_ok s.(k_input) ->
  take_line (Z.to_nat n) (Z.to_nat n) (t_ready (tty_of s.(k_input))) = Some (cs, r) ->
  exists s', consoleread ip n s = Ret (Z.of_nat (length cs), cs) s' /\ thr i p pid ∅ s' /\
    holds_inode ip pid s' /\ input_ok s'.(k_input) /\
    tty_of s'.(k_input) = mktty r (t_edit (tty_of s.(k_input))).
Proof.
  intros Ht Hhold Hin Htake. unfold consoleread. pose proof Hhold as (_ & x & Hx & Href & Hv).
  destruct (iunlock_ok i p pid ip s Ht Hhold) as (s1 & E1 & Hc1 & Ht1). kret_by exact E1.
  destruct (acquire_thr i p pid ∅ LkCons s1 Ht1 (not_elem_of_empty _)) as (s2 & E2 & Hc2 & Ht2). kret_by exact E2.
  assert (Hc12 : calm (s<|k_slocks ::= <[SlInode ip := mksleeplock 0 0]>|>) s2) by (by transitivity s1).
  assert (Hi2 : k_input s2 = k_input s) by (by destruct Hc12 as (? & ? & ? & ? & _ & ->)).
  rewrite <- Hi2 in Hin, Htake |- *.
  destruct (consoleread_loop_ok (Z.to_nat n) (Z.to_nat n) s2 cs r Hin Htake) as (b & Eb & Hb & Hbt). kret_by exact Eb.
  set (s3 := s2<|k_input := b|>). assert (Ht3 : thr i p pid ({[LkCons]} ∪ ∅) s3) by tframe Ht2.
  destruct (release_thr i p pid ∅ LkCons s3 Ht3 (not_elem_of_empty _)) as (s4 & E4 & Hc4 & Ht4). kret_by exact E4.
  assert (Hc : calm (s<|k_slocks ::= <[SlInode ip := mksleeplock 0 0]>|><|k_input := b|>) s4).
  { unfold s3 in Hc4. clear -Hc12 Hc4. by calm_by Hc12 Hc4. }
  destruct (ilock_ok i p pid ip s4 x Ht4) as (s5 & E5 & Hc5 & Ht5); [| |done..|].
  { rewrite (slock_of_calm _ _ _ Hc). unfold slock_of. cbn. by rewrite lookup_insert_eq. }
  { by destruct Hc as (? & ? & ? & ? & _ & ->). }
  kret_by exact E5. exists s5. split_and!; [done|done|..].
  - split; [rewrite (slock_of_calm _ _ _ Hc5); apply slock_of_set|]. exists x. split; [|done].
    destruct Hc as (? & ? & ? & ? & _ & ->). by destruct Hc5 as (? & ? & ? & ? & _ & ->).
  - destruct Hc as (? & ? & ? & ? & _ & ->). by destruct Hc5 as (? & ? & ? & ? & _ & ->).
  - destruct Hc as (? & ? & ? & ? & _ & ->). by destruct Hc5 as (? & ? & ? & ? & _ & ->).
Qed.

(** Two lines are ready; the first is read. *)
Definition two_lines : kernel :=
  pipe_machine<|k_input := mkinput (<[0%nat := 10]> (<[1%nat := 98]> (<[127%nat := 97]> (replicate 128 0))))
                             (2 ^ 32 - 1) 3 3|>
    <|k_slocks := {[SlInode 5 := mksleeplock 1 0]}|>
    <|k_inodes := replicate NINODE (zero_inode<|ip_ref := 1|><|ip_valid := 1|>)|>.

#[local] Instance no_wait : Patience := 0%nat.

Lemma consoleread_line_witness :
  exists s', consoleread 5 100 two_lines = Ret (2, [97; 10]) s' /\
    tty_of s'.(k_input) = mktty [98; 0] [].
Proof.
  destruct (consoleread_line 0 0 5 0 100 [97; 10] [98; 0] two_lines) as (s' & E & _ & _ & _ & Ht).
  - tframe pipe_machine_thr.
  - split; [reflexivity|]. eexists. split; [reflexivity|]. vm_compute. split; congruence.
  - split_and!; [reflexivity|..]; try (vm_compute; split; congruence); try (vm_compute; congruence).
    apply not_elem_of_nil.
  - vm_compute. reflexivity.
  - exists s'. split; [exact E|exact Ht].
Defined.
