(* ===== verification/Trap.v ===== *)
(** * System call dispatch and traps: syscall of syscall.c, trap.c

    The whole kernel: the console is the device, and [trap] is what runs when
    the processor enters the kernel. *)

From S2P Require Import Prelude State Io Spinlock Segments Thread CString Cprintf Kalloc Apic Layout Vm Sched Sleeplock.
From S2P Require Import Disk Bio Log Fs Pipe File Proc Syscall Sysfile Kbd Console.

Section Code.
Context {H : Hardware} {P : Patience} {D : BlockDriver} {I : Image}.

(** ** The table syscalls[], by the numbers of syscall.h *)
Definition syscalls (num : Z) : option (K Z) :=
  match num with
  | 1 => Some sys_fork | 2 => Some sys_exit | 3 => Some sys_wait | 4 => Some sys_pipe
  | 5 => Some sys_read | 6 => Some sys_kill | 7 => Some sys_exec | 8 => Some sys_fstat
  | 9 => Some sys_chdir | 10 => Some sys_dup | 11 => Some sys_getpid | 12 => Some sys_sbrk
  | 13 => Some sys_sleep | 14 => Some sys_uptime | 15 => Some sys_open | 16 => Some sys_write
  | 17 => Some sys_mknod | 18 => Some sys_unlink | 19 => Some sys_link | 20 => Some sys_mkdir
  | 21 => Some sys_close | 22 => Some sys_getpinfo | 23 => Some sys_settickets
  | _ => None
  end.

Definition set_eax (cur : nat) (v : Z) : K unit :=
  set_proc cur (fun p => p<|p_frame ::= fun tf => tf<|tf_eax := u32 v|>|>).
Definition syscall : K unit :=
  let! cur := curproc in
  let! p := proc_at cur in
  let num := s32 p.(p_frame).(tf_eax) in
  match syscalls num with
  | Some f =>
      let! r := f in
      set_eax cur r
  | None =>
      cprintln "%d %s: unknown sys call %d" [VInt p.(p_pid); VStr p.(p_name); VInt num] ;;;
      set_eax cur (-1)
  end.

(** ** trap.c *)

(** [if(myproc()->killed) exit();] *)
Definition exit_if_killed : K unit :=
  let! k := myproc_killed in
  if! truth k then! exit.
(** [myproc() && myproc()->killed && (tf->cs&3) == DPL_USER] *)
Definition killed_in_user (tf : trapframe) : K bool :=
  let! q := myproc in
  match q with
  | None => ret false
  | Some _ => let! k := myproc_killed in ret (truth k && (Z.land tf.(tf_cs) 3 =? DPL_USER))
  end.

Definition timer_tick : K unit :=
  let! c := cpuid in
  if! bool_decide (c = 0%nat) then!
    (acquire LkTicks ;;;
     modify (fun s => s<|k_ticks := u32 (s.(k_ticks) + 1)|>) ;;;
     wakeup ChTicks ;;;
     release LkTicks).

Definition unexpected (tf : trapframe) : K unit :=
  let! q := myproc in
  match q with
  | Some _ =>
      if Z.land tf.(tf_cs) 3 =? 0 then
        let! c := cpuid in
        let! s := get in
        cprintln "unexpected trap %d from cpu %d eip %x (cr2=0x%x)"
          [VInt tf.(tf_trapno); VInt (Z.of_nat c); VInt tf.(tf_eip); VInt s.(k_cr2)] ;;;
        panic "trap"
      else
        let! cur := curproc in
        let! p := proc_at cur in
        let! c := cpuid in
        let! s := get in
        cprintln "pid %d %s: trap %d err %d on cpu %d eip 0x%x addr 0x%x--kill proc"
          [VInt p.(p_pid); VStr p.(p_name); VInt tf.(tf_trapno); VInt tf.(tf_err);
           VInt (Z.of_nat c); VInt tf.(tf_eip); VInt s.(k_cr2)] ;;;
        let! cur := curproc in
        set_proc cur (fun p => p<|p_killed := 1|>)
  | None =>
      let! c := cpuid in
      let! s := get in
      cprintln "unexpected trap %d from cpu %d eip %x (cr2=0x%x)"
        [VInt tf.(tf_trapno); VInt (Z.of_nat c); VInt tf.(tf_eip); VInt s.(k_cr2)] ;;;
      panic "trap"
  end.

(** The switch of trap. *)
Definition dispatch (tf : trapframe) : K unit :=
  let no := tf.(tf_trapno) in
  if no =? T_IRQ0 + IRQ_TIMER then timer_tick ;;; lapiceoi
  else if no =? T_IRQ0 + IRQ_IDE then disk_intr ;;; lapiceoi
  else if no =? T_IRQ0 + IRQ_IDE + 1 then ret tt
  else if no =? T_IRQ0 + IRQ_KBD then kbdintr ;;; lapiceoi
  else if no =? T_IRQ0 + IRQ_COM1 then uartintr ;;; lapiceoi
  else if (no =? T_IRQ0 + 7) || (no =? T_IRQ0 + IRQ_SPURIOUS) then
    let! c := cpuid in
    cprintln "cpu%d: spurious interrupt at %x:%x" [VInt (Z.of_nat c); VInt tf.(tf_cs); VInt tf.(tf_eip)] ;;;
    lapiceoi
  else unexpected tf.

(** [myproc() && myproc()->state == RUNNING && tf->trapno == T_IRQ0+IRQ_TIMER] *)
Definition must_yield (tf : trapframe) : K bool :=
  let! q := myproc in
  match q with
  | None => ret false
  | Some i =>
      let! p := proc_at i in
      ret (bool_decide (p.(p_state) = RUNNING) && (tf.(tf_trapno) =? T_IRQ0 + IRQ_TIMER))
  end.

Definition trap (tf : trapframe) : K unit :=
  if tf.(tf_trapno) =? T_SYSCALL then
    exit_if_killed ;;;
    let! cur := curproc in
    set_proc cur (fun p => p<|p_frame := tf|>) ;;;
    syscall ;;;
    exit_if_killed
  else
    dispatch tf ;;;
    let! k := killed_in_user tf in
    (if! k then! exit) ;;;
    let! y := must_yield tf in
    (if! y then! yield) ;;;
    let! k := killed_in_user tf in
    if! k then! exit.
End Code.
