(* ===== verification/Main.v ===== *)
(** * Starting the machine: main.c

    The first processor sets up the kernel and starts the others one by one; each
    takes its stack and its entry point from three words below the code it starts
    in, and says when it is up.  A wait for another processor is a point where
    the others run. *)

From S2P Require Import Prelude State Io Spinlock Segments Thread CString Cprintf Kalloc Apic Mp Layout Vm Paging Kvm Sched Sleeplock.
From S2P Require Import Disk Bio Log Fs Pipe File Proc Syscall Sysfile Kbd Console Trap.

(** What the linker provides: the image of entryother.S and the addresses of
    mpenter, of entrypgdir and of the entry stubs of vectors.S. *)
Class Linked := {
  entryother_start : Z;
  entryother_size : Z;
  mpenter_sym : Z;
  entrypgdir_sym : Z;
  vectors_tab : nat -> Z
}.

(** ** The boot page directory, with pages of four megabytes *)
Definition PTE_PS : Z := 0x080.
Definition PDXSHIFT : Z := 22.
Definition entrypgdir (d : Z) : Z :=
  if (d =? 0) || (d =? Z.shiftr KERNBASE PDXSHIFT) then Z.lor (Z.lor (Z.lor 0 PTE_P) PTE_W) PTE_PS else 0.

Section Code.
Context {H : Hardware} {N : Polls} {P : Patience} {D : BlockDriver} {I : Image} {L : Linked}.

(** [while(c->started == 0);] *)
Fixpoint wait_started (fuel : nat) (c : nat) : K unit :=
  match fuel with
  | O => nofuel
  | S fuel' =>
      let! r := cpu_at c in
      if r.(c_started) =? 0 then swtch ;;; wait_started fuel' c else ret tt
  end.

Definition code : Z := P2V 0x7000.
(** The body of the loop of startothers. *)
Definition start_cpu (c : nat) : K unit :=
  let! stack := kalloc in
  wr32 (code - 4) (stack + KSTACKSIZE) ;;;
  wr32 (code - 8) mpenter_sym ;;;
  wr32 (code - 12) (V2P entrypgdir_sym) ;;;
  let! r := cpu_at c in
  lapicstartap r.(c_apicid) (V2P code) ;;;
  wait_started polls c.
Fixpoint startothers_loop (n : nat) (c : nat) : K unit :=
  match n with
  | O => ret tt
  | S n' =>
      let! me := mycpu in
      (if! negb (bool_decide (c = me)) then! start_cpu c) ;;;
      startothers_loop n' (S c)
  end.
Definition startothers : K unit :=
  modify (fun s => s<|k_mem ::= fun m => memmove m code entryother_start entryother_size|>) ;;;
  let! s := get in
  startothers_loop (length s.(k_cpus)) 0.

(** [fuel] bounds the rounds of the scheduler, which does not return. *)
Definition mpmain (fuel : nat) : K unit :=
  let! c2 := cpuid in
  let! c1 := cpuid in
  cprintln "cpu%d: starting %d" [VInt (Z.of_nat c1); VInt (Z.of_nat c2)] ;;;
  idtinit ;;;
  let! c := mycpu in
  modify (upd_cpu c (fun r => r<|c_started := 1|>)) ;;;
  scheduler fuel.

Definition mpenter (fuel : nat) : K unit :=
  switchkvm ;;;
  seginit ;;;
  lapicinit ;;;
  mpmain fuel.

(** The disk driver linked into the kernel comes with its initialisation. *)
Definition main (ideinit : K unit) (fuel : nat) : K unit :=
  early_memory ;;;
  mpinit ;;;
  lapicinit ;;;
  seginit ;;;
  picinit ;;;
  ioapicinit ;;;
  consoleinit ;;;
  uartinit ;;;
  pinit ;;;
  tvinit vectors_tab ;;;
  binit ;;;
  fileinit ;;;
  ideinit ;;;
  startothers ;;;
  kinit2 (P2V (4 * 1024 * 1024)) (P2V PHYSTOP) ;;;
  userinit ;;;
  mpmain fuel.
End Code.

(** ** Starting the other processors *)

(** The stores to device registers, newest first. *)
Fixpoint stores (h : list ioop) : list (Z * Z) :=
  match h with
  | [] => []
  | Store a v :: h' => (a, v) :: stores h'
  | _ :: h' => stores h'
  end.
(** The sequence that starts a processor at the page of [addr], newest first. *)
Definition startup (lapic apicid addr : Z) : list (Z * Z) :=
  let hi := (lapic + 4 * ICRHI, u32 (Z.shiftl apicid 24)) in
  let lo v := (lapic + 4 * ICRLO, v) in
  let sipi := lo (Z.lor STARTUP (Z.shiftr addr 12)) in
  [sipi; hi; sipi; hi; lo (Z.lor INIT LEVEL); lo (Z.lor (Z.lor INIT LEVEL) ASSERT); hi].

Section Start.
Context {H : Hardware} {N : Polls} {L : Linked}.

Lemma lapicw_ok index v s :
  exists h, lapicw index v s = Ret tt (s<|k_io := h|>) /\ stores h = (s.(k_lapic) + 4 * index, u32 v) :: stores s.(k_io).
Proof.
  unfold lapicw, lapic_at. kret. kret_by apply mmio_store_spec. kret_by (kret; apply mmio_load_spec).
  eexists. split; [reflexivity|]. done.
Qed.

(** The warm reset vector. *)
Definition wrv : Z := P2V 0x467.

Lemma lapicstartap_ok apicid s :
  exists h m, lapicstartap apicid (V2P code) s = Ret tt (s<|k_mem := m|><|k_io := h|>) /\
    stores h = startup s.(k_lapic) apicid (V2P code) ++ stores s.(k_io) /\
    forall x, x < wrv \/ wrv + 4 <= x -> m x = s.(k_mem) x.
Proof.
  unfold lapicstartap. kret_by apply outb_spec. kret_by apply outb_spec. cbv zeta. kret. kret.
  set (s1 := _<|k_mem ::= _|>).
  do 6 (match goal with |- exists h m, bind (lapicw ?i ?v) _ ?s' = _ /\ _ =>
    let h := fresh "h" in let E := fresh "E" in let Hs := fresh "S" in
    destruct (lapicw_ok i v s') as (h & E & Hs); erewrite (bind_ret _ _ _ _ _ E); cbn beta end).
  match goal with |- exists h m, lapicw ?i ?v ?s' = _ /\ _ => destruct (lapicw_ok i v s') as (h' & E' & S') end.
  exists h', s1.(k_mem). split_and!.
  - exact E'.
  - refine (eq_trans S' (f_equal (cons _) (eq_trans S4 (f_equal (cons _) (eq_trans S3 (f_equal (cons _) (eq_trans S2
      (f_equal (cons _) (eq_trans S1 (f_equal (cons _) (eq_trans S0 (f_equal (cons _) S)))))))))))).
  - intros x Hx. cbn. change (P2V (Z.lor (Z.shiftl 0x40 4) 0x67)) with wrv. unfold wrv in *. 
    rewrite !(proj2 (Z.eqb_neq _ _)) by lia. done.
Qed.

(** The first processor [b] before the other processors and the allocator's
    lock are in use, with the free pages [l]. *)
Record boot_state (b : nat) (l : list Z) (s : kernel) : Prop := {
  bs_me : me s = Some b;
  bs_if : s.(k_if) = false;
  bs_lock : s.(k_use_lock) = 0;
  bs_free : free_rep s l;
  bs_end : KERNLINK <= s.(k_end)
}.
(** Processor [c] finds the top of the page [stack] and its entry point where
    entryother.S looks for them, and has been told to start there. *)
Definition handed_to (c : nat) (stack : Z) (s : kernel) : Prop :=
  exists r newer older, s.(k_cpus) !! c = Some r /\ page_ok s.(k_end) stack /\
    load32 s.(k_mem) (code - 4) = stack + KSTACKSIZE /\
    load32 s.(k_mem) (code - 8) = u32 mpenter_sym /\ load32 s.(k_mem) (code - 12) = V2P entrypgdir_sym /\
    stores s.(k_io) = newer ++ startup s.(k_lapic) r.(c_apicid) (V2P code) ++ older.
(** The number of processors before [c], without the first one. *)
Definition rank (b c : nat) : nat := if decide (b < c)%nat then pred c else c.
(** What holds whenever the first processor waits, when the pages [l0] were free
    at the start: the one it waits for has the page of its rank, and only the
    pages after that one are free. *)
Definition waiting (b : nat) (l0 : list Z) (s : kernel) : Prop :=
  exists c r stack, c <> b /\ s.(k_cpus) !! c = Some r /\ r.(c_started) = 0 /\ l0 !! rank b c = Some stack /\
    free_rep s (drop (S (rank b c)) l0) /\ handed_to c stack s.
(** What the others do meanwhile: they neither use the allocator nor the words
    at the start-up code, and a processor that has started stays so. *)
Record others_ran (s s' : kernel) : Prop := {
  or_me : s'.(k_apicid) = s.(k_apicid) /\ s'.(k_if) = s.(k_if) /\ s'.(k_lapic) = s.(k_lapic);
  or_alloc : s'.(k_use_lock) = s.(k_use_lock) /\ s'.(k_end) = s.(k_end);
  or_free l : free_rep s l -> free_rep s' l;
  or_words x : code - 12 <= x < code -> s'.(k_mem) x = s.(k_mem) x;
  or_cpus : c_apicid <$> s'.(k_cpus) = c_apicid <$> s.(k_cpus);
  or_started c r r' : s.(k_cpus) !! c = Some r -> s'.(k_cpus) !! c = Some r' -> r.(c_started) <> 0 -> r'.(c_started) <> 0;
  or_io : exists h, s'.(k_io) = h ++ s.(k_io)
}.
(** The processors before [c] are up. *)
Definition started_below (b c : nat) (s : kernel) : Prop :=
  forall c' r, (c' < c)%nat -> c' <> b -> s.(k_cpus) !! c' = Some r -> r.(c_started) <> 0.

Lemma stores_app h h' : stores (h ++ h') = stores h ++ stores h'.
Proof. induction h as [|[] h IH]; cbn; rewrite ?IH; done. Qed.

Lemma others_lookup s s' c r' :
  others_ran s s' -> s'.(k_cpus) !! c = Some r' -> exists r, s.(k_cpus) !! c = Some r /\ r.(c_apicid) = r'.(c_apicid).
Proof.
  intros Ho Hr. pose proof (f_equal (.!! c) (or_cpus _ _ Ho)) as E. rewrite !list_lookup_fmap, Hr in E.
  destruct (s.(k_cpus) !! c) as [r|]; [|done]. injection E as E. by exists r.
Qed.

Lemma others_length s s' : others_ran s s' -> length s'.(k_cpus) = length s.(k_cpus).
Proof. intros Ho. pose proof (f_equal length (or_cpus _ _ Ho)) as E. by rewrite !length_fmap in E. Qed.

Lemma me_others s s' : others_ran s s' -> me s' = me s.
Proof.
  intros Ho. destruct (or_me _ _ Ho) as (Ha & _). unfold me. rewrite Ha.
  assert (Hf : forall l l' : list cpu, c_apicid <$> l' = c_apicid <$> l ->
    fst <$> list_find (fun c => c.(c_apicid) = s.(k_apicid)) l' = fst <$> list_find (fun c => c.(c_apicid) = s.(k_apicid)) l).
  { induction l as [|x l IH]; intros [|x' l'] E; try done. injection E as E E'. cbn [list_find].
    destruct (decide (c_apicid x' = k_apicid s)), (decide (c_apicid x = k_apicid s)); [done|congruence..|]. specialize (IH l' E').
    destruct (list_find _ l') as [[]|], (list_find _ l) as [[]|]; cbn in *; naive_solver. }
  apply Hf, Ho.
Qed.

Lemma boot_others b l s s' : others_ran s s' -> boot_state b l s -> boot_state b l s'.
Proof.
  intros Ho [H1 H2 H3 H4 H5]. destruct (or_me _ _ Ho) as (_ & Hi & _), (or_alloc _ _ Ho) as (Hu & He).
  split; [by rewrite (me_others _ _ Ho)|congruence|congruence|by apply Ho|by rewrite He].
Qed.

Lemma started_others b c s s' : others_ran s s' -> started_below b c s -> started_below b c s'.
Proof.
  intros Ho Hs c' r' Hc Hb Hr. destruct (others_lookup _ _ _ _ Ho Hr) as (r & Hr0 & _).
  eapply (or_started _ _ Ho); [done|done|by eapply Hs].
Qed.

Lemma handed_others c stack s s' : others_ran s s' -> handed_to c stack s -> handed_to c stack s'.
Proof.
  intros Ho (r & newer & older & Hr & Hp & H4 & H8 & H12 & Hio).
  destruct (or_me _ _ Ho) as (_ & _ & Hlap), (or_alloc _ _ Ho) as (_ & He), (or_io _ _ Ho) as (h & Hh).
  assert (Hw : forall a, code - 12 <= a <= code - 4 -> load32 s'.(k_mem) a = load32 s.(k_mem) a).
  { intros a Ha. apply load32_ext. intros x Hx. apply (or_words _ _ Ho). lia. }
  assert (is_Some (s'.(k_cpus) !! c)) as [r' Hr'].
  { apply lookup_lt_is_Some. rewrite (others_length _ _ Ho). by eapply lookup_lt_Some. }
  destruct (others_lookup _ _ _ _ Ho Hr') as (r0 & Hr0 & Ea). rewrite Hr in Hr0. injection Hr0 as <-.
  exists r', (stores h ++ newer), older. rewrite !Hw, He, Hlap, Hh, stores_app, Hio, <- Ea, <- app_assoc by lia.
  done.
Qed.

Lemma wait_started_ok b c l0 stack fuel : forall s,
  boot_state b (drop (S (rank b c)) l0) s -> started_below b c s -> c <> b -> l0 !! rank b c = Some stack -> handed_to c stack s ->
  wp (waiting b l0) others_ran (wait_started fuel c s) (fun _ s' =>
    boot_state b (drop (S (rank b c)) l0) s' /\ started_below b (S c) s' /\ length s'.(k_cpus) = length s.(k_cpus)).
Proof.
  induction fuel as [|fuel IH]; intros s Hb Hs Hc Hst Hh; [done|]. pose proof Hh as (r & _ & _ & Hr & _).
  cbn [wait_started]. kret_by apply (cpu_at_spec c r s Hr). destruct (Z.eqb_spec r.(c_started) 0) as [H0|H0].
  - split; [exists c, r, stack; split_and!; [done|done|done|done|apply Hb|done]|]. intros s' Ho.
    eapply wp_mono; [apply IH; [by eapply boot_others|by eapply started_others|done|done|by eapply handed_others]|].
    intros _ s'' (H1 & H2 & H3). by rewrite H3, (others_length _ _ Ho).
  - split_and!; [done| |done]. intros c' r' Hlt Hne Hr'. destruct (decide (c' = c)) as [->|]; [by simplify_eq|].
    eapply Hs; [|done|done]. lia.
Qed.

(** The memory of the free pages is above the start-up code. *)
Lemma boot_store b l s m h :
  boot_state b l s -> (forall x, KERNLINK <= x -> m x = s.(k_mem) x) -> boot_state b l (s<|k_mem := m|><|k_io := h|>).
Proof.
  intros [H1 H2 H3 H4 H5] Hm. split; [done|done|done| |done]. apply (free_rep_mem s); [done..|].
  intros p x Hp (_ & Hend & _) Hx. apply Hm. unfold in_page in Hx. lia.
Qed.

Lemma start_cpu_ok b c p l0 s r :
  boot_state b (drop (rank b c) l0) s -> l0 !! rank b c = Some p -> started_below b c s -> c <> b -> s.(k_cpus) !! c = Some r ->
  wp (waiting b l0) others_ran (start_cpu c s) (fun _ s' =>
    boot_state b (drop (S (rank b c)) l0) s' /\ started_below b (S c) s' /\ length s'.(k_cpus) = length s.(k_cpus)).
Proof.
  intros Hb Hp0 Hs Hc Hr. rewrite (drop_S _ p) in Hb by done. set (l := drop (S (rank b c)) l0) in *.
  pose proof Hb as [H1 H2 H3 H4 H5]. pose proof H4 as [Hl Hnd].
  pose proof (free_list_page _ _ _ _ p Hl ltac:(left)) as Hp. apply list.NoDup_cons in Hnd as [Hpl Hnd].
  assert (E : kalloc s = Ret p (s<|k_freelist := hd 0 l|>)).
  { rewrite (kalloc_spec 0 boot_cpu s (p :: l) H4 (or_introl H3)). unfold kmem_settle.
    change (k_use_lock (s<|k_freelist := hd 0 (tail (p :: l))|>)) with (k_use_lock s). by rewrite (truth_false _ H3). }
  set (s1 := s<|k_freelist := hd 0 l|>) in *.
  assert (Hb1 : boot_state b l s1) by (split; [done|done|done|apply (free_rep_pop s (p :: l) H4)|done]).
  set (m := store32 (store32 (store32 s.(k_mem) (code - 4) (p + KSTACKSIZE)) (code - 8) mpenter_sym) (code - 12) (V2P entrypgdir_sym)).
  set (s2 := s1<|k_mem := m|>).
  destruct (lapicstartap_ok r.(c_apicid) s2) as (h & m' & E2 & Hio & Hm').
  assert (Hm : forall x, KERNLINK <= x -> m x = s.(k_mem) x).
  { intros x Hx. change code with 0x80007000 in *. unfold m, KERNLINK, KERNBASE, EXTMEM in *. change code with 0x80007000.
    rewrite !store32_other by lia. done. }
  set (s3 := s2<|k_mem := m'|><|k_io := h|>) in *.
  assert (Hb3 : boot_state b l s3).
  { change s3 with (s1<|k_mem := m'|><|k_io := h|>). apply boot_store; [done|]. intros x Hx.
    rewrite Hm' by (change wrv with 0x80000467; unfold KERNLINK, KERNBASE, EXTMEM in Hx; lia). by apply Hm. }
  unfold start_cpu. kret_by exact E. unfold wr32. kret. kret. kret.
  kret_by exact (cpu_at_spec c r s2 Hr). kret_by exact E2.
  eapply wp_mono; [apply (wait_started_ok b c l0 p); [done|done|done|done|]|done].
  exists r, [], (stores s.(k_io)). split_and!; [done|done|..|exact Hio];
    (etransitivity; [apply load32_ext; intros x Hx; apply Hm'; change wrv with 0x80000467; change code with 0x80007000 in *; lia|]);
    change (k_mem s2) with m; unfold m; change code with 0x80007000; rewrite ?store32_disjoint by lia; rewrite store32_same; [|done|by apply u32_small, u32_range].
  destruct Hp as (_ & _ & Hp). apply u32_small. unfold KERNBASE, PHYSTOP, KSTACKSIZE in *. lia.
Qed.

Lemma rank_S b c : rank b (S c) = if decide (c = b) then rank b c else S (rank b c).
Proof. unfold rank. repeat case_decide; lia. Qed.

Lemma rank_inj b c c' : c <> b -> c' <> b -> rank b c = rank b c' -> c = c'.
Proof. unfold rank. repeat case_decide; lia. Qed.

Lemma startothers_loop_ok b l0 n : forall c s,
  boot_state b (drop (rank b c) l0) s -> started_below b c s -> (c + n)%nat = length s.(k_cpus) -> (c + n <= length l0)%nat ->
  wp (waiting b l0) others_ran (startothers_loop n c s) (fun _ s' =>
    boot_state b (drop (rank b (length s.(k_cpus))) l0) s' /\ started_below b (length s.(k_cpus)) s').
Proof.
  induction n as [|n IH]; intros c s Hb Hs Hlen Hl; cbn [startothers_loop].
  { by replace (length (k_cpus s)) with c by lia. }
  kret_by exact (mycpu_off b s (bs_if _ _ _ Hb) (bs_me _ _ _ Hb)). apply wp_bind. case_bool_decide as Hc; cbn [negb].
  - apply (IH (S c) s); [by rewrite rank_S, decide_True| |lia|lia]. intros c' r Hlt Hne. apply Hs; [lia|done].
  - assert (Hrk : (rank b c < length l0)%nat) by (unfold rank; case_decide; lia).
    destruct (lookup_lt_is_Some_2 l0 _ Hrk) as [p Hp]. destruct (lookup_lt_is_Some_2 s.(k_cpus) c ltac:(lia)) as [r Hr].
    eapply wp_mono; [by apply (start_cpu_ok b c p l0 s r)|]. intros [] s' (Hb' & Hs' & Hlen').
    rewrite <- Hlen'. apply (IH (S c) s'); [by rewrite rank_S, decide_False|done|lia|lia].
Qed.
End Start.

(** C19: starting the other processors.  On the first processor, with the
    allocator set up and a free page for each processor, startothers returns
    only when every other processor has said that it is up.  While it waits for
    one, the three words below the start-up code hold the top of a stack page,
    the address of mpenter and the boot page directory, and the INIT and STARTUP
    messages have been sent to this processor's APIC with the page of the code.
    The stack is a page that was free at the start and is off the free list, and
    each processor gets a different one: the first free page for the first of
    them, the next for the second, and so on, and no other page is taken.  This
    holds for every behaviour of the others that leaves the allocator and these
    words alone. *)
Theorem startothers_hands_over {H : Hardware} {N : Polls} {L : Linked} (b : nat) (l : list Z) (s : kernel) :
  boot_state b l s -> (length s.(k_cpus) <= length l)%nat -> 0 <= entryother_size <= PGSIZE ->
  0 <= entryother_start < KERNBASE + PHYSTOP ->
  wp (waiting b l) others_ran (startothers s) (fun _ s' =>
    boot_state b (drop (rank b (length s.(k_cpus))) l) s' /\
    forall c r, (c < length s.(k_cpus))%nat -> c <> b -> s'.(k_cpus) !! c = Some r -> r.(c_started) <> 0) /\
  forall c c' p, c <> b -> c' <> b -> l !! rank b c = Some p -> l !! rank b c' = Some p -> c = c'.
Proof.
  intros Hb Hl Hsz Hst. split.
  - unfold startothers. kret. kret. set (s1 := s<|k_mem ::= _|>).
    apply (startothers_loop_ok b l (length (k_cpus s)) 0 s1); [|by intros c' r ?; lia|done|done].
    change (drop (rank b 0) l) with l. change s1 with (s1<|k_io := s.(k_io)|>). apply boot_store; [done|]. intros x Hx. unfold s1. cbn.
    unfold PGSIZE, KERNLINK, KERNBASE, PHYSTOP, EXTMEM in *. change code with 0x80007000.
    rewrite memmove_lookup by lia. unfold copied. by replace ((0x80007000 <=? x) && (x <? 0x80007000 + entryother_size)) with false by lia.
  - intros c c' p Hc Hc' Hp Hp'. apply (rank_inj b); [done|done|].
    eapply NoDup_lookup; [apply (bs_free _ _ _ Hb)|done|done].
Qed.

(** Two processors. *)
Definition two_cpus : kernel := (loaded 0x80115000 0x80108000)<|k_cpus := [boot_cpu; boot_cpu<|c_apicid := 1|>]|>.
#[local] Instance silent : Hardware := {| hw_in _ _ := 0; hw_block _ _ _ := []; hw_load _ _ := 0 |}.
#[local] Instance two_polls : Polls := 2%nat.
#[local] Instance linked : Linked :=
  {| entryother_start := 0x8010A000; entryother_size := 138; mpenter_sym := 0x80103000; entrypgdir_sym := 0x80109000;
     vectors_tab n := 0x80105000 + 8 * Z.of_nat n |}.

Lemma startothers_hands_over_witness :
  exists s l, s.(k_cpus) = two_cpus.(k_cpus) /\
    wp (waiting 0 l) others_ran (startothers s) (fun _ s' =>
      forall r, s'.(k_cpus) !! 1%nat = Some r -> r.(c_started) <> 0).
Proof.
  destruct (kinit1_pages two_cpus) as (s & p & l & _ & Hrep & Hlen & _ & He & _ & Hu & (Hc & Ha & Hi) & _); [done|done|done|].
  exists s, (p :: l). split; [exact Hc|].
  destruct (startothers_hands_over 0 (p :: l) s) as [Hw _].
  - split; [unfold me; by rewrite Hc, Ha|by rewrite Hi|exact Hu|exact Hrep|by rewrite He].
  - rewrite Hc. cbn. lia.
  - by vm_compute.
  - by vm_compute.
  - eapply wp_mono; [exact Hw|]. cbn beta. intros _ s' (_ & Hs) r Hr. apply (Hs 1%nat r); [rewrite Hc; cbn; lia|done|exact Hr].
Defined.
