(* ===== verification/Ulib.v ===== *)
(** * The user library: ulib.c and printf.c

    C strings are lists of bytes that end at their first NUL or at the end of
    the list.  What a program writes to a file descriptor is the list of the
    bytes, and what it reads comes from a list. *)

From S2P Require Import Prelude CString.

(** ** ulib.c *)
Fixpoint strcmp (p q : list Z) : Z :=
  match p with
  | [] => - u8 (deref q)
  | c :: p' => if truth c && (c =? deref q) then strcmp p' (next q) else u8 c - u8 (deref q)
  end.

Fixpoint strlen (s : list Z) : Z :=
  match s with
  | [] => 0
  | c :: s' => if c =? 0 then 0 else 1 + strlen s'
  end.

(** The suffix that starts at the character found. *)
Fixpoint strchr (s : list Z) (c : Z) : option (list Z) :=
  match s with
  | [] => None
  | x :: s' => if x =? 0 then None else if x =? c then Some s else strchr s' c
  end.

(** The bytes stored at s: those of t and the NUL. *)
Fixpoint strcpy (t : list Z) : list Z :=
  match t with
  | [] => [0]
  | c :: t' => c :: if c =? 0 then [] else strcpy t'
  end.

(** gets reads one byte at a time; the line, without its NUL, and the rest of
    the input. *)
Fixpoint gets_loop (fuel : nat) (input : list Z) : list Z * list Z :=
  match fuel, input with
  | O, _ | _, [] => ([], input)
  | S fuel', c :: input' =>
      if (c =? 10) || (c =? 13) then ([c], input')
      else let '(l, rest) := gets_loop fuel' input' in (c :: l, rest)
  end.
Definition gets (max : Z) (input : list Z) : list Z * list Z := gets_loop (Z.to_nat (max - 1)) input.

Fixpoint atoi_loop (n : Z) (s : list Z) : Z :=
  match s with
  | [] => n
  | c :: s' => if (48 <=? c) && (c <=? 57) then atoi_loop (s32 (n * 10 + c - 48)) s' else n
  end.
Definition atoi (s : list Z) : Z := atoi_loop 0 s.

Definition memset (m : mem) (dst c n : Z) : mem := stosb m dst c n.

(** Unlike the kernel's, it always copies upwards. *)
Fixpoint memmove_loop (n : nat) (m : mem) (dst src : Z) : mem :=
  match n with
  | O => m
  | S n' => memmove_loop n' (upd m dst (m src)) (dst + 1) (src + 1)
  end.
Definition memmove (m : mem) (dst src n : Z) : mem := memmove_loop (Z.to_nat n) m dst src.

(** ** printf.c *)
Definition udigit (d : Z) : Z := if d <? 10 then 48 + d else 55 + d.
(** The digits in the order of buf, least significant first; at most 32. *)
Fixpoint udigits (fuel : nat) (x base : Z) : list Z :=
  match fuel with
  | O => []
  | S fuel' => udigit (x mod base) :: if x / base =? 0 then [] else udigits fuel' (x / base) base
  end.
Definition printint (xx base : Z) (sgn : bool) : list Z :=
  let neg := sgn && (xx <? 0) in
  let x := if neg then u32 (- xx) else u32 xx in
  reverse (udigits 32 x base ++ if neg then [45] else []).

(** An argument of printf: a word or a string.  An argument that is missing or
    of the wrong kind has no behaviour in the model: the result is [None]. *)
Inductive uarg := UWord (w : Z) | UStr (s : option (list Z)).
Definition null_string : list Z := [40; 110; 117; 108; 108; 41].

(** The characters of a string up to its NUL. *)
Definition string_of (s : list Z) : list Z := take (Z.to_nat (strlen s)) s.

(** A conversion: the characters, and the remaining arguments. *)
Definition convert (c : Z) (ap : list uarg) : option (list Z * list uarg) :=
  if c =? 100 then
    match ap with UWord w :: ap' => Some (printint (s32 w) 10 true, ap') | _ => None end
  else if (c =? 120) || (c =? 112) then
    match ap with UWord w :: ap' => Some (printint (s32 w) 16 false, ap') | _ => None end
  else if c =? 115 then
    match ap with
    | UStr s :: ap' => Some (string_of (default null_string s), ap')
    | _ => None
    end
  else if c =? 99 then
    match ap with UWord w :: ap' => Some ([u8 w], ap') | _ => None end
  else if c =? 37 then Some ([c], ap)
  else Some ([37; c], ap).
Fixpoint printf_loop (fmt : list Z) (percent : bool) (ap : list uarg) : option (list Z) :=
  match fmt with
  | [] => Some []
  | c :: fmt' =>
      if c =? 0 then Some []
      else if percent then
        '(out, ap') ← convert c ap;
        rest ← printf_loop fmt' false ap';
        Some (out ++ rest)
      else if c =? 37 then printf_loop fmt' true ap
      else rest ← printf_loop fmt' false ap; Some (c :: rest)
  end.
Definition printf (fmt : list Z) (ap : list uarg) : option (list Z) := printf_loop fmt false ap.

(** ** Facts about the string routines *)
Definition nonul (s : list Z) : Prop := Forall (λ c, c ≠ 0) s.

Lemma strlen_nonul (s : list Z) : nonul s -> strlen s = Z.of_nat (length s).
Proof.
  induction 1 as [|c s Hc _ IH]; simpl; [done|].
  rewrite (proj2 (Z.eqb_neq c 0)) by done. rewrite IH. lia.
Qed.

Lemma strchr_app (u v : list Z) (c : Z) : nonul u -> c ∉ u -> strchr (u ++ v) c = strchr v c.
Proof.
  induction 1 as [|x u Hx _ IH]; intros Hc; simpl; [done|].
  apply not_elem_of_cons in Hc as [Hxc Hc].
  rewrite (proj2 (Z.eqb_neq x 0)) by done. rewrite (proj2 (Z.eqb_neq x c)) by congruence.
  by apply IH.
Qed.

(** Whether a character belongs to a set written as a string. *)
Lemma strchr_elem (s : list Z) (c : Z) : nonul s -> is_Some (strchr s c) <-> c ∈ s.
Proof.
  induction 1 as [|x s Hx _ IH]; simpl.
  { split; [intros [? ?]; done|]. intros H%elem_of_nil. done. }
  rewrite (proj2 (Z.eqb_neq x 0)) by done. rewrite elem_of_cons. case_match eqn:E.
  - apply Z.eqb_eq in E. subst. split; [by left | done].
  - apply Z.eqb_neq in E. rewrite IH. split; [by right | intros [->|?]; done].
Qed.
