(* ===== verification/Grep.v ===== *)
(** * grep (grep.c): the matcher and the line loop

    The matcher of the source is compared with the language a pattern denotes:
    a pattern is a sequence of items, each a character or a starred character,
    and a text matches when a factor of it is a concatenation of words of the
    items, at the start of the text under [^] and at its end under [$]. *)

From S2P Require Import Prelude CString Ulib.

(** ** The program *)

(** The loop of matchstar, given the matcher of the rest of the pattern. *)
Fixpoint star_loop (here : list Z -> bool) (c : Z) (text : list Z) : bool :=
  here text ||
  match text with
  | [] => false
  | t :: text' => truth t && ((t =? c) || (c =? 46)) && star_loop here c text'
  end.
Fixpoint matchhere (re text : list Z) : bool :=
  match re with
  | [] => true
  | c :: re1 =>
      if c =? 0 then true
      else match re1 with
           | 42 :: re2 => star_loop (matchhere re2) c text
           | _ =>
               if (c =? 36) && (deref re1 =? 0) then deref text =? 0
               else if truth (deref text) && ((c =? 46) || (c =? deref text))
               then matchhere re1 (next text)
               else false
           end
  end.
Definition matchstar (c : Z) (re text : list Z) : bool := star_loop (matchhere re) c text.

Fixpoint search (re text : list Z) : bool :=
  matchhere re text ||
  match text with
  | [] => false
  | t :: text' => truth t && search re text'
  end.
(** match of the source. *)
Definition gmatch (re text : list Z) : bool :=
  if deref re =? 94 then matchhere (next re) text else search re text.

(** A descriptor: what successive reads find, and an empty item is the end of
    the file.  A read takes at most [n] bytes of the first item. *)
Definition source := list (list Z).
Definition take_read (n : nat) (src : source) : list Z * source :=
  match src with
  | [] => ([], [])
  | ch :: src' =>
      (take n ch, if decide (length ch <= n)%nat then src' else drop n ch :: src')
  end.

Definition bufsize : nat := 1024.

(** The inner loop: what is written for the lines of [p], and the final [p]. *)
Fixpoint scan (fuel : nat) (pattern p : list Z) : list Z * list Z :=
  match fuel with
  | O => ([], p)
  | S fuel' =>
      match strchr p 10 with
      | None => ([], p)
      | Some q =>
          let line := take (length p - length q) p in
          let '(out, rest) := scan fuel' pattern (next q) in
          ((if gmatch pattern line then line ++ [10] else []) ++ out, rest)
      end
  end.
(** The outer loop; [m] is buf[0..m). *)
Fixpoint grep_loop (fuel : nat) (pattern m : list Z) (src : source) : option (list Z) :=
  match fuel with
  | O => None
  | S fuel' =>
      let '(ch, src') := take_read (bufsize - length m - 1) src in
      match ch with
      | [] => Some []
      | _ =>
          let buf := m ++ ch in
          let '(out, p) := scan (length buf) pattern buf in
          let m' := if decide (length p = length buf) then [] else p in
          rest ← grep_loop fuel' pattern m' src';
          Some (out ++ rest)
      end
  end.
Definition grep (pattern : list Z) (src : source) : option (list Z) :=
  grep_loop (S (length (concat src))) pattern [] src.

(** ** The language of a pattern *)
Inductive item := One (c : Z) | Star (c : Z).
Definition accepts (c t : Z) : Prop := c = 46 \/ c = t.
Definition item_word (it : item) (w : list Z) : Prop :=
  match it with
  | One c => exists t, w = [t] /\ accepts c t
  | Star c => Forall (accepts c) w
  end.
Fixpoint word (its : list item) (w : list Z) : Prop :=
  match its with
  | [] => w = []
  | it :: its' => exists u v, w = u ++ v /\ item_word it u /\ word its' v
  end.
(** The items of a pattern, and whether it ends in the anchor. *)
Fixpoint items (re : list Z) : list item * bool :=
  match re with
  | [] => ([], false)
  | c :: re1 =>
      match re1 with
      | 42 :: re2 => let '(its, e) := items re2 in (Star c :: its, e)
      | [] => if c =? 36 then ([], true) else ([One c], false)
      | _ => let '(its, e) := items re1 in (One c :: its, e)
      end
  end.

(** [text] starts with a word of the pattern that ends where it must. *)
Definition starts (re text : list Z) : Prop :=
  exists w v, text = w ++ v /\ word (items re).1 w /\ ((items re).2 = true -> v = []).

Lemma starts_star (c : Z) (re text : list Z) :
  starts (c :: 42 :: re) text <->
  exists u v, text = u ++ v /\ Forall (accepts c) u /\ starts re v.
Proof.
  unfold starts. simpl. destruct (items re) as [its e]; simpl. split.
  - intros (w & v & -> & (u & u' & -> & Hu & Hw) & He).
    exists u, (u' ++ v). rewrite app_assoc. eauto 10.
  - intros (u & v & -> & Hu & w & v' & -> & Hw & He).
    exists (u ++ w), v'. rewrite app_assoc. eauto 10.
Qed.

Lemma starts_one (c : Z) (re text : list Z) :
  deref re ≠ 42 -> ¬ (c = 36 /\ re = []) ->
  starts (c :: re) text <-> exists t v, text = t :: v /\ accepts c t /\ starts re v.
Proof.
  intros Hs He. assert (items (c :: re) = (One c :: (items re).1, (items re).2)) as Hi.
  { destruct re as [|c2 re]; [simpl; case_match eqn:E; [|done]; apply Z.eqb_eq in E; naive_solver|].
    simpl in Hs. cbn [items]. destruct (items (c2 :: re)) as [its e] eqn:E'. simpl.
    repeat (case_match; try done). }
  unfold starts. rewrite Hi. simpl. split.
  - intros (w & v & -> & (u & u' & -> & (t & -> & Ht) & Hw) & Hv). simpl. eauto 10.
  - intros (t & v & -> & Ht & w & v' & -> & Hw & Hv).
    exists (t :: w), v'. split_and!; [done | exists [t], w; eauto 10 | done].
Qed.

Lemma star_loop_true (here : list Z -> bool) (c : Z) (text : list Z) :
  nonul text ->
  star_loop here c text = true <->
  exists u v, text = u ++ v /\ Forall (accepts c) u /\ here v = true.
Proof.
  induction 1 as [|t text Ht _ IH]; simpl; rewrite orb_true_iff.
  - split; [intros [H|?]; [|done]; by exists [], [] |].
    intros (u & v & E & _ & H). symmetry in E. apply app_eq_nil in E as [-> ->]. by left.
  - rewrite !andb_true_iff, IH. split.
    + intros [H | [[_ Hc] (u & v & -> & Hu & H)]]; [by exists [], (t :: text)|].
      exists (t :: u), v. split_and!; [done | | done]. constructor; [|done].
      unfold accepts. apply orb_true_iff in Hc. rewrite !Z.eqb_eq in Hc. naive_solver.
    + intros (u & v & E & Hu & H). destruct u as [|t' u]; simplify_eq/=; [by left|].
      inversion_clear Hu as [|?? Ha Hu']. right. split_and!; [| |eauto 10].
      * unfold truth. by rewrite (proj2 (Z.eqb_neq _ 0)).
      * apply orb_true_iff. rewrite !Z.eqb_eq. unfold accepts in Ha. naive_solver.
Qed.

Lemma matchhere_star (c : Z) (re text : list Z) :
  c ≠ 0 -> matchhere (c :: 42 :: re) text = star_loop (matchhere re) c text.
Proof. intros Hc. cbn [matchhere]. by rewrite (proj2 (Z.eqb_neq c 0)). Qed.

Lemma matchhere_one (c : Z) (re text : list Z) :
  c ≠ 0 -> deref re ≠ 42 ->
  matchhere (c :: re) text =
    if (c =? 36) && (deref re =? 0) then deref text =? 0
    else if truth (deref text) && ((c =? 46) || (c =? deref text)) then matchhere re (next text)
    else false.
Proof.
  intros Hc Hs. cbn [matchhere]. rewrite (proj2 (Z.eqb_neq c 0)) by done.
  destruct re as [|c2 re]; [done|]. simpl in Hs. repeat (case_match; try done).
Qed.

Lemma matchhere_starts (re text : list Z) :
  nonul re -> nonul text -> matchhere re text = true <-> starts re text.
Proof.
  remember (length re) as n eqn:Hn. revert re text Hn.
  induction (lt_wf n) as [n _ IH]. intros re text -> Hre Htext.
  destruct re as [|c re]; [split; [intros _; by exists [], text | done]|].
  inversion_clear Hre as [|?? Hc Hre'].
  destruct (decide (deref re = 42)) as [Hs|Hs].
  { destruct re as [|c2 re]; [done|]. simpl in Hs. subst c2. inversion_clear Hre' as [|?? _ Hre2].
    rewrite matchhere_star, starts_star, star_loop_true by done.
    apply exist_proper; intros u. apply exist_proper; intros v.
    split; intros (-> & Hu & H); (split_and!; [done | done |]);
      apply Forall_app in Htext as [_ Hv]; (eapply IH; [| reflexivity | done | done |]); simpl; try lia; done. }
  rewrite matchhere_one by done. destruct (decide (c = 36 /\ re = [])) as [[-> ->]|He].
  { simpl. rewrite Z.eqb_eq. split.
    - intros Ht. exists [], text. split_and!; [done..|]. intros _. destruct Htext; [done|]. by simpl in Ht.
    - intros (w & v & -> & Hw & Hv). simpl in Hw, Hv. subst. by rewrite (Hv eq_refl). }
  rewrite starts_one by done.
  assert ((c =? 36) && (deref re =? 0) = false) as ->.
  { apply andb_false_iff. rewrite !Z.eqb_neq. destruct (decide (c = 36)) as [->|]; [|by left].
    right. destruct re as [|c2 re]; [naive_solver|]. by inversion_clear Hre'. }
  destruct text as [|t text]; simpl; [split; [done | naive_solver]|].
  inversion_clear Htext as [|?? Ht Htext']. unfold truth at 1.
  rewrite (proj2 (Z.eqb_neq t 0)) by done. simpl.
  assert ((c =? 46) || (c =? t) = true <-> accepts c t) as Ha by (rewrite orb_true_iff, !Z.eqb_eq; done).
  specialize (IH (length re) ltac:(simpl; lia) re text eq_refl Hre' Htext').
  destruct ((c =? 46) || (c =? t)).
  - rewrite IH. assert (accepts c t) by (by apply Ha). split; [by exists t, text | intros (? & ? & [= <- <-] & _ & ?); done].
  - split; [done|]. intros (? & ? & [= <- <-] & H & _). apply Ha in H. congruence.
Qed.

Lemma search_starts (re text : list Z) :
  nonul re -> nonul text -> search re text = true <-> exists u v, text = u ++ v /\ starts re v.
Proof.
  intros Hre. induction 1 as [|t text Ht Htext IH]; simpl; rewrite orb_true_iff, matchhere_starts by (done || by constructor).
  - split; [intros [H|?]; [by exists [], [] | done]|].
    intros (u & v & E & H). symmetry in E. apply app_eq_nil in E as [-> ->]. by left.
  - unfold truth. rewrite (proj2 (Z.eqb_neq t 0)) by done. simpl. rewrite IH. split.
    + intros [H | (u & v & -> & H)]; [by exists [], (t :: text) | by exists (t :: u), v].
    + intros (u & v & E & H). destruct u as [|t' u]; simplify_eq/=; eauto.
Qed.

(** The language of a whole pattern. *)
Definition anchored (re : list Z) : bool := deref re =? 94.
Definition body (re : list Z) : list Z := if anchored re then next re else re.
Definition denotes (re text : list Z) : Prop :=
  exists u w v, text = u ++ w ++ v /\ word (items (body re)).1 w /\
    (anchored re = true -> u = []) /\ ((items (body re)).2 = true -> v = []).

(** C26: The matcher of grep decides exactly the language of the pattern: it
    reports a match when, and only when, some factor of the text is a
    concatenation of words of the pattern's items (a character, any character
    for a dot, any repetition of one for a star), the factor starting the text
    under a leading ^ and ending it under a final $. *)
Theorem match_denotes (re text : list Z) :
  nonul re -> nonul text -> gmatch re text = true <-> denotes re text.
Proof.
  intros Hre Htext. unfold gmatch, denotes, body. fold (anchored re).
  destruct (anchored re) eqn:Ha.
  - rewrite matchhere_starts by (try done; destruct Hre; done). unfold starts. split.
    + intros (w & v & -> & Hw & Hv). exists [], w, v. done.
    + intros (u & w & v & -> & Hw & Hu & Hv). rewrite (Hu eq_refl). simpl. eauto.
  - rewrite search_starts by done. unfold starts. split.
    + intros (u & v & -> & w & v' & -> & Hw & Hv). exists u, w, v'. done.
    + intros (u & w & v & -> & Hw & _ & Hv). eauto 10.
Qed.

(** [^ab*.$] matches [abbx]. *)
Lemma match_denotes_witness :
  gmatch [94; 97; 98; 42; 46; 36] [97; 98; 98; 120] = true /\
  denotes [94; 97; 98; 42; 46; 36] [97; 98; 98; 120].
Proof.
  split; [reflexivity|]. apply match_denotes; [repeat constructor; done.. | reflexivity].
Defined.

(** ** The line loop *)
Definition unlines (ls : list (list Z)) : list Z := concat (map (.++ [10]) ls).
Definition bare (s : list Z) : Prop := nonul s /\ 10 ∉ s.
(** A line that fits in the buffer with its newline. *)
Definition line_ok (l : list Z) : Prop := bare l /\ (length l < bufsize - 1)%nat.
Lemma short_line l : Forall (λ c, c ≠ 0 /\ c ≠ 10) l -> (length l < 1023)%nat -> line_ok l.
Proof.
  intros Hl Hn. split; [split|].
  - eapply Forall_impl, Hl. by intros c [? _].
  - intros Hin. rewrite list.Forall_forall in Hl. by destruct (Hl 10 Hin).
  - unfold bufsize. lia.
Qed.
Definition kept (pattern : list Z) (ls : list (list Z)) : list Z :=
  unlines (filter (λ l, gmatch pattern l = true) ls).

Lemma unlines_cons (l : list Z) (ls : list (list Z)) : unlines (l :: ls) = l ++ 10 :: unlines ls.
Proof. unfold unlines. simpl. by rewrite <- app_assoc. Qed.

Lemma unlines_app (ls ls' : list (list Z)) : unlines (ls ++ ls') = unlines ls ++ unlines ls'.
Proof. unfold unlines. by rewrite map_app, concat_app. Qed.

Lemma kept_cons (pattern l : list Z) (ls : list (list Z)) :
  kept pattern (l :: ls) = (if gmatch pattern l then l ++ [10] else []) ++ kept pattern ls.
Proof.
  unfold kept. rewrite filter_cons. destruct (gmatch pattern l); [|done].
  by rewrite decide_True, unlines_cons, <- app_assoc by done.
Qed.

Lemma kept_app (pattern : list Z) (ls ls' : list (list Z)) :
  kept pattern (ls ++ ls') = kept pattern ls ++ kept pattern ls'.
Proof. unfold kept. by rewrite list.filter_app, unlines_app. Qed.

Lemma strchr_bare (p : list Z) : bare p -> strchr p 10 = None.
Proof. intros [Hn H]. rewrite <- (app_nil_r p). by rewrite strchr_app. Qed.

Lemma scan_lines (pattern p : list Z) (ls : list (list Z)) (fuel : nat) :
  Forall bare ls -> bare p -> (length ls <= fuel)%nat ->
  scan fuel pattern (unlines ls ++ p) = (kept pattern ls, p).
Proof.
  intros Hls Hp. revert fuel. induction Hls as [|l ls [Hn Hl] _ IH]; intros fuel Hf.
  { destruct fuel; simpl; [done|]. by rewrite strchr_bare. }
  destruct fuel as [|fuel]; simpl in Hf; [lia|]. simpl.
  rewrite unlines_cons, <- app_assoc, strchr_app by done. simpl.
  rewrite (length_app l), Nat.add_sub, take_app_length, IH by lia. by rewrite kept_cons.
Qed.

(** Where a buffer of [k] bytes cuts a text made of lines. *)
Lemma take_unlines (ls : list (list Z)) (k : nat) :
  Forall bare ls ->
  exists ls1 ls2 p, ls = ls1 ++ ls2 /\ bare p /\ take k (unlines ls) = unlines ls1 ++ p /\
    p ++ drop k (unlines ls) = unlines ls2 /\
    (match ls with l :: _ => (length l < k)%nat | [] => False end -> ls1 ≠ []).
Proof.
  intros Hls. revert k. induction Hls as [|l ls Hl Hls IH]; intros k.
  { exists [], [], []. unfold unlines; simpl. rewrite take_nil, drop_nil. split_and!; try done. split; [constructor | apply not_elem_of_nil]. }
  rewrite unlines_cons. destruct (decide (length l < k)%nat) as [Hk|Hk].
  - destruct (IH (k - length l - 1)%nat) as (ls1 & ls2 & p & -> & Hp & Ht & Hd & _).
    exists (l :: ls1), ls2, p. rewrite unlines_cons, <- Hd.
    rewrite take_app_ge, drop_app_ge by lia.
    replace (k - length l)%nat with (S (k - length l - 1)) by lia. simpl. by rewrite Ht, <- app_assoc, Nat.sub_0_r.
  - exists [], (l :: ls), (take k l). rewrite take_app_le, drop_app_le, app_assoc, take_drop, unlines_cons by lia.
    split_and!; try done. destruct Hl as [Hn H]. split; [by apply Forall_take|].
    intros Hin. apply elem_of_take in Hin as (j & Hj & _). by apply H, (list_elem_of_lookup_2 _ j).
Qed.

Lemma bare_nil : bare [].
Proof. split; [constructor | apply not_elem_of_nil]. Qed.

Lemma bare_unlines (ls : list (list Z)) : bare (unlines ls) -> ls = [].
Proof.
  destruct ls as [|l ls]; [done|]. rewrite unlines_cons. intros [_ H]. exfalso.
  apply H, elem_of_app. right. by left.
Qed.

(** What the reads still hold: the rest of the lines [ls] of the item being
    read, part of which is in the buffer, and the items after it. *)
Definition remaining (m : list Z) (src : source) (ls : list (list Z)) (lss : list (list (list Z))) : Prop :=
  exists ch : list Z, src = ch :: map unlines lss /\ m ++ ch = unlines ls /\ ch ≠ [] /\ bare m /\ (length m < bufsize - 1)%nat /\ Forall line_ok ls.

Lemma grep_step (fuel : nat) (pattern m : list Z) (src : source) (ls : list (list Z)) (lss : list (list (list Z))) :
  remaining m src ls lss ->
  exists ls1 ls2 m' src',
    ls = ls1 ++ ls2 /\ (length (concat src') < length (concat src))%nat /\
    (ls2 = [] /\ m' = [] /\ src' = map unlines lss \/ remaining m' src' ls2 lss) /\
    grep_loop (S fuel) pattern m src =
      (rest ← grep_loop fuel pattern m' src'; Some (kept pattern ls1 ++ rest)).
Proof.
  intros (ch & -> & Hls & Hch & Hm & Hlen & Hok).
  assert (Forall bare ls) as Hbare by (eapply Forall_impl, Hok; by intros l [? _]).
  set (n := (bufsize - length m - 1)%nat).
  destruct (take_unlines ls (bufsize - 1) Hbare) as (ls1 & ls2 & p & -> & Hp & Ht & Hd & Hne).
  assert (ls1 ≠ []) as Hls1.
  { apply Hne. destruct ls1 as [|l ls1]; simpl.
    - destruct ls2 as [|l ls2]; [by apply app_eq_nil in Hls as [_ ->]|]. by inversion_clear Hok as [|?? [_ ?] ?].
    - by inversion_clear Hok as [|?? [_ ?] ?]. }
  rewrite <- Hls in Ht, Hd. rewrite take_app_ge in Ht by lia. rewrite drop_app_ge in Hd by lia.
  replace (bufsize - 1 - length m)%nat with n in Ht, Hd by lia.
  assert (length (take n ch) ≠ 0)%nat as Hnz.
  { rewrite length_take. destruct ch; [done|]. cbn [length]. unfold n. lia. }
  assert (length (unlines ls1) ≠ 0)%nat as Hnz1.
  { destruct ls1; [done|]. rewrite unlines_cons, length_app. simpl. lia. }
  pose proof (f_equal length Ht) as Hlt. rewrite !length_app, length_take in Hlt.
  exists ls1, ls2, p, (take_read n (ch :: map unlines lss)).2. split_and!; [done| | |].
  - simpl. case_decide; simpl; rewrite ?length_app, ?length_drop; rewrite length_take in Hnz; lia.
  - simpl. case_decide as Hc.
    + left. rewrite drop_ge, app_nil_r in Hd by lia. subst p. apply bare_unlines in Hp as ->. done.
    + right. exists (drop n ch). split_and!; try done; [|lia|by apply Forall_app in Hok as [_ ?]].
      intros E%(f_equal length). rewrite length_drop in E. simpl in E. lia.
  - cbn [grep_loop take_read]. fold n. destruct (take n ch) as [|c ch'] eqn:E; [done|].
    rewrite Ht, scan_lines; [|by apply Forall_app in Hbare as [? _] | done |].
    + rewrite decide_False; [done|]. rewrite length_app. lia.
    + rewrite length_app. unfold unlines. clear. induction ls1; simpl; [lia|]. rewrite !length_app. simpl. lia.
Qed.

Lemma grep_loop_lines (pattern : list Z) (lss : list (list (list Z))) (fuel : nat) :
  forall m src ls, (length (concat src) < fuel)%nat ->
  Forall (λ ls, ls ≠ [] /\ Forall line_ok ls) lss ->
  (ls = [] /\ m = [] /\ src = map unlines lss \/ remaining m src ls lss) ->
  grep_loop fuel pattern m src = Some (kept pattern (ls ++ concat lss)).
Proof.
  revert lss. induction fuel as [|fuel IH]; intros lss m src ls Hf Hlss Hr; [lia|].
  destruct Hr as [(-> & -> & ->)|Hr].
  - destruct Hlss as [|ls lss [Hne Hok] Hlss]; [done|].
    assert (remaining [] (map unlines (ls :: lss)) ls lss) as Hr.
    { exists (unlines ls). split_and!; [done | done | | apply bare_nil | simpl; unfold bufsize; lia | done].
      destruct ls; [done|]. rewrite unlines_cons. by destruct l. }
    destruct (grep_step fuel pattern _ _ _ _ Hr) as (ls1 & ls2 & m' & src' & -> & Hlen & Hr' & ->).
    rewrite (IH lss m' src' ls2) by (done || lia). simpl.
    by rewrite <- kept_app, <- ?app_assoc.
  - destruct (grep_step fuel pattern _ _ _ _ Hr) as (ls1 & ls2 & m' & src' & -> & Hlen & Hr' & ->).
    rewrite (IH lss m' src' ls2) by (done || lia). simpl.
    by rewrite <- kept_app, <- ?app_assoc.
Qed.

(** On input made of complete lines that fit in the 1024-byte buffer, however
    many of them each read returns, grep terminates and writes exactly the lines
    the pattern matches, in order and once each. *)
Theorem grep_prints (pattern : list Z) (lss : list (list (list Z))) :
  Forall (λ ls, ls ≠ [] /\ Forall line_ok ls) lss ->
  grep pattern (map unlines lss) = Some (kept pattern (concat lss)).
Proof.
  intros Hlss. unfold grep. rewrite (grep_loop_lines pattern lss _ [] _ []); [done | lia | done | by left].
Qed.

(** Three lines in two reads. *)
Lemma grep_prints_witness :
  grep [97; 36] (map unlines [[[98; 97]; [97; 98]]; [[97]]]) = Some [98; 97; 10; 97; 10] /\
  kept [97; 36] (concat [[[98; 97]; [97; 98]]; [[97]]]) = [98; 97; 10; 97; 10].
Proof.
  split; [|reflexivity].
  refine (eq_trans (grep_prints [97; 36] [[[98; 97]; [97; 98]]; [[97]]] _) eq_refl).
  repeat constructor; try discriminate; apply short_line; try (simpl; lia); repeat constructor; discriminate.
Defined.

(** A line that reaches grep in two reads is lost: when a read leaves no newline
    in the buffer, the test [p == buf] throws its bytes away. *)
Lemma grep_loses_split_line :
  grep [97] [[97; 10]] = Some [97; 10] /\ grep [97] [[97]; [10]] = Some [].
Proof. done. Qed.
