(* ===== verification/Sh.v ===== *)
(** * The shell's parser (sh.c)

    The line is a list of bytes [b] without its NUL; a pointer into it is an
    offset, and the end [es] is the length of the list.  A parser takes the
    offset behind [*ps] and returns the new one.  A word of a command is a pair
    of offsets until nulterminate stores the NULs, and a string after that.  The
    constructors' malloc always returns memory here; the code does not check. *)

From S2P Require Import Prelude CString Ulib.

(** ** Commands *)
Inductive cmd (A : Type) :=
  | EXEC (argv : list A)
  | REDIR (c : cmd A) (file : A) (mode fd : Z)
  | PIPE (left right : cmd A)
  | LIST (left right : cmd A)
  | BACK (c : cmd A).
#[global] Arguments EXEC {A} argv.
#[global] Arguments REDIR {A} c file mode fd.
#[global] Arguments PIPE {A} left right.
#[global] Arguments LIST {A} left right.
#[global] Arguments BACK {A} c.

Definition MAXARGS : nat := 10.
Definition O_RDONLY : Z := 0.
Definition O_WRONLY : Z := 1.
Definition O_CREATE : Z := 512.

Definition span : Type := nat * nat.

(** ** The parser's state and errors *)
Inductive parsed (A : Type) :=
  | Parsed (a : A) (s : nat)
  | Failed (msg : list (list Z))
  | Exhausted.
#[global] Arguments Parsed {A} a s.
#[global] Arguments Failed {A} msg.
#[global] Arguments Exhausted {A}.

Definition parser (A : Type) : Type := nat -> parsed A.
#[global] Instance parser_ret : MRet parser := λ A a s, Parsed a s.
#[global] Instance parser_bind : MBind parser := λ A B f m s,
  match m s with
  | Parsed a s' => f a s'
  | Failed msg => Failed msg
  | Exhausted => Exhausted
  end.
(** What panic prints before it exits, and the lines printed before it. *)
Definition spanic {A} (msg : list (list Z)) : parser A := λ _, Failed msg.
Definition no_fuel {A} : parser A := λ _, Exhausted.

(** ** Tokens *)
Definition whitespace : list Z := [32; 9; 13; 10; 11].
Definition symbols : list Z := [60; 124; 62; 38; 59; 40; 41].

(** [strchr(set, c)] as a condition. *)
Definition has (set : list Z) (c : Z) : bool := match strchr set c with Some _ => true | None => false end.

(** The byte at an offset; the NUL at the end. *)
Definition at_ (b : list Z) (i : nat) : Z := deref (drop i b).

(** How far the scanning loops of gettoken and peek advance. *)
Fixpoint spaces (l : list Z) : nat :=
  match l with
  | c :: l' => if has whitespace c then S (spaces l') else O
  | [] => O
  end.
Fixpoint wordlen (l : list Z) : nat :=
  match l with
  | c :: l' => if negb (has whitespace c) && negb (has symbols c) then S (wordlen l') else O
  | [] => O
  end.
Definition skip (b : list Z) (s : nat) : nat := (s + spaces (drop s b))%nat.

Definition gettoken (b : list Z) : parser (Z * span) := λ s0,
  let s := skip b s0 in
  let q := s in
  let c := at_ b s in
  let '(tok, s) :=
    if c =? 0 then (c, s)
    else if (c =? 124) || (c =? 40) || (c =? 41) || (c =? 59) || (c =? 38) || (c =? 60) then (c, S s)
    else if c =? 62 then if at_ b (S s) =? 62 then (43, S (S s)) else (c, S s)
    else (97, (s + wordlen (drop s b))%nat) in
  Parsed (tok, (q, s)) (skip b s).

Definition peek (b toks : list Z) : parser bool := λ s0,
  let s := skip b s0 in
  Parsed (truth (at_ b s) && has toks (at_ b s)) s.

(** ** The grammar *)
Fixpoint msg (s : string) : list Z :=
  match s with
  | EmptyString => []
  | String a s' => Z.of_N (Ascii.N_of_ascii a) :: msg s'
  end.

Definition redircmd {A} (c : cmd A) (tok : Z) (f : A) : cmd A :=
  if tok =? 60 then REDIR c f O_RDONLY 0
  else if tok =? 62 then REDIR c f (Z.lor O_WRONLY O_CREATE) 1
  else if tok =? 43 then REDIR c f (Z.lor O_WRONLY O_CREATE) 1
  else c.

(** The redirections are applied to the command as a function: the source
    wraps the [execcmd] it is still filling in. *)
Fixpoint parseredirs (fuel : nat) (b : list Z) (ret : cmd span -> cmd span) : parser (cmd span -> cmd span) :=
  match fuel with
  | O => no_fuel
  | S fuel' =>
      more ← peek b [60; 62];
      if (more : bool) then
        '(tok, _) ← gettoken b;
        '(tok2, f) ← gettoken b;
        if tok2 =? 97 then parseredirs fuel' b (λ c, redircmd (ret c) tok f)
        else spanic [msg "missing file for redirection"]
      else mret ret
  end.

Fixpoint parseargs (fuel : nat) (b : list Z) (argv : list span) (ret : cmd span -> cmd span) : parser (cmd span) :=
  match fuel with
  | O => no_fuel
  | S fuel' =>
      stop ← peek b [124; 41; 38; 59];
      if (stop : bool) then mret (ret (EXEC argv))
      else
        '(tok, w) ← gettoken b;
        if tok =? 0 then mret (ret (EXEC argv))
        else if negb (tok =? 97) then spanic [msg "syntax"]
        else
          let argv' := argv ++ [w] in
          if decide (MAXARGS <= length argv')%nat then spanic [msg "too many args"]
          else
            ret' ← parseredirs fuel' b ret;
            parseargs fuel' b argv' ret'
  end.

(** The loop over the trailing [&]s. *)
Fixpoint parseback (fuel : nat) (b : list Z) (c : cmd span) : parser (cmd span) :=
  match fuel with
  | O => no_fuel
  | S fuel' =>
      more ← peek b [38];
      if (more : bool) then gettoken b ≫= λ _, parseback fuel' b (BACK c)
      else mret c
  end.

Fixpoint parseline (fuel : nat) (b : list Z) : parser (cmd span) :=
  match fuel with
  | O => no_fuel
  | S fuel' =>
      c ← parsepipe fuel' b;
      c ← parseback (S (length b)) b c;
      more ← peek b [59];
      if (more : bool) then
        gettoken b ≫= λ _,
        r ← parseline fuel' b;
        mret (LIST c r)
      else mret c
  end
with parsepipe (fuel : nat) (b : list Z) : parser (cmd span) :=
  match fuel with
  | O => no_fuel
  | S fuel' =>
      c ← parseexec fuel' b;
      more ← peek b [124];
      if (more : bool) then
        gettoken b ≫= λ _,
        r ← parsepipe fuel' b;
        mret (PIPE c r)
      else mret c
  end
with parseexec (fuel : nat) (b : list Z) : parser (cmd span) :=
  match fuel with
  | O => no_fuel
  | S fuel' =>
      block ← peek b [40];
      if (block : bool) then parseblock fuel' b
      else
        ret ← parseredirs (S (length b)) b (λ c, c);
        parseargs (S (length b)) b [] ret
  end
with parseblock (fuel : nat) (b : list Z) : parser (cmd span) :=
  match fuel with
  | O => no_fuel
  | S fuel' =>
      opening ← peek b [40];
      if negb opening then spanic [msg "parseblock"]
      else
        gettoken b ≫= λ _,
        c ← parseline fuel' b;
        closing ← peek b [41];
        if negb closing then spanic [msg "syntax - missing )"]
        else
          gettoken b ≫= λ _,
          ret ← parseredirs (S (length b)) b (λ c, c);
          mret (ret c)
  end.

(** ** NUL termination *)
Definition put0 (b : list Z) (i : nat) : list Z := <[i := 0]> b.
Fixpoint nulterminate (b : list Z) (c : cmd span) : list Z :=
  match c with
  | EXEC argv => foldl (λ b w, put0 b w.2) b argv
  | REDIR c f _ _ => put0 (nulterminate b c) f.2
  | PIPE l r | LIST l r => nulterminate (nulterminate b l) r
  | BACK c => nulterminate b c
  end.

(** Each nested block takes four calls. *)
Definition parse_fuel (b : list Z) : nat := (4 * (length b + 1))%nat.

(** The end of parsecmd: the command and the buffer its strings are in, or the
    lines printed before the exit. *)
Definition finish (b : list Z) (c : cmd span) : parser (cmd span * list Z) := λ s,
  if decide (s = length b) then Parsed (c, nulterminate b c) s
  else Failed [msg "leftovers: " ++ drop s b; msg "syntax"].
Definition parsecmd (b : list Z) : parsed (cmd span * list Z) :=
  (c ← parseline (parse_fuel b) b; peek b [] ≫= λ _, finish b c) O.

Fixpoint cmd_map {A B} (f : A -> B) (c : cmd A) : cmd B :=
  match c with
  | EXEC argv => EXEC (map f argv)
  | REDIR c w m fd => REDIR (cmd_map f c) (f w) m fd
  | PIPE l r => PIPE (cmd_map f l) (cmd_map f r)
  | LIST l r => LIST (cmd_map f l) (cmd_map f r)
  | BACK c => BACK (cmd_map f c)
  end.
(** The string a [char*] to the start of a word denotes. *)
Definition string_at (b : list Z) (w : span) : list Z := string_of (drop w.1 b).
(** The bytes between the two pointers of a word. *)
Definition slice (b : list Z) (w : span) : list Z := take (w.2 - w.1) (drop w.1 b).

(** ** What the tokenizer returns *)
(** The characters of words: not NUL, not a space, tab, return, newline or
    vertical tab, and none of < | > & ; ( and ). *)
Definition wordchar (c : Z) : bool := bool_decide (c ∉ [0; 32; 9; 13; 10; 11; 60; 124; 62; 38; 59; 40; 41]).
(** A run of word characters up to its end. *)
Record word_at (b : list Z) (w : span) : Prop := {
  wa_lt : (w.1 < w.2)%nat;
  wa_le : (w.2 <= length b)%nat;
  wa_in i : (w.1 <= i < w.2)%nat -> wordchar (at_ b i) = true;
  wa_end : wordchar (at_ b w.2) = false
}.

(** A word of the line: a maximal run. *)
Definition whole_word (b : list Z) (w : span) : Prop :=
  word_at b w /\ (w.1 = 0%nat \/ wordchar (at_ b (pred w.1)) = false).

Lemma has_elem (set : list Z) (c : Z) : nonul set -> has set c = true <-> c ∈ set.
Proof.
  intros H. rewrite <- (strchr_elem set c H). unfold has. destruct (strchr set c); split; try done.
Qed.

Lemma wordchar_has (c : Z) : wordchar c = negb (c =? 0) && negb (has whitespace c) && negb (has symbols c).
Proof.
  assert (Hw : nonul whitespace) by (repeat constructor; discriminate). assert (Hs : nonul symbols) by (repeat constructor; discriminate).
  apply eq_true_iff_eq. unfold wordchar. rewrite bool_decide_eq_true, !andb_true_iff, !negb_true_iff, Z.eqb_neq.
  rewrite <- !not_true_iff_false, !has_elem by done. unfold whitespace, symbols. set_solver.
Qed.

(** [p] returns from [s], with a result that satisfies [Q], or reports an error. *)
Definition returns {A} (p : parser A) (s : nat) (Q : A -> nat -> Prop) : Prop :=
  match p s with
  | Parsed a s' => Q a s'
  | Failed _ => True
  | Exhausted => False
  end.

Lemma returns_bind {A B} (p : parser A) (f : A -> parser B) (s : nat) (P : A -> nat -> Prop) (Q : B -> nat -> Prop) :
  returns p s P -> (forall a s', P a s' -> returns (f a) s' Q) -> returns (p ≫= f) s Q.
Proof. unfold returns, mbind, parser_bind. destruct (p s); naive_solver. Qed.

Lemma returns_mono {A} (p : parser A) (s : nat) (P Q : A -> nat -> Prop) :
  returns p s P -> (forall a s', P a s' -> Q a s') -> returns p s Q.
Proof. unfold returns. destruct (p s); naive_solver. Qed.

Lemma spaces_le (l : list Z) : (spaces l <= length l)%nat.
Proof. induction l; simpl; [lia|]. case_match; lia. Qed.

Lemma spaces_stop (l : list Z) : has whitespace (deref (drop (spaces l) l)) = false.
Proof. induction l as [|c l IH]; simpl; [done|]. destruct (has whitespace c) eqn:E; done. Qed.

Lemma wordlen_le (l : list Z) : (wordlen l <= length l)%nat.
Proof. induction l; simpl; [lia|]. case_match; lia. Qed.

Section Tokens.
Context (b : list Z) (Hb : nonul b).
Implicit Types (s i : nat).

Lemma at_end (s : nat) : (length b <= s)%nat -> at_ b s = 0.
Proof. intros H. unfold at_. by rewrite drop_ge. Qed.

Lemma at_lookup (s : nat) : at_ b s = default 0 (b !! s).
Proof.
  unfold at_. replace (b !! s) with (drop s b !! 0%nat) by (rewrite lookup_drop; f_equal; lia).
  by destruct (drop s b).
Qed.

Lemma at_nonzero (s : nat) : at_ b s ≠ 0 <-> (s < length b)%nat.
Proof.
  split; [intros H; apply Nat.nle_gt; intros Hs; by apply H, at_end|].
  intros Hs. destruct (lookup_lt_is_Some_2 b s Hs) as [c Hc]. rewrite at_lookup, Hc. simpl.
  by apply (proj1 (Forall_lookup _ _) Hb s).
Qed.

Lemma skip_bounds (s : nat) : (s <= length b)%nat -> (s <= skip b s <= length b)%nat.
Proof. intros H. unfold skip. pose proof (spaces_le (drop s b)). rewrite length_drop in *. lia. Qed.

Lemma skip_stop (s : nat) : has whitespace (at_ b (skip b s)) = false.
Proof. unfold at_, skip. rewrite <- drop_drop. apply spaces_stop. Qed.

Lemma skip_idem (s : nat) : skip b (skip b s) = skip b s.
Proof.
  pose proof (skip_stop s) as H. unfold skip at 1. unfold at_ in H.
  destruct (drop (skip b s) b); simpl in *; [lia|]. rewrite H. lia.
Qed.

Lemma wordlen_in (l : list Z) (i : nat) :
  nonul l -> (i < wordlen l)%nat -> wordchar (deref (drop i l)) = true.
Proof.
  intros Hl. revert i. induction Hl as [|c l Hc _ IH]; intros i; simpl; [lia|].
  destruct (negb (has whitespace c) && negb (has symbols c)) eqn:E; [|lia].
  destruct i as [|i]; simpl; intros Hi; [|apply IH; lia].
  rewrite wordchar_has. by rewrite (proj2 (Z.eqb_neq c 0)), <- andb_assoc, E.
Qed.

Lemma wordlen_stop (l : list Z) : wordchar (deref (drop (wordlen l) l)) = false.
Proof.
  induction l as [|c l IH]; simpl; [done|]. destruct (negb (has whitespace c) && _) eqn:E; [done|].
  simpl. rewrite wordchar_has. rewrite <- andb_assoc, E. apply andb_false_r.
Qed.

Lemma wordlen_word (s : nat) :
  (s <= length b)%nat -> wordchar (at_ b s) = true -> word_at b (s, s + wordlen (drop s b))%nat.
Proof.
  intros Hs Hc. split; simpl.
  - unfold at_ in Hc. destruct (drop s b) as [|c l]; simpl in *; [done|].
    rewrite wordchar_has in Hc. rewrite <- andb_assoc in Hc. apply andb_true_iff in Hc as [_ ->]. lia.
  - pose proof (wordlen_le (drop s b)). rewrite length_drop in *. lia.
  - intros i Hi. pose proof (wordlen_in (drop s b) (i - s)) as H.
    rewrite drop_drop in H. replace (s + (i - s))%nat with i in H by lia. apply H; [by apply Forall_drop | lia].
  - unfold at_. rewrite <- drop_drop. apply wordlen_stop.
Qed.

(** The word that starts at [q], if one does, and the words that start from
    [s] up to [s']. *)
Definition word_from (q : nat) : option span :=
  if wordchar (at_ b q) && (bool_decide (q = 0%nat) || negb (wordchar (at_ b (pred q)))) then Some (q, q + wordlen (drop q b))%nat else None.
Definition between (s s' : nat) : list span := omap word_from (seq s (s' - s)).
(** No word extends over [s]. *)
Definition bound (s : nat) : Prop := s = 0%nat \/ wordchar (at_ b (pred s)) = false \/ wordchar (at_ b s) = false.

Lemma between_app (s t u : nat) : (s <= t <= u)%nat -> between s u = between s t ++ between t u.
Proof.
  intros H. unfold between. replace (u - s)%nat with ((t - s) + (u - t))%nat by lia. rewrite seq_app, omap_app. by replace (s + (t - s))%nat with t by lia.
Qed.

Lemma between_none (s s' : nat) : (forall i, (s <= i < s')%nat -> word_from i = None) -> between s s' = [].
Proof.
  intros H. unfold between. assert (Hi : forall n q, (s <= q)%nat -> (q + n <= s' \/ n = 0)%nat -> omap word_from (seq q n) = []).
  { induction n as [|n IH]; intros q Hq Hn; [done|]. cbn [seq omap list_omap]. rewrite H by lia. apply IH; lia. }
  apply Hi; lia.
Qed.

Lemma between_nil (s : nat) : between s s = [].
Proof. unfold between. by rewrite Nat.sub_diag. Qed.

Lemma not_wordchar (i : nat) : wordchar (at_ b i) = false -> word_from i = None.
Proof. unfold word_from. by intros ->. Qed.

Lemma spaces_in (l : list Z) (i : nat) : (i < spaces l)%nat -> has whitespace (deref (drop i l)) = true.
Proof.
  revert i. induction l as [|c l IH]; intros i; simpl; [lia|]. destruct (has whitespace c) eqn:E; [|lia].
  destruct i as [|i]; simpl; [done|]. intros Hi. apply IH. lia.
Qed.

Lemma skip_space (s i : nat) : (s <= i < skip b s)%nat -> wordchar (at_ b i) = false.
Proof.
  intros Hi. unfold skip in Hi. pose proof (spaces_in (drop s b) (i - s) ltac:(lia)) as H. rewrite drop_drop in H.
  replace (s + (i - s))%nat with i in H by lia. unfold at_. rewrite wordchar_has, H. by rewrite andb_false_r.
Qed.

Lemma skip_words (s : nat) : (s <= length b)%nat -> bound s -> bound (skip b s) /\ between s (skip b s) = [].
Proof.
  intros Hs Hbd. pose proof (skip_bounds s Hs) as H. split.
  - destruct (decide (skip b s = s)) as [->|]; [done|]. right. left. apply (skip_space s). lia.
  - apply between_none. intros i Hi. by apply not_wordchar, (skip_space s).
Qed.

(** A word is read as one token. *)
Lemma word_words (q : nat) :
  (q <= length b)%nat -> bound q -> wordchar (at_ b q) = true ->
  bound (q + wordlen (drop q b)) /\ between q (q + wordlen (drop q b)) = [(q, q + wordlen (drop q b))%nat].
Proof.
  intros Hq Hbd Hc. destruct (wordlen_word q Hq Hc) as [H1 _ H3 H4]. cbn [fst snd] in *. set (e := (q + wordlen (drop q b))%nat) in *.
  split; [by right; right|]. rewrite (between_app q (S q)) by lia.
  assert (E : between q (S q) = [(q, e)]).
  { unfold between. replace (S q - q)%nat with 1%nat by lia. cbn [seq omap list_omap]. unfold word_from. rewrite Hc. fold e.
    destruct Hbd as [-> |[Hp|Hp]]; [done| |congruence]. rewrite Hp. by rewrite orb_true_r. }
  rewrite E, between_none; [done|]. intros i Hi. unfold word_from. rewrite (H3 (pred i)) by lia.
  rewrite bool_decide_eq_false_2 by lia. by rewrite andb_false_r.
Qed.

(** A symbol is no part of a word. *)
Lemma symbol_words (q : nat) : wordchar (at_ b q) = false -> bound (S q) /\ between q (S q) = [].
Proof.
  intros Hc. split; [by right; left|]. apply between_none. intros i Hi. replace i with q by lia. by apply not_wordchar.
Qed.

(** gettoken advances unless it is at the end of the line, and the words it
    passes are the word it returns. *)
Lemma gettoken_returns (s : nat) :
  (s <= length b)%nat -> bound s ->
  returns (gettoken b) s (λ '(tok, w) s',
    (s <= s' <= length b)%nat /\ (at_ b (skip b s) ≠ 0 -> (s < s')%nat) /\
    (tok = 97 -> word_at b w) /\ (tok = 0 <-> at_ b (skip b s) = 0) /\
    bound s' /\ between s s' = (if tok =? 97 then [w] else []) /\
    (at_ b (skip b s) ∈ symbols -> tok ≠ 97) /\ (at_ b (skip b s) ∈ [60; 62] -> tok ∈ [60; 62; 43])).
Proof.
  intros Hs Hbd. pose proof (skip_bounds s Hs) as H1. destruct (skip_words s Hs Hbd) as [Hbq Hq].
  unfold returns, gettoken. set (q := skip b s) in *.
  assert (Hend : forall e l, (q <= e <= length b)%nat -> bound e -> between q e = l -> bound (skip b e) /\ between s (skip b e) = l).
  { intros e l He Hbe Hl. pose proof (skip_bounds e ltac:(lia)). destruct (skip_words e ltac:(lia) Hbe) as [H2 H3].
    split; [done|]. by rewrite (between_app s q), Hq, (between_app q e), Hl, H3, app_nil_r by lia. }
  assert (Hsym : forall c, at_ b c ∈ symbols -> wordchar (at_ b c) = false).
  { intros c Hc. unfold wordchar. apply bool_decide_eq_false. unfold symbols in Hc. set_solver. }
  destruct (decide (at_ b q = 0)) as [E|E].
  { rewrite E. simpl. pose proof (skip_bounds q) as H2. destruct (Hend q [] ltac:(lia) Hbq (between_nil q)) as [? ?].
    split_and!; try done; try lia; set_solver. }
  pose proof (proj1 (at_nonzero q) E) as Hlt. rewrite (proj2 (Z.eqb_neq _ 0)) by done.
  destruct (_ || _) eqn:E1; [|destruct (_ =? 62) eqn:E2; [destruct (at_ b (S q) =? 62) eqn:E3|]].
  - pose proof (skip_bounds (S q)). rewrite !orb_true_iff, !Z.eqb_eq in E1.
    destruct (symbol_words q) as [B1 B2]; [apply Hsym; unfold symbols; set_solver|]. destruct (Hend (S q) [] ltac:(lia) B1 B2) as [? Hw].
    rewrite (proj2 (Z.eqb_neq _ 97)) by lia. split_and!; try done; try lia; set_solver.
  - apply Z.eqb_eq in E2, E3. assert (S q < length b)%nat by (apply at_nonzero; lia).
    pose proof (skip_bounds (S (S q))). destruct (symbol_words q) as [B1 B2]; [apply Hsym; unfold symbols; set_solver|].
    destruct (symbol_words (S q)) as [B3 B4]; [apply Hsym; unfold symbols; set_solver|].
    destruct (Hend (S (S q)) [] ltac:(lia) B3) as [? Hw]; [by rewrite (between_app q (S q)), B2, B4 by lia|].
    split_and!; try done; try lia. intros _. set_solver.
  - apply Z.eqb_eq in E2. pose proof (skip_bounds (S q)). destruct (symbol_words q) as [B1 B2]; [apply Hsym; unfold symbols; set_solver|].
    destruct (Hend (S q) [] ltac:(lia) B1 B2) as [? Hw]. rewrite (proj2 (Z.eqb_neq _ 97)) by lia.
    split_and!; try done; try lia; set_solver.
  - assert (Hsy : has symbols (at_ b q) = false).
    { unfold has, symbols, strchr. rewrite !(Z.eqb_sym _ (at_ b q)).
      rewrite !orb_false_iff in E1. destruct E1 as [[[[[? ?] ?] ?] ?] ?]. repeat case_match; congruence. }
    assert (Hwc : wordchar (at_ b q) = true).
    { rewrite wordchar_has. rewrite (proj2 (Z.eqb_neq _ 0)) by done. unfold q at 1. rewrite skip_stop. fold q. by rewrite Hsy. }
    pose proof (wordlen_word q ltac:(lia) Hwc) as Hw. destruct (word_words q ltac:(lia) Hbq Hwc) as [B1 B2].
    destruct (Hend (q + wordlen (drop q b))%nat _ ltac:(destruct Hw; simpl in *; lia) B1 B2) as [? ?].
    assert (Hns : at_ b q ∉ symbols) by (rewrite <- has_elem, Hsy; [done|repeat constructor; discriminate]).
    destruct Hw as [Hw1 Hw2 Hw3 Hw4]. simpl in *. pose proof (skip_bounds (q + wordlen (drop q b)) Hw2).
    split_and!; try done; try lia. intros Hin. exfalso. apply Hns. unfold symbols. set_solver.
Qed.

Lemma peek_returns (toks : list Z) (s : nat) :
  (s <= length b)%nat -> bound s ->
  returns (peek b toks) s (λ r s',
    (s <= s' <= length b)%nat /\ s' = skip b s' /\ (r = true -> at_ b s' ≠ 0 /\ has toks (at_ b s') = true) /\ bound s' /\ between s s' = []).
Proof.
  intros Hs Hbd. pose proof (skip_bounds s Hs). destruct (skip_words s Hs Hbd) as [? ?]. unfold returns, peek. rewrite skip_idem.
  split_and!; [lia.. | done | |done|done]. intros [Ht ?]%andb_true_iff. split; [|done]. intros E. unfold truth in Ht. by rewrite E in Ht.
Qed.
End Tokens.

(** ** The grammar functions return, with words of the line *)
Fixpoint cmd_ok (b : list Z) (c : cmd span) : Prop :=
  match c with
  | EXEC argv => Forall (word_at b) argv /\ (length argv < MAXARGS)%nat
  | REDIR c f _ _ => cmd_ok b c /\ word_at b f
  | PIPE l r | LIST l r => cmd_ok b l /\ cmd_ok b r
  | BACK c => cmd_ok b c
  end.
(** The words of a command. *)
Fixpoint words {A} (c : cmd A) : list A :=
  match c with
  | EXEC argv => argv
  | REDIR c f _ _ => words c ++ [f]
  | PIPE l r | LIST l r => words l ++ words r
  | BACK c => words c
  end.

(** [ret] adds the words [ws] to a command. *)
Definition wrap_ok (b : list Z) (ret : cmd span -> cmd span) (ws : list span) : Prop :=
  forall c, cmd_ok b c -> cmd_ok b (ret c) /\ words (ret c) ≡ₚ words c ++ ws.

Lemma redircmd_ok (b : list Z) (c : cmd span) (tok : Z) (f : span) :
  cmd_ok b c -> word_at b f -> tok ∈ [60; 62; 43] -> cmd_ok b (redircmd c tok f) /\ words (redircmd c tok f) = words c ++ [f].
Proof. intros Hc Hf Ht. repeat apply elem_of_cons in Ht as [->|Ht]; [by split..|]. by apply elem_of_nil in Ht. Qed.

Section Grammar.
Context (b : list Z) (Hb : nonul b).
Notation L := (length b).

(** From [s] the parser got to [s'], and what it built satisfies [P] of the
    words it passed. *)
Definition after {A} (s : nat) (P : A -> list span -> Prop) (a : A) (s' : nat) : Prop :=
  (s <= s' <= L)%nat /\ bound b s' /\ P a (between b s s').

(** The rest of a parser that has got from [s] to [s1]. *)
Lemma after_from {A} (s s1 : nat) (ws : list span) (P P1 : A -> list span -> Prop) (p : parser A) :
  returns p s1 (after s1 P1) -> (s <= s1)%nat -> between b s s1 = ws ->
  (forall a us, P1 a us -> P a (ws ++ us)) -> returns p s1 (after s P).
Proof.
  intros H Hs Hws HP. eapply returns_mono; [exact H|]. intros a u (? & ? & Hu). split; [lia|]. split; [done|].
  rewrite (between_app b s s1), Hws by lia. by apply HP.
Qed.

Lemma peek_then {B} (toks : list Z) (s : nat) (f : bool -> parser B) (Q : B -> nat -> Prop) :
  (s <= L)%nat -> bound b s ->
  (forall r s', (s <= s' <= L)%nat -> s' = skip b s' -> (r = true -> at_ b s' ≠ 0 /\ has toks (at_ b s') = true) ->
     bound b s' -> between b s s' = [] -> returns (f r) s' Q) ->
  returns (peek b toks ≫= f) s Q.
Proof.
  intros Hs Hbd Hf. eapply returns_bind; [by apply peek_returns|]. intros r s' (? & ? & ? & ? & ?). by apply Hf.
Qed.

(** The symbol behind a successful peek. *)
Lemma token_then {B} (toks : list Z) (s : nat) (f : Z * span -> parser B) (Q : B -> nat -> Prop) :
  (s <= L)%nat -> bound b s -> s = skip b s -> at_ b s ≠ 0 /\ has toks (at_ b s) = true -> nonul toks -> toks ⊆ symbols ->
  (forall t s', (s < s' <= L)%nat -> bound b s' -> between b s s' = [] -> (toks = [60; 62] -> t.1 ∈ [60; 62; 43]) -> returns (f t) s' Q) ->
  returns (gettoken b ≫= f) s Q.
Proof.
  intros Hs Hbd Hk [Ha Hin] Hnn Hsub Hf. eapply returns_bind; [by apply gettoken_returns|].
  intros [tok w] s' (? & H & _ & _ & Hb' & Hw & Hsym & Hred). rewrite <- Hk in *. apply has_elem in Hin; [|done].
  rewrite (proj2 (Z.eqb_neq tok 97)) in Hw by (apply Hsym; by apply Hsub).
  apply Hf; [specialize (H Ha); lia|done|done|]. intros ->. by apply Hred.
Qed.

Ltac set_ok := first [by repeat constructor | by (unfold symbols; set_solver)].

Lemma parseredirs_returns (fuel s : nat) (ret : cmd span -> cmd span) (ws : list span) :
  (s <= L)%nat -> bound b s -> (L - s < fuel)%nat -> wrap_ok b ret ws ->
  returns (parseredirs fuel b ret) s (after s (λ ret' us, wrap_ok b ret' (ws ++ us))).
Proof.
  revert s ret ws. induction fuel as [|fuel IH]; intros s ret ws Hs Hbd Hf Hret; [lia|]. cbn [parseredirs].
  apply peek_then; [done|done|]. intros [] s1 H1 Hk Ha Hb1 Hw1; [|split_and!; [lia|lia|done|by rewrite Hw1, app_nil_r]].
  apply (token_then [60; 62]); [lia|done|done|by apply Ha|set_ok|set_ok|]. intros [tok w] s2 H2 Hb2 Hw2 Htok.
  eapply returns_bind; [apply gettoken_returns; [done|lia|done]|].
  intros [tok2 f] s3 (H3 & _ & Hw & _ & Hb3 & Hw3 & _). destruct (tok2 =? 97) eqn:E; [|done]. apply Z.eqb_eq in E.
  apply (after_from s s3 [f] _ (λ ret' us, wrap_ok b ret' ((ws ++ [f]) ++ us))); [apply IH; [lia|done|lia|]|lia| |].
  - intros c Hc. destruct (Hret c Hc) as [Hc1 Hp1]. destruct (redircmd_ok b (ret c) tok f Hc1 (Hw E) (Htok eq_refl)) as [? ->].
    split; [done|]. by rewrite Hp1, app_assoc.
  - by rewrite (between_app b s s1), Hw1, (between_app b s1 s2), Hw2, Hw3 by lia.
  - intros ret' us. by rewrite app_assoc.
Qed.

Lemma parseargs_returns (fuel s : nat) (argv : list span) (ret : cmd span -> cmd span) (ws : list span) :
  (s <= L)%nat -> bound b s -> (L - s < fuel)%nat -> wrap_ok b ret ws ->
  Forall (word_at b) argv -> (length argv < MAXARGS)%nat ->
  returns (parseargs fuel b argv ret) s (after s (λ c us, cmd_ok b c /\ words c ≡ₚ argv ++ ws ++ us)).
Proof.
  revert s argv ret ws. induction fuel as [|fuel IH]; intros s argv ret ws Hs Hbd Hf Hret Hw Hn; [lia|].
  cbn [parseargs]. assert (Hend : forall s', (s <= s' <= L)%nat -> bound b s' -> between b s s' = [] ->
    returns (mret (ret (EXEC argv))) s' (after s (λ c us, cmd_ok b c /\ words c ≡ₚ argv ++ ws ++ us))).
  { intros s' H' Hb' Hw'. split; [lia|]. split; [done|]. rewrite Hw', app_nil_r. by apply (Hret (EXEC argv)). }
  apply peek_then; [done|done|]. intros [] s1 H1 Hk _ Hb1 Hw1; [by apply Hend|].
  eapply returns_bind; [apply gettoken_returns; [done|lia|done]|].
  intros [tok w] s2 (H2 & Hadv & Hww & H0 & Hb2 & Hw2 & _). rewrite <- Hk in *.
  assert (Hw12 : between b s s2 = if tok =? 97 then [w] else []) by (by rewrite (between_app b s s1), Hw1, Hw2 by lia).
  destruct (Z.eqb_spec tok 0) as [->|E0]; [apply Hend; [lia|done|done]|]. destruct (Z.eqb_spec tok 97) as [E|]; simpl; [|done].
  case_decide as Hmax; [done|]. rewrite length_app in Hmax. simpl in Hmax.
  assert (s1 < s2)%nat by (apply Hadv; naive_solver).
  eapply returns_bind; [apply (parseredirs_returns fuel s2 ret ws); [lia|done|lia|done]|].
  intros ret' s3 (H3 & Hb3 & Hret').
  eapply (after_from s s3 (w :: between b s2 s3)); [apply (IH s3 (argv ++ [w]) ret' (ws ++ between b s2 s3)); try done|lia| |].
  - lia.
  - lia.
  - apply Forall_app. split; [done|]. constructor; [by apply Hww | constructor].
  - rewrite length_app. simpl. lia.
  - by rewrite (between_app b s s2), Hw12 by lia.
  - intros c us [Hc Hp]. split; [done|]. rewrite Hp. simpl. rewrite <- !app_assoc. simpl. by rewrite (Permutation_middle ws).
Qed.

Lemma parseback_returns (fuel s : nat) (c : cmd span) :
  (s <= L)%nat -> bound b s -> (L - s < fuel)%nat -> cmd_ok b c ->
  returns (parseback fuel b c) s (after s (λ c' us, cmd_ok b c' /\ words c' = words c /\ us = [])).
Proof.
  revert s c. induction fuel as [|fuel IH]; intros s c Hs Hbd Hf Hc; [lia|]. cbn [parseback].
  apply peek_then; [done|done|]. intros [] s1 H1 Hk Ha Hb1 Hw1; [|split_and!; [lia|lia|done|done|done|done]].
  apply (token_then [38]); [lia|done|done|by apply Ha|set_ok|set_ok|]. intros t s2 H2 Hb2 Hw2 _.
  eapply (after_from s s2 []); [apply (IH s2 (BACK c)); [lia|done|lia|done]|lia| |done].
  by rewrite (between_app b s s1), Hw1, Hw2 by lia.
Qed.

(** The bound on the depth of the calls from a position. *)
Definition depth (s k : nat) : nat := (4 * (L - s) + k)%nat.
(** A command with exactly the words passed. *)
Definition built (c : cmd span) (us : list span) : Prop := cmd_ok b c /\ words c ≡ₚ us.

Lemma parseline_step (fuel s : nat) :
  (s <= L)%nat -> bound b s -> (depth s 4 <= S fuel)%nat ->
  returns (parsepipe fuel b) s (after s built) ->
  (forall s', (s < s' <= L)%nat -> bound b s' -> returns (parseline fuel b) s' (after s' built)) ->
  returns (parseline (S fuel) b) s (after s built).
Proof.
  unfold depth. intros Hs Hbd Hf Hp Hl. cbn [parseline].
  eapply returns_bind; [exact Hp|]. intros c s1 (H1 & Hb1 & Hc & Hpc).
  eapply returns_bind; [apply parseback_returns; [lia|done|lia|done]|]. intros c' s2 (H2 & Hb2 & Hc' & Ew & Hw2).
  apply peek_then; [lia|done|]. intros [] s3 H3 Hk Ha Hb3 Hw3.
  - apply (token_then [59]); [lia|done|done|by apply Ha|set_ok|set_ok|]. intros t s4 H4 Hb4 Hw4 _.
    eapply returns_bind; [apply Hl; [lia|done]|]. intros r s5 (H5 & Hb5 & Hr & Hpr). split; [lia|]. split; [done|].
    split; [by split|]. simpl. rewrite Ew, Hpc, Hpr.
    by rewrite (between_app b s s1 s5), (between_app b s1 s2 s5), Hw2, (between_app b s2 s3 s5), Hw3, (between_app b s3 s4 s5), Hw4 by lia.
  - split; [lia|]. split; [done|]. split; [done|]. rewrite Ew, Hpc.
    by rewrite (between_app b s s1 s3), (between_app b s1 s2 s3), Hw2, Hw3, app_nil_r by lia.
Qed.

Lemma parsepipe_step (fuel s : nat) :
  (s <= L)%nat -> bound b s ->
  returns (parseexec fuel b) s (after s built) ->
  (forall s', (s < s' <= L)%nat -> bound b s' -> returns (parsepipe fuel b) s' (after s' built)) ->
  returns (parsepipe (S fuel) b) s (after s built).
Proof.
  intros Hs Hbd He Hp. cbn [parsepipe].
  eapply returns_bind; [exact He|]. intros c s1 (H1 & Hb1 & Hc & Hpc).
  apply peek_then; [lia|done|]. intros [] s3 H3 Hk Ha Hb3 Hw3.
  - apply (token_then [124]); [lia|done|done|by apply Ha|set_ok|set_ok|]. intros t s4 H4 Hb4 Hw4 _.
    eapply returns_bind; [apply Hp; [lia|done]|]. intros r s5 (H5 & Hb5 & Hr & Hpr). split; [lia|]. split; [done|].
    split; [by split|]. simpl. rewrite Hpc, Hpr.
    by rewrite (between_app b s s1 s5), (between_app b s1 s3 s5), Hw3, (between_app b s3 s4 s5), Hw4 by lia.
  - split; [lia|]. split; [done|]. split; [done|]. rewrite Hpc. by rewrite (between_app b s s1 s3), Hw3, app_nil_r by lia.
Qed.

Lemma wrap_id : wrap_ok b (λ c, c) [].
Proof. intros c Hc. split; [done|]. by rewrite app_nil_r. Qed.

Lemma parseexec_step (fuel s : nat) :
  (s <= L)%nat -> bound b s ->
  (forall s', (s <= s' <= L)%nat -> bound b s' -> returns (parseblock fuel b) s' (after s' built)) ->
  returns (parseexec (S fuel) b) s (after s built).
Proof.
  intros Hs Hbd Hblk. cbn [parseexec].
  apply peek_then; [lia|done|]. intros [] s1 H1 Hk Ha Hb1 Hw1.
  { eapply (after_from s s1 []); [by apply Hblk|lia|done|done]. }
  eapply returns_bind; [apply (parseredirs_returns _ s1 _ []); [lia|done|lia|apply wrap_id]|]. intros ret s2 (H2 & Hb2 & Hret).
  eapply (after_from s s2 (between b s1 s2)); [apply (parseargs_returns _ s2 [] ret (between b s1 s2)); [lia|done|lia|exact Hret|constructor|simpl; unfold MAXARGS; lia]|lia| |].
  - by rewrite (between_app b s s1 s2), Hw1 by lia.
  - intros c us [Hc Hp]. split; [done|]. exact Hp.
Qed.

Lemma parseblock_step (fuel s : nat) :
  (s <= L)%nat -> bound b s ->
  (forall s', (s < s' <= L)%nat -> bound b s' -> returns (parseline fuel b) s' (after s' built)) ->
  returns (parseblock (S fuel) b) s (after s built).
Proof.
  intros Hs Hbd Hl. cbn [parseblock].
  apply peek_then; [lia|done|]. intros [] s1 H1 Hk Ha Hb1 Hw1; [|done]. cbn [negb].
  apply (token_then [40]); [lia|done|done|by apply Ha|set_ok|set_ok|]. intros t s2 H2 Hb2 Hw2 _.
  eapply returns_bind; [apply Hl; [lia|done]|]. intros c s3 (H3 & Hb3 & Hc & Hpc).
  apply peek_then; [lia|done|]. intros [] s4 H4 Hk4 Ha4 Hb4 Hw4; [|done]. cbn [negb].
  apply (token_then [41]); [lia|done|done|by apply Ha4|set_ok|set_ok|]. intros t' s5 H5 Hb5 Hw5 _.
  eapply returns_bind; [apply (parseredirs_returns _ s5 _ []); [lia|done|lia|apply wrap_id]|]. intros ret s6 (H6 & Hb6 & Hret).
  destruct (Hret c Hc) as [Hc' Hp']. split; [lia|]. split; [done|]. split; [done|]. rewrite Hp', Hpc. simpl.
  by rewrite (between_app b s s1 s6), Hw1, (between_app b s1 s2 s6), Hw2, (between_app b s2 s3 s6), (between_app b s3 s4 s6), Hw4,
    (between_app b s4 s5 s6), Hw5 by lia.
Qed.

Lemma grammar_returns (fuel : nat) :
  (forall s, (s <= L)%nat -> bound b s -> (depth s 4 <= fuel)%nat -> returns (parseline fuel b) s (after s built)) /\
  (forall s, (s <= L)%nat -> bound b s -> (depth s 3 <= fuel)%nat -> returns (parsepipe fuel b) s (after s built)) /\
  (forall s, (s <= L)%nat -> bound b s -> (depth s 2 <= fuel)%nat -> returns (parseexec fuel b) s (after s built)) /\
  (forall s, (s <= L)%nat -> bound b s -> (depth s 1 <= fuel)%nat -> returns (parseblock fuel b) s (after s built)).
Proof.
  induction fuel as [|fuel (IHl & IHp & IHe & IHb)]; [unfold depth; split_and!; intros; lia|].
  split_and!; intros s Hs Hbd Hf; unfold depth in *.
  - apply parseline_step; [done|done|done|apply IHp; [done|done|lia]|]. intros s' Hs' Hb'. apply IHl; [lia|done|lia].
  - apply parsepipe_step; [done|done|apply IHe; [done|done|lia]|]. intros s' Hs' Hb'. apply IHp; [lia|done|lia].
  - apply parseexec_step; [done|done|]. intros s' Hs' Hb'. apply IHb; [lia|done|lia].
  - apply parseblock_step; [done|done|]. intros s' Hs' Hb'. apply IHl; [lia|done|lia].
Qed.

(** ** The words of the line *)
Lemma word_from_whole (w : span) : word_from b w.1 = Some w <-> whole_word b w.
Proof.
  destruct w as [q e]. unfold word_from, whole_word. cbn [fst snd]. split.
  - destruct (wordchar (at_ b q)) eqn:Hc; [|done]. cbn [andb]. destruct (_ || _) eqn:Ho; [|done]. intros [= <-].
    split; [|by apply orb_true_iff in Ho as [?%bool_decide_eq_true|?%negb_true_iff]; [left|right]].
    apply wordlen_word; [done| |done]. assert (Hz : at_ b q ≠ 0) by (intros Hz; by rewrite Hz in Hc). apply at_nonzero in Hz; [lia|done].
  - intros [[H1 H2 H3 H4] Hst]. cbn [fst snd] in *. rewrite (H3 q) by lia. cbn [andb].
    destruct (wordlen_word b Hb q ltac:(lia) (H3 q ltac:(lia))) as [W1 W2 W3 W4]. cbn [fst snd] in *.
    replace (bool_decide _ || negb _) with true.
    2:{ symmetry. apply orb_true_iff. destruct Hst as [?|Hst]; [left; by apply bool_decide_eq_true|right; by rewrite Hst]. }
    do 2 f_equal. set (e' := (q + wordlen (drop q b))%nat) in *.
    destruct (lt_eq_lt_dec e' e) as [[Hlt| ->]|Hgt]; [|done|].
    + rewrite (H3 e') in W4 by lia. done.
    + rewrite (W3 e) in H4 by lia. done.
Qed.

Lemma line_words (w : span) : w ∈ between b 0 L <-> whole_word b w.
Proof.
  unfold between. rewrite list_elem_of_omap, <- word_from_whole. split.
  - intros (q & _ & E). assert (w.1 = q) as -> by (unfold word_from in E; destruct (_ && _); by simplify_eq). done.
  - intros E. exists w.1. split; [|done]. apply elem_of_seq. apply word_from_whole in E as [[? ?] _]. lia.
Qed.

Lemma line_words_once : NoDup (between b 0 L).
Proof.
  unfold between. generalize 0%nat (L - 0)%nat. intros s n. revert s. induction n as [|n IH]; intros s; cbn [seq omap list_omap]; [constructor|].
  destruct (word_from b s) as [w|] eqn:E; [|apply IH]. constructor; [|apply IH]. rewrite list_elem_of_omap. intros (q & Hq & E').
  apply elem_of_seq in Hq. unfold word_from in E, E'. destruct (_ && _) in E; destruct (_ && _) in E'; simplify_eq. lia.
Qed.
End Grammar.

(** ** nulterminate *)
Lemma nulterminate_words (c : cmd span) (b : list Z) :
  nulterminate b c = foldl (λ b w, put0 b w.2) b (words c).
Proof.
  revert b. induction c as [argv|c IH f m fd|l IHl r IHr|l IHl r IHr|c IH]; intros b; simpl; try done;
    rewrite foldl_app, <- ?IH, <- ?IHl, <- ?IHr; done.
Qed.

Lemma cmd_ok_words (b : list Z) (c : cmd span) : cmd_ok b c -> Forall (word_at b) (words c).
Proof.
  induction c as [argv|c IH f m fd|l IHl r IHr|l IHl r IHr|c IH]; simpl; intros H; [apply H | | | | by apply IH];
    destruct H as [H1 H2]; apply Forall_app; split; auto.
Qed.

Lemma cmd_map_ext {A B} (f g : A -> B) (c : cmd A) :
  Forall (λ w, f w = g w) (words c) -> cmd_map f c = cmd_map g c.
Proof.
  induction c as [argv|c IH w m fd|l IHl r IHr|l IHl r IHr|c IH]; simpl; rewrite ?Forall_app; intros H.
  - f_equal. by apply map_ext_Forall.
  - destruct H as [H1 H2]. inversion H2. rewrite IH by done. congruence.
  - destruct H. by rewrite IHl, IHr.
  - destruct H. by rewrite IHl, IHr.
  - by rewrite IH.
Qed.

(** [b'] is [b] with some bytes outside the words zeroed. *)
Definition zeroed (b b' : list Z) : Prop :=
  length b' = length b /\ forall i, at_ b' i = at_ b i \/ at_ b' i = 0 /\ wordchar (at_ b i) = false.

Lemma at_put0 (b : list Z) (i j : nat) : at_ (put0 b j) i = if decide (i = j) then 0 else at_ b i.
Proof.
  rewrite !at_lookup. unfold put0. case_decide as E; [subst|by rewrite list_lookup_insert_ne].
  destruct (decide (j < length b)%nat) as [H|H].
  - by rewrite list_lookup_insert_eq.
  - by rewrite list_insert_ge, lookup_ge_None_2 by lia.
Qed.

Lemma put0s_zeroed (b : list Z) (ws : list span) (b' : list Z) :
  Forall (word_at b) ws -> zeroed b b' -> zeroed b (foldl (λ b w, put0 b w.2) b' ws).
Proof.
  intros Hws. revert b'. induction Hws as [|w ws Hw _ IH]; intros b' Hz; simpl; [done|].
  apply IH. destruct Hz as [Hl Hz]. split; [unfold put0; by rewrite length_insert|].
  intros i. rewrite at_put0. case_decide as E; [subst|apply Hz]. right. split; [done | apply Hw].
Qed.

Lemma put0s_zero (ws : list span) (w : span) (b : list Z) :
  w ∈ ws \/ at_ b w.2 = 0 -> at_ (foldl (λ b w, put0 b w.2) b ws) w.2 = 0.
Proof.
  revert b. induction ws as [|w' ws IH]; intros b H; simpl.
  { destruct H as [H|H]; [by apply elem_of_nil in H | done]. }
  apply IH. rewrite at_put0. rewrite elem_of_cons in H. case_decide; [by right|].
  destruct H as [[->|H]|H]; [done | by left | by right].
Qed.

Lemma string_of_app (u v : list Z) : nonul u -> deref v = 0 -> string_of (u ++ v) = u.
Proof.
  intros Hu Hv. unfold string_of. induction Hu as [|c u Hc Hu IH]; simpl.
  - destruct v as [|c v]; [done|]. simpl in *. by subst.
  - rewrite (proj2 (Z.eqb_neq c 0)) by done.
    assert (0 <= strlen (u ++ v)) by (clear; induction (u ++ v); simpl; [lia | case_match; lia]).
    rewrite Z2Nat.inj_add by lia. simpl. by rewrite IH.
Qed.

Lemma at_list (l l' : list Z) : length l = length l' -> (forall i, at_ l i = at_ l' i) -> l = l'.
Proof.
  intros Hl H. apply list_eq_same_length with (length l); [done..|].
  intros i x y _ Hx Hy. specialize (H i). rewrite !at_lookup, Hx, Hy in H. done.
Qed.

Lemma at_take (l : list Z) (n i : nat) : (i < n)%nat -> at_ (take n l) i = at_ l i.
Proof. intros H. by rewrite !at_lookup, lookup_take_lt. Qed.

Lemma string_at_slice (b b' : list Z) (w : span) :
  word_at b w -> zeroed b b' -> at_ b' w.2 = 0 -> string_at b' w = slice b w.
Proof.
  intros [Hlt Hle Hin Hend] [Hl Hz] H0. unfold string_at, slice.
  assert (take (w.2 - w.1) (drop w.1 b') = take (w.2 - w.1) (drop w.1 b)) as Ht.
  { apply at_list; [by rewrite !length_take, !length_drop, Hl|]. intros i.
    destruct (decide (i < w.2 - w.1)%nat) as [Hi|Hi].
    - rewrite !at_take by done. unfold at_. rewrite !drop_drop.
      destruct (Hz (w.1 + i)%nat) as [H|[_ H]]; [done|]. rewrite Hin in H by lia. done.
    - rewrite !at_end; [done | rewrite length_take; lia..]. }
  rewrite <- (take_drop (w.2 - w.1) (drop w.1 b')), Ht, drop_drop. apply string_of_app.
  - apply Forall_lookup. intros i c Hc. assert (i < w.2 - w.1)%nat as Hi.
    { apply lookup_lt_Some in Hc. rewrite length_take in Hc. lia. }
    rewrite lookup_take_lt, lookup_drop in Hc by done. specialize (Hin (w.1 + i)%nat ltac:(lia)).
    rewrite at_lookup, Hc in Hin. simpl in Hin. intros ->. done.
  - replace (w.1 + (w.2 - w.1))%nat with w.2 by lia. done.
Qed.

Lemma nulterminate_strings (b : list Z) (c : cmd span) :
  cmd_ok b c -> cmd_map (string_at (nulterminate b c)) c = cmd_map (slice b) c.
Proof.
  intros Hc%cmd_ok_words. apply cmd_map_ext. rewrite nulterminate_words.
  apply list.Forall_forall. intros w Hw. rewrite list.Forall_forall in Hc.
  apply string_at_slice; [by apply Hc | | by apply put0s_zero; left].
  apply put0s_zeroed; [by apply list.Forall_forall|]. split; [done | by left].
Qed.

(** C24: The parser of the shell returns on every line: it either reports a
    syntax error or builds a command.  Then the words of the command, the
    arguments and the files of its redirections, are exactly the maximal runs of
    word characters of the line, each once; no command has more than nine words;
    and, after the NULs are stored, the string each pointer denotes is exactly
    its run, though all the strings share the line's buffer. *)
Theorem parsecmd_returns (b : list Z) :
  nonul b ->
  (exists m, parsecmd b = Failed m) \/
  (exists c b', parsecmd b = Parsed (c, b') (length b) /\ cmd_ok b c /\
     (forall w, w ∈ words c <-> whole_word b w) /\ NoDup (words c) /\
     cmd_map (string_at b') c = cmd_map (slice b) c).
Proof.
  intros Hb. destruct (grammar_returns b Hb (parse_fuel b)) as [H _].
  specialize (H O ltac:(lia) ltac:(by left)). unfold returns, depth, parse_fuel in *. specialize (H ltac:(lia)).
  unfold parsecmd, mbind, parser_bind, parse_fuel. destruct (parseline _ b O) as [c s|m|]; [|by left; eexists|done].
  destruct H as (Hs & Hbd & Hc & Hp). simpl. unfold finish. case_decide as E; [|by left; eexists].
  assert (Hall : words c ≡ₚ between b 0 (length b)).
  { rewrite Hp, <- E. destruct (skip_words b s ltac:(lia) Hbd) as [_ Hw]. pose proof (skip_bounds b s ltac:(lia)).
    by rewrite (between_app b 0 s (skip b s)), Hw, app_nil_r by lia. }
  right. exists c, (nulterminate b c). rewrite E. split_and!; [done | done | | |by apply nulterminate_strings].
  - intros w. rewrite Hall. by apply line_words.
  - rewrite Hall. apply line_words_once.
Qed.

(** [ls|wc >o] and the unbalanced [(]. *)
Lemma parsecmd_returns_witness :
  (exists m, parsecmd (msg "(") = Failed m) /\
  exists c b', parsecmd (msg "ls|wc >o") = Parsed (c, b') (length (msg "ls|wc >o")) /\ words c = [(0, 2); (3, 5); (7, 8)]%nat /\
    whole_word (msg "ls|wc >o") (3, 5)%nat /\
    cmd_map (string_at b') c = PIPE (EXEC [msg "ls"]) (REDIR (EXEC [msg "wc"]) (msg "o") (Z.lor O_WRONLY O_CREATE) 1).
Proof.
  assert (nonul (msg "ls|wc >o")) as H by (repeat constructor; discriminate).
  split; [eexists; vm_compute; reflexivity|]. destruct (parsecmd_returns _ H) as [[m E]|(c & b' & E & _ & Hw & _ & Hm)]; [vm_compute in E; discriminate|].
  exists c, b'. rewrite Hm. assert (c = PIPE (EXEC [(0, 2)]) (REDIR (EXEC [(3, 5)]) (7, 8) (Z.lor O_WRONLY O_CREATE) 1))%nat as ->
    by (vm_compute in E; injection E as <- _; reflexivity).
  split; [exact E|]. split; [reflexivity|]. split; [|reflexivity]. apply Hw. cbn. right. left.
Defined.

(** ** Printing a command *)
Inductive token := TWord (w : list Z) | TSym (c : Z).
Definition text (t : token) : list Z := match t with TWord w => w | TSym c => [c] end.
(** A space after each token. *)
Definition unlex (ts : list token) : list Z := concat (map (λ t, text t ++ [32]) ts).

(** The level of the grammar that produces a command: an exec or a block, a
    pipe, a sequence of [&]s, a list. *)
Definition level {A} (c : cmd A) : nat :=
  match c with EXEC _ | REDIR _ _ _ _ => 0 | PIPE _ _ => 1 | BACK _ => 2 | LIST _ _ => 3 end%nat.
Definition redir_sym (fd : Z) : Z := if fd =? 0 then 60 else 62.
(** The tokens of a command where level [k] is expected, in parentheses when
    its own is higher. *)
Fixpoint tokens (k : nat) (c : cmd (list Z)) : list token :=
  let own :=
    match c with
    | EXEC argv => map TWord argv
    | REDIR c f _ fd => tokens 0 c ++ [TSym (redir_sym fd); TWord f]
    | PIPE l r => tokens 0 l ++ TSym 124 :: tokens 1 r
    | LIST l r => tokens 2 l ++ TSym 59 :: tokens 3 r
    | BACK c => tokens 2 c ++ [TSym 38]
    end in
  if decide (level c <= k)%nat then own else TSym 40 :: own ++ [TSym 41].
Definition print (c : cmd (list Z)) : list Z := unlex (tokens 3 c).

Definition word_ok (w : list Z) : Prop := w ≠ [] /\ Forall (λ c, wordchar c = true) w.
(** The commands the grammar can express. *)
Fixpoint expressible (c : cmd (list Z)) : Prop :=
  match c with
  | EXEC argv => Forall word_ok argv /\ (length argv < MAXARGS)%nat
  | REDIR c f m fd =>
      expressible c /\ word_ok f /\ (m = O_RDONLY /\ fd = 0 \/ m = Z.lor O_WRONLY O_CREATE /\ fd = 1)
  | PIPE l r | LIST l r => expressible l /\ expressible r
  | BACK c => expressible c
  end.

Definition token_ok (t : token) : Prop :=
  match t with TWord w => word_ok w | TSym c => has symbols c = true end.
Definition code (t : token) : Z := match t with TWord _ => 97 | TSym c => c end.
(** Whether the next token is one of some symbols. *)
Definition next_in (set : list Z) (ts : list token) : bool :=
  match ts with TSym c :: _ => has set c | _ => false end.
Definition redir_tokens (rs : list (Z * list Z)) : list token :=
  rs ≫= λ r, [TSym r.1; TWord r.2].
Definition redirect (c : cmd (list Z)) (r : Z * list Z) : cmd (list Z) := redircmd c r.1 r.2.
Definition redir_ok (r : Z * list Z) : Prop := (r.1 = 60 \/ r.1 = 62) /\ word_ok r.2.

Lemma cmd_map_redircmd {A B} (f : A -> B) (c : cmd A) (tok : Z) (w : A) :
  cmd_map f (redircmd c tok w) = redircmd (cmd_map f c) tok (f w).
Proof. unfold redircmd. by repeat case_match. Qed.

Lemma symbols_nonul : nonul symbols.
Proof. repeat constructor; discriminate. Qed.

Lemma symbol_cases (P : Z -> Prop) (c : Z) :
  Forall P symbols -> has symbols c = true -> P c.
Proof. intros HP H. apply has_elem in H; [|apply symbols_nonul]. rewrite list.Forall_forall in HP. by apply HP. Qed.

Lemma text_head (t : token) :
  token_ok t -> exists c l, text t = c :: l /\ c ≠ 0 /\ has whitespace c = false.
Proof.
  destruct t as [w|c]; simpl.
  - intros [Hne Hw]. destruct Hw as [|c l Hc _]; [done|]. exists c, l. split; [done|].
    rewrite wordchar_has in Hc. rewrite !andb_true_iff, !negb_true_iff, Z.eqb_neq in Hc. naive_solver.
  - intros H. exists c, []. split; [done|]. pattern c. apply (symbol_cases _ c); [by repeat constructor | done].
Qed.

Section Stream.
Context (b : list Z).

(** The rest of the line at [s] is the text of the tokens [ts]. *)
Record stream (s : nat) (ts : list token) : Prop := {
  st_text : drop s b = unlex ts;
  st_ok : Forall token_ok ts;
  st_le : (s <= length b)%nat
}.

Lemma stream_skip (s : nat) (ts : list token) : stream s ts -> skip b s = s.
Proof.
  intros [Ht Hok _]. unfold skip. rewrite Ht. destruct Hok as [|t ts Hok _]; simpl; [lia|].
  destruct (text_head t Hok) as (c & l & Hc & _ & Hws). unfold unlex. simpl. rewrite Hc. simpl. rewrite Hws. lia.
Qed.

Lemma wordlen_word_space (w l : list Z) :
  Forall (λ c, wordchar c = true) w -> wordlen (w ++ 32 :: l) = length w.
Proof.
  induction 1 as [|c w Hc _ IH]; simpl; [done|]. rewrite wordchar_has in Hc. rewrite <- andb_assoc in Hc.
  apply andb_true_iff in Hc as [_ ->]. by rewrite IH.
Qed.

(** The token code and its length, from the text at a position. *)
Lemma token_length (t : token) (l : list Z) (s : nat) :
  token_ok t -> drop s b = text t ++ 32 :: l ->
  (let c := at_ b s in
   if c =? 0 then (c, s)
   else if (c =? 124) || (c =? 40) || (c =? 41) || (c =? 59) || (c =? 38) || (c =? 60) then (c, S s)
   else if c =? 62 then if at_ b (S s) =? 62 then (43, S (S s)) else (c, S s)
   else (97, (s + wordlen (drop s b))%nat)) = (code t, (s + length (text t))%nat).
Proof.
  intros Hok Hd. cbv zeta. assert (at_ b s = deref (text t ++ 32 :: l)) as Ha by (unfold at_; by rewrite Hd).
  assert (at_ b (S s) = deref (drop 1 (text t ++ 32 :: l))) as Ha'.
  { unfold at_. rewrite <- Hd, drop_drop. do 2 f_equal. lia. }
  destruct t as [w|c]; simpl in *.
  - destruct Hok as [Hne Hw]. rewrite Hd, wordlen_word_space, Ha by done.
    destruct Hw as [|c w Hc _]; [done|]. simpl. rewrite wordchar_has in Hc.
    rewrite !andb_true_iff, !negb_true_iff in Hc. destruct Hc as [[-> _] Hs].
    unfold has, symbols, strchr in Hs. rewrite !(Z.eqb_sym _ c) in Hs.
    repeat (case_match; try done).
  - rewrite Ha, Ha', Nat.add_1_r. clear -Hok. pattern c. apply (symbol_cases _ c); [by repeat constructor | done].
Qed.

Lemma gettoken_stream (s : nat) (t : token) (ts : list token) :
  stream s (t :: ts) ->
  exists w s', gettoken b s = Parsed (code t, w) s' /\ slice b w = text t /\ stream s' ts /\ (s < s')%nat.
Proof.
  intros H. pose proof (stream_skip s _ H) as Hk. destruct H as [Hd Hok Hle].
  inversion_clear Hok as [|?? Ht Hts]. unfold unlex in Hd. simpl in Hd. fold (unlex ts) in Hd.
  rewrite <- app_assoc in Hd. simpl in Hd.
  pose proof (f_equal length Hd) as Hl. rewrite length_drop, length_app in Hl. simpl in Hl.
  exists (s, s + length (text t))%nat, (S (s + length (text t))).
  assert (drop (s + length (text t)) b = 32 :: unlex ts) as Hd'.
  { rewrite <- drop_drop, Hd. by rewrite drop_app_length. }
  assert (stream (S (s + length (text t))) ts) as Hst.
  { split; [|done|lia]. replace (S (s + length (text t))) with (s + length (text t) + 1)%nat by lia.
    by rewrite <- drop_drop, Hd'. }
  split_and!; [| | done | lia].
  - unfold gettoken. rewrite Hk. pose proof (token_length t (unlex ts) s Ht Hd) as E. cbv zeta in E. rewrite E.
    f_equal. apply stream_skip in Hst as Hst'. unfold skip in *. rewrite Hd'. cbn [spaces].
    change (has whitespace 32) with true. cbv iota. destruct Hst as [Hst _ _]. rewrite Hst in Hst'. lia.
  - unfold slice. simpl. replace (s + length (text t) - s)%nat with (length (text t)) by lia.
    by rewrite Hd, take_app_length.
Qed.

Lemma gettoken_stream_end (s : nat) : stream s [] -> exists w, gettoken b s = Parsed (0, w) s.
Proof.
  intros H. pose proof (stream_skip s _ H) as Hk. destruct H as [Hd _ _]. exists (s, s).
  unfold gettoken. rewrite Hk. unfold at_. rewrite Hd. simpl. by rewrite Hk.
Qed.

Lemma peek_stream (set : list Z) (s : nat) (ts : list token) :
  Forall (λ c, has symbols c = true) set -> stream s ts -> peek b set s = Parsed (next_in set ts) s.
Proof.
  intros Hset H. unfold peek. rewrite (stream_skip s ts H). destruct H as [Hd Hok _].
  f_equal. unfold at_. rewrite Hd. destruct Hok as [|t ts Ht _]; [done|].
  destruct (text_head t Ht) as (c & l & Hc & Hc0 & _). unfold unlex. simpl. rewrite Hc. simpl.
  unfold truth. rewrite (proj2 (Z.eqb_neq c 0)) by done. simpl.
  destruct t as [w|c']; simpl in *; [|congruence]. subst w. destruct Ht as [_ Hw]. inversion_clear Hw as [|?? Hcw _].
  rewrite wordchar_has in Hcw. rewrite !andb_true_iff, !negb_true_iff in Hcw. destruct Hcw as [_ Hs].
  assert (nonul set) as Hn.
  { eapply Forall_impl, Hset. intros x Hx ->. done. }
  destruct (has set c) eqn:E; [|done]. apply has_elem in E; [|done].
  rewrite list.Forall_forall in Hset. rewrite Hset in Hs by done. done.
Qed.
End Stream.

(** ** Parsing what was printed *)
Lemma bind_parsed {A B} (p : parser A) (f : A -> parser B) (s s' : nat) (a : A) :
  p s = Parsed a s' -> (p ≫= f) s = f a s'.
Proof. unfold mbind, parser_bind. by intros ->. Qed.

Section Print.
Context (b : list Z).
Notation L := (length b).
Notation stream := (stream b).

(** [p] consumes a prefix of the tokens and returns the command [c]. *)
Definition parses (p : parser (cmd span)) (s : nat) (c : cmd (list Z)) (ts : list token) : Prop :=
  exists c' s', p s = Parsed c' s' /\ stream s' ts /\ (s <= s')%nat /\ cmd_map (slice b) c' = c.

Definition symbol_set (set : list Z) : Prop := Forall (λ c, has symbols c = true) set.

Lemma peek_then_stream {B} (set : list Z) (f : bool -> parser B) (s : nat) (ts : list token) :
  symbol_set set -> stream s ts -> (peek b set ≫= f) s = f (next_in set ts) s.
Proof. intros Hset H. by apply bind_parsed, peek_stream. Qed.

Lemma token_then_stream {B} (f : Z * span -> parser B) (s : nat) (t : token) (ts : list token) :
  stream s (t :: ts) ->
  exists w s', (gettoken b ≫= f) s = f (code t, w) s' /\ slice b w = text t /\ stream s' ts /\ (s < s')%nat.
Proof.
  intros H. destruct (gettoken_stream b s t ts H) as (w & s' & E & ?).
  exists w, s'. split; [by apply bind_parsed | done].
Qed.

Lemma parseredirs_none (fuel s : nat) (ret : cmd span -> cmd span) (ts : list token) :
  next_in [60; 62] ts = false -> (L - s < fuel)%nat -> stream s ts -> parseredirs fuel b ret s = Parsed ret s.
Proof.
  intros Hts Hf Hs. destruct fuel as [|fuel]; [lia|]. cbn [parseredirs].
  rewrite (peek_then_stream [60; 62] _ _ _ ltac:(by repeat constructor) Hs). by rewrite Hts.
Qed.

Lemma parseredirs_stream (rs : list (Z * list Z)) (fuel s : nat) (ret : cmd span -> cmd span) (ts : list token) :
  Forall redir_ok rs -> next_in [60; 62] ts = false -> (L - s < fuel)%nat ->
  stream s (redir_tokens rs ++ ts) ->
  exists ret' s', parseredirs fuel b ret s = Parsed ret' s' /\ stream s' ts /\ (s <= s')%nat /\
    forall c, cmd_map (slice b) (ret' c) = foldl redirect (cmd_map (slice b) (ret c)) rs.
Proof.
  intros Hrs Hts. revert fuel s ret. induction Hrs as [|[tok f] rs [Htok Hf] _ IH]; intros fuel s ret Hfuel Hs.
  - exists ret, s. split; [by apply (parseredirs_none fuel s ret ts) | done].
  - destruct fuel as [|fuel]; [lia|]. cbn [parseredirs]. rewrite (peek_then_stream [60; 62] _ _ _ ltac:(by repeat constructor) Hs).
    change (redir_tokens ((tok, f) :: rs) ++ ts) with (TSym tok :: TWord f :: redir_tokens rs ++ ts) in *.
    assert (next_in [60; 62] (TSym tok :: TWord f :: redir_tokens rs ++ ts) = true) as ->
      by (simpl in Htok; destruct Htok as [-> | ->]; done).
    edestruct (token_then_stream (B := cmd span -> cmd span)) as (w & s1 & -> & _ & Hs1 & Hlt); [exact Hs|].
    edestruct (token_then_stream (B := cmd span -> cmd span)) as (w2 & s2 & -> & Hw2 & Hs2 & Hlt2); [exact Hs1|].
    cbn [code]. change (97 =? 97) with true. cbv iota.
    pose proof (st_le b _ _ Hs2).
    destruct (IH fuel s2 (λ c, redircmd (ret c) tok w2) ltac:(lia) Hs2) as (ret' & s3 & E & Hs3 & Hle & Hret).
    exists ret', s3. split_and!; [exact E | done | lia |]. intros c. rewrite Hret. simpl.
    by rewrite cmd_map_redircmd, Hw2.
Qed.

Lemma next_in_redirs (set : list Z) (rs : list (Z * list Z)) (ts : list token) :
  has set 60 = false -> has set 62 = false -> Forall redir_ok rs -> next_in set ts = false ->
  next_in set (redir_tokens rs ++ ts) = false.
Proof. intros H1 H2 Hrs Hts. destruct Hrs as [|[tok f] rs [[Ht|Ht] _] _]; [done|..]; simpl in *; by subst. Qed.

(** What may follow a command of each level. *)
Definition ends (set : list Z) (ts : list token) : Prop := ts = [] \/ next_in set ts = true.

Lemma ends_not (set set' : list Z) (ts : list token) :
  nonul set -> Forall (λ c, has set' c = false) set -> ends set ts -> next_in set' ts = false.
Proof.
  intros Hn H [->|Ht]; [done|]. destruct ts as [|[w|c] ts]; try done. simpl in *.
  apply has_elem in Ht; [|done]. rewrite list.Forall_forall in H. by apply H.
Qed.

Definition after_exec : list Z := [124; 41; 38; 59].
Definition after_pipe : list Z := [41; 38; 59].
Definition after_line : list Z := [41].

Lemma ends_exec (ts : list token) : ends after_pipe ts -> ends after_exec ts.
Proof.
  intros [->|H]; [by left|]. right. destruct ts as [|[w|c] ts]; try done. simpl in *.
  apply has_elem; [repeat constructor; discriminate|]. apply has_elem in H; [|repeat constructor; discriminate].
  unfold after_exec. by right.
Qed.

Lemma after_exec_set : symbol_set after_exec.
Proof. by repeat constructor. Qed.

Lemma ends_no_redirs (ts : list token) : ends after_exec ts -> next_in [60; 62] ts = false.
Proof. apply ends_not; [repeat constructor; discriminate | by repeat constructor]. Qed.

Lemma parseargs_stop (fuel s : nat) (argv : list span) (ret : cmd span -> cmd span) (ts : list token) :
  ends after_exec ts -> (L - s < fuel)%nat -> stream s ts ->
  parses (parseargs fuel b argv ret) s (cmd_map (slice b) (ret (EXEC argv))) ts.
Proof.
  intros Hts Hf Hs. destruct fuel as [|fuel]; [lia|]. cbn [parseargs]. unfold parses. fold after_exec.
  rewrite (peek_then_stream _ _ _ _ after_exec_set Hs). destruct Hts as [-> | ->]; [|by eexists _, s].
  simpl. destruct (gettoken_stream_end b s Hs) as [w Hw]. rewrite (bind_parsed _ _ _ _ _ Hw). by eexists _, s.
Qed.

Lemma parseargs_stream (ws : list (list Z)) (w : list Z) (rs : list (Z * list Z)) (fuel s : nat)
    (argv : list span) (ts : list token) :
  Forall redir_ok rs -> ends after_exec ts -> (length argv + length (w :: ws) < MAXARGS)%nat -> (L - s < fuel)%nat ->
  stream s (map TWord (w :: ws) ++ redir_tokens rs ++ ts) ->
  parses (parseargs fuel b argv (λ c, c)) s (foldl redirect (EXEC (map (slice b) argv ++ w :: ws)) rs) ts.
Proof.
  intros Hrs Hts. revert fuel s w argv.
  induction ws as [|w2 ws IH]; intros fuel s w argv Hn Hf Hs; (destruct fuel as [|fuel]; [lia|]);
    cbn [parseargs]; unfold parses; fold after_exec; rewrite (peek_then_stream _ _ _ _ after_exec_set Hs);
    change (next_in after_exec _) with false; cbv iota;
    (edestruct (token_then_stream (B := cmd span)) as (w' & s1 & -> & Hw & Hs1 & Hlt); [exact Hs|]);
    cbn [code]; change (97 =? 0) with false; change (97 =? 97) with true; cbv iota; cbn [negb];
    rewrite decide_False by (rewrite length_app; simpl in *; lia);
    pose proof (st_le b _ _ Hs1); simpl in Hw.
  - destruct (parseredirs_stream rs fuel s1 (λ c, c) ts Hrs (ends_no_redirs ts Hts) ltac:(lia) Hs1)
      as (ret' & s2 & E & Hs2 & Hle & Hret).
    rewrite (bind_parsed _ _ _ _ _ E). pose proof (st_le b _ _ Hs2).
    destruct (parseargs_stop fuel s2 (argv ++ [w']) ret' ts Hts ltac:(lia) Hs2) as (c' & s3 & ? & ? & ? & Hc).
    exists c', s3. split_and!; [done | done | lia |]. rewrite Hc, Hret. simpl. by rewrite map_app, <- Hw.
  - rewrite (bind_parsed _ _ _ _ _ (parseredirs_none fuel s1 (λ c, c) (map TWord (w2 :: ws) ++ redir_tokens rs ++ ts) eq_refl ltac:(lia) Hs1)).
    destruct (IH fuel s1 w2 (argv ++ [w'])) as (c' & s3 & ? & ? & ? & Hc);
      [rewrite length_app; simpl in *; lia | lia | done |].
    exists c', s3. split_and!; [done | done | lia |]. by rewrite Hc, map_app, <- app_assoc, <- Hw.
Qed.

(** *** The four levels *)
Definition exec_parses (c : cmd (list Z)) : Prop :=
  forall rs fuel s ts, Forall redir_ok rs -> ends after_exec ts -> (depth b s 2 <= fuel)%nat ->
  stream s (tokens 0 c ++ redir_tokens rs ++ ts) ->
  parses (parseexec fuel b) s (foldl redirect c rs) ts.
Definition pipe_parses (c : cmd (list Z)) : Prop :=
  forall fuel s ts, ends after_pipe ts -> (depth b s 3 <= fuel)%nat -> stream s (tokens 1 c ++ ts) ->
  parses (parsepipe fuel b) s c ts.
Definition back_parses (c : cmd (list Z)) : Prop :=
  forall fuel k s ts, ends after_pipe ts -> (depth b s 3 <= fuel)%nat -> (L - s < k)%nat ->
  stream s (tokens 2 c ++ ts) ->
  exists k' c' s', (parsepipe fuel b ≫= parseback k b) s = parseback k' b c' s' /\ (L - s' < k')%nat /\
    stream s' ts /\ (s <= s')%nat /\ cmd_map (slice b) c' = c.
Definition line_parses (c : cmd (list Z)) : Prop :=
  forall fuel s ts, ends after_line ts -> (depth b s 4 <= fuel)%nat -> stream s (tokens 3 c ++ ts) ->
  parses (parseline fuel b) s c ts.

(** The tokens of a command between parentheses. *)
Lemma tokens_paren (k : nat) (c : cmd (list Z)) :
  (k < level c)%nat -> tokens k c = TSym 40 :: tokens 3 c ++ [TSym 41].
Proof.
  intros H. assert (level c <= 3)%nat by (destruct c; simpl; lia).
  destruct c; cbn [tokens]; cbn [level] in *; by rewrite decide_False, decide_True by lia.
Qed.

Lemma tokens_same (k k' : nat) (c : cmd (list Z)) :
  (level c <= k)%nat -> (level c <= k')%nat -> tokens k c = tokens k' c.
Proof. intros H H'. destruct c; cbn [tokens]; cbn [level] in *; by rewrite !decide_True by lia. Qed.

Lemma tokens_step (k k' : nat) (c : cmd (list Z)) :
  k' = S k -> level c ≠ k' -> tokens k' c = tokens k c.
Proof.
  intros -> H. destruct (decide (level c <= k)%nat) as [Hl|Hl].
  - apply tokens_same; lia.
  - by rewrite (tokens_paren (S k)), (tokens_paren k) by lia.
Qed.

Lemma exec_pipe (c : cmd (list Z)) : level c ≠ 1%nat -> exec_parses c -> pipe_parses c.
Proof.
  intros Hl H fuel s ts Hts Hf Hs. rewrite (tokens_step 0 1) in Hs by done. unfold depth in Hf.
  destruct fuel as [|fuel]; [lia|]. cbn [parsepipe]. unfold parses.
  destruct (H [] fuel s ts) as (c' & s' & E & Hs' & Hle & Hc); [constructor | by apply ends_exec | unfold depth; lia | done |].
  rewrite (bind_parsed _ _ _ _ _ E), (peek_then_stream [124] _ _ _ ltac:(by repeat constructor) Hs').
  rewrite (ends_not after_pipe [124] ts ltac:(repeat constructor; discriminate) ltac:(by repeat constructor) Hts).
  by exists c', s'.
Qed.

Lemma pipe_back (c : cmd (list Z)) : level c ≠ 2%nat -> pipe_parses c -> back_parses c.
Proof.
  intros Hl H fuel k s ts Hts Hf Hk Hs. rewrite (tokens_step 1 2) in Hs by done.
  destruct (H fuel s ts Hts Hf Hs) as (c' & s' & E & Hs' & Hle & Hc).
  exists k, c', s'. rewrite (bind_parsed _ _ _ _ _ E). split_and!; [done | lia | done..].
Qed.

(** The end of the loop over the [&]s. *)
Lemma parseback_stop (k s : nat) (c : cmd span) (ts : list token) :
  next_in [38] ts = false -> (L - s < k)%nat -> stream s ts -> parseback k b c s = Parsed c s.
Proof.
  intros Hts Hk Hs. destruct k as [|k]; [lia|]. cbn [parseback].
  rewrite (peek_then_stream [38] _ _ _ ltac:(by repeat constructor) Hs). by rewrite Hts.
Qed.

(** parseline, once parsepipe and the loop over the [&]s have run. *)
Lemma parseline_rest (fuel s s' : nat) (c : cmd span) :
  (parsepipe fuel b ≫= parseback (S L) b) s = Parsed c s' ->
  parseline (S fuel) b s =
    (peek b [59] ≫= λ more : bool,
     if more then gettoken b ≫= λ _, parseline fuel b ≫= λ r, mret (LIST c r) else mret c) s'.
Proof.
  cbn [parseline]. unfold mbind, parser_bind. destruct (parsepipe fuel b s) as [c0 s0| |]; try done.
  intros E. by rewrite E.
Qed.

Lemma ends_line (set : list Z) (ts : list token) :
  has set 41 = false -> ends after_line ts -> next_in set ts = false.
Proof. intros H. apply ends_not; repeat constructor; done. Qed.

Lemma ends_pipe (ts : list token) : ends after_line ts -> ends after_pipe ts.
Proof.
  intros [->|H]; [by left|]. right. destruct ts as [|[w|x] ts]; try done. simpl in *.
  apply has_elem; [repeat constructor; discriminate|]. apply has_elem in H; [|repeat constructor; discriminate].
  unfold after_pipe, after_line in *. set_solver.
Qed.

Lemma back_line (c : cmd (list Z)) : level c ≠ 3%nat -> back_parses c -> line_parses c.
Proof.
  intros Hl H fuel s ts Hts Hf Hs. rewrite (tokens_step 2 3) in Hs by done. unfold depth in Hf.
  destruct fuel as [|fuel]; [lia|].
  destruct (H fuel (S L) s ts (ends_pipe ts Hts)) as (k' & c' & s' & E & Hk & Hs' & Hle & Hc); [unfold depth; lia | lia | done |].
  rewrite (parseback_stop k' s' c' ts (ends_line [38] ts eq_refl Hts) Hk Hs') in E.
  exists c', s'. split_and!; [|done..]. rewrite (parseline_rest _ _ _ _ E).
  rewrite (peek_then_stream [59] _ _ _ ltac:(by repeat constructor) Hs').
  by rewrite (ends_line [59] ts eq_refl Hts).
Qed.

(** A block: the line between parentheses, then its redirections. *)
Lemma line_exec (c : cmd (list Z)) : (0 < level c)%nat -> line_parses c -> exec_parses c.
Proof.
  intros Hl H rs fuel s ts Hrs Hts Hf Hs. rewrite tokens_paren in Hs by done. unfold depth in Hf.
  destruct fuel as [|[|fuel]]; [lia..|]. cbn [parseexec]. unfold parses.
  rewrite (peek_then_stream [40] _ _ _ ltac:(by repeat constructor) Hs). cbn [parseblock].
  change (next_in [40] _) with true. cbv iota.
  rewrite (peek_then_stream [40] _ _ _ ltac:(by repeat constructor) Hs).
  change (next_in [40] _) with true. cbn [negb].
  simpl in Hs. rewrite <- app_assoc in Hs. simpl in Hs.
  edestruct (token_then_stream (B := cmd span)) as (w & s1 & -> & _ & Hs1 & Hlt); [exact Hs|].
  pose proof (st_le b _ _ Hs1).
  destruct (H fuel s1 (TSym 41 :: redir_tokens rs ++ ts) ltac:(by right) ltac:(unfold depth; lia) Hs1) as (c' & s2 & E & Hs2 & Hle & Hc).
  rewrite (bind_parsed _ _ _ _ _ E), (peek_then_stream [41] _ _ _ ltac:(by repeat constructor) Hs2).
  change (next_in [41] _) with true. cbn [negb].
  edestruct (token_then_stream (B := cmd span)) as (w' & s3 & -> & _ & Hs3 & Hlt3); [exact Hs2|].
  destruct (parseredirs_stream rs (S L) s3 (λ c, c) ts Hrs (ends_no_redirs ts Hts) ltac:(lia) Hs3)
    as (ret' & s4 & E4 & Hs4 & Hle4 & Hret).
  rewrite (bind_parsed _ _ _ _ _ E4). eexists _, s4. split_and!; [done | done | lia |].
  by rewrite Hret, Hc.
Qed.

Lemma exec_exec (argv : list (list Z)) : (length argv < MAXARGS)%nat -> exec_parses (EXEC argv).
Proof.
  intros Hn rs fuel s ts Hrs Hts Hf Hs. unfold depth in Hf. destruct fuel as [|fuel]; [lia|].
  cbn [parseexec]. unfold parses. rewrite (peek_then_stream [40] _ _ _ ltac:(by repeat constructor) Hs).
  cbn [tokens level] in *. rewrite decide_True in * by lia.
  destruct argv as [|w argv].
  - change (map TWord [] ++ redir_tokens rs ++ ts) with (redir_tokens rs ++ ts) in *.
    rewrite next_in_redirs; [|done..| eapply ends_not, Hts; repeat constructor; discriminate].
    destruct (parseredirs_stream rs (S L) s (λ c, c) ts Hrs (ends_no_redirs ts Hts) ltac:(lia) Hs)
      as (ret' & s2 & E & Hs2 & Hle & Hret).
    rewrite (bind_parsed _ _ _ _ _ E). pose proof (st_le b _ _ Hs2).
    destruct (parseargs_stop (S L) s2 [] ret' ts Hts ltac:(lia) Hs2) as (c' & s3 & ? & ? & ? & Hc).
    exists c', s3. split_and!; [done | done | lia |]. by rewrite Hc, Hret.
  - change (next_in [40] _) with false. cbv iota.
    rewrite (bind_parsed _ _ _ _ _ (parseredirs_none (S L) s (λ c, c) (map TWord (w :: argv) ++ redir_tokens rs ++ ts) eq_refl ltac:(lia) Hs)).
    by apply (parseargs_stream argv w rs (S L) s [] ts Hrs Hts Hn ltac:(lia)).
Qed.

Lemma redir_exec (c : cmd (list Z)) (f : list Z) (m fd : Z) :
  word_ok f -> (m = O_RDONLY /\ fd = 0 \/ m = Z.lor O_WRONLY O_CREATE /\ fd = 1) ->
  exec_parses c -> exec_parses (REDIR c f m fd).
Proof.
  intros Hf Hm H rs fuel s ts Hrs Hts Hfuel Hs.
  cbn [tokens level] in Hs. rewrite decide_True, <- app_assoc in Hs by lia.
  replace (REDIR c f m fd) with (redirect c (redir_sym fd, f)) by (destruct Hm as [[-> ->]|[-> ->]]; done).
  apply (H ((redir_sym fd, f) :: rs) fuel s ts); [|done..]. constructor; [|done].
  split; [|done]. destruct Hm as [[_ ->]|[_ ->]]; [by left | by right].
Qed.

Lemma pipe_pipe (l r : cmd (list Z)) : exec_parses l -> pipe_parses r -> pipe_parses (PIPE l r).
Proof.
  intros Hl Hr fuel s ts Hts Hf Hs. unfold depth in Hf. destruct fuel as [|fuel]; [lia|].
  cbn [tokens level] in Hs. rewrite decide_True, <- app_assoc in Hs by lia. cbn [parsepipe]. unfold parses.
  destruct (Hl [] fuel s (TSym 124 :: tokens 1 r ++ ts)) as (l' & s1 & E & Hs1 & Hle & Hcl);
    [constructor | by right | unfold depth; lia | done |].
  rewrite (bind_parsed _ _ _ _ _ E), (peek_then_stream [124] _ _ _ ltac:(by repeat constructor) Hs1).
  change (next_in [124] _) with true. cbv iota.
  edestruct (token_then_stream (B := cmd span)) as (w & s2 & -> & _ & Hs2 & Hlt); [exact Hs1|].
  pose proof (st_le b _ _ Hs2).
  destruct (Hr fuel s2 ts Hts ltac:(unfold depth; lia) Hs2) as (r' & s3 & E3 & Hs3 & Hle3 & Hcr).
  rewrite (bind_parsed _ _ _ _ _ E3). eexists _, s3. split_and!; [done | done | lia |].
  simpl. by rewrite Hcl, Hcr.
Qed.

Lemma back_back (c : cmd (list Z)) : back_parses c -> back_parses (BACK c).
Proof.
  intros H fuel k s ts Hts Hf Hk Hs. cbn [tokens level] in Hs. rewrite decide_True, <- app_assoc in Hs by lia.
  destruct (H fuel k s (TSym 38 :: ts) ltac:(by right) Hf Hk Hs) as (k1 & c1 & s1 & -> & Hk1 & Hs1 & Hle & Hc).
  destruct k1 as [|k1]; [lia|]. cbn [parseback].
  rewrite (peek_then_stream [38] _ _ _ ltac:(by repeat constructor) Hs1). change (next_in [38] _) with true. cbv iota.
  edestruct (token_then_stream (B := cmd span)) as (w & s2 & -> & _ & Hs2 & Hlt); [exact Hs1|].
  pose proof (st_le b _ _ Hs2).
  exists k1, (BACK c1), s2. split_and!; [done | lia | done | lia | simpl; by rewrite Hc].
Qed.

Lemma line_line (l r : cmd (list Z)) : back_parses l -> line_parses r -> line_parses (LIST l r).
Proof.
  intros Hl Hr fuel s ts Hts Hf Hs. unfold depth in Hf. destruct fuel as [|fuel]; [lia|].
  cbn [tokens level] in Hs. rewrite decide_True, <- app_assoc in Hs by lia. unfold parses.
  destruct (Hl fuel (S L) s (TSym 59 :: tokens 3 r ++ ts)) as (k' & l' & s1 & E & Hk & Hs1 & Hle & Hcl);
    [by right | unfold depth; lia | lia | done |].
  rewrite (parseback_stop k' s1 l' (TSym 59 :: tokens 3 r ++ ts) eq_refl Hk Hs1) in E. rewrite (parseline_rest _ _ _ _ E).
  rewrite (peek_then_stream [59] _ _ _ ltac:(by repeat constructor) Hs1).
  change (next_in [59] _) with true. cbv iota.
  edestruct (token_then_stream (B := cmd span)) as (w & s2 & -> & _ & Hs2 & Hlt); [exact Hs1|].
  pose proof (st_le b _ _ Hs2).
  destruct (Hr fuel s2 ts Hts ltac:(unfold depth; lia) Hs2) as (r' & s3 & E3 & Hs3 & Hle3 & Hcr).
  rewrite (bind_parsed _ _ _ _ _ E3). eexists _, s3. split_and!; [done | done | lia |].
  simpl. by rewrite Hcl, Hcr.
Qed.

Lemma all_parse (c : cmd (list Z)) :
  expressible c -> exec_parses c /\ pipe_parses c /\ back_parses c /\ line_parses c.
Proof.
  induction c as [argv|c IH f m fd|l IHl r IHr|l IHl r IHr|c IH]; simpl; intros Hc.
  - assert (exec_parses (EXEC argv)) by (by apply exec_exec, Hc).
    assert (pipe_parses (EXEC argv)) by (by apply exec_pipe).
    assert (back_parses (EXEC argv)) by (by apply pipe_back). auto using back_line.
  - destruct Hc as (Hc & Hf & Hm). destruct (IH Hc) as (He & _).
    assert (exec_parses (REDIR c f m fd)) by (by apply redir_exec).
    assert (pipe_parses (REDIR c f m fd)) by (by apply exec_pipe).
    assert (back_parses (REDIR c f m fd)) by (by apply pipe_back). auto using back_line.
  - destruct Hc as [Hl Hr]. destruct (IHl Hl) as (He & _), (IHr Hr) as (_ & Hp & _).
    assert (pipe_parses (PIPE l r)) by (by apply pipe_pipe).
    assert (back_parses (PIPE l r)) by (by apply pipe_back).
    assert (line_parses (PIPE l r)) by (by apply back_line). split_and!; try done. apply line_exec; [simpl; lia | done].
  - destruct Hc as [Hl Hr]. destruct (IHl Hl) as (_ & _ & Hb & _), (IHr Hr) as (_ & _ & _ & Hli).
    assert (line_parses (LIST l r)) by (by apply line_line).
    assert (exec_parses (LIST l r)) by (apply line_exec; [simpl; lia | done]).
    assert (pipe_parses (LIST l r)) by (by apply exec_pipe). auto using pipe_back.
  - destruct (IH Hc) as (_ & _ & Hb & _).
    assert (back_parses (BACK c)) by (by apply back_back).
    assert (line_parses (BACK c)) by (by apply back_line).
    assert (exec_parses (BACK c)) by (apply line_exec; [simpl; lia | done]). auto using exec_pipe.
Qed.
End Print.

Lemma paren_ok (k : nat) (c : cmd (list Z)) (own : list token) :
  Forall token_ok own -> Forall token_ok (if decide (level c <= k)%nat then own else TSym 40 :: own ++ [TSym 41]).
Proof. intros H. case_decide; [done|]. constructor; [done|]. apply Forall_app. split; [done|]. by repeat constructor. Qed.

Lemma tokens_ok (c : cmd (list Z)) (k : nat) : expressible c -> Forall token_ok (tokens k c).
Proof.
  revert k. induction c as [argv|c IH f m fd|l IHl r IHr|l IHl r IHr|c IH]; intros k Hc; cbn [tokens];
    apply paren_ok; simpl in Hc.
  - destruct Hc as [Hw _]. by apply Forall_map.
  - destruct Hc as (Hc & Hf & Hm). apply Forall_app. split; [by apply IH|]. constructor; [|constructor; [done | constructor]].
    unfold redir_sym. simpl. by case_match.
  - destruct Hc as [Hl Hr]. apply Forall_app. split; [by apply IHl|]. constructor; [done | by apply IHr].
  - destruct Hc as [Hl Hr]. apply Forall_app. split; [by apply IHl|]. constructor; [done | by apply IHr].
  - apply Forall_app. split; [by apply IH | by repeat constructor].
Qed.

Lemma unlex_nonul (ts : list token) : Forall token_ok ts -> nonul (unlex ts).
Proof.
  induction 1 as [|t ts Ht _ IH]; [constructor|]. unfold unlex. simpl. apply Forall_app. split; [|exact IH].
  apply Forall_app. split; [|by repeat constructor]. destruct t as [w|c]; simpl in *.
  - destruct Ht as [_ Hw]. eapply Forall_impl, Hw. intros x Hx ->. done.
  - constructor; [|constructor]. intros ->. done.
Qed.

(** C23: Parsing inverts printing: for every command the shell's language can
    express (words of word characters, at most nine in a command, redirections
    of input or output, pipes, lists, background commands and blocks nested in
    any way), the parser run on the printed line returns that same command,
    with its words as the strings left in the buffer. *)
Theorem parse_print (c : cmd (list Z)) :
  expressible c ->
  exists c' b', parsecmd (print c) = Parsed (c', b') (length (print c)) /\ cmd_map (string_at b') c' = c.
Proof.
  intros Hc. set (b := print c). pose proof (tokens_ok c 3 Hc) as Hok.
  assert (nonul b) as Hb by (by apply unlex_nonul).
  destruct (all_parse b c Hc) as (_ & _ & _ & Hline).
  destruct (Hline (parse_fuel b) O []) as (c' & s' & E & Hs' & _ & Hc'); [by left | unfold depth, parse_fuel; lia | |].
  { split; [by rewrite app_nil_r | by rewrite app_nil_r | lia]. }
  assert (s' = length b) as ->.
  { destruct Hs' as [Ht _ Hle]. apply (f_equal length) in Ht. rewrite length_drop in Ht. simpl in Ht. lia. }
  assert (cmd_ok b c') as Hok'.
  { destruct (grammar_returns b Hb (parse_fuel b)) as [H _]. specialize (H O ltac:(lia) ltac:(by left)).
    unfold returns in H. rewrite E in H. apply H. unfold depth, parse_fuel. lia. }
  exists c', (nulterminate b c'). split; [|by rewrite nulterminate_strings].
  unfold parsecmd. rewrite (bind_parsed _ _ _ _ _ E).
  rewrite (bind_parsed _ _ _ _ _ (peek_stream b [] _ _ (Forall_nil_2 _) Hs')).
  unfold finish. by rewrite decide_True.
Qed.

(** [(a; b &) > f | c d] *)
Lemma parse_print_witness :
  let c := PIPE (REDIR (LIST (EXEC [[97]]) (BACK (EXEC [[98]]))) [102] (Z.lor O_WRONLY O_CREATE) 1)
                (EXEC [[99]; [100]]) in
  print c = msg "( a ; b & ) > f | c d " /\
  exists c' b', parsecmd (print c) = Parsed (c', b') (length (print c)) /\ cmd_map (string_at b') c' = c.
Proof.
  cbv zeta. split; [reflexivity|]. apply parse_print.
  assert (forall x, wordchar x = true -> word_ok [x]) as Hw by (intros x Hx; split; [discriminate | by repeat constructor]).
  cbn [expressible]. unfold MAXARGS. repeat split; simpl; try lia; try (by right);
    repeat constructor; try (by apply Hw); try discriminate.
Defined.
