(* ===== verification/Shrun.v ===== *)
(** * The shell running a command (sh.c: runcmd, getcmd, main)

    A process is the tree of the system calls it makes, branching on their
    results; fork has the child's tree beside the parent's.  The trees are run
    over the descriptor tables the calls act on, with the kernel's rule that a
    new descriptor is the lowest free one, to see what each program the shell
    starts has as its descriptors. *)

From S2P Require Import Prelude CString Ulib Sh.

(** ** Programs *)
Inductive uprog :=
  | UExit
  | UExec (path : list Z) (argv : list (list Z)) (failed : uprog)
  | UOpen (path : list Z) (mode : Z) (k : Z -> uprog)
  | UClose (fd : Z) (k : uprog)
  | UDup (fd : Z) (k : Z -> uprog)
  | UPipe (k : option (Z * Z) -> uprog)
  | UFork (child : uprog) (parent : Z -> uprog)
  | UWait (k : uprog)
  | UChdir (path : list Z) (k : Z -> uprog)
  | UWrite (fd : Z) (text : list Z) (k : uprog).

(** panic and fork1 of the shell. *)
Definition shpanic (s : list Z) : uprog := UWrite 2 (s ++ [10]) UExit.
Definition fork1 (child : uprog) (k : Z -> uprog) : uprog :=
  UFork child (λ pid, if pid =? -1 then shpanic (msg "fork") else k pid).

(** A child whose runcmd never returns does not reach the parent's code. *)
Fixpoint runcmd (c : cmd (list Z)) : uprog :=
  match c with
  | EXEC argv =>
      match argv with
      | [] => UExit
      | path :: _ => UExec path argv (UWrite 2 (msg "exec " ++ path ++ msg " failed" ++ [10]) UExit)
      end
  | REDIR c file mode fd =>
      UClose fd (UOpen file mode (λ r,
        if r <? 0 then UWrite 2 (msg "open " ++ file ++ msg " failed" ++ [10]) UExit else runcmd c))
  | LIST l r => fork1 (runcmd l) (λ _, UWait (runcmd r))
  | PIPE l r =>
      UPipe (λ p,
        match p with
        | None => shpanic (msg "pipe")
        | Some (p0, p1) =>
            fork1 (UClose 1 (UDup p1 (λ _, UClose p0 (UClose p1 (runcmd l))))) (λ _,
            fork1 (UClose 0 (UDup p0 (λ _, UClose p0 (UClose p1 (runcmd r))))) (λ _,
            UClose p0 (UClose p1 (UWait (UWait UExit)))))
        end)
  | BACK c => fork1 (runcmd c) (λ _, UExit)
  end.

(** getcmd: the line read, if any, and the rest of the input. *)
Definition sh_buf : Z := 100.
Definition getcmd (input : list Z) : option (list Z) * list Z :=
  let '(line, rest) := gets sh_buf input in
  (if deref line =? 0 then None else Some (string_of line), rest).

(** The opening loop of main; descriptors are handed out in order, so the
    fourth call at the latest returns one above 2. *)
Fixpoint open_console (fuel : nat) (k : uprog) : uprog :=
  match fuel with
  | O => k
  | S fuel' =>
      UOpen (msg "console") 2 (λ fd,
        if 0 <=? fd then if 3 <=? fd then UClose fd k else open_console fuel' k else k)
  end.

(** What a child runs for a line: parsecmd, then runcmd. *)
Definition run_line (line : list Z) : uprog :=
  match parsecmd line with
  | Parsed (c, b') _ => runcmd (cmd_map (string_at b') c)
  | Failed ms => foldr (λ m k, UWrite 2 (m ++ [10]) k) UExit ms
  | Exhausted => UExit
  end.
(** The body of the loop of main for one line. *)
Definition handle_line (line : list Z) (k : uprog) : uprog :=
  if (at_ line 0 =? 99) && (at_ line 1 =? 100) && (at_ line 2 =? 32) then
    let line := take (length line - 1) line in
    UChdir (drop 3 line) (λ r,
      if r <? 0 then UWrite 2 (msg "cannot cd " ++ drop 3 line ++ [10]) k else k)
  else fork1 (run_line line) (λ _, UWait k).
Fixpoint sh_loop (fuel : nat) (input : list Z) : uprog :=
  match fuel with
  | O => UExit
  | S fuel' =>
      UWrite 2 (msg "$ ")
        (let '(line, rest) := getcmd input in
         match line with
         | None => UExit
         | Some line => handle_line line (sh_loop fuel' rest)
         end)
  end.
(** Each line read takes at least a byte. *)
Definition sh_main (input : list Z) : uprog := open_console 4 (sh_loop (S (length input)) input).

(** ** Descriptor tables *)
Inductive object := OStd (n : nat) | OFile (path : list Z) (mode : Z) | ORead (p : nat) | OWrite (p : nat).
Definition NOFILE : nat := 16.
Definition fdtab : Type := list (option object).
(** fdalloc: the lowest free slot. *)
Fixpoint lowest (t : fdtab) : option nat :=
  match t with
  | [] => None
  | None :: _ => Some O
  | Some _ :: t' => S <$> lowest t'
  end.
Definition install (t : fdtab) (o : object) : fdtab * Z :=
  match lowest t with
  | Some i => (<[i := Some o]> t, Z.of_nat i)
  | None => (t, -1)
  end.
Definition close_fd (t : fdtab) (fd : Z) : fdtab := <[Z.to_nat fd := None]> t.
Definition fd_object (t : fdtab) (fd : Z) : option object := mjoin (t !! Z.to_nat fd).

(** The programs started, each with its arguments and its descriptors, when no
    call fails; [n] numbers the pipes. *)
Definition start : Type := list (list Z) * fdtab.
Fixpoint starts (u : uprog) (t : fdtab) (n : nat) : list start * nat :=
  match u with
  | UExit => ([], n)
  | UExec _ argv _ => ([(argv, t)], n)
  | UOpen path mode k => let '(t', fd) := install t (OFile path mode) in starts (k fd) t' n
  | UClose fd k => starts k (close_fd t fd) n
  | UDup fd k =>
      match fd_object t fd with
      | Some o => let '(t', fd') := install t o in starts (k fd') t' n
      | None => starts (k (-1)) t n
      end
  | UPipe k =>
      let '(t1, p0) := install t (ORead n) in
      let '(t2, p1) := install t1 (OWrite n) in
      if (p0 <? 0) || (p1 <? 0) then starts (k None) t n else starts (k (Some (p0, p1))) t2 (S n)
  | UFork child parent =>
      let '(l1, n1) := starts child t n in
      let '(l2, n2) := starts (parent 1) t n1 in
      (l1 ++ l2, n2)
  | UWait k => starts k t n
  | UChdir _ k => starts (k 0) t n
  | UWrite _ _ k => starts k t n
  end.

(** ** What the command means *)
Record stdio := { s_in : object; s_out : object; s_err : object }.
Definition with_fd (fd : Z) (o : object) (e : stdio) : stdio :=
  if fd =? 0 then {| s_in := o; s_out := s_out e; s_err := s_err e |}
  else {| s_in := s_in e; s_out := o; s_err := s_err e |}.
Fixpoint meaning (c : cmd (list Z)) (e : stdio) (n : nat) : list (list (list Z) * stdio) * nat :=
  match c with
  | EXEC [] => ([], n)
  | EXEC argv => ([(argv, e)], n)
  | REDIR c f mode fd => meaning c (with_fd fd (OFile f mode) e) n
  | PIPE l r =>
      let '(l1, n1) := meaning l (with_fd 1 (OWrite n) e) (S n) in
      let '(l2, n2) := meaning r (with_fd 0 (ORead n) e) n1 in
      (l1 ++ l2, n2)
  | LIST l r =>
      let '(l1, n1) := meaning l e n in
      let '(l2, n2) := meaning r e n1 in
      (l1 ++ l2, n2)
  | BACK c => meaning c e n
  end.
(** A table with the three standard descriptors and no other. *)
Definition std_table (e : stdio) : fdtab :=
  [Some (s_in e); Some (s_out e); Some (s_err e)] ++ replicate (NOFILE - 3) None.
(** The redirections the parser builds. *)
Fixpoint std_redirs {A} (c : cmd A) : Prop :=
  match c with
  | EXEC _ => True
  | REDIR c _ _ fd => (fd = 0 \/ fd = 1) /\ std_redirs c
  | PIPE l r | LIST l r => std_redirs l /\ std_redirs r
  | BACK c => std_redirs c
  end.

Lemma starts_redir (c : cmd (list Z)) (f : list Z) (mode fd : Z) (e : stdio) (n : nat) :
  (fd = 0 \/ fd = 1) ->
  starts (runcmd (REDIR c f mode fd)) (std_table e) n = starts (runcmd c) (std_table (with_fd fd (OFile f mode) e)) n.
Proof. by intros [-> | ->]. Qed.

Lemma starts_pipe (l r : cmd (list Z)) (e : stdio) (n : nat) :
  starts (runcmd (PIPE l r)) (std_table e) n =
    let '(l1, n1) := starts (runcmd l) (std_table (with_fd 1 (OWrite n) e)) (S n) in
    let '(l2, n2) := starts (runcmd r) (std_table (with_fd 0 (ORead n) e)) n1 in
    (l1 ++ l2, n2).
Proof.
  destruct e as [i o err].
  trans (let '(l1, n1) := starts (runcmd l) (std_table {| s_in := i; s_out := OWrite n; s_err := err |}) (S n) in
     let '(l2, n2) :=
       let '(l2, n2) := starts (runcmd r) (std_table {| s_in := ORead n; s_out := o; s_err := err |}) n1 in
       (l2 ++ [], n2) in
     (l1 ++ l2, n2)); [reflexivity|].
  unfold with_fd. change (1 =? 0) with false. change (0 =? 0) with true. cbn [s_in s_out s_err].
  destruct (starts (runcmd l) _ _) as [l1 n1]. cbv iota.
  destruct (starts (runcmd r) _ _) as [l2 n2]. by rewrite app_nil_r.
Qed.

(** C25: When the calls succeed, running a command starts exactly the programs
    of the command, in order, and each has exactly three descriptors: those of
    the shell with the redirections around it applied and, in a pipe, the write
    end as the left side's output and the read end as the right side's input.
    No program inherits a stray end of a pipe, which would keep a reader
    waiting for an end of file that never comes. *)
Theorem runcmd_plumbing (c : cmd (list Z)) (e : stdio) (n : nat) :
  std_redirs c ->
  starts (runcmd c) (std_table e) n =
    (map (λ st, (st.1, std_table st.2)) (meaning c e n).1, (meaning c e n).2).
Proof.
  revert e n. induction c as [argv|c IH f m fd|l IHl r IHr|l IHl r IHr|c IH]; intros e n Hc.
  - by destruct argv.
  - destruct Hc as [Hfd Hc]. rewrite starts_redir, IH by done. done.
  - destruct Hc as [Hl Hr]. rewrite starts_pipe, IHl by done. cbn [meaning].
    destruct (meaning l _ _) as [l1 n1]. rewrite IHr by done. cbn [fst snd].
    destruct (meaning r _ _) as [l2 n2]. cbn [fst snd]. by rewrite map_app.
  - destruct Hc as [Hl Hr]. cbn [runcmd fork1 starts meaning]. unfold fork1. cbn [starts]. rewrite IHl by done.
    change (1 =? -1) with false. cbv iota. cbn [starts]. rewrite IHr by done.
    destruct (meaning l _ _) as [l1 n1]. cbn [fst snd].
    destruct (meaning r _ _) as [l2 n2]. cbn [fst snd]. by rewrite map_app.
  - cbn [runcmd meaning]. unfold fork1. cbn [starts]. change (1 =? -1) with false. cbv iota. cbn [starts].
    rewrite IH by done. by rewrite app_nil_r.
Qed.

(** The programs of [a < x | b ; c]. *)
Lemma runcmd_plumbing_witness :
  let e := {| s_in := OStd 0; s_out := OStd 1; s_err := OStd 2 |} in
  let c := LIST (PIPE (REDIR (EXEC [[97]]) [120] O_RDONLY 0) (EXEC [[98]])) (EXEC [[99]]) in
  starts (runcmd c) (std_table e) 0 =
    ([([[97]], std_table {| s_in := OFile [120] 0; s_out := OWrite 0; s_err := OStd 2 |});
      ([[98]], std_table {| s_in := ORead 0; s_out := OStd 1; s_err := OStd 2 |});
      ([[99]], std_table e)], 1%nat).
Proof.
  cbv zeta. rewrite runcmd_plumbing; [reflexivity|]. simpl. by repeat split; left.
Defined.
