(* ===== verification/Umalloc.v ===== *)
(** * The user allocator (umalloc.c)

    Addresses are counted in headers (8 bytes).  A heap is the two fields of the
    header at each address, the pointer [freep] (0 before the first call) and
    the program break.  The free list is a circle through [base]; the model of
    it is the list of the free blocks in the order of their addresses. *)

From stdpp Require Import sorting.
From S2P Require Import Prelude.

Record uheap := {
  hptr : Z -> Z;
  hsize : Z -> Z;
  freep : Z;
  brk : Z
}.
Definition put (f : Z -> Z) (a v : Z) : Z -> Z := λ x, if x =? a then v else f x.
Definition set_ptr (h : uheap) (a v : Z) : uheap :=
  {| hptr := put (hptr h) a v; hsize := hsize h; freep := freep h; brk := brk h |}.
Definition set_size (h : uheap) (a v : Z) : uheap :=
  {| hptr := hptr h; hsize := put (hsize h) a v; freep := freep h; brk := brk h |}.
Definition set_freep (h : uheap) (v : Z) : uheap :=
  {| hptr := hptr h; hsize := hsize h; freep := v; brk := brk h |}.
Definition set_brk (h : uheap) (v : Z) : uheap :=
  {| hptr := hptr h; hsize := hsize h; freep := freep h; brk := v |}.

(** The address and the size of a block. *)
Notation block := (Z * Z)%type.

Section Allocator.
(** The address of [base], and whether the kernel grants a growth of the break
    by a number of bytes. *)
Context (base : Z) (grants : uheap -> Z -> bool).

(** ** The program *)

(** The loop of free: where the block at [bp] belongs. *)
Fixpoint free_find (fuel : nat) (h : uheap) (bp p : Z) : option Z :=
  match fuel with
  | O => None
  | S fuel' =>
      if (p <? bp) && (bp <? hptr h p) then Some p
      else if (hptr h p <=? p) && ((p <? bp) || (bp <? hptr h p)) then Some p
      else free_find fuel' h bp (hptr h p)
  end.
(** The two joins of free. *)
Definition join_upper (h : uheap) (bp p : Z) : uheap :=
  if bp + hsize h bp =? hptr h p then
    let h := set_size h bp (hsize h bp + hsize h (hptr h p)) in
    set_ptr h bp (hptr h (hptr h p))
  else set_ptr h bp (hptr h p).
Definition join_lower (h : uheap) (bp p : Z) : uheap :=
  if p + hsize h p =? bp then
    let h := set_size h p (hsize h p + hsize h bp) in
    set_ptr h p (hptr h bp)
  else set_ptr h p bp.
(** free, of the block whose header is at [bp]. *)
Definition free (fuel : nat) (h : uheap) (bp : Z) : option uheap :=
  p ← free_find fuel h bp (freep h);
  Some (set_freep (join_lower (join_upper h bp p) bp p) p).

(** sbrk: the old break, or nothing when the kernel refuses. *)
Definition sbrk (h : uheap) (n : Z) : option (Z * uheap) :=
  if grants h n then Some (brk h, set_brk h (brk h + n / 8)) else None.

(** morecore: [None] is no fuel, [Some None] the null pointer. *)
Definition morecore (fuel : nat) (h : uheap) (nu : Z) : option (option uheap) :=
  let nu := if nu <? 4096 then 4096 else nu in
  match sbrk h (s32 (nu * 8)) with
  | None => Some None
  | Some (hp, h') => h'' ← free fuel (set_size h' hp nu) hp; Some (Some h'')
  end.

Definition nunits (nbytes : Z) : Z := u32 (nbytes + 8 - 1) / 8 + 1.

(** The block taken from the front of the loop of malloc. *)
Definition carve (h : uheap) (prevp p nu : Z) : uheap * Z :=
  if hsize h p =? nu then (set_freep (set_ptr h prevp (hptr h p)) prevp, p)
  else
    let h := set_size h p (hsize h p - nu) in
    let p := p + hsize h p in
    (set_freep (set_size h p nu) prevp, p).
(** The loop of malloc; the result is the header of the block. *)
Fixpoint malloc_loop (fuel : nat) (h : uheap) (prevp p nu : Z) : option (uheap * option Z) :=
  match fuel with
  | O => None
  | S fuel' =>
      if nu <=? hsize h p then let '(h', r) := carve h prevp p nu in Some (h', Some r)
      else if p =? freep h then
        r ← morecore fuel h nu;
        match r with
        | None => Some (h, None)
        | Some h' => malloc_loop fuel' h' (freep h') (hptr h' (freep h')) nu
        end
      else malloc_loop fuel' h p (hptr h p) nu
  end.
Definition malloc (fuel : nat) (h : uheap) (nbytes : Z) : option (uheap * option Z) :=
  let h :=
    if freep h =? 0 then set_size (set_freep (set_ptr h base base) base) base 0 else h in
  malloc_loop fuel h (freep h) (hptr h (freep h)) (nunits nbytes).

(** ** The free list *)
(** The address after a list of blocks that is followed by [e]. *)
Definition first (l : list block) (e : Z) : Z := match l with [] => e | b :: _ => b.1 end.
(** The headers of the blocks hold their sizes and lead from one to the next. *)
Fixpoint nodes (h : uheap) (l : list block) (e : Z) : Prop :=
  match l with
  | [] => True
  | b :: l' => hsize h b.1 = b.2 /\ hptr h b.1 = first l' e /\ nodes h l' e
  end.
(** One block lies before another, with a gap between them. *)
Definition before (b b' : block) : Prop := b.1 + b.2 < b'.1.

(** The circle through [base] and the free blocks. *)
Definition circle (bl : list block) : list block := (base, 0) :: bl.
Record list_ok (h : uheap) (bl : list block) : Prop := {
  lo_nodes : nodes h (circle bl) base;
  lo_sorted : StronglySorted before (circle bl);
  lo_sizes : Forall (λ b, 0 < b.2) bl;
  lo_freep : freep h ∈ map fst (circle bl)
}.
(** The units in the blocks. *)
Definition inside (b : block) (u : Z) : Prop := b.1 <= u < b.1 + b.2.
Definition covered (bl : list block) (u : Z) : Prop := Exists (λ b, inside b u) bl.

Lemma nodes_app (h : uheap) (l1 l2 : list block) (e : Z) :
  nodes h (l1 ++ l2) e <-> nodes h l1 (first l2 e) /\ nodes h l2 e.
Proof.
  induction l1 as [|b l1 IH]; simpl; [tauto|]. rewrite IH.
  assert (first (l1 ++ l2) e = first l1 (first l2 e)) as -> by (by destruct l1). tauto.
Qed.

Lemma nodes_frame (h h' : uheap) (l : list block) (e : Z) :
  Forall (λ b, hptr h' b.1 = hptr h b.1 /\ hsize h' b.1 = hsize h b.1) l -> nodes h l e -> nodes h' l e.
Proof.
  induction 1 as [|b l [Hp Hs] _ IH]; simpl; [done|]. rewrite Hp, Hs. naive_solver.
Qed.

Lemma sorted_app (R : block -> block -> Prop) (l1 l2 : list block) :
  StronglySorted R (l1 ++ l2) <->
  StronglySorted R l1 /\ StronglySorted R l2 /\ Forall (λ b, Forall (R b) l2) l1.
Proof.
  induction l1 as [|b l1 IH]; simpl.
  { split; [intros H; split_and!; [constructor | done | constructor] | tauto]. }
  rewrite list.Forall_cons. split.
  - intros H. inversion_clear H as [|?? H1 H2]. apply IH in H1 as (H1 & H3 & H4).
    apply Forall_app in H2 as [H2 H5]. split_and!; [by constructor | done | done | done].
  - intros (H1 & H2 & H3 & H4). inversion_clear H1 as [|?? H5 H6].
    constructor; [by apply IH | by apply Forall_app].
Qed.

(** *** Adding a block to a list *)

(** A block and the list after it, joined when they touch. *)
Definition join (b : block) (l : list block) : list block :=
  match l with
  | b' :: l' => if b.1 + b.2 =? b'.1 then (b.1, b.2 + b'.2) :: l' else b :: l
  | [] => [b]
  end.

Lemma join_cons (b : block) (l : list block) : exists n l', join b l = (b.1, n) :: l'.
Proof. destruct b as [x n], l as [|b' l]; simpl; [by eexists _, _|]. case_match; by eexists _, _. Qed.

Lemma covered_cons (b : block) (l : list block) (u : Z) : covered (b :: l) u <-> inside b u \/ covered l u.
Proof. apply Exists_cons. Qed.

Lemma covered_app (l l' : list block) (u : Z) : covered (l ++ l') u <-> covered l u \/ covered l' u.
Proof. apply Exists_app. Qed.

Lemma join_covered (b : block) (l : list block) (u : Z) :
  0 <= b.2 -> Forall (λ b', 0 <= b'.2) l -> covered (join b l) u <-> inside b u \/ covered l u.
Proof.
  intros Hb Hl. destruct l as [|b' l]; simpl; [apply covered_cons|].
  case_match eqn:E; rewrite !covered_cons; [|done]. apply Z.eqb_eq in E. inversion_clear Hl as [|?? Hb' _].
  unfold inside. simpl. intuition lia.
Qed.

Lemma join_sorted (b : block) (l : list block) :
  StronglySorted before l -> Forall (λ b', 0 <= b'.2) l -> Forall (λ b', b.1 + b.2 <= b'.1) l ->
  StronglySorted before (join b l).
Proof.
  intros Hs Hn Hl. destruct Hs as [|b' l Hs Hb']; simpl; [repeat constructor|].
  inversion_clear Hl as [|?? Hle Hl']. inversion_clear Hn as [|?? Hb'n Hn'].
  case_match eqn:E; [apply Z.eqb_eq in E | apply Z.eqb_neq in E].
  - constructor; [done|]. eapply Forall_impl, Hb'. unfold before. simpl. intros x Hx. lia.
  - constructor; [by constructor|]. constructor; [unfold before; lia|].
    eapply Forall_impl, Hb'. unfold before. simpl. intros x Hx. lia.
Qed.

Lemma join_all (P : block -> Prop) (b : block) (l : list block) :
  P b -> Forall P l -> (forall b', P b' -> b.1 + b.2 = b'.1 -> P (b.1, b.2 + b'.2)) -> Forall P (join b l).
Proof.
  intros Hb Hl Hj. destruct Hl as [|b' l Hb' Hl]; simpl; [by repeat constructor|].
  case_match eqn:E; [|by repeat constructor]. apply Z.eqb_eq in E. constructor; [by apply Hj | done].
Qed.

(** *** Going round the circle *)
Lemma nodes_next (h : uheap) (l : list block) (e : Z) (i : nat) (b : block) :
  nodes h l e -> l !! i = Some b -> hsize h b.1 = b.2 /\ hptr h b.1 = first (drop (S i) l) e.
Proof.
  revert i. induction l as [|b' l IH]; intros i; simpl; [done|]. intros (Hs & Hp & Hn) Hi.
  destruct i as [|i]; simpl in Hi; [injection Hi as <-; by rewrite drop_0 | by apply IH].
Qed.

(** The block [j] steps from the one at index [i]. *)
Definition around (c : list block) (i j : nat) : block := default (base, 0) (c !! ((i + j) mod length c)%nat).

Lemma around_next (h : uheap) (bl : list block) (i j : nat) :
  nodes h (circle bl) base ->
  hptr h (around (circle bl) i j).1 = (around (circle bl) i (S j)).1.
Proof.
  set (c := circle bl). intros Hn. unfold around. set (m := length c).
  assert (m ≠ 0)%nat as Hm by done.
  pose proof (Nat.mod_upper_bound (i + j) m Hm) as Hlt.
  destruct (lookup_lt_is_Some_2 c ((i + j) mod m) Hlt) as [b Hb]. rewrite Hb. cbn [from_option id].
  destruct (nodes_next h c base _ _ Hn Hb) as [_ ->].
  replace (i + S j)%nat with ((i + j) + 1)%nat by lia.
  rewrite <- (Nat.Div0.add_mod_idemp_l (i + j) 1 m). set (k := ((i + j) mod m)%nat) in *.
  destruct (decide (S k < m)%nat) as [Hk|Hk].
  - rewrite Nat.mod_small by lia.
    destruct (lookup_lt_is_Some_2 c (k + 1) ltac:(lia)) as [b' Hb']. rewrite Hb'. cbn [from_option id].
    replace (S k) with (k + 1)%nat by lia. by rewrite (drop_S c b' (k + 1) Hb').
  - rewrite drop_ge by lia. replace (k + 1)%nat with m by lia. by rewrite Nat.Div0.mod_same.
Qed.

Lemma around_lookup (c : list block) (i j k : nat) (b : block) :
  ((i + j) mod length c)%nat = k -> c !! k = Some b -> around c i j = b.
Proof. unfold around. by intros -> ->. Qed.

(** Any block of a circle is reached within one round. *)
Lemma around_reach (m i k : nat) : (i < m)%nat -> (k < m)%nat -> exists d, (d < m)%nat /\ ((i + d) mod m)%nat = k.
Proof.
  intros Hi Hk. destruct (decide (i <= k)%nat) as [H|H].
  - exists (k - i)%nat. split; [lia|]. rewrite Nat.mod_small; lia.
  - exists (k + m - i)%nat. split; [lia|]. replace (i + (k + m - i))%nat with (k + 1 * m)%nat by lia.
    rewrite Nat.Div0.mod_add, Nat.mod_small; lia.
Qed.

(** Where a block belongs in the circle. *)
Record splits (bl l1 : list block) (p : block) (l2 : list block) (bp : Z) : Prop := {
  sp_eq : circle bl = l1 ++ p :: l2;
  sp_before : Forall (λ b, b.1 < bp) (l1 ++ [p]);
  sp_after : Forall (λ b, bp < b.1) l2
}.

(** The two tests of the loop of free. *)
Definition stop (h : uheap) (bp p : Z) : bool :=
  (p <? bp) && (bp <? hptr h p) || (hptr h p <=? p) && ((p <? bp) || (bp <? hptr h p)).

Lemma free_find_step (fuel : nat) (h : uheap) (bp p : Z) :
  free_find (S fuel) h bp p = if stop h bp p then Some p else free_find fuel h bp (hptr h p).
Proof. simpl. unfold stop. by repeat case_match. Qed.

Section Free.
Context (h : uheap) (bl l1 : list block) (p : block) (l2 : list block) (bp : Z).
Context (Hok : list_ok h bl) (Hsp : splits bl l1 p l2 bp).
Notation c := (circle bl).
Notation k := (length l1).

Lemma split_at : c !! k = Some p.
Proof. rewrite (sp_eq _ _ _ _ _ Hsp). by rewrite list_lookup_middle. Qed.

Lemma circle_size (b : block) : b ∈ c -> 0 <= b.2.
Proof.
  unfold circle. rewrite elem_of_cons. intros [->|H]; [done|].
  pose proof (lo_sizes h bl Hok) as Hs. rewrite list.Forall_forall in Hs. specialize (Hs b H). simpl in Hs. lia.
Qed.

(** Earlier blocks are at lower addresses. *)
Lemma circle_lt (i j : nat) (b b' : block) :
  (i < j)%nat -> c !! i = Some b -> c !! j = Some b' -> b.1 + b.2 < b'.1 /\ b.1 < b'.1.
Proof.
  intros Hij Hb Hb'. assert (before b b') as H.
  { pose proof (lo_sorted h bl Hok) as Hs. rewrite <- (take_drop (S i) c) in Hs.
    apply (StronglySorted_app_1_elem_of _ _ _ b b' Hs).
    - apply (list_elem_of_lookup_2 _ i). rewrite lookup_take_lt; [done | lia].
    - apply (list_elem_of_lookup_2 _ (j - S i)%nat). rewrite lookup_drop. rewrite <- Hb'. f_equal. lia. }
  unfold before in H. pose proof (circle_size b (list_elem_of_lookup_2 _ _ _ Hb)). lia.
Qed.

Lemma circle_before (i : nat) (b : block) : c !! i = Some b -> (b.1 < bp <-> (i <= k)%nat) /\ b.1 ≠ bp.
Proof.
  intros Hb. pose proof (sp_before _ _ _ _ _ Hsp) as H1. pose proof (sp_after _ _ _ _ _ Hsp) as H2.
  rewrite (sp_eq _ _ _ _ _ Hsp) in Hb. rewrite cons_middle, app_assoc in Hb.
  destruct (decide (i <= k)%nat) as [Hi|Hi].
  - rewrite lookup_app_l in Hb by (rewrite length_app; simpl; lia).
    pose proof (proj1 (Forall_lookup _ _) H1 i b Hb) as H. simpl in H. lia.
  - rewrite lookup_app_r in Hb by (rewrite length_app; simpl; lia).
    pose proof (proj1 (Forall_lookup _ _) H2 _ b Hb) as H. simpl in H. lia.
Qed.

Lemma stop_iff (j : nat) (b : block) : c !! j = Some b -> stop h bp b.1 = bool_decide (j = k).
Proof.
  intros Hb. destruct (nodes_next h c base j b (lo_nodes h bl Hok) Hb) as [_ Hn].
  destruct (circle_before j b Hb) as [Hj Hne]. unfold stop. rewrite Hn.
  assert (base < bp) as Hbase.
  { destruct (circle_before 0 (base, 0) eq_refl) as [H _]. simpl in H. apply H. lia. }
  destruct (c !! S j) as [b'|] eqn:Hb'.
  - rewrite (drop_S _ _ _ Hb'). cbn [first].
    destruct (circle_lt j (S j) b b' ltac:(lia) Hb Hb') as [_ Hlt].
    destruct (circle_before (S j) b' Hb') as [Hj' Hne'].
    case_bool_decide as E; blia.
  - apply lookup_ge_None in Hb'. rewrite drop_ge by done. cbn [first].
    pose proof (lookup_lt_Some _ _ _ Hb). pose proof (lookup_lt_Some _ _ _ split_at).
    assert (base <= b.1) as Hge.
    { destruct j as [|j]; [injection Hb as <-; simpl; lia|].
      destruct (circle_lt 0 (S j) (base, 0) b ltac:(lia) eq_refl Hb) as [_ ?]. simpl in *. lia. }
    case_bool_decide as E; blia.
Qed.

Lemma free_find_around (n i j fuel : nat) :
  ((i + j + n) mod length c)%nat = k -> (n < fuel)%nat ->
  free_find fuel h bp (around c i j).1 = Some p.1.
Proof.
  revert j fuel. induction n as [|n IH]; intros j fuel Hk Hf; (destruct fuel as [|fuel]; [lia|]);
    rewrite free_find_step.
  - rewrite Nat.add_0_r in Hk. rewrite (around_lookup c i j k p Hk split_at), (stop_iff k p split_at).
    by rewrite bool_decide_eq_true_2.
  - destruct (lookup_lt_is_Some_2 c ((i + j) mod length c)) as [b Hb]; [by apply Nat.mod_upper_bound|].
    pose proof (around_lookup c i j _ b eq_refl Hb) as Ha.
    rewrite Ha at 1. rewrite (stop_iff _ b Hb). case_bool_decide as E.
    + rewrite E, split_at in Hb. injection Hb as <-. by rewrite Ha.
    + rewrite around_next by apply Hok. apply IH; [rewrite <- Hk; f_equal; lia | lia].
Qed.

Lemma free_find_ok (fuel : nat) : (length c <= fuel)%nat -> free_find fuel h bp (freep h) = Some p.1.
Proof.
  intros Hf. pose proof (lo_freep h bl Hok) as Hin. apply list_elem_of_lookup_1 in Hin as [i Hi].
  change (map fst c) with (fst <$> c) in Hi.
  rewrite list_lookup_fmap in Hi. destruct (c !! i) as [b|] eqn:Hb; [|done]. injection Hi as Hi.
  pose proof (lookup_lt_Some _ _ _ Hb) as Hlt. pose proof (lookup_lt_Some _ _ _ split_at) as Hk.
  destruct (around_reach _ i k Hlt Hk) as (d & Hd & E).
  replace (freep h) with (around c i 0).1.
  - apply (free_find_around d); [by rewrite Nat.add_0_r | lia].
  - rewrite (around_lookup c i 0 i b); [congruence | rewrite Nat.add_0_r; by apply Nat.mod_small | done].
Qed.
End Free.

(** Two heaps with the same headers but at [a]. *)
Definition same_but (a : Z) (h h' : uheap) : Prop :=
  brk h' = brk h /\ freep h' = freep h /\ forall x, x ≠ a -> hptr h' x = hptr h x /\ hsize h' x = hsize h x.

Lemma put_eq (f : Z -> Z) (a v : Z) : put f a v a = v.
Proof. unfold put. by rewrite Z.eqb_refl. Qed.
Lemma put_ne (f : Z -> Z) (a v x : Z) : x ≠ a -> put f a v x = f x.
Proof. intros H. unfold put. by rewrite (proj2 (Z.eqb_neq x a)). Qed.

Lemma same_but_nodes (a : Z) (h h' : uheap) (l : list block) (e : Z) :
  same_but a h h' -> Forall (λ b, b.1 ≠ a) l -> nodes h l e -> nodes h' l e.
Proof. intros (_ & _ & H) Hl. apply nodes_frame. eapply Forall_impl, Hl. intros b Hb. by apply H. Qed.

(** What both joins do: a header [b] gets the pointer to the list [l], or is
    joined with the first block of it. *)
Lemma join_nodes (h h' : uheap) (b : block) (l : list block) :
  same_but b.1 h h' -> nodes h l base -> Forall (λ b', b.1 < b'.1) l -> base < b.1 + b.2 \/ l ≠ [] ->
  (if b.1 + b.2 =? first l base
   then hsize h' b.1 = b.2 + hsize h (first l base) /\ hptr h' b.1 = hptr h (first l base)
   else hsize h' b.1 = b.2 /\ hptr h' b.1 = first l base) ->
  nodes h' (join b l) base.
Proof.
  intros Hs Hn Hlt Hb Hh. assert (nodes h' l base) as Hn'.
  { eapply same_but_nodes; [done| |done]. eapply Forall_impl, Hlt. simpl. intros x Hx. lia. }
  destruct l as [|b' l]; simpl in *.
  - rewrite (proj2 (Z.eqb_neq _ base)) in Hh by (destruct Hb; [lia | done]). naive_solver.
  - destruct (b.1 + b.2 =? b'.1); [|naive_solver]. destruct Hh as [Hz Hp], Hn as (Hz' & Hp' & _), Hn' as (_ & _ & Hn').
    simpl. by rewrite Hz, Hp, Hz', Hp'.
Qed.

Lemma join_upper_same (h : uheap) (bp p : Z) : same_but bp h (join_upper h bp p).
Proof.
  unfold join_upper, same_but. case_match; simpl; split_and!; try done; intros x Hx; by rewrite !put_ne.
Qed.
Lemma join_lower_same (h : uheap) (bp p : Z) : same_but p h (join_lower h bp p).
Proof.
  unfold join_lower, same_but. case_match; simpl; split_and!; try done; intros x Hx; by rewrite !put_ne.
Qed.

Lemma join_upper_nodes (h : uheap) (bp p : Z) (l : list block) :
  base < bp -> 0 < hsize h bp -> p ≠ bp -> hptr h p = first l base -> nodes h l base -> Forall (λ b, bp < b.1) l ->
  nodes (join_upper h bp p) (join (bp, hsize h bp) l) base.
Proof.
  intros Hb Hz Hp Hpl Hn Hl. apply (join_nodes h); [apply join_upper_same | done | done | simpl; lia |].
  unfold join_upper. rewrite Hpl. simpl. case_match; simpl; rewrite ?put_eq; [|done].
  rewrite Hpl. split; done.
Qed.

Lemma join_lower_nodes (h : uheap) (p bp n : Z) (l : list block) :
  nodes h ((bp, n) :: l) base -> p < bp -> Forall (λ b, p < b.1) l ->
  nodes (join_lower h bp p) (join (p, hsize h p) ((bp, n) :: l)) base.
Proof.
  intros Hn Hp Hl. apply (join_nodes h); [apply join_lower_same | done | by constructor | by right |].
  unfold join_lower. simpl. case_match; simpl; rewrite ?put_eq; [|done]. done.
Qed.

(** *** Where a block goes *)
Lemma find_split (c : list block) (b0 : block) (bp : Z) :
  b0.1 < bp -> Forall (λ b, b.1 ≠ bp) c -> StronglySorted before (b0 :: c) -> Forall (λ b, 0 <= b.2) (b0 :: c) ->
  exists l1 p l2, b0 :: c = l1 ++ p :: l2 /\ Forall (λ b, b.1 < bp) (l1 ++ [p]) /\ Forall (λ b, bp < b.1) l2.
Proof.
  revert b0. induction c as [|b c IH]; intros b0 H0 Hne Hs Hz.
  { exists [], b0, []. by repeat constructor. }
  inversion_clear Hne as [|?? Hb Hne']. inversion_clear Hs as [|?? Hs' Hb0]. inversion_clear Hz as [|?? Hz0 Hz'].
  destruct (decide (b.1 < bp)) as [Hlt|Hge].
  - destruct (IH b Hlt Hne' Hs' Hz') as (l1 & p & l2 & -> & H1 & H2).
    exists (b0 :: l1), p, l2. split_and!; [done | by constructor | done].
  - exists [], b0, (b :: c). split_and!; [done | by repeat constructor |].
    inversion_clear Hs' as [|?? _ Hb']. inversion_clear Hz' as [|?? Hzb _].
    constructor; [lia|]. eapply Forall_impl, Hb'. unfold before. intros x Hx. lia.
Qed.

Definition disjoint (b : block) (l : list block) : Prop := forall u, inside b u -> ¬ covered l u.

Lemma disjoint_apart (b b' : block) (l : list block) :
  0 < b.2 -> 0 < b'.2 -> disjoint b l -> b' ∈ l -> b'.1 + b'.2 <= b.1 \/ b.1 + b.2 <= b'.1.
Proof.
  intros Hb Hb' Hd Hin. destruct (decide (b'.1 <= b.1)) as [H|H].
  - left. apply Z.le_ngt. intros Hlt. apply (Hd b.1); [unfold inside; lia|].
    apply list.Exists_exists. exists b'. split; [done | unfold inside; lia].
  - right. apply Z.le_ngt. intros Hlt. apply (Hd b'.1); [unfold inside; lia|].
    apply list.Exists_exists. exists b'. split; [done | unfold inside; lia].
Qed.

Lemma sizes_circle (bl : list block) : Forall (λ b, 0 < b.2) bl -> Forall (λ b, 0 <= b.2) (circle bl).
Proof. intros H. constructor; [done|]. eapply Forall_impl, H. simpl. intros b Hb. lia. Qed.

(** The neighbours of a block that is apart from the free ones. *)
Lemma block_splits (h : uheap) (bl : list block) (bp n : Z) :
  list_ok h bl -> base < bp -> 0 < n -> disjoint (bp, n) bl ->
  exists l1 p l2, splits bl l1 p l2 bp /\ Forall (λ b, b.1 + b.2 <= bp) (l1 ++ [p]) /\ Forall (λ b, bp + n <= b.1) l2.
Proof.
  intros Hok Hb Hn Hd. pose proof (sizes_circle bl (lo_sizes h bl Hok)) as Hz.
  pose proof (lo_sizes h bl Hok) as Hpos. rewrite list.Forall_forall in Hpos.
  assert (forall b, b ∈ bl -> b.1 + b.2 <= bp \/ bp + n <= b.1) as Happ.
  { intros b Hin. apply (disjoint_apart (bp, n) b bl Hn (Hpos b Hin) Hd Hin). }
  destruct (find_split bl (base, 0) bp Hb) as (l1 & p & l2 & E & H1 & H2).
  { apply list.Forall_forall. intros b Hin Hbp. specialize (Hpos b Hin). destruct (Happ b Hin); lia. }
  { apply Hok. }
  { done. }
  assert (forall b, b ∈ l1 ++ [p] \/ b ∈ l2 -> b = (base, 0) \/ b ∈ bl) as Hin.
  { intros b Hb'. apply elem_of_cons. rewrite E, cons_middle, app_assoc. by apply elem_of_app. }
  exists l1, p, l2. split; [done|]. rewrite list.Forall_forall in H1, H2. rewrite !list.Forall_forall. split.
  - intros b Hb'. specialize (H1 b Hb'). destruct (Hin b) as [->|Hbl]; [by left | simpl; lia |].
    destruct (Happ b Hbl); [done|]. specialize (Hpos b Hbl). lia.
  - intros b Hb'. specialize (H2 b Hb'). destruct (Hin b) as [->|Hbl]; [by right | simpl in *; lia |].
    destruct (Happ b Hbl); [|done]. specialize (Hpos b Hbl). lia.
Qed.

(** The circle with a block added. *)
Definition added (l1 : list block) (p : block) (l2 : list block) (b : block) : list block :=
  l1 ++ join p (join b l2).

Lemma added_circle (bl l1 : list block) (p : block) (l2 : list block) (b : block) :
  splits bl l1 p l2 b.1 -> exists bl', added l1 p l2 b = circle bl'.
Proof.
  intros [E H1 _]. unfold added. destruct l1 as [|b0 l1]; simpl in *.
  - destruct (join_cons b l2) as (n & l' & ->). injection E as <- <-. inversion_clear H1 as [|?? Hb _]. simpl in *.
    rewrite (proj2 (Z.eqb_neq _ _)) by lia. by eexists.
  - injection E as <- E. by eexists.
Qed.

Section Added.
Context (h : uheap) (bl l1 : list block) (p : block) (l2 : list block) (bp n : Z).
Context (Hok : list_ok h bl) (Hsp : splits bl l1 p l2 bp) (Hn : 0 < n).
Context (Hlo : Forall (λ b, b.1 + b.2 <= bp) (l1 ++ [p])) (Hhi : Forall (λ b, bp + n <= b.1) l2).

Lemma split_sizes : Forall (λ b, 0 <= b.2) l1 /\ 0 <= p.2 /\ Forall (λ b, 0 <= b.2) l2.
Proof.
  pose proof (sizes_circle bl (lo_sizes h bl Hok)) as Hz. rewrite (sp_eq _ _ _ _ _ Hsp) in Hz.
  apply Forall_app in Hz as [? Hz]. by inversion_clear Hz.
Qed.

Lemma split_sorted :
  StronglySorted before l1 /\ Forall (λ b, before b p) l1 /\ StronglySorted before l2 /\ p.1 + p.2 <= bp.
Proof.
  pose proof (lo_sorted h bl Hok) as Hs. rewrite (sp_eq _ _ _ _ _ Hsp) in Hs.
  apply sorted_app in Hs as (H1 & H2 & H3). inversion_clear H2 as [|?? H4 H5].
  apply Forall_app in Hlo as [_ Hp]. inversion_clear Hp as [|?? Hp' _]. split_and!; try done.
  eapply Forall_impl, H3. intros b Hb. by inversion_clear Hb.
Qed.

Lemma join_from : Forall (λ b, bp <= b.1 /\ 0 <= b.2) (join (bp, n) l2).
Proof.
  destruct split_sizes as (_ & _ & Hz). apply join_all; simpl; [lia | | lia].
  apply list.Forall_forall. intros b Hb. rewrite list.Forall_forall in Hz, Hhi.
  specialize (Hz b Hb). specialize (Hhi b Hb). simpl in *. lia.
Qed.

Lemma added_sorted : StronglySorted before (added l1 p l2 (bp, n)).
Proof.
  destruct split_sizes as (Hz1 & Hzp & Hz2), split_sorted as (Hs1 & Hp & Hs2 & Hle).
  pose proof join_from as Hj. unfold added. apply sorted_app. split_and!; [done| |].
  - apply join_sorted; [by apply join_sorted | |]; (eapply Forall_impl, Hj; simpl; intros b Hb; lia).
  - eapply Forall_impl, Hp. simpl. unfold before. intros b Hb. apply join_all; [done | |].
    + eapply Forall_impl, Hj. simpl. intros b' Hb'. lia.
    + simpl. lia.
Qed.

Lemma added_covered (u : Z) : covered (added l1 p l2 (bp, n)) u <-> covered (circle bl) u \/ inside (bp, n) u.
Proof.
  destruct split_sizes as (Hz1 & Hzp & Hz2). unfold added.
  rewrite covered_app, join_covered, join_covered; [| simpl; lia | done | done | ].
  - rewrite (sp_eq _ _ _ _ _ Hsp), covered_app, covered_cons. tauto.
  - eapply Forall_impl, join_from. simpl. intros b Hb. lia.
Qed.

Lemma added_sizes : Forall (λ b, b = (base, 0) \/ 0 < b.2) (added l1 p l2 (bp, n)).
Proof.
  assert (Forall (λ b, b = (base, 0) \/ 0 < b.2) (circle bl)) as Hc.
  { constructor; [by left|]. eapply Forall_impl, (lo_sizes h bl Hok). by right. }
  rewrite (sp_eq _ _ _ _ _ Hsp) in Hc. apply Forall_app in Hc as [Hc1 Hc2]. inversion_clear Hc2 as [|?? Hp Hc2'].
  apply Forall_app. split; [done|].
  assert (Forall (λ b : block, 0 < b.2) (join (bp, n) l2)) as Hj.
  { apply join_all; [done | | simpl; lia]. apply list.Forall_forall. intros b Hb.
    rewrite list.Forall_forall in Hc2'. destruct (Hc2' b Hb) as [->|]; [|done].
    rewrite list.Forall_forall in Hhi. specialize (Hhi _ Hb). simpl in Hhi.
    pose proof (sp_before _ _ _ _ _ Hsp) as Hb'. pose proof (sp_eq _ _ _ _ _ Hsp) as E.
    destruct l1 as [|b0 l1']; injection E as <- _; inversion_clear Hb'; simpl in *; lia. }
  destruct split_sizes as (_ & Hzp & _). destruct (join_cons (bp, n) l2) as (m & l' & E). rewrite E in *.
  inversion_clear Hj as [|?? Hm Hl']. simpl in *. case_match; constructor; try (simpl; right; lia); try done.
  - eapply Forall_impl, Hl'. by right.
  - constructor; [by right|]. eapply Forall_impl, Hl'. by right.
Qed.

(** Some block of the new list is at least as large as the one added. *)
Lemma added_large : Exists (λ b, n <= b.2) (added l1 p l2 (bp, n)).
Proof.
  destruct split_sizes as (_ & Hzp & Hz). unfold added. apply Exists_app. right.
  assert (exists m l', join (bp, n) l2 = (bp, m) :: l' /\ n <= m) as (m & l' & -> & Hm).
  { destruct Hz as [|b l2 Hb _]; simpl; [by eexists _, _|]. case_match; eexists _, _; split; try done; simpl; lia. }
  simpl. case_match; [left; simpl; lia | right; by left].
Qed.
End Added.

(** *** free *)
Definition outside (x : Z) (bl : list block) : Prop := x ∉ map fst (circle bl).

Lemma nodes_added (h : uheap) (bl l1 : list block) (p : block) (l2 : list block) (bp n : Z) :
  list_ok h bl -> splits bl l1 p l2 bp -> 0 < n -> hsize h bp = n -> Forall (λ b, bp + n <= b.1) l2 ->
  Forall (λ b, b.1 + b.2 <= bp) (l1 ++ [p]) ->
  nodes (join_lower (join_upper h bp p.1) bp p.1) (added l1 p l2 (bp, n)) base.
Proof.
  intros Hok Hsp Hn Hz Hhi Hlo. pose proof (lo_nodes h bl Hok) as Hnd. rewrite (sp_eq _ _ _ _ _ Hsp) in Hnd.
  apply nodes_app in Hnd as [Hn1 (Hpz & Hpp & Hn2)]. simpl in Hn1.
  pose proof (sp_before _ _ _ _ _ Hsp) as Hb. apply Forall_app in Hb as [Hb1 Hb2]. inversion_clear Hb2 as [|?? Hp _].
  pose proof (sp_after _ _ _ _ _ Hsp) as Ha.
  destruct (split_sorted h bl l1 p l2 bp Hok Hsp Hlo) as (_ & Hbp & _ & _).
  destruct (split_sizes h bl l1 p l2 bp Hok Hsp) as (Hz1 & Hzp & _).
  assert (base < bp) as Hbase.
  { pose proof (sp_eq _ _ _ _ _ Hsp) as E. destruct l1 as [|b0 l1]; injection E as <- _; [done|]. by inversion_clear Hb1. }
  pose proof (join_upper_nodes h bp p.1 l2 Hbase ltac:(lia) ltac:(lia) Hpp Hn2 Ha) as H1.
  pose proof (join_from h bl l1 p l2 bp n Hok Hsp Hn Hhi) as Hj. rewrite Hz in H1.
  destruct (join_cons (bp, n) l2) as (m & l' & E). simpl in E. unfold added. rewrite E in *.
  inversion_clear Hj as [|?? _ Hl'].
  pose proof (join_lower_nodes _ p.1 bp m l' H1 Hp) as H2.
  destruct (join_upper_same h bp p.1) as (_ & _ & Hsame).
  assert (hsize (join_upper h bp p.1) p.1 = p.2) as Hpz' by (by rewrite (proj2 (Hsame p.1 ltac:(lia)))).
  rewrite Hpz' in H2. apply nodes_app. rewrite <- surjective_pairing in H2. split.
  - assert (first (join p ((bp, m) :: l')) base = p.1) as -> by (simpl; by case_match).
    eapply same_but_nodes; [apply join_lower_same| |eapply same_but_nodes; [apply join_upper_same| |exact Hn1]].
    + apply list.Forall_forall. intros b Hb. rewrite list.Forall_forall in Hbp, Hz1.
      specialize (Hbp b Hb). specialize (Hz1 b Hb). unfold before in Hbp. simpl in *. lia.
    + eapply Forall_impl, Hb1. simpl. intros b Hb. lia.
  - apply H2. eapply Forall_impl, Hl'. simpl. intros b Hb. lia.
Qed.

(** What free and the growth of the heap do to the free blocks. *)
Record freed (h : uheap) (bl : list block) (b : block) (h' : uheap) (bl' : list block) : Prop := {
  fr_ok : list_ok h' bl';
  fr_covered u : covered bl' u <-> covered bl u \/ inside b u;
  fr_brk : brk h' = brk h;
  fr_large : Exists (λ b', b.2 <= b'.2) bl';
  fr_length : (length bl' <= S (length bl))%nat;
  fr_size x : x ≠ b.1 -> outside x bl -> hsize h' x = hsize h x
}.

Lemma added_length (bl l1 : list block) (p : block) (l2 : list block) (b : block) :
  circle bl = l1 ++ p :: l2 -> (length (added l1 p l2 b) <= S (length (circle bl)))%nat.
Proof.
  intros ->. unfold added. rewrite !length_app. simpl.
  assert (forall b l, (length (join b l) <= S (length l))%nat) as Hj.
  { intros b' l. destruct l; simpl; [lia|]. case_match; simpl; lia. }
  pose proof (Hj p (join b l2)). pose proof (Hj b l2). lia.
Qed.

Lemma free_ok (h : uheap) (bl : list block) (bp n : Z) (fuel : nat) :
  list_ok h bl -> base < bp -> 0 < n -> hsize h bp = n -> disjoint (bp, n) bl -> (length (circle bl) <= fuel)%nat ->
  exists h' bl', free fuel h bp = Some h' /\ freed h bl (bp, n) h' bl'.
Proof.
  intros Hok Hb Hn Hz Hd Hf.
  destruct (block_splits h bl bp n Hok Hb Hn Hd) as (l1 & p & l2 & Hsp & Hlo & Hhi).
  destruct (added_circle bl l1 p l2 (bp, n) Hsp) as [bl' E].
  unfold free. rewrite (free_find_ok h bl l1 p l2 bp Hok Hsp fuel Hf). simpl.
  eexists _, bl'. split; [done|].
  assert (forall l u, covered (circle l) u <-> covered l u) as Hcc.
  { intros l u. unfold circle. rewrite covered_cons. unfold inside. simpl. intuition lia. }
  pose proof (added_sorted h bl l1 p l2 bp n Hok Hsp Hn Hlo Hhi) as Hso. rewrite E in Hso.
  split.
  - split.
    + rewrite <- E. pose proof (nodes_added h bl l1 p l2 bp n Hok Hsp Hn Hz Hhi Hlo) as H.
      revert H. apply nodes_frame. apply list.Forall_forall. done.
    + done.
    + pose proof (added_sizes h bl l1 p l2 bp n Hok Hsp Hn Hlo Hhi) as Hs. rewrite E in Hs. inversion_clear Hs as [|?? _ Hs'].
      apply list.Forall_forall. intros b Hin. rewrite list.Forall_forall in Hs'. destruct (Hs' b Hin) as [->|]; [|done].
      inversion_clear Hso as [|?? _ Hlt]. rewrite list.Forall_forall in Hlt. specialize (Hlt _ Hin).
      unfold before in Hlt. simpl in Hlt. lia.
    + cbn [freep set_freep]. rewrite <- E. unfold added. rewrite map_app. apply elem_of_app. right.
      destruct (join_cons p (join (bp, n) l2)) as (m & l' & ->). by left.
  - intros u. rewrite <- (Hcc bl'), <- E, (added_covered h bl l1 p l2 bp n Hok Hsp Hn Hhi). by rewrite Hcc.
  - unfold join_lower, join_upper. by repeat case_match.
  - pose proof (added_large h bl l1 p l2 bp n Hok Hsp Hhi) as Hl. rewrite E in Hl.
    inversion_clear Hl as [?? H|?? H]; [simpl in H; lia | done].
  - pose proof (added_length bl l1 p l2 (bp, n) (sp_eq _ _ _ _ _ Hsp)) as Hl. rewrite E in Hl. simpl in Hl. lia.
  - intros x Hx Hout. simpl.
    destruct (join_lower_same (join_upper h bp p.1) bp p.1) as (_ & _ & H1).
    destruct (join_upper_same h bp p.1) as (_ & _ & H2). simpl in Hx.
    assert (x ≠ p.1) as Hxp; [|by rewrite (proj2 (H1 x Hxp)); apply H2]. intros ->. apply Hout. rewrite (sp_eq _ _ _ _ _ Hsp), map_app.
    apply elem_of_app. right. by left.
Qed.

(** *** malloc *)
Lemma mod_pred (x m t : nat) : (m ≠ 0)%nat -> ((x + 1) mod m)%nat = S t -> (x mod m)%nat = t.
Proof.
  intros Hm H. pose proof (Nat.mod_upper_bound x m Hm) as Hlt.
  rewrite <- (Nat.Div0.add_mod_idemp_l x 1 m) in H. destruct (decide (x mod m + 1 < m)%nat) as [Hc|Hc].
  - rewrite Nat.mod_small in H; lia.
  - replace (x mod m + 1)%nat with m in H by lia. rewrite Nat.Div0.mod_same in H. lia.
Qed.

Lemma circle_inj (h : uheap) (bl : list block) (i j : nat) (b b' : block) :
  list_ok h bl -> circle bl !! i = Some b -> circle bl !! j = Some b' -> b.1 = b'.1 -> i = j.
Proof.
  intros Hok Hb Hb' E. destruct (Nat.lt_trichotomy i j) as [H|[H|H]]; [|done|].
  - destruct (circle_lt h bl Hok i j b b' H Hb Hb'). lia.
  - destruct (circle_lt h bl Hok j i b' b H Hb' Hb). lia.
Qed.

(** The block at [b] can be carved, and [q] is the one before it. *)
Definition fits (bl : list block) (nu q p : Z) : Prop :=
  exists l1 q' b l2, circle bl = l1 ++ q' :: b :: l2 /\ q = q'.1 /\ p = b.1 /\ nu <= b.2.

Section Scan.
Context (h : uheap) (bl : list block) (i : nat) (nu : Z).
Context (Hok : list_ok h bl) (Hnu : 0 < nu) (Hi : (i < length (circle bl))%nat).
Context (Hfreep : freep h = (around (circle bl) i 0).1).
Notation c := (circle bl).
Notation m := (length (circle bl)).

Lemma around_some (j : nat) : c !! ((i + j) mod m)%nat = Some (around c i j).
Proof.
  unfold around. destruct (lookup_lt_is_Some_2 c ((i + j) mod m)) as [b Hb]; [by apply Nat.mod_upper_bound|].
  by rewrite Hb.
Qed.

Lemma around_size (j : nat) : hsize h (around c i j).1 = (around c i j).2.
Proof. apply (nodes_next h c base _ _ (lo_nodes h bl Hok) (around_some j)). Qed.

Lemma around_fits (j : nat) :
  nu <= (around c i (S j)).2 -> fits bl nu (around c i j).1 (around c i (S j)).1.
Proof.
  intros Hn. pose proof (around_some (S j)) as Hb. pose proof (around_some j) as Hq.
  destruct ((i + S j) mod m)%nat as [|t] eqn:E.
  { injection Hb as Hb. rewrite <- Hb in Hn. simpl in Hn. lia. }
  replace (i + S j)%nat with (i + j + 1)%nat in E by lia.
  apply mod_pred in E; [|done]. rewrite E in Hq.
  exists (take t c), (around c i j), (around c i (S j)), (drop (S (S t)) c).
  split_and!; [|done..]. rewrite <- (drop_S _ _ _ Hb), <- (drop_S _ _ _ Hq). by rewrite take_drop.
Qed.

Lemma around_freep (j : nat) : (0 < j < m)%nat -> (around c i j).1 ≠ freep h.
Proof.
  intros Hj E. rewrite Hfreep in E.
  pose proof (circle_inj h bl _ _ _ _ Hok (around_some j) (around_some 0) E) as Heq.
  rewrite Nat.add_0_r, (Nat.mod_small i) in Heq by done.
  destruct (decide (i + j < m)%nat) as [H|H].
  - rewrite Nat.mod_small in Heq; lia.
  - replace (i + j)%nat with (i + j - m + 1 * m)%nat in Heq by lia.
    rewrite Nat.Div0.mod_add, Nat.mod_small in Heq; lia.
Qed.

(** One round of the loop of malloc. *)
Lemma scan_round (n j fuel : nat) :
  (j + S n = m)%nat -> (n < fuel)%nat ->
  (exists q p, fits bl nu q p /\
     malloc_loop fuel h (around c i j).1 (around c i (S j)).1 nu =
       Some ((carve h q p nu).1, Some (carve h q p nu).2)) \/
  ((forall t, (j <= t < m)%nat -> (around c i (S t)).2 < nu) /\
   exists q, malloc_loop fuel h (around c i j).1 (around c i (S j)).1 nu =
     malloc_loop (fuel - n) h q (freep h) nu).
Proof.
  revert j fuel. induction n as [|n IH]; intros j fuel Hj Hf.
  - assert ((around c i (S j)).1 = freep h) as E.
    { rewrite Hfreep. f_equal. unfold around. f_equal. f_equal. rewrite Nat.add_0_r, (Nat.mod_small i) by done.
      replace (i + S j)%nat with (i + 1 * m)%nat by lia. rewrite Nat.Div0.mod_add. by apply Nat.mod_small. }
    destruct (decide (nu <= (around c i (S j)).2)) as [Hn|Hn].
    + left. exists (around c i j).1, (around c i (S j)).1. split; [by apply around_fits|].
      destruct fuel as [|fuel]; [lia|]. cbn [malloc_loop]. rewrite around_size, (proj2 (Z.leb_le _ _)) by done.
      by destruct (carve h _ _ nu).
    + right. split; [intros t Ht; replace t with j by lia; lia|].
      exists (around c i j).1. by rewrite Nat.sub_0_r, E.
  - destruct fuel as [|fuel]; [lia|]. cbn [malloc_loop]. rewrite around_size.
    destruct (decide (nu <= (around c i (S j)).2)) as [Hn|Hn].
    + left. exists (around c i j).1, (around c i (S j)).1. split; [by apply around_fits|].
      rewrite (proj2 (Z.leb_le _ _)) by done. by destruct (carve h _ _ nu).
    + rewrite (proj2 (Z.leb_gt _ _)), (proj2 (Z.eqb_neq _ (freep h))) by (lia || apply around_freep; lia).
      rewrite around_next by apply Hok.
      destruct (IH (S j) fuel ltac:(lia) ltac:(lia)) as [H|[Hall [q H]]]; [by left|]. right. split.
      * intros t Ht. destruct (decide (t = j)) as [->|]; [lia | apply Hall; lia].
      * exists q. exact H.
Qed.

(** A block that is large enough is found in the round. *)
Lemma scan_large (fuel : nat) :
  Exists (λ b, nu <= b.2) bl -> (m <= fuel)%nat ->
  exists q p, fits bl nu q p /\
    malloc_loop fuel h (freep h) (hptr h (freep h)) nu = Some ((carve h q p nu).1, Some (carve h q p nu).2).
Proof.
  intros Hex Hf. rewrite Hfreep, around_next by apply Hok.
  destruct (scan_round (m - 1) 0 fuel) as [H|[Hall _]]; [simpl; lia | simpl in *; lia | done |]. exfalso.
  apply list.Exists_exists in Hex as (b & Hin & Hb). apply list_elem_of_lookup_1 in Hin as [k Hk].
  pose proof (lookup_lt_Some _ _ _ Hk) as Hlt.
  destruct (around_reach m ((i + 1) mod m) (S k)) as (d & Hd & E); [by apply Nat.mod_upper_bound | simpl; lia |].
  rewrite Nat.Div0.add_mod_idemp_l in E. replace (i + 1 + d)%nat with (i + S d)%nat in E by lia.
  specialize (Hall d ltac:(lia)). rewrite (around_lookup c i (S d) (S k) b E Hk) in Hall. lia.
Qed.
End Scan.

(** What malloc does to the free blocks: the block [r] leaves them. *)
Record taken (h : uheap) (bl : list block) (r : block) (h' : uheap) (bl' : list block) : Prop := {
  tk_ok : list_ok h' bl';
  tk_size : hsize h' r.1 = r.2;
  tk_inside u : inside r u -> covered bl u;
  tk_covered u : covered bl' u <-> covered bl u /\ ¬ inside r u;
  tk_brk : brk h' = brk h;
  tk_base : base < r.1;
  tk_other x : x ≠ base -> ¬ covered bl x -> hsize h' x = hsize h x
}.

Section Carve.
Context (h : uheap) (bl l1 : list block) (q b : block) (l2 : list block) (nu : Z).
Context (Hok : list_ok h bl) (Heq : circle bl = l1 ++ q :: b :: l2) (Hnu : 0 < nu) (Hfit : nu <= b.2).

Lemma carve_order :
  Forall (λ x, x.1 < q.1) l1 /\ q.1 < b.1 /\ 0 <= q.2 /\ Forall (λ x, b.1 + b.2 < x.1) l2 /\
  StronglySorted before (l1 ++ [q]) /\ StronglySorted before l2 /\ Forall (λ x, before x b /\ Forall (before x) l2) (l1 ++ [q]).
Proof.
  pose proof (lo_sorted h bl Hok) as Hs. pose proof (sizes_circle bl (lo_sizes h bl Hok)) as Hz.
  rewrite Heq in Hs, Hz. rewrite cons_middle, app_assoc in Hs, Hz.
  apply sorted_app in Hs as (H1 & H2 & H3). apply Forall_app in Hz as [Hz1 Hz2].
  inversion_clear H2 as [|?? H4 H5].
  assert (Forall (λ x, before x b /\ Forall (before x) l2) (l1 ++ [q])) as Hbef.
  { eapply Forall_impl, H3. intros x Hx. by inversion_clear Hx. }
  apply Forall_app in Hz1 as [Hz1 Hzq]. inversion_clear Hzq as [|?? Hq _].
  pose proof Hbef as Hbef'. apply Forall_app in Hbef' as [_ Hbq]. inversion_clear Hbq as [|?? [Hqb _] _].
  unfold before in Hqb. split_and!; try done; [|lia].
  apply sorted_app in H1 as (_ & _ & H1). apply list.Forall_forall. intros x Hx.
  rewrite list.Forall_forall in H1, Hz1. specialize (H1 x Hx). specialize (Hz1 x Hx).
  inversion_clear H1 as [|?? H1' _]. unfold before in H1'. simpl in *. lia.
Qed.

Lemma carve_nodes :
  nodes h l1 q.1 /\ hsize h q.1 = q.2 /\ hptr h q.1 = b.1 /\ hsize h b.1 = b.2 /\ hptr h b.1 = first l2 base /\ nodes h l2 base.
Proof.
  pose proof (lo_nodes h bl Hok) as Hn. rewrite Heq in Hn. apply nodes_app in Hn as [H1 H2]. simpl in *. naive_solver.
Qed.

Lemma carve_sizes : 0 < b.2 /\ base <= q.1 /\
  exists t, l1 ++ [q] = (base, 0) :: t /\ bl = t ++ b :: l2 /\ Forall (λ x, 0 < x.2) t /\ Forall (λ x, 0 < x.2) l2.
Proof.
  pose proof (lo_sizes h bl Hok) as Hz. destruct carve_order as (Ho & _).
  assert (exists t, l1 ++ [q] = (base, 0) :: t /\ bl = t ++ b :: l2) as (t & Et & Ebl).
  { destruct l1 as [|b0 l1']; injection Heq as <- E; [by exists [] | exists (l1' ++ [q])].
    by rewrite E, <- app_assoc. }
  rewrite Ebl in Hz. apply Forall_app in Hz as [Hz1 Hz2]. inversion_clear Hz2 as [|?? Hb Hz3].
  split_and!; [done | | by exists t].
  destruct l1 as [|b0 l1']; injection Et as -> _; [done|]. inversion_clear Ho as [|?? Hq _]. simpl in Hq. lia.
Qed.

(** The two results of carving: the whole block, or its upper part. *)
Definition rest_of : list block := if b.2 =? nu then l2 else (b.1, b.2 - nu) :: l2.
Definition carved : block := (b.1 + (b.2 - nu), nu).

Lemma rest_covered (t : list block) (u : Z) :
  Forall (λ x, x.1 + x.2 < b.1) t ->
  covered (t ++ rest_of) u <-> covered (t ++ b :: l2) u /\ ¬ inside carved u.
Proof.
  intros Ht. destruct carve_order as (_ & _ & _ & Hl2 & _).
  assert (covered t u -> ¬ inside carved u) as H1.
  { intros (x & Hx & Hin)%list.Exists_exists. rewrite list.Forall_forall in Ht. specialize (Ht x Hx).
    unfold inside, carved in *. simpl in *. lia. }
  assert (covered l2 u -> ¬ inside carved u) as H2.
  { intros (x & Hx & Hin)%list.Exists_exists. rewrite list.Forall_forall in Hl2. specialize (Hl2 x Hx).
    unfold inside, carved in *. simpl in *. lia. }
  rewrite !covered_app, covered_cons. unfold rest_of. destruct (b.2 =? nu) eqn:E; [apply Z.eqb_eq in E|].
  - assert (inside carved u <-> inside b u) by (unfold inside, carved; simpl; lia). tauto.
  - rewrite covered_cons. assert (inside b u <-> inside (b.1, b.2 - nu) u \/ inside carved u) as Hb
      by (unfold inside, carved; simpl; lia).
    assert (inside (b.1, b.2 - nu) u -> ¬ inside carved u) by (unfold inside, carved; simpl; lia). tauto.
Qed.

Lemma rest_sorted : StronglySorted before ((l1 ++ [q]) ++ rest_of).
Proof.
  destruct carve_order as (_ & _ & _ & Hl2 & Hs1 & Hs2 & Hb). apply sorted_app. unfold rest_of.
  case_match; (split_and!; [done | | ]).
  - done.
  - eapply Forall_impl, Hb. by intros x [_ ?].
  - constructor; [done|]. eapply Forall_impl, Hl2. unfold before. simpl. intros x Hx. lia.
  - eapply Forall_impl, Hb. intros x [H1 H2]. constructor; [exact H1 | done].
Qed.

(** The heap after carving. *)
Lemma carve_heap :
  carve h q.1 b.1 nu = ((carve h q.1 b.1 nu).1, carved.1) /\
  nodes (carve h q.1 b.1 nu).1 (l1 ++ q :: rest_of) base /\
  hsize (carve h q.1 b.1 nu).1 carved.1 = nu /\ brk (carve h q.1 b.1 nu).1 = brk h /\
  freep (carve h q.1 b.1 nu).1 = q.1 /\
  forall x, ¬ inside b x -> hsize (carve h q.1 b.1 nu).1 x = hsize h x.
Proof.
  destruct carve_nodes as (N1 & Nq & Np & Nb & Nbp & N2), carve_order as (Ho1 & Hqb & _ & Ho2 & _).
  destruct carve_sizes as (Hb & _). unfold carve, rest_of, carved. rewrite Nb.
  assert (inside b b.1) as Hin by (unfold inside; lia).
  case_match eqn:E; [apply Z.eqb_eq in E | apply Z.eqb_neq in E]; cbn [fst snd].
  - split_and!; try done; [by rewrite E, Z.sub_diag, Z.add_0_r | | by simpl; rewrite E, Z.sub_diag, Z.add_0_r, Nb].
    apply nodes_app. simpl. rewrite put_eq. split_and!; try done.
    + revert N1. apply nodes_frame. eapply Forall_impl, Ho1. simpl. intros x Hx. by rewrite put_ne by lia.
    + revert N2. apply nodes_frame. eapply Forall_impl, Ho2. simpl. intros x Hx. by rewrite put_ne by lia.
  - simpl. rewrite put_eq. split_and!; try done.
    + apply nodes_app. simpl. split_and!; try done.
      * revert N1. apply nodes_frame. eapply Forall_impl, Ho1. simpl. intros x Hx. by rewrite !put_ne by lia.
      * by rewrite !put_ne by lia.
      * by rewrite put_ne, put_eq by lia.
      * revert N2. apply nodes_frame. eapply Forall_impl, Ho2. simpl. intros x Hx. by rewrite !put_ne by lia.
    + by rewrite put_eq.
    + intros x Hx. unfold inside in Hx. by rewrite !put_ne by (unfold inside in *; lia).
Qed.

Lemma carve_ok : exists h' bl', carve h q.1 b.1 nu = (h', carved.1) /\ taken h bl carved h' bl'.
Proof.
  destruct carve_heap as (E & N & Hz & Hbrk & Hf & Hs), carve_sizes as (Hb & Hq & t & Et & Ebl & Ht & Hl2).
  destruct carve_order as (_ & Hqb & _ & _ & _ & _ & Hbef).
  exists (carve h q.1 b.1 nu).1, (t ++ rest_of). split; [done|].
  assert (l1 ++ q :: rest_of = circle (t ++ rest_of)) as Ec by (rewrite cons_middle, app_assoc, Et; done).
  assert (Forall (λ x, x.1 + x.2 < b.1) t) as Htb.
  { rewrite Et in Hbef. inversion_clear Hbef as [|?? _ H]. eapply Forall_impl, H. by intros x [? _]. }
  split.
  - split; [by rewrite <- Ec | rewrite <- Ec, cons_middle, app_assoc; apply rest_sorted | |].
    + apply Forall_app. split; [done|]. unfold rest_of. case_match eqn:E'; [done|]. apply Z.eqb_neq in E'.
      constructor; [simpl; lia | done].
    + rewrite Hf, <- Ec, map_app. apply elem_of_app. right. by left.
  - exact Hz.
  - intros u Hu. rewrite Ebl, covered_app, covered_cons. right. left. unfold inside, carved in *. simpl in *. lia.
  - intros u. rewrite Ebl. by apply rest_covered.
  - done.
  - unfold carved. simpl. lia.
  - intros x Hx Hc. apply Hs. intros Hin. apply Hc. rewrite Ebl, covered_app, covered_cons. tauto.
Qed.
End Carve.

(** The heap lies below the break. *)
Record below (h : uheap) (bl : list block) : Prop := {
  bw_base : 0 < base < brk h;
  bw_free u : covered bl u -> u < brk h
}.

(** A block leaves the free ones, which may have grown by new units. *)
Record malloced (h : uheap) (bl : list block) (r : block) (h' : uheap) (bl' : list block) : Prop := {
  ml_ok : list_ok h' bl';
  ml_size : hsize h' r.1 = r.2;
  ml_base : base < r.1;
  ml_units u : covered bl' u \/ inside r u <-> covered bl u \/ brk h <= u < brk h';
  ml_apart u : inside r u -> ¬ covered bl' u;
  ml_brk : brk h <= brk h';
  ml_other x : x ≠ base -> x < brk h -> ¬ covered bl x -> hsize h' x = hsize h x
}.

Lemma freep_index (h : uheap) (bl : list block) :
  list_ok h bl -> exists i, (i < length (circle bl))%nat /\ freep h = (around (circle bl) i 0).1.
Proof.
  intros Hok. pose proof (lo_freep h bl Hok) as Hin. apply list_elem_of_lookup_1 in Hin as [i Hi].
  change (map fst (circle bl)) with (fst <$> circle bl) in Hi.
  rewrite list_lookup_fmap in Hi. destruct (circle bl !! i) as [b|] eqn:Hb; [|done]. injection Hi as Hi.
  pose proof (lookup_lt_Some _ _ _ Hb) as Hlt. exists i. split; [done|].
  rewrite (around_lookup (circle bl) i 0 i b); [congruence | rewrite Nat.add_0_r; by apply Nat.mod_small | done].
Qed.

Lemma taken_malloced (h : uheap) (bl : list block) (r : block) (h' : uheap) (bl' : list block) :
  taken h bl r h' bl' -> malloced h bl r h' bl'.
Proof.
  intros [Hok Hz Hin Hc Hb Hbase Ho]. split; try done; [|naive_solver|lia|naive_solver].
  intros u. rewrite Hc, Hb. assert (inside r u \/ ¬ inside r u) as [?|?] by (unfold inside; lia); naive_solver lia.
Qed.

Lemma fits_taken (h : uheap) (bl : list block) (nu q p : Z) :
  list_ok h bl -> 0 < nu -> fits bl nu q p ->
  exists h' bl' r, carve h q p nu = (h', r) /\ taken h bl (r, nu) h' bl'.
Proof.
  intros Hok Hnu (l1 & q' & b & l2 & E & -> & -> & Hfit).
  destruct (carve_ok h bl l1 q' b l2 nu Hok E Hnu Hfit) as (h' & bl' & Hc & Ht). by exists h', bl', (carved b nu).1.
Qed.

(** A round with a large enough block. *)
Lemma malloc_found (h : uheap) (bl : list block) (nu : Z) (fuel : nat) :
  list_ok h bl -> 0 < nu -> Exists (λ b, nu <= b.2) bl -> (length (circle bl) <= fuel)%nat ->
  exists h' bl' r, malloc_loop fuel h (freep h) (hptr h (freep h)) nu = Some (h', Some r) /\ taken h bl (r, nu) h' bl'.
Proof.
  intros Hok Hnu Hex Hf. destruct (freep_index h bl Hok) as (i & Hi & Hp).
  destruct (scan_large h bl i nu Hok Hnu Hi Hp fuel Hex Hf) as (q & p & Hfit & E).
  destruct (fits_taken h bl nu q p Hok Hnu Hfit) as (h' & bl' & r & Hc & Ht).
  exists h', bl', r. by rewrite E, Hc.
Qed.

(** The heap with new units at the break, their header written. *)
Definition grown (h : uheap) (nu : Z) : uheap := set_size (set_brk h (brk h + nu)) (brk h) nu.

Lemma addr_below (h : uheap) (bl : list block) : list_ok h bl -> below h bl -> Forall (λ b, b.1 < brk h) (circle bl).
Proof.
  intros Hok Hbw. constructor; [apply Hbw|]. apply list.Forall_forall. intros b Hb. apply (bw_free h bl Hbw).
  apply list.Exists_exists. exists b. split; [done|].
  pose proof (lo_sizes h bl Hok) as Hz. rewrite list.Forall_forall in Hz. specialize (Hz b Hb). simpl in Hz. unfold inside. lia.
Qed.

Lemma grown_ok (h : uheap) (bl : list block) (nu : Z) :
  list_ok h bl -> below h bl -> 0 < nu -> list_ok (grown h nu) bl /\ disjoint (brk h, nu) bl.
Proof.
  intros Hok Hbw Hnu. pose proof (addr_below h bl Hok Hbw) as Hlt. destruct Hok as [Hn Hs Hz Hf]. split.
  - split; try done. revert Hn. apply nodes_frame. eapply Forall_impl, Hlt. simpl. intros b Hb. by rewrite put_ne by lia.
  - intros u Hu Hc. apply (bw_free h bl Hbw) in Hc. unfold inside in Hu. simpl in Hu. lia.
Qed.

(** morecore, when the kernel grants the units. *)
Lemma morecore_ok (h : uheap) (bl : list block) (nu : Z) (fuel : nat) :
  list_ok h bl -> below h bl -> 0 < nu -> nu * 8 < 2 ^ 31 -> (length (circle bl) <= fuel)%nat ->
  let more := Z.max nu 4096 in
  if grants h (more * 8)
  then exists h' bl', morecore fuel h nu = Some (Some h') /\ freed (grown h more) bl (brk h, more) h' bl'
  else morecore fuel h nu = Some None.
Proof.
  intros Hok Hbw Hnu Hmax Hf. cbv zeta. unfold morecore, sbrk.
  replace (if nu <? 4096 then 4096 else nu) with (Z.max nu 4096) by (case_match; lia).
  set (more := Z.max nu 4096).
  assert (s32 (more * 8) = more * 8) as -> by (apply s32_small; lia).
  destruct (grants h (more * 8)); [|done]. rewrite Z.div_mul by done. fold (grown h more).
  destruct (grown_ok h bl more Hok Hbw ltac:(lia)) as [Hok' Hd].
  destruct (free_ok (grown h more) bl (brk h) more fuel Hok') as (h' & bl' & E & Hfr);
    [apply Hbw | lia | simpl; apply put_eq | done | done |].
  exists h', bl'. by rewrite E.
Qed.

Lemma grown_malloced (h : uheap) (bl : list block) (more nu r : Z) (h1 : uheap) (bl1 : list block) (h2 : uheap) (bl2 : list block) :
  list_ok h bl -> below h bl -> 0 < more ->
  freed (grown h more) bl (brk h, more) h1 bl1 -> taken h1 bl1 (r, nu) h2 bl2 -> malloced h bl (r, nu) h2 bl2.
Proof.
  intros Hok Hbw Hm [Hok1 Hc1 Hb1 _ _ Hz1] [Hok2 Hz Hin Hc2 Hb2 Hbase Ho]. simpl in Hb1.
  assert (brk h2 = brk h + more) as Hbrk by lia.
  split; try done; [|naive_solver|lia|].
  - intros u. rewrite Hc2, Hc1, Hbrk.
    assert (inside (brk h, more) u <-> brk h <= u < brk h + more) as <- by (unfold inside; simpl; lia).
    assert (inside (r, nu) u \/ ¬ inside (r, nu) u) as [?|?] by (unfold inside; lia); naive_solver.
  - intros x Hxb Hxl Hxc. rewrite Ho; [|done|].
    + rewrite Hz1; [simpl; by rewrite put_ne by lia | simpl; lia |]. intros Hx. unfold circle in Hx. simpl in Hx.
      apply elem_of_cons in Hx as [->|Hx]; [done|]. apply list_elem_of_fmap in Hx as (b & -> & Hb).
      apply Hxc. apply list.Exists_exists. exists b. split; [done|].
      pose proof (lo_sizes h bl Hok) as Hs. rewrite list.Forall_forall in Hs. specialize (Hs b Hb). simpl in Hs. unfold inside. lia.
    + rewrite Hc1. unfold inside. simpl. intros [?|?]; [done | lia].
Qed.

(** malloc, from a heap with a free list. *)
Lemma malloc_loop_ok (h : uheap) (bl : list block) (nu : Z) (fuel : nat) :
  list_ok h bl -> below h bl -> 0 < nu -> nu * 8 < 2 ^ 31 -> (2 * length (circle bl) + 2 <= fuel)%nat ->
  (exists h' bl' r, malloc_loop fuel h (freep h) (hptr h (freep h)) nu = Some (h', Some r) /\ malloced h bl (r, nu) h' bl') \/
  (malloc_loop fuel h (freep h) (hptr h (freep h)) nu = Some (h, None) /\ grants h (Z.max nu 4096 * 8) = false).
Proof.
  intros Hok Hbw Hnu Hmax Hf. destruct (freep_index h bl Hok) as (i & Hi & Hp).
  assert (malloc_loop fuel h (freep h) (hptr h (freep h)) nu =
          malloc_loop fuel h (around (circle bl) i 0).1 (around (circle bl) i 1).1 nu) as ->
    by (rewrite Hp, around_next by apply Hok; done).
  set (m := length (circle bl)) in *. assert (0 < m)%nat as Hm by (unfold m; simpl; lia).
  destruct (scan_round h bl i nu Hok Hnu Hi Hp (m - 1) 0 fuel ltac:(fold m; lia) ltac:(lia)) as [(q & p & Hfit & E)|[Hall [q E]]].
  - left. destruct (fits_taken h bl nu q p Hok Hnu Hfit) as (h' & bl' & r & Hc & Ht).
    exists h', bl', r. rewrite E, Hc. split; [done | by apply taken_malloced].
  - rewrite E. assert (hsize h (freep h) < nu) as Hsmall.
    { specialize (Hall (m - 1)%nat ltac:(fold m; lia)). replace (S (m - 1)) with (0 + m)%nat in Hall by lia.
      rewrite Hp, (around_size h bl i Hok). revert Hall. unfold around. fold m.
      replace (i + (0 + m))%nat with (i + 0 + 1 * m)%nat by lia. by rewrite Nat.Div0.mod_add. }
    destruct (fuel - (m - 1))%nat as [|fuel'] eqn:Ef; [lia|]. cbn [malloc_loop].
    rewrite (proj2 (Z.leb_gt nu _)), Z.eqb_refl by lia.
    pose proof (morecore_ok h bl nu (S fuel') Hok Hbw Hnu Hmax ltac:(fold m; lia)) as Hmore. cbv zeta in Hmore.
    destruct (grants h (Z.max nu 4096 * 8)) eqn:Hg; [|right; by rewrite Hmore].
    left. destruct Hmore as (h1 & bl1 & -> & Hfr). simpl.
    pose proof (fr_length _ _ _ _ _ Hfr) as Hlen.
    destruct (malloc_found h1 bl1 nu fuel' (fr_ok _ _ _ _ _ Hfr) Hnu) as (h2 & bl2 & r & E2 & Ht).
    { eapply Exists_impl, (fr_large _ _ _ _ _ Hfr). simpl. intros b Hb. lia. }
    { simpl. unfold m in *. simpl in *. lia. }
    exists h2, bl2, r. split; [exact E2|].
    by apply (grown_malloced h bl (Z.max nu 4096) nu r h1 bl1 h2 bl2 Hok Hbw ltac:(lia)).
Qed.

(** *** The program and its allocator *)

(** No unit is in two blocks. *)
Definition apart (b b' : block) : Prop := forall u, inside b u -> ¬ inside b' u.

(** A heap with the free blocks [bl] and the blocks [A] the program holds. *)
Record heap_inv (h : uheap) (bl A : list block) : Prop := {
  hi_list : freep h = 0 /\ bl = [] /\ A = [] \/ freep h ≠ 0 /\ list_ok h bl;
  hi_below : below h bl;
  hi_held b : b ∈ A -> base < b.1 /\ 0 < b.2 /\ hsize h b.1 = b.2;
  hi_units b u : b ∈ A -> inside b u -> u < brk h /\ ¬ covered bl u;
  hi_apart : StronglySorted apart A
}.

(** The steps: a call of malloc that returns a block or fails, a call of free
    for a block the program holds, a store to the words of such a block, and a
    growth of the break by another call of sbrk. *)
Inductive ustep : uheap * list block -> uheap * list block -> Prop :=
  | ustep_malloc fuel h A nbytes h' r :
      0 <= nbytes < 2 ^ 31 - 16 -> malloc fuel h nbytes = Some (h', Some r) ->
      ustep (h, A) (h', (r, nunits nbytes) :: A)
  | ustep_fail fuel h A nbytes h' :
      0 <= nbytes < 2 ^ 31 - 16 -> malloc fuel h nbytes = Some (h', None) -> ustep (h, A) (h', A)
  | ustep_free fuel h A1 b A2 h' :
      free fuel h b.1 = Some h' -> ustep (h, A1 ++ b :: A2) (h', A1 ++ A2)
  | ustep_store h A b x v w :
      b ∈ A -> b.1 < x < b.1 + b.2 -> ustep (h, A) (set_size (set_ptr h x v) x w, A)
  | ustep_sbrk h A n : 0 <= n -> ustep (h, A) (set_brk h (brk h + n), A).

Definition initial (h : uheap) : Prop := freep h = 0 /\ 0 < base < brk h.
Inductive reachable : uheap -> list block -> Prop :=
  | reach_init h : initial h -> reachable h []
  | reach_step h A h' A' : reachable h A -> ustep (h, A) (h', A') -> reachable h' A'.

Lemma nunits_bounds (nbytes : Z) :
  0 <= nbytes < 2 ^ 31 - 16 -> nbytes <= 8 * (nunits nbytes - 1) /\ 0 < nunits nbytes /\ nunits nbytes * 8 < 2 ^ 31.
Proof.
  intros H. unfold nunits. rewrite u32_small by lia.
  pose proof (Z.div_mod (nbytes + 8 - 1) 8). pose proof (Z.mod_pos_bound (nbytes + 8 - 1) 8). lia.
Qed.

Lemma list_ok_freep (h : uheap) (bl : list block) : list_ok h bl -> 0 < base -> freep h ≠ 0.
Proof.
  intros Hok Hb. destruct (freep_index h bl Hok) as (i & Hi & ->).
  pose proof (around_some bl i 0) as Ha. destruct ((i + 0) mod length (circle bl))%nat as [|k].
  - injection Ha as <-. simpl. lia.
  - destruct (circle_lt h bl Hok 0 (S k) (base, 0) _ ltac:(lia) eq_refl Ha) as [_ H]. simpl in H. lia.
Qed.

(** The test of malloc for the first call. *)
Definition started (h : uheap) : uheap :=
  if freep h =? 0 then set_size (set_freep (set_ptr h base base) base) base 0 else h.

Lemma started_ok (h : uheap) (bl A : list block) :
  heap_inv h bl A -> list_ok (started h) bl /\ below (started h) bl /\ brk (started h) = brk h /\
    forall x, x ≠ base -> hsize (started h) x = hsize h x.
Proof.
  intros [Hl Hb _ _ _]. unfold started. destruct Hl as [(Hf & -> & ->)|[Hf Hl]].
  - rewrite Hf. simpl. split_and!.
    + split; [simpl; by rewrite !put_eq | repeat constructor | constructor | by left].
    + split; apply Hb.
    + done.
    + intros x Hx. by rewrite put_ne.
  - rewrite (proj2 (Z.eqb_neq _ 0)) by done. done.
Qed.

(** malloc with enough fuel: a new block, or the null pointer when the kernel
    refuses to grow the heap. *)
Lemma malloc_inv (h : uheap) (bl A : list block) (nbytes : Z) (fuel : nat) :
  heap_inv h bl A -> 0 <= nbytes < 2 ^ 31 - 16 -> (2 * length (circle bl) + 2 <= fuel)%nat ->
  (exists h' bl' r, malloc fuel h nbytes = Some (h', Some r) /\ heap_inv h' bl' ((r, nunits nbytes) :: A)) \/
  (malloc fuel h nbytes = Some (started h, None) /\ heap_inv (started h) bl A /\
   grants (started h) (Z.max (nunits nbytes) 4096 * 8) = false).
Proof.
  intros Hinv Hn Hf. destruct (nunits_bounds nbytes Hn) as (_ & Hnu & Hmax).
  destruct (started_ok h bl A Hinv) as (Hok & Hbw & Hbrk & Hsz). unfold malloc. fold (started h).
  destruct (malloc_loop_ok _ bl (nunits nbytes) fuel Hok Hbw Hnu Hmax Hf) as [(h' & bl' & r & E & Hm)|[E Hg]].
  - left. exists h', bl', r. split; [exact E|]. destruct Hm as [Hok' Hz Hbase Hu Hap Hb' Ho]. rewrite Hbrk in *.
    simpl in *. assert (forall b, b ∈ A -> inside b b.1) as Hself.
    { intros b Hb. destruct (hi_held _ _ _ Hinv b Hb) as (_ & Hb2 & _). unfold inside. lia. }
    assert (forall b u, b ∈ A -> inside b u -> ¬ covered bl' u /\ ¬ inside (r, nunits nbytes) u) as Hout.
    { intros b u Hb Hin. destruct (hi_units _ _ _ Hinv b u Hb Hin) as [Hlt Hc].
      split; intros H; destruct (proj1 (Hu u)) as [?|?]; auto; lia. }
    split.
    + right. split; [|done]. apply (list_ok_freep h' bl' Hok'), Hbw.
    + split; [pose proof (bw_base _ _ Hbw); lia|]. intros u Hc. destruct (proj1 (Hu u)) as [H|H]; [by left | | lia].
      apply (bw_free _ _ Hbw) in H. lia.
    + intros b [->|Hb]%elem_of_cons; [done|]. destruct (hi_held _ _ _ Hinv b Hb) as (H1 & H2 & H3).
      destruct (hi_units _ _ _ Hinv b b.1 Hb (Hself b Hb)) as [Hlt Hc].
      split_and!; try done. rewrite Ho by (done || lia). by rewrite Hsz by lia.
    + intros b u [->|Hb]%elem_of_cons Hin.
      * split; [|by apply Hap]. destruct (proj1 (Hu u)) as [H|H]; [by right | | lia]. apply (bw_free _ _ Hbw) in H. lia.
      * destruct (hi_units _ _ _ Hinv b u Hb Hin). split; [lia | by apply (Hout b)].
    + constructor; [apply Hinv|]. apply list.Forall_forall. intros b Hb u H1 H2. by apply (Hout b u Hb H2).
  - right. split_and!; [exact E | | done]. destruct Hinv as [_ _ Hh Hu Hap]. split.
    + right. split; [|done]. apply (list_ok_freep _ bl Hok), Hbw.
    + done.
    + intros b Hb. destruct (Hh b Hb) as (? & ? & ?). by rewrite Hsz by lia.
    + rewrite Hbrk. done.
    + done.
Qed.

Lemma held_list (h : uheap) (bl A : list block) (b : block) : heap_inv h bl A -> b ∈ A -> list_ok h bl.
Proof. intros [[(_ & _ & ->)|[_ Hl]] _ _ _ _] Hb; [by apply elem_of_nil in Hb | done]. Qed.

Lemma free_inv (h : uheap) (bl A1 : list block) (b : block) (A2 : list block) (fuel : nat) :
  heap_inv h bl (A1 ++ b :: A2) -> (length (circle bl) <= fuel)%nat ->
  exists h' bl', free fuel h b.1 = Some h' /\ heap_inv h' bl' (A1 ++ A2).
Proof.
  intros Hinv Hf. assert (b ∈ A1 ++ b :: A2) as Hin by (apply elem_of_app; right; by left).
  pose proof (held_list _ _ _ _ Hinv Hin) as Hok. destruct (hi_held _ _ _ Hinv b Hin) as (Hbase & Hpos & Hz).
  destruct (free_ok h bl b.1 b.2 fuel Hok Hbase Hpos Hz) as (h' & bl' & E & [Hok' Hc Hb _ _ Ho]); [|done|].
  { rewrite <- surjective_pairing. intros u Hu. by apply (hi_units _ _ _ Hinv b u Hin). }
  exists h', bl'. split; [done|]. simpl in Ho. rewrite <- surjective_pairing in Hc.
  pose proof (hi_apart _ _ _ Hinv) as Hap. apply sorted_app in Hap as (Ha1 & Ha2 & Ha3).
  inversion_clear Ha2 as [|?? Ha4 Ha5].
  assert (forall b', b' ∈ A1 ++ A2 -> b' ∈ A1 ++ b :: A2) as Hsub by (intros b'; rewrite !elem_of_app, elem_of_cons; tauto).
  assert (forall b' u, b' ∈ A1 ++ A2 -> inside b' u -> ¬ inside b u) as Hne.
  { intros b' u [H|H]%elem_of_app H1 H2.
    - rewrite list.Forall_forall in Ha3. specialize (Ha3 b' H). inversion_clear Ha3 as [|?? Hx _]. by apply (Hx u).
    - rewrite list.Forall_forall in Ha5. by apply (Ha5 b' H u). }
  split.
  - right. split; [|done]. apply (list_ok_freep h' bl' Hok'), (hi_below _ _ _ Hinv).
  - pose proof (hi_below _ _ _ Hinv) as [Hb1 Hb2]. split; [lia|]. intros u. rewrite Hc, Hb.
    intros [H|H]; [by apply Hb2 | by apply (hi_units _ _ _ Hinv b u)].
  - intros b' Hb'. destruct (hi_held _ _ _ Hinv b' (Hsub b' Hb')) as (H1 & H2 & H3). split_and!; try done.
    assert (inside b' b'.1) as Hself by (unfold inside; lia). rewrite Ho; [done | |].
    + intros E'. apply (Hne b' b'.1 Hb' Hself). unfold inside. lia.
    + unfold outside, circle. simpl. rewrite not_elem_of_cons. split; [lia|]. intros (x & Ex & Hx)%list_elem_of_fmap.
      apply (hi_units _ _ _ Hinv b' b'.1 (Hsub b' Hb') Hself). apply list.Exists_exists. exists x. split; [done|].
      pose proof (lo_sizes h bl Hok) as Hs. rewrite list.Forall_forall in Hs. specialize (Hs x Hx). simpl in Hs. unfold inside. lia.
  - intros b' u Hb' Hu. rewrite Hb, Hc. destruct (hi_units _ _ _ Hinv b' u (Hsub b' Hb') Hu).
    pose proof (Hne b' u Hb' Hu). tauto.
  - apply sorted_app. split_and!; [done | done |]. eapply Forall_impl, Ha3. intros x Hx. by inversion_clear Hx.
Qed.

(** More fuel does not change a result. *)
Lemma free_find_mono (fuel fuel' : nat) (h : uheap) (bp p q : Z) :
  (fuel <= fuel')%nat -> free_find fuel h bp p = Some q -> free_find fuel' h bp p = Some q.
Proof.
  revert fuel' p. induction fuel as [|fuel IH]; intros fuel' p Hle; [done|]. destruct fuel' as [|fuel']; [lia|].
  rewrite !free_find_step. case_match; [done|]. apply IH. lia.
Qed.

Lemma free_mono (fuel fuel' : nat) (h : uheap) (bp : Z) (h' : uheap) :
  (fuel <= fuel')%nat -> free fuel h bp = Some h' -> free fuel' h bp = Some h'.
Proof.
  intros Hle. unfold free. destruct (free_find fuel h bp (freep h)) as [p|] eqn:E; [|done].
  by rewrite (free_find_mono fuel fuel' h bp _ p Hle E).
Qed.

Lemma morecore_mono (fuel fuel' : nat) (h : uheap) (nu : Z) (r : option uheap) :
  (fuel <= fuel')%nat -> morecore fuel h nu = Some r -> morecore fuel' h nu = Some r.
Proof.
  intros Hle. unfold morecore. destruct (sbrk h _) as [[hp h1]|]; [|done].
  destruct (free fuel _ hp) as [h2|] eqn:E; [|done]. by rewrite (free_mono fuel fuel' _ _ h2 Hle E).
Qed.

Lemma malloc_loop_mono (fuel fuel' : nat) (h : uheap) (q p nu : Z) (r : uheap * option Z) :
  (fuel <= fuel')%nat -> malloc_loop fuel h q p nu = Some r -> malloc_loop fuel' h q p nu = Some r.
Proof.
  revert fuel' h q p. induction fuel as [|fuel IH]; intros fuel' h q p Hle; [done|]. destruct fuel' as [|fuel']; [lia|].
  cbn [malloc_loop]. case_match; [done|]. case_match; [|apply IH; lia].
  destruct (morecore (S fuel) h nu) as [m|] eqn:E; [|done].
  rewrite (morecore_mono (S fuel) (S fuel') h nu m Hle E). simpl. destruct m; [apply IH; lia | done].
Qed.

Lemma malloc_mono (fuel fuel' : nat) (h : uheap) (n : Z) (r : uheap * option Z) :
  (fuel <= fuel')%nat -> malloc fuel h n = Some r -> malloc fuel' h n = Some r.
Proof. apply malloc_loop_mono. Qed.

Lemma apart_held (A : list block) (b b' : block) (u : Z) :
  StronglySorted apart A -> b ∈ A -> b' ∈ A -> inside b u -> inside b' u -> b = b'.
Proof.
  induction 1 as [|x A HA IH Hx]; [intros H; by apply elem_of_nil in H|].
  rewrite list.Forall_forall in Hx. rewrite !elem_of_cons. intros [->|Hb] [->|Hb'] H1 H2.
  - done.
  - by destruct (Hx b' Hb' u).
  - by destruct (Hx b Hb u).
  - by apply IH.
Qed.

(** The headers the allocator relies on are not words of a block held. *)
Lemma store_inv (h : uheap) (bl A : list block) (b : block) (x v w : Z) :
  heap_inv h bl A -> b ∈ A -> b.1 < x < b.1 + b.2 -> heap_inv (set_size (set_ptr h x v) x w) bl A.
Proof.
  intros Hinv Hb Hx. pose proof (held_list _ _ _ _ Hinv Hb) as Hok.
  assert (inside b x) as Hin by (unfold inside; lia). destruct (hi_units _ _ _ Hinv b x Hb Hin) as [_ Hnc].
  destruct (hi_held _ _ _ Hinv b Hb) as (Hbase & _ & _).
  destruct Hinv as [Hl Hbw Hh Hu Hap]. split; [| by destruct Hbw | | done | done].
  - destruct Hl as [(_ & _ & ->)|[Hf _]]; [by apply elem_of_nil in Hb|]. right. split; [done|].
    destruct Hok as [Hn Hs Hz Hfr]. split; try done. revert Hn. apply nodes_frame.
    constructor; [simpl; by rewrite !put_ne by lia|]. apply list.Forall_forall. intros y Hy.
    rewrite list.Forall_forall in Hz. specialize (Hz y Hy). simpl in *.
    assert (y.1 ≠ x); [|by rewrite !put_ne]. intros E. apply Hnc, list.Exists_exists. exists y.
    split; [done | unfold inside; lia].
  - intros b' Hb'. destruct (Hh b' Hb') as (H1 & H2 & H3). split_and!; try done. simpl. rewrite put_ne; [done|].
    intros E. assert (b' = b) as ->; [|lia]. apply (apart_held A b' b x Hap Hb' Hb); [unfold inside; lia | done].
Qed.

Lemma heap_reachable_inv (h : uheap) (A : list block) : reachable h A -> exists bl, heap_inv h bl A.
Proof.
  induction 1 as [h [Hf Hb]|h A h' A' _ [bl Hinv] Hs].
  { exists []. split; [by left | | | | constructor].
    - split; [done|]. intros u Hu. by apply Exists_nil in Hu.
    - intros b Hb'. by apply elem_of_nil in Hb'.
    - intros b u Hb'. by apply elem_of_nil in Hb'. }
  inversion Hs as [fuel ? ? n ? r Hn E|fuel ? ? n ? Hn E|fuel ? A1 b A2 ? E|? ? b x v w Hb Hx|? ? n Hn]; subst; clear Hs.
  - set (F := (fuel + (2 * length (circle bl) + 2))%nat).
    apply (malloc_mono fuel F) in E; [|lia].
    destruct (malloc_inv h bl A n F Hinv Hn ltac:(lia)) as [(h1 & bl' & r' & E' & Hi)|(E' & _)]; rewrite E' in E; simplify_eq.
    by exists bl'.
  - set (F := (fuel + (2 * length (circle bl) + 2))%nat).
    apply (malloc_mono fuel F) in E; [|lia].
    destruct (malloc_inv h bl A' n F Hinv Hn ltac:(lia)) as [(h1 & bl' & r' & E' & Hi)|(E' & Hi & _)]; rewrite E' in E; simplify_eq.
    by exists bl.
  - set (F := (fuel + length (circle bl))%nat). apply (free_mono fuel F) in E; [|lia].
    destruct (free_inv h bl A1 b A2 F Hinv ltac:(lia)) as (h1 & bl' & E' & Hi). rewrite E' in E. simplify_eq. by exists bl'.
  - exists bl. by apply (store_inv h bl A' b).
  - exists bl. destruct Hinv as [Hl [Hb1 Hb2] Hh Hu Hap]. split; [| | done | | done].
    + destruct Hl as [Hl|[Hf Hl]]; [by left | right]. split; [done|].
      destruct Hl as [Hnd Hs Hz Hfr]. split; try done. revert Hnd. by apply nodes_frame, list.Forall_forall.
    + split; simpl; [lia|]. intros u Hc. specialize (Hb2 u Hc). lia.
    + intros b u Hb Hin. destruct (Hu b u Hb Hin). simpl. split; [lia | done].
Qed.

(** C22: The user allocator is safe and never hangs.  In every state a program
    reaches by calling malloc and free, by storing into the blocks it holds and
    by moving the break, the blocks it holds are pairwise disjoint.  malloc of
    any size below two gigabytes returns: a block apart from all those held,
    with room for the bytes asked, or the null pointer, and then only because
    the kernel refused to grow the heap.  free of a block held returns. *)
Theorem umalloc_safe (h : uheap) (A : list block) :
  reachable h A ->
  StronglySorted apart A /\
  (forall nbytes, 0 <= nbytes < 2 ^ 31 - 16 -> exists fuel h' r, malloc fuel h nbytes = Some (h', r) /\
     match r with
     | Some x => nbytes <= 8 * (nunits nbytes - 1) /\ hsize h' x = nunits nbytes /\
                 (forall b, b ∈ A -> apart (x, nunits nbytes) b)
     | None => exists n, grants h' n = false
     end) /\
  (forall A1 b A2, A = A1 ++ b :: A2 -> exists fuel h', free fuel h b.1 = Some h').
Proof.
  intros [bl Hinv]%heap_reachable_inv. split_and!; [apply Hinv | |].
  - intros nbytes Hn.
    destruct (malloc_inv h bl A nbytes _ Hinv Hn (Nat.le_refl _)) as [(h' & bl' & r & E & Hi)|(E & _ & Hg)].
    + eexists _, h', (Some r). split; [exact E|]. split; [by apply nunits_bounds|].
      split; [apply (hi_held _ _ _ Hi (r, nunits nbytes)); by left|].
      intros b Hb. pose proof (hi_apart _ _ _ Hi) as Ha. inversion_clear Ha as [|?? _ Hf].
      rewrite list.Forall_forall in Hf. by apply Hf.
    + eexists _, _, None. split; [exact E | by eexists].
  - intros A1 b A2 ->. destruct (free_inv h bl A1 b A2 _ Hinv (Nat.le_refl _)) as (h' & bl' & E & _). by eexists _, h'.
Qed.
End Allocator.

(** Two blocks from a heap whose break is at 100, one freed. *)
Definition fresh_heap : uheap := {| hptr := λ _, 0; hsize := λ _, 0; freep := 0; brk := 100 |}.
Definition granted (h : uheap) (n : Z) : bool := n <? 2 ^ 20.
Definition two_blocks (h0 : uheap) : option (uheap * Z * Z) :=
  match malloc 10 granted 20 h0 24 with
  | Some (h1, Some x) =>
      match malloc 10 granted 20 h1 100 with
      | Some (h2, Some y) => match free 20 h2 x with Some h => Some (h, x, y) | None => None end
      | _ => None
      end
  | _ => None
  end.

Lemma two_blocks_reachable (h0 h : uheap) (x y : Z) :
  initial 10 h0 -> two_blocks h0 = Some (h, x, y) -> reachable 10 granted h [(y, nunits 100)].
Proof.
  intros Hi. unfold two_blocks. destruct (malloc 10 granted 20 h0 24) as [[h1 [x1|]]|] eqn:E1; [|discriminate..].
  destruct (malloc 10 granted 20 h1 100) as [[h2 [x2|]]|] eqn:E2; [|discriminate..].
  destruct (free 20 h2 x1) as [h3|] eqn:E3; [|discriminate]. intros [= -> -> ->].
  apply (reach_step _ _ h2 ([(y, nunits 100)] ++ (x, nunits 24) :: [])); [|by apply (ustep_free _ _ 20)].
  apply (reach_step _ _ h1 [(x, nunits 24)]); [|by apply (ustep_malloc _ _ 20)].
  apply (reach_step _ _ h0 []); [by apply reach_init | by apply (ustep_malloc _ _ 20)].
Qed.

Lemma two_blocks_some : is_Some (two_blocks fresh_heap).
Proof. apply (bool_decide_unpack _). vm_compute. exact I. Qed.

Lemma umalloc_safe_witness :
  exists h x y, two_blocks fresh_heap = Some (h, x, y) /\ StronglySorted apart [(y, nunits 100)] /\
    exists fuel h', free fuel h y = Some h'.
Proof.
  destruct two_blocks_some as [[[h x] y] E]. exists h, x, y. split; [exact E|].
  assert (initial 10 fresh_heap) as Hi by (split; [reflexivity | simpl; lia]).
  destruct (umalloc_safe 10 granted h [(y, nunits 100)] (two_blocks_reachable fresh_heap h x y Hi E)) as (Ha & _ & Hf).
  split; [exact Ha | exact (Hf [] (y, nunits 100) [] eq_refl)].
Defined.
