(* ===== verification/Mkfs.v ===== *)
(** * The image builder (mkfs.c)

    The image file is a function from sectors to their bytes; it has FSSIZE of
    them, and a read past its end is short, which ends the program.  The host is
    little-endian (so xint and xshort are the identity).  [None] is an exit
    with an error or a failed assertion.  The theorem at
    the end is about the kernel: on the image, the kernel's free map is sound,
    its inodes are well-formed, and the bytes it reads from a file are those
    mkfs was given. *)

From S2P Require Import Prelude State Spinlock Thread CString Cprintf Kalloc Layout Vm Sched Sleeplock Disk Bio Log Tx Fs Freemap Inode Contents Dir.

(** ** The program *)
Definition NINODES : Z := 200.
Definition nbitmap : Z := FSSIZE / (BSIZE * 8) + 1.
Definition ninodeblocks : Z := NINODES / IPB + 1.
Definition nlog : Z := LOGSIZE.
Definition nmeta : Z := 2 + nlog + ninodeblocks + nbitmap.
Definition nblocks : Z := FSSIZE - nmeta.
Definition mksb : superblock :=
  mksuperblock FSSIZE nblocks NINODES nlog 2 (2 + nlog) (2 + nlog + ninodeblocks).

(** The image and the two counters. *)
Record image := mkimage { im_sect : Z -> list Z; im_inode : Z; im_block : Z }.

Definition wsect (m : image) (sec : Z) (buf : list Z) : image :=
  mkimage (fun n => if n =? sec then buf else im_sect m n) (im_inode m) (im_block m).
Definition rsect (m : image) (sec : Z) : option (list Z) :=
  if sec <? FSSIZE then Some (im_sect m sec) else None.

Definition winode (m : image) (inum : Z) (ip : dinode) : option image :=
  let bn := IBLOCK inum mksb in
  buf ← rsect m bn;
  Some (wsect m bn (put buf (inum mod IPB * DINODE) (encode_dinode ip))).
Definition rinode (m : image) (inum : Z) : option dinode :=
  buf ← rsect m (IBLOCK inum mksb);
  Some (decode_dinode buf (inum mod IPB * DINODE)).

(** freeblock++ *)
Definition take_block (m : image) : image := mkimage (im_sect m) (im_inode m) (im_block m + 1).

Definition mkialloc (m : image) (type : Z) : option (image * Z) :=
  let inum := im_inode m in
  let m := mkimage (im_sect m) (inum + 1) (im_block m) in
  m ← winode m inum (mkdinode type 0 0 1 0 (replicate (Z.to_nat (NDIRECT + 1)) 0));
  Some (m, inum).

Definition set_daddr (din : dinode) (i a : Z) : dinode :=
  mkdinode din.(di_type) din.(di_major) din.(di_minor) din.(di_nlink) din.(di_size)
    (<[Z.to_nat i := a]> din.(di_addrs)).
Definition set_dsize (din : dinode) (n : Z) : dinode :=
  mkdinode din.(di_type) din.(di_major) din.(di_minor) din.(di_nlink) n din.(di_addrs).
Definition daddr (din : dinode) (i : Z) : Z := nth (Z.to_nat i) din.(di_addrs) 0.

(** The part of the loop of iappend that finds the block, allocating it. *)
Definition direct_block (m : image) (din : dinode) (i : Z) : image * dinode :=
  if daddr din i =? 0 then (take_block m, set_daddr din i (im_block m)) else (m, din).
Definition append_block (m : image) (din : dinode) (fbn : Z) : option (image * dinode * Z) :=
  if fbn <? NDIRECT then
    let '(m, din) := direct_block m din fbn in
    Some (m, din, daddr din fbn)
  else
    let '(m, din) := direct_block m din NDIRECT in
    let ind := daddr din NDIRECT in
    let o := 4 * (fbn - NDIRECT) in
    indirect ← rsect m ind;
    if get32 indirect o =? 0 then
      let x := im_block m in
      Some (wsect (take_block m) ind (put indirect o (le32 x)), din, x)
    else Some (m, din, get32 indirect o).

Fixpoint append_loop (fuel : nat) (m : image) (din : dinode) (off : Z) (p : list Z) : option (image * dinode * Z) :=
  match fuel with
  | O => None
  | S fuel' =>
      if Z.of_nat (length p) <=? 0 then Some (m, din, off)
      else
        let fbn := off / BSIZE in
        if MAXFILE <=? fbn then None
        else
          '(m, din, x) ← append_block m din fbn;
          let n1 := Z.min (Z.of_nat (length p)) ((fbn + 1) * BSIZE - off) in
          buf ← rsect m x;
          let m := wsect m x (put buf (off - fbn * BSIZE) (take (Z.to_nat n1) p)) in
          append_loop fuel' m din (off + n1) (drop (Z.to_nat n1) p)
  end.
(** Each round of the loop takes at least a byte. *)
Definition iappend (m : image) (inum : Z) (p : list Z) : option image :=
  din ← rinode m inum;
  '(m, din, off) ← append_loop (S (length p)) m din din.(di_size) p;
  winode m inum (set_dsize din off).

Fixpoint used_bits (n : nat) (i : Z) (buf : list Z) : list Z :=
  match n with
  | O => buf
  | S n' =>
      used_bits n' (i + 1) (put buf (i / 8) [u8 (Z.lor (get8 buf (i / 8)) (Z.shiftl 1 (i mod 8)))])
  end.
Definition mkballoc (m : image) (used : Z) : option image :=
  if used <? BSIZE * 8
  then Some (wsect m (sb_bmapstart mksb) (used_bits (Z.to_nat used) 0 (replicate (Z.to_nat BSIZE) 0)))
  else None.

(** A directory entry: [bzero], the number, and [strncpy] of the name. *)
Definition mkdirent (inum : Z) (name : list Z) : list Z :=
  encode_dirent inum (strncpy (Z.to_nat DIRSIZ) (replicate (Z.to_nat DIRSIZ) 0) name).

(** An argument of mkfs: the name, and what the reads of the file return. *)
Notation mkfile := (list Z * list (list Z))%type.
Definition strip (name : list Z) : list Z := if deref name =? 95 then next name else name.

Fixpoint append_all (m : image) (inum : Z) (chunks : list (list Z)) : option image :=
  match chunks with
  | [] => Some m
  | c :: chunks' => m ← iappend m inum c; append_all m inum chunks'
  end.
Definition add_file (m : image) (f : mkfile) : option image :=
  if existsb (Z.eqb 47) (fst f) then None
  else
    '(m, inum) ← mkialloc m T_FILE;
    m ← iappend m ROOTINO (mkdirent inum (strip (fst f)));
    append_all m inum (snd f).
Fixpoint add_files (m : image) (fs : list mkfile) : option image :=
  match fs with
  | [] => Some m
  | f :: fs' => m ← add_file m f; add_files m fs'
  end.

Definition blank : image := mkimage (fun _ => replicate (Z.to_nat BSIZE) 0) 1 nmeta.
Definition sb_words : list Z :=
  [FSSIZE; nblocks; NINODES; nlog; 2; 2 + nlog; 2 + nlog + ninodeblocks].
Definition sb_sector : list Z := put (replicate (Z.to_nat BSIZE) 0) 0 (sb_words ≫= le32).
(** The end of main: the size of the root directory is rounded up. *)
Definition fix_root (m : image) : option image :=
  din ← rinode m ROOTINO;
  winode m ROOTINO (set_dsize din ((din.(di_size) / BSIZE + 1) * BSIZE)).
(** main up to the end of the loop over the arguments. *)
Definition populate (fs : list mkfile) : option image :=
  let m := wsect blank 1 sb_sector in
  '(m, rootino) ← mkialloc m T_DIR;
  if negb (rootino =? ROOTINO) then None
  else
    m ← iappend m rootino (mkdirent rootino [46]);
    m ← iappend m rootino (mkdirent rootino [46; 46]);
    add_files m fs.
Definition mkfs (fs : list mkfile) : option image :=
  m ← populate fs;
  m ← fix_root m;
  mkballoc m (im_block m).

(** ** The files of an image *)
Definition fset {A} (f : Z -> A) (k : Z) (v : A) : Z -> A := fun x => if x =? k then v else f x.
Lemma fset_eq {A} (f : Z -> A) k v : fset f k v k = v.
Proof. unfold fset. by rewrite Z.eqb_refl. Qed.
Lemma fset_ne {A} (f : Z -> A) k v x : x <> k -> fset f k v x = f x.
Proof. intros H. unfold fset. by rewrite (proj2 (Z.eqb_neq x k)). Qed.

Definition size {A} (l : list A) : Z := Z.of_nat (length l).

(** The blocks of an inode, the indirect block last. *)
Definition mslot (img : Z -> list Z) (din : dinode) (j : Z) : Z :=
  if j =? MAXFILE then daddr din NDIRECT
  else if j <? NDIRECT then daddr din j
  else if daddr din NDIRECT =? 0 then 0
  else get32 (img (daddr din NDIRECT)) (4 * (j - NDIRECT)).

(** The inodes [D] below [n] hold the contents [F] in blocks of their own, with
    zeros up to the end of the last block. *)
Record files (img : Z -> list Z) (nb n : Z) (D : Z -> dinode) (F : Z -> list Z) : Prop := {
  fi_len k : length (img k) = Z.to_nat BSIZE;
  fi_nb : nmeta <= nb;
  fi_zero k : nb <= k -> img k = replicate (Z.to_nat BSIZE) 0;
  fi_addrs i : 1 <= i < n -> length (D i).(di_addrs) = Z.to_nat (NDIRECT + 1);
  fi_slot i j : 1 <= i < n -> 0 <= j <= MAXFILE -> mslot img (D i) j <> 0 -> nmeta <= mslot img (D i) j < nb;
  fi_inj i j i' j' : 1 <= i < n -> 1 <= i' < n -> 0 <= j <= MAXFILE -> 0 <= j' <= MAXFILE ->
    mslot img (D i) j <> 0 -> mslot img (D i) j = mslot img (D i') j' -> i = i' /\ j = j';
  fi_has i j : 1 <= i < n -> 0 <= j < MAXFILE -> j * BSIZE < size (F i) -> mslot img (D i) j <> 0;
  fi_size i : 1 <= i < n -> size (F i) <= MAXFILE * BSIZE;
  fi_byte i o : 1 <= i < n -> 0 <= o < MAXFILE * BSIZE -> mslot img (D i) (o / BSIZE) <> 0 ->
    get8 (img (mslot img (D i) (o / BSIZE))) (o mod BSIZE) = nth (Z.to_nat o) (F i) 0
}.

Lemma meta_values : nmeta = 59 /\ MAXFILE = 140 /\ BSIZE = 512 /\ NDIRECT = 12 /\ FSSIZE = 1000 /\ IPB = 8 /\ DINODE = 64.
Proof. done. Qed.

Lemma mslot_ext (img img' : Z -> list Z) (din : dinode) (j : Z) :
  (mslot img din MAXFILE <> 0 -> img' (mslot img din MAXFILE) = img (mslot img din MAXFILE)) ->
  mslot img' din j = mslot img din j.
Proof.
  unfold mslot at 1 2 3. rewrite Z.eqb_refl. intros H. unfold mslot. repeat case_match; try done.
  rewrite H; [done|]. by apply Z.eqb_neq.
Qed.

Lemma mslot_MAXFILE img din : mslot img din MAXFILE = daddr din NDIRECT.
Proof. unfold mslot. by rewrite Z.eqb_refl. Qed.

Section Files.
Context (img : Z -> list Z) (nb n : Z) (D : Z -> dinode) (F : Z -> list Z) (Hf : files img nb n D F).
Context (inum : Z) (Hin : 1 <= inum < n).

Lemma file_block (i o : Z) : 1 <= i < n -> 0 <= o < size (F i) ->
  0 <= o / BSIZE < MAXFILE /\ mslot img (D i) (o / BSIZE) <> 0.
Proof.
  intros Hi Ho. pose proof (fi_size _ _ _ _ _ Hf i Hi) as Hs.
  change MAXFILE with 140 in *. change BSIZE with 512 in *.
  assert (0 <= o / 512 < 140) as Hd by (Z.to_euclidean_division_equations; lia).
  split; [done|]. apply (fi_has _ _ _ _ _ Hf i); [done..|]. change BSIZE with 512. Z.to_euclidean_division_equations; lia.
Qed.

Lemma offset_block (o : Z) : 0 <= o < MAXFILE * BSIZE -> 0 <= o / BSIZE < MAXFILE.
Proof. change MAXFILE with 140. change BSIZE with 512. intros. Z.to_euclidean_division_equations; lia. Qed.

(** A file has no bytes where it has no block. *)
Lemma no_block (i o : Z) : 1 <= i < n -> 0 <= o < MAXFILE * BSIZE -> mslot img (D i) (o / BSIZE) = 0 -> size (F i) <= o.
Proof.
  intros Hi Ho H0. destruct (decide (size (F i) <= o)) as [|Hlt]; [done|].
  by destruct (file_block i o Hi ltac:(lia)).
Qed.

(** A block put into an empty slot of a file. *)
Lemma files_extend (img' : Z -> list Z) (din : dinode) (j0 : Z) :
  0 <= j0 <= MAXFILE -> mslot img (D inum) j0 = 0 -> length din.(di_addrs) = Z.to_nat (NDIRECT + 1) ->
  (forall k, length (img' k) = Z.to_nat BSIZE) ->
  (forall j, 0 <= j <= MAXFILE -> mslot img' din j = if j =? j0 then nb else mslot img (D inum) j) ->
  (forall k, k <> mslot img' din MAXFILE \/ j0 = MAXFILE -> img' k = img k) ->
  files img' (nb + 1) n (fset D inum din) F.
Proof.
  intros Hj0 H0 Hlen Hl' Hslot Himg. destruct Hf as [Hl Hnb Hz Ha Hs Hi Hh Hsz Hb].
  assert (nmeta = 59) as Em by done.
  assert (forall i j, 1 <= i < n -> 0 <= j <= MAXFILE -> mslot img' (fset D inum din i) j =
            if (i =? inum) && (j =? j0) then nb else mslot img (D i) j) as Hslot'.
  { intros i j Hi' Hj. destruct (Z.eqb_spec i inum) as [->|Hne]; simpl.
    - rewrite fset_eq. by apply Hslot.
    - rewrite fset_ne by done. apply mslot_ext. intros Hnz. apply Himg.
      destruct (decide (j0 = MAXFILE)) as [|Hj0']; [by right|]. left.
      rewrite Hslot, (proj2 (Z.eqb_neq MAXFILE j0)) by (done || lia).
      intros E. destruct (Hi i MAXFILE inum MAXFILE) as [? _]; try done. }
  assert (forall i j, 1 <= i < n -> 0 <= j <= MAXFILE -> mslot img (D i) j <> 0 -> mslot img (D i) j <> nb) as Hfresh.
  { intros i j Hi' Hj Hnz E. specialize (Hs i j Hi' Hj Hnz). lia. }
  split; [done | lia | | | | | | done | ].
  - intros k Hk. rewrite Himg; [apply Hz; lia|]. destruct (decide (j0 = MAXFILE)) as [|Hne]; [by right|]. left.
    rewrite Hslot by done. rewrite (proj2 (Z.eqb_neq _ _)) by done.
    destruct (decide (mslot img (D inum) MAXFILE = 0)) as [E|E]; [lia|].
    specialize (Hs inum MAXFILE Hin ltac:(done) E). lia.
  - intros i Hi'. destruct (Z.eqb_spec i inum) as [->|Hne]; [by rewrite fset_eq | rewrite fset_ne by done; auto].
  - intros i j Hi' Hj. rewrite Hslot' by done. case_match; [lia|]. intros Hnz. specialize (Hs i j Hi' Hj Hnz). lia.
  - intros i j i' j' H1 H2 H3 H4. rewrite !Hslot' by done.
    destruct ((i =? inum) && (j =? j0)) eqn:E1, ((i' =? inum) && (j' =? j0)) eqn:E2.
    + rewrite andb_true_iff, !Z.eqb_eq in E1, E2. intros _ _. destruct E1, E2. by subst.
    + intros _ E. exfalso. apply (Hfresh i' j'); try done. lia.
    + intros Hnz E. exfalso. by apply (Hfresh i j).
    + by apply Hi.
  - intros i j Hi' Hj Hlt. rewrite Hslot' by (done || lia). case_match; [lia|]. by apply Hh.
  - intros i o Hi' Ho. pose proof (offset_block o Ho) as Hd. rewrite Hslot' by (done || lia).
    assert (Hk : forall k, 0 <> k -> nmeta <= k -> (j0 = MAXFILE \/ k <> mslot img (D inum) MAXFILE) -> img' k = img k).
    { intros k _ _ [Hj|Hk]; apply Himg; [by right|]. destruct (decide (j0 = MAXFILE)) as [|Hne]; [by right|]. left.
      rewrite Hslot by (done || lia). by rewrite (proj2 (Z.eqb_neq MAXFILE _)) by done. }
    destruct ((i =? inum) && (o / BSIZE =? j0)) eqn:E.
    + rewrite andb_true_iff, !Z.eqb_eq in E. destruct E as [-> E]. intros _. rewrite Hk; [|lia|lia|].
      2:{ destruct (decide (mslot img (D inum) MAXFILE = 0)) as [E0|E0]; [right; lia|].
          right. intros Eq. by apply (Hfresh inum MAXFILE). }
      rewrite Hz by lia. rewrite get8_zeros.
      pose proof (no_block inum o Hi' Ho ltac:(by rewrite E)) as Hsmall. by rewrite nth_overflow by (unfold size in Hsmall; lia).
    + intros Hnz. rewrite Hk; [by apply Hb|congruence| |].
      * by apply (Hs i (o / BSIZE)); [|lia|].
      * destruct (decide (j0 = MAXFILE)) as [|Hne]; [by left|]. right. intros Eq.
        destruct (Hi i (o / BSIZE) inum MAXFILE) as [_ E2]; try done; lia.
Qed.
End Files.

Lemma daddr_set (din : dinode) (i j a : Z) :
  length din.(di_addrs) = Z.to_nat (NDIRECT + 1) -> 0 <= i <= NDIRECT -> 0 <= j ->
  daddr (set_daddr din i a) j = if j =? i then a else daddr din j.
Proof.
  change NDIRECT with 12. intros Hl Hi Hj. unfold daddr, set_daddr. cbn [di_addrs]. rewrite !nth_lookup.
  destruct (Z.eqb_spec j i) as [->|Hne].
  - rewrite list_lookup_insert_eq by lia. done.
  - rewrite list_lookup_insert_ne by lia. done.
Qed.

(** The slot of an address in the inode itself. *)
Definition own_slot (i : Z) : Z := if i =? NDIRECT then MAXFILE else i.

Lemma mslot_own img din i : 0 <= i <= NDIRECT -> mslot img din (own_slot i) = daddr din i.
Proof.
  change NDIRECT with 12. intros Hi. unfold own_slot. change NDIRECT with 12. destruct (Z.eqb_spec i 12) as [->|Hne].
  - apply mslot_MAXFILE.
  - unfold mslot. rewrite (proj2 (Z.eqb_neq i MAXFILE)) by (change MAXFILE with 140; lia).
    by rewrite (proj2 (Z.ltb_lt i NDIRECT)) by (change NDIRECT with 12; lia).
Qed.

Lemma mslot_set (a : Z) img (din : dinode) (i j : Z) :
  length din.(di_addrs) = Z.to_nat (NDIRECT + 1) -> 0 <= i <= NDIRECT -> 0 <= j <= MAXFILE -> daddr din i = 0 -> a <> 0 ->
  (forall o, get32 (img a) o = 0) ->
  mslot img (set_daddr din i a) j = if j =? own_slot i then a else mslot img din j.
Proof.
  intros Hlen Hi Hj H0 Ha Hz. unfold mslot, own_slot. rewrite !daddr_set by (done || lia).
  change NDIRECT with 12 in *. change MAXFILE with 140 in *.
  destruct (Z.eqb_spec i 12) as [->|Hi12].
  - rewrite Z.eqb_refl, H0. destruct (Z.eqb_spec j 140) as [->|]; [done|].
    destruct (Z.ltb_spec j 12); [by rewrite (proj2 (Z.eqb_neq j 12)) by lia|].
    rewrite (proj2 (Z.eqb_neq a 0)) by done. apply Hz.
  - rewrite (proj2 (Z.eqb_neq 12 i)) by lia. destruct (Z.eqb_spec j 140) as [->|].
    + by rewrite (proj2 (Z.eqb_neq 140 i)) by lia.
    + destruct (Z.ltb_spec j 12); [done|]. by rewrite (proj2 (Z.eqb_neq j i)) by lia.
Qed.

(** The fields iappend does not change. *)
Definition same_kind (din din' : dinode) : Prop :=
  din'.(di_type) = din.(di_type) /\ din'.(di_major) = din.(di_major) /\ din'.(di_minor) = din.(di_minor) /\
  din'.(di_nlink) = din.(di_nlink).

(** The image changed in data blocks only, and a block was perhaps taken. *)
Record grew (m m' : image) : Prop := {
  gr_meta k : k < nmeta -> im_sect m' k = im_sect m k;
  gr_inode : im_inode m' = im_inode m;
  gr_block : im_block m <= im_block m'
}.
#[global] Instance grew_preorder : PreOrder grew.
Proof.
  split; [intros m; split; done || lia|]. intros m1 m2 m3 [H1 H2 H3] [H4 H5 H6].
  split; [intros k Hk; by rewrite H4, H1 | congruence | lia].
Qed.

Lemma files_ext img img' nb n D D' F F' :
  files img nb n D F -> (forall k, length (img' k) = Z.to_nat BSIZE) -> (forall k, nmeta <= k -> img' k = img k) ->
  (forall i, (D' i).(di_addrs) = (D i).(di_addrs)) -> (forall i, F' i = F i) -> files img' nb n D' F'.
Proof.
  intros [Hl Hnb Hz Ha Hs Hi Hh Hsz Hb] Hl' Himg HD HF. assert (nmeta = 59) as Em by done.
  assert (forall i j, 1 <= i < n -> mslot img' (D' i) j = mslot img (D i) j) as Hslot.
  { intros i j Hi'. transitivity (mslot img' (D i) j); [unfold mslot, daddr; by rewrite HD|]. apply mslot_ext. intros Hnz. apply Himg.
    by apply (Hs i MAXFILE Hi' ltac:(done) Hnz). }
  split; [done | done | | | | | | |].
  - intros k Hk. rewrite Himg by lia. auto.
  - intros i. rewrite HD. auto.
  - intros i j ? ?. rewrite Hslot by done. auto.
  - intros i j i' j' ? ? ? ?. rewrite !Hslot by done. by apply Hi.
  - intros i j ? ?. rewrite Hslot, HF by done. auto.
  - intros i. rewrite HF. auto.
  - intros i o Hi' Ho. pose proof (offset_block o Ho). rewrite HF, Hslot by done. intros Hnz.
    rewrite Himg; [by apply Hb|]. apply (Hs i (o / BSIZE)); try done. lia.
Qed.

Section Append.
Context (m : image) (D : Z -> dinode) (F : Z -> list Z) (inum : Z).
Context (Hf : files (im_sect m) (im_block m) (im_inode m) D F) (Hin : 1 <= inum < im_inode m).
Notation img := (im_sect m).

Lemma direct_block_ok (i : Z) :
  0 <= i <= NDIRECT ->
  let '(m', din) := direct_block m (D inum) i in
  files (im_sect m') (im_block m') (im_inode m') (fset D inum din) F /\ grew m m' /\ im_sect m' = img /\
  same_kind (D inum) din /\ daddr din i <> 0 /\ (m' = m \/ im_block m' = daddr din i + 1).
Proof.
  intros Hi. pose proof (fi_addrs _ _ _ _ _ Hf inum Hin) as Hlen. pose proof (fi_nb _ _ _ _ _ Hf) as Hnb.
  assert (nmeta = 59) as Em by done. unfold direct_block. destruct (Z.eqb_spec (daddr (D inum) i) 0) as [E|E].
  - rewrite daddr_set, Z.eqb_refl by (done || lia). split_and!; try done; [| split; done || simpl; lia | lia | by right].
    cbn [im_sect im_block im_inode take_block].
    apply (files_extend img _ _ D F Hf inum Hin img _ (own_slot i)).
    + unfold own_slot. change NDIRECT with 12 in *. change MAXFILE with 140. destruct (Z.eqb_spec i 12); lia.
    + by rewrite mslot_own.
    + unfold set_daddr. cbn [di_addrs]. by rewrite length_insert.
    + apply Hf.
    + intros j Hj. rewrite <- (mslot_set (im_block m)); try done; [lia|]. intros o.
      rewrite (fi_zero _ _ _ _ _ Hf) by lia. by rewrite get32_zeros.
    + done.
  - split_and!; try done; [|by left]. apply (files_ext img img _ _ D _ F F Hf); try done; [apply Hf|].
    intros k. unfold fset. by destruct (Z.eqb_spec k inum) as [->|].
Qed.
End Append.

(** A block entered in the indirect block of a file. *)
Lemma indirect_entry (m : image) (D : Z -> dinode) (F : Z -> list Z) (inum fbn : Z) :
  files (im_sect m) (im_block m) (im_inode m) D F -> 1 <= inum < im_inode m -> NDIRECT <= fbn < MAXFILE ->
  im_block m <= FSSIZE -> daddr (D inum) NDIRECT <> 0 -> mslot (im_sect m) (D inum) fbn = 0 ->
  let ind := daddr (D inum) NDIRECT in
  let m' := wsect (take_block m) ind (put (im_sect m ind) (4 * (fbn - NDIRECT)) (le32 (im_block m))) in
  files (im_sect m') (im_block m') (im_inode m') D F /\ grew m m' /\ mslot (im_sect m') (D inum) fbn = im_block m.
Proof.
  intros Hf Hin Hfbn Hmax Hnz H0. cbv zeta. set (ind := daddr (D inum) NDIRECT) in *.
  set (img' := im_sect _). assert (NDIRECT = 12) as End by done. pose proof (fi_nb _ _ _ _ _ Hf) as Hnb. assert (nmeta = 59) as Em by done.
  pose proof (fi_len _ _ _ _ _ Hf ind) as Hl. change FSSIZE with 1000 in *.
  pose proof (fi_slot _ _ _ _ _ Hf inum MAXFILE Hin ltac:(done)) as Hsl. rewrite mslot_MAXFILE in Hsl.
  specialize (Hsl Hnz). fold ind in Hsl.
  assert (forall k, img' k = if k =? ind then put (im_sect m ind) (4 * (fbn - NDIRECT)) (le32 (im_block m)) else im_sect m k)
    as Himg by done.
  assert (forall j, 0 <= j <= MAXFILE -> mslot img' (D inum) j = if j =? fbn then im_block m else mslot (im_sect m) (D inum) j) as Hslot.
  { intros j Hj. unfold mslot. fold ind. rewrite Himg, Z.eqb_refl.
    change NDIRECT with 12 in *. change MAXFILE with 140 in *. change (Z.to_nat BSIZE) with 512%nat in *.
    destruct (Z.eqb_spec j 140) as [->|]; [by rewrite (proj2 (Z.eqb_neq 140 fbn)) by lia|].
    destruct (Z.ltb_spec j 12); [by rewrite (proj2 (Z.eqb_neq j fbn)) by lia|].
    rewrite (proj2 (Z.eqb_neq ind 0)) by lia. destruct (Z.eqb_spec j fbn) as [->|].
    - rewrite get32_put_same by lia. apply u32_small. lia.
    - rewrite get32_put_other; [done | lia..| rewrite length_le32; lia]. }
  split_and!.
  - apply (files_ext img' img' _ _ (fset D inum (D inum)) _ F F); try done.
    + apply (files_extend (im_sect m) _ _ D F Hf inum Hin img' (D inum) fbn); try done.
      * lia.
      * by apply (fi_addrs _ _ _ _ _ Hf).
      * intros k. rewrite Himg. case_match; [by rewrite length_put | apply Hf].
      * intros k Hk. rewrite mslot_MAXFILE in Hk. fold ind in Hk. rewrite Himg.
        destruct Hk as [Hk|Hk]; [by rewrite (proj2 (Z.eqb_neq k ind)) | lia].
    + intros k. rewrite Himg. case_match; [by rewrite length_put | apply Hf].
    + intros i. unfold fset. by destruct (Z.eqb_spec i inum) as [->|].
  - split; [|done | simpl; lia]. intros k Hk. fold img'. by rewrite Himg, (proj2 (Z.eqb_neq k ind)) by lia.
  - by rewrite Hslot, Z.eqb_refl by lia.
Qed.

Lemma rsect_Some m sec buf : rsect m sec = Some buf -> buf = im_sect m sec /\ sec < FSSIZE.
Proof. unfold rsect. case_match eqn:E; [|done]. apply Z.ltb_lt in E. by intros [= <-]. Qed.

Lemma append_block_ok (m : image) (D : Z -> dinode) (F : Z -> list Z) (inum fbn : Z) (m' : image) (din : dinode) (x : Z) :
  files (im_sect m) (im_block m) (im_inode m) D F -> 1 <= inum < im_inode m -> 0 <= fbn < MAXFILE -> im_block m <= FSSIZE ->
  append_block m (D inum) fbn = Some (m', din, x) ->
  files (im_sect m') (im_block m') (im_inode m') (fset D inum din) F /\ grew m m' /\ same_kind (D inum) din /\
  x = mslot (im_sect m') din fbn /\ x <> 0 /\ (x < FSSIZE -> im_block m' <= FSSIZE).
Proof.
  intros Hf Hin Hfbn Hmax. unfold append_block. destruct (Z.ltb_spec fbn NDIRECT) as [Hlt|Hge].
  - pose proof (direct_block_ok m D F inum Hf Hin fbn ltac:(lia)) as H.
    destruct (direct_block m (D inum) fbn) as [m1 din1]. destruct H as (H1 & H2 & H3 & H4 & H5 & H6).
    intros [= <- <- <-]. split_and!; try done.
    + unfold mslot. rewrite (proj2 (Z.eqb_neq fbn _)), (proj2 (Z.ltb_lt _ _)) by lia. done.
    + destruct H6 as [->|H6]; lia.
  - pose proof (direct_block_ok m D F inum Hf Hin NDIRECT ltac:(done)) as H.
    destruct (direct_block m (D inum) NDIRECT) as [m1 din1]. destruct H as (H1 & H2 & H3 & H4 & H5 & H6).
    destruct (rsect m1 (daddr din1 NDIRECT)) as [buf|] eqn:E; [|done]. apply rsect_Some in E as [-> Hind].
    assert (im_block m1 <= FSSIZE) as Hmax1 by (destruct H6 as [->|H6]; lia).
    assert (1 <= inum < im_inode m1) as Hin1 by (rewrite (gr_inode _ _ H2); lia).
    assert (mslot (im_sect m1) din1 fbn = get32 (im_sect m1 (daddr din1 NDIRECT)) (4 * (fbn - NDIRECT))) as Hms.
    { unfold mslot. rewrite (proj2 (Z.eqb_neq fbn _)), (proj2 (Z.ltb_ge _ _)), (proj2 (Z.eqb_neq _ 0)) by (done || lia). done. }
    cbn [mbind option_bind]. rewrite <- Hms.
    destruct (Z.eqb_spec (mslot (im_sect m1) din1 fbn) 0) as [E0|E0]; intros [= <- <- <-].
    + pose proof (indirect_entry m1 (fset D inum din1) F inum fbn H1 Hin1 ltac:(lia) Hmax1) as Hi.
      rewrite fset_eq in Hi. destruct (Hi H5 E0) as (I1 & I2 & I3). pose proof (fi_nb _ _ _ _ _ H1) as Hnb.
      split_and!; try done; [by transitivity m1 | assert (nmeta = 59) by done; lia | simpl; lia].
    + split_and!; try done.
Qed.

(** The block of offset [o], when [bs] is put after the [off] bytes of [l]. *)
Lemma put_appended (off o : Z) (blk l bs : list Z) :
  0 <= o -> off = size l -> o mod BSIZE = off mod BSIZE + (o - off) -> size bs <= BSIZE - off mod BSIZE ->
  get8 blk (o mod BSIZE) = nth (Z.to_nat o) l 0 -> length blk = Z.to_nat BSIZE ->
  get8 (put blk (off mod BSIZE) bs) (o mod BSIZE) = nth (Z.to_nat o) (l ++ bs) 0.
Proof.
  intros Ho Hoff Hom Hbs Hold Hl. pose proof (Z.mod_pos_bound off BSIZE ltac:(done)) as Hm.
  pose proof (Z.mod_pos_bound o BSIZE ltac:(done)) as Hm'. change (Z.to_nat BSIZE) with 512%nat in Hl. change BSIZE with 512 in *.
  destruct (decide (off <= o < off + size bs)) as [Hin|Hout].
  - rewrite get8_put_in by (unfold size in *; lia). rewrite app_nth2 by (unfold size in *; lia). f_equal. unfold size in *. lia.
  - rewrite get8_put_out by (unfold size in *; lia). rewrite Hold. destruct (decide (o < off)).
    + by rewrite app_nth1 by (unfold size in *; lia).
    + rewrite !nth_overflow; [done|rewrite length_app|]; unfold size in *; lia.
Qed.

(** Bytes written at the end of a file, inside its last block. *)
Lemma write_chunk (m : image) (D : Z -> dinode) (F : Z -> list Z) (inum : Z) (bs : list Z) :
  let off := size (F inum) in
  let x := mslot (im_sect m) (D inum) (off / BSIZE) in
  let m' := wsect m x (put (im_sect m x) (off mod BSIZE) bs) in
  files (im_sect m) (im_block m) (im_inode m) D F -> 1 <= inum < im_inode m -> off / BSIZE < MAXFILE -> x <> 0 ->
  size bs <= BSIZE - off mod BSIZE ->
  files (im_sect m') (im_block m') (im_inode m') D (fset F inum (F inum ++ bs)).
Proof.
  cbv zeta. set (off := size (F inum)). set (x := mslot _ _ _). intros Hf Hin Hmax Hx Hbs.
  set (img' := im_sect (wsect _ _ _)).
  assert (forall k, img' k = if k =? x then put (im_sect m x) (off mod BSIZE) bs else im_sect m k) as Himg by done.
  assert (0 <= off) as Hoff by (unfold off, size; lia).
  pose proof (Z.mod_pos_bound off BSIZE ltac:(done)) as Hmod. pose proof (Z.div_pos off BSIZE Hoff ltac:(done)) as Hdiv.
  pose proof (Z.div_mod off BSIZE ltac:(done)) as Hdm.
  pose proof Hf as [Hl Hnb Hz Ha Hs Hi Hh Hsz Hb]. assert (nmeta = 59) as Em by done.
  assert (nmeta <= x < im_block m) as Hxr by (apply Hs; try done; lia).
  assert (forall i j, 1 <= i < im_inode m -> mslot img' (D i) j = mslot (im_sect m) (D i) j) as Hslot.
  { intros i j Hi'. apply mslot_ext. intros Hnz. rewrite Himg. rewrite (proj2 (Z.eqb_neq _ x)); [done|].
    intros E. destruct (Hi i MAXFILE inum (off / BSIZE)) as [_ E2]; try done; lia. }
  assert (forall i, size (fset F inum (F inum ++ bs) i) = size (F i) + if i =? inum then size bs else 0) as HF.
  { intros i. unfold fset, size. destruct (Z.eqb_spec i inum) as [->|]; [rewrite length_app; lia | lia]. }
  pose proof (Nat2Z.is_nonneg (length bs)) as Hb0. fold (size bs) in Hb0.
  cbn [im_block im_inode wsect]. split; [| done | | done | | | | |].
  - intros k. rewrite Himg. case_match; [by rewrite length_put | apply Hl].
  - intros k Hk. rewrite Himg, (proj2 (Z.eqb_neq k x)) by lia. auto.
  - intros i j ? ?. rewrite Hslot by done. auto.
  - intros i j i' j' ? ? ? ?. rewrite !Hslot by done. by apply Hi.
  - intros i j Hi' Hj. rewrite Hslot, HF by done. destruct (Z.eqb_spec i inum) as [->|]; [|rewrite Z.add_0_r; auto].
    intros Hlt. fold off in Hlt. destruct (decide (j = off / BSIZE)) as [->|]; [done|]. apply Hh; [done..|].
    fold off. change BSIZE with 512 in *. nia.
  - intros i Hi'. rewrite HF. destruct (Z.eqb_spec i inum) as [->|]; [|rewrite Z.add_0_r; auto].
    fold off. change BSIZE with 512 in *. change MAXFILE with 140 in *. nia.
  - intros i o Hi' Ho. pose proof (offset_block o Ho) as Hd. rewrite Hslot, Himg by done. intros Hnz.
    destruct (Z.eqb_spec (mslot (im_sect m) (D i) (o / BSIZE)) x) as [E|Ne].
    + destruct (Hi i (o / BSIZE) inum (off / BSIZE)) as [-> E2]; [done|done|lia|lia|done|done|]. rewrite fset_eq.
      pose proof (Z.div_mod o BSIZE ltac:(done)). pose proof (Z.mod_pos_bound o BSIZE ltac:(done)).
      assert (Hom : o mod BSIZE = off mod BSIZE + (o - off)) by (rewrite E2 in *; lia).
      assert (Hold : get8 (im_sect m x) (o mod BSIZE) = nth (Z.to_nat o) (F inum) 0) by (rewrite <- E; by apply Hb).
      apply (put_appended off); [lia|done|done|done|done|by rewrite Hl].
    + rewrite Hb by done. unfold fset. destruct (Z.eqb_spec i inum) as [->|]; [|done].
      destruct (decide (o < off)) as [Hlt|Hge]; [by rewrite app_nth1 by (unfold off, size in Hlt; lia)|].
      assert (o / BSIZE <> off / BSIZE) by (intros E; apply Ne; by rewrite E).
      assert (off + size bs <= o).
      { pose proof (Z.div_le_mono off o BSIZE ltac:(done) ltac:(lia)). pose proof (Z.div_mod o BSIZE ltac:(done)).
        pose proof (Z.mod_pos_bound o BSIZE ltac:(done)). change BSIZE with 512 in *. lia. }
      rewrite !nth_overflow; [done|rewrite length_app|]; unfold off, size in *; lia.
Qed.

Lemma fset_fset {A} (f : Z -> A) k v v' x : fset (fset f k v) k v' x = fset f k v' x.
Proof. unfold fset. by case_match. Qed.

Lemma wsect_grew m x d : nmeta <= x -> grew m (wsect m x d).
Proof. intros Hx. split; [|done | done]. intros k Hk. simpl. by rewrite (proj2 (Z.eqb_neq k x)) by lia. Qed.

Lemma append_loop_ok (fuel : nat) (m : image) (D : Z -> dinode) (F : Z -> list Z) (inum : Z) (p : list Z) (m' : image) (din : dinode) (off : Z) :
  files (im_sect m) (im_block m) (im_inode m) D F -> 1 <= inum < im_inode m -> im_block m <= FSSIZE ->
  append_loop fuel m (D inum) (size (F inum)) p = Some (m', din, off) ->
  files (im_sect m') (im_block m') (im_inode m') (fset D inum din) (fset F inum (F inum ++ p)) /\ grew m m' /\
  same_kind (D inum) din /\ off = size (F inum ++ p) /\ im_block m' <= FSSIZE.
Proof.
  revert m D F p. induction fuel as [|fuel IH]; intros m D F p Hf Hin Hmax; [done|]. cbn [append_loop].
  destruct (Z.leb_spec (Z.of_nat (length p)) 0) as [Hp|Hp].
  { destruct p; [|simpl in Hp; lia]. intros [= <- <- <-]. rewrite app_nil_r. split_and!; try done.
    apply (files_ext (im_sect m) (im_sect m) _ _ D _ F _ Hf); try done; [apply Hf|..];
      intros i; unfold fset; by destruct (Z.eqb_spec i inum) as [->|]. }
  destruct (Z.leb_spec MAXFILE (size (F inum) / BSIZE)) as [|Hfbn]; [done|].
  set (fbn := size (F inum) / BSIZE) in *. assert (0 <= size (F inum)) as Hs0 by (unfold size; lia).
  pose proof (Z.div_pos (size (F inum)) BSIZE Hs0 ltac:(done)) as Hdiv. fold fbn in Hdiv.
  destruct (append_block m (D inum) fbn) as [[[m1 din1] x]|] eqn:E; [|done]. cbn [mbind option_bind].
  destruct (append_block_ok m D F inum fbn m1 din1 x Hf Hin ltac:(lia) Hmax E) as (H1 & H2 & H3 & Hx & Hx0 & Hxm).
  destruct (rsect m1 x) as [buf|] eqn:E1; [|done]. apply rsect_Some in E1 as [-> Hxlt].
  set (n1 := Z.min _ _). set (bs := take (Z.to_nat n1) p).
  pose proof (Z.div_mod (size (F inum)) BSIZE ltac:(done)) as Hdm. fold fbn in Hdm.
  pose proof (Z.mod_pos_bound (size (F inum)) BSIZE ltac:(done)) as Hmb.
  assert (0 < n1 <= Z.of_nat (length p)) as Hn1 by lia.
  assert (size bs = n1) as Hbs by (unfold size, bs; rewrite length_take; lia).
  assert (1 <= inum < im_inode m1) as Hin1 by (rewrite (gr_inode _ _ H2); lia).
  pose proof (write_chunk m1 (fset D inum din1) F inum bs) as Hw. cbv zeta in Hw. rewrite fset_eq in Hw.
  fold fbn in Hw. rewrite <- Hx in Hw. specialize (Hw H1 Hin1 Hfbn Hx0 ltac:(lia)).
  replace (size (F inum) - fbn * BSIZE) with (size (F inum) mod BSIZE) by lia.
  set (m2 := wsect m1 x _) in *. intros Hloop.
  specialize (IH m2 (fset D inum din1) (fset F inum (F inum ++ bs)) (drop (Z.to_nat n1) p) Hw Hin1 (Hxm Hxlt)).
  rewrite !fset_eq in IH. replace (size (F inum ++ bs)) with (size (F inum) + n1) in IH
    by (unfold size in *; rewrite length_app; lia).
  destruct (IH Hloop) as (I1 & I2 & I3 & I4 & I5). rewrite <- app_assoc in I1, I4. unfold bs in I1, I4. rewrite take_drop in I1, I4.
  pose proof (fi_nb _ _ _ _ _ H1) as Hnb.
  assert (nmeta <= x) as Hxn.
  { pose proof (fi_slot _ _ _ _ _ H1 inum fbn Hin1 ltac:(lia)) as Hs. rewrite fset_eq, <- Hx in Hs. by apply Hs. }
  split_and!; try done.
  - apply (files_ext (im_sect m') (im_sect m') _ _ _ _ _ _ I1); try done; [apply I1|..]; intros i; by rewrite fset_fset.
  - transitivity m1; [done|]. transitivity m2; [by apply wsect_grew | done].
  - destruct H3 as (? & ? & ? & ?), I3 as (? & ? & ? & ?). unfold same_kind. split_and!; congruence.
Qed.

(** ** The inodes on the image *)
Definition zero_dinode (type : Z) : dinode := mkdinode type 0 0 1 0 (replicate (Z.to_nat (NDIRECT + 1)) 0).

Lemma IBLOCK_bounds i : 0 <= i < NINODES -> IBLOCK i mksb = i / 8 + 32 /\ 32 <= IBLOCK i mksb < 58.
Proof.
  change NINODES with 200. intros Hi. unfold IBLOCK. change IPB with 8. change (sb_inodestart mksb) with 32.
  assert (0 <= i / 8 < 26) by (Z.to_euclidean_division_equations; lia). rewrite u32_small by lia. lia.
Qed.

Lemma winode_ok (m m' : image) (inum : Z) (di : dinode) :
  (forall k, length (im_sect m k) = Z.to_nat BSIZE) -> 0 <= inum < NINODES -> dinode_ok di -> winode m inum di = Some m' ->
  (forall k, length (im_sect m' k) = Z.to_nat BSIZE) /\ im_inode m' = im_inode m /\ im_block m' = im_block m /\
  (forall k, k < 32 \/ 58 <= k -> im_sect m' k = im_sect m k) /\ rinode m' inum = Some di /\
  (forall i, 0 <= i < NINODES -> i <> inum -> rinode m' i = rinode m i).
Proof.
  intros Hl Hin Hok. destruct (IBLOCK_bounds inum Hin) as [Eb Hb]. unfold winode.
  destruct (rsect m (IBLOCK inum mksb)) as [buf|] eqn:E; [|done]. apply rsect_Some in E as [-> _].
  intros [= <-]. change IPB with 8. change DINODE with 64.
  pose proof (length_encode_dinode di Hok) as Hlen. change DINODE with 64 in Hlen.
  pose proof (Z.mod_pos_bound inum 8 ltac:(done)) as Hm.
  assert (forall k, (IBLOCK k mksb <? FSSIZE) = true \/ ~ 0 <= k < NINODES) as Hlt.
  { intros k. destruct (decide (0 <= k < NINODES)) as [Hk|]; [left|by right]. destruct (IBLOCK_bounds k Hk).
    apply Z.ltb_lt. change FSSIZE with 1000. lia. }
  split_and!; try done.
  - intros k. simpl. case_match; [by rewrite length_put | done].
  - intros k Hk. simpl. by rewrite (proj2 (Z.eqb_neq k _)) by lia.
  - unfold rinode, rsect. destruct (Hlt inum) as [->|]; [|done]. cbn [mbind option_bind im_sect wsect]. rewrite Z.eqb_refl.
    f_equal. apply decode_put_dinode; [done | change IPB with 8; change DINODE with 64; lia |].
    rewrite Hl. change (Z.of_nat (Z.to_nat BSIZE)) with 512. change IPB with 8. change DINODE with 64. lia.
  - intros i Hi Hne. unfold rinode, rsect. destruct (Hlt i) as [->|]; [|done]. cbn [mbind option_bind im_sect wsect].
    destruct (Z.eqb_spec (IBLOCK i mksb) (IBLOCK inum mksb)) as [E|]; [|done]. f_equal. rewrite E.
    destruct (IBLOCK_bounds i Hi) as [Ei _]. pose proof (Z.mod_pos_bound i 8 ltac:(done)).
    assert (i mod 8 <> inum mod 8) by (Z.to_euclidean_division_equations; lia).
    change IPB with 8. change DINODE with 64. apply decode_put_other; [lia.. | change DINODE with 64; lia].
Qed.

(** An image on which the inodes are those of [D] and the contents [F]. *)
Record built (m : image) (D : Z -> dinode) (F : Z -> list Z) : Prop := {
  bu_files : files (im_sect m) (im_block m) (im_inode m) D F;
  bu_inode i : 1 <= i < im_inode m -> rinode m i = Some (D i) /\ dinode_ok (D i) /\ (D i).(di_size) = size (F i);
  bu_n : 1 <= im_inode m <= NINODES;
  bu_block : im_block m <= FSSIZE;
  bu_sb : im_sect m 1 = sb_sector
}.

Lemma addrs_ok img nb n D F i :
  files img nb n D F -> 1 <= i < n -> nb <= FSSIZE -> Forall (fun a => 0 <= a < 2 ^ 32) (D i).(di_addrs).
Proof.
  intros Hf Hi Hnb. apply Forall_lookup. intros k a Hk. pose proof (lookup_lt_Some _ _ _ Hk) as Hlt.
  rewrite (fi_addrs _ _ _ _ _ Hf i Hi) in Hlt. change (Z.to_nat (NDIRECT + 1)) with 13%nat in Hlt.
  assert (daddr (D i) (Z.of_nat k) = a) as <- by (unfold daddr; rewrite nth_lookup, Nat2Z.id, Hk; done).
  assert (nmeta = 59) as Em by done. change FSSIZE with 1000 in *.
  rewrite <- (mslot_own img) by (change NDIRECT with 12; lia).
  destruct (decide (mslot img (D i) (own_slot (Z.of_nat k)) = 0)) as [->|Hnz]; [done|].
  apply (fi_slot _ _ _ _ _ Hf i) in Hnz; [lia | done|].
  unfold own_slot. change NDIRECT with 12. change MAXFILE with 140. destruct (Z.eqb_spec (Z.of_nat k) 12); lia.
Qed.

Lemma iappend_ok (m : image) (D : Z -> dinode) (F : Z -> list Z) (inum : Z) (p : list Z) (m' : image) :
  built m D F -> 1 <= inum < im_inode m -> iappend m inum p = Some m' ->
  exists D', built m' D' (fset F inum (F inum ++ p)) /\ (forall i, same_kind (D i) (D' i)) /\ im_inode m' = im_inode m.
Proof.
  intros [Hf Hi Hn Hb Hsb] Hin. unfold iappend. destruct (Hi inum Hin) as (-> & Hok & Hsz). cbn [mbind option_bind].
  rewrite Hsz. destruct (append_loop _ _ _ _ _) as [[[m1 din] off]|] eqn:E; [|done]. cbn [mbind option_bind].
  destruct (append_loop_ok _ m D F inum p m1 din off Hf Hin Hb E) as (H1 & [G1 G2 G3] & H3 & -> & H5).
  intros Hw. assert (1 <= inum < im_inode m1) as Hin1 by lia.
  assert (dinode_ok (set_dsize din (size (F inum ++ p)))) as Hok1.
  { destruct H3 as (K1 & K2 & K3 & K4). destruct Hok as [(S1 & S2 & S3 & S4) _ _ _].
    pose proof (fi_size _ _ _ _ _ H1 inum Hin1) as Hs. rewrite fset_eq in Hs. change (MAXFILE * BSIZE) with 71680 in Hs.
    pose proof (fi_addrs _ _ _ _ _ H1 inum Hin1) as Ha. pose proof (addrs_ok _ _ _ _ _ inum H1 Hin1 H5) as Ha'.
    rewrite fset_eq in Ha, Ha'. split; cbn [set_dsize di_type di_major di_minor di_nlink di_size di_addrs]; try done.
    - rewrite K1, K2, K3, K4. done.
    - unfold size in *. lia. }
  destruct (winode_ok m1 m' inum _ (fi_len _ _ _ _ _ H1) ltac:(lia) Hok1 Hw) as (W1 & W2 & W3 & W4 & W5 & W6).
  exists (fset D inum (set_dsize din (size (F inum ++ p)))). split_and!.
  - split.
    + rewrite W2, W3. apply (files_ext (im_sect m1) _ _ _ (fset D inum din) _ _ _ H1 W1); [| |done].
      * intros k Hk. apply W4. assert (nmeta = 59) by done. lia.
      * intros i. unfold fset. by case_match.
    + intros i Hi'. rewrite W2, G2 in Hi'. unfold fset. destruct (Z.eqb_spec i inum) as [->|Hne]; [done|].
      rewrite W6 by (done || lia). unfold rinode, rsect. rewrite G1; [by apply Hi|].
      destruct (IBLOCK_bounds i ltac:(lia)). assert (nmeta = 59) by done. lia.
    + lia.
    + lia.
    + rewrite W4, G1 by (assert (nmeta = 59) by done; lia). done.
  - intros i. unfold fset. destruct (Z.eqb_spec i inum) as [->|]; [exact H3 | done].
  - congruence.
Qed.

Lemma daddr_zero type j : daddr (zero_dinode type) j = 0.
Proof.
  unfold daddr, zero_dinode. cbn [di_addrs]. rewrite nth_lookup. destruct (_ !! _) eqn:E; [|done].
  by apply lookup_replicate in E as [-> _].
Qed.

Lemma mslot_zero img type j : mslot img (zero_dinode type) j = 0.
Proof. unfold mslot. rewrite !daddr_zero. by repeat case_match. Qed.

Lemma files_new img nb n D F type :
  1 <= n -> files img nb n D F -> files img nb (n + 1) (fset D n (zero_dinode type)) (fset F n []).
Proof.
  intros Hn [Hl Hnb Hz Ha Hs Hi Hh Hsz Hb].
  assert (forall i, 1 <= i < n + 1 -> i = n \/ (1 <= i < n /\ i <> n)) as Hc by lia.
  split; try done.
  - intros i [->|[? ?]]%Hc; [by rewrite fset_eq | rewrite fset_ne by done; auto].
  - intros i j [->|[? ?]]%Hc Hj; [by rewrite fset_eq, mslot_zero | rewrite fset_ne by done; auto].
  - intros i j i' j' [->|[? ?]]%Hc [->|[? ?]]%Hc Hj Hj'; rewrite ?fset_eq, ?mslot_zero; try done.
    rewrite !fset_ne by done. by apply Hi.
  - intros i j [->|[? ?]]%Hc Hj; [rewrite !fset_eq; unfold size; simpl; change BSIZE with 512; lia | rewrite !fset_ne by done; auto].
  - intros i [->|[? ?]]%Hc; [by rewrite fset_eq | rewrite fset_ne by done; auto].
  - intros i o [->|[? ?]]%Hc Ho; [by rewrite fset_eq, mslot_zero | rewrite !fset_ne in * by done; auto].
Qed.

Lemma zero_dinode_ok type : is_s16 type -> dinode_ok (zero_dinode type).
Proof.
  intros Ht. split; cbn [zero_dinode di_type di_major di_minor di_nlink di_size di_addrs]; try done.
  by apply Forall_replicate.
Qed.

Lemma mkialloc_ok (m : image) (D : Z -> dinode) (F : Z -> list Z) (type : Z) (m' : image) (inum : Z) :
  built m D F -> im_inode m < NINODES -> is_s16 type -> mkialloc m type = Some (m', inum) ->
  inum = im_inode m /\ im_inode m' = im_inode m + 1 /\ built m' (fset D inum (zero_dinode type)) (fset F inum []).
Proof.
  intros [Hf Hi Hn Hb Hsb] Hlt Ht. unfold mkialloc. set (m0 := mkimage _ _ _). fold (zero_dinode type).
  destruct (winode m0 (im_inode m) (zero_dinode type)) as [m1|] eqn:E; [|done]. intros [= <- <-].
  destruct (winode_ok m0 m1 (im_inode m) (zero_dinode type) (fi_len _ _ _ _ _ Hf) ltac:(lia) (zero_dinode_ok _ Ht) E) as (W1 & W2 & W3 & W4 & W5 & W6).
  split_and!; [done | done|]. split.
  - rewrite W2, W3. simpl. apply (files_ext (im_sect m) _ _ _ (fset D (im_inode m) (zero_dinode type)) _ (fset F (im_inode m) []) _);
      try done; [apply files_new; [lia | done] |].
    intros k Hk. apply W4. assert (nmeta = 59) by done. lia.
  - intros i Hi'. rewrite W2 in Hi'. simpl in Hi'. unfold fset. destruct (Z.eqb_spec i (im_inode m)) as [->|Hne].
    + split; [done|]. split; [by apply zero_dinode_ok | done].
    + rewrite W6 by (done || lia). apply (Hi i). lia.
  - rewrite W2. simpl. lia.
  - by rewrite W3.
  - rewrite W4 by lia. done.
Qed.

Lemma append_all_ok (chunks : list (list Z)) : forall (m : image) (D : Z -> dinode) (F : Z -> list Z) (inum : Z) (m' : image),
  built m D F -> 1 <= inum < im_inode m -> append_all m inum chunks = Some m' ->
  exists D' F', built m' D' F' /\ (forall i, F' i = fset F inum (F inum ++ concat chunks) i) /\
    (forall i, same_kind (D i) (D' i)) /\ im_inode m' = im_inode m.
Proof.
  induction chunks as [|c chunks IH]; intros m D F inum m' Hb Hin; simpl.
  - intros [= <-]. exists D, F. split_and!; try done. intros i. rewrite app_nil_r. unfold fset.
    by destruct (Z.eqb_spec i inum) as [->|].
  - destruct (iappend m inum c) as [m1|] eqn:E; [|done]. cbn [mbind option_bind]. intros Ha.
    destruct (iappend_ok m D F inum c m1 Hb Hin E) as (D1 & H1 & K1 & N1).
    destruct (IH m1 D1 _ inum m' H1 ltac:(lia) Ha) as (D2 & F2 & H2 & HF & K2 & N2).
    exists D2, F2. split_and!; [done | | | congruence].
    + intros i. rewrite HF, fset_fset, fset_eq, <- app_assoc. done.
    + intros i. destruct (K1 i) as (? & ? & ? & ?), (K2 i) as (? & ? & ? & ?). unfold same_kind. split_and!; congruence.
Qed.

(** The directory entries of the files, from inode [k]. *)
Fixpoint entries (k : Z) (fs : list mkfile) : list Z :=
  match fs with
  | [] => []
  | f :: fs' => mkdirent k (strip (fst f)) ++ entries (k + 1) fs'
  end.

Lemma same_kind_trans d1 d2 d3 : same_kind d1 d2 -> same_kind d2 d3 -> same_kind d1 d3.
Proof. intros (? & ? & ? & ?) (? & ? & ? & ?). unfold same_kind. split_and!; congruence. Qed.

Lemma add_file_ok (m : image) (D : Z -> dinode) (F : Z -> list Z) (f : mkfile) (m' : image) :
  built m D F -> 1 < im_inode m < NINODES -> add_file m f = Some m' ->
  let k := im_inode m in
  exists D' F', built m' D' F' /\ im_inode m' = k + 1 /\
    F' ROOTINO = F ROOTINO ++ mkdirent k (strip (fst f)) /\ F' k = concat (snd f) /\
    (forall i, i <> ROOTINO -> i <> k -> F' i = F i) /\
    (D' k).(di_type) = T_FILE /\ (forall i, i <> k -> same_kind (D i) (D' i)).
Proof.
  intros Hb Hk. cbv zeta. unfold add_file. case_match; [done|]. change ROOTINO with 1.
  destruct (mkialloc m T_FILE) as [[m1 inum]|] eqn:E; [|done]. cbn [mbind option_bind].
  destruct (mkialloc_ok m D F T_FILE m1 inum Hb ltac:(lia) ltac:(done) E) as (-> & N1 & H1).
  destruct (iappend m1 1 _) as [m2|] eqn:E2; [|done]. cbn [mbind option_bind].
  destruct (iappend_ok m1 _ _ 1 _ m2 H1 ltac:(lia) E2) as (D2 & H2 & K2 & N2). intros Ha.
  destruct (append_all_ok (snd f) m2 D2 _ (im_inode m) m' H2 ltac:(lia) Ha) as (D3 & F3 & H3 & HF & K3 & N3).
  set (k := im_inode m) in *. exists D3, F3. split_and!; [done | lia | | | | |].
  - rewrite HF, (fset_ne _ k _ 1), fset_eq, (fset_ne F k _ 1) by lia. done.
  - rewrite HF, fset_eq, (fset_ne _ 1 _ k), fset_eq by lia. done.
  - intros i Hi1 Hik. rewrite HF, !fset_ne by done. done.
  - destruct (K2 k) as (T2 & _), (K3 k) as (T3 & _). rewrite T3, T2, fset_eq. done.
  - intros i Hik. specialize (K2 i). rewrite fset_ne in K2 by done. by apply (same_kind_trans _ (D2 i)).
Qed.

Lemma add_files_ok (fs : list mkfile) : forall (m : image) (D : Z -> dinode) (F : Z -> list Z) (m' : image),
  built m D F -> 1 < im_inode m -> im_inode m + size fs <= NINODES -> add_files m fs = Some m' ->
  let k := im_inode m in
  exists D' F', built m' D' F' /\ im_inode m' = k + size fs /\ F' ROOTINO = F ROOTINO ++ entries k fs /\
    (forall i, i <> ROOTINO -> i < k -> F' i = F i) /\
    (forall i, i < k -> same_kind (D i) (D' i)) /\
    (forall t f, fs !! t = Some f -> F' (k + Z.of_nat t) = concat (snd f) /\ (D' (k + Z.of_nat t)).(di_type) = T_FILE).
Proof.
  induction fs as [|f fs IH]; intros m D F m' Hb Hk Hlen; simpl.
  - intros [= <-]. exists D, F. split_and!; try done; [unfold size; simpl; lia | by rewrite app_nil_r].
  - unfold size in Hlen. simpl in Hlen. destruct (add_file m f) as [m1|] eqn:E; [|done]. cbn [mbind option_bind]. intros Ha.
    destruct (add_file_ok m D F f m1 Hb ltac:(lia) E) as (D1 & F1 & H1 & N1 & R1 & C1 & O1 & T1 & K1).
    destruct (IH m1 D1 F1 m' H1 ltac:(lia) ltac:(unfold size; lia) Ha) as (D2 & F2 & H2 & N2 & R2 & O2 & K2 & C2).
    rewrite N1 in *. set (k := im_inode m) in *. exists D2, F2. split_and!; [done | | | | |].
    + rewrite N2. unfold size. simpl. lia.
    + rewrite R2, R1, <- app_assoc. done.
    + intros i Hi Hlt. rewrite O2, O1 by lia. done.
    + intros i Hlt. apply (same_kind_trans _ (D1 i)); [apply K1 | apply K2]; lia.
    + intros [|t] g Hg; simpl in Hg.
      * injection Hg as ->. rewrite Z.add_0_r. change ROOTINO with 1 in *. rewrite O2 by lia. split; [done|].
        destruct (K2 k ltac:(lia)) as (-> & _). done.
      * replace (k + Z.of_nat (S t)) with (k + 1 + Z.of_nat t) by lia. by apply C2.
Qed.

(** ** The bitmap *)
Lemma used_bits_spec (n : nat) : forall i buf b,
  length buf = Z.to_nat BSIZE -> 0 <= i -> i + Z.of_nat n <= BPB -> 0 <= b ->
  bit_free (used_bits n i buf) b = if (i <=? b) && (b <? i + Z.of_nat n) then false else bit_free buf b.
Proof.
  induction n as [|n IH]; intros i buf b Hl Hi Hn Hb; cbn [used_bits].
  { destruct (Z.leb_spec i b), (Z.ltb_spec b (i + Z.of_nat 0)); try done. lia. }
  fold (set_bit buf i). rewrite IH by (try lia; unfold set_bit; by rewrite length_put).
  rewrite set_bit_spec by (lia || (rewrite Hl; done)).
  destruct (Z.leb_spec (i + 1) b), (Z.ltb_spec b (i + 1 + Z.of_nat n)), (Z.leb_spec i b), (Z.ltb_spec b (i + Z.of_nat (S n))),
    (Z.eqb_spec b i); simpl; try done; lia.
Qed.

Lemma bit_free_zeros b : bit_free (replicate (Z.to_nat BSIZE) 0) b = true.
Proof. unfold bit_free. by rewrite get8_zeros. Qed.

(** ** What main leaves *)
Definition dot : list Z := [46].
Definition root_bytes (fs : list mkfile) : list Z :=
  mkdirent ROOTINO dot ++ mkdirent ROOTINO (dot ++ dot) ++ entries 2 fs.

(** The finished image: the inodes [D], with contents [F], and the bitmap. *)
Record finished (fs : list mkfile) (m : image) (D : Z -> dinode) (F : Z -> list Z) : Prop := {
  fn_files : files (im_sect m) (im_block m) (im_inode m) D F;
  fn_inode i : 1 <= i < im_inode m -> rinode m i = Some (D i);
  fn_n : im_inode m = 2 + size fs;
  fn_block : im_block m <= FSSIZE;
  fn_sb : im_sect m 1 = sb_sector;
  fn_map : im_sect m 58 = used_bits (Z.to_nat (im_block m)) 0 (replicate (Z.to_nat BSIZE) 0);
  fn_root : F ROOTINO = root_bytes fs /\ (D ROOTINO).(di_type) = T_DIR /\
    (D ROOTINO).(di_size) = (size (root_bytes fs) / BSIZE + 1) * BSIZE;
  fn_file t f : fs !! t = Some f -> F (2 + Z.of_nat t) = concat (snd f) /\
    (D (2 + Z.of_nat t)).(di_type) = T_FILE /\ (D (2 + Z.of_nat t)).(di_size) = size (concat (snd f))
}.

Lemma built_blank : built (wsect blank 1 sb_sector) (fun _ => zero_dinode 0) (fun _ => []).
Proof.
  assert (nmeta = 59) as Em by done.
  assert (forall k, length (im_sect (wsect blank 1 sb_sector) k) = Z.to_nat BSIZE) as Hl.
  { intros k. cbn [im_sect wsect blank]. case_match; [unfold sb_sector; rewrite length_put|]; apply length_replicate. }
  split; try done; [|intros i Hi; cbn [im_inode wsect blank] in Hi; lia].
  split; try done; try (intros *; cbn [im_inode wsect blank]; lia).
  intros k Hk. cbn [im_sect im_block wsect blank] in *. by rewrite (proj2 (Z.eqb_neq k 1)) by lia.
Qed.

(** The image before the last two steps of main. *)
Lemma populate_built (fs : list mkfile) (m : image) :
  size fs <= NINODES - 2 -> populate fs = Some m ->
  exists D F, built m D F /\ im_inode m = 2 + size fs /\ F ROOTINO = root_bytes fs /\ (D ROOTINO).(di_type) = T_DIR /\
    (forall t f, fs !! t = Some f -> F (2 + Z.of_nat t) = concat (snd f) /\ (D (2 + Z.of_nat t)).(di_type) = T_FILE).
Proof.
  intros Hn. unfold populate. destruct (mkialloc _ T_DIR) as [[m0 r]|] eqn:E0; [|done]. cbn [mbind option_bind].
  destruct (mkialloc_ok _ _ _ T_DIR m0 r built_blank ltac:(done) ltac:(done) E0) as (-> & N0 & H0). simpl in N0.
  change (negb (im_inode (wsect blank 1 sb_sector) =? ROOTINO)) with false. cbv iota.
  change (im_inode (wsect blank 1 sb_sector)) with 1 in *.
  destruct (iappend m0 1 _) as [m1|] eqn:E1; [|done]. cbn [mbind option_bind].
  destruct (iappend_ok m0 _ _ 1 _ m1 H0 ltac:(lia) E1) as (D1 & H1 & K1 & N1).
  destruct (iappend m1 1 _) as [m2|] eqn:E2; [|done]. cbn [mbind option_bind].
  destruct (iappend_ok m1 D1 _ 1 _ m2 H1 ltac:(lia) E2) as (D2 & H2 & K2 & N2). intros Ha.
  destruct (add_files_ok fs m2 D2 _ m H2 ltac:(lia) ltac:(lia) Ha) as (D3 & F3 & H3 & N3 & R3 & _ & K3 & C3).
  assert (im_inode m2 = 2) as Em2 by lia. rewrite Em2 in *. change ROOTINO with 1 in *.
  exists D3, F3. split_and!; [done | done | | | done].
  - rewrite R3, !fset_eq. unfold root_bytes. change ROOTINO with 1. by rewrite <- app_assoc.
  - destruct (K3 1 ltac:(lia)) as (-> & _), (K2 1) as (-> & _), (K1 1) as (-> & _). done.
Qed.

Lemma mkfs_finished (fs : list mkfile) (m : image) :
  size fs <= NINODES - 2 -> mkfs fs = Some m -> exists D F, finished fs m D F.
Proof.
  intros Hn. unfold mkfs. destruct (populate fs) as [m1|] eqn:E1; [|done]. cbn [mbind option_bind].
  destruct (populate_built fs m1 Hn E1) as (D & F & [Hf Hi Hn1 Hb Hsb] & En & HR & HT & HF).
  assert (0 <= size fs) as Hs0 by (unfold size; lia). change NINODES with 200 in *. change ROOTINO with 1 in *.
  unfold fix_root. change ROOTINO with 1. destruct (Hi 1 ltac:(lia)) as (-> & Hok & Hsz). cbn [mbind option_bind].
  rewrite Hsz, HR. set (rsz := (size (root_bytes fs) / BSIZE + 1) * BSIZE).
  destruct (winode m1 1 _) as [m2|] eqn:E2; [|done]. cbn [mbind option_bind].
  assert (dinode_ok (set_dsize (D 1) rsz)) as Hok2.
  { destruct Hok as [S1 _ S3 S4]. split; [exact S1 | | exact S3 | exact S4]. cbn [set_dsize di_size].
    pose proof (fi_size _ _ _ _ _ Hf 1 ltac:(lia)) as Hm. rewrite HR in Hm. change (MAXFILE * BSIZE) with 71680 in Hm.
    assert (0 <= size (root_bytes fs)) by (unfold size; lia). unfold rsz. change BSIZE with 512. 
    Z.to_euclidean_division_equations; lia. }
  destruct (winode_ok m1 m2 1 (set_dsize (D 1) rsz) (fi_len _ _ _ _ _ Hf) ltac:(change NINODES with 200; lia) Hok2 E2) as (W1 & W2 & W3 & W4 & W5 & W6).
  unfold mkballoc. destruct (Z.ltb_spec (im_block m2) (BSIZE * 8)) as [Hlt|]; [|done]. intros Hm. apply (inj Some) in Hm as <-.
  change (sb_bmapstart mksb) with 58. set (bits := used_bits _ _ _).
  assert (forall i, 0 <= i < 200 -> rinode (wsect m2 58 bits) i = rinode m2 i) as Hri.
  { intros i Hi'. destruct (IBLOCK_bounds i Hi'). unfold rinode, rsect. cbn [im_sect wsect].
    by rewrite (proj2 (Z.eqb_neq _ 58)) by lia. }
  assert (forall n i (buf : list Z), length buf = Z.to_nat BSIZE -> length (used_bits n i buf) = Z.to_nat BSIZE) as Hub.
  { induction n as [|n IH]; intros i buf Hl; [done|]. cbn [used_bits]. apply IH. by rewrite length_put. }
  assert (length bits = Z.to_nat BSIZE) as Hbl by (apply Hub, length_replicate).
  exists (fset D 1 (set_dsize (D 1) rsz)), F. split; cbn [im_block im_inode wsect].
  - rewrite W2, W3. apply (files_ext (im_sect m1) _ _ _ D _ F _ Hf); [| | | done].
    + intros k. cbn [im_sect wsect]. destruct (k =? 58); [exact Hbl | apply W1].
    + intros k Hk. assert (nmeta = 59) by done. cbn [im_sect wsect]. rewrite (proj2 (Z.eqb_neq k 58)) by lia. apply W4. lia.
    + intros i. unfold fset. by destruct (Z.eqb_spec i 1) as [->|].
  - intros i Hi'. rewrite W2 in Hi'. rewrite Hri by lia. unfold fset. destruct (Z.eqb_spec i 1) as [->|]; [exact W5|].
    rewrite W6 by (unfold NINODES; lia). apply Hi. lia.
  - lia.
  - lia.
  - cbn [im_sect wsect]. change (1 =? 58) with false. cbv iota. rewrite W4 by lia. exact Hsb.
  - cbn [im_sect wsect]. by rewrite Z.eqb_refl.
  - change ROOTINO with 1. rewrite fset_eq. split_and!; [exact HR | exact HT | reflexivity].
  - intros t f Ht. destruct (HF t f Ht) as [H1 H2]. assert (2 + Z.of_nat t <> 1) as Hne by (clear; lia).
    rewrite !(fset_ne D 1 _ _ Hne). split_and!; [exact H1 | exact H2 |].
    assert (1 <= 2 + Z.of_nat t < im_inode m1) as Hr.
    { apply lookup_lt_Some in Ht. rewrite En. unfold size. clear -Ht. lia. }
    destruct (Hi _ Hr) as (_ & _ & ->). by rewrite H1.
Qed.

(** ** The kernel on the image *)

(** The inode [i] as ilock loads it from its block. *)
Definition loaded (s : kernel) (i : Z) : inode :=
  let di := decode_dinode (view s (IBLOCK i s.(k_sb))) (i mod IPB * DINODE) in
  mkinode 1 i 1 1 di.(di_type) di.(di_major) di.(di_minor) di.(di_nlink) di.(di_size) di.(di_addrs).
(** Its contents are well-formed, and are [bs] followed by zeros. *)
Definition contains (s : kernel) (i : Z) (bs : list Z) : Prop :=
  file_ok s (loaded s i) /\ forall o, 0 <= o < MAXFILE * BSIZE -> file_byte s (loaded s i) o = nth (Z.to_nat o) bs 0.

Section Kernel.
Context (fs : list mkfile) (m : image) (s : kernel) (D : Z -> dinode) (F : Z -> list Z).
Context (Hfin : finished fs m D F) (Hn : size fs <= NINODES - 2).
Context (Hview : forall k, view s k = im_sect m k) (Hsb : s.(k_sb) = mksb).

Lemma image_free (b : Z) : 0 <= b < FSSIZE -> free s b = (im_block m <=? b).
Proof.
  intros Hb. pose proof (fi_nb _ _ _ _ _ (fn_files _ _ _ _ Hfin)) as Hnb. pose proof (fn_block _ _ _ _ Hfin) as Hmax.
  assert (nmeta = 59) as Em by done. change FSSIZE with 1000 in *. unfold free, BBLOCK. rewrite Hsb, Hview.
  change BPB with 4096. change (sb_bmapstart mksb) with 58. rewrite Z.div_small, Z.mod_small, u32_small by lia.
  change (0 + 58) with 58. rewrite (fn_map _ _ _ _ Hfin).
  rewrite used_bits_spec by (rewrite ?length_replicate; change BPB with 4096; lia). rewrite bit_free_zeros.
  destruct (Z.leb_spec 0 b), (Z.ltb_spec b (0 + Z.of_nat (Z.to_nat (im_block m)))), (Z.leb_spec (im_block m) b); simpl; done || lia.
Qed.

Lemma image_BBLOCK (b : Z) : 0 <= b < FSSIZE -> BBLOCK b s.(k_sb) = 58.
Proof.
  change FSSIZE with 1000. intros Hb. unfold BBLOCK. rewrite Hsb. change BPB with 4096. change (sb_bmapstart mksb) with 58.
  by rewrite Z.div_small by lia.
Qed.

Lemma loaded_addrs (i : Z) : 1 <= i < im_inode m ->
  (loaded s i).(ip_addrs) = (D i).(di_addrs) /\ (loaded s i).(ip_type) = (D i).(di_type) /\ (loaded s i).(ip_size) = (D i).(di_size).
Proof.
  intros Hi. pose proof (fn_inode _ _ _ _ Hfin i Hi) as Hr. unfold rinode in Hr.
  destruct (rsect m (IBLOCK i mksb)) as [buf|] eqn:E; [|done]. apply rsect_Some in E as [-> _].
  cbn [mbind option_bind] in Hr. apply (inj Some) in Hr. unfold loaded. rewrite Hsb, Hview, Hr. done.
Qed.

Lemma image_slot (i j : Z) : 1 <= i < im_inode m -> slot s (loaded s i) j = mslot (im_sect m) (D i) j.
Proof.
  intros Hi. destruct (loaded_addrs i Hi) as (Ha & _). unfold slot, mslot, block_addr, addr_at, daddr. rewrite Ha.
  by rewrite Hview.
Qed.

Lemma image_contains (i : Z) : 1 <= i < im_inode m -> contains s i (F i).
Proof.
  intros Hi. pose proof (fn_files _ _ _ _ Hfin) as Hf. pose proof (fi_nb _ _ _ _ _ Hf) as Hnb.
  pose proof (fn_block _ _ _ _ Hfin) as Hmax. pose proof (fn_n _ _ _ _ Hfin) as Hnn.
  assert (nmeta = 59) as Em by done. change FSSIZE with 1000 in *.
  assert (sb_size (k_sb s) = 1000) as Esz by (rewrite Hsb; done).
  destruct (IBLOCK_bounds i ltac:(lia)) as [_ Hib].
  assert (forall b, 0 <= b < 1000 -> BBLOCK b (k_sb s) = 58) as Hbb by (intros b Hb; by apply image_BBLOCK).
  split.
  - split; rewrite ?Esz.
    + done.
    + destruct (loaded_addrs i Hi) as (-> & _). by apply (fi_addrs _ _ _ _ _ Hf).
    + intros j Hj. rewrite image_slot by done. intros Hnz. pose proof (fi_slot _ _ _ _ _ Hf i j Hi Hj Hnz) as Hr.
      unfold data_block. rewrite Esz, image_free by (change FSSIZE with 1000; lia). split_and!; [lia | lia | | |].
      * apply Z.leb_gt. lia.
      * intros b Hb. rewrite Hbb by lia. lia.
      * rewrite Hsb. change (ip_inum (loaded s i)) with i. lia.
    + intros j j' Hj Hj'. rewrite !image_slot by done. intros Hnz E. by apply (fi_inj _ _ _ _ _ Hf i j i j').
    + change (ip_inum (loaded s i)) with i. rewrite Hsb. split_and!; [lia | lia | |].
      * rewrite image_free by (change FSSIZE with 1000; lia). apply Z.leb_gt. lia.
      * intros b Hb. rewrite <- Hsb, Hbb, Hsb by lia. lia.
  - intros o Ho. unfold file_byte. rewrite image_slot by done. destruct (Z.eqb_spec (mslot (im_sect m) (D i) (o / BSIZE)) 0) as [E0|Hnz].
    + pose proof (no_block _ _ _ _ _ Hf i o Hi Ho E0) as Hs. by rewrite nth_overflow by (unfold size in Hs; lia).
    + rewrite Hview. by apply (fi_byte _ _ _ _ _ Hf).
Qed.

Lemma image_map_ok : s.(k_disksize) = FSSIZE -> map_ok s.
Proof.
  intros Hd. assert (nmeta = 59) as Em by done. pose proof (fi_nb _ _ _ _ _ (fn_files _ _ _ _ Hfin)) as Hnb.
  split; rewrite ?Hd, ?Hsb; try done.
  - rewrite image_free by done. apply Z.leb_gt. lia.
  - intros b Hb. rewrite <- Hsb, image_BBLOCK by done. rewrite image_free by done. apply Z.leb_gt. lia.
Qed.
End Kernel.

(** ** The root directory as the kernel sees it *)

(** The name of a file on the image: without a leading underscore. *)
Definition plain_name (name : list Z) : list Z := match name with 95 :: rest => rest | _ => name end.
(** What the root directory should map: its two own names, and the files from
    inode 2 on in the order of the arguments. *)
Definition root_names (fs : list mkfile) : list (list Z * Z) :=
  ([46], 1) :: ([46; 46], 1) :: imap (fun t f => (name_key (plain_name (fst f)), 2 + Z.of_nat t)) fs.
Fixpoint first_named (key : list Z) (l : list (list Z * Z)) : option Z :=
  match l with
  | [] => None
  | (name, i) :: l' => if decide (name = key) then Some i else first_named key l'
  end.

Lemma strip_plain name : strip name = plain_name name.
Proof. unfold strip, plain_name. destruct name as [|c rest]; [done|]. cbn [deref next]. destruct (Z.eqb_spec c 95) as [->|Hc]; [done|]. repeat case_match; done. Qed.

(** The entries, one by one. *)
Definition root_dents (fs : list mkfile) : list (list Z) :=
  mkdirent 1 [46] :: mkdirent 1 [46; 46] :: imap (fun t f => mkdirent (2 + Z.of_nat t) (plain_name (fst f))) fs.

Lemma concat_root_dents fs : root_bytes fs = concat (root_dents fs).
Proof.
  unfold root_bytes, root_dents. cbn [concat]. change ROOTINO with 1. unfold dot. do 2 f_equal.
  assert (H : forall fs k, entries k fs = concat (imap (fun t f => mkdirent (k + Z.of_nat t) (plain_name (fst f))) fs)).
  { clear fs. induction fs as [|f fs IH]; intros k; [done|]. cbn [entries imap concat]. rewrite strip_plain, IH, Z.add_0_r. f_equal. f_equal.
    apply imap_ext. intros t g _. unfold compose. f_equal. lia. }
  apply H.
Qed.

Lemma mkdirent_ok i name :
  0 < i < 2 ^ 16 -> Forall is_byte name ->
  de_inum (mkdirent i name) = i /\ name_key (de_name (mkdirent i name)) = name_key name /\ length (mkdirent i name) = 16%nat.
Proof. intros Hi Hn. by destruct (encode_dirent_ok i name Hi Hn) as (H1 & H2 & _ & H4). Qed.

Lemma plain_bytes name : Forall is_byte name -> Forall is_byte (plain_name name).
Proof. intros H. unfold plain_name. repeat case_match; try done. by apply list.Forall_cons in H as [_ ?]. Qed.

(** Looking a name up in the entries. *)
Lemma find_root_dents fs key :
  Forall (fun f => Forall is_byte (fst f)) fs -> size fs <= NINODES - 2 ->
  snd <$> dir_find (root_dents fs) key = first_named key (root_names fs).
Proof.
  intros Hfs Hn. change NINODES with 200 in Hn. unfold size in Hn.
  assert (Hone : forall i name l r, 0 < i < 2 ^ 16 -> Forall is_byte name -> snd <$> dir_find l key = r ->
    snd <$> dir_find (mkdirent i name :: l) key = if decide (name_key name = key) then Some i else r).
  { intros i name l r Hi Hnm <-. destruct (mkdirent_ok i name Hi Hnm) as (H1 & H2 & _). rewrite dir_find_cons.
    destruct (decide (names key (mkdirent i name))) as [[_ Hk]|Hk], (decide (name_key name = key)) as [Hk'|Hk'];
      [by rewrite H1|congruence| |done]. destruct Hk. split; [lia|congruence]. }
  unfold root_dents, root_names. cbn [first_named]. apply Hone; [done|by repeat constructor|]. apply Hone; [done|by repeat constructor|].
  assert (H : forall k, 2 <= k -> k + Z.of_nat (length fs) < 2 ^ 16 ->
    snd <$> dir_find (imap (fun t f => mkdirent (k + Z.of_nat t) (plain_name (fst f))) fs) key =
    first_named key (imap (fun t f => (name_key (plain_name (fst f)), k + Z.of_nat t)) fs)).
  2:{ apply H; lia. }
  clear Hn. induction Hfs as [|f fs Hf Hfs IH]; intros k Hk Hlt; [done|]. cbn [imap first_named length] in *. rewrite Z.add_0_r.
  apply Hone; [lia|by apply plain_bytes|]. rewrite <- (imap_ext (fun t f => mkdirent (k + 1 + Z.of_nat t) (plain_name (fst f)))).
  2:{ intros t g _. unfold compose. f_equal. lia. }
  rewrite (IH (k + 1)) by lia. f_equal. apply imap_ext. intros t g _. unfold compose. f_equal. lia.
Qed.

(** Entries of 16 bytes, read one by one from the bytes of the file. *)
Lemma nth_concat_16 (des : list (list Z)) : Forall (fun de => length de = 16%nat) des ->
  forall n r, (r < 16)%nat -> nth (16 * n + r) (concat des) 0 = nth r (nth n des []) 0.
Proof.
  induction 1 as [|de des Hde Hdes IH]; intros n r Hr; cbn [concat].
  - destruct (16 * n + r)%nat, n, r; done.
  - destruct n as [|n]; cbn [nth]; [rewrite app_nth1 by lia; f_equal; lia|].
    rewrite app_nth2, <- (IH n r Hr) by lia. f_equal. lia.
Qed.

Lemma length_concat_16 (des : list (list Z)) :
  Forall (fun de => length de = 16%nat) des -> length (concat des) = (16 * length des)%nat.
Proof. induction 1 as [|de des Hde Hdes IH]; [done|]. cbn [concat length]. rewrite length_app, IH. lia. Qed.

Lemma dents_concat s ip (des : list (list Z)) (k : nat) :
  Forall (fun de => length de = 16%nat) des -> ip.(ip_size) = 16 * Z.of_nat (length des + k) -> ip.(ip_size) <= MAXFILE * BSIZE ->
  (forall o, 0 <= o < MAXFILE * BSIZE -> file_byte s ip o = nth (Z.to_nat o) (concat des) 0) ->
  dents s ip = des ++ replicate k (replicate 16 0).
Proof.
  intros Hdes Hsz Hmax Hb.
  assert (Hdent : forall n r, (n < length des + k)%nat -> (r < 16)%nat -> dent s ip (Z.of_nat n) !! r = Some (nth r (nth n des []) 0)).
  { intros n r Hn Hr. unfold dent. change DIRENT with 16. rewrite list_lookup_fmap.
    rewrite (proj2 (lookup_seqZ _ _ _ (16 * Z.of_nat n + Z.of_nat r))) by lia. cbn [fmap option_fmap option_map].
    rewrite Hb, <- nth_concat_16 by (done || lia). do 2 f_equal. lia. }
  assert (Hlen : forall j, length (dent s ip j) = 16%nat) by (intros j; unfold dent; by rewrite length_fmap, length_seqZ).
  unfold dents. change DIRENT with 16. rewrite Hsz, Z.mul_comm, Z.div_mul by lia.
  apply list_eq_same_length with (length des + k)%nat.
  - rewrite length_app, length_replicate. done.
  - rewrite length_fmap, length_seqZ. lia.
  - intros n de de' Hn. rewrite list_lookup_fmap, (proj2 (lookup_seqZ _ _ _ (Z.of_nat n))) by lia. intros [= <-] Hde'.
    assert (Hl' : length de' = 16%nat).
    { apply lookup_app_Some in Hde' as [Hde'|[_ Hde']]; [exact (Forall_lookup_1 _ _ _ _ Hdes Hde')|]. apply lookup_replicate in Hde' as [-> _]. done. }
    apply list_eq_same_length with 16%nat; [done|done|]. intros r x y Hr. rewrite Hdent by done. intros [= <-] Hy.
    apply lookup_app_Some in Hde' as [Hde'|[Hge Hde']].
    + rewrite (nth_lookup_Some _ _ _ _ Hde'). by apply nth_lookup_Some.
    + apply lookup_replicate in Hde' as [-> _]. apply lookup_replicate in Hy as [-> _]. rewrite (nth_overflow des) by lia. by destruct r.
Qed.

Lemma root_dents_16 fs :
  Forall (fun f => Forall is_byte (fst f)) fs -> size fs <= NINODES - 2 -> Forall (fun de => length de = 16%nat) (root_dents fs).
Proof.
  intros Hfs Hn. change NINODES with 200 in Hn. unfold root_dents. do 2 (constructor; [done|]).
  apply Forall_lookup. intros t de Ht. rewrite list_lookup_imap in Ht. apply fmap_Some in Ht as (f & Hf & ->). apply mkdirent_ok.
  - apply lookup_lt_Some in Hf. unfold size in Hn. lia.
  - apply plain_bytes. exact (Forall_lookup_1 _ _ _ _ Hfs Hf).
Qed.

Lemma root_bytes_size fs :
  Forall (fun f => Forall is_byte (fst f)) fs -> size fs <= NINODES - 2 -> size (root_bytes fs) = 16 * (2 + size fs).
Proof.
  intros Hfs Hn. unfold size at 1. rewrite concat_root_dents, length_concat_16 by (by apply root_dents_16).
  unfold root_dents. cbn [length]. rewrite length_imap. unfold size. lia.
Qed.

Lemma root_map fs s :
  Forall (fun f => Forall is_byte (fst f)) fs -> size fs <= NINODES - 2 -> contains s ROOTINO (root_bytes fs) ->
  (loaded s ROOTINO).(ip_size) = (size (root_bytes fs) / BSIZE + 1) * BSIZE ->
  forall key, dir_map s (loaded s ROOTINO) key = first_named key (root_names fs).
Proof.
  intros Hfs Hn [_ Hb] Hsz key. pose proof (root_dents_16 fs Hfs Hn) as Hdes. rewrite (root_bytes_size fs Hfs Hn) in Hsz.
  change BSIZE with 512 in Hsz. rewrite concat_root_dents in Hb. set (N := 2 + size fs) in *.
  assert (HN : N = Z.of_nat (length (root_dents fs))) by (unfold N, root_dents; cbn [length]; rewrite length_imap; unfold size; lia).
  assert (HN' : 0 <= N <= 200) by (change NINODES with 200 in Hn; unfold N, size in *; lia).
  assert (Hk : (16 * N / 512 + 1) * 512 = 16 * (N + (32 * (N / 32 + 1) - N)) /\ 0 <= 32 * (N / 32 + 1) - N /\ N / 32 <= 6).
  { replace (16 * N / 512) with (N / 32); [Z.to_euclidean_division_equations; lia|].
    change 512 with (16 * 32). by rewrite Z.div_mul_cancel_l by lia. }
  unfold dir_map. rewrite (dents_concat s _ (root_dents fs) (Z.to_nat (32 * (N / 32 + 1) - N))); [|done| |change (MAXFILE * BSIZE) with 71680; lia|exact Hb].
  - rewrite dir_find_app, find_root_dents by done.
    assert (Hzero : forall k, snd <$> dir_find (replicate k (replicate 16 0)) key = None).
    { induction k as [|k IH]; [done|]. cbn [replicate]. rewrite dir_find_cons, decide_False; [done|]. by intros []. }
    rewrite Hzero. by destruct (first_named _ _).
  - rewrite Hsz. lia.
Qed.

(** C13: The image mkfs writes is a file system of the kernel.  When mkfs succeeds
    on at most 198 files and a kernel runs with the image as its disk, the
    superblock is the one mkfs computed, the kernel's free map is sound and
    marks exactly the blocks from freeblock on as free, the root directory and
    every file are well-formed (their blocks are in range, in use and shared
    with nothing), a file has its size, and the bytes the kernel finds at each
    offset of a file are those mkfs was given, followed by zeros.  The root
    directory has the size of its entries rounded up by mkfs to whole blocks, and
    the map from names to inodes the kernel's lookup implements is exactly: dot
    and dot dot are the root, and each file, under its name without a leading
    underscore, is the inode of its position among the arguments. *)
Theorem mkfs_kernel (fs : list mkfile) (m : image) (s : kernel) :
  size fs <= NINODES - 2 -> Forall (fun f => Forall is_byte (fst f)) fs -> mkfs fs = Some m ->
  (forall k, view s k = im_sect m k) -> s.(k_sb) = mksb -> s.(k_disksize) = FSSIZE ->
  decode_sb (view s 1) = mksb /\ map_ok s /\
  (forall b, 0 <= b < FSSIZE -> free s b = (im_block m <=? b)) /\
  contains s ROOTINO (root_bytes fs) /\ (loaded s ROOTINO).(ip_type) = T_DIR /\
  (loaded s ROOTINO).(ip_size) = (16 * (2 + size fs) / 512 + 1) * 512 /\
  (forall key, dir_map s (loaded s ROOTINO) key = first_named key (root_names fs)) /\
  (forall t f, fs !! t = Some f ->
     contains s (2 + Z.of_nat t) (concat (snd f)) /\ (loaded s (2 + Z.of_nat t)).(ip_type) = T_FILE /\
     (loaded s (2 + Z.of_nat t)).(ip_size) = size (concat (snd f))).
Proof.
  intros Hn Hfs Hm Hview Hsb Hd. destruct (mkfs_finished fs m Hn Hm) as (D & F & Hfin).
  pose proof (fn_n _ _ _ _ Hfin) as Hnn. assert (0 <= size fs) by (unfold size; lia).
  assert (1 <= ROOTINO < im_inode m) as Hroot by (unfold ROOTINO; lia).
  pose proof (image_contains fs m s D F Hfin Hn Hview Hsb ROOTINO Hroot) as Hc.
  destruct (loaded_addrs fs m s D F Hfin Hview Hsb ROOTINO Hroot) as (_ & Ht & Hz).
  destruct (fn_root _ _ _ _ Hfin) as (E1 & E2 & E3). rewrite E1 in Hc. rewrite E2 in Ht. rewrite E3 in Hz. split_and!; [..|].
  - rewrite Hview, (fn_sb _ _ _ _ Hfin). vm_compute. reflexivity.
  - exact (image_map_ok fs m s D F Hfin Hview Hsb Hd).
  - exact (image_free fs m s D F Hfin Hview Hsb).
  - exact Hc.
  - exact Ht.
  - by rewrite Hz, root_bytes_size.
  - by apply root_map.
  - intros t f Hf. destruct (fn_file _ _ _ _ Hfin t f Hf) as (<- & <- & <-).
    assert (1 <= 2 + Z.of_nat t < im_inode m) as Hi by (apply lookup_lt_Some in Hf; unfold size in *; lia).
    split; [exact (image_contains fs m s D F Hfin Hn Hview Hsb _ Hi)|]. apply (loaded_addrs fs m s D F Hfin Hview Hsb _ Hi).
Qed.

(** A machine with an image as its disk and an empty cache. *)
Definition image_machine (m : image) : kernel :=
  fs_machine<|k_disk := im_sect m|><|k_sb := mksb|><|k_disksize := FSSIZE|>.

Lemma image_machine_view m k : view (image_machine m) k = im_sect m k.
Proof.
  apply view_uncached. intros b x Hx (Hd & _). change (k_bufs (image_machine m)) with (replicate NBUF zero_buf) in Hx.
  apply lookup_replicate in Hx as [-> _]. done.
Qed.

(** One file of 600 bytes in two reads. *)
Definition one_file : list mkfile := [([95; 97], [replicate 512 7; replicate 88 8])].

Lemma one_file_some : is_Some (mkfs one_file).
Proof. apply (bool_decide_unpack _). vm_compute. exact I. Qed.

Lemma mkfs_kernel_witness :
  exists m, mkfs one_file = Some m /\ map_ok (image_machine m) /\
    contains (image_machine m) 2 (replicate 512 7 ++ replicate 88 8) /\ (loaded (image_machine m) 2).(ip_size) = 600 /\
    dir_map (image_machine m) (loaded (image_machine m) 1) [97] = Some 2.
Proof.
  destruct one_file_some as [m E]. exists m. split; [exact E|].
  destruct (mkfs_kernel one_file m (image_machine m) ltac:(vm_compute; discriminate) ltac:(by repeat constructor) E (image_machine_view m) eq_refl eq_refl)
    as (_ & Hmap & _ & _ & _ & _ & Hdir & Hfile).
  split; [exact Hmap|]. destruct (Hfile O _ eq_refl) as (Hr & _ & Hs). split; [exact Hr|]. split; [exact Hs|]. exact (Hdir [97]).
Defined.
