(* ===== verification/Utils.v ===== *)
(** * The small user programs

    A program is an interaction tree of the system calls it makes: fork answers
    0 in the child and the child's number in the parent, so that both are
    branches of one tree; exit does not return; a loop that ends only when a
    call says so, or never, is an iteration.  What a program does is shown by
    running its tree against a world that answers the calls. *)

From S2P Require Import Prelude CString State Layout Fs Ulib Grep Sh.
From ITree Require Import ITree ITreeFacts Events.State Events.StateFacts Events.Exception.
Import Monads.

Declare Scope user_scope.
Delimit Scope user_scope with user.
Notation "'let!' x ':=' m 'in' k" := (ITree.bind m (fun x => k)) : user_scope.
Notation "m ;;; k" := (ITree.bind m (fun _ => k)) : user_scope.
#[local] Open Scope user_scope.

(** ** System calls (user.h) *)
Inductive sysE : Type -> Type :=
  | Fork : sysE Z
  | Exit : sysE void
  | Wait : sysE Z
  | Read (fd n : Z) : sysE (Z * list Z)
  | Kill (pid : Z) : sysE Z
  | Exec (path : list Z) (argv : list (list Z)) : sysE Z
  | Fstat (fd : Z) : sysE (Z * stat)
  | Dup (fd : Z) : sysE Z
  | Getpid : sysE Z
  | Sleep (n : Z) : sysE Z
  | Open (path : list Z) (mode : Z) : sysE Z
  | Write (fd : Z) (bs : list Z) : sysE Z
  | Mknod (path : list Z) (major minor : Z) : sysE Z
  | Unlink (path : list Z) : sysE Z
  | Link (old new : list Z) : sysE Z
  | Mkdir (path : list Z) : sysE Z
  | Close (fd : Z) : sysE Z
  | Getpinfo : sysE Z
  | Settickets (n : Z) : sysE Z
  | Chdir (path : list Z) : sysE Z
  | Pipe : sysE (Z * (Z * Z))
  | Sbrk (n : Z) : sysE Z
  | Uptime : sysE Z
  (** Calls with an address that need not point to anything: link with its
      second path, read with its buffer and sleep with its argument there. *)
  | LinkTo (old : list Z) (new : Z) : sysE Z
  | ReadTo (fd a n : Z) : sysE Z
  | SleepAt (a : Z) : sysE Z
  (** Not calls: the word a missing argument of printf is read from, accesses to
      memory at a computed address and to ports, and the allocator of umalloc.c. *)
  | Stray : sysE Z
  | Load8 (a : Z) : sysE Z
  | Store8 (a v : Z) : sysE unit
  | Load32 (a : Z) : sysE Z
  | Store32 (a v : Z) : sysE unit
  | In8 (port : Z) : sysE Z
  | Out8 (port v : Z) : sysE unit
  | Malloc (n : Z) : sysE Z
  | Free (a : Z) : sysE unit.

Definition uexit {A : Type} : itree sysE A :=
  let! v := trigger Exit in match v : void with end.

(** printf writes its characters one at a time.  Its arguments are all there in
    these programs. *)
Fixpoint putbytes (fd : Z) (bs : list Z) : itree sysE unit :=
  match bs with
  | [] => Ret tt
  | c :: bs' => trigger (Write fd [c]) ;;; putbytes fd bs'
  end.
Definition uprintf (fd : Z) (fmt : list Z) (ap : list uarg) : itree sysE unit :=
  match printf fmt ap with
  | Some bs => putbytes fd bs
  | None => ITree.spin
  end.
Definition line (s : string) : list Z := msg s ++ [10].
Definition word (s : list Z) : uarg := UStr (Some s).

(** [for(i = 1; i < argc; i++)] over the arguments. *)
Fixpoint each {A : Type} (l : list A) (f : A -> itree sysE unit) : itree sysE unit :=
  match l with
  | [] => Ret tt
  | x :: l' => f x ;;; each l' f
  end.

(** ** ulib.c: stat and ps *)
Definition ustat (path : list Z) : itree sysE (Z * stat) :=
  let! fd := trigger (Open path O_RDONLY) in
  if fd <? 0 then Ret (-1, mkstat 0 0 0 0 0)
  else
    let! r := trigger (Fstat fd) in
    trigger (Close fd) ;;;
    Ret r.
Definition ps : itree sysE unit := trigger Getpinfo ;;; Ret tt.

(** ** cat.c *)
Definition cat (fd : Z) : itree sysE unit :=
  ITree.iter (fun _ : unit =>
    let! (n, buf) := trigger (Read fd 512) in
    if 0 <? n then
      let! w := trigger (Write 1 buf) in
      if w =? n then Ret (inl tt)
      else uprintf 1 (line "cat: write error") [] ;;; uexit
    else if n <? 0 then uprintf 1 (line "cat: read error") [] ;;; uexit
    else Ret (inr tt)) tt.
Definition cat_main (argv : list (list Z)) : itree sysE unit :=
  match tail argv with
  | [] => cat 0 ;;; uexit
  | args =>
      each args (fun a =>
        let! fd := trigger (Open a 0) in
        if fd <? 0 then uprintf 1 (line "cat: cannot open %s") [word a] ;;; uexit
        else cat fd ;;; trigger (Close fd) ;;; Ret tt) ;;;
      uexit
  end.

(** ** wc.c *)
Record counts := mkcounts { n_l : Z; n_w : Z; n_c : Z; inword : bool }.
(** [strchr(" \r\t\n\v", c)] *)
Definition is_space (c : Z) : bool := match strchr [32; 13; 9; 10; 11] c with Some _ => true | None => false end.
Definition count (k : counts) (c : Z) : counts :=
  let l := if c =? 10 then s32 (k.(n_l) + 1) else k.(n_l) in
  if is_space c then mkcounts l k.(n_w) (s32 (k.(n_c) + 1)) false
  else if negb k.(inword) then mkcounts l (s32 (k.(n_w) + 1)) (s32 (k.(n_c) + 1)) true
  else mkcounts l k.(n_w) (s32 (k.(n_c) + 1)) true.
Definition wc (fd : Z) (name : list Z) : itree sysE unit :=
  let! k := ITree.iter (fun k : counts =>
    let! (n, buf) := trigger (Read fd 512) in
    if 0 <? n then Ret (inl (foldl count k buf))
    else if n <? 0 then uprintf 1 (line "wc: read error") [] ;;; uexit
    else Ret (inr k)) (mkcounts 0 0 0 false) in
  uprintf 1 (line "%d %d %d %s") [UWord k.(n_l); UWord k.(n_w); UWord k.(n_c); word name].
Definition wc_main (argv : list (list Z)) : itree sysE unit :=
  match tail argv with
  | [] => wc 0 [] ;;; uexit
  | args =>
      each args (fun a =>
        let! fd := trigger (Open a 0) in
        if fd <? 0 then uprintf 1 (line "wc: cannot open %s") [word a] ;;; uexit
        else wc fd a ;;; trigger (Close fd) ;;; Ret tt) ;;;
      uexit
  end.

(** ** grep.c: grep and main, over the matcher of Grep.v

    [m] is buf[0..m); what the inner loop is left with is its final [p]. *)
Fixpoint grep_lines (fuel : nat) (pattern p : list Z) : itree sysE (list Z) :=
  match fuel with
  | O => Ret p
  | S fuel' =>
      match strchr p 10 with
      | None => Ret p
      | Some q =>
          let text := take (length p - length q) p in
          (if gmatch pattern text then trigger (Write 1 (text ++ [10])) ;;; Ret tt else Ret tt) ;;;
          grep_lines fuel' pattern (next q)
      end
  end.
Definition grep_fd (pattern : list Z) (fd : Z) : itree sysE unit :=
  ITree.iter (fun m : list Z =>
    let! (n, ch) := trigger (Read fd (1024 - Z.of_nat (length m) - 1)) in
    if 0 <? n then
      let buf := m ++ ch in
      let! p := grep_lines (length buf) pattern buf in
      Ret (inl (if decide (length p = length buf) then [] else p))
    else Ret (inr tt)) [].
Definition grep_main (argv : list (list Z)) : itree sysE unit :=
  match tail argv with
  | [] => uprintf 2 (line "usage: grep pattern [file ...]") [] ;;; uexit
  | [pattern] => grep_fd pattern 0 ;;; uexit
  | pattern :: args =>
      each args (fun a =>
        let! fd := trigger (Open a 0) in
        if fd <? 0 then uprintf 1 (line "grep: cannot open %s") [word a] ;;; uexit
        else grep_fd pattern fd ;;; trigger (Close fd) ;;; Ret tt) ;;;
      uexit
  end.

(** ** echo.c *)
Fixpoint echo_args (args : list (list Z)) : itree sysE unit :=
  match args with
  | [] => Ret tt
  | a :: args' =>
      uprintf 1 (msg "%s%s") [word a; word (match args' with [] => [10] | _ => [32] end)] ;;;
      echo_args args'
  end.
Definition echo_main (argv : list (list Z)) : itree sysE unit := echo_args (tail argv) ;;; uexit.

(** ** kill.c, ln.c, mkdir.c, rm.c, zombie.c, ps.c *)
Definition kill_main (argv : list (list Z)) : itree sysE unit :=
  match tail argv with
  | [] => uprintf 2 (line "usage: kill pid...") [] ;;; uexit
  | args => each args (fun a => trigger (Kill (atoi a)) ;;; Ret tt) ;;; uexit
  end.
Definition ln_main (argv : list (list Z)) : itree sysE unit :=
  match argv with
  | [_; old; new] =>
      let! r := trigger (Link old new) in
      (if r <? 0 then uprintf 2 (line "link %s %s: failed") [word old; word new] else Ret tt) ;;;
      uexit
  | _ => uprintf 2 (line "Usage: ln old new") [] ;;; uexit
  end.
(** The loops that stop at the first failure. *)
Fixpoint mkdir_args (args : list (list Z)) : itree sysE unit :=
  match args with
  | [] => Ret tt
  | a :: args' =>
      let! r := trigger (Mkdir a) in
      if r <? 0 then uprintf 2 (line "mkdir: %s failed to create") [word a] else mkdir_args args'
  end.
Definition mkdir_main (argv : list (list Z)) : itree sysE unit :=
  match tail argv with
  | [] => uprintf 2 (line "Usage: mkdir files...") [] ;;; uexit
  | args => mkdir_args args ;;; uexit
  end.
Fixpoint rm_args (args : list (list Z)) : itree sysE unit :=
  match args with
  | [] => Ret tt
  | a :: args' =>
      let! r := trigger (Unlink a) in
      if r <? 0 then uprintf 2 (line "rm: %s failed to delete") [word a] else rm_args args'
  end.
Definition rm_main (argv : list (list Z)) : itree sysE unit :=
  match tail argv with
  | [] => uprintf 2 (line "Usage: rm files...") [] ;;; uexit
  | args => rm_args args ;;; uexit
  end.
Definition zombie_main : itree sysE unit :=
  let! pid := trigger Fork in
  (if 0 <? pid then trigger (Sleep 5) ;;; Ret tt else Ret tt) ;;;
  uexit.
Definition ps_main : itree sysE unit := ps ;;; uexit.

(** ** ls.c *)

(** The index after the last slash: [p] goes down from the NUL. *)
Fixpoint name_start (n : nat) (path : list Z) : nat :=
  if at_ path n =? 47 then S n
  else match n with O => O | S n' => name_start n' path end.
Definition fmtname (path : list Z) : list Z :=
  let p := drop (name_start (Z.to_nat (strlen path)) path) path in
  if DIRSIZ <=? strlen p then p
  else string_of p ++ replicate (Z.to_nat (DIRSIZ - strlen p)) 32.
Definition ls_line (path : list Z) (st : stat) : itree sysE unit :=
  uprintf 1 (line "%s %d %d %d")
    [word (fmtname path); UWord st.(st_type); UWord st.(st_ino); UWord st.(st_size)].
(** The buffer holds the path, a slash and the name of the entry. *)
Definition ls_entry (path de : list Z) : itree sysE unit :=
  let buf := string_of (string_of path ++ [47] ++ de_name de) in
  let! (r, st) := ustat buf in
  if r <? 0 then uprintf 1 (line "ls: cannot stat %s") [word buf] else ls_line buf st.
Definition ls_dir (fd : Z) (path : list Z) : itree sysE unit :=
  ITree.iter (fun _ : unit =>
    let! (n, de) := trigger (Read fd DIRENT) in
    if n =? DIRENT then
      (if de_inum de =? 0 then Ret tt else ls_entry path de) ;;;
      Ret (inl tt)
    else Ret (inr tt)) tt.
Definition ls (path : list Z) : itree sysE unit :=
  let! fd := trigger (Open path 0) in
  if fd <? 0 then uprintf 2 (line "ls: cannot open %s") [word path]
  else
    let! (r, st) := trigger (Fstat fd) in
    if r <? 0 then
      uprintf 2 (line "ls: cannot stat %s") [word path] ;;;
      trigger (Close fd) ;;; Ret tt
    else
      (if st.(st_type) =? T_FILE then ls_line path st
       else if st.(st_type) =? T_DIR then
         if 512 <? strlen path + 1 + DIRSIZ + 1 then uprintf 1 (line "ls: path too long") []
         else ls_dir fd path
       else Ret tt) ;;;
      trigger (Close fd) ;;; Ret tt.
Definition ls_main (argv : list (list Z)) : itree sysE unit :=
  match tail argv with
  | [] => ls [46] ;;; uexit
  | args => each args ls ;;; uexit
  end.

(** ** init.c *)

(** The inner loop: wait until this shell ends, or there is nobody to wait for. *)
Definition reap (pid : Z) : itree sysE unit :=
  ITree.iter (fun _ : unit =>
    let! wpid := trigger Wait in
    if (0 <=? wpid) && negb (wpid =? pid) then uprintf 1 (line "zombie!") [] ;;; Ret (inl tt)
    else Ret (inr tt)) tt.
Definition init_round : itree sysE unit :=
  uprintf 1 (line "init: starting sh") [] ;;;
  let! pid := trigger Fork in
  if pid <? 0 then uprintf 1 (line "init: fork failed") [] ;;; uexit
  else if pid =? 0 then
    trigger (Exec (msg "sh") [msg "sh"]) ;;;
    uprintf 1 (line "init: exec sh failed") [] ;;;
    uexit
  else reap pid.
Definition init_main : itree sysE unit :=
  let! fd := trigger (Open (msg "console") 2) in
  (if fd <? 0 then trigger (Mknod (msg "console") 1 1) ;;; trigger (Open (msg "console") 2) ;;; Ret tt else Ret tt) ;;;
  trigger (Dup 0) ;;;
  trigger (Dup 0) ;;;
  ITree.iter (fun _ : unit => init_round ;;; Ret (inl tt)) tt.

(** ** forktest.c

    Its printf writes the format in one call. *)
Definition fprintf (fd : Z) (s : list Z) : itree sysE unit := trigger (Write fd s) ;;; Ret tt.
Definition forktest_N : Z := 1000.
(** The number of children when fork fails, or N. *)
Definition fork_all : itree sysE Z :=
  ITree.iter (fun n : Z =>
    if n <? forktest_N then
      let! pid := trigger Fork in
      if pid <? 0 then Ret (inr n)
      else if pid =? 0 then uexit
      else Ret (inl (n + 1))
    else Ret (inr n)) 0.
Fixpoint wait_all (n : nat) : itree sysE unit :=
  match n with
  | O => Ret tt
  | S n' =>
      let! r := trigger Wait in
      if r <? 0 then fprintf 1 (line "wait stopped early") ;;; uexit else wait_all n'
  end.
Definition forktest : itree sysE unit :=
  fprintf 1 (line "fork test") ;;;
  let! n := fork_all in
  (if n =? forktest_N then fprintf 1 (line "fork claimed to work N times!") ;;; uexit else Ret tt) ;;;
  wait_all (Z.to_nat n) ;;;
  let! r := trigger Wait in
  (if negb (r =? -1) then fprintf 1 (line "wait got too many") ;;; uexit else Ret tt) ;;;
  fprintf 1 (line "fork test OK").
Definition forktest_main : itree sysE unit := forktest ;;; uexit.

(** ** stressfs.c *)
Fixpoint fork_up (n : nat) (i : Z) : itree sysE Z :=
  match n with
  | O => Ret i
  | S n' =>
      let! pid := trigger Fork in
      if 0 <? pid then Ret i else fork_up n' (i + 1)
  end.
Definition stressfs_main : itree sysE unit :=
  let data := replicate 512 97 in
  uprintf 1 (line "stressfs starting") [] ;;;
  let! i := fork_up 4 0 in
  uprintf 1 (line "write %d") [UWord i] ;;;
  let path := msg "stressfs" ++ [u8 (48 + i)] in
  let! fd := trigger (Open path (Z.lor O_CREATE 2)) in
  each (seq 0 20) (fun _ => trigger (Write fd data) ;;; Ret tt) ;;;
  trigger (Close fd) ;;;
  uprintf 1 (line "read") [] ;;;
  let! fd := trigger (Open path O_RDONLY) in
  each (seq 0 20) (fun _ => trigger (Read fd 512) ;;; Ret tt) ;;;
  trigger (Close fd) ;;;
  trigger Wait ;;;
  uexit.

(** ** schedtest.c *)
Definition schedtest_usage : list Z :=
  line "usage: schedtest loops tickets 1 [ tickets2 ... ticketsN ]" ++ line "         loops must be greater than 0" ++
  line "         tickets must be greater than or equal to 10" ++ line "         up to 7 tickets can be provided".
Fixpoint check_tickets (args : list (list Z)) : itree sysE unit :=
  match args with
  | [] => Ret tt
  | a :: args' =>
      if atoi a <? 10 then uprintf 1 (line "tickets must be >= 10") [] ;;; uexit else check_tickets args'
  end.
(** The children, in the order of the arguments; a child never leaves its loop. *)
Fixpoint spawn (args : list (list Z)) : itree sysE (list Z) :=
  match args with
  | [] => Ret []
  | a :: args' =>
      let! pid := trigger Fork in
      if pid =? 0 then trigger (Settickets (atoi a)) ;;; ITree.spin
      else let! pids := spawn args' in Ret (pid :: pids)
  end.
(** What follows the message with the loop count. *)
Definition schedtest_run (loops : Z) (tickets : list (list Z)) : itree sysE unit :=
  (if loops <=? 0 then uprintf 1 (line "loops must be >= 0") [] ;;; uexit else Ret tt) ;;;
  (if 7 <? Z.of_nat (length tickets) then
     uprintf 1 (line "too many processes. up to 7 can be provided") [] ;;; uexit else Ret tt) ;;;
  check_tickets tickets ;;;
  let! pids := spawn tickets in
  each (seq 0 (Z.to_nat loops)) (fun _ => ps ;;; trigger (Sleep 3) ;;; Ret tt) ;;;
  each pids (fun pid => trigger (Kill pid) ;;; trigger Wait ;;; Ret tt) ;;;
  uexit.
Definition schedtest_main (argv : list (list Z)) : itree sysE unit :=
  match argv with
  | _ :: loops :: t :: ts =>
      uprintf 1 (line "loop count: %d") [UWord (atoi loops)] ;;;
      schedtest_run (atoi loops) (t :: ts)
  | _ => uprintf 1 schedtest_usage [] ;;; uexit
  end.

(** ** tickettest.c *)
Definition set_or_complain (n : Z) : itree sysE unit :=
  let! r := trigger (Settickets n) in
  if r <? 0 then uprintf 1 (msg "big error, set tickets -1") [] else Ret tt.
Definition say_pid (fmt : list Z) : itree sysE unit :=
  let! pid := trigger Getpid in
  uprintf 1 fmt [UWord pid].
Definition second_child : itree sysE unit :=
  say_pid (line "second child pid: %d; tickets should be 20") ;;;
  ps ;;;
  set_or_complain 30 ;;;
  let! w := trigger Stray in
  uprintf 1 (line "second child pid: %d; tickets should now be 30") [UWord w] ;;;
  ps ;;;
  let! pid := trigger Fork in
  if pid =? 0 then
    say_pid (line "child of second child pid: %d; tickets should be 30") ;;;
    ps
  else trigger Wait ;;; uexit.
Definition tickettest_main : itree sysE unit :=
  say_pid (line "parent pid: %d; tickets should be 10") ;;;
  ps ;;;
  let! pid := trigger Fork in
  (if pid =? 0 then
     say_pid (line "first child pid: %d; tickets should be 10") ;;;
     ps ;;;
     uexit
   else Ret tt) ;;;
  trigger Wait ;;;
  say_pid (line "parent pid: %d; setting tickets to 20") ;;;
  set_or_complain 20 ;;;
  ps ;;;
  let! pid := trigger Fork in
  (if pid =? 0 then second_child else Ret tt) ;;;
  trigger Wait ;;;
  uexit.

(** ** Running a program

    A world of type [W] answers the calls; the program ends by throwing the
    world it ends in. *)
Definition world_io (W : Type) : Type -> Type := stateT W (itree (exceptE W)).
Notation "t ≈ u" := (eutt eq t u) (at level 70) : user_scope.

Section Run.
Context {W : Type} (handle : forall T : Type, sysE T -> world_io W T).
Definition run_with {A : Type} (t : itree sysE A) (w : W) : itree (exceptE W) (W * A) := interp_state handle t w.

Lemma run_ret {A : Type} (a : A) w : run_with (Ret a) w ≈ Ret (w, a).
Proof. unfold run_with. by rewrite interp_state_ret. Qed.

Lemma run_seq {A B : Type} (t : itree sysE A) (k : A -> itree sysE B) w w' a :
  run_with t w ≈ Ret (w', a) -> run_with (ITree.bind t k) w ≈ run_with (k a) w'.
Proof. unfold run_with. intros E. rewrite interp_state_bind, E, bind_ret_l. reflexivity. Qed.

Lemma run_call {T B : Type} (e : sysE T) (k : T -> itree sysE B) w w' a :
  handle T e w = Ret (w', a) -> run_with (ITree.bind (trigger e) k) w ≈ run_with (k a) w'.
Proof. intros E. apply run_seq. unfold run_with. rewrite interp_state_trigger. change (handle T e w ≈ Ret (w', a)). by rewrite E. Qed.

(** A program that has ended does not go on. *)
Lemma run_exited {A B : Type} (t : itree sysE A) (k : A -> itree sysE B) w w' :
  run_with t w ≈ throw w' -> run_with (ITree.bind t k) w ≈ throw w'.
Proof.
  unfold run_with. intros E. rewrite interp_state_bind, E. unfold throw. rewrite bind_vis. apply eqit_Vis. by intros [].
Qed.
Lemma run_uexit {A : Type} w :
  (forall w, handle void Exit w = throw w) -> run_with (uexit (A := A)) w ≈ throw w.
Proof.
  intros E. apply run_exited. unfold run_with. rewrite interp_state_trigger. change (handle void Exit w ≈ throw w). by rewrite E.
Qed.

(** Rounds of a loop. *)
Lemma run_again {I R : Type} (f : I -> itree sysE (I + R)) i j w w' :
  run_with (f i) w ≈ Ret (w', inl j) -> run_with (ITree.iter f i) w ≈ run_with (ITree.iter f j) w'.
Proof.
  intros E. unfold run_with at 1. rewrite unfold_iter. fold (run_with (ITree.bind (f i) (fun lr => match lr with inl l => Tau (ITree.iter f l) | inr r => Ret r end)) w).
  rewrite (run_seq _ _ _ _ _ E). unfold run_with. rewrite interp_state_tau, tau_eutt. reflexivity.
Qed.
Lemma run_done {I R : Type} (f : I -> itree sysE (I + R)) i r w w' :
  run_with (f i) w ≈ Ret (w', inr r) -> run_with (ITree.iter f i) w ≈ Ret (w', r).
Proof.
  intros E. unfold run_with at 1. rewrite unfold_iter. fold (run_with (ITree.bind (f i) (fun lr => match lr with inl l => Tau (ITree.iter f l) | inr r => Ret r end)) w).
  rewrite (run_seq _ _ _ _ _ E). apply run_ret.
Qed.
End Run.

(** ** A world of files

    Each file is what reads find in it, each open descriptor what is still to be
    read; what is written to descriptors 1 and 2 is kept.  A program ends by
    throwing its world.  There are no other processes. *)
Record uworld := mkuworld {
  w_files : list Z -> option source;
  w_fds : gmap Z source;
  w_out : list Z;
  w_err : list Z
}.
#[export] Instance eta_uworld : Eta uworld := fun r => mkuworld r.(w_files) r.(w_fds) r.(w_out) r.(w_err).
#[export] Instance set_w_fds : Setter w_fds. Proof. derive_setter. Defined.
#[export] Instance set_w_out : Setter w_out. Proof. derive_setter. Defined.
#[export] Instance set_w_err : Setter w_err. Proof. derive_setter. Defined.

Definition fresh_fd (m : gmap Z source) : Z := default (-1) (list.head (filter (fun fd => m !! fd = None) (seqZ 3 13))).
Definition handle_files (T : Type) (e : sysE T) : world_io uworld T :=
  match e in sysE T return world_io uworld T with
  | Exit => fun w => throw w
  | Read fd n => fun w =>
      match w.(w_fds) !! fd with
      | Some src =>
          let '(bs, src') := take_read (Z.to_nat n) src in
          Ret (w<|w_fds ::= <[fd := src']>|>, (Z.of_nat (length bs), bs))
      | None => Ret (w, (-1, []))
      end
  | Write fd bs => fun w =>
      if fd =? 1 then Ret (w<|w_out ::= fun o => o ++ bs|>, Z.of_nat (length bs))
      else if fd =? 2 then Ret (w<|w_err ::= fun o => o ++ bs|>, Z.of_nat (length bs))
      else Ret (w, -1)
  | Open path _ => fun w =>
      match w.(w_files) path with
      | Some src => let fd := fresh_fd w.(w_fds) in Ret (w<|w_fds ::= <[fd := src]>|>, fd)
      | None => Ret (w, -1)
      end
  | Close fd => fun w => Ret (w<|w_fds ::= delete fd|>, 0)
  | Fstat _ => fun w => Ret (w, (-1, mkstat 0 0 0 0 0))
  | Fork | Wait | Kill _ | Exec _ _ | Dup _ | Getpid | Sleep _ | Mknod _ _ _ | Unlink _ | Link _ _ | Mkdir _ | Getpinfo
  | Settickets _ | Chdir _ | Sbrk _ | Uptime | LinkTo _ _ | ReadTo _ _ _ | SleepAt _ | Stray | Load8 _ | Load32 _ | In8 _ | Malloc _ => fun w => Ret (w, -1)
  | Pipe => fun w => Ret (w, (-1, (0, 0)))
  | Store8 _ _ | Store32 _ _ | Out8 _ _ | Free _ => fun w => Ret (w, tt)
  end.
Notation run := (run_with handle_files).

(** The world after more output. *)
Definition put_out (bs : list Z) (w : uworld) : uworld := w<|w_out ::= fun o => o ++ bs|>.
Lemma put_out_nil w : put_out [] w = w.
Proof. destruct w. unfold put_out, setf, set_w_out. by rewrite app_nil_r. Qed.
Lemma put_out_app bs bs' w : put_out bs' (put_out bs w) = put_out (bs ++ bs') w.
Proof. destruct w. unfold put_out, setf, set_w_out. cbn. by rewrite <- app_assoc. Qed.

Lemma run_putbytes bs : forall w, run (putbytes 1 bs) w ≈ Ret (put_out bs w, tt).
Proof.
  induction bs as [|c bs IH]; intros w; cbn [putbytes].
  - by rewrite run_ret, put_out_nil.
  - rewrite (run_call handle_files (Write 1 [c]) _ w (put_out [c] w) _ eq_refl), IH. by rewrite put_out_app.
Qed.
Lemma run_uprintf fmt ap bs w :
  printf fmt ap = Some bs -> run (uprintf 1 fmt ap) w ≈ Ret (put_out bs w, tt).
Proof. intros E. unfold uprintf. rewrite E. apply run_putbytes. Qed.

(** ** wc counts *)

(** The words of a text: what lies between its blanks. *)
Fixpoint split_words (l : list Z) : list (list Z) :=
  match l with
  | [] => [[]]
  | c :: l' =>
      if is_space c then [] :: split_words l'
      else match split_words l' with
           | x :: xs => (c :: x) :: xs
           | [] => [[c]]
           end
  end.
Definition words (l : list Z) : list (list Z) := filter (fun x => x <> []) (split_words l).
Definition newlines (l : list Z) : list Z := filter (fun c => c = 10) l.

Lemma split_words_head l : exists x xs, split_words l = x :: xs.
Proof. destruct l as [|c l]; [by exists [], []|]. cbn. destruct (is_space c); [by eexists _, _|]. destruct (split_words l); by eexists _, _. Qed.

(** The words that start in a text, after a character inside or outside a word. *)
Definition new_words (inw : bool) (l : list Z) : Z :=
  Z.of_nat (length (words l)) - (if inw then match split_words l with x :: _ => if decide (x = []) then 0 else 1 | [] => 0 end else 0).

Lemma new_words_nil inw : new_words inw [] = 0.
Proof. by destruct inw. Qed.
Lemma new_words_space inw c l : is_space c = true -> new_words inw (c :: l) = new_words false l.
Proof.
  intros E. unfold new_words, words. cbn [split_words]. rewrite E. rewrite filter_cons_False by (by intros H; apply H).
  destruct inw; [rewrite decide_True by done|]; lia.
Qed.
Lemma new_words_char inw c l : is_space c = false -> new_words inw (c :: l) = (if inw then 0 else 1) + new_words true l.
Proof.
  intros E. unfold new_words, words. cbn [split_words]. rewrite E. destruct (split_words_head l) as (x & xs & Ex).
  rewrite Ex, filter_cons_True by done. rewrite decide_False by done. cbn [length].
  destruct (decide (x = [])) as [->|Hx].
  - rewrite filter_cons_False by (by intros H; apply H). destruct inw; lia.
  - rewrite filter_cons_True by done. cbn [length]. destruct inw; lia.
Qed.
Lemma new_words_range inw l : 0 <= new_words inw l <= Z.of_nat (length l).
Proof.
  revert inw. induction l as [|c l IH]; intros inw.
  - by rewrite new_words_nil.
  - cbn [length]. destruct (is_space c) eqn:E.
    + rewrite new_words_space by done. specialize (IH false). lia.
    + rewrite new_words_char by done. specialize (IH true). destruct inw; lia.
Qed.

(** The counters after a text: [b] says whether it ends inside a word. *)
Lemma foldl_count l : forall k,
  0 <= k.(n_l) -> 0 <= k.(n_w) -> 0 <= k.(n_c) -> k.(n_l) + Z.of_nat (length l) < 2 ^ 31 ->
  k.(n_w) + Z.of_nat (length l) < 2 ^ 31 -> k.(n_c) + Z.of_nat (length l) < 2 ^ 31 ->
  exists b, foldl count k l =
    mkcounts (k.(n_l) + Z.of_nat (length (newlines l))) (k.(n_w) + new_words k.(inword) l) (k.(n_c) + Z.of_nat (length l)) b.
Proof.
  induction l as [|c l IH]; intros k H1 H2 H3 H4 H5 H6; cbn [foldl].
  - exists k.(inword). rewrite new_words_nil. destruct k as [a w d b]. cbn. f_equal; lia.
  - cbn [length] in *. set (k' := count k c).
    assert (Hk : k' = mkcounts (k.(n_l) + if c =? 10 then 1 else 0)
      (k.(n_w) + if is_space c then 0 else if k.(inword) then 0 else 1) (k.(n_c) + 1) (negb (is_space c))).
    { unfold k', count. destruct (c =? 10), (is_space c), (inword k); cbn [negb]; rewrite ?s32_small by lia; f_equal; lia. }
    destruct (IH k') as [b Hb]; [rewrite Hk; cbn; destruct (c =? 10), (is_space c), (inword k); lia..|].
    exists b. rewrite Hb, Hk. cbn [n_l n_w n_c inword]. f_equal.
    + unfold newlines. destruct (Z.eqb_spec c 10) as [->|Hc]; [rewrite filter_cons_True by done; cbn [length]; lia|].
      rewrite filter_cons_False by done. lia.
    + destruct (is_space c) eqn:E; cbn [negb].
      * rewrite new_words_space by done. lia.
      * rewrite new_words_char by done. destruct (inword k); lia.
    + lia.
Qed.

(** A descriptor with bytes to read, in whatever pieces reads find them. *)
Definition set_fd (fd : Z) (src : source) (w : uworld) : uworld := w<|w_fds ::= <[fd := src]>|>.
Lemma set_fd_twice fd src src' w : set_fd fd src' (set_fd fd src w) = set_fd fd src' w.
Proof. destruct w. unfold set_fd, setf, set_w_fds. cbn. by rewrite insert_insert_eq. Qed.
Lemma set_fd_lookup fd src w : (set_fd fd src w).(w_fds) !! fd = Some src.
Proof. apply lookup_insert_eq. Qed.
Lemma set_put fd src bs w : set_fd fd src (put_out bs w) = put_out bs (set_fd fd src w).
Proof. by destruct w. Qed.

Definition pieces (src : source) : Prop := Forall (fun ch => ch <> []) src.

Lemma take_read_pieces n ch src :
  (0 < n)%nat -> pieces (ch :: src) ->
  exists bs src', take_read n (ch :: src) = (bs, src') /\ bs <> [] /\ pieces src' /\ concat (ch :: src) = bs ++ concat src'.
Proof.
  intros Hn Hp. inversion Hp as [|? ? Hch Hs]; subst. cbn [take_read]. eexists _, _. split; [done|].
  assert (Ht : take n ch <> []) by (destruct ch, n; cbn; done || lia). case_decide as Hl.
  - split_and!; [done|done|]. cbn. by rewrite take_ge by lia.
  - split_and!; [done| |].
    + constructor; [|done]. intros E%(f_equal length). rewrite length_drop in E. cbn in E. lia.
    + cbn. by rewrite app_assoc, take_drop.
Qed.

(** A loop that reads a descriptor to its end and folds what it finds. *)
Lemma read_loop {S : Type} (f : S -> list Z -> S) (g : S -> list Z -> uworld -> uworld)
    (body : S -> itree sysE (S + S)) (fd : Z) :
  (forall k w src bs src', w.(w_fds) !! fd = Some src -> take_read 512 src = (bs, src') -> bs <> [] ->
     run (body k) w ≈ Ret (g k bs (set_fd fd src' w), inl (f k bs))) ->
  (forall k w, w.(w_fds) !! fd = Some [] -> run (body k) w ≈ Ret (set_fd fd [] w, inr k)) ->
  (forall k w, f k [] = k /\ g k [] w = w) ->
  (forall k a b w src, f k (a ++ b) = f (f k a) b /\ g k (a ++ b) w = g (f k a) b (g k a w) /\
     set_fd fd src (g k a w) = g k a (set_fd fd src w) /\ (g k a w).(w_fds) = w.(w_fds)) ->
  forall n src k w, (length (concat src) < n)%nat -> pieces src -> w.(w_fds) !! fd = Some src ->
  run (ITree.iter body k) w ≈ Ret (g k (concat src) (set_fd fd [] w), f k (concat src)).
Proof.
  intros Hstep Hend Hnil Happ. induction n as [|n IH]; intros src k w Hn Hp Hfd; [lia|].
  destruct src as [|ch src].
  { cbn. destruct (Hnil k (set_fd fd [] w)) as [-> ->]. by apply run_done, Hend. }
  destruct (take_read_pieces 512 ch src ltac:(lia) Hp) as (bs & src' & E & Hbs & Hp' & Hc). rewrite Hc.
  rewrite (run_again handle_files _ _ _ _ _ (Hstep k w _ _ _ Hfd E Hbs)).
  destruct (Happ k bs (concat src') (set_fd fd [] w) []) as (-> & -> & _).
  assert (Hlt : (0 < length bs)%nat) by (destruct bs; cbn; [done|lia]).
  rewrite (IH src'); [|apply (f_equal length) in Hc; rewrite length_app in Hc; lia|done|].
  - destruct (Happ k bs [] (set_fd fd src' w) []) as (_ & _ & -> & _). by rewrite set_fd_twice.
  - destruct (Happ k bs [] (set_fd fd src' w) []) as (_ & _ & _ & ->). apply set_fd_lookup.
Qed.

Lemma read_call fd w src bs src' :
  w.(w_fds) !! fd = Some src -> take_read 512 src = (bs, src') ->
  handle_files _ (Read fd 512) w = Ret (set_fd fd src' w, (Z.of_nat (length bs), bs)).
Proof. intros E1 E2. cbn [handle_files]. rewrite E1. change (Z.to_nat 512) with 512%nat. by rewrite E2. Qed.

Lemma length_pos (bs : list Z) : bs <> [] -> 0 <? Z.of_nat (length bs) = true.
Proof. destruct bs; [done|]. intros _. apply Z.ltb_lt. cbn. lia. Qed.

(** What wc prints for a text. *)
Definition wc_line (l name : list Z) : list Z :=
  printint (Z.of_nat (length (newlines l))) 10 true ++ [32] ++ printint (Z.of_nat (length (words l))) 10 true ++ [32] ++
  printint (Z.of_nat (length l)) 10 true ++ [32] ++ string_of name ++ [10].

Lemma wc_printf l name :
  Z.of_nat (length (newlines l)) < 2 ^ 31 -> Z.of_nat (length (words l)) < 2 ^ 31 -> Z.of_nat (length l) < 2 ^ 31 ->
  printf (line "%d %d %d %s")
    [UWord (0 + Z.of_nat (length (newlines l))); UWord (0 + Z.of_nat (length (words l))); UWord (0 + Z.of_nat (length l)); word name]
  = Some (wc_line l name).
Proof.
  intros H1 H2 H3. rewrite !Z.add_0_l. unfold wc_line.
  transitivity (Some (printint (s32 (Z.of_nat (length (newlines l)))) 10 true ++ [32] ++
    printint (s32 (Z.of_nat (length (words l)))) 10 true ++ [32] ++ printint (s32 (Z.of_nat (length l))) 10 true ++ [32] ++
    string_of name ++ [10])); [reflexivity|]. by rewrite !s32_small by lia.
Qed.

Lemma wc_ok fd name src w :
  w.(w_fds) !! fd = Some src -> pieces src -> Z.of_nat (length (concat src)) < 2 ^ 31 ->
  run (wc fd name) w ≈ Ret (put_out (wc_line (concat src) name) (set_fd fd [] w), tt).
Proof.
  intros Hfd Hp Hlen. unfold wc.
  rewrite (run_seq handle_files _ _ w (set_fd fd [] w) (foldl count (mkcounts 0 0 0 false) (concat src))).
  - destruct (foldl_count (concat src) (mkcounts 0 0 0 false)) as [b ->]; [cbn; lia..|]. cbn [n_l n_w n_c inword].
    apply run_uprintf. assert (Hw : new_words false (concat src) = Z.of_nat (length (words (concat src)))) by (unfold new_words; lia).
    pose proof (new_words_range false (concat src)) as Hr. rewrite Hw in *.
    assert (Hl : (length (newlines (concat src)) <= length (concat src))%nat) by apply length_filter.
    apply (wc_printf (concat src) name); lia.
  - apply (read_loop (foldl count) (fun _ _ w => w) _ fd) with (n := S (length (concat src))); try done; [| | |lia].
    + intros k w' src0 bs src' Hf E Hbs. rewrite (run_call handle_files _ _ _ _ _ (read_call _ _ _ _ _ Hf E)).
      cbv beta iota. rewrite length_pos by done. apply run_ret.
    + intros k w' Hf. rewrite (run_call handle_files _ _ _ _ _ (read_call _ _ _ _ _ Hf eq_refl)). cbn [length]. apply run_ret.
    + intros k a b w' src0. by rewrite foldl_app.
Qed.

Lemma cat_ok fd src w :
  w.(w_fds) !! fd = Some src -> pieces src ->
  run (cat fd) w ≈ Ret (put_out (concat src) (set_fd fd [] w), tt).
Proof.
  intros Hfd Hp. unfold cat.
  apply (read_loop (fun _ _ => tt) (fun _ bs w => put_out bs w) _ fd) with (n := S (length (concat src))); try done; [..|lia].
  - intros k w' src0 bs src' Hf E Hbs. rewrite (run_call handle_files _ _ _ _ _ (read_call _ _ _ _ _ Hf E)).
    cbv beta iota. rewrite length_pos by done.
    rewrite (run_call handle_files (Write 1 bs) _ _ (put_out bs (set_fd fd src' w')) (Z.of_nat (length bs)) eq_refl). rewrite Z.eqb_refl. apply run_ret.
  - intros [] w' Hf. rewrite (run_call handle_files _ _ _ _ _ (read_call _ _ _ _ _ Hf eq_refl)). cbn [length]. apply run_ret.
  - intros [] w'. by rewrite put_out_nil.
  - intros k a b w' src0. split_and!; [done|by rewrite put_out_app|by rewrite set_put|done].
Qed.

(** A loop over arguments each of which only prints, and one that ends the program. *)
Lemma run_each {A : Type} (f : A -> itree sysE unit) (g : A -> list Z) (Q : uworld -> Prop) :
  (forall bs w, Q w -> Q (put_out bs w)) ->
  forall l w, (forall x w, x ∈ l -> Q w -> run (f x) w ≈ Ret (put_out (g x) w, tt)) -> Q w ->
  run (each l f) w ≈ Ret (put_out (concat (g <$> l)) w, tt).
Proof.
  intros HQ. induction l as [|x l IH]; intros w Hf Hw; cbn [each].
  - by rewrite run_ret, put_out_nil.
  - rewrite (run_seq handle_files _ _ _ _ _ (Hf x w ltac:(left) Hw)), IH; [by rewrite put_out_app| |by apply HQ].
    intros y w' Hy. apply Hf. by right.
Qed.

Lemma each_fmap {A B : Type} (g : A -> B) (f : B -> itree sysE unit) l : each (g <$> l) f = each l (fun x => f (g x)).
Proof. induction l as [|x l IH]; cbn; [done|by rewrite IH]. Qed.

Lemma each_app {A : Type} (l l' : list A) f w : run (each (l ++ l') f) w ≈ run (each l f ;;; each l' f) w.
Proof.
  revert w. induction l as [|x l IH]; intros w; cbn [app each].
  - by rewrite (run_seq handle_files _ _ _ _ _ (run_ret handle_files tt w)).
  - unfold run. rewrite bind_bind, !interp_state_bind. apply eutt_clo_bind with (UU := eq); [done|].
    intros [w1 []] [w2 []] [= <-]. apply IH.
Qed.

(** The files named, opened one at a time as descriptor 3. *)
Definition named (w : uworld) (a : list Z) (src : source) : Prop := w.(w_files) a = Some src /\ pieces src.

Lemma open_close (a : list Z) (src : source) (use : Z -> itree sysE unit) (bs : list Z) w :
  named w a src -> w.(w_fds) !! 3 = None ->
  (forall w', w'.(w_fds) !! 3 = Some src -> exists rst, run (use 3) w' ≈ Ret (put_out bs (set_fd 3 rst w'), tt)) ->
  forall bad, run (let! fd := trigger (Open a 0) in if fd <? 0 then bad else use fd ;;; trigger (Close fd) ;;; Ret tt) w
    ≈ Ret (put_out bs w, tt).
Proof.
  intros [Hf Hp] Hfd Hu bad.
  assert (E : handle_files _ (Open a 0) w = Ret (set_fd 3 src w, 3)).
  { cbn [handle_files]. rewrite Hf. assert (fresh_fd (w_fds w) = 3) as ->; [|done]. unfold fresh_fd.
    rewrite (seqZ_cons 3) by lia. by rewrite filter_cons_True by done. }
  rewrite (run_call handle_files _ _ _ _ _ E). cbn [Z.ltb Z.compare].
  destruct (Hu (set_fd 3 src w) (set_fd_lookup _ _ _)) as (rst & Hl). rewrite (run_seq handle_files _ _ _ _ _ Hl).
  rewrite (run_call handle_files (Close 3) _ _ _ _ eq_refl), run_ret. apply eqit_Ret. f_equal.
  destruct w as [fs fds o er]. unfold set_fd, put_out, setf, set_w_fds, set_w_out. cbn in *.
  by rewrite insert_insert_eq, delete_insert_id.
Qed.

Lemma open_fails (a : list Z) (use : Z -> itree sysE unit) bad w w' :
  w.(w_files) a = None -> run bad w ≈ throw w' ->
  run (let! fd := trigger (Open a 0) in if fd <? 0 then bad else use fd ;;; trigger (Close fd) ;;; Ret tt) w ≈ throw w'.
Proof.
  intros Hf Hb. assert (E : handle_files _ (Open a 0) w = Ret (w, -1)) by (cbn [handle_files]; by rewrite Hf).
  rewrite (run_call handle_files _ _ _ _ _ E). exact Hb.
Qed.

(** The files named by arguments. *)
Definition contents (w : uworld) (a : list Z) : list Z := concat (default [] (w.(w_files) a)).
Definition readable (w : uworld) (a : list Z) : Prop := exists src, named w a src.

(** cat.  Given the names of files, it writes the contents of each in turn,
    in whatever pieces reads return them, and exits; at the first name that
    cannot be opened it says so and exits.  The descriptors it opens are closed
    again.  Without arguments it copies its standard input. *)
Theorem cat_copies (prog bad : list Z) (args rest : list (list Z)) (src : source) (w : uworld) :
  Forall (readable w) args -> w.(w_files) bad = None -> w.(w_fds) !! 3 = None -> w.(w_fds) !! 0 = Some src -> pieces src ->
  (args <> [] -> run (cat_main (prog :: args)) w ≈ throw (put_out (concat (contents w <$> args)) w)) /\
  run (cat_main (prog :: args ++ bad :: rest)) w
    ≈ throw (put_out (concat (contents w <$> args) ++ msg "cat: cannot open " ++ string_of bad ++ [10]) w) /\
  run (cat_main [prog]) w ≈ throw (put_out (concat src) (set_fd 0 [] w)).
Proof.
  intros Hr Hbad H3 H0 Hp. set (body := fun a : list Z =>
    let! fd := trigger (Open a 0) in
    if fd <? 0 then uprintf 1 (line "cat: cannot open %s") [word a] ;;; uexit
    else cat fd ;;; trigger (Close fd) ;;; Ret tt).
  set (Q := fun w' => w'.(w_files) = w.(w_files) /\ w'.(w_fds) = w.(w_fds)).
  assert (Heach : run (each args body) w ≈ Ret (put_out (concat (contents w <$> args)) w, tt)).
  { apply (run_each body (contents w) Q); [done| |done]. intros a w' Ha [Hf Hd].
    rewrite list.Forall_forall in Hr. destruct (Hr a Ha) as (s & Hs & Hps). unfold contents. rewrite Hs. cbn [default].
    apply (open_close a s); [by split; [rewrite Hf|]|by rewrite Hd|]. intros w2 Hw2. exists []. by apply cat_ok. }
  split_and!.
  - intros Hne. destruct args as [|a args]; [done|]. cbn [cat_main tail]. etransitivity; [exact (run_seq handle_files _ _ _ _ _ Heach)|by apply run_uexit].
  - assert (Hmain : run (cat_main (prog :: args ++ bad :: rest)) w ≈ run (each (args ++ bad :: rest) body ;;; uexit) w).
    { cbn [cat_main tail]. by destruct args. }
    rewrite Hmain. apply run_exited. rewrite each_app, (run_seq handle_files _ _ _ _ _ Heach). cbn [each]. apply run_exited.
    apply open_fails; [done|]. rewrite (run_seq handle_files _ _ _ _ _ (run_uprintf (line "cat: cannot open %s") [word bad]
      (msg "cat: cannot open " ++ string_of bad ++ [10]) _ eq_refl)). rewrite run_uexit, put_out_app by done. done.
  - cbn [cat_main tail]. rewrite (run_seq handle_files _ _ _ _ _ (cat_ok 0 src w H0 Hp)). by apply run_uexit.
Qed.

(** wc.  Given the names of files of less than 2^31 bytes, it prints for each
    the number of its newlines, of its words (the maximal runs of characters other
    than blanks) and of its bytes, whatever the pieces in which reads return the
    file and wherever they cut a word, and exits. *)
Theorem wc_counts (prog : list Z) (args : list (list Z)) (w : uworld) :
  args <> [] -> Forall (fun a => readable w a /\ Z.of_nat (length (contents w a)) < 2 ^ 31) args -> w.(w_fds) !! 3 = None ->
  run (wc_main (prog :: args)) w ≈ throw (put_out (concat ((fun a => wc_line (contents w a) a) <$> args)) w).
Proof.
  intros Hne Hr H3. destruct args as [|a0 args0] eqn:Ea; [done|]. rewrite <- Ea in *. 
  set (Q := fun w' => w'.(w_files) = w.(w_files) /\ w'.(w_fds) = w.(w_fds)).
  assert (Heach : run (each args (fun a : list Z =>
    let! fd := trigger (Open a 0) in
    if fd <? 0 then uprintf 1 (line "wc: cannot open %s") [word a] ;;; uexit
    else wc fd a ;;; trigger (Close fd) ;;; Ret tt)) w ≈ Ret (put_out (concat ((fun a => wc_line (contents w a) a) <$> args)) w, tt)).
  { apply (run_each _ (fun a => wc_line (contents w a) a) Q); [done| |done]. intros a w' Ha [Hf Hd].
    rewrite list.Forall_forall in Hr. destruct (Hr a Ha) as ((s & Hs & Hps) & Hlen). unfold contents in *. rewrite Hs in *. cbn [default] in *.
    apply (open_close a s (fun fd => wc fd a)); [by split; [rewrite Hf|]|by rewrite Hd|]. intros w2 Hw2. exists []. by apply wc_ok. }
  rewrite Ea in Heach |- *. cbn [wc_main tail]. etransitivity; [exact (run_seq handle_files _ _ _ _ _ Heach)|by apply run_uexit].
Qed.

(** ** grep *)

(** The tree writes what the loops of Grep.v compute. *)
Lemma grep_lines_ok pattern fuel : forall p w,
  run (grep_lines fuel pattern p) w ≈ Ret (put_out (fst (scan fuel pattern p)) w, snd (scan fuel pattern p)).
Proof.
  induction fuel as [|fuel IH]; intros p w; cbn [grep_lines scan]; [by rewrite run_ret, put_out_nil|].
  destruct (strchr p 10) as [r|]; [|by rewrite run_ret, put_out_nil].
  set (text := take (length p - length r) p). specialize (IH (next r)). destruct (scan fuel pattern (next r)) as [out rest]. cbn [fst snd] in *.
  destruct (gmatch pattern text).
  - rewrite (run_seq handle_files _ _ w (put_out (text ++ [10]) w) tt).
    + rewrite IH. by rewrite put_out_app.
    + rewrite (run_call handle_files (Write 1 (text ++ [10])) _ w (put_out (text ++ [10]) w) _ eq_refl). apply run_ret.
  - rewrite (run_seq handle_files _ _ w w tt (run_ret handle_files tt w)). apply IH.
Qed.

Lemma strchr_length p c r : strchr p c = Some r -> (length r <= length p)%nat.
Proof.
  induction p as [|x p IH]; cbn [strchr]; [done|]. repeat case_match; try done; intros E; [by injection E as <-|].
  specialize (IH E). cbn. lia.
Qed.
Lemma scan_length pattern fuel : forall p, (length (snd (scan fuel pattern p)) <= length p)%nat.
Proof.
  induction fuel as [|fuel IH]; intros p; cbn [scan]; [done|]. destruct (strchr p 10) as [r|] eqn:E; [|done].
  apply strchr_length in E. specialize (IH (next r)). destruct (scan fuel pattern (next r)) as [o rest]. cbn [snd] in *.
  assert (length (next r) <= length r)%nat by (destruct r; cbn; lia). lia.
Qed.
Lemma take_read_length n src : (length (fst (take_read n src)) <= n)%nat.
Proof. destruct src; cbn; [lia|]. rewrite length_take. lia. Qed.

Lemma grep_fd_ok pattern fd fuel : forall m src out w,
  (length m < bufsize)%nat -> grep_loop fuel pattern m src = Some out -> w.(w_fds) !! fd = Some src ->
  exists rst, run (ITree.iter (fun m : list Z =>
    let! (n, ch) := trigger (Read fd (1024 - Z.of_nat (length m) - 1)) in
    if 0 <? n then
      let buf := m ++ ch in
      let! p := grep_lines (length buf) pattern buf in
      Ret (inl (if decide (length p = length buf) then [] else p))
    else Ret (inr tt)) m) w ≈ Ret (put_out out (set_fd fd rst w), tt).
Proof.
  induction fuel as [|fuel IH]; intros m src out w Hm E Hfd; [done|]. cbn [grep_loop] in E. unfold bufsize in *.
  destruct (take_read (1024 - length m - 1) src) as [ch src'] eqn:Er.
  assert (Ec : handle_files _ (Read fd (1024 - Z.of_nat (length m) - 1)) w = Ret (set_fd fd src' w, (Z.of_nat (length ch), ch))).
  { cbn [handle_files]. rewrite Hfd. replace (Z.to_nat (1024 - Z.of_nat (length m) - 1)) with (1024 - length m - 1)%nat by lia. by rewrite Er. }
  destruct ch as [|c ch].
  - injection E as <-. exists src'. rewrite put_out_nil. apply run_done. rewrite (run_call handle_files _ _ _ _ _ Ec). apply run_ret.
  - set (buf := m ++ c :: ch) in *. pose proof (grep_lines_ok pattern (length buf) buf (set_fd fd src' w)) as Hl.
    assert (Hm' : (length (if decide (length (snd (scan (length buf) pattern buf)) = length buf) then [] else snd (scan (length buf) pattern buf)) < 1024)%nat).
    { pose proof (scan_length pattern (length buf) buf). pose proof (take_read_length (1024 - length m - 1) src) as Hlen. rewrite Er in Hlen.
      unfold buf in *. rewrite length_app in *. cbn [fst] in Hlen. case_decide; cbn [length] in *; lia. }
    destruct (scan (length buf) pattern buf) as [o p] eqn:Es. cbn [fst snd] in Hl, Hm'.
    destruct (grep_loop fuel pattern _ src') as [rest|] eqn:Eg; [|done]. injection E as <-.
    destruct (IH _ src' rest (put_out o (set_fd fd src' w)) Hm' Eg) as (rst & Hr); [apply set_fd_lookup|].
    exists rst. etransitivity; [eapply run_again|].
    + rewrite (run_call handle_files _ _ _ _ _ Ec). cbv beta iota. rewrite length_pos by done. cbv zeta. fold buf.
      rewrite (run_seq handle_files _ _ _ _ _ Hl). apply run_ret.
    + rewrite Hr. rewrite set_put, set_fd_twice, put_out_app. done.
Qed.

Lemma unlines_pieces lss : Forall (fun ls => ls <> [] /\ Forall line_ok ls) lss -> pieces (List.map unlines lss).
Proof.
  induction 1 as [|ls lss [Hne _] _ IH]; cbn; constructor; [|done]. destruct ls as [|l ls]; [done|]. rewrite unlines_cons. by destruct l.
Qed.

(** A file of lines that fit grep's buffer, in whatever numbers reads find them. *)
Definition lines_file (w : uworld) (a : list Z) (ls : list (list Z)) : Prop :=
  exists lss, w.(w_files) a = Some (List.map unlines lss) /\ concat lss = ls /\ Forall (fun ls => ls <> [] /\ Forall line_ok ls) lss.

(** C27: grep.  Given a pattern and the names of files of complete lines that fit in
    its 1024-byte buffer, however many of them each read returns, it writes
    exactly the lines that the pattern matches, file by file, in their order and
    once each, closes what it opened and exits; at the first file that cannot
    be opened it says so and exits. *)
Theorem grep_main_prints (prog pattern bad : list Z) (files : list (list Z * list (list Z))) (rest : list (list Z)) (w : uworld) :
  Forall (fun '(a, ls) => lines_file w a ls) files -> w.(w_files) bad = None -> w.(w_fds) !! 3 = None ->
  let out := concat ((fun '(_, ls) => kept pattern ls) <$> files) in
  (files <> [] -> run (grep_main (prog :: pattern :: files.*1)) w ≈ throw (put_out out w)) /\
  run (grep_main (prog :: pattern :: files.*1 ++ bad :: rest)) w
    ≈ throw (put_out (out ++ msg "grep: cannot open " ++ string_of bad ++ [10]) w).
Proof.
  intros Hfiles Hbad H3 out. set (body := fun a : list Z =>
    let! fd := trigger (Open a 0) in
    if fd <? 0 then uprintf 1 (line "grep: cannot open %s") [word a] ;;; uexit
    else grep_fd pattern fd ;;; trigger (Close fd) ;;; Ret tt).
  assert (Heach : run (each files.*1 body) w ≈ Ret (put_out out w, tt)).
  { rewrite each_fmap. apply (run_each (fun x => body (fst x)) (fun '(_, ls) => kept pattern ls)
      (fun w' => w'.(w_files) = w.(w_files) /\ w'.(w_fds) = w.(w_fds))); [done| |done]. intros [a ls] w' Ha [Hf Hd].
    rewrite list.Forall_forall in Hfiles. destruct (Hfiles _ Ha) as (lss & Hs & <- & Hok).
    apply (open_close a (List.map unlines lss)); [split; [by rewrite Hf|]|by rewrite Hd|].
    - by apply unlines_pieces.
    - intros w2 Hw2. eapply grep_fd_ok; [|apply (grep_loop_lines pattern lss (S (length (concat (List.map unlines lss)))) [] (List.map unlines lss) []); [lia|done|by left]|done].
      unfold bufsize. cbn. lia. }
  split.
  - intros Hne. destruct files as [|[a ls] files]; [done|]. cbn [grep_main tail fmap list_fmap fst].
    etransitivity; [exact (run_seq handle_files _ _ _ _ _ Heach)|by apply run_uexit].
  - assert (Hmain : run (grep_main (prog :: pattern :: files.*1 ++ bad :: rest)) w ≈ run (each (files.*1 ++ bad :: rest) body ;;; uexit) w).
    { cbn [grep_main tail]. by destruct files as [|[]]. }
    rewrite Hmain. apply run_exited. rewrite each_app, (run_seq handle_files _ _ _ _ _ Heach). cbn [each]. apply run_exited.
    apply open_fails; [done|]. rewrite (run_seq handle_files _ _ _ _ _ (run_uprintf (line "grep: cannot open %s") [word bad]
      (msg "grep: cannot open " ++ string_of bad ++ [10]) _ eq_refl)). rewrite run_uexit, put_out_app by done. done.
Qed.

(** ** A world of processes

    The children of a process that run, and those that have ended and are not
    waited for.  A child here runs for ever: it ends when it is killed.  wait
    takes an ended child; it blocks while children run and none has ended, and
    fails without children.  fork fails when the [p_slots] processes the table
    has room for are in use. *)
Record pworld := mkpworld {
  p_slots : nat;
  p_next : Z;
  p_live : list Z;
  p_ended : list Z;
  p_infos : nat;
  p_text : list Z
}.
Definition handle_procs (T : Type) (e : sysE T) : world_io pworld T :=
  match e in sysE T return world_io pworld T with
  | Exit => fun w => throw w
  | Fork => fun '(mkpworld n p l z i o) =>
      if decide (length l + length z < n)%nat then Ret (mkpworld n (p + 1) (l ++ [p]) z i o, p)
      else Ret (mkpworld n p l z i o, -1)
  | Kill pid => fun '(mkpworld n p l z i o) =>
      if decide (pid ∈ l) then Ret (mkpworld n p (filter (fun q => q <> pid) l) (z ++ [pid]) i o, 0)
      else if decide (pid ∈ z) then Ret (mkpworld n p l z i o, 0)
      else Ret (mkpworld n p l z i o, -1)
  | Wait => fun '(mkpworld n p l z i o) =>
      match z, l with
      | q :: z', _ => Ret (mkpworld n p l z' i o, q)
      | [], [] => Ret (mkpworld n p l z i o, -1)
      | [], _ => ITree.spin
      end
  | Write _ bs => fun '(mkpworld n p l z i o) => Ret (mkpworld n p l z i (o ++ bs), Z.of_nat (length bs))
  | Getpinfo => fun '(mkpworld n p l z i o) => Ret (mkpworld n p l z (S i) o, 0)
  | Sleep _ => fun w => Ret (w, 0)
  | Read _ _ => fun w => Ret (w, (-1, []))
  | Fstat _ => fun w => Ret (w, (-1, mkstat 0 0 0 0 0))
  | Open _ _ | Close _ | Exec _ _ | Dup _ | Getpid | Mknod _ _ _ | Unlink _ | Link _ _ | Mkdir _ | Settickets _
  | Chdir _ | Sbrk _ | Uptime | LinkTo _ _ | ReadTo _ _ _ | SleepAt _ | Stray | Load8 _ | Load32 _ | In8 _ | Malloc _ =>
      fun w => Ret (w, -1)
  | Pipe => fun w => Ret (w, (-1, (0, 0)))
  | Store8 _ _ | Store32 _ _ | Out8 _ _ | Free _ => fun w => Ret (w, tt)
  end.
Notation prun := (run_with handle_procs).

Lemma prun_uprintf fd fmt ap bs n p l z i o :
  printf fmt ap = Some bs -> prun (uprintf fd fmt ap) (mkpworld n p l z i o) ≈ Ret (mkpworld n p l z i (o ++ bs), tt).
Proof.
  intros E. unfold uprintf. rewrite E. clear E. revert o. induction bs as [|c bs IH]; intros o; cbn [putbytes].
  - by rewrite run_ret, app_nil_r.
  - rewrite (run_call handle_procs (Write fd [c]) _ (mkpworld n p l z i o) (mkpworld n p l z i (o ++ [c])) 1 eq_refl), IH. by rewrite <- app_assoc.
Qed.

(** The children spawned: those there is room for, numbered from [p]; fork
    fails for the others. *)
Lemma spawn_ok args : forall n p l i o,
  1 <= p -> prun (spawn args) (mkpworld n p l [] i o) ≈
    let k := Nat.min (length args) (n - length l) in
    Ret (mkpworld n (p + Z.of_nat k) (l ++ seqZ p (Z.of_nat k)) [] i o, seqZ p (Z.of_nat k) ++ replicate (length args - k) (-1)).
Proof.
  induction args as [|a args IH]; intros n p l i o Hp; cbn [spawn].
  - rewrite run_ret. cbn. by rewrite app_nil_r, Z.add_0_r.
  - destruct (decide (length l < n)%nat) as [Hlt|Hge].
    + rewrite (run_call handle_procs Fork _ (mkpworld n p l [] i o) (mkpworld n (p + 1) (l ++ [p]) [] i o) p).
      2: { cbn [handle_procs length]. rewrite Nat.add_0_r. by rewrite decide_True by done. }
      rewrite (proj2 (Z.eqb_neq p 0)) by lia. rewrite (run_seq handle_procs _ _ _ _ _ (IH n (p + 1) (l ++ [p]) i o ltac:(lia))).
      rewrite run_ret. rewrite length_app. cbn [length].
      set (k := Nat.min (length args) (n - (length l + 1))). replace (Nat.min (S (length args)) (n - length l)) with (S k) by lia.
      cbv zeta. rewrite (seqZ_cons p) by lia. replace (Z.pred (Z.of_nat (S k))) with (Z.of_nat k) by lia.
      replace (Z.succ p) with (p + 1) by lia. replace (p + Z.of_nat (S k)) with (p + 1 + Z.of_nat k) by lia.
      rewrite <- app_assoc. done.
    + rewrite (run_call handle_procs Fork _ (mkpworld n p l [] i o) (mkpworld n p l [] i o) (-1)).
      2: { cbn [handle_procs length]. rewrite Nat.add_0_r. by rewrite decide_False by lia. }
      cbn [Z.eqb]. rewrite (run_seq handle_procs _ _ _ _ _ (IH n p l i o Hp)).
      replace (n - length l)%nat with 0%nat by lia. rewrite !Nat.min_0_r. cbv zeta. rewrite run_ret, !Nat.sub_0_r. done.
Qed.

Lemma filter_ne (q : Z) (l : list Z) : q ∉ l -> filter (fun x => x <> q) l = l.
Proof.
  induction l as [|x l IH]; intros Hq; [done|]. apply not_elem_of_cons in Hq as [Hx Hq].
  rewrite filter_cons_True by done. by rewrite IH.
Qed.

Lemma reap_ok (j : nat) n p i o : forall l, NoDup l ->
  prun (each (l ++ replicate j (-1)) (fun pid => trigger (Kill pid) ;;; trigger Wait ;;; Ret tt)) (mkpworld n p l [] i o)
  ≈ Ret (mkpworld n p [] [] i o, tt).
Proof.
  induction l as [|q l IH]; intros Hnd; cbn [app].
  - clear Hnd. induction j as [|j IH]; cbn [replicate each]; [by rewrite run_ret|].
    rewrite (run_seq handle_procs _ _ (mkpworld n p [] [] i o) (mkpworld n p [] [] i o) tt); [exact IH|].
    rewrite (run_call handle_procs (Kill (-1)) _ (mkpworld n p [] [] i o) (mkpworld n p [] [] i o) (-1) eq_refl).
    rewrite (run_call handle_procs Wait _ (mkpworld n p [] [] i o) (mkpworld n p [] [] i o) (-1) eq_refl). by rewrite run_ret.
  - apply list.NoDup_cons in Hnd as [Hq Hnd]. cbn [each].
    rewrite (run_seq handle_procs _ _ (mkpworld n p (q :: l) [] i o) (mkpworld n p l [] i o) tt); [by apply IH|].
    rewrite (run_call handle_procs (Kill q) _ (mkpworld n p (q :: l) [] i o) (mkpworld n p l [q] i o) 0).
    + rewrite (run_call handle_procs Wait _ (mkpworld n p l [q] i o) (mkpworld n p l [] i o) q eq_refl). by rewrite run_ret.
    + cbn [handle_procs]. rewrite decide_True by left. rewrite filter_cons_False by (intros H; by apply H). by rewrite filter_ne.
Qed.

Lemma infos_ok k n p l z o : forall i,
  prun (each (seq 0 k) (fun _ => ps ;;; trigger (Sleep 3) ;;; Ret tt)) (mkpworld n p l z i o)
  ≈ Ret (mkpworld n p l z (i + k) o, tt).
Proof.
  generalize 0%nat. induction k as [|k IH]; intros m i; cbn [seq each]; [by rewrite run_ret, Nat.add_0_r|].
  rewrite (run_seq handle_procs _ _ (mkpworld n p l z i o) (mkpworld n p l z (S i) o) tt).
  - rewrite IH. by replace (S i + k)%nat with (i + S k)%nat by lia.
  - unfold ps. rewrite bind_bind. setoid_rewrite bind_ret_l.
    rewrite (run_call handle_procs Getpinfo _ (mkpworld n p l z i o) (mkpworld n p l z (S i) o) 0 eq_refl).
    rewrite (run_call handle_procs (Sleep 3) _ (mkpworld n p l z (S i) o) (mkpworld n p l z (S i) o) 0 eq_refl). by rewrite run_ret.
Qed.

Lemma prun_refuse {A B : Type} fmt bs (k : A -> itree sysE B) n p l z i o :
  printf fmt [] = Some bs ->
  prun (ITree.bind (uprintf 1 fmt [] ;;; uexit) k) (mkpworld n p l z i o) ≈ throw (mkpworld n p l z i (o ++ bs)).
Proof.
  intros E. apply run_exited. rewrite (run_seq handle_procs _ _ _ _ _ (prun_uprintf 1 _ _ _ n p l z i o E)). by apply run_uexit.
Qed.

Lemma check_ok args w : forallb (fun a => 10 <=? atoi a) args = true -> prun (check_tickets args) w ≈ Ret (w, tt).
Proof.
  induction args as [|a args IH]; cbn [check_tickets forallb]; [by rewrite run_ret|].
  intros [Ha Hr]%andb_true_iff. rewrite (proj2 (Z.ltb_ge _ _)) by lia. by apply IH.
Qed.
Lemma check_refuses args n p o :
  forallb (fun a => 10 <=? atoi a) args = false ->
  exists text, prun (check_tickets args) (mkpworld n p [] [] 0 o) ≈ throw (mkpworld n p [] [] 0 text).
Proof.
  induction args as [|a args IH]; cbn [check_tickets forallb]; [done|]. intros Hf.
  destruct (Z.ltb_spec (atoi a) 10) as [Ha|Ha].
  - eexists. rewrite (run_seq handle_procs _ _ _ _ _ (prun_uprintf 1 (line "tickets must be >= 10") [] _ n p [] [] 0 o eq_refl)).
    by apply run_uexit.
  - apply IH. rewrite (proj2 (Z.leb_le _ _)) in Hf by lia. done.
Qed.

(** C31: schedtest.  With a positive loop count and up to seven ticket numbers of
    at least 10, it prints the loop count, shows the table as often as asked,
    and exits with every child it could start killed and waited for: none is
    left running or unreaped, and it never blocks, also when the process table
    fills up.  With arguments it refuses, or too few, it starts no child. *)
Theorem schedtest_reaps (prog loops t : list Z) (ts : list (list Z)) (n : nat) (p : Z) (o : list Z) :
  1 <= p ->
  let say := o ++ msg "loop count: " ++ printint (s32 (atoi loops)) 10 true ++ [10] in
  let w := mkpworld n p [] [] 0 o in
  (forall argv, (length argv <= 2)%nat -> prun (schedtest_main argv) w ≈ throw (mkpworld n p [] [] 0 (o ++ schedtest_usage))) /\
  if (0 <? atoi loops) && (Z.of_nat (length ts) <? 7) && forallb (fun a => 10 <=? atoi a) (t :: ts) then
    exists p', p <= p' <= p + Z.of_nat (length (t :: ts)) /\
      prun (schedtest_main (prog :: loops :: t :: ts)) w ≈ throw (mkpworld n p' [] [] (Z.to_nat (atoi loops)) say)
  else exists text, prun (schedtest_main (prog :: loops :: t :: ts)) w ≈ throw (mkpworld n p [] [] 0 text).
Proof.
  intros Hp say w. split.
  { intros [|? [|? [|? argv]]] Hlen; [..|cbn in Hlen; lia]; cbn [schedtest_main]; unfold w;
      rewrite (run_seq handle_procs _ _ _ _ _ (prun_uprintf 1 _ _ _ n p [] [] 0 o (eq_refl : printf schedtest_usage [] = Some schedtest_usage))); by apply run_uexit. }
  assert (Hsay : printf (line "loop count: %d") [UWord (atoi loops)] = Some (msg "loop count: " ++ printint (s32 (atoi loops)) 10 true ++ [10]))
    by reflexivity.
  set (w1 := mkpworld n p [] [] 0 say).
  assert (Hstart : prun (schedtest_main (prog :: loops :: t :: ts)) w ≈ prun (schedtest_run (atoi loops) (t :: ts)) w1).
  { exact (run_seq handle_procs _ (fun _ => schedtest_run (atoi loops) (t :: ts)) _ _ _ (prun_uprintf 1 _ _ _ n p [] [] 0 o Hsay)). }
  unfold schedtest_run in Hstart. destruct (Z.ltb_spec 0 (atoi loops)) as [Hl|Hl]; cbn [andb].
  2: { eexists. rewrite Hstart, (proj2 (Z.leb_le _ _) Hl). eapply prun_refuse. reflexivity. }
  rewrite (proj2 (Z.leb_gt _ _) Hl), (run_seq handle_procs _ _ w1 w1 tt) in Hstart by (by rewrite run_ret).
  destruct (Z.ltb_spec (Z.of_nat (length ts)) 7) as [Ht|Ht]; cbn [andb].
  2: { eexists. rewrite Hstart, (proj2 (Z.ltb_lt 7 _)) by (cbn [length]; lia). eapply prun_refuse. reflexivity. }
  rewrite (proj2 (Z.ltb_ge 7 _)) in Hstart by (cbn [length]; lia).
  rewrite (run_seq handle_procs _ _ w1 w1 tt) in Hstart by (by rewrite run_ret).
  destruct (forallb _ (t :: ts)) eqn:Hf.
  - set (k := Nat.min (length (t :: ts)) (n - 0)). exists (p + Z.of_nat k). split; [lia|].
    rewrite Hstart, (run_seq handle_procs _ _ _ _ _ (check_ok _ w1 Hf)). unfold w1.
    rewrite (run_seq handle_procs _ _ _ _ _ (spawn_ok (t :: ts) n p [] 0 say Hp)). cbn [app]. fold k.
    rewrite (run_seq handle_procs _ _ _ _ _ (infos_ok _ _ _ _ _ _ _)), Nat.add_0_l.
    rewrite (run_seq handle_procs _ _ _ _ _ (reap_ok _ _ _ _ _ _ (NoDup_seqZ _ _))). by apply run_uexit.
  - destruct (check_refuses _ n p say Hf) as [text E]. exists text. rewrite Hstart. by apply run_exited.
Qed.

(** ** Examples *)

(** A file with the text "ab c" and a newline, which reads find in two pieces. *)
Definition one_file : uworld :=
  mkuworld (fun a => if decide (a = msg "f") then Some [[97; 98; 32]; [99; 10]] else None) {[0 := [[120; 10]]]} [] [].

Lemma cat_copies_witness :
  run (cat_main [msg "cat"; msg "f"; msg "f"]) one_file ≈ throw (put_out [97; 98; 32; 99; 10; 97; 98; 32; 99; 10] one_file).
Proof.
  destruct (cat_copies (msg "cat") (msg "g") [msg "f"; msg "f"] [] [[120; 10]] one_file) as (H & _).
  - repeat constructor; eexists; split; [reflexivity|repeat constructor; done|reflexivity|repeat constructor; done].
  - reflexivity.
  - reflexivity.
  - reflexivity.
  - repeat constructor; done.
  - by apply H.
Defined.

Lemma wc_counts_witness :
  run (wc_main [msg "wc"; msg "f"]) one_file ≈ throw (put_out (msg "1 2 5 f" ++ [10]) one_file).
Proof.
  refine (wc_counts (msg "wc") [msg "f"] one_file _ _ _); [done| |reflexivity].
  constructor; [|constructor]. split; [|done]. eexists. split; [reflexivity|repeat constructor; done].
Defined.

(** Three lines in two reads. *)
Definition two_lines : uworld :=
  mkuworld (fun a => if decide (a = msg "f") then Some [[98; 97; 10]; [98; 10; 97; 10]] else None) ∅ [] [].

Lemma grep_main_prints_witness :
  run (grep_main [msg "grep"; msg "a"; msg "f"]) two_lines ≈ throw (put_out [98; 97; 10; 97; 10] two_lines).
Proof.
  destruct (grep_main_prints (msg "grep") (msg "a") (msg "g") [(msg "f", [[98; 97]; [98]; [97]])] [] two_lines) as (H & _);
    [|reflexivity|reflexivity|by apply H].
  constructor; [|constructor]. exists [[[98; 97]]; [[98]; [97]]]. split; [reflexivity|]. split; [reflexivity|].
  repeat constructor; try discriminate; apply short_line; try (simpl; lia); repeat constructor; discriminate.
Defined.

Lemma schedtest_reaps_witness :
  exists p', prun (schedtest_main [msg "schedtest"; msg "3"; msg "10"; msg "20"]) (mkpworld 5 4 [] [] 0 [])
    ≈ throw (mkpworld 5 p' [] [] 3 (msg "loop count: 3" ++ [10])).
Proof.
  destruct (schedtest_reaps (msg "schedtest") (msg "3") (msg "10") [msg "20"] 5 4 [] ltac:(lia)) as (_ & p' & _ & E).
  exists p'. exact E.
Defined.
