(* ===== verification/Usertests.v ===== *)
(** * The test suite (usertests.c)

    Every test as the interaction tree of its calls, as in Utils.v.  The global
    array [buf] is an argument and a result of the tests that use it, so that a
    child has its copy; the other globals are constants or used by one test.
    Then what the verdict of pipe1 means, and what some tests do not see. *)

From S2P Require Import Prelude CString State Layout Fs Ulib Grep Sh Utils.
From ITree Require Import ITree ITreeFacts Events.State Events.StateFacts Events.Exception.
Import Monads.
#[local] Open Scope user_scope.

(** ** Reporting and loops *)
Definition stdout : Z := 1.
Definition say (fmt : list Z) (ap : list uarg) : itree sysE unit := uprintf stdout fmt ap.
(** [if(b){ printf(...); exit(); }] *)
Definition fail_if (b : bool) (fmt : list Z) (ap : list uarg) : itree sysE unit :=
  if b then say fmt ap ;;; uexit else Ret tt.
(** [if(call bad){ printf(...); exit(); }], with the tests that occur. *)
Definition negative (r : Z) : bool := r <? 0.
Definition succeeded (r : Z) : bool := 0 <=? r.
Definition nonzero (r : Z) : bool := negb (r =? 0).
Definition zero (r : Z) : bool := r =? 0.
Definition fails (e : sysE Z) (bad : Z -> bool) (fmt : list Z) : itree sysE unit :=
  let! r := trigger e in fail_if (bad r) fmt [].

(** A loop with local variables, and one that may be left by return or break:
    the result says whether it came to its end. *)
Fixpoint folds {A S : Type} (l : list A) (f : A -> S -> itree sysE S) (s : S) : itree sysE S :=
  match l with
  | [] => Ret s
  | x :: l' => let! s' := f x s in folds l' f s'
  end.
Fixpoint every {A : Type} (l : list A) (f : A -> itree sysE bool) : itree sysE bool :=
  match l with
  | [] => Ret true
  | x :: l' => let! b := f x in if b : bool then every l' f else Ret false
  end.
Definition times {A : Type} (n : Z) (t : itree sysE A) : itree sysE unit := each (seqZ 0 n) (fun _ => t ;;; Ret tt).

(** Bytes stored from the start of an array on; read into an array. *)
Definition over (bs buf : list Z) : list Z := bs ++ drop (length bs) buf.
Definition uread (fd : Z) (buf : list Z) (n : Z) : itree sysE (Z * list Z) :=
  let! (r, bs) := trigger (Read fd n) in Ret (r, over bs buf).
Definition uwrite (fd : Z) (buf : list Z) (n : Z) : itree sysE Z := trigger (Write fd (take (Z.to_nat n) buf)).
Definition BUFSZ : Z := 8192.
Definition O_RDWR : Z := 2.
Definition create_rw : Z := Z.lor O_CREATE O_RDWR.
(** sbrk, whose result is an address. *)
Definition usbrk (n : Z) : itree sysE Z := let! r := trigger (Sbrk (s32 n)) in Ret (u32 r).

(** ** Inodes released in transactions *)
Definition iputtest : itree sysE unit :=
  say (line "iput test") [] ;;;
  fails (Mkdir (msg "iputdir")) negative (line "mkdir failed") ;;;
  fails (Chdir (msg "iputdir")) negative (line "chdir iputdir failed") ;;;
  fails (Unlink (msg "../iputdir")) negative (line "unlink ../iputdir failed") ;;;
  fails (Chdir (msg "/")) negative (line "chdir / failed") ;;;
  say (line "iput test ok") [].

Definition exitiputtest : itree sysE unit :=
  say (line "exitiput test") [] ;;;
  let! pid := trigger Fork in
  fail_if (pid <? 0) (line "fork failed") [] ;;;
  (if pid =? 0 then
     fails (Mkdir (msg "iputdir")) negative (line "mkdir failed") ;;;
     fails (Chdir (msg "iputdir")) negative (line "child chdir failed") ;;;
     fails (Unlink (msg "../iputdir")) negative (line "unlink ../iputdir failed") ;;;
     uexit
   else Ret tt) ;;;
  trigger Wait ;;;
  say (line "exitiput test ok") [].

Definition openiputtest : itree sysE unit :=
  say (line "openiput test") [] ;;;
  fails (Mkdir (msg "oidir")) negative (line "mkdir oidir failed") ;;;
  let! pid := trigger Fork in
  fail_if (pid <? 0) (line "fork failed") [] ;;;
  (if pid =? 0 then
     fails (Open (msg "oidir") O_RDWR) succeeded (line "open directory for write succeeded") ;;;
     uexit
   else Ret tt) ;;;
  trigger (Sleep 1) ;;;
  fails (Unlink (msg "oidir")) nonzero (line "unlink failed") ;;;
  trigger Wait ;;;
  say (line "openiput test ok") [].

(** ** Simple file system tests *)
Definition opentest : itree sysE unit :=
  say (line "open test") [] ;;;
  let! fd := trigger (Open (msg "echo") 0) in
  fail_if (fd <? 0) (line "open echo failed!") [] ;;;
  trigger (Close fd) ;;;
  fails (Open (msg "doesnotexist") 0) succeeded (line "open doesnotexist succeeded!") ;;;
  say (line "open test ok") [].

Definition writetest (buf : list Z) : itree sysE (list Z) :=
  say (line "small file test") [] ;;;
  let! fd := trigger (Open (msg "small") create_rw) in
  (if 0 <=? fd then say (line "creat small succeeded; ok") []
   else say (line "error: creat small failed!") [] ;;; uexit) ;;;
  each (seqZ 0 100) (fun i =>
    let! r := trigger (Write fd (msg "aaaaaaaaaa")) in
    fail_if (negb (r =? 10)) (line "error: write aa %d new file failed") [UWord i] ;;;
    let! r := trigger (Write fd (msg "bbbbbbbbbb")) in
    fail_if (negb (r =? 10)) (line "error: write bb %d new file failed") [UWord i]) ;;;
  say (line "writes ok") [] ;;;
  trigger (Close fd) ;;;
  let! fd := trigger (Open (msg "small") O_RDONLY) in
  (if 0 <=? fd then say (line "open small succeeded ok") []
   else say (line "error: open small failed!") [] ;;; uexit) ;;;
  let! (i, buf) := uread fd buf 2000 in
  (if i =? 2000 then say (line "read succeeded ok") []
   else say (line "read failed") [] ;;; uexit) ;;;
  trigger (Close fd) ;;;
  fails (Unlink (msg "small")) negative (line "unlink small failed") ;;;
  say (line "small file test ok") [] ;;;
  Ret buf.

(** The reading loop: the number of blocks so far, and [buf]. *)
Definition writetest1_read (fd : Z) : Z * list Z -> itree sysE (Z * list Z + list Z) := fun '(n, buf) =>
  let! (i, buf) := uread fd buf 512 in
  if i =? 0 then
    fail_if (n =? MAXFILE - 1) (msg "read only %d blocks from big") [UWord n] ;;;
    Ret (inr buf)
  else
    fail_if (negb (i =? 512)) (line "read failed %d") [UWord i] ;;;
    fail_if (negb (s32 (get32 buf 0) =? n)) (line "read content of block %d is %d") [UWord n; UWord (get32 buf 0)] ;;;
    Ret (inl (s32 (n + 1), buf)).
Definition writetest1 (buf : list Z) : itree sysE (list Z) :=
  say (line "big files test") [] ;;;
  let! fd := trigger (Open (msg "big") create_rw) in
  fail_if (fd <? 0) (line "error: creat big failed!") [] ;;;
  let! buf := folds (seqZ 0 MAXFILE) (fun i buf =>
    let buf := Layout.put buf 0 (le32 i) in
    let! r := uwrite fd buf 512 in
    fail_if (negb (r =? 512)) (line "error: write big file failed") [UWord i] ;;;
    Ret buf) buf in
  trigger (Close fd) ;;;
  let! fd := trigger (Open (msg "big") O_RDONLY) in
  fail_if (fd <? 0) (line "error: open big failed!") [] ;;;
  let! buf := ITree.iter (writetest1_read fd) (0, buf) in
  trigger (Close fd) ;;;
  fails (Unlink (msg "big")) negative (line "unlink big failed") ;;;
  say (line "big files ok") [] ;;;
  Ret buf.

Definition createtest : itree sysE unit :=
  say (line "many creates, followed by unlink test") [] ;;;
  each (seqZ 0 52) (fun i =>
    let! fd := trigger (Open [97; 48 + i] create_rw) in
    trigger (Close fd) ;;; Ret tt) ;;;
  each (seqZ 0 52) (fun i => trigger (Unlink [97; 48 + i]) ;;; Ret tt) ;;;
  say (line "many creates, followed by unlink; ok") [].

(** Not called by main. *)
Definition dirtest : itree sysE unit :=
  say (line "mkdir test") [] ;;;
  fails (Mkdir (msg "dir0")) negative (line "mkdir failed") ;;;
  fails (Chdir (msg "dir0")) negative (line "chdir dir0 failed") ;;;
  fails (Chdir (msg "..")) negative (line "chdir .. failed") ;;;
  fails (Unlink (msg "dir0")) negative (line "unlink dir0 failed") ;;;
  say (line "mkdir test ok") [].

Definition echoargv : list (list Z) := [msg "echo"; msg "ALL"; msg "TESTS"; msg "PASSED"].
Definition exectest : itree sysE unit :=
  say (line "exec test") [] ;;;
  fails (Exec (msg "echo") echoargv) negative (line "exec echo failed").

(** ** Pipes and processes *)

(** The bytes the child of pipe1 stores: [n] of them from the number [seq] on. *)
Definition seq_bytes (seq n : Z) : list Z := (fun j => u8 (seq + j)) <$> seqZ 0 n.
(** The comparison in the reading loop: the number after [bs], or a wrong byte. *)
Fixpoint check_seq (bs : list Z) (seq : Z) : option Z :=
  match bs with
  | [] => Some seq
  | b :: bs' => if negb (Z.land b 0xff =? Z.land seq 0xff) then None else check_seq bs' (s32 (seq + 1))
  end.
(** One block: seq and buf. *)
Definition pipe1_block (fd : Z) : Z * list Z -> itree sysE (Z * list Z) := fun '(seq, buf) =>
  let buf := over (seq_bytes seq 1033) buf in
  let! r := uwrite fd buf 1033 in
  fail_if (negb (r =? 1033)) (line "pipe1 oops 1") [] ;;;
  Ret (seq + 1033, buf).
Definition pipe1_write (fd : Z) (buf : list Z) : itree sysE unit :=
  folds (seqZ 0 5) (fun _ => pipe1_block fd) (0, buf) ;;;
  Ret tt.
(** seq, total, cc and buf; the loop ends with the total, or with none after a
    wrong byte. *)
Record reader := mkreader { r_seq : Z; r_total : Z; r_cc : Z; r_buf : list Z }.
Definition pipe1_read (fd : Z) (k : reader) : itree sysE (reader + (option Z * list Z)) :=
  let! (n, buf) := uread fd k.(r_buf) k.(r_cc) in
  if 0 <? n then
    match check_seq (take (Z.to_nat n) buf) k.(r_seq) with
    | None => say (line "pipe1 oops 2") [] ;;; Ret (inr (None, buf))
    | Some seq =>
        let cc := k.(r_cc) * 2 in
        Ret (inl (mkreader seq (s32 (k.(r_total) + n)) (if BUFSZ <? cc then BUFSZ else cc) buf))
    end
  else Ret (inr (Some k.(r_total), buf)).
Definition pipe1 (buf : list Z) : itree sysE (list Z) :=
  let! (r, (fd0, fd1)) := trigger Pipe in
  fail_if (negb (r =? 0)) (line "pipe() failed") [] ;;;
  let! pid := trigger Fork in
  if pid =? 0 then
    trigger (Close fd0) ;;;
    pipe1_write fd1 buf ;;;
    uexit
  else if 0 <? pid then
    trigger (Close fd1) ;;;
    let! (total, buf) := ITree.iter (pipe1_read fd0) (mkreader 0 0 1 buf) in
    match total with
    | None => Ret buf
    | Some total =>
        fail_if (negb (total =? 5 * 1033)) (line "pipe1 oops 3 total %d") [UWord total] ;;;
        trigger (Close fd0) ;;;
        trigger Wait ;;;
        say (line "pipe1 ok") [] ;;;
        Ret buf
    end
  else say (line "fork() failed") [] ;;; uexit.

Definition preempt (buf : list Z) : itree sysE (list Z) :=
  say (msg "preempt: ") [] ;;;
  let! pid1 := trigger Fork in
  (if pid1 =? 0 then ITree.spin else Ret tt) ;;;
  let! pid2 := trigger Fork in
  (if pid2 =? 0 then ITree.spin else Ret tt) ;;;
  let! (_, (pfd0, pfd1)) := trigger Pipe in
  let! pid3 := trigger Fork in
  (if pid3 =? 0 then
     trigger (Close pfd0) ;;;
     let! r := trigger (Write pfd1 (msg "x")) in
     (if negb (r =? 1) then say (msg "preempt write error") [] else Ret tt) ;;;
     trigger (Close pfd1) ;;;
     ITree.spin
   else Ret tt) ;;;
  trigger (Close pfd1) ;;;
  let! (r, buf) := uread pfd0 buf BUFSZ in
  if negb (r =? 1) then say (msg "preempt read error") [] ;;; Ret buf
  else
    trigger (Close pfd0) ;;;
    say (msg "kill... ") [] ;;;
    trigger (Kill pid1) ;;;
    trigger (Kill pid2) ;;;
    trigger (Kill pid3) ;;;
    say (msg "wait... ") [] ;;;
    trigger Wait ;;;
    trigger Wait ;;;
    trigger Wait ;;;
    say (line "preempt ok") [] ;;;
    Ret buf.

Definition exitwait : itree sysE unit :=
  let! b := every (seqZ 0 100) (fun _ =>
    let! pid := trigger Fork in
    if pid <? 0 then say (line "fork failed") [] ;;; Ret false
    else if negb (pid =? 0) then
      let! r := trigger Wait in
      if negb (r =? pid) then say (line "wait wrong pid") [] ;;; Ret false else Ret true
    else uexit) in
  if b : bool then say (line "exitwait ok") [] else Ret tt.

(** The blocks are linked through their first words; [m1] is the last. *)
Definition mem : itree sysE unit :=
  say (line "mem test") [] ;;;
  let! ppid := trigger Getpid in
  let! pid := trigger Fork in
  if pid =? 0 then
    let! m1 := ITree.iter (fun m1 : Z =>
      let! m2 := trigger (Malloc 10001) in
      if negb (m2 =? 0) then trigger (Store32 m2 m1) ;;; Ret (inl m2) else Ret (inr m1)) 0 in
    ITree.iter (fun m1 : Z =>
      if negb (m1 =? 0) then
        let! m2 := trigger (Load32 m1) in
        trigger (Free m1) ;;;
        Ret (inl m2)
      else Ret (inr tt)) m1 ;;;
    let! m1 := trigger (Malloc (1024 * 20)) in
    (if m1 =? 0 then
       say (line "couldn't allocate mem?!!") [] ;;;
       trigger (Kill ppid) ;;;
       uexit
     else Ret tt) ;;;
    trigger (Free m1) ;;;
    say (line "mem ok") [] ;;;
    uexit
  else trigger Wait ;;; Ret tt.

(** ** Concurrent file system tests *)
Definition count_byte (c : Z) (bs : list Z) : Z := Z.of_nat (length (filter (fun b => b = c) bs)).
(** Its buffer is a local array of 10 bytes. *)
Definition sharedfd : itree sysE unit :=
  say (line "sharedfd test") [] ;;;
  trigger (Unlink (msg "sharedfd")) ;;;
  let! fd := trigger (Open (msg "sharedfd") create_rw) in
  if fd <? 0 then say (msg "fstests: cannot open sharedfd for writing") []
  else
    let! pid := trigger Fork in
    let buf := replicate 10 (if pid =? 0 then 99 else 112) in
    every (seqZ 0 1000) (fun _ =>
      let! r := trigger (Write fd buf) in
      if negb (r =? 10) then say (line "fstests: write sharedfd failed") [] ;;; Ret false else Ret true) ;;;
    (if pid =? 0 then uexit else trigger Wait ;;; Ret tt) ;;;
    trigger (Close fd) ;;;
    let! fd := trigger (Open (msg "sharedfd") 0) in
    if fd <? 0 then say (line "fstests: cannot open sharedfd for reading") []
    else
      let! (nc, np) := ITree.iter (fun '(nc, np, buf) =>
        let! (n, buf) := uread fd buf 10 in
        if 0 <? n then
          let b := take 10 buf in
          Ret (inl (s32 (nc + count_byte 99 b), s32 (np + count_byte 112 b), buf))
        else Ret (inr (nc, np))) (0, 0, buf) in
      trigger (Close fd) ;;;
      trigger (Unlink (msg "sharedfd")) ;;;
      if (nc =? 10000) && (np =? 10000) then say (line "sharedfd ok") []
      else say (line "sharedfd oops %d %d") [UWord nc; UWord np] ;;; uexit.

Definition fname (pi : Z) : list Z := [102; 48 + pi].
Definition fourfiles (buf : list Z) : itree sysE (list Z) :=
  say (line "fourfiles test") [] ;;;
  each (seqZ 0 4) (fun pi =>
    trigger (Unlink (fname pi)) ;;;
    let! pid := trigger Fork in
    fail_if (pid <? 0) (line "fork failed") [] ;;;
    if pid =? 0 then
      let! fd := trigger (Open (fname pi) create_rw) in
      fail_if (fd <? 0) (line "create failed") [] ;;;
      let buf := over (replicate 512 (48 + pi)) buf in
      each (seqZ 0 12) (fun _ =>
        let! n := uwrite fd buf 500 in
        fail_if (negb (n =? 500)) (line "write failed %d") [UWord n]) ;;;
      uexit
    else Ret tt) ;;;
  times 4 (trigger Wait) ;;;
  let! buf := folds (seqZ 0 2) (fun i buf =>
    let! fd := trigger (Open (fname i) 0) in
    let! (total, buf) := ITree.iter (fun '(total, buf) =>
      let! (n, buf) := uread fd buf BUFSZ in
      if 0 <? n then
        fail_if (negb (forallb (fun b => b =? 48 + i) (take (Z.to_nat n) buf))) (line "wrong char") [] ;;;
        Ret (inl (s32 (total + n), buf))
      else Ret (inr (total, buf))) (0, buf) in
    trigger (Close fd) ;;;
    fail_if (negb (total =? 12 * 500)) (line "wrong length %d") [UWord total] ;;;
    trigger (Unlink (fname i)) ;;;
    Ret buf) buf in
  say (line "fourfiles ok") [] ;;;
  Ret buf.

(** The name of file [i] of process [pi]. *)
Definition cdname (pi i : Z) : list Z := [112 + pi; 48 + i].
Definition createdelete_child (pi : Z) : itree sysE unit :=
  each (seqZ 0 20) (fun i =>
    let! fd := trigger (Open (cdname pi i) create_rw) in
    fail_if (fd <? 0) (line "create failed") [] ;;;
    trigger (Close fd) ;;;
    if (0 <? i) && (i mod 2 =? 0) then fails (Unlink (cdname pi (i / 2))) negative (line "unlink failed")
    else Ret tt).
Definition createdelete_check (i pi : Z) : itree sysE unit :=
  let! fd := trigger (Open (cdname pi i) 0) in
  (if ((i =? 0) || (10 <=? i)) && (fd <? 0) then
     say (line "oops createdelete %s didn't exist") [word (cdname pi i)] ;;; uexit
   else if ((1 <=? i) && (i <? 10)) && (0 <=? fd) then
     say (line "oops createdelete %s did exist") [word (cdname pi i)] ;;; uexit
   else Ret tt) ;;;
  if 0 <=? fd then trigger (Close fd) ;;; Ret tt else Ret tt.
(** The last loop computes the name from [i] alone. *)
Definition createdelete_clean : itree sysE unit :=
  each (seqZ 0 20) (fun i => each (seqZ 0 4) (fun pi => trigger (Unlink [112 + i; 48 + i]) ;;; Ret tt)).
Definition createdelete : itree sysE unit :=
  say (line "createdelete test") [] ;;;
  each (seqZ 0 4) (fun pi =>
    let! pid := trigger Fork in
    fail_if (pid <? 0) (line "fork failed") [] ;;;
    if pid =? 0 then createdelete_child pi ;;; uexit else Ret tt) ;;;
  times 4 (trigger Wait) ;;;
  each (seqZ 0 20) (fun i => each (seqZ 0 4) (createdelete_check i)) ;;;
  createdelete_clean ;;;
  say (line "createdelete ok") [].

(** ** Links *)
Definition unlinkread (buf : list Z) : itree sysE (list Z) :=
  say (line "unlinkread test") [] ;;;
  let! fd := trigger (Open (msg "unlinkread") create_rw) in
  fail_if (fd <? 0) (line "create unlinkread failed") [] ;;;
  trigger (Write fd (msg "hello")) ;;;
  trigger (Close fd) ;;;
  let! fd := trigger (Open (msg "unlinkread") O_RDWR) in
  fail_if (fd <? 0) (line "open unlinkread failed") [] ;;;
  fails (Unlink (msg "unlinkread")) nonzero (line "unlink unlinkread failed") ;;;
  let! fd1 := trigger (Open (msg "unlinkread") create_rw) in
  trigger (Write fd1 (msg "yyy")) ;;;
  trigger (Close fd1) ;;;
  let! (r, buf) := uread fd buf BUFSZ in
  fail_if (negb (r =? 5)) (msg "unlinkread read failed") [] ;;;
  fail_if (negb (get8 buf 0 =? 104)) (line "unlinkread wrong data") [] ;;;
  let! r := uwrite fd buf 10 in
  fail_if (negb (r =? 10)) (line "unlinkread write failed") [] ;;;
  trigger (Close fd) ;;;
  trigger (Unlink (msg "unlinkread")) ;;;
  say (line "unlinkread ok") [] ;;;
  Ret buf.

Definition linktest (buf : list Z) : itree sysE (list Z) :=
  say (line "linktest") [] ;;;
  trigger (Unlink (msg "lf1")) ;;;
  trigger (Unlink (msg "lf2")) ;;;
  let! fd := trigger (Open (msg "lf1") create_rw) in
  fail_if (fd <? 0) (line "create lf1 failed") [] ;;;
  let! r := trigger (Write fd (msg "hello")) in
  fail_if (negb (r =? 5)) (line "write lf1 failed") [] ;;;
  trigger (Close fd) ;;;
  fails (Link (msg "lf1") (msg "lf2")) negative (line "link lf1 lf2 failed") ;;;
  trigger (Unlink (msg "lf1")) ;;;
  fails (Open (msg "lf1") 0) succeeded (line "unlinked lf1 but it is still there!") ;;;
  let! fd := trigger (Open (msg "lf2") 0) in
  fail_if (fd <? 0) (line "open lf2 failed") [] ;;;
  let! (r, buf) := uread fd buf BUFSZ in
  fail_if (negb (r =? 5)) (line "read lf2 failed") [] ;;;
  trigger (Close fd) ;;;
  fails (Link (msg "lf2") (msg "lf2")) succeeded (line "link lf2 lf2 succeeded! oops") ;;;
  trigger (Unlink (msg "lf2")) ;;;
  fails (Link (msg "lf2") (msg "lf1")) succeeded (line "link non-existant succeeded! oops") ;;;
  fails (Link (msg ".") (msg "lf1")) succeeded (line "link . lf1 succeeded! oops") ;;;
  say (line "linktest ok") [] ;;;
  Ret buf.

(** [close(open(file, mode))] *)
Definition open_then_close (file : list Z) (mode : Z) : itree sysE unit :=
  let! fd := trigger (Open file mode) in trigger (Close fd) ;;; Ret tt.
Definition cname (i : Z) : list Z := [67; 48 + i].
Definition end_child (pid : Z) : itree sysE unit := if pid =? 0 then uexit else trigger Wait ;;; Ret tt.
Definition concreate_make (i : Z) : itree sysE unit :=
  trigger (Unlink (cname i)) ;;;
  let! pid := trigger Fork in
  (if negb (pid =? 0) && (i mod 3 =? 1) then trigger (Link (msg "C0") (cname i)) ;;; Ret tt
   else if (pid =? 0) && (i mod 5 =? 1) then trigger (Link (msg "C0") (cname i)) ;;; Ret tt
   else
     let! fd := trigger (Open (cname i) create_rw) in
     fail_if (fd <? 0) (line "concreate create %s failed") [word (cname i)] ;;;
     trigger (Close fd) ;;; Ret tt) ;;;
  end_child pid.
(** The listing: the flags [fa] and the entry [de], which starts with whatever
    the stack holds. *)
Definition concreate_list (fd : Z) : list bool * Z * list Z -> itree sysE (list bool * Z * list Z + Z) :=
  fun '(fa, n, de) =>
  let! (r, de) := uread fd de DIRENT in
  if 0 <? r then
    if de_inum de =? 0 then Ret (inl (fa, n, de))
    else
      let nm := de_name de in
      if (get8 nm 0 =? 67) && (get8 nm 2 =? 0) then
        let i := s8 (get8 nm 1) - 48 in
        fail_if ((i <? 0) || (40 <=? i)) (line "concreate weird file %s") [word nm] ;;;
        fail_if (default false (fa !! Z.to_nat i)) (line "concreate duplicate file %s") [word nm] ;;;
        Ret (inl (<[Z.to_nat i := true]> fa, n + 1, de))
      else Ret (inl (fa, n, de))
  else Ret (inr n).
Definition concreate_use (i : Z) : itree sysE unit :=
  let! pid := trigger Fork in
  fail_if (pid <? 0) (line "fork failed") [] ;;;
  (if ((i mod 3 =? 0) && (pid =? 0)) || ((i mod 3 =? 1) && negb (pid =? 0)) then times 4 (open_then_close (cname i) 0)
   else times 4 (trigger (Unlink (cname i)))) ;;;
  end_child pid.
Definition concreate (de : list Z) : itree sysE unit :=
  say (line "concreate test") [] ;;;
  each (seqZ 0 40) concreate_make ;;;
  let! fd := trigger (Open (msg ".") 0) in
  let! n := ITree.iter (concreate_list fd) (replicate 40 false, 0, de) in
  trigger (Close fd) ;;;
  fail_if (negb (n =? 40)) (line "concreate not enough files in directory listing") [] ;;;
  each (seqZ 0 40) concreate_use ;;;
  say (line "concreate ok") [].

Definition linkunlink : itree sysE unit :=
  say (line "linkunlink test") [] ;;;
  trigger (Unlink (msg "x")) ;;;
  let! pid := trigger Fork in
  fail_if (pid <? 0) (line "fork failed") [] ;;;
  folds (seqZ 0 100) (fun _ x =>
    let x := u32 (x * 1103515245 + 12345) in
    (if x mod 3 =? 0 then open_then_close (msg "x") create_rw
     else if x mod 3 =? 1 then trigger (Link (msg "cat") (msg "x")) ;;; Ret tt
     else trigger (Unlink (msg "x")) ;;; Ret tt) ;;;
    Ret x) (if negb (pid =? 0) then 1 else 97) ;;;
  (if negb (pid =? 0) then trigger Wait ;;; Ret tt else uexit) ;;;
  say (line "linkunlink ok") [].

(** ** Directories *)
Definition bdname (i : Z) : list Z := [120; 48 + i / 64; 48 + i mod 64].
Definition bigdir : itree sysE unit :=
  say (line "bigdir test") [] ;;;
  trigger (Unlink (msg "bd")) ;;;
  let! fd := trigger (Open (msg "bd") O_CREATE) in
  fail_if (fd <? 0) (line "bigdir create failed") [] ;;;
  trigger (Close fd) ;;;
  each (seqZ 0 500) (fun i => fails (Link (msg "bd") (bdname i)) nonzero (line "bigdir link failed")) ;;;
  trigger (Unlink (msg "bd")) ;;;
  each (seqZ 0 500) (fun i => fails (Unlink (bdname i)) nonzero (msg "bigdir unlink failed")) ;;;
  say (line "bigdir ok") [].

(** Files and links below a directory. *)
Definition subdir_make (buf : list Z) : itree sysE (list Z) :=
  trigger (Unlink (msg "ff")) ;;;
  fails (Mkdir (msg "dd")) nonzero (line "subdir mkdir dd failed") ;;;
  let! fd := trigger (Open (msg "dd/ff") create_rw) in
  fail_if (fd <? 0) (line "create dd/ff failed") [] ;;;
  trigger (Write fd (msg "ff")) ;;;
  trigger (Close fd) ;;;
  fails (Unlink (msg "dd")) succeeded (line "unlink dd (non-empty dir) succeeded!") ;;;
  fails (Mkdir (msg "/dd/dd")) nonzero (line "subdir mkdir dd/dd failed") ;;;
  let! fd := trigger (Open (msg "dd/dd/ff") create_rw) in
  fail_if (fd <? 0) (line "create dd/dd/ff failed") [] ;;;
  trigger (Write fd (msg "FF")) ;;;
  trigger (Close fd) ;;;
  let! fd := trigger (Open (msg "dd/dd/../ff") 0) in
  fail_if (fd <? 0) (line "open dd/dd/../ff failed") [] ;;;
  let! (cc, buf) := uread fd buf BUFSZ in
  fail_if (negb (cc =? 2) || negb (get8 buf 0 =? 102)) (line "dd/dd/../ff wrong content") [] ;;;
  trigger (Close fd) ;;;
  fails (Link (msg "dd/dd/ff") (msg "dd/dd/ffff")) nonzero (line "link dd/dd/ff dd/dd/ffff failed") ;;;
  fails (Unlink (msg "dd/dd/ff")) nonzero (line "unlink dd/dd/ff failed") ;;;
  fails (Open (msg "dd/dd/ff") O_RDONLY) succeeded (line "open (unlinked) dd/dd/ff succeeded") ;;;
  Ret buf.
(** Moving around by way of the parent. *)
Definition subdir_move (buf : list Z) : itree sysE (list Z) :=
  fails (Chdir (msg "dd")) nonzero (line "chdir dd failed") ;;;
  fails (Chdir (msg "dd/../../dd")) nonzero (line "chdir dd/../../dd failed") ;;;
  fails (Chdir (msg "dd/../../../dd")) nonzero (line "chdir dd/../../dd failed") ;;;
  fails (Chdir (msg "./..")) nonzero (line "chdir ./.. failed") ;;;
  let! fd := trigger (Open (msg "dd/dd/ffff") 0) in
  fail_if (fd <? 0) (line "open dd/dd/ffff failed") [] ;;;
  let! (r, buf) := uread fd buf BUFSZ in
  fail_if (negb (r =? 2)) (line "read dd/dd/ffff wrong len") [] ;;;
  trigger (Close fd) ;;;
  fails (Open (msg "dd/dd/ff") O_RDONLY) succeeded (line "open (unlinked) dd/dd/ff succeeded!") ;;;
  Ret buf.
(** What must not succeed. *)
Definition subdir_errors : itree sysE unit :=
  fails (Open (msg "dd/ff/ff") create_rw) succeeded (line "create dd/ff/ff succeeded!") ;;;
  fails (Open (msg "dd/xx/ff") create_rw) succeeded (line "create dd/xx/ff succeeded!") ;;;
  fails (Open (msg "dd") O_CREATE) succeeded (line "create dd succeeded!") ;;;
  fails (Open (msg "dd") O_RDWR) succeeded (line "open dd rdwr succeeded!") ;;;
  fails (Open (msg "dd") O_WRONLY) succeeded (line "open dd wronly succeeded!") ;;;
  fails (Link (msg "dd/ff/ff") (msg "dd/dd/xx")) zero (line "link dd/ff/ff dd/dd/xx succeeded!") ;;;
  fails (Link (msg "dd/xx/ff") (msg "dd/dd/xx")) zero (line "link dd/xx/ff dd/dd/xx succeeded!") ;;;
  fails (Link (msg "dd/ff") (msg "dd/dd/ffff")) zero (line "link dd/ff dd/dd/ffff succeeded!") ;;;
  fails (Mkdir (msg "dd/ff/ff")) zero (line "mkdir dd/ff/ff succeeded!") ;;;
  fails (Mkdir (msg "dd/xx/ff")) zero (line "mkdir dd/xx/ff succeeded!") ;;;
  fails (Mkdir (msg "dd/dd/ffff")) zero (line "mkdir dd/dd/ffff succeeded!") ;;;
  fails (Unlink (msg "dd/xx/ff")) zero (line "unlink dd/xx/ff succeeded!") ;;;
  fails (Unlink (msg "dd/ff/ff")) zero (line "unlink dd/ff/ff succeeded!") ;;;
  fails (Chdir (msg "dd/ff")) zero (line "chdir dd/ff succeeded!") ;;;
  fails (Chdir (msg "dd/xx")) zero (line "chdir dd/xx succeeded!").
Definition subdir_clean : itree sysE unit :=
  fails (Unlink (msg "dd/dd/ffff")) nonzero (line "unlink dd/dd/ff failed") ;;;
  fails (Unlink (msg "dd/ff")) nonzero (line "unlink dd/ff failed") ;;;
  fails (Unlink (msg "dd")) zero (line "unlink non-empty dd succeeded!") ;;;
  fails (Unlink (msg "dd/dd")) negative (line "unlink dd/dd failed") ;;;
  fails (Unlink (msg "dd")) negative (line "unlink dd failed").
Definition subdir (buf : list Z) : itree sysE (list Z) :=
  say (line "subdir test") [] ;;;
  let! buf := subdir_make buf in
  let! buf := subdir_move buf in
  subdir_errors ;;;
  subdir_clean ;;;
  say (line "subdir ok") [] ;;;
  Ret buf.

(** ** Large files *)

(** The sizes are those below 12*512 in steps of 471. *)
Definition bigwrite (buf : list Z) : itree sysE unit :=
  say (line "bigwrite test") [] ;;;
  trigger (Unlink (msg "bigwrite")) ;;;
  each ((fun k => 499 + 471 * k) <$> seqZ 0 12) (fun sz =>
    let! fd := trigger (Open (msg "bigwrite") create_rw) in
    fail_if (fd <? 0) (line "cannot create bigwrite") [] ;;;
    each (seqZ 0 2) (fun _ =>
      let! cc := uwrite fd buf sz in
      fail_if (negb (cc =? sz)) (line "write(%d) ret %d") [UWord sz; UWord cc]) ;;;
    trigger (Close fd) ;;;
    trigger (Unlink (msg "bigwrite")) ;;; Ret tt) ;;;
  say (line "bigwrite ok") [].

(** The reading loop: i, total and buf. *)
Definition bigfile_read (fd : Z) : Z * Z * list Z -> itree sysE (Z * Z * list Z + Z * list Z) := fun '(i, total, buf) =>
  let! (cc, buf) := uread fd buf 300 in
  fail_if (cc <? 0) (line "read bigfile failed") [] ;;;
  if cc =? 0 then Ret (inr (total, buf))
  else
    fail_if (negb (cc =? 300)) (line "short read bigfile") [] ;;;
    fail_if (negb (s8 (get8 buf 0) =? i / 2) || negb (s8 (get8 buf 299) =? i / 2)) (line "read bigfile wrong data") [] ;;;
    Ret (inl (s32 (i + 1), s32 (total + cc), buf)).
Definition bigfile (buf : list Z) : itree sysE (list Z) :=
  say (line "bigfile test") [] ;;;
  trigger (Unlink (msg "bigfile")) ;;;
  let! fd := trigger (Open (msg "bigfile") create_rw) in
  fail_if (fd <? 0) (msg "cannot create bigfile") [] ;;;
  let! buf := folds (seqZ 0 20) (fun i buf =>
    let buf := over (replicate 600 i) buf in
    let! r := uwrite fd buf 600 in
    fail_if (negb (r =? 600)) (line "write bigfile failed") [] ;;;
    Ret buf) buf in
  trigger (Close fd) ;;;
  let! fd := trigger (Open (msg "bigfile") 0) in
  fail_if (fd <? 0) (line "cannot open bigfile") [] ;;;
  let! (total, buf) := ITree.iter (bigfile_read fd) (0, 0, buf) in
  trigger (Close fd) ;;;
  fail_if (negb (total =? 20 * 600)) (line "read bigfile wrong total") [] ;;;
  trigger (Unlink (msg "bigfile")) ;;;
  say (line "bigfile test ok") [] ;;;
  Ret buf.

(** ** Names *)
Definition fourteen : itree sysE unit :=
  say (line "fourteen test") [] ;;;
  fails (Mkdir (msg "12345678901234")) nonzero (line "mkdir 12345678901234 failed") ;;;
  fails (Mkdir (msg "12345678901234/123456789012345")) nonzero (line "mkdir 12345678901234/123456789012345 failed") ;;;
  let! fd := trigger (Open (msg "123456789012345/123456789012345/123456789012345") O_CREATE) in
  fail_if (fd <? 0) (line "create 123456789012345/123456789012345/123456789012345 failed") [] ;;;
  trigger (Close fd) ;;;
  let! fd := trigger (Open (msg "12345678901234/12345678901234/12345678901234") 0) in
  fail_if (fd <? 0) (line "open 12345678901234/12345678901234/12345678901234 failed") [] ;;;
  trigger (Close fd) ;;;
  fails (Mkdir (msg "12345678901234/12345678901234")) zero (line "mkdir 12345678901234/12345678901234 succeeded!") ;;;
  fails (Mkdir (msg "123456789012345/12345678901234")) zero (line "mkdir 12345678901234/123456789012345 succeeded!") ;;;
  say (line "fourteen ok") [].

Definition rmdot : itree sysE unit :=
  say (line "rmdot test") [] ;;;
  fails (Mkdir (msg "dots")) nonzero (line "mkdir dots failed") ;;;
  fails (Chdir (msg "dots")) nonzero (line "chdir dots failed") ;;;
  fails (Unlink (msg ".")) zero (line "rm . worked!") ;;;
  fails (Unlink (msg "..")) zero (line "rm .. worked!") ;;;
  fails (Chdir (msg "/")) nonzero (line "chdir / failed") ;;;
  fails (Unlink (msg "dots/.")) zero (line "unlink dots/. worked!") ;;;
  fails (Unlink (msg "dots/..")) zero (line "unlink dots/.. worked!") ;;;
  fails (Unlink (msg "dots")) nonzero (line "unlink dots failed!") ;;;
  say (line "rmdot ok") [].

Definition dirfile : itree sysE unit :=
  say (line "dir vs file") [] ;;;
  let! fd := trigger (Open (msg "dirfile") O_CREATE) in
  fail_if (fd <? 0) (line "create dirfile failed") [] ;;;
  trigger (Close fd) ;;;
  fails (Chdir (msg "dirfile")) zero (line "chdir dirfile succeeded!") ;;;
  fails (Open (msg "dirfile/xx") 0) succeeded (line "create dirfile/xx succeeded!") ;;;
  fails (Open (msg "dirfile/xx") O_CREATE) succeeded (line "create dirfile/xx succeeded!") ;;;
  fails (Mkdir (msg "dirfile/xx")) zero (line "mkdir dirfile/xx succeeded!") ;;;
  fails (Unlink (msg "dirfile/xx")) zero (line "unlink dirfile/xx succeeded!") ;;;
  fails (Link (msg "README") (msg "dirfile/xx")) zero (line "link to dirfile/xx succeeded!") ;;;
  fails (Unlink (msg "dirfile")) nonzero (line "unlink dirfile failed!") ;;;
  fails (Open (msg ".") O_RDWR) succeeded (line "open . for writing succeeded!") ;;;
  let! fd := trigger (Open (msg ".") 0) in
  let! r := trigger (Write fd (msg "x")) in
  fail_if (0 <? r) (line "write . succeeded!") [] ;;;
  trigger (Close fd) ;;;
  say (line "dir vs file OK") [].

(** [if(fd >= 0) close(fd);] *)
Definition close_opened (fd : Z) : itree sysE unit := if 0 <=? fd then trigger (Close fd) ;;; Ret tt else Ret tt.
Definition iref : itree sysE unit :=
  say (line "empty file name") [] ;;;
  times 51
    (fails (Mkdir (msg "irefd")) nonzero (line "mkdir irefd failed") ;;;
     fails (Chdir (msg "irefd")) nonzero (line "chdir irefd failed") ;;;
     trigger (Mkdir []) ;;;
     trigger (Link (msg "README") []) ;;;
     let! fd := trigger (Open [] O_CREATE) in
     close_opened fd ;;;
     let! fd := trigger (Open (msg "xx") O_CREATE) in
     close_opened fd ;;;
     trigger (Unlink (msg "xx"))) ;;;
  trigger (Chdir (msg "/")) ;;;
  say (line "empty file name OK") [].

(** ** Running out of processes and of memory *)
Definition forktest_fork : itree sysE Z :=
  ITree.iter (fun n : Z =>
    if n <? 1000 then
      let! pid := trigger Fork in
      if pid <? 0 then Ret (inr n)
      else if pid =? 0 then uexit
      else Ret (inl (n + 1))
    else Ret (inr n)) 0.
Definition forktest : itree sysE unit :=
  say (line "fork test") [] ;;;
  let! n := forktest_fork in
  fail_if (n =? 1000) (line "fork claimed to work 1000 times!") [] ;;;
  times n (fails Wait negative (line "wait stopped early")) ;;;
  let! r := trigger Wait in
  fail_if (negb (r =? -1)) (line "wait got too many") [] ;;;
  say (line "fork test OK") [].

Definition BIG : Z := 100 * 1024 * 1024.
Definition SBRK_FAILED : Z := 0xffffffff.
(** Byte by byte, and in a child. *)
Definition sbrktest_small : itree sysE unit :=
  let! a := usbrk 0 in
  let! a := folds (seqZ 0 5000) (fun i a =>
    let! b := usbrk 1 in
    fail_if (negb (b =? a)) (line "sbrk test failed %d %x %x") [UWord i; UWord a; UWord b] ;;;
    trigger (Store8 b 1) ;;;
    Ret (u32 (b + 1))) a in
  let! pid := trigger Fork in
  fail_if (pid <? 0) (line "sbrk test fork failed") [] ;;;
  usbrk 1 ;;;
  let! c := usbrk 1 in
  fail_if (negb (c =? u32 (a + 1))) (line "sbrk test failed post-fork") [] ;;;
  (if pid =? 0 then uexit else Ret tt) ;;;
  trigger Wait ;;; Ret tt.
(** Up to 100 megabytes, down by a page, up again, and back to [oldbrk]. *)
Definition sbrktest_big (oldbrk : Z) : itree sysE unit :=
  let! a := usbrk 0 in
  let! p := usbrk (u32 (BIG - a)) in
  fail_if (negb (p =? a)) (line "sbrk test failed to grow big address space; enough phys mem?") [] ;;;
  let lastaddr := BIG - 1 in
  trigger (Store8 lastaddr 99) ;;;
  let! a := usbrk 0 in
  let! c := usbrk (-4096) in
  fail_if (c =? SBRK_FAILED) (line "sbrk could not deallocate") [] ;;;
  let! c := usbrk 0 in
  fail_if (negb (c =? u32 (a - 4096))) (line "sbrk deallocation produced wrong address, a %x c %x") [UWord a; UWord c] ;;;
  let! a := usbrk 0 in
  let! c := usbrk 4096 in
  let! bad := (if negb (c =? a) then Ret true else let! d := usbrk 0 in Ret (negb (d =? u32 (a + 4096)))) in
  fail_if bad (line "sbrk re-allocation failed, a %x c %x") [UWord a; UWord c] ;;;
  let! v := trigger (Load8 lastaddr) in
  fail_if (v =? 99) (line "sbrk de-allocation didn't really deallocate") [] ;;;
  let! a := usbrk 0 in
  let! b := usbrk 0 in
  let! c := usbrk (- (b - oldbrk)) in
  fail_if (negb (c =? a)) (line "sbrk downsize failed, a %x c %x") [UWord a; UWord c].
(** Reads of the kernel's memory, each in a child. *)
Definition sbrktest_kernel : itree sysE unit :=
  each ((fun k => KERNBASE + 50000 * k) <$> seqZ 0 40) (fun a =>
    let! ppid := trigger Getpid in
    let! pid := trigger Fork in
    fail_if (pid <? 0) (line "fork failed") [] ;;;
    (if pid =? 0 then
       let! v := trigger (Load8 a) in
       say (line "oops could read %x = %x") [UWord a; UWord (s8 v)] ;;;
       trigger (Kill ppid) ;;;
       uexit
     else Ret tt) ;;;
    trigger Wait ;;; Ret tt).
(** Ten children take all the memory they can; the process numbers. *)
Definition sbrktest_hogs (fd0 fd1 : Z) : itree sysE (list Z) :=
  folds (seqZ 0 10) (fun _ pids =>
    let! pid := trigger Fork in
    (if pid =? 0 then
       let! b := usbrk 0 in
       usbrk (u32 (BIG - b)) ;;;
       trigger (Write fd1 (msg "x")) ;;;
       ITree.iter (fun _ : unit => trigger (Sleep 1000) ;;; Ret (inl tt)) tt
     else Ret tt) ;;;
    (if negb (pid =? -1) then trigger (Read fd0 1) ;;; Ret tt else Ret tt) ;;;
    Ret (pids ++ [pid])) [].
Definition sbrktest : itree sysE unit :=
  say (line "sbrk test") [] ;;;
  let! oldbrk := usbrk 0 in
  sbrktest_small ;;;
  sbrktest_big oldbrk ;;;
  sbrktest_kernel ;;;
  let! (r, (fd0, fd1)) := trigger Pipe in
  fail_if (negb (r =? 0)) (line "pipe() failed") [] ;;;
  let! pids := sbrktest_hogs fd0 fd1 in
  let! c := usbrk 4096 in
  each pids (fun pid => if pid =? -1 then Ret tt else trigger (Kill pid) ;;; trigger Wait ;;; Ret tt) ;;;
  fail_if (c =? SBRK_FAILED) (line "failed sbrk leaked memory") [] ;;;
  let! b := usbrk 0 in
  (if oldbrk <? b then let! b := usbrk 0 in usbrk (- (b - oldbrk)) ;;; Ret tt else Ret tt) ;;;
  say (line "sbrk test OK") [].

(** ** What the kernel must not believe *)
Definition validateint (p : Z) : itree sysE unit := trigger (SleepAt p) ;;; Ret tt.
(** The addresses are those up to [hi] in steps of a page. *)
Definition validatetest : itree sysE unit :=
  say (line "validate test") [] ;;;
  let hi := 1100 * 1024 in
  each ((fun k => 4096 * k) <$> seqZ 0 (hi / 4096 + 1)) (fun p =>
    let! pid := trigger Fork in
    (if pid =? 0 then validateint p ;;; uexit else Ret tt) ;;;
    trigger (Sleep 0) ;;;
    trigger (Sleep 0) ;;;
    trigger (Kill pid) ;;;
    trigger Wait ;;;
    let! r := trigger (LinkTo (msg "nosuchfile") p) in
    fail_if (negb (r =? -1)) (line "link should not succeed") []) ;;;
  say (line "validate ok") [].

(** [uninit] is the array that the loader leaves. *)
Definition bsstest (uninit : list Z) : itree sysE unit :=
  say (line "bss test") [] ;;;
  each uninit (fun b => fail_if (negb (b =? 0)) (line "bss test failed") []) ;;;
  say (line "bss test ok") [].

Definition bigarg : list Z := line "bigargs test: failed" ++ replicate 199 32.
Definition bigargtest : itree sysE unit :=
  trigger (Unlink (msg "bigarg-ok")) ;;;
  let! pid := trigger Fork in
  (if pid =? 0 then
     say (line "bigarg test") [] ;;;
     trigger (Exec (msg "echo") (replicate (MAXARG - 1) bigarg)) ;;;
     say (line "bigarg test ok") [] ;;;
     open_then_close (msg "bigarg-ok") O_CREATE ;;;
     uexit
   else fail_if (pid <? 0) (line "bigargtest: fork failed") []) ;;;
  trigger Wait ;;;
  let! fd := trigger (Open (msg "bigarg-ok") 0) in
  fail_if (fd <? 0) (line "bigarg test failed!") [] ;;;
  trigger (Close fd) ;;;
  trigger (Unlink (msg "bigarg-ok")) ;;; Ret tt.

(** The name of file [n] as an array of characters; the string ends at a NUL. *)
Definition fsname (n : Z) : list Z :=
  string_of (u8 <$> [102; 48 + n / 1000; 48 + n mod 1000 / 100; 48 + n mod 100 / 10; 48 + n mod 10; 0]).
(** Blocks until a write falls short; the total. *)
Definition fsfull_write (fd : Z) (buf : list Z) : itree sysE Z :=
  ITree.iter (fun total : Z =>
    let! cc := uwrite fd buf 512 in
    if cc <? 512 then Ret (inr total) else Ret (inl (s32 (total + cc)))) 0.
(** Not called by main. *)
Definition fsfull (buf : list Z) : itree sysE unit :=
  say (line "fsfull test") [] ;;;
  let! nfiles := ITree.iter (fun nfiles : Z =>
    say (line "writing %s") [word (fsname nfiles)] ;;;
    let! fd := trigger (Open (fsname nfiles) create_rw) in
    if fd <? 0 then say (line "open %s failed") [word (fsname nfiles)] ;;; Ret (inr nfiles)
    else
      let! total := fsfull_write fd buf in
      say (line "wrote %d bytes") [UWord total] ;;;
      trigger (Close fd) ;;;
      if total =? 0 then Ret (inr nfiles) else Ret (inl (nfiles + 1))) 0 in
  each (reverse (seqZ 0 (nfiles + 1))) (fun n => trigger (Unlink (fsname n)) ;;; Ret tt) ;;;
  say (line "fsfull test finished") [].

Definition uio : itree sysE unit :=
  say (line "uio test") [] ;;;
  let! pid := trigger Fork in
  (if pid =? 0 then
     trigger (Out8 0x70 0x09) ;;;
     trigger (In8 0x71) ;;;
     say (line "uio: uio succeeded; test FAILED") [] ;;;
     uexit
   else fail_if (pid <? 0) (line "fork failed") []) ;;;
  trigger Wait ;;;
  say (line "uio test done") [].

Definition argptest : itree sysE unit :=
  let! fd := trigger (Open (msg "init") O_RDONLY) in
  (if fd <? 0 then uprintf 2 (line "open failed") [] ;;; uexit else Ret tt) ;;;
  let! b := usbrk 0 in
  trigger (ReadTo fd (u32 (b - 1)) (-1)) ;;;
  trigger (Close fd) ;;;
  say (line "arg test passed") [].

(** Not called by main: the next value and state. *)
Definition rand (randstate : Z) : Z * Z :=
  let r := u32 (randstate * 1664525 + 1013904223) in (r, r).

(** ** main

    [uninit] and [de] are what the loader and the stack leave in the arrays of
    bsstest and concreate. *)
Definition usertests_main (uninit de : list Z) : itree sysE unit :=
  say (line "usertests starting") [] ;;;
  fails (Open (msg "usertests.ran") 0) succeeded (line "already ran user tests -- rebuild fs.img") ;;;
  open_then_close (msg "usertests.ran") O_CREATE ;;;
  argptest ;;;
  createdelete ;;;
  linkunlink ;;;
  concreate de ;;;
  let! buf := fourfiles (replicate (Z.to_nat BUFSZ) 0) in
  sharedfd ;;;
  bigargtest ;;;
  bigwrite buf ;;;
  bigargtest ;;;
  bsstest uninit ;;;
  sbrktest ;;;
  validatetest ;;;
  opentest ;;;
  let! buf := writetest buf in
  let! buf := writetest1 buf in
  createtest ;;;
  openiputtest ;;;
  exitiputtest ;;;
  iputtest ;;;
  mem ;;;
  let! buf := pipe1 buf in
  let! buf := preempt buf in
  exitwait ;;;
  rmdot ;;;
  fourteen ;;;
  let! buf := bigfile buf in
  let! buf := subdir buf in
  let! buf := linktest buf in
  unlinkread buf ;;;
  dirfile ;;;
  iref ;;;
  forktest ;;;
  bigdir ;;;
  uio ;;;
  exectest ;;;
  uexit.

(** ** What pipe1 accepts

    The world of one of its processes, which fork tells [pid]: descriptors 3 and
    4 are the ends of the pipe, which holds what reads find in it. *)
Record tworld := mktworld { t_pipe : source; t_out : list Z }.
Definition tput (bs : list Z) (w : tworld) : tworld := mktworld w.(t_pipe) (w.(t_out) ++ bs).
Definition handle_pipe (pid : Z) (T : Type) (e : sysE T) : world_io tworld T :=
  match e in sysE T return world_io tworld T with
  | Exit => fun w => throw w
  | Pipe => fun w => Ret (w, (0, (3, 4)))
  | Fork | Wait => fun w => Ret (w, pid)
  | Read fd n => fun w =>
      if fd =? 3 then
        let '(bs, src) := take_read (Z.to_nat n) w.(t_pipe) in
        Ret (mktworld src w.(t_out), (Z.of_nat (length bs), bs))
      else Ret (w, (-1, []))
  | Write fd bs => fun w =>
      if fd =? 4 then Ret (mktworld (w.(t_pipe) ++ [bs]) w.(t_out), Z.of_nat (length bs))
      else Ret (tput bs w, Z.of_nat (length bs))
  | Close _ => fun w => Ret (w, 0)
  | Fstat _ => fun w => Ret (w, (-1, mkstat 0 0 0 0 0))
  | Kill _ | Exec _ _ | Dup _ | Getpid | Sleep _ | Open _ _ | Mknod _ _ _ | Unlink _ | Link _ _ | Mkdir _ | Getpinfo | Settickets _
  | Chdir _ | Sbrk _ | Uptime | LinkTo _ _ | ReadTo _ _ _ | SleepAt _ | Stray | Load8 _ | Load32 _ | In8 _ | Malloc _ => fun w => Ret (w, -1)
  | Store8 _ _ | Store32 _ _ | Out8 _ _ | Free _ => fun w => Ret (w, tt)
  end.
Notation trun pid := (run_with (handle_pipe pid)).

Lemma tput_nil w : tput [] w = w.
Proof. destruct w. unfold tput. cbn. by rewrite app_nil_r. Qed.
Lemma tput_app bs bs' w : tput bs' (tput bs w) = tput (bs ++ bs') w.
Proof. destruct w. unfold tput. cbn. by rewrite app_assoc. Qed.

Lemma trun_say pid fmt ap bs w : printf fmt ap = Some bs -> trun pid (say fmt ap) w ≈ Ret (tput bs w, tt).
Proof.
  intros E. unfold say, uprintf. rewrite E. clear E. revert w. induction bs as [|c bs IH]; intros w; cbn [putbytes].
  - by rewrite run_ret, tput_nil.
  - rewrite (run_call (handle_pipe pid) (Write stdout [c]) _ w (tput [c] w) _ eq_refl), IH. by rewrite tput_app.
Qed.

Lemma trun_uread pid buf n w bs src :
  take_read (Z.to_nat n) w.(t_pipe) = (bs, src) ->
  trun pid (uread 3 buf n) w ≈ Ret (mktworld src w.(t_out), (Z.of_nat (length bs), over bs buf)).
Proof.
  intros E. unfold uread. rewrite (run_call (handle_pipe pid) (Read 3 n) _ w (mktworld src (t_out w)) (Z.of_nat (length bs), bs)); [apply run_ret|].
  cbn [handle_pipe]. change (3 =? 3) with true. cbv iota. by rewrite E.
Qed.

Lemma seq_bytes_app s n m : 0 <= n -> 0 <= m -> seq_bytes s (n + m) = seq_bytes s n ++ seq_bytes (s + n) m.
Proof.
  intros Hn Hm. unfold seq_bytes. rewrite seqZ_app, fmap_app by done. f_equal. rewrite Z.add_0_l.
  apply list_eq. intros j. rewrite !list_lookup_fmap. destruct (decide (Z.of_nat j < m)) as [Hj|Hj].
  - rewrite !lookup_seqZ_lt by lia. cbn. do 2 f_equal. lia.
  - by rewrite !lookup_seqZ_ge by lia.
Qed.
Lemma length_seq_bytes s n : length (seq_bytes s n) = Z.to_nat n.
Proof. unfold seq_bytes. by rewrite length_fmap, length_seqZ. Qed.

Definition bytes_ok (bs : list Z) : Prop := Forall (fun b => 0 <= b < 256) bs.

(** The comparison accepts exactly the next bytes. *)
Lemma check_seq_spec bs : forall s,
  bytes_ok bs -> 0 <= s -> s + Z.of_nat (length bs) < 2 ^ 31 ->
  check_seq bs s = if decide (bs = seq_bytes s (Z.of_nat (length bs))) then Some (s + Z.of_nat (length bs)) else None.
Proof.
  induction bs as [|b bs IH]; intros s Hb Hs Hl; cbn [check_seq].
  { rewrite decide_True by done. f_equal. cbn. lia. }
  apply list.Forall_cons in Hb as [Hb Hbs]. cbn [length] in *.
  assert (Hcons : seq_bytes s (Z.of_nat (S (length bs))) = u8 s :: seq_bytes (s + 1) (Z.of_nat (length bs))).
  { replace (Z.of_nat (S (length bs))) with (1 + Z.of_nat (length bs)) by lia. rewrite seq_bytes_app by lia.
    assert (H1 : seq_bytes s 1 = [u8 (s + 0)]) by reflexivity. by rewrite H1, Z.add_0_r. }
  rewrite Hcons. assert (Eb : Z.land b 0xff = b) by (change 0xff with (Z.ones 8); rewrite Z.land_ones by lia; by apply Z.mod_small).
  assert (Es : Z.land s 0xff = u8 s) by (change 0xff with (Z.ones 8); by rewrite Z.land_ones by lia).
  rewrite Eb, Es. destruct (Z.eqb_spec b (u8 s)) as [->|Hne]; cbn [negb].
  - rewrite s32_small by lia. rewrite IH by (done || lia). destruct (decide (bs = _)) as [He|He].
    + rewrite decide_True by (by f_equal). f_equal. lia.
    + rewrite decide_False; [done|]. intros H. by injection H.
  - rewrite decide_False; [done|]. intros H. by injection H.
Qed.

(** One round of the reading loop on a pipe that is not empty. *)
Lemma pipe1_round pid k src w :
  pieces src -> src <> [] -> bytes_ok (concat src) -> w.(t_pipe) = src -> 0 < k.(r_cc) -> 0 <= k.(r_seq) -> k.(r_total) = k.(r_seq) ->
  k.(r_seq) + Z.of_nat (length (concat src)) < 2 ^ 31 ->
  exists bs src' k', concat src = bs ++ concat src' /\ bs <> [] /\ pieces src' /\ 0 < k'.(r_cc) /\
    k'.(r_seq) = k.(r_seq) + Z.of_nat (length bs) /\ k'.(r_total) = k'.(r_seq) /\
    trun pid (pipe1_read 3 k) w ≈
      if decide (bs = seq_bytes k.(r_seq) (Z.of_nat (length bs))) then Ret (mktworld src' w.(t_out), inl k')
      else Ret (tput (line "pipe1 oops 2") (mktworld src' w.(t_out)), inr (None, k'.(r_buf))).
Proof.
  intros Hp Hne Hb Hw Hcc Hs Ht Hl. destruct src as [|ch src]; [done|]. destruct k as [s tot cc buf]. cbn [r_seq r_total r_cc r_buf] in *. subst tot.
  destruct (take_read_pieces (Z.to_nat cc) ch src ltac:(lia) Hp) as (bs & src' & E & Hbs & Hp' & Hc).
  assert (Hbok : bytes_ok bs) by (rewrite Hc in Hb; by apply list.Forall_app in Hb as [? _]).
  assert (Hlen : (length bs <= length (concat (ch :: src)))%nat) by (rewrite Hc, length_app; lia).
  exists bs, src', (mkreader (s + Z.of_nat (length bs)) (s + Z.of_nat (length bs)) (if BUFSZ <? cc * 2 then BUFSZ else cc * 2) (over bs buf)).
  cbn [r_seq r_total r_cc r_buf]. split_and!; [done..|destruct (BUFSZ <? cc * 2); [done|lia]|done|done|].
  unfold pipe1_read. cbn [r_seq r_total r_cc r_buf].
  rewrite (run_seq (handle_pipe pid) _ _ _ _ _ (trun_uread pid buf cc w bs src' ltac:(by rewrite Hw))). cbv beta iota. rewrite length_pos by done.
  assert (Etake : take (Z.to_nat (Z.of_nat (length bs))) (over bs buf) = bs) by (unfold over; by rewrite Nat2Z.id, take_app_length).
  rewrite Etake, check_seq_spec by (done || lia). destruct (decide (bs = _)).
  - cbv iota zeta. rewrite s32_small by lia. apply run_ret.
  - cbv iota. rewrite (run_seq (handle_pipe pid) _ _ _ _ _ (trun_say pid (line "pipe1 oops 2") [] _ _ eq_refl)). apply run_ret.
Qed.

Lemma pipe1_loop pid n : forall k src w,
  (length (concat src) < n)%nat -> pieces src -> bytes_ok (concat src) -> w.(t_pipe) = src -> 0 < k.(r_cc) -> 0 <= k.(r_seq) ->
  k.(r_total) = k.(r_seq) -> k.(r_seq) + Z.of_nat (length (concat src)) < 2 ^ 31 ->
  exists src' buf', trun pid (ITree.iter (pipe1_read 3) k) w ≈
    if decide (concat src = seq_bytes k.(r_seq) (Z.of_nat (length (concat src))))
    then Ret (mktworld [] w.(t_out), (Some (k.(r_seq) + Z.of_nat (length (concat src))), buf'))
    else Ret (tput (line "pipe1 oops 2") (mktworld src' w.(t_out)), (None, buf')).
Proof.
  induction n as [|n IH]; intros k src w Hn Hp Hb Hw Hcc Hs Ht Hl; [lia|]. destruct src as [|ch src].
  { exists [], (r_buf k). rewrite decide_True by done. destruct w as [pp out]. cbn in Hw. subst pp.
    replace (k.(r_seq) + Z.of_nat (length (concat []))) with k.(r_total) by (cbn; lia). apply run_done. unfold pipe1_read.
    rewrite (run_seq (handle_pipe pid) _ _ _ _ _ (trun_uread pid (r_buf k) (r_cc k) (mktworld [] out) [] [] eq_refl)). apply run_ret. }
  destruct (pipe1_round pid k (ch :: src) w Hp ltac:(done) Hb Hw Hcc Hs Ht Hl) as (bs & src' & k' & Hc & Hbs & Hp' & Hcc' & Hs' & Ht' & E).
  rewrite Hc in *. rewrite length_app in *. assert (Hpos : (0 < length bs)%nat) by (destruct bs; [done|cbn; lia]).
  apply list.Forall_app in Hb as [Hb1 Hb2]. rewrite Nat2Z.inj_add in *. rewrite seq_bytes_app by lia.
  destruct (decide (bs = seq_bytes (r_seq k) (Z.of_nat (length bs)))) as [He|He].
  - destruct (IH k' src' (mktworld src' (t_out w))) as (src2 & buf' & E'); [lia|done|done|done|done|lia|done|lia|].
    rewrite Hs' in E'. exists src2, buf'. rewrite (run_again (handle_pipe pid) _ _ _ _ _ E), E'. cbn [t_out]. rewrite <- He.
    destruct (decide (concat src' = _)) as [He'|He'].
    + rewrite decide_True by (by rewrite <- He'). by rewrite Z.add_assoc.
    + rewrite decide_False; [done|]. by intros H%app_inv_head.
  - exists src', (r_buf k'). rewrite decide_False; [by apply run_done|]. intros H. apply app_inj_1 in H as [H _]; [done|].
    rewrite length_seq_bytes. lia.
Qed.

(** The child's blocks. *)
Lemma pipe1_blocks pid (l : list Z) : forall seq buf w,
  0 <= seq -> exists chunks buf', concat chunks = seq_bytes seq (1033 * Z.of_nat (length l)) /\
    trun pid (folds l (fun _ => pipe1_block 4) (seq, buf)) w ≈
      Ret (mktworld (w.(t_pipe) ++ chunks) w.(t_out), (seq + 1033 * Z.of_nat (length l), buf')).
Proof.
  induction l as [|x l IH]; intros seq buf w Hs; cbn [folds].
  { exists [], buf. split; [done|]. rewrite run_ret, app_nil_r. destruct w. cbn. by rewrite Z.add_0_r. }
  set (bs := seq_bytes seq 1033). set (w1 := mktworld (t_pipe w ++ [bs]) (t_out w)).
  assert (Eb : trun pid (pipe1_block 4 (seq, buf)) w ≈ Ret (w1, (seq + 1033, over bs buf))).
  { unfold pipe1_block, uwrite. fold bs. assert (Et : take (Z.to_nat 1033) (over bs buf) = bs).
    { unfold over. change (Z.to_nat 1033) with 1033%nat. assert (Hl : 1033%nat = length bs) by (by unfold bs; rewrite length_seq_bytes).
      rewrite Hl. by rewrite take_app_length. }
    rewrite Et. rewrite (run_call (handle_pipe pid) (Write 4 bs) _ w w1 1033).
    - change (1033 =? 1033) with true. cbn [negb fail_if]. rewrite (run_seq (handle_pipe pid) _ _ _ _ _ (run_ret _ tt w1)). apply run_ret.
    - cbn [handle_pipe]. change (4 =? 4) with true. cbv iota. unfold w1, bs. by rewrite length_seq_bytes. }
  cbn [length]. rewrite Nat2Z.inj_succ. destruct (IH (seq + 1033) (over bs buf) w1 ltac:(lia)) as (chunks & buf' & Hc & E).
  exists (bs :: chunks), buf'. split.
  - cbn. rewrite Hc. unfold bs. rewrite <- seq_bytes_app by lia. f_equal. lia.
  - rewrite (run_seq (handle_pipe pid) _ _ _ _ _ Eb), E. unfold w1. cbn [t_pipe t_out]. rewrite <- app_assoc. cbn [app].
    replace (seq + 1033 + 1033 * Z.of_nat (length l)) with (seq + 1033 * Z.succ (Z.of_nat (length l))) by lia. reflexivity.
Qed.

(** What pipe1 says about the bytes it has read. *)
Definition oops3 (n : Z) : list Z := msg "pipe1 oops 3 total " ++ printint n 10 true ++ [10].

(** C32: the test of pipes.  The child of pipe1 writes the bytes 0, 1, 2, ...
    modulo 256, 5165 of them, and exits.  The parent reads them in whatever
    pieces the kernel delivers and says ok exactly when these are the bytes it
    got; when some byte is another it says oops 2 and goes on with the next test;
    when the bytes are right but their number is not it says so and exits. *)
Theorem pipe1_verdict (pid : Z) (buf : list Z) (src : source) :
  0 < pid -> pieces src -> bytes_ok (concat src) -> Z.of_nat (length (concat src)) < 2 ^ 31 ->
  (exists chunks, concat chunks = seq_bytes 0 (5 * 1033) /\
     trun 0 (pipe1 buf) (mktworld [] []) ≈ throw (mktworld chunks [])) /\
  exists src' buf', trun pid (pipe1 buf) (mktworld src []) ≈
    let n := Z.of_nat (length (concat src)) in
    if decide (concat src = seq_bytes 0 (5 * 1033)) then Ret (mktworld [] (line "pipe1 ok"), buf')
    else if decide (concat src = seq_bytes 0 n) then throw (mktworld [] (oops3 n))
    else Ret (mktworld src' (line "pipe1 oops 2"), buf').
Proof.
  intros Hpid Hp Hb Hl. split.
  - destruct (pipe1_blocks 0 (seqZ 0 5) 0 buf (mktworld [] []) ltac:(lia)) as (chunks & buf' & Hc & E). cbn [t_pipe t_out app] in E.
    exists chunks. split; [exact Hc|]. unfold pipe1. rewrite (run_call (handle_pipe 0) Pipe _ (mktworld [] []) (mktworld [] []) (0, (3, 4)) eq_refl). cbv beta iota.
    change (negb (0 =? 0)) with false. cbn [fail_if]. rewrite (run_seq (handle_pipe 0) _ _ _ _ _ (run_ret _ tt _)).
    rewrite (run_call (handle_pipe 0) Fork _ (mktworld [] []) (mktworld [] []) 0 eq_refl). change (0 =? 0) with true. cbv iota.
    rewrite (run_call (handle_pipe 0) (Close 3) _ (mktworld [] []) (mktworld [] []) 0 eq_refl).
    assert (Ew : trun 0 (pipe1_write 4 buf) (mktworld [] []) ≈ Ret (mktworld chunks [], tt)) by (unfold pipe1_write; rewrite (run_seq (handle_pipe 0) _ _ _ _ _ E); apply run_ret).
    rewrite (run_seq (handle_pipe 0) _ _ _ _ _ Ew). by apply run_uexit.
  - destruct (pipe1_loop pid (S (length (concat src))) (mkreader 0 0 1 buf) src (mktworld src [])) as (src' & buf' & E); [lia|done..|].
    exists src', buf'. cbn [r_seq t_out] in E. rewrite Z.add_0_l in E. set (n := Z.of_nat (length (concat src))) in *. cbv zeta.
    set (w := mktworld src []). unfold pipe1. rewrite (run_call (handle_pipe pid) Pipe _ w w (0, (3, 4)) eq_refl). cbv beta iota.
    change (negb (0 =? 0)) with false. cbn [fail_if]. rewrite (run_seq (handle_pipe pid) _ _ _ _ _ (run_ret _ tt _)).
    rewrite (run_call (handle_pipe pid) Fork _ w w pid eq_refl). rewrite (proj2 (Z.eqb_neq pid 0) ltac:(lia)), (proj2 (Z.ltb_lt 0 pid) Hpid). cbv iota.
    rewrite (run_call (handle_pipe pid) (Close 4) _ w w 0 eq_refl). fold w in E.
    destruct (decide (concat src = seq_bytes 0 n)) as [He|He].
    + rewrite (run_seq (handle_pipe pid) _ _ _ _ _ E). cbv beta iota. destruct (Z.eqb_spec n (5 * 1033)) as [Hn|Hn].
      * rewrite decide_True by (by rewrite He, Hn). cbn [negb fail_if]. rewrite (run_seq (handle_pipe pid) _ _ _ _ _ (run_ret _ tt _)).
        set (w1 := mktworld [] []). rewrite (run_call (handle_pipe pid) (Close 3) _ w1 w1 0 eq_refl), (run_call (handle_pipe pid) Wait _ w1 w1 pid eq_refl).
        rewrite (run_seq (handle_pipe pid) _ _ _ _ _ (trun_say pid (line "pipe1 ok") [] _ _ eq_refl)). apply run_ret.
      * rewrite decide_False; [|intros H; apply Hn; rewrite H in He; apply (f_equal length) in He; rewrite !length_seq_bytes in He; unfold n; rewrite H, length_seq_bytes; lia].
        cbn [negb fail_if]. apply run_exited. rewrite (run_seq (handle_pipe pid) _ _ (mktworld [] []) (mktworld [] (oops3 n)) tt).
        { by apply run_uexit. }
        rewrite (trun_say pid (line "pipe1 oops 3 total %d") [UWord n] (oops3 n)); [done|].
        transitivity (Some (msg "pipe1 oops 3 total " ++ printint (s32 n) 10 true ++ [10])); [reflexivity|]. unfold oops3. by rewrite s32_small by lia.
    + rewrite decide_False by (intros H; apply He; unfold n; by rewrite H, length_seq_bytes).
      rewrite (run_seq (handle_pipe pid) _ _ _ _ _ E). cbv beta iota. unfold tput. cbn [t_pipe t_out app]. apply run_ret.
Qed.

Lemma pipe1_verdict_witness :
  exists src' buf', trun 2 (pipe1 []) (mktworld [[0; 1]; [3]] []) ≈ Ret (mktworld src' (line "pipe1 oops 2"), buf').
Proof.
  destruct (pipe1_verdict 2 [] [[0; 1]; [3]]) as [_ (src' & buf' & E)]; [done|by repeat constructor| |done|].
  { repeat constructor; lia. }
  exists src', buf'. rewrite E. cbv zeta. rewrite !decide_False; [reflexivity|by vm_compute|]. intros H. apply (f_equal length) in H. by vm_compute in H.
Defined.

(** ** What the tests do not see *)

Lemma get32_over bs buf : (4 <= length bs)%nat -> get32 (over bs buf) 0 = get32 bs 0.
Proof.
  intros H. destruct bs as [|b0 [|b1 [|b2 [|b3 bs]]]]; cbn [length] in H; try lia. reflexivity.
Qed.

(** writetest1 writes MAXFILE blocks and reads the file back, but its test of the
    number of blocks looks only for MAXFILE - 1 of them: a file that came out
    shorter, even empty, passes, as long as the blocks that are left are numbered
    from 0 on. *)
Theorem writetest1_misses_short (pid : Z) (blocks : list (list Z)) : forall n buf,
  0 <= n -> n + Z.of_nat (length blocks) <> MAXFILE - 1 -> n + Z.of_nat (length blocks) < 2 ^ 31 ->
  (forall j b, blocks !! j = Some b -> length b = 512%nat /\ s32 (get32 b 0) = n + Z.of_nat j) ->
  exists buf', trun pid (ITree.iter (writetest1_read 3) (n, buf)) (mktworld blocks []) ≈ Ret (mktworld [] [], buf').
Proof.
  induction blocks as [|b blocks IH]; intros n buf Hn Hne Hl Hok.
  - exists buf. apply run_done. unfold writetest1_read.
    rewrite (run_seq (handle_pipe pid) _ _ _ _ _ (trun_uread pid buf 512 (mktworld [] []) [] [] eq_refl)). cbv beta iota.
    change (Z.of_nat (length []) =? 0) with true. cbv iota. rewrite (proj2 (Z.eqb_neq n (MAXFILE - 1))) by (cbn in Hne; lia). cbn [fail_if].
    rewrite (run_seq (handle_pipe pid) _ _ _ _ _ (run_ret _ tt _)). apply run_ret.
  - destruct (Hok 0%nat b eq_refl) as [Hb Hv]. cbn [length] in *. rewrite Z.add_0_r in Hv.
    destruct (IH (n + 1) (over b buf)) as (buf' & E'); [lia|lia|lia| |].
    { intros j b' Hj. destruct (Hok (S j) b' Hj) as [H1 H2]. split; [done|]. lia. }
    exists buf'. rewrite <- E'. apply run_again. unfold writetest1_read.
    assert (Et : take_read (Z.to_nat 512) (t_pipe (mktworld (b :: blocks) [])) = (b, blocks)).
    { cbn [t_pipe take_read]. change (Z.to_nat 512) with 512%nat. rewrite decide_True by lia. by rewrite take_ge by lia. }
    rewrite (run_seq (handle_pipe pid) _ _ _ _ _ (trun_uread pid buf 512 _ b blocks Et)). cbv beta iota.
    assert (E512 : Z.of_nat (length b) = 512) by lia. rewrite E512. change (512 =? 0) with false. change (512 =? 512) with true. cbv iota. cbn [negb fail_if t_out].
    rewrite (run_seq (handle_pipe pid) _ _ _ _ _ (run_ret _ tt _)). rewrite get32_over, Hv, Z.eqb_refl by lia. cbn [negb fail_if].
    rewrite (run_seq (handle_pipe pid) _ _ _ _ _ (run_ret _ tt _)). rewrite s32_small by lia. apply run_ret.
Qed.

(** A world of names: unlink removes one, the other calls do nothing. *)
Definition handle_names (T : Type) (e : sysE T) : world_io (gset (list Z)) T :=
  match e in sysE T return world_io (gset (list Z)) T with
  | Exit => fun w => throw w
  | Unlink path => fun w => if decide (path ∈ w) then Ret (w ∖ {[path]}, 0) else Ret (w, -1)
  | Read _ _ => fun w => Ret (w, (-1, []))
  | Pipe => fun w => Ret (w, (-1, (0, 0)))
  | Fstat _ => fun w => Ret (w, (-1, mkstat 0 0 0 0 0))
  | Fork | Wait | Kill _ | Exec _ _ | Dup _ | Getpid | Sleep _ | Open _ _ | Write _ _ | Mknod _ _ _ | Link _ _ | Mkdir _ | Close _ | Getpinfo
  | Settickets _ | Chdir _ | Sbrk _ | Uptime | LinkTo _ _ | ReadTo _ _ _ | SleepAt _ | Stray | Load8 _ | Load32 _ | In8 _ | Malloc _ => fun w => Ret (w, -1)
  | Store8 _ _ | Store32 _ _ | Out8 _ _ | Free _ => fun w => Ret (w, tt)
  end.

Lemma names_each {A : Type} (f : A -> itree sysE unit) (x : list Z) l :
  (forall a w, x ∈ w -> exists w', run_with handle_names (f a) w ≈ Ret (w', tt) /\ x ∈ w') ->
  forall w, x ∈ w -> exists w', run_with handle_names (each l f) w ≈ Ret (w', tt) /\ x ∈ w'.
Proof.
  intros Hf. induction l as [|a l IH]; intros w Hx; cbn [each]; [exists w; by rewrite run_ret|].
  destruct (Hf a w Hx) as (w1 & E1 & Hx1). destruct (IH w1 Hx1) as (w' & E' & Hx'). exists w'. by rewrite (run_seq handle_names _ _ _ _ _ E1), E'.
Qed.

(** The last loop of createdelete takes both characters of a name from [i]: the
    files of process [pi] other than number [pi] stay. *)
Theorem createdelete_leaves (pi i : Z) (w : gset (list Z)) :
  pi <> i -> cdname pi i ∈ w -> exists w', run_with handle_names createdelete_clean w ≈ Ret (w', tt) /\ cdname pi i ∈ w'.
Proof.
  intros Hne Hw. apply (names_each _ (cdname pi i)); [|done]. clear w Hw. intros j w Hw. apply names_each; [|done]. clear w Hw. intros k w Hw.
  assert (Hd : cdname pi i <> [112 + j; 48 + j]) by (unfold cdname; intros H; injection H; lia).
  destruct (decide ([112 + j; 48 + j] ∈ w)) as [Hin|Hin].
  - exists (w ∖ {[ [112 + j; 48 + j] ]}). split; [|set_solver].
    rewrite (run_call handle_names (Unlink [112 + j; 48 + j]) _ w (w ∖ {[ [112 + j; 48 + j] ]}) 0); [apply run_ret|]. cbn [handle_names]. by rewrite decide_True.
  - exists w. split; [|done].
    rewrite (run_call handle_names (Unlink [112 + j; 48 + j]) _ w w (-1)); [apply run_ret|]. cbn [handle_names]. by rewrite decide_False.
Qed.
